(* ===== verification/_CoqProject ===== *)
-Q . S2P
Prelude.v
Errors.v
PyValue.v
StateMachine.v
EdgeEvaluator.v
GraphSearch.v
Sorting.v
ConditionEvaluator.v
FlowGraph.v
DraftGraph.v
GraphCompiler.v
Effects.v
Store.v
NodeStep.v
Executor.v
Temporal.v
Durable.v
Dispatch.v
PyString.v
PyFloat.v
Redis.v
Governance.v
Guardrail.v
AgentTools.v
AgentStore.v
ToolRuns.v
AgentLoop.v
AgentRun.v
AgentSample.v
A2A.v
LLM.v
Layers.v
HumanSLA.v
ToolNodes.v
FlowTools.v
LLMNodes.v
Nodes.v
FlowService.v
RunService.v
FlowAuthoring.v
AuthoringFacts.v
AuthoringRuns.v
AuthoringSample.v
Catalogue.v
Conversation.v
ConversationFacts.v
Continuity.v
Chunking.v
Rag.v
RagFacts.v
Memory.v
MemoryFacts.v
Retrieval.v
ContextBuilder.v
RetrievalFacts.v
ContextFacts.v
RagSample.v
OpenApi.v
Versions.v
Agents.v
AgentFacts.v
Tools.v
ToolFacts.v
ToolSample.v
Policies.v
PolicyFacts.v
Auth.v
AuthFacts.v
Onboarding.v
UserPrompts.v
Mcp.v
McpFacts.v
ModelPolicies.v
LlmAdmin.v
SlotSchema.v
Prompts.v
RagAdmin.v
Routes.v
RouteTable.v
