(* ===== verification/Prelude.v ===== *)
(** * agent-orchestration-core: a verification development

    The program is a multi-tenant service that runs flows (graphs of nodes) and
    autonomous agents on top of language models.  A tenant submits a flow definition, which
    is validated, compiled to a snapshot and later to an execution plan, published and
    activated; a flow run traverses the plan in process or as a durable Temporal workflow;
    agent runs loop between a language model and the tools they were granted, and may
    delegate tasks to other agents; conversations stream the answers of a model to a
    client.  Documents are ingested for retrieval, memories of users are written under the
    tenant's policy, and both reach the prompts of nodes as layers of context.  Clients
    authenticate with tokens and keys, and reach the services by HTTP routes or, for tools, by
    MCP servers.  Requests for runs pass through a boundary of policies, limits and idempotency
    keys whose counters live in Redis; what happens is recorded in a relational store.

    ** The files and the code they model (paths below src/src/)

    Language and libraries.
    - [Prelude]: results that may be exceptions, their notation, the tactics and hints.
    - [Errors]: exceptions/service_exceptions.py.
    - [PyValue], [PyString], [PyFloat], [Sorting]: the values, strings, binary64 floats and
      decimals, and sorted dictionaries of Python that the modelled code uses.
    - [Effects]: stateful code that may raise; frame conditions ([respects]).
    - [GraphSearch]: the depth-first searches shared by the graph validators.

    Flows.
    - [StateMachine]: domain/execution/services/state_machine.py and the operational
      statuses of runs.
    - [EdgeEvaluator], [ConditionEvaluator]: the two evaluators of edge conditions
      (graph_runtime/edge_evaluator.py, domain/flows/services/condition_evaluator.py).
    - [FlowGraph], [DraftGraph], [GraphCompiler]: flow definitions, their static and draft
      validation, the snapshot with its hash and the execution plan (domain/flows/services,
      graph_runtime/graph_compiler.py).
    - [Store]: the tables of flow runs, node runs, events and checkpoints, with the
      event buffer and the state cache (repositories/execution_repository.py).
    - [NodeStep], [Executor]: one step of a traversal and the in-process traversal
      (graph_runtime/node_step_runner.py, executor.py).
    - [Temporal], [Durable]: the workflow and its activities (adapters/temporal), and their
      simulation of the executor.
    - [Dispatch]: starting and resuming workflows and the reconciler (adapters/temporal/
      engine.py, execution_service.py, flow_run_reconciler.py).

    Policies and limits.
    - [Redis]: the Redis adapter, the circuit breaker and idempotency keys.
    - [Governance]: rate limits, access policies, execution limits and the execution
      boundary (domain/governance/services, services/execution_boundary.py).
    - [Guardrail]: call and cost limits of model calls and their price
      (guardrails/guardrail_engine.py, domain/llm/services/cost_engine.py).

    Agents.
    - [AgentTools]: the tools of an agent version and the grant of a run
      (agent_tool_catalog.py, agent_runtime/tool_grant.py).
    - [AgentStore]: the tables of agent runs, tool runs and delegations.
    - [ToolRuns]: executing a tool call (tools/services/tool_orchestrator.py,
      infra/http_tool_executor.py).
    - [AgentLoop]: the opening transcript, the dispatch of tool calls, delegation and the
      turn loop (agent_runtime, domain/agents/services).
    - [AgentRun]: creating, executing and cancelling agent runs (agent_run_service.py,
      agent_runtime/definition.py).
    - [AgentSample]: a concrete agent service for the witnesses.
    - [A2A]: the JSON-RPC surface for other agents and the agent card.

    Model calls.
    - [LLM]: provider selection and the executor around a call to a language model
      (domain/llm/services/provider_selector.py, llm_executor.py).
    - [Layers]: the semantic answer cache and the layers cache, small model, large model
      (semantic_cache_service.py with its repository, layered_inference_orchestrator.py).

    Node executors.
    - [HumanSLA]: escalation cases, their policies and rules (domain/human_sla).
    - [ToolNodes], [FlowTools]: the tool executor and the error handler for tools
      (graph_runtime/nodes/tool_executor.py, tool_error_handler.py) and the tool runs of
      flows (tool_orchestrator.py); the calls of one node run one after the other.
    - [LLMNodes]: the nodes that ask a language model, the agent of a node and the
      completion budget (nodes/_llm_base.py and its subclasses, agent_runtime_resolver.py,
      completion_budget_policy.py).  A node that writes into the state it was given leaves
      it in [context_state] of its result.
    - [Nodes]: moderation, memory commits and the registry (graph_runtime/registry.py): the
      executors of the engine, with the LLM executor of [LLM] behind an interface; its module
      [bench] has concrete services for the witnesses.

    Services and authoring.
    - [FlowService]: creating and resuming flow runs, with sessions, the
      runtime contract and the engines (domain/execution/services/execution_service.py).
    - [RunService]: node runs, tool runs and reads of the same service.
    - [FlowAuthoring], [AuthoringFacts], [AuthoringRuns], [AuthoringSample]: flows, versions,
      compiled graphs, deployments (domain/flows/services/flows_service.py with its
      repository), their invariant, and what runs see of them.
    - [Catalogue]: the cached reads of versions and graphs in the execution repository.

    Conversations.
    - [Conversation], [ConversationFacts], [Continuity]: a turn of a
      conversation with its streaming provider, and the growth of conversations
      (domain/conversation/services, domain/llm/adapters/openai_provider.py).

    Retrieval, memory and context.
    - [Chunking]: cutting documents (rag_runtime_service.py); its module [cover] has the theorems.
    - [Rag], [RagFacts]: ingestion, embedding, search and usage counters
      (rag_runtime_service.py, rag_repository.py, embedding_executor.py).
    - [Memory], [MemoryFacts]: the memory policy, writes, profiles and extraction
      (domain/context/services/memory_writer.py, memory_extraction_processor.py,
      domain/governance/services/memory_policy_service.py).
    - [Retrieval], [RetrievalFacts]: activation, the retrievers and the layers
      (domain/context/services).
    - [ContextBuilder], [ContextFacts]: the context of a prompt
      (domain/llm/services/context_builder.py).
    - [RagSample]: a tenant with documents and memories for the witnesses.

    Registries of the tenant.
    - [Versions]: what the tables of numbered versions have in common, as a class.
    - [Agents], [AgentFacts]: agents, their versions, activation and the nodes they are bound
      to (domain/agents/services/agents_service.py with its repository).
    - [OpenApi]: reading OpenAPI documents (domain/tools/services/openapi_parser.py).
    - [Tools], [ToolFacts], [ToolSample]: importing and configuring tools, the catalogue and
      its search (tools_service.py, tool_catalog_indexer.py, tool_catalog_retriever.py);
      retrieval is the interface [RagRuntime].
    - [Policies], [PolicyFacts]: the versioned policies and the runtime policies
      (domain/governance/services/governance_policies_service.py and its repositories).
    - [ModelPolicies]: models, their execution policies and the nodes bound to them
      (domain/ai_policy).
    - [LlmAdmin]: provider configurations, model mappings and prices, and what a model call
      selects from them (llm_admin_service.py and its repositories).
    - [SlotSchema], [Prompts]: prompts, their caches and resolution, and the output schema of
      slots (domain/prompts, application/prompts/prompt_resolver.py,
      structured_output_schema_composer.py).
    - [RagAdmin]: vector stores, chunking rules and retrieval configurations (rag_service.py).
    - [Onboarding], [UserPrompts]: onboarding runs and prompts of users (domain/onboarding,
      domain/user_prompts).

    Clients.
    - [Auth], [AuthFacts]: tokens, service keys and tenants (utils/auth.py, domain/auth,
      domain/tenants).
    - [Mcp], [McpFacts]: MCP servers, their keys, and the gateway (domain/mcp_registry,
      adapters/mcp/tenant_mcp_gateway.py); witnesses are in its module [bazaar].
    - [Routes], [RouteTable]: the HTTP routes with their guards and the operations they hand
      over to (the controllers below domain/, app.py), and [RagAdmin] behind them.

    The state of a component is a record or a finite map, one per table or service object;
    a method is a definition of the same name, a computation in [res] when it only may
    raise and in [M] when it reads or writes state.  Writes before an exception stay, as
    every repository call commits.  Dictionaries are association lists in insertion order
    where the order shows, and finite maps where it does not.

    ** What the theorems show

    - Validation and compilation: the validators accept exactly the graphs their
      declarative specification describes; what the plan compiler accepts is well formed;
      validated drafts that are structured compile; snapshots are canonical.
    - Conditions: evaluation has a denotation, always returns, and reads only the
      identifiers it names; the Python evaluator stays within its fragment.
    - Traversal: the outcome of a step on every branch; a traversal ends the flow in the
      status that belongs to its outcome; every traversal ends within its budget;
      statuses follow the canonical lifecycle; for plans without human fallback and node
      executors that read only what the durable engine restores ([DurableLaws]), that engine
      simulates the in-process one; what it loses of the context ([carried_context_lost]).
    - Store: buffered and immediate event writing are indistinguishable; event sequences
      have no gaps; the state cache shows what the table holds.
    - Dispatch: the reconciler fails exactly the abandoned runs; the race between the
      record of a dispatch and its workflow, in every interleaving; turns are fresh.
    - Boundary: idempotent requests, tenant isolation, the breaker, admitted model calls
      and what unreachable counters or concurrent checks do.
    - Agents: calls are authorised by the grant; the conversation is the stored
      transcript; the shape of a finished run; runs and tool runs are settled; delegation
      is one level deep; stored grants replay; function names are well formed; messages of
      other agents become finished tasks.
    - Model calls: the events and costs a call leaves behind on every path; what an
      answer from the cache depends on, and when a stored answer is read back.
    - Nodes: no executor touches the engine's tables, so the engine's theorems apply to
      the program's own nodes; every operation of a tool node has one result; retries are
      bounded and repeat nothing else; how tool runs, memory commits and summaries end;
      a session has one open escalation case, and cases only rise.
    - Services and authoring: a request that creates or resumes a run leaves it settled and
      answers with its row; a repeated request is answered from its key; the authoring tables
      stay sound whatever is asked; an activated version is the one that runs once no older
      cached identifier lives; how stale a cached read may be, and which never is.
    - Conversations: the protocol of the event stream, when the provider's stream reports no
      error; a turn that is repeated after its end runs once per key; growth and rollover refine
      an abstract conversation while no counter expires.
    - Retrieval and memory: chunks cover a document; the tables of ingestion stay consistent
      and within quotas; memories are written as the policy permits; preferences refine an
      abstract register of sources; retrieval is activated exactly when it may be; a prompt
      is told only of its tenant and its user, unless an earlier task has set its context, and
      nothing through a shut gate.
    - Registries: numbers, contents and statuses of versions are kept and the active version
      is unique and readable, also when deletions of cached rows are lost; tools found are the tenant's and its agent's; request schemas
      are self-contained; an imported operation is published; a published access policy
      decides requests; a model call goes where an active offer says, the last one when no
      deletion of a cached row is lost; a node sends the
      prompt it names for ever, and other prompts are at most an hour old; retrieval
      configurations and execution policies advance only for their tenant.
    - Clients: a token with a scope left authenticates as what it was issued for until it
      expires, and nothing further comes of it; a key works until it is revoked; the rate of tokens is bounded; an
      MCP client is confined to the server of its key.
    - Routes: the order of registration does not matter but for one pair; a service is asked
      for the tenant of the caller, but for twelve operations that name none, the administrator
      and callers who may create tenants; retrieval is administered through the
      interface only for the tenant of a caller.
    Where the code does not do what it means to (or what its documentation says), a
    theorem states what it does.

    ** Fuel and bounds

    Searches get one unit of fuel per node of the graph plus one: every recursive call
    marks a new node.  The condition evaluator gets the depth of the condition plus one.
    [range(max_steps)], the retries of an activity, [max_iterations] and the loops over
    lists are structural.  The chunkers get one unit per token or character plus one: every
    round advances, unless the window is empty ([zero_size_diverges]).  References of
    OpenAPI components are followed 33 levels deep, the limit of the code.  Nested delegation has fuel; [delegation_is_flat] shows one unit
    to be enough.  Integers of the program are unbounded Python integers ([Z]); floats
    are binary64.

    ** What is outside, as a parameter

    The pyparsing grammar and [ast.parse]; pydantic's validation; SHA-256; the text of
    identifiers and of Python values; JSON text and jsonschema; for the engines, the node
    executors (with the laws [ExecutorLaws] and [DurableLaws]; [Nodes] discharges the
    first); for the nodes, prompt resolution (modelled in [Prompts]), tool retrieval,
    moderation and the memory writer; object identity; JWT, FastMCP, FastAPI, Jinja and the
    rounding of Numeric columns; tiktoken, pgvector and the embedding model; the Temporal service; the
    faults of Redis and its decimal addition; for the cost engine, the pricing lookup
    (modelled in [LlmAdmin]); language models, HTTP
    endpoints and secrets.

    ** Not modelled

    Tracing, logging and telemetry; SQL text, sessions and migrations; foreign keys; settings
    and dependency injection; what handlers of routes make of answers; the HTTP clients of
    providers, of moderation and of embeddings; background jobs around the modelled
    operations; and read models without rules of their own: the summary of a tenant and the
    paginated reads of conversations.  They are calls into libraries, or projections of rows. *)

From stdpp Require Export base tactics option list strings gmap sets.
From Stdlib Require Export ZArith Lia.

#[export] Set Default Goal Selector "!".

(** ** Fallible computations

    Python code that may raise is a computation in [res E A]: either a value or
    the exception it raises.  [E] is the exception type of the component. *)

Inductive res (E A : Type) : Type :=
  | Ok (a : A)
  | Err (e : E).
Arguments Ok {E A} a.
Arguments Err {E A} e.

Definition rbind {E A B} (m : res E A) (k : A -> res E B) : res E B :=
  match m with
  | Ok a => k a
  | Err e => Err e
  end.

Declare Scope py_scope.
Delimit Scope py_scope with py.
Notation "'let!' x ':=' m 'in' k" := (rbind m (fun x => k))
  (at level 10, x binder, m at level 100, k at level 200) : py_scope.
Notation "m ;;! k" := (rbind m (fun _ => k))
  (at level 100, right associativity) : py_scope.
Open Scope py_scope.

(** [raise_if c e] is the guard [if c: raise e]. *)
Definition raise_if {E} (c : bool) (e : E) : res E unit :=
  if c then Err e else Ok tt.

Definition is_ok {E A} (m : res E A) : bool :=
  match m with Ok _ => true | Err _ => false end.

(** Left-to-right evaluation of a comprehension whose body may raise. *)
Fixpoint rmap {E A B} (f : A -> res E B) (l : list A) : res E (list B) :=
  match l with
  | [] => Ok []
  | x :: l' => let! y := f x in let! ys := rmap f l' in Ok (y :: ys)
  end.

(** [for x in l: body], threading the loop state and stopping at the first
    exception. *)
Fixpoint rfold {E A S} (f : S -> A -> res E S) (l : list A) (s : S) : res E S :=
  match l with
  | [] => Ok s
  | x :: l' => let! s' := f s x in rfold f l' s'
  end.

(** [any(f(x) for x in l)] and [all(f(x) for x in l)] short-circuit: an element
    after the deciding one is not evaluated, so it cannot raise. *)
Fixpoint rany {E A} (f : A -> res E bool) (l : list A) : res E bool :=
  match l with
  | [] => Ok false
  | x :: l' => let! b := f x in if (b : bool) then Ok true else rany f l'
  end.

Fixpoint rall {E A} (f : A -> res E bool) (l : list A) : res E bool :=
  match l with
  | [] => Ok true
  | x :: l' => let! b := f x in if (b : bool) then rall f l' else Ok false
  end.

(** [for x in l: check(x)] for a check that only raises. *)
Definition for_each {E A} (check : A -> res E unit) (l : list A) : res E unit :=
  rfold (fun _ x => check x) l tt.

(** ** Proof automation *)

Create HintDb orch.
Create Rewrite HintDb orch.

(** Split the binds and guards of a monadic program that is known to return. *)
Ltac rinv1 :=
  match goal with
  | H : rbind ?m _ = Ok _ |- _ =>
      let E := fresh "Hb" in
      destruct m eqn:E; simpl in H; [| discriminate H]
  | H : raise_if ?c _ = Ok _ |- _ =>
      let E := fresh "Hg" in
      unfold raise_if in H; destruct c eqn:E; [discriminate H | clear H]
  | H : Ok _ = Ok _ |- _ => injection H as H; try subst
  | H : Err _ = Ok _ |- _ => discriminate H
  | H : Ok _ = Err _ |- _ => discriminate H
  end.
Ltac rinv := repeat rinv1.

(** Case analysis on whatever the goal or a hypothesis is stuck on. *)
Ltac dmatch :=
  match goal with
  | |- context [match ?x with _ => _ end] => destruct x eqn:?
  | H : context [match ?x with _ => _ end] |- _ => destruct x eqn:?
  end.

(** ** Shared lemmas *)

Section res_lemmas.
Context {E : Type}.

Lemma rbind_ok {A B} (m : res E A) (k : A -> res E B) b :
  rbind m k = Ok b <-> exists a, m = Ok a /\ k a = Ok b.
Proof. destruct m; simpl; naive_solver. Qed.

Lemma rbind_err {A B} (m : res E A) (k : A -> res E B) e :
  rbind m k = Err e <-> m = Err e \/ exists a, m = Ok a /\ k a = Err e.
Proof. destruct m; simpl; naive_solver. Qed.

Lemma raise_if_ok c (e : E) : raise_if c e = Ok tt <-> c = false.
Proof. destruct c; simpl; naive_solver. Qed.

Lemma rmap_ok {A B} (f : A -> res E B) l ys :
  rmap f l = Ok ys <-> Forall2 (fun x y => f x = Ok y) l ys.
Proof.
  revert ys; induction l as [|x l IH]; intros ys; simpl.
  - split; [intros [= <-]; constructor | by inversion 1].
  - setoid_rewrite rbind_ok. setoid_rewrite rbind_ok. split.
    + intros (y & Hy & zs & Hzs & [= <-]). constructor; [done | by apply IH].
    + inversion 1 as [|? y ? zs Hy Hzs]; subst. apply IH in Hzs. eauto.
Qed.

Lemma rmap_length {A B} (f : A -> res E B) l ys :
  rmap f l = Ok ys -> length ys = length l.
Proof. intros H%rmap_ok. symmetry. by eapply Forall2_length. Qed.

Lemma rall_true {A} (f : A -> res E bool) l :
  rall f l = Ok true <-> forall x, x ∈ l -> f x = Ok true.
Proof.
  induction l as [|x l IH]; simpl; [split; [set_solver | done]|].
  split.
  - intros ([] & Hx & Hl)%rbind_ok; [|done].
    intros y [->|Hy]%elem_of_cons; [done|]. by apply IH.
  - intros H. rewrite (H x) by set_solver. simpl. apply IH. set_solver.
Qed.

Lemma rany_false {A} (f : A -> res E bool) l :
  rany f l = Ok false <-> forall x, x ∈ l -> f x = Ok false.
Proof.
  induction l as [|x l IH]; simpl; [split; [set_solver | done]|].
  split.
  - intros ([] & Hx & Hl)%rbind_ok; [done|].
    intros y [->|Hy]%elem_of_cons; [done|]. by apply IH.
  - intros H. rewrite (H x) by set_solver. simpl. apply IH. set_solver.
Qed.

(** A loop preserves whatever each of its iterations preserves. *)
Lemma rfold_invariant {A S} (P : S -> Prop) (f : S -> A -> res E S) l s s' :
  (forall s x s', x ∈ l -> P s -> f s x = Ok s' -> P s') ->
  P s -> rfold f l s = Ok s' -> P s'.
Proof.
  revert s; induction l as [|x l IH]; intros s Hf Hs; simpl.
  - by intros [= <-].
  - intros (s1 & H1 & H2)%rbind_ok. eapply IH; [|by eapply Hf; [left|..]|done].
    intros. eapply Hf; eauto. by right.
Qed.

Lemma for_each_ok {A} (check : A -> res E unit) l :
  for_each check l = Ok tt <-> forall x, x ∈ l -> check x = Ok tt.
Proof.
  unfold for_each. induction l as [|x l IH]; simpl; [split; [set_solver|done]|].
  rewrite rbind_ok. split.
  - intros ([] & Hx & Hl) y [->|Hy]%elem_of_cons; [done | by apply IH].
  - intros H. exists tt. split; [apply H; left|]. apply IH. intros. apply H. by right.
Qed.

Lemma for_each_err {A} (check : A -> res E unit) l e :
  for_each check l = Err e -> exists x, x ∈ l /\ check x = Err e.
Proof.
  unfold for_each. induction l as [|x l IH]; simpl; [done|].
  intros [Hx|([] & _ & (y & Hy & He)%IH)]%rbind_err; [exists x; split; [left|done]|].
  exists y. split; [by right | done].
Qed.

(** A sequence of checks passes when each of them does. *)
Lemma seq_ok (m k : res E unit) : (m ;;! k) = Ok tt <-> m = Ok tt /\ k = Ok tt.
Proof. rewrite rbind_ok. split; [intros ([] & ? & ?) | intros []]; eauto. Qed.

Lemma guard_ok c (e : E) : raise_if (negb c) e = Ok tt <-> c = true.
Proof. destruct c; simpl; naive_solver. Qed.
End res_lemmas.

(** ** Which exceptions a computation can raise *)

Definition raises_only {E A} (P : E -> Prop) (m : res E A) : Prop :=
  match m with Ok _ => True | Err e => P e end.

Section raises_only.
Context {E : Type} (P : E -> Prop).

Lemma raises_only_bind {A B} (m : res E A) (k : A -> res E B) :
  raises_only P m -> (forall a, m = Ok a -> raises_only P (k a)) ->
  raises_only P (rbind m k).
Proof. destruct m; simpl; auto. Qed.

Lemma raises_only_rmap {A B} (f : A -> res E B) l :
  (forall x, x ∈ l -> raises_only P (f x)) -> raises_only P (rmap f l).
Proof.
  induction l as [|x l IH]; simpl; intros Hf; [done|].
  apply raises_only_bind; [apply Hf; left|]. intros y _.
  apply raises_only_bind; [|done]. apply IH. intros. apply Hf. by right.
Qed.

Lemma raises_only_rfold {A S} (f : S -> A -> res E S) l s :
  (forall s x, x ∈ l -> raises_only P (f s x)) -> raises_only P (rfold f l s).
Proof.
  revert s; induction l as [|x l IH]; intros s Hf; simpl; [done|].
  apply raises_only_bind; [apply Hf; left|]. intros s' _.
  apply IH. intros. apply Hf. by right.
Qed.

Lemma raises_only_rany {A} (f : A -> res E bool) l :
  (forall x, x ∈ l -> raises_only P (f x)) -> raises_only P (rany f l).
Proof.
  induction l as [|x l IH]; simpl; intros Hf; [done|].
  apply raises_only_bind; [apply Hf; left|]. intros [] _; [done|].
  apply IH. intros. apply Hf. by right.
Qed.

Lemma raises_only_rall {A} (f : A -> res E bool) l :
  (forall x, x ∈ l -> raises_only P (f x)) -> raises_only P (rall f l).
Proof.
  induction l as [|x l IH]; simpl; intros Hf; [done|].
  apply raises_only_bind; [apply Hf; left|]. intros [] _; [|done].
  apply IH. intros. apply Hf. by right.
Qed.
End raises_only.

#[export] Hint Resolve raises_only_bind raises_only_rmap raises_only_rfold
  raises_only_rany raises_only_rall : orch.

(** Two loop bodies that agree on the elements give the same loop. *)
Lemma rmap_ext {E A B} (f g : A -> res E B) l :
  (forall x, x ∈ l -> f x = g x) -> rmap f l = rmap g l.
Proof.
  induction l as [|x l IH]; intros H; simpl; [done|].
  rewrite (H x) by (by left). rewrite IH; [done|]. intros. apply H. by right.
Qed.

Lemma filter_local {A} (P Q : A -> Prop) `{!forall x, Decision (P x), !forall x, Decision (Q x)} (l : list A) :
  (forall x, x ∈ l -> P x <-> Q x) -> filter P l = filter Q l.
Proof.
  intros Heq. induction l as [|x l IH]; [done|]. rewrite !filter_cons, IH by (intros y Hy; apply Heq; by right).
  destruct (Heq x (list_elem_of_here _ _)). destruct (decide (P x)), (decide (Q x)); naive_solver.
Qed.

Lemma existsb_elem_of {A} (f : A -> bool) l :
  existsb f l = true <-> exists x, x ∈ l /\ f x = true.
Proof. rewrite existsb_exists. setoid_rewrite list_elem_of_In. done. Qed.

Lemma forallb_elem_of {A} (f : A -> bool) l :
  forallb f l = true <-> forall x, x ∈ l -> f x = true.
Proof. rewrite forallb_forall. setoid_rewrite list_elem_of_In. done. Qed.

(** Induction two elements at a time. *)
Lemma list_pair_ind {A} (P : list A -> Prop) :
  P [] -> (forall x, P [x]) -> (forall x y l, P l -> P (x :: y :: l)) -> forall l, P l.
Proof.
  intros H0 H1 H2. cut (forall l, P l /\ forall x, P (x :: l)); [intros H l; apply H|].
  induction l as [|y l [IH1 IH2]]; split; auto.
Qed.
