(* ===== verification/Errors.v ===== *)
(** * Errors: the service exception hierarchy

    [src/src/exceptions/service_exceptions.py].  Every service error of the
    program is an instance of one class of that file; Python's own exceptions
    that the modelled code meets are constructors of the same type. *)

From S2P Require Import Prelude.

(** One constructor per class of [service_exceptions.py], carrying the message it
    is raised with, plus the built-in exceptions. *)
Inductive exc : Type :=
  | RouterValidationException (msg : string)
  | NotImplementedServiceException (msg : string)
  | MethodNotAllowedPlaceholderException (msg : string)
  | NotFoundServiceException (msg : string)
  | ResourceBlockedServiceException (msg : string)
  | DomainValidationException (msg : string)
  | DomainConflictException (msg : string)
  | IdempotencyInProgressException (msg : string)
  | InvalidTransitionException (msg : string)
  | AIOutputValidationException (msg : string)
  | RagNotAllowedException (msg : string)
  | SchemaIncompatibleException (msg : string)
  | HashIncompatibleException (msg : string)
  | AuthenticationFailedException (msg : string)
  | AuthorizationDeniedException (msg : string)
  | RateLimitExceededException (msg : string)
  | LimitExceededException (msg : string)
  | GuardrailUnavailableException (msg : string)
  | PyTypeError
  | PyValueError
  | PyKeyError
  | PyIndexError
  | PyAttributeError
  | PydanticValidationError
  | ExternalError (cls : string) (msg : string).

#[global] Instance exc_eq_dec : EqDecision exc.
Proof. solve_decision. Defined.

(** [isinstance(exc, DomainValidationException)]: the class and its subclasses. *)
Definition is_domain_validation (e : exc) : bool :=
  match e with
  | DomainValidationException _ | InvalidTransitionException _
  | AIOutputValidationException _ | RagNotAllowedException _
  | SchemaIncompatibleException _ | HashIncompatibleException _ => true
  | _ => false
  end.

(** The class attribute [status_code] of a service exception; [None] for an
    exception that is not a [BaseServiceException]. *)
Definition status_code (e : exc) : option Z :=
  match e with
  | RouterValidationException _ => Some 400%Z
  | NotImplementedServiceException _ => Some 501%Z
  | MethodNotAllowedPlaceholderException _ => Some 405%Z
  | NotFoundServiceException _ => Some 404%Z
  | ResourceBlockedServiceException _ => Some 409%Z
  | DomainConflictException _ => Some 409%Z
  | IdempotencyInProgressException _ => Some 409%Z
  | DomainValidationException _ | InvalidTransitionException _
  | AIOutputValidationException _ | RagNotAllowedException _
  | SchemaIncompatibleException _ | HashIncompatibleException _ => Some 400%Z
  | AuthenticationFailedException _ => Some 401%Z
  | AuthorizationDeniedException _ => Some 403%Z
  | RateLimitExceededException _ => Some 429%Z
  | LimitExceededException _ => Some 409%Z
  | GuardrailUnavailableException _ => Some 503%Z
  | _ => None
  end.

(** The [name] of a service exception, or the class name of any other. *)
Definition exc_code (e : exc) : string :=
  match e with
  | RouterValidationException _ => "VALIDATION_ERROR"
  | NotImplementedServiceException _ => "NOT_IMPLEMENTED"
  | MethodNotAllowedPlaceholderException _ => "METHOD_NOT_ALLOWED"
  | NotFoundServiceException _ => "NOT_FOUND"
  | ResourceBlockedServiceException _ => "RESOURCE_BLOCKED"
  | DomainValidationException _ => "DOMAIN_VALIDATION"
  | DomainConflictException _ => "DOMAIN_CONFLICT"
  | IdempotencyInProgressException _ => "IDEMPOTENCY_IN_PROGRESS"
  | InvalidTransitionException _ => "INVALID_TRANSITION"
  | AIOutputValidationException _ => "AI_OUTPUT_VALIDATION_FAILED"
  | RagNotAllowedException _ => "RAG_NOT_ALLOWED"
  | SchemaIncompatibleException _ => "SCHEMA_INCOMPATIBLE"
  | HashIncompatibleException _ => "CONFIG_HASH_INCOMPATIBLE"
  | AuthenticationFailedException _ => "AUTHENTICATION_FAILED"
  | AuthorizationDeniedException _ => "AUTHORIZATION_DENIED"
  | RateLimitExceededException _ => "RATE_LIMIT_EXCEEDED"
  | LimitExceededException _ => "LIMIT_EXCEEDED"
  | GuardrailUnavailableException _ => "GUARDRAIL_UNAVAILABLE"
  | PyTypeError => "TypeError"
  | PyValueError => "ValueError"
  | PyKeyError => "KeyError"
  | PyIndexError => "IndexError"
  | PyAttributeError => "AttributeError"
  | PydanticValidationError => "ValidationError"
  | ExternalError cls _ => cls
  end.

(** The message of a service exception; [str(exc)] of any other, which the model
    knows only for errors raised outside it. *)
Definition exc_message (e : exc) : string :=
  match e with
  | RouterValidationException m | NotImplementedServiceException m
  | MethodNotAllowedPlaceholderException m | NotFoundServiceException m
  | ResourceBlockedServiceException m | DomainValidationException m
  | DomainConflictException m | IdempotencyInProgressException m
  | InvalidTransitionException m | AIOutputValidationException m | RagNotAllowedException m
  | SchemaIncompatibleException m | HashIncompatibleException m
  | AuthenticationFailedException m | AuthorizationDeniedException m
  | RateLimitExceededException m | LimitExceededException m | GuardrailUnavailableException m => m
  | ExternalError _ m => m
  | _ => ""
  end.

(** [type(exc).__name__]. *)
Definition exc_type (e : exc) : string :=
  match e with
  | RouterValidationException _ => "RouterValidationException"
  | NotImplementedServiceException _ => "NotImplementedServiceException"
  | MethodNotAllowedPlaceholderException _ => "MethodNotAllowedPlaceholderException"
  | NotFoundServiceException _ => "NotFoundServiceException"
  | ResourceBlockedServiceException _ => "ResourceBlockedServiceException"
  | DomainValidationException _ => "DomainValidationException"
  | DomainConflictException _ => "DomainConflictException"
  | IdempotencyInProgressException _ => "IdempotencyInProgressException"
  | InvalidTransitionException _ => "InvalidTransitionException"
  | AIOutputValidationException _ => "AIOutputValidationException"
  | RagNotAllowedException _ => "RagNotAllowedException"
  | SchemaIncompatibleException _ => "SchemaIncompatibleException"
  | HashIncompatibleException _ => "HashIncompatibleException"
  | AuthenticationFailedException _ => "AuthenticationFailedException"
  | AuthorizationDeniedException _ => "AuthorizationDeniedException"
  | RateLimitExceededException _ => "RateLimitExceededException"
  | LimitExceededException _ => "LimitExceededException"
  | GuardrailUnavailableException _ => "GuardrailUnavailableException"
  | PyTypeError => "TypeError"
  | PyValueError => "ValueError"
  | PyKeyError => "KeyError"
  | PyIndexError => "IndexError"
  | PyAttributeError => "AttributeError"
  | PydanticValidationError => "ValidationError"
  | ExternalError cls _ => cls
  end.
