(* ===== verification/PyValue.v ===== *)
(** * PyValue: Python values as the runtime's dictionaries hold them

    Node outputs, graph state, configurations and compiled edge conditions are
    JSON-like Python values.  This file models the values and the language
    operations the source applies to them: truthiness, [==], [is], the order
    comparisons, [in], iteration, [len], attribute access and [dict.get].  An
    operation that Python refuses returns the exception it raises. *)

From S2P Require Import Prelude.
From S2P Require Import Errors.

(** ** Values *)

(** A binary float is a dyadic rational [m * 2 ^ e], an infinity or NaN. *)
Inductive pyfloat : Type :=
  | FFin (m e : Z)
  | FInf (neg : bool)
  | FNaN.

(** [PMethod owner name] is a bound built-in method: what attribute access on a
    built-in value returns for a method name. *)
Inductive pyval : Type :=
  | PNone
  | PBool (b : bool)
  | PInt (z : Z)
  | PFloat (f : pyfloat)
  | PStr (s : string)
  | PList (l : list pyval)
  | PDict (d : list (string * pyval))
  | PMethod (owner : pyval) (name : string).

(** A Python [dict] with string keys: insertion order matters to iteration, keys
    are unique in every dict the language builds. *)
Abbreviation pydict := (list (string * pyval)).

#[global] Instance pyfloat_eq_dec : EqDecision pyfloat.
Proof. solve_decision. Defined.

Section pyval_ind.
Variable P : pyval -> Prop.
Hypothesis Hnone : P PNone.
Hypothesis Hbool : forall b, P (PBool b).
Hypothesis Hint : forall z, P (PInt z).
Hypothesis Hfloat : forall f, P (PFloat f).
Hypothesis Hstr : forall s, P (PStr s).
Hypothesis Hlist : forall l, Forall P l -> P (PList l).
Hypothesis Hdict : forall d, Forall (fun kv => P (kv.2)) d -> P (PDict d).
Hypothesis Hmeth : forall o n, P o -> P (PMethod o n).

(** Induction on values that reaches inside lists and dicts. *)
Fixpoint pyval_nested_ind (v : pyval) : P v :=
  match v with
  | PNone => Hnone
  | PBool b => Hbool b
  | PInt z => Hint z
  | PFloat f => Hfloat f
  | PStr s => Hstr s
  | PList l => Hlist l ((fix go l : Forall P l :=
      match l with
      | [] => Forall_nil_2 _
      | x :: l' => Forall_cons_2 _ x l' (pyval_nested_ind x) (go l')
      end) l)
  | PDict d => Hdict d ((fix go d : Forall (fun kv => P (kv.2)) d :=
      match d with
      | [] => Forall_nil_2 _
      | kv :: d' => Forall_cons_2 _ kv d' (pyval_nested_ind kv.2) (go d')
      end) d)
  | PMethod o n => Hmeth o n (pyval_nested_ind o)
  end.
End pyval_ind.

(** Structural equality, as a boolean. *)
Fixpoint pv_eqb (a b : pyval) {struct a} : bool :=
  match a, b with
  | PNone, PNone => true
  | PBool x, PBool y => Bool.eqb x y
  | PInt x, PInt y => Z.eqb x y
  | PFloat x, PFloat y => bool_decide (x = y)
  | PStr x, PStr y => String.eqb x y
  | PList xs, PList ys =>
      (fix go xs ys := match xs, ys with
       | [], [] => true
       | x :: xs', y :: ys' => pv_eqb x y && go xs' ys'
       | _, _ => false
       end) xs ys
  | PDict xs, PDict ys =>
      (fix go xs ys := match xs, ys with
       | [], [] => true
       | (k, x) :: xs', (k', y) :: ys' => String.eqb k k' && pv_eqb x y && go xs' ys'
       | _, _ => false
       end) xs ys
  | PMethod o n, PMethod o' n' => pv_eqb o o' && String.eqb n n'
  | _, _ => false
  end.

Lemma pv_eqb_eq a b : pv_eqb a b = true <-> a = b.
Proof.
  revert b; induction a as [| | | | | l IH | d IH | o n IH] using pyval_nested_ind;
    intros []; simpl; try (split; congruence).
  - rewrite Bool.eqb_true_iff. split; congruence.
  - rewrite Z.eqb_eq. split; congruence.
  - rewrite bool_decide_eq_true. split; congruence.
  - rewrite String.eqb_eq. split; congruence.
  - rename l0 into l'. revert l'. induction IH as [|x l Hx _ IHl]; intros [|y l'];
      try (split; congruence).
    rewrite andb_true_iff, Hx, IHl. split; [intros [-> [= ->]] | intros [= -> ->]]; done.
  - rename d0 into d'. revert d'. induction IH as [|[k x] d Hx _ IHd]; intros [|[k' y] d'];
      try (split; congruence).
    simpl in Hx. rewrite !andb_true_iff, Hx, IHd, String.eqb_eq.
    split; [intros [[-> ->] [= ->]] | intros [= -> -> ->]]; done.
  - rewrite andb_true_iff, IH, String.eqb_eq. split; [intros [-> ->] | intros [= -> ->]]; done.
Qed.

#[global] Instance pyval_eq_dec : EqDecision pyval.
Proof.
  refine (fun a b => match pv_eqb a b as r return pv_eqb a b = r -> _ with
                     | true => fun H => left (proj1 (pv_eqb_eq a b) H)
                     | false => fun H => right _
                     end eq_refl).
  intros ->. rewrite (proj2 (pv_eqb_eq b b) eq_refl) in H. discriminate.
Defined.

(** ** Dicts *)

(** [d.get(k)] as an option: [None] when the key is missing. *)
Fixpoint dict_get (k : string) (d : pydict) : option pyval :=
  match d with
  | [] => None
  | (k', v) :: d' => if String.eqb k k' then Some v else dict_get k d'
  end.

(** [d[k] = v]: overwrite in place, append a new key at the end. *)
Fixpoint dict_set (k : string) (v : pyval) (d : pydict) : pydict :=
  match d with
  | [] => [(k, v)]
  | (k', v') :: d' => if String.eqb k k' then (k', v) :: d' else (k', v') :: dict_set k v d'
  end.

Definition dict_has (k : string) (d : pydict) : bool :=
  match dict_get k d with Some _ => true | None => false end.

(** [d.get(k)] as the expression's value: [None] for a missing key. *)
Definition dict_getv (k : string) (d : pydict) : pyval :=
  default PNone (dict_get k d).

Definition as_dict (v : pyval) : option pydict :=
  match v with PDict d => Some d | _ => None end.

(** ** Truthiness, numbers and strings *)

(** [bool(v)]. *)
Definition truthy (v : pyval) : bool :=
  match v with
  | PNone => false
  | PBool b => b
  | PInt z => negb (z =? 0)%Z
  | PFloat (FFin m _) => negb (m =? 0)%Z
  | PFloat _ => true
  | PStr s => negb (String.eqb s "")
  | PList l => match l with [] => false | _ => true end
  | PDict d => match d with [] => false | _ => true end
  | PMethod _ _ => true
  end.

(** Booleans are integers in arithmetic comparisons. *)
Definition as_num (v : pyval) : option pyfloat :=
  match v with
  | PBool b => Some (FFin (if b then 1 else 0) 0)
  | PInt z => Some (FFin z 0)
  | PFloat f => Some f
  | _ => None
  end.

(** Exact numeric comparison (Python compares int and float exactly); [None]
    when a NaN is involved. *)
Definition num_compare (x y : pyfloat) : option comparison :=
  match x, y with
  | FNaN, _ | _, FNaN => None
  | FInf n, FInf n' => Some (if Bool.eqb n n' then Eq else if n then Lt else Gt)
  | FInf n, FFin _ _ => Some (if n then Lt else Gt)
  | FFin _ _, FInf n => Some (if n then Gt else Lt)
  | FFin m e, FFin m' e' =>
      let k := Z.min e e' in
      Some (Z.compare (m * 2 ^ (e - k)) (m' * 2 ^ (e' - k)))
  end.

Definition num_eqb (x y : pyfloat) : bool :=
  match num_compare x y with Some Eq => true | _ => false end.

(** [int(v)]; reading an integer from a string is the interpreter's. *)
Definition py_int (int_of_string : string -> option Z) (v : pyval) : res exc Z :=
  match v with
  | PInt z => Ok z
  | PBool b => Ok (if b then 1 else 0)%Z
  | PFloat (FFin m e) => Ok (if (0 <=? e)%Z then m * 2 ^ e else Z.quot m (2 ^ (- e)))%Z
  | PFloat FNaN => Err PyValueError
  | PFloat (FInf _) => Err (ExternalError "OverflowError" "")
  | PStr s => match int_of_string s with Some z => Ok z | None => Err PyValueError end
  | _ => Err PyTypeError
  end.

Definition is_cont_byte (a : Ascii.ascii) : bool :=
  let n := Ascii.N_of_ascii a in (N.leb 128 n && N.ltb n 192)%N.

(** Strings are UTF-8 byte sequences: the code points of [s], each as a string. *)
Fixpoint utf8_chars (s : string) : list string :=
  match s with
  | EmptyString => []
  | String a s' =>
      match utf8_chars s', s' with
      | c :: cs, String b _ =>
          if is_cont_byte b then String a c :: cs else String a EmptyString :: c :: cs
      | cs, _ => String a EmptyString :: cs
      end
  end.

(** Code points compare like their UTF-8 encodings, byte by byte. *)
Definition str_compare (a b : string) : comparison := String.compare a b.

(** [sub in s]. *)
Fixpoint str_contains (sub s : string) : bool :=
  String.prefix sub s ||
  match s with EmptyString => false | String _ s' => str_contains sub s' end.

(** ** Equality, identity and order *)

Section compare.
(** Identity of values other than [None], [True] and [False] depends on how the
    interpreter allocates: [same a b] says whether two structurally equal
    values are one object. *)
Variable same : pyval -> pyval -> bool.

(** [a is b]. *)
Definition py_is (a b : pyval) : bool :=
  match a, b with
  | PNone, PNone => true
  | PBool x, PBool y => Bool.eqb x y
  | PNone, _ | _, PNone | PBool _, _ | _, PBool _ => false
  | _, _ => pv_eqb a b && same a b
  end.

(** [a == b].  Containers compare elements by identity first, then equality. *)
Fixpoint py_eq (a b : pyval) {struct a} : bool :=
  match a, b with
  | PNone, PNone => true
  | PStr x, PStr y => String.eqb x y
  | PList xs, PList ys =>
      (fix go xs ys := match xs, ys with
       | [], [] => true
       | x :: xs', y :: ys' => (py_is x y || py_eq x y) && go xs' ys'
       | _, _ => false
       end) xs ys
  | PDict xs, PDict ys =>
      Nat.eqb (length xs) (length ys) &&
      (fix go xs := match xs with
       | [] => true
       | (k, x) :: xs' =>
           match dict_get k ys with
           | Some y => py_is x y || py_eq x y
           | None => false
           end && go xs'
       end) xs
  | PMethod o n, PMethod o' n' => py_is a b
  | _, _ =>
      match as_num a, as_num b with
      | Some x, Some y => num_eqb x y
      | _, _ => false
      end
  end.

(** Element comparison inside a container. *)
Definition elem_eq (a b : pyval) : bool := py_is a b || py_eq a b.

Inductive cmp_op := OpLt | OpLe | OpGt | OpGe.

Definition cmp_holds (o : cmp_op) (c : comparison) : bool :=
  match o, c with
  | OpLt, Lt | OpLe, Lt | OpLe, Eq | OpGt, Gt | OpGe, Gt | OpGe, Eq => true
  | _, _ => false
  end.

(** [a < b] and its siblings; values with no order raise [TypeError]. *)
Fixpoint py_order (o : cmp_op) (a b : pyval) {struct a} : res exc bool :=
  match a, b with
  | PStr x, PStr y => Ok (cmp_holds o (str_compare x y))
  | PList xs, PList ys =>
      (fix go xs ys : res exc bool := match xs, ys with
       | [], [] => Ok (cmp_holds o Eq)
       | [], _ :: _ => Ok (cmp_holds o Lt)
       | _ :: _, [] => Ok (cmp_holds o Gt)
       | x :: xs', y :: ys' =>
           if elem_eq x y then go xs' ys' else py_order o x y
       end) xs ys
  | _, _ =>
      match as_num a, as_num b with
      | Some x, Some y =>
          Ok (match num_compare x y with Some c => cmp_holds o c | None => false end)
      | _, _ => Err PyTypeError
      end
  end.

(** [hash(v)] raises for lists and dicts. *)
Definition hashable (v : pyval) : bool :=
  match v with PList _ | PDict _ => false | _ => true end.

(** [x in y]. *)
Definition py_in (x y : pyval) : res exc bool :=
  match y with
  | PList l => Ok (existsb (fun e => elem_eq x e) l)
  | PStr s => match x with PStr sub => Ok (str_contains sub s) | _ => Err PyTypeError end
  | PDict d =>
      if hashable x then
        Ok (match x with PStr k => dict_has k d | _ => false end)
      else Err PyTypeError
  | _ => Err PyTypeError
  end.
End compare.

(** [iter(v)]: the elements a [for] loop or a comprehension sees. *)
Definition py_iter (v : pyval) : res exc (list pyval) :=
  match v with
  | PList l => Ok l
  | PStr s => Ok (PStr <$> utf8_chars s)
  | PDict d => Ok (PStr <$> d.*1)
  | _ => Err PyTypeError
  end.

(** [len(v)]. *)
Definition py_len (v : pyval) : res exc Z :=
  match v with
  | PList l => Ok (Z.of_nat (length l))
  | PStr s => Ok (Z.of_nat (length (utf8_chars s)))
  | PDict d => Ok (Z.of_nat (length d))
  | _ => Err PyTypeError
  end.

(** [l[i]] on a list: negative indices count from the end. *)
Definition list_index (l : list pyval) (i : Z) : option pyval :=
  let n := Z.of_nat (length l) in
  let j := if (i <? 0)%Z then (i + n)%Z else i in
  if ((0 <=? j) && (j <? n))%Z then l !! Z.to_nat j else None.

Definition int_methods : list string :=
  ["as_integer_ratio"; "bit_count"; "bit_length"; "conjugate"; "from_bytes";
   "is_integer"; "to_bytes"].
Definition float_methods : list string :=
  ["as_integer_ratio"; "conjugate"; "fromhex"; "hex"; "is_integer"].
Definition str_methods : list string :=
  ["capitalize"; "casefold"; "center"; "count"; "encode"; "endswith"; "expandtabs";
   "find"; "format"; "format_map"; "index"; "isalnum"; "isalpha"; "isascii";
   "isdecimal"; "isdigit"; "isidentifier"; "islower"; "isnumeric"; "isprintable";
   "isspace"; "istitle"; "isupper"; "join"; "ljust"; "lower"; "lstrip"; "maketrans";
   "partition"; "removeprefix"; "removesuffix"; "replace"; "rfind"; "rindex"; "rjust";
   "rpartition"; "rsplit"; "rstrip"; "split"; "splitlines"; "startswith"; "strip";
   "swapcase"; "title"; "translate"; "upper"; "zfill"].
Definition list_methods : list string :=
  ["append"; "clear"; "copy"; "count"; "extend"; "index"; "insert"; "pop"; "remove";
   "reverse"; "sort"].
Definition dict_methods : list string :=
  ["clear"; "copy"; "fromkeys"; "get"; "items"; "keys"; "pop"; "popitem";
   "setdefault"; "update"; "values"].

(** [getattr(v, name)] for the public attributes of the built-in types ([None]:
    [hasattr] is false).  Identifiers of the edge language start with a letter, so
    dunder attributes are out of reach. *)
Definition py_getattr (v : pyval) (name : string) : option pyval :=
  let meth l := if bool_decide (name ∈ l) then Some (PMethod v name) else None in
  let as_int z :=
    if String.eqb name "real" || String.eqb name "numerator" then Some (PInt z)
    else if String.eqb name "imag" then Some (PInt 0)
    else if String.eqb name "denominator" then Some (PInt 1)
    else meth int_methods in
  match v with
  | PBool b => as_int (if b then 1 else 0)%Z
  | PInt z => as_int z
  | PFloat f =>
      if String.eqb name "real" then Some (PFloat f)
      else if String.eqb name "imag" then Some (PFloat (FFin 0 0))
      else meth float_methods
  | PStr _ => meth str_methods
  | PList _ => meth list_methods
  | PDict _ => meth dict_methods
  | PNone | PMethod _ _ => None
  end.

(** ASCII lower-casing, all that [str.lower()] does on operator names. *)
Definition lower_ascii (a : Ascii.ascii) : Ascii.ascii :=
  let n := Ascii.N_of_ascii a in
  if (N.leb 65 n && N.leb n 90)%N then Ascii.ascii_of_N (n + 32) else a.
Fixpoint str_lower (s : string) : string :=
  match s with
  | EmptyString => EmptyString
  | String a s' => String (lower_ascii a) (str_lower s')
  end.

(** ** Lemmas on dicts *)

Lemma dict_get_set_eq k v d : dict_get k (dict_set k v d) = Some v.
Proof.
  induction d as [|[k' v'] d IH]; simpl; [by rewrite String.eqb_refl|].
  destruct (String.eqb k k') eqn:E; simpl; rewrite E; done.
Qed.

Lemma dict_get_set_ne k k' v d : k <> k' -> dict_get k (dict_set k' v d) = dict_get k d.
Proof.
  intros Hne. induction d as [|[k1 v1] d IH]; simpl.
  - by rewrite (proj2 (String.eqb_neq k k')).
  - destruct (String.eqb k' k1) eqn:E; simpl.
    + apply String.eqb_eq in E as ->. by rewrite (proj2 (String.eqb_neq k k1)).
    + by rewrite IH.
Qed.

Lemma dict_has_set_eq k v d : dict_has k (dict_set k v d) = true.
Proof. unfold dict_has. by rewrite dict_get_set_eq. Qed.

Lemma dict_getv_set_eq k v d : dict_getv k (dict_set k v d) = v.
Proof. unfold dict_getv. by rewrite dict_get_set_eq. Qed.

Lemma dict_getv_set_ne k k' v d : k <> k' -> dict_getv k (dict_set k' v d) = dict_getv k d.
Proof. intros. unfold dict_getv. by rewrite dict_get_set_ne. Qed.

#[export] Hint Rewrite dict_get_set_eq dict_has_set_eq dict_getv_set_eq : orch.

Lemma list_index_nat l i :
  list_index l (Z.of_nat i) = l !! i.
Proof.
  unfold list_index. destruct (Z.ltb_spec (Z.of_nat i) 0); [lia|].
  destruct (Z.leb_spec 0 (Z.of_nat i)); [|lia]. simpl.
  destruct (Z.ltb_spec (Z.of_nat i) (Z.of_nat (length l))).
  - by rewrite Nat2Z.id.
  - symmetry. apply lookup_ge_None. lia.
Qed.

Lemma dict_get_elem_of k v d : dict_get k d = Some v -> (k, v) ∈ d.
Proof.
  induction d as [|[k' v'] d IH]; simpl; [done|].
  destruct (String.eqb_spec k k') as [->|]; [intros [= ->]; left | right; auto].
Qed.

(** ** Expressions *)

(** [v or other]. *)
Definition or_else (v other : pyval) : pyval := if truthy v then v else other.
(** [v.get(key, other)]; only dicts have [get]. *)
Definition get_or (key : string) (other : pyval) (v : pyval) : res exc pyval :=
  match v with PDict d => Ok (default other (dict_get key d)) | _ => Err PyAttributeError end.
