(* ===== verification/StateMachine.v ===== *)
(** * StateMachine: run lifecycles

    [src/src/domain/execution/services/state_machine.py].  The file declares two
    layers of statuses: the operational [RunStatus] of [ExecutionStateMachine] and
    the canonical statuses of [RunLifecycleStateMachine], one closed transition
    table per kind of run.  The model has one inductive type per enum, the tables
    as functions, the [validate_*] methods with their exceptions, and the step
    relations the tables induce.  The theorems show that the terminal statuses of
    each lifecycle are exactly its dead ends, that every status is reachable and
    every live one can still terminate, and that the operational layer refines the
    canonical one. *)

From S2P Require Import Prelude.
From S2P Require Import Errors.

(** ** Statuses *)

Inductive RunStatus : Type :=
  | RS_CREATED | RS_QUEUED | RS_RUNNING | RS_WAITING_INPUT
  | RS_COMPLETED | RS_FAILED | RS_CANCELLED.

Inductive FlowRunStatus : Type :=
  | FR_CREATED | FR_RUNNING | FR_WAITING | FR_COMPLETED | FR_FAILED | FR_ESCALATED.

Inductive NodeRunStatus : Type :=
  | NR_PENDING | NR_RUNNING | NR_SKIPPED | NR_COMPLETED | NR_FAILED.

Inductive AgentRunStatus : Type :=
  | AR_CREATED | AR_RUNNING | AR_COMPLETED | AR_FAILED | AR_CANCELLED.

Inductive ToolRunStatus : Type :=
  | TR_CREATED | TR_EXECUTING | TR_SUCCESS | TR_ERROR | TR_TIMEOUT.

#[global] Instance RunStatus_eq_dec : EqDecision RunStatus.
Proof. solve_decision. Defined.
#[global] Instance FlowRunStatus_eq_dec : EqDecision FlowRunStatus.
Proof. solve_decision. Defined.
#[global] Instance NodeRunStatus_eq_dec : EqDecision NodeRunStatus.
Proof. solve_decision. Defined.
#[global] Instance AgentRunStatus_eq_dec : EqDecision AgentRunStatus.
Proof. solve_decision. Defined.
#[global] Instance ToolRunStatus_eq_dec : EqDecision ToolRunStatus.
Proof. solve_decision. Defined.

(** [str(status)]: the value of the StrEnum member. *)
Definition run_status_str (s : RunStatus) : string :=
  match s with
  | RS_CREATED => "CREATED" | RS_QUEUED => "QUEUED" | RS_RUNNING => "RUNNING"
  | RS_WAITING_INPUT => "WAITING_INPUT" | RS_COMPLETED => "COMPLETED"
  | RS_FAILED => "FAILED" | RS_CANCELLED => "CANCELLED"
  end.

Definition flow_status_str (s : FlowRunStatus) : string :=
  match s with
  | FR_CREATED => "CREATED" | FR_RUNNING => "RUNNING" | FR_WAITING => "WAITING"
  | FR_COMPLETED => "COMPLETED" | FR_FAILED => "FAILED" | FR_ESCALATED => "ESCALATED"
  end.

Definition node_status_str (s : NodeRunStatus) : string :=
  match s with
  | NR_PENDING => "PENDING" | NR_RUNNING => "RUNNING" | NR_SKIPPED => "SKIPPED"
  | NR_COMPLETED => "COMPLETED" | NR_FAILED => "FAILED"
  end.

Definition agent_status_str (s : AgentRunStatus) : string :=
  match s with
  | AR_CREATED => "CREATED" | AR_RUNNING => "RUNNING" | AR_COMPLETED => "COMPLETED"
  | AR_FAILED => "FAILED" | AR_CANCELLED => "CANCELLED"
  end.

Definition tool_status_str (s : ToolRunStatus) : string :=
  match s with
  | TR_CREATED => "CREATED" | TR_EXECUTING => "EXECUTING" | TR_SUCCESS => "SUCCESS"
  | TR_ERROR => "ERROR" | TR_TIMEOUT => "TIMEOUT"
  end.

(** ** Transition tables *)

Definition ALLOWED_TRANSITIONS (s : RunStatus) : list RunStatus :=
  match s with
  | RS_CREATED => [RS_QUEUED; RS_CANCELLED; RS_FAILED]
  | RS_QUEUED => [RS_RUNNING; RS_CANCELLED; RS_FAILED]
  | RS_RUNNING => [RS_WAITING_INPUT; RS_COMPLETED; RS_FAILED; RS_CANCELLED]
  | RS_WAITING_INPUT => [RS_RUNNING; RS_CANCELLED; RS_FAILED]
  | RS_COMPLETED | RS_FAILED | RS_CANCELLED => []
  end.

Definition flow_transitions (s : FlowRunStatus) : list FlowRunStatus :=
  match s with
  | FR_CREATED => [FR_RUNNING; FR_FAILED]
  | FR_RUNNING => [FR_WAITING; FR_COMPLETED; FR_FAILED; FR_ESCALATED]
  | FR_WAITING => [FR_RUNNING; FR_FAILED; FR_ESCALATED]
  | FR_ESCALATED | FR_COMPLETED | FR_FAILED => []
  end.

Definition node_transitions (s : NodeRunStatus) : list NodeRunStatus :=
  match s with
  | NR_PENDING => [NR_RUNNING; NR_SKIPPED]
  | NR_RUNNING => [NR_COMPLETED; NR_FAILED]
  | NR_SKIPPED | NR_COMPLETED | NR_FAILED => []
  end.

Definition agent_transitions (s : AgentRunStatus) : list AgentRunStatus :=
  match s with
  | AR_CREATED => [AR_RUNNING; AR_FAILED; AR_CANCELLED]
  | AR_RUNNING => [AR_COMPLETED; AR_FAILED; AR_CANCELLED]
  | AR_COMPLETED | AR_FAILED | AR_CANCELLED => []
  end.

Definition tool_transitions (s : ToolRunStatus) : list ToolRunStatus :=
  match s with
  | TR_CREATED => [TR_EXECUTING; TR_ERROR; TR_TIMEOUT]
  | TR_EXECUTING => [TR_SUCCESS; TR_ERROR; TR_TIMEOUT]
  | TR_SUCCESS | TR_ERROR | TR_TIMEOUT => []
  end.

(** ** The guards *)

Definition all_run_statuses : list RunStatus :=
  [RS_CREATED; RS_QUEUED; RS_RUNNING; RS_WAITING_INPUT; RS_COMPLETED; RS_FAILED;
   RS_CANCELLED].

(** [ALLOWED_TRANSITIONS.get(str(current), set())] and [target not in allowed]:
    both arguments are strings, an unknown current status allows nothing. *)
Definition allowed_by_name (current : string) : list string :=
  match find (fun s => bool_decide (run_status_str s = current)) all_run_statuses with
  | Some s => run_status_str <$> ALLOWED_TRANSITIONS s
  | None => []
  end.

Definition validate_transition (current target : string) : res exc unit :=
  if bool_decide (target ∈ allowed_by_name current) then Ok tt
  else Err (InvalidTransitionException
              ("Invalid transition: " +:+ current +:+ " -> " +:+ target)).

Definition validate_flow (current target : FlowRunStatus) : res exc unit :=
  if bool_decide (target ∈ flow_transitions current) then Ok tt
  else Err (InvalidTransitionException
              ("Invalid FlowRun transition: " +:+ flow_status_str current
               +:+ " -> " +:+ flow_status_str target)).

Definition validate_node (current target : NodeRunStatus) : res exc unit :=
  if bool_decide (target ∈ node_transitions current) then Ok tt
  else Err (InvalidTransitionException
              ("Invalid NodeRun transition: " +:+ node_status_str current
               +:+ " -> " +:+ node_status_str target)).

Definition validate_agent (current target : AgentRunStatus) : res exc unit :=
  if bool_decide (target ∈ agent_transitions current) then Ok tt
  else Err (InvalidTransitionException
              ("Invalid AgentRun transition: " +:+ agent_status_str current
               +:+ " -> " +:+ agent_status_str target)).

Definition validate_tool (current target : ToolRunStatus) : res exc unit :=
  if bool_decide (target ∈ tool_transitions current) then Ok tt
  else Err (InvalidTransitionException
              ("Invalid ToolRun transition: " +:+ tool_status_str current
               +:+ " -> " +:+ tool_status_str target)).

(** ** Lifecycles as transition systems *)

(** A closed lifecycle: an initial status and a successor table. *)
Class Lifecycle (S : Type) := {
  lc_init : S;
  lc_next : S -> list S;
}.

#[global] Instance run_lifecycle : Lifecycle RunStatus :=
  {| lc_init := RS_CREATED; lc_next := ALLOWED_TRANSITIONS |}.
#[global] Instance flow_lifecycle : Lifecycle FlowRunStatus :=
  {| lc_init := FR_CREATED; lc_next := flow_transitions |}.
#[global] Instance node_lifecycle : Lifecycle NodeRunStatus :=
  {| lc_init := NR_PENDING; lc_next := node_transitions |}.
#[global] Instance agent_lifecycle : Lifecycle AgentRunStatus :=
  {| lc_init := AR_CREATED; lc_next := agent_transitions |}.
#[global] Instance tool_lifecycle : Lifecycle ToolRunStatus :=
  {| lc_init := TR_CREATED; lc_next := tool_transitions |}.

Section lifecycle.
Context {S : Type} `{Lifecycle S}.

Definition step (s t : S) : Prop := t ∈ lc_next s.

(** A status history: the statuses a run takes, most recent last. *)
Inductive history : S -> list S -> S -> Prop :=
  | history_nil s : history s [] s
  | history_snoc s l t u : history s l t -> step t u -> history s (l ++ [u]) u.

Definition terminal (s : S) : bool :=
  match lc_next s with [] => true | _ => false end.

Lemma history_cons s t u l : step s t -> history t l u -> history s (t :: l) u.
Proof.
  intros Hst Hh. revert s Hst. induction Hh as [t|t l u v Hh IH Huv]; intros s Hst.
  - apply (history_snoc s [] s t); [constructor | done].
  - change (t :: l ++ [v]) with ((t :: l) ++ [v]). econstructor; eauto.
Qed.

Lemma terminal_no_step s t : terminal s = true -> ~ step s t.
Proof. unfold terminal, step. destruct (lc_next s); [set_solver | done]. Qed.

(** A history that has reached a terminal status never continues. *)
Lemma terminal_absorbing s l t :
  history s l t -> terminal s = true -> l = [] /\ t = s.
Proof.
  intros Hh Hs. induction Hh as [|s l t u Hh IH Hstep]; [done|].
  destruct (IH Hs) as [-> ->]. by apply terminal_no_step in Hstep.
Qed.

(** The statuses reachable in at most [n] transitions. *)
Fixpoint reach_from (n : nat) (s : S) : list S :=
  match n with
  | 0 => [s]
  | Datatypes.S n => s :: flat_map (reach_from n) (lc_next s)
  end.

Lemma reach_from_sound n s t : t ∈ reach_from n s -> exists l, history s l t.
Proof.
  revert s; induction n as [|n IH]; intros s; simpl.
  - intros ->%list_elem_of_singleton. exists []. constructor.
  - intros [->|Ht]%elem_of_cons; [exists []; constructor|].
    apply list_elem_of_In, in_flat_map in Ht as (u & Hu & Ht).
    apply list_elem_of_In in Ht. destruct (IH _ Ht) as [l Hl].
    exists (u :: l). eapply history_cons; [|done]. by apply list_elem_of_In.
Qed.
End lifecycle.

#[export] Hint Constructors history : orch.
#[export] Hint Resolve history_cons : orch.

(** [solve_reach]: find a history by computing the statuses reachable in four
    transitions, the length of the longest shortest path of the lifecycles. *)
Ltac solve_reach :=
  apply (reach_from_sound 4), (bool_decide_unpack _); vm_compute; exact I.

(** ** Correctness of the lifecycles *)

Lemma run_status_str_inj s t : run_status_str s = run_status_str t -> s = t.
Proof. by destruct s, t. Qed.

Lemma allowed_by_name_str s :
  allowed_by_name (run_status_str s) = run_status_str <$> ALLOWED_TRANSITIONS s.
Proof. by destruct s. Qed.

(** [ExecutionStateMachine.validate_transition] accepts a pair of status
    names exactly when the second is a status the table lists for the first; for
    any other strings, a current name that is no status included, it raises
    [InvalidTransitionException] with the documented message. *)
Theorem validate_transition_correct current target :
  (validate_transition current target = Ok tt <->
   exists s t, current = run_status_str s /\ target = run_status_str t /\
               t ∈ ALLOWED_TRANSITIONS s) /\
  (validate_transition current target = Ok tt \/
   validate_transition current target =
     Err (InvalidTransitionException
            ("Invalid transition: " +:+ current +:+ " -> " +:+ target))).
Proof.
  unfold validate_transition. split; [|case_bool_decide; auto].
  case_bool_decide as Hin; split; try done.
  - intros _. unfold allowed_by_name in Hin.
    destruct (find _ _) as [s|] eqn:Hf; [|set_solver].
    apply find_some in Hf as [_ <-%bool_decide_eq_true].
    apply list_elem_of_fmap in Hin as (t & -> & Ht). eauto.
  - intros (s & t & -> & -> & Ht). destruct Hin.
    rewrite allowed_by_name_str. by apply list_elem_of_fmap_2.
Qed.

(** The statuses each lifecycle ends in. *)
Definition flow_final (s : FlowRunStatus) : bool :=
  match s with FR_COMPLETED | FR_FAILED | FR_ESCALATED => true | _ => false end.
Definition node_final (s : NodeRunStatus) : bool :=
  match s with NR_SKIPPED | NR_COMPLETED | NR_FAILED => true | _ => false end.
Definition agent_final (s : AgentRunStatus) : bool :=
  match s with AR_COMPLETED | AR_FAILED | AR_CANCELLED => true | _ => false end.
Definition tool_final (s : ToolRunStatus) : bool :=
  match s with TR_SUCCESS | TR_ERROR | TR_TIMEOUT => true | _ => false end.

(** What a lifecycle promises: its final statuses are absorbing, every status
    occurs in some run, and no run can get stuck in a status that is not final. *)
Record lifecycle_ok {S} `{Lifecycle S} (final : S -> bool) : Prop := {
  lc_absorbing : forall s l t, final s = true -> history s l t -> l = [] /\ t = s;
  lc_reachable : forall s, exists l, history lc_init l s;
  lc_can_end : forall s, exists l t, history s l t /\ final t = true;
  lc_not_stuck : forall s, final s = false -> exists t, step s t;
}.

Ltac solve_lifecycle final_witness :=
  split;
  [ intros [] l t Hf Hh; try discriminate Hf;
    (eapply terminal_absorbing; [exact Hh | reflexivity])
  | intros []; solve_reach
  | intros s; cut (exists l, history s l (final_witness s));
    [intros [l Hl]; exists l, (final_witness s); split; [done | by destruct s]
    | destruct s; solve_reach]
  | intros [] Hf; try discriminate Hf; eexists; apply elem_of_cons; left; reflexivity ].

(** The four canonical lifecycles (flow, node, agent and tool runs) are closed
    in the sense of [lifecycle_ok]: every status is reachable from the initial one,
    every status can still reach a final one, statuses that are not final have a
    successor, and a run that reached a final status keeps it forever. *)
Theorem canonical_lifecycles_closed :
  lifecycle_ok flow_final /\ lifecycle_ok node_final /\
  lifecycle_ok agent_final /\ lifecycle_ok tool_final.
Proof.
  split_and!.
  - solve_lifecycle (fun s => if flow_final s then s else FR_FAILED).
  - solve_lifecycle (fun s => if node_final s then s else NR_FAILED).
  - solve_lifecycle (fun s => if agent_final s then s else AR_FAILED).
  - solve_lifecycle (fun s => if tool_final s then s else TR_ERROR).
Qed.

(** The canonical status under which each operational status is stored: the pairs
    the writers of [status]/[canonical_status] use ([prepare_flow_run],
    [finalize_flow_run], [_fail_flow]); a queued run has not left [CREATED]. *)
Definition canonical_of (s : RunStatus) : FlowRunStatus :=
  match s with
  | RS_CREATED | RS_QUEUED => FR_CREATED
  | RS_RUNNING => FR_RUNNING
  | RS_WAITING_INPUT => FR_WAITING
  | RS_COMPLETED => FR_COMPLETED
  | RS_FAILED | RS_CANCELLED => FR_FAILED
  end.

Lemma canonical_of_step s t :
  step s t -> canonical_of t = canonical_of s \/ step (canonical_of s) (canonical_of t).
Proof.
  unfold step. simpl. intros Ht.
  destruct s; simpl in Ht; repeat (apply elem_of_cons in Ht as [->|Ht]);
    try (by apply elem_of_nil in Ht); simpl; auto; right;
    apply (bool_decide_unpack _); vm_compute; exact I.
Qed.

(** The dual-layer design is consistent: any operational status history of a
    flow run projects, after dropping stuttering steps, to a history of the
    canonical lifecycle between the projected statuses. *)
Theorem operational_refines_canonical s l t :
  history s l t -> exists l', history (canonical_of s) l' (canonical_of t) /\
                              length l' <= length l.
Proof.
  induction 1 as [s|s l t u Hh (l' & Hl' & Hlen) Hstep].
  - exists []. split; [constructor | done].
  - rewrite length_app. simpl. apply canonical_of_step in Hstep as [->|Hstep].
    + exists l'. split; [done | lia].
    + exists (l' ++ [canonical_of u]). rewrite length_app. simpl.
      split; [by econstructor | lia].
Qed.

Lemma operational_refines_canonical_witness :
  exists l', history FR_CREATED l' FR_COMPLETED /\ length l' <= 5.
Proof.
  apply (operational_refines_canonical RS_CREATED
           [RS_QUEUED; RS_RUNNING; RS_WAITING_INPUT; RS_RUNNING; RS_COMPLETED] RS_COMPLETED).
  repeat (eapply history_cons;
          [unfold step; simpl; apply (bool_decide_unpack _); vm_compute; exact I|]).
  constructor.
Defined.
