(* ===== verification/EdgeEvaluator.v ===== *)
(** * EdgeEvaluator: compiled edge conditions

    [src/src/domain/execution/services/graph_runtime/edge_evaluator.py].  An edge
    condition is parsed by pyparsing (a library: the parser is a parameter here),
    turned into a JSON value by [_to_serializable], stored in the flow graph
    snapshot and evaluated against a node's output by [_eval] and [is_true].
    [_eval] recurses on a value; the model gives it fuel and the depth of the value
    is always enough ([eval_fuel_enough]). *)

From S2P Require Import Prelude.
From S2P Require Import Errors.
From S2P Require Import PyValue.

(** [DomainValidationException(message="edge_evaluation_error")]. *)
Definition edge_error : exc := DomainValidationException "edge_evaluation_error".
Definition not_supported : exc := DomainValidationException "edge_condition_not_supported".

(** [segment[0]] and the elements of [segment[1:]]. *)
Definition seg_head (seg : pyval) : res exc pyval :=
  match seg with
  | PList (h :: _) => Ok h
  | PList [] => Err PyIndexError
  | PStr s => match utf8_chars s with c :: _ => Ok (PStr c) | [] => Err PyIndexError end
  | PDict _ => Err PyKeyError
  | _ => Err PyTypeError
  end.

Definition seg_tail (seg : pyval) : list pyval :=
  match seg with
  | PList l => tail l
  | PStr s => PStr <$> tail (utf8_chars s)
  | _ => []
  end.

(** One item of the list comprehension of [SubstituteVal.resolve]: the item's key,
    else its attribute, else [None]; a name that is no string makes [hasattr] raise
    [TypeError], which the surrounding [except] turns into an edge error. *)
Definition project_item (name : pyval) (item : pyval) : res exc pyval :=
  match name with
  | PStr n =>
      match item with
      | PDict d =>
          match dict_get n d with
          | Some v => Ok v
          | None => Ok (default PNone (py_getattr item n))
          end
      | _ => Ok (default PNone (py_getattr item n))
      end
  | _ => Err edge_error
  end.

(** The value a path segment's name selects. *)
Definition resolve_name (name val : pyval) : res exc pyval :=
  match val with
  | PDict d =>
      match name with
      | PStr n => match dict_get n d with Some v => Ok v | None => Err edge_error end
      | _ => if hashable name then Err edge_error else Err PyTypeError
      end
  | PList l => let! vs := rmap (project_item name) l in Ok (PList vs)
  | _ =>
      match name with
      | PStr n => match py_getattr val n with Some v => Ok v | None => Err edge_error end
      | _ => Err PyTypeError
      end
  end.

(** [for idx in segment[1:]: val = val[idx]]. *)
Definition resolve_index (val idx : pyval) : res exc pyval :=
  match val with
  | PList l =>
      match idx with
      | PInt i => match list_index l i with Some v => Ok v | None => Err edge_error end
      | PBool b =>
          match list_index l (if b then 1 else 0)%Z with Some v => Ok v | None => Err edge_error end
      | _ => Err edge_error
      end
  | _ => Err edge_error
  end.

Definition resolve_segment (val seg : pyval) : res exc pyval :=
  let! name := seg_head seg in
  let! v := resolve_name name val in
  rfold resolve_index (seg_tail seg) v.

(** [SubstituteVal(segments).resolve(context)]. *)
Definition substitute_resolve (segments context : pyval) : res exc pyval :=
  match context with
  | PNone => Err edge_error
  | _ => let! segs := py_iter segments in rfold resolve_segment segs context
  end.

(** [len(base_value)] inside [LenVal.resolve]: any failure is an edge error. *)
Definition len_value (v : pyval) : res exc pyval :=
  match py_len v with Ok n => Ok (PInt n) | Err _ => Err edge_error end.

Section evaluator.
Variable same : pyval -> pyval -> bool.

(** ** Operators and functions *)

Definition CUSTOM_FUNCTIONS : list string :=
  ["HasAny"; "HasAll"; "AnyEquals"; "AllEquals"; "AnyNonEmpty"; "AllNonEmpty"].

Definition is_custom (v : pyval) : option string :=
  match v with
  | PStr s => if bool_decide (s ∈ CUSTOM_FUNCTIONS) then Some s else None
  | _ => None
  end.

(** [CUSTOM_FUNCTIONS[func_name]] applied to the evaluated arguments: a wrong number of arguments and an
    argument that cannot be iterated raise [TypeError]. *)
Definition call_custom (f : string) (args : list pyval) : res exc bool :=
  match args with
  | [lst; arg] =>
      if String.eqb f "HasAny" then
        let! xs := py_iter lst in rany (fun x => py_in same x arg) xs
      else if String.eqb f "HasAll" then
        let! xs := py_iter lst in rall (fun x => py_in same x arg) xs
      else if String.eqb f "AnyEquals" then
        let! xs := py_iter lst in rany (fun x => Ok (py_eq same x arg)) xs
      else if String.eqb f "AllEquals" then
        let! xs := py_iter lst in rall (fun x => Ok (py_eq same x arg)) xs
      else Err PyTypeError
  | [lst] =>
      if String.eqb f "AnyNonEmpty" then
        let! xs := py_iter lst in rany (fun x => Ok (truthy x)) xs
      else if String.eqb f "AllNonEmpty" then
        match lst with
        | PList (x :: l) => rall (fun x => Ok (truthy x)) (x :: l)
        | _ => Ok false
        end
      else Err PyTypeError
  | _ => Err PyTypeError
  end.

(** [COMPARISON_AND_SET_OPERATORS[op]] applied; [None] when the table has no such
    operator. *)
Definition compare_op (op : string) (x y : pyval) : option (res exc bool) :=
  if bool_decide (op ∈ ["="; "=="; "eq"]) then Some (Ok (py_eq same x y))
  else if bool_decide (op ∈ ["!="; "ne"; "≠"]) then Some (Ok (negb (py_eq same x y)))
  else if bool_decide (op ∈ [">"; "gt"]) then Some (py_order same OpGt x y)
  else if bool_decide (op ∈ [">="; "ge"; "≥"]) then Some (py_order same OpGe x y)
  else if bool_decide (op ∈ ["<"; "lt"]) then Some (py_order same OpLt x y)
  else if bool_decide (op ∈ ["<="; "le"; "≤"]) then Some (py_order same OpLe x y)
  else if bool_decide (op ∈ ["in"; "∈"]) then Some (py_in same x y)
  else if bool_decide (op ∈ ["notin"; "∉"]) then
    Some (let! b := py_in same x y in Ok (negb b))
  else if String.eqb op "is" then Some (Ok (py_is same x y))
  else if String.eqb op "isnot" then Some (Ok (negb (py_is same x y)))
  else if String.eqb op "⊆" then
    Some (let! xs := py_iter x in rall (fun xi => py_in same xi y) xs)
  else if String.eqb op "⊇" then
    Some (let! ys := py_iter y in rall (fun yi => py_in same yi x) ys)
  else if String.eqb op "∩" then
    Some (let! xs := py_iter x in rany (fun xi => py_in same xi y) xs)
  else if String.eqb op "not∩" then
    Some (let! xs := py_iter x in let! b := rany (fun xi => py_in same xi y) xs in Ok (negb b))
  else None.

(** [node[i].lower()] on an operator position. *)
Definition op_name (v : pyval) : res exc string :=
  match v with PStr s => Ok (str_lower s) | _ => Err PyAttributeError end.

(** The three-element node [[left, operator, right]] once both operands have
    values. *)
Definition apply_binary (op : string) (left right : pyval) : res exc pyval :=
  match compare_op op left right with
  | Some (Ok b) => Ok (PBool b)
  | Some (Err _) => Err edge_error
  | None =>
      if String.eqb op "and" then Ok (PBool (truthy left && truthy right))
      else if String.eqb op "or" then Ok (PBool (truthy left || truthy right))
      else Err not_supported
  end.

(** One round of the [while] loop over a flattened [and]/[or] chain. *)
Definition apply_chain (op : string) (acc right : pyval) : res exc pyval :=
  if String.eqb op "and" then Ok (PBool (truthy acc && truthy right))
  else if String.eqb op "or" then Ok (PBool (truthy acc || truthy right))
  else Err not_supported.

(** ** [_eval] *)

Section eval_body.
Variable ev : pyval -> res exc pyval.
Variable context : pyval.

Fixpoint eval_chain (acc : pyval) (rest : list pyval) : res exc pyval :=
  match rest with
  | [] => Ok acc
  | o :: rest' =>
      let! op := op_name o in
      match rest' with
      | [] => Err PyIndexError
      | r :: rest'' =>
          let! rhs := ev r in
          let! acc' := apply_chain op acc rhs in
          eval_chain acc' rest''
      end
  end.

Definition eval_list (l : list pyval) : res exc pyval :=
  match l with
  | [] => Err PyIndexError
  | h :: t =>
      match is_custom h with
      | Some f => let! args := rmap ev t in let! b := call_custom f args in Ok (PBool b)
      | None =>
          match t with
          | [x] =>
              match h with
              | PStr s =>
                  if String.eqb (str_lower s) "not" then
                    let! v := ev x in Ok (PBool (negb (truthy v)))
                  else let! acc := ev h in eval_chain acc t
              | _ => let! acc := ev h in eval_chain acc t
              end
          | [o; r] =>
              let! lhs := ev h in
              let! op := op_name o in
              let! rhs := ev r in
              apply_binary op lhs rhs
          | _ => let! acc := ev h in eval_chain acc t
          end
      end
  end.

Definition eval_dict (d : pydict) : res exc pyval :=
  if bool_decide (dict_get "__type__" d = Some (PStr "path")) then
    substitute_resolve (default (PList []) (dict_get "segments" d)) context
  else if bool_decide (dict_get "__type__" d = Some (PStr "len")) then
    match dict_getv "value" d with
    | PDict d' =>
        if bool_decide (dict_get "__type__" d' = Some (PStr "path")) then
          let! v := substitute_resolve (default (PList []) (dict_get "segments" d')) context in
          len_value v
        else len_value (PDict d')
    | v => len_value v
    end
  else if bool_decide (dict_get "__type__" d = Some (PStr "list")) then
    let! vs := py_iter (default (PList []) (dict_get "values" d)) in
    let! rs := rmap ev vs in
    Ok (PList rs)
  else Err edge_error.

Definition eval_node (node : pyval) : res exc pyval :=
  match node with
  | PDict d => eval_dict d
  | PList l => eval_list l
  | v => Ok v
  end.
End eval_body.

Definition fuel_exhausted : exc := ExternalError "RecursionError" "fuel".

Fixpoint eval_fuel (n : nat) (context node : pyval) : res exc pyval :=
  match n with
  | 0 => Err fuel_exhausted
  | S n => eval_node (fun v => eval_fuel n context v) context node
  end.

(** Nesting depth of a value: the fuel [_eval] needs. *)
Fixpoint pv_depth (v : pyval) : nat :=
  match v with
  | PList l => S (fold_right (fun x m => Nat.max (pv_depth x) m) 0 l)
  | PDict d => S (fold_right (fun kv m => Nat.max (pv_depth kv.2) m) 0 d)
  | _ => 1
  end.

(** [EdgeEvaluator._eval(node, context)]. *)
Definition _eval (node context : pyval) : res exc pyval :=
  eval_fuel (S (pv_depth node)) context node.

(** [EdgeEvaluator.is_true]: the value must be a [bool], domain errors pass and
    every other exception becomes an edge error. *)
Definition is_true (context compiled_condition : pyval) : res exc bool :=
  match _eval compiled_condition context with
  | Ok (PBool b) => Ok b
  | Ok _ => Err edge_error
  | Err e => if is_domain_validation e then Err e else Err edge_error
  end.
End evaluator.

(** [EdgeEvaluator.collect_identifiers] on the values [_to_serializable] writes, whose
    [segments] are lists: the root names of all paths, in visiting
    order. *)
Fixpoint collect_identifiers (node : pyval) : list string :=
  match node with
  | PDict d =>
      if bool_decide (dict_get "__type__" d = Some (PStr "path")) then
        match dict_get "segments" d with
        | Some (PList (PList (PStr root :: _) :: _)) => [root]
        | _ => []
        end
      else flat_map (fun kv => collect_identifiers kv.2) d
  | PList l => flat_map collect_identifiers l
  | _ => []
  end.

(** ** Exceptions of the evaluator *)

(** What [_eval] can raise: domain errors and the built-in exceptions of malformed
    conditions. *)
Definition eval_exc (e : exc) : Prop :=
  e ∈ [edge_error; not_supported; PyTypeError; PyIndexError; PyKeyError; PyAttributeError].

Ltac exc_done := unfold eval_exc; set_solver.

(** [raises]: close a [raises_only] goal by following the binds. *)
Ltac raises :=
  repeat first
    [ done | exc_done
    | progress simpl
    | apply raises_only_bind; [|intros ? ?]
    | apply raises_only_rmap; intros ? ?
    | apply raises_only_rfold; intros ? ? ?
    | apply raises_only_rany; intros ? ?
    | apply raises_only_rall; intros ? ?
    | case_match ].

Section evaluator_facts.
Variable same : pyval -> pyval -> bool.

Lemma py_iter_raises v : raises_only eval_exc (py_iter v).
Proof. destruct v; raises. Qed.

Lemma py_in_raises x y : raises_only eval_exc (py_in same x y).
Proof. unfold py_in. destruct y; raises. Qed.

Lemma substitute_resolve_raises segs ctx :
  raises_only eval_exc (substitute_resolve segs ctx).
Proof.
  assert (raises_only eval_exc
            (let! segs := py_iter segs in rfold resolve_segment segs ctx)).
  { apply raises_only_bind; [apply py_iter_raises|]. intros ss _.
    apply raises_only_rfold. intros s seg _. unfold resolve_segment.
    apply raises_only_bind; [unfold seg_head; raises|]. intros name _.
    apply raises_only_bind; [unfold resolve_name, project_item; raises|]. intros v _.
    apply raises_only_rfold. intros. unfold resolve_index. raises. }
  unfold substitute_resolve. destruct ctx; [exc_done|done..].
Qed.

Lemma call_custom_raises f args : raises_only eval_exc (call_custom same f args).
Proof.
  unfold call_custom. raises; first [apply py_iter_raises | apply py_in_raises].
Qed.

Lemma apply_binary_raises op x y : raises_only eval_exc (apply_binary same op x y).
Proof. unfold apply_binary. raises. Qed.

(** The sub-values [eval_node] hands to its recursive call. *)
Definition sub_values (node : pyval) : list pyval :=
  match node with
  | PList l => l
  | PDict d =>
      match py_iter (default (PList []) (dict_get "values" d)) with
      | Ok vs => vs
      | Err _ => []
      end
  | _ => []
  end.

Lemma eval_chain_raises ev acc l :
  (forall v, v ∈ l -> raises_only eval_exc (ev v)) ->
  raises_only eval_exc (eval_chain ev acc l).
Proof.
  revert acc. induction l as [|x|o r l IH] using list_pair_ind; intros acc Hev; simpl.
  - done.
  - unfold op_name. raises.
  - apply raises_only_bind; [unfold op_name; raises|]. intros op _.
    apply raises_only_bind; [apply Hev; set_solver|]. intros v _.
    apply raises_only_bind; [unfold apply_chain; raises|]. intros acc' _.
    apply IH. set_solver.
Qed.

Lemma eval_list_raises ev l :
  (forall v, v ∈ l -> raises_only eval_exc (ev v)) ->
  raises_only eval_exc (eval_list same ev l).
Proof.
  intros Hev. unfold eval_list. destruct l as [|h t]; [exc_done|].
  assert (raises_only eval_exc (let! acc := ev h in eval_chain ev acc t)).
  { apply raises_only_bind; [apply Hev; left|]. intros. apply eval_chain_raises. set_solver. }
  case_match.
  { apply raises_only_bind; [apply raises_only_rmap; set_solver|]. intros args _.
    apply raises_only_bind; [apply call_custom_raises | done]. }
  destruct t as [|x [|y [|z t]]]; try done.
  - destruct h; try done. case_match; [|done].
    apply raises_only_bind; [apply Hev; set_solver | done].
  - apply raises_only_bind; [apply Hev; left|]. intros. apply raises_only_bind.
    { unfold op_name. raises. }
    intros. apply raises_only_bind; [apply Hev; set_solver|].
    intros. apply apply_binary_raises.
Qed.

Lemma eval_dict_raises ev ctx d :
  (forall v, v ∈ sub_values (PDict d) -> raises_only eval_exc (ev v)) ->
  raises_only eval_exc (eval_dict ev ctx d).
Proof.
  intros Hev. unfold eval_dict. case_bool_decide; [apply substitute_resolve_raises|].
  case_bool_decide.
  { unfold len_value. destruct (dict_getv _ _); try (case_match; exc_done).
    case_bool_decide; [|case_match; exc_done].
    apply raises_only_bind; [apply substitute_resolve_raises|]. intros. case_match; exc_done. }
  case_bool_decide; [|exc_done].
  simpl in Hev. destruct (py_iter _) as [vs|e] eqn:Hi; simpl.
  - apply raises_only_bind; [apply raises_only_rmap; auto | done].
  - pose proof (py_iter_raises (default (PList []) (dict_get "values" d))) as Hr.
    by rewrite Hi in Hr.
Qed.

Lemma eval_node_raises ev ctx node :
  (forall v, v ∈ sub_values node -> raises_only eval_exc (ev v)) ->
  raises_only eval_exc (eval_node same ev ctx node).
Proof.
  intros Hev. destruct node; simpl; try done.
  - by apply eval_list_raises.
  - by apply eval_dict_raises.
Qed.

Lemma sub_values_depth node v : v ∈ sub_values node -> pv_depth v < pv_depth node.
Proof.
  assert (Hl : forall l v, v ∈ l -> pv_depth v <=
    fold_right (fun x m => Nat.max (pv_depth x) m) 0 l).
  { clear. induction l as [|x l IH]; intros v; [set_solver|]. simpl.
    intros [->|Hv]%elem_of_cons; [lia|]. specialize (IH _ Hv). lia. }
  assert (Hd : forall d k v, dict_get k d = Some v -> pv_depth v <=
    fold_right (fun kv m => Nat.max (pv_depth kv.2) m) 0 d).
  { clear. induction d as [|[k' x] d IH]; intros k v; simpl; [done|].
    case_match; [intros [= ->]; lia|]. intros Hv. specialize (IH _ _ Hv). lia. }
  destruct node as [| | | | |l|d|]; simpl; try set_solver.
  - intros Hv. specialize (Hl _ _ Hv). lia.
  - destruct (dict_get "values" d) as [w|] eqn:Hg; simpl; [|set_solver].
    specialize (Hd _ _ _ Hg). destruct w as [| | | |s|l|d'|]; simpl in *; try set_solver.
    + intros (c & -> & _)%list_elem_of_fmap. simpl. lia.
    + intros Hv. specialize (Hl _ _ Hv). lia.
    + intros (c & -> & _)%list_elem_of_fmap. simpl. lia.
Qed.

(** With fuel at least the depth of the condition the evaluator never runs dry. *)
Lemma eval_fuel_enough n ctx node :
  pv_depth node <= n -> raises_only eval_exc (eval_fuel same n ctx node).
Proof.
  revert node; induction n as [|n IH]; intros node Hn.
  - exfalso. destruct node; simpl in Hn; lia.
  - simpl. apply eval_node_raises. intros v Hv%sub_values_depth. apply IH. lia.
Qed.

Lemma is_true_errors ctx cond e :
  is_true same ctx cond = Err e -> e = edge_error \/ e = not_supported.
Proof.
  unfold is_true, _eval.
  pose proof (eval_fuel_enough (S (pv_depth cond)) ctx cond ltac:(lia)) as Hr.
  destruct (eval_fuel _ _ _ _) as [v|e']; simpl in Hr; [intros H; destruct v; simplify_eq/=; auto|].
  unfold eval_exc in Hr. intros H.
  repeat (apply elem_of_cons in Hr as [->|Hr]; [simpl in H; injection H as <-; auto|]).
  by apply elem_of_nil in Hr.
Qed.

(** Evaluating an edge condition always terminates with a verdict: whatever
    JSON value is stored as the compiled condition and whatever the node's output
    is, [is_true] returns a boolean or raises a [DomainValidationException] whose
    message is [edge_evaluation_error] or [edge_condition_not_supported]; no other
    exception escapes and the fuel is never exhausted. *)
Theorem is_true_total ctx cond :
  (exists b, is_true same ctx cond = Ok b) \/
  is_true same ctx cond = Err edge_error \/ is_true same ctx cond = Err not_supported.
Proof.
  destruct (is_true same ctx cond) as [b|e] eqn:H; [by eauto|].
  right. by destruct (is_true_errors ctx cond e H) as [-> | ->]; auto.
Qed.
End evaluator_facts.

(** ** Compiling a condition *)

(** The tokens the grammar's parse actions leave: literals, property paths (name
    and indices per segment), [len(path)], list literals and groups. *)
Inductive scalar : Type :=
  | SNone
  | SBool (b : bool)
  | SInt (z : Z)
  | SFloat (f : pyfloat)
  | SStr (s : string).

Definition segment : Type := string * list Z.

Inductive ast : Type :=
  | ALit (l : scalar)
  | APath (root : segment) (rest : list segment)
  | ALen (root : segment) (rest : list segment)
  | AListLit (vals : list ast)
  | AGroup (items : list ast).

Definition scalar_val (l : scalar) : pyval :=
  match l with
  | SNone => PNone | SBool b => PBool b | SInt z => PInt z
  | SFloat f => PFloat f | SStr s => PStr s
  end.

Definition segment_val (s : segment) : pyval := PList (PStr s.1 :: (PInt <$> s.2)).

Definition path_val (root : segment) (rest : list segment) : pyval :=
  PDict [("__type__", PStr "path"); ("segments", PList (segment_val <$> root :: rest))].

(** [EdgeEvaluator._to_serializable]. *)
Fixpoint _to_serializable (a : ast) : pyval :=
  match a with
  | ALit l => scalar_val l
  | APath root rest => path_val root rest
  | ALen root rest => PDict [("__type__", PStr "len"); ("value", path_val root rest)]
  | AListLit vals => PDict [("__type__", PStr "list"); ("values", PList (_to_serializable <$> vals))]
  | AGroup items => PList (_to_serializable <$> items)
  end.

(** [EdgeEvaluator.compile_condition], over the parser [parse_string] built from the
    grammar: every failure is reported as [edge_condition_invalid]. *)
Definition compile_condition (parse_string : string -> option ast) (condition : string) : res exc pyval :=
  match parse_string condition with
  | Some a => Ok (_to_serializable a)
  | None => Err (DomainValidationException "edge_condition_invalid")
  end.

(** Every path of the condition names a root. *)
Fixpoint paths_rooted (node : pyval) : bool :=
  match node with
  | PDict d =>
      if bool_decide (dict_get "__type__" d = Some (PStr "path")) then
        match dict_get "segments" d with
        | Some (PList (PList (PStr _ :: _) :: _)) => true
        | _ => false
        end
      else forallb (fun kv => paths_rooted kv.2) d
  | PList l => forallb paths_rooted l
  | _ => true
  end.

Section ast_ind.
Variable P : ast -> Prop.
Hypothesis Hlit : forall l, P (ALit l).
Hypothesis Hpath : forall r s, P (APath r s).
Hypothesis Hlen : forall r s, P (ALen r s).
Hypothesis Hll : forall l, Forall P l -> P (AListLit l).
Hypothesis Hgr : forall l, Forall P l -> P (AGroup l).

Fixpoint ast_nested_ind (a : ast) : P a :=
  let fix go l : Forall P l :=
    match l with
    | [] => Forall_nil_2 _
    | x :: l' => Forall_cons_2 _ x l' (ast_nested_ind x) (go l')
    end in
  match a with
  | ALit l => Hlit l
  | APath r s => Hpath r s
  | ALen r s => Hlen r s
  | AListLit l => Hll l (go l)
  | AGroup l => Hgr l (go l)
  end.
End ast_ind.

Lemma to_serializable_rooted a : paths_rooted (_to_serializable a) = true.
Proof.
  assert (Hl : forall l, Forall (fun a => paths_rooted (_to_serializable a) = true) l ->
                         forallb paths_rooted (_to_serializable <$> l) = true).
  { induction 1 as [|x l Hx _ IH]; simpl; [done|]. by rewrite Hx. }
  induction a as [[]| | |l IH|l IH] using ast_nested_ind; simpl; auto.
  by rewrite Hl.
Qed.

(** ** Conditions read only the identifiers they name *)

Section reads.
Variable same : pyval -> pyval -> bool.

Lemma eval_chain_ext ev1 ev2 acc l :
  (forall v, v ∈ l -> ev1 v = ev2 v) -> eval_chain ev1 acc l = eval_chain ev2 acc l.
Proof.
  revert acc. induction l as [|x|o r l IH] using list_pair_ind; intros acc Hev; simpl; try done.
  destruct (op_name o) as [op|]; simpl; [|done].
  rewrite (Hev r) by set_solver. destruct (ev2 r) as [v|]; simpl; [|done].
  destruct (apply_chain op acc v); simpl; [|done]. apply IH. set_solver.
Qed.

Lemma eval_list_ext ev1 ev2 l :
  (forall v, v ∈ l -> ev1 v = ev2 v) -> eval_list same ev1 l = eval_list same ev2 l.
Proof.
  intros Hev. unfold eval_list. destruct l as [|h t]; [done|].
  rewrite (rmap_ext ev1 ev2 t), (Hev h) by set_solver.
  assert (forall acc, eval_chain ev1 acc t = eval_chain ev2 acc t) as Hc.
  { intros. apply eval_chain_ext. set_solver. }
  destruct t as [|x [|y [|z t]]]; repeat (case_match; try done);
    destruct (ev2 h); simpl; try done; try apply Hc;
    try (by rewrite (Hev x) by set_solver); try (by rewrite (Hev y) by set_solver).
  all: by rewrite ?(Hev x), ?(Hev y) by set_solver.
Qed.

Variables d1 d2 : pydict.

Definition agree_on (ids : list string) : Prop :=
  forall i, i ∈ ids -> dict_get i d1 = dict_get i d2.

Lemma substitute_resolve_agree d :
  dict_get "__type__" d = Some (PStr "path") -> paths_rooted (PDict d) = true ->
  agree_on (collect_identifiers (PDict d)) ->
  substitute_resolve (default (PList []) (dict_get "segments" d)) (PDict d1) =
  substitute_resolve (default (PList []) (dict_get "segments" d)) (PDict d2).
Proof.
  intros Ht. simpl. rewrite bool_decide_eq_true_2 by done.
  destruct (dict_get "segments" d) as [[| | | | |[|[| | | | |[|[| | | |root| | |] idx]| |] rest]| |]|];
    try done.
  intros _ Hag. simpl. unfold resolve_segment at 1 3. simpl.
  by rewrite (Hag root) by set_solver.
Qed.

Lemma agree_sub_values node v :
  v ∈ sub_values node -> paths_rooted node = true ->
  agree_on (collect_identifiers node) ->
  (forall d, node = PDict d -> dict_get "__type__" d <> Some (PStr "path")) ->
  paths_rooted v = true /\ agree_on (collect_identifiers v).
Proof.
  intros Hv Hp Hag Hnp.
  assert (Hl : forall l v, v ∈ l -> forallb paths_rooted l = true ->
    agree_on (flat_map collect_identifiers l) -> paths_rooted v = true /\
    agree_on (collect_identifiers v)).
  { intros l w Hw Hf Ha. split; [by eapply forallb_elem_of in Hf|].
    intros i Hi. apply Ha. apply list_elem_of_In, in_flat_map. exists w.
    by rewrite <-!list_elem_of_In. }
  destruct node as [| | | | |l|d|]; simpl in *;
    try (by apply elem_of_nil in Hv); [by eapply Hl|].
  rewrite bool_decide_eq_false_2 in Hp, Hag by (by apply Hnp).
  destruct (dict_get "values" d) as [w|] eqn:Hg; simpl in Hv; [|by apply elem_of_nil in Hv].
  apply dict_get_elem_of in Hg.
  assert (Hw : paths_rooted w = true /\ agree_on (collect_identifiers w)).
  { split; [by eapply forallb_elem_of in Hp; [|exact Hg]|].
    intros i Hi. apply Hag. apply list_elem_of_In, in_flat_map. exists ("values", w).
    by rewrite <-!list_elem_of_In. }
  destruct w as [| | | |s|l|d'|]; simpl in Hv; try (by apply elem_of_nil in Hv).
  - apply list_elem_of_fmap in Hv as (c & -> & _). split; [done|]. by intros i Hi%elem_of_nil.
  - simpl in Hw. destruct Hw. by eapply Hl.
  - apply list_elem_of_fmap in Hv as (c & -> & _). split; [done|]. by intros i Hi%elem_of_nil.
Qed.
End reads.

Section reads_eval.
Variable same : pyval -> pyval -> bool.

Definition is_path (d : pydict) : Prop := dict_get "__type__" d = Some (PStr "path").
Definition segs_of (d : pydict) : pyval := default (PList []) (dict_get "segments" d).

(** Two evaluations of a node agree when they agree on its sub-values and resolve
    its paths alike. *)
Lemma eval_node_ext ev1 ev2 c1 c2 node :
  (forall v, v ∈ sub_values node -> (forall d, node = PDict d -> ~ is_path d) -> ev1 v = ev2 v) ->
  (forall d, node = PDict d -> is_path d ->
             substitute_resolve (segs_of d) c1 = substitute_resolve (segs_of d) c2) ->
  (forall d d', node = PDict d -> ~ is_path d -> dict_getv "value" d = PDict d' -> is_path d' ->
             substitute_resolve (segs_of d') c1 = substitute_resolve (segs_of d') c2) ->
  eval_node same ev1 c1 node = eval_node same ev2 c2 node.
Proof.
  intros Hev Hp Hl. destruct node as [| | | | |l|d|]; simpl; try done.
  - apply eval_list_ext. intros v Hv. by apply Hev.
  - unfold eval_dict. case_bool_decide as Hpath; [by apply Hp|].
    case_bool_decide.
    { destruct (dict_getv "value" d) as [| | | | | |d'|] eqn:Hv; try done.
      case_bool_decide; [|done]. unfold segs_of in Hl. by rewrite (Hl d d'). }
    case_bool_decide; [|done].
    assert (Hs : forall v, v ∈ sub_values (PDict d) -> ev1 v = ev2 v).
    { intros v Hv. apply Hev; [done|]. by intros ? [= <-]. }
    simpl in Hs. destruct (py_iter _); simpl; [|done]. by rewrite (rmap_ext ev1 ev2).
Qed.

(** Fuel beyond the depth of the condition changes nothing. *)
Lemma eval_fuel_irrelevant n m ctx node :
  pv_depth node <= n -> pv_depth node <= m ->
  eval_fuel same n ctx node = eval_fuel same m ctx node.
Proof.
  revert m node; induction n as [|n IH]; intros [|m] node Hn Hm;
    [done|exfalso; destruct node; simpl in *; lia..|].
  simpl. apply eval_node_ext; try done.
  intros v Hv%sub_values_depth _. apply IH; lia.
Qed.

Lemma eval_fuel_agree d1 d2 n node :
  paths_rooted node = true -> agree_on d1 d2 (collect_identifiers node) ->
  eval_fuel same n (PDict d1) node = eval_fuel same n (PDict d2) node.
Proof.
  revert node; induction n as [|n IH]; intros node Hp Hag; simpl; [done|].
  apply eval_node_ext.
  - intros v Hv Hnp. destruct (agree_sub_values d1 d2 node v) as [? ?]; auto.
  - intros d -> Hd. by apply substitute_resolve_agree.
  - intros d d' -> Hnp Hv Hd'. unfold dict_getv in Hv.
    destruct (dict_get "value" d) as [w|] eqn:Hg; simpl in Hv; [subst w|done].
    apply dict_get_elem_of in Hg. simpl in Hp, Hag.
    rewrite bool_decide_eq_false_2 in Hp, Hag by done.
    apply substitute_resolve_agree; [done| |].
    + by eapply forallb_elem_of in Hp; [|exact Hg].
    + intros i Hi. apply Hag, list_elem_of_In, in_flat_map. exists ("value", PDict d').
      by rewrite <-!list_elem_of_In.
Qed.

(** A compiled condition reads nothing of a node's output but the root names
    [collect_identifiers] reports: two outputs that agree on those names give the
    same verdict (or the same error), for every condition [compile_condition] can
    produce. *)
Theorem condition_reads_identifiers parse condition compiled d1 d2 :
  compile_condition parse condition = Ok compiled ->
  agree_on d1 d2 (collect_identifiers compiled) ->
  is_true same (PDict d1) compiled = is_true same (PDict d2) compiled.
Proof.
  unfold compile_condition. destruct (parse condition) as [a|]; [|done].
  intros [= <-] Hag. unfold is_true, _eval.
  by rewrite (eval_fuel_agree d1 d2) by (done || apply to_serializable_rooted).
Qed.
End reads_eval.

(** ** The boolean structure of a condition *)

(** The conditions a flow author composes from atomic tests with [not], [and] and
    [or]; an n-ary [and] is one flat group, as the grammar builds it. *)
Inductive cond : Type :=
  | CAtom (a : pyval)
  | CNot (c : cond)
  | CAnd (c : cond) (cs : list cond)
  | COr (c : cond) (cs : list cond).

Section cond_ind.
Variable P : cond -> Prop.
Hypothesis Hatom : forall a, P (CAtom a).
Hypothesis Hnot : forall c, P c -> P (CNot c).
Hypothesis Hand : forall c cs, P c -> Forall P cs -> P (CAnd c cs).
Hypothesis Hor : forall c cs, P c -> Forall P cs -> P (COr c cs).

Fixpoint cond_nested_ind (c : cond) : P c :=
  let fix go l : Forall P l :=
    match l with
    | [] => Forall_nil_2 _
    | x :: l' => Forall_cons_2 _ x l' (cond_nested_ind x) (go l')
    end in
  match c with
  | CAtom a => Hatom a
  | CNot c => Hnot c (cond_nested_ind c)
  | CAnd c cs => Hand c cs (cond_nested_ind c) (go cs)
  | COr c cs => Hor c cs (cond_nested_ind c) (go cs)
  end.
End cond_ind.

(** The flat operator chain of an n-ary connective. *)
Definition chain_tail (op : string) (vs : list pyval) : list pyval :=
  flat_map (fun v => [PStr op; v]) vs.

Fixpoint encode (c : cond) : pyval :=
  match c with
  | CAtom a => a
  | CNot c => PList [PStr "not"; encode c]
  | CAnd c cs => PList (encode c :: chain_tail "and" (encode <$> cs))
  | COr c cs => PList (encode c :: chain_tail "or" (encode <$> cs))
  end.

(** Every connective has at least two operands, and no atom is a string literal
    that names a function of the edge language. *)
Fixpoint cond_ok (c : cond) : bool :=
  match c with
  | CAtom a => match is_custom a with None => true | Some _ => false end
  | CNot c => cond_ok c
  | CAnd c cs | COr c cs =>
      cond_ok c && forallb cond_ok cs && negb (Nat.eqb (length cs) 0)
  end.

Fixpoint atoms (c : cond) : list pyval :=
  match c with
  | CAtom a => [a]
  | CNot c => atoms c
  | CAnd c cs | COr c cs => atoms c ++ flat_map atoms cs
  end.

(** Classical reading of the condition, given the truth of its atoms. *)
Fixpoint denote (val : pyval -> bool) (c : cond) : bool :=
  match c with
  | CAtom a => val a
  | CNot c => negb (denote val c)
  | CAnd c cs => denote val c && forallb (denote val) cs
  | COr c cs => denote val c || existsb (denote val) cs
  end.

Definition is_atom (c : cond) : bool := match c with CAtom _ => true | _ => false end.

Section denotation.
Variable same : pyval -> pyval -> bool.
Variable ctx : pyval.

(** The truth of an atom: its value's truthiness. *)
Definition atom_val (a : pyval) : bool :=
  match _eval same a ctx with Ok v => truthy v | Err _ => false end.

(** [ev] gives [v] a value of truth [b]. *)
Definition evals_to (ev : pyval -> res exc pyval) (v : pyval) (b : bool) : Prop :=
  exists w, ev v = Ok w /\ truthy w = b.

Lemma eval_chain_and ev acc vs bs :
  Forall2 (evals_to ev) vs bs -> vs <> [] ->
  eval_chain ev acc (chain_tail "and" vs) = Ok (PBool (truthy acc && forallb id bs)).
Proof.
  intros H. revert acc. induction H as [|v b vs bs (w & Hw & <-) Hvs IH]; intros acc Hne; [done|].
  simpl. rewrite Hw. simpl. unfold apply_chain. simpl.
  destruct (decide (vs = [])) as [->|Hvs'].
  - inversion Hvs; subst. simpl. by rewrite andb_true_r.
  - rewrite IH by done. simpl. unfold id. by rewrite andb_assoc.
Qed.

Lemma eval_chain_or ev acc vs bs :
  Forall2 (evals_to ev) vs bs -> vs <> [] ->
  eval_chain ev acc (chain_tail "or" vs) = Ok (PBool (truthy acc || existsb id bs)).
Proof.
  intros H. revert acc. induction H as [|v b vs bs (w & Hw & <-) Hvs IH]; intros acc Hne; [done|].
  simpl. rewrite Hw. simpl. unfold apply_chain. simpl.
  destruct (decide (vs = [])) as [->|Hvs'].
  - inversion Hvs; subst. simpl. by rewrite orb_false_r.
  - rewrite IH by done. simpl. unfold id. by rewrite orb_assoc.
Qed.

(** A connective group evaluates like its chain, the two-operand form included. *)
Lemma eval_group ev op h vs :
  is_custom h = None -> vs <> [] -> op = "and" \/ op = "or" ->
  eval_list same ev (h :: chain_tail op vs) = (let! acc := ev h in eval_chain ev acc (chain_tail op vs)).
Proof.
  intros Hh Hne Hop. destruct vs as [|v [|v' vs]]; [done| |]; simpl; rewrite Hh; [|done].
  destruct (ev h) as [x|]; simpl; [|done].
  destruct (ev v) as [y|]; simpl; [|by destruct Hop as [-> | ->]].
  by destruct Hop as [-> | ->].
Qed.

Lemma encode_not_custom c : cond_ok c = true -> is_custom (encode c) = None.
Proof. destruct c; simpl; try done. by destruct (is_custom a). Qed.

Lemma chain_tail_depth op vs v :
  v ∈ vs -> pv_depth v <= fold_right (fun x m => Nat.max (pv_depth x) m) 0 (chain_tail op vs).
Proof.
  induction vs as [|x vs IH]; [set_solver|]. simpl.
  intros [->|Hv]%elem_of_cons; [lia|]. specialize (IH Hv). lia.
Qed.

Lemma eval_operands ev cs :
  Forall (fun c => evals_to ev (encode c) (denote atom_val c)) cs ->
  Forall2 (evals_to ev) (encode <$> cs) (denote atom_val <$> cs).
Proof. induction 1; simpl; constructor; auto. Qed.

Lemma forallb_denote cs : forallb id (denote atom_val <$> cs) = forallb (denote atom_val) cs.
Proof. induction cs as [|c cs IH]; simpl; [done|]. by rewrite <-IH. Qed.
Lemma existsb_denote cs : existsb id (denote atom_val <$> cs) = existsb (denote atom_val) cs.
Proof. induction cs as [|c cs IH]; simpl; [done|]. by rewrite <-IH. Qed.

(** All operands of a connective evaluate, at any fuel that covers the group. *)
Lemma operands_eval n op c cs :
  (forall m, pv_depth (encode c) <= m -> evals_to (eval_fuel same m ctx) (encode c) (denote atom_val c)) ->
  Forall (fun c => forall m, pv_depth (encode c) <= m ->
            evals_to (eval_fuel same m ctx) (encode c) (denote atom_val c)) cs ->
  pv_depth (PList (encode c :: chain_tail op (encode <$> cs))) <= S n ->
  evals_to (eval_fuel same n ctx) (encode c) (denote atom_val c) /\
  Forall2 (evals_to (eval_fuel same n ctx)) (encode <$> cs) (denote atom_val <$> cs).
Proof.
  intros Hc Hcs Hn. simpl in Hn. split; [apply Hc; lia|]. apply eval_operands.
  rewrite Forall_forall in Hcs |- *. intros x Hx. apply Hcs; [done|].
  pose proof (chain_tail_depth op (encode <$> cs) (encode x)) as Hd.
  specialize (Hd ltac:(by apply list_elem_of_fmap_2)). lia.
Qed.

Definition cond_evals (c : cond) : Prop :=
  cond_ok c = true -> (forall a, a ∈ atoms c -> is_ok (_eval same a ctx) = true) ->
  forall n, pv_depth (encode c) <= n ->
  evals_to (eval_fuel same n ctx) (encode c) (denote atom_val c) /\
  (is_atom c = false -> eval_fuel same n ctx (encode c) = Ok (PBool (denote atom_val c))).

(** The common case of [and] and [or]. *)
Lemma connective_eval op c cs C :
  cond_evals c -> Forall cond_evals cs -> op = "and" \/ op = "or" ->
  encode C = PList (encode c :: chain_tail op (encode <$> cs)) ->
  atoms C = atoms c ++ flat_map atoms cs ->
  cond_ok C = cond_ok c && forallb cond_ok cs && negb (Nat.eqb (length cs) 0) ->
  (forall ev w, ev (encode c) = Ok w -> truthy w = denote atom_val c ->
     Forall2 (evals_to ev) (encode <$> cs) (denote atom_val <$> cs) ->
     encode <$> cs <> [] ->
     (let! acc := ev (encode c) in eval_chain ev acc (chain_tail op (encode <$> cs))) =
     Ok (PBool (denote atom_val C))) ->
  cond_evals C.
Proof.
  intros IHc IHcs Hop Henc Hatoms HokC Hchain Hok Hat n Hn.
  cut (eval_fuel same n ctx (encode C) = Ok (PBool (denote atom_val C))).
  { intros E. split; [exists (PBool (denote atom_val C)); auto | done]. }
  rewrite HokC in Hok. apply andb_prop in Hok as [[Hokc Hokcs]%andb_prop Hlen].
  assert (Hne : encode <$> cs <> []) by (by destruct cs).
  rewrite Henc in Hn |- *. destruct n as [|n]; [simpl in Hn; lia|].
  rewrite Hatoms in Hat.
  destruct (operands_eval n op c cs) as [(w & Hw & Hwb) Hops]; [..|done|].
  - intros m Hm. apply IHc; [done| |done]. intros. apply Hat. set_solver.
  - rewrite Forall_forall in IHcs |- *. intros x Hx m Hm. apply IHcs; [done| | |done].
    + by eapply forallb_elem_of in Hokcs.
    + intros a Ha. apply Hat, elem_of_app. right. apply list_elem_of_In, in_flat_map.
      exists x. by rewrite <-!list_elem_of_In.
  - cbn [eval_fuel eval_node]. rewrite eval_group by (done || by apply encode_not_custom).
    by eapply Hchain.
Qed.

Lemma encode_eval c : cond_evals c.
Proof.
  induction c as [a|c IH|c cs IHc IHcs|c cs IHc IHcs] using cond_nested_ind.
  - intros Hok Hat n Hn. split; [|done]. specialize (Hat a ltac:(set_solver)).
    unfold evals_to. simpl.
    rewrite (eval_fuel_irrelevant same n (S (pv_depth a))) by (simpl in Hn; lia).
    unfold atom_val. unfold _eval in *. destruct (eval_fuel _ _ _ a); [eauto | done].
  - intros Hok Hat n Hn.
    cut (eval_fuel same n ctx (encode (CNot c)) = Ok (PBool (denote atom_val (CNot c)))).
    { intros E. split; [exists (PBool (denote atom_val (CNot c))); auto | done]. }
    destruct n as [|n]; [simpl in Hn; lia|]. simpl in Hn |- *.
    destruct (IH Hok Hat n ltac:(lia)) as [(w & Hw & <-) _]. by rewrite Hw.
  - eapply (connective_eval "and" c cs); auto. intros ev w Hw Hb Hops Hne.
    rewrite Hw. simpl. erewrite eval_chain_and by done. by rewrite forallb_denote, Hb.
  - eapply (connective_eval "or" c cs); auto. intros ev w Hw Hb Hops Hne.
    rewrite Hw. simpl. erewrite eval_chain_or by done. by rewrite existsb_denote, Hb.
Qed.

(** On conditions built from atomic tests with [not], [and] and [or] the
    evaluator computes the classical boolean value of the condition (an atom counts
    by the truthiness of its value), provided no atom raises; [and]/[or] groups of
    any number of operands are evaluated left to right, all operands included. *)
Theorem is_true_denotation c :
  cond_ok c = true -> is_atom c = false ->
  (forall a, a ∈ atoms c -> is_ok (_eval same a ctx) = true) ->
  is_true same ctx (encode c) = Ok (denote atom_val c).
Proof.
  intros Hok Ha Hat. unfold is_true, _eval.
  destruct (encode_eval c Hok Hat (S (pv_depth (encode c))) ltac:(lia)) as [_ H].
  by rewrite (H Ha).
Qed.
End denotation.

(** ** Witnesses *)

Definition demo_path (name : string) : pyval := path_val (name, []) [].

Lemma condition_reads_identifiers_witness :
  is_true (fun _ _ => true) (PDict [("flagged", PBool true); ("other", PInt 1)])
    (PList [demo_path "flagged"; PStr "=="; PBool true]) =
  is_true (fun _ _ => true) (PDict [("flagged", PBool true)])
    (PList [demo_path "flagged"; PStr "=="; PBool true]).
Proof.
  apply (condition_reads_identifiers (fun _ _ => true)
           (fun _ => Some (AGroup [APath ("flagged", []) []; ALit (SStr "=="); ALit (SBool true)]))
           "flagged == true"); [reflexivity|].
  intros i Hi. apply list_elem_of_singleton in Hi as ->. reflexivity.
Defined.

Lemma is_true_denotation_witness :
  is_true (fun _ _ => true) (PDict [("a", PBool true); ("b", PBool false)])
    (encode (CAnd (CAtom (demo_path "a")) [CNot (CAtom (demo_path "b")); CAtom (demo_path "a")])) =
  Ok true.
Proof.
  apply (is_true_denotation (fun _ _ => true) (PDict [("a", PBool true); ("b", PBool false)])
           (CAnd (CAtom (demo_path "a")) [CNot (CAtom (demo_path "b")); CAtom (demo_path "a")]));
    [reflexivity | reflexivity |].
  intros x Hx. simpl in Hx.
  repeat (apply elem_of_cons in Hx as [->|Hx]; [reflexivity|]). by apply elem_of_nil in Hx.
Defined.
