(* ===== verification/GraphSearch.v ===== *)
(** * GraphSearch: the depth-first searches of the graph validators

    [FlowGraphValidator.validate], [FlowGraphDraftValidator._validate_cycles],
    [GraphCompiler._validate_reachability] and [GraphCompiler._validate_loops] walk
    the flow graph with recursive closures over mutable sets.  This file has the
    three search schemes they share (reachability, cycle detection with marked
    edges, existence of a terminal path), over an arbitrary successor function, with
    their specifications.  Recursion is bounded by fuel; the size of any finite set
    that contains the start node and is closed under successors is enough, because
    every recursive call marks a node that was not marked before. *)

From S2P Require Import Prelude.
From S2P Require Import Errors.

Definition closed_under (succ : string -> list string) (U : gset string) : Prop :=
  forall u v, u ∈ U -> v ∈ succ u -> v ∈ U.

Lemma size_shrinks (U vis vis' : gset string) n :
  n ∈ U -> n ∉ vis -> {[n]} ∪ vis ⊆ vis' -> S (size (U ∖ vis')) <= size (U ∖ vis).
Proof.
  intros HU Hn Hsub.
  assert (Hs : {[n]} ∪ (U ∖ vis') ⊆ U ∖ vis) by set_solver.
  apply subseteq_size in Hs. rewrite size_union in Hs by set_solver.
  rewrite size_singleton in Hs. lia.
Qed.

(** Reachability depends only on the edges. *)
Lemma rtc_proper_iff {A} (R S : relation A) :
  (forall x y, R x y <-> S x y) -> forall x y, rtc R x y <-> rtc S x y.
Proof. intros H x y. split; apply rtc_subrel; intros u v; apply H. Qed.

(** ** Reachability *)

Section reachability.
Variable succ : string -> list string.

Definition edge_rel (u v : string) : Prop := v ∈ succ u.

Lemma closed_rtc U u v : closed_under succ U -> rtc edge_rel u v -> u ∈ U -> v ∈ U.
Proof. intros HU. induction 1 as [|a b c Hab _ IH]; [done|]. intros Ha. eapply IH, HU; done. Qed.

(** [def dfs(node_id): if node_id in visited: return; visited.add(node_id);
    for nxt in succ(node_id): dfs(nxt)]. *)
Fixpoint dfs (fuel : nat) (visited : gset string) (n : string) : gset string :=
  match fuel with
  | 0 => visited
  | S fuel =>
      if bool_decide (n ∈ visited) then visited
      else fold_left (dfs fuel) (succ n) ({[n]} ∪ visited)
  end.

Lemma dfs_sound fuel visited n x :
  x ∈ dfs fuel visited n -> x ∈ visited \/ rtc edge_rel n x.
Proof.
  revert visited n; induction fuel as [|fuel IH]; intros visited n; simpl; [auto|].
  case_bool_decide; [auto|].
  assert (Hf : forall l vis, (forall m, m ∈ l -> m ∈ succ n) ->
    x ∈ fold_left (dfs fuel) l vis -> x ∈ vis \/ rtc edge_rel n x).
  { induction l as [|m l IHl]; intros vis Hl; simpl; [auto|].
    intros [Hx|Hx]%IHl; [|auto|set_solver].
    apply IH in Hx as [Hx|Hx]; [auto|]. right. eapply rtc_l; [|done]. apply Hl. set_solver. }
  intros [Hx|Hx]%Hf; [|auto|auto].
  apply elem_of_union in Hx as [->%elem_of_singleton|Hx]; [right; constructor | auto].
Qed.

Variable U : gset string.
Hypothesis U_closed : closed_under succ U.

(** What a call adds to [visited] is closed under successors. *)
Definition dfs_post (vis vis' : gset string) (n : string) : Prop :=
  vis ⊆ vis' /\ n ∈ vis' /\ forall x y, x ∈ vis' -> x ∉ vis -> y ∈ succ x -> y ∈ vis'.

Lemma dfs_complete fuel visited n :
  n ∈ U -> size (U ∖ visited) < fuel -> dfs_post visited (dfs fuel visited n) n.
Proof.
  revert visited n; induction fuel as [|fuel IH]; intros visited n HU Hfuel; [lia|].
  simpl. case_bool_decide as Hn; [split_and!; set_solver|].
  assert (Hf : forall l vis, (forall m, m ∈ l -> m ∈ U) -> {[n]} ∪ visited ⊆ vis ->
    let vis' := fold_left (dfs fuel) l vis in
    vis ⊆ vis' /\ (forall m, m ∈ l -> m ∈ vis') /\
    forall x y, x ∈ vis' -> x ∉ vis -> y ∈ succ x -> y ∈ vis').
  { induction l as [|m l IHl]; intros vis Hl Hsub; simpl; [set_solver|].
    pose proof (size_shrinks U visited vis n HU Hn Hsub).
    destruct (IH vis m) as (P1 & P2 & P3); [apply Hl; left | lia |].
    destruct (IHl (dfs fuel vis m)) as (Q1 & Q2 & Q3).
    { intros m' Hm'. apply Hl. by right. }
    { by etrans. }
    split_and!; [by etrans| |].
    - intros m' [->|Hm']%elem_of_cons; [by apply Q1 | auto].
    - intros x y Hx Hnx Hy. destruct (decide (x ∈ dfs fuel vis m)); [|eauto].
      apply Q1. eauto. }
  destruct (Hf (succ n) ({[n]} ∪ visited)) as (P1 & P2 & P3).
  { intros m Hm. by eapply U_closed. }
  { done. }
  split_and!; [set_solver | set_solver |].
  intros x y Hx Hnx Hy. destruct (decide (x = n)) as [->|]; [auto|]. eapply P3; set_solver.
Qed.

(** With enough fuel the search computes exactly the nodes reachable from the
    start. *)
Lemma dfs_reachable start x :
  start ∈ U -> x ∈ dfs (S (size U)) ∅ start <-> rtc edge_rel start x.
Proof.
  intros HU. split.
  - intros [Hx|Hx]%dfs_sound; [set_solver | done].
  - destruct (dfs_complete (S (size U)) ∅ start HU) as (_ & H1 & H2).
    { rewrite difference_empty_L. lia. }
    intros Hr. revert H1. generalize (dfs (S (size U)) ∅ start) H2. clear H2 HU.
    intros V HV. induction Hr as [|a b c Hab _ IH]; intros Ha; [done|].
    apply IH. eapply HV; [done | set_solver | done].
Qed.
End reachability.

(** ** Terminal paths *)

Section terminal_path.
Variable succ : string -> list string.
Variable is_terminal : string -> bool.

(** [has_terminal_path(node_id, seen)]: each branch explores with its own copy of
    [seen]. *)
Fixpoint has_terminal_path (fuel : nat) (n : string) (seen : gset string) : bool :=
  match fuel with
  | 0 => false
  | S fuel =>
      if bool_decide (n ∈ seen) then false
      else if is_terminal n then true
      else existsb (fun m => has_terminal_path fuel m ({[n]} ∪ seen)) (succ n)
  end.

Lemma has_terminal_path_sound fuel n seen :
  has_terminal_path fuel n seen = true ->
  exists t, is_terminal t = true /\ rtc (edge_rel succ) n t.
Proof.
  revert n seen; induction fuel as [|fuel IH]; intros n seen; simpl; [done|].
  case_bool_decide; [done|]. destruct (is_terminal n) eqn:Ht.
  - intros _. exists n. split; [done | constructor].
  - intros (m & Hm & (t & Ht' & Hr)%IH)%existsb_elem_of. exists t.
    split; [done|]. by eapply rtc_l.
Qed.

(** A path as the list of its nodes after the first. *)
Inductive path : string -> list string -> string -> Prop :=
  | path_nil n : path n [] n
  | path_cons n m l t : m ∈ succ n -> path m l t -> path n (m :: l) t.

(** A simple path restarts at any of its nodes. *)
Lemma path_restart n m l t :
  path m l t -> NoDup (m :: l) -> n ∈ m :: l -> exists l', path n l' t /\ NoDup (n :: l').
Proof.
  induction 1 as [x|x y l t Hy Hp IHp]; intros Hnd Hin.
  - apply list_elem_of_singleton in Hin as ->. exists []. split; [constructor | done].
  - apply elem_of_cons in Hin as [->|Hin]; [exists (y :: l); split; [by econstructor | done]|].
    apply IHp; [|done]. by apply NoDup_cons in Hnd as [_ ?].
Qed.

(** Loops on a path can be cut out, so some path repeats no node. *)
Lemma simple_path n t : rtc (edge_rel succ) n t -> exists l, path n l t /\ NoDup (n :: l).
Proof.
  induction 1 as [n|n m t Hnm _ (l & Hl & Hnd)].
  - exists []. split; [constructor | apply NoDup_singleton].
  - destruct (decide (n ∈ m :: l)); [by eapply path_restart|].
    exists (m :: l). split; [by econstructor | by constructor].
Qed.

Variable U : gset string.
Hypothesis U_closed : closed_under succ U.

Lemma has_terminal_path_simple fuel n l t seen :
  path n l t -> NoDup (n :: l) -> (forall x, x ∈ n :: l -> x ∉ seen) ->
  is_terminal t = true -> length l < fuel -> has_terminal_path fuel n seen = true.
Proof.
  intros Hp. revert fuel seen. induction Hp as [n|n m l t Hm Hp IH];
    intros [|fuel] seen Hnd Hseen Ht Hfuel; simpl in *; try lia.
  - rewrite bool_decide_eq_false_2 by (apply Hseen; set_solver). by rewrite Ht.
  - rewrite bool_decide_eq_false_2 by (apply Hseen; set_solver).
    destruct (is_terminal n); [done|]. apply existsb_elem_of. exists m. split; [done|].
    apply NoDup_cons in Hnd as [Hn Hnd].
    apply IH; [done| |done|lia]. intros x Hx. specialize (Hseen x ltac:(set_solver)).
    set_solver.
Qed.

Lemma path_in_universe n l t : path n l t -> n ∈ U -> forall x, x ∈ n :: l -> x ∈ U.
Proof.
  induction 1 as [n|n m l t Hm Hp IH]; intros HU x Hx.
  - by apply list_elem_of_singleton in Hx as ->.
  - apply elem_of_cons in Hx as [->|Hx]; [done|]. apply IH; [by eapply U_closed | done].
Qed.

(** With enough fuel the search decides whether a terminal node is reachable. *)
Lemma has_terminal_path_spec start :
  start ∈ U ->
  has_terminal_path (S (size U)) start ∅ = true <->
  exists t, is_terminal t = true /\ rtc (edge_rel succ) start t.
Proof.
  intros HU. split; [apply has_terminal_path_sound|].
  intros (t & Ht & (l & Hl & Hnd)%simple_path).
  eapply has_terminal_path_simple; [done|done|set_solver|done|].
  assert (list_to_set (start :: l) ⊆ U) as Hs.
  { intros x Hx%elem_of_list_to_set. by eapply path_in_universe. }
  apply subseteq_size in Hs. rewrite size_list_to_set in Hs by done. simpl in Hs. lia.
Qed.
End terminal_path.

(** ** Cycle detection with marked back edges *)

Definition cycle_error : exc := DomainValidationException "cycle_not_marked_loop".

Section cycles.
(** The outgoing edges of a node: target and whether the edge counts as a loop. *)
Variable out : string -> list (string * bool).

Definition targets (u : string) : list string := (out u).*1.
Definition normal_edge (u v : string) : Prop := (v, false) ∈ out u.

Definition recursion_exhausted : exc := ExternalError "RecursionError" "fuel".

Abbreviation search_state := (gset string * gset string)%type.

(** One edge of the inner [for] loop, over the mutable sets [visiting] and
    [visited]; [rec] is the recursive call. *)
Definition loop_step (rec : search_state -> string -> res exc search_state)
    (st : search_state) (e : string * bool) : res exc search_state :=
  if bool_decide (e.1 ∈ st.1) && negb e.2 then Err cycle_error
  else if bool_decide (e.1 ∈ st.2) then Ok st
  else rec st e.1.

(** The [dfs] of [_validate_loops] and [_validate_cycles]. *)
Fixpoint loop_dfs (fuel : nat) (st : search_state) (n : string) : res exc search_state :=
  match fuel with
  | 0 => Err recursion_exhausted
  | S fuel =>
      if bool_decide (n ∈ st.1) then Ok st
      else
        let! st' := rfold (loop_step (loop_dfs fuel)) (out n) ({[n]} ∪ st.1, st.2) in
        Ok (st'.1 ∖ {[n]}, {[n]} ∪ st'.2)
  end.

(** Nodes in the order the search finished them, with the normal successors of
    each finished earlier. *)
Definition topo (L : list string) : Prop :=
  forall i u v, L !! i = Some u -> normal_edge u v -> exists j, j < i /\ L !! j = Some v.

Lemma topo_snoc L n :
  topo L -> (forall v, normal_edge n v -> v ∈ L) -> topo (L ++ [n]).
Proof.
  intros HL Hn i u v Hi He. apply lookup_app_Some in Hi as [Hi|[Hge Hi]].
  - destruct (HL i u v Hi He) as (j & Hj & Hv). exists j. split; [done|].
    rewrite lookup_app_l; [done|]. by eapply lookup_lt_Some.
  - destruct (i - length L) as [|k] eqn:Hk; simpl in Hi; [|done].
    injection Hi as <-. apply Hn, list_elem_of_lookup in He as [j Hj]. exists j.
    pose proof (lookup_lt_Some _ _ _ Hj). split; [lia|]. by rewrite lookup_app_l.
Qed.

(** State of the search relative to a finish order. *)
Record loop_inv (st : search_state) (L : list string) : Prop := {
  li_visited : forall x, x ∈ st.2 <-> x ∈ L;
  li_topo : topo L;
  li_closed : forall u v, u ∈ L -> v ∈ targets u -> v ∈ L \/ v ∈ st.1;
}.

(** What a successful call does: [visiting] is restored, the finish order is
    extended and the node is finished unless it was being visited. *)
Definition loop_post (st : search_state) (L : list string) (n : string)
    (st' : search_state) : Prop :=
  exists L', loop_inv st' (L ++ L') /\ st'.1 = st.1 /\ (n ∈ L ++ L' \/ n ∈ st.1).

Definition rec_ok (rec : search_state -> string -> res exc search_state) : Prop :=
  forall st L n st', loop_inv st L -> rec st n = Ok st' -> loop_post st L n st'.

(** After an edge its target is finished or still being visited, and a normal
    edge's target is finished. *)
Definition edge_done (st : search_state) (L : list string) (e : string * bool) : Prop :=
  (e.1 ∈ L \/ e.1 ∈ st.1) /\ (e.2 = false -> e.1 ∈ L).

Lemma loop_step_post rec st L e st' :
  rec_ok rec -> loop_inv st L -> loop_step rec st e = Ok st' ->
  exists L', loop_inv st' (L ++ L') /\ st'.1 = st.1 /\ edge_done st (L ++ L') e.
Proof.
  intros Hrec HI. unfold loop_step, edge_done. destruct e as [t k]. simpl.
  destruct (bool_decide_reflect (t ∈ st.1)) as [Hv|Hv]; destruct k; simpl; try done;
    (case_bool_decide as Hd;
     [ intros [= <-]; exists []; rewrite app_nil_r; apply (li_visited _ _ HI) in Hd
     | intros (L' & ? & ? & Hin)%(Hrec _ L); [|done]; exists L' ]);
    split_and!; auto; try done.
  by destruct Hin.
Qed.

Lemma loop_steps_post rec es st L st' :
  rec_ok rec -> loop_inv st L -> rfold (loop_step rec) es st = Ok st' ->
  exists L', loop_inv st' (L ++ L') /\ st'.1 = st.1 /\
             forall e, e ∈ es -> edge_done st (L ++ L') e.
Proof.
  intros Hrec. revert st L; induction es as [|e es IH]; intros st L HI; simpl.
  - intros [= ->]. exists []. rewrite app_nil_r. split_and!; [done|done|set_solver].
  - intros (st1 & He & Hes)%rbind_ok.
    destruct (loop_step_post rec st L e st1) as (L1 & I1 & V1 & E1 & N1); [done..|].
    destruct (IH st1 (L ++ L1) I1 Hes) as (L2 & I2 & V2 & E2).
    exists (L1 ++ L2). rewrite app_assoc. split_and!; [done|congruence|].
    intros e' [->|He']%elem_of_cons.
    + split; [|intros; apply elem_of_app; auto].
      destruct E1; [left; apply elem_of_app|]; auto.
    + unfold edge_done. rewrite <-V1. by apply E2.
Qed.

Lemma loop_dfs_post fuel : rec_ok (loop_dfs fuel).
Proof.
  induction fuel as [|fuel IH]; intros st L n st' HI; simpl; [done|].
  case_bool_decide as Hn.
  { intros [= <-]. exists []. rewrite app_nil_r. auto. }
  intros (st2 & Hf & [= <-])%rbind_ok.
  destruct (loop_steps_post _ (out n) ({[n]} ∪ st.1, st.2) L st2 IH)
    as (L2 & [Iv It Ic] & V2 & E2); [|done|].
  { destruct HI as [Iv It Ic]. split; simpl; auto.
    intros u v Hu Hv. destruct (Ic u v Hu Hv); set_solver. }
  simpl in V2. exists (L2 ++ [n]). rewrite app_assoc. simpl. split_and!.
  - split; simpl.
    + intros x. rewrite elem_of_app, list_elem_of_singleton, <-Iv. set_solver.
    + apply topo_snoc; [done|]. intros v Hv. by apply (E2 (v, false)).
    + intros u v Hu Hv. rewrite elem_of_app, list_elem_of_singleton in Hu |- *.
      assert (Hc : v ∈ L ++ L2 \/ v ∈ {[n]} ∪ st.1).
      { destruct Hu as [Hu| ->]; [rewrite <-V2; eauto|].
        apply list_elem_of_fmap in Hv as (e & -> & He). by apply E2. }
      rewrite V2. destruct Hc; [auto|]. destruct (decide (v = n)); set_solver.
  - rewrite V2. set_solver.
  - left. rewrite !elem_of_app. right. by left.
Qed.

(** Position of the first occurrence of a node in the finish order. *)
Definition first_index (L : list string) (u : string) : nat :=
  match list_find (eq u) L with Some (i, _) => i | None => length L end.

Lemma first_index_spec L u :
  u ∈ L -> L !! first_index L u = Some u /\
           forall j, L !! j = Some u -> first_index L u <= j.
Proof.
  intros Hu. unfold first_index.
  destruct (list_find (eq u) L) as [[i x]|] eqn:Hf.
  - apply list_find_Some in Hf as (Hi & <- & Hmin). split; [done|].
    intros j Hj. destruct (decide (j < i)) as [Hlt|]; [|lia]. by destruct (Hmin j u Hj Hlt).
  - apply list_find_None in Hf. rewrite Forall_forall in Hf. by destruct (Hf u Hu).
Qed.

Lemma topo_rank L u v :
  topo L -> u ∈ L -> v ∈ L -> normal_edge u v -> first_index L v < first_index L u.
Proof.
  intros HL Hu Hv He. destruct (first_index_spec L u Hu) as [Hi _].
  destruct (HL _ _ _ Hi He) as (j & Hj & Hjv).
  destruct (first_index_spec L v Hv) as [_ Hmin]. specialize (Hmin j Hjv). lia.
Qed.

(** An accepted graph has a rank that every normal edge reachable from the start
    decreases: its normal edges form no cycle. *)
Lemma loop_dfs_acyclic fuel start st' :
  loop_dfs fuel (∅, ∅) start = Ok st' ->
  exists rank : string -> nat, forall u v,
    rtc (edge_rel targets) start u -> normal_edge u v -> rank v < rank u.
Proof.
  intros H. assert (HI : loop_inv (∅, ∅) []).
  { split; simpl; [set_solver| |set_solver]. intros i u v Hi. by rewrite lookup_nil in Hi. }
  destruct (loop_dfs_post fuel _ _ _ _ HI H) as (L & [Iv It Ic] & V & Hin).
  simpl in *. rewrite V in Ic. clear H. destruct Hin as [Hin|Hin]; [|set_solver].
  assert (Hreach : forall u, rtc (edge_rel targets) start u -> u ∈ L).
  { intros u Hr. revert Hin. induction Hr as [|a b c Hab _ IH]; intros Ha; [done|].
    apply IH. destruct (Ic a b Ha Hab); set_solver. }
  exists (first_index L). intros u v Hu He. apply topo_rank; [done|by apply Hreach| |done].
  apply Hreach. eapply rtc_r; [done|]. apply list_elem_of_fmap. by exists (v, false).
Qed.

(** A rejected graph has a cycle through a normal edge. *)
Definition normal_cycle (start : string) : Prop :=
  exists u v, rtc (edge_rel targets) start u /\ normal_edge u v /\ rtc (edge_rel targets) v u.

Lemma loop_step_visiting rec st e st' :
  (forall st n st', rec st n = Ok st' -> st'.1 = st.1) ->
  loop_step rec st e = Ok st' -> st'.1 = st.1.
Proof.
  intros Hrec. unfold loop_step. case_match; [done|]. case_match; [by intros [= ->]|].
  apply Hrec.
Qed.

Lemma loop_dfs_visiting fuel st n st' : loop_dfs fuel st n = Ok st' -> st'.1 = st.1.
Proof.
  revert st n st'; induction fuel as [|fuel IH]; intros st n st'; simpl; [done|].
  case_bool_decide as Hn; [by intros [= ->]|].
  intros (st2 & Hf & [= <-])%rbind_ok. simpl.
  assert (st2.1 = {[n]} ∪ st.1) as ->; [|set_solver].
  eapply (rfold_invariant (fun s => s.1 = {[n]} ∪ st.1)); [| |exact Hf]; [|done].
  intros s e s' _ Hs H. by rewrite (loop_step_visiting (loop_dfs fuel) s e s').
Qed.

Lemma loop_dfs_cycle fuel start st n :
  rtc (edge_rel targets) start n ->
  (forall w, w ∈ st.1 -> rtc (edge_rel targets) w n) ->
  loop_dfs fuel st n = Err cycle_error -> normal_cycle start.
Proof.
  revert st n; induction fuel as [|fuel IH]; intros st n Hs Hst; simpl; [done|].
  case_bool_decide; [done|]. intros [Hf|(st' & _ & [=])]%rbind_err.
  assert (Hst1 : forall w, w ∈ ({[n]} ∪ st.1, st.2).1 -> rtc (edge_rel targets) w n).
  { simpl. intros w [->%elem_of_singleton|Hw]%elem_of_union; [constructor | auto]. }
  assert (Hes : forall e, e ∈ out n -> e ∈ out n) by done. revert Hst1 Hes Hf.
  generalize (out n) at 1 3. generalize ({[n]} ∪ st.1, st.2).
  intros st1 es. revert st1. induction es as [|e es IHes]; intros st1 Hst1 Hes; simpl; [done|].
  assert (He : e ∈ out n) by (apply Hes; left).
  assert (Htgt : edge_rel targets n e.1) by (by apply list_elem_of_fmap_2).
  intros [Hf|(st2 & H2 & Hf)]%rbind_err.
  - unfold loop_step in Hf. destruct (bool_decide_reflect (e.1 ∈ st1.1)), e as [t []];
      simpl in *; repeat case_match; try done.
    + eapply IH; [by eapply rtc_r| |done]. intros w Hw. eapply rtc_r; eauto.
    + exists n, t. split_and!; auto.
    + eapply IH; [by eapply rtc_r| |done]. intros w Hw. eapply rtc_r; eauto.
    + eapply IH; [by eapply rtc_r| |done]. intros w Hw. eapply rtc_r; eauto.
  - apply (IHes st2); [|intros; apply Hes; by right|done].
    apply loop_step_visiting in H2; [by rewrite H2 | apply loop_dfs_visiting].
Qed.

Variable U : gset string.
Hypothesis U_closed : closed_under targets U.

(** With fuel for the whole graph the only possible failure is a cycle. *)
Lemma loop_dfs_fuel fuel st n :
  n ∈ U -> size (U ∖ st.1) < fuel ->
  raises_only (fun e => e = cycle_error) (loop_dfs fuel st n).
Proof.
  revert st n; induction fuel as [|fuel IH]; intros st n HU Hfuel; simpl; [lia|].
  case_bool_decide as Hn; [done|]. apply raises_only_bind; [|done].
  assert (Hes : forall e, e ∈ out n -> e.1 ∈ U).
  { intros e He. eapply U_closed; [done|]. by apply list_elem_of_fmap_2. }
  assert (Hst1 : ({[n]} ∪ st.1, st.2).1 = {[n]} ∪ st.1) by done. revert Hst1 Hes.
  generalize ({[n]} ∪ st.1, st.2). generalize (out n).
  induction l as [|e es IHes]; intros st1 Hst1 Hes; simpl; [done|].
  apply raises_only_bind.
  - unfold loop_step. repeat case_match; try done. apply IH; [apply Hes; left|].
    rewrite Hst1. pose proof (size_shrinks U st.1 ({[n]} ∪ st.1) n HU Hn ltac:(done)). lia.
  - intros st2 H2. apply IHes; [|intros; apply Hes; by right].
    apply loop_step_visiting in H2; [congruence | apply loop_dfs_visiting].
Qed.

(** *** Reducible graphs

    When the normal edges decrease a rank and every loop edge goes back to a node
    that lies on all paths from the start to its source, the search accepts,
    whatever the order of the edges. *)
Variable start : string.

(** The nodes from the start to the current node along normal edges. *)
Inductive stack : list string -> string -> Prop :=
  | stack_start : stack [start] start
  | stack_push p u v : stack p u -> normal_edge u v -> stack (v :: p) v.

(** Every walk from the start to [u], as the list of its nodes. *)
Inductive walk : list string -> string -> Prop :=
  | walk_start : walk [start] start
  | walk_push p u v : walk p u -> v ∈ targets u -> walk (v :: p) v.

Definition dominates (v u : string) : Prop := forall p, walk p u -> v ∈ p.

Lemma stack_walk p u : stack p u -> walk p u.
Proof.
  induction 1; [constructor|]. econstructor; [done|].
  apply list_elem_of_fmap. by exists (v, false).
Qed.

Lemma walk_rtc p u : walk p u -> rtc (edge_rel targets) start u.
Proof. induction 1; [constructor|]. by eapply rtc_r. Qed.

Variable rank : string -> nat.
Hypothesis rank_normal : forall u v,
  rtc (edge_rel targets) start u -> normal_edge u v -> rank v < rank u.
Hypothesis loops_dominate : forall u v, (v, true) ∈ out u -> dominates v u.

Lemma stack_rank p u x : stack p u -> x ∈ p -> rank u <= rank x.
Proof.
  induction 1 as [|p u v Hs IH He]; intros Hx.
  - by apply list_elem_of_singleton in Hx as ->.
  - apply elem_of_cons in Hx as [->|Hx]; [done|].
    specialize (IH Hx). pose proof (rank_normal u v (walk_rtc _ _ (stack_walk _ _ Hs)) He). lia.
Qed.

Lemma loop_dfs_reducible fuel st p n :
  stack p n -> (forall x, x ∈ {[n]} ∪ st.1 <-> x ∈ p) ->
  loop_dfs fuel st n <> Err cycle_error.
Proof.
  revert st p n; induction fuel as [|fuel IH]; intros st p n Hp Hst; simpl; [done|].
  case_bool_decide; [done|]. intros [Hf|(st' & _ & [=])]%rbind_err. revert Hf.
  assert (Hst1 : ({[n]} ∪ st.1, st.2).1 = {[n]} ∪ st.1) by done. revert Hst1.
  assert (Hes : forall e, e ∈ out n -> e ∈ out n) by done. revert Hes.
  generalize (out n) at 1 3. generalize ({[n]} ∪ st.1, st.2).
  intros st1 es. revert st1. induction es as [|e es IHes]; intros st1 Hes Hst1; simpl; [done|].
  intros [Hf|(st2 & H2 & Hf)]%rbind_err.
  - specialize (Hes e ltac:(left)). clear IHes. unfold loop_step in Hf. destruct e as [t []]; simpl in Hf.
    + rewrite andb_false_r in Hf. case_bool_decide; [done|]. destruct fuel; simpl in Hf; [done|].
      rewrite bool_decide_true in Hf; [done|]. rewrite Hst1, Hst.
      by apply (loops_dominate n t Hes), stack_walk.
    + rewrite andb_true_r in Hf. case_bool_decide as Hin.
      * rewrite Hst1, Hst in Hin. pose proof (stack_rank p n t Hp Hin).
        pose proof (rank_normal n t (walk_rtc _ _ (stack_walk _ _ Hp)) Hes). lia.
      * case_bool_decide; [done|]. eapply (IH st1 (t :: p)); [by econstructor| |done].
        intros x. rewrite Hst1, elem_of_union, elem_of_cons, Hst, elem_of_singleton. done.
  - apply (IHes st2); [intros; apply Hes; by right| |done].
    apply loop_step_visiting in H2; [congruence | apply loop_dfs_visiting].
Qed.

(** Enough fuel, an acyclic normal part and dominating loop targets: accepted. *)
Lemma loop_dfs_accepts :
  start ∈ U -> exists st, loop_dfs (S (size U)) (∅, ∅) start = Ok st.
Proof.
  intros HU. pose proof (loop_dfs_fuel (S (size U)) (∅, ∅) start HU) as Hfuel.
  destruct (loop_dfs _ _ _) as [st|e] eqn:H; [eauto|].
  simpl in Hfuel. rewrite Hfuel in H by (rewrite difference_empty_L; lia).
  destruct (loop_dfs_reducible (S (size U)) (∅, ∅) [start] start); [constructor| |done].
  intros x. simpl. rewrite elem_of_union, elem_of_singleton, elem_of_empty,
    list_elem_of_singleton. naive_solver.
Qed.
End cycles.
