(* ===== verification/Sorting.v ===== *)
(** * Sorting: [sorted(l, key=...)] and canonical JSON

    Python's [sorted] is stable; insertion from the right keeps equal keys in
    their original order.  Keys are strings or tuples of strings, compared
    lexicographically.  [canonical] is the value [json.dumps(..., sort_keys=True)]
    prints: every dict with its items in key order. *)

From stdpp Require Import sorting.
From S2P Require Import Prelude.
From S2P Require Import Errors.
From S2P Require Import PyValue.

(** ** Sorted lists *)

Section strongly_sorted.
Context {A : Type} (R : relation A).

Lemma sorted_filter (P : A -> Prop) `{!forall x, Decision (P x)} l :
  StronglySorted R l -> StronglySorted R (filter P l).
Proof.
  induction 1 as [|x l Hl IH Hx]; simpl; [constructor|]. rewrite filter_cons.
  case_decide; [|done]. constructor; [done|]. rewrite Forall_forall in *.
  intros y (_ & Hy)%list_elem_of_filter. auto.
Qed.

Lemma sorted_lookup l i j x y :
  StronglySorted R l -> l !! i = Some x -> l !! j = Some y -> i < j -> R x y.
Proof.
  intros Hl. revert i j. induction Hl as [|z l Hl IH Hz]; intros [|i] [|j] Hi Hj Hij;
    simpl in *; try (done || lia).
  - injection Hi as ->. rewrite Forall_forall in Hz. apply Hz. by eapply list_elem_of_lookup_2.
  - apply (IH i j); [done..|lia].
Qed.
End strongly_sorted.

(** Consecutive numbering. *)
Lemma numbered_sorted {A} (f : A -> nat) l n :
  f <$> l = seq n (length l) -> StronglySorted (fun a b => f a < f b) l.
Proof.
  revert n; induction l as [|x l IH]; intros n H; [constructor|].
  change (f x :: (f <$> l) = n :: seq (S n) (length l)) in H.
  injection H as Hx Hl. constructor; [by eapply IH|]. apply Forall_forall. intros y Hy.
  apply (list_elem_of_fmap_2 f) in Hy. rewrite Hl in Hy. apply elem_of_seq in Hy. lia.
Qed.

(** ** Stable sorting by a key *)

Section sorted.
Context {A K : Type} (R : relation K) `{!RelDecision R} (key : A -> K).

Fixpoint insert_by (x : A) (l : list A) : list A :=
  match l with
  | [] => [x]
  | y :: l' => if bool_decide (R (key x) (key y)) then x :: y :: l' else y :: insert_by x l'
  end.

Definition sorted_by (l : list A) : list A := foldr insert_by [] l.

Lemma insert_by_perm x l : insert_by x l ≡ₚ x :: l.
Proof.
  induction l as [|y l IH]; simpl; [done|]. case_bool_decide; [done|].
  rewrite IH. by constructor.
Qed.

Lemma sorted_by_perm l : sorted_by l ≡ₚ l.
Proof. induction l as [|x l IH]; simpl; [done|]. by rewrite insert_by_perm, IH. Qed.

Lemma elem_of_sorted_by x l : x ∈ sorted_by l <-> x ∈ l.
Proof. by rewrite sorted_by_perm. Qed.

Context `{!Transitive R, !Total R}.

Lemma insert_by_sorted x l :
  StronglySorted (fun a b => R (key a) (key b)) l ->
  StronglySorted (fun a b => R (key a) (key b)) (insert_by x l).
Proof.
  induction 1 as [|y l Hl IH Hy]; simpl; [repeat constructor|].
  case_bool_decide as Hxy.
  - constructor; [by constructor|]. constructor; [done|].
    eapply Forall_impl; [exact Hy|]. simpl. intros z Hz. by etrans.
  - constructor; [done|]. rewrite insert_by_perm. constructor; [|done].
    destruct (total R (key x) (key y)); done.
Qed.

Lemma sorted_by_sorted l : StronglySorted (fun a b => R (key a) (key b)) (sorted_by l).
Proof. induction l; simpl; [constructor | by apply insert_by_sorted]. Qed.

(** With distinct keys the sorted list does not depend on the input order. *)
Lemma sorted_by_unique `{!AntiSymm (=) R} l l' :
  NoDup (key <$> l) -> l ≡ₚ l' -> sorted_by l = sorted_by l'.
Proof.
  intros Hnd Hp. apply (StronglySorted_unique_strong (fun a b => R (key a) (key b)));
    [|apply sorted_by_sorted..|by rewrite !sorted_by_perm].
  intros x y Hx Hy Hxy Hyx. rewrite elem_of_sorted_by in Hx, Hy. rewrite <- Hp in Hy.
  assert (Hk : key x = key y) by (by apply (anti_symm R)).
  apply list_elem_of_lookup in Hx as [i Hi], Hy as [j Hj].
  assert (i = j) as ->; [|congruence].
  eapply (NoDup_lookup _ i j (key x)); [exact Hnd | |].
  - by rewrite list_lookup_fmap, Hi.
  - by rewrite list_lookup_fmap, Hj, Hk.
Qed.
End sorted.

(** ** Lexicographic order *)

Definition lex {A B} (R : relation A) (S : relation B) : relation (A * B) :=
  fun x y => (x.1 <> y.1 /\ R x.1 y.1) \/ (x.1 = y.1 /\ S x.2 y.2).

Section lex.
Context {A B : Type} `{!EqDecision A} (R : relation A) (S : relation B).

#[global] Instance lex_dec `{!RelDecision R, !RelDecision S} : RelDecision (lex R S).
Proof. intros x y. unfold lex. apply _. Defined.

Context `{!Transitive R, !Transitive S, !AntiSymm (=) R, !AntiSymm (=) S, !Total R, !Total S}.

#[global] Instance lex_trans : Transitive (lex R S).
Proof.
  intros [a b] [a' b'] [a'' b''] [[H1 H2]|[H1 H2]] [[H3 H4]|[H3 H4]]; simpl in *; subst.
  - left. simpl. split; [|by etrans]. intros ->. apply H1. by apply (anti_symm R).
  - by left.
  - by left.
  - right. simpl. split; [done | by etrans].
Qed.

#[global] Instance lex_antisym : AntiSymm (=) (lex R S).
Proof.
  intros [a b] [a' b'] [[H1 H2]|[H1 H2]] [[H3 H4]|[H3 H4]]; simpl in *; subst; try done.
  - destruct H1. by apply (anti_symm R).
  - f_equal. by apply (anti_symm S).
Qed.

#[global] Instance lex_total : Total (lex R S).
Proof.
  intros [a b] [a' b']. unfold lex. simpl. destruct (decide (a = a')) as [->|Hne].
  - destruct (total S b b'); auto.
  - destruct (total R a a'); [left; left | right; left]; auto.
Qed.
End lex.

(** The order of triples of strings. *)
Definition triple_le : relation (string * (string * string)) :=
  lex String.le (lex String.le String.le).

#[global] Instance triple_le_dec : RelDecision triple_le := _.
#[global] Instance triple_le_trans : Transitive triple_le := _.
#[global] Instance triple_le_antisym : AntiSymm (=) triple_le := _.
#[global] Instance triple_le_total : Total triple_le := _.

(** ** Canonical JSON values *)

(** The value with every dict's items in key order. *)
Fixpoint canonical (v : pyval) : pyval :=
  match v with
  | PList l => PList (map canonical l)
  | PDict d => PDict (sorted_by String.le fst (map (fun kv => (kv.1, canonical kv.2)) d))
  | _ => v
  end.

(** A dict's canonical form does not depend on the order of its items. *)
Lemma canonical_dict_perm d d' :
  NoDup d.*1 -> d ≡ₚ d' -> canonical (PDict d) = canonical (PDict d').
Proof.
  intros Hnd Hp. cbn [canonical]. f_equal.
  apply (sorted_by_unique String.le fst); [|by apply Permutation_map].
  change (NoDup (fst <$> ((fun kv => (kv.1, canonical kv.2)) <$> d))).
  by rewrite <- list_fmap_compose.
Qed.

(** Replacing the values of a dict by others of the same canonical form. *)
Lemma canonical_dict_values d d' :
  Forall2 (fun a b => a.1 = b.1 /\ canonical a.2 = canonical b.2) d d' ->
  canonical (PDict d) = canonical (PDict d').
Proof.
  intros H. cbn [canonical]. do 2 f_equal.
  induction H as [|[k v] [k' v'] d d' [Hk Hv] _ IH]; simpl in *; congruence.
Qed.
