(* ===== verification/ConditionEvaluator.v ===== *)
(** * ConditionEvaluator: edge conditions read as Python expressions

    [src/src/domain/flows/services/condition_evaluator.py] walks a Python syntax
    tree and evaluates a safe fragment of it; the draft validator
    ([flow_graph_draft_validator.py], [_is_constant_true]) walks the same trees to
    recognise conditions that always hold.  Python's own parser ([ast.parse]) is a
    parameter: a function from source text to the tree, [None] for a
    [SyntaxError]. *)

From Stdlib Require Import Ascii.
From S2P Require Import Prelude.
From S2P Require Import Errors.
From S2P Require Import PyValue.

(** ** Syntax trees *)

Inductive cmpop : Type :=
  | CEq | CNotEq | CLt | CLtE | CGt | CGtE | CIs | CIsNot | CIn | CNotIn.

(** The node classes the visitors distinguish; every other class is [AOther].
    Constants are the literals of the edge language (numbers, strings, booleans
    and [None]). *)
Inductive pyast : Type :=
  | AConst (v : pyval)
  | AName (id : string)
  | ANot (operand : pyast)
  | ABoolOp (is_and : bool) (values : list pyast)
  | ACompare (lhs : pyast) (ops : list cmpop) (comparators : list pyast)
  | AOther.

#[global] Instance cmpop_eq_dec : EqDecision cmpop.
Proof. solve_decision. Defined.

Section pyast_ind.
Variable P : pyast -> Prop.
Hypothesis Hconst : forall v, P (AConst v).
Hypothesis Hname : forall x, P (AName x).
Hypothesis Hnot : forall a, P a -> P (ANot a).
Hypothesis Hbool : forall b l, Forall P l -> P (ABoolOp b l).
Hypothesis Hcmp : forall a ops l, P a -> Forall P l -> P (ACompare a ops l).
Hypothesis Hother : P AOther.

Fixpoint pyast_nested_ind (a : pyast) : P a :=
  let all := fix go l : Forall P l :=
    match l with
    | [] => Forall_nil_2 _
    | x :: l' => Forall_cons_2 _ x l' (pyast_nested_ind x) (go l')
    end in
  match a with
  | AConst v => Hconst v
  | AName x => Hname x
  | ANot b => Hnot b (pyast_nested_ind b)
  | ABoolOp b l => Hbool b l (all l)
  | ACompare b ops l => Hcmp b ops l (pyast_nested_ind b) (all l)
  | AOther => Hother
  end.
End pyast_ind.

(** ** The source text handed to the parser *)

(** [s.replace(ab, by)] for a two-character pattern: left to right, without
    overlaps. *)
Fixpoint replace2 (a b : Ascii.ascii) (by_ : string) (s : string) : string :=
  match s with
  | EmptyString => EmptyString
  | String x s' =>
      match s' with
      | String y s'' =>
          if Ascii.eqb x a && Ascii.eqb y b then by_ +:+ replace2 a b by_ s''
          else String x (replace2 a b by_ s')
      | EmptyString => s
      end
  end.

(** [condition.replace("&&", " and ").replace("||", " or ")]. *)
Definition python_source (condition : string) : string :=
  replace2 "|"%char "|"%char " or " (replace2 "&"%char "&"%char " and " condition).

(** ** The safe evaluator *)

Section visitor.
Variable same : pyval -> pyval -> bool.

(** [ALLOWED_CMP]. *)
Definition ALLOWED_CMP : list cmpop := [CEq; CNotEq; CLt; CLtE; CGt; CGtE].

(** The six comparisons of [visit]. *)
Definition visit_compare (op : cmpop) (x y : pyval) : res exc bool :=
  match op with
  | CEq => Ok (py_eq same x y)
  | CNotEq => Ok (negb (py_eq same x y))
  | CLt => py_order same OpLt x y
  | CLtE => py_order same OpLe x y
  | CGt => py_order same OpGt x y
  | CGtE => py_order same OpGe x y
  | _ => Err PyValueError
  end.

(** [_SafeEvaluator.visit]: every operand of a connective is evaluated before the
    connective is applied. *)
Fixpoint visit (context : pydict) (node : pyast) : res exc pyval :=
  match node with
  | ABoolOp is_and values =>
      let! vs := rmap (visit context) values in
      Ok (PBool (if is_and then forallb truthy vs else existsb truthy vs))
  | ANot operand =>
      let! v := visit context operand in Ok (PBool (negb (truthy v)))
  | ACompare lhs [op] [rhs] =>
      raise_if (negb (bool_decide (op ∈ ALLOWED_CMP))) PyValueError ;;!
      let! x := visit context lhs in
      let! y := visit context rhs in
      let! b := visit_compare op x y in
      Ok (PBool b)
  | ACompare _ _ _ => Err PyValueError
  | AName id => Ok (dict_getv id context)
  | AConst v => Ok v
  | AOther => Err PyValueError
  end.

(** [ConditionEvaluator.evaluate]. *)
Definition evaluate (ast_parse : string -> option pyast) (condition : string)
    (context : pydict) : res exc bool :=
  match ast_parse (python_source condition) with
  | None => Err (ExternalError "SyntaxError" condition)
  | Some body => let! v := visit context body in Ok (truthy v)
  end.

(** ** Conditions that always hold *)

(** [eval] of a comparison between two constants: all ten operators. *)
Definition constant_compare (op : cmpop) (x y : pyval) : res exc bool :=
  match op with
  | CIs => Ok (py_is same x y)
  | CIsNot => Ok (negb (py_is same x y))
  | CIn => py_in same x y
  | CNotIn => let! b := py_in same x y in Ok (negb b)
  | _ => visit_compare op x y
  end.

(** [FlowGraphDraftValidator._is_constant_true]. *)
Fixpoint _is_constant_true (node : pyast) : res exc bool :=
  match node with
  | AConst v => Ok (truthy v)
  | ANot operand => let! b := _is_constant_true operand in Ok (negb b)
  | ABoolOp true values => rall _is_constant_true values
  | ABoolOp false values => rany _is_constant_true values
  | ACompare (AConst x) [op] [AConst y] => constant_compare op x y
  | _ => Ok false
  end.
End visitor.

(** ** The fragment the evaluator accepts *)

(** Names, constants, connectives and single comparisons with an allowed
    operator. *)
Fixpoint safe (a : pyast) : bool :=
  match a with
  | AConst _ | AName _ => true
  | ANot b => safe b
  | ABoolOp _ l => forallb safe l
  | ACompare x [op] [y] => bool_decide (op ∈ ALLOWED_CMP) && safe x && safe y
  | _ => false
  end.

(** No negation anywhere. *)
Fixpoint negation_free (a : pyast) : bool :=
  match a with
  | ANot _ => false
  | ABoolOp _ l => forallb negation_free l
  | _ => true
  end.

(** The names a tree mentions. *)
Fixpoint names (a : pyast) : list string :=
  match a with
  | AName x => [x]
  | ANot b => names b
  | ABoolOp _ l => concat (map names l)
  | ACompare x _ l => names x ++ concat (map names l)
  | AConst _ | AOther => []
  end.

Lemma py_order_raises same o x y :
  raises_only (fun e => e = PyTypeError) (py_order same o x y).
Proof.
  revert y. induction x as [| | | | | l IH | d | ] using pyval_nested_ind;
    intros y; destruct y; simpl; try done.
  revert l0. induction IH as [|x xs Hx _ IHl]; intros [|y ys]; try done.
  destruct (elem_eq same x y); [apply IHl | apply Hx].
Qed.

Lemma visit_compare_raises same op x y :
  op ∈ ALLOWED_CMP -> raises_only (fun e => e = PyTypeError) (visit_compare same op x y).
Proof.
  intros H. destruct op; simpl; try done; try apply py_order_raises;
    unfold ALLOWED_CMP in H; by rewrite !elem_of_cons, elem_of_nil in H; naive_solver.
Qed.

Section facts.
Variable same : pyval -> pyval -> bool.

Lemma visit_ok_safe ctx a v : visit same ctx a = Ok v -> safe a = true.
Proof.
  revert v; induction a as [c | nm | a IH | b l IH | a ops l IHa IHl |] using pyast_nested_ind;
    intros v; simpl; try done.
  - intros (x & Hx & _)%rbind_ok. by eapply IH.
  - intros (vs & Hvs%rmap_ok & _)%rbind_ok. clear v. apply forallb_elem_of.
    intros x [i Hi]%list_elem_of_lookup. rewrite Forall_forall in IH.
    destruct (Forall2_lookup_l _ _ _ _ _ Hvs Hi) as (w & _ & Hw).
    eapply IH, Hw. by apply list_elem_of_lookup_2 in Hi.
  - destruct ops as [|op [|]]; [done| |done]. destruct l as [|y [|]]; [done| |done].
    intros H. rinv. apply negb_false_iff in Hg. rewrite Hg. simpl.
    inversion_clear IHl as [|? ? Hy]. erewrite IHa, Hy by done. done.
Qed.

Lemma safe_visit_raises ctx a :
  safe a = true -> raises_only (fun e => e = PyTypeError) (visit same ctx a).
Proof.
  induction a as [c | nm | a IH | b l IH | a ops l IHa IHl |] using pyast_nested_ind;
    simpl; intros Hs; try done.
  - apply raises_only_bind; [by apply IH | done].
  - apply raises_only_bind; [|done]. apply raises_only_rmap. rewrite Forall_forall in IH.
    intros x Hx. apply IH; [done|]. by eapply forallb_elem_of in Hs.
  - destruct ops as [|op [|]]; [done| |done]. destruct l as [|y [|]]; [done| |done].
    apply andb_true_iff in Hs as [[Hop Hx]%andb_true_iff Hy].
    rewrite Hop. simpl. inversion_clear IHl as [|? ? IHy].
    apply raises_only_bind; [by apply IHa | intros ? _].
    apply raises_only_bind; [by apply IHy | intros ? _].
    apply raises_only_bind; [|done]. apply visit_compare_raises.
    by apply bool_decide_eq_true in Hop.
Qed.

(** The value depends on the context only through the names of the tree. *)
Lemma visit_names ctx ctx' a :
  (forall x, x ∈ names a -> dict_getv x ctx = dict_getv x ctx') ->
  visit same ctx a = visit same ctx' a.
Proof.
  assert (Hin : forall l x y, x ∈ l -> y ∈ names x -> y ∈ concat (map names l)).
  { intros l x y Hx Hy. apply list_elem_of_In, in_concat. exists (names x).
    split; [by apply in_map, list_elem_of_In | by apply list_elem_of_In]. }
  induction a as [c | nm | a IH | b l IH | a ops l IHa IHl |] using pyast_nested_ind;
    simpl; intros Hn; try done.
  - by rewrite Hn by (by left).
  - by rewrite IH.
  - rewrite (rmap_ext (visit same ctx) (visit same ctx') l); [done|].
    rewrite Forall_forall in IH. intros x Hx. apply IH; [done|]. intros y Hy. eauto.
  - destruct ops as [|op [|]]; [done| |done]. destruct l as [|y [|]]; [done| |done].
    inversion_clear IHl as [|? ? IHy]. rewrite IHa, IHy; [done| |].
    + intros z Hz. apply Hn, elem_of_app. right. by eapply Hin; [left|].
    + intros z Hz. apply Hn, elem_of_app. by left.
Qed.

(** A tree the validator calls constant-true evaluates to a true value whenever
    it evaluates, provided it contains no negation. *)
Lemma constant_true_sound ctx a v :
  negation_free a = true -> _is_constant_true same a = Ok true ->
  visit same ctx a = Ok v -> truthy v = true.
Proof.
  revert v; induction a as [c | nm | a IH | b l IH | a ops l IHa IHl |] using pyast_nested_ind;
    intros v Hnf; try done; simpl in *.
  - congruence.
  - rewrite Forall_forall in IH. rewrite forallb_elem_of in Hnf. intros Hc.
    intros (vs & Hvs%rmap_ok & [= <-])%rbind_ok. simpl. destruct b.
    + apply forallb_elem_of. intros w [i Hi]%list_elem_of_lookup.
      destruct (Forall2_lookup_r _ _ _ _ _ Hvs Hi) as (x & Hx & Hw).
      apply list_elem_of_lookup_2 in Hx. rewrite rall_true in Hc. eauto.
    + assert (exists x, x ∈ l /\ _is_constant_true same x = Ok true) as (x & Hx & Hxc).
      { clear -Hc. induction l as [|x l IHl]; [done|]. simpl in Hc.
        apply rbind_ok in Hc as ([] & Hx & Hc); [exists x; split; [left|done]|].
        destruct (IHl Hc) as (y & ? & ?). exists y. split; [by right | done]. }
      apply list_elem_of_lookup in Hx as [i Hi].
      destruct (Forall2_lookup_l _ _ _ _ _ Hvs Hi) as (w & Hw & Hv).
      apply list_elem_of_lookup_2 in Hi, Hw. apply existsb_elem_of. eauto.
  - destruct a; try done. destruct ops as [|op [|]]; try done.
    destruct l as [|[] [|]]; try done. simpl. intros Hc H. rinv.
    apply negb_false_iff, bool_decide_eq_true in Hg. destruct op; simpl in *; try congruence;
      unfold ALLOWED_CMP in Hg; rewrite !elem_of_cons, elem_of_nil in Hg; naive_solver.
Qed.
End facts.

(** [C35] The safe evaluator is confined: when it returns, the whole tree (also the
    operands a short-circuiting reading would skip) is built from names, constants,
    connectives and single allowed comparisons, and the result depends on the
    context only through the names of the tree; when it raises, the text does not
    parse, the tree leaves the fragment, or two values have no order. *)
Theorem evaluate_confined same parse condition ctx :
  match evaluate same parse condition ctx with
  | Ok b => exists body,
      parse (python_source condition) = Some body /\ safe body = true /\
      forall ctx', (forall x, x ∈ names body -> dict_getv x ctx = dict_getv x ctx') ->
        evaluate same parse condition ctx' = Ok b
  | Err e =>
      parse (python_source condition) = None \/
      exists body, parse (python_source condition) = Some body /\
        (safe body = false \/ e = PyTypeError)
  end.
Proof.
  unfold evaluate. destruct (parse (python_source condition)) as [body|]; [|by left].
  destruct (visit same ctx body) as [v|e] eqn:Hv; simpl.
  - exists body. split_and!; [done | by eapply visit_ok_safe|].
    intros ctx' Hn. by rewrite <- (visit_names same ctx ctx' body Hn), Hv.
  - right. exists body. split; [done|]. destruct (safe body) eqn:Hs; [right | by left].
    pose proof (safe_visit_raises same ctx body Hs) as H. by rewrite Hv in H.
Qed.
