(* ===== verification/FlowGraph.v ===== *)
(** * FlowGraph: flow graph definitions and their validation

    [src/src/domain/flows/schemas/graph.py] (the definition a tenant submits),
    [flow_graph_validator.py] (static validation), [flow_graph_draft_validator.py]
    (the checks of the DRAFT to VALIDATED step) and [graph_node_config.py] (which
    schema a node's configuration must satisfy).

    A definition's [nodes] is a Python dict: an association list in insertion
    order with distinct keys.  The validators' local [dfs] functions are the
    searches of [GraphSearch], run with one unit of fuel per node plus one. *)

From S2P Require Import Prelude.
From S2P Require Import Errors.
From S2P Require Import PyValue.
From S2P Require Import EdgeEvaluator.
From S2P Require Import ConditionEvaluator.
From S2P Require Import GraphSearch.

(** ** Schemas *)

Inductive EdgeKind : Type := NORMAL | LOOP.

#[global] Instance EdgeKind_eq_dec : EqDecision EdgeKind.
Proof. solve_decision. Defined.

Record FlowGraphNodeSpec : Type := {
  type : string;
  config : option pydict;
}.

Record FlowGraphEdge : Type := {
  from_node : string;
  to_node : string;
  condition : string;
  edge_kind : EdgeKind;
}.

Record FlowGraphDefinition : Type := {
  start_node : string;
  nodes : list (string * FlowGraphNodeSpec);
  edges : list FlowGraphEdge;
}.

(** The characters [str.strip()] removes: Unicode white space, in UTF-8. *)
Definition utf8_char (bytes : list N) : string :=
  foldr (fun b s => String (Ascii.ascii_of_N b) s) EmptyString bytes.

Definition white_space : list string :=
  utf8_char <$>
  [[9]; [10]; [11]; [12]; [13]; [28]; [29]; [30]; [31]; [32]; [194; 133]; [194; 160];
   [225; 154; 128]; [226; 128; 128]; [226; 128; 129]; [226; 128; 130]; [226; 128; 131];
   [226; 128; 132]; [226; 128; 133]; [226; 128; 134]; [226; 128; 135]; [226; 128; 136];
   [226; 128; 137]; [226; 128; 138]; [226; 128; 168]; [226; 128; 169]; [226; 128; 175];
   [226; 129; 159]; [227; 128; 128]]%N.

(** [not s or not s.strip()]. *)
Definition blank (s : string) : bool :=
  forallb (fun c => bool_decide (c ∈ white_space)) (utf8_chars s).

(** [FlowGraphEdge._non_empty]: the field validator of [condition]. *)
Definition _non_empty (value : string) : res exc string :=
  if blank value then Err PyValueError else Ok value.

(** Building an edge from request data runs the field validator. *)
Definition make_edge (from_ to_ cond_ : string) (kind : EdgeKind) : res exc FlowGraphEdge :=
  let! c := _non_empty cond_ in
  Ok {| from_node := from_; to_node := to_; condition := c; edge_kind := kind |}.

(** ** FlowGraphValidator *)

Definition TERMINAL_NODE_TYPES : list string := ["ResponseBuilder"; "HumanFallback"].
Definition _DEPRECATED_NODE_TYPES : list string := ["UserContextEnrichmentNode"].
Definition _RAG_PIPELINE_NODE_TYPES : list string :=
  ["IntentClassifier"; "ToolResolver"; "ToolInputFiller"; "ResponseBuilder"; "HumanFallback"].

Definition dve (msg : string) : exc := DomainValidationException msg.

Definition is_in (x : string) (l : list string) : bool := bool_decide (x ∈ l).

Definition node_keys (d : FlowGraphDefinition) : list string := (nodes d).*1.

(** [adjacency[node_id]]: the distinct targets of the edges leaving a node. *)
Definition adjacency (d : FlowGraphDefinition) (n : string) : list string :=
  remove_dups (to_node <$> filter (fun e => from_node e = n) (edges d)).

Definition universe (d : FlowGraphDefinition) : gset string := list_to_set (node_keys d).

Definition search_fuel (d : FlowGraphDefinition) : nat := S (size (universe d)).

(** [spec.config or {}]. *)
Definition config_or_empty (s : FlowGraphNodeSpec) : pydict := default [] (config s).

Definition is_terminal (d : FlowGraphDefinition) (n : string) : bool :=
  existsb (fun kv => String.eqb kv.1 n && is_in (type kv.2) TERMINAL_NODE_TYPES) (nodes d).

(** One iteration of the loop over the edges. *)
Definition check_edge (keys : list string) (e : FlowGraphEdge) : res exc unit :=
  raise_if (negb (is_in (from_node e) keys && is_in (to_node e) keys))
    (dve "edge_references_unknown_node") ;;!
  raise_if (blank (condition e)) (dve "edge_condition_required").

(** [rp is not None and not isinstance(rp, dict)]. *)
Definition check_rag (s : FlowGraphNodeSpec) : res exc unit :=
  if is_in (type s) _RAG_PIPELINE_NODE_TYPES then
    match dict_getv "rag_pipeline" (config_or_empty s) with
    | PNone | PDict _ => Ok tt
    | _ => Err (dve "rag_pipeline_config_invalid")
    end
  else Ok tt.

(** One rule of a [data_merge] list; [fid not in nodes] hashes [fid]. *)
Definition check_rule (keys : list string) (rule : pyval) : res exc unit :=
  match rule with
  | PDict r =>
      let fid := dict_getv "from_node_id" r in
      if negb (truthy fid) then Err (dve "memory_commit_data_merge_unknown_from_node")
      else if negb (hashable fid) then Err PyTypeError
      else match fid with
           | PStr k => raise_if (negb (is_in k keys))
                         (dve "memory_commit_data_merge_unknown_from_node")
           | _ => Err (dve "memory_commit_data_merge_unknown_from_node")
           end
  | _ => Err (dve "memory_commit_data_merge_rule_invalid")
  end.

Definition is_memory_commit (s : FlowGraphNodeSpec) : bool :=
  String.eqb (type s) "MemoryCommitNode".

Definition check_data_merge (keys : list string) (s : FlowGraphNodeSpec) : res exc unit :=
  if is_memory_commit s then
    match dict_getv "data_merge" (config_or_empty s) with
    | PList dm => for_each (check_rule keys) dm
    | _ => Ok tt
    end
  else Ok tt.

(** [FlowGraphValidator.validate]. *)
Definition validate (d : FlowGraphDefinition) : res exc unit :=
  for_each (fun kv => raise_if (is_in (type kv.2) _DEPRECATED_NODE_TYPES)
              (dve "deprecated_node_type_user_context_enrichment")) (nodes d) ;;!
  raise_if (negb (is_in (start_node d) (node_keys d))) (dve "start_node_not_found") ;;!
  for_each (check_edge (node_keys d)) (edges d) ;;!
  raise_if (negb (bool_decide (dfs (adjacency d) (search_fuel d) ∅ (start_node d) = universe d)))
    (dve "unreachable_nodes") ;;!
  raise_if (negb (existsb (fun kv => is_in (type kv.2) TERMINAL_NODE_TYPES) (nodes d)))
    (dve "no_terminal_nodes") ;;!
  raise_if (negb (has_terminal_path (adjacency d) (is_terminal d) (search_fuel d)
                    (start_node d) ∅))
    (dve "no_terminal_path") ;;!
  for_each (fun kv => check_rag kv.2) (nodes d) ;;!
  raise_if (1 <? length (filter (fun kv => is_memory_commit kv.2 = true) (nodes d)))
    (dve "multiple_memory_commit_nodes") ;;!
  for_each (fun kv => check_data_merge (node_keys d) kv.2) (nodes d).

(** ** What validation promises *)

(** Some edge of the definition leads from [u] to [v]. *)
Definition graph_edge (d : FlowGraphDefinition) (u v : string) : Prop :=
  exists e, e ∈ edges d /\ from_node e = u /\ to_node e = v.

(** [rag_pipeline], where it is present, is an object. *)
Definition rag_ok (s : FlowGraphNodeSpec) : Prop :=
  type s ∈ _RAG_PIPELINE_NODE_TYPES ->
  dict_getv "rag_pipeline" (config_or_empty s) = PNone \/
  exists r, dict_getv "rag_pipeline" (config_or_empty s) = PDict r.

(** A merge rule names a node of the graph as its source. *)
Definition rule_ok (keys : list string) (rule : pyval) : Prop :=
  exists r k, rule = PDict r /\ dict_getv "from_node_id" r = PStr k /\ k <> "" /\ k ∈ keys.

Definition merge_ok (keys : list string) (s : FlowGraphNodeSpec) : Prop :=
  forall dm, type s = "MemoryCommitNode" ->
    dict_getv "data_merge" (config_or_empty s) = PList dm ->
    forall rule, rule ∈ dm -> rule_ok keys rule.

Record graph_valid (d : FlowGraphDefinition) : Prop := {
  gv_types : forall k s, (k, s) ∈ nodes d -> type s ∉ _DEPRECATED_NODE_TYPES;
  gv_start : start_node d ∈ node_keys d;
  gv_edges : forall e, e ∈ edges d ->
    (from_node e ∈ node_keys d /\ to_node e ∈ node_keys d) /\ blank (condition e) = false;
  gv_reach : forall k, k ∈ node_keys d -> rtc (graph_edge d) (start_node d) k;
  gv_terminal : exists k s, (k, s) ∈ nodes d /\ type s ∈ TERMINAL_NODE_TYPES;
  gv_rag : forall k s, (k, s) ∈ nodes d -> rag_ok s;
  gv_commit : length (filter (fun kv => is_memory_commit kv.2 = true) (nodes d)) <= 1;
  gv_merge : forall k s, (k, s) ∈ nodes d -> merge_ok (node_keys d) s;
}.

Lemma is_in_true x l : is_in x l = true <-> x ∈ l.
Proof. apply bool_decide_eq_true. Qed.

Lemma check_edge_ok keys e :
  check_edge keys e = Ok tt <->
  (from_node e ∈ keys /\ to_node e ∈ keys) /\ blank (condition e) = false.
Proof.
  unfold check_edge. by rewrite seq_ok, guard_ok, raise_if_ok, andb_true_iff, !is_in_true.
Qed.

Lemma check_rag_ok s : check_rag s = Ok tt <-> rag_ok s.
Proof.
  unfold check_rag, rag_ok, is_in. case_bool_decide; [|naive_solver].
  destruct (dict_getv _ _); naive_solver.
Qed.

Lemma check_rule_ok keys rule : check_rule keys rule = Ok tt <-> rule_ok keys rule.
Proof.
  unfold check_rule, rule_ok. destruct rule as [| | | | | |r|]; try naive_solver.
  destruct (truthy (dict_getv "from_node_id" r)) eqn:Ht; simpl.
  - destruct (dict_getv "from_node_id" r) as [| | | |k| | |] eqn:Hf; simpl;
      try (split; [done | intros (r' & k' & [= <-] & Hk & _); congruence]).
    rewrite guard_ok, is_in_true. simpl in Ht. destruct (String.eqb_spec k ""); [done|].
    split; [intros; by exists r, k | intros (? & ? & [= <-] & ? & _ & ?); congruence].
  - split; [done|]. intros (? & k & [= <-] & Hk & Hne & _). rewrite Hk in Ht.
    simpl in Ht. by destruct (String.eqb_spec k "").
Qed.

Lemma check_data_merge_ok keys s : check_data_merge keys s = Ok tt <-> merge_ok keys s.
Proof.
  unfold check_data_merge, merge_ok, is_memory_commit.
  destruct (String.eqb_spec (type s) "MemoryCommitNode"); [|naive_solver].
  destruct (dict_getv _ _); try naive_solver.
  rewrite for_each_ok. setoid_rewrite check_rule_ok. naive_solver.
Qed.

Lemma elem_of_adjacency d u v : v ∈ adjacency d u <-> graph_edge d u v.
Proof.
  unfold adjacency, graph_edge. rewrite elem_of_remove_dups, list_elem_of_fmap.
  setoid_rewrite list_elem_of_filter. naive_solver.
Qed.

Lemma rtc_adjacency d u v : rtc (edge_rel (adjacency d)) u v <-> rtc (graph_edge d) u v.
Proof.
  split; apply rtc_subrel; intros x y; unfold edge_rel; by rewrite elem_of_adjacency.
Qed.

Lemma elem_of_universe d k : k ∈ universe d <-> k ∈ node_keys d.
Proof. apply elem_of_list_to_set. Qed.

Lemma universe_closed d :
  (forall e, e ∈ edges d -> to_node e ∈ node_keys d) ->
  closed_under (adjacency d) (universe d).
Proof.
  intros H u v _ (e & He & _ & <-)%elem_of_adjacency. by apply elem_of_universe, H.
Qed.

Lemma is_terminal_true d n :
  is_terminal d n = true <-> exists s, (n, s) ∈ nodes d /\ type s ∈ TERMINAL_NODE_TYPES.
Proof.
  unfold is_terminal. rewrite existsb_elem_of. split.
  - intros ([k s] & Hin & H). simpl in H. apply andb_true_iff in H as [Hk Ht].
    apply String.eqb_eq in Hk as ->. apply is_in_true in Ht. eauto.
  - intros (s & Hin & Ht%is_in_true). exists (n, s). simpl.
    by rewrite String.eqb_refl, Ht.
Qed.

(** The visited set is the key set exactly when every key is reachable. *)
Lemma reachability_check d :
  start_node d ∈ node_keys d -> closed_under (adjacency d) (universe d) ->
  dfs (adjacency d) (search_fuel d) ∅ (start_node d) = universe d <->
  forall k, k ∈ node_keys d -> rtc (graph_edge d) (start_node d) k.
Proof.
  intros Hs%elem_of_universe Hc. split.
  - intros Heq k Hk%elem_of_universe. rewrite <- Heq in Hk.
    by apply rtc_adjacency, (dfs_reachable _ _ Hc).
  - intros Hall. apply set_eq. intros x. unfold search_fuel.
    rewrite (dfs_reachable _ _ Hc _ _ Hs). split.
    + intros Hr. by eapply closed_rtc.
    + intros Hx%elem_of_universe. by apply rtc_adjacency, Hall.
Qed.

Lemma validate_iff d : validate d = Ok tt <-> graph_valid d.
Proof.
  unfold validate. rewrite !seq_ok, !for_each_ok, !guard_ok, raise_if_ok, Nat.ltb_ge.
  setoid_rewrite raise_if_ok. setoid_rewrite check_edge_ok.
  setoid_rewrite check_rag_ok. setoid_rewrite check_data_merge_ok.
  rewrite is_in_true, bool_decide_eq_true, existsb_elem_of.
  assert (Hdep : (forall kv, kv ∈ nodes d -> is_in (type kv.2) _DEPRECATED_NODE_TYPES = false) <->
                 forall k s, (k, s) ∈ nodes d -> type s ∉ _DEPRECATED_NODE_TYPES).
  { split; [intros H k s Hin; specialize (H _ Hin) | intros H [k s] Hin; specialize (H _ _ Hin)];
      by apply bool_decide_eq_false in H || apply bool_decide_eq_false. }
  rewrite Hdep. clear Hdep. split.
  - intros (Ht & Hs & He & Hr & ([k s] & Hin & Hk%is_in_true) & _ & Hrag & Hmc & Hm).
    assert (Hc : closed_under (adjacency d) (universe d))
      by (apply universe_closed; intros e H; by apply He).
    split; try done.
    + by apply reachability_check.
    + eauto.
    + intros k' s' H. by apply (Hrag (k', s')).
    + intros k' s' H. by apply (Hm (k', s')).
  - intros [Ht Hs He Hr (k & s & Hin & Hk) Hrag Hmc Hm].
    assert (Hc : closed_under (adjacency d) (universe d))
      by (apply universe_closed; intros e H; by apply He).
    split_and!; try done.
    + by apply reachability_check.
    + exists (k, s). by rewrite is_in_true.
    + apply (has_terminal_path_spec _ _ _ Hc); [by apply elem_of_universe|].
      exists k. split; [apply is_terminal_true; eauto|].
      apply rtc_adjacency, Hr. apply list_elem_of_fmap. by exists (k, s).
    + intros [k' s'] H. by eapply Hrag.
    + intros [k' s'] H. by eapply Hm.
Qed.

(** A reachable terminal node gives a terminal path from the start. *)
Lemma terminal_path_found d :
  start_node d ∈ node_keys d ->
  (forall e, e ∈ edges d -> check_edge (node_keys d) e = Ok tt) ->
  dfs (adjacency d) (search_fuel d) ∅ (start_node d) = universe d ->
  (exists kv, kv ∈ nodes d /\ is_in (type kv.2) TERMINAL_NODE_TYPES = true) ->
  has_terminal_path (adjacency d) (is_terminal d) (search_fuel d) (start_node d) ∅ = true.
Proof.
  intros Hs He Hr ([k s] & Hin & Hk%is_in_true).
  assert (Hc : closed_under (adjacency d) (universe d)).
  { apply universe_closed. intros e H%He%check_edge_ok. apply H. }
  apply (has_terminal_path_spec _ _ _ Hc); [by apply elem_of_universe|].
  exists k. split; [apply is_terminal_true; eauto|]. apply rtc_adjacency.
  apply reachability_check; [done..|]. apply list_elem_of_fmap. by exists (k, s).
Qed.

(** The configuration checks that follow the graph search have errors of their
    own. *)
Lemma config_checks_raise d :
  raises_only (fun e => e <> dve "no_terminal_path")
    (for_each (fun kv => check_rag kv.2) (nodes d) ;;!
     raise_if (1 <? length (filter (fun kv => is_memory_commit kv.2 = true) (nodes d)))
       (dve "multiple_memory_commit_nodes") ;;!
     for_each (fun kv => check_data_merge (node_keys d) kv.2) (nodes d)).
Proof.
  apply raises_only_bind; [apply raises_only_rfold | intros _ _].
  { intros _ [k s] _. simpl. unfold check_rag. by repeat case_match. }
  apply raises_only_bind; [by destruct (1 <? _) | intros _ _].
  apply raises_only_rfold. intros _ [k s] _. simpl. unfold check_data_merge.
  repeat case_match; try done. apply raises_only_rfold. intros _ rule _.
  unfold check_rule. repeat case_match; try done. by destruct (is_in _ _).
Qed.

(** Static validation accepts exactly the well-formed graphs: no deprecated
    node type, a known start node, edges between known nodes with a non-blank
    condition, every node reachable from the start, a terminal node, object-valued
    RAG pipelines, at most one memory commit, and merge rules that name nodes of
    the graph.  Its search for a terminal path never rejects anything:
    [no_terminal_path] is not an outcome, because reachability and the existence of
    a terminal node already imply such a path. *)
Theorem validate_correct d :
  (validate d = Ok tt <-> graph_valid d) /\ validate d <> Err (dve "no_terminal_path").
Proof.
  split; [apply validate_iff|]. unfold validate.
  intros [Hf|([] & _ & H)]%rbind_err.
  { apply for_each_err in Hf as (x & _ & Hx). destruct (is_in _ _) in Hx; discriminate. }
  apply rbind_err in H as [Hf|([] & Hs%guard_ok & H)]; [by destruct (is_in _ _) in Hf|].
  apply rbind_err in H as [Hf|([] & He & H)].
  { apply for_each_err in Hf as (x & _ & Hx). unfold check_edge in Hx.
    destruct (_ && _), (blank _) in Hx; discriminate. }
  apply rbind_err in H as [Hf|([] & Hr%guard_ok & H)]; [by destruct (bool_decide _) in Hf|].
  apply rbind_err in H as [Hf|([] & Ht%guard_ok & H)]; [by destruct (existsb _ _) in Hf|].
  rewrite terminal_path_found in H.
  - simpl in H. by pose proof (config_checks_raise d) as Hc; rewrite H in Hc.
  - by apply is_in_true.
  - by apply for_each_ok.
  - by apply bool_decide_eq_true in Hr.
  - by apply existsb_elem_of.
Qed.
