(* ===== verification/DraftGraph.v ===== *)
(** * DraftGraph: from a submitted definition to a stored snapshot

    [flow_graph_draft_validator.py] (the DRAFT to VALIDATED step),
    [graph_node_config.py] (the schema of each node type) and
    [flow_graph_compiler.py] (the snapshot and its hash).

    Parameters of the model: the pyparsing grammar ([parse_string]), Python's
    [ast.parse] ([ast_parse]), pydantic's [model_validate] per schema class, and
    the SHA-256 digest of the printed snapshot. *)

From S2P Require Import Prelude.
From S2P Require Import Errors.
From S2P Require Import PyValue.
From S2P Require Import EdgeEvaluator.
From S2P Require Import ConditionEvaluator.
From S2P Require Import GraphSearch.
From S2P Require Import Sorting.
From S2P Require Import FlowGraph.

(** ** Node configuration schemas *)

Inductive schema_class : Type :=
  | LlmNodeConfigWrapperSchema
  | QueryClarifierNodeConfigSchema
  | ModerationNodeConfigSchema
  | MemoryCommitNodeConfigSchema
  | ContextSummarizerNodeConfigSchema
  | ToolExecutorNodeConfigSchema.

(** The table [type_to_schema] of [validate_node_config]. *)
Definition type_to_schema (node_type : string) : option schema_class :=
  if is_in node_type ["IntentClassifier"; "ToolResolver"; "ToolInputFiller";
                      "ResponseBuilder"; "HumanFallback"]
  then Some LlmNodeConfigWrapperSchema
  else if String.eqb node_type "QueryClarifier" then Some QueryClarifierNodeConfigSchema
  else if String.eqb node_type "ContentModeration" then Some ModerationNodeConfigSchema
  else if String.eqb node_type "MemoryCommitNode" then Some MemoryCommitNodeConfigSchema
  else if String.eqb node_type "ContextSummarizer" then Some ContextSummarizerNodeConfigSchema
  else if String.eqb node_type "ToolExecutor" then Some ToolExecutorNodeConfigSchema
  else None.

Section draft.
Variable parse_string : string -> option ast.
Variable ast_parse : string -> option pyast.
Variable same : pyval -> pyval -> bool.
Variable model_validate : schema_class -> pydict -> bool.

(** [validate_node_config]. *)
Definition validate_node_config (node_type : string) (cfg : option pydict) : res exc unit :=
  match cfg with
  | None => Ok tt
  | Some c =>
      match type_to_schema node_type with
      | None => Ok tt
      | Some schema => raise_if (negb (model_validate schema c)) PydanticValidationError
      end
  end.

(** [_validate_node_configs]: pydantic's error becomes a domain error. *)
Definition _validate_node_configs (d : FlowGraphDefinition) : res exc unit :=
  for_each (fun kv =>
    match validate_node_config (type kv.2) (config kv.2) with
    | Err PydanticValidationError => Err (dve "node_config_invalid")
    | r => r
    end) (nodes d).

(** [_validate_edge_syntax]. *)
Definition _validate_edge_syntax (es : list FlowGraphEdge) : res exc unit :=
  for_each (fun e => let! _ := compile_condition parse_string (condition e) in Ok tt) es.

(** [by_from[edge.from_node].append(edge)] on the insertion-ordered
    [defaultdict]. *)
Fixpoint group_add (groups : list (string * list FlowGraphEdge)) (e : FlowGraphEdge) :
    list (string * list FlowGraphEdge) :=
  match groups with
  | [] => [(from_node e, [e])]
  | (k, l) :: g =>
      if String.eqb k (from_node e) then (k, l ++ [e]) :: g else (k, l) :: group_add g e
  end.

Definition by_from (es : list FlowGraphEdge) : list (string * list FlowGraphEdge) :=
  fold_left group_add es [].

(** [_has_always_true]: an expression that does not parse or does not evaluate is
    skipped. *)
Definition always_true (e : FlowGraphEdge) : bool :=
  match ast_parse (python_source (condition e)) with
  | None => false
  | Some body =>
      match _is_constant_true same body with Ok b => b | Err _ => false end
  end.

Definition _has_always_true (edge_list : list FlowGraphEdge) : bool :=
  existsb always_true edge_list.

(** The inner loop of [_validate_mutual_exclusion] over one source node's edges. *)
Definition check_seen (seen : gset string) (e : FlowGraphEdge) : res exc (gset string) :=
  raise_if (bool_decide (condition e ∈ seen)) (dve "edge_condition_duplicate") ;;!
  Ok ({[condition e]} ∪ seen).

Definition check_group (edge_list : list FlowGraphEdge) : res exc unit :=
  if length edge_list <? 2 then Ok tt
  else
    let! _ := rfold check_seen edge_list ∅ in
    raise_if (_has_always_true edge_list) (dve "edge_condition_not_mutually_exclusive").

(** [_validate_mutual_exclusion]. *)
Definition _validate_mutual_exclusion (es : list FlowGraphEdge) : res exc unit :=
  for_each (fun g => check_group g.2) (by_from es).

(** [edge_kind_map[(u, v)]] is LOOP: the last edge from [u] to [v] decides. *)
Definition edge_kind_map (es : list FlowGraphEdge) (u v : string) : EdgeKind :=
  fold_left (fun k e =>
    if String.eqb (from_node e) u && String.eqb (to_node e) v then edge_kind e else k) es NORMAL.

Definition draft_out (d : FlowGraphDefinition) (u : string) : list (string * bool) :=
  (fun e => (to_node e, bool_decide (edge_kind_map (edges d) u (to_node e) = LOOP)))
    <$> filter (fun e => from_node e = u) (edges d).

(** [_validate_cycles]. *)
Definition _validate_cycles (d : FlowGraphDefinition) : res exc unit :=
  let! _ := loop_dfs (draft_out d) (search_fuel d) (∅, ∅) (start_node d) in Ok tt.

(** [FlowGraphDraftValidator.validate]. *)
Definition draft_validate (d : FlowGraphDefinition) : res exc unit :=
  validate d ;;!
  _validate_node_configs d ;;!
  _validate_edge_syntax (edges d) ;;!
  _validate_mutual_exclusion (edges d) ;;!
  _validate_cycles d.

(** ** FlowGraphCompiler *)

(** An edge of the stored snapshot.  [FlowGraphCompiler] writes every field; the
    reader tolerates a missing [condition] or [edge_kind] ([None] here), and a
    missing [compiled_condition] is [PNone]. *)
Record snap_edge : Type := {
  se_from : string;
  se_to : string;
  se_kind : option string;
  se_condition : option string;
  se_compiled : pyval;
}.

Record Snapshot : Type := {
  sn_start : option string;
  sn_nodes : list (string * pydict);
  sn_edges : list snap_edge;
}.

Definition edge_kind_value (k : EdgeKind) : string :=
  match k with NORMAL => "NORMAL" | LOOP => "LOOP" end.

Definition edge_key (e : FlowGraphEdge) : string * (string * string) :=
  (from_node e, (to_node e, condition e)).

Definition compile_edge (e : FlowGraphEdge) : res exc snap_edge :=
  let! c := compile_condition parse_string (condition e) in
  Ok {| se_from := from_node e; se_to := to_node e;
        se_kind := Some (edge_kind_value (edge_kind e));
        se_condition := Some (condition e); se_compiled := c |}.

(** [FlowGraphCompiler._compile_edges]. *)
Definition _compile_edges (es : list FlowGraphEdge) : res exc (list snap_edge) :=
  rmap compile_edge (sorted_by triple_le edge_key es).

(** [FlowGraphNodeSpec.model_dump()]. *)
Definition model_dump (s : FlowGraphNodeSpec) : pydict :=
  [("type", PStr (type s));
   ("config", match config s with Some c => PDict c | None => PNone end)].

(** The snapshot as the JSON value that is stored and hashed. *)
Definition edge_value (e : snap_edge) : pyval :=
  PDict [("from_node", PStr (se_from e)); ("to_node", PStr (se_to e));
         ("edge_kind", from_option PStr PNone (se_kind e));
         ("condition", from_option PStr PNone (se_condition e));
         ("compiled_condition", se_compiled e)].

Definition snapshot_value (s : Snapshot) : pyval :=
  PDict [("start_node", from_option PStr PNone (sn_start s));
         ("nodes", PDict ((fun kv => (kv.1, PDict kv.2)) <$> sn_nodes s));
         ("edges", PList (edge_value <$> sn_edges s));
         ("schema_version", PInt 1)].

(** [sha256(json.dumps(v, sort_keys=True, separators=(",", ":")).encode())], a
    function of the canonical value. *)
Variable sha256_json : pyval -> string.

(** [FlowGraphCompiler.compile]. *)
Definition compile_snapshot (d : FlowGraphDefinition) : res exc (Snapshot * string) :=
  let! es := _compile_edges (edges d) in
  let snapshot := {| sn_start := Some (start_node d);
                     sn_nodes := (fun kv => (kv.1, model_dump kv.2)) <$> nodes d;
                     sn_edges := es |} in
  Ok (snapshot, sha256_json (canonical (snapshot_value snapshot))).
End draft.

(** ** Grouping by source node *)

Lemma group_add_spec groups e k l :
  NoDup groups.*1 ->
  (k, l) ∈ group_add groups e <->
  if decide (k = from_node e)
  then exists l0, l = l0 ++ [e] /\ ((k, l0) ∈ groups \/ ((k ∉ groups.*1) /\ l0 = []))
  else (k, l) ∈ groups.
Proof.
  induction groups as [|[k' l'] g IH]; simpl; intros Hnd.
  - rewrite list_elem_of_singleton. case_decide as Hk; [subst k|].
    + split; [intros [= ->]; exists []; split; [done|]; right; split; [apply not_elem_of_nil|done]|].
      intros (l0 & -> & [H|[_ ->]]); [by apply elem_of_nil in H | done].
    + split; [by intros [= -> ->] | by intros H%elem_of_nil].
  - apply NoDup_cons in Hnd as [Hk' Hnd]. specialize (IH Hnd).
    destruct (String.eqb_spec k' (from_node e)) as [Heq|Hne].
    + rewrite elem_of_cons. case_decide as Hk; [subst k|].
      * split.
        -- intros [[= ->]|Hin]; [exists l'; split; [done|]; left; rewrite Heq; left|].
           destruct Hk'. rewrite Heq. by apply (list_elem_of_fmap_2 fst) in Hin.
        -- intros (l0 & -> & [[[= Hq ->]|Hin]%elem_of_cons|[Hn _]]).
           ++ left. by rewrite Hq.
           ++ destruct Hk'. rewrite Heq. by apply (list_elem_of_fmap_2 fst) in Hin.
           ++ destruct Hn. rewrite Heq. left.
      * rewrite elem_of_cons. naive_solver.
    + rewrite elem_of_cons, IH. case_decide as Hk.
      * split.
        -- intros [[= -> ->]|(l0 & -> & H)]; [congruence|]. exists l0. split; [done|].
           rewrite elem_of_cons, not_elem_of_cons. naive_solver.
        -- intros (l0 & -> & H). right. exists l0. split; [done|].
           rewrite elem_of_cons, not_elem_of_cons in H. naive_solver.
      * rewrite elem_of_cons. naive_solver.
Qed.

Lemma group_add_keys groups e :
  NoDup groups.*1 ->
  NoDup (group_add groups e).*1 /\
  forall k, k ∈ (group_add groups e).*1 <-> k ∈ groups.*1 \/ k = from_node e.
Proof.
  induction groups as [|[k' l'] g IH]; simpl; intros Hnd.
  - split; [apply NoDup_singleton|]. intros k. rewrite list_elem_of_singleton.
    rewrite elem_of_nil. naive_solver.
  - apply NoDup_cons in Hnd as [Hk' Hnd]. destruct (IH Hnd) as [IH1 IH2].
    destruct (String.eqb_spec k' (from_node e)) as [<-|Hne]; simpl.
    + split; [by constructor|]. intros k. rewrite elem_of_cons. naive_solver.
    + split; [constructor; [rewrite IH2; naive_solver | done]|].
      intros k. rewrite !elem_of_cons, IH2. naive_solver.
Qed.

Lemma filter_snoc {A} (P : A -> Prop) `{!forall x, Decision (P x)} l x :
  filter P (l ++ [x]) = filter P l ++ (if decide (P x) then [x] else []).
Proof. rewrite filter_app, filter_cons, filter_nil. by case_decide. Qed.

(** Each group holds the edges leaving its node, in order. *)
Lemma by_from_spec es :
  NoDup (by_from es).*1 /\
  (forall k, k ∈ (by_from es).*1 <-> k ∈ from_node <$> es) /\
  forall k l, (k, l) ∈ by_from es <->
    l = filter (fun e => from_node e = k) es /\ k ∈ from_node <$> es.
Proof.
  unfold by_from. induction es as [|e es (IH1 & IH2 & IH3)] using rev_ind; simpl.
  { split_and!; [constructor| |]; intros; rewrite !elem_of_nil; naive_solver. }
  rewrite fold_left_app. simpl. destruct (group_add_keys _ e IH1) as [Hnd Hk].
  split_and!; [done| |].
  - intros k. rewrite Hk, IH2, fmap_app, elem_of_app. simpl.
    by rewrite list_elem_of_singleton.
  - intros k l. rewrite (group_add_spec _ _ _ _ IH1), filter_snoc, fmap_app, elem_of_app.
    simpl. rewrite list_elem_of_singleton. case_decide as He.
    + setoid_rewrite IH3. setoid_rewrite IH2. subst k. rewrite decide_True by done. split.
      * intros (l0 & -> & [[-> Hin]|[Hn ->]]); [auto|]. split; [|auto].
        replace (filter _ es) with (@nil FlowGraphEdge); [done|]. symmetry.
        apply elem_of_nil_inv. intros x (Hx & Hin)%list_elem_of_filter.
        apply Hn. rewrite <- Hx. by apply list_elem_of_fmap_2.
      * intros [-> _]. eexists; split; [done|].
        destruct (decide (from_node e ∈ from_node <$> es)) as [Hin|Hn]; [by left; auto|].
        right. split; [done|]. apply elem_of_nil_inv. intros x (Hx & Hin)%list_elem_of_filter.
        apply Hn. rewrite <- Hx. by apply list_elem_of_fmap_2.
    + rewrite IH3, decide_False by (by intros <-). rewrite app_nil_r.
      split; [naive_solver|]. intros [-> [Hin| ->]]; naive_solver.
Qed.

(** ** Sibling edges *)

(** The edges leaving a node. *)
Definition siblings (es : list FlowGraphEdge) (k : string) : list FlowGraphEdge :=
  filter (fun e => from_node e = k) es.

Lemma check_seen_ok es seen :
  is_ok (rfold check_seen es seen) = true <->
  NoDup (condition <$> es) /\ forall e, e ∈ es -> condition e ∉ seen.
Proof.
  revert seen. induction es as [|e es IH]; intros seen; simpl.
  { split; [|done]. intros _. split; [constructor|]. intros e He. by apply elem_of_nil in He. }
  rewrite NoDup_cons. unfold check_seen at 1.
  case_bool_decide as Hin; simpl; [split; [done | intros [_ H]; by destruct (H e ltac:(left))]|].
  rewrite IH. setoid_rewrite elem_of_cons. setoid_rewrite list_elem_of_fmap. split.
  - intros [Hnd H]. split_and!; [|done|].
    + intros (y & Hy & He). apply (H y He). set_solver.
    + intros x [->|Hx]; [done|]. specialize (H x Hx). set_solver.
  - intros [[Hc Hnd] H]. split; [done|]. intros x Hx.
    rewrite not_elem_of_union, not_elem_of_singleton. split; [|auto].
    intros Heq. apply Hc. eauto.
Qed.

(** Conditions that tell the edges of one node apart: no two share a text, and one
    that always holds has no sibling. *)
Definition exclusive ast_parse same (es : list FlowGraphEdge) : Prop :=
  (forall k, NoDup (condition <$> siblings es k)) /\
  forall e, e ∈ es -> always_true ast_parse same e = true ->
    length (siblings es (from_node e)) < 2.

Lemma check_group_ok ast_parse same l :
  check_group ast_parse same l = Ok tt <->
  NoDup (condition <$> l) /\
  forall e, e ∈ l -> always_true ast_parse same e = true -> length l < 2.
Proof.
  unfold check_group. destruct (Nat.ltb_spec (length l) 2) as [Hl|Hl].
  - split; [|done]. intros _. split; [|done].
    destruct l as [|e [|]]; simpl in *; [constructor | apply NoDup_singleton | lia].
  - pose proof (check_seen_ok l ∅) as H.
    destruct (rfold check_seen l ∅) as [s|er] eqn:Hr; simpl in *.
    + destruct H as [[Hnd _] _]; [done|]. rewrite raise_if_ok. split.
      * intros Hf. split; [done|]. intros e He Ht. unfold _has_always_true in Hf.
        assert (existsb (always_true ast_parse same) l = true); [|congruence].
        apply existsb_elem_of. eauto.
      * intros [_ Hx]. apply not_true_iff_false. intros (e & He & Ht)%existsb_elem_of.
        specialize (Hx e He Ht). lia.
    + split; [done|]. intros [Hnd _]. destruct H as [_ H].
      assert (false = true) by (apply H; split; [done | set_solver]). done.
Qed.

Lemma validate_mutual_exclusion_ok ast_parse same es :
  _validate_mutual_exclusion ast_parse same es = Ok tt <-> exclusive ast_parse same es.
Proof.
  unfold _validate_mutual_exclusion, exclusive. rewrite for_each_ok.
  destruct (by_from_spec es) as (_ & Hk & Hg). setoid_rewrite check_group_ok. split.
  - intros H. split.
    + intros k. destruct (decide (k ∈ from_node <$> es)) as [Hin|Hn].
      * by destruct (H (k, siblings es k) ltac:(by apply Hg)).
      * replace (siblings es k) with (@nil FlowGraphEdge); [constructor|]. symmetry.
        apply elem_of_nil_inv. intros x (Hx & Hin)%list_elem_of_filter.
        apply Hn. rewrite <- Hx. by apply list_elem_of_fmap_2.
    + intros e He Ht. assert (Hin : from_node e ∈ from_node <$> es) by (by apply list_elem_of_fmap_2).
      destruct (H (from_node e, siblings es (from_node e)) ltac:(by apply Hg)) as [_ H'].
      apply (H' e); [|done]. by apply list_elem_of_filter.
  - intros [Hnd Ht] [k l] [-> Hin]%Hg. simpl. split; [apply Hnd|].
    intros e (<- & He)%list_elem_of_filter Ha. by apply (Ht e).
Qed.

(** Distinct keys, from distinct conditions per source. *)
Lemma exclusive_keys ast_parse same es :
  exclusive ast_parse same es -> NoDup (edge_key <$> es).
Proof.
  intros [Hnd _]. induction es as [|e es IH]; simpl; [constructor|]. constructor.
  - intros (y & Hy & He)%list_elem_of_fmap. specialize (Hnd (from_node e)).
    unfold siblings in Hnd. rewrite filter_cons_True in Hnd by done.
    apply NoDup_cons in Hnd as [Hn _]. apply Hn. injection Hy as H1 H2 H3.
    apply list_elem_of_fmap. exists y. split; [done|]. by apply list_elem_of_filter.
  - apply IH. intros k. specialize (Hnd k). unfold siblings in *.
    rewrite filter_cons in Hnd. case_decide; [|done]. by apply NoDup_cons in Hnd as [_ ?].
Qed.

(** ** Cycles *)

Lemma targets_draft d u v : v ∈ targets (draft_out d) u <-> graph_edge d u v.
Proof.
  unfold targets, draft_out, graph_edge. rewrite <- list_fmap_compose, list_elem_of_fmap.
  setoid_rewrite list_elem_of_filter. simpl. naive_solver.
Qed.

Lemma rtc_targets_draft d u v :
  rtc (edge_rel (targets (draft_out d))) u v <-> rtc (graph_edge d) u v.
Proof.
  split; apply rtc_subrel; intros x y; unfold edge_rel; by rewrite targets_draft.
Qed.

Lemma normal_draft d u v :
  normal_edge (draft_out d) u v <->
  graph_edge d u v /\ edge_kind_map (edges d) u v = NORMAL.
Proof.
  unfold normal_edge, draft_out, graph_edge. rewrite list_elem_of_fmap.
  setoid_rewrite list_elem_of_filter. split.
  - intros (e & [= -> Hk] & He & Hin). symmetry in Hk. apply bool_decide_eq_false in Hk.
    split; [eauto|]. by destruct (edge_kind_map _ _ _).
  - intros [(e & He & Hf & <-) Hk]. exists e. rewrite Hk. auto.
Qed.

Lemma validate_cycles_acyclic d :
  graph_valid d -> _validate_cycles d = Ok tt ->
  exists rank : string -> nat, forall u v,
    graph_edge d u v -> edge_kind_map (edges d) u v = NORMAL -> rank v < rank u.
Proof.
  intros Hd (st & H & _)%rbind_ok. apply loop_dfs_acyclic in H as [rank H].
  exists rank. intros u v He Hk. apply H; [|by apply normal_draft].
  apply rtc_targets_draft, (gv_reach d Hd). destruct He as (e & Hin & <- & _).
  by apply (gv_edges d Hd).
Qed.

Lemma validate_cycles_total d :
  graph_valid d ->
  (forall u v, graph_edge d u v -> edge_kind_map (edges d) u v = NORMAL ->
     ~ rtc (graph_edge d) v u) ->
  _validate_cycles d = Ok tt.
Proof.
  intros Hd Hn. unfold _validate_cycles.
  destruct (loop_dfs (draft_out d) (search_fuel d) (∅, ∅) (start_node d)) as [st|e] eqn:H;
    [done|].
  pose proof (loop_dfs_fuel (draft_out d) (universe d)) as Hfuel.
  specialize (Hfuel ltac:(intros u v _ (x & Hx & _ & <-)%targets_draft;
    apply elem_of_universe, (gv_edges d Hd x Hx)) (search_fuel d) (∅, ∅) (start_node d)
    ltac:(apply elem_of_universe, (gv_start d Hd))
    ltac:(unfold search_fuel; simpl; rewrite difference_empty_L; lia)).
  rewrite H in Hfuel. simpl in Hfuel. subst e.
  apply (loop_dfs_cycle _ _ (start_node d)) in H as (u & v & _ & [He Hk]%normal_draft & Hvu).
  - destruct (Hn u v He Hk). by apply rtc_targets_draft.
  - constructor.
  - simpl. intros w Hw. by apply elem_of_empty in Hw.
Qed.

(** ** What the draft step promises *)

Section promises.
Variable parse_string : string -> option ast.
Variable ast_parse : string -> option pyast.
Variable same : pyval -> pyval -> bool.
Variable model_validate : schema_class -> pydict -> bool.

(** Every configuration satisfies the schema of its node's type. *)
Definition configs_ok (d : FlowGraphDefinition) : Prop :=
  forall k s c schema, (k, s) ∈ nodes d -> config s = Some c ->
    type_to_schema (type s) = Some schema -> model_validate schema c = true.

Record draft_local (d : FlowGraphDefinition) : Prop := {
  dl_graph : graph_valid d;
  dl_configs : configs_ok d;
  dl_syntax : forall e, e ∈ edges d -> is_Some (parse_string (condition e));
  dl_exclusive : exclusive ast_parse same (edges d);
}.

Lemma validate_node_configs_ok d :
  _validate_node_configs model_validate d = Ok tt <-> configs_ok d.
Proof.
  unfold _validate_node_configs, configs_ok, validate_node_config. rewrite for_each_ok. split.
  - intros H k s c schema Hin Hc Ht. specialize (H _ Hin). simpl in H. rewrite Hc, Ht in H.
    by destruct (model_validate schema c).
  - intros H [k s] Hin. simpl. destruct (config s) as [c|] eqn:Hc; [|done].
    destruct (type_to_schema (type s)) as [schema|] eqn:Ht; [|done].
    by rewrite (H k s c schema).
Qed.

Lemma validate_edge_syntax_ok es :
  _validate_edge_syntax parse_string es = Ok tt <->
  forall e, e ∈ es -> is_Some (parse_string (condition e)).
Proof.
  unfold _validate_edge_syntax, compile_condition. rewrite for_each_ok.
  split; intros H e He; specialize (H e He); destruct (parse_string (condition e)); try done.
Qed.

(** The draft step.  An accepted draft is statically valid, its node
    configurations satisfy their schemas, its conditions parse and tell sibling
    edges apart, and its unmarked connections decrease a rank, so no cycle avoids
    a LOOP mark.  Conversely a draft with these local properties and no cycle
    through an unmarked connection is accepted. *)
Theorem draft_validate_correct d :
  (draft_validate parse_string ast_parse same model_validate d = Ok tt ->
   draft_local d /\
   exists rank : string -> nat, forall u v,
     graph_edge d u v -> edge_kind_map (edges d) u v = NORMAL -> rank v < rank u) /\
  (draft_local d ->
   (forall u v, graph_edge d u v -> edge_kind_map (edges d) u v = NORMAL ->
      ~ rtc (graph_edge d) v u) ->
   draft_validate parse_string ast_parse same model_validate d = Ok tt).
Proof.
  unfold draft_validate. rewrite !seq_ok, validate_iff, validate_node_configs_ok,
    validate_edge_syntax_ok, validate_mutual_exclusion_ok. split.
  - intros (Hg & Hc & Hs & Hx & Hcyc). split; [by split|]. by apply validate_cycles_acyclic.
  - intros [Hg Hc Hs Hx] Hn. split_and!; try done. by apply validate_cycles_total.
Qed.

(** ** Snapshots *)

Variable sha256_json : pyval -> string.

Lemma compile_edges_total es :
  (forall e, e ∈ es -> is_Some (parse_string (condition e))) ->
  exists ces, _compile_edges parse_string es = Ok ces.
Proof.
  intros H. unfold _compile_edges.
  pose proof (fun x Hx => H x (proj1 (elem_of_sorted_by triple_le edge_key x es) Hx)) as Hs.
  revert Hs. generalize (sorted_by triple_le edge_key es). intros l Hs. clear H.
  induction l as [|e l IH]; simpl; [eauto|].
  destruct (Hs e ltac:(left)) as [a Ha]. unfold compile_edge at 1, compile_condition.
  rewrite Ha. simpl. destruct IH as [ces ->]; [|simpl; eauto].
  intros x Hx. apply Hs. by right.
Qed.

Lemma compile_edges_perm es es' :
  exclusive ast_parse same es -> es ≡ₚ es' ->
  _compile_edges parse_string es = _compile_edges parse_string es'.
Proof.
  intros Hx Hp. unfold _compile_edges. f_equal. apply (sorted_by_unique triple_le edge_key); [|done].
  by eapply exclusive_keys.
Qed.

(** Compilation of a validated draft succeeds and is canonical: two
    definitions that differ only in the order of their nodes and edges compile to
    the same edge list and the same structural hash. *)
Theorem compile_snapshot_canonical d d' :
  draft_validate parse_string ast_parse same model_validate d = Ok tt ->
  NoDup (node_keys d) -> start_node d' = start_node d ->
  nodes d ≡ₚ nodes d' -> edges d ≡ₚ edges d' ->
  exists s s' h,
    compile_snapshot parse_string sha256_json d = Ok (s, h) /\
    compile_snapshot parse_string sha256_json d' = Ok (s', h) /\
    sn_edges s = sn_edges s' /\ sn_start s = sn_start s' /\ sn_nodes s ≡ₚ sn_nodes s'.
Proof.
  intros Hv Hnd Hst Hn He. unfold draft_validate in Hv.
  rewrite !seq_ok, validate_edge_syntax_ok, validate_mutual_exclusion_ok in Hv.
  destruct Hv as (_ & _ & Hs & Hx & _).
  destruct (compile_edges_total _ Hs) as [ces Hces]. unfold compile_snapshot.
  rewrite <- (compile_edges_perm _ _ Hx He), Hces, Hst. cbn [rbind].
  set (s := {| sn_nodes := _ <$> nodes d |}). set (s' := {| sn_nodes := _ <$> nodes d' |}).
  assert (canonical (snapshot_value s') = canonical (snapshot_value s)) as ->.
  { apply canonical_dict_values. repeat constructor. symmetry. apply canonical_dict_perm.
    - simpl. rewrite <- !list_fmap_compose. exact Hnd.
    - by do 2 apply fmap_Permutation. }
  eexists s, s', _. split_and!; [done..|]. by apply fmap_Permutation.
Qed.

(** The always-true test reads a negation as true whenever its operand is
    not constantly true, so a pair of edges guarded by a condition and by its
    negation is refused as not mutually exclusive, although no context makes both
    hold. *)
Theorem negation_pair_rejected e e' a :
  from_node e = from_node e' -> condition e <> condition e' ->
  ast_parse (python_source (condition e)) = Some a ->
  ast_parse (python_source (condition e')) = Some (ANot a) ->
  _is_constant_true same a = Ok false ->
  _validate_mutual_exclusion ast_parse same [e; e'] =
    Err (dve "edge_condition_not_mutually_exclusive") /\
  forall ctx v w, visit same ctx a = Ok v -> visit same ctx (ANot a) = Ok w ->
    truthy w = negb (truthy v).
Proof.
  intros Hf Hc Ha Hn Hct. split.
  - unfold _validate_mutual_exclusion, by_from. simpl. rewrite Hf, String.eqb_refl.
    unfold for_each. simpl. unfold check_group. simpl.
    unfold check_seen, _has_always_true, always_true. simpl.
    rewrite bool_decide_false by set_solver. simpl.
    rewrite bool_decide_false by set_solver. simpl.
    rewrite Ha, Hn. simpl. by rewrite Hct.
  - intros ctx v w Hv Hw. simpl in Hw. rewrite Hv in Hw. by injection Hw as <-.
Qed.
End promises.

(** ** A concrete definition *)

Definition demo_edge (u v c : string) (k : EdgeKind) : FlowGraphEdge :=
  {| from_node := u; to_node := v; condition := c; edge_kind := k |}.

Definition demo_spec (t : string) : FlowGraphNodeSpec := {| type := t; config := None |}.

(** Classify, fall back to a human on low confidence, retry through a loop. *)
Definition demo_graph : FlowGraphDefinition := {|
  start_node := "intent";
  nodes := [("intent", demo_spec "IntentClassifier"); ("clarify", demo_spec "QueryClarifier");
            ("human", demo_spec "HumanFallback")];
  edges := [demo_edge "intent" "human" "confidence" NORMAL;
            demo_edge "intent" "clarify" "ambiguous" NORMAL;
            demo_edge "clarify" "intent" "retry" LOOP] |}.

Definition demo_graph' : FlowGraphDefinition := {|
  start_node := "intent"; nodes := rev (nodes demo_graph); edges := rev (edges demo_graph) |}.

(** A parser for single identifiers. *)
Definition demo_parse (s : string) : option ast := Some (AGroup [APath (s, []) []]).
Definition demo_ast_parse (s : string) : option pyast :=
  if String.eqb s "not ok" then Some (ANot (AName "ok")) else Some (AName s).

Lemma compile_snapshot_canonical_witness :
  exists s s' h,
    compile_snapshot demo_parse (fun _ => "digest") demo_graph = Ok (s, h) /\
    compile_snapshot demo_parse (fun _ => "digest") demo_graph' = Ok (s', h) /\
    sn_edges s = sn_edges s' /\ sn_start s = sn_start s' /\ sn_nodes s ≡ₚ sn_nodes s'.
Proof.
  apply (compile_snapshot_canonical demo_parse demo_ast_parse (fun _ _ => true)
    (fun _ _ => true) (fun _ => "digest") demo_graph demo_graph').
  - vm_compute. reflexivity.
  - apply (bool_decide_unpack _). vm_compute. done.
  - reflexivity.
  - apply Permutation_rev.
  - apply Permutation_rev.
Defined.

Lemma negation_pair_rejected_witness :
  _validate_mutual_exclusion demo_ast_parse (fun _ _ => true)
    [demo_edge "a" "b" "ok" NORMAL; demo_edge "a" "c" "not ok" NORMAL] =
    Err (dve "edge_condition_not_mutually_exclusive") /\
  forall ctx v w, visit (fun _ _ => true) ctx (AName "ok") = Ok v ->
    visit (fun _ _ => true) ctx (ANot (AName "ok")) = Ok w -> truthy w = negb (truthy v).
Proof.
  apply (negation_pair_rejected demo_ast_parse (fun _ _ => true)); try reflexivity. discriminate.
Defined.
