(* ===== verification/GraphCompiler.v ===== *)
(** * GraphCompiler: from a stored snapshot to an execution plan

    [src/src/domain/execution/services/graph_runtime/graph_compiler.py] and
    [execution_plan.py].  The compiler re-validates the stored snapshot, orders the
    edges and builds the adjacency map the executor walks. *)

From S2P Require Import Prelude.
From S2P Require Import Errors.
From S2P Require Import PyValue.
From S2P Require Import EdgeEvaluator.
From S2P Require Import ConditionEvaluator.
From S2P Require Import GraphSearch.
From S2P Require Import Sorting.
From S2P Require Import FlowGraph.
From S2P Require Import DraftGraph.

(** ** Plans *)

Record CompiledEdge : Type := {
  ce_from : string;
  ce_to : string;
  ce_kind : EdgeKind;
  compiled_condition : list pyval;
  order : nat;
}.

(** The dict [adjacency_map] in insertion order. *)
Record ExecutionPlan : Type := {
  start_node_id : string;
  ordered_nodes : list string;
  adjacency_map : list (string * list CompiledEdge);
  terminal_nodes : gset string;
  structural_hash : string;
  plan_nodes : list (string * pydict);
  available_tools : list pyval;
}.

(** [adjacency.get(node_id, [])]. *)
Fixpoint adj_get (adj : list (string * list CompiledEdge)) (n : string) : list CompiledEdge :=
  match adj with
  | [] => []
  | (k, l) :: adj' => if String.eqb n k then l else adj_get adj' n
  end.

(** [adjacency[ce.from_node].append(ce)] on a [defaultdict]. *)
Fixpoint adj_add (adj : list (string * list CompiledEdge)) (ce : CompiledEdge) :
    list (string * list CompiledEdge) :=
  match adj with
  | [] => [(ce_from ce, [ce])]
  | (k, l) :: adj' =>
      if String.eqb (ce_from ce) k then (k, l ++ [ce]) :: adj' else (k, l) :: adj_add adj' ce
  end.

(** ** Compilation *)

(** [EdgeKind(edge_kind_str)], NORMAL when the key is missing. *)
Definition parse_edge_kind (k : option string) : res exc EdgeKind :=
  match k with
  | None => Ok NORMAL
  | Some s =>
      if String.eqb s "NORMAL" then Ok NORMAL
      else if String.eqb s "LOOP" then Ok LOOP
      else Err PyValueError
  end.

(** One iteration of the loop over the sorted edges; the model [CompiledEdge]
    accepts only a list as [compiled_condition]. *)
Definition compile_plan_edge (ord : nat) (e : snap_edge) : res exc CompiledEdge :=
  raise_if (bool_decide (se_compiled e = PNone)) (dve "compiled_condition_missing") ;;!
  let! kind := parse_edge_kind (se_kind e) in
  match se_compiled e with
  | PList c => Ok {| ce_from := se_from e; ce_to := se_to e; ce_kind := kind;
                     compiled_condition := c; order := ord |}
  | _ => Err PydanticValidationError
  end.

Definition snap_key (e : snap_edge) : string * (string * string) :=
  (se_from e, (se_to e, default "" (se_condition e))).

(** [for order, edge in enumerate(sorted(edges, key=...))], over the growing
    adjacency map. *)
Fixpoint compile_plan_edges (ord : nat) (es : list snap_edge)
    (adj : list (string * list CompiledEdge)) : res exc (list (string * list CompiledEdge)) :=
  match es with
  | [] => Ok adj
  | e :: es' =>
      let! ce := compile_plan_edge ord e in
      compile_plan_edges (S ord) es' (adj_add adj ce)
  end.

(** [spec.get("type") in {NodeType.ResponseBuilder, NodeType.HumanFallback}]. *)
Definition terminal_spec (spec : pydict) : res exc bool :=
  let t := dict_getv "type" spec in
  if hashable t then
    Ok (match t with PStr s => is_in s TERMINAL_NODE_TYPES | _ => false end)
  else Err PyTypeError.

Definition collect_terminals (ns : list (string * pydict)) : res exc (gset string) :=
  rfold (fun acc kv =>
    let! b := terminal_spec kv.2 in Ok (if (b : bool) then {[kv.1]} ∪ acc else acc)) ns ∅.

(** Successors in the adjacency map, with their loop marks. *)
Definition plan_out (adj : list (string * list CompiledEdge)) (n : string) : list (string * bool) :=
  (fun ce => (ce_to ce, bool_decide (ce_kind ce = LOOP))) <$> adj_get adj n.

(** All nodes a search from the start can meet. *)
Definition plan_universe (start : string) (adj : list (string * list CompiledEdge)) : gset string :=
  {[start]} ∪ list_to_set (ce_to <$> concat adj.*2).

(** [_validate_reachability]. *)
Definition _validate_reachability (start : string) (adj : list (string * list CompiledEdge))
    (node_ids : list string) : res exc unit :=
  raise_if (negb (bool_decide
    (list_to_set node_ids =
     dfs (targets (plan_out adj)) (S (size (plan_universe start adj))) ∅ start)))
    (dve "unreachable_nodes").

(** [_validate_loops]. *)
Definition _validate_loops (start : string) (adj : list (string * list CompiledEdge)) :
    res exc unit :=
  let! _ := loop_dfs (plan_out adj) (S (size (plan_universe start adj))) (∅, ∅) start in
  Ok tt.

(** [GraphCompiler.compile]. *)
Definition compile (snapshot : Snapshot) (hash : string) (tools : option (list pyval)) :
    res exc ExecutionPlan :=
  let ns := sn_nodes snapshot in
  match sn_start snapshot with
  | None => Err (dve "start_node_not_found")
  | Some start =>
      raise_if (String.eqb start "" || negb (is_in start ns.*1)) (dve "start_node_not_found") ;;!
      raise_if (Nat.eqb (length (sn_edges snapshot)) 0) (dve "edges_required") ;;!
      let! terminals := collect_terminals ns in
      raise_if (bool_decide (terminals = ∅)) (dve "no_terminal_nodes") ;;!
      let! adj := compile_plan_edges 0 (sorted_by triple_le snap_key (sn_edges snapshot)) [] in
      _validate_reachability start adj ns.*1 ;;!
      _validate_loops start adj ;;!
      Ok {| start_node_id := start; ordered_nodes := ns.*1; adjacency_map := adj;
            terminal_nodes := terminals; structural_hash := hash; plan_nodes := ns;
            available_tools := default [] tools |}
  end.

(** ** The adjacency map *)

Lemma adj_get_add adj ce n :
  adj_get (adj_add adj ce) n = adj_get adj n ++ (if decide (ce_from ce = n) then [ce] else []).
Proof.
  induction adj as [|[k l] adj IH]; simpl.
  - destruct (String.eqb_spec n (ce_from ce)); case_decide; congruence.
  - destruct (String.eqb_spec (ce_from ce) k) as [->|Hne]; simpl;
      destruct (String.eqb_spec n k) as [->|Hn]; try done.
    + by rewrite decide_True.
    + rewrite decide_False by congruence. by rewrite app_nil_r.
    + rewrite decide_False by congruence. by rewrite app_nil_r.
Qed.

Lemma adj_values_add adj ce : concat (adj_add adj ce).*2 ≡ₚ ce :: concat adj.*2.
Proof.
  induction adj as [|[k l] adj IH]; simpl; [done|].
  destruct (String.eqb (ce_from ce) k); simpl; [|rewrite IH]; solve_Permutation.
Qed.

Lemma adj_get_values adj n ce : ce ∈ adj_get adj n -> ce ∈ concat adj.*2.
Proof.
  induction adj as [|[k l] adj IH]; simpl; [done|]. rewrite elem_of_app.
  destruct (String.eqb n k); auto.
Qed.

(** A compiled edge carries its snapshot edge's data. *)
Definition edge_matches (e : snap_edge) (ce : CompiledEdge) : Prop :=
  ce_from ce = se_from e /\ ce_to ce = se_to e /\
  parse_edge_kind (se_kind e) = Ok (ce_kind ce) /\ se_compiled e = PList (compiled_condition ce).

Lemma compile_plan_edge_ok ord e ce :
  compile_plan_edge ord e = Ok ce <-> edge_matches e ce /\ order ce = ord.
Proof.
  unfold compile_plan_edge, edge_matches. split.
  - intros H. rinv. destruct (se_compiled e); rinv; done.
  - intros [(H1 & H2 & H3 & H4) <-]. rewrite H3, H4. simpl. destruct ce; simpl in *. by subst.
Qed.

(** The loop compiles every edge, numbers them consecutively and files each under
    its source. *)
Lemma compile_plan_edges_ok ord es adj adj' :
  compile_plan_edges ord es adj = Ok adj' <->
  exists ces, Forall2 edge_matches es ces /\ order <$> ces = seq ord (length es) /\
    fold_left adj_add ces adj = adj'.
Proof.
  revert ord adj; induction es as [|e es IH]; intros ord adj; simpl.
  - split; [intros [= ->]; exists []; repeat constructor|].
    intros (ces & Hm & _ & <-). inversion Hm. done.
  - rewrite rbind_ok. setoid_rewrite IH. setoid_rewrite compile_plan_edge_ok. split.
    + intros (ce & [Hm Ho] & ces & Hms & Hos & Hf). exists (ce :: ces). simpl.
      split_and!; [by constructor | by f_equal | done].
    + intros (ces & Hm & Ho & Hf). inversion Hm as [|? ce ? ces' Hce Hces]; subst.
      simpl in Ho. injection Ho as Ho1 Ho2. eauto 10.
Qed.

Lemma fold_adj_get ces adj n :
  adj_get (fold_left adj_add ces adj) n = adj_get adj n ++ filter (fun ce => ce_from ce = n) ces.
Proof.
  revert adj; induction ces as [|ce ces IH]; intros adj; simpl; [by rewrite app_nil_r|].
  rewrite IH, adj_get_add, filter_cons, <- app_assoc. by case_decide.
Qed.

Lemma elem_of_filter_from (ces : list CompiledEdge) n ce :
  ce ∈ filter (fun ce => ce_from ce = n) ces <-> ce_from ce = n /\ ce ∈ ces.
Proof. by rewrite list_elem_of_filter. Qed.

(** What the loop leaves in the adjacency map of a snapshot. *)
Definition adjacency_of (es : list snap_edge) (adj : list (string * list CompiledEdge)) : Prop :=
  exists ces, Forall2 edge_matches (sorted_by triple_le snap_key es) ces /\
    order <$> ces = seq 0 (length ces) /\
    forall n, adj_get adj n = filter (fun ce => ce_from ce = n) ces.

Lemma compile_plan_edges_adjacency es adj :
  compile_plan_edges 0 (sorted_by triple_le snap_key es) [] = Ok adj -> adjacency_of es adj.
Proof.
  intros (ces & Hm & Ho & <-)%compile_plan_edges_ok. exists ces. split_and!; [done| |].
  - by rewrite Ho, (Forall2_length _ _ _ Hm).
  - intros n. by rewrite fold_adj_get.
Qed.

Lemma adjacency_sound es adj n ce :
  adjacency_of es adj -> ce ∈ adj_get adj n ->
  ce_from ce = n /\ exists e, e ∈ es /\ edge_matches e ce.
Proof.
  intros (ces & Hm & _ & Hadj). rewrite Hadj, elem_of_filter_from.
  intros [Hf Hin]. split; [done|]. apply list_elem_of_lookup in Hin as [i Hi].
  destruct (Forall2_lookup_r _ _ _ _ _ Hm Hi) as (e & He & Hme). exists e.
  split; [|done]. by apply list_elem_of_lookup_2, elem_of_sorted_by in He.
Qed.

Lemma adjacency_complete es adj e :
  adjacency_of es adj -> e ∈ es ->
  exists ce, ce ∈ adj_get adj (se_from e) /\ edge_matches e ce.
Proof.
  intros (ces & Hm & _ & Hadj) He. apply (elem_of_sorted_by triple_le snap_key) in He.
  apply list_elem_of_lookup in He as [i Hi].
  destruct (Forall2_lookup_l _ _ _ _ _ Hm Hi) as (ce & Hce & Hme). exists ce.
  rewrite Hadj, elem_of_filter_from. split; [|done]. split; [by destruct Hme|].
  by apply list_elem_of_lookup_2 in Hce.
Qed.

(** ** What a plan promises *)

(** The plan has an edge from [u] to [v]. *)
Definition plan_edge (adj : list (string * list CompiledEdge)) (u v : string) : Prop :=
  exists ce, ce ∈ adj_get adj u /\ ce_to ce = v.

Lemma targets_plan adj u v : v ∈ targets (plan_out adj) u <-> plan_edge adj u v.
Proof.
  unfold targets, plan_out, plan_edge. rewrite <- list_fmap_compose, list_elem_of_fmap.
  simpl. naive_solver.
Qed.

Lemma rtc_plan adj u v :
  rtc (edge_rel (targets (plan_out adj))) u v <-> rtc (plan_edge adj) u v.
Proof. split; apply rtc_subrel; intros x y; unfold edge_rel; by rewrite targets_plan. Qed.

Lemma plan_normal adj u v :
  normal_edge (plan_out adj) u v <->
  exists ce, ce ∈ adj_get adj u /\ ce_to ce = v /\ ce_kind ce = NORMAL.
Proof.
  unfold normal_edge, plan_out. rewrite list_elem_of_fmap. split.
  - intros (ce & [= -> Hk] & Hin). exists ce. split_and!; [done..|].
    symmetry in Hk. apply bool_decide_eq_false in Hk. by destruct (ce_kind ce).
  - intros (ce & Hin & <- & Hk). exists ce. by rewrite Hk.
Qed.

Lemma plan_universe_closed start adj :
  closed_under (targets (plan_out adj)) (plan_universe start adj).
Proof.
  intros u v _ (ce & Hin & <-)%targets_plan. unfold plan_universe. apply elem_of_union_r, elem_of_list_to_set.
  by apply list_elem_of_fmap_2, (adj_get_values _ u).
Qed.

Lemma start_in_universe start adj : start ∈ plan_universe start adj.
Proof. unfold plan_universe. apply elem_of_union_l, elem_of_singleton_2, eq_refl. Qed.

Lemma validate_reachability_ok start adj ids :
  _validate_reachability start adj ids = Ok tt <->
  forall n, n ∈ ids <-> rtc (plan_edge adj) start n.
Proof.
  unfold _validate_reachability. rewrite guard_ok, bool_decide_eq_true.
  setoid_rewrite <- rtc_plan.
  setoid_rewrite <- (dfs_reachable _ _ (plan_universe_closed start adj) start _
                       (start_in_universe start adj)).
  rewrite set_eq. by setoid_rewrite elem_of_list_to_set.
Qed.

(** The node's type is one of the terminal types. *)
Definition terminal_typed (spec : pydict) : Prop :=
  exists t, dict_getv "type" spec = PStr t /\ t ∈ TERMINAL_NODE_TYPES.

Lemma terminal_spec_ok spec b :
  terminal_spec spec = Ok b -> b = true <-> terminal_typed spec.
Proof.
  unfold terminal_spec, terminal_typed. destruct (dict_getv "type" spec) as [| | | |t| | |]; simpl;
    intros [= <-]; rewrite ?is_in_true; split; try (done || naive_solver).
Qed.

Lemma collect_terminals_ok ns ts :
  collect_terminals ns = Ok ts ->
  forall n, n ∈ ts <-> exists spec, (n, spec) ∈ ns /\ terminal_typed spec.
Proof.
  unfold collect_terminals. intros H n.
  enough (Hg : forall acc, rfold (fun acc (kv : string * pydict) =>
      let! b := terminal_spec kv.2 in Ok (if (b : bool) then {[kv.1]} ∪ acc else acc)) ns acc = Ok ts ->
    n ∈ ts <-> n ∈ acc \/ exists spec, (n, spec) ∈ ns /\ terminal_typed spec).
  { rewrite (Hg ∅ H), elem_of_empty. naive_solver. }
  clear H. induction ns as [|[k sp] ns IH]; intros acc; simpl.
  - intros [= ->]. split; [auto|]. intros [?|(? & He & _)]; [done|]. by apply elem_of_nil in He.
  - intros (acc' & (b & Hb & [= <-])%rbind_ok & H)%rbind_ok. rewrite (IH _ H).
    apply terminal_spec_ok in Hb. setoid_rewrite elem_of_cons. destruct b; simpl.
    + rewrite elem_of_union, elem_of_singleton. naive_solver.
    + naive_solver.
Qed.

(** The invariant of compiled plans, relative to the snapshot they come from. *)
Record plan_wf (snapshot : Snapshot) (p : ExecutionPlan) : Prop := {
  pw_start : start_node_id p ∈ ordered_nodes p;
  pw_nodes : ordered_nodes p = (plan_nodes p).*1 /\ plan_nodes p = sn_nodes snapshot;
  pw_sound : forall u ce, ce ∈ adj_get (adjacency_map p) u ->
    ce_from ce = u /\ exists e, e ∈ sn_edges snapshot /\ edge_matches e ce;
  pw_complete : forall e, e ∈ sn_edges snapshot ->
    exists ce, ce ∈ adj_get (adjacency_map p) (se_from e) /\ edge_matches e ce;
  pw_reach : forall n, n ∈ ordered_nodes p <->
    rtc (plan_edge (adjacency_map p)) (start_node_id p) n;
  pw_rank : exists rank : string -> nat, forall u ce,
    u ∈ ordered_nodes p -> ce ∈ adj_get (adjacency_map p) u -> ce_kind ce = NORMAL ->
    rank (ce_to ce) < rank u;
  pw_terminal : forall n, n ∈ terminal_nodes p <->
    exists spec, (n, spec) ∈ plan_nodes p /\ terminal_typed spec;
  pw_some_terminal : exists n, n ∈ terminal_nodes p /\ n ∈ ordered_nodes p;
}.

Lemma compile_wf snapshot hash tools p :
  compile snapshot hash tools = Ok p -> plan_wf snapshot p.
Proof.
  unfold compile. destruct (sn_start snapshot) as [start|]; [|done]. intros H.
  apply rbind_ok in H as ([] & Hs%raise_if_ok & H).
  apply orb_false_iff in Hs as [_ Hs%negb_false_iff%is_in_true].
  apply rbind_ok in H as ([] & _ & H). apply rbind_ok in H as (ts & Hts & H).
  apply rbind_ok in H as ([] & Hne%raise_if_ok & H).
  apply bool_decide_eq_false in Hne. apply rbind_ok in H as (adj & Hadj & H).
  apply compile_plan_edges_adjacency in Hadj. apply rbind_ok in H as ([] & Hr & H).
  rewrite validate_reachability_ok in Hr.
  apply rbind_ok in H as ([] & (st & Hl & _)%rbind_ok & [= <-]).
  apply loop_dfs_acyclic in Hl as [rank Hrank].
  pose proof (collect_terminals_ok _ _ Hts) as Ht. split; simpl; try done.
  - intros u ce. by apply adjacency_sound.
  - intros e. by apply adjacency_complete.
  - exists rank. intros u ce Hu Hce Hk. apply Hrank; [by apply rtc_plan, Hr|].
    apply plan_normal. eauto.
  - apply set_choose_L in Hne as [n Hn]. exists n. split; [done|].
    apply Ht in Hn as (spec & Hin & _). by apply (list_elem_of_fmap_2 fst) in Hin.
Qed.

(** [C26] A compiled plan is sound: its nodes are exactly those reachable from the
    start along its edges, it has a terminal node among them, every edge of the
    snapshot appears once under its source with its condition and loop mark and
    nothing else does, the edges of a node are in increasing order, and unmarked
    edges decrease a rank. *)
Theorem compile_sound snapshot hash tools p :
  compile snapshot hash tools = Ok p ->
  plan_wf snapshot p /\ structural_hash p = hash /\
  (forall u i j ce ce', adj_get (adjacency_map p) u !! i = Some ce ->
     adj_get (adjacency_map p) u !! j = Some ce' -> i < j -> order ce < order ce').
Proof.
  intros H. split; [by eapply compile_wf|].
  unfold compile in H. destruct (sn_start snapshot) as [start|]; [|done]. rinv.
  match goal with H : compile_plan_edges _ _ _ = Ok _ |- _ => rename H into Hadj end.
  split; [done|]. simpl.
  apply compile_plan_edges_adjacency in Hadj as (ces & _ & Ho & Hget).
  intros u i j ce ce' Hi Hj Hij. rewrite Hget in Hi, Hj.
  eapply (sorted_lookup (fun a b => order a < order b)); [|exact Hi|exact Hj|done].
  eapply sorted_filter, numbered_sorted, Ho.
Qed.

(** ** Validated drafts compile *)

(** The last parallel edge decides, and it is an edge. *)
Lemma edge_kind_map_edge es u v :
  (exists e, e ∈ es /\ from_node e = u /\ to_node e = v) ->
  exists e, e ∈ es /\ from_node e = u /\ to_node e = v /\ edge_kind e = edge_kind_map es u v.
Proof.
  unfold edge_kind_map. induction es as [|e es IH] using rev_ind.
  { intros (e & He & _). by apply elem_of_nil in He. }
  rewrite fold_left_app. simpl. intros (x & Hx & Hf & Ht).
  destruct (String.eqb_spec (from_node e) u), (String.eqb_spec (to_node e) v); simpl.
  { exists e. split_and!; [apply elem_of_app; right; left | done..]. }
  all: apply elem_of_app in Hx as [Hx|Hx]; [|apply list_elem_of_singleton in Hx; congruence].
  all: destruct IH as (y & Hy & ?); [by exists x|]; exists y; split; [|done].
  all: apply elem_of_app; by left.
Qed.

(** Structured loops: unmarked edges decrease a rank, and a LOOP edge returns to a
    node through which every walk from the start to its source passes. *)
Inductive def_walk (d : FlowGraphDefinition) : list string -> string -> Prop :=
  | def_walk_start : def_walk d [start_node d] (start_node d)
  | def_walk_step p u v : def_walk d p u -> graph_edge d u v -> def_walk d (v :: p) v.

Record structured (d : FlowGraphDefinition) : Prop := {
  st_rank : exists rank : string -> nat, forall e, e ∈ edges d ->
    edge_kind e = NORMAL -> rank (to_node e) < rank (from_node e);
  st_loops : forall e, e ∈ edges d -> edge_kind e = LOOP ->
    forall p, def_walk d p (from_node e) -> to_node e ∈ p;
}.

(** The plan's edges are the definition's. *)
Definition same_edges (d : FlowGraphDefinition) (out : string -> list (string * bool)) : Prop :=
  forall u v b, (v, b) ∈ out u ->
    exists e, e ∈ edges d /\ from_node e = u /\ to_node e = v /\ bool_decide (edge_kind e = LOOP) = b.

Lemma structured_accepts d out U :
  structured d -> same_edges d out -> closed_under (targets out) U -> start_node d ∈ U ->
  exists st, loop_dfs out (S (size U)) (∅, ∅) (start_node d) = Ok st.
Proof.
  intros [[rank Hrank] Hloops] Hsame HU Hs.
  apply (loop_dfs_accepts out U HU (start_node d) rank); [| |done].
  - intros u v _ (e & He & <- & <- & Hk)%Hsame. apply Hrank; [done|].
    apply bool_decide_eq_false in Hk. by destruct (edge_kind e).
  - intros u v (e & He & <- & <- & Hk%bool_decide_eq_true)%Hsame p Hp.
    apply (Hloops e He Hk). clear He Hk. induction Hp as [|p u v Hp IH Hv]; [constructor|].
    econstructor; [done|]. apply list_elem_of_fmap in Hv as ([? b] & -> & Hin).
    apply Hsame in Hin as (e' & ? & ? & ? & _). by exists e'.
Qed.

Section pipeline.
Variable parse_string : string -> option ast.
Variable ast_parse : string -> option pyast.
Variable same : pyval -> pyval -> bool.
Variable model_validate : schema_class -> pydict -> bool.
Variable sha256_json : pyval -> string.

(** The snapshot's edges are the compiled edges of the definition. *)
Lemma compile_edges_elem es ses :
  _compile_edges parse_string es = Ok ses ->
  (forall se, se ∈ ses -> exists e, e ∈ es /\ compile_edge parse_string e = Ok se) /\
  (forall e, e ∈ es -> exists se, se ∈ ses /\ compile_edge parse_string e = Ok se).
Proof.
  intros H%rmap_ok. split.
  - intros se [i Hi]%list_elem_of_lookup.
    destruct (Forall2_lookup_r _ _ _ _ _ H Hi) as (e & He & Hc). exists e. split; [|done].
    by apply list_elem_of_lookup_2, elem_of_sorted_by in He.
  - intros e He. apply (elem_of_sorted_by triple_le edge_key) in He.
    apply list_elem_of_lookup in He as [i Hi].
    destruct (Forall2_lookup_l _ _ _ _ _ H Hi) as (se & Hse & Hc). exists se.
    split; [|done]. by apply list_elem_of_lookup_2 in Hse.
Qed.

Lemma compile_edge_fields e se :
  compile_edge parse_string e = Ok se ->
  se_from se = from_node e /\ se_to se = to_node e /\
  parse_edge_kind (se_kind se) = Ok (edge_kind e) /\
  exists a, parse_string (condition e) = Some a /\ se_compiled se = _to_serializable a.
Proof.
  unfold compile_edge, compile_condition.
  destruct (parse_string (condition e)) as [a|] eqn:Ha; simpl; [|done].
  intros [= <-]. simpl. split_and!; [done..| |eauto]. by destruct (edge_kind e).
Qed.

Lemma compile_plan_edges_total ord es adj :
  (forall e, e ∈ es -> exists ce, edge_matches e ce) ->
  exists adj', compile_plan_edges ord es adj = Ok adj'.
Proof.
  revert ord adj. induction es as [|e es IH]; intros ord adj H; simpl; [eauto|].
  destruct (H e ltac:(left)) as [ce (H1 & H2 & H3 & H4)]. unfold compile_plan_edge.
  rewrite H3, H4. simpl. apply IH. intros x Hx. apply H. by right.
Qed.

Lemma collect_terminals_total ns :
  (forall kv, kv ∈ ns -> exists t, dict_getv "type" kv.2 = PStr t) ->
  exists ts, collect_terminals ns = Ok ts.
Proof.
  unfold collect_terminals. generalize (∅ : gset string).
  induction ns as [|kv ns IH]; intros acc H; simpl; [eauto|].
  destruct (H kv ltac:(left)) as [t Ht]. unfold terminal_spec at 1. rewrite Ht. simpl.
  apply IH. intros x Hx. apply H. by right.
Qed.

Variable d : FlowGraphDefinition.
Hypothesis d_local : draft_local parse_string ast_parse same model_validate d.
Hypothesis d_structured : structured d.

Lemma structured_draft_validates :
  draft_validate parse_string ast_parse same model_validate d = Ok tt.
Proof using d_local d_structured.
  destruct d_local as [Hg Hc Hs Hx]. unfold draft_validate.
  rewrite !seq_ok, validate_iff, validate_node_configs_ok, validate_edge_syntax_ok,
    validate_mutual_exclusion_ok. split_and!; try done.
  unfold _validate_cycles, search_fuel.
  destruct (structured_accepts d (draft_out d) (universe d) d_structured) as [st ->]; [| | |done].
  - intros u v b (e & [= -> ->] & He)%list_elem_of_fmap_1.
    apply list_elem_of_filter in He as [<- He].
    destruct (edge_kind_map_edge (edges d) (from_node e) (to_node e)) as (e' & ? & ? & ? & <-);
      eauto.
  - intros u v _ (x & Hx' & _ & <-)%targets_draft. apply elem_of_universe, (gv_edges d Hg x Hx').
  - apply elem_of_universe, (gv_start d Hg).
Qed.

Hypothesis d_edges : edges d <> [].
Hypothesis d_start : start_node d <> "".
Hypothesis d_brackets : forall e, e ∈ edges d ->
  exists items, parse_string (condition e) = Some (AGroup items).

Lemma compiled_edge_matches e se :
  e ∈ edges d -> compile_edge parse_string e = Ok se -> exists ce, edge_matches se ce.
Proof using d_brackets.
  intros He (H1 & H2 & H3 & a & Ha & Hc)%compile_edge_fields.
  destruct (d_brackets e He) as [items Hi]. rewrite Hi in Ha. injection Ha as <-.
  simpl in Hc. exists {| ce_from := se_from se; ce_to := se_to se; ce_kind := edge_kind e;
    compiled_condition := _to_serializable <$> items; order := 0 |}. by split_and!.
Qed.

(** Edges of the adjacency map, traced back to the definition. *)
Lemma plan_edges_of_definition ses adj :
  _compile_edges parse_string (edges d) = Ok ses -> adjacency_of ses adj ->
  same_edges d (plan_out adj) /\ forall u v, plan_edge adj u v <-> graph_edge d u v.
Proof.
  intros Hses Hadj. destruct (compile_edges_elem _ _ Hses) as [Hin Hout].
  assert (Hsound : forall u ce, ce ∈ adj_get adj u -> exists e, e ∈ edges d /\
            from_node e = u /\ to_node e = ce_to ce /\ edge_kind e = ce_kind ce).
  { intros u ce Hce. destruct (adjacency_sound _ _ _ _ Hadj Hce) as (<- & se & Hse & Hm).
    destruct (Hin se Hse) as (e & He & (F1 & F2 & F3 & _)%compile_edge_fields).
    destruct Hm as (M1 & M2 & M3 & _). exists e. split_and!; congruence. }
  split; [|intros u v; split].
  - intros u v b (ce & [= -> ->] & Hce)%list_elem_of_fmap_1.
    destruct (Hsound u ce Hce) as (e & He & Hf & Ht & Hk). exists e. by rewrite Hk.
  - intros (ce & Hce & <-). destruct (Hsound u ce Hce) as (e & He & Hf & Ht & _). by exists e.
  - intros (e & He & <- & <-). destruct (Hout e He) as (se & Hse & Hc).
    destruct (adjacency_complete _ _ _ Hadj Hse) as (ce & Hce & _ & M2 & _).
    apply compile_edge_fields in Hc as (F1 & F2 & _). exists ce.
    by rewrite <- F1, M2, F2.
Qed.

Lemma definition_terminals :
  exists ts, collect_terminals ((fun kv => (kv.1, model_dump kv.2)) <$> nodes d) = Ok ts /\ ts <> ∅.
Proof using d_local.
  set (ns := (fun kv => (kv.1, model_dump kv.2)) <$> nodes d).
  destruct (collect_terminals_total ns) as [ts Hts].
  { intros kv ([k sp] & -> & _)%list_elem_of_fmap_1. by exists (type sp). }
  exists ts. split; [done|]. intros ->.
  destruct (gv_terminal d (dl_graph _ _ _ _ _ d_local)) as (k & sp & Hin & Ht).
  apply (elem_of_empty (C := gset string) k). apply (collect_terminals_ok _ _ Hts).
  exists (model_dump sp). split; [|by exists (type sp)].
  apply list_elem_of_fmap. by exists (k, sp).
Qed.

Lemma structured_draft_compiles_aux tools :
  exists s h p, compile_snapshot parse_string sha256_json d = Ok (s, h) /\
    compile s h tools = Ok p /\ ordered_nodes p = node_keys d /\ start_node_id p = start_node d.
Proof using d_local d_structured d_edges d_start d_brackets.
  pose proof (dl_graph _ _ _ _ _ d_local) as Hg.
  destruct (compile_edges_total parse_string _ (dl_syntax _ _ _ _ _ d_local)) as [ses Hses].
  unfold compile_snapshot. rewrite Hses. cbn [rbind]. eexists _, _.
  destruct (compile_plan_edges_total 0 (sorted_by triple_le snap_key ses) []) as [adj Hadj].
  { intros se Hse. apply elem_of_sorted_by in Hse.
    destruct (compile_edges_elem _ _ Hses) as [Hin _]. destruct (Hin se Hse) as (e & He & Hc).
    by eapply compiled_edge_matches. }
  pose proof (compile_plan_edges_adjacency _ _ Hadj) as Hof.
  destruct (plan_edges_of_definition _ _ Hses Hof) as [Hsame Hpe].
  destruct definition_terminals as (ts & Hts & Hne).
  destruct (structured_accepts d (plan_out adj) (plan_universe (start_node d) adj) d_structured
    Hsame (plan_universe_closed _ _) (start_in_universe _ _)) as [st Hst].
  assert (Hkeys : ((fun kv => (kv.1, model_dump kv.2)) <$> nodes d).*1 = node_keys d)
    by (by rewrite <- list_fmap_compose).
  eexists. split; [reflexivity|]. unfold compile. cbn [sn_start sn_nodes sn_edges].
  rewrite Hkeys, (proj2 (is_in_true _ _) (gv_start d Hg)), Hts, Hadj.
  rewrite (proj2 (String.eqb_neq _ _) d_start). cbn [rbind raise_if orb negb].
  rewrite bool_decide_eq_false_2 by done.
  rewrite (proj2 (validate_reachability_ok _ _ _)).
  - unfold _validate_loops. rewrite Hst. simpl.
    destruct (length ses) eqn:Hl; [|simpl; eauto].
    destruct (edges d) as [|e es] eqn:Hed; [done|]. apply nil_length_inv in Hl as ->.
    destruct (compile_edges_elem _ _ Hses) as [_ Hout].
    destruct (Hout e ltac:(left)) as (se & Hse & _). by apply elem_of_nil in Hse.
  - intros n. rewrite (rtc_proper_iff (plan_edge adj) (graph_edge d) Hpe).
    split; [apply (gv_reach d Hg)|]. intros Hr. apply elem_of_universe.
    eapply closed_rtc; [|by apply rtc_adjacency|by apply elem_of_universe, (gv_start d Hg)].
    apply universe_closed. intros e He. by apply (gv_edges d Hg).
Qed.

(** [C29] Validated drafts are executable.  A draft whose local checks pass, whose
    loops are structured (unmarked edges decrease a rank, each LOOP edge returns to
    a dominator of its source) and whose conditions are operator expressions is
    accepted by the draft step, and the snapshot compiled from it is accepted by
    the plan compiler, with the same nodes and start. *)
Theorem structured_draft_compiles tools :
  draft_validate parse_string ast_parse same model_validate d = Ok tt /\
  exists s h p, compile_snapshot parse_string sha256_json d = Ok (s, h) /\
    compile s h tools = Ok p /\ ordered_nodes p = node_keys d /\ start_node_id p = start_node d.
Proof using d_local d_structured d_edges d_start d_brackets.
  split; [apply structured_draft_validates; done|]. by apply structured_draft_compiles_aux.
Qed.
End pipeline.

(** ** Concrete graphs *)

Definition yes {A B} (_ : A) (_ : B) : bool := true.

Definition draft_check (parse : string -> option ast) (d : FlowGraphDefinition) : res exc unit :=
  draft_validate parse demo_ast_parse yes yes d.

Definition publish (parse : string -> option ast) (d : FlowGraphDefinition) : res exc ExecutionPlan :=
  let! sh := compile_snapshot parse (fun _ => "digest") d in compile sh.1 sh.2 None.

Lemma demo_structured : structured demo_graph.
Proof.
  split.
  - exists (fun n => if String.eqb n "intent" then 1 else 0).
    intros e He. unfold demo_graph in He. simpl in He.
    rewrite !elem_of_cons, elem_of_nil in He.
    destruct He as [->|[->|[->|[]]]]; vm_compute; try done; lia.
  - intros e He Hk p Hp. unfold demo_graph in He. simpl in He.
    rewrite !elem_of_cons, elem_of_nil in He. destruct He as [->|[->|[->|[]]]]; try done.
    simpl in *. clear Hk. induction Hp as [|p u v Hp IH Hv]; [left|]. by right.
Qed.

Lemma demo_local : draft_local demo_parse demo_ast_parse yes yes demo_graph.
Proof.
  assert (H : draft_check demo_parse demo_graph = Ok tt) by (vm_compute; reflexivity).
  unfold draft_check, draft_validate in H.
  rewrite !seq_ok, validate_iff, validate_node_configs_ok, validate_edge_syntax_ok,
    validate_mutual_exclusion_ok in H. by destruct H as (? & ? & ? & ? & _).
Qed.

Lemma compile_sound_witness :
  exists s h p, compile_snapshot demo_parse (fun _ => "digest") demo_graph = Ok (s, h) /\
    plan_wf s p /\ structural_hash p = h.
Proof.
  destruct (compile_snapshot demo_parse (fun _ => "digest") demo_graph) as [[s h]|] eqn:Hs;
    [|vm_compute in Hs; discriminate].
  destruct (compile s h None) as [p|] eqn:Hp;
    [|injection Hs as <- <-; vm_compute in Hp; discriminate].
  exists s, h, p. destruct (compile_sound s h None p Hp) as (? & ? & _). done.
Defined.

Lemma structured_draft_compiles_witness :
  draft_check demo_parse demo_graph = Ok tt /\
  exists s h p, compile_snapshot demo_parse (fun _ => "digest") demo_graph = Ok (s, h) /\
    compile s h None = Ok p /\ ordered_nodes p = node_keys demo_graph /\
    start_node_id p = "intent".
Proof.
  apply (structured_draft_compiles demo_parse demo_ast_parse yes yes (fun _ => "digest") demo_graph).
  - exact demo_local.
  - exact demo_structured.
  - discriminate.
  - discriminate.
  - intros e _. by eexists.
Defined.

(** A definition over the nodes [s], [a], [b] and a terminal [t]. *)
Definition small_graph (es : list FlowGraphEdge) : FlowGraphDefinition := {|
  start_node := "s";
  nodes := [("s", demo_spec "IntentClassifier"); ("a", demo_spec "QueryClarifier");
            ("b", demo_spec "ToolResolver"); ("t", demo_spec "HumanFallback")];
  edges := es |}.

(** The loop between [a] and [b] is entered from both sides; [s -> b] comes first
    in the definition and last in the compiler's order. *)
Definition two_entries : FlowGraphDefinition := small_graph
  [demo_edge "s" "b" "p" NORMAL; demo_edge "s" "a" "q" NORMAL; demo_edge "b" "a" "r" NORMAL;
   demo_edge "a" "b" "u" LOOP; demo_edge "b" "t" "v" NORMAL].

(** Two parallel back edges, the unmarked one first. *)
Definition parallel_back : FlowGraphDefinition := small_graph
  [demo_edge "s" "a" "p" NORMAL; demo_edge "a" "b" "q" NORMAL; demo_edge "b" "a" "r" NORMAL;
   demo_edge "b" "a" "u" LOOP; demo_edge "b" "t" "v" NORMAL].

Definition plain_graph : FlowGraphDefinition := small_graph
  [demo_edge "s" "a" "p" NORMAL; demo_edge "a" "b" "q" NORMAL; demo_edge "b" "t" "r" NORMAL].

Definition single_node : FlowGraphDefinition := {|
  start_node := "t"; nodes := [("t", demo_spec "HumanFallback")]; edges := [] |}.

(** A bare path is a complete condition of the grammar. *)
Definition bare_parse (s : string) : option ast := Some (APath (s, []) []).

(** Acceptance by the draft step does not guarantee a plan: the two cycle
    checks visit edges in different orders and treat parallel edges differently,
    a condition that is a bare path does not fit the plan's edge model, and a
    graph without edges is refused only by the plan compiler. *)
Theorem validated_draft_refused :
  (draft_check demo_parse two_entries = Ok tt /\
     publish demo_parse two_entries = Err (dve "cycle_not_marked_loop")) /\
  (draft_check demo_parse parallel_back = Ok tt /\
     publish demo_parse parallel_back = Err (dve "cycle_not_marked_loop")) /\
  (draft_check bare_parse plain_graph = Ok tt /\
     publish bare_parse plain_graph = Err PydanticValidationError) /\
  (draft_check demo_parse single_node = Ok tt /\
     publish demo_parse single_node = Err (dve "edges_required")).
Proof. repeat split; vm_compute; reflexivity. Qed.
