(* ===== verification/Effects.v ===== *)
(** * Effects: stateful code that may raise

    Services that write to a store are computations in [M S A]: they take the
    state and return a value or an exception together with the state they leave
    behind.  Writes made before an exception stay, as they do in the source, where
    every repository call commits its own transaction. *)

From S2P Require Import Prelude.
From S2P Require Import Errors.

Definition M (S A : Type) : Type := S -> res exc A * S.

Section monad.
Context {S : Type}.

Definition mret {A} (a : A) : M S A := fun s => (Ok a, s).
Definition mraise {A} (e : exc) : M S A := fun s => (Err e, s).
Definition mget : M S S := fun s => (Ok s, s).
Definition mmodify (f : S -> S) : M S unit := fun s => (Ok tt, f s).

Definition mbind_ {A B} (m : M S A) (k : A -> M S B) : M S B := fun s =>
  match m s with
  | (Ok a, s') => k a s'
  | (Err e, s') => (Err e, s')
  end.

(** [try: m except Exception as e: h(e)]. *)
Definition mtry {A} (m : M S A) (h : exc -> M S A) : M S A := fun s =>
  match m s with
  | (Ok a, s') => (Ok a, s')
  | (Err e, s') => h e s'
  end.

(** Run a pure fallible expression. *)
Definition mlift {A} (r : res exc A) : M S A := fun s => (r, s).
End monad.

Notation "'let*' x ':=' m 'in' k" := (mbind_ m (fun x => k))
  (at level 10, x binder, m at level 100, k at level 200) : py_scope.
Notation "m ;;* k" := (mbind_ m (fun _ => k))
  (at level 100, right associativity) : py_scope.

(** [for x in l: body(x)]. *)
Fixpoint mfor {S A} (body : A -> M S unit) (l : list A) : M S unit :=
  match l with
  | [] => mret tt
  | x :: l' => body x ;;* mfor body l'
  end.

(** ** Preserved parts of the state *)

(** Whatever the outcome, the computation relates the state before to the state
    after by [R]. *)
Definition respects {S A} (R : S -> S -> Prop) (m : M S A) : Prop :=
  forall s, R s (m s).2.

Section respects.
Context {S : Type} (R : S -> S -> Prop) `{!PreOrder R}.

Lemma respects_ret {A} (a : A) : respects R (mret a).
Proof. intros s. simpl. reflexivity. Qed.

Lemma respects_raise {A} e : respects R (mraise (A := A) e).
Proof. intros s. simpl. reflexivity. Qed.

Lemma respects_get : respects R mget.
Proof. intros s. simpl. reflexivity. Qed.

Lemma respects_lift {A} (r : res exc A) : respects R (mlift r).
Proof. intros s. simpl. reflexivity. Qed.

Lemma respects_modify f : (forall s, R s (f s)) -> respects R (mmodify f).
Proof. intros H s. apply H. Qed.

Lemma respects_bind {A B} (m : M S A) (k : A -> M S B) :
  respects R m -> (forall a, respects R (k a)) -> respects R (mbind_ m k).
Proof.
  intros Hm Hk s. unfold mbind_. specialize (Hm s).
  destruct (m s) as [[a|e] s']; simpl in *; [|done]. etrans; [done | apply Hk].
Qed.

Lemma respects_try {A} (m : M S A) h :
  respects R m -> (forall e, respects R (h e)) -> respects R (mtry m h).
Proof.
  intros Hm Hh s. unfold mtry. specialize (Hm s).
  destruct (m s) as [[a|e] s']; simpl in *; [done|]. etrans; [done | apply Hh].
Qed.

Lemma respects_for {A} (body : A -> M S unit) l :
  (forall x, x ∈ l -> respects R (body x)) -> respects R (mfor body l).
Proof.
  induction l as [|x l IH]; intros H; simpl; [apply respects_ret|].
  apply respects_bind; [apply H; left|]. intros _. apply IH. intros. apply H. by right.
Qed.
End respects.

Lemma respects_run {S A} (R : S -> S -> Prop) (m : M S A) s r s' :
  respects R m -> m s = (r, s') -> R s s'.
Proof. intros H E. specialize (H s). by rewrite E in H. Qed.

#[export] Hint Resolve respects_ret respects_raise respects_get respects_lift
  respects_modify respects_bind respects_try respects_for : orch.

Lemma mbind_ok {S A B} (m : M S A) (k : A -> M S B) s b s' :
  mbind_ m k s = (Ok b, s') <-> exists a s1, m s = (Ok a, s1) /\ k a s1 = (Ok b, s').
Proof. unfold mbind_. destruct (m s) as [[a|e] s1]; naive_solver. Qed.

Lemma mbind_run {S A B} (m : M S A) (k : A -> M S B) s r s' :
  m s = (r, s') ->
  mbind_ m k s = match r with Ok a => k a s' | Err e => (Err e, s') end.
Proof. unfold mbind_. by intros ->. Qed.

(** Split a known run of a bind at its first computation. *)
Tactic Notation "first_step" hyp(H) "as" simple_intropattern(p) "eqn" ":" ident(E) :=
  match type of H with mbind_ ?m _ ?s = _ =>
    destruct (m s) as p eqn:E; rewrite (mbind_run _ _ _ _ _ E) in H
  end.

(** Binds of computations that agree where they are run. *)
Lemma mbind_ext {S A B} (m m' : M S A) (k k' : A -> M S B) s :
  m s = m' s -> (forall a s', k a s' = k' a s') -> mbind_ m k s = mbind_ m' k' s.
Proof. intros H Hk. unfold mbind_. rewrite H. by destruct (m' s) as [[a|e] s']. Qed.

(** Walk through a computation, leaving the calls whose effect must be known. *)
Ltac frame_step :=
  first
    [ apply respects_ret; apply _
    | apply respects_raise; apply _
    | apply respects_get; apply _
    | apply respects_lift; apply _
    | apply respects_bind; [apply _ | | intros ?]
    | apply respects_try; [apply _ | | intros ?]
    | solve [eauto with frame] ].
Ltac frame := repeat (frame_step; []) ; repeat frame_step.

Create HintDb frame.

(** ** Invariants with history *)

Lemma get_bind {S A} (k : S -> M S A) s : mbind_ mget k s = k s s.
Proof. reflexivity. Qed.

(** Steps that keep an invariant and only let the state develop. *)
Section keeps.
Context {S : Type} (I : S -> Prop) (D : S -> S -> Prop) `{!PreOrder D}.

Definition keeps (s s' : S) : Prop := I s -> I s' /\ D s s'.

#[global] Instance keeps_preorder : PreOrder keeps.
Proof.
  split; [intros s Hs; split; [done | reflexivity]|]. intros a b c H1 H2 Ha. destruct (H1 Ha) as [Hb D1]. destruct (H2 Hb) as [Hc D2].
  split; [done | by etrans].
Qed.
Lemma keeps_refl s : keeps s s.
Proof. reflexivity. Qed.

(** The continuation may use where it starts. *)
Lemma keeps_bind {A B} (m : M S A) (k : A -> M S B) s :
  keeps s (m s).2 -> (I s -> forall a s1, m s = (Ok a, s1) -> I s1 -> keeps s1 (k a s1).2) -> keeps s (mbind_ m k s).2.
Proof.
  intros Hm Hk Hs. destruct (Hm Hs) as [Hs1 Hd]. unfold mbind_. specialize (Hk Hs). destruct (m s) as [[a|e] s1]; [|done].
  destruct (Hk a s1 eq_refl Hs1 Hs1) as [Hs2 Hd2]. split; [done | by etrans].
Qed.
End keeps.
