(* ===== verification/Store.v ===== *)
(** * Store: the execution repository

    [src/src/domain/execution/repositories/execution_repository.py]: the tables the
    runtime writes and the repository's operations on them.  A table is a finite
    map from primary keys; [UPDATE ... WHERE id] is [alter], which does nothing when
    the row is missing, as in SQL.  [uuid4()] draws the next unused identifier.
    Tracing and logging are dropped; failures of the database itself are not
    modelled. *)

From S2P Require Import Prelude.
From S2P Require Import Errors.
From S2P Require Import PyValue.
From S2P Require Import StateMachine.
From S2P Require Import Effects.

(** Identifiers. *)
Abbreviation uuid := N.

(** ** Rows *)

Record flow_run : Type := {
  fr_session : uuid;
  fr_version : uuid;
  fr_correlation : uuid;
  fr_snapshot : option uuid;
  fr_user : string;
  fr_status : string;
  fr_canonical : string;
  fr_input : pyval;
  fr_output : pyval;
  fr_error : pyval;
  fr_finished : bool;
  fr_interaction : option uuid;
  fr_turn_index : Z;
  fr_workflow : option (string * string);
}.

Record node_run : Type := {
  nr_flow : uuid;
  nr_node : uuid;
  nr_input : pyval;
  nr_output : pyval;
  nr_status : string;
  nr_canonical : string;
  nr_finished : bool;
}.

Record graph_state : Type := {
  gs_state : pyval;
  gs_last_node_run : option uuid;
}.

Record interaction : Type := {
  in_flow : option uuid;
  in_output : pyval;
  in_result_node_run : option uuid;
  in_completed : bool;
  in_metadata : pydict;
}.

Record agent_run : Type := {
  ar_node_run : uuid;
  ar_agent_version : uuid;
  ar_input : pyval;
  ar_status : string;
  ar_output : pyval;
  ar_tokens : option (Z * Z);
  ar_finished : bool;
}.

Record ledger_row : Type := {
  lg_tenant : uuid;
  lg_flow : uuid;
  lg_node_run : uuid;
  lg_agent_run : option uuid;
  lg_session : uuid;
  lg_tokens : Z * Z;
}.

(** The arguments of [append_execution_event] besides the flow run. *)
Record event_data : Type := {
  ed_tenant : uuid;
  ed_user : option string;
  ed_session : uuid;
  ed_type : string;
  ed_payload : pyval;
  ed_correlation : uuid;
  ed_node : option uuid;
  ed_edge : option string;
}.

Record event : Type := {
  ev_id : uuid;
  ev_flow : uuid;
  ev_user : string;
  ev_sequence : nat;
  ev_data : event_data;
}.

(** The database, the graph-state cache and the repository object's event
    buffers. *)
Record store : Type := {
  next_uuid : uuid;
  flow_runs : gmap uuid flow_run;
  node_runs : gmap uuid node_run;
  graph_states : gmap uuid graph_state;
  state_cache : gmap uuid graph_state;
  interactions : gmap uuid interaction;
  agent_versions : gset uuid;
  agent_runs : gmap uuid agent_run;
  usage_ledger : list ledger_row;
  events : list event;
  batching : gset uuid;
  event_buffer : gmap uuid (list (uuid * event_data));
}.

Definition set_next_uuid (v : uuid) (s : store) : store :=
  Build_store v (flow_runs s) (node_runs s) (graph_states s) (state_cache s) (interactions s)
    (agent_versions s) (agent_runs s) (usage_ledger s) (events s) (batching s) (event_buffer s).
Definition set_flow_runs (v : gmap uuid flow_run) (s : store) : store :=
  Build_store (next_uuid s) v (node_runs s) (graph_states s) (state_cache s) (interactions s)
    (agent_versions s) (agent_runs s) (usage_ledger s) (events s) (batching s) (event_buffer s).
Definition set_node_runs (v : gmap uuid node_run) (s : store) : store :=
  Build_store (next_uuid s) (flow_runs s) v (graph_states s) (state_cache s) (interactions s)
    (agent_versions s) (agent_runs s) (usage_ledger s) (events s) (batching s) (event_buffer s).
Definition set_graph_states (v : gmap uuid graph_state) (s : store) : store :=
  Build_store (next_uuid s) (flow_runs s) (node_runs s) v (state_cache s) (interactions s)
    (agent_versions s) (agent_runs s) (usage_ledger s) (events s) (batching s) (event_buffer s).
Definition set_state_cache (v : gmap uuid graph_state) (s : store) : store :=
  Build_store (next_uuid s) (flow_runs s) (node_runs s) (graph_states s) v (interactions s)
    (agent_versions s) (agent_runs s) (usage_ledger s) (events s) (batching s) (event_buffer s).
Definition set_interactions (v : gmap uuid interaction) (s : store) : store :=
  Build_store (next_uuid s) (flow_runs s) (node_runs s) (graph_states s) (state_cache s) v
    (agent_versions s) (agent_runs s) (usage_ledger s) (events s) (batching s) (event_buffer s).
Definition set_agent_runs (v : gmap uuid agent_run) (s : store) : store :=
  Build_store (next_uuid s) (flow_runs s) (node_runs s) (graph_states s) (state_cache s)
    (interactions s) (agent_versions s) v (usage_ledger s) (events s) (batching s) (event_buffer s).
Definition set_usage_ledger (v : list ledger_row) (s : store) : store :=
  Build_store (next_uuid s) (flow_runs s) (node_runs s) (graph_states s) (state_cache s)
    (interactions s) (agent_versions s) (agent_runs s) v (events s) (batching s) (event_buffer s).
Definition set_events (v : list event) (s : store) : store :=
  Build_store (next_uuid s) (flow_runs s) (node_runs s) (graph_states s) (state_cache s)
    (interactions s) (agent_versions s) (agent_runs s) (usage_ledger s) v (batching s) (event_buffer s).
Definition set_batching (v : gset uuid) (s : store) : store :=
  Build_store (next_uuid s) (flow_runs s) (node_runs s) (graph_states s) (state_cache s)
    (interactions s) (agent_versions s) (agent_runs s) (usage_ledger s) (events s) v (event_buffer s).
Definition set_event_buffer (v : gmap uuid (list (uuid * event_data))) (s : store) : store :=
  Build_store (next_uuid s) (flow_runs s) (node_runs s) (graph_states s) (state_cache s)
    (interactions s) (agent_versions s) (agent_runs s) (usage_ledger s) (events s) (batching s) v.

(** [uuid4()]. *)
Definition uuid4 : M store uuid := fun s => (Ok (next_uuid s), set_next_uuid (next_uuid s + 1)%N s).

(** ** Flow runs *)

Definition update_flow_run (f : uuid) (upd : flow_run -> flow_run) : M store unit :=
  mmodify (fun s => set_flow_runs (alter upd f (flow_runs s)) s).

(** [create_flow_run], for the columns above; a new row has the column default
    status. *)
Definition create_flow_run (session version correlation : uuid) (user : string) (input : pyval)
    (interaction_id snapshot : option uuid) : M store uuid :=
  let* f := uuid4 in
  mmodify (fun s => set_flow_runs (<[f := {|
      fr_session := session; fr_version := version; fr_correlation := correlation;
      fr_snapshot := snapshot; fr_user := user; fr_status := "CREATED";
      fr_canonical := "CREATED"; fr_input := input; fr_output := PDict []; fr_error := PDict [];
      fr_finished := false; fr_interaction := interaction_id; fr_turn_index := 0;
      fr_workflow := None |}]> (flow_runs s)) s) ;;*
  mret f.

Definition with_status (status canonical : string) (r : flow_run) : flow_run := {|
  fr_session := fr_session r; fr_version := fr_version r;
  fr_correlation := fr_correlation r; fr_snapshot := fr_snapshot r; fr_user := fr_user r; fr_status := status;
  fr_canonical := canonical; fr_input := fr_input r; fr_output := fr_output r;
  fr_error := fr_error r; fr_finished := fr_finished r; fr_interaction := fr_interaction r;
  fr_turn_index := fr_turn_index r; fr_workflow := fr_workflow r |}.

Definition with_result (output error : pyval) (finished : bool) (r : flow_run) : flow_run := {|
  fr_session := fr_session r; fr_version := fr_version r;
  fr_correlation := fr_correlation r; fr_snapshot := fr_snapshot r; fr_user := fr_user r; fr_status := fr_status r;
  fr_canonical := fr_canonical r; fr_input := fr_input r; fr_output := output;
  fr_error := error; fr_finished := finished; fr_interaction := fr_interaction r;
  fr_turn_index := fr_turn_index r; fr_workflow := fr_workflow r |}.

Definition with_turn (input : pyval) (turn : Z) (wf : option (string * string)) (r : flow_run) :
    flow_run := {|
  fr_session := fr_session r; fr_version := fr_version r;
  fr_correlation := fr_correlation r; fr_snapshot := fr_snapshot r; fr_user := fr_user r; fr_status := fr_status r;
  fr_canonical := fr_canonical r; fr_input := input; fr_output := fr_output r;
  fr_error := fr_error r; fr_finished := fr_finished r; fr_interaction := fr_interaction r;
  fr_turn_index := turn; fr_workflow := wf |}.

(** [output or {}]. *)
Definition or_empty (v : pyval) : pyval := if truthy v then v else PDict [].

(** [complete_flow_run]. *)
Definition complete_flow_run (f : uuid) (status : string) (output : pyval) : M store unit :=
  update_flow_run f (fun r => with_status status status (with_result output (fr_error r) true r)).

(** [fail_flow_run]: [error or {"reason": failure_reason}]. *)
Definition fail_flow_run (f : uuid) (failure_reason : string) (error : pyval) : M store unit :=
  let err := if truthy error then error else PDict [("reason", PStr failure_reason)] in
  update_flow_run f (fun r => with_status "FAILED" "FAILED" (with_result (fr_output r) err true r)).

(** [set_flow_run_status]. *)
Definition set_flow_run_status (f : uuid) (status canonical : string) : M store unit :=
  update_flow_run f (with_status status canonical).

(** [set_flow_run_input]. *)
Definition set_flow_run_input (f : uuid) (input : pyval) : M store unit :=
  update_flow_run f (fun r => with_turn input (fr_turn_index r) (fr_workflow r) r).

(** [set_flow_run_output]. *)
Definition set_flow_run_output (f : uuid) (output : pyval) : M store unit :=
  update_flow_run f (fun r => with_result (or_empty output) (fr_error r) (fr_finished r) r).

(** [set_flow_run_dispatch]. *)
Definition set_flow_run_dispatch (f : uuid) (workflow_id run_id status canonical : string) :
    M store unit :=
  update_flow_run f (fun r =>
    with_status status canonical
      (with_turn (fr_input r) (fr_turn_index r) (Some (workflow_id, run_id)) r)).

(** [next_flow_run_turn_index]: an increment that returns the new value. *)
Definition next_flow_run_turn_index (f : uuid) : M store Z :=
  update_flow_run f (fun r => with_turn (fr_input r) (fr_turn_index r + 1) (fr_workflow r) r) ;;*
  let* s := mget in
  match flow_runs s !! f with
  | None => mraise (NotFoundServiceException "flow_run_not_found")
  | Some r => mret (fr_turn_index r)
  end.

(** ** Interactions *)

(** [set_current_interaction_result_for_flow_run]: the interaction the flow run
    points at, if any. *)
Definition set_current_interaction_result_for_flow_run (f : uuid) (output : pyval)
    (result_node_run : option uuid) : M store unit :=
  mmodify (fun s =>
    match flow_runs s !! f ≫= fr_interaction with
    | None => s
    | Some i => set_interactions (alter (fun r => {|
        in_flow := in_flow r; in_output := or_empty output; in_result_node_run := result_node_run;
        in_completed := true; in_metadata := in_metadata r |}) i (interactions s)) s
    end).

(** [link_interaction_to_flow_run]. *)
Definition link_interaction_to_flow_run (i f : uuid) : M store unit :=
  let* s := mget in
  match interactions s !! i with
  | None => mraise (NotFoundServiceException "interaction_not_found")
  | Some r =>
      mmodify (fun s => set_interactions (<[i := {|
        in_flow := Some f; in_output := in_output r; in_result_node_run := in_result_node_run r;
        in_completed := in_completed r; in_metadata := in_metadata r |}]> (interactions s)) s) ;;*
      update_flow_run f (fun r => {|
        fr_session := fr_session r; fr_version := fr_version r;
  fr_correlation := fr_correlation r; fr_snapshot := fr_snapshot r; fr_user := fr_user r; fr_status := fr_status r;
        fr_canonical := fr_canonical r; fr_input := fr_input r; fr_output := fr_output r;
        fr_error := fr_error r; fr_finished := fr_finished r; fr_interaction := Some i;
        fr_turn_index := fr_turn_index r; fr_workflow := fr_workflow r |})
  end.

(** [update_interaction_result]. *)
Definition update_interaction_result (i : uuid) (output : pyval) (status : string)
    (error : option pyval) : M store unit :=
  let* s := mget in
  match interactions s !! i with
  | None => mraise (NotFoundServiceException "interaction_not_found")
  | Some r =>
      let md := dict_set "status" (PStr status) (in_metadata r) in
      let md := match error with
                | Some e => dict_set "error" e md
                | None => filter (fun kv => kv.1 <> "error") md
                end in
      mmodify (fun s => set_interactions (<[i := {|
        in_flow := in_flow r; in_output := output; in_result_node_run := in_result_node_run r;
        in_completed := in_completed r; in_metadata := md |}]> (interactions s)) s)
  end.

(** ** Node runs and graph states *)

(** [create_node_run].  The row is committed before the identifier is returned;
    without a tracer handle the call raises after the commit. *)
Definition create_node_run (traced : bool) (f node : uuid) (input output : pyval)
    (status canonical : string) : M store uuid :=
  let* n := uuid4 in
  mmodify (fun s => set_node_runs (<[n := {|
    nr_flow := f; nr_node := node; nr_input := input; nr_output := output; nr_status := status;
    nr_canonical := canonical; nr_finished := false |}]> (node_runs s)) s) ;;*
  if traced then mret n else mraise (DomainValidationException "node_run_not_created").

(** [update_node_run_result]. *)
Definition update_node_run_result (n : uuid) (output : pyval) (status canonical : string) :
    M store unit :=
  let* s := mget in
  match node_runs s !! n with
  | None => mraise (NotFoundServiceException "node_run_not_found")
  | Some r =>
      mmodify (fun s => set_node_runs (<[n := {|
        nr_flow := nr_flow r; nr_node := nr_node r; nr_input := nr_input r; nr_output := output;
        nr_status := status; nr_canonical := canonical; nr_finished := true |}]> (node_runs s)) s)
  end.

(** [get_flow_run] and [get_node_run]. *)
Definition get_flow_run (f : uuid) : M store (option flow_run) :=
  let* s := mget in mret (flow_runs s !! f).
Definition get_node_run (n : uuid) : M store (option node_run) :=
  let* s := mget in mret (node_runs s !! n).

(** [get_graph_state]: the cached row, or the stored one, which is then cached. *)
Definition get_graph_state (f : uuid) : M store (option graph_state) :=
  let* s := mget in
  match state_cache s !! f with
  | Some g => mret (Some g)
  | None =>
      match graph_states s !! f with
      | Some g => mmodify (fun s => set_state_cache (<[f := g]> (state_cache s)) s) ;;* mret (Some g)
      | None => mret None
      end
  end.

(** [upsert_graph_state]: write the row, then invalidate the cache. *)
Definition upsert_graph_state (f : uuid) (state : pyval) (last : option uuid) : M store unit :=
  mmodify (fun s => set_graph_states
    (<[f := {| gs_state := state; gs_last_node_run := last |}]> (graph_states s)) s) ;;*
  mmodify (fun s => set_state_cache (delete f (state_cache s)) s).

(** ** Agent runs of flow nodes and the usage ledger *)

(** [create_agent_run]: the agent version must exist ([scalar_one]). *)
Definition create_agent_run (node_run_id version : uuid) (input : pyval) (status : string) :
    M store uuid :=
  let* a := uuid4 in
  let* s := mget in
  if bool_decide (version ∈ agent_versions s) then
    mmodify (fun s => set_agent_runs (<[a := {|
      ar_node_run := node_run_id; ar_agent_version := version; ar_input := input;
      ar_status := status; ar_output := PDict []; ar_tokens := None; ar_finished := false |}]>
      (agent_runs s)) s) ;;*
    mret a
  else mraise (ExternalError "NoResultFound" "agent_version").

(** [update_agent_run_result]. *)
Definition update_agent_run_result (a : uuid) (status : string) (output : pyval)
    (tokens : Z * Z) : M store unit :=
  let* s := mget in
  match agent_runs s !! a with
  | None => mraise (NotFoundServiceException "agent_run_not_found")
  | Some r =>
      mmodify (fun s => set_agent_runs (<[a := {|
        ar_node_run := ar_node_run r; ar_agent_version := ar_agent_version r;
        ar_input := ar_input r; ar_status := status; ar_output := or_empty output;
        ar_tokens := Some tokens; ar_finished := true |}]> (agent_runs s)) s)
  end.

(** [record_llm_usage]. *)
Definition record_llm_usage (row : ledger_row) : M store uuid :=
  let* l := uuid4 in
  mmodify (fun s => set_usage_ledger (usage_ledger s ++ [row]) s) ;;*
  mret l.

(** ** Execution events *)

Definition flow_events (f : uuid) (evs : list event) : list event :=
  filter (fun e => ev_flow e = f) evs.

(** [coalesce(max(event_sequence), 0)] over the flow run's events. *)
Definition max_sequence (f : uuid) (evs : list event) : nat :=
  foldr (fun e m => Nat.max (ev_sequence e) m) 0 (flow_events f evs).

(** [next_event_sequence]. *)
Definition next_event_sequence (f : uuid) : M store nat :=
  let* s := mget in mret (max_sequence f (events s) + 1).

(** The user recorded on an event: the caller's, or the flow run's owner. *)
Definition resolve_user (f : uuid) (user : option string) (s : store) : option string :=
  match user with
  | Some u => Some u
  | None => fr_user <$> flow_runs s !! f
  end.

(** The rows of one batch, numbered from [next_seq]. *)
Fixpoint number_events (f : uuid) (user : string) (next_seq : nat)
    (evs : list (uuid * event_data)) : list event :=
  match evs with
  | [] => []
  | (i, d) :: evs' =>
      {| ev_id := i; ev_flow := f; ev_user := user; ev_sequence := next_seq; ev_data := d |}
        :: number_events f user (S next_seq) evs'
  end.

(** [_persist_execution_events_batch]: the user of the first event is recorded on
    the whole batch. *)
Definition _persist_execution_events_batch (f : uuid) (evs : list (uuid * event_data)) :
    M store unit :=
  match evs with
  | [] => mret tt
  | (_, first) :: _ =>
      let* s := mget in
      match resolve_user f (ed_user first) s with
      | None => mraise (NotFoundServiceException "flow_run_user_not_found")
      | Some user =>
          mmodify (fun s => set_events
            (events s ++ number_events f user (max_sequence f (events s) + 1) evs) s)
      end
  end.

(** [start_event_batching]. *)
Definition start_event_batching (f : uuid) : M store unit :=
  mmodify (fun s =>
    let s := set_batching ({[f]} ∪ batching s) s in
    match event_buffer s !! f with
    | Some _ => s
    | None => set_event_buffer (<[f := []]> (event_buffer s)) s
    end).

(** [flush_execution_events]: the buffer is removed before it is written. *)
Definition flush_execution_events (f : uuid) : M store unit :=
  let* s := mget in
  let evs := default [] (event_buffer s !! f) in
  mmodify (fun s => set_event_buffer (delete f (event_buffer s)) (set_batching (batching s ∖ {[f]}) s)) ;;*
  _persist_execution_events_batch f evs.

(** [end_event_batching]. *)
Definition end_event_batching (f : uuid) : M store unit := flush_execution_events f.

Definition DEFAULT_EVENT_BATCH_SIZE : nat := 20.

(** The direct path of [append_execution_event]. *)
Definition insert_event (f i : uuid) (d : event_data) : M store unit :=
  let* s := mget in
  match resolve_user f (ed_user d) s with
  | None => mraise (NotFoundServiceException "flow_run_user_not_found")
  | Some user =>
      mmodify (fun s => set_events (events s ++ [
        {| ev_id := i; ev_flow := f; ev_user := user;
           ev_sequence := max_sequence f (events s) + 1; ev_data := d |}]) s)
  end.

(** The buffered path: append, and hand over the whole buffer once it is full. *)
Definition buffer_event (batch_size : nat) (f i : uuid) (d : event_data) : M store unit :=
  let* s := mget in
  let buf := default [] (event_buffer s !! f) ++ [(i, d)] in
  if batch_size <=? length buf then
    mmodify (fun s => set_event_buffer (<[f := []]> (event_buffer s)) s) ;;*
    _persist_execution_events_batch f buf
  else mmodify (fun s => set_event_buffer (<[f := buf]> (event_buffer s)) s).

(** [append_execution_event]. *)
Definition append_execution_event (batch_size : nat) (flow : option uuid) (d : event_data) :
    M store uuid :=
  let* i := uuid4 in
  match flow with
  | None => mret i
  | Some f =>
      let* s := mget in
      (if bool_decide (f ∈ batching s) then buffer_event batch_size f i d else insert_event f i d) ;;*
      mret i
  end.

(** ** Event sequences *)

(** The events of a flow run are numbered 1, 2, 3, ... in the order they were
    written. *)
Definition sequenced (evs : list event) : Prop :=
  forall f, ev_sequence <$> flow_events f evs = seq 1 (length (flow_events f evs)).

Lemma max_sequence_length f evs :
  sequenced evs -> max_sequence f evs = length (flow_events f evs).
Proof.
  intros H. specialize (H f). unfold max_sequence. revert H.
  generalize (flow_events f evs). intros l.
  enough (Hg : forall n, ev_sequence <$> l = seq (S n) (length l) ->
    foldr (fun e m => Nat.max (ev_sequence e) m) 0 l = if l is [] then 0 else n + length l).
  { intros ->%Hg. by destruct l. }
  induction l as [|e l IH]; intros n Hl; [done|]. simpl.
  change (ev_sequence e :: (ev_sequence <$> l) = S n :: seq (S (S n)) (length l)) in Hl.
  injection Hl as He Hl. rewrite (IH _ Hl). destruct l; simpl; lia.
Qed.

Lemma flow_events_app f a b : flow_events f (a ++ b) = flow_events f a ++ flow_events f b.
Proof. apply filter_app. Qed.

Lemma flow_events_numbered f f' u n evs :
  flow_events f (number_events f' u n evs) =
  if decide (f' = f) then number_events f' u n evs else [].
Proof.
  unfold flow_events. revert n; induction evs as [|[i d] evs IH]; intros n; simpl.
  - by case_decide.
  - rewrite filter_cons, IH. simpl. by repeat case_decide.
Qed.

Lemma number_events_seq f u n evs :
  ev_sequence <$> number_events f u n evs = seq n (length evs).
Proof. revert n; induction evs as [|[i d] evs IH]; intros n; simpl; [done|]. by rewrite IH. Qed.

Lemma number_events_length f u n evs : length (number_events f u n evs) = length evs.
Proof. revert n; induction evs as [|[i d] evs IH]; intros n; simpl; [done|]. by rewrite IH. Qed.

Lemma number_events_app f u n a b :
  number_events f u n (a ++ b) = number_events f u n a ++ number_events f u (n + length a) b.
Proof.
  revert n; induction a as [|[i d] a IH]; intros n; simpl; [by rewrite Nat.add_0_r|].
  rewrite IH. do 3 f_equal. lia.
Qed.

Lemma sequenced_batch f u evs new :
  sequenced evs -> sequenced (evs ++ number_events f u (max_sequence f evs + 1) new).
Proof.
  intros H g. rewrite flow_events_app, flow_events_numbered, fmap_app, length_app, (H g).
  case_decide; [subst g|by rewrite app_nil_r, Nat.add_0_r].
  rewrite number_events_seq, number_events_length, seq_app, (max_sequence_length f evs H).
  do 2 f_equal. lia.
Qed.

(** ** Batching is transparent *)

(** The appends of a turn, for several flow runs. *)
Definition append_all (bs : nat) (ops : list (uuid * event_data)) : M store unit :=
  mfor (fun gd => append_execution_event bs (Some gd.1) gd.2 ;;* mret tt) ops.

(** [s1] batches the events of [f]; [s2] writes them at once.  They agree but for
    the events still in the buffer. *)
Record batched (f : uuid) (owner : string) (s1 s2 : store) : Prop := {
  bt_uuid : next_uuid s1 = next_uuid s2;
  bt_flows : flow_runs s1 = flow_runs s2;
  bt_owner : fr_user <$> flow_runs s2 !! f = Some owner;
  bt_batching : batching s1 = {[f]} ∪ batching s2;
  bt_direct : f ∉ batching s2;
  bt_seq1 : sequenced (events s1);
  bt_seq2 : sequenced (events s2);
  bt_others : forall g, g <> f ->
    flow_events g (events s1) = flow_events g (events s2) /\
    event_buffer s1 !! g = event_buffer s2 !! g;
  bt_pending : exists buf, event_buffer s1 !! f = Some buf /\
    Forall (fun id => ed_user id.2 = None \/ ed_user id.2 = Some owner) buf /\
    flow_events f (events s2) =
      flow_events f (events s1) ++
      number_events f owner (length (flow_events f (events s1)) + 1) buf;
}.

Lemma max_sequence_ext f a b : flow_events f a = flow_events f b -> max_sequence f a = max_sequence f b.
Proof. unfold max_sequence. by intros ->. Qed.

Lemma resolve_owner f owner user s :
  fr_user <$> flow_runs s !! f = Some owner -> user = None \/ user = Some owner ->
  resolve_user f user s = Some owner.
Proof. intros Ho [-> | ->]; done. Qed.

(** Writing a batch of another flow run on both sides. *)
Lemma persist_batch_other f owner s1 s2 g buf s2' :
  batched f owner s1 s2 -> g <> f ->
  _persist_execution_events_batch g buf s2 = (Ok tt, s2') ->
  exists s1', _persist_execution_events_batch g buf s1 = (Ok tt, s1') /\ batched f owner s1' s2'.
Proof.
  intros [Hu Hf Ho Hb Hd H1 H2 Hoth Hp] Hg. destruct buf as [|[i d] buf].
  { intros [= <-]. exists s1. split; [done|]. by split. }
  unfold _persist_execution_events_batch, mbind_, mget.
  assert (resolve_user g (ed_user d) s1 = resolve_user g (ed_user d) s2) as ->
    by (unfold resolve_user; by rewrite Hf).
  destruct (resolve_user g (ed_user d) s2) as [u|]; [|done]. unfold mmodify.
  intros H. apply (f_equal snd) in H. cbn [snd] in H. subst s2'. eexists; split; [reflexivity|].
  split; cbn [next_uuid flow_runs batching events event_buffer set_events]; try done.
  - by apply sequenced_batch.
  - by apply sequenced_batch.
  - intros x Hx. destruct (Hoth x Hx) as [He Hbuf]. split; [|done].
    rewrite !flow_events_app, He, !flow_events_numbered. f_equal.
    by rewrite (max_sequence_ext g _ _ (proj1 (Hoth g Hg))).
  - destruct Hp as (b & Hb1 & Hb2 & Hb3). exists b. split_and!; [done..|].
    rewrite !flow_events_app, !flow_events_numbered, !decide_False, !app_nil_r by done. done.
Qed.

(** Writing the pending batch of [f]. *)
Lemma persist_batch_own f owner s1 buf :
  fr_user <$> flow_runs s1 !! f = Some owner ->
  Forall (fun id => ed_user id.2 = None \/ ed_user id.2 = Some owner) buf ->
  _persist_execution_events_batch f buf s1 =
    (Ok tt, set_events (events s1 ++ number_events f owner (max_sequence f (events s1) + 1) buf) s1).
Proof.
  intros Ho Hb. destruct buf as [|[i d] buf]; simpl.
  - unfold mret. rewrite app_nil_r. by destruct s1.
  - unfold mbind_, mget. inversion_clear Hb. by rewrite (resolve_owner f owner).
Qed.

Lemma insert_as_batch f i d s : insert_event f i d s = _persist_execution_events_batch f [(i, d)] s.
Proof. reflexivity. Qed.

Lemma batched_uuid f owner s1 s2 v :
  batched f owner s1 s2 -> batched f owner (set_next_uuid v s1) (set_next_uuid v s2).
Proof. intros []. by split. Qed.

Lemma batched_buffer f owner s1 s2 g buf :
  batched f owner s1 s2 -> g <> f ->
  batched f owner (set_event_buffer (<[g := buf]> (event_buffer s1)) s1)
                  (set_event_buffer (<[g := buf]> (event_buffer s2)) s2).
Proof.
  intros [Hu Hf Ho Hb Hd H1 H2 Hoth Hp] Hg. split; simpl; try done.
  - intros x Hx. destruct (Hoth x Hx) as [He Hbf]. split; [done|].
    destruct (decide (x = g)) as [->|]; [by rewrite !lookup_insert_eq|].
    by rewrite !lookup_insert_ne.
  - by rewrite lookup_insert_ne.
Qed.

Lemma append_other f owner s1 s2 bs g d i s2' :
  batched f owner s1 s2 -> g <> f ->
  (if bool_decide (g ∈ batching s2) then buffer_event bs g i d else insert_event g i d) s2
    = (Ok tt, s2') ->
  exists s1',
    (if bool_decide (g ∈ batching s1) then buffer_event bs g i d else insert_event g i d) s1
      = (Ok tt, s1') /\ batched f owner s1' s2'.
Proof.
  intros HB Hg. assert (bool_decide (g ∈ batching s1) = bool_decide (g ∈ batching s2)) as ->.
  { apply bool_decide_ext. rewrite (bt_batching _ _ _ _ HB). set_solver. }
  destruct (bool_decide (g ∈ batching s2)).
  - unfold buffer_event, mbind_, mget, mmodify.
    rewrite (proj2 (bt_others _ _ _ _ HB g Hg)). case_match.
    + intros H'. eapply persist_batch_other; [by apply batched_buffer | done | exact H'].
    + intros [= <-]. eexists; split; [done|]. by apply batched_buffer.
  - rewrite !insert_as_batch. by eapply persist_batch_other.
Qed.

Lemma append_own f owner s1 s2 bs d i s2' :
  batched f owner s1 s2 -> ed_user d = None \/ ed_user d = Some owner ->
  insert_event f i d s2 = (Ok tt, s2') ->
  exists s1', buffer_event bs f i d s1 = (Ok tt, s1') /\ batched f owner s1' s2'.
Proof.
  intros [Hu Hf Ho Hb Hd H1 H2 Hoth (buf & Hbuf & Hall & Hev)] Hd'.
  rewrite insert_as_batch, (persist_batch_own f owner) by (done || by constructor).
  intros H. apply (f_equal snd) in H. cbn [snd] in H. subst s2'.
  assert (Hall' : Forall (fun id => ed_user id.2 = None \/ ed_user id.2 = Some owner) (buf ++ [(i, d)]))
    by (by apply Forall_app_2; [|constructor]).
  pose proof (max_sequence_length f _ H2) as Hm2. rewrite Hev, length_app, number_events_length in Hm2.
  unfold buffer_event, mbind_, mget, mmodify. rewrite Hbuf. cbn [default from_option id]. case_match.
  - rewrite (persist_batch_own f owner) by (cbn [flow_runs set_event_buffer]; rewrite ?Hf; done).
    eexists; split; [reflexivity|].
    split; cbn [next_uuid flow_runs batching events event_buffer set_events set_event_buffer]; try done.
    + by apply sequenced_batch.
    + by apply sequenced_batch.
    + intros x Hx. destruct (Hoth x Hx) as [He Hbf].
      rewrite !flow_events_app, !flow_events_numbered, !decide_False, !app_nil_r by done.
      by rewrite lookup_insert_ne.
    + exists []. rewrite lookup_insert_eq. split_and!; [done | constructor |].
      rewrite !flow_events_app, !flow_events_numbered, !decide_True, app_nil_r by done.
      rewrite Hev, number_events_app, <- app_assoc, Hm2, (max_sequence_length f _ H1).
      do 3 f_equal. lia.
  - eexists; split; [reflexivity|].
    split; cbn [next_uuid flow_runs batching events event_buffer set_events set_event_buffer]; try done.
    + by apply sequenced_batch.
    + intros x Hx. destruct (Hoth x Hx) as [He Hbf].
      rewrite !flow_events_app, !flow_events_numbered, !decide_False, !app_nil_r by done.
      by rewrite lookup_insert_ne.
    + exists (buf ++ [(i, d)]). rewrite lookup_insert_eq. split_and!; [done..|].
      rewrite flow_events_app, flow_events_numbered, decide_True by done.
      rewrite Hev, number_events_app, <- app_assoc, Hm2. do 3 f_equal. lia.
Qed.

Lemma append_batched f owner s1 s2 bs g d s2' :
  batched f owner s1 s2 -> (g = f -> ed_user d = None \/ ed_user d = Some owner) ->
  (append_execution_event bs (Some g) d ;;* mret tt) s2 = (Ok tt, s2') ->
  exists s1', (append_execution_event bs (Some g) d ;;* mret tt) s1 = (Ok tt, s1') /\
    batched f owner s1' s2'.
Proof.
  intros HB Hd H. pose proof (bt_uuid _ _ _ _ HB) as Hu.
  apply mbind_ok in H as (i & sa & H & [= <-]).
  unfold append_execution_event, uuid4 in H |- *. unfold mbind_ at 1 in H.
  apply mbind_ok in H as (s0 & sb & [= <- <-] & H).
  apply mbind_ok in H as ([] & sc & H & [= <- <-]).
  apply (batched_uuid _ _ _ _ (next_uuid s2 + 1)%N) in HB.
  assert (exists s1', (if bool_decide (g ∈ batching (set_next_uuid (next_uuid s2 + 1) s1))
    then buffer_event bs g (next_uuid s2) d else insert_event g (next_uuid s2) d)
      (set_next_uuid (next_uuid s2 + 1) s1) = (Ok tt, s1') /\ batched f owner s1' sc)
    as (s1' & Hs1 & HB').
  { destruct (decide (g = f)) as [->|Hg]; [|by eapply append_other].
    rewrite bool_decide_eq_false_2 in H by apply (bt_direct _ _ _ _ HB).
    rewrite bool_decide_eq_true_2 by (rewrite (bt_batching _ _ _ _ HB); set_solver).
    eapply append_own; eauto. }
  exists s1'. split; [|done]. unfold mbind_ at 1 2, mget.
  rewrite Hu.
  cbn [mbind_]. unfold mbind_. by rewrite Hs1.
Qed.

Lemma append_all_batched f owner bs ops s1 s2 s2' :
  batched f owner s1 s2 ->
  (forall d, (f, d) ∈ ops -> ed_user d = None \/ ed_user d = Some owner) ->
  append_all bs ops s2 = (Ok tt, s2') ->
  exists s1', append_all bs ops s1 = (Ok tt, s1') /\ batched f owner s1' s2'.
Proof.
  unfold append_all. revert s1 s2. induction ops as [|[g d] ops IH]; intros s1 s2 HB Hd; simpl.
  { intros [= <-]. by exists s1. }
  intros ([] & sa & Ha & H)%mbind_ok.
  destruct (append_batched f owner s1 s2 bs g d sa HB) as (sb & Hb & HB'); [|done|].
  { intros ->. apply Hd. left. }
  destruct (IH sb sa HB') as (sc & Hc & HB''); [|done|].
  { intros d' Hin. apply Hd. by right. }
  exists sc. split; [|done]. unfold mbind_ at 1. rewrite Hb. exact Hc.
Qed.

Lemma start_batched f r s :
  flow_runs s !! f = Some r -> f ∉ batching s -> event_buffer s !! f = None ->
  sequenced (events s) ->
  exists s1, start_event_batching f s = (Ok tt, s1) /\ batched f (fr_user r) s1 s.
Proof.
  intros Hr Hb He Hs. unfold start_event_batching, mmodify. eexists; split; [done|].
  cbn [event_buffer set_batching]. rewrite He. split; simpl; try done.
  - by rewrite Hr.
  - intros g Hg. by rewrite lookup_insert_ne.
  - exists []. rewrite lookup_insert_eq. split_and!; [done | constructor |]. by rewrite app_nil_r.
Qed.

Lemma end_batched f owner s1 s2 :
  batched f owner s1 s2 ->
  exists s1', end_event_batching f s1 = (Ok tt, s1') /\ sequenced (events s1') /\
    batching s1' = batching s2 /\
    forall g, flow_events g (events s1') = flow_events g (events s2).
Proof.
  intros [Hu Hf Ho Hb Hd H1 H2 Hoth (buf & Hbuf & Hall & Hev)].
  unfold end_event_batching, flush_execution_events, mbind_, mget, mmodify.
  rewrite Hbuf. cbn [default from_option id].
  rewrite (persist_batch_own f owner) by
    (cbn [flow_runs set_event_buffer set_batching]; rewrite ?Hf; done).
  eexists; split; [reflexivity|]. cbn [events set_events set_event_buffer set_batching batching].
  split_and!; [by apply sequenced_batch | rewrite Hb; set_solver|].
  intros g. rewrite flow_events_app, flow_events_numbered, (max_sequence_length f _ H1).
  case_decide as Hg; [by subst g; rewrite Hev|]. rewrite app_nil_r. by apply Hoth.
Qed.

(** [C31] Batching is transparent.  Take any sequence of appends, for any flow runs,
    that succeeds when written directly.  Running it with the events of [f] batched
    succeeds too and, once batching ends, every flow run has exactly the same
    events, in the same order, with the same identifiers and sequence numbers. *)
Theorem batching_transparent bs f r ops s s2 :
  flow_runs s !! f = Some r -> f ∉ batching s -> event_buffer s !! f = None ->
  sequenced (events s) ->
  (forall d, (f, d) ∈ ops -> ed_user d = None \/ ed_user d = Some (fr_user r)) ->
  append_all bs ops s = (Ok tt, s2) ->
  exists s1,
    (start_event_batching f ;;* append_all bs ops ;;* end_event_batching f) s = (Ok tt, s1) /\
    (forall g, flow_events g (events s1) = flow_events g (events s2)) /\
    batching s1 = batching s2.
Proof.
  intros Hr Hb He Hs Hd Ha.
  destruct (start_batched f r s Hr Hb He Hs) as (sa & Hsa & HB).
  destruct (append_all_batched f (fr_user r) bs ops sa s s2 HB Hd Ha) as (sb & Hsb & HB').
  destruct (end_batched f (fr_user r) sb s2 HB') as (sc & Hsc & _ & Hbt & Hev).
  exists sc. split_and!; [|done..]. unfold mbind_. by rewrite Hsa, Hsb.
Qed.

(** ** Sequence numbers *)

(** The repository operations that write events. *)
Inductive event_op : Type :=
  | OpStart (f : uuid)
  | OpAppend (f : option uuid) (d : event_data)
  | OpEnd (f : uuid).

Definition run_event_op (bs : nat) (op : event_op) : M store unit :=
  match op with
  | OpStart f => start_event_batching f
  | OpAppend f d => append_execution_event bs f d ;;* mret tt
  | OpEnd f => end_event_batching f
  end.

(** A sequence of calls, each of which may raise without stopping the next. *)
Fixpoint run_event_ops (bs : nat) (ops : list event_op) (s : store) : store :=
  match ops with
  | [] => s
  | op :: ops' => run_event_ops bs ops' (run_event_op bs op s).2
  end.

(** Sequencing as a property of state changes. *)
Definition keeps_sequence (s s' : store) : Prop := sequenced (events s) -> sequenced (events s').

#[global] Instance keeps_sequence_preorder : PreOrder keeps_sequence.
Proof. split; unfold keeps_sequence; [intros s H; done | intros a b c H1 H2 H; auto]. Qed.

Lemma keeps_same {A} (m : M store A) :
  (forall s, events (m s).2 = events s) -> respects keeps_sequence m.
Proof. intros H s. unfold keeps_sequence. by rewrite H. Qed.

Lemma persist_keeps f evs : respects keeps_sequence (_persist_execution_events_batch f evs).
Proof.
  intros s. unfold _persist_execution_events_batch, mbind_, mget. destruct evs as [|[i d] evs]; [done|].
  destruct (resolve_user _ _ _); [|done]. intros H. by apply sequenced_batch.
Qed.

Lemma append_keeps bs f d : respects keeps_sequence (append_execution_event bs f d).
Proof.
  unfold append_execution_event. apply respects_bind; [apply _|by apply keeps_same|]. intros i.
  destruct f as [f|]; [|apply respects_ret; apply _].
  apply respects_bind; [apply _|apply respects_get; apply _|]. intros s0.
  apply respects_bind; [apply _| |intros; apply respects_ret; apply _]. case_bool_decide.
  - unfold buffer_event. apply respects_bind; [apply _|apply respects_get; apply _|].
    intros s1. case_match; [|by apply keeps_same].
    apply respects_bind; [apply _|by apply keeps_same|]. intros _. apply persist_keeps.
  - intros s1. rewrite insert_as_batch. apply persist_keeps.
Qed.

(** Event numbering is gapless.  Whatever sequence of batching starts,
    appends (for any flow runs) and flushes is run, and whichever of them raise, the
    events of each flow run are numbered 1, 2, 3, ... in the order they are
    stored. *)
Theorem events_gapless bs ops s :
  sequenced (events s) -> sequenced (events (run_event_ops bs ops s)).
Proof.
  revert s; induction ops as [|op ops IH]; intros s Hs; simpl; [done|]. apply IH.
  enough (respects keeps_sequence (run_event_op bs op)) as H by (by apply H).
  destruct op; simpl.
  - apply keeps_same. intros s'. unfold start_event_batching, mmodify. simpl. by case_match.
  - apply respects_bind; [apply _|apply append_keeps|]. intros. apply respects_ret; apply _.
  - unfold end_event_batching, flush_execution_events.
    apply respects_bind; [apply _|apply respects_get; apply _|]. intros s0.
    apply respects_bind; [apply _|by apply keeps_same|]. intros _. apply persist_keeps.
Qed.

(** ** The graph-state cache *)

(** Every cached row is the stored row. *)
Definition cache_coherent (s : store) : Prop :=
  forall f g, state_cache s !! f = Some g -> graph_states s !! f = Some g.

(** The two halves of [get_graph_state] on a cache miss, as another request can
    interleave with them: read the row, then cache what was read. *)
Definition read_graph_state (f : uuid) (s : store) : option graph_state := graph_states s !! f.
Definition fill_cache (f : uuid) (g : graph_state) (s : store) : store :=
  set_state_cache (<[f := g]> (state_cache s)) s.

(** Reads see the last write.  From a coherent cache, a read returns the
    stored row and an upsert is seen by the next read, and both leave the cache
    coherent.  A cache miss is not atomic, though: an upsert that falls between its
    read and its cache fill is hidden from later reads by the stale row. *)
Theorem graph_state_cache f s :
  (cache_coherent s ->
   (get_graph_state f s).1 = Ok (graph_states s !! f) /\
   cache_coherent (get_graph_state f s).2 /\
   forall st last s', upsert_graph_state f st last s = (Ok tt, s') ->
     cache_coherent s' /\
     (get_graph_state f s').1 = Ok (Some {| gs_state := st; gs_last_node_run := last |})) /\
  (forall old st last s', read_graph_state f s = Some old ->
     upsert_graph_state f st last s = (Ok tt, s') ->
     (get_graph_state f (fill_cache f old s')).1 = Ok (Some old)).
Proof.
  split.
  - intros Hc. split_and!.
    + unfold get_graph_state, mbind_, mget. destruct (state_cache s !! f) as [g|] eqn:E; simpl.
      * by rewrite (Hc f g E).
      * by destruct (graph_states s !! f).
    + unfold get_graph_state, mbind_, mget. destruct (state_cache s !! f) as [g|]; [done|].
      destruct (graph_states s !! f) as [g|] eqn:E; [|done]. intros k v. simpl.
      destruct (decide (k = f)) as [->|]; [rewrite lookup_insert_eq; congruence|].
      rewrite lookup_insert_ne by done. apply Hc.
    + intros st last s' [= <-]. split.
      * intros k v. simpl. rewrite lookup_delete_Some. intros [Hk H].
        rewrite lookup_insert_ne by done. by apply Hc.
      * unfold get_graph_state, mbind_, mget. simpl. rewrite lookup_delete_eq. simpl.
        by rewrite lookup_insert_eq.
  - intros old st last s' _ [= <-]. unfold get_graph_state, mbind_, mget. simpl.
    by rewrite lookup_insert_eq.
Qed.

(** ** A concrete store *)

Definition empty_store : store := {|
  next_uuid := 100; flow_runs := ∅; node_runs := ∅; graph_states := ∅; state_cache := ∅;
  interactions := ∅; agent_versions := ∅; agent_runs := ∅; usage_ledger := []; events := [];
  batching := ∅; event_buffer := ∅ |}.

Definition demo_flow : flow_run := {|
  fr_session := 1; fr_version := 1; fr_correlation := 1; fr_snapshot := Some 1%N; fr_user := "ana"; fr_status := "RUNNING"; fr_canonical := "RUNNING";
  fr_input := PDict []; fr_output := PDict []; fr_error := PDict []; fr_finished := false;
  fr_interaction := None; fr_turn_index := 0; fr_workflow := None |}.

Definition demo_store : store :=
  set_flow_runs (<[7%N := demo_flow]> (<[8%N := demo_flow]> ∅)) empty_store.

Definition demo_event (t : string) : event_data := {|
  ed_tenant := 1; ed_user := None; ed_session := 1; ed_type := t; ed_payload := PDict [];
  ed_correlation := 1; ed_node := None; ed_edge := None |}.

Definition demo_appends : list (uuid * event_data) :=
  [(7%N, demo_event "NodeStarted"); (8%N, demo_event "NodeStarted");
   (7%N, demo_event "EdgeEvaluated"); (7%N, demo_event "NodeCompleted")].

Lemma sequenced_nil : sequenced [].
Proof. intros f. done. Qed.

Lemma batching_transparent_witness :
  exists s1,
    (start_event_batching 7 ;;* append_all 2 demo_appends ;;* end_event_batching 7) demo_store
      = (Ok tt, s1) /\
    (forall g, flow_events g (events s1) =
       flow_events g (events (append_all 2 demo_appends demo_store).2)) /\
    batching s1 = batching (append_all 2 demo_appends demo_store).2.
Proof.
  apply (batching_transparent 2 7 demo_flow demo_appends demo_store).
  - reflexivity.
  - apply not_elem_of_empty.
  - reflexivity.
  - exact sequenced_nil.
  - intros d H. left. unfold demo_appends in H.
    rewrite !elem_of_cons, elem_of_nil in H. naive_solver.
  - vm_compute. reflexivity.
Defined.

Lemma events_gapless_witness :
  sequenced (events (run_event_ops 2 [OpStart 7; OpAppend (Some 7%N) (demo_event "NodeStarted");
    OpAppend (Some 9%N) (demo_event "NodeStarted"); OpEnd 7] demo_store)).
Proof. apply (events_gapless 2 _ demo_store). exact sequenced_nil. Defined.
