(* ===== verification/NodeStep.v ===== *)
(** * NodeStep: one step of a graph traversal

    [src/src/domain/execution/services/graph_runtime/node_step_runner.py], with the
    context and result types of [types.py], the node registry of [registry.py] and
    [fallback_reason_resolver.py].

    The node executors are an interface: a step calls [construct] (the class's
    constructor) and [execute], which may raise, may write to the store and may
    depend on a world the model does not look into (language models, tools).  The
    shared dict [iteration_counters] is part of the state. *)

From S2P Require Import Prelude.
From S2P Require Import Errors.
From S2P Require Import PyValue.
From S2P Require Import StateMachine.
From S2P Require Import EdgeEvaluator.
From S2P Require Import FlowGraph.
From S2P Require Import GraphCompiler.
From S2P Require Import Effects.
From S2P Require Import Store.

(** ** Types *)

Definition NODE_OUTPUTS_BY_NODE_ID_KEY : string := "_node_outputs_by_node_id".
Definition FALLBACK_REASON_METADATA_KEY : string := "fallback_reason".
Definition FALLBACK_SOURCE_NODE_METADATA_KEY : string := "fallback_source_node".

Inductive NodeExecutionStatus : Type := SUCCESS | ERROR | NEEDS_INPUT.

Inductive NodeStepStatus : Type := ADVANCE | TERMINAL | STEP_NEEDS_INPUT | FAILED.

Inductive FlowFailureReason : Type :=
  | POLICY_VIOLATION | TIMEOUT | STRUCTURAL_ERROR | CIRCUIT_BREAKER_OPEN | MISSING_GRAPH
  | MAX_STEPS_EXCEEDED | NODE_NOT_FOUND | UNKNOWN_NODE_TYPE | NO_MATCHING_EDGE
  | EDGE_EVALUATION_ERROR | MULTIPLE_MATCHING_EDGES.

Inductive NodeType : Type :=
  | ContentModeration | ContextSummarizer | IntentClassifier | ToolInputFiller
  | QueryClarifier | ToolResolver | ToolExecutor | ToolErrorHandlerNode | ResponseBuilder
  | HumanFallback | MemoryCommitNode.

#[global] Instance NodeExecutionStatus_eq_dec : EqDecision NodeExecutionStatus.
Proof. solve_decision. Defined.
#[global] Instance NodeStepStatus_eq_dec : EqDecision NodeStepStatus.
Proof. solve_decision. Defined.
#[global] Instance FlowFailureReason_eq_dec : EqDecision FlowFailureReason.
Proof. solve_decision. Defined.

Definition failure_reason_value (r : FlowFailureReason) : string :=
  match r with
  | POLICY_VIOLATION => "POLICY_VIOLATION" | TIMEOUT => "TIMEOUT"
  | STRUCTURAL_ERROR => "STRUCTURAL_ERROR" | CIRCUIT_BREAKER_OPEN => "CIRCUIT_BREAKER_OPEN"
  | MISSING_GRAPH => "MISSING_GRAPH" | MAX_STEPS_EXCEEDED => "MAX_STEPS_EXCEEDED"
  | NODE_NOT_FOUND => "NODE_NOT_FOUND" | UNKNOWN_NODE_TYPE => "UNKNOWN_NODE_TYPE"
  | NO_MATCHING_EDGE => "NO_MATCHING_EDGE" | EDGE_EVALUATION_ERROR => "EDGE_EVALUATION_ERROR"
  | MULTIPLE_MATCHING_EDGES => "MULTIPLE_MATCHING_EDGES"
  end.

Definition status_value (s : NodeExecutionStatus) : string :=
  match s with SUCCESS => "SUCCESS" | ERROR => "ERROR" | NEEDS_INPUT => "NEEDS_INPUT" end.

(** [ExecutionContext]; [context_tools] is its [available_tools].  The ids of the interaction,
    the flow, its version and the trace and the callback for streaming are fixed for a run and
    read by the executors only: they are parameters there. *)
Record ExecutionContext : Type := {
  tenant_id : uuid;
  user_id : string;
  session_id : uuid;
  input_payload : pyval;
  flow_run_id : uuid;
  correlation_id : uuid;
  current_node_id : string;
  current_node_run_id : option uuid;
  state : pydict;
  memory : list pyval;
  metadata : pydict;
  node_output : pydict;
  system_prompt : option string;
  system_context : option string;
  context_tools : list pyval;
}.

Record LLMUsageRecord : Type := {
  task_type : pyval;
  input_tokens : Z;
  output_tokens : Z;
  agent_version_id : option uuid;
}.

(** What the executor changed in the context it was handed a reference to, as fields the
    source's class does not have: [context_state] is the context's state, [context_text] its
    [system_context] and [context_offer] its [available_tools], when assigned. *)
Record NodeResult : Type := {
  status : NodeExecutionStatus;
  data : pydict;
  error : pyval;
  metrics : pyval;
  next_state : option pydict;
  context_state : option pydict;
  context_text : option string;
  context_offer : option (list pyval);
  result_memory : option (list pyval);
  usage : option LLMUsageRecord;
}.

(** [NodeStepOutcome]; [oc_resume] is [resume_to_node_id]. *)
Record NodeStepOutcome : Type := {
  oc_status : NodeStepStatus;
  oc_node_type : option string;
  oc_node_run : option uuid;
  oc_node_data : pydict;
  oc_context : ExecutionContext;
  oc_next : option string;
  oc_resume : option string;
  oc_loop_keys : list string;
  oc_reason : option FlowFailureReason;
  oc_exception : option exc;
}.

(** [context.model_copy(update={...})] for the updates the runner makes. *)
Definition with_metadata (md : pydict) (c : ExecutionContext) : ExecutionContext := {|
  tenant_id := tenant_id c; user_id := user_id c; session_id := session_id c;
  input_payload := input_payload c; flow_run_id := flow_run_id c;
  correlation_id := correlation_id c; current_node_id := current_node_id c;
  current_node_run_id := current_node_run_id c; state := state c; memory := memory c;
  metadata := md; node_output := node_output c;
  system_prompt := system_prompt c; system_context := system_context c; context_tools := context_tools c |}.

Definition with_node_run (n : uuid) (c : ExecutionContext) : ExecutionContext := {|
  tenant_id := tenant_id c; user_id := user_id c; session_id := session_id c;
  input_payload := input_payload c; flow_run_id := flow_run_id c;
  correlation_id := correlation_id c; current_node_id := current_node_id c;
  current_node_run_id := Some n; state := state c; memory := memory c;
  metadata := metadata c; node_output := node_output c;
  system_prompt := system_prompt c; system_context := system_context c; context_tools := context_tools c |}.

Definition with_node_output (o : pydict) (c : ExecutionContext) : ExecutionContext := {|
  tenant_id := tenant_id c; user_id := user_id c; session_id := session_id c;
  input_payload := input_payload c; flow_run_id := flow_run_id c;
  correlation_id := correlation_id c; current_node_id := current_node_id c;
  current_node_run_id := current_node_run_id c; state := state c; memory := memory c;
  metadata := metadata c; node_output := o;
  system_prompt := system_prompt c; system_context := system_context c; context_tools := context_tools c |}.

Definition advance_to (next : string) (st : pydict) (mem : list pyval) (out : pydict)
    (c : ExecutionContext) : ExecutionContext := {|
  tenant_id := tenant_id c; user_id := user_id c; session_id := session_id c;
  input_payload := input_payload c; flow_run_id := flow_run_id c;
  correlation_id := correlation_id c; current_node_id := next;
  current_node_run_id := current_node_run_id c; state := st; memory := mem;
  metadata := metadata c; node_output := out;
  system_prompt := system_prompt c; system_context := system_context c; context_tools := context_tools c |}.

(** The context after the node: what the executor changed in place, and its output. *)
Definition after_node (r : NodeResult) (c : ExecutionContext) : ExecutionContext := {|
  tenant_id := tenant_id c; user_id := user_id c; session_id := session_id c;
  input_payload := input_payload c; flow_run_id := flow_run_id c;
  correlation_id := correlation_id c; current_node_id := current_node_id c;
  current_node_run_id := current_node_run_id c; state := state c; memory := memory c;
  metadata := metadata c; node_output := data r; system_prompt := system_prompt c;
  system_context := match context_text r with Some x => Some x | None => system_context c end;
  context_tools := default (context_tools c) (context_offer r) |}.

(** [NodeType.value]. *)
Definition node_type_value (t : NodeType) : string :=
  match t with
  | ContentModeration => "ContentModeration" | ContextSummarizer => "ContextSummarizer"
  | IntentClassifier => "IntentClassifier" | ToolInputFiller => "ToolInputFiller"
  | QueryClarifier => "QueryClarifier" | ToolResolver => "ToolResolver"
  | ToolExecutor => "ToolExecutor" | ToolErrorHandlerNode => "ToolErrorHandlerNode"
  | ResponseBuilder => "ResponseBuilder" | HumanFallback => "HumanFallback"
  | MemoryCommitNode => "MemoryCommitNode"
  end.

(** The keys of [NodeRegistry._registry]. *)
Definition registry : list NodeType :=
  [ContentModeration; ToolResolver; IntentClassifier; ToolInputFiller; ToolExecutor;
   QueryClarifier; ToolErrorHandlerNode; ResponseBuilder; HumanFallback; MemoryCommitNode;
   ContextSummarizer].

(** [NodeRegistry.resolve]: a dict lookup by node type. *)
Definition resolve (node_type : pyval) : res exc (option NodeType) :=
  match node_type with
  | PStr s => Ok (head (filter (fun t => node_type_value t = s) registry))
  | t => if hashable t then Ok None else Err PyTypeError
  end.

(** ** Fallback reasons *)

Inductive SLAFallbackReason : Type :=
  | LOW_CONFIDENCE | TOOL_FAILURE | SLA_TIMEOUT | EXECUTION_LIMIT | POLICY_BLOCK
  | UNKNOWN_INTENT | USER_REQUESTED_HUMAN | USER_FRUSTRATION | USER_ANGER | USER_INSULT.

Definition sla_reason_value (r : SLAFallbackReason) : string :=
  match r with
  | LOW_CONFIDENCE => "LOW_CONFIDENCE" | TOOL_FAILURE => "TOOL_FAILURE"
  | SLA_TIMEOUT => "TIMEOUT" | EXECUTION_LIMIT => "EXECUTION_LIMIT"
  | POLICY_BLOCK => "POLICY_BLOCK" | UNKNOWN_INTENT => "UNKNOWN_INTENT"
  | USER_REQUESTED_HUMAN => "USER_REQUESTED_HUMAN" | USER_FRUSTRATION => "USER_FRUSTRATION"
  | USER_ANGER => "USER_ANGER" | USER_INSULT => "USER_INSULT"
  end.

(** [_has_intent]. *)
Definition _has_intent (node_output : pydict) : bool :=
  match dict_getv "result" node_output with
  | PList (PDict first :: _) =>
      match dict_getv "intent_type" first with
      | PStr intent => negb (blank intent)
      | _ => false
      end
  | _ => false
  end.

(** [resolve_fallback_reason]. *)
Definition resolve_fallback_reason (source_node_type : string) (output : pydict) :
    SLAFallbackReason :=
  if String.eqb source_node_type "ContentModeration" then POLICY_BLOCK
  else if String.eqb source_node_type "ToolErrorHandlerNode" then TOOL_FAILURE
  else if String.eqb source_node_type "ToolExecutor" then TOOL_FAILURE
  else if String.eqb source_node_type "IntentClassifier" then
    if _has_intent output then LOW_CONFIDENCE else UNKNOWN_INTENT
  else LOW_CONFIDENCE.

(** [_map_status]. *)
Definition _map_status (s : NodeExecutionStatus) : NodeRunStatus :=
  match s with
  | SUCCESS => StateMachine.NR_COMPLETED
  | ERROR => StateMachine.NR_FAILED
  | NEEDS_INPUT => StateMachine.NR_PENDING
  end.

(** ** The step runner *)

Section runner.
Context {W : Type}.

(** The database, the world of the node executors, the shared iteration counters
    and the loop edges met in the current step. *)
Record env : Type := {
  db : store;
  world : W;
  counters : gmap string Z;
  loop_keys : list string;
}.

Definition set_db (v : store) (e : env) : env :=
  {| db := v; world := world e; counters := counters e; loop_keys := loop_keys e |}.
Definition set_loops (c : gmap string Z) (ks : list string) (e : env) : env :=
  {| db := db e; world := world e; counters := c; loop_keys := ks |}.

(** A repository call. *)
Definition repo {A} (m : M store A) : M env A := fun e =>
  match m (db e) with (r, s) => (r, set_db s e) end.

(** [UUID(s)] and the executors' code. *)
Variable uuid_parse : string -> option uuid.
Variable construct : NodeType -> res exc unit.
Variable execute : NodeType -> ExecutionContext -> pyval -> M env NodeResult.
(** [NodeResult.model_dump(mode="json")]. *)
Variable dump_result : NodeResult -> pyval.
(** Object identity, for the comparisons of edge conditions. *)
Variable same : pyval -> pyval -> bool.
(** Whether an event hook is injected, whether the tracer yields handles, and the
    repository's batch size. *)
Variable use_hook traced : bool.
Variable batch_size : nat.

Definition parse_uuid (s : string) : res exc uuid :=
  match uuid_parse s with Some u => Ok u | None => Err PyValueError end.

(** Emission of one event: through the database hook, which records user, node and
    edge and swallows failures, or directly through the repository. *)
Definition emit (c : ExecutionContext) (ty : string) (payload : pyval) (node : option uuid)
    (edge : option string) : M env unit :=
  if use_hook then
    mtry (repo (append_execution_event batch_size (Some (flow_run_id c)) {|
            ed_tenant := tenant_id c; ed_user := Some (user_id c); ed_session := session_id c;
            ed_type := ty; ed_payload := payload; ed_correlation := correlation_id c;
            ed_node := node; ed_edge := edge |}) ;;* mret tt) (fun _ => mret tt)
  else
    repo (append_execution_event batch_size (Some (flow_run_id c)) {|
            ed_tenant := tenant_id c; ed_user := None; ed_session := session_id c;
            ed_type := ty; ed_payload := payload; ed_correlation := correlation_id c;
            ed_node := None; ed_edge := None |}) ;;* mret tt.

(** [UUID(context.current_node_id) if context.current_node_id else None]. *)
Definition node_uuid (c : ExecutionContext) : res exc (option uuid) :=
  if String.eqb (current_node_id c) "" then Ok None
  else let! u := parse_uuid (current_node_id c) in Ok (Some u).

(** [_emit_node_started]. *)
Definition _emit_node_started (c : ExecutionContext) : M env unit :=
  let* n := mlift (node_uuid c) in
  emit c "NodeStarted" (PDict [("node_id", PStr (current_node_id c))]) n None.

(** [_emit_node_completed]; the node id is parsed for the hook only. *)
Definition _emit_node_completed (c : ExecutionContext) (r : NodeResult) : M env unit :=
  let* n := mlift (if use_hook then node_uuid c else Ok None) in
  emit c "NodeCompleted"
    (PDict [("node_id", PStr (current_node_id c)); ("status", PStr (status_value (status r)));
            ("payload", PDict (data r)); ("error", error r); ("metrics", metrics r)]) n None.

(** [_emit_edge_evaluated]. *)
Definition _emit_edge_evaluated (c : ExecutionContext) (to_ : string) (result : bool) : M env unit :=
  let* n := mlift (if use_hook then node_uuid c else Ok None) in
  emit c "EdgeEvaluated"
    (PDict [("from_node", PStr (current_node_id c)); ("to_node", PStr to_);
            ("result", PBool result)])
    n (Some (current_node_id c +:+ "->" +:+ to_)).

(** [key = f"{edge.from_node}->{edge.to_node}"]. *)
Definition edge_key (e : CompiledEdge) : string := ce_from e +:+ "->" +:+ ce_to e.

(** Counting a loop edge: on every evaluation, whatever its condition. *)
Definition count_loop (loop_limit : Z) (e : CompiledEdge) : M env unit :=
  let key := edge_key e in
  mmodify (fun s =>
    set_loops (<[key := default 0 (counters s !! key) + 1]> (counters s))%Z
              (loop_keys s ++ [key]) s) ;;*
  let* s := mget in
  mlift (raise_if (loop_limit <? default 0 (counters s !! key))%Z
           (DomainValidationException "loop_iteration_limit_exceeded")).

(** [_evaluate_edges]. *)
Fixpoint _evaluate_edges (edges : list CompiledEdge) (c : ExecutionContext)
    (node_output : pydict) (loop_limit : Z) : M env (list string) :=
  match edges with
  | [] => mret []
  | e :: es =>
      if negb (String.eqb (ce_from e) (current_node_id c)) then
        _evaluate_edges es c node_output loop_limit
      else
        (if bool_decide (ce_kind e = LOOP) then count_loop loop_limit e else mret tt) ;;*
        let* result := mlift (is_true same (PDict node_output) (PList (compiled_condition e))) in
        _emit_edge_evaluated c (ce_to e) result ;;*
        let* rest := _evaluate_edges es c node_output loop_limit in
        mret (if (result : bool) then ce_to e :: rest else rest)
  end.

(** [_record_usage]: every failure is swallowed. *)
Definition _record_usage (c : ExecutionContext) (node_run_id : uuid) (r : NodeResult) : M env unit :=
  match usage r with
  | None => mret tt
  | Some u =>
      mtry (
        let* agent_run_id :=
          match agent_version_id u with
          | None => mret None
          | Some v =>
              let* a := repo (create_agent_run node_run_id v
                                (PDict [("task_type", task_type u)])
                                (agent_status_str AR_COMPLETED)) in
              repo (update_agent_run_result a (agent_status_str AR_COMPLETED) (PDict (data r))
                      (input_tokens u, output_tokens u)) ;;*
              mret (Some a)
          end in
        repo (record_llm_usage {|
          lg_tenant := tenant_id c; lg_flow := flow_run_id c; lg_node_run := node_run_id;
          lg_agent_run := agent_run_id; lg_session := session_id c;
          lg_tokens := (input_tokens u, output_tokens u) |}) ;;*
        mret tt) (fun _ => mret tt)
  end.

(** [NodeStepOutcome(node_type=...)] accepts a string or [None]. *)
Definition outcome_type (t : pyval) : res exc (option string) :=
  match t with
  | PStr s => Ok (Some s)
  | PNone => Ok None
  | _ => Err PydanticValidationError
  end.

Definition outcome (st : NodeStepStatus) (t : option string) (nr : option uuid) (d : pydict)
    (c : ExecutionContext) (next resume : option string) (keys : list string)
    (reason : option FlowFailureReason) (e : option exc) : NodeStepOutcome := {|
  oc_status := st; oc_node_type := t; oc_node_run := nr; oc_node_data := d; oc_context := c;
  oc_next := next; oc_resume := resume; oc_loop_keys := keys; oc_reason := reason;
  oc_exception := e |}.

(** A failed step. *)
Definition failed (t : option string) (nr : option uuid) (d : pydict) (c : ExecutionContext)
    (keys : list string) (reason : FlowFailureReason) (e : option exc) : NodeStepOutcome :=
  outcome FAILED t nr d c None None keys (Some reason) e.

(** [dict(new_state.get(NODE_OUTPUTS_BY_NODE_ID_KEY) or {})]: the runner is the only
    writer of that key and always stores a dict there. *)
Definition outputs_by_node (st : pydict) : res exc pydict :=
  match dict_getv NODE_OUTPUTS_BY_NODE_ID_KEY st with
  | PDict d => Ok d
  | v => if truthy v then Err PyTypeError else Ok []
  end.

(** The state after the node: its [next_state], or the previous state, with the
    node's output filed under its id. *)
Definition new_state_of (c : ExecutionContext) (r : NodeResult) : res exc pydict :=
  let base := match next_state r with Some ((_ :: _) as st) => st | _ => default (state c) (context_state r) end in
  let! snap := outputs_by_node base in
  let snap := if String.eqb (current_node_id c) "" then snap
              else dict_set (current_node_id c) (PDict (data r)) snap in
  Ok (dict_set NODE_OUTPUTS_BY_NODE_ID_KEY (PDict snap) base).

Definition new_memory_of (c : ExecutionContext) (r : NodeResult) : list pyval :=
  match result_memory r with Some m => m | None => memory c end.

(** [config.get("resume_to_node_id") or context.current_node_id]. *)
Definition resume_target (cfg : pyval) (c : ExecutionContext) : res exc pyval :=
  match cfg with
  | PDict d =>
      let v := dict_getv "resume_to_node_id" d in
      Ok (if truthy v then v else PStr (current_node_id c))
  | _ => Err PyAttributeError
  end.

(** The checkpoint written by [upsert_graph_state]. *)
Definition checkpoint (c : ExecutionContext) (st : pydict) (mem : list pyval) (resume : pyval) : pyval :=
  PDict [("current_node_id", PStr (current_node_id c)); ("state", PDict st);
         ("memory", PList mem); ("resume_to_node_id", resume); ("metadata", PDict (metadata c))].

Definition is_human_fallback (spec : option pydict) : bool :=
  match spec with
  | Some s => match dict_getv "type" s with PStr t => String.eqb t "HumanFallback" | _ => false end
  | None => false
  end.

Fixpoint spec_of (ns : list (string * pydict)) (n : string) : option pydict :=
  match ns with
  | [] => None
  | (k, s) :: ns' => if String.eqb n k then Some s else spec_of ns' n
  end.

(** The context handed to the next node: fallback metadata is added when the next
    node is a human fallback. *)
Definition next_context (ns : list (string * pydict)) (t : string) (c : ExecutionContext)
    (next : string) (st : pydict) (mem : list pyval) (r : NodeResult) : ExecutionContext :=
  let c' := advance_to next st mem (data r) c in
  if is_human_fallback (spec_of ns next) then
    with_metadata
      (dict_set FALLBACK_REASON_METADATA_KEY
         (PStr (sla_reason_value (resolve_fallback_reason t (data r))))
         (dict_set FALLBACK_SOURCE_NODE_METADATA_KEY (PStr (current_node_id c)) (metadata c))) c'
  else c'.

(** What follows the node's checkpoint: the terminal test and the choice of the next
    node. *)
Definition choose_next (ns : list (string * pydict)) (edges : list CompiledEdge) (t : string)
    (node_run_id : uuid) (c : ExecutionContext) (st : pydict) (mem : list pyval) (r : NodeResult)
    (loop_limit : Z) : M env NodeStepOutcome :=
  if is_in t TERMINAL_NODE_TYPES then
    mret (outcome TERMINAL (Some t) (Some node_run_id) (data r) c None None [] None None)
  else
    mmodify (fun s => set_loops (counters s) [] s) ;;*
    fun s0 =>
      match _evaluate_edges edges c (data r) loop_limit s0 with
      | (Err e, s) =>
          if is_domain_validation e then
            (Ok (failed (Some t) (Some node_run_id) (data r) c (loop_keys s)
                   EDGE_EVALUATION_ERROR (Some e)), s)
          else (Err e, s)
      | (Ok [], s) =>
          (Ok (failed (Some t) (Some node_run_id) (data r) c (loop_keys s) NO_MATCHING_EDGE None), s)
      | (Ok [next], s) =>
          (Ok (outcome ADVANCE (Some t) (Some node_run_id) (data r)
                 (next_context ns t c next st mem r) (Some next) None (loop_keys s) None None), s)
      | (Ok _, s) =>
          (Ok (failed (Some t) (Some node_run_id) (data r) c (loop_keys s)
                 MULTIPLE_MATCHING_EDGES None), s)
      end.

(** After the node has returned: result, usage, state, event, checkpoint. *)
Definition finish_node (ns : list (string * pydict)) (edges : list CompiledEdge) (t : string)
    (node_run_id : uuid) (cfg : pyval) (c : ExecutionContext) (r : NodeResult) (loop_limit : Z) :
    M env NodeStepOutcome :=
  let c := after_node r c in
  let run_status := node_status_str (_map_status (status r)) in
  repo (update_node_run_result node_run_id (dump_result r) run_status run_status) ;;*
  _record_usage c node_run_id r ;;*
  let* st := mlift (new_state_of c r) in
  let mem := new_memory_of c r in
  let* resume := mlift (if bool_decide (status r = NEEDS_INPUT) then resume_target cfg c else Ok PNone) in
  _emit_node_completed c r ;;*
  repo (upsert_graph_state (flow_run_id c) (checkpoint c st mem resume) (Some node_run_id)) ;;*
  if bool_decide (status r = NEEDS_INPUT) then
    match resume with
    | PStr target =>
        mret (outcome STEP_NEEDS_INPUT (Some t) (Some node_run_id) (data r) c None (Some target)
                [] None None)
    | _ => mraise PydanticValidationError
    end
  else choose_next ns edges t node_run_id c st mem r loop_limit.

(** [NodeStepRunner.run_step]. *)
Definition run_step (plan : ExecutionPlan) (loop_limit : Z) (c : ExecutionContext) :
    M env NodeStepOutcome :=
  let ns := plan_nodes plan in
  let edges := adj_get (adjacency_map plan) (current_node_id c) in
  match spec_of ns (current_node_id c) with
  | None => mret (failed None None [] c [] NODE_NOT_FOUND None)
  | Some spec =>
      let ty := dict_getv "type" spec in
      let* cls := mlift (resolve ty) in
      let* t := mlift (outcome_type ty) in
      match cls, t with
      | Some cls, Some t =>
          let c := with_metadata (dict_set "current_node_type" (PStr t) (metadata c)) c in
          match construct cls with
          | Err e => mret (failed (Some t) None [] c [] STRUCTURAL_ERROR (Some e))
          | Ok _ =>
              let* node := mlift (parse_uuid (current_node_id c)) in
              let* node_run_id := repo (create_node_run traced (flow_run_id c) node
                  (PDict [("input_payload", input_payload c); ("state", PDict (state c));
                          ("memory", PList (memory c)); ("metadata", PDict (metadata c))])
                  (PDict []) (node_status_str NR_RUNNING) (node_status_str NR_RUNNING)) in
              let c := with_node_run node_run_id c in
              _emit_node_started c ;;*
              let cfg := or_empty (dict_getv "config" spec) in
              fun s0 =>
                match execute cls c cfg s0 with
                | (Err e, s) => (Ok (failed (Some t) (Some node_run_id) [] c [] STRUCTURAL_ERROR (Some e)), s)
                | (Ok r, s) => finish_node ns edges t node_run_id cfg c r loop_limit s
                end
          end
      | _, t => mret (failed t None [] c [] UNKNOWN_NODE_TYPE None)
      end
  end.

(** ** What a step leaves untouched *)

(** Flow runs, and everything the store keeps about other tables, as a relation on
    environments given by a view of the store. *)
Definition keeps {A} (view : store -> A) (e e' : env) : Prop := view (db e') = view (db e).

#[global] Instance keeps_preorder {A} (view : store -> A) : PreOrder (keeps view).
Proof. split; unfold keeps; [intros e; done | intros a b c H1 H2; congruence]. Qed.

Lemma repo_keeps {A B} (view : store -> B) (m : M store A) :
  (forall s, view (m s).2 = view s) -> respects (keeps view) (repo m).
Proof. intros H e. unfold keeps, repo. specialize (H (db e)). by destruct (m (db e)). Qed.

Lemma set_loops_keeps {B} (view : store -> B) (f : env -> env) :
  (forall e, db (f e) = db e) -> respects (keeps view) (mmodify f).
Proof. intros H e. unfold keeps. simpl. by rewrite H. Qed.
End runner.

(** Views of the store that event writes do not change. *)
Class EventFrame {B} (view : store -> B) : Prop := {
  frame_uuid : forall v s, view (set_next_uuid v s) = view s;
  frame_events : forall v s, view (set_events v s) = view s;
  frame_buffer : forall v s, view (set_event_buffer v s) = view s;
}.

#[global] Instance flow_runs_frame : EventFrame flow_runs.
Proof. by split. Qed.
#[global] Instance graph_states_frame : EventFrame graph_states.
Proof. by split. Qed.
#[global] Instance node_runs_frame : EventFrame node_runs.
Proof. by split. Qed.

Section event_frame.
Context {B : Type} (view : store -> B) `{!EventFrame view}.

Lemma persist_frame f evs s : view (_persist_execution_events_batch f evs s).2 = view s.
Proof.
  unfold _persist_execution_events_batch, mbind_, mget. destruct evs as [|[i d] evs]; [done|].
  destruct (resolve_user _ _ _); [|done]. simpl. apply frame_events.
Qed.

Lemma append_frame bs f d s : view (append_execution_event bs f d s).2 = view s.
Proof.
  unfold append_execution_event, uuid4. unfold mbind_ at 1.
  destruct f as [f|]; [|apply frame_uuid]. unfold mbind_ at 1, mget. unfold mbind_ at 1.
  set (s1 := set_next_uuid _ s). assert (Hs1 : view s1 = view s) by apply frame_uuid.
  rewrite <- Hs1. clearbody s1. case_bool_decide.
  - enough (H' : view (buffer_event bs f (next_uuid s) d s1).2 = view s1)
      by (by destruct (buffer_event _ _ _ _ _) as [[]]).
    unfold buffer_event, mbind_, mget, mmodify. destruct (bs <=? _); [|apply frame_buffer].
    rewrite persist_frame. apply frame_buffer.
  - rewrite insert_as_batch. pose proof (persist_frame f [(next_uuid s, d)] s1) as Hp.
    by destruct (_persist_execution_events_batch _ _ _) as [[]].
Qed.
End event_frame.

(** ** The parts of a step and the rows they write *)

Section step_facts.
Context {W : Type}.
Variable uuid_parse : string -> option uuid.
Variable construct : NodeType -> res exc unit.
Variable execute : NodeType -> ExecutionContext -> pyval -> M (@env W) NodeResult.
Variable dump_result : NodeResult -> pyval.
Variable same : pyval -> pyval -> bool.
Variable use_hook traced : bool.
Variable batch_size : nat.

Abbreviation emit_ := (emit (W := W) use_hook batch_size).
Abbreviation evaluate_ := (_evaluate_edges (W := W) uuid_parse same use_hook batch_size).
Abbreviation choose_ := (choose_next (W := W) uuid_parse same use_hook batch_size).
Abbreviation finish_ := (finish_node (W := W) uuid_parse dump_result same use_hook batch_size).
Abbreviation run_step_ :=
  (run_step uuid_parse construct execute dump_result same use_hook traced batch_size).

Section frame.
Context {B : Type} (view : store -> B) `{!EventFrame view}.

Lemma emit_keeps c ty p n e : respects (keeps view) (emit_ c ty p n e).
Proof using EventFrame0.
  unfold emit. destruct use_hook; repeat frame_step; by apply repo_keeps, append_frame.
Qed.

Lemma edge_event_keeps c to_ b :
  respects (keeps view) (_emit_edge_evaluated (W := W) uuid_parse use_hook batch_size c to_ b).
Proof using EventFrame0. unfold _emit_edge_evaluated. frame_step; [frame_step | apply emit_keeps]. Qed.

Lemma evaluate_edges_keeps es c out lim : respects (keeps view) (evaluate_ es c out lim).
Proof using EventFrame0.
  induction es as [|e es IH]; simpl; [frame_step|]. destruct (negb _); [done|].
  frame_step; [|frame_step; [frame_step | frame_step; [apply edge_event_keeps|]]].
  - case_bool_decide; [|frame_step]. unfold count_loop. frame_step; [by apply set_loops_keeps|].
    frame_step; frame_step.
  - frame_step; [done | frame_step].
Qed.

Lemma choose_next_keeps ns es t n c st mem r lim :
  respects (keeps view) (choose_ ns es t n c st mem r lim).
Proof using EventFrame0.
  unfold choose_next. destruct (is_in _ _); [frame_step|].
  frame_step; [by apply set_loops_keeps|]. intros e.
  pose proof (evaluate_edges_keeps es c (data r) lim e) as H.
  destruct (evaluate_ es c (data r) lim e) as [[[|x [|]]|er] e']; try done.
  simpl. by destruct (is_domain_validation er).
Qed.
End frame.

Lemma record_usage_keeps c n r : respects (keeps flow_runs) (_record_usage (W := W) c n r).
Proof.
  unfold _record_usage. destruct (usage r) as [u|]; [|frame_step].
  frame_step; [|frame_step]. frame_step.
  - destruct (agent_version_id u) as [v|]; [|frame_step]. frame_step; [|frame_step; [|frame_step]].
    + apply repo_keeps. intros s. unfold create_agent_run, uuid4, mbind_, mget, mmodify.
      by case_bool_decide.
    + apply repo_keeps. intros s. unfold update_agent_run_result, mbind_, mget, mmodify.
      by destruct (agent_runs s !! _).
  - frame_step; [by apply repo_keeps | frame_step].
Qed.

Lemma node_completed_keeps c r :
  respects (keeps flow_runs) (_emit_node_completed (W := W) uuid_parse use_hook batch_size c r).
Proof. unfold _emit_node_completed. frame_step; [frame_step | apply emit_keeps; apply _]. Qed.

Lemma finish_node_keeps ns es t n cfg c r lim :
  respects (keeps flow_runs) (finish_ ns es t n cfg c r lim).
Proof.
  unfold finish_node. frame_step.
  { apply repo_keeps. intros s. unfold update_node_run_result, mbind_, mget, mmodify.
    by destruct (node_runs s !! _). }
  frame_step; [apply record_usage_keeps|]. frame_step; [frame_step|]. frame_step; [frame_step|].
  frame_step; [apply node_completed_keeps|]. frame_step; [by apply repo_keeps|].
  case_bool_decide; [case_match; frame_step|]. apply choose_next_keeps; apply _.
Qed.

(** What the traversal relies on from the node executors: they do not write flow
    runs and do not touch the iteration counters. *)
Class ExecutorLaws : Prop := {
  exec_flow_runs : forall t c cfg, respects (keeps flow_runs) (execute t c cfg);
  exec_counters : forall t c cfg e, counters (execute t c cfg e).2 = counters e;
}.

Lemma run_step_keeps `{Laws : !ExecutorLaws} plan lim c :
  respects (keeps flow_runs) (run_step_ plan lim c).
Proof.
  unfold run_step. destruct (spec_of _ _) as [spec|]; [|frame_step].
  frame_step; [frame_step|]. frame_step; [frame_step|].
  destruct a as [cls|]; [|frame_step]. destruct a0 as [t|]; [|frame_step].
  destruct (construct cls); [|frame_step]. frame_step; [frame_step|]. frame_step.
  { apply repo_keeps. intros s. unfold create_node_run, uuid4, mbind_, mmodify. by destruct traced. }
  frame_step.
  { unfold _emit_node_started. frame_step; [frame_step | apply emit_keeps; apply _]. }
  intros e. match goal with |- context [execute ?t ?c ?g e] => pose proof (exec_flow_runs t c g e) as He end.
  destruct (execute _ _ _ e) as [[r|er] e']; [|done]. etrans; [exact He|]. apply finish_node_keeps.
Qed.

(** ** Choosing the next node *)

(** The condition of an edge holds on an output. *)
Definition holds (out : pydict) (ce : CompiledEdge) : bool :=
  match is_true same (PDict out) (PList (compiled_condition ce)) with Ok b => b | Err _ => false end.

(** The edges considered at a node. *)
Definition outgoing (es : list CompiledEdge) (n : string) : list CompiledEdge :=
  filter (fun ce => ce_from ce = n) es.

Lemma evaluate_edges_candidates es c out lim e l e' :
  evaluate_ es c out lim e = (Ok l, e') ->
  l = ce_to <$> filter (fun ce => holds out ce = true) (outgoing es (current_node_id c)).
Proof.
  revert e l. induction es as [|ce es IH]; intros e l; simpl.
  { by intros [= <- <-]. }
  unfold outgoing. rewrite filter_cons. destruct (String.eqb_spec (ce_from ce) (current_node_id c));
    simpl; [|rewrite decide_False by done; apply IH].
  rewrite decide_True by done. intros ([] & e1 & _ & H)%mbind_ok.
  apply mbind_ok in H as (b & e2 & Hb & H). injection Hb as Hb <-.
  apply mbind_ok in H as ([] & e3 & _ & H). apply mbind_ok in H as (l' & e4 & Hl & [= <- <-]).
  apply IH in Hl as ->. assert (Hh : holds out ce = b) by (unfold holds; by rewrite Hb).
  rewrite filter_cons, Hh. by destruct b.
Qed.

(** The value of an iteration counter. *)
Definition count (e : @env W) (k : string) : Z := default 0%Z (counters e !! k).

Lemma repo_counters {A} (m : M store A) (e : @env W) : counters (repo m e).2 = counters e.
Proof. unfold repo. by destruct (m (db e)). Qed.

Lemma emit_counters c ty p n ed e : counters (emit_ c ty p n ed e).2 = counters e.
Proof.
  unfold emit, mtry, mbind_. destruct use_hook;
    match goal with |- context [repo ?m e] => pose proof (repo_counters m e) as H end;
    destruct (repo _ e) as [[]]; simpl in *; done.
Qed.

Lemma edge_event_counters c to_ b e :
  counters (_emit_edge_evaluated (W := W) uuid_parse use_hook batch_size c to_ b e).2 = counters e.
Proof.
  unfold _emit_edge_evaluated, mbind_, mlift.
  destruct (if use_hook then _ else _); [apply emit_counters | done].
Qed.

Lemma count_loop_ok lim ce (e e' : @env W) :
  count_loop lim ce e = (Ok tt, e') ->
  count e' (edge_key ce) = (count e (edge_key ce) + 1)%Z /\
  (count e' (edge_key ce) <= lim)%Z /\ forall k, k <> edge_key ce -> count e' k = count e k.
Proof.
  unfold count_loop, mbind_, mmodify, mget, mlift. intros H. injection H as Hr <-.
  unfold raise_if in Hr. destruct (_ <? _)%Z eqn:Hlt; [done|]. apply Z.ltb_ge in Hlt.
  unfold count in *. simpl in *. rewrite lookup_insert_eq in *. simpl in *.
  split_and!; [done..|]. intros k Hk. by rewrite lookup_insert_ne.
Qed.

(** Evaluation counts every loop edge of the node and leaves no counter it raised
    above the limit. *)
Lemma evaluate_edges_counters es c out lim e l e' :
  evaluate_ es c out lim e = (Ok l, e') ->
  (forall k, count e k <= count e' k /\ (count e' k = count e k \/ count e' k <= lim))%Z /\
  (forall ce, ce ∈ outgoing es (current_node_id c) -> ce_kind ce = LOOP ->
     count e (edge_key ce) < count e' (edge_key ce))%Z.
Proof.
  revert e l. induction es as [|ce es IH]; intros e l; simpl.
  { intros [= <- <-]. split; [intros k; lia|]. intros ce Hce. by apply elem_of_nil in Hce. }
  unfold outgoing. rewrite filter_cons. destruct (String.eqb_spec (ce_from ce) (current_node_id c));
    simpl; [|rewrite decide_False by done; apply IH].
  rewrite decide_True by done. intros ([] & e1 & H1 & H)%mbind_ok.
  apply mbind_ok in H as (b & e2 & Hb & H). injection Hb as Hb <-.
  apply mbind_ok in H as ([] & e3 & H3 & H). apply mbind_ok in H as (l' & e4 & Hl & [= <- <-]).
  pose proof (edge_event_counters c (ce_to ce) b e1) as Hc. rewrite H3 in Hc. simpl in Hc.
  destruct (IH e3 l' Hl) as [Hk Hloop].
  assert (He3 : forall k, count e3 k = count e1 k) by (intros k; unfold count; by rewrite Hc).
  setoid_rewrite He3 in Hk. setoid_rewrite He3 in Hloop. clear IH Hl H3 Hc He3.
  case_bool_decide as HL.
  - destruct (count_loop_ok lim ce e e1 H1) as (Hc1 & Hc2 & Hc3). split.
    + intros k. destruct (Hk k) as [Hk1 Hk2].
      destruct (decide (k = edge_key ce)) as [->|Hne]; [lia|]. rewrite <- (Hc3 k Hne). lia.
    + intros x [->|Hx]%elem_of_cons Hx'; [destruct (Hk (edge_key ce)); lia|].
      specialize (Hloop x Hx Hx'). destruct (decide (edge_key x = edge_key ce)) as [Heq|Hne].
      * rewrite Heq in *. lia.
      * rewrite <- (Hc3 _ Hne). lia.
  - injection H1 as <-. split; [apply Hk|].
    intros x [->|Hx]%elem_of_cons Hx'; [done | by apply Hloop].
Qed.

(** Everything but the edge evaluation leaves the counters alone. *)
Definition same_counters (e e' : @env W) : Prop := counters e' = counters e.

#[local] Instance same_counters_preorder : PreOrder same_counters.
Proof. split; unfold same_counters; [intros e; done | intros a b d H1 H2; congruence]. Qed.

Lemma repo_same {A} (m : M store A) : respects same_counters (repo m).
Proof. intros e. apply repo_counters. Qed.

Lemma record_usage_counters c n r : respects same_counters (_record_usage (W := W) c n r).
Proof.
  unfold _record_usage. destruct (usage r) as [u|]; [|frame_step].
  frame_step; [|frame_step]. frame_step.
  - destruct (agent_version_id u) as [v|]; [|frame_step].
    frame_step; [apply repo_same|frame_step; [apply repo_same|frame_step]].
  - frame_step; [apply repo_same | frame_step].
Qed.

Lemma node_completed_counters c r :
  respects same_counters (_emit_node_completed (W := W) uuid_parse use_hook batch_size c r).
Proof. unfold _emit_node_completed. frame_step; [frame_step|]. intros e. apply emit_counters. Qed.

(** The checkpoint after a node, and the choice that follows it. *)
Lemma finish_node_ok ns es t n cfg c r lim e oc e' :
  finish_ ns es t n cfg c r lim e = (Ok oc, e') ->
  let c' := after_node r c in
  (oc_status oc = STEP_NEEDS_INPUT /\ is_Some (oc_resume oc)) \/
  exists st e1, new_state_of c' r = Ok st /\ counters e1 = counters e /\
    graph_states (db e1) !! flow_run_id c =
      Some {| gs_state := checkpoint c' st (new_memory_of c' r) PNone; gs_last_node_run := Some n |} /\
    choose_ ns es t n c' st (new_memory_of c' r) r lim e1 = (Ok oc, e').
Proof.
  intros H c'. unfold finish_node in H. fold c' in H.
  apply mbind_ok in H as ([] & e1 & H1 & H). apply mbind_ok in H as ([] & e2 & H2 & H).
  apply mbind_ok in H as (st & e3 & H3 & H). injection H3 as Hst <-.
  apply mbind_ok in H as (resume & e4 & H4 & H). injection H4 as Hres <-.
  apply mbind_ok in H as ([] & e5 & H5 & H). apply mbind_ok in H as ([] & e6 & H6 & H).
  case_bool_decide as Hs.
  { left. destruct resume; try done. injection H as <- <-. simpl. eauto. }
  right. injection Hres as <-. exists st, e6. split_and!; [done| | |done].
  - apply (respects_run same_counters) in H1; [|apply repo_same].
    apply (respects_run same_counters) in H2; [|apply record_usage_counters].
    apply (respects_run same_counters) in H5; [|apply node_completed_counters].
    apply (respects_run same_counters) in H6; [|apply repo_same].
    unfold same_counters in *. congruence.
  - unfold repo, upsert_graph_state, mbind_, mmodify in H6. injection H6 as <-. simpl.
    by rewrite lookup_insert_eq.
Qed.

(** ** The outcome of a step *)

(** The targets of the edges whose condition holds. *)
Definition enabled (plan : ExecutionPlan) (n : string) (out : pydict) : list string :=
  ce_to <$> filter (fun ce => holds out ce = true)
              (outgoing (adj_get (adjacency_map plan) n) n).

(** The checkpoint stored for a flow run holds this state and memory. *)
Definition checkpointed (s : store) (f : uuid) (n : string) (st : pydict) (mem : list pyval) : Prop :=
  exists md last, graph_states s !! f = Some {|
    gs_state := PDict [("current_node_id", PStr n); ("state", PDict st); ("memory", PList mem);
                       ("resume_to_node_id", PNone); ("metadata", PDict md)];
    gs_last_node_run := last |}.

Definition type_of (plan : ExecutionPlan) (n : string) : option string :=
  match spec_of (plan_nodes plan) n with
  | Some spec => match dict_getv "type" spec with PStr t => Some t | _ => None end
  | None => None
  end.

(** Moving on: exactly one edge is enabled, the context moves to its target with the
    checkpointed state, and the loop edges of the node have been counted within the
    limit. *)
Record advances (plan : ExecutionPlan) (lim : Z) (c : ExecutionContext) (e : @env W)
    (oc : NodeStepOutcome) (e' : @env W) : Prop := {
  ad_type : exists t, type_of plan (current_node_id c) = Some t /\ t ∉ TERMINAL_NODE_TYPES;
  ad_enabled : enabled plan (current_node_id c) (oc_node_data oc) = [current_node_id (oc_context oc)];
  ad_next : oc_next oc = Some (current_node_id (oc_context oc));
  ad_flow : flow_run_id (oc_context oc) = flow_run_id c;
  ad_checkpoint : checkpointed (db e') (flow_run_id c) (current_node_id c)
                    (state (oc_context oc)) (memory (oc_context oc));
  ad_counters : forall k, (count e k <= count e' k /\ (count e' k = count e k \/ count e' k <= lim))%Z;
  ad_loops : forall ce, ce ∈ outgoing (adj_get (adjacency_map plan) (current_node_id c)) (current_node_id c) ->
    ce_kind ce = LOOP -> (count e (edge_key ce) < count e' (edge_key ce))%Z;
}.

(** Failing: each reason with what it says about the node. *)
Definition fails (plan : ExecutionPlan) (c : ExecutionContext) (oc : NodeStepOutcome) : Prop :=
  let n := current_node_id c in
  match oc_reason oc with
  | Some NODE_NOT_FOUND => spec_of (plan_nodes plan) n = None
  | Some UNKNOWN_NODE_TYPE => forall t, type_of plan n = Some t -> resolve (PStr t) = Ok None
  | Some STRUCTURAL_ERROR => exists er, oc_exception oc = Some er
  | Some NO_MATCHING_EDGE => enabled plan n (oc_node_data oc) = []
  | Some MULTIPLE_MATCHING_EDGES => 2 <= length (enabled plan n (oc_node_data oc))
  | Some EDGE_EVALUATION_ERROR => exists er, oc_exception oc = Some er /\ is_domain_validation er = true
  | _ => False
  end.

Definition outcome_spec (plan : ExecutionPlan) (lim : Z) (c : ExecutionContext) (e : @env W)
    (oc : NodeStepOutcome) (e' : @env W) : Prop :=
  match oc_status oc with
  | ADVANCE => advances plan lim c e oc e'
  | TERMINAL => exists t, type_of plan (current_node_id c) = Some t /\ t ∈ TERMINAL_NODE_TYPES
  | STEP_NEEDS_INPUT => is_Some (oc_resume oc)
  | FAILED => fails plan c oc
  end.

Lemma choose_next_spec plan es t n c st mem r lim e oc e' :
  es = adj_get (adjacency_map plan) (current_node_id c) ->
  type_of plan (current_node_id c) = Some t ->
  checkpointed (db e) (flow_run_id c) (current_node_id c) st mem ->
  choose_ (plan_nodes plan) es t n c st mem r lim e = (Ok oc, e') ->
  outcome_spec plan lim c e oc e'.
Proof.
  intros -> Ht Hck H. pose proof (choose_next_keeps graph_states (plan_nodes plan)
    (adj_get (adjacency_map plan) (current_node_id c)) t n c st mem r lim e) as Hgs.
  rewrite H in Hgs. unfold keeps in Hgs. simpl in Hgs. unfold choose_next in H. unfold outcome_spec.
  destruct (is_in t TERMINAL_NODE_TYPES) eqn:Hterm.
  { injection H as <- <-. simpl. exists t. by apply is_in_true in Hterm. }
  unfold mbind_, mmodify in H. destruct (evaluate_ _ _ _ _ _) as [l e1] eqn:He.
  destruct l as [l|er].
  2:{ destruct (is_domain_validation er) eqn:Hd; [|done]. injection H as <- <-.
      simpl. unfold fails. simpl. eauto. }
  pose proof (evaluate_edges_candidates _ _ _ _ _ _ _ He) as Hl. fold (enabled plan (current_node_id c) (data r)) in Hl.
  destruct l as [|x [|y l]]; injection H as <- <-; unfold fails; simpl.
  - done.
  - apply evaluate_edges_counters in He as [Hk Hloop].
    assert (Hx : current_node_id (next_context (plan_nodes plan) t c x st mem r) = x)
      by (unfold next_context; by case_match).
    split; cbn [oc_context oc_next oc_node_data outcome]; rewrite ?Hx; try done.
    + exists t. split; [done|]. intros Hin%is_in_true. congruence.
    + unfold next_context. by case_match.
    + unfold checkpointed in *. rewrite Hgs. unfold next_context. by case_match.
  - unfold fails. simpl. rewrite <- Hl. simpl. lia.
Qed.

Lemma outcome_spec_ext plan lim c c' e e1 oc e' :
  current_node_id c' = current_node_id c -> flow_run_id c' = flow_run_id c ->
  counters e1 = counters e -> outcome_spec plan lim c' e1 oc e' -> outcome_spec plan lim c e oc e'.
Proof.
  intros Hn Hf Hc. unfold outcome_spec, fails. rewrite Hn. destruct (oc_status oc); try done.
  assert (Hk : forall k, count e1 k = count e k) by (intros k; unfold count; by rewrite Hc).
  intros [H1 H2 H3 H4 H5 H6 H7]. rewrite ?Hn, ?Hf in *. setoid_rewrite Hk in H6.
  setoid_rewrite Hk in H7. by split.
Qed.

Lemma finish_node_spec plan t n cfg c r lim e oc e' :
  type_of plan (current_node_id c) = Some t ->
  finish_ (plan_nodes plan) (adj_get (adjacency_map plan) (current_node_id c)) t n cfg c r lim e
    = (Ok oc, e') ->
  outcome_spec plan lim c e oc e'.
Proof.
  intros Ht [[Hs Hr]|(st & e1 & Hst & Hc & Hgs & Hch)]%finish_node_ok.
  { unfold outcome_spec. by rewrite Hs. }
  eapply (outcome_spec_ext _ _ _ (after_node r c)); [done..|].
  eapply choose_next_spec; [done|done| |exact Hch]. do 2 eexists. exact Hgs.
Qed.

Lemma run_step_spec `{Laws : !ExecutorLaws} plan lim c e oc e' :
  run_step_ plan lim c e = (Ok oc, e') -> outcome_spec plan lim c e oc e'.
Proof.
  unfold run_step. destruct (spec_of (plan_nodes plan) (current_node_id c)) as [spec|] eqn:Hspec.
  2:{ intros [= <- <-]. done. }
  intros (cls & e1 & H1 & H)%mbind_ok. injection H1 as Hcls <-.
  apply mbind_ok in H as (t & e2 & H2 & H). injection H2 as Hty <-.
  destruct cls as [cls|].
  2:{ injection H as <- <-. unfold outcome_spec, fails. simpl. unfold type_of. rewrite Hspec.
      intros t'. destruct (dict_getv "type" spec); try done. by intros [= ->]. }
  destruct t as [t|]; [|by destruct (dict_getv "type" spec)].
  assert (Ht : type_of plan (current_node_id c) = Some t).
  { unfold type_of. rewrite Hspec. by destruct (dict_getv "type" spec); simplify_eq/=. }
  destruct (construct cls) as [[]|er].
  2:{ injection H as <- <-. unfold outcome_spec, fails. simpl. eauto. }
  apply mbind_ok in H as (node & e3 & H3 & H). injection H3 as _ <-.
  apply mbind_ok in H as (nr & e4 & H4 & H). apply mbind_ok in H as ([] & e5 & H5 & H).
  apply (respects_run same_counters) in H4; [|apply repo_same].
  unfold _emit_node_started in H5. apply mbind_ok in H5 as (nu & e6 & H6 & H5). injection H6 as _ <-.
  apply (respects_run same_counters) in H5; [|intros x; apply emit_counters].
  match type of H with context [execute ?a ?b ?g e5] => pose proof (exec_counters a b g e5) as Hex end.
  destruct (execute _ _ _ e5) as [[r|er] e7].
  - simpl in Hex. eapply (outcome_spec_ext _ _ _ _ _ e7); [| | |by eapply finish_node_spec; [|exact H]];
      try done. unfold same_counters in *. congruence.
  - injection H as <- <-. unfold outcome_spec, fails. simpl. eauto.
Qed.

(** The outcome's context belongs to the same flow run. *)
Lemma choose_next_flow ns es t n c st mem r lim e oc e' :
  choose_ ns es t n c st mem r lim e = (Ok oc, e') -> flow_run_id (oc_context oc) = flow_run_id c.
Proof.
  unfold choose_next. destruct (is_in t TERMINAL_NODE_TYPES); [by intros [= <- <-]|].
  unfold mbind_, mmodify. destruct (evaluate_ _ _ _ _ _) as [[[|x [|]]|er] e1].
  4: destruct (is_domain_validation er); [|done].
  all: intros [= <- <-]; try done. simpl. unfold next_context. by case_match.
Qed.

Lemma run_step_flow plan lim c e oc e' :
  run_step_ plan lim c e = (Ok oc, e') -> flow_run_id (oc_context oc) = flow_run_id c.
Proof.
  unfold run_step. destruct (spec_of _ _) as [spec|]; [|by intros [= <- <-]].
  intros (cls & e1 & _ & H)%mbind_ok. apply mbind_ok in H as (t & e2 & _ & H).
  destruct cls as [cls|]; [|by injection H as <- <-]. destruct t as [t|]; [|by injection H as <- <-].
  destruct (construct cls); [|by injection H as <- <-].
  apply mbind_ok in H as (node & e3 & _ & H). apply mbind_ok in H as (nr & e4 & _ & H).
  apply mbind_ok in H as ([] & e5 & _ & H).
  destruct (execute _ _ _ e5) as [[r|er] e7]; [|by injection H as <- <-].
  unfold finish_node in H. do 6 apply mbind_ok in H as (? & ? & _ & H).
  case_bool_decide; [|by apply choose_next_flow in H]. case_match; try done. by injection H as <- <-.
Qed.

(** [C2] One step, on every branch.  When [run_step] returns, its outcome says what
    happened at the node: ADVANCE means the node is not terminal, exactly one
    outgoing condition holds on the node's output, the context moves to that edge's
    target with the state and memory of the stored checkpoint, and each loop edge of
    the node was counted without exceeding the limit; TERMINAL means the node's type
    is terminal; a pause names the node to resume at; each failure reason holds of
    the plan and the output.  In every case the flow runs are untouched. *)
Theorem run_step_outcome `{Laws : !ExecutorLaws} plan lim c e oc e' :
  run_step_ plan lim c e = (Ok oc, e') ->
  outcome_spec plan lim c e oc e' /\ flow_runs (db e') = flow_runs (db e).
Proof.
  intros H. split; [by apply run_step_spec|].
  apply (respects_run (keeps flow_runs)) in H; [done | apply run_step_keeps].
Qed.
End step_facts.

(** ** A concrete traversal *)

Definition demo_result (d : pydict) : NodeResult := {|
  status := SUCCESS; data := d; error := PNone; metrics := PNone; next_state := None;
  context_state := None; context_text := None; context_offer := None; result_memory := None; usage := None |}.

(** Executors that answer with the same output, whatever the node. *)
Definition demo_execute (d : pydict) (_ : NodeType) (_ : ExecutionContext) (_ : pyval) :
    M (@env unit) NodeResult := mret (demo_result d).

Definition demo_output : pydict :=
  [("confidence", PBool true); ("ambiguous", PBool false); ("retry", PBool false)].

Definition demo_context : ExecutionContext := {|
  tenant_id := 1; user_id := "ana"; session_id := 1; input_payload := PDict [];
  flow_run_id := 7; correlation_id := 1; current_node_id := "intent";
  current_node_run_id := None; state := []; memory := []; metadata := []; node_output := [];
  system_prompt := None; system_context := None; context_tools := [] |}.

Definition demo_env : @env unit :=
  {| db := demo_store; world := tt; counters := ∅; loop_keys := [] |}.

Definition demo_plan : ExecutionPlan :=
  match publish DraftGraph.demo_parse DraftGraph.demo_graph with
  | Ok p => p
  | Err _ => {| start_node_id := ""; ordered_nodes := []; adjacency_map := [];
                terminal_nodes := ∅; structural_hash := ""; plan_nodes := [];
                available_tools := [] |}
  end.

#[global] Instance demo_laws d : ExecutorLaws (demo_execute d).
Proof. by split. Qed.

Definition demo_step : M (@env unit) NodeStepOutcome :=
  run_step (fun _ => Some 1%N) (fun _ => Ok tt) (demo_execute demo_output) (fun _ => PNone)
    (fun _ _ => true) true true 20 demo_plan 10 demo_context.

Lemma run_step_outcome_witness :
  exists oc e', demo_step demo_env = (Ok oc, e') /\ oc_status oc = ADVANCE /\
    outcome_spec (fun _ _ => true) demo_plan 10 demo_context demo_env oc e' /\
    flow_runs (db e') = flow_runs (db demo_env).
Proof.
  destruct (demo_step demo_env) as [[oc|er] e'] eqn:H; [|vm_compute in H; discriminate].
  exists oc, e'. split; [done|].
  split; [vm_compute in H; injection H as <- _; reflexivity|].
  exact (run_step_outcome (fun _ => Some 1%N) (fun _ => Ok tt) (demo_execute demo_output)
    (fun _ => PNone) (fun _ _ => true) true true 20 demo_plan 10 demo_context demo_env oc e' H).
Defined.
