(* ===== verification/Executor.v ===== *)
(** * Executor: the in-process traversal of a plan

    [src/src/domain/execution/services/graph_runtime/executor.py]: the loop that
    runs steps until the flow completes, pauses, fails or exceeds its step budget,
    and the flow-level writes at its end.  [range(max_steps)] is structural
    recursion on the budget. *)

From S2P Require Import Prelude.
From S2P Require Import Errors.
From S2P Require Import PyValue.
From S2P Require Import StateMachine.
From S2P Require Import GraphSearch.
From S2P Require Import FlowGraph.
From S2P Require Import DraftGraph.
From S2P Require Import GraphCompiler.
From S2P Require Import Effects.
From S2P Require Import Store.
From S2P Require Import NodeStep.

(** ** Limits *)

Definition _default_loop_limit : Z := 10.

(** The loop limit of a runtime policy dump ([[]] without a policy). *)
Definition loop_limit_of (int_of_string : string -> option Z) (definition_dump : pydict) : res exc Z :=
  match definition_dump with
  | [] => Ok _default_loop_limit
  | _ =>
      let limits := match dict_getv "limits" definition_dump with PDict l => l | _ => [] end in
      match dict_getv "max_loop_iterations" limits with
      | PNone => Ok _default_loop_limit
      | raw =>
          let! n := match py_int int_of_string raw with
                    | Err PyTypeError | Err PyValueError => Ok _default_loop_limit
                    | r => r
                    end in
          Ok (if (n <? 1)%Z then _default_loop_limit else n)
      end
  end.

(** [max_steps]. *)
Definition max_steps (plan : ExecutionPlan) (loop_limit : Z) : nat :=
  let edge_count := match length (concat (adjacency_map plan).*2) with 0 => 1 | n => n end in
  Z.to_nat (Z.max
    (Z.of_nat (length (ordered_nodes plan) + edge_count + 2))
    (loop_limit * Z.of_nat (Nat.max (length (adjacency_map plan)) 1) + 2)).

(** ** The user-context gate *)

Definition USER_CONTEXT_READ_GATE_STATE_KEY : string := "user_context_enrichment".

(** [str(v)] is the identity on strings; [py_str] prints other values. *)
Definition gate_state (py_str : pyval -> string) (definition_dump state : pydict) : pydict :=
  match dict_getv "user_context_enrichment" definition_dump with
  | PDict policy =>
      if truthy (dict_getv "enabled" policy) then
        let handle := match dict_getv USER_CONTEXT_READ_GATE_STATE_KEY state with
                      | PDict h => h | _ => [] end in
        let mode := if truthy (dict_getv "gating" policy) then "GATED" else "LEGACY" in
        let merged := [
          ("enabled", PBool true);
          ("published", PBool (truthy (default (PBool false) (dict_get "published" handle))));
          ("published_by_node_id", dict_getv "published_by_node_id" handle);
          ("published_at", dict_getv "published_at" handle);
          ("layers", match dict_getv "layers" handle with PDict l => PDict l | _ => PDict [] end);
          ("mode", PStr (match dict_getv "mode" handle with
                         | PStr s => if String.eqb s "" then mode else s
                         | v => if truthy v then py_str v else mode
                         end))] in
        dict_set USER_CONTEXT_READ_GATE_STATE_KEY (PDict merged) state
      else state
  | _ => state
  end.

(** ** The traversal *)

Section executor.
Context {W : Type}.
Variable uuid_parse : string -> option uuid.
Variable uuid_str : uuid -> string.
Variable construct : NodeType -> res exc unit.
Variable execute : NodeType -> ExecutionContext -> pyval -> M (@env W) NodeResult.
Variable dump_result : NodeResult -> pyval.
Variable same : pyval -> pyval -> bool.
Variable use_hook traced : bool.
Variable batch_size : nat.

(** [format_exception]: no exception of the model carries field errors or input
    data. *)
Definition format_exception (reason : string) (correlation : uuid) (e : exc) : pyval :=
  PDict [("correlation_id", PStr (uuid_str correlation)); ("reason", PStr reason);
         ("code", PStr (exc_code e)); ("message", PStr (exc_message e));
         ("errors", PList []); ("input_data", PDict [])].

(** [metadata["runtime_policy"]["memory_extraction"]], when it is a dict. *)
Definition memory_extraction_config (c : ExecutionContext) : pyval :=
  match dict_getv "runtime_policy" (metadata c) with
  | PDict p => match dict_getv "memory_extraction" p with PDict m => PDict m | _ => PNone end
  | _ => PNone
  end.

(** [_complete_flow]. *)
Definition _complete_flow (c : ExecutionContext) (node_run : option uuid) (node_data : pydict) :
    M (@env W) unit :=
  let f := flow_run_id c in
  repo (complete_flow_run f (flow_status_str FR_COMPLETED) (PDict node_data)) ;;*
  repo (set_current_interaction_result_for_flow_run f (PDict node_data) node_run) ;;*
  emit use_hook batch_size c "FlowCompleted"
    (PDict [("terminated_at", PStr (current_node_id c)); ("payload", PDict node_data);
            ("memory_extraction_config", memory_extraction_config c)]) None None.

(** [_fail_flow]. *)
Definition _fail_flow (c : ExecutionContext) (reason : FlowFailureReason) (e : option exc) :
    M (@env W) unit :=
  let value := failure_reason_value reason in
  let e := default (DomainValidationException value) e in
  repo (fail_flow_run (flow_run_id c) value (format_exception value (correlation_id c) e)) ;;*
  emit use_hook batch_size c "FlowFailed" (PDict [("reason", PStr value)]) None None.

(** The writes of a pause. *)
Definition pause_flow (c : ExecutionContext) (oc : NodeStepOutcome) : M (@env W) unit :=
  let f := flow_run_id c in
  repo (set_flow_run_output f (PDict (oc_node_data oc))) ;;*
  repo (set_current_interaction_result_for_flow_run f (PDict (oc_node_data oc)) (oc_node_run oc)) ;;*
  repo (set_flow_run_status f (run_status_str RS_WAITING_INPUT) (flow_status_str FR_WAITING)).

(** The [for _ in range(max_steps)] loop and what follows it. *)
Fixpoint traverse (budget : nat) (plan : ExecutionPlan) (loop_limit : Z) (c : ExecutionContext) :
    M (@env W) unit :=
  match budget with
  | 0 => _fail_flow c MAX_STEPS_EXCEEDED None
  | S budget =>
      let* oc := run_step uuid_parse construct execute dump_result same use_hook traced
                   batch_size plan loop_limit c in
      let c := oc_context oc in
      match oc_status oc with
      | FAILED => _fail_flow c (default STRUCTURAL_ERROR (oc_reason oc)) (oc_exception oc)
      | STEP_NEEDS_INPUT => pause_flow c oc
      | TERMINAL => _complete_flow c (oc_node_run oc) (oc_node_data oc)
      | ADVANCE => traverse budget plan loop_limit c
      end
  end.

(** The flow run's arguments that [run] copies into the context. *)
Record run_args : Type := {
  ra_tenant : uuid;
  ra_session : uuid;
  ra_input : pyval;
  ra_flow_run : uuid;
  ra_correlation : uuid;
  ra_user : option string;
  ra_start : option string;
  ra_state : pydict;
  ra_memory : list pyval;
  ra_policy : pydict;
}.

Variable int_of_string : string -> option Z.
Variable py_str : pyval -> string.

(** The initial context. *)
Definition initial_context (plan : ExecutionPlan) (a : run_args) (user : string) : ExecutionContext := {|
  tenant_id := ra_tenant a; user_id := user; session_id := ra_session a;
  input_payload := ra_input a; flow_run_id := ra_flow_run a; correlation_id := ra_correlation a;
  current_node_id := match ra_start a with
                     | Some ((String _ _) as n) => n
                     | _ => start_node_id plan
                     end;
  current_node_run_id := None;
  state := gate_state py_str (ra_policy a) (ra_state a);
  memory := ra_memory a;
  metadata := match ra_policy a with [] => [] | p => [("runtime_policy", PDict p)] end;
  node_output := [];
  system_prompt := None; system_context := None; context_tools := available_tools plan |}.

(** [RuntimeExecutor.run]: a fresh context has empty iteration counters. *)
Definition run (plan : ExecutionPlan) (a : run_args) : M (@env W) unit :=
  let* lim := mlift (loop_limit_of int_of_string (ra_policy a)) in
  match ra_user a with
  | None => mraise (DomainValidationException "user_id_required")
  | Some user =>
      mmodify (fun e => set_loops ∅ [] e) ;;*
      traverse (max_steps plan lim) plan lim (initial_context plan a user)
  end.
End executor.

(** ** Termination measures *)

(** Sums over a list of keys. *)
Definition total {A} (f : A -> nat) (l : list A) : nat := foldr (fun x n => f x + n) 0 l.

Lemma total_le {A} (f g : A -> nat) l : (forall x, x ∈ l -> f x <= g x) -> total f l <= total g l.
Proof.
  induction l as [|x l IH]; intros H; simpl; [done|].
  pose proof (H x ltac:(left)). specialize (IH (fun y Hy => H y ltac:(by right))). lia.
Qed.

Lemma total_lt {A} (f g : A -> nat) l y :
  (forall x, x ∈ l -> f x <= g x) -> y ∈ l -> f y < g y -> total f l < total g l.
Proof.
  induction l as [|x l IH]; intros H Hy Hlt; [by apply elem_of_nil in Hy|]. simpl.
  pose proof (H x ltac:(left)) as Hx.
  pose proof (total_le f g l (fun z Hz => H z ltac:(by right))) as Hl.
  apply elem_of_cons in Hy as [->|Hy]; [lia|].
  specialize (IH (fun z Hz => H z ltac:(by right)) Hy Hlt). lia.
Qed.

Lemma total_bound {A} (f : A -> nat) l b : (forall x, x ∈ l -> f x <= b) -> total f l <= length l * b.
Proof.
  induction l as [|x l IH]; intros H; simpl; [done|].
  pose proof (H x ltac:(left)). specialize (IH (fun y Hy => H y ltac:(by right))). lia.
Qed.

Lemma filter_length_le {A} (P Q : A -> Prop) `{DP : !forall x, Decision (P x), DQ : !forall x, Decision (Q x)} l :
  (forall x, P x -> Q x) -> length (filter P l) <= length (filter Q l).
Proof.
  intros H. induction l as [|x l IH]; [done|]. rewrite !filter_cons.
  destruct (decide (P x)), (decide (Q x)); simpl; (lia || naive_solver).
Qed.

Lemma filter_length_lt {A} (P Q : A -> Prop) `{DP : !forall x, Decision (P x), DQ : !forall x, Decision (Q x)} l y :
  (forall x, P x -> Q x) -> y ∈ l -> Q y -> ~ P y -> length (filter P l) < length (filter Q l).
Proof.
  intros H Hy HQ HP. induction l as [|x l IH]; [by apply elem_of_nil in Hy|].
  rewrite !filter_cons. apply elem_of_cons in Hy as [->|Hy].
  - rewrite decide_False, decide_True by done. simpl. pose proof (filter_length_le P Q l H). lia.
  - specialize (IH Hy). destruct (decide (P x)), (decide (Q x)); simpl; (lia || naive_solver).
Qed.

(** ** Traversals of compiled plans *)

Section traversal.
Context {W : Type}.
Variable uuid_parse : string -> option uuid.
Variable uuid_str : uuid -> string.
Variable construct : NodeType -> res exc unit.
Variable execute : NodeType -> ExecutionContext -> pyval -> M (@env W) NodeResult.
Variable dump_result : NodeResult -> pyval.
Variable same : pyval -> pyval -> bool.
Variable use_hook traced : bool.
Variable batch_size : nat.
Context `{Laws : !ExecutorLaws execute}.

Abbreviation traverse_ := (traverse uuid_parse uuid_str construct execute dump_result same
                             use_hook traced batch_size).
Abbreviation run_step_ :=
  (run_step uuid_parse construct execute dump_result same use_hook traced batch_size).

(** What happens to a flow run over a traversal: exactly one of the three final
    writes. *)
Inductive flow_result (r : flow_run) : flow_run -> Prop :=
  | result_completed out :
      flow_result r (with_status "COMPLETED" "COMPLETED" (with_result out (fr_error r) true r))
  | result_failed err :
      flow_result r (with_status "FAILED" "FAILED" (with_result (fr_output r) err true r))
  | result_waiting out :
      flow_result r (with_status "WAITING_INPUT" "WAITING"
        (with_result out (fr_error r) (fr_finished r) r)).

Lemma flow_runs_emit c ty p n ed (e : @env W) :
  flow_runs (db (emit use_hook batch_size c ty p n ed e).2) = flow_runs (db e).
Proof. apply (emit_keeps use_hook batch_size flow_runs c ty p n ed e). Qed.

(** The three endings, as changes of the flow-run table. *)
Definition ended (f : uuid) (e e' : @env W) : Prop :=
  exists g, flow_runs (db e') = alter g f (flow_runs (db e)) /\ forall r, flow_result r (g r).

Lemma fail_flow_ended c reason er e e' :
  _fail_flow (W := W) uuid_str use_hook batch_size c reason er e = (Ok tt, e') ->
  ended (flow_run_id c) e e'.
Proof.
  unfold _fail_flow. intros ([] & e1 & H1 & H2)%mbind_ok. injection H1 as <-.
  apply (f_equal snd) in H2. simpl in H2. subst e'. unfold ended. rewrite flow_runs_emit.
  eexists. split; [reflexivity|]. intros r. apply result_failed.
Qed.

Lemma interaction_result_flows f out nr (e e' : @env W) :
  repo (set_current_interaction_result_for_flow_run f out nr) e = (Ok tt, e') ->
  flow_runs (db e') = flow_runs (db e).
Proof. intros [= <-]. simpl. by destruct (flow_runs (db e) !! f ≫= fr_interaction). Qed.

Lemma complete_flow_ended c nr d e e' :
  _complete_flow (W := W) use_hook batch_size c nr d e = (Ok tt, e') -> ended (flow_run_id c) e e'.
Proof.
  unfold _complete_flow. intros ([] & e1 & H1 & H)%mbind_ok. injection H1 as <-.
  apply mbind_ok in H as ([] & e2 & H2%interaction_result_flows & H3).
  apply (f_equal snd) in H3. simpl in H3. subst e'. unfold ended. rewrite flow_runs_emit, H2.
  eexists. split; [reflexivity|]. intros r. apply result_completed.
Qed.

Lemma alter_alter {A} (f g : A -> A) (k : uuid) (m : gmap uuid A) :
  alter f k (alter g k m) = alter (fun x => f (g x)) k m.
Proof.
  apply map_eq. intros i. destruct (decide (i = k)) as [->|Hne].
  - rewrite !lookup_alter_eq. by destruct (m !! k).
  - by rewrite !lookup_alter_ne.
Qed.

Lemma pause_flow_ended c oc e e' :
  pause_flow (W := W) c oc e = (Ok tt, e') -> ended (flow_run_id c) e e'.
Proof.
  unfold pause_flow. intros ([] & e1 & H1 & H)%mbind_ok. injection H1 as <-.
  apply mbind_ok in H as ([] & e2 & H2%interaction_result_flows & H3). injection H3 as <-.
  unfold ended. simpl. rewrite H2. simpl. rewrite alter_alter.
  eexists. split; [reflexivity|]. intros r. apply result_waiting.
Qed.

Lemma traverse_ended n plan lim c e e' :
  traverse_ n plan lim c e = (Ok tt, e') -> ended (flow_run_id c) e e'.
Proof using Laws.
  revert c e. induction n as [|n IH]; intros c e; simpl; [apply fail_flow_ended|].
  intros (oc & e1 & H1 & H)%mbind_ok. pose proof (run_step_flow _ _ _ _ _ _ _ _ _ _ _ _ _ _ H1) as Hf.
  apply (respects_run (keeps flow_runs)) in H1; [|by apply run_step_keeps].
  unfold keeps in H1. unfold ended. rewrite <- H1, <- Hf.
  destruct (oc_status oc); [by apply IH | by eapply complete_flow_ended
    | by eapply pause_flow_ended | by eapply fail_flow_ended].
Qed.

(** [C1] A traversal ends the flow run exactly once.  Whenever the loop returns,
    the flow run of the context has been completed, failed or set to waiting by a
    single final write, every other flow run is untouched, and no intermediate
    status was written. *)
Theorem traverse_ends_flow n plan lim c e e' r :
  flow_runs (db e) !! flow_run_id c = Some r ->
  traverse_ n plan lim c e = (Ok tt, e') ->
  exists r', flow_result r r' /\
    flow_runs (db e') = <[flow_run_id c := r']> (flow_runs (db e)).
Proof using Laws.
  intros Hr (g & Hg & Hres)%traverse_ended. exists (g r). split; [done|].
  rewrite Hg. apply map_eq. intros i. destruct (decide (i = flow_run_id c)) as [->|Hne].
  - by rewrite lookup_alter_eq, lookup_insert_eq, Hr.
  - by rewrite lookup_alter_ne, lookup_insert_ne.
Qed.

(** *** Termination *)

Section bounded.
Variable snapshot : Snapshot.
Variable plan : ExecutionPlan.
Hypothesis plan_ok : plan_wf snapshot plan.
Variable lim : Z.
Hypothesis lim_ok : (0 <= lim)%Z.

(** The distinct loop edges of the plan, by counter key. *)
Definition loop_keys_of (p : ExecutionPlan) : list string :=
  remove_dups (edge_key <$> filter (fun ce => ce_kind ce = LOOP) (concat (adjacency_map p).*2)).

Variable rank : string -> nat.
Hypothesis rank_ok : forall u ce, u ∈ ordered_nodes plan ->
  ce ∈ adj_get (adjacency_map plan) u -> ce_kind ce = NORMAL -> rank (ce_to ce) < rank u.

(** Nodes below the current one. *)
Definition below (u : string) : nat := length (filter (fun x => rank x < rank u) (ordered_nodes plan)).

(** Iterations the loop edges have left. *)
Definition left_over (e : @env W) : nat :=
  total (fun k => Z.to_nat (lim - count e k)) (loop_keys_of plan).

Definition potential (e : @env W) (u : string) : nat :=
  left_over e * length (ordered_nodes plan) + below u.

Lemma below_lt u : u ∈ ordered_nodes plan -> below u < length (ordered_nodes plan).
Proof.
  intros Hu. unfold below.
  pose proof (filter_length_lt (fun x => rank x < rank u) (fun _ => True) (ordered_nodes plan) u
    ltac:(done) Hu I (Nat.lt_irrefl _)) as H.
  pose proof (length_filter (fun _ => True) (ordered_nodes plan)). lia.
Qed.

(** Every step that moves on decreases the potential. *)
Lemma advance_potential c e oc e' :
  current_node_id c ∈ ordered_nodes plan -> (forall k, count e k <= lim)%Z ->
  advances same plan lim c e oc e' ->
  current_node_id (oc_context oc) ∈ ordered_nodes plan /\ (forall k, count e' k <= lim)%Z /\
  potential e' (current_node_id (oc_context oc)) < potential e (current_node_id c).
Proof using plan_ok rank_ok.
  intros Hu Hlim [_ Hen _ _ _ Hcnt Hloops]. set (u := current_node_id c) in *.
  set (v := current_node_id (oc_context oc)) in *.
  assert (exists ce, ce ∈ adj_get (adjacency_map plan) u /\ ce_from ce = u /\ ce_to ce = v)
    as (ce & Hce & Hfrom & Hto).
  { assert (Hv : v ∈ enabled same plan u (oc_node_data oc)) by (rewrite Hen; left).
    apply list_elem_of_fmap in Hv as (ce & -> & [_ Hin]%list_elem_of_filter).
    unfold outgoing in Hin. apply list_elem_of_filter in Hin as [? ?]. by exists ce. }
  assert (Hv : v ∈ ordered_nodes plan).
  { apply (pw_reach _ _ plan_ok). apply (pw_reach _ _ plan_ok) in Hu.
    eapply rtc_r; [exact Hu|]. by exists ce. }
  split; [done|]. split; [intros k; destruct (Hcnt k) as [_ [-> | ?]]; [apply Hlim | done]|].
  assert (Hmono : left_over e' <= left_over e).
  { apply total_le. intros k _. destruct (Hcnt k). lia. }
  pose proof (below_lt v Hv) as Hbv. unfold potential.
  destruct (decide (Exists (fun x => ce_kind x = LOOP) (outgoing (adj_get (adjacency_map plan) u) u)))
    as [Hex|Hnone].
  - apply Exists_exists in Hex as (l & Hl & Hk). specialize (Hloops l Hl Hk).
    assert (left_over e' < left_over e); [|nia].
    apply (total_lt _ _ _ (edge_key l)); [intros k _; destruct (Hcnt k); lia| |].
    + apply elem_of_remove_dups, list_elem_of_fmap_2, list_elem_of_filter. split; [done|].
      apply list_elem_of_filter in Hl as [_ Hl]. by eapply adj_get_values.
    + destruct (Hcnt (edge_key l)). specialize (Hlim (edge_key l)). lia.
  - assert (Hk : ce_kind ce = NORMAL).
    { destruct (ce_kind ce) eqn:Hk; [done|]. destruct Hnone. apply Exists_exists. exists ce.
      split; [|done]. by apply list_elem_of_filter. }
    pose proof (rank_ok u ce Hu Hce Hk) as Hr. rewrite Hto in Hr.
    assert (below v < below u); [|nia]. unfold below.
    eapply (filter_length_lt _ _ _ v); [intros x ?; lia | done | done | lia].
Qed.

Lemma traverse_budget n c e j :
  current_node_id c ∈ ordered_nodes plan -> (forall k, count e k <= lim)%Z ->
  potential e (current_node_id c) < n ->
  traverse_ (n + j) plan lim c e = traverse_ n plan lim c e.
Proof using plan_ok rank_ok Laws.
  revert c e. induction n as [|n IH]; intros c e Hu Hlim Hn; [lia|].
  cbn [traverse Nat.add]. unfold mbind_.
  destruct (run_step_ plan lim c e) as [[oc|er] e1] eqn:H1; [|done].
  pose proof (run_step_spec _ _ _ _ _ _ _ _ _ _ _ _ _ _ H1) as Hspec.
  unfold outcome_spec in Hspec. destruct (oc_status oc); try done.
  destruct (advance_potential c e oc e1 Hu Hlim Hspec) as (Hu' & Hlim' & Hpot).
  apply IH; [done..|]. lia.
Qed.

(** A bound that depends on the plan only. *)
Definition step_bound : nat :=
  (length (loop_keys_of plan) * Z.to_nat lim + 1) * length (ordered_nodes plan).

Lemma potential_bound e u :
  u ∈ ordered_nodes plan -> (forall k, 0 <= count e k)%Z -> potential e u < step_bound.
Proof using lim_ok.
  intros Hu H0. unfold potential, step_bound.
  assert (Hb : left_over e <= length (loop_keys_of plan) * Z.to_nat lim).
  { apply total_bound. intros k _. specialize (H0 k). lia. }
  pose proof (below_lt u Hu). nia.
Qed.
End bounded.

Lemma count_empty (e : @env W) k : counters e = ∅ -> count e k = 0%Z.
Proof. intros H. unfold count. by rewrite H, lookup_empty. Qed.

(** [C25] Loops are bounded by their counters.  On a compiled plan a traversal takes
    at most [(L * limit + 1) * N] steps, for [L] distinct loop edges and [N] nodes:
    any larger step budget gives the same run, so the loop limit alone makes every
    traversal end. *)
Theorem traversal_terminates snapshot plan lim c e n :
  plan_wf snapshot plan -> (0 <= lim)%Z -> counters e = ∅ ->
  current_node_id c ∈ ordered_nodes plan -> step_bound plan lim <= n ->
  traverse_ n plan lim c e = traverse_ (step_bound plan lim) plan lim c e.
Proof using Laws.
  intros Hwf Hlim He Hu Hn. destruct (pw_rank _ _ Hwf) as [rank Hrank].
  replace n with (step_bound plan lim + (n - step_bound plan lim)) by lia.
  eapply traverse_budget; [done|exact Hrank|done| |].
  - intros k. by rewrite count_empty.
  - apply potential_bound; [done..|]. intros k. by rewrite count_empty.
Qed.

(** Acyclic plans never run out of steps.  When the plan has no loop edge the
    executor's step budget does not influence the run: [MAX_STEPS_EXCEEDED] is never
    its failure reason. *)
Theorem acyclic_budget_irrelevant snapshot plan lim c e j :
  plan_wf snapshot plan -> (0 <= lim)%Z -> counters e = ∅ ->
  current_node_id c ∈ ordered_nodes plan ->
  (forall ce, ce ∈ concat (adjacency_map plan).*2 -> ce_kind ce = NORMAL) ->
  traverse_ (max_steps plan lim + j) plan lim c e = traverse_ (max_steps plan lim) plan lim c e.
Proof using Laws.
  intros Hwf Hlim He Hu Hnone. destruct (pw_rank _ _ Hwf) as [rank Hrank].
  eapply traverse_budget; [done|exact Hrank|done| |].
  - intros k. by rewrite count_empty.
  - pose proof (potential_bound plan lim Hlim rank e _ Hu) as Hp.
    specialize (Hp ltac:(intros k; by rewrite count_empty)). unfold step_bound in Hp.
    assert (loop_keys_of plan = []) as Hk.
    { unfold loop_keys_of. replace (filter _ _) with (@nil CompiledEdge); [done|]. symmetry.
      apply elem_of_nil_inv. intros ce [Hce Hin]%list_elem_of_filter.
      rewrite (Hnone ce Hin) in Hce. done. }
    rewrite Hk in Hp. simpl in Hp. unfold max_steps. lia.
Qed.
End traversal.

(** ** Statuses against the canonical lifecycles *)

(** The runtime's status writes against the canonical lifecycles.  The end of
    a traversal moves a running flow run along an allowed transition, whatever the
    ending.  A node run that is running moves along an allowed transition exactly
    when its node did not ask for input: a pause writes PENDING over RUNNING, which
    the canonical node lifecycle does not have. *)
Theorem status_writes_canonical :
  (forall r r', flow_result r r' ->
     exists t, fr_canonical r' = flow_status_str t /\ validate_flow FR_RUNNING t = Ok tt) /\
  (forall s, validate_node NR_RUNNING (_map_status s) = Ok tt <-> s <> NEEDS_INPUT).
Proof.
  split.
  - intros r r' []; [exists FR_COMPLETED | exists FR_FAILED | exists FR_WAITING]; done.
  - intros []; split; done.
Qed.

(** ** Concrete traversals *)

Abbreviation demo_traverse d :=
  (traverse (W := unit) (fun _ => Some 1%N) (fun _ => "uuid") (fun _ => Ok tt) (demo_execute d)
     (fun _ => PNone) (fun _ _ => true) true true 20).

Definition snapshot_of (parse : string -> option EdgeEvaluator.ast) (d : FlowGraphDefinition) : Snapshot :=
  match compile_snapshot parse (fun _ => "digest") d with
  | Ok (s, _) => s
  | Err _ => {| sn_start := None; sn_nodes := []; sn_edges := [] |}
  end.

Lemma demo_plan_wf : plan_wf (snapshot_of demo_parse demo_graph) demo_plan.
Proof. apply (compile_wf _ "digest" None). vm_compute. reflexivity. Qed.

Lemma traverse_ends_flow_witness :
  exists r' e', flow_result demo_flow r' /\
    demo_traverse demo_output 30 demo_plan 10 demo_context demo_env = (Ok tt, e') /\
    flow_runs (db e') = <[7%N := r']> (flow_runs (db demo_env)).
Proof.
  destruct (demo_traverse demo_output 30 demo_plan 10 demo_context demo_env) as [[[]|er] e'] eqn:H;
    [|vm_compute in H; discriminate].
  destruct (traverse_ends_flow (fun _ => Some 1%N) (fun _ => "uuid") (fun _ => Ok tt)
    (demo_execute demo_output) (fun _ => PNone) (fun _ _ => true) true true 20 30 demo_plan 10
    demo_context demo_env e' demo_flow ltac:(reflexivity) H) as (r' & Hr' & He').
  exists r', e'. split; [exact Hr'|]. split; [reflexivity | exact He'].
Defined.

Lemma traversal_terminates_witness :
  demo_traverse demo_output 1000 demo_plan 10 demo_context demo_env =
  demo_traverse demo_output (step_bound demo_plan 10) demo_plan 10 demo_context demo_env.
Proof.
  apply (traversal_terminates (fun _ => Some 1%N) (fun _ => "uuid") (fun _ => Ok tt)
    (demo_execute demo_output) (fun _ => PNone) (fun _ _ => true) true true 20
    (snapshot_of demo_parse demo_graph)).
  - exact demo_plan_wf.
  - lia.
  - reflexivity.
  - apply (bool_decide_unpack _). vm_compute. exact I.
  - apply Nat.leb_le. vm_compute. reflexivity.
Defined.

Definition plain_plan : ExecutionPlan :=
  match publish demo_parse plain_graph with Ok p => p | Err _ => demo_plan end.

Definition plain_context : ExecutionContext := advance_to "s" [] [] [] demo_context.

Lemma acyclic_budget_irrelevant_witness :
  demo_traverse demo_output (max_steps plain_plan 10 + 5) plain_plan 10 plain_context demo_env =
  demo_traverse demo_output (max_steps plain_plan 10) plain_plan 10 plain_context demo_env.
Proof.
  apply (acyclic_budget_irrelevant (fun _ => Some 1%N) (fun _ => "uuid") (fun _ => Ok tt)
    (demo_execute demo_output) (fun _ => PNone) (fun _ _ => true) true true 20
    (snapshot_of demo_parse plain_graph)).
  - apply (compile_wf _ "digest" None). vm_compute. reflexivity.
  - lia.
  - reflexivity.
  - apply (bool_decide_unpack _). vm_compute. exact I.
  - apply Forall_forall. vm_compute. repeat constructor.
Defined.

(** A chain that is re-entered from two loop edges in turn. *)
Definition two_loops : FlowGraphDefinition := {|
  start_node := "a1";
  nodes := [("a1", demo_spec "IntentClassifier"); ("a2", demo_spec "IntentClassifier");
            ("a3", demo_spec "IntentClassifier"); ("a4", demo_spec "IntentClassifier");
            ("a5", demo_spec "IntentClassifier"); ("a6", demo_spec "ToolResolver");
            ("c1", demo_spec "QueryClarifier"); ("c2", demo_spec "QueryClarifier");
            ("t", demo_spec "ResponseBuilder")];
  edges := [demo_edge "a1" "a2" "go" NORMAL; demo_edge "a2" "a3" "go" NORMAL;
            demo_edge "a3" "a4" "go" NORMAL; demo_edge "a4" "a5" "go" NORMAL;
            demo_edge "a5" "a6" "go" NORMAL; demo_edge "a6" "c1" "even" NORMAL;
            demo_edge "a6" "c2" "odd" NORMAL; demo_edge "c1" "a1" "more" LOOP;
            demo_edge "c1" "t" "done" NORMAL; demo_edge "c2" "a1" "more" LOOP;
            demo_edge "c2" "t" "done" NORMAL] |}.

Definition two_loops_plan : ExecutionPlan :=
  match publish demo_parse two_loops with Ok p => p | Err _ => demo_plan end.

(** Executors that count the rounds: the fourth is the last. *)
Definition round_execute (t : NodeType) (_ : ExecutionContext) (_ : pyval) : M (@env nat) NodeResult :=
  fun e =>
    let n := world e in
    let out := [("go", PBool true); ("even", PBool (Nat.even n)); ("odd", PBool (Nat.odd n));
                ("more", PBool (n <? 4)); ("done", PBool (4 <=? n))] in
    let next := match t with ToolResolver => S n | _ => n end in
    (Ok (demo_result out),
     {| db := db e; world := next; counters := counters e; loop_keys := loop_keys e |}).

Definition round_args : run_args := {|
  ra_tenant := 1; ra_session := 1; ra_input := PDict []; ra_flow_run := 7; ra_correlation := 1;
  ra_user := Some "ana"; ra_start := None; ra_state := []; ra_memory := [];
  ra_policy := [("limits", PDict [("max_loop_iterations", PInt 3)])] |}.

Definition round_env : @env nat :=
  {| db := demo_store; world := 0; counters := ∅; loop_keys := [] |}.

Definition round_run : M (@env nat) unit :=
  run (fun _ => Some 1%N) (fun _ => "uuid") (fun _ => Ok tt) round_execute (fun _ => PNone)
    (fun _ _ => true) true true 20 (fun _ => None) (fun _ => "") two_loops_plan round_args.

Definition round_traverse (n : nat) : M (@env nat) unit :=
  traverse (fun _ => Some 1%N) (fun _ => "uuid") (fun _ => Ok tt) round_execute (fun _ => PNone)
    (fun _ _ => true) true true 20 n two_loops_plan 3
    (initial_context (fun _ => "") two_loops_plan round_args "ana").

Definition final_status (r : res exc unit * @env nat) : option (string * pyval) :=
  (fun f => (fr_status f, match fr_error f with PDict d => dict_getv "reason" d | _ => PNone end))
    <$> flow_runs (db r.2) !! 7%N.

(** The step budget is tighter than the loop limits.  With two loop edges into
    a shared chain, a run that takes each loop edge at most twice under a limit of
    three is failed with [MAX_STEPS_EXCEEDED]; with a larger budget the same run
    completes within the loop limit. *)
Theorem budget_cuts_loops :
  final_status (round_run round_env) = Some ("FAILED", PStr "MAX_STEPS_EXCEEDED") /\
  count (round_run round_env).2 "c1->a1" = 2%Z /\ count (round_run round_env).2 "c2->a1" = 1%Z /\
  final_status (round_traverse 40 round_env) = Some ("COMPLETED", PNone) /\
  (count (round_traverse 40 round_env).2 "c1->a1" <= 3)%Z /\
  (count (round_traverse 40 round_env).2 "c2->a1" <= 3)%Z.
Proof. repeat split; vm_compute; (reflexivity || discriminate). Qed.
