(* ===== verification/Temporal.v ===== *)
(** * Temporal: durable execution of a flow run

    [src/src/adapters/temporal/]: the data passed between workflow and activities
    ([dtos.py]), the activities ([activities.py]) and the workflow that interprets a
    plan ([workflow.py]).  Each node runs in an activity of its own, which reloads
    the context from the stored checkpoint; loop counters and the step budget live in
    the workflow.

    The Temporal service itself is outside the program.  Of its behaviour the model
    has what the workflow relies on: an activity that raises is attempted again, up
    to its policy's maximum and unless the exception's type is non-retryable; the
    last exception reaches the workflow. *)

From S2P Require Import Prelude.
From S2P Require Import Errors.
From S2P Require Import PyValue.
From S2P Require Import StateMachine.
From S2P Require Import FlowGraph.
From S2P Require Import DraftGraph.
From S2P Require Import GraphCompiler.
From S2P Require Import Effects.
From S2P Require Import Store.
From S2P Require Import NodeStep.
From S2P Require Import Executor.

(** ** Data *)

Inductive OutcomeLiteral : Type := OC_COMPLETED | OC_WAITING | OC_FAILED | OC_CANCELLED.

Definition outcome_value (o : OutcomeLiteral) : string :=
  match o with
  | OC_COMPLETED => "COMPLETED" | OC_WAITING => "WAITING"
  | OC_FAILED => "FAILED" | OC_CANCELLED => "CANCELLED"
  end.

Definition WORKFLOW_ID_PREFIX : string := "flow-run-".

(** [workflow_id_for]; [int_str] prints the turn number. *)
Definition workflow_id_for (int_str : Z -> string) (flow_run_id : string) (turn_index : Z) : string :=
  if (turn_index <=? 0)%Z then WORKFLOW_ID_PREFIX +:+ flow_run_id
  else WORKFLOW_ID_PREFIX +:+ flow_run_id +:+ "-t" +:+ int_str turn_index.

Record FlowRunWorkflowInput : Type := {
  wi_flow_run : string;
  wi_tenant : string;
  wi_session : string;
  wi_user : string;
  wi_flow : string;
  wi_version : string;
  wi_interaction : string;
  wi_correlation : string;
  wi_trace : option string;
  wi_start : option string;
  wi_idempotency : option string;
  wi_turn : Z;
}.

Record FlowRunPlanSummary : Type := {
  ps_start : string;
  ps_max_steps : nat;
  ps_loop_limit : Z;
  ps_node_count : nat;
  ps_max_node_duration_ms : Z;
  ps_max_total_duration_ms : Z;
  ps_llm_max_retries : Z;
  ps_tools_max_retries : Z;
}.

Record ExecuteNodeInput : Type := {
  en_flow_run : string;
  en_tenant : string;
  en_flow : string;
  en_node : string;
  en_step : nat;
  en_loop_limit : Z;
}.

(** The status literals are those of [NodeExecutionStatus]. *)
Record ExecuteNodeOutput : Type := {
  eo_node_type : string;
  eo_node_run : option string;
  eo_status : NodeExecutionStatus;
  eo_terminal : bool;
  eo_next : option string;
  eo_loop_keys : list string;
  eo_failure : option string;
  eo_resume : option string;
}.

Record FinalizeFlowRunInput : Type := {
  fi_flow_run : string;
  fi_tenant : string;
  fi_session : string;
  fi_user : string;
  fi_correlation : string;
  fi_outcome : OutcomeLiteral;
  fi_failure : option string;
  fi_last_node : option string;
  fi_last_node_run : option string;
  fi_idempotency : option string;
}.

Record FlowRunWorkflowResult : Type := {
  wr_flow_run : string;
  wr_outcome : OutcomeLiteral;
  wr_failure : option string;
  wr_steps : nat;
}.

(** [GraphStateSnapshot] ([schemas/graph_state.py]). *)
Record GraphStateSnapshot : Type := {
  ss_current : option string;
  ss_resume : option string;
  ss_state : pydict;
  ss_memory : list pyval;
  ss_metadata : pydict;
}.

Definition field_str (k : string) (d : pydict) : res exc (option string) :=
  match dict_getv k d with
  | PNone => Ok None
  | PStr s => Ok (Some s)
  | _ => Err PydanticValidationError
  end.

Definition field_dict (k : string) (d : pydict) : res exc pydict :=
  match dict_get k d with
  | None => Ok []
  | Some (PDict x) => Ok x
  | Some _ => Err PydanticValidationError
  end.

Definition is_dict (v : pyval) : bool := match v with PDict _ => true | _ => false end.

(** [GraphStateSnapshot.model_validate(v)]. *)
Definition snapshot_validate (v : pyval) : res exc GraphStateSnapshot :=
  match v with
  | PDict d =>
      let! cur := field_str "current_node_id" d in
      let! resume := field_str "resume_to_node_id" d in
      let! st := field_dict "state" d in
      let! mem := match dict_get "memory" d with
                  | None => Ok []
                  | Some (PList l) => if forallb is_dict l then Ok l else Err PydanticValidationError
                  | Some _ => Err PydanticValidationError
                  end in
      let! md := field_dict "metadata" d in
      Ok {| ss_current := cur; ss_resume := resume; ss_state := st; ss_memory := mem;
            ss_metadata := md |}
  | _ => Err PydanticValidationError
  end.

(** ** Limits *)

Definition DEFAULT_LOOP_LIMIT : Z := 10.
Definition DEFAULT_MAX_NODE_DURATION_MS : Z := 30000.
Definition DEFAULT_MAX_TOTAL_DURATION_MS : Z := 120000.
Definition DEFAULT_MAX_RETRIES : Z := 3.

(** [_positive_int]. *)
Definition _positive_int (int_of_string : string -> option Z) (raw : pyval) (fallback : Z) :
    res exc Z :=
  match raw with
  | PNone => Ok fallback
  | _ =>
      match py_int int_of_string raw with
      | Err PyTypeError | Err PyValueError => Ok fallback
      | Err e => Err e
      | Ok value => Ok (if (1 <=? value)%Z then value else fallback)
      end
  end.

(** [x if isinstance(x, dict) else {}]. *)
Definition dict_or_empty (v : pyval) : pydict := match v with PDict d => d | _ => [] end.

Definition failure_reasons : list FlowFailureReason :=
  [POLICY_VIOLATION; TIMEOUT; STRUCTURAL_ERROR; CIRCUIT_BREAKER_OPEN; MISSING_GRAPH;
   MAX_STEPS_EXCEEDED; NODE_NOT_FOUND; UNKNOWN_NODE_TYPE; NO_MATCHING_EDGE;
   EDGE_EVALUATION_ERROR; MULTIPLE_MATCHING_EDGES].

(** [_failure_reason]: [FlowFailureReason(raw)], or a structural error. *)
Definition _failure_reason (raw : option string) : FlowFailureReason :=
  match raw with
  | None => STRUCTURAL_ERROR
  | Some s => default STRUCTURAL_ERROR (head (filter (fun r => failure_reason_value r = s) failure_reasons))
  end.

(** A value that Python's [or] and [if] treat as present. *)
Definition nonempty (s : option string) : option string :=
  match s with Some (String _ _ as x) => Some x | _ => None end.

(** ** Retries *)

(** The type name Temporal records for an exception. *)
Definition error_type (e : exc) : string :=
  match e with
  | NotFoundServiceException _ => "NotFoundServiceException"
  | DomainValidationException _ => "DomainValidationException"
  | _ => exc_code e
  end.

Definition NON_RETRYABLE_ERROR_TYPES : list string :=
  ["DomainValidationException"; "NotFoundServiceException"; "TypeError"; "AttributeError"].

(** An activity under a retry policy with [maximum_attempts = n]. *)
Fixpoint execute_activity {S A} (n : nat) (act : M S A) : M S A :=
  match n with
  | 0 => act
  | S n =>
      mtry act (fun e =>
        if is_in (error_type e) NON_RETRYABLE_ERROR_TYPES then mraise e
        else match n with 0 => mraise e | _ => execute_activity n act end)
  end.

(** ** Activities *)

(** The node environment, the plan cache and the stored idempotency results. *)
Record tenv {W : Type} : Type := {
  te_env : @env W;
  plan_cache : gmap string ExecutionPlan;
  idempotency_results : gmap string pyval;
}.

Section activities.
Context {W : Type}.
Variable uuid_parse : string -> option uuid.
Variable uuid_str : uuid -> string.
Variable construct : NodeType -> res exc unit.
Variable execute : NodeType -> ExecutionContext -> pyval -> M (@env W) NodeResult.
Variable dump_result : NodeResult -> pyval.
Variable same : pyval -> pyval -> bool.
Variable use_hook traced : bool.
Variable batch_size : nat.
Variable int_of_string : string -> option Z.
(** [str(ApplicationError(message, type=...))]. *)
Variable application_error_str : string -> string -> string.
(** The tenant's resolved runtime policy as a JSON dict, and the rows of the graph
    snapshot table. *)
Variable resolve_policy : uuid -> uuid -> res exc pydict.
Variable snapshot_by_id : uuid -> option (Snapshot * string).
Variable snapshot_by_version : uuid -> option (Snapshot * string).

Definition with_env (v : @env W) (e : @tenv W) : @tenv W :=
  {| te_env := v; plan_cache := plan_cache e; idempotency_results := idempotency_results e |}.

(** A call into the node runtime, and one into the repository. *)
Definition in_env {A} (m : M (@env W) A) : M (@tenv W) A := fun e =>
  match m (te_env e) with (r, v) => (r, with_env v e) end.
Definition trepo {A} (m : M store A) : M (@tenv W) A := in_env (repo m).

Definition UUID_ (s : string) : res exc uuid := parse_uuid uuid_parse s.

(** [_resolve_plan].  Cached plans are stored and read back as they are. *)
Definition _resolve_plan (fr : flow_run) : M (@tenv W) ExecutionPlan :=
  let found := match fr_snapshot fr ≫= snapshot_by_id with
               | Some s => Some s
               | None => snapshot_by_version (fr_version fr)
               end in
  match found with
  | None => mraise (NotFoundServiceException "flow_graph_snapshot_not_found")
  | Some (snapshot, graph_hash) =>
      let* e := mget in
      match plan_cache e !! graph_hash with
      | Some plan => mret plan
      | None =>
          let* plan := mlift (compile snapshot graph_hash (Some [])) in
          mmodify (fun e => {| te_env := te_env e;
            plan_cache := <[graph_hash := plan]> (plan_cache e);
            idempotency_results := idempotency_results e |}) ;;*
          mret plan
      end
  end.

(** [_build_initial_context]. *)
Definition _build_initial_context (p : FlowRunWorkflowInput) (fr : flow_run) (plan : ExecutionPlan)
    (definition : pydict) : res exc ExecutionContext :=
  let! tenant := UUID_ (wi_tenant p) in
  let! _ := UUID_ (wi_interaction p) in
  let! session := UUID_ (wi_session p) in
  let! _ := UUID_ (wi_flow p) in
  let! _ := UUID_ (wi_version p) in
  let! f := UUID_ (wi_flow_run p) in
  let! correlation := UUID_ (wi_correlation p) in
  let! _ := match nonempty (wi_trace p) with
            | Some t => let! u := UUID_ t in Ok (Some u)
            | None => Ok None
            end in
  let gate := match dict_get "user_context_enrichment" definition with
              | Some (PDict policy) =>
                  if truthy (dict_getv "enabled" policy) then
                    [(USER_CONTEXT_READ_GATE_STATE_KEY, PDict [
                       ("enabled", PBool true); ("published", PBool false);
                       ("published_by_node_id", PNone); ("published_at", PNone);
                       ("layers", PDict []);
                       ("mode", PStr (if truthy (dict_getv "gating" policy) then "GATED" else "LEGACY"))])]
                  else []
              | _ => []
              end in
  Ok {| tenant_id := tenant; user_id := wi_user p; session_id := session;
        input_payload := or_empty (fr_input fr); flow_run_id := f; correlation_id := correlation;
        current_node_id := default (start_node_id plan) (nonempty (wi_start p));
        current_node_run_id := None; state := gate; memory := [];
        metadata := match definition with [] => [] | d => [("runtime_policy", PDict d)] end;
        node_output := []; system_prompt := None; system_context := None;
        context_tools := available_tools plan |}.

(** [prepare_flow_run]. *)
Definition prepare_flow_run (p : FlowRunWorkflowInput) : M (@tenv W) FlowRunPlanSummary :=
  let* f := mlift (UUID_ (wi_flow_run p)) in
  let* found := trepo (get_flow_run f) in
  match found with
  | None => mraise (NotFoundServiceException "flow_run_not_found")
  | Some fr =>
      let* plan := _resolve_plan fr in
      let* tenant := mlift (UUID_ (wi_tenant p)) in
      let* flow := mlift (UUID_ (wi_flow p)) in
      let* definition := mlift (resolve_policy tenant flow) in
      let limits := dict_or_empty (dict_getv "limits" definition) in
      let* loop_limit := mlift (_positive_int int_of_string
                                  (dict_getv "max_loop_iterations" limits) DEFAULT_LOOP_LIMIT) in
      let* existing := trepo (get_graph_state f) in
      match existing with
      | Some _ => mret tt
      | None =>
          let* c := mlift (_build_initial_context p fr plan definition) in
          trepo (upsert_graph_state f (checkpoint c (state c) (memory c) PNone) None)
      end ;;*
      trepo (set_flow_run_status f (run_status_str RS_RUNNING) (flow_status_str FR_RUNNING)) ;;*
      let llm := dict_or_empty (dict_getv "llm" definition) in
      let tools := dict_or_empty (dict_getv "tools" definition) in
      let* node_ms := mlift (_positive_int int_of_string
                        (dict_getv "max_node_duration_ms" limits) DEFAULT_MAX_NODE_DURATION_MS) in
      let* total_ms := mlift (_positive_int int_of_string
                         (dict_getv "max_total_duration_ms" limits) DEFAULT_MAX_TOTAL_DURATION_MS) in
      let* llm_retries := mlift (_positive_int int_of_string
                            (dict_getv "max_retries" llm) DEFAULT_MAX_RETRIES) in
      let* tool_retries := mlift (_positive_int int_of_string
                             (dict_getv "max_retries" tools) DEFAULT_MAX_RETRIES) in
      mret {| ps_start := default (start_node_id plan) (nonempty (wi_start p));
              ps_max_steps := max_steps plan loop_limit; ps_loop_limit := loop_limit;
              ps_node_count := length (plan_nodes plan); ps_max_node_duration_ms := node_ms;
              ps_max_total_duration_ms := total_ms; ps_llm_max_retries := llm_retries;
              ps_tools_max_retries := tool_retries |}
  end.

(** The outcome of a step as the activity reports it. *)
Definition node_output_of (oc : NodeStepOutcome) : ExecuteNodeOutput :=
  let t := default "" (oc_node_type oc) in
  let run := uuid_str <$> oc_node_run oc in
  match oc_status oc with
  | FAILED => {|
      eo_node_type := t; eo_node_run := run; eo_status := ERROR; eo_terminal := false;
      eo_next := None; eo_loop_keys := oc_loop_keys oc;
      eo_failure := Some (failure_reason_value (default STRUCTURAL_ERROR (oc_reason oc)));
      eo_resume := None |}
  | STEP_NEEDS_INPUT => {|
      eo_node_type := t; eo_node_run := run; eo_status := NEEDS_INPUT; eo_terminal := false;
      eo_next := None; eo_loop_keys := []; eo_failure := None; eo_resume := oc_resume oc |}
  | TERMINAL => {|
      eo_node_type := t; eo_node_run := run; eo_status := SUCCESS; eo_terminal := true;
      eo_next := None; eo_loop_keys := []; eo_failure := None; eo_resume := None |}
  | ADVANCE => {|
      eo_node_type := t; eo_node_run := run; eo_status := SUCCESS; eo_terminal := false;
      eo_next := oc_next oc; eo_loop_keys := oc_loop_keys oc; eo_failure := None;
      eo_resume := None |}
  end.

(** The context an activity rebuilds from the flow run and its checkpoint. *)
Definition reload_context (plan : ExecutionPlan) (tenant f : uuid) (node : string) (fr : flow_run)
    (s : GraphStateSnapshot) : ExecutionContext := {|
  tenant_id := tenant; user_id := fr_user fr; session_id := fr_session fr;
  input_payload := or_empty (fr_input fr); flow_run_id := f;
  correlation_id := fr_correlation fr; current_node_id := node; current_node_run_id := None;
  state := ss_state s; memory := ss_memory s; metadata := ss_metadata s; node_output := [];
  system_prompt := None; system_context := None; context_tools := available_tools plan |}.

(** [execute_node]: every attempt starts with empty iteration counters. *)
Definition execute_node (p : ExecuteNodeInput) : M (@tenv W) ExecuteNodeOutput :=
  let* f := mlift (UUID_ (en_flow_run p)) in
  let* found := trepo (get_flow_run f) in
  match found with
  | None => mraise (NotFoundServiceException "flow_run_not_found")
  | Some fr =>
      let* g := trepo (get_graph_state f) in
      match g with
      | None => mraise (NotFoundServiceException "graph_state_not_found")
      | Some g =>
          match fr_interaction fr with
          | None => mraise (DomainValidationException "flow_run_interaction_missing")
          | Some _ =>
              let* plan := _resolve_plan fr in
              let* s := mlift (snapshot_validate (or_empty (gs_state g))) in
              let* tenant := mlift (UUID_ (en_tenant p)) in
              let* _ := mlift (UUID_ (en_flow p)) in
              in_env (mmodify (fun e => set_loops ∅ [] e)) ;;*
              let* oc := in_env (run_step uuid_parse construct execute dump_result same use_hook
                                   traced batch_size plan (en_loop_limit p)
                                   (reload_context plan tenant f (en_node p) fr s)) in
              mret (node_output_of oc)
          end
      end
  end.

(** [_last_node_output]. *)
Definition _last_node_output (node_run_id : option string) : M (@tenv W) pydict :=
  match nonempty node_run_id with
  | None => mret []
  | Some s =>
      let* n := mlift (UUID_ s) in
      let* found := trepo (get_node_run n) in
      match found with
      | None => mret []
      | Some nr =>
          match or_empty (nr_output nr) with
          | PDict d => mret (dict_or_empty (dict_getv "data" d))
          | _ => mraise PyAttributeError
          end
      end
  end.

(** [_optional_uuid]. *)
Definition _optional_uuid (raw : option string) : res exc (option uuid) :=
  match nonempty raw with
  | None => Ok None
  | Some s => let! u := UUID_ s in Ok (Some u)
  end.

(** Emission of a flow-level event for the ids of the payload. *)
Definition emit_flow_event (p : FinalizeFlowRunInput) (f : uuid) (ty : string) (payload : pyval) :
    M (@tenv W) unit :=
  let* tenant := mlift (UUID_ (fi_tenant p)) in
  let* session := mlift (UUID_ (fi_session p)) in
  let* correlation := mlift (UUID_ (fi_correlation p)) in
  in_env (emit use_hook batch_size {|
    tenant_id := tenant; user_id := fi_user p; session_id := session; input_payload := PNone;
    flow_run_id := f; correlation_id := correlation; current_node_id := "";
    current_node_run_id := None; state := []; memory := []; metadata := []; node_output := [];
    system_prompt := None; system_context := None; context_tools := [] |}
    ty payload None None).

(** [_emit_flow_completed]. *)
Definition _emit_flow_completed (p : FinalizeFlowRunInput) (node_data : pydict) : M (@tenv W) unit :=
  let* f := mlift (UUID_ (fi_flow_run p)) in
  let* g := trepo (get_graph_state f) in
  let* config := mlift (match g with
    | None => Ok PNone
    | Some g =>
        let! s := snapshot_validate (or_empty (gs_state g)) in
        Ok (match dict_getv "runtime_policy" (ss_metadata s) with
            | PDict policy =>
                match dict_getv "memory_extraction" policy with PDict m => PDict m | _ => PNone end
            | _ => PNone
            end)
    end) in
  emit_flow_event p f "FlowCompleted"
    (PDict [("terminated_at", match fi_last_node p with Some n => PStr n | None => PNone end);
            ("payload", PDict node_data); ("memory_extraction_config", config)]).

(** [_fail_flow]: the recorded exception is always an [ApplicationError]. *)
Definition fail_flow_activity (p : FinalizeFlowRunInput) : M (@tenv W) unit :=
  let* f := mlift (UUID_ (fi_flow_run p)) in
  let reason := failure_reason_value (_failure_reason (fi_failure p)) in
  let error_detail := PDict [
    ("correlation_id", PStr (fi_correlation p)); ("reason", PStr reason);
    ("code", PStr "ApplicationError"); ("message", PStr (application_error_str reason reason));
    ("errors", PList []); ("input_data", PDict [])] in
  trepo (fail_flow_run f reason error_detail) ;;*
  emit_flow_event p f "FlowFailed" (PDict [("reason", PStr reason)]).

(** [_release_idempotency]. *)
Definition _release_idempotency (p : FinalizeFlowRunInput) : M (@tenv W) unit :=
  match nonempty (fi_idempotency p) with
  | None => mret tt
  | Some key =>
      mmodify (fun e => {| te_env := te_env e; plan_cache := plan_cache e;
        idempotency_results := <[key := PDict [("flow_run_id", PStr (fi_flow_run p));
          ("outcome", PStr (outcome_value (fi_outcome p)))]]> (idempotency_results e) |})
  end.

(** [finalize_flow_run]. *)
Definition finalize_flow_run (p : FinalizeFlowRunInput) : M (@tenv W) unit :=
  let* f := mlift (UUID_ (fi_flow_run p)) in
  let* node_data := _last_node_output (fi_last_node_run p) in
  match fi_outcome p with
  | OC_COMPLETED =>
      trepo (complete_flow_run f (flow_status_str FR_COMPLETED) (PDict node_data)) ;;*
      let* last := mlift (_optional_uuid (fi_last_node_run p)) in
      trepo (set_current_interaction_result_for_flow_run f (PDict node_data) last) ;;*
      _emit_flow_completed p node_data
  | OC_WAITING =>
      trepo (set_flow_run_output f (PDict node_data)) ;;*
      let* last := mlift (_optional_uuid (fi_last_node_run p)) in
      trepo (set_current_interaction_result_for_flow_run f (PDict node_data) last) ;;*
      trepo (set_flow_run_status f (run_status_str RS_WAITING_INPUT) (flow_status_str FR_WAITING))
  | OC_CANCELLED =>
      trepo (set_flow_run_status f (run_status_str RS_CANCELLED) (flow_status_str FR_FAILED))
  | OC_FAILED => fail_flow_activity p
  end ;;*
  _release_idempotency p.

(** ** The workflow *)

(** [_finalize]. *)
Definition _finalize (p : FlowRunWorkflowInput) (outcome : OutcomeLiteral)
    (failure last_node last_node_run : option string) (steps : nat) :
    M (@tenv W) FlowRunWorkflowResult :=
  execute_activity 5 (finalize_flow_run {|
    fi_flow_run := wi_flow_run p; fi_tenant := wi_tenant p; fi_session := wi_session p;
    fi_user := wi_user p; fi_correlation := wi_correlation p; fi_outcome := outcome;
    fi_failure := failure; fi_last_node := last_node; fi_last_node_run := last_node_run;
    fi_idempotency := wi_idempotency p |}) ;;*
  mret {| wr_flow_run := wi_flow_run p; wr_outcome := outcome; wr_failure := failure;
          wr_steps := steps |}.

(** [for key in step.loop_edge_keys]: the new counters, or [None] when one exceeds
    the limit. *)
Fixpoint count_keys (loop_limit : Z) (keys : list string) (cs : gmap string Z) :
    option (gmap string Z) :=
  match keys with
  | [] => Some cs
  | k :: keys =>
      let n := (default 0 (cs !! k) + 1)%Z in
      if (loop_limit <? n)%Z then None else count_keys loop_limit keys (<[k := n]> cs)
  end.

(** The [for _ in range(summary.max_steps)] loop and what follows it. *)
Fixpoint workflow_loop (budget : nat) (p : FlowRunWorkflowInput) (summary : FlowRunPlanSummary)
    (node : string) (cs : gmap string Z) (steps : nat) : M (@tenv W) FlowRunWorkflowResult :=
  match budget with
  | 0 => _finalize p OC_FAILED (Some "MAX_STEPS_EXCEEDED") (Some node) None steps
  | S budget =>
      let* step := execute_activity (Z.to_nat (ps_tools_max_retries summary + 1)) (execute_node {|
        en_flow_run := wi_flow_run p; en_tenant := wi_tenant p; en_flow := wi_flow p;
        en_node := node; en_step := steps; en_loop_limit := ps_loop_limit summary |}) in
      let steps := S steps in
      match count_keys (ps_loop_limit summary) (eo_loop_keys step) cs with
      | None => _finalize p OC_FAILED (Some "EDGE_EVALUATION_ERROR") (Some node) (eo_node_run step) steps
      | Some cs =>
          if bool_decide (eo_status step = NEEDS_INPUT) then
            _finalize p OC_WAITING None (Some node) (eo_node_run step) steps
          else if eo_terminal step then
            _finalize p OC_COMPLETED None (Some node) (eo_node_run step) steps
          else
            let fail := _finalize p OC_FAILED
                          (Some (default "STRUCTURAL_ERROR" (nonempty (eo_failure step))))
                          (Some node) (eo_node_run step) steps in
            match eo_next step with
            | Some next =>
                if bool_decide (eo_status step = ERROR) then fail
                else workflow_loop budget p summary next cs steps
            | None => fail
            end
      end
  end.

(** [FlowRunWorkflow.run]. *)
Definition workflow_run (p : FlowRunWorkflowInput) : M (@tenv W) FlowRunWorkflowResult := fun e =>
  match execute_activity 3 (prepare_flow_run p) e with
  | (Err _, e) => _finalize p OC_FAILED (Some "STRUCTURAL_ERROR") None None 0 e
  | (Ok summary, e) =>
      workflow_loop (ps_max_steps summary) p summary
        (default (ps_start summary) (nonempty (wi_start p))) ∅ 0 e
  end.
End activities.
