(* ===== verification/Durable.v ===== *)
(** * Durable: the workflow simulates the in-process executor

    Both engines interpret the same plan over the same repository: the executor
    keeps the context in memory, the workflow reloads it from the checkpoint before
    every node and keeps the loop counters itself.  The theorems of this file relate
    the two step by step. *)

From S2P Require Import Prelude.
From S2P Require Import Errors.
From S2P Require Import PyValue.
From S2P Require Import StateMachine.
From S2P Require Import EdgeEvaluator.
From S2P Require Import FlowGraph.
From S2P Require Import DraftGraph.
From S2P Require Import GraphCompiler.
From S2P Require Import Effects.
From S2P Require Import Store.
From S2P Require Import NodeStep.
From S2P Require Import Executor.
From S2P Require Import Temporal.

(** ** Stores up to the graph-state cache *)

Definition strip (s : store) : store := set_state_cache ∅ s.

(** A repository call whose result and writes do not depend on the cache. *)
Definition blind {A} (m : M store A) : Prop := forall s1 s2, strip s1 = strip s2 ->
  (m s1).1 = (m s2).1 /\ strip (m s1).2 = strip (m s2).2.

(** It is enough to compare with the store without cache. *)
Lemma blind_intro {A} (m : M store A) :
  (forall s, (m s).1 = (m (strip s)).1 /\ strip (m s).2 = strip (m (strip s)).2) -> blind m.
Proof.
  intros H s1 s2 Hs. destruct (H s1) as [-> ->], (H s2) as [-> ->]. by rewrite Hs.
Qed.

Lemma blind_bind {A B} (m : M store A) (k : A -> M store B) :
  blind m -> (forall a, blind (k a)) -> blind (mbind_ m k).
Proof.
  intros Hm Hk s1 s2 Hs. destruct (Hm s1 s2 Hs) as [Hr Hs']. unfold mbind_.
  destruct (m s1) as [r1 s1'], (m s2) as [r2 s2']. simpl in *. subst r2.
  destruct r1; [by apply Hk | done].
Qed.

Lemma blind_get {A} (k : store -> M store A) :
  (forall s, k s = k (strip s)) -> (forall s, blind (k s)) -> blind (let* s := mget in k s).
Proof.
  intros Hk Hb s1 s2 Hs. unfold mbind_, mget. rewrite (Hk s1), (Hk s2), Hs. by apply Hb.
Qed.

(** Calls that read and write tables only: by evaluation. *)
Ltac blind_compute :=
  apply blind_intro; let s := fresh "s" in intros s; unfold mbind_, mget, mmodify, mret, mraise, mlift, uuid4; simpl;
  repeat (case_match || case_bool_decide); done.

Lemma blind_node_created t f n i o st cst : blind (create_node_run t f n i o st cst).
Proof. unfold create_node_run. blind_compute. Qed.
Lemma blind_node_updated n o st cst : blind (update_node_run_result n o st cst).
Proof. unfold update_node_run_result. blind_compute. Qed.
Lemma blind_agent_created n v i st : blind (create_agent_run n v i st).
Proof. unfold create_agent_run. blind_compute. Qed.
Lemma blind_agent_updated a st o t : blind (update_agent_run_result a st o t).
Proof. unfold update_agent_run_result. blind_compute. Qed.
Lemma blind_ledger r : blind (record_llm_usage r).
Proof. unfold record_llm_usage. blind_compute. Qed.
Lemma blind_upsert f st l : blind (upsert_graph_state f st l).
Proof. unfold upsert_graph_state. blind_compute. Qed.
Lemma blind_update f g : blind (update_flow_run f g).
Proof. unfold update_flow_run. blind_compute. Qed.
Lemma blind_interaction f o n : blind (set_current_interaction_result_for_flow_run f o n).
Proof.
  unfold set_current_interaction_result_for_flow_run. apply blind_intro. intros s. simpl.
  by destruct (flow_runs s !! f ≫= fr_interaction).
Qed.

Lemma blind_persist f evs : blind (_persist_execution_events_batch f evs).
Proof.
  unfold _persist_execution_events_batch, resolve_user. destruct evs as [|[i d] evs]; blind_compute.
Qed.

Lemma blind_append bs f d : blind (append_execution_event bs f d).
Proof.
  unfold append_execution_event. apply blind_bind; [blind_compute|]. intros i.
  destruct f as [f|]; [|blind_compute]. apply blind_get; [done|]. intros s.
  apply blind_bind; [|intros; blind_compute]. case_bool_decide.
  - unfold buffer_event. apply blind_get; [done|]. intros s0. destruct (bs <=? _); [|blind_compute].
    apply blind_bind; [blind_compute|]. intros _. apply blind_persist.
  - intros s1 s2. rewrite !insert_as_batch. apply blind_persist.
Qed.

(** ** Environments that differ in the cache and the counters *)

Section simulation.
Context {W : Type}.

(** Same tables, same world; the counters are [C1] and [C2]. *)
Record env_sim (C1 C2 : gmap string Z) (e1 e2 : @env W) : Prop := {
  es_db : strip (db e1) = strip (db e2);
  es_world : world e1 = world e2;
  es_left : counters e1 = C1;
  es_right : counters e2 = C2;
}.

(** A computation that behaves alike on both sides. *)
Definition esim {A} (m : M (@env W) A) : Prop := forall C1 C2 e1 e2, env_sim C1 C2 e1 e2 ->
  (m e1).1 = (m e2).1 /\ env_sim C1 C2 (m e1).2 (m e2).2.

Lemma esim_ret {A} (a : A) : esim (mret a).
Proof. by intros C1 C2 e1 e2. Qed.
Lemma esim_raise {A} x : esim (A := A) (mraise x).
Proof. by intros C1 C2 e1 e2. Qed.
Lemma esim_lift {A} (r : res exc A) : esim (mlift r).
Proof. by intros C1 C2 e1 e2. Qed.

Lemma esim_bind {A B} (m : M (@env W) A) (k : A -> M env B) :
  esim m -> (forall a, esim (k a)) -> esim (mbind_ m k).
Proof.
  intros Hm Hk C1 C2 e1 e2 He. destruct (Hm C1 C2 e1 e2 He) as [Hr He']. unfold mbind_.
  destruct (m e1) as [r1 e1'], (m e2) as [r2 e2']. simpl in *. subst r2.
  destruct r1; [by apply Hk | done].
Qed.

Lemma esim_try {A} (m : M (@env W) A) h : esim m -> (forall x, esim (h x)) -> esim (mtry m h).
Proof.
  intros Hm Hh C1 C2 e1 e2 He. destruct (Hm C1 C2 e1 e2 He) as [Hr He']. unfold mtry.
  destruct (m e1) as [r1 e1'], (m e2) as [r2 e2']. simpl in *. subst r2.
  destruct r1; [done | by apply Hh].
Qed.

Lemma esim_repo {A} (m : M store A) : blind m -> esim (repo (W := W) m).
Proof.
  intros Hm C1 C2 e1 e2 [Hdb Hw H1 H2]. destruct (Hm _ _ Hdb) as [Hr Hs]. unfold repo.
  destruct (m (db e1)) as [r1 s1], (m (db e2)) as [r2 s2]. simpl in *. by split.
Qed.

Lemma esim_run {A} (m : M (@env W) A) C1 C2 e1 e2 r e1' :
  esim m -> env_sim C1 C2 e1 e2 -> m e1 = (r, e1') ->
  exists e2', m e2 = (r, e2') /\ env_sim C1 C2 e1' e2'.
Proof.
  intros Hm He H1. destruct (Hm _ _ _ _ He) as [Hr He']. rewrite H1 in Hr, He'. simpl in *.
  destruct (m e2) as [r2 e2']. simpl in *. subst. by eexists.
Qed.

Variable uuid_parse : string -> option uuid.
Variable batch_size : nat.

Lemma esim_emit h c ty p n ed : esim (emit (W := W) h batch_size c ty p n ed).
Proof.
  unfold emit. destruct h.
  - apply esim_try; [|intros; apply esim_ret]. apply esim_bind; [apply esim_repo, blind_append|].
    intros; apply esim_ret.
  - apply esim_bind; [apply esim_repo, blind_append|]. intros; apply esim_ret.
Qed.

Lemma esim_usage c n r : esim (_record_usage (W := W) c n r).
Proof.
  unfold _record_usage. destruct (usage r) as [u|]; [|apply esim_ret].
  apply esim_try; [|intros; apply esim_ret]. apply esim_bind.
  - destruct (agent_version_id u); [|apply esim_ret].
    apply esim_bind; [apply esim_repo, blind_agent_created|]. intros a.
    apply esim_bind; [apply esim_repo, blind_agent_updated|]. intros; apply esim_ret.
  - intros a. apply esim_bind; [apply esim_repo, blind_ledger|]. intros; apply esim_ret.
Qed.

(** ** Edge evaluation under different counters *)

Variable same : pyval -> pyval -> bool.
Abbreviation evaluate_ := (_evaluate_edges (W := W) uuid_parse same true batch_size).

(** The tables other than events. *)
Definition core (s : store) :=
  (flow_runs s, node_runs s, graph_states s, interactions s, agent_runs s, usage_ledger s).

#[global] Instance core_frame : EventFrame core.
Proof. by split. Qed.

Lemma hook_emit_ok c ty p n ed (e : @env W) :
  exists e', emit true batch_size c ty p n ed e = (Ok tt, e') /\ loop_keys e' = loop_keys e.
Proof.
  unfold emit, mtry, mbind_, repo. simpl.
  destruct (append_execution_event _ _ _ (db e)) as [[] s]; by eexists.
Qed.

Lemma edge_event_ok c to_ b (e : @env W) :
  is_ok (node_uuid uuid_parse c) = true ->
  exists e', _emit_edge_evaluated uuid_parse true batch_size c to_ b e = (Ok tt, e') /\
    loop_keys e' = loop_keys e.
Proof.
  unfold _emit_edge_evaluated, mbind_, mlift. destruct (node_uuid uuid_parse c); [|done].
  intros _. apply hook_emit_ok.
Qed.

Lemma esim_edge_event c to_ b : esim (_emit_edge_evaluated (W := W) uuid_parse true batch_size c to_ b).
Proof. apply esim_bind; [apply esim_lift|]. intros. apply esim_emit. Qed.

(** Evaluation appends the keys of the loop edges it met, and fails only with domain
    errors. *)
Lemma evaluate_keys es c out lim e r e' :
  is_ok (node_uuid uuid_parse c) = true -> evaluate_ es c out lim e = (r, e') ->
  (exists ks, loop_keys e' = loop_keys e ++ ks) /\
  (forall x, r = Err x -> is_domain_validation x = true).
Proof.
  intros Hn. revert e r e'. induction es as [|ce es IH]; intros e r e'; simpl.
  { intros [= <- <-]. split; [exists []; by rewrite app_nil_r | done]. }
  destruct (negb _); [apply IH|]. unfold mbind_ at 1.
  assert (exists r0 e0 k0, (if bool_decide (ce_kind ce = LOOP) then count_loop lim ce else mret tt) e
    = (r0, e0) /\ loop_keys e0 = loop_keys e ++ k0 /\
    forall x, r0 = Err x -> is_domain_validation x = true) as (r0 & e0 & k0 & -> & Hk0 & Hr0).
  { case_bool_decide; [|by exists (Ok tt), e, []; rewrite app_nil_r].
    unfold count_loop, mbind_, mmodify, mget, mlift. do 2 eexists. exists [edge_key ce].
    split; [reflexivity|]. split; [done|]. unfold raise_if. intros x. case_match; [|done].
    by intros [= <-]. }
  destruct r0 as [[]|x]; [|intros [= <- <-]; split; [by exists k0 | intros y [= <-]; by apply Hr0]].
  unfold mbind_ at 1, mlift. destruct (is_true same _ _) as [b|x] eqn:Hb.
  2:{ intros [= <- <-]. split; [eauto|]. intros y [= <-].
      by destruct (is_true_errors _ _ _ _ Hb) as [-> | ->]. }
  destruct (edge_event_ok c (ce_to ce) b e0 Hn) as (e1 & He1 & Hk1). unfold mbind_ at 1. rewrite He1.
  unfold mbind_. destruct (evaluate_ es c out lim e1) as [r2 e2] eqn:He2.
  destruct (IH _ _ _ He2) as [[k2 Hk2] Hr2]. rewrite Hk1, Hk0, <- app_assoc in Hk2.
  destruct r2; intros [= <- <-]; (split; [by eexists|]); [done | intros y [= <-]; by apply Hr2].
Qed.

Definition below_counts (C2 C1 : gmap string Z) : Prop :=
  forall k, (default 0 (C2 !! k) <= default 0 (C1 !! k))%Z.

(** What the two evaluations have to do with each other: when the left one succeeds,
    so does the right one, with the same result, and the left counters are those the
    workflow computes from the reported keys; when the left one fails, either the
    right one fails too or the workflow's counting detects the excess. *)
Definition eval_rel (lim : Z) (C1 : gmap string Z) (ks2 : list string)
    (p1 p2 : res exc (list string) * @env W) : Prop :=
  exists ks, loop_keys p2.2 = ks2 ++ ks /\
  match p1.1 with
  | Ok l =>
      p2.1 = Ok l /\ strip (db p1.2) = strip (db p2.2) /\ world p1.2 = world p2.2 /\
      count_keys lim ks C1 = Some (counters p1.2)
  | Err _ => count_keys lim ks C1 = None \/ exists y, p2.1 = Err y
  end.

Lemma count_loop_run lim ce (e : @env W) :
  let n := (default 0 (counters e !! edge_key ce) + 1)%Z in
  count_loop lim ce e =
    (raise_if (lim <? n)%Z (DomainValidationException "loop_iteration_limit_exceeded"),
     set_loops (<[edge_key ce := n]> (counters e)) (loop_keys e ++ [edge_key ce]) e).
Proof. unfold count_loop, mbind_, mmodify, mget, mlift. simpl. by rewrite lookup_insert_eq. Qed.

Lemma below_insert C1 C2 k n1 n2 :
  below_counts C2 C1 -> (n2 <= n1)%Z -> below_counts (<[k:=n2]> C2) (<[k:=n1]> C1).
Proof.
  intros H Hn j. destruct (decide (j = k)) as [->|Hne].
  - by rewrite !lookup_insert_eq.
  - by rewrite !lookup_insert_ne.
Qed.

Lemma evaluate_sim es c out lim C1 C2 e1 e2 :
  is_ok (node_uuid uuid_parse c) = true -> env_sim C1 C2 e1 e2 -> below_counts C2 C1 ->
  eval_rel lim C1 (loop_keys e2) (evaluate_ es c out lim e1) (evaluate_ es c out lim e2).
Proof.
  intros Hn. revert C1 C2 e1 e2. induction es as [|ce es IH]; intros C1 C2 e1 e2 He Hle; simpl.
  { exists []. rewrite app_nil_r. destruct He as [Hdb Hw H1 H2]. by rewrite <- H1. }
  destruct (negb _); [by eapply IH|].
  match goal with |- eval_rel _ _ _ (mbind_ _ ?k e1) _ => set (rest := k) end.
  assert (Hrest : forall D1 D2 d1 d2, env_sim D1 D2 d1 d2 -> below_counts D2 D1 ->
    eval_rel lim D1 (loop_keys d2) (rest tt d1) (rest tt d2)).
  { intros D1 D2 d1 d2 Hd HD. subst rest. cbn beta.
    destruct (is_true same (PDict out) (PList (compiled_condition ce))) as [b|x];
      [|exists []; rewrite app_nil_r; simpl; eauto].
    destruct (edge_event_ok c (ce_to ce) b d1 Hn) as (d1' & Hd1 & _).
    destruct (esim_run _ _ _ _ _ _ _ (esim_edge_event c (ce_to ce) b) Hd Hd1) as (d2' & Hd2 & Hd').
    destruct (edge_event_ok c (ce_to ce) b d2 Hn) as (d2'' & Hd2' & Hk). rewrite Hd2 in Hd2'.
    injection Hd2' as <-. rewrite !(mbind_run (mlift (Ok b)) _ _ (Ok b) _ eq_refl).
    rewrite (mbind_run _ _ _ _ _ Hd1), (mbind_run _ _ _ _ _ Hd2).
    destruct (IH D1 D2 d1' d2' Hd' HD) as (ks & Hks & Hrel). rewrite Hk in Hks. exists ks.
    unfold mbind_. destruct (evaluate_ es c out lim d1') as [[l1|x1] f1],
      (evaluate_ es c out lim d2') as [[l2|x2] f2]; simpl in *; (split; [done|]).
    - destruct Hrel as ([= ->] & Hrel). done.
    - by destruct Hrel.
    - destruct Hrel as [Hr|[y Hy]]; [by left | done].
    - right. by eexists. }
  case_bool_decide as HL; [|exact (Hrest C1 C2 e1 e2 He Hle)].
  rewrite (mbind_run _ _ _ _ _ (count_loop_run lim ce e1)).
  rewrite (mbind_run _ _ _ _ _ (count_loop_run lim ce e2)).
  destruct He as [Hdb Hw <- <-]. pose proof (Hle (edge_key ce)) as Hk. unfold raise_if.
  set (n1 := (default 0 (counters e1 !! edge_key ce) + 1)%Z).
  set (n2 := (default 0 (counters e2 !! edge_key ce) + 1)%Z).
  specialize (Hrest _ _ (set_loops (<[edge_key ce:=n1]> (counters e1)) (loop_keys e1 ++ [edge_key ce]) e1)
    (set_loops (<[edge_key ce:=n2]> (counters e2)) (loop_keys e2 ++ [edge_key ce]) e2)
    ltac:(by split) ltac:(apply below_insert; [done | lia])) as (ks & Hks & Hrel).
  cbn [loop_keys set_loops] in Hks. rewrite <- app_assoc in Hks.
  destruct (lim <? n1)%Z eqn:H1.
  - assert (Hover : forall ks, count_keys lim (edge_key ce :: ks) (counters e1) = None).
    { intros ks'. simpl. fold n1. by rewrite H1. }
    destruct (lim <? n2)%Z; [exists [edge_key ce]; split; [done | left; apply Hover]|].
    exists (edge_key ce :: ks).  split; [done | left; apply Hover].
  - assert (H2 : (lim <? n2)%Z = false) by (rewrite Z.ltb_ge in *; lia). rewrite H2.
    exists (edge_key ce :: ks).  cbn [count_keys]. fold n1. rewrite H1.
    split; [done | exact Hrel].
Qed.

(** ** One step *)

Variable construct : NodeType -> res exc unit.
Variable execute : NodeType -> ExecutionContext -> pyval -> M (@env W) NodeResult.
Variable dump_result : NodeResult -> pyval.
Variable traced : bool.

Abbreviation choose_ := (choose_next (W := W) uuid_parse same true batch_size).
Abbreviation finish_ := (finish_node (W := W) uuid_parse dump_result same true batch_size).
Abbreviation run_step_ :=
  (run_step uuid_parse construct execute dump_result same true traced batch_size).

(** What the durable engine relies on from node executors besides [ExecutorLaws]:
    they observe neither the graph-state cache nor the iteration counters, read from the
    context neither the previous node's output nor what an earlier executor assigned there
    (the system context and the tools), leave node runs alone and return memories made of
    dicts.  The error handler reads the output, and model calls with a system context read
    what an earlier node of the same process found: they do not obey these laws, and the two
    engines differ on them ([carried_context_lost] below). *)
Definition bare (tools : list pyval) (c : ExecutionContext) : ExecutionContext := {|
  tenant_id := tenant_id c; user_id := user_id c; session_id := session_id c;
  input_payload := input_payload c; flow_run_id := flow_run_id c;
  correlation_id := correlation_id c; current_node_id := current_node_id c;
  current_node_run_id := current_node_run_id c; state := state c; memory := memory c;
  metadata := metadata c; node_output := [];
  system_prompt := None; system_context := None; context_tools := tools |}.

Class DurableLaws : Prop := {
  dl_executor : ExecutorLaws execute;
  dl_esim : forall t c cfg, esim (execute t c cfg);
  dl_output : forall t c cfg tools e, execute t c cfg e = execute t (bare tools c) cfg e;
  dl_nodes : forall t c cfg, respects (keeps node_runs) (execute t c cfg);
  dl_memory : forall t c cfg e r e' m,
    execute t c cfg e = (Ok r, e') -> result_memory r = Some m -> forallb is_dict m = true;
}.
Context `{DL : !DurableLaws}.
#[local] Existing Instance dl_executor.

(** A context without what a reload loses. *)
Definition erase (c : ExecutionContext) : ExecutionContext := {|
  tenant_id := tenant_id c; user_id := user_id c; session_id := session_id c;
  input_payload := input_payload c; flow_run_id := flow_run_id c;
  correlation_id := correlation_id c; current_node_id := current_node_id c;
  current_node_run_id := None; state := state c; memory := memory c;
  metadata := metadata c; node_output := [];
  system_prompt := None; system_context := None; context_tools := [] |}.

(** The context a reload gives: the tools are the plan's again. *)
Definition fresh (plan : ExecutionPlan) (c : ExecutionContext) : ExecutionContext := {|
  tenant_id := tenant_id c; user_id := user_id c; session_id := session_id c;
  input_payload := input_payload c; flow_run_id := flow_run_id c;
  correlation_id := correlation_id c; current_node_id := current_node_id c;
  current_node_run_id := None; state := state c; memory := memory c;
  metadata := metadata c; node_output := [];
  system_prompt := None; system_context := None; context_tools := available_tools plan |}.

Definition erase_ctx (oc : NodeStepOutcome) : NodeStepOutcome :=
  outcome (oc_status oc) (oc_node_type oc) (oc_node_run oc) (oc_node_data oc)
    (erase (oc_context oc)) (oc_next oc) (oc_resume oc) (oc_loop_keys oc) (oc_reason oc)
    (oc_exception oc).

Definition map_ok {A B} (f : A -> B) (p : res exc A * @env W) : res exc B * @env W :=
  (match p.1 with Ok a => Ok (f a) | Err x => Err x end, p.2).

Lemma map_bind {A B C} (f : B -> C) (m : M (@env W) A) k1 k2 e :
  (forall a e', m e = (Ok a, e') -> map_ok f (k1 a e') = map_ok f (k2 a e')) ->
  map_ok f (mbind_ m k1 e) = map_ok f (mbind_ m k2 e).
Proof. intros H. unfold mbind_. destruct (m e) as [[a|x] e']; [by apply H | done]. Qed.

(** The runner looks at none of the texts and tools a context carries. *)
Definition retext (p x : option string) (tools : list pyval) (c : ExecutionContext) : ExecutionContext := {|
  tenant_id := tenant_id c; user_id := user_id c; session_id := session_id c;
  input_payload := input_payload c; flow_run_id := flow_run_id c;
  correlation_id := correlation_id c; current_node_id := current_node_id c;
  current_node_run_id := current_node_run_id c; state := state c; memory := memory c;
  metadata := metadata c; node_output := node_output c;
  system_prompt := p; system_context := x; context_tools := tools |}.

Lemma evaluate_retext p x tools es c out lim e :
  _evaluate_edges (W := W) uuid_parse same true batch_size es c out lim e =
  _evaluate_edges uuid_parse same true batch_size es (retext p x tools c) out lim e.
Proof.
  revert e. induction es as [|ed es IH]; intros e; [done|]. simpl. destruct (negb _); [apply IH|].
  do 3 (apply mbind_ext; [done|]; intros ? ?). by apply mbind_ext.
Qed.

Lemma choose_retext p x tools ns es t n c st mem r lim e :
  map_ok erase_ctx (choose_ ns es t n c st mem r lim e) =
  map_ok erase_ctx (choose_ ns es t n (retext p x tools c) st mem r lim e).
Proof.
  unfold choose_next. destruct (is_in _ _); [done|]. apply map_bind. intros [] e1 _.
  rewrite (evaluate_retext p x tools). destruct (_evaluate_edges _ _ _ _ _ _ _ _ e1) as [[[|v [|]]|y] e2]; try done.
  - unfold next_context. by destruct (is_human_fallback _).
  - by destruct (is_domain_validation y).
Qed.

Lemma finish_retext p x tools ns es t n cfg c r lim e :
  map_ok erase_ctx (finish_ ns es t n cfg c r lim e) =
  map_ok erase_ctx (finish_ ns es t n cfg (retext p x tools c) r lim e).
Proof.
  unfold finish_node. repeat (apply map_bind; intros ? ? _). case_bool_decide; [by destruct a2|].
  etransitivity; [apply (choose_retext (system_prompt (after_node r (retext p x tools c)))
    (system_context (after_node r (retext p x tools c))) (context_tools (after_node r (retext p x tools c))))|done].
Qed.

(** A step does not depend on the erased parts. *)
Lemma run_step_erase plan lim c e :
  map_ok erase_ctx (run_step_ plan lim c e) = map_ok erase_ctx (run_step_ plan lim (fresh plan c) e).
Proof using DL.
  unfold run_step. cbn [fresh current_node_id]. destruct (spec_of _ _) as [spec|]; [|done].
  apply map_bind. intros cls e1 _. apply map_bind. intros t e2 _.
  destruct cls as [cls|], t as [t|]; try done. destruct (construct cls); [|done].
  apply map_bind. intros n e3 _. apply map_bind. intros nr e4 _. apply map_bind. intros [] e5 _.
  rewrite (dl_output _ _ _ (available_tools plan)). change (bare (available_tools plan) (with_node_run nr (with_metadata
    (dict_set "current_node_type" (PStr t) (metadata c)) c))) with (with_node_run nr (with_metadata
    (dict_set "current_node_type" (PStr t) (metadata c)) (fresh plan c))).
  cbn [fresh metadata]. destruct (execute _ _ _ e5) as [[r|x] e6]; [|done].
  etransitivity; [apply (finish_retext None None (available_tools plan)) | done].
Qed.

(** The agreement of two steps that the engines act on. *)
Record oc_agree (oc1 oc2 : NodeStepOutcome) : Prop := {
  oa_status : oc_status oc2 = oc_status oc1;
  oa_run : oc_node_run oc2 = oc_node_run oc1;
  oa_data : oc_node_data oc2 = oc_node_data oc1;
  oa_next : oc_next oc2 = oc_next oc1;
  oa_reason : oc_reason oc2 = oc_reason oc1;
  oa_context : erase (oc_context oc2) = erase (oc_context oc1);
}.

Definition edge_failure (oc : NodeStepOutcome) : Prop :=
  oc_status oc = FAILED /\ oc_reason oc = Some EDGE_EVALUATION_ERROR.

(** The left step returned: the right one returns too.  They agree and the workflow's
    counting gives the left counters; or the left step failed at its edges, and the
    right one failed there too or the workflow's counting finds the excess. *)
Definition step_rel (lim : Z) (C : gmap string Z) (p1 p2 : res exc NodeStepOutcome * @env W) : Prop :=
  forall oc1 e1, p1 = (Ok oc1, e1) -> exists oc2 e2, p2 = (Ok oc2, e2) /\
  (oc_agree oc1 oc2 /\ strip (db e1) = strip (db e2) /\ world e1 = world e2 /\
     count_keys lim (oc_loop_keys oc2) C = Some (counters e1) \/
   edge_failure oc1 /\ core (db e1) = core (db e2) /\ oc_node_run oc2 = oc_node_run oc1 /\
     (count_keys lim (oc_loop_keys oc2) C = None \/ edge_failure oc2)).

Lemma core_strip s1 s2 : strip s1 = strip s2 -> core s1 = core s2.
Proof. intros H. exact (f_equal core H). Qed.

Lemma oc_agree_refl oc : oc_agree oc oc.
Proof. by split. Qed.

Lemma step_rel_bind {A} (m : M (@env W) A) k lim C C2 e1 e2 :
  esim m -> env_sim C C2 e1 e2 ->
  (forall a d1 d2, (exists d, m d = (Ok a, d1)) -> env_sim C C2 d1 d2 -> step_rel lim C (k a d1) (k a d2)) ->
  step_rel lim C (mbind_ m k e1) (mbind_ m k e2).
Proof.
  intros Hm He Hk. destruct (m e1) as [r d1] eqn:H1.
  destruct (esim_run m _ _ _ _ _ _ Hm He H1) as (d2 & H2 & Hd).
  rewrite (mbind_run _ _ _ _ _ H1), (mbind_run _ _ _ _ _ H2). destruct r; [by apply Hk; [eexists|]|].
  intros oc1 e1'. done.
Qed.

Lemma step_rel_ret lim C C2 oc e1 e2 :
  env_sim C C2 e1 e2 -> oc_loop_keys oc = [] -> step_rel lim C (Ok oc, e1) (Ok oc, e2).
Proof.
  intros [Hdb Hw <- _] Hk oc1 d1 [= <- <-]. exists oc, e2. split; [done|]. left. rewrite Hk.
  by split_and!; [apply oc_agree_refl|..].
Qed.

Lemma choose_next_sim ns es t n c st mem r lim C e1 e2 :
  is_ok (node_uuid uuid_parse c) = true -> env_sim C ∅ e1 e2 -> below_counts ∅ C ->
  step_rel lim C (choose_ ns es t n c st mem r lim e1) (choose_ ns es t n c st mem r lim e2).
Proof.
  intros Hn He Hle. pose proof (choose_next_keeps (W := W) uuid_parse same true batch_size core ns es t n c st mem r lim) as Hcore.
  pose proof (Hcore e1) as Hc1. pose proof (Hcore e2) as Hc2. clear Hcore.
  pose proof (core_strip _ _ (es_db _ _ _ _ He)) as Hc12. unfold keeps in *.
  unfold choose_next in *. destruct (is_in t TERMINAL_NODE_TYPES); [by eapply step_rel_ret|].
  unfold mbind_, mmodify in *. destruct He as [Hdb Hw H1 H2].
  pose proof (evaluate_sim es c (data r) lim C ∅ (set_loops (counters e1) [] e1)
    (set_loops (counters e2) [] e2) Hn ltac:(by split) Hle) as (ks & Hks & Hrel).
  destruct (evaluate_ es c (data r) lim (set_loops (counters e1) [] e1)) as [r1 d1] eqn:E1.
  destruct (evaluate_ es c (data r) lim (set_loops (counters e2) [] e2)) as [r2 d2] eqn:E2.
  simpl in Hks, Hrel. apply evaluate_keys in E2 as [_ Hdom]; [|done].
  destruct r1 as [l|x].
  - destruct Hrel as (-> & Hs & Hw' & Hcnt). intros oc1 e1' Hoc.
    destruct l as [|v [|]]; injection Hoc as <- <-; do 2 eexists; (split; [reflexivity|]); left;
      simpl; rewrite Hks; (split_and!; [|done..]); by split.
  - destruct (is_domain_validation x); [|intros oc1 e1'; done]. intros oc1 e1' [= <- <-].
    simpl in Hc1. destruct r2 as [l|y].
    + destruct Hrel as [Hcnt|[y Hy]]; [|done].
      destruct l as [|v [|]]; do 2 eexists; (split; [reflexivity|]); right; simpl in *; rewrite Hks;
        (split; [done|]); (split; [congruence|]); auto.
    + rewrite (Hdom y eq_refl) in *. do 2 eexists. split; [reflexivity|]. right. simpl in *.
      split; [done|]. split; [congruence|]. split; [done|]. by right.
Qed.

Lemma finish_node_sim ns es t n cfg c r lim C e1 e2 :
  is_ok (node_uuid uuid_parse c) = true -> env_sim C ∅ e1 e2 -> below_counts ∅ C ->
  step_rel lim C (finish_ ns es t n cfg c r lim e1) (finish_ ns es t n cfg c r lim e2).
Proof.
  intros Hn He Hle. unfold finish_node.
  eapply step_rel_bind; [apply esim_repo, blind_node_updated | exact He|]. clear e1 e2 He.
  intros [] e1 e2 _ He. eapply step_rel_bind; [apply esim_usage | exact He|]. clear e1 e2 He.
  intros [] e1 e2 _ He. eapply step_rel_bind; [apply esim_lift | exact He|]. clear e1 e2 He.
  intros st e1 e2 _ He. eapply step_rel_bind; [apply esim_lift | exact He|]. clear e1 e2 He.
  intros resume e1 e2 _ He. eapply step_rel_bind; [|exact He|].
  { apply esim_bind; [apply esim_lift|]. intros. apply esim_emit. }
  clear e1 e2 He. intros [] e1 e2 _ He.
  eapply step_rel_bind; [apply esim_repo, blind_upsert | exact He|]. clear e1 e2 He.
  intros [] e1 e2 _ He. case_bool_decide; [|by apply choose_next_sim].
  destruct resume; try (intros oc1 d1; done). by eapply step_rel_ret.
Qed.

Lemma parsed_node_uuid c n : parse_uuid uuid_parse (current_node_id c) = Ok n ->
  is_ok (node_uuid uuid_parse c) = true.
Proof. intros H. unfold node_uuid. rewrite H. by destruct (String.eqb _ _). Qed.

Lemma run_step_sim plan lim c C e1 e2 :
  env_sim C ∅ e1 e2 -> below_counts ∅ C ->
  step_rel lim C (run_step_ plan lim c e1) (run_step_ plan lim c e2).
Proof using DL.
  intros He Hle. unfold run_step. destruct (spec_of _ _) as [spec|]; [|by eapply step_rel_ret].
  eapply step_rel_bind; [apply esim_lift | exact He|]. clear e1 e2 He.
  intros cls e1 e2 _ He. eapply step_rel_bind; [apply esim_lift | exact He|]. clear e1 e2 He.
  intros t e1 e2 _ He. destruct cls as [cls|]; [|by eapply step_rel_ret].
  destruct t as [t|]; [|by eapply step_rel_ret]. destruct (construct cls); [|by eapply step_rel_ret].
  eapply step_rel_bind; [apply esim_lift | exact He|]. clear e1 e2 He.
  intros node e1 e2 Hnode He. destruct Hnode as [d0 [= Hnode _]].
  eapply step_rel_bind; [apply esim_repo, blind_node_created | exact He|]. clear e1 e2 He.
  intros nr e1 e2 _ He. eapply step_rel_bind; [|exact He|].
  { apply esim_bind; [apply esim_lift|]. intros. apply esim_emit. }
  clear e1 e2 He. intros [] e1 e2 _ He.
  match goal with |- context [execute ?a ?b ?g e1] => set (c' := b); set (cfg := g) end.
  destruct (execute cls c' cfg e1) as [rr d1] eqn:H1.
  destruct (esim_run _ _ _ _ _ _ _ (dl_esim cls c' cfg) He H1) as (d2 & H2 & Hd).
  rewrite H2. destruct rr; [|by eapply step_rel_ret].
  apply finish_node_sim; [|done..]. exact (parsed_node_uuid _ _ Hnode).
Qed.

(** Both differences together: the executor's step on its context, against the
    activity's step on the reloaded one. *)
Lemma step_reloaded plan lim c C e1 e2 :
  env_sim C ∅ e1 e2 -> below_counts ∅ C ->
  step_rel lim C (run_step_ plan lim c e1) (run_step_ plan lim (fresh plan c) e2).
Proof using DL.
  intros He Hle oc1 d1 H1. destruct (run_step_sim plan lim c C e1 e2 He Hle oc1 d1 H1)
    as (oc2 & d2 & H2 & Hrel). pose proof (run_step_erase plan lim c e2) as Her. rewrite H2 in Her.
  destruct (run_step_ plan lim (fresh plan c) e2) as [[oc3|x] d3]; [|done].
  assert (d3 = d2) as -> by exact (eq_sym (f_equal snd Her)).
  assert (E : erase_ctx oc2 = erase_ctx oc3) by exact (f_equal (fun p => match p.1 with
    Ok a => a | Err _ => erase_ctx oc2 end) Her). clear Her.
  pose proof (f_equal oc_status E) as E1. pose proof (f_equal oc_node_run E) as E2.
  pose proof (f_equal oc_node_data E) as E3. pose proof (f_equal oc_next E) as E4.
  pose proof (f_equal oc_reason E) as E5. pose proof (f_equal oc_context E) as E6.
  pose proof (f_equal oc_loop_keys E) as E7. clear E. simpl in E1, E2, E3, E4, E5, E6, E7.
  exists oc3, d2. split; [done|]. unfold edge_failure in *. rewrite <- E7, <- E1, <- E2, <- E5.
  destruct Hrel as [([] & Hrel)|Hrel]; [left | by right]. split; [|done]. split; congruence.
Qed.

(** ** What a step leaves behind *)

Hypothesis dump_data : forall r, exists d,
  dump_result r = PDict d /\ dict_getv "data" d = PDict (data r).

#[local] Instance cache_frame : EventFrame state_cache.
Proof. by split. Qed.

(** The parts of a context that no step changes. *)
Definition ids (c : ExecutionContext) :=
  (tenant_id c, user_id c, session_id c, input_payload c, flow_run_id c, correlation_id c).

(** The node run of the outcome carries the reported output. *)
Definition run_recorded (s : store) (oc : NodeStepOutcome) : Prop :=
  forall n, oc_node_run oc = Some n -> exists nr d,
    node_runs s !! n = Some nr /\ or_empty (nr_output nr) = PDict d /\
    (oc_status oc <> FAILED -> dict_or_empty (dict_getv "data" d) = oc_node_data oc).

(** The next activity will read this context back. *)
Definition saved (s : store) (c : ExecutionContext) : Prop :=
  exists g ss, graph_states s !! flow_run_id c = Some g /\
    (state_cache s !! flow_run_id c = None \/ state_cache s !! flow_run_id c = Some g) /\
    snapshot_validate (or_empty (gs_state g)) = Ok ss /\
    ss_state ss = state c /\ ss_memory ss = memory c /\ ss_metadata ss = metadata c.

Record step_left (c : ExecutionContext) (oc : NodeStepOutcome) (e' : @env W) : Prop := {
  sl_ids : ids (oc_context oc) = ids c;
  sl_run : run_recorded (db e') oc;
  sl_some : oc_status oc <> FAILED -> is_Some (oc_node_run oc);
  sl_keys : oc_status oc = TERMINAL \/ oc_status oc = STEP_NEEDS_INPUT -> oc_loop_keys oc = [];
  sl_here : oc_status oc <> ADVANCE -> current_node_id (oc_context oc) = current_node_id c;
  sl_next : oc_status oc = ADVANCE -> oc_next oc = Some (current_node_id (oc_context oc));
  sl_saved : oc_status oc = ADVANCE -> saved (db e') (oc_context oc);
  sl_metadata : oc_status oc = TERMINAL -> exists st mem,
    saved (db e') (advance_to (current_node_id c) st mem [] (oc_context oc));
}.

Lemma usage_keeps_nodes c n r : respects (keeps node_runs) (_record_usage (W := W) c n r).
Proof.
  unfold _record_usage. destruct (usage r) as [u|]; [|frame_step].
  frame_step; [|frame_step]. frame_step.
  - destruct (agent_version_id u) as [v|]; [|frame_step]. frame_step; [|frame_step; [|frame_step]].
    + apply repo_keeps. intros s. unfold create_agent_run, uuid4, mbind_, mget, mmodify.
      by case_bool_decide.
    + apply repo_keeps. intros s. unfold update_agent_run_result, mbind_, mget, mmodify.
      by destruct (agent_runs s !! _).
  - frame_step; [by apply repo_keeps | frame_step].
Qed.

Lemma checkpoint_saved c st mem n s :
  forallb is_dict mem = true ->
  graph_states s !! flow_run_id c =
    Some {| gs_state := checkpoint c st mem PNone; gs_last_node_run := n |} ->
  state_cache s !! flow_run_id c = None ->
  forall x out, saved s (advance_to x st mem out c).
Proof.
  intros Hmem Hg Hcache x out. do 2 eexists. split; [exact Hg|]. split; [by left|].
  split; [unfold snapshot_validate; simpl; rewrite Hmem; reflexivity | done].
Qed.

(** No node of the plan is a human fallback. *)
Definition no_fallback (ns : list (string * pydict)) : Prop :=
  forall x, is_human_fallback (spec_of ns x) = false.

Lemma choose_next_left ns es t n c st mem r lim e oc e' :
  no_fallback ns -> choose_ ns es t n c st mem r lim e = (Ok oc, e') ->
  oc_node_run oc = Some n /\ oc_node_data oc = data r /\ ids (oc_context oc) = ids c /\
  (oc_status oc = TERMINAL -> oc_loop_keys oc = []) /\
  match oc_status oc with
  | ADVANCE => exists x, oc_next oc = Some x /\ oc_context oc = advance_to x st mem (data r) c
  | STEP_NEEDS_INPUT => False
  | _ => oc_context oc = c
  end.
Proof.
  intros Hnf. unfold choose_next. destruct (is_in t TERMINAL_NODE_TYPES); [by intros [= <- <-]|].
  unfold mbind_, mmodify. destruct (evaluate_ _ _ _ _ _) as [[[|x [|]]|er] e1].
  4: destruct (is_domain_validation er); [|done].
  all: intros [= <- <-]; simpl; try done. unfold next_context. rewrite Hnf.
  split_and!; [done..|by exists x].
Qed.

Lemma finish_node_left ns es t n cfg c r lim e oc e' :
  no_fallback ns -> forallb is_dict (memory c) = true ->
  (forall m, result_memory r = Some m -> forallb is_dict m = true) ->
  finish_ ns es t n cfg c r lim e = (Ok oc, e') -> step_left c oc e'.
Proof using dump_data.
  intros Hnf Hmem Hres H. unfold finish_node in H. set (c' := after_node r c) in *.
  assert (Hmem' : forallb is_dict (new_memory_of c' r) = true).
  { unfold new_memory_of. destruct (result_memory r); [by apply Hres | done]. }
  apply mbind_ok in H as ([] & e1 & H1 & H). apply mbind_ok in H as ([] & e2 & H2 & H).
  apply mbind_ok in H as (st & e3 & H3 & H). injection H3 as _ <-.
  apply mbind_ok in H as (resume & e4 & H4 & H). injection H4 as Hres4 <-.
  apply mbind_ok in H as ([] & e5 & H5 & H). apply mbind_ok in H as ([] & e6 & H6 & H).
  assert (Hrun : exists nr d, node_runs (db e6) !! n = Some nr /\ or_empty (nr_output nr) = PDict d /\
    dict_or_empty (dict_getv "data" d) = data r).
  { destruct (dump_data r) as (d & Hd & Hdata). unfold repo, update_node_run_result, mbind_, mget in H1.
    destruct (node_runs (db e) !! n) as [nr|]; [|done]. injection H1 as <-.
    apply (respects_run (keeps node_runs)) in H2; [|apply usage_keeps_nodes].
    apply (respects_run (keeps node_runs)) in H5;
      [|unfold _emit_node_completed; frame_step; [frame_step | apply emit_keeps; apply _]].
    apply (respects_run (keeps node_runs)) in H6; [|by apply repo_keeps].
    unfold keeps in *. rewrite H6, H5, H2. simpl. rewrite lookup_insert_eq. do 2 eexists.
    split; [reflexivity|]. simpl. rewrite Hd. unfold or_empty.
    destruct (truthy (PDict d)) eqn:Ht; [by rewrite Hdata|].
    destruct d; [by rewrite Hdata | done]. }
  assert (Hg : graph_states (db e6) !! flow_run_id c =
      Some {| gs_state := checkpoint c' st (new_memory_of c' r) resume; gs_last_node_run := Some n |} /\
    state_cache (db e6) !! flow_run_id c = None).
  { unfold repo, upsert_graph_state, mbind_, mmodify in H6. injection H6 as <-. simpl.
    by rewrite lookup_insert_eq, lookup_delete_eq. }
  clear H1 H2 H5 H6. case_bool_decide as Hs.
  { destruct resume; try done. injection H as <- <-. split; try done.
    intros n' [= <-]. destruct Hrun as (nr & d & ? & ? & ?). eauto. }
  injection Hres4 as <-. destruct Hg as [Hg Hcache].
  pose proof (checkpoint_saved c' st (new_memory_of c' r) (Some n) (db e6) Hmem' Hg Hcache) as Hsv.
  pose proof (fun (B : Type) (view : store -> B) (F : EventFrame view) =>
    respects_run _ _ _ _ _ (choose_next_keeps (W := W) uuid_parse same true batch_size view ns es t n c' st
      (new_memory_of c' r) r lim) H) as Hk. unfold keeps in Hk.
  destruct (choose_next_left _ _ _ _ _ _ _ _ _ _ _ _ Hnf H) as (Hn & Hd & Hids & Hkeys & Hst).
  assert (Hsv' : forall x out, saved (db e') (advance_to x st (new_memory_of c' r) out c')).
  { intros x out. destruct (Hsv x out) as (g & ss & Hx). exists g, ss.
    by rewrite (Hk _ graph_states _), (Hk _ state_cache _). }
  split.
  - exact Hids.
  - intros n'. rewrite Hn, Hd, (Hk _ node_runs _). intros [= <-].
    destruct Hrun as (nr & d & ? & ? & ?). eauto.
  - by rewrite Hn.
  - intros [Ha|Ha]; [by apply Hkeys|]. by rewrite Ha in Hst.
  - destruct (oc_status oc); try done; by rewrite Hst.
  - intros Ha. rewrite Ha in Hst. destruct Hst as (x & -> & ->). done.
  - intros Ha. rewrite Ha in Hst. destruct Hst as (x & _ & ->). apply Hsv'.
  - intros Ha. rewrite Ha in Hst. rewrite Hst. do 2 eexists. apply Hsv'.
Qed.

Lemma run_step_left plan lim c e oc e' :
  no_fallback (plan_nodes plan) -> forallb is_dict (memory c) = true ->
  run_step_ plan lim c e = (Ok oc, e') -> step_left c oc e'.
Proof using DL dump_data.
  intros Hnf Hmem. assert (Hfail : forall t c' x r ex, ids c' = ids c ->
    current_node_id c' = current_node_id c -> step_left c (failed t None [] c' x r ex) e').
  { intros t c' x r ex H1 H2. split; try done. by intros [|]. }
  unfold run_step. destruct (spec_of _ _) as [spec|]; [|intros [= <- <-]; by apply Hfail].
  intros (cls & e1 & H1 & H)%mbind_ok. injection H1 as _ <-.
  apply mbind_ok in H as (t & e2 & H2 & H). injection H2 as _ <-.
  destruct cls as [cls|]; [|injection H as <- <-; by apply Hfail].
  destruct t as [t|]; [|injection H as <- <-; by apply Hfail].
  destruct (construct cls); [|injection H as <- <-; by apply Hfail].
  apply mbind_ok in H as (node & e3 & H3 & H). injection H3 as _ <-.
  apply mbind_ok in H as (nr & e4 & H4 & H). apply mbind_ok in H as ([] & e5 & H5 & H).
  match type of H with context [execute ?a ?b ?g e5] => set (c' := b) in *; set (cfg := g) in * end.
  destruct (execute cls c' cfg e5) as [[r|x] e6] eqn:Hex.
  - apply finish_node_left in H; [|done|done|by intros m; apply (dl_memory _ _ _ _ _ _ _ Hex)].
    destruct H as [L1 L2 L3 L4 L5 L6 L7 L8]. by split.
  - injection H as <- <-. split; try done. intros n [= <-].
    pose proof (respects_run _ _ _ _ _ (dl_nodes cls c' cfg) Hex) as Hk. unfold keeps in Hk.
    apply (respects_run (keeps node_runs)) in H5;
      [|unfold _emit_node_started; frame_step; [frame_step | apply emit_keeps; apply _]].
    unfold keeps in H5. simpl. rewrite Hk, H5.
    unfold repo, create_node_run, uuid4, mbind_, mmodify in H4. destruct traced; [|done].
    injection H4 as <- <-. simpl. rewrite lookup_insert_eq. by do 2 eexists.
Qed.

(** ** Activities over related environments *)

Variable uuid_str : uuid -> string.
Variable int_of_string : string -> option Z.
Variable py_str : pyval -> string.
Variable application_error_str : string -> string -> string.
Variable resolve_policy : uuid -> uuid -> res exc pydict.
Variable snapshot_by_id snapshot_by_version : uuid -> option (Snapshot * string).
Hypothesis uuid_round : forall u, uuid_parse (uuid_str u) = Some u.
Hypothesis uuid_text : forall u, uuid_str u <> "".

Abbreviation resolve_plan_ := (_resolve_plan (W := W) snapshot_by_id snapshot_by_version).
Abbreviation execute_node_ :=
  (execute_node uuid_parse uuid_str construct execute dump_result same true traced batch_size
     snapshot_by_id snapshot_by_version).
Abbreviation finalize_ := (_finalize (W := W) uuid_parse true batch_size application_error_str).
Abbreviation loop_ :=
  (workflow_loop uuid_parse uuid_str construct execute dump_result same true traced batch_size
     application_error_str snapshot_by_id snapshot_by_version).
Abbreviation traverse_ :=
  (traverse uuid_parse uuid_str construct execute dump_result same true traced batch_size).

(** The two engines hold the same tables and the same world. *)
Definition linked (e : @env W) (te : @tenv W) : Prop :=
  strip (db e) = strip (db (te_env te)) /\ world e = world (te_env te).

(** The payload names the flow run and agrees with its row. *)
Record payload_ok (p : FlowRunWorkflowInput) (fr : flow_run) (f tenant : uuid) : Prop := {
  po_flow_run : uuid_parse (wi_flow_run p) = Some f;
  po_tenant : uuid_parse (wi_tenant p) = Some tenant;
  po_session : uuid_parse (wi_session p) = Some (fr_session fr);
  po_correlation : uuid_parse (wi_correlation p) = Some (fr_correlation fr);
  po_flow : is_Some (uuid_parse (wi_flow p));
  po_user : wi_user p = fr_user fr;
  po_interaction : is_Some (fr_interaction fr);
}.

(** The plan of the flow run is cached, or compiles. *)
Definition plan_ready (fr : flow_run) (plan : ExecutionPlan) (te : @tenv W) : Prop :=
  exists snapshot hash,
    match fr_snapshot fr ≫= snapshot_by_id with
    | Some s => Some s | None => snapshot_by_version (fr_version fr) end = Some (snapshot, hash) /\
    match plan_cache te !! hash with
    | Some p => p = plan
    | None => compile snapshot hash (Some []) = Ok plan
    end.

Lemma resolve_plan_ready fr plan te :
  plan_ready fr plan te -> exists te', resolve_plan_ fr te = (Ok plan, te') /\
    te_env te' = te_env te /\ plan_ready fr plan te'.
Proof.
  intros (sn & h & Hf & Hc). unfold _resolve_plan. rewrite Hf. unfold mbind_ at 1, mget.
  destruct (plan_cache te !! h) as [q|] eqn:Hq.
  - subst q. exists te. split; [done|]. split; [done|]. exists sn, h. by rewrite Hq.
  - rewrite Hc. eexists. split; [reflexivity|]. split; [done|]. exists sn, h. split; [done|].
    simpl. by rewrite lookup_insert_eq.
Qed.

(** Reading the graph state back, through the cache. *)
Lemma get_saved (te : @tenv W) c : saved (db (te_env te)) c -> exists g ss te',
  trepo (get_graph_state (flow_run_id c)) te = (Ok (Some g), te') /\
  snapshot_validate (or_empty (gs_state g)) = Ok ss /\
  ss_state ss = state c /\ ss_memory ss = memory c /\ ss_metadata ss = metadata c /\
  strip (db (te_env te')) = strip (db (te_env te)) /\ world (te_env te') = world (te_env te) /\
  counters (te_env te') = counters (te_env te) /\ plan_cache te' = plan_cache te.
Proof.
  intros (g & ss & Hg & Hc & Hv & H1 & H2 & H3). exists g, ss.
  unfold trepo, in_env, repo, get_graph_state, mbind_, mget, mmodify, mret.
  destruct Hc as [Hc|Hc]; rewrite Hc; rewrite ?Hg; eexists; (split; [reflexivity|]); by split_and!.
Qed.

Lemma activity_ok {S A} n (act : M S A) s a s' :
  act s = (Ok a, s') -> execute_activity n act s = (Ok a, s').
Proof. destruct n; [done|]. simpl. unfold mtry. by intros ->. Qed.

(** The activity runs the step on the reloaded context. *)
Lemma execute_node_run p fr f tenant plan lim c (te : @tenv W) k :
  payload_ok p fr f tenant -> flow_runs (db (te_env te)) !! f = Some fr ->
  ids c = (tenant, fr_user fr, fr_session fr, or_empty (fr_input fr), f, fr_correlation fr) ->
  saved (db (te_env te)) c -> plan_ready fr plan te ->
  exists te1, strip (db (te_env te1)) = strip (db (te_env te)) /\
    world (te_env te1) = world (te_env te) /\ counters (te_env te1) = ∅ /\ plan_ready fr plan te1 /\
    forall oc v, run_step_ plan lim (fresh plan c) (te_env te1) = (Ok oc, v) ->
      execute_node_ {| en_flow_run := wi_flow_run p; en_tenant := wi_tenant p; en_flow := wi_flow p;
        en_node := current_node_id c; en_step := k; en_loop_limit := lim |} te =
      (Ok (node_output_of uuid_str oc), with_env v te1).
Proof.
  intros [Pf Pt Ps Pc [fl Pfl] Pu [i Pi]] Hfr Hids Hsv Hplan.
  assert (Hf : flow_run_id c = f) by (by injection Hids). rewrite <- Hf in *.
  destruct (get_saved te c Hsv) as (g & ss & te1 & Hg & Hv & S1 & S2 & S3 & D1 & D2 & D3 & D4).
  assert (Hplan1 : plan_ready fr plan te1) by (unfold plan_ready; by rewrite D4).
  destruct (resolve_plan_ready fr plan te1 Hplan1) as (te2 & Hr & Henv & Hplan2).
  exists {| te_env := set_loops ∅ [] (te_env te2); plan_cache := plan_cache te2;
            idempotency_results := idempotency_results te2 |}.
  cbn [te_env set_loops db world counters]. rewrite Henv. split_and!; [done..|exact Hplan2|].
  intros oc v Hstep. unfold execute_node, UUID_, parse_uuid. cbn [en_flow_run en_tenant en_flow en_node en_loop_limit].
  rewrite Pf, Pt, Pfl.
  rewrite (mbind_run _ _ _ (Ok (flow_run_id c)) te eq_refl).
  erewrite (mbind_run (trepo (get_flow_run _)) _ _ (Ok (Some fr)) te)
    by (unfold trepo, in_env, repo, get_flow_run, mbind_, mget, mret; rewrite Hfr; by destruct te as [[]]).
  rewrite (mbind_run _ _ _ _ _ Hg), Pi, (mbind_run _ _ _ _ _ Hr), Hv.
  rewrite (mbind_run _ _ _ (Ok ss) te2 eq_refl), (mbind_run _ _ _ (Ok tenant) te2 eq_refl).
  rewrite (mbind_run _ _ _ (Ok fl) te2 eq_refl).
  erewrite (mbind_run (in_env (mmodify _)) _ _ (Ok tt)) by reflexivity.
  assert (Hc : reload_context plan tenant (flow_run_id c) (current_node_id c) fr ss = fresh plan c).
  { unfold reload_context, fresh. rewrite S1, S2, S3. injection Hids as -> -> -> -> ->. by f_equal. }
  rewrite Hc. unfold mbind_, in_env, with_env. cbn [te_env].
  rewrite <- Henv in Hstep. cbn [te_env] in Hstep. rewrite Hstep. done.
Qed.

(** ** Endings *)

Lemma linked_run {A} (m : M (@env W) A) e te r e' :
  esim m -> linked e te -> m e = (r, e') ->
  exists te', in_env m te = (r, te') /\ linked e' te' /\ te' = with_env (m (te_env te)).2 te.
Proof.
  intros Hm [Hdb Hw] H. destruct (esim_run m (counters e) (counters (te_env te)) _ _ _ _ Hm
    ltac:(by split) H) as (v & Hv & [? ?]). unfold in_env. rewrite Hv. eexists.
  split; [reflexivity|]. split; [by split | done].
Qed.

Lemma trepo_saved {A} (m : M store A) te c :
  (forall s, graph_states (m s).2 = graph_states s) ->
  (forall s, state_cache (m s).2 = state_cache s) ->
  saved (db (te_env te)) c -> saved (db (repo (W := W) m (te_env te)).2) c.
Proof.
  intros H1 H2. unfold saved, repo. specialize (H1 (db (te_env te))). specialize (H2 (db (te_env te))).
  destruct (m (db (te_env te))) as [r s]. simpl in *. by rewrite H1, H2.
Qed.

Lemma nonempty_text x : nonempty (Some (uuid_str x)) = Some (uuid_str x).
Proof using uuid_text. pose proof (uuid_text x). simpl. by destruct (uuid_str x). Qed.

(** The last node's output, read back from its row. *)
Lemma last_output_read te n nr d :
  node_runs (db (te_env te)) !! n = Some nr -> or_empty (nr_output nr) = PDict d ->
  _last_node_output (W := W) uuid_parse (Some (uuid_str n)) te =
    (Ok (dict_or_empty (dict_getv "data" d)), te).
Proof using uuid_round uuid_text.
  intros Hn Hd. unfold _last_node_output. rewrite nonempty_text. unfold UUID_, parse_uuid. rewrite uuid_round.
  rewrite (mbind_run _ _ _ (Ok n) te eq_refl).
  erewrite (mbind_run (trepo (get_node_run _)) _ _ (Ok (Some nr)) te)
    by (unfold trepo, in_env, repo, get_node_run, mbind_, mget, mret; rewrite Hn; by destruct te as [[]]).
  by rewrite Hd.
Qed.

(** An event of the flow, emitted from the payload or from a context. *)
Lemma emit_flow_event_run p fr f tenant c ty v o fl ln lr e te e' :
  payload_ok p fr f tenant ->
  ids c = (tenant, fr_user fr, fr_session fr, or_empty (fr_input fr), f, fr_correlation fr) ->
  linked e te -> emit true batch_size c ty v None None e = (Ok tt, e') ->
  exists te', emit_flow_event uuid_parse true batch_size {|
      fi_flow_run := wi_flow_run p; fi_tenant := wi_tenant p; fi_session := wi_session p;
      fi_user := wi_user p; fi_correlation := wi_correlation p; fi_outcome := o; fi_failure := fl;
      fi_last_node := ln; fi_last_node_run := lr; fi_idempotency := wi_idempotency p |} f ty v te
    = (Ok tt, te') /\ linked e' te' /\ te' = with_env (emit true batch_size c ty v None None (te_env te)).2 te.
Proof.
  intros [Pf Pt Ps Pc Pfl Pu Pi] Hids Hl He. unfold emit_flow_event, UUID_, parse_uuid.
  cbn [fi_tenant fi_session fi_correlation fi_user]. rewrite Pt, Ps, Pc, Pu.
  rewrite (mbind_run _ _ _ (Ok tenant) te eq_refl), (mbind_run _ _ _ (Ok (fr_session fr)) te eq_refl),
    (mbind_run _ _ _ (Ok (fr_correlation fr)) te eq_refl).
  injection Hids as H1 H2 H3 H4 H5 H6.
  match goal with |- context [emit true batch_size ?c' ty v None None] =>
    assert (Hc : emit (W := W) true batch_size c' ty v None None = emit true batch_size c ty v None None)
      by (unfold emit; simpl; by rewrite H1, H2, H3, H5, H6) end.
  rewrite Hc. eapply linked_run; [apply esim_emit | exact Hl | exact He].
Qed.

Lemma release_linked q (te : @tenv W) :
  exists te', _release_idempotency q te = (Ok tt, te') /\ te_env te' = te_env te.
Proof. unfold _release_idempotency. destruct (nonempty _); by eexists. Qed.

Definition final_result (p : FlowRunWorkflowInput) (o : OutcomeLiteral) (fl : option string) (k : nat) :
    FlowRunWorkflowResult :=
  {| wr_flow_run := wi_flow_run p; wr_outcome := o; wr_failure := fl; wr_steps := k |}.

Lemma finalize_run p o fl ln lr k te te' :
  finalize_flow_run uuid_parse true batch_size application_error_str {|
      fi_flow_run := wi_flow_run p; fi_tenant := wi_tenant p; fi_session := wi_session p;
      fi_user := wi_user p; fi_correlation := wi_correlation p; fi_outcome := o; fi_failure := fl;
      fi_last_node := ln; fi_last_node_run := lr; fi_idempotency := wi_idempotency p |} te
    = (Ok tt, te') ->
  finalize_ p o fl ln lr k te = (Ok (final_result p o fl k), te').
Proof. intros H. unfold _finalize. by rewrite (mbind_run _ _ _ _ _ (activity_ok _ _ _ _ _ H)). Qed.

(** Completion. *)
Lemma finalize_completed p fr f tenant c n nr d st mem k e te e' :
  payload_ok p fr f tenant ->
  ids c = (tenant, fr_user fr, fr_session fr, or_empty (fr_input fr), f, fr_correlation fr) ->
  linked e te -> node_runs (db (te_env te)) !! n = Some nr -> or_empty (nr_output nr) = PDict d ->
  saved (db (te_env te)) (advance_to (current_node_id c) st mem [] c) ->
  _complete_flow true batch_size c (Some n) (dict_or_empty (dict_getv "data" d)) e = (Ok tt, e') ->
  exists te', finalize_ p OC_COMPLETED None (Some (current_node_id c)) (Some (uuid_str n)) k te =
    (Ok (final_result p OC_COMPLETED None k), te') /\ linked e' te'.
Proof using uuid_round uuid_text.
  intros Hp Hids Hl Hn Hd Hsv H. assert (Hf : flow_run_id c = f) by (by injection Hids).
  unfold _complete_flow in H. rewrite Hf in H.
  apply mbind_ok in H as ([] & e1 & H1 & H). apply mbind_ok in H as ([] & e2 & H2 & H3).
  destruct (linked_run _ _ _ _ _ (esim_repo _ (blind_update _ _)) Hl H1) as (te1 & T1 & L1 & E1).
  destruct (linked_run _ _ _ _ _ (esim_repo _ (blind_interaction _ _ _)) L1 H2) as (te2 & T2 & L2 & E2).
  assert (S1 : saved (db (te_env te1)) (advance_to (current_node_id c) st mem [] c)).
  { rewrite E1. by apply trepo_saved. }
  assert (S2 : saved (db (te_env te2)) (advance_to (current_node_id c) st mem [] c)).
  { rewrite E2. apply trepo_saved; [| |done]; intros s; simpl;
      by destruct (flow_runs s !! f ≫= fr_interaction). }
  destruct (get_saved _ _ S2) as (g & ss & te3 & T3 & V & _ & _ & Hmd & D1 & D2 & _).
  assert (L3 : linked e2 te3) by (destruct L2; split; congruence).
  destruct (emit_flow_event_run p fr f tenant c _ _ OC_COMPLETED None (Some (current_node_id c))
    (Some (uuid_str n)) _ _ _ Hp Hids L3 H3) as (te4 & T4 & L4 & _).
  destruct (release_linked {| fi_flow_run := wi_flow_run p; fi_tenant := wi_tenant p;
    fi_session := wi_session p; fi_user := wi_user p; fi_correlation := wi_correlation p;
    fi_outcome := OC_COMPLETED; fi_failure := None; fi_last_node := Some (current_node_id c);
    fi_last_node_run := Some (uuid_str n); fi_idempotency := wi_idempotency p |} te4) as (te5 & T5 & E5).
  exists te5. split; [|destruct L4; split; rewrite E5; done]. apply finalize_run.
  unfold finalize_flow_run, UUID_, parse_uuid. cbn [fi_flow_run fi_outcome fi_last_node_run].
  rewrite (po_flow_run _ _ _ _ Hp), (mbind_run _ _ _ (Ok f) te eq_refl).
  rewrite (mbind_run _ _ _ _ _ (last_output_read _ _ _ _ Hn Hd)).
  erewrite (mbind_run _ _ te (Ok tt) te4); [exact T5|].
  rewrite (mbind_run (trepo _) _ _ _ _ T1). unfold _optional_uuid. rewrite nonempty_text.
  unfold UUID_, parse_uuid. rewrite uuid_round, (mbind_run _ _ _ (Ok (Some n)) te1 eq_refl).
  rewrite (mbind_run (trepo _) _ _ _ _ T2). unfold _emit_flow_completed, UUID_, parse_uuid.
  cbn [fi_flow_run fi_last_node]. rewrite (po_flow_run _ _ _ _ Hp), (mbind_run _ _ _ (Ok f) te2 eq_refl).
  cbn [advance_to flow_run_id] in T3. rewrite Hf in T3. rewrite (mbind_run _ _ _ _ _ T3), V.
  cbn [rbind]. rewrite Hmd. cbn [advance_to metadata]. exact T4.
Qed.

(** A pause. *)
Lemma finalize_waiting p fr f tenant c oc n nr d k e te e' :
  payload_ok p fr f tenant -> flow_run_id c = f -> linked e te ->
  oc_node_run oc = Some n -> oc_node_data oc = dict_or_empty (dict_getv "data" d) ->
  node_runs (db (te_env te)) !! n = Some nr -> or_empty (nr_output nr) = PDict d ->
  pause_flow c oc e = (Ok tt, e') ->
  exists te', finalize_ p OC_WAITING None (Some (current_node_id c)) (Some (uuid_str n)) k te =
    (Ok (final_result p OC_WAITING None k), te') /\ linked e' te'.
Proof using uuid_round uuid_text.
  intros Hp Hf Hl Ho Hdata Hn Hd H. unfold pause_flow in H. rewrite Hf, Ho, Hdata in H.
  apply mbind_ok in H as ([] & e1 & H1 & H). apply mbind_ok in H as ([] & e2 & H2 & H3).
  destruct (linked_run _ _ _ _ _ (esim_repo _ (blind_update _ _)) Hl H1) as (te1 & T1 & L1 & _).
  destruct (linked_run _ _ _ _ _ (esim_repo _ (blind_interaction _ _ _)) L1 H2) as (te2 & T2 & L2 & _).
  destruct (linked_run _ _ _ _ _ (esim_repo _ (blind_update _ _)) L2 H3) as (te3 & T3 & L3 & _).
  destruct (release_linked {| fi_flow_run := wi_flow_run p; fi_tenant := wi_tenant p;
    fi_session := wi_session p; fi_user := wi_user p; fi_correlation := wi_correlation p;
    fi_outcome := OC_WAITING; fi_failure := None; fi_last_node := Some (current_node_id c);
    fi_last_node_run := Some (uuid_str n); fi_idempotency := wi_idempotency p |} te3) as (te4 & T4 & E4).
  exists te4. split; [|destruct L3; split; rewrite E4; done]. apply finalize_run.
  unfold finalize_flow_run, UUID_, parse_uuid. cbn [fi_flow_run fi_outcome fi_last_node_run].
  rewrite (po_flow_run _ _ _ _ Hp), (mbind_run _ _ _ (Ok f) te eq_refl).
  rewrite (mbind_run _ _ _ _ _ (last_output_read _ _ _ _ Hn Hd)).
  erewrite (mbind_run _ _ te (Ok tt) te3); [exact T4|].
  rewrite (mbind_run (trepo _) _ _ _ _ T1). unfold _optional_uuid. rewrite nonempty_text.
  unfold UUID_, parse_uuid. rewrite uuid_round, (mbind_run _ _ _ (Ok (Some n)) te1 eq_refl).
  rewrite (mbind_run (trepo _) _ _ _ _ T2). exact T3.
Qed.

(** The recorded reason of a failure. *)
Definition error_reason (v : pyval) : pyval :=
  match v with PDict d => dict_getv "reason" d | _ => PNone end.

(** How the two engines leave flow run [f]: the same tables; for a failed run the
    error details may differ, but not the reason. *)
Definition same_ending (f : uuid) (s1 s2 : store) : Prop :=
  strip s1 = strip s2 \/
  exists r err1 err2,
    flow_runs s1 = <[f := with_status "FAILED" "FAILED" (with_result (fr_output r) err1 true r)]> (flow_runs s2) /\
    flow_runs s2 !! f = Some (with_status "FAILED" "FAILED" (with_result (fr_output r) err2 true r)) /\
    error_reason err1 = error_reason err2 /\
    node_runs s1 = node_runs s2 /\ graph_states s1 = graph_states s2 /\
    interactions s1 = interactions s2 /\ agent_runs s1 = agent_runs s2 /\
    usage_ledger s1 = usage_ledger s2.

(** A node run the failure refers to, if any, is readable. *)
Definition run_readable (s : store) (n : option uuid) : Prop :=
  forall x, n = Some x -> exists nr d, node_runs s !! x = Some nr /\ or_empty (nr_output nr) = PDict d.

Lemma last_output_readable te n : run_readable (db (te_env te)) n ->
  exists d, _last_node_output (W := W) uuid_parse (uuid_str <$> n) te = (Ok d, te).
Proof using uuid_round uuid_text.
  intros H. destruct n as [n|]; [|by eexists]. destruct (H n eq_refl) as (nr & d & Hn & Hd).
  eexists. by apply (last_output_read te n nr d).
Qed.

Lemma fail_runs f v err (s : store) fr :
  truthy err = true -> flow_runs s !! f = Some fr ->
  flow_runs (fail_flow_run f v err s).2 =
    <[f := with_status "FAILED" "FAILED" (with_result (fr_output fr) err true fr)]> (flow_runs s).
Proof.
  intros Ht Hf. simpl. rewrite Ht. apply map_eq. intros i. destruct (decide (i = f)) as [->|Hne].
  - by rewrite lookup_alter_eq, lookup_insert_eq, Hf.
  - by rewrite lookup_alter_ne, lookup_insert_ne.
Qed.

Lemma failed_same_ending f v err1 err2 s1 s2 t1 t2 fr :
  core s1 = core s2 -> flow_runs s1 !! f = Some fr -> truthy err1 = true -> truthy err2 = true ->
  error_reason err1 = error_reason err2 ->
  core t1 = core (fail_flow_run f v err1 s1).2 -> core t2 = core (fail_flow_run f v err2 s2).2 ->
  same_ending f t1 t2.
Proof.
  intros Hc Hf T1 T2 Hr H1 H2. right. exists fr, err1, err2.
  pose proof Hf as Hf2. injection Hc as C1 C2 C3 C4 C5 C6. rewrite C1 in Hf2.
  pose proof (fail_runs f v err1 s1 fr T1 Hf) as F1. pose proof (fail_runs f v err2 s2 fr T2 Hf2) as F2.
  injection H1 as E1 E2 E3 E4 E5 E6. injection H2 as D1 D2 D3 D4 D5 D6. simpl in F1, F2.
  rewrite E1, D1, F1, F2, C1. split_and!; [by rewrite insert_insert_eq | by rewrite lookup_insert_eq
    | done | congruence..].
Qed.

(** Failure. *)
Lemma finalize_failed p fr f tenant c reason fl ex ln n k (e : @env W) te e' :
  payload_ok p fr f tenant -> flow_run_id c = f -> core (db e) = core (db (te_env te)) ->
  flow_runs (db e) !! f = Some fr -> run_readable (db (te_env te)) n -> _failure_reason fl = reason ->
  _fail_flow uuid_str true batch_size c reason ex e = (Ok tt, e') ->
  exists te', finalize_ p OC_FAILED fl ln (uuid_str <$> n) k te = (Ok (final_result p OC_FAILED fl k), te') /\
    same_ending f (db e') (db (te_env te')).
Proof using uuid_round uuid_text.
  intros Hp Hf Hcore Hfr Hn Hfl H. unfold _fail_flow in H. rewrite Hf in H.
  apply mbind_ok in H as ([] & e1 & H1 & H2). injection H1 as H1.
  set (err1 := format_exception _ _ _ _) in H1.
  pose proof (respects_run _ _ _ _ _ (emit_keeps (W := W) true batch_size core _ _ _ _ _) H2) as K2.
  set (v := failure_reason_value reason) in *.
  set (q := {| fi_flow_run := wi_flow_run p; fi_tenant := wi_tenant p;
    fi_session := wi_session p; fi_user := wi_user p; fi_correlation := wi_correlation p;
    fi_outcome := OC_FAILED; fi_failure := fl; fi_last_node := ln;
    fi_last_node_run := uuid_str <$> n; fi_idempotency := wi_idempotency p |}).
  set (err2 := PDict [("correlation_id", PStr (wi_correlation p)); ("reason", PStr v);
    ("code", PStr "ApplicationError"); ("message", PStr (application_error_str v v));
    ("errors", PList []); ("input_data", PDict [])]).
  set (te1 := with_env (set_db (fail_flow_run f v err2 (db (te_env te))).2 (te_env te)) te).
  set (cq := {| tenant_id := tenant; user_id := wi_user p; session_id := fr_session fr; input_payload := PNone;
    flow_run_id := f; correlation_id := fr_correlation fr; current_node_id := "";
    current_node_run_id := None; state := []; memory := []; metadata := []; node_output := [];
    system_prompt := None; system_context := None; context_tools := [] |}).
  destruct (hook_emit_ok cq "FlowFailed" (PDict [("reason", PStr v)]) None None (te_env te1)) as (v2 & V2 & _).
  pose proof (respects_run _ _ _ _ _ (emit_keeps (W := W) true batch_size core _ _ _ _ _) V2) as K3.
  destruct (release_linked q (with_env v2 te1)) as (te2 & T2 & E2).
  exists te2. split.
  - apply finalize_run. fold q. unfold finalize_flow_run, UUID_, parse_uuid. cbn [q fi_flow_run fi_outcome fi_last_node_run].
    rewrite (po_flow_run _ _ _ _ Hp), (mbind_run _ _ _ (Ok f) te eq_refl).
    destruct (last_output_readable te n Hn) as [d Hd]. rewrite (mbind_run _ _ _ _ _ Hd).
    erewrite (mbind_run _ _ te (Ok tt) (with_env v2 te1)); [exact T2|].
    unfold fail_flow_activity, UUID_, parse_uuid. cbn [q fi_flow_run fi_failure fi_correlation].
    rewrite (po_flow_run _ _ _ _ Hp), (mbind_run _ _ _ (Ok f) te eq_refl), Hfl.
    rewrite (mbind_run (trepo _) _ te (Ok tt) te1) by reflexivity.
    unfold emit_flow_event, UUID_, parse_uuid. cbn [q fi_tenant fi_session fi_correlation fi_user].
    rewrite (po_tenant _ _ _ _ Hp), (po_session _ _ _ _ Hp), (po_correlation _ _ _ _ Hp).
    rewrite (mbind_run _ _ _ (Ok tenant) te1 eq_refl), (mbind_run _ _ _ (Ok (fr_session fr)) te1 eq_refl),
      (mbind_run _ _ _ (Ok (fr_correlation fr)) te1 eq_refl).
    unfold in_env. fold v. fold cq. by rewrite V2.
  - rewrite E2. unfold keeps in K2, K3. subst e1.
    by apply (failed_same_ending f v err1 err2 (db e) (db (te_env te)) _ _ fr).
Qed.

(** ** The loops *)

Lemma count_keys_below lim ks C C' :
  below_counts ∅ C -> count_keys lim ks C = Some C' -> below_counts ∅ C'.
Proof.
  revert C. induction ks as [|k ks IH]; intros C H; simpl; [by intros [= <-]|].
  case_match; [done|]. apply IH. intros j. rewrite lookup_empty. simpl.
  destruct (decide (j = k)) as [->|Hne].
  - rewrite lookup_insert_eq. specialize (H k). rewrite lookup_empty in H. simpl in *. lia.
  - rewrite lookup_insert_ne by done. exact (H j).
Qed.

Lemma failure_reason_round r :
  _failure_reason (Some (default "STRUCTURAL_ERROR" (nonempty (Some (failure_reason_value r))))) = r.
Proof. by destruct r. Qed.

Lemma saved_erase s c c' : erase c = erase c' -> saved s c -> saved s c'.
Proof.
  intros H. unfold saved. pose proof (f_equal flow_run_id H) as H1. pose proof (f_equal state H) as H2.
  pose proof (f_equal memory H) as H3. pose proof (f_equal metadata H) as H4. simpl in *.
  by rewrite H1, H2, H3, H4.
Qed.

Lemma saved_memory s c : saved s c -> forallb is_dict (memory c) = true.
Proof.
  intros (g & ss & _ & _ & H & _ & <- & _). revert H. unfold snapshot_validate.
  destruct (or_empty (gs_state g)); try done. unfold rbind.
  repeat case_match; intros; simplify_eq/=; done.
Qed.

Lemma recorded_readable s oc : run_recorded s oc -> run_readable s (oc_node_run oc).
Proof. intros H n Hn. destruct (H n Hn) as (nr & d & ? & ? & _). eauto. Qed.

(** The loop after a step whose activity returned. *)
Lemma loop_step n p summary node cs k te oc te1 :
  execute_node_ {| en_flow_run := wi_flow_run p; en_tenant := wi_tenant p; en_flow := wi_flow p;
    en_node := node; en_step := k; en_loop_limit := ps_loop_limit summary |} te =
    (Ok (node_output_of uuid_str oc), te1) ->
  (oc_status oc = TERMINAL \/ oc_status oc = STEP_NEEDS_INPUT -> oc_loop_keys oc = []) ->
  loop_ (S n) p summary node cs k te =
  match count_keys (ps_loop_limit summary) (oc_loop_keys oc) cs with
  | None => finalize_ p OC_FAILED (Some "EDGE_EVALUATION_ERROR") (Some node) (uuid_str <$> oc_node_run oc) (S k) te1
  | Some cs' =>
      let failure := finalize_ p OC_FAILED (Some (default "STRUCTURAL_ERROR" (nonempty (Some
        (failure_reason_value (default STRUCTURAL_ERROR (oc_reason oc))))))) (Some node)
        (uuid_str <$> oc_node_run oc) (S k) te1 in
      match oc_status oc with
      | STEP_NEEDS_INPUT => finalize_ p OC_WAITING None (Some node) (uuid_str <$> oc_node_run oc) (S k) te1
      | TERMINAL => finalize_ p OC_COMPLETED None (Some node) (uuid_str <$> oc_node_run oc) (S k) te1
      | FAILED => failure
      | ADVANCE =>
          match oc_next oc with
          | Some x => loop_ n p summary x cs' (S k) te1
          | None => finalize_ p OC_FAILED (Some "STRUCTURAL_ERROR") (Some node)
                      (uuid_str <$> oc_node_run oc) (S k) te1
          end
      end
  end.
Proof.
  intros H Hk. cbn [workflow_loop]. rewrite (mbind_run _ _ _ _ _ (activity_ok _ _ _ _ _ H)).
  unfold node_output_of. destruct (oc_status oc); cbn -[count_keys nonempty];
    rewrite ?Hk by auto; simpl count_keys; try reflexivity.
  all: destruct (count_keys _ _ _); [|done]; first [done | by destruct (oc_next oc)].
Qed.

(** The ids every context of a flow run carries. *)
Definition flow_ids (fr : flow_run) (f tenant : uuid) :=
  (tenant, fr_user fr, fr_session fr, or_empty (fr_input fr), f, fr_correlation fr).

Section one_flow.
Variables (p : FlowRunWorkflowInput) (fr : flow_run) (f tenant : uuid).
Hypothesis payload : payload_ok p fr f tenant.
Variable plan : ExecutionPlan.
Hypothesis plan_nf : no_fallback (plan_nodes plan).

(** What holds between the engines before each step. *)
Record in_step (c : ExecutionContext) (e : @env W) (te : @tenv W) : Prop := {
  is_flow : flow_runs (db e) !! f = Some fr;
  is_ids : ids c = flow_ids fr f tenant;
  is_linked : linked e te;
  is_saved : saved (db (te_env te)) c;
  is_plan : plan_ready fr plan te;
  is_counts : below_counts ∅ (counters e);
}.

Lemma linked_flow e te : linked e te -> flow_runs (db e) !! f = Some fr ->
  flow_runs (db (te_env te)) !! f = Some fr.
Proof. intros [H _] <-. pose proof (f_equal flow_runs H) as E. simpl in E. by rewrite E. Qed.

(** The endings of a pair of agreeing steps. *)
Lemma agreed_ending oc1 oc2 c e1 te1 k e' :
  oc_agree oc1 oc2 -> oc_status oc1 <> ADVANCE ->
  flow_runs (db e1) !! f = Some fr -> ids (oc_context oc1) = flow_ids fr f tenant ->
  current_node_id (oc_context oc1) = current_node_id c ->
  linked e1 te1 -> step_left (fresh plan c) oc2 (te_env te1) ->
  match oc_status oc1 with
  | FAILED => _fail_flow uuid_str true batch_size (oc_context oc1) (default STRUCTURAL_ERROR (oc_reason oc1)) (oc_exception oc1)
  | STEP_NEEDS_INPUT => pause_flow (oc_context oc1) oc1
  | TERMINAL => _complete_flow true batch_size (oc_context oc1) (oc_node_run oc1) (oc_node_data oc1)
  | ADVANCE => mret tt
  end e1 = (Ok tt, e') ->
  exists res te', match oc_status oc2 with
  | STEP_NEEDS_INPUT => finalize_ p OC_WAITING None (Some (current_node_id c)) (uuid_str <$> oc_node_run oc2) k te1
  | TERMINAL => finalize_ p OC_COMPLETED None (Some (current_node_id c)) (uuid_str <$> oc_node_run oc2) k te1
  | _ => finalize_ p OC_FAILED (Some (default "STRUCTURAL_ERROR" (nonempty (Some
           (failure_reason_value (default STRUCTURAL_ERROR (oc_reason oc2))))))) (Some (current_node_id c))
           (uuid_str <$> oc_node_run oc2) k te1
  end = (Ok res, te') /\ same_ending f (db e') (db (te_env te')).
Proof using payload uuid_round uuid_text.
  intros [A1 A2 A3 A4 A5 A6] Hadv Hfr Hids Hcur Hl [L1 L2 L3 L4 L5 L6 L7 L8] H.
  assert (Hf : flow_run_id (oc_context oc1) = f) by (by injection Hids). rewrite A1 in *.
  assert (Hdone : oc_status oc1 <> FAILED -> exists n nr d, oc_node_run oc1 = Some n /\ oc_node_run oc2 = Some n /\
    node_runs (db (te_env te1)) !! n = Some nr /\ or_empty (nr_output nr) = PDict d /\
    oc_node_data oc1 = dict_or_empty (dict_getv "data" d)).
  { intros Hs. destruct (L3 Hs) as [n Hn]. destruct (L2 n Hn) as (nr & d & ? & ? & Hd).
    exists n, nr, d. rewrite A1 in Hd. specialize (Hd Hs). split_and!; congruence. }
  destruct (oc_status oc1) eqn:Hs; [done|..].
  - destruct Hdone as (n & nr & d & N1 & N2 & Hn & Hd & Hdata); [done|].
    destruct (L8 eq_refl) as (st & mem & Hsv). rewrite N2, <- Hcur. rewrite N1, Hdata in H.
    destruct (finalize_completed p fr f tenant (oc_context oc1) n nr d st mem k e1 te1 e' payload Hids Hl Hn Hd) as (te' & T & L');
      [|exact H|do 2 eexists; split; [exact T | by left; apply L']].
    rewrite Hcur. revert Hsv. apply saved_erase. unfold erase, advance_to. simpl.
    injection A6 as -> -> -> -> -> -> _ _ _ ->. done.
  - destruct Hdone as (n & nr & d & N1 & N2 & Hn & Hd & Hdata); [done|]. rewrite N2, <- Hcur.
    destruct (finalize_waiting p fr f tenant (oc_context oc1) oc1 n nr d k e1 te1 e' payload Hf Hl N1 Hdata Hn Hd H)
      as (te' & T & L'). do 2 eexists. split; [exact T | by left; apply L'].
  - rewrite A5. destruct (finalize_failed p fr f tenant (oc_context oc1) _ _ (oc_exception oc1) (Some (current_node_id c))
      (oc_node_run oc2) k e1 te1 e' payload Hf (core_strip _ _ (proj1 Hl)) Hfr
      (recorded_readable _ _ L2) (failure_reason_round _) H) as (te' & T & L'). do 2 eexists. split; [exact T | exact L'].
Qed.

(** One step of both engines. *)
Lemma both_step lim c e te oc1 e1 k :
  in_step c e te -> run_step_ plan lim c e = (Ok oc1, e1) ->
  exists oc2 te1,
    execute_node_ {| en_flow_run := wi_flow_run p; en_tenant := wi_tenant p; en_flow := wi_flow p;
      en_node := current_node_id c; en_step := k; en_loop_limit := lim |} te =
      (Ok (node_output_of uuid_str oc2), te1) /\
    flow_runs (db e1) !! f = Some fr /\ step_left c oc1 e1 /\ step_left (fresh plan c) oc2 (te_env te1) /\
    plan_ready fr plan te1 /\
    (oc_agree oc1 oc2 /\ linked e1 te1 /\ count_keys lim (oc_loop_keys oc2) (counters e) = Some (counters e1) \/
     edge_failure oc1 /\ core (db e1) = core (db (te_env te1)) /\
       (count_keys lim (oc_loop_keys oc2) (counters e) = None \/ edge_failure oc2)).
Proof using DL dump_data payload plan_nf.
  intros [Hfr Hids Hl Hsv Hplan Hcnt] H1.
  destruct (execute_node_run p fr f tenant plan lim c te k payload (linked_flow _ _ Hl Hfr) Hids Hsv Hplan)
    as (te1 & D1 & D2 & D3 & Hplan1 & Hrun).
  destruct (step_reloaded plan lim c (counters e) e (te_env te1)) with (oc1 := oc1) (e1 := e1)
    as (oc2 & v & H2 & Hrel); [destruct Hl; split; congruence | done | done |].
  exists oc2, (with_env v te1). pose proof (saved_memory _ _ Hsv) as Hmem.
  split; [by apply Hrun|]. split.
  { apply (respects_run (keeps flow_runs)) in H1; [|apply run_step_keeps; apply dl_executor].
    unfold keeps in H1. by rewrite H1. }
  split; [by eapply run_step_left|]. split; [by eapply run_step_left|]. split; [exact Hplan1|].
  destruct Hrel as [(Ha & Hdb & Hw & Hk)|(Hef & Hc & _ & Hk)]; [left | right]; done.
Qed.

Lemma loop_sim n lim summary c e te k e' :
  ps_loop_limit summary = lim -> in_step c e te -> traverse_ n plan lim c e = (Ok tt, e') ->
  exists res te', loop_ n p summary (current_node_id c) (counters e) k te = (Ok res, te') /\
    same_ending f (db e') (db (te_env te')).
Proof using DL dump_data payload plan_nf uuid_round uuid_text.
  intros Hlim. revert c e te k. induction n as [|n IH]; intros c e te k Hin H.
  - destruct Hin as [Hfr Hids Hl _ _ _].
    destruct (finalize_failed p fr f tenant c MAX_STEPS_EXCEEDED (Some "MAX_STEPS_EXCEEDED") None
      (Some (current_node_id c)) None k e te e' payload ltac:(by injection Hids)
      (core_strip _ _ (proj1 Hl)) Hfr ltac:(done) eq_refl H) as (te' & T & L').
    do 2 eexists. split; [exact T | exact L'].
  - simpl in H. apply mbind_ok in H as (oc1 & e1 & H1 & H).
    destruct (both_step lim c e te oc1 e1 k Hin H1)
      as (oc2 & te1 & Hex & Hfr1 & Hleft1 & Hleft & Hplan & Hrel).
    pose proof Hleft as [L1 L2 L3 L4 L5 L6 L7 L8].
    assert (Hids1 : ids (oc_context oc1) = flow_ids fr f tenant)
      by (rewrite (sl_ids _ _ _ Hleft1); apply Hin).
    rewrite <- Hlim in Hex. rewrite (loop_step n p summary _ _ _ _ _ _ Hex L4), Hlim.
    destruct Hrel as [(Ha & Hl & Hcnt)|([Hs Hr] & Hc & Hk)].
    + rewrite Hcnt. destruct (decide (oc_status oc1 = ADVANCE)) as [Hs|Hs].
      * rewrite (oa_status _ _ Ha), Hs in *. rewrite (L6 eq_refl).
        pose proof (f_equal current_node_id (oa_context _ _ Ha)) as Hcur. simpl in Hcur. rewrite Hcur.
        apply IH; [|exact H]. split; [done|done|done| |done|].
        -- by eapply saved_erase; [apply Ha | apply L7].
        -- eapply count_keys_below; [apply Hin | exact Hcnt].
      * destruct (agreed_ending oc1 oc2 c e1 te1 (S k) e' Ha Hs Hfr1 Hids1
          (sl_here _ _ _ Hleft1 Hs) Hl Hleft ltac:(by destruct (oc_status oc1))) as (res & te' & T & L').
        exists res, te'. rewrite (oa_status _ _ Ha) in *. by destruct (oc_status oc1).
    + rewrite Hs, Hr in H.
      destruct (finalize_failed p fr f tenant (oc_context oc1) EDGE_EVALUATION_ERROR
        (Some "EDGE_EVALUATION_ERROR") (oc_exception oc1) (Some (current_node_id c)) (oc_node_run oc2)
        (S k) e1 te1 e' payload ltac:(by injection Hids1) Hc Hfr1 (recorded_readable _ _ L2) eq_refl H)
        as (te' & T & L').
      exists (final_result p OC_FAILED (Some "EDGE_EVALUATION_ERROR") (S k)), te'. split; [|exact L'].
      destruct Hk as [-> | [Hs2 Hr2]]; [exact T|].
      destruct (count_keys _ _ _); [|exact T]. rewrite Hs2, Hr2. exact T.
Qed.
End one_flow.

(** ** Human fallback *)

Definition sla_reasons : list SLAFallbackReason :=
  [LOW_CONFIDENCE; TOOL_FAILURE; SLA_TIMEOUT; EXECUTION_LIMIT; POLICY_BLOCK; UNKNOWN_INTENT;
   USER_REQUESTED_HUMAN; USER_FRUSTRATION; USER_ANGER; USER_INSULT].

(** [HumanFallback.execute]: the node and the reason of the case it opens, from the
    metadata of its context. *)
Definition fallback_case (md : pydict) : pyval * SLAFallbackReason :=
  let source := dict_getv FALLBACK_SOURCE_NODE_METADATA_KEY md in
  (if truthy source then source else default (PStr "") (dict_get "current_node_type" md),
   match dict_getv FALLBACK_REASON_METADATA_KEY md with
   | PStr s => default LOW_CONFIDENCE (head (filter (fun r => sla_reason_value r = s) sla_reasons))
   | _ => LOW_CONFIDENCE
   end).

Lemma sla_reason_round r :
  default LOW_CONFIDENCE (head (filter (fun x => sla_reason_value x = sla_reason_value r) sla_reasons)) = r.
Proof. by destruct r. Qed.

Lemma run_step_next plan lim c e oc e' :
  run_step_ plan lim c e = (Ok oc, e') -> oc_status oc = ADVANCE ->
  exists c1 t st mem r x last,
    metadata c1 = dict_set "current_node_type" (PStr t) (metadata c) /\
    current_node_id c1 = current_node_id c /\ type_of plan (current_node_id c) = Some t /\
    graph_states (db e') !! flow_run_id c =
      Some {| gs_state := checkpoint c1 st mem PNone; gs_last_node_run := last |} /\
    oc_node_data oc = data r /\ oc_next oc = Some x /\
    oc_context oc = next_context (plan_nodes plan) t c1 x st mem r.
Proof using DL.
  intros H Hs. unfold run_step in H. destruct (spec_of _ _) as [spec|] eqn:Hspec; [|by injection H as <- <-].
  apply mbind_ok in H as (cls & e1 & H1 & H). injection H1 as _ <-.
  apply mbind_ok in H as (t & e2 & H2 & H). injection H2 as Hty <-.
  destruct cls as [cls|]; [|by injection H as <- <-]. destruct t as [t|]; [|by injection H as <- <-].
  destruct (construct cls); [|by injection H as <- <-].
  apply mbind_ok in H as (node & e3 & _ & H). apply mbind_ok in H as (nr & e4 & _ & H).
  apply mbind_ok in H as ([] & e5 & _ & H).
  match type of H with context [execute ?a ?b ?g e5] => set (c' := b) in *; set (cfg := g) in * end.
  destruct (execute cls c' cfg e5) as [[r|] e6]; [|by injection H as <- <-].
  apply finish_node_ok in H as [[Hn _]|(st & e7 & _ & _ & Hg & Hch)]; [congruence|].
  set (c1 := after_node r c') in *. pose proof (respects_run _ _ _ _ _
    (choose_next_keeps (W := W) uuid_parse same true batch_size graph_states _ _ _ _ _ _ _ _ _) Hch) as Hk.
  exists c1, t, st, (new_memory_of c1 r), r. unfold choose_next in Hch.
  destruct (is_in t TERMINAL_NODE_TYPES); [by injection Hch as <- <-|].
  unfold mbind_, mmodify in Hch. destruct (evaluate_ _ _ _ _ _) as [[[|x [|]]|er] e8];
    [by injection Hch as <- <- | | by injection Hch as <- <-
     | by destruct (is_domain_validation er); [injection Hch as <- <-|]].
  injection Hch as <- <-. exists x, (Some nr). split_and!; try done.
  - unfold type_of. rewrite Hspec. by destruct (dict_getv "type" spec); simplify_eq/=.
  - unfold keeps in Hk. by rewrite Hk.
Qed.

(** Reasons of human cases across engines.  A step that moves on to a human fallback
    puts the source node and the reason in the context it hands over, but not in
    the checkpoint it has stored before: the executor's fallback node opens its case
    for the source node with the resolved reason, the activity's fallback node, which
    reads the checkpoint, opens it without source and with LOW_CONFIDENCE. *)
Theorem fallback_case_across_engines plan lim c e oc e' t :
  run_step_ plan lim c e = (Ok oc, e') -> oc_status oc = ADVANCE ->
  is_human_fallback (spec_of (plan_nodes plan) (current_node_id (oc_context oc))) = true ->
  type_of plan (current_node_id c) = Some t -> current_node_id c <> "" ->
  dict_get FALLBACK_SOURCE_NODE_METADATA_KEY (metadata c) = None ->
  dict_get FALLBACK_REASON_METADATA_KEY (metadata c) = None ->
  fallback_case (dict_set "current_node_type" (PStr "HumanFallback") (metadata (oc_context oc))) =
    (PStr (current_node_id c), resolve_fallback_reason t (oc_node_data oc)) /\
  exists g d md, graph_states (db e') !! flow_run_id c = Some g /\ gs_state g = PDict d /\
    dict_get "metadata" d = Some (PDict md) /\
    fallback_case (dict_set "current_node_type" (PStr "HumanFallback") md) =
      (PStr "HumanFallback", LOW_CONFIDENCE).
Proof using DL.
  intros H Hs Hfb Ht Hne Hsrc Hrsn.
  destruct (run_step_next _ _ _ _ _ _ H Hs) as (c1 & t' & st & mem & r & x & last & Hmd & Hcur & Ht' & Hg & Hd & _ & Hctx).
  assert (t' = t) as -> by congruence. rewrite Hd, Hctx in *.
  assert (Hx : current_node_id (next_context (plan_nodes plan) t c1 x st mem r) = x)
    by (unfold next_context; by case_match). rewrite Hx in Hfb.
  split.
  - unfold next_context. rewrite Hfb. unfold fallback_case, with_metadata, dict_getv. simpl metadata.
    rewrite (dict_get_set_ne FALLBACK_SOURCE_NODE_METADATA_KEY "current_node_type") by done.
    rewrite (dict_get_set_ne FALLBACK_REASON_METADATA_KEY "current_node_type") by done.
    rewrite (dict_get_set_ne FALLBACK_SOURCE_NODE_METADATA_KEY FALLBACK_REASON_METADATA_KEY) by done.
    rewrite !dict_get_set_eq, Hcur. f_equal; [by destruct (current_node_id c)|].
    exact (sla_reason_round (resolve_fallback_reason t (data r))).
  - do 3 eexists. split; [exact Hg|]. split; [reflexivity|]. split; [reflexivity|].
    rewrite Hmd. unfold fallback_case, dict_getv.
    rewrite !(dict_get_set_ne FALLBACK_SOURCE_NODE_METADATA_KEY "current_node_type") by done.
    rewrite !(dict_get_set_ne FALLBACK_REASON_METADATA_KEY "current_node_type") by done.
    rewrite Hsrc, Hrsn, dict_get_set_eq. done.
Qed.

(** ** The whole run *)

Abbreviation prepare_ := (prepare_flow_run (W := W) uuid_parse int_of_string resolve_policy
                            snapshot_by_id snapshot_by_version).
Abbreviation workflow_ :=
  (workflow_run uuid_parse uuid_str construct execute dump_result same true traced batch_size
     int_of_string application_error_str resolve_policy snapshot_by_id snapshot_by_version).

(** Both engines derive the same loop limit from a policy. *)
Lemma limits_agree definition :
  loop_limit_of int_of_string definition =
  _positive_int int_of_string (dict_getv "max_loop_iterations"
    (dict_or_empty (dict_getv "limits" definition))) DEFAULT_LOOP_LIMIT.
Proof.
  destruct definition as [|x l]; [done|]. unfold loop_limit_of, _positive_int.
  change (match dict_getv "limits" (x :: l) with PDict l0 => l0 | _ => [] end)
    with (dict_or_empty (dict_getv "limits" (x :: l))).
  set (raw := dict_getv "max_loop_iterations" _).
  assert (Hn : forall n, (if n <? 1 then _default_loop_limit else n)%Z =
    (if 1 <=? n then n else DEFAULT_LOOP_LIMIT)%Z).
  { intros n. destruct (Z.ltb_spec n 1), (Z.leb_spec 1 n); (done || lia). }
  destruct raw; [done|..]; match goal with |- context [py_int int_of_string ?v] =>
    generalize (py_int int_of_string v) end; intros [n|[]]; cbn [rbind]; rewrite ?Hn; done.
Qed.

(** The arguments the executor would be run with. *)
Definition executor_args (p : FlowRunWorkflowInput) (fr : flow_run) (f tenant : uuid)
    (definition : pydict) : run_args := {|
  ra_tenant := tenant; ra_session := fr_session fr; ra_input := or_empty (fr_input fr);
  ra_flow_run := f; ra_correlation := fr_correlation fr; ra_user := Some (fr_user fr);
  ra_start := wi_start p; ra_state := []; ra_memory := []; ra_policy := definition |}.

Lemma initial_contexts_agree p fr f tenant plan definition c :
  payload_ok p fr f tenant ->
  _build_initial_context uuid_parse p fr plan definition = Ok c ->
  c = initial_context py_str plan (executor_args p fr f tenant definition) (fr_user fr).
Proof.
  intros [Pf Pt Ps Pc Pfl Pu Pi] H. unfold _build_initial_context, UUID_, parse_uuid in H.
  rewrite Pf, Pt, Ps, Pc, Pu in H. cbn [rbind] in H.
  destruct (uuid_parse (wi_interaction p)); [|done]. destruct (uuid_parse (wi_flow p)); [|done].
  destruct (uuid_parse (wi_version p)); [|done]. cbn [rbind] in H.
  match type of H with rbind ?m _ = _ => destruct m; [|done] end. injection H as <-.
  unfold initial_context, executor_args. cbn. f_equal.
  - by destruct (wi_start p) as [[]|].
  - unfold gate_state, dict_getv. destruct (dict_get "user_context_enrichment" definition) as [[]|];
      cbn; done.
  - by destruct definition.
Qed.

(** What [prepare_flow_run] establishes for a run without checkpoint. *)
Lemma prepare_establishes p fr f tenant flow plan definition te summary te0 :
  payload_ok p fr f tenant -> uuid_parse (wi_flow p) = Some flow ->
  resolve_policy tenant flow = Ok definition -> plan_ready fr plan te ->
  flow_runs (db (te_env te)) !! f = Some fr -> graph_states (db (te_env te)) !! f = None ->
  state_cache (db (te_env te)) !! f = None -> prepare_ p te = (Ok summary, te0) ->
  let fr' := with_status "RUNNING" "RUNNING" fr in
  let c := initial_context py_str plan (executor_args p fr f tenant definition) (fr_user fr) in
  loop_limit_of int_of_string definition = Ok (ps_loop_limit summary) /\
  ps_max_steps summary = max_steps plan (ps_loop_limit summary) /\
  default (ps_start summary) (nonempty (wi_start p)) = current_node_id c /\
  flow_runs (db (te_env te0)) !! f = Some fr' /\ saved (db (te_env te0)) c /\ plan_ready fr' plan te0.
Proof.
  intros Hp Hflow Hpol Hplan Hfr Hgs Hcache H. unfold prepare_flow_run, UUID_, parse_uuid in H.
  rewrite (po_flow_run _ _ _ _ Hp), (po_tenant _ _ _ _ Hp), Hflow in H.
  rewrite (mbind_run _ _ _ (Ok f) te eq_refl) in H.
  erewrite (mbind_run (trepo (get_flow_run _)) _ _ (Ok (Some fr)) te) in H
    by (unfold trepo, in_env, repo, get_flow_run, mbind_, mget, mret; rewrite Hfr; by destruct te as [[]]).
  destruct (resolve_plan_ready _ _ _ Hplan) as (te1 & Hr & Henv & Hplan1).
  rewrite (mbind_run _ _ _ _ _ Hr) in H. rewrite <- Henv in Hfr, Hgs, Hcache.
  rewrite (mbind_run _ _ _ (Ok tenant) te1 eq_refl), (mbind_run _ _ _ (Ok flow) te1 eq_refl), Hpol,
    (mbind_run _ _ _ (Ok definition) te1 eq_refl), <- limits_agree in H.
  apply mbind_ok in H as (lim & te2 & H2 & H). injection H2 as Hlim <-.
  erewrite (mbind_run (trepo (get_graph_state _)) _ _ (Ok None) te1) in H
    by (unfold trepo, in_env, repo, get_graph_state, mbind_, mget, mret; rewrite Hcache, Hgs; by destruct te1 as [[]]).
  apply mbind_ok in H as ([] & te2 & H2 & H). apply mbind_ok in H2 as (c & te3 & H3 & H2).
  injection H3 as Hc <-. apply (initial_contexts_agree _ _ _ _ _ _ _ Hp) in Hc.
  apply mbind_ok in H as ([] & te3 & H3 & H).
  do 4 (let v := fresh "v" in let t := fresh "t" in let Hv := fresh "Hv" in
        apply mbind_ok in H as (v & t & Hv & H); injection Hv as _ <-).
  injection H as <- <-. injection H2 as <-. injection H3 as <-. cbn [ps_loop_limit ps_max_steps ps_start].
  split; [exact Hlim|]. split; [done|]. split.
  { unfold initial_context, executor_args. cbn. by destruct (wi_start p) as [[]|]. }
  split; [cbn; by rewrite lookup_alter_eq, Hfr|]. rewrite <- Hc. split.
  - eapply saved_erase; [|eapply (checkpoint_saved c (state c) (memory c) None) with (x := current_node_id c) (out := [])].
    + done.
    + rewrite Hc. done.
    + cbn. rewrite Hc. cbn. by rewrite lookup_insert_eq.
    + cbn. rewrite Hc. cbn. by rewrite lookup_delete_eq.
  - exact Hplan1.
Qed.

(** Durable execution refines in-process execution, for node executors that satisfy
    [DurableLaws]: their results depend on the context only through what an activity
    restores.  (The error handler for tools does not: it reads the output of the node before
    it; [handler_needs_output] in [Nodes].)  For a fresh flow run whose plan has no human
    fallback node: when the executor's traversal of the prepared run
    returns, the workflow returns too, and leaves the same node runs, graph states,
    interactions, agent runs and usage rows and the same flow run; only the details
    of a recorded error may differ, never its reason.  Runs that end in completion or
    a pause leave identical tables, events included. *)
Theorem workflow_simulates_executor p fr f tenant flow plan definition te summary te0 e1 :
  payload_ok p fr f tenant -> uuid_parse (wi_flow p) = Some flow ->
  resolve_policy tenant flow = Ok definition -> plan_ready fr plan te ->
  no_fallback (plan_nodes plan) ->
  flow_runs (db (te_env te)) !! f = Some fr -> graph_states (db (te_env te)) !! f = None ->
  state_cache (db (te_env te)) !! f = None -> prepare_ p te = (Ok summary, te0) ->
  run uuid_parse uuid_str construct execute dump_result same true traced batch_size int_of_string
    py_str plan (executor_args p fr f tenant definition) (te_env te0) = (Ok tt, e1) ->
  exists res te', workflow_ p te = (Ok res, te') /\ same_ending f (db e1) (db (te_env te')).
Proof using DL dump_data uuid_round uuid_text.
  intros Hp Hflow Hpol Hplan Hnf Hfr Hgs Hcache Hprep Hrun.
  destruct (prepare_establishes _ _ _ _ _ _ _ _ _ _ Hp Hflow Hpol Hplan Hfr Hgs Hcache Hprep)
    as (Hlim & Hmax & Hstart & Hfr0 & Hsv & Hplan0).
  unfold run in Hrun. cbn [ra_policy ra_user executor_args] in Hrun. rewrite Hlim in Hrun.
  rewrite (mbind_run _ _ _ (Ok (ps_loop_limit summary)) (te_env te0) eq_refl) in Hrun.
  erewrite (mbind_run (mmodify _) _ _ (Ok tt)) in Hrun by reflexivity.
  set (c := initial_context _ _ _ _) in *. set (e0 := set_loops ∅ [] (te_env te0)) in *.
  assert (Hin : in_step (with_status "RUNNING" "RUNNING" fr) f tenant plan c e0 te0).
  { by split. }
  destruct (loop_sim p (with_status "RUNNING" "RUNNING" fr) f tenant ltac:(by destruct Hp; split) plan Hnf
    (max_steps plan (ps_loop_limit summary)) _ summary c e0 te0 0 e1 eq_refl Hin Hrun) as (res & te' & T & L').
  exists res, te'. split; [|exact L']. unfold workflow_run.
  rewrite (activity_ok _ _ _ _ _ Hprep), Hmax, Hstart. exact T.
Qed.
End simulation.

(** ** A concrete run on both engines *)

Fixpoint marks (n : nat) : string :=
  match n with 0 => "" | S n => "-" +:+ marks n end.
Definition demo_uuid_str (u : uuid) : string := "u" +:+ marks (N.to_nat u).
Definition demo_uuid_parse (s : string) : option uuid := Some (N.of_nat (String.length s - 1)).

Lemma demo_uuid_round u : demo_uuid_parse (demo_uuid_str u) = Some u.
Proof.
  assert (H : forall n, String.length (marks n) = n).
  { induction n as [|n IH]; [done|]. exact (f_equal S IH). }
  change (Some (N.of_nat (String.length (marks (N.to_nat u)) - 0)) = Some u).
  by rewrite H, Nat.sub_0_r, N2Nat.id.
Qed.

Definition demo_dump (r : NodeResult) : pyval := PDict [("data", PDict (data r))].

Definition chain_output : pydict :=
  [("go", PBool true); ("even", PBool true); ("odd", PBool false); ("more", PBool false);
   ("done", PBool true)].

#[global] Instance demo_durable d : DurableLaws (demo_execute d).
Proof.
  split; try done. by intros t c cfg e r e' m [= <- <-].
Qed.

Definition chain_flow : flow_run := {|
  fr_session := 1; fr_version := 1; fr_correlation := 1; fr_snapshot := Some 1%N;
  fr_user := "ana"; fr_status := "QUEUED"; fr_canonical := "CREATED"; fr_input := PDict [];
  fr_output := PDict []; fr_error := PDict []; fr_finished := false; fr_interaction := Some 1%N;
  fr_turn_index := 0; fr_workflow := None |}.

Definition chain_tenv : @tenv unit := {|
  te_env := {| db := set_flow_runs (<[7%N := chain_flow]> ∅) empty_store; world := tt;
               counters := ∅; loop_keys := [] |};
  plan_cache := ∅; idempotency_results := ∅ |}.

Definition chain_payload : FlowRunWorkflowInput := {|
  wi_flow_run := demo_uuid_str 7; wi_tenant := demo_uuid_str 1; wi_session := demo_uuid_str 1;
  wi_user := "ana"; wi_flow := demo_uuid_str 1; wi_version := demo_uuid_str 1;
  wi_interaction := demo_uuid_str 1; wi_correlation := demo_uuid_str 1; wi_trace := None;
  wi_start := None; wi_idempotency := None; wi_turn := 0 |}.

Definition chain_snapshot (u : uuid) : option (Snapshot * string) :=
  Some (snapshot_of demo_parse two_loops, "digest").

Definition chain_policy (t f : uuid) : res exc pydict :=
  Ok [("limits", PDict [("max_loop_iterations", PInt 2)])].

Definition chain_workflow (d : pydict) : M (@tenv unit) FlowRunWorkflowResult :=
  workflow_run demo_uuid_parse demo_uuid_str (fun _ => Ok tt) (demo_execute d) demo_dump
    (fun _ _ => true) true true 20 (fun _ => None) (fun _ m => m) chain_policy chain_snapshot
    (fun _ => None) chain_payload.

(** The chain completes on the durable engine; with the loop condition always true it
    is failed by the loop limit. *)
Example chain_completes :
  match chain_workflow chain_output chain_tenv with
  | (Ok r, te) => (wr_outcome r, wr_steps r, fr_status <$> flow_runs (db (te_env te)) !! 7%N)
  | _ => (OC_CANCELLED, 0, None)
  end = (OC_COMPLETED, 8, Some "COMPLETED").
Proof. vm_compute. reflexivity. Qed.

Example chain_loops :
  match chain_workflow [("go", PBool true); ("even", PBool true); ("odd", PBool false);
    ("more", PBool true); ("done", PBool false)] chain_tenv with
  | (Ok r, te) => (wr_outcome r, wr_failure r, fr_status <$> flow_runs (db (te_env te)) !! 7%N)
  | _ => (OC_CANCELLED, None, None)
  end = (OC_FAILED, Some "EDGE_EVALUATION_ERROR", Some "FAILED").
Proof. vm_compute. reflexivity. Qed.

Definition chain_plan : ExecutionPlan :=
  match compile (snapshot_of demo_parse two_loops) "digest" (Some []) with Ok p => p | Err _ => demo_plan end.

Definition chain_definition : pydict := [("limits", PDict [("max_loop_iterations", PInt 2)])].

Definition chain_prepare : res exc FlowRunPlanSummary * @tenv unit :=
  prepare_flow_run demo_uuid_parse (fun _ => None) chain_policy chain_snapshot (fun _ => None)
    chain_payload chain_tenv.

Definition chain_run (te : @tenv unit) : res exc unit * @env unit :=
  run demo_uuid_parse demo_uuid_str (fun _ => Ok tt) (demo_execute chain_output) demo_dump
    (fun _ _ => true) true true 20 (fun _ => None) (fun _ => "") chain_plan
    (executor_args chain_payload chain_flow 7 1 chain_definition) (te_env te).

Lemma chain_prepared : is_ok chain_prepare.1 = true.
Proof. vm_compute. reflexivity. Qed.
Lemma chain_ran : (chain_run chain_prepare.2).1 = Ok tt.
Proof. vm_compute. reflexivity. Qed.
Lemma chain_no_fallback : no_fallback (plan_nodes chain_plan).
Proof.
  intros x. assert (H : Forall (fun kv => is_human_fallback (Some kv.2) = false) (plan_nodes chain_plan)).
  { vm_compute. repeat constructor. }
  induction H as [|[k v] l Hv _ IH]; simpl; [done|]. by destruct (String.eqb x k).
Qed.

(** Executors that show the system context they are given and leave one: as the nodes that
    call a model do when documents or memories were found for them. *)
Definition noting_execute (_ : NodeType) (c : ExecutionContext) (_ : pyval) : M (@env unit) NodeResult :=
  mret {| status := SUCCESS; data := dict_set "seen" (PBool (bool_decide (system_context c = Some "note"))) chain_output;
          error := PNone; metrics := PNone; next_state := None; context_state := None; context_text := Some "note";
          context_offer := None; result_memory := None; usage := None |}.

(** Such executors tell the engines apart: in one process the second node sees what the first
    one left, an activity starts without it. *)
Example carried_context_lost :
  let seen s := omap (fun r => Some (dict_getv "seen" (dict_or_empty (dict_getv "data" (dict_or_empty (nr_output r))))))
                  (snd <$> map_to_list (node_runs s)) in
  let here := run demo_uuid_parse demo_uuid_str (fun _ => Ok tt) noting_execute demo_dump (fun _ _ => true) true true 20
    (fun _ => None) (fun _ => "") chain_plan (executor_args chain_payload chain_flow 7 1 chain_definition)
    (te_env chain_prepare.2) in
  let there := workflow_run demo_uuid_parse demo_uuid_str (fun _ => Ok tt) noting_execute demo_dump (fun _ _ => true)
    true true 20 (fun _ => None) (fun _ m => m) chain_policy chain_snapshot (fun _ => None) chain_payload chain_tenv in
  here.1 = Ok tt /\ is_ok there.1 = true /\
  PBool true ∈ seen (db here.2) /\ seen (db (te_env there.2)) <> [] /\
  Forall (fun v => v = PBool false) (seen (db (te_env there.2))).
Proof. vm_compute. split_and!; [done|done| |discriminate|]; repeat constructor. Qed.

Lemma ok_pair {A B} (x : res exc A * B) : is_ok x.1 = true -> exists a, x = (Ok a, x.2).
Proof. destruct x as [[a|] b]; [by eexists | done]. Qed.

Lemma demo_dump_data r : exists d, demo_dump r = PDict d /\ dict_getv "data" d = PDict (data r).
Proof. exists [("data", PDict (data r))]. done. Qed.
Lemma demo_uuid_text u : demo_uuid_str u <> "".
Proof. done. Qed.

Lemma workflow_simulates_executor_witness :
  exists res te', chain_workflow chain_output chain_tenv = (Ok res, te') /\
    same_ending 7 (db (chain_run chain_prepare.2).2) (db (te_env te')).
Proof.
  destruct (ok_pair chain_prepare chain_prepared) as [summary Hp]. unfold chain_workflow.
  assert (Hr : chain_run chain_prepare.2 = (Ok tt, (chain_run chain_prepare.2).2)).
  { transitivity ((chain_run chain_prepare.2).1, (chain_run chain_prepare.2).2);
      [apply surjective_pairing | exact (f_equal (fun x => (x, (chain_run chain_prepare.2).2)) chain_ran)]. }
  apply (workflow_simulates_executor (W := unit) demo_uuid_parse 20 (fun _ _ => true) (fun _ => Ok tt)
    (demo_execute chain_output) demo_dump true demo_dump_data demo_uuid_str (fun _ => None) (fun _ => "")
    (fun _ m => m) chain_policy chain_snapshot (fun _ => None) demo_uuid_round demo_uuid_text
    chain_payload chain_flow 7 1 1 chain_plan chain_definition chain_tenv summary chain_prepare.2
    (chain_run chain_prepare.2).2).
  - split; first [reflexivity | eexists; reflexivity].
  - reflexivity.
  - reflexivity.
  - do 2 eexists. split; [reflexivity|]. vm_compute. reflexivity.
  - exact chain_no_fallback.
  - reflexivity.
  - reflexivity.
  - reflexivity.
  - exact Hp.
  - exact Hr.
Defined.

Lemma demo_step_ok : is_ok (demo_step demo_env).1 = true.
Proof. vm_compute. reflexivity. Qed.

Lemma fallback_case_across_engines_witness :
  exists oc, (demo_step demo_env).1 = Ok oc /\
    fallback_case (dict_set "current_node_type" (PStr "HumanFallback") (metadata (oc_context oc))) =
      (PStr "intent", UNKNOWN_INTENT).
Proof.
  destruct (ok_pair (demo_step demo_env) demo_step_ok) as [oc Hoc]. exists oc.
  split; [by rewrite Hoc|].
  assert (Hr : resolve_fallback_reason "IntentClassifier" (oc_node_data oc) = UNKNOWN_INTENT).
  { pose proof (f_equal fst Hoc) as H. vm_compute in H. injection H as <-. reflexivity. }
  rewrite <- Hr.
  refine (proj1 (fallback_case_across_engines (fun _ => Some 1%N) 20 (fun _ _ => true) (fun _ => Ok tt)
    (demo_execute demo_output) (fun _ => PNone) true demo_plan 10 demo_context demo_env oc
    (demo_step demo_env).2 "IntentClassifier" Hoc _ _ _ _ _ _)).
  - pose proof (f_equal fst Hoc) as H. vm_compute in H. injection H as <-. reflexivity.
  - pose proof (f_equal fst Hoc) as H. vm_compute in H. injection H as <-. reflexivity.
  - vm_compute. reflexivity.
  - discriminate.
  - reflexivity.
  - reflexivity.
Defined.
