(* ===== verification/Dispatch.v ===== *)
(** * Dispatch: starting workflows and reconciling abandoned runs

    [src/src/adapters/temporal/engine.py], [_dispatch_flow_run] of
    [src/src/domain/execution/services/execution_service.py] and
    [src/src/domain/execution/services/flow_run_reconciler.py].

    The Temporal service is a table of workflow executions by workflow id; starting
    an id that exists is rejected ([WorkflowIDReusePolicy.REJECT_DUPLICATE]).  Between
    the start of a workflow and the moment its dispatch is recorded, the workflow runs
    concurrently: the order of their writes is an explicit interleaving. *)

From S2P Require Import Prelude.
From S2P Require Import Errors.
From S2P Require Import PyValue.
From S2P Require Import StateMachine.
From S2P Require Import Sorting.
From S2P Require Import Effects.
From S2P Require Import Store.
From S2P Require Import NodeStep.
From S2P Require Import Temporal.

(** ** The engine *)

Inductive WorkflowExecutionStatus : Type :=
  | WF_RUNNING | WF_COMPLETED | WF_FAILED | WF_CANCELED | WF_TERMINATED | WF_CONTINUED_AS_NEW
  | WF_TIMED_OUT.

(** [_OUTCOME_BY_WORKFLOW_STATUS.get]. *)
Definition _OUTCOME_BY_WORKFLOW_STATUS (s : WorkflowExecutionStatus) : option OutcomeLiteral :=
  match s with
  | WF_COMPLETED => Some OC_COMPLETED
  | WF_FAILED => Some OC_FAILED
  | WF_CANCELED => Some OC_CANCELLED
  | WF_TERMINATED => Some OC_CANCELLED
  | WF_TIMED_OUT => Some OC_FAILED
  | WF_RUNNING | WF_CONTINUED_AS_NEW => None
  end.

(** The database and the service's workflow executions. *)
Record system : Type := {
  sys_db : store;
  sys_workflows : gmap string WorkflowExecutionStatus;
}.

Definition on_db {A} (m : M store A) : M system A := fun s =>
  match m (sys_db s) with (r, d) => (r, {| sys_db := d; sys_workflows := sys_workflows s |}) end.
Definition set_workflow (w : string) (st : WorkflowExecutionStatus) : M system unit :=
  mmodify (fun s => {| sys_db := sys_db s; sys_workflows := <[w := st]> (sys_workflows s) |}).

Record FlowRunDispatch : Type := {
  fd_flow_run : uuid;
  fd_workflow : string;
  fd_run : string;
}.

Section engine.
Variable uuid_str : uuid -> string.
Variable int_str : Z -> string.
(** The run id the service assigns. *)
Variable run_id : string -> string.

(** [TemporalWorkflowEngine.start_flow_run], for the flow run and the turn. *)
Definition start_flow_run (f : uuid) (turn_index : Z) : M system FlowRunDispatch :=
  let workflow_id := workflow_id_for int_str (uuid_str f) turn_index in
  let* s := mget in
  match sys_workflows s !! workflow_id with
  | Some _ => mraise (ExternalError "WorkflowAlreadyStartedError" workflow_id)
  | None =>
      set_workflow workflow_id WF_RUNNING ;;*
      mret {| fd_flow_run := f; fd_workflow := workflow_id; fd_run := run_id workflow_id |}
  end.

(** [start_resume_turn]. *)
Definition start_resume_turn (f : uuid) (turn_index : Z) : M system FlowRunDispatch :=
  if (turn_index <=? 0)%Z then mraise (DomainValidationException "resume_turn_index_required")
  else start_flow_run f turn_index.

(** The workflow [cancel_flow_run] addresses. *)
Definition cancel_target (f : uuid) : string := workflow_id_for int_str (uuid_str f) 0.

(** [describe_flow_run]: [None] when the service has no such workflow. *)
Definition describe_flow_run (f : uuid) (workflow_id : option string) (s : system) :
    option (option OutcomeLiteral) :=
  let id := default (workflow_id_for int_str (uuid_str f) 0) (nonempty workflow_id) in
  _OUTCOME_BY_WORKFLOW_STATUS <$> sys_workflows s !! id.

(** ** Dispatch *)

(** The start of [_dispatch_flow_run]: the engine call and the statuses that will be
    recorded. *)
Definition dispatch_start (engine : bool) (f : uuid) (turn_index : Z) :
    M system (FlowRunDispatch * (string * string)) :=
  if negb engine then mraise (DomainValidationException "workflow_engine_unavailable")
  else if (0 <? turn_index)%Z then
    let* d := start_resume_turn f turn_index in
    mret (d, (run_status_str RS_RUNNING, flow_status_str FR_RUNNING))
  else
    let* d := start_flow_run f turn_index in
    mret (d, (run_status_str RS_QUEUED, flow_status_str FR_CREATED)).

(** The end of [_dispatch_flow_run]: what is recorded of the dispatch. *)
Definition dispatch_record (f : uuid) (d : FlowRunDispatch * (string * string)) : M system unit :=
  on_db (set_flow_run_dispatch f (fd_workflow d.1) (fd_run d.1) d.2.1 d.2.2).

(** [_dispatch_flow_run], when nothing happens in between. *)
Definition _dispatch_flow_run (engine : bool) (f : uuid) (turn_index : Z) : M system unit :=
  let* d := dispatch_start engine f turn_index in
  dispatch_record f d.

(** The resume path of [resume_flow_run]: the next turn is drawn, then dispatched. *)
Definition dispatch_next_turn (engine : bool) (f : uuid) : M system unit :=
  let* turn_index := on_db (next_flow_run_turn_index f) in
  _dispatch_flow_run engine f turn_index.

(** ** The workflow's writes to the flow run *)

(** [prepare_flow_run] marks the run as running. *)
Definition workflow_prepare (f : uuid) : M system unit :=
  on_db (set_flow_run_status f (run_status_str RS_RUNNING) (flow_status_str FR_RUNNING)).

(** [finalize_flow_run] writes the outcome, and the workflow returns. *)
Inductive ending : Type :=
  | EndCompleted (output : pyval)
  | EndWaiting (output : pyval)
  | EndFailed (reason : string) (error : pyval).

Definition workflow_finish (f : uuid) (w : string) (o : ending) : M system unit :=
  on_db (match o with
         | EndCompleted out => complete_flow_run f (flow_status_str FR_COMPLETED) out
         | EndWaiting out =>
             set_flow_run_output f out ;;*
             set_flow_run_status f (run_status_str RS_WAITING_INPUT) (flow_status_str FR_WAITING)
         | EndFailed reason err => fail_flow_run f reason err
         end) ;;*
  set_workflow w WF_COMPLETED.

Definition ending_status (o : ending) : string :=
  match o with
  | EndCompleted _ => "COMPLETED" | EndWaiting _ => "WAITING_INPUT" | EndFailed _ _ => "FAILED"
  end.

(** ** Reconciliation *)

Variable updated_at : uuid -> Z.
Variable session_tenant : uuid -> option uuid.
Variable batch_size : nat.

(** [list_stale_running_flow_runs]. *)
Definition list_stale_running_flow_runs (older_than : Z) (limit : nat) (s : store) :
    list (uuid * flow_run) :=
  take limit (sorted_by Z.le (fun fr => updated_at fr.1)
    (filter (fun fr => (fr_status fr.2 = "QUEUED" \/ fr_status fr.2 = "RUNNING") /\
                       (updated_at fr.1 < older_than)%Z) (map_to_list (flow_runs s)))).

(** [_is_still_running]; [rpc] says whether the service answers for a flow run. *)
Definition _is_still_running (engine : bool) (rpc : uuid -> bool) (fr : uuid * flow_run)
    (s : system) : bool :=
  if negb engine then false
  else if negb (rpc fr.1) then true
  else match describe_flow_run fr.1 (fst <$> fr_workflow fr.2) s with
       | None => false
       | Some None | Some (Some OC_WAITING) => true
       | Some _ => false
       end.

Definition RECONCILED_FAILURE_MESSAGE : string := "flow_run_abandoned".

(** The error a reconciled run is left with. *)
Definition reconciled_error (stale_after : Z) : pyval :=
  PDict [("reason", PStr "STRUCTURAL_ERROR"); ("message", PStr RECONCILED_FAILURE_MESSAGE);
         ("stale_after_seconds", PInt stale_after)].

(** [_fail]. *)
Definition _fail (stale_after : Z) (fr : uuid * flow_run) : M system unit :=
  on_db (
    fail_flow_run fr.1 (failure_reason_value STRUCTURAL_ERROR) (reconciled_error stale_after) ;;*
    let* found := get_flow_run fr.1 in
    match found with
    | None => mraise (NotFoundServiceException "flow_run_not_found")
    | Some row =>
        match session_tenant (fr_session row) with
        | None => mraise (NotFoundServiceException "session_not_found")
        | Some tenant =>
            append_execution_event batch_size (Some fr.1) {|
              ed_tenant := tenant; ed_user := None; ed_session := fr_session row;
              ed_type := "FlowFailed";
              ed_payload := PDict [("reason", PStr "STRUCTURAL_ERROR");
                                   ("message", PStr RECONCILED_FAILURE_MESSAGE)];
              ed_correlation := fr_correlation fr.2; ed_node := None; ed_edge := None |} ;;*
            mret tt
        end
    end).

(** The loop of [reconcile_once]. *)
Fixpoint reconcile_all (engine : bool) (rpc : uuid -> bool) (stale_after : Z)
    (stale : list (uuid * flow_run)) : M system nat :=
  match stale with
  | [] => mret 0
  | fr :: stale =>
      let* s := mget in
      if _is_still_running engine rpc fr s then reconcile_all engine rpc stale_after stale
      else
        _fail stale_after fr ;;*
        let* n := reconcile_all engine rpc stale_after stale in
        mret (S n)
  end.

(** [reconcile_once]. *)
Definition reconcile_once (engine : bool) (rpc : uuid -> bool) (now stale_after : Z) (limit : nat) :
    M system nat :=
  let* s := mget in
  reconcile_all engine rpc stale_after
    (list_stale_running_flow_runs (now - stale_after) limit (sys_db s)).
End engine.

(** ** Workflow ids *)

(** A string without the letter [t]: hexadecimal digits and hyphens have none. *)
Fixpoint no_t (s : string) : bool :=
  match s with
  | EmptyString => true
  | String c s => negb (Ascii.eqb c (Ascii.ascii_of_nat 116)) && no_t s
  end.

Lemma turn_suffix_inj a b x y :
  no_t a = true -> no_t b = true -> a +:+ "-t" +:+ x = b +:+ "-t" +:+ y -> a = b /\ x = y.
Proof.
  revert b. induction a as [|c a IH]; intros b Ha Hb H.
  - destruct b as [|d b]; [by injection H|]. injection H as <- H.
    destruct b as [|d b]; [discriminate|]. injection H as <- _. discriminate.
  - destruct b as [|d b].
    + injection H as -> H. destruct a as [|c a]; [discriminate|]. injection H as -> _. discriminate.
    + injection H as -> H. simpl in Ha, Hb. apply andb_true_iff in Ha as [_ Ha], Hb as [_ Hb].
      destruct (IH b Ha Hb H) as [-> ->]. done.
Qed.

Lemma turn_suffix_absent a b y : no_t a = true -> a <> b +:+ "-t" +:+ y.
Proof.
  revert a. induction b as [|d b IH]; intros a Ha ->.
  - discriminate.
  - simpl in Ha. apply andb_true_iff in Ha as [_ Ha]. by apply (IH (b +:+ "-t" +:+ y)).
Qed.

Lemma append_inj_l a x y : a +:+ x = a +:+ y -> x = y.
Proof. induction a as [|c a IH]; [done|]. intros H. injection H as H. by apply IH. Qed.

Section identities.
Variable uuid_str : uuid -> string.
Variable int_str : Z -> string.
Variable run_id : string -> string.
(** Identifiers print injectively in hexadecimal digits and hyphens, turn numbers
    injectively. *)
Hypothesis uuid_inj : forall u v, uuid_str u = uuid_str v -> u = v.
Hypothesis uuid_chars : forall u, no_t (uuid_str u) = true.
Hypothesis int_inj : forall a b, (0 < a)%Z -> (0 < b)%Z -> int_str a = int_str b -> a = b.

Abbreviation id_for f t := (workflow_id_for int_str (uuid_str f) t).

Lemma workflow_id_inj f f' t t' :
  id_for f t = id_for f' t' -> f = f' /\ (t = t' \/ (t <= 0)%Z /\ (t' <= 0)%Z).
Proof using uuid_inj uuid_chars int_inj.
  unfold workflow_id_for. destruct (Z.leb_spec t 0), (Z.leb_spec t' 0); intros H'; apply (append_inj_l WORKFLOW_ID_PREFIX) in H'.
  - apply uuid_inj in H'. auto.
  - by apply turn_suffix_absent in H'.
  - symmetry in H'. by apply turn_suffix_absent in H'.
  - apply turn_suffix_inj in H' as [->%uuid_inj Ht]; [|apply uuid_chars..]. split; [done|]. left.
    by apply int_inj.
Qed.

(** Every workflow of a flow run belongs to a turn that was drawn. *)
Definition turns_known (s : system) : Prop := forall f r,
  flow_runs (sys_db s) !! f = Some r -> (0 <= fr_turn_index r)%Z /\
  forall t, is_Some (sys_workflows s !! id_for f t) -> (t <= fr_turn_index r)%Z.

(** Resumed turns.  When the turns in use are those drawn so far, dispatching the
    next turn is never rejected as a duplicate, starts a workflow of its own and
    keeps the invariant; cancelling the flow run addresses another workflow than the
    one just started. *)
Theorem resume_turns_fresh f r s :
  turns_known s -> flow_runs (sys_db s) !! f = Some r ->
  exists s', dispatch_next_turn uuid_str int_str run_id true f s = (Ok tt, s') /\ turns_known s' /\
    let w := id_for f (fr_turn_index r + 1) in
    sys_workflows s !! w = None /\ sys_workflows s' = <[w := WF_RUNNING]> (sys_workflows s) /\
    (exists r', flow_runs (sys_db s') !! f = Some r' /\ fr_status r' = "RUNNING" /\
       fst <$> fr_workflow r' = Some w) /\
    cancel_target uuid_str int_str f <> w.
Proof using uuid_inj uuid_chars int_inj.
  intros Hinv Hr. destruct (Hinv f r Hr) as [H0 Ht].
  set (n := (fr_turn_index r + 1)%Z) in *. set (w := id_for f n).
  assert (Hw : sys_workflows s !! w = None).
  { apply eq_None_not_Some. intros H. specialize (Ht n H). lia. }
  unfold dispatch_next_turn, on_db, next_flow_run_turn_index, mbind_, mget, mmodify, mret. simpl.
  rewrite lookup_alter_eq, Hr. simpl. fold n.
  unfold _dispatch_flow_run, dispatch_start, start_resume_turn, start_flow_run, mbind_, mget, mret. simpl.
  replace (0 <? n)%Z with true by (symmetry; apply Z.ltb_lt; lia).
  replace (n <=? 0)%Z with false by (symmetry; apply Z.leb_gt; lia).
  simpl. fold w. rewrite Hw. eexists. split; [reflexivity|]. simpl. split_and!; [|done|done| |].
  - intros g r' Hg. simpl in *. destruct (decide (g = f)) as [->|Hne].
    + rewrite !lookup_alter_eq, Hr in Hg. injection Hg as <-. simpl. fold n. split; [lia|].
      intros t Hs. destruct (decide (id_for f t = w)) as [[_ [-> | ?]]%workflow_id_inj|Hnw]; [lia..|].
      rewrite lookup_insert_ne in Hs by done. specialize (Ht t Hs). lia.
    + rewrite !lookup_alter_ne in Hg by done. destruct (Hinv g r' Hg) as [G0 Gt]. split; [done|].
      intros t Hs. destruct (decide (id_for g t = w)) as [[-> _]%workflow_id_inj|Hnw]; [done|].
      rewrite lookup_insert_ne in Hs by done. by apply Gt.
  - rewrite !lookup_alter_eq, Hr. simpl. by eexists.
  - intros [_ [?|?]]%workflow_id_inj; lia.
Qed.
End identities.

(** ** Reconciliation passes *)

Section reconcile.
Variable uuid_str : uuid -> string.
Variable int_str : Z -> string.
Variable updated_at : uuid -> Z.
Variable session_tenant : uuid -> option uuid.
Variable batch_size : nat.

Abbreviation still_running := (_is_still_running uuid_str int_str).
Abbreviation reconcile_all_ := (reconcile_all uuid_str int_str session_tenant batch_size).
Abbreviation reconcile_ := (reconcile_once uuid_str int_str updated_at session_tenant batch_size).
Abbreviation stale_ := (list_stale_running_flow_runs updated_at).

(** A run as reconciliation leaves it. *)
Definition abandoned (stale_after : Z) (r : flow_run) : flow_run :=
  with_status "FAILED" "FAILED" (with_result (fr_output r) (reconciled_error stale_after) true r).

Lemma fail_effect stale_after fr s s' :
  _fail session_tenant batch_size stale_after fr s = (Ok tt, s') ->
  flow_runs (sys_db s') = alter (abandoned stale_after) fr.1 (flow_runs (sys_db s)) /\
  sys_workflows s' = sys_workflows s.
Proof.
  unfold _fail, on_db. match goal with |- context [mbind_ ?m ?k (sys_db s)] =>
    destruct (mbind_ m k (sys_db s)) as [x d] eqn:E end. intros [= -> <-]. simpl. split; [|done].
  apply mbind_ok in E as ([] & s1 & [= <-] & E).
  apply mbind_ok in E as (found & s2 & [= <- <-] & E). destruct (_ !! fr.1) as [row|]; [|done].
  destruct (session_tenant _) as [tenant|]; [|done]. apply mbind_ok in E as (u & s3 & E & [= <-]).
  match type of E with append_execution_event ?b ?f ?d ?x = _ =>
    pose proof (append_frame flow_runs b f d x) as Ha end. rewrite E in Ha. simpl in Ha. by rewrite Ha.
Qed.

(** The runs a pass fails: stale, and not known to be alive. *)
Definition chosen (engine : bool) (rpc : uuid -> bool) (s : system) (stale : list (uuid * flow_run)) :
    list (uuid * flow_run) :=
  filter (fun fr => still_running engine rpc fr s = false) stale.

Lemma still_running_ext engine rpc fr s s' :
  sys_workflows s' = sys_workflows s ->
  still_running engine rpc fr s' = still_running engine rpc fr s.
Proof. intros H. unfold _is_still_running, describe_flow_run. by rewrite H. Qed.

Lemma chosen_ext engine rpc s s' l :
  sys_workflows s' = sys_workflows s -> chosen engine rpc s' l = chosen engine rpc s l.
Proof.
  intros H. unfold chosen. apply list_filter_iff. intros fr. by rewrite (still_running_ext _ _ _ _ _ H).
Qed.

Lemma reconcile_all_effect engine rpc after l s n s' :
  reconcile_all_ engine rpc after l s = (Ok n, s') ->
  n = length (chosen engine rpc s l) /\
  forall f, flow_runs (sys_db s') !! f =
    if decide (f ∈ (chosen engine rpc s l).*1) then abandoned after <$> flow_runs (sys_db s) !! f
    else flow_runs (sys_db s) !! f.
Proof.
  revert s n. induction l as [|fr l IH]; intros s n; cbn [reconcile_all].
  { intros [= <- <-]. split; [done|]. intros f. case_decide as Hd; [by apply elem_of_nil in Hd | done]. }
  unfold mbind_ at 1, mget. unfold chosen. rewrite filter_cons.
  destruct (still_running engine rpc fr s) eqn:Halive.
  { rewrite decide_False by done. apply IH. }
  rewrite decide_True by done. intros ([] & s1 & H1 & H)%mbind_ok.
  apply mbind_ok in H as (m & s2 & H2 & [= <- <-]). apply fail_effect in H1 as [Hf Hw].
  apply IH in H2 as [Hm Hrows]. rewrite (chosen_ext _ _ _ _ _ Hw) in Hm, Hrows. fold (chosen engine rpc s l).
  split; [simpl; congruence|]. intros f. rewrite Hrows, Hf. cbn [fmap list_fmap]. clear Hrows.
  destruct (decide (f = fr.1)) as [->|Hne].
  - rewrite lookup_alter_eq. rewrite (decide_True (P := fr.1 ∈ fr.1 :: _)) by left.
    by destruct (flow_runs (sys_db s) !! fr.1); case_decide.
  - rewrite lookup_alter_ne by done. repeat case_decide; try done; rewrite elem_of_cons in *; naive_solver.
Qed.

(** One pass.  The runs that a reconciliation pass fails are exactly the selected
    ones: QUEUED or RUNNING, not updated since the cutoff, within the batch, and
    without a live workflow.  They are left FAILED, every other run is untouched and
    the returned count is their number. *)
Theorem reconcile_fails_exactly engine rpc now after limit s n s' :
  reconcile_ engine rpc now after limit s = (Ok n, s') ->
  let doomed := chosen engine rpc s (stale_ (now - after) limit (sys_db s)) in
  n = length doomed /\
  (forall f r, (f, r) ∈ doomed -> flow_runs (sys_db s) !! f = Some r /\
     (fr_status r = "QUEUED" \/ fr_status r = "RUNNING") /\ (updated_at f < now - after)%Z /\
     still_running engine rpc (f, r) s = false) /\
  forall f, flow_runs (sys_db s') !! f =
    if decide (f ∈ doomed.*1) then abandoned after <$> flow_runs (sys_db s) !! f
    else flow_runs (sys_db s) !! f.
Proof.
  intros H doomed. unfold reconcile_once, mbind_, mget in H.
  apply reconcile_all_effect in H as [Hn Hrows]. split; [done|]. split; [|done].
  intros f r [Halive Hin]%list_elem_of_filter.
  unfold list_stale_running_flow_runs in Hin. apply elem_of_take in Hin as (i & Hin & _).
  apply list_elem_of_lookup_2, elem_of_sorted_by, list_elem_of_filter in Hin as [[Hs Ht] Hin].
  apply elem_of_map_to_list in Hin. by split_and!.
Qed.
End reconcile.

(** ** Dispatch and the workflow it started *)

(** What happens after the workflow has been started. *)
Inductive move : Type := MRecord | MPrepare | MFinish.

#[global] Instance move_eq_dec : EqDecision move.
Proof. solve_decision. Defined.

(** All interleavings of two sequences of steps. *)
Inductive interleave {A : Type} : list A -> list A -> list A -> Prop :=
  | interleave_nil : interleave [] [] []
  | interleave_left x l r m : interleave l r m -> interleave (x :: l) r (x :: m)
  | interleave_right x l r m : interleave l r m -> interleave l (x :: r) (x :: m).

Definition do_move (f : uuid) (d : FlowRunDispatch * (string * string)) (o : ending) (m : move) :
    M system unit :=
  match m with
  | MRecord => dispatch_record f d
  | MPrepare => workflow_prepare f
  | MFinish => workflow_finish f (fd_workflow d.1) o
  end.

(** The service's view of a run that has returned. *)
Definition row_after (f : uuid) (s : system) : option (string * option string) :=
  (fun r => (fr_status r, fst <$> fr_workflow r)) <$> flow_runs (sys_db s) !! f.

Section race.
Variable uuid_str : uuid -> string.
Variable int_str : Z -> string.
Variable run_id : string -> string.

Lemma interleavings_of_dispatch (l : list move) :
  interleave [MRecord] [MPrepare; MFinish] l ->
  l = [MRecord; MPrepare; MFinish] \/ l = [MPrepare; MRecord; MFinish] \/ l = [MPrepare; MFinish; MRecord].
Proof. intros H. repeat match goal with H : interleave _ _ _ |- _ => inversion_clear H end; auto. Qed.

Lemma dispatch_start_ok f s d s1 :
  dispatch_start uuid_str int_str run_id true f 0 s = (Ok d, s1) ->
  sys_db s1 = sys_db s /\ fd_workflow d.1 = workflow_id_for int_str (uuid_str f) 0 /\
  d.2 = ("QUEUED", "CREATED").
Proof.
  unfold dispatch_start, start_flow_run, mbind_, mget. simpl.
  destruct (sys_workflows s !! _); [done|]. by intros [= <- <-].
Qed.

Lemma do_record f d o s r :
  flow_runs (sys_db s) !! f = Some r -> exists s', do_move f d o MRecord s = (Ok tt, s') /\
    flow_runs (sys_db s') !! f = Some (with_status d.2.1 d.2.2
      (with_turn (fr_input r) (fr_turn_index r) (Some (fd_workflow d.1, fd_run d.1)) r)) /\
    sys_workflows s' = sys_workflows s.
Proof. intros Hr. eexists. split; [reflexivity|]. simpl. by rewrite lookup_alter_eq, Hr. Qed.

Lemma do_prepare f d o s r :
  flow_runs (sys_db s) !! f = Some r -> exists s', do_move f d o MPrepare s = (Ok tt, s') /\
    flow_runs (sys_db s') !! f = Some (with_status "RUNNING" "RUNNING" r).
Proof. intros Hr. eexists. split; [reflexivity|]. simpl. by rewrite lookup_alter_eq, Hr. Qed.

Lemma do_finish f d o s r :
  flow_runs (sys_db s) !! f = Some r -> exists s' r', do_move f d o MFinish s = (Ok tt, s') /\
    flow_runs (sys_db s') !! f = Some r' /\ fr_status r' = ending_status o /\
    fr_workflow r' = fr_workflow r /\ sys_workflows s' !! fd_workflow d.1 = Some WF_COMPLETED.
Proof.
  intros Hr. destruct o; do 2 eexists; (split; [reflexivity|]); simpl;
    rewrite ?lookup_alter_eq, Hr; (split; [reflexivity|]); simpl; by rewrite lookup_insert_eq.
Qed.

(** The dispatch race.  The workflow is started before its dispatch is recorded.  In
    every interleaving the workflow returns and the service reports it as completed;
    the flow run shows the workflow's result exactly when the record was written
    before the result: written last, it puts a finished run back to QUEUED. *)
Theorem dispatch_race f r o s d s1 l :
  flow_runs (sys_db s) !! f = Some r ->
  dispatch_start uuid_str int_str run_id true f 0 s = (Ok d, s1) ->
  interleave [MRecord] [MPrepare; MFinish] l ->
  exists s', mfor (do_move f d o) l s1 = (Ok tt, s') /\
    row_after f s' = Some (if decide (last l = Some MRecord) then "QUEUED" else ending_status o,
                           Some (fd_workflow d.1)) /\
    describe_flow_run uuid_str int_str f (Some (fd_workflow d.1)) s' = Some (Some OC_COMPLETED).
Proof.
  intros Hr (Hdb & Hw & Hd)%dispatch_start_ok Hl. rewrite <- Hdb in Hr.
  assert (Hdesc : forall s', sys_workflows s' !! fd_workflow d.1 = Some WF_COMPLETED ->
    describe_flow_run uuid_str int_str f (Some (fd_workflow d.1)) s' = Some (Some OC_COMPLETED)).
  { intros s' H. unfold describe_flow_run. rewrite Hw in *. cbn [nonempty default]. simpl.
    unfold workflow_id_for in *. simpl in *. by rewrite H. }
  unfold row_after. apply interleavings_of_dispatch in Hl as [-> | [-> | ->]]; cbn [mfor].
  - destruct (do_record f d o s1 r Hr) as (s2 & M1 & H2 & _).
    destruct (do_prepare f d o s2 _ H2) as (s3 & M2 & H3).
    destruct (do_finish f d o s3 _ H3) as (s4 & r4 & M3 & H4 & Hs & Hwf & Hc). exists s4.
    rewrite (mbind_run _ _ _ _ _ M1), (mbind_run _ _ _ _ _ M2), (mbind_run _ _ _ _ _ M3).
    split_and!; [done| |by apply Hdesc]. rewrite H4. simpl. by rewrite Hs, Hwf.
  - destruct (do_prepare f d o s1 r Hr) as (s2 & M1 & H2).
    destruct (do_record f d o s2 _ H2) as (s3 & M2 & H3 & _).
    destruct (do_finish f d o s3 _ H3) as (s4 & r4 & M3 & H4 & Hs & Hwf & Hc). exists s4.
    rewrite (mbind_run _ _ _ _ _ M1), (mbind_run _ _ _ _ _ M2), (mbind_run _ _ _ _ _ M3).
    split_and!; [done| |by apply Hdesc]. rewrite H4. simpl. by rewrite Hs, Hwf.
  - destruct (do_prepare f d o s1 r Hr) as (s2 & M1 & H2).
    destruct (do_finish f d o s2 _ H2) as (s3 & r3 & M2 & H3 & Hs & Hwf & Hc).
    destruct (do_record f d o s3 _ H3) as (s4 & M3 & H4 & Hsw). exists s4.
    rewrite (mbind_run _ _ _ _ _ M1), (mbind_run _ _ _ _ _ M2), (mbind_run _ _ _ _ _ M3).
    split_and!; [done| |by apply Hdesc; rewrite Hsw]. rewrite H4. simpl. by rewrite Hd.
Qed.
End race.

(** ** Concrete schedules *)

Fixpoint mark (n : nat) (s : string) : string := match n with 0 => s | S n => "-" +:+ mark n s end.

Definition demo_system : system := {| sys_db := demo_store; sys_workflows := ∅ |}.

Definition demo_id (u : uuid) : string := if (u =? 7)%N then "a" else "b".
Definition demo_int (z : Z) : string := mark (Z.to_nat z) "".

(** A run whose dispatch is recorded last, then a reconciliation pass. *)
Definition raced (o : ending) : M system nat :=
  let* d := dispatch_start demo_id demo_int (fun w => w) true 7 0 in
  mfor (do_move 7 d o) [MPrepare; MFinish; MRecord] ;;*
  reconcile_once demo_id demo_int (fun f => if (f =? 7)%N then 0 else 100)%Z (fun _ => Some 1%N) 20 true
    (fun _ => true) 100 60 10.

Definition run_view (r : flow_run) : string * pyval * pyval :=
  (fr_status r, fr_output r, match fr_error r with PDict e => dict_getv "message" e | v => v end).

(** A completed run can be failed.  When the record of a dispatch loses the race
    against its workflow, the run is QUEUED with a returned workflow; the next
    reconciliation pass takes it for abandoned and fails it, although its output was
    delivered. *)
Theorem finished_run_abandoned :
  match raced (EndCompleted (PStr "answer")) demo_system with
  | (Ok n, s) => (n, run_view <$> flow_runs (sys_db s) !! 7%N)
  | _ => (0, None)
  end = (1, Some ("FAILED", PStr "answer", PStr "flow_run_abandoned")).
Proof. vm_compute. reflexivity. Qed.

Lemma dispatch_race_witness :
  exists d s1 s', dispatch_start demo_id demo_int (fun w => w) true 7 0 demo_system = (Ok d, s1) /\
    mfor (do_move 7 d (EndCompleted (PStr "answer"))) [MPrepare; MFinish; MRecord] s1 = (Ok tt, s') /\
    row_after 7 s' = Some ("QUEUED", Some "flow-run-a").
Proof.
  destruct (dispatch_start demo_id demo_int (fun w => w) true 7 0 demo_system) as [[d|] s1] eqn:H;
    [|vm_compute in H; discriminate].
  destruct (dispatch_race demo_id demo_int (fun w => w) 7 demo_flow (EndCompleted (PStr "answer"))
    demo_system d s1 [MPrepare; MFinish; MRecord] eq_refl H) as (s' & Hm & Hrow & _).
  { apply interleave_right, interleave_right, interleave_left, interleave_nil. }
  exists d, s1, s'. split; [reflexivity|]. split; [exact Hm|].
  rewrite Hrow. vm_compute in H. injection H as <- _. reflexivity.
Defined.

Lemma mark_inj a b : mark a "" = mark b "" -> a = b.
Proof.
  revert b. induction a as [|a IH]; intros [|b] H; try discriminate; [done|].
  f_equal. apply IH. exact (append_inj_l "-" _ _ H).
Qed.

Definition unary_id (u : uuid) : string := mark (N.to_nat u) "".

Lemma demo_turns_known : turns_known unary_id demo_int demo_system.
Proof.
  intros f r Hr. split.
  - simpl in Hr. apply lookup_insert_Some in Hr as [[_ <-]|[_ Hr]]; [done|].
    apply lookup_insert_Some in Hr as [[_ <-]|[_ Hr]]; [done|]. by rewrite lookup_empty in Hr.
  - intros t [x Hx]. unfold demo_system in Hx. cbn [sys_workflows] in Hx. by rewrite lookup_empty in Hx.
Qed.

Lemma resume_turns_fresh_witness :
  exists s', dispatch_next_turn unary_id demo_int (fun w => w) true 7 demo_system = (Ok tt, s') /\
    turns_known unary_id demo_int s'.
Proof.
  destruct (resume_turns_fresh unary_id demo_int (fun w => w)) with (f := 7%N) (r := demo_flow) (s := demo_system)
    as (s' & H & Hk & _).
  - intros u v H%mark_inj. lia.
  - intros u. unfold unary_id. induction (N.to_nat u) as [|n IH]; [reflexivity | exact IH].
  - intros a b Ha Hb H%mark_inj. lia.
  - exact demo_turns_known.
  - reflexivity.
  - exists s'. split; [exact H | exact Hk].
Defined.

Lemma reconcile_fails_exactly_witness :
  exists n s', reconcile_once demo_id demo_int (fun f => if (f =? 7)%N then 0 else 100)%Z (fun _ => Some 1%N)
    20 false (fun _ => true) 100 60 10 demo_system = (Ok n, s') /\
    flow_runs (sys_db s') !! 8%N = Some demo_flow.
Proof.
  destruct (reconcile_once demo_id demo_int (fun f => if (f =? 7)%N then 0 else 100)%Z (fun _ => Some 1%N)
    20 false (fun _ => true) 100 60 10 demo_system) as [[n|] s'] eqn:H; [|vm_compute in H; discriminate].
  exists n, s'. split; [reflexivity|].
  destruct (reconcile_fails_exactly demo_id demo_int (fun f => if (f =? 7)%N then 0 else 100)%Z
    (fun _ => Some 1%N) 20 false (fun _ => true) 100 60 10 demo_system n s' H) as (_ & _ & Hrows).
  rewrite (Hrows 8%N). vm_compute. reflexivity.
Defined.
