(* ===== verification/PyString.v ===== *)
(** * PyString: the string methods the services use

    [strip], [rstrip], slices, joins and the one regular expression of the tool
    catalogue.  Strings are UTF-8; [strip] works on code points. *)

From S2P Require Import Prelude.
From S2P Require Import Errors.
From S2P Require Import PyValue.

(** ** Whitespace *)

Definition bytes (l : list nat) : string :=
  String.string_of_list_ascii (Ascii.ascii_of_nat <$> l).

(** The code points [str.isspace] accepts. *)
Definition whitespace : list string := Eval vm_compute in
  bytes <$>
    (((fun n => [n]) <$> [9; 10; 11; 12; 13; 28; 29; 30; 31; 32])
     ++ [[194; 133]; [194; 160]; [225; 154; 128]]
     ++ ((fun n => [226; 128; n]) <$> seq 128 11)
     ++ [[226; 128; 168]; [226; 128; 169]; [226; 128; 175]; [226; 129; 159]; [227; 128; 128]]).

Definition is_space (c : string) : bool := bool_decide (c ∈ whitespace).

Fixpoint drop_while {A} (f : A -> bool) (l : list A) : list A :=
  match l with
  | [] => []
  | x :: l' => if f x then drop_while f l' else l
  end.

Definition str_concat (l : list string) : string := foldr String.append "" l.

(** [s.strip()] and [s.rstrip(chars)] for one-character [chars]. *)
Definition py_strip (s : string) : string :=
  str_concat (reverse (drop_while is_space (reverse (drop_while is_space (utf8_chars s))))).
Definition py_rstrip (c : string) (s : string) : string :=
  str_concat (reverse (drop_while (String.eqb c) (reverse (utf8_chars s)))).

(** ** Slices and joins *)

(** [s[:n]] of an ASCII string. *)
Fixpoint str_take (n : nat) (s : string) : string :=
  match n, s with
  | S n', String a s' => String a (str_take n' s')
  | _, _ => ""
  end.

(** [s.replace(c, "")] for one ASCII character. *)
Fixpoint str_remove (c : Ascii.ascii) (s : string) : string :=
  match s with
  | EmptyString => ""
  | String a s' => if Ascii.eqb a c then str_remove c s' else String a (str_remove c s')
  end.

(** [sep.join(l)]. *)
Fixpoint str_join (sep : string) (l : list string) : string :=
  match l with
  | [] => ""
  | [x] => x
  | x :: l' => x +:+ sep +:+ str_join sep l'
  end.

(** [s.split(sep)] at a character. *)
Fixpoint str_split (sep : Ascii.ascii) (s : string) : list string :=
  match s with
  | EmptyString => [""]
  | String a s' =>
      match str_split sep s' with
      | w :: ws => if Ascii.eqb a sep then "" :: w :: ws else String a w :: ws
      | [] => []
      end
  end.

(** [list(dict.fromkeys(l))]: the first occurrence of every element. *)
Fixpoint fromkeys {A} `{EqDecision A} (l : list A) : list A :=
  match l with
  | [] => []
  | x :: l' => x :: filter (.≠ x) (fromkeys l')
  end.

(** [str(v)] where [v] may already be a string; printing other values is the
    interpreter's. *)
Definition str_of (py_str : pyval -> string) (v : pyval) : string :=
  match v with PStr s => s | _ => py_str v end.

(** ** The character class [a-zA-Z0-9_-] *)

Definition is_safe (a : Ascii.ascii) : bool :=
  let n := Ascii.nat_of_ascii a in
  (48 <=? n) && (n <=? 57) || (65 <=? n) && (n <=? 90) || (97 <=? n) && (n <=? 122)
  || (n =? 95) || (n =? 45).

Fixpoint all_safe (s : string) : bool :=
  match s with EmptyString => true | String a s' => is_safe a && all_safe s' end.

(** [re.sub("[^a-zA-Z0-9_-]", "_", s)], code point by code point. *)
Definition sub_unsafe (s : string) : string :=
  str_concat ((fun c => match c with
                        | String a EmptyString => if is_safe a then c else "_"
                        | _ => "_"
                        end) <$> utf8_chars s).

(** ** Lemmas *)

Lemma str_split_nonempty sep s : str_split sep s <> [].
Proof.
  induction s as [|a s IH]; simpl; [done|]. destruct (str_split sep s) as [|w ws]; [done|]. by destruct (Ascii.eqb a sep).
Qed.

(** Joining the parts again gives the text. *)
Lemma str_join_split sep s : str_join (String sep EmptyString) (str_split sep s) = s.
Proof.
  induction s as [|a s IH]; [done|]. simpl. pose proof (str_split_nonempty sep s) as Hne.
  destruct (str_split sep s) as [|w ws]; [done|]. destruct (Ascii.eqb_spec a sep) as [->|Ha].
  - change (str_join (String sep "") ("" :: w :: ws)) with (String sep (str_join (String sep "") (w :: ws))).
    by rewrite IH.
  - destruct ws as [|w' ws]; [by rewrite <- IH|].
    change (str_join (String sep "") (String a w :: w' :: ws))
      with (String a (w +:+ String sep "" +:+ str_join (String sep "") (w' :: ws))). by rewrite <- IH.
Qed.

Lemma all_safe_app s t : all_safe (s +:+ t) = all_safe s && all_safe t.
Proof.
  induction s as [|a s IH]; [done|].
  change (String a s +:+ t) with (String a (s +:+ t)). simpl. by rewrite IH, andb_assoc.
Qed.

Lemma all_safe_sub s : all_safe (sub_unsafe s) = true.
Proof.
  unfold sub_unsafe. induction (utf8_chars s) as [|c cs IH]; [done|]. cbn [fmap list_fmap str_concat foldr].
  rewrite all_safe_app. apply andb_true_iff. split; [|exact IH].
  destruct c as [|a [|]]; [done| |done]. destruct (is_safe a) eqn:E; [|done]. simpl. by rewrite E.
Qed.

Lemma all_safe_take n s : all_safe s = true -> all_safe (str_take n s) = true.
Proof.
  revert s. induction n as [|n IH]; intros [|a s]; try done. simpl. rewrite !andb_true_iff. naive_solver.
Qed.

Lemma length_str_take n s : String.length (str_take n s) <= n.
Proof. revert s. induction n as [|n IH]; intros [|a s]; simpl; try lia. specialize (IH s). lia. Qed.

Lemma length_str_app s t : String.length (s +:+ t) = String.length s + String.length t.
Proof.
  induction s as [|a s IH]; [done|].
  change (String a s +:+ t) with (String a (s +:+ t)). simpl. by rewrite IH.
Qed.

Lemma str_take_nonempty n s : 0 < n -> s <> "" -> str_take n s <> "".
Proof. destruct n, s; (done || lia). Qed.

Section fromkeys.
Context {A : Type} `{EqDecision A}.

Lemma elem_of_fromkeys (l : list A) x : x ∈ fromkeys l <-> x ∈ l.
Proof.
  induction l as [|y l IH]; [done|]. simpl. rewrite !elem_of_cons, list_elem_of_filter, IH.
  destruct (decide (x = y)); tauto.
Qed.

Lemma NoDup_fromkeys (l : list A) : NoDup (fromkeys l).
Proof.
  induction l as [|y l IH]; simpl; constructor; [|by apply NoDup_filter].
  rewrite list_elem_of_filter. tauto.
Qed.

Lemma fromkeys_NoDup (l : list A) : NoDup l -> fromkeys l = l.
Proof.
  induction 1 as [|y l Hy _ IH]; [done|]. simpl. f_equal. rewrite IH. clear IH.
  induction l as [|z l IH]; [done|]. rewrite not_elem_of_cons in Hy. destruct Hy as [Hz Hy].
  rewrite filter_cons_True by congruence. by rewrite IH.
Qed.

Lemma fromkeys_nil (l : list A) : fromkeys l = [] <-> l = [].
Proof. by destruct l. Qed.
End fromkeys.

Example strip_spaces : py_strip (" " +:+ bytes [226; 128; 129] +:+ "a b" +:+ bytes [10]) = "a b".
Proof. by vm_compute. Qed.
Example sub_mixed : sub_unsafe ("get " +:+ bytes [195; 169] +:+ "/x-1") = "get___x-1".
Proof. by vm_compute. Qed.

(** ** Code points *)

Definition starts_inside (s : string) : bool := match s with String b _ => is_cont_byte b | EmptyString => false end.

Lemma utf8_chars_cons x y s :
  utf8_chars (String x (String y s)) = match utf8_chars (String y s) with
    | c :: cs => if is_cont_byte y then String x c :: cs else String x EmptyString :: c :: cs | [] => [String x EmptyString] end.
Proof. reflexivity. Qed.

Lemma utf8_chars_nil s : utf8_chars s = [] -> s = "".
Proof.
  destruct s as [|a [|b s]]; [done | done |]. rewrite utf8_chars_cons. destruct (utf8_chars (String b s)); [done|]. by destruct (is_cont_byte b).
Qed.

Lemma utf8_chars_app a b : starts_inside b = false -> utf8_chars (a +:+ b) = utf8_chars a ++ utf8_chars b.
Proof.
  intros Hb. induction a as [|x [|y a] IH]; [done | |].
  - change (String x "" +:+ b) with (String x b). destruct b as [|z b]; [done|]. rewrite utf8_chars_cons.
    destruct (utf8_chars (String z b)) as [|c cs] eqn:E; [by apply utf8_chars_nil in E|]. unfold starts_inside in Hb. by rewrite Hb.
  - change (String x (String y a) +:+ b) with (String x (String y (a +:+ b))). change (String y a +:+ b) with (String y (a +:+ b)) in IH.
    rewrite !utf8_chars_cons, IH. destruct (utf8_chars (String y a)) as [|c cs] eqn:E; [by apply utf8_chars_nil in E|].
    cbn [app]. by destruct (is_cont_byte y).
Qed.

Lemma str_concat_chars s : str_concat (utf8_chars s) = s.
Proof.
  induction s as [|a [|b s] IH]; [done | done |]. rewrite utf8_chars_cons.
  destruct (utf8_chars (String b s)) as [|c cs] eqn:E; [by apply utf8_chars_nil in E|].
  destruct (is_cont_byte b).
  - change (String a (c +:+ str_concat cs) = String a (String b s)). by rewrite <- IH.
  - change (String a (c +:+ str_concat cs) = String a (String b s)). by rewrite <- IH.
Qed.

Lemma string_app_nil s : s +:+ "" = s.
Proof. induction s as [|a s IH]; [done|]. change (String a (s +:+ "") = String a s). by rewrite IH. Qed.
