(* ===== verification/PyFloat.v ===== *)
(** * PyFloat: binary64 arithmetic as Python does it

    Costs are Python floats.  The operations the source uses ([+], [-], [*], the true
    division of integers, [float(...)], [round(x, n)]) are those of IEEE binary64 with
    rounding to nearest even, from the Standard Library's specification of floats. *)

From Stdlib Require Import Floats.SpecFloat.
From S2P Require Import Prelude.
From S2P Require Import Errors.
From S2P Require Import PyValue.

Definition prec : Z := 53.
Definition emax : Z := 1024.

Definition to_spec (x : pyfloat) : spec_float :=
  match x with
  | FFin 0 _ => S754_zero false
  | FFin (Zpos m) e => S754_finite false m e
  | FFin (Zneg m) e => S754_finite true m e
  | FInf n => S754_infinity n
  | FNaN => S754_nan
  end.

(** The sign of zero is dropped: no comparison sees it. *)
Definition of_spec (x : spec_float) : pyfloat :=
  match x with
  | S754_zero _ => FFin 0 0
  | S754_finite false m e => FFin (Zpos m) e
  | S754_finite true m e => FFin (Zneg m) e
  | S754_infinity n => FInf n
  | S754_nan => FNaN
  end.

Definition float_add (x y : pyfloat) : pyfloat := of_spec (SFadd prec emax (to_spec x) (to_spec y)).
Definition float_sub (x y : pyfloat) : pyfloat := of_spec (SFsub prec emax (to_spec x) (to_spec y)).
Definition float_mul (x y : pyfloat) : pyfloat := of_spec (SFmul prec emax (to_spec x) (to_spec y)).
Definition float_div (x y : pyfloat) : pyfloat := of_spec (SFdiv prec emax (to_spec x) (to_spec y)).
Definition float_abs (x : pyfloat) : pyfloat :=
  match x with FFin m e => FFin (Z.abs m) e | FInf _ => FInf false | FNaN => FNaN end.

(** The float nearest to the quotient of two integers; the divisor is not zero. *)
Definition ratio (n d : Z) : pyfloat :=
  of_spec (SFdiv prec emax (to_spec (FFin n 0)) (to_spec (FFin d 0))).

Definition overflow : exc := ExternalError "OverflowError" "".

(** [n / d] on integers and [float(z)] raise instead of returning an infinity. *)
Definition finite_or_overflow (x : pyfloat) : res exc pyfloat :=
  match x with FInf _ => Err overflow | _ => Ok x end.
Definition int_div (n d : Z) : res exc pyfloat := finite_or_overflow (ratio n d).
Definition float_of_int (z : Z) : res exc pyfloat :=
  finite_or_overflow (of_spec (binary_normalize prec emax z 0 false)).

(** [float(v)]; reading a float from a string is the interpreter's. *)
Definition py_float (float_of_string : string -> option pyfloat) (v : pyval) : res exc pyfloat :=
  match v with
  | PFloat x => Ok x
  | PInt z => float_of_int z
  | PBool b => Ok (FFin (if b then 1 else 0) 0)
  | PStr s => match float_of_string s with Some x => Ok x | None => Err PyValueError end
  | _ => Err PyTypeError
  end.

(** The integer nearest to [n / d], ties to even; [d] is positive. *)
Definition round_half_even (n d : Z) : Z :=
  let q := (n / d)%Z in
  match Z.compare (2 * (n - q * d)) d with
  | Lt => q
  | Gt => q + 1
  | Eq => if Z.even q then q else q + 1
  end%Z.

(** [round(x, digits)]: the decimal nearest to the exact value, read back. *)
Definition py_round (x : pyfloat) (digits : Z) : pyfloat :=
  match x with
  | FFin m e =>
      if (0 <=? e)%Z then x
      else ratio (round_half_even (m * 10 ^ digits) (2 ^ (- e))) (10 ^ digits)
  | _ => x
  end.

(** Order of floats; false when a NaN is involved. *)
Definition float_ltb (x y : pyfloat) : bool :=
  match num_compare x y with Some Lt => true | _ => false end.

(** [not x]. *)
Definition float_is_zero (x : pyfloat) : bool :=
  match x with FFin m _ => (m =? 0)%Z | _ => false end.

(** ** Decimals

    [Decimal] with the default context: 28 significant digits, ties to even. *)

Record decimal : Type := { d_coef : Z; d_exp : Z }.

Definition dec_zero : decimal := {| d_coef := 0; d_exp := 0 |}.

(** The number of digits to drop from a coefficient. *)
Fixpoint excess_digits (fuel : nat) (c : Z) : Z :=
  match fuel with
  | 0 => 0%Z
  | S fuel => if (Z.abs c <? 10 ^ 28)%Z then 0%Z else (1 + excess_digits fuel (c / 10))%Z
  end.

(** The fuel is the bit length of the coefficient, never less than its decimal digits. *)
Definition dec_round (x : decimal) : decimal :=
  let k := excess_digits (Z.to_nat (Z.log2 (Z.abs (d_coef x)))) (Z.abs (d_coef x)) in
  if (k =? 0)%Z then x
  else {| d_coef := Z.sgn (d_coef x) * round_half_even (Z.abs (d_coef x)) (10 ^ k); d_exp := d_exp x + k |}%Z.

(** [x + y]. *)
Definition dec_add (x y : decimal) : decimal :=
  let e := Z.min (d_exp x) (d_exp y) in
  dec_round {| d_coef := d_coef x * 10 ^ (d_exp x - e) + d_coef y * 10 ^ (d_exp y - e); d_exp := e |}%Z.

(** [bool(x)] is false exactly on zeros; [float(x)] is the nearest float. *)
Definition dec_is_zero (x : decimal) : bool := (d_coef x =? 0)%Z.
Definition dec_float (x : decimal) : pyfloat :=
  if (0 <=? d_exp x)%Z then of_spec (binary_normalize prec emax (d_coef x * 10 ^ d_exp x) 0 false)
  else ratio (d_coef x) (10 ^ (- d_exp x)).

(** ** Facts *)

Lemma num_compare_antisym x y : num_compare y x = CompOpp <$> num_compare x y.
Proof.
  destruct x as [m e|[]|], y as [m' e'|[]|]; simpl; try done.
  by rewrite (Z.min_comm e' e), <- Z.compare_antisym.
Qed.

Lemma num_compare_ge x y : float_ltb x y = false -> num_compare y x <> Some Gt.
Proof.
  unfold float_ltb. rewrite (num_compare_antisym x y).
  destruct (num_compare x y) as [[]|]; simpl; intros ? ?; congruence.
Qed.

Lemma round_half_even_error n d :
  (0 < d)%Z -> (Z.abs (2 * (round_half_even n d * d - n)) <= d)%Z.
Proof.
  intros Hd. unfold round_half_even. pose proof (Z.div_mod n d ltac:(lia)) as Hn.
  pose proof (Z.mod_pos_bound n d Hd). set (q := (n / d)%Z) in *.
  destruct (Z.compare_spec (2 * (n - q * d)) d); [destruct (Z.even q)|..]; nia.
Qed.

Example round_tie : round_half_even 25 10 = 2%Z /\ round_half_even 35 10 = 4%Z.
Proof. done. Qed.

(** One tenth plus two tenths is not three tenths, but rounds to it. *)
Example add_tenths :
  num_compare (float_add (ratio 1 10) (ratio 2 10)) (ratio 3 10) = Some Gt /\
  num_compare (py_round (float_add (ratio 1 10) (ratio 2 10)) 6) (ratio 3 10) = Some Eq.
Proof. by vm_compute. Qed.

Example dec_tenths :
  dec_add {| d_coef := 1; d_exp := -1 |} {| d_coef := 25; d_exp := -2 |} = {| d_coef := 35; d_exp := -2 |} /\
  dec_add {| d_coef := 10 ^ 28; d_exp := 0 |} {| d_coef := 5; d_exp := 0 |} =
    {| d_coef := 10 ^ 27; d_exp := 1 |}.
Proof. by vm_compute. Qed.
