(* ===== verification/Redis.v ===== *)
(** * Redis: the cache adapter and what is built on it

    [src/src/adapters/cache/redis_adapter.py], the circuit breaker of
    [src/src/domain/llm/services/circuit_breaker.py] and
    [src/src/domain/execution/adapters/idempotency_service.py].

    The server is a map from keys to values with an expiry time; a command may also
    fail, as the schedule [faults] says.  A value is text: the decimal text of an
    integer, which [INCR] accepts, or the JSON text of another value. *)

From S2P Require Import Prelude.
From S2P Require Import Errors.
From S2P Require Import PyValue.
From S2P Require Import Effects.

(** ** The server *)

Inductive rvalue : Type :=
  | RInt (z : Z)
  | RJson (v : pyval).

Record redis : Type := {
  entries : gmap string (rvalue * option Z);
  clock : Z;
  faults : list bool;
}.

Definition set_entries (v : gmap string (rvalue * option Z)) (s : redis) : redis :=
  {| entries := v; clock := clock s; faults := faults s |}.
Definition set_faults (v : list bool) (s : redis) : redis :=
  {| entries := entries s; clock := clock s; faults := v |}.
(** Time passes. *)
Definition tick (d : Z) (s : redis) : redis :=
  {| entries := entries s; clock := clock s + d; faults := faults s |}.

(** One round trip. *)
Definition command {A} (act : redis -> res exc A * redis) : M redis A := fun s =>
  match faults s with
  | true :: fs => (Err (ExternalError "ConnectionError" ""), set_faults fs s)
  | false :: fs => act (set_faults fs s)
  | [] => act s
  end.

Definition live (s : redis) (e : rvalue * option Z) : bool :=
  match e.2 with Some t => (clock s <? t)%Z | None => true end.

(** The value of a key, unless it has expired. *)
Definition rlookup (s : redis) (k : string) : option (rvalue * option Z) :=
  match entries s !! k with
  | Some e => if live s e then Some e else None
  | None => None
  end.

Definition redis_get (k : string) : M redis (option rvalue) :=
  command (fun s => (Ok (fst <$> rlookup s k), s)).

(** [SET key value EX ttl]. *)
Definition redis_set (k : string) (v : rvalue) (ttl : Z) : M redis unit :=
  command (fun s =>
    if (ttl <=? 0)%Z then (Err (ExternalError "ResponseError" "invalid expire time"), s)
    else (Ok tt, set_entries (<[k := (v, Some (clock s + ttl)%Z)]> (entries s)) s)).

(** [SET key value EX ttl NX]. *)
Definition redis_set_nx (k : string) (v : rvalue) (ttl : Z) : M redis bool :=
  command (fun s =>
    if (ttl <=? 0)%Z then (Err (ExternalError "ResponseError" "invalid expire time"), s)
    else match rlookup s k with
         | Some _ => (Ok false, s)
         | None => (Ok true, set_entries (<[k := (v, Some (clock s + ttl)%Z)]> (entries s)) s)
         end).

Definition redis_delete (k : string) : M redis unit :=
  command (fun s => (Ok tt, set_entries (delete k (entries s)) s)).

(** [INCR]: a missing key counts from zero and has no expiry. *)
Definition redis_incr (k : string) : M redis Z :=
  command (fun s =>
    match rlookup s k with
    | None => (Ok 1%Z, set_entries (<[k := (RInt 1, None)]> (entries s)) s)
    | Some (RInt z, t) => (Ok (z + 1)%Z, set_entries (<[k := (RInt (z + 1), t)]> (entries s)) s)
    | Some (RJson _, _) => (Err (ExternalError "ResponseError" "value is not an integer"), s)
    end).

(** [EXPIRE]. *)
Definition redis_expire (k : string) (ttl : Z) : M redis unit :=
  command (fun s =>
    match rlookup s k with
    | None => (Ok tt, s)
    | Some (v, _) =>
        if (ttl <=? 0)%Z then (Ok tt, set_entries (delete k (entries s)) s)
        else (Ok tt, set_entries (<[k := (v, Some (clock s + ttl)%Z)]> (entries s)) s)
    end).

(** ** The adapter *)

(** [silent_mode_wrapper]: exceptions become [False]. *)
Definition silent_mode_wrapper (silent_mode : bool) (m : M redis pyval) : M redis pyval :=
  if silent_mode then mtry m (fun _ => mret (PBool false)) else m.

(** [json.loads]. *)
Definition loads (v : rvalue) : pyval := match v with RInt z => PInt z | RJson j => j end.

(** [int(value)] of a count. *)
Definition count_of (v : pyval) : Z :=
  match v with PInt z => z | PBool b => if b then 1 else 0 | _ => 0 end.

Section adapter.
Variable silent_mode : bool.

Definition cache_get (k : string) : M redis pyval :=
  silent_mode_wrapper silent_mode
    (let* d := redis_get k in mret (match d with Some v => loads v | None => PNone end)).

Definition cache_set (k : string) (data : pyval) (ttl : Z) : M redis pyval :=
  silent_mode_wrapper silent_mode (redis_set k (RJson data) ttl ;;* mret PNone).

Definition set_if_not_exists (k : string) (data : pyval) (ttl : Z) : M redis pyval :=
  silent_mode_wrapper silent_mode (let* b := redis_set_nx k (RJson data) ttl in mret (PBool b)).

Definition cache_delete (k : string) : M redis pyval :=
  silent_mode_wrapper silent_mode (redis_delete k ;;* mret PNone).

(** [incr_with_ttl]: two commands; only the first increment sets the expiry. *)
Definition incr_with_ttl (k : string) (ttl : Z) : M redis pyval :=
  silent_mode_wrapper silent_mode (
    let* value := redis_incr k in
    (if (value =? 1)%Z then redis_expire k ttl else mret tt) ;;*
    mret (PInt value)).

(** ** The circuit breaker *)

(** [breaker_silent] is the breaker's own flag. *)
Variable breaker_silent : bool.
Variable failure_threshold : Z.
Variable window_seconds : Z.

Definition breaker_key (scope : string) : string := "cb:llm:" +:+ scope.

(** [data and data.get("state") == "open"], then the exception. *)
Definition check_open (data : pyval) : res exc unit :=
  if negb (truthy data) then Ok tt
  else match data with
       | PDict d => raise_if (match dict_getv "state" d with PStr s => String.eqb s "open" | _ => false end)
                      (DomainValidationException "llm_circuit_breaker_open")
       | _ => Err PyAttributeError
       end.

(** [ensure_closed]. *)
Definition ensure_closed (scope : string) : M redis unit :=
  let body := let* data := cache_get (breaker_key scope) in mlift (check_open data) in
  if breaker_silent then mtry body (fun _ => mret tt) else body.

(** [int(count) >= threshold] for what [incr_with_ttl] returns. *)
Definition reached (count : pyval) : bool :=
  match count with
  | PInt z => (failure_threshold <=? z)%Z
  | PBool b => (failure_threshold <=? if b then 1 else 0)%Z
  | _ => false
  end.

(** [record_failure]. *)
Definition record_failure (scope : string) : M redis unit :=
  mtry
    (let* count := incr_with_ttl (breaker_key scope) window_seconds in
     if reached count then
       cache_set (breaker_key scope) (PDict [("state", PStr "open")]) window_seconds ;;* mret tt
     else mret tt)
    (fun e => if breaker_silent then mret tt else mraise e).

(** [record_success]. *)
Definition record_success (scope : string) : M redis unit :=
  mtry (cache_delete (breaker_key scope) ;;* mret tt)
    (fun e => if breaker_silent then mret tt else mraise e).

(** ** Idempotency keys *)

Variable IDEMPOTENCY_TTL_SECONDS : Z.

Definition build_key (tenant endpoint idempotency_key : string) : string :=
  "idempotency:" +:+ tenant +:+ ":" +:+ endpoint +:+ ":" +:+ idempotency_key.

(** [try_acquire]. *)
Definition try_acquire (key : string) : M redis bool :=
  let* r := set_if_not_exists key (PDict [("status", PStr "PROCESSING")]) IDEMPOTENCY_TTL_SECONDS in
  mret (truthy r).

(** [get] and [set_result]. *)
Definition idempotency_get (key : string) : M redis pyval := cache_get key.
Definition set_result (key : string) (data : pyval) : M redis unit :=
  cache_set key data IDEMPOTENCY_TTL_SECONDS ;;* mret tt.
End adapter.

(** ** Counters *)

(** No command fails. *)
Definition healthy (s : redis) : Prop := faults s = [].

Section counters.
Variable silent_mode : bool.
Variable k : string.
Variable ttl : Z.

Lemma wrapper_ok m s v s' :
  m s = (Ok v, s') -> silent_mode_wrapper silent_mode m s = (Ok v, s').
Proof. intros H. unfold silent_mode_wrapper, mtry. destruct silent_mode; by rewrite H. Qed.

(** The first increment of a free counter starts its window. *)
Lemma incr_fresh s :
  healthy s -> rlookup s k = None -> (0 < ttl)%Z ->
  incr_with_ttl silent_mode k ttl s =
    (Ok (PInt 1), set_entries (<[k := (RInt 1, Some (clock s + ttl)%Z)]> (entries s)) s).
Proof.
  unfold healthy. intros Hh Hk Hw. apply wrapper_ok.
  assert (Hi : redis_incr k s = (Ok 1%Z, set_entries (<[k := (RInt 1, None)]> (entries s)) s)).
  { unfold redis_incr, command. by rewrite Hh, Hk. }
  rewrite (mbind_run _ _ _ _ _ Hi). unfold redis_expire, command, mbind_. simpl. rewrite Hh.
  unfold rlookup. simpl. rewrite lookup_insert_eq. simpl.
  replace (ttl <=? 0)%Z with false by (symmetry; apply Z.leb_gt; lia).
  unfold set_entries. simpl. by rewrite insert_insert_eq.
Qed.

(** Later increments leave the window as it is. *)
Lemma incr_live s c t :
  healthy s -> rlookup s k = Some (RInt c, t) -> (1 <= c)%Z ->
  incr_with_ttl silent_mode k ttl s =
    (Ok (PInt (c + 1)), set_entries (<[k := (RInt (c + 1), t)]> (entries s)) s).
Proof.
  unfold healthy. intros Hh Hk Hc. apply wrapper_ok.
  assert (Hi : redis_incr k s = (Ok (c + 1)%Z, set_entries (<[k := (RInt (c + 1), t)]> (entries s)) s)).
  { unfold redis_incr, command. by rewrite Hh, Hk. }
  rewrite (mbind_run _ _ _ _ _ Hi). by replace (c + 1 =? 1)%Z with false by (symmetry; apply Z.eqb_neq; lia).
Qed.
End counters.

(** ** What the breaker does *)

Section breaker_facts.
Variable silent_mode : bool.
Variables threshold window : Z.
Variable scope : string.
Hypothesis threshold_ok : (1 <= threshold)%Z.
Hypothesis window_ok : (0 < window)%Z.

Abbreviation key := (breaker_key scope).

(** [n] recorded failures in a row, for a breaker that raises its own errors. *)
Fixpoint failures (n : nat) : M redis unit :=
  match n with
  | 0 => mret tt
  | S n => failures n ;;* record_failure silent_mode false threshold window scope
  end.

(** The entry of the breaker after [n] failures. *)
Definition breaker_entry (n : nat) (s : redis) : option (rvalue * option Z) :=
  if decide (n = 0) then None
  else Some (if (threshold <=? Z.of_nat n)%Z then RJson (PDict [("state", PStr "open")]) else RInt (Z.of_nat n),
             Some (clock s + window)%Z).

Lemma live_window (s : redis) v : live s (v, Some (clock s + window)%Z) = true.
Proof using window_ok. unfold live. simpl. apply Z.ltb_lt. lia. Qed.

Lemma rlookup_insert s v :
  rlookup (set_entries (<[key := (v, Some (clock s + window)%Z)]> (entries s)) s) key =
  Some (v, Some (clock s + window)%Z).
Proof using window_ok.
  unfold rlookup. simpl. rewrite lookup_insert_eq.
  change (live _ _) with (live s (v, Some (clock s + window)%Z)). by rewrite live_window.
Qed.

Lemma failures_entry n s :
  healthy s -> entries s !! key = None -> (Z.of_nat n <= threshold)%Z ->
  exists s', failures n s = (Ok tt, s') /\ healthy s' /\ clock s' = clock s /\
    entries s' !! key = breaker_entry n s'.
Proof using threshold_ok window_ok.
  intros Hh H0. induction n as [|n IH]; intros Hn; [by exists s|].
  destruct IH as (s1 & H1 & Hh1 & Hc1 & He1); [lia|]. unfold healthy in *.
  assert (Hw : (window <=? 0)%Z = false) by (apply Z.leb_gt; lia).
  cbn [failures]. rewrite (mbind_run _ _ _ _ _ H1).
  assert (Hval : incr_with_ttl silent_mode key window s1 = (Ok (PInt (Z.of_nat (S n))),
    set_entries (<[key := (RInt (Z.of_nat (S n)), Some (clock s1 + window)%Z)]> (entries s1)) s1)).
  { destruct (decide (n = 0)) as [->|Hz].
    - apply incr_fresh; [done| |done]. unfold rlookup. by rewrite He1.
    - replace (Z.of_nat (S n)) with (Z.of_nat n + 1)%Z by lia. apply incr_live; [done| |lia].
      unfold rlookup. rewrite He1. unfold breaker_entry. rewrite decide_False by done.
      replace (threshold <=? Z.of_nat n)%Z with false by (symmetry; apply Z.leb_gt; lia).
      by rewrite live_window. }
  unfold record_failure, mtry. rewrite (mbind_run _ _ _ _ _ Hval). cbn [reached].
  destruct (threshold <=? Z.of_nat (S n))%Z eqn:Ht.
  - unfold cache_set, silent_mode_wrapper. destruct silent_mode; unfold mtry, mbind_, redis_set, command; simpl;
      rewrite Hh1, Hw; eexists; (split; [reflexivity|]); simpl;
      (split; [done|]); (split; [done|]); rewrite lookup_insert_eq; unfold breaker_entry; simpl; by rewrite Ht.
  - eexists. split; [reflexivity|]. simpl. split; [done|]. split; [done|].
    rewrite lookup_insert_eq. unfold breaker_entry. simpl. by rewrite Ht.
Qed.
End breaker_facts.

(** The circuit breaker's verdict.  In silent mode, the default, it never
    blocks a call, whatever Redis holds or does.  Otherwise, after [n] failures in a
    window it blocks with [llm_circuit_breaker_open] once the threshold is reached;
    between the first failure and the threshold, when calls should pass, it raises an
    [AttributeError], because the failure count shares its key with the open state. *)
Theorem breaker_verdict silent_mode threshold window scope s n :
  (1 <= threshold)%Z -> (0 < window)%Z -> healthy s -> entries s !! breaker_key scope = None ->
  (Z.of_nat n <= threshold)%Z ->
  (forall s0, (ensure_closed silent_mode true scope s0).1 = Ok tt) /\
  exists s', failures silent_mode threshold window scope n s = (Ok tt, s') /\
    (ensure_closed silent_mode false scope s').1 =
      if decide (n = 0) then Ok tt
      else if (Z.of_nat n <? threshold)%Z then Err PyAttributeError
      else Err (DomainValidationException "llm_circuit_breaker_open").
Proof.
  intros Ht Hw Hh H0 Hn. split.
  { intros s0. unfold ensure_closed, mtry. by destruct (mbind_ _ _ s0) as [[[]|]]. }
  destruct (failures_entry silent_mode threshold window scope Ht Hw n s Hh H0 Hn)
    as (s' & Hf & Hh' & Hc & He). exists s'. split; [done|]. unfold healthy in Hh'.
  assert (Hget : cache_get silent_mode (breaker_key scope) s' =
    (Ok (match rlookup s' (breaker_key scope) with Some e => loads e.1 | None => PNone end), s')).
  { unfold cache_get, silent_mode_wrapper, mtry, mbind_, redis_get, command.
    destruct silent_mode; rewrite Hh'; by destruct (rlookup s' (breaker_key scope)). }
  unfold ensure_closed. rewrite (mbind_run _ _ _ _ _ Hget). unfold rlookup. rewrite He.
  unfold breaker_entry. case_decide as Hz; [done|]. rewrite (live_window window Hw). simpl.
  destruct (Z.leb_spec threshold (Z.of_nat n)), (Z.ltb_spec (Z.of_nat n) threshold); try lia; [done|].
  unfold mlift, check_open. simpl. destruct n; done.
Qed.

Definition empty_redis : redis := {| entries := ∅; clock := 0; faults := [] |}.

Lemma breaker_verdict_witness :
  exists s', failures false 5 60 "gpt" 2 empty_redis = (Ok tt, s') /\
    (ensure_closed false false "gpt" s').1 = Err PyAttributeError.
Proof.
  destruct (breaker_verdict false 5 60 "gpt" empty_redis 2) as [_ (s' & H & Hv)];
    [lia | lia | reflexivity | reflexivity | lia |].
  exists s'. split; [exact H | exact Hv].
Defined.

(** ** Idempotent calls *)

(** How the services use idempotency keys: the first caller runs the body and stores
    its response; others get the stored response or a conflict.  The body works on
    the services' own state [W]. *)
Section idempotent.
Context {W : Type}.
Variable silent_mode : bool.
Variable ttl : Z.

Definition on_redis {A} (m : M redis A) : M (redis * W) A := fun s =>
  match m s.1 with (r, s1) => (r, (s1, s.2)) end.
(** The body takes [d] seconds. *)
Definition on_world {A} (d : Z) (m : M W A) : M (redis * W) A := fun s =>
  match m s.2 with (r, w) => (r, (tick d s.1, w)) end.

(** [existing and "response" in existing]. *)
Definition stored_response (existing : pyval) : res exc (option pyval) :=
  if negb (truthy existing) then Ok None
  else match existing with
       | PDict d => Ok (dict_get "response" d)
       | _ => Err PyTypeError
       end.

(** A call under a key: [pack] is what is stored, with the response in it; [load] validates a
    stored response. *)
Definition idempotent_call {A} (key : string) (pack : A -> pyval) (load : pyval -> res exc A) (body : M (redis * W) A) :
    M (redis * W) A :=
  let* acquired := on_redis (try_acquire silent_mode ttl key) in
  if (acquired : bool) then
    let* v := body in
    on_redis (set_result silent_mode ttl key (pack v)) ;;*
    mret v
  else
    let* existing := on_redis (idempotency_get silent_mode key) in
    let* stored := mlift (stored_response existing) in
    match stored with
    | Some response => mlift (load response)
    | None => mraise (IdempotencyInProgressException "")
    end.

Hypothesis ttl_ok : (0 < ttl)%Z.

Lemma on_redis_run {A} (m : M redis A) s w r s1 : m s = (r, s1) -> on_redis m (s, w) = (r, (s1, w)).
Proof. unfold on_redis. simpl. by intros ->. Qed.

Lemma acquire_free key s :
  healthy s -> rlookup s key = None ->
  try_acquire silent_mode ttl key s = (Ok true, set_entries
    (<[key := (RJson (PDict [("status", PStr "PROCESSING")]), Some (clock s + ttl)%Z)]> (entries s)) s).
Proof using ttl_ok.
  intros Hh Hk. assert (Hw : (ttl <=? 0)%Z = false) by (apply Z.leb_gt; lia). unfold healthy in Hh.
  unfold try_acquire, set_if_not_exists, silent_mode_wrapper, mtry, mbind_, redis_set_nx, command.
  destruct silent_mode; rewrite Hh, Hw, Hk; done.
Qed.

Lemma acquire_taken key s e :
  healthy s -> rlookup s key = Some e -> try_acquire silent_mode ttl key s = (Ok false, s).
Proof using ttl_ok.
  intros Hh Hk. assert (Hw : (ttl <=? 0)%Z = false) by (apply Z.leb_gt; lia). unfold healthy in Hh.
  unfold try_acquire, set_if_not_exists, silent_mode_wrapper, mtry, mbind_, redis_set_nx, command.
  destruct silent_mode; rewrite Hh, Hw, Hk; done.
Qed.

Lemma get_taken key s e :
  healthy s -> rlookup s key = Some e -> idempotency_get silent_mode key s = (Ok (loads e.1), s).
Proof.
  intros Hh Hk. unfold healthy in Hh. unfold idempotency_get, cache_get, silent_mode_wrapper, mtry, mbind_, redis_get, command.
  destruct silent_mode; rewrite Hh, Hk; done.
Qed.

Lemma store_result key s r :
  healthy s -> set_result silent_mode ttl key r s =
    (Ok tt, set_entries (<[key := (RJson r, Some (clock s + ttl)%Z)]> (entries s)) s).
Proof using ttl_ok.
  intros Hh. assert (Hw : (ttl <=? 0)%Z = false) by (apply Z.leb_gt; lia). unfold healthy in Hh.
  unfold set_result, cache_set, silent_mode_wrapper, mtry, mbind_, redis_set, command.
  destruct silent_mode; rewrite Hh, Hw; done.
Qed.

(** The key was free when it was acquired, and it was not touched when it was not. *)
Lemma acquire_won key s s' : try_acquire silent_mode ttl key s = (Ok true, s') -> rlookup s key = None.
Proof.
  unfold try_acquire, set_if_not_exists, silent_mode_wrapper, mtry, mbind_, redis_set_nx, command.
  destruct silent_mode, (faults s) as [|[] fs]; simpl; try done; destruct (ttl <=? 0)%Z; simpl; try done;
    try change (rlookup (set_faults fs s) key) with (rlookup s key); by destruct (rlookup s key).
Qed.
Lemma acquire_refused key s s' : try_acquire silent_mode ttl key s = (Ok false, s') -> rlookup s' key = rlookup s key.
Proof.
  unfold try_acquire, set_if_not_exists, silent_mode_wrapper, mtry, mbind_, redis_set_nx, command.
  intros H. assert (Hs : entries s' = entries s /\ clock s' = clock s).
  { unfold mret in H. destruct silent_mode, (faults s) as [|[] fs]; simpl in H; try done; repeat case_match; simplify_eq; done. }
  destruct Hs as [He Hc]. unfold rlookup, live. by rewrite He, Hc.
Qed.

(** A response read back under a key is stored there. *)
Lemma stored_found key s s' existing response :
  idempotency_get silent_mode key s = (Ok existing, s') -> stored_response existing = Ok (Some response) ->
  exists e, rlookup s key = Some e /\ stored_response (loads e.1) = Ok (Some response).
Proof.
  intros H Hr. assert (Hv : existing = PBool false \/ existing = match rlookup s key with Some e => loads e.1 | None => PNone end).
  { revert H. unfold idempotency_get, cache_get, silent_mode_wrapper, mtry, mbind_, redis_get, command.
    destruct silent_mode, (faults s) as [|[] fs]; simpl; try done;
      try change (rlookup (set_faults fs s) key) with (rlookup s key);
      destruct (rlookup s key) as [[]|]; simpl; intros [= <- _]; auto. }
  destruct Hv as [->| ->]; [done|]. destruct (rlookup s key) as [e|]; [by exists e | done].
Qed.

(** A replayed answer was stored under the key, and nothing ran; otherwise the key was free. *)
Lemma idempotent_cases {A} key (pack : A -> pyval) load body s w v s' w' :
  idempotent_call key pack load body (s, w) = (Ok v, (s', w')) ->
  (exists e response, rlookup s key = Some e /\ stored_response (loads e.1) = Ok (Some response) /\
     load response = Ok v /\ w' = w) \/
  (rlookup s key = None /\ exists s1 s2, body (s1, w) = (Ok v, (s2, w'))).
Proof.
  unfold idempotent_call. intros (b & [s1 w1] & H1 & H)%mbind_ok. unfold on_redis in H1. simpl in H1.
  destruct (try_acquire silent_mode ttl key s) as [r1 x1] eqn:E1. injection H1 as -> <- <-. destruct b.
  - right. split; [by eapply acquire_won|]. apply mbind_ok in H as (v' & [s2 w2] & H2 & H).
    apply mbind_ok in H as ([] & [s3 w3] & H3 & H). injection H as -> <- <-. unfold on_redis in H3. simpl in H3.
    destruct (set_result _ _ _ _ s2). injection H3 as _ <- <-. eauto.
  - left. apply mbind_ok in H as (ex & [s2 w2] & H2 & H). unfold on_redis in H2. simpl in H2.
    destruct (idempotency_get silent_mode key x1) as [r2 x2] eqn:E2. injection H2 as -> <- <-.
    apply mbind_ok in H as ([response|] & [s3 w3] & H3 & H); [|done]. injection H3 as H3 <- <-. injection H as H <- <-.
    destruct (stored_found _ _ _ _ _ E2 H3) as (e & He & Hr). rewrite (acquire_refused _ _ _ E1) in He.
    exists e, response. split_and!; done.
Qed.

(** Idempotent calls.  With a free key and a reachable Redis: a first request runs its body
    once and answers with its response; a repetition within the key's lifetime answers with the
    stored response without running anything; a request that arrives while the first is still
    in progress is refused with a conflict and runs nothing; and when the body fails, the key
    stays taken: repetitions are refused until the key expires. *)
Theorem idempotent_requests {A} key d d' (pack : A -> pyval) dump load (body : M W A) (body' : M (redis * W) A) s w :
  healthy s -> rlookup s key = None -> (0 <= d)%Z -> (0 <= d' < ttl)%Z ->
  (forall v, stored_response (pack v) = Ok (Some (dump v))) ->
  (forall s1, try_acquire silent_mode ttl key s = (Ok true, s1) -> forall w2,
     exists s2, idempotent_call key pack load body' (tick d' s1, w2) =
       (Err (IdempotencyInProgressException ""), (s2, w2))) /\
  match body w with
  | (Ok v, w1) => exists s1,
      idempotent_call key pack load (on_world d body) (s, w) = (Ok v, (s1, w1)) /\
      forall w2, exists s2, idempotent_call key pack load body' (tick d' s1, w2) = (load (dump v), (s2, w2))
  | (Err e, w1) => exists s1,
      idempotent_call key pack load (on_world d body) (s, w) = (Err e, (s1, w1)) /\
      ((d + d' < ttl)%Z -> forall w2, exists s2,
         idempotent_call key pack load body' (tick d' s1, w2) = (Err (IdempotencyInProgressException ""), (s2, w2)))
  end.
Proof using ttl_ok.
  intros Hh Hfree Hd Hd' Hpack.
  assert (Hlive : forall s0 v t x, (x < t - clock s0)%Z -> entries s0 !! key = Some (v, Some t) ->
    rlookup (tick x s0) key = Some (v, Some t)).
  { intros s0 v t x Hx He. unfold rlookup. cbn [tick entries]. rewrite He.
    unfold live. simpl. replace (clock s0 + x <? t)%Z with true; [done|]. symmetry. apply Z.ltb_lt. lia. }
  assert (Htaken : forall s0 v t x w0, healthy s0 -> (x < t - clock s0)%Z ->
    entries s0 !! key = Some (RJson v, Some t) ->
    idempotent_call key pack load body' (tick x s0, w0) =
      (let* stored := mlift (stored_response v) in
       match stored with Some r => mlift (load r) | None => mraise (IdempotencyInProgressException "") end) (tick x s0, w0)).
  { intros s0 v t x w0 H0 Hx He. pose proof (Hlive s0 _ t x Hx He) as Hl. unfold idempotent_call.
    rewrite (mbind_run _ _ _ _ _ (on_redis_run _ _ _ _ _ (acquire_taken key (tick x s0) _ H0 Hl))).
    by rewrite (mbind_run _ _ _ _ _ (on_redis_run _ _ _ _ _ (get_taken key (tick x s0) _ H0 Hl))). }
  split.
  { intros s1 H1 w2. rewrite (acquire_free key s Hh Hfree) in H1. injection H1 as <-.
    erewrite Htaken; [|done| |apply lookup_insert_eq]; [by eexists|simpl; lia]. }
  assert (Hrun : forall B (k : bool -> M (redis * W) B), mbind_ (on_redis (try_acquire silent_mode ttl key)) k (s, w) =
    k true (set_entries (<[key := (RJson (PDict [("status", PStr "PROCESSING")]), Some (clock s + ttl)%Z)]> (entries s)) s, w)).
  { intros B k. unfold mbind_, on_redis. simpl. by rewrite (acquire_free key s Hh Hfree). }
  destruct (body w) as [[v|e] w1] eqn:Hb.
  - eexists. unfold idempotent_call at 1. rewrite Hrun. unfold mbind_, on_world. simpl. rewrite Hb.
    unfold on_redis. simpl. rewrite store_result by done. split; [reflexivity|]. intros w2.
    erewrite Htaken; [|done| |apply lookup_insert_eq]; [|simpl; lia]. rewrite Hpack. by eexists.
  - eexists. unfold idempotent_call at 1. rewrite Hrun. unfold mbind_, on_world. simpl. rewrite Hb.
    split; [reflexivity|]. intros Hdd w2. erewrite Htaken; [|done| |apply lookup_insert_eq]; [by eexists|simpl; lia].
Qed.
End idempotent.
