(* ===== verification/Governance.v ===== *)
(** * Governance: rate limits, access policies, execution limits and the boundary

    [src/src/domain/governance/services/] (rate limit, access policy, execution
    limit) with the lookups of their repositories, and
    [src/src/services/execution_boundary.py], which puts them in front of the
    execution services.

    Policies are rows the services only read: they are arguments.  The counters live
    in Redis, the runs in the store. *)

From S2P Require Import Prelude.
From S2P Require Import Errors.
From S2P Require Import PyValue.
From S2P Require Import Sorting.
From S2P Require Import FlowGraph.
From S2P Require Import Effects.
From S2P Require Import Store.
From S2P Require Import Redis.

(** ** Published policy versions *)

(** A policy version: its policy, status, number (major, minor, patch, creation time)
    and content. *)
Record version {A : Type} : Type := {
  v_policy : uuid;
  v_status : string;
  v_number : Z * (Z * (Z * Z));
  v_body : A;
}.
Arguments version : clear implicits.

(** [ORDER BY version_major DESC, ..., created_at DESC]. *)
Definition newer : relation (Z * (Z * (Z * Z))) :=
  lex (flip Z.le) (lex (flip Z.le) (lex (flip Z.le) (flip Z.le))).

#[global] Instance newer_dec : RelDecision newer := _.

(** [get_published_policy_version]: the newest published version that matches. *)
Definition get_published_policy_version {A} (matches : A -> bool) (vs : list (version A)) (policy : uuid) :
    option A :=
  v_body <$> head (sorted_by newer v_number
    (filter (fun v => v_policy v = policy /\ v_status v = "PUBLISHED" /\ matches (v_body v) = true) vs)).

(** [get_default_policy_for_tenant]: the first policy of the tenant. *)
Definition get_default_policy_for_tenant (policies : list (uuid * uuid)) (tenant : option uuid) :
    option uuid :=
  snd <$> head (filter (fun p => Some p.1 = tenant) policies).

(** ** The caller *)

Record AuthContext : Type := {
  au_tenant : option uuid;
  au_principal_type : string;
  au_principal_id : string;
  au_scopes : list string;
  au_token_issuer : string;
  au_token_audience : string;
  au_expires_at : Z;
}.

(** ** Rate limits *)

Record rate_version : Type := {
  rv_action : string;
  rv_principal_type : string;
  rv_limit : Z;
  rv_window_seconds : Z;
}.

(** The state of the governed services: Redis and the database. *)
Record gov : Type := {
  gv_redis : redis;
  gv_db : store;
}.

Definition in_redis {A} (m : M redis A) : M gov A := fun s =>
  match m (gv_redis s) with (r, x) => (r, {| gv_redis := x; gv_db := gv_db s |}) end.
Definition in_db {A} (m : M store A) : M gov A := fun s =>
  match m (gv_db s) with (r, x) => (r, {| gv_redis := gv_redis s; gv_db := x |}) end.

Section services.
Variable uuid_str : option uuid -> string.
Variable py_str : pyval -> string.
Variable silent_mode : bool.
Variable rate_policies access_policies limit_policies : list (uuid * uuid).
Variable rate_versions : list (version rate_version).
(** The rules of an access policy version. *)
Variable access_versions : list (version pyval).

Definition rate_key (a : AuthContext) (action : string) : string :=
  "rate:" +:+ uuid_str (au_tenant a) +:+ ":" +:+ au_principal_type a +:+ ":" +:+
  au_principal_id a +:+ ":" +:+ action.

(** The counting part of [enforce]. *)
Definition count_call (key : string) (v : rate_version) : M redis unit :=
  let* value := incr_with_ttl silent_mode key (rv_window_seconds v) in
  mlift (raise_if (rv_limit v <? count_of value)%Z (RateLimitExceededException "rate_limit_exceeded")).

(** [RateLimitService.enforce]. *)
Definition enforce (a : AuthContext) (action : string) : M gov unit :=
  match get_default_policy_for_tenant rate_policies (au_tenant a) with
  | None => mraise (AuthorizationDeniedException "rate_limit_policy_not_configured")
  | Some policy =>
      match get_published_policy_version
              (fun v => String.eqb (rv_action v) action && String.eqb (rv_principal_type v) (au_principal_type a))
              rate_versions policy with
      | None => mraise (AuthorizationDeniedException "rate_limit_policy_not_published")
      | Some v => in_redis (count_call (rate_key a action) v)
      end
  end.

(** ** Access policies *)

(** [{str(s) for s in (rules.get("allow") or [])}]. *)
Definition allowed_actions (rules : pyval) : res exc (list string) :=
  match or_empty rules with
  | PDict d =>
      match dict_getv "allow" d with
      | PList l => Ok (map py_str l)
      | PDict m => Ok m.*1
      | PStr s => Ok ((fun c => String c EmptyString) <$> String.list_ascii_of_string s)
      | v => if truthy v then Err PyTypeError else Ok []
      end
  | _ => Err PyAttributeError
  end.

(** [AccessPolicyService.authorize]. *)
Definition authorize (a : AuthContext) (action : string) : res exc unit :=
  match get_default_policy_for_tenant access_policies (au_tenant a) with
  | None => Err (AuthorizationDeniedException "access_policy_not_configured")
  | Some policy =>
      match get_published_policy_version (fun _ => true) access_versions policy with
      | None => Err (AuthorizationDeniedException "access_policy_version_not_published")
      | Some rules =>
          let! allowed := allowed_actions rules in
          raise_if (negb (is_in action allowed)) (AuthorizationDeniedException "action_not_allowed") ;;!
          raise_if (negb (is_in action (au_scopes a))) (AuthorizationDeniedException "missing_required_scope")
      end
  end.

(** ** Execution limits *)

Record limit_version : Type := {
  lv_max_agent_runs : Z;
  lv_max_tool_runs : Z;
}.
Variable limit_versions : list (version limit_version).

(** [_get_limits]. *)
Definition _get_limits (tenant : option uuid) : res exc limit_version :=
  match get_default_policy_for_tenant limit_policies tenant with
  | None => Err (AuthorizationDeniedException "execution_limit_policy_not_configured")
  | Some policy =>
      match get_published_policy_version (fun _ => true) limit_versions policy with
      | None => Err (AuthorizationDeniedException "execution_limit_policy_not_published")
      | Some v => Ok v
      end
  end.

(** [count_agent_runs_for_flow_run]: the agent runs whose node run belongs to it. *)
Definition count_agent_runs_for_flow_run (f : uuid) (s : store) : Z :=
  Z.of_nat (length (filter (fun ar => nr_flow <$> node_runs s !! ar_node_run ar.2 = Some f)
                      (map_to_list (agent_runs s)))).

(** [assert_can_create_agent_run]. *)
Definition assert_can_create_agent_run (tenant : option uuid) (f : uuid) : M store unit :=
  let* limits := mlift (_get_limits tenant) in
  let* s := mget in
  mlift (raise_if (lv_max_agent_runs limits <=? count_agent_runs_for_flow_run f s)%Z
           (LimitExceededException "max_agent_runs_exceeded")).

(** [count_tool_runs_for_flow_run], over tool runs the store does not hold. *)
Variable count_tool_runs_for_flow_run : uuid -> Z.

(** [assert_can_create_tool_run]. *)
Definition assert_can_create_tool_run (tenant : option uuid) (f : uuid) : res exc unit :=
  let! limits := _get_limits tenant in
  raise_if (lv_max_tool_runs limits <=? count_tool_runs_for_flow_run f)%Z
    (LimitExceededException "max_tool_runs_exceeded").

(** ** The execution boundary *)

(** [_authorize], and the same two calls at the head of the other operations. *)
Definition _authorize (a : AuthContext) (action : string) : M gov unit :=
  enforce a action ;;* mlift (authorize a action).

Variable session_tenant : uuid -> option uuid.

(** [get_flow_context]. *)
Definition get_flow_context (f : uuid) : M gov (uuid * uuid) :=
  let* found := in_db (get_flow_run f) in
  match found with
  | None => mraise (NotFoundServiceException "flow_run_not_found")
  | Some r =>
      match session_tenant (fr_session r) with
      | None => mraise (NotFoundServiceException "session_not_found")
      | Some t => mret (fr_session r, t)
      end
  end.

(** [_assert_flow_run_tenant]. *)
Definition _assert_flow_run_tenant (a : AuthContext) (f : uuid) : M gov unit :=
  let* ctx := get_flow_context f in
  mlift (raise_if (negb (bool_decide (Some ctx.2 = au_tenant a)))
           (NotFoundServiceException "flow_run_not_found")).

(** A tool run's node run and agent run. *)
Variable tool_run_of : uuid -> option (option uuid * option uuid).

Definition is_not_found (e : exc) : bool :=
  match e with NotFoundServiceException _ => true | _ => false end.

(** [_assert_tool_run_tenant]. *)
Definition _assert_tool_run_tenant (a : AuthContext) (tool_run : uuid) : M gov unit :=
  let missing := mraise (NotFoundServiceException "tool_run_not_found") in
  match tool_run_of tool_run with
  | None => missing
  | Some (node_run, agent_run) =>
      let* s := mget in
      let node_run_id := match node_run, agent_run with
                         | None, Some ar => ar_node_run <$> agent_runs (gv_db s) !! ar
                         | n, _ => n
                         end in
      match node_run_id ≫= fun n => node_runs (gv_db s) !! n with
      | None => missing
      | Some nr =>
          mtry (_assert_flow_run_tenant a (nr_flow nr))
            (fun e => if is_not_found e then missing else mraise e)
      end
  end.

Variable uuid_parse : string -> option uuid.

(** The operations; [service] is the call into the execution service behind them. *)
Section operations.
Context {A : Type}.

Definition create_agent_run_ (a : AuthContext) (service : M gov A) : M gov A :=
  _authorize a "execution:agent_run:create" ;;* service.

Definition get_agent_run (a : AuthContext) (service : M gov A) : M gov A :=
  _authorize a "execution:agent_run:get" ;;* service.

Definition list_agent_run_summaries (a : AuthContext) (service : M gov A) : M gov A :=
  _authorize a "execution:agent_runs:list" ;;* service.

Definition cancel_agent_run (a : AuthContext) (service : M gov A) : M gov A :=
  _authorize a "execution:agent_run:cancel" ;;* service.

Definition ingest_interaction_and_create_flow_run (a : AuthContext) (service : M gov A) : M gov A :=
  _authorize a "execution:flow_run:create" ;;* service.

Definition create_tool_run (a : AuthContext) (service : M gov A) : M gov A :=
  _authorize a "execution:tool_run:create" ;;* service.

Definition resume_flow_run (a : AuthContext) (f : uuid) (service : M gov A) : M gov A :=
  _authorize a "execution:flow_run:resume" ;;* _assert_flow_run_tenant a f ;;* service.

Definition execute_tool_run (a : AuthContext) (tool_run : uuid) (service : M gov A) : M gov A :=
  _authorize a "execution:tool_run:execute" ;;* _assert_tool_run_tenant a tool_run ;;* service.

Definition list_execution_events (a : AuthContext) (f : option uuid) (service : M gov A) : M gov A :=
  _authorize a "execution:events:list" ;;*
  match f with Some f => _assert_flow_run_tenant a f | None => mret tt end ;;*
  service.

Definition get_graph_state_ (a : AuthContext) (f : string) (service : M gov A) : M gov A :=
  _authorize a "execution:graph_state:get" ;;*
  let* u := mlift (match uuid_parse f with Some u => Ok u | None => Err PyValueError end) in
  _assert_flow_run_tenant a u ;;*
  service.

(** [get_flow_run] reads first and compares the tenant afterwards. *)
Definition get_flow_run_ (a : AuthContext) (f : string) (service : M gov A) : M gov A :=
  _authorize a "execution:flow_run:get" ;;*
  let* r := service in
  let* u := mlift (match uuid_parse f with Some u => Ok u | None => Err PyValueError end) in
  _assert_flow_run_tenant a u ;;*
  mret r.

(** [UUID(flow_run_id) if flow_run_id else None]. *)
Definition optional_flow_run (f : option string) : res exc (option uuid) :=
  match f with
  | Some ((String _ _) as s) =>
      match uuid_parse s with
      | Some u => Ok (Some u)
      | None => Err (DomainValidationException "Invalid flow_run_id format; expected UUID.")
      end
  | _ => Ok None
  end.

Definition list_node_runs (a : AuthContext) (f : option string) (service : option uuid -> M gov A) : M gov A :=
  _authorize a "execution:node_runs:list" ;;*
  let* u := mlift (optional_flow_run f) in
  service u.

Definition list_agent_runs (a : AuthContext) (f : option string) (service : option uuid -> M gov A) : M gov A :=
  _authorize a "execution:agent_runs:list" ;;*
  let* u := mlift (optional_flow_run f) in
  service u.
End operations.
End services.

(** ** The rate window *)

Section rate_facts.
Variable v : rate_version.
Variable key : string.

(** Calls with the given pauses before them, and whether each was admitted. *)
Fixpoint admitted_calls (silent_mode : bool) (pauses : list Z) (s : redis) : list bool * redis :=
  match pauses with
  | [] => ([], s)
  | d :: pauses =>
      match count_call silent_mode key v (tick d s) with
      | (r, s1) => let (bs, s2) := admitted_calls silent_mode pauses s1 in (is_ok r :: bs, s2)
      end
  end.

Definition elapsed (pauses : list Z) : Z := foldr Z.add 0%Z pauses.

Lemma raise_limit l n (e : exc) : is_ok (raise_if (l <? n)%Z e) = (n <=? l)%Z.
Proof. unfold raise_if. destruct (Z.ltb_spec l n), (Z.leb_spec n l); (done || lia). Qed.

(** A counter that stays alive counts on. *)
Lemma count_call_live silent_mode s c t :
  healthy s -> entries s !! key = Some (RInt c, t) -> live s (RInt c, t) = true -> (1 <= c)%Z ->
  count_call silent_mode key v s =
    (raise_if (rv_limit v <? c + 1)%Z (RateLimitExceededException "rate_limit_exceeded"),
     set_entries (<[key := (RInt (c + 1), t)]> (entries s)) s).
Proof.
  intros Hh He Hl Hc. unfold count_call.
  erewrite mbind_run; [|apply (incr_live _ _ _ _ c t); [done| |done]; unfold rlookup; by rewrite He, Hl].
  done.
Qed.

Lemma admitted_live silent_mode pauses s c t :
  healthy s -> entries s !! key = Some (RInt c, t) -> (1 <= c)%Z -> Forall (Z.le 0) pauses ->
  match t with Some t => (clock s + elapsed pauses < t)%Z | None => True end ->
  (admitted_calls silent_mode pauses s).1 =
    (fun i => (c + Z.of_nat i <=? rv_limit v)%Z) <$> seq 1 (length pauses).
Proof.
  revert s c. induction pauses as [|d pauses IH]; intros s c Hh He Hc Hp Ht; [done|].
  apply Forall_cons in Hp as [Hd Hp]. cbn [admitted_calls elapsed foldr] in *. fold (elapsed pauses) in Ht.
  assert (H0 : (0 <= elapsed pauses)%Z).
  { clear -Hp. unfold elapsed. induction Hp as [|x l Hx Hl IHl]; simpl; lia. }
  assert (Hlive : live (tick d s) (RInt c, t) = true).
  { unfold live. simpl. destruct t as [t|]; [apply Z.ltb_lt; simpl; lia | done]. }
  rewrite (count_call_live silent_mode (tick d s) c t Hh He Hlive Hc).
  set (s1 := set_entries _ _). specialize (IH s1 (c + 1)%Z).
  destruct (admitted_calls silent_mode pauses s1) as [bs s2]. simpl in IH |- *. f_equal.
  - by rewrite raise_limit.
  - rewrite IH; [|done|apply lookup_insert_eq|lia|done|destruct t; [simpl; lia|done]].
    rewrite <- (fmap_S_seq 1), <- list_fmap_compose. apply list_fmap_ext. intros i x _. simpl.
    f_equal. lia.
Qed.

Lemma first_call silent_mode s :
  healthy s -> rlookup s key = None -> (0 < rv_window_seconds v)%Z ->
  count_call silent_mode key v s =
    (raise_if (rv_limit v <? 1)%Z (RateLimitExceededException "rate_limit_exceeded"),
     set_entries (<[key := (RInt 1, Some (clock s + rv_window_seconds v)%Z)]> (entries s)) s).
Proof.
  intros Hh Hk Hw. unfold count_call. erewrite mbind_run; [|by apply incr_fresh]. done.
Qed.

(** The fixed window of the rate limiter.  From the first call on a free
    counter, as long as the window lasts, exactly the first [limit] calls are
    admitted. *)
Theorem rate_window silent_mode d pauses s :
  healthy s -> rlookup (tick d s) key = None -> (0 < rv_window_seconds v)%Z ->
  Forall (Z.le 0) pauses -> (elapsed pauses < rv_window_seconds v)%Z ->
  (admitted_calls silent_mode (d :: pauses) s).1 =
    (fun i => (Z.of_nat i <=? rv_limit v)%Z) <$> seq 1 (S (length pauses)).
Proof.
  intros Hh Hk Hw Hp He. cbn [admitted_calls]. rewrite (first_call silent_mode (tick d s) Hh Hk Hw).
  set (s1 := set_entries _ _).
  pose proof (admitted_live silent_mode pauses s1 1 (Some (clock (tick d s) + rv_window_seconds v)%Z)
    Hh ltac:(apply lookup_insert_eq) ltac:(lia) Hp) as Ha.
  destruct (admitted_calls silent_mode pauses s1) as [bs s2]. simpl in Ha |- *.
  rewrite Ha by lia. f_equal.
  - by rewrite raise_limit.
  - rewrite <- (fmap_S_seq 1), <- list_fmap_compose. apply list_fmap_ext. intros i x _. simpl.
    f_equal. lia.
Qed.

(** Increment and expiry are two commands.  When the [EXPIRE] after the first
    [INCR] fails, the counter never expires: however much time passes, once [limit]
    calls have been counted every later call is refused. *)
Theorem lost_expiry_locks_out silent_mode pauses s :
  faults s = [false; true] -> rlookup s key = None -> Forall (Z.le 0) pauses ->
  (admitted_calls silent_mode pauses (count_call silent_mode key v s).2).1 =
    (fun i => (1 + Z.of_nat i <=? rv_limit v)%Z) <$> seq 1 (length pauses).
Proof.
  intros Hf Hk Hp.
  assert (H1 : exists s1, (count_call silent_mode key v s).2 = s1 /\ healthy s1 /\
    entries s1 !! key = Some (RInt 1, None)).
  { assert (Hm : exists s1, (let* value := redis_incr key in
        (if (value =? 1)%Z then redis_expire key (rv_window_seconds v) else mret tt) ;;* mret (PInt value)) s =
      (Err (ExternalError "ConnectionError" ""), s1) /\ healthy s1 /\ entries s1 !! key = Some (RInt 1, None)).
    { unfold mbind_, redis_incr, redis_expire, command. rewrite Hf.
      replace (rlookup (set_faults [true] s) key) with (rlookup s key) by done. rewrite Hk. simpl.
      eexists. split; [reflexivity|]. split; [done|]. apply lookup_insert_eq. }
    destruct Hm as (s1 & Hm & Hh & He). exists s1. split; [|done].
    unfold count_call, incr_with_ttl, silent_mode_wrapper, mtry. unfold mbind_ at 1.
    destruct silent_mode; rewrite Hm; done. }
  destruct H1 as (s1 & -> & Hh & He). by apply (admitted_live silent_mode pauses s1 1 None).
Qed.
End rate_facts.

(** ** Policies *)

Lemma sorted_head {A K} (R : relation K) `{!RelDecision R, !Transitive R, !Total R} (key : A -> K) l x :
  head (sorted_by R key l) = Some x -> x ∈ l /\ forall y, y ∈ l -> y = x \/ R (key x) (key y).
Proof.
  intros Hh. pose proof (sorted_by_sorted R key l) as Hs. pose proof (elem_of_sorted_by R key) as Hin.
  destruct (sorted_by R key l) as [|z l'] eqn:E; [done|]. injection Hh as ->.
  inversion_clear Hs as [|? ? _ Hall]. rewrite Forall_forall in Hall.
  split; [apply Hin; rewrite E; left|]. intros y Hy. apply Hin in Hy. rewrite E in Hy.
  apply elem_of_cons in Hy as [->|Hy]; auto.
Qed.

#[local] Instance ge_trans : Transitive (flip Z.le).
Proof. intros a b c. unfold flip. lia. Qed.
#[local] Instance ge_antisym : AntiSymm (=) (flip Z.le).
Proof. intros a b. unfold flip. lia. Qed.
#[local] Instance ge_total : Total (flip Z.le).
Proof. intros a b. unfold flip. lia. Qed.
#[global] Instance newer_trans : Transitive newer.
Proof. apply _. Qed.
#[global] Instance newer_total : Total newer.
Proof. apply _. Qed.

Section policy_facts.
Variable py_str : pyval -> string.
Variable access_policies : list (uuid * uuid).
Variable access_versions : list (version pyval).

(** Access decisions.  A request is authorised exactly when the tenant has a
    policy with a published version whose rules allow the action and the caller's
    token carries it as a scope; the rules consulted are those of the newest published
    version. *)
Theorem authorize_spec a action :
  authorize py_str access_policies access_versions a action = Ok tt <->
  exists policy v allowed,
    get_default_policy_for_tenant access_policies (au_tenant a) = Some policy /\
    v ∈ access_versions /\ v_policy v = policy /\ v_status v = "PUBLISHED" /\
    get_published_policy_version (fun _ => true) access_versions policy = Some (v_body v) /\
    (forall v', v' ∈ access_versions -> v_policy v' = policy -> v_status v' = "PUBLISHED" ->
       v' = v \/ newer (v_number v) (v_number v')) /\
    allowed_actions py_str (v_body v) = Ok allowed /\ action ∈ allowed /\ action ∈ au_scopes a.
Proof.
  unfold authorize. destruct (get_default_policy_for_tenant _ _) as [policy|] eqn:Hp; [|naive_solver].
  destruct (get_published_policy_version _ _ policy) as [rules|] eqn:Hv.
  2:{ split; [done|]. intros (p & v & al & [= <-] & _ & _ & _ & H & _). congruence. }
  assert (Hnew : exists v, v ∈ access_versions /\ v_policy v = policy /\ v_status v = "PUBLISHED" /\
    v_body v = rules /\ forall v', v' ∈ access_versions -> v_policy v' = policy -> v_status v' = "PUBLISHED" ->
       v' = v \/ newer (v_number v) (v_number v')).
  { unfold get_published_policy_version in Hv. destruct (head _) as [v|] eqn:Hh; [|done].
    injection Hv as Hb. apply sorted_head in Hh as [Hin Hall]; [|apply _..].
    apply list_elem_of_filter in Hin as [(? & ? & _) Hin]. exists v. split_and!; try done.
    intros v' H1 H2 H3. apply Hall. by apply list_elem_of_filter. }
  destruct Hnew as (v & H1 & H2 & H3 & <- & H5). split.
  - intros H. destruct (allowed_actions py_str (v_body v)) as [allowed|e] eqn:Ha; [|done]. simpl in H.
    unfold raise_if in H. destruct (is_in action allowed) eqn:I1; [|done]. simpl in H.
    destruct (is_in action (au_scopes a)) eqn:I2; [|done].
    exists policy, v, allowed. split_and!; try done; by eapply bool_decide_eq_true_1.
  - intros (p & v' & al & [= <-] & _ & _ & _ & Hb & _ & Ha & I1 & I2). assert (v_body v' = v_body v) as E by congruence.
    rewrite E in Ha. rewrite Ha. simpl. unfold is_in, raise_if. rewrite !bool_decide_true by done. done.
Qed.
End policy_facts.

(** ** The boundary *)

Section boundary_facts.
Variable uuid_str : option uuid -> string.
Variable py_str : pyval -> string.
Variable silent_mode : bool.
Variable rate_policies access_policies : list (uuid * uuid).
Variable rate_versions : list (version rate_version).
Variable access_versions : list (version pyval).
Variable session_tenant : uuid -> option uuid.
Variable tool_run_of : uuid -> option (option uuid * option uuid).
Variable uuid_parse : string -> option uuid.

Abbreviation authorized a action := (authorize py_str access_policies access_versions a action = Ok tt).
Abbreviation auth_ := (_authorize uuid_str py_str silent_mode rate_policies access_policies rate_versions access_versions).

(** The flow run belongs to the caller's tenant. *)
Definition owns (a : AuthContext) (f : uuid) (s : store) : Prop :=
  exists r t, flow_runs s !! f = Some r /\ session_tenant (fr_session r) = Some t /\ au_tenant a = Some t.

(** An operation either runs its service, under [P] and with the database as it was,
    or refuses without touching the database. *)
Definition guarded {A} (op : M gov A -> M gov A) (P : store -> Prop) : Prop := forall service s,
  exists s1, gv_db s1 = gv_db s /\ (P (gv_db s) /\ op service s = service s1 \/ exists e, op service s = (Err e, s1)).

Lemma in_redis_db {A} (m : M redis A) s : gv_db (in_redis m s).2 = gv_db s.
Proof. unfold in_redis. by destruct (m (gv_redis s)). Qed.

Lemma enforce_db a action s :
  gv_db (enforce uuid_str silent_mode rate_policies rate_versions a action s).2 = gv_db s.
Proof. unfold enforce. repeat case_match; try done. apply in_redis_db. Qed.

Lemma guarded_authorize {A} a action (op : M gov A -> M gov A) P :
  guarded op P -> guarded (fun service => auth_ a action ;;* op service) (fun s => authorized a action /\ P s).
Proof.
  intros Hop service s. unfold _authorize.
  destruct (enforce uuid_str silent_mode rate_policies rate_versions a action s) as [r s1] eqn:He. pose proof (enforce_db a action s) as Hdb.
  rewrite He in Hdb. simpl in Hdb. assert (Hm : (enforce uuid_str silent_mode rate_policies rate_versions a action ;;*
    mlift (authorize py_str access_policies access_versions a action)) s =
    (match r with Ok _ => authorize py_str access_policies access_versions a action | Err e => Err e end, s1)).
  { rewrite (mbind_run _ _ _ _ _ He). by destruct r. }
  rewrite (mbind_run _ _ _ _ _ Hm). destruct r as [[]|e]; [|exists s1; split; [done|]; right; by eexists].
  destruct (authorize _ _ _ a action) as [[]|e]; [|exists s1; split; [done|]; right; by eexists].
  destruct (Hop service s1) as (s2 & H2 & Hcase). exists s2. split; [congruence|].
  destruct Hcase as [[HP ->]|[e ->]]; [left | right; by eexists]. rewrite Hdb in HP. done.
Qed.

(** Refusing or passing on, with the database unchanged. *)
Lemma guarded_check {A} (m : M gov unit) (op : M gov A -> M gov A) (P Q : store -> Prop) :
  (forall s, gv_db (m s).2 = gv_db s /\ ((m s).1 = Ok tt -> P (gv_db s))) -> guarded op Q ->
  guarded (fun service => m ;;* op service) (fun s => P s /\ Q s).
Proof.
  intros Hm Hop service s. destruct (Hm s) as [Hdb HP]. destruct (m s) as [[[]|e] s1] eqn:E; simpl in *.
  - rewrite (mbind_run _ _ _ _ _ E). destruct (Hop service s1) as (s2 & H2 & Hcase).
    exists s2. split; [congruence|]. destruct Hcase as [[HQ ->]|[e ->]]; [left | right; by eexists].
    rewrite Hdb in HQ. auto.
  - rewrite (mbind_run _ _ _ _ _ E). exists s1. split; [done|]. right. by eexists.
Qed.

Lemma guarded_id {A} : guarded (fun service : M gov A => service) (fun _ => True).
Proof. intros service s. exists s. auto. Qed.

Lemma flow_tenant_check a f s :
  gv_db (_assert_flow_run_tenant session_tenant a f s).2 = gv_db s /\
  ((_assert_flow_run_tenant session_tenant a f s).1 = Ok tt -> owns a f (gv_db s)).
Proof.
  unfold _assert_flow_run_tenant, get_flow_context, in_db, get_flow_run, mbind_, mget, mret. simpl.
  destruct (flow_runs (gv_db s) !! f) as [r|] eqn:Hr; [|done]. simpl.
  destruct (session_tenant (fr_session r)) as [t|] eqn:Ht; [|done]. simpl. split; [done|].
  unfold raise_if. case_bool_decide as Heq; [|done]. intros _. by exists r, t.
Qed.

(** The flow run of a tool run belongs to the caller's tenant. *)
Definition owns_tool (a : AuthContext) (tool_run : uuid) (s : store) : Prop :=
  exists n nr, node_runs s !! n = Some nr /\ owns a (nr_flow nr) s /\
    exists node agent, tool_run_of tool_run = Some (node, agent) /\
      (node = Some n \/ node = None /\ exists ar x, agent = Some ar /\ agent_runs s !! ar = Some x /\ ar_node_run x = n).

Lemma tool_tenant_check a tr s :
  gv_db (_assert_tool_run_tenant session_tenant tool_run_of a tr s).2 = gv_db s /\
  ((_assert_tool_run_tenant session_tenant tool_run_of a tr s).1 = Ok tt -> owns_tool a tr (gv_db s)).
Proof.
  unfold _assert_tool_run_tenant. destruct (tool_run_of tr) as [[node agent]|] eqn:Htr; [|done].
  rewrite !(mbind_run mget _ s (Ok s) s eq_refl). set (nid := match node with Some _ => _ | None => _ end).
  destruct (nid ≫= _) as [nr|] eqn:Hn; [|done]. apply bind_Some in Hn as (n & Hnid & Hnr).
  unfold mtry. destruct (flow_tenant_check a (nr_flow nr) s) as [Hdb Hok].
  destruct (_assert_flow_run_tenant session_tenant a (nr_flow nr) s) as [[[]|e] s1]; simpl in *.
  - split; [done|]. intros _. exists n, nr. split; [done|]. split; [by apply Hok|]. exists node, agent.
    split; [done|]. subst nid. destruct node as [n'|]; [left; done|]. right. split; [done|].
    destruct agent as [ar|]; [|done]. apply fmap_Some in Hnid as (x & Hx & ->). eauto.
  - by destruct (is_not_found e).
Qed.

(** [C40] Tenant isolation at the boundary.  Resuming a run, executing a tool run,
    listing the events of a run that is named, and reading the graph state reach their
    service only for an authorised caller whose tenant owns the flow run (for a tool run:
    the flow run it belongs to); otherwise they fail without touching the database.
    [get_flow_run] calls its service before it compares the tenant, and returns only what
    the caller's tenant owns.  Nothing is said of listing events without a run. *)
Theorem boundary_isolation {A} a f tr w :
  guarded (resume_flow_run (A := A) uuid_str py_str silent_mode rate_policies access_policies rate_versions
             access_versions session_tenant a f)
    (fun s => authorized a "execution:flow_run:resume" /\ owns a f s) /\
  guarded (execute_tool_run (A := A) uuid_str py_str silent_mode rate_policies access_policies rate_versions
             access_versions session_tenant tool_run_of a tr)
    (fun s => authorized a "execution:tool_run:execute" /\ owns_tool a tr s) /\
  guarded (list_execution_events (A := A) uuid_str py_str silent_mode rate_policies access_policies rate_versions
             access_versions session_tenant a (Some f))
    (fun s => authorized a "execution:events:list" /\ owns a f s) /\
  guarded (get_graph_state_ (A := A) uuid_str py_str silent_mode rate_policies access_policies rate_versions
             access_versions session_tenant uuid_parse a w)
    (fun s => authorized a "execution:graph_state:get" /\ exists u, uuid_parse w = Some u /\ owns a u s) /\
  (forall service s x s', get_flow_run_ (A := A) uuid_str py_str silent_mode rate_policies access_policies
       rate_versions access_versions session_tenant uuid_parse a w service s = (Ok x, s') ->
     authorized a "execution:flow_run:get" /\
     exists u s1 s2, uuid_parse w = Some u /\ service s1 = (Ok x, s2) /\ owns a u (gv_db s2)).
Proof.
  split_and!.
  - intros service s. destruct (guarded_authorize a "execution:flow_run:resume" _ _
      (guarded_check _ _ _ _ (flow_tenant_check a f) guarded_id) service s) as (s1 & H & Hc).
    exists s1. split; [done|]. destruct Hc as [[[? [? _]] ?]|?]; [left | right]; done.
  - intros service s. destruct (guarded_authorize a "execution:tool_run:execute" _ _
      (guarded_check _ _ _ _ (tool_tenant_check a tr) guarded_id) service s) as (s1 & H & Hc).
    exists s1. split; [done|]. destruct Hc as [[[? [? _]] ?]|?]; [left | right]; done.
  - intros service s. destruct (guarded_authorize a "execution:events:list" _ _
      (guarded_check _ _ _ _ (flow_tenant_check a f) guarded_id) service s) as (s1 & H & Hc).
    exists s1. split; [done|]. destruct Hc as [[[? [? _]] ?]|?]; [left | right]; done.
  - intros service s. unfold get_graph_state_. destruct (uuid_parse w) as [u|] eqn:Hu.
    + destruct (guarded_authorize a "execution:graph_state:get" _ _
        (guarded_check _ _ _ _ (flow_tenant_check a u) guarded_id) service s) as (s1 & H & Hc).
      exists s1. split; [done|]. destruct Hc as [[[? [? _]] ?]|?]; [left | right]; [|done].
      split; [|done]. eauto.
    + destruct (guarded_authorize a "execution:graph_state:get" (fun _ => mraise (A := A) PyValueError)
        (fun _ => False) ltac:(intros sv s0; exists s0; split; [done|]; right; by eexists) service s) as (s1 & H & Hc).
      exists s1. split; [done|]. destruct Hc as [[[_ []] _]|?]. by right.
  - intros service s x s' H. unfold get_flow_run_ in H. apply mbind_ok in H as ([] & s1 & H1 & H).
    apply mbind_ok in H1 as ([] & s0 & _ & H1). injection H1 as Hauth _. split; [done|].
    apply mbind_ok in H as (y & s2 & H2 & H). apply mbind_ok in H as (u & s3 & H3 & H).
    injection H3 as Hu <-. apply mbind_ok in H as ([] & s3 & H3 & [= -> ->]).
    destruct (uuid_parse w) as [u'|]; [|done]. injection Hu as ->. exists u, s1, s2.
    split; [done|]. split; [done|]. apply (flow_tenant_check a u s2). by rewrite H3.
Qed.
End boundary_facts.

(** Redis outages and the rate limiter.  With the adapter in silent mode, the
    configured default, an unreachable Redis turns the limiter off: the call is
    admitted whatever was counted before.  Without silent mode the failure reaches
    the caller. *)
Theorem rate_limit_outage uuid_str rate_policies rate_versions a action s fs policy v :
  get_default_policy_for_tenant rate_policies (au_tenant a) = Some policy ->
  get_published_policy_version
    (fun v => String.eqb (rv_action v) action && String.eqb (rv_principal_type v) (au_principal_type a))
    rate_versions policy = Some v ->
  (0 <= rv_limit v)%Z -> faults (gv_redis s) = true :: fs ->
  (enforce uuid_str true rate_policies rate_versions a action s).1 = Ok tt /\
  (enforce uuid_str false rate_policies rate_versions a action s).1 = Err (ExternalError "ConnectionError" "").
Proof.
  intros Hp Hv Hl Hf. unfold enforce. rewrite Hp, Hv. unfold in_redis, count_call, incr_with_ttl,
    silent_mode_wrapper, mtry, mbind_, redis_incr, command. rewrite Hf. simpl. split; [|done].
  unfold raise_if. by replace (rv_limit v <? 0)%Z with false by (symmetry; apply Z.ltb_ge; lia).
Qed.

(** ** Execution limits *)

Section limits.
Variable limit_policies : list (uuid * uuid).
Variable limit_versions : list (version limit_version).

(** Creating an agent run behind its limit. *)
Definition limited_agent_run (tenant : option uuid) (f node_run version : uuid) (input : pyval)
    (status : string) : M store uuid :=
  assert_can_create_agent_run limit_policies limit_versions tenant f ;;*
  create_agent_run node_run version input status.

Lemma count_insert (P : uuid * agent_run -> Prop) `{DP : !forall x, Decision (P x)} (m : gmap uuid agent_run) k x :
  m !! k = None -> length (filter P (map_to_list (<[k := x]> m))) <= S (length (filter P (map_to_list m))).
Proof.
  intros Hk. rewrite (map_to_list_insert m k x Hk). rewrite filter_cons. case_decide; simpl; lia.
Qed.

(** Execution limits.  Guarded creations one after the other never exceed the
    maximum of the tenant's policy. *)
Theorem agent_run_limit tenant f node_run ver input status limits s a s' :
  _get_limits limit_policies limit_versions tenant = Ok limits -> agent_runs s !! next_uuid s = None ->
  limited_agent_run tenant f node_run ver input status s = (Ok a, s') ->
  (count_agent_runs_for_flow_run f s < lv_max_agent_runs limits)%Z /\
  (count_agent_runs_for_flow_run f s' <= lv_max_agent_runs limits)%Z.
Proof.
  intros Hl Hfresh H. unfold limited_agent_run in H. apply mbind_ok in H as ([] & s1 & H1 & H).
  unfold assert_can_create_agent_run in H1. rewrite Hl in H1.
  apply mbind_ok in H1 as (lim & s2 & [= <- <-] & H1). apply mbind_ok in H1 as (s2 & s3 & [= <- <-] & H1).
  injection H1 as H1 <-. unfold raise_if in H1. destruct (Z.leb_spec (lv_max_agent_runs limits)
    (count_agent_runs_for_flow_run f s)) as [|Hlt]; [done|]. split; [done|].
  unfold create_agent_run, uuid4, mbind_, mget, mmodify, mret in H. case_bool_decide; [|done].
  injection H as _ <-. unfold count_agent_runs_for_flow_run in *. simpl in *.
  match goal with |- context [map_to_list (<[next_uuid s := ?x]> _)] => pose proof (count_insert
    (fun ar => nr_flow <$> node_runs s !! ar_node_run ar.2 = Some f) (agent_runs s) (next_uuid s) x Hfresh) end.
  lia.
Qed.
End limits.

(** ** Concrete policies *)

Definition demo_auth : AuthContext := {|
  au_tenant := Some 1%N; au_principal_type := "user"; au_principal_id := "ana";
  au_scopes := ["execution:flow_run:resume"];
  au_token_issuer := "core"; au_token_audience := "core"; au_expires_at := 9999999999 |}.

Definition demo_rate : rate_version := {|
  rv_action := "execution:flow_run:resume"; rv_principal_type := "user"; rv_limit := 2;
  rv_window_seconds := 60 |}.

Definition demo_rate_versions : list (version rate_version) :=
  [{| v_policy := 5; v_status := "PUBLISHED"; v_number := (1, (0, (0, 0)))%Z; v_body := demo_rate |}].

Definition demo_gov : gov := {| gv_redis := empty_redis; gv_db := demo_store |}.

Lemma rate_window_witness :
  (admitted_calls demo_rate "rate:1" false [0; 10; 20; 5]%Z empty_redis).1 = [true; true; false; false].
Proof.
  rewrite (rate_window demo_rate "rate:1" false 0 [10; 20; 5]%Z empty_redis);
    [reflexivity | reflexivity | reflexivity | reflexivity | repeat constructor; lia | reflexivity].
Defined.

Definition shaky_redis : redis := {| entries := ∅; clock := 0; faults := [false; true] |}.

Lemma lost_expiry_locks_out_witness :
  (admitted_calls demo_rate "rate:1" true [1000; 100000; 100000]%Z
     (count_call true "rate:1" demo_rate shaky_redis).2).1 = [true; false; false].
Proof.
  rewrite (lost_expiry_locks_out demo_rate "rate:1" true [1000; 100000; 100000]%Z shaky_redis);
    [reflexivity | reflexivity | reflexivity | repeat constructor; lia].
Defined.

Lemma rate_limit_outage_witness :
  (enforce (fun _ => "t") true [(1%N, 5%N)] demo_rate_versions demo_auth "execution:flow_run:resume"
     {| gv_redis := {| entries := ∅; clock := 0; faults := [true] |}; gv_db := demo_store |}).1 = Ok tt.
Proof.
  refine (proj1 (rate_limit_outage (fun _ => "t") [(1%N, 5%N)] demo_rate_versions demo_auth
    "execution:flow_run:resume" _ [] 5 demo_rate _ _ _ _)).
  - reflexivity.
  - vm_compute. reflexivity.
  - simpl. lia.
  - reflexivity.
Defined.

Definition limit_store : store :=
  {| next_uuid := 10; flow_runs := flow_runs demo_store;
     node_runs := {[2%N := {| nr_flow := 7; nr_node := 1; nr_input := PNone; nr_output := PNone;
                              nr_status := ""; nr_canonical := ""; nr_finished := false |}]};
     graph_states := ∅; state_cache := ∅; interactions := ∅; agent_versions := {[3%N]};
     agent_runs := ∅; usage_ledger := []; events := []; batching := ∅; event_buffer := ∅ |}.

Definition limit_versions_1 : list (version limit_version) :=
  [{| v_policy := 5; v_status := "PUBLISHED"; v_number := (1, (0, (0, 0)))%Z;
      v_body := {| lv_max_agent_runs := 1; lv_max_tool_runs := 1 |} |}].

Lemma agent_run_limit_witness :
  exists a s', limited_agent_run [(1%N, 5%N)] limit_versions_1 (Some 1%N) 7 2 3 PNone "RUNNING" limit_store
      = (Ok a, s') /\ (count_agent_runs_for_flow_run 7 s' <= 1)%Z.
Proof.
  destruct (limited_agent_run [(1%N, 5%N)] limit_versions_1 (Some 1%N) 7 2 3 PNone "RUNNING" limit_store)
    as [[a|] s'] eqn:H; [|vm_compute in H; discriminate].
  exists a, s'. split; [reflexivity|].
  exact (proj2 (agent_run_limit [(1%N, 5%N)] limit_versions_1 (Some 1%N) 7 2 3 PNone "RUNNING"
    {| lv_max_agent_runs := 1; lv_max_tool_runs := 1 |} limit_store a s' eq_refl eq_refl H)).
Defined.
