(* ===== verification/Guardrail.v ===== *)
(** * Guardrail: spending and call limits of language-model calls

    [src/src/domain/execution/services/guardrails/guardrail_engine.py] and
    [src/src/domain/llm/services/cost_engine.py], on the Redis adapter.

    Call counters are integer keys of [Redis].  Cost counters are keys that only
    [INCRBYFLOAT], [GET] and [EXPIRE] touch; their text and the server's own addition of
    decimals are parameters, and they are kept in a table of their own on the same
    server (same clock, same faults).  The pricing lookup is an interface: it may read
    the database and cache rows under [llm_pricing:] keys. *)

From S2P Require Import Prelude.
From S2P Require Import Errors.
From S2P Require Import PyValue.
From S2P Require Import PyFloat.
From S2P Require Import Effects.
From S2P Require Import Store.
From S2P Require Import Redis.

(** ** Data *)

Inductive GuardrailDecisionType := ALLOW | DEGRADE | BLOCK.

#[global] Instance decision_type_eq_dec : EqDecision GuardrailDecisionType.
Proof. solve_decision. Defined.

Record GuardrailDecision : Type := {
  gd_decision : GuardrailDecisionType;
  gd_reason_code : string;
  gd_applied_limits : pydict;
  gd_overrides : pydict;
}.

(** The fields of an [LLMRequest] the engine reads. *)
Record LLMRequest : Type := {
  rq_max_tokens : option Z;
  rq_max_latency_ms : option Z;
}.

(** A row of the price list, its two decimals as floats. *)
Record LLMPricing : Type := {
  input_cost_per_1k : pyfloat;
  output_cost_per_1k : pyfloat;
}.

Record spend {txt : Type} : Type := {
  sp_redis : redis;
  sp_costs : gmap string (txt * option Z);
}.
Arguments spend : clear implicits.

(** ** The cost engine *)

(** [CostEngine._tokens]. *)
Definition _tokens (int_of_string : string -> option Z) (token_usage : option pydict) (key : string) :
    res exc Z :=
  match token_usage with
  | None => Ok 0%Z
  | Some d =>
      match dict_getv key d with
      | PNone => Ok 0%Z
      | v => match py_int int_of_string v with
             | Err PyTypeError | Err PyValueError => Ok 0%Z
             | r => r
             end
      end
  end.

(** The price of a number of tokens: [(tokens / 1000) * float(price)]. *)
Definition token_cost (tokens : Z) (price : pyfloat) : res exc pyfloat :=
  let! q := int_div tokens 1000 in Ok (float_mul q price).

(** [CostEngine.compute_cost], after the price has been looked up. *)
Definition cost_of_usage (int_of_string : string -> option Z) (pricing : option LLMPricing)
    (token_usage : option pydict) : res exc pyfloat :=
  match pricing with
  | None => Err (DomainValidationException "llm_pricing_not_found")
  | Some p =>
      let! input_tokens := _tokens int_of_string token_usage "input_tokens" in
      let! output_tokens := _tokens int_of_string token_usage "output_tokens" in
      let! input_cost := token_cost input_tokens (input_cost_per_1k p) in
      let! output_cost := token_cost output_tokens (output_cost_per_1k p) in
      Ok (py_round (float_add input_cost output_cost) 6)
  end.

(** ** The guardrail engine *)

Section engine.
Context {txt : Type}.
(** The text [INCRBYFLOAT] leaves, or the error it returns; [float(raw)]. *)
Variable txt_add : option txt -> pyfloat -> res exc txt.
Variable txt_float : txt -> pyfloat.
Variable silent_mode : bool.
Variable same : pyval -> pyval -> bool.
Variable int_of_string : string -> option Z.
Variable float_of_string : string -> option pyfloat.
Variable uuid_str : uuid -> string.
(** Whether the engine was built with a cost engine. *)
Variable has_cost_engine : bool.
Variable get_active_pricing : string -> string -> M (spend txt) (option LLMPricing).

(** *** Redis *)

Definition on_counters {A} (m : M redis A) : M (spend txt) A := fun s =>
  match m (sp_redis s) with (r, x) => (r, {| sp_redis := x; sp_costs := sp_costs s |}) end.

(** The commands on cost counters share the server's faults and clock. *)
Definition cost_lookup (s : spend txt) (k : string) : option (txt * option Z) :=
  match sp_costs s !! k with
  | Some (t, Some x) => if (clock (sp_redis s) <? x)%Z then Some (t, Some x) else None
  | e => e
  end.
Definition set_cost (k : string) (e : txt * option Z) (s : spend txt) : spend txt :=
  {| sp_redis := sp_redis s; sp_costs := <[k := e]> (sp_costs s) |}.

(** [GET], as [get_float] reads it. *)
Definition get_float (k : string) : M (spend txt) pyfloat :=
  on_counters (command (fun s => (Ok tt, s))) ;;*
  let* s := mget in
  mret (match cost_lookup s k with Some (t, _) => txt_float t | None => FFin 0 0 end).

(** [INCRBYFLOAT] keeps the expiry of the key. *)
Definition redis_incrbyfloat (k : string) (amount : pyfloat) : M (spend txt) txt :=
  on_counters (command (fun s => (Ok tt, s))) ;;*
  let* s := mget in
  let* t := mlift (txt_add (fst <$> cost_lookup s k) amount) in
  mmodify (set_cost k (t, cost_lookup s k ≫= snd)) ;;*
  mret t.

(** [EXPIRE] with a positive time. *)
Definition cost_expire (k : string) (ttl : Z) : M (spend txt) unit :=
  on_counters (command (fun s => (Ok tt, s))) ;;*
  let* s := mget in
  match cost_lookup s k with
  | None => mret tt
  | Some (t, _) => mmodify (set_cost k (t, Some (clock (sp_redis s) + ttl)%Z))
  end.

(** [RedisAdapter.incrbyfloat_with_ttl]. *)
Definition incrbyfloat_with_ttl (k : string) (amount : pyfloat) (ttl : Z) : M (spend txt) pyfloat :=
  let* value := redis_incrbyfloat k amount in
  let total := txt_float value in
  (if (0 <? ttl)%Z && float_ltb (float_abs (float_sub total amount)) (ratio 1 (10 ^ 12))
   then cost_expire k ttl else mret tt) ;;*
  mret total.

(** *** Keys *)

Definition _flow_cost_key (f : uuid) : string := "cost:flow_run:" +:+ uuid_str f.
Definition _tenant_cost_key (t : uuid) : string := "cost:tenant:" +:+ uuid_str t.
Definition _flow_calls_key (f : uuid) : string := "llm_calls:flow_run:" +:+ uuid_str f.
Definition _tenant_calls_key (t : uuid) : string := "llm_calls:tenant:" +:+ uuid_str t.

(** *** Counters *)

Definition unavailable {A} (msg : string) : M (spend txt) A := mraise (GuardrailUnavailableException msg).

Definition _get_cost (k : string) : M (spend txt) pyfloat :=
  mtry (get_float k) (fun _ => unavailable "cost_counter_unavailable").

(** [isinstance(value, int)] holds of booleans. *)
Definition _incr_calls (k : string) (ttl : Z) : M (spend txt) pyval :=
  let* value := mtry (on_counters (incr_with_ttl silent_mode k ttl))
                  (fun _ => unavailable "call_counter_unavailable") in
  match value with
  | PInt _ | PBool _ => mret value
  | _ => unavailable "call_counter_unavailable"
  end.

Definition _add_cost (k : string) (amount : pyfloat) (ttl : Z) : M (spend txt) pyfloat :=
  mtry (incrbyfloat_with_ttl k amount ttl) (fun _ => unavailable "cost_counter_unavailable").

(** [request.max_tokens or policy_llm.get("max_tokens") or 0]. *)
Definition max_tokens_of (request : LLMRequest) (policy_llm : pydict) : pyval :=
  match rq_max_tokens request with
  | Some z => if (z =? 0)%Z then
                if truthy (dict_getv "max_tokens" policy_llm) then dict_getv "max_tokens" policy_llm
                else PInt 0
              else PInt z
  | None => if truthy (dict_getv "max_tokens" policy_llm) then dict_getv "max_tokens" policy_llm
            else PInt 0
  end.

(** [_estimate_cost]. *)
Definition _estimate_cost (provider provider_model : string) (request : LLMRequest)
    (policy_llm : pydict) : M (spend txt) (option pyfloat) :=
  let max_tokens := max_tokens_of request policy_llm in
  if negb has_cost_engine || py_eq same max_tokens (PInt 0) then mret None
  else
    mtry (let* pricing := get_active_pricing provider provider_model in
          let* c := mlift (cost_of_usage int_of_string pricing
                      (Some [("input_tokens", max_tokens); ("output_tokens", max_tokens)])) in
          mret (Some c))
      (fun e => if is_domain_validation e then mret None else mraise e).

(** *** The verdict *)

Definition decide_ (t : GuardrailDecisionType) (reason : string) (limits overrides : pydict) :
    GuardrailDecision :=
  {| gd_decision := t; gd_reason_code := reason; gd_applied_limits := limits;
     gd_overrides := overrides |}.

(** [limit is not None and count > int(limit)]. *)
Definition over_calls (limit count : pyval) : res exc bool :=
  match limit with
  | PNone => Ok false
  | _ => let! m := py_int int_of_string limit in Ok (m <? count_of count)%Z
  end.

(** [limit is not None and projected > float(limit)]. *)
Definition over_cost (limit : pyval) (projected : pyfloat) : res exc bool :=
  match limit with
  | PNone => Ok false
  | _ => let! m := py_float float_of_string limit in Ok (float_ltb m projected)
  end.

(** A cost limit that is exceeded: degrade when a model to degrade to is configured. *)
Definition cost_verdict (name reason : string) (limit : pyval) (projected : pyfloat) (degrade : pyval) :
    GuardrailDecision :=
  if truthy degrade then decide_ DEGRADE reason [(name, limit)] [("model_alias", degrade)]
  else decide_ BLOCK reason [(name, limit); ("projected_cost", PFloat projected)] [].

(** The hard latency limit. *)
Definition latency_verdict (request : LLMRequest) (hard : pyval) : res exc GuardrailDecision :=
  let allow := decide_ ALLOW "ALLOW" in
  match hard, rq_max_latency_ms request with
  | PNone, _ | _, None => Ok (allow [] [])
  | _, Some l =>
      if (l =? 0)%Z then Ok (allow [] [])
      else
        let! over := py_order same OpGt (PInt l) hard in
        Ok (if (over : bool) then allow [("max_latency_ms_hard", hard)] [("max_latency_ms", hard)]
            else allow [] [])
  end.

(** The decisions of [_check_and_reserve_impl] once the counters are known. *)
Definition verdict (request : LLMRequest) (policy_llm : pydict) (estimated : option pyfloat)
    (flow_cost tenant_cost : pyfloat) (flow_calls tenant_calls : pyval) : res exc GuardrailDecision :=
  let limit k := dict_getv k policy_llm in
  let! over_flow := over_calls (limit "max_llm_calls_per_flow_run") flow_calls in
  if (over_flow : bool) then
    Ok (decide_ BLOCK "RATE_LIMIT_FLOW_RUN"
          [("max_llm_calls_per_flow_run", limit "max_llm_calls_per_flow_run");
           ("current_calls", flow_calls)] [])
  else
    let! over_tenant := over_calls (limit "max_llm_calls_per_tenant_window") tenant_calls in
    if (over_tenant : bool) then
      Ok (decide_ BLOCK "RATE_LIMIT_TENANT"
            [("max_llm_calls_per_tenant_window", limit "max_llm_calls_per_tenant_window");
             ("current_calls", tenant_calls)] [])
    else
      let projected_flow := float_add flow_cost (default (FFin 0 0) estimated) in
      let projected_tenant := float_add tenant_cost (default (FFin 0 0) estimated) in
      let! dear_flow := over_cost (limit "max_cost_usd_per_flow_run") projected_flow in
      if (dear_flow : bool) then
        Ok (cost_verdict "max_cost_usd_per_flow_run" "COST_LIMIT_FLOW_RUN"
              (limit "max_cost_usd_per_flow_run") projected_flow (limit "degrade_model_alias"))
      else
        let! dear_tenant := over_cost (limit "max_cost_usd_per_tenant_window") projected_tenant in
        if (dear_tenant : bool) then
          Ok (cost_verdict "max_cost_usd_per_tenant_window" "COST_LIMIT_TENANT"
                (limit "max_cost_usd_per_tenant_window") projected_tenant (limit "degrade_model_alias"))
        else latency_verdict request (limit "max_latency_ms_hard").

(** [check_and_reserve]. *)
Definition check_and_reserve (tenant f : uuid) (request : LLMRequest) (policy_llm : pydict)
    (provider provider_model : string) : M (spend txt) GuardrailDecision :=
  let* estimated := _estimate_cost provider provider_model request policy_llm in
  let* flow_cost := _get_cost (_flow_cost_key f) in
  let* tenant_cost := _get_cost (_tenant_cost_key tenant) in
  let* ttl := mlift (py_int int_of_string
                (default (PInt 3600) (dict_get "tenant_llm_calls_window_seconds" policy_llm))) in
  let* flow_calls := _incr_calls (_flow_calls_key f) ttl in
  let* tenant_calls := _incr_calls (_tenant_calls_key tenant) ttl in
  mlift (verdict request policy_llm estimated flow_cost tenant_cost flow_calls tenant_calls).

(** [record_post_call_cost]. *)
Definition record_post_call_cost (tenant f : uuid) (cost_usd : option pyfloat) (policy_llm : pydict) :
    M (spend txt) unit :=
  match cost_usd with
  | None => mret tt
  | Some cost =>
      let raw := dict_getv "tenant_cost_window_seconds" policy_llm in
      let* ttl := mlift (py_int int_of_string (if truthy raw then raw else PInt 3600)) in
      _add_cost (_flow_cost_key f) cost ttl ;;*
      _add_cost (_tenant_cost_key tenant) cost ttl ;;*
      mret tt
  end.
End engine.

(** ** What a verdict says *)

(** The calls a live counter holds. *)
Definition calls_so_far (r : redis) (k : string) : Z :=
  match rlookup r k with Some (RInt z, _) => z | _ => 0 end.

(** Same time, and same entries at the keys [P]. *)
Definition agree_on (P : string -> Prop) (r r' : redis) : Prop :=
  clock r' = clock r /\ forall k, P k -> entries r' !! k = entries r !! k.

#[global] Instance agree_on_preorder P : PreOrder (agree_on P).
Proof.
  split; [by split|]. intros a b c [H1 H2] [H3 H4]. split; [congruence|].
  intros k Hk. rewrite H4 by done. by apply H2.
Qed.

Lemma agree_on_calls P r r' k : agree_on P r r' -> P k -> calls_so_far r' k = calls_so_far r k.
Proof. intros [Hc He] Hk. unfold calls_so_far, rlookup, live. by rewrite He, Hc. Qed.

(** A counted call on an adapter that does not swallow errors. *)
Lemma incr_with_ttl_effect k ttl r v r' :
  incr_with_ttl false k ttl r = (Ok v, r') ->
  v = PInt (calls_so_far r k + 1) /\ agree_on (fun k' => k' <> k) r r'.
Proof.
  unfold incr_with_ttl, silent_mode_wrapper. rewrite mbind_ok. intros (z & r1 & Hi & H).
  rewrite mbind_ok in H. destruct H as (u & r2 & He & H). injection H as <- <-.
  assert (H1 : z = (calls_so_far r k + 1)%Z /\ agree_on (fun k' => k' <> k) r r1).
  { unfold redis_incr, command in Hi. unfold calls_so_far.
    destruct (faults r) as [|[] fs]; [|done|];
      [| change (rlookup (set_faults fs r) k) with (rlookup r k) in Hi];
      destruct (rlookup r k) as [[[y|y] t]|]; simplify_eq; (split; [done || lia|]);
      (split; [done|]); intros k' Hk; simpl; by rewrite lookup_insert_ne. }
  destruct H1 as [-> H1]. split; [done|]. etrans; [done|]. clear -He.
  destruct (_ =? 1)%Z; [|by injection He as _ <-]. unfold redis_expire, command in He.
  destruct (faults r1) as [|[] fs]; [|done|]; [|change (rlookup (set_faults fs r1) k) with (rlookup r1 k) in He];
    destruct (rlookup r1 k) as [[v t]|]; [destruct (ttl <=? 0)%Z| |destruct (ttl <=? 0)%Z|];
    injection He as _ <-; (split; [done|]); intros k' Hk; simpl; try done;
    first [by rewrite lookup_delete_ne | by rewrite lookup_insert_ne].
Qed.

Definition countable (r : redis) (k : string) : Prop :=
  match rlookup r k with None => True | Some (RInt c, _) => (1 <= c)%Z | _ => False end.

Lemma agree_on_countable P r r' k : agree_on P r r' -> P k -> countable r k -> countable r' k.
Proof. intros [Hc He] Hk. unfold countable, rlookup, live. by rewrite He, Hc. Qed.

(** A counter whose increments are not lost: the adapter reports errors, or the server can be
    reached and holds a number there. *)
Definition counted (silent : bool) (r : redis) (k : string) : Prop :=
  silent = false \/ healthy r /\ countable r k.

(** On a server that can be reached the adapter's mode makes no difference. *)
Lemma incr_healthy silent k ttl r : healthy r -> countable r k ->
  incr_with_ttl silent k ttl r = incr_with_ttl false k ttl r /\ healthy (incr_with_ttl false k ttl r).2.
Proof.
  intros Hh Hk. assert (H : exists z r', (let* value := redis_incr k in
      (if (value =? 1)%Z then redis_expire k ttl else mret tt) ;;* mret (PInt value)) r = (Ok (PInt z), r') /\ healthy r').
  { unfold countable in Hk. unfold mbind_, redis_incr, redis_expire, command, healthy in *. rewrite Hh.
    destruct (rlookup r k) as [[[c|] t]|]; [|done|]; simpl; [destruct (_ =? 1)%Z; simpl|];
      rewrite ?Hh; repeat case_match; simplify_eq; simpl; eauto. }
  destruct H as (z & r' & H & Hr). unfold incr_with_ttl, silent_mode_wrapper, mtry. rewrite H.
  destruct silent; [|done]. rewrite H. by split.
Qed.

Section facts.
Context {txt : Type}.
Variable txt_add : option txt -> pyfloat -> res exc txt.
Variable txt_float : txt -> pyfloat.
Variable same : pyval -> pyval -> bool.
Variable int_of_string : string -> option Z.
Variable float_of_string : string -> option pyfloat.
Variable uuid_str : uuid -> string.
Variable has_cost_engine : bool.
Variable get_active_pricing : string -> string -> M (spend txt) (option LLMPricing).

(** The pricing lookup writes only its own cache rows, and finds a reachable server reachable. *)
Class PricingFrame : Prop := {
  pricing_frame p m s :
    sp_costs (get_active_pricing p m s).2 = sp_costs s /\
    agree_on (fun k => String.prefix "llm_pricing:" k = false) (sp_redis s)
      (sp_redis (get_active_pricing p m s).2);
  pricing_healthy p m s : healthy (sp_redis s) -> healthy (sp_redis (get_active_pricing p m s).2);
}.
Context {Frame : PricingFrame}.

Abbreviation estimate_ := (_estimate_cost same int_of_string has_cost_engine get_active_pricing).
Abbreviation check_ silent :=
  (check_and_reserve txt_float silent same int_of_string float_of_string uuid_str has_cost_engine
     get_active_pricing).
Abbreviation flow_key := (_flow_calls_key uuid_str).
Abbreviation tenant_key := (_tenant_calls_key uuid_str).

Definition spent (s : spend txt) (k : string) : pyfloat :=
  match cost_lookup s k with Some (t, _) => txt_float t | None => FFin 0 0 end.

Lemma calls_keys_distinct f t : flow_key f <> tenant_key t.
Proof. unfold _flow_calls_key, _tenant_calls_key. intros E. cbv [String.append] in E. discriminate. Qed.

(** What the engine may change before it counts. *)
Definition quiet (s s' : spend txt) : Prop :=
  sp_costs s' = sp_costs s /\
  agree_on (fun k => String.prefix "llm_pricing:" k = false) (sp_redis s) (sp_redis s').

#[local] Instance quiet_preorder : PreOrder quiet.
Proof.
  split; [by split|]. intros a b c [H1 H2] [H3 H4]. split; [congruence|]. by etrans.
Qed.

Lemma estimate_quiet p m rq pol : respects quiet (estimate_ p m rq pol).
Proof.
  unfold _estimate_cost. destruct (negb _ || _); [apply respects_ret; apply _|].
  apply respects_try; [apply _| |intros e; destruct (is_domain_validation e); frame].
  apply respects_bind; [apply _| |intros; frame]. intros s. apply pricing_frame.
Qed.

(** It also keeps a reachable server reachable. *)
Definition stays_healthy (s s' : spend txt) : Prop := healthy (sp_redis s) -> healthy (sp_redis s').
#[local] Instance stays_healthy_preorder : PreOrder stays_healthy.
Proof. split; [by intros s H|]. intros a b c H1 H2 H. by apply H2, H1. Qed.

Lemma estimate_healthy p m rq pol : respects stays_healthy (estimate_ p m rq pol).
Proof.
  unfold _estimate_cost. destruct (negb _ || _); [apply respects_ret; apply _|].
  apply respects_try; [apply _| |intros e; destruct (is_domain_validation e); frame].
  apply respects_bind; [apply _| |intros; frame]. intros s H. by apply pricing_healthy.
Qed.

Lemma get_cost_ok k (s : spend txt) c s' :
  _get_cost txt_float k s = (Ok c, s') -> c = spent s k /\ quiet s s' /\ stays_healthy s s'.
Proof.
  unfold _get_cost, mtry, get_float, on_counters, command, mbind_.
  destruct s as [[es ck fs] cs]. simpl. destruct fs as [|[] fs]; simpl; intros H; simplify_eq; done.
Qed.

Lemma incr_calls_ok silent k ttl (s : spend txt) v s' :
  counted silent (sp_redis s) k -> _incr_calls silent k ttl s = (Ok v, s') ->
  v = PInt (calls_so_far (sp_redis s) k + 1) /\ sp_costs s' = sp_costs s /\
  agree_on (fun k' => k' <> k) (sp_redis s) (sp_redis s') /\ (silent = true -> healthy (sp_redis s')).
Proof.
  intros Hc. unfold _incr_calls. rewrite mbind_ok. intros (x & s1 & H1 & H2). unfold mtry, on_counters in H1.
  assert (Hs : incr_with_ttl silent k ttl (sp_redis s) = incr_with_ttl false k ttl (sp_redis s) /\
    (silent = true -> healthy (incr_with_ttl false k ttl (sp_redis s)).2)).
  { destruct Hc as [->|[Hh Hk]]; [done|]. destruct (incr_healthy silent k ttl _ Hh Hk). by split. }
  destruct Hs as [Hs Hh]. rewrite Hs in H1.
  destruct (incr_with_ttl false k ttl (sp_redis s)) as [[y|e] r] eqn:E; [|done].
  injection H1 as <- <-. apply incr_with_ttl_effect in E as [-> E]. injection H2 as <- <-. done.
Qed.

Lemma quiet_spent s s' k : quiet s s' -> spent s' k = spent s k.
Proof. intros [H [Hc _]]. unfold spent, cost_lookup. by rewrite H, Hc. Qed.

(** A check that returns has read the two spends and counted the call twice. *)
Lemma check_reads silent tenant f rq pol p m s d s' :
  counted silent (sp_redis s) (flow_key f) -> counted silent (sp_redis s) (tenant_key tenant) ->
  check_ silent tenant f rq pol p m s = (Ok d, s') ->
  exists est s1,
    estimate_ p m rq pol s = (Ok est, s1) /\ sp_costs s' = sp_costs s /\
    verdict same int_of_string float_of_string rq pol est
      (spent s (_flow_cost_key uuid_str f)) (spent s (_tenant_cost_key uuid_str tenant))
      (PInt (calls_so_far (sp_redis s) (flow_key f) + 1))
      (PInt (calls_so_far (sp_redis s) (tenant_key tenant) + 1)) = Ok d.
Proof.
  intros Cf Ct. unfold check_and_reserve. rewrite mbind_ok. intros (est & s1 & H1 & H).
  exists est, s1. split; [done|]. pose proof (respects_run quiet _ _ _ _ (estimate_quiet _ _ _ _) H1) as Q1.
  pose proof (respects_run stays_healthy _ _ _ _ (estimate_healthy _ _ _ _) H1) as S1.
  rewrite mbind_ok in H. destruct H as (cf & s2 & H2 & H). apply get_cost_ok in H2 as (-> & Q2 & S2).
  rewrite mbind_ok in H. destruct H as (ct & s3 & H3 & H). apply get_cost_ok in H3 as (-> & Q3 & S3).
  rewrite mbind_ok in H. destruct H as (ttl & s3' & Ht & H).
  unfold mlift in Ht. injection Ht as _ <-.
  assert (Q12 : quiet s s2) by (by etrans). assert (Q : quiet s s3) by (by etrans). pose proof Q as [Qc Qa].
  assert (C3 : forall k, String.prefix "llm_pricing:" k = false -> counted silent (sp_redis s) k -> counted silent (sp_redis s3) k).
  { intros k Hk [->|[Hh Hk']]; [by left|]. right. split; [by apply S3, S2, S1|by eapply agree_on_countable]. }
  rewrite mbind_ok in H. destruct H as (nf & s4 & H4 & H). apply incr_calls_ok in H4 as (-> & C4 & A4 & S4); [|by apply C3].
  assert (Ct4 : counted silent (sp_redis s4) (tenant_key tenant)).
  { destruct (C3 (tenant_key tenant) eq_refl Ct) as [->|[_ Hk]]; [by left|]. destruct silent; [right|by left].
    split; [by apply S4|]. eapply agree_on_countable; [exact A4| |done]. intros E. by apply (calls_keys_distinct f tenant). }
  rewrite mbind_ok in H. destruct H as (nt & s5 & H5 & H). apply incr_calls_ok in H5 as (-> & C5 & A5 & _); [|done].
  unfold mlift in H. injection H as Hv <-.
  rewrite (quiet_spent _ _ _ Q1), (quiet_spent _ _ _ Q12) in Hv.
  rewrite (agree_on_calls _ _ _ (tenant_key tenant) A4) in Hv by (intros E; by apply (calls_keys_distinct f tenant)).
  rewrite !(agree_on_calls _ _ _ _ Qa) in Hv by done. split; [congruence | done].
Qed.

Lemma verdict_admits rq pol est cf ct nf nt d :
  verdict same int_of_string float_of_string rq pol est cf ct nf nt = Ok d -> gd_decision d <> BLOCK ->
  over_calls int_of_string (dict_getv "max_llm_calls_per_flow_run" pol) nf = Ok false /\
  over_calls int_of_string (dict_getv "max_llm_calls_per_tenant_window" pol) nt = Ok false /\
  (gd_decision d = ALLOW ->
   over_cost float_of_string (dict_getv "max_cost_usd_per_flow_run" pol)
     (float_add cf (default (FFin 0 0) est)) = Ok false /\
   over_cost float_of_string (dict_getv "max_cost_usd_per_tenant_window" pol)
     (float_add ct (default (FFin 0 0) est)) = Ok false).
Proof.
  unfold verdict. intros H Hd.
  destruct (over_calls _ _ nf) as [[]|]; simpl in H; [by injection H as <-| |done].
  destruct (over_calls _ _ nt) as [[]|]; simpl in H; [by injection H as <-| |done].
  do 2 (split; [done|]). intros Ha. unfold cost_verdict in H.
  destruct (over_cost _ (dict_getv "max_cost_usd_per_flow_run" _) _) as [[]|]; simpl in H;
    [destruct (truthy _); by injection H as <-| |done].
  destruct (over_cost _ (dict_getv "max_cost_usd_per_tenant_window" _) _) as [[]|]; simpl in H;
    [destruct (truthy _); by injection H as <-|done|done].
Qed.

(** A limit that is not set, or one the number of calls so far is below. *)
Definition within_calls (limit : pyval) (so_far : Z) : Prop :=
  limit = PNone \/ exists n, py_int int_of_string limit = Ok n /\ (so_far < n)%Z.
(** A limit that is not set, or one the projected spend does not exceed. *)
Definition within_cost (limit : pyval) (projected : pyfloat) : Prop :=
  limit = PNone \/ exists c, py_float float_of_string limit = Ok c /\ num_compare projected c <> Some Gt.

Lemma calls_within limit so_far : over_calls int_of_string limit (PInt (so_far + 1)) = Ok false -> within_calls limit so_far.
Proof.
  unfold over_calls, within_calls. intros H. destruct (decide (limit = PNone)) as [->|Hl]; [by left|right].
  assert (H' : rbind (py_int int_of_string limit) (fun m => Ok (m <? count_of (PInt (so_far + 1)))%Z) = Ok false)
    by (by destruct limit). apply rbind_ok in H' as (n & Hn & [= Hlt]). exists n. split; [done|]. apply Z.ltb_ge in Hlt. lia.
Qed.
Lemma cost_within limit x : over_cost float_of_string limit x = Ok false -> within_cost limit x.
Proof.
  unfold over_cost, within_cost. intros H. destruct (decide (limit = PNone)) as [->|Hl]; [by left|right].
  assert (H' : rbind (py_float float_of_string limit) (fun m => Ok (float_ltb m x)) = Ok false) by (by destruct limit).
  apply rbind_ok in H' as (c & Hc & [= Hlt]). exists c. split; [done|]. by apply num_compare_ge.
Qed.


(** ** Counting on a healthy server *)

Lemma incr_runs silent k ttl r :
  healthy r -> countable r k -> (0 < ttl)%Z ->
  exists r', incr_with_ttl silent k ttl r = (Ok (PInt (calls_so_far r k + 1)), r') /\
    healthy r' /\ countable r' k /\ calls_so_far r' k = (calls_so_far r k + 1)%Z /\
    agree_on (fun k' => k' <> k) r r'.
Proof.
  intros Hh Hk Ht. unfold countable, calls_so_far in *. destruct (rlookup r k) as [[[c|] t]|] eqn:E; [|done|].
  - assert (El : live r (RInt (c + 1), t) = true).
    { unfold rlookup in E. destruct (entries r !! k) as [e|]; [|done]. destruct (live r e) eqn:L; [|done].
      by injection E as ->. }
    rewrite (incr_live silent k ttl r c t) by done. eexists. split; [done|]. split; [done|].
    unfold rlookup. simpl. rewrite lookup_insert_eq.
    change (live (set_entries _ r) _) with (live r (RInt (c + 1), t)). rewrite El.
    split; [lia|]. split; [done|]. split; [done|]. intros k' Hne. by apply lookup_insert_ne.
  - rewrite incr_fresh by done. eexists. split; [done|]. split; [done|].
    unfold rlookup. simpl. rewrite lookup_insert_eq. unfold live. simpl.
    replace (clock r <? clock r + ttl)%Z with true by (symmetry; apply Z.ltb_lt; lia).
    split; [lia|]. split; [done|]. split; [done|]. intros k' Hne. by apply lookup_insert_ne.
Qed.

Section serial.
Variable silent : bool.
Variables (tenant : uuid) (rq : LLMRequest) (pol : pydict) (p m : string).
Variable est : option pyfloat.
Variable ttl : Z.
Hypothesis estimate_known : forall s, estimate_ p m rq pol s = (Ok est, s).
Hypothesis ttl_known : py_int int_of_string
  (default (PInt 3600) (dict_get "tenant_llm_calls_window_seconds" pol)) = Ok ttl.
Hypothesis ttl_pos : (0 < ttl)%Z.

Definition verdict_at (f : uuid) (s : spend txt) : res exc GuardrailDecision :=
  verdict same int_of_string float_of_string rq pol est
    (spent s (_flow_cost_key uuid_str f)) (spent s (_tenant_cost_key uuid_str tenant))
    (PInt (calls_so_far (sp_redis s) (flow_key f) + 1))
    (PInt (calls_so_far (sp_redis s) (tenant_key tenant) + 1)).

(** On a healthy server a check counts the call for the run and for the tenant, whatever
    the verdict. *)
Lemma check_runs f s :
  healthy (sp_redis s) -> countable (sp_redis s) (flow_key f) -> countable (sp_redis s) (tenant_key tenant) ->
  exists s', check_ silent tenant f rq pol p m s = (verdict_at f s, s') /\
    healthy (sp_redis s') /\ sp_costs s' = sp_costs s /\
    countable (sp_redis s') (flow_key f) /\ countable (sp_redis s') (tenant_key tenant) /\
    calls_so_far (sp_redis s') (flow_key f) = (calls_so_far (sp_redis s) (flow_key f) + 1)%Z /\
    calls_so_far (sp_redis s') (tenant_key tenant) = (calls_so_far (sp_redis s) (tenant_key tenant) + 1)%Z /\
    agree_on (fun k => k <> flow_key f /\ k <> tenant_key tenant) (sp_redis s) (sp_redis s').
Proof using estimate_known ttl_known ttl_pos.
  intros Hh Hf Ht. pose proof (calls_keys_distinct f tenant) as Hne.
  assert (Hget : forall k, _get_cost txt_float k s = (Ok (spent s k), s)).
  { intros k. unfold _get_cost, mtry, get_float, on_counters, command, mbind_. unfold healthy in Hh.
    rewrite Hh. by destruct s. }
  destruct (incr_runs silent (flow_key f) ttl (sp_redis s) Hh Hf ttl_pos) as (r1 & I1 & H1 & C1 & N1 & A1).
  destruct (incr_runs silent (tenant_key tenant) ttl r1 H1) as (r2 & I2 & H2 & C2 & N2 & A2);
    [by eapply agree_on_countable|done|].
  rewrite (agree_on_calls _ _ _ _ A1) in I2, N2 by done.
  exists {| sp_redis := r2; sp_costs := sp_costs s |}. split.
  - unfold check_and_reserve. rewrite (mbind_run _ _ _ _ _ (estimate_known s)).
    rewrite (mbind_run _ _ _ _ _ (Hget _)), (mbind_run _ _ _ _ _ (Hget _)), ttl_known.
    unfold mbind_ at 1, mlift at 1. unfold _incr_calls, mtry, on_counters, mbind_, mlift. simpl.
    rewrite I1. simpl. by rewrite I2.
  - simpl. rewrite (agree_on_calls _ _ _ _ A2) by done. split_and!; try done.
    + by eapply agree_on_countable.
    + split; [destruct A1, A2; congruence|]. intros k [K1 K2]. etrans; [by apply A2|by apply A1].
Qed.

(** Calls of one run, one after the other, and the reasons of their verdicts. *)
Fixpoint checks (k : nat) (f : uuid) (s : spend txt) : list (res exc string) * spend txt :=
  match k with
  | 0 => ([], s)
  | S k => let (rs, s1) := checks k f s in
           let (r, s2) := check_ silent tenant f rq pol p m s1 in
           (rs ++ [match r with Ok d => Ok (gd_reason_code d) | Err e => Err e end], s2)
  end.

Lemma checks_state k f s :
  healthy (sp_redis s) -> countable (sp_redis s) (flow_key f) -> countable (sp_redis s) (tenant_key tenant) ->
  let s' := (checks k f s).2 in
  healthy (sp_redis s') /\ sp_costs s' = sp_costs s /\
  countable (sp_redis s') (flow_key f) /\ countable (sp_redis s') (tenant_key tenant) /\
  calls_so_far (sp_redis s') (flow_key f) = (calls_so_far (sp_redis s) (flow_key f) + Z.of_nat k)%Z /\
  calls_so_far (sp_redis s') (tenant_key tenant) = (calls_so_far (sp_redis s) (tenant_key tenant) + Z.of_nat k)%Z /\
  agree_on (fun k => k <> flow_key f /\ k <> tenant_key tenant) (sp_redis s) (sp_redis s').
Proof using estimate_known ttl_known ttl_pos.
  intros Hh Hf Ht. induction k as [|k IH]; simpl; [split_and!; try done; lia|].
  destruct (checks k f s) as [rs s1]. simpl in IH. destruct IH as (I1 & I2 & I3 & I4 & I5 & I6 & I7).
  destruct (check_runs f s1 I1 I3 I4) as (s2 & -> & J1 & J2 & J3 & J4 & J5 & J6 & J7). simpl.
  split_and!; try done; [congruence|lia|lia|]. split; [destruct I7, J7; congruence|].
  intros k' Hk'. destruct I7 as [_ I7], J7 as [_ J7]. by rewrite J7, I7.
Qed.

Lemma checks_reasons k f s :
  healthy (sp_redis s) -> countable (sp_redis s) (flow_key f) -> countable (sp_redis s) (tenant_key tenant) ->
  (checks k f s).1 = (fun i => match verdict_at f (checks (i - 1) f s).2 with
                               | Ok d => Ok (gd_reason_code d) | Err e => Err e end) <$> seq 1 k.
Proof using estimate_known ttl_known ttl_pos.
  intros Hh Hf Ht. induction k as [|k IH]; [done|]. rewrite seq_S, fmap_app, <- IH. simpl.
  rewrite Nat.sub_0_r. destruct (checks_state k f s Hh Hf Ht) as (I1 & I2 & I3 & I4 & _).
  destruct (checks k f s) as [rs s1]. simpl in *.
  by destruct (check_runs f s1 I1 I3 I4) as (s2 & -> & _).
Qed.

Lemma spent_agree s s' k :
  sp_costs s' = sp_costs s -> clock (sp_redis s') = clock (sp_redis s) -> spent s' k = spent s k.
Proof. intros H1 H2. unfold spent, cost_lookup. by rewrite H1, H2. Qed.
End serial.

(** ** Limits on calls *)

Definition call_policy (n M : Z) : pydict :=
  [("max_llm_calls_per_flow_run", PInt n); ("max_llm_calls_per_tenant_window", PInt M)].

Definition call_reason (n M flow_calls tenant_calls : Z) : string :=
  if (n <? flow_calls)%Z then "RATE_LIMIT_FLOW_RUN"
  else if (M <? tenant_calls)%Z then "RATE_LIMIT_TENANT" else "ALLOW".

Lemma call_verdict rq n M est cf ct a b :
  exists d, verdict same int_of_string float_of_string rq (call_policy n M) est cf ct (PInt a) (PInt b) = Ok d /\
    gd_reason_code d = call_reason n M a b.
Proof.
  unfold call_reason, verdict. simpl. destruct (n <? a)%Z; [by eexists|]. simpl.
  destruct (M <? b)%Z; by eexists.
Qed.

Lemma free_counter r k : rlookup r k = None -> countable r k /\ calls_so_far r k = 0%Z.
Proof. intros H. unfold countable, calls_so_far. by rewrite H. Qed.

(** Refused calls spend the tenant's quota.  Within a window the first [n] calls of a
    flow run are admitted and the others refused, but every one of them is counted for the
    tenant: after [k] calls of one run the first call of another run of the tenant is refused
    as soon as [k] reaches the tenant's limit, however few of the [k] were admitted. *)
Theorem refused_calls_spend_quota silent tenant rq est p m n M k f g s :
  (forall s, estimate_ p m rq (call_policy n M) s = (Ok est, s)) ->
  uuid_str f <> uuid_str g -> healthy (sp_redis s) ->
  rlookup (sp_redis s) (flow_key f) = None -> rlookup (sp_redis s) (flow_key g) = None ->
  rlookup (sp_redis s) (tenant_key tenant) = None -> (1 <= n)%Z ->
  let run := checks silent tenant rq (call_policy n M) p m k f s in
  run.1 = (fun i => Ok (call_reason n M (Z.of_nat i) (Z.of_nat i))) <$> seq 1 k /\
  exists d s', check_ silent tenant g rq (call_policy n M) p m run.2 = (Ok d, s') /\
    gd_reason_code d = if (M <? Z.of_nat k + 1)%Z then "RATE_LIMIT_TENANT" else "ALLOW".
Proof.
  intros He Hfg Hh Hf Hg Ht Hn.
  assert (Hne : flow_key g <> flow_key f).
  { unfold _flow_calls_key. intros E. by apply (inj (String.append _)) in E. }
  destruct (free_counter _ _ Hf) as [Cf Zf], (free_counter _ _ Ht) as [Ct Zt], (free_counter _ _ Hg) as [Cg Zg].
  assert (Hst := fun j => checks_state silent tenant rq (call_policy n M) p m est 3600 He
            eq_refl ltac:(lia) j f s Hh Cf Ct). cbv zeta in Hst |- *. split.
  - rewrite (checks_reasons silent tenant rq (call_policy n M) p m est 3600 He eq_refl ltac:(lia) k f s Hh Cf Ct).
    apply list_fmap_ext. intros j i Hi. apply lookup_seq in Hi as [-> Hj].
    destruct (Hst (1 + j - 1)) as (_ & _ & _ & _ & Nf & Nt & _). unfold verdict_at. rewrite Nf, Nt, Zf, Zt.
    replace (0 + Z.of_nat (1 + j - 1) + 1)%Z with (Z.of_nat (1 + j)) by lia.
    edestruct (call_verdict rq n M est) as (d & -> & Hd). by rewrite Hd.
  - destruct (Hst k) as (I1 & I2 & I3 & I4 & Nf & Nt & A).
    set (s1 := (checks silent tenant rq (call_policy n M) p m k f s).2) in *.
    pose proof (calls_keys_distinct g tenant) as Hgt.
    destruct (check_runs silent tenant rq (call_policy n M) p m est 3600 He eq_refl ltac:(lia) g s1 I1)
      as (s2 & -> & _); [by eapply agree_on_countable|done|].
    unfold verdict_at. rewrite (agree_on_calls _ _ _ _ A), Nt, Zg, Zt by done.
    edestruct (call_verdict rq n M est) as (d & -> & Hd). exists d, s2. split; [done|]. rewrite Hd.
    unfold call_reason. replace (n <? 0 + 1)%Z with false by (symmetry; apply Z.ltb_ge; lia).
    by replace (0 + Z.of_nat k)%Z with (Z.of_nat k) by lia.
Qed.

(** Unreachable counters.  When both increments of a check fail, an adapter that
    reports errors makes the guardrail refuse the call as unavailable; one in silent mode
    returns [False], which passes for the integer 0, and the call is allowed under any
    limits. *)
Theorem counter_outage tenant rq est p m n M f s :
  (forall s, estimate_ p m rq (call_policy n M) s = (Ok est, s)) ->
  faults (sp_redis s) = [false; false; true; true] -> (0 <= n)%Z -> (0 <= M)%Z ->
  (check_ false tenant f rq (call_policy n M) p m s).1 =
    Err (GuardrailUnavailableException "call_counter_unavailable") /\
  exists d, (check_ true tenant f rq (call_policy n M) p m s).1 = Ok d /\ gd_decision d = ALLOW.
Proof.
  intros He Hf Hn HM. destruct s as [[es ck fs] cs]. simpl in Hf. subst fs.
  split; unfold check_and_reserve; rewrite (mbind_run _ _ _ _ _ (He _)); simpl; [done|].
  unfold verdict, over_calls, call_policy. simpl.
  replace (n <? 0)%Z with false by (symmetry; apply Z.ltb_ge; lia). simpl.
  replace (M <? 0)%Z with false by (symmetry; apply Z.ltb_ge; lia). simpl. by eexists.
Qed.

(** ** Limits on costs *)

Definition cost_policy (c : pyfloat) : pydict := [("max_cost_usd_per_flow_run", PFloat c)].

(** Checks reserve nothing.  When one call fits into what is left of a flow run's
    budget, so does any number of calls that are checked before the first of them has
    recorded its cost. *)
Theorem checks_reserve_nothing silent tenant rq est p m c k f s :
  (forall s, estimate_ p m rq (cost_policy c) s = (Ok est, s)) ->
  healthy (sp_redis s) -> rlookup (sp_redis s) (flow_key f) = None ->
  rlookup (sp_redis s) (tenant_key tenant) = None ->
  float_ltb c (float_add (spent s (_flow_cost_key uuid_str f)) (default (FFin 0 0) est)) = false ->
  let run := checks silent tenant rq (cost_policy c) p m k f s in
  run.1 = replicate k (Ok "ALLOW") /\ sp_costs run.2 = sp_costs s.
Proof.
  intros He Hh Hf Ht Hc. destruct (free_counter _ _ Hf) as [Cf _], (free_counter _ _ Ht) as [Ct _].
  assert (Hst := fun j => checks_state silent tenant rq (cost_policy c) p m est 3600 He
            eq_refl ltac:(lia) j f s Hh Cf Ct). cbv zeta in Hst |- *. split; [|apply Hst].
  rewrite (checks_reasons silent tenant rq (cost_policy c) p m est 3600 He eq_refl ltac:(lia) k f s Hh Cf Ct).
  rewrite <- (length_seq k 1) at 2. rewrite <- (const_fmap (fun _ => Ok "ALLOW")) by done.
  apply list_fmap_ext. intros j i _. destruct (Hst (i - 1)) as (_ & Hs & _ & _ & _ & _ & [Hck _]).
  unfold verdict_at. rewrite !(spent_agree _ _ _ Hs Hck). unfold verdict. simpl. by rewrite Hc.
Qed.
End facts.

(** ** Concrete runs *)

Module Sample.
(** A server that keeps cost counters as binary64. *)
Definition add (o : option pyfloat) (x : pyfloat) : res exc pyfloat := Ok (float_add (default (FFin 0 0) o) x).
Definition value (x : pyfloat) : pyfloat := x.
Definition same (_ _ : pyval) : bool := false.
Definition no_int (_ : string) : option Z := None.
Definition no_float (_ : string) : option pyfloat := None.
Definition name (u : uuid) : string := if (u =? 1)%N then "one" else "other".
(** Thirty cents per thousand tokens, both ways. *)
Definition price : LLMPricing := {| input_cost_per_1k := ratio 3 10; output_cost_per_1k := ratio 3 10 |}.
Definition pricing (_ _ : string) : M (spend pyfloat) (option LLMPricing) := mret (Some price).
Definition request : LLMRequest := {| rq_max_tokens := Some 1000%Z; rq_max_latency_ms := None |}.
Definition estimate : pyfloat := ratio 6 10.
Definition start : spend pyfloat := {| sp_redis := empty_redis; sp_costs := ∅ |}.
Definition failing : spend pyfloat :=
  {| sp_redis := {| entries := ∅; clock := 0; faults := [false; false; true; true] |}; sp_costs := ∅ |}.

#[global] Instance frame : PricingFrame (txt := pyfloat) pricing.
Proof. constructor; by intros. Qed.

Abbreviation check := (check_and_reserve value false same no_int no_float name true pricing).
Abbreviation quiet_check := (check_and_reserve value true same no_int no_float name true pricing).

Lemma estimated pol s :
  _estimate_cost same no_int true pricing "openai" "gpt" request pol s =
    (Ok (Some (py_round (float_add (ratio 3 10) (ratio 3 10)) 6)), s).
Proof. by vm_compute. Qed.

(** Five calls of sixty cents pass a budget of one dollar before any is recorded; then
    three dollars are spent. *)
Example overspent :
  (mfor (fun _ => record_post_call_cost add value no_int name 7%N 1%N (Some estimate) (cost_policy (FFin 1 0)))
     [(); (); (); (); ()] start).1 = Ok () /\
  num_compare (FFin 1 0)
    (spent value (mfor (fun _ => record_post_call_cost add value no_int name 7%N 1%N (Some estimate)
                          (cost_policy (FFin 1 0))) [(); (); (); (); ()] start).2
       (_flow_cost_key name 1%N)) = Some Lt.
Proof. by vm_compute. Qed.
End Sample.


Lemma refused_calls_spend_quota_witness :
  exists d s', Sample.check 7%N 2%N Sample.request (call_policy 1 3) "openai" "gpt"
      (checks Sample.value Sample.same Sample.no_int Sample.no_float Sample.name true Sample.pricing false 7%N
         Sample.request (call_policy 1 3) "openai" "gpt" 3 1%N Sample.start).2 = (Ok d, s') /\
    gd_reason_code d = "RATE_LIMIT_TENANT".
Proof.
  apply (refused_calls_spend_quota Sample.value Sample.same Sample.no_int Sample.no_float Sample.name true
           Sample.pricing false 7%N Sample.request _ "openai" "gpt" 1 3 3 1%N 2%N Sample.start
           (Sample.estimated _)); [done | reflexivity.. | lia].
Defined.

Lemma counter_outage_witness :
  exists d, (check_and_reserve Sample.value true Sample.same Sample.no_int Sample.no_float Sample.name true
               Sample.pricing 7%N 1%N Sample.request (call_policy 0 0) "openai" "gpt" Sample.failing).1 = Ok d /\
    gd_decision d = ALLOW.
Proof.
  apply (counter_outage Sample.value Sample.same Sample.no_int Sample.no_float Sample.name true Sample.pricing
           7%N Sample.request _ "openai" "gpt" 0 0 1%N Sample.failing (Sample.estimated _)); [reflexivity | lia..].
Defined.

Lemma checks_reserve_nothing_witness :
  (checks Sample.value Sample.same Sample.no_int Sample.no_float Sample.name true Sample.pricing false 7%N
     Sample.request (cost_policy (FFin 1 0)) "openai" "gpt" 5 1%N Sample.start).1 = replicate 5 (Ok "ALLOW").
Proof.
  apply (checks_reserve_nothing Sample.value Sample.same Sample.no_int Sample.no_float Sample.name true
           Sample.pricing false 7%N Sample.request _ "openai" "gpt" (FFin 1 0) 5 1%N Sample.start
           (Sample.estimated _)); by vm_compute.
Defined.
