(* ===== verification/AgentTools.v ===== *)
(** * AgentTools: the tools an agent run may call

    [src/src/domain/tools/services/agent_tool_catalog.py] (the catalogue of an agent
    version as callable functions), [agent_runtime/tool_grant.py] (the authorisation of
    one run), the request of [schemas/agent_run.py] and the replay of a stored
    authorisation in [agent_run_service.py].

    The rows of the catalogue are what the repository's query returns, in the order it
    returns them: the query has no [ORDER BY]. *)

From S2P Require Import Prelude.
From S2P Require Import Errors.
From S2P Require Import PyValue.
From S2P Require Import PyString.
From S2P Require Import Store.

(** ** The catalogue *)

(** A published tool configuration joined with its tool. *)
Record tool_row : Type := {
  tr_config_id : uuid;
  tr_tool_id : uuid;
  tr_config : pydict;
  tr_name : option string;
}.

Record AgentToolBinding : Type := {
  function_name : string;
  tb_tool_id : uuid;
  tool_config_id : uuid;
  tool_name : string;
  tb_description : string;
  request_schema : pydict;
}.

#[global] Instance binding_eq_dec : EqDecision AgentToolBinding.
Proof. solve_decision. Defined.

Section catalog.
Variable uuid_str : uuid -> string.
Variable py_str : pyval -> string.

(** [normalize_tool_function_name]. *)
Definition normalize_tool_function_name (name : option string) (config_id : uuid) : string :=
  let base := sub_unsafe (py_strip (default "" name)) in
  let base := if String.eqb base "" then "tool_" +:+ str_take 8 (uuid_str config_id) else base in
  str_take 64 base.

(** [{**a, **b}]. *)
Definition dict_merge (a b : pydict) : pydict := foldl (fun d kv => dict_set kv.1 kv.2 d) a b.

(** [tool_request_schema]. *)
Definition tool_request_schema (config : pydict) : pydict :=
  match dict_getv "request_schema" config with
  | PDict s =>
      if match dict_getv "type" s with PStr t => String.eqb t "object" | _ => false end then s
      else if dict_has "properties" s then dict_merge [("type", PStr "object")] s
      else [("type", PStr "object"); ("properties", PDict []); ("additionalProperties", PBool true)]
  | _ => [("type", PStr "object"); ("properties", PDict []); ("additionalProperties", PBool true)]
  end.

(** [config.get("description") or config.get("summary") or ""]. *)
Definition row_description (config : pydict) : string :=
  let d := dict_getv "description" config in
  let s := dict_getv "summary" config in
  py_strip (str_of py_str (if truthy d then d else if truthy s then s else PStr "")).

Definition dash : Ascii.ascii := Ascii.ascii_of_nat 45.

(** The name of a row, given the names already used. *)
Definition row_function_name (used : list string) (r : tool_row) : string :=
  let name := normalize_tool_function_name (tr_name r) (tr_config_id r) in
  if bool_decide (name ∈ used)
  then name +:+ "_" +:+ str_take 8 (str_remove dash (uuid_str (tr_config_id r)))
  else name.

Definition row_binding (name : string) (r : tool_row) : AgentToolBinding :=
  {| function_name := name; tb_tool_id := tr_tool_id r; tool_config_id := tr_config_id r;
     tool_name := match tr_name r with
                  | Some n => if String.eqb n "" then name else n
                  | None => name
                  end;
     tb_description := row_description (tr_config r);
     request_schema := tool_request_schema (tr_config r) |}.

(** The loop of [list_agent_version_tools]. *)
Fixpoint catalog_from (used : list string) (rows : list tool_row) : list AgentToolBinding :=
  match rows with
  | [] => []
  | r :: rows =>
      let name := row_function_name used r in
      row_binding name r :: catalog_from (name :: used) rows
  end.

Definition list_agent_version_tools (rows : list tool_row) : list AgentToolBinding :=
  catalog_from [] rows.
End catalog.

(** ** Grants *)

(** [AgentRunToolGrant]: what a caller asks for. *)
Record AgentRunToolGrant : Type := {
  allowed_tool_names : option (list string);
  rq_allow_delegation : bool;
  rq_delegates : list uuid;
}.

(** Its validator. *)
Definition grant_request (allowed : option (list string)) (allow : bool) (delegates : list uuid) :
    res exc AgentRunToolGrant :=
  raise_if (allow && match delegates with [] => true | _ => false end) PydanticValidationError ;;!
  Ok {| allowed_tool_names := allowed; rq_allow_delegation := allow; rq_delegates := delegates |}.

Definition request_valid (q : AgentRunToolGrant) : Prop :=
  rq_allow_delegation q = true -> rq_delegates q <> [].

Record ResolvedToolGrant : Type := {
  gr_tools : list AgentToolBinding;
  allow_agent_delegation : bool;
  delegate_agent_ids : list uuid;
}.

Definition binding_for (g : ResolvedToolGrant) (name : string) : option AgentToolBinding :=
  List.find (fun b => String.eqb (function_name b) name) (gr_tools g).

Definition is_delegation_allowed_for (g : ResolvedToolGrant) (agent : uuid) : bool :=
  allow_agent_delegation g && bool_decide (agent ∈ delegate_agent_ids g).

Definition DELEGATION_TOOL_NAME : string := "delegate_to_agent".

Section grants.
Variable uuid_str : uuid -> string.
Variable uuid_parse : string -> option uuid.
Variable py_str : pyval -> string.
(** The tenant of an agent, when the agent exists. *)
Variable agent_tenant : uuid -> option uuid.

(** [ResolvedToolGrant.snapshot]. *)
Definition snapshot (g : ResolvedToolGrant) : pydict :=
  [("tools", PList ((fun b => PDict [("function_name", PStr (function_name b));
                                     ("tool_id", PStr (uuid_str (tb_tool_id b)));
                                     ("tool_config_id", PStr (uuid_str (tool_config_id b)));
                                     ("tool_name", PStr (tool_name b))]) <$> gr_tools g));
   ("allow_agent_delegation", PBool (allow_agent_delegation g));
   ("delegate_agent_ids", PList ((fun a => PStr (uuid_str a)) <$> delegate_agent_ids g));
   ("delegation_tool_name", if allow_agent_delegation g then PStr DELEGATION_TOOL_NAME else PNone)].

(** [available[name]]: a dict comprehension keeps the last binding of a name. *)
Definition available (tools : list AgentToolBinding) (name : string) : option AgentToolBinding :=
  last (filter (fun b => function_name b = name) tools).

(** The delegates of a request, one after the other. *)
Definition check_delegate (tenant self : uuid) (a : uuid) : res exc uuid :=
  raise_if (bool_decide (a = self)) (DomainValidationException "agent_cannot_delegate_to_itself") ;;!
  raise_if (negb (bool_decide (agent_tenant a = Some tenant)))
    (DomainValidationException "delegate_agent_not_found") ;;!
  Ok a.

(** [ToolGrantResolver.resolve], for the definition of agent [self] with [tools]. *)
Definition resolve_grant (tenant self : uuid) (tools : list AgentToolBinding) (q : AgentRunToolGrant) :
    res exc ResolvedToolGrant :=
  let! granted :=
    match allowed_tool_names q with
    | None => Ok tools
    | Some names =>
        raise_if (existsb (fun n => negb (bool_decide (is_Some (available tools n)))) names)
          (DomainValidationException "tool_not_bound_to_agent_version") ;;!
        Ok (omap (available tools) (fromkeys names))
    end in
  let! delegates := if rq_allow_delegation q then rmap (check_delegate tenant self) (fromkeys (rq_delegates q))
                    else Ok [] in
  Ok {| gr_tools := granted; allow_agent_delegation := rq_allow_delegation q;
        delegate_agent_ids := delegates |}.

(** [UUID(str(x))]. *)
Definition parse_uuid (v : pyval) : res exc uuid :=
  match uuid_parse (str_of py_str v) with Some u => Ok u | None => Err PyValueError end.

Definition snapshot_tool_name (v : pyval) : res exc string :=
  match v with
  | PDict d => Ok (str_of py_str (dict_getv "function_name" d))
  | _ => Err PyAttributeError
  end.

(** [_grant_request_from_snapshot]. *)
Definition _grant_request_from_snapshot (tool_grant : pydict) : res exc AgentRunToolGrant :=
  let! allowed := match dict_getv "tools" tool_grant with
                  | PList l => rmap snapshot_tool_name l
                  | _ => Ok []
                  end in
  let! delegates := match dict_getv "delegate_agent_ids" tool_grant with
                    | PList l => rmap parse_uuid l
                    | _ => Ok []
                    end in
  grant_request (Some allowed) (truthy (dict_getv "allow_agent_delegation" tool_grant)) delegates.
End grants.

(** ** Lookup by name *)

Lemma available_elem tools n b : available tools n = Some b -> b ∈ tools /\ function_name b = n.
Proof.
  unfold available. intros H. apply last_Some_elem_of in H. apply list_elem_of_filter in H. tauto.
Qed.

Lemma available_none tools n : n ∉ function_name <$> tools -> available tools n = None.
Proof.
  intros Hn. unfold available. destruct (filter _ tools) as [|b l] eqn:E; [done|].
  exfalso. apply Hn. assert (Hb : b ∈ filter (fun b => function_name b = n) tools) by (rewrite E; left).
  apply list_elem_of_filter in Hb as [<- Hb]. by apply list_elem_of_fmap_2.
Qed.

Lemma available_unique tools b :
  NoDup (function_name <$> tools) -> b ∈ tools -> available tools (function_name b) = Some b.
Proof.
  unfold available. induction tools as [|t tools IH]; intros Hnd Hb; [by apply not_elem_of_nil in Hb|].
  cbn [fmap list_fmap] in Hnd. apply NoDup_cons in Hnd as [Ht Hnd]. apply elem_of_cons in Hb as [->|Hb].
  - rewrite filter_cons_True by done. pose proof (available_none tools _ Ht) as Hn. unfold available in Hn.
    destruct (filter _ tools) as [|c l]; [done|]. by apply last_None in Hn.
  - rewrite filter_cons_False; [by apply IH|]. intros E. apply Ht. rewrite E. by apply list_elem_of_fmap_2.
Qed.

(** ** Names of the catalogue *)

Section names.
Variable uuid_str : uuid -> string.
Variable py_str : pyval -> string.

(** What the names rely on in a printed identifier: its first eight characters are
    hexadecimal digits. *)
Class UuidText : Prop := {
  uuid_head u : all_safe (str_take 8 (uuid_str u)) = true;
  uuid_head_plain u : all_safe (str_take 8 (str_remove dash (uuid_str u))) = true
}.
Context {Text : UuidText}.

Definition name_ok (n : string) : Prop := n <> "" /\ all_safe n = true /\ String.length n <= 73.

Lemma normalize_ok name u :
  let n := normalize_tool_function_name uuid_str name u in
  n <> "" /\ all_safe n = true /\ String.length n <= 64.
Proof using Text.
  unfold normalize_tool_function_name. set (b := sub_unsafe _).
  assert (Hb : all_safe b = true) by apply all_safe_sub.
  destruct (String.eqb_spec b "") as [E|E]; (split_and!;
    [apply str_take_nonempty; [lia|done] | | apply length_str_take]); apply all_safe_take; [|done].
  rewrite all_safe_app. by rewrite uuid_head.
Qed.

Lemma row_function_name_ok used r : name_ok (row_function_name uuid_str used r).
Proof using Text.
  unfold row_function_name. destruct (normalize_ok (tr_name r) (tr_config_id r)) as (Hn & Hs & Hl).
  set (n := normalize_tool_function_name _ _ _) in *. case_bool_decide; split_and!; try done.
  - by destruct n.
  - rewrite !all_safe_app, Hs, uuid_head_plain. done.
  - rewrite !length_str_app.
    pose proof (length_str_take 8 (str_remove dash (uuid_str (tr_config_id r)))).
    change (String.length "_") with 1. lia.
  - lia.
Qed.

Lemma catalog_names_from used rows :
  Forall name_ok (function_name <$> catalog_from uuid_str py_str used rows) /\
  length (catalog_from uuid_str py_str used rows) = length rows.
Proof using Text.
  revert used. induction rows as [|r rows IH]; intros used; simpl; [done|].
  destruct (IH (row_function_name uuid_str used r :: used)) as [IH1 IH2].
  split; [constructor; [apply row_function_name_ok|done]|by rewrite IH2].
Qed.

Definition plain_name (r : tool_row) : string :=
  normalize_tool_function_name uuid_str (tr_name r) (tr_config_id r).

Lemma catalog_plain used rows :
  NoDup (plain_name <$> rows) -> (forall n, n ∈ used -> n ∉ plain_name <$> rows) ->
  function_name <$> catalog_from uuid_str py_str used rows = plain_name <$> rows.
Proof.
  revert used. induction rows as [|r rows IH]; intros used Hnd Hu; [done|].
  cbn [fmap list_fmap catalog_from] in *. apply NoDup_cons in Hnd as [Hr Hnd].
  assert (Hname : row_function_name uuid_str used r = plain_name r).
  { unfold row_function_name. fold (plain_name r). rewrite bool_decide_eq_false_2; [done|].
    intros Hin. apply (Hu _ Hin). left. }
  rewrite Hname. cbn [row_binding function_name]. f_equal. apply IH; [done|]. intros n Hn.
  apply elem_of_cons in Hn as [->|Hn]; [done|]. intros Hin. apply (Hu n Hn). by right.
Qed.

Lemma catalog_row used rows i b :
  catalog_from uuid_str py_str used rows !! i = Some b ->
  exists r, rows !! i = Some r /\ tool_config_id b = tr_config_id r.
Proof.
  revert used i. induction rows as [|r rows IH]; intros used [|i] H; simpl in *; try done; [|by eapply IH].
  injection H as <-. by exists r.
Qed.

(** Function names of the catalogue.  Every tool of an agent version gets a name that is
    not empty, consists of letters, digits, underscores and dashes and has at most 73
    characters; when the tools' own names differ after normalisation these are the
    names, they have at most 64 characters, and each of them leads back to its tool. *)
Theorem catalog_names rows :
  Forall name_ok (function_name <$> list_agent_version_tools uuid_str py_str rows) /\
  (NoDup (plain_name <$> rows) ->
   function_name <$> list_agent_version_tools uuid_str py_str rows = plain_name <$> rows /\
   Forall (fun n => String.length n <= 64) (plain_name <$> rows) /\
   forall i b, list_agent_version_tools uuid_str py_str rows !! i = Some b ->
     available (list_agent_version_tools uuid_str py_str rows) (function_name b) = Some b /\
     exists r, rows !! i = Some r /\ tool_config_id b = tr_config_id r).
Proof using Text.
  split; [apply catalog_names_from|]. intros Hnd.
  assert (Hn : function_name <$> list_agent_version_tools uuid_str py_str rows = plain_name <$> rows).
  { apply catalog_plain; [done|]. intros n Hn. by apply not_elem_of_nil in Hn. }
  split_and!; [done| |].
  - apply Forall_forall. intros n Hin. apply list_elem_of_fmap_1 in Hin as (r & -> & _). apply normalize_ok.
  - intros i b Hb. split; [|by eapply catalog_row]. apply available_unique; [by rewrite Hn|].
    by eapply list_elem_of_lookup_2.
Qed.
End names.

(** ** Replaying a grant *)

Section replay.
Variable uuid_str : uuid -> string.
Variable uuid_parse : string -> option uuid.
Variable py_str : pyval -> string.
Variable agent_tenant : uuid -> option uuid.
Abbreviation resolve := (resolve_grant agent_tenant).
Abbreviation request_of := (_grant_request_from_snapshot uuid_parse py_str).

Lemma names_of_available tools names :
  Forall (fun n => is_Some (available tools n)) names ->
  function_name <$> omap (available tools) names = names.
Proof.
  induction 1 as [|n names [b Hb] _ IH]; [done|]. csimpl. rewrite Hb. csimpl.
  rewrite IH. apply available_elem in Hb as [_ ->]. done.
Qed.

Lemma all_available tools names :
  existsb (fun n => negb (bool_decide (is_Some (available tools n)))) names = false <->
  Forall (fun n => is_Some (available tools n)) names.
Proof.
  induction names as [|n names IH]; simpl; [by split|]. rewrite orb_false_iff, Forall_cons, IH, negb_false_iff.
  by rewrite bool_decide_eq_true.
Qed.

(** What a resolved grant contains. *)
Lemma resolve_inv tenant self tools q g :
  resolve tenant self tools q = Ok g ->
  allow_agent_delegation g = rq_allow_delegation q /\
  delegate_agent_ids g = (if rq_allow_delegation q then fromkeys (rq_delegates q) else []) /\
  (forall a, a ∈ delegate_agent_ids g -> a <> self /\ agent_tenant a = Some tenant) /\
  match allowed_tool_names q with
  | None => gr_tools g = tools
  | Some names => Forall (fun n => is_Some (available tools n)) names /\
                  gr_tools g = omap (available tools) (fromkeys names)
  end.
Proof.
  unfold resolve_grant. intros H. apply rbind_ok in H as (granted & Hg & H).
  apply rbind_ok in H as (ds & Hd & H). injection H as <-. simpl.
  assert (Hds : forall l ds, rmap (check_delegate agent_tenant tenant self) l = Ok ds ->
    ds = l /\ Forall (fun a => a <> self /\ agent_tenant a = Some tenant) l).
  { induction l as [|a l IH]; intros ds' Hl; simpl in Hl; [by injection Hl as <-|].
    unfold check_delegate at 1, raise_if in Hl. case_bool_decide as Ha; simpl in Hl; [done|].
    case_bool_decide as Ht; simpl in Hl; [|done]. apply rbind_ok in Hl as (ds'' & Hl & E).
    injection E as <-. destruct (IH _ Hl) as [-> Hf]. split; [done|]. by constructor. }
  split; [done|]. split; [|split].
  - destruct (rq_allow_delegation q); [by destruct (Hds _ _ Hd) as [-> _]|by injection Hd as <-].
  - destruct (rq_allow_delegation q); [|by injection Hd as <-; intros a Ha; apply not_elem_of_nil in Ha].
    destruct (Hds _ _ Hd) as [-> Hf]. by apply Forall_forall.
  - destruct (allowed_tool_names q) as [names|]; [|by injection Hg as <-].
    apply rbind_ok in Hg as ([] & Hr & Hg). injection Hg as <-. apply raise_if_ok in Hr.
    by apply all_available in Hr.
Qed.

Lemma rmap_fmap {A B C} (f : B -> res exc C) (h : A -> B) (g : A -> C) l :
  (forall x, x ∈ l -> f (h x) = Ok (g x)) -> rmap f (h <$> l) = Ok (g <$> l).
Proof.
  induction l as [|x l IH]; intros H; [done|]. cbn [fmap list_fmap rmap]. rewrite (H x) by left. simpl.
  rewrite IH; [done|]. intros y Hy. apply H. by right.
Qed.

(** The request a stored grant stands for. *)
Lemma request_of_snapshot g :
  (forall a, a ∈ delegate_agent_ids g -> uuid_parse (uuid_str a) = Some a) ->
  (allow_agent_delegation g = true -> delegate_agent_ids g <> []) ->
  request_of (snapshot uuid_str g) =
    Ok {| allowed_tool_names := Some (function_name <$> gr_tools g);
          rq_allow_delegation := allow_agent_delegation g; rq_delegates := delegate_agent_ids g |}.
Proof.
  intros Hp Hv. unfold _grant_request_from_snapshot. simpl.
  rewrite (rmap_fmap _ _ function_name) by done. simpl. rewrite (rmap_fmap _ _ id).
  - rewrite list_fmap_id. simpl. unfold grant_request.
    destruct (allow_agent_delegation g); [|done]. by destruct (delegate_agent_ids g); [destruct Hv|].
  - intros a Ha. unfold parse_uuid. simpl. by rewrite Hp.
Qed.

Lemma delegates_again tenant self (allow : bool) ds :
  NoDup ds -> (forall a, a ∈ ds -> a <> self /\ agent_tenant a = Some tenant) -> (allow = false -> ds = []) ->
  (if allow then rmap (check_delegate agent_tenant tenant self) (fromkeys ds) else Ok []) = Ok ds.
Proof.
  intros Hnd Hds Ha. destruct allow; [|by rewrite Ha]. rewrite fromkeys_NoDup by done. clear Hnd Ha.
  rewrite <- (list_fmap_id ds) at 1. rewrite (rmap_fmap _ _ id); [by rewrite list_fmap_id|].
  intros a Hin. destruct (Hds a Hin) as [Hs Ht]. unfold check_delegate, raise_if.
  by rewrite bool_decide_eq_false_2, bool_decide_eq_true_2.
Qed.

(** Replaying a stored authorisation.  The grant stored with a run stands for a request
    that can be rebuilt from it.  Resolved against the same catalogue, with distinct
    names, it gives back the same grant; resolved against any other catalogue, as when
    a new version of the agent was published, it gives the same function names and the same
    delegates or an error, never more. *)
Theorem grant_replay tenant self tools q g :
  resolve tenant self tools q = Ok g -> request_valid q ->
  (forall a, a ∈ delegate_agent_ids g -> uuid_parse (uuid_str a) = Some a) ->
  exists q', request_of (snapshot uuid_str g) = Ok q' /\
    (NoDup (function_name <$> tools) -> resolve tenant self tools q' = Ok g) /\
    forall tools' g', resolve tenant self tools' q' = Ok g' ->
      function_name <$> gr_tools g' = fromkeys (function_name <$> gr_tools g) /\
      allow_agent_delegation g' = allow_agent_delegation g /\
      delegate_agent_ids g' = delegate_agent_ids g.
Proof.
  intros Hr Hv Hp. apply resolve_inv in Hr as (Ha & Hd & Hds & Ht).
  assert (Hnd : NoDup (delegate_agent_ids g)).
  { rewrite Hd. destruct (rq_allow_delegation q); [apply NoDup_fromkeys|constructor]. }
  assert (Hoff : allow_agent_delegation g = false -> delegate_agent_ids g = []).
  { intros E. rewrite Hd, <- Ha, E. done. }
  eexists. split; [apply request_of_snapshot; [done|]|].
  { intros E. rewrite Hd, <- Ha, E, fromkeys_nil. apply Hv. congruence. }
  split.
  - intros Hn. unfold resolve_grant. simpl.
    assert (Hg : Forall (fun b => b ∈ tools) (gr_tools g) /\ NoDup (function_name <$> gr_tools g)).
    { destruct (allowed_tool_names q) as [names|].
      - destruct Ht as [Hf ->]. split.
        + apply Forall_forall. intros b Hb. apply list_elem_of_omap in Hb as (n & _ & Hb).
          by apply available_elem in Hb as [Hb _].
        + rewrite names_of_available; [apply NoDup_fromkeys|]. apply Forall_forall. intros n Hin.
          rewrite elem_of_fromkeys in Hin. rewrite Forall_forall in Hf. by apply Hf.
      - rewrite Ht. split; [by apply Forall_forall|done]. }
    destruct Hg as [Hin Hng].
    assert (Hav : Forall (fun n => is_Some (available tools n)) (function_name <$> gr_tools g)).
    { rewrite Forall_fmap. eapply Forall_impl; [exact Hin|]. intros b Hb. simpl.
      rewrite available_unique by done. done. }
    rewrite (proj2 (all_available _ _) Hav). simpl. rewrite (fromkeys_NoDup (function_name <$> gr_tools g)) by done.
    rewrite (delegates_again tenant self) by done. simpl. f_equal. destruct g as [ts al ds]. simpl in *. f_equal.
    clear -Hin Hn. induction Hin as [|b l Hb Hl IH]; [done|]. csimpl.
    by rewrite available_unique, IH.
  - intros tools' g' Hr'. apply resolve_inv in Hr' as (Ha' & Hd' & _ & Hf & Ht'). simpl in *.
    split_and!; [|done|].
    + rewrite Ht'. apply names_of_available. apply Forall_forall. intros n Hn. rewrite elem_of_fromkeys in Hn.
      rewrite Forall_forall in Hf. by apply Hf.
    + rewrite Hd'. destruct (allow_agent_delegation g); [by apply fromkeys_NoDup|by rewrite Hoff].
Qed.
End replay.

(** ** Concrete catalogues *)

Module SampleTools.
Definition text (u : uuid) : string :=
  if (u =? 1)%N then "11111111-1111-4111-8111-111111111111"
  else if (u =? 2)%N then "22222222-2222-4222-8222-222222222222"
  else "33333333-3333-4333-8333-333333333333".
Definition parse (s : string) : option uuid :=
  if String.eqb s (text 1) then Some 1%N else if String.eqb s (text 2) then Some 2%N
  else if String.eqb s (text 3) then Some 3%N else None.
Definition show (_ : pyval) : string := "".

#[global] Instance text_ok : UuidText text.
Proof.
  split; intros u; unfold text; repeat match goal with |- context [if ?b then _ else _] => destruct b end;
    reflexivity.
Qed.

Definition row (u : uuid) (name : string) : tool_row :=
  {| tr_config_id := u; tr_tool_id := u; tr_config := []; tr_name := Some name |}.
Definition tools (rows : list tool_row) : list AgentToolBinding := list_agent_version_tools text show rows.

(** Two tools with one name: the order of the rows decides which of them the name means,
    and the query does not fix that order. *)
Example row_order_rebinds :
  function_name <$> tools [row 1 "search"; row 2 "search"] = ["search"; "search_22222222"] /\
  function_name <$> tools [row 2 "search"; row 1 "search"] = ["search"; "search_11111111"] /\
  tool_config_id <$> available (tools [row 1 "search"; row 2 "search"]) "search" = Some 1%N /\
  tool_config_id <$> available (tools [row 2 "search"; row 1 "search"]) "search" = Some 2%N.
Proof. by vm_compute. Qed.

(** A suffix can collide with the name of another tool. *)
Example suffix_collides :
  function_name <$> tools [row 3 "search_22222222"; row 1 "search"; row 2 "search"] =
    ["search_22222222"; "search"; "search_22222222"].
Proof. by vm_compute. Qed.

(** A suffixed name can exceed the 64 characters that an unsuffixed one is cut to. *)
Example suffix_too_long :
  let long := str_concat (replicate 64 "a") in
  String.length <$> (function_name <$> tools [row 1 long; row 2 long]) = [64; 73].
Proof. by vm_compute. Qed.

Definition own_tenant (_ : uuid) : option uuid := Some 7%N.
Definition wanted : AgentRunToolGrant :=
  {| allowed_tool_names := Some ["lookup"; "lookup"]; rq_allow_delegation := true; rq_delegates := [2%N; 2%N] |}.
Definition granted : ResolvedToolGrant :=
  {| gr_tools := tools [row 2 "lookup"]; allow_agent_delegation := true; delegate_agent_ids := [2%N] |}.
End SampleTools.

Lemma catalog_names_witness :
  function_name <$> SampleTools.tools [SampleTools.row 1 "get user"; SampleTools.row 2 "  "] =
    ["get_user"; "tool_22222222"].
Proof.
  destruct (catalog_names SampleTools.text SampleTools.show
              [SampleTools.row 1 "get user"; SampleTools.row 2 "  "]) as [_ H].
  destruct H as [H _]; [|exact H].
  vm_compute. apply NoDup_cons. split; [|apply NoDup_singleton]. rewrite list_elem_of_singleton. discriminate.
Defined.

Lemma grant_replay_witness :
  exists q', _grant_request_from_snapshot SampleTools.parse SampleTools.show
               (snapshot SampleTools.text SampleTools.granted) = Ok q' /\
    resolve_grant SampleTools.own_tenant 7 1 (SampleTools.tools [SampleTools.row 1 "search"; SampleTools.row 2 "lookup"]) q' =
      Ok SampleTools.granted.
Proof.
  destruct (grant_replay SampleTools.text SampleTools.parse SampleTools.show SampleTools.own_tenant 7 1
              (SampleTools.tools [SampleTools.row 1 "search"; SampleTools.row 2 "lookup"])
              SampleTools.wanted SampleTools.granted) as (q' & H & Hr & _).
  - reflexivity.
  - intros _. discriminate.
  - intros a Ha. apply list_elem_of_singleton in Ha as ->. reflexivity.
  - exists q'. split; [exact H|]. apply Hr. vm_compute. apply NoDup_cons.
    split; [|apply NoDup_singleton]. rewrite list_elem_of_singleton. discriminate.
Defined.
