(* ===== verification/AgentStore.v ===== *)
(** * AgentStore: the tables of agent runs

    [src/src/domain/execution/repositories/agent_run_repository.py],
    [src/src/domain/agents/repositories/agent_delegation_repository.py] and the tool-run
    operations of [execution_repository.py].  Messages, events and artifacts of a run are
    rows in insertion order; the next number of a run is one more than its largest. *)

From S2P Require Import Prelude.
From S2P Require Import Errors.
From S2P Require Import PyValue.
From S2P Require Import StateMachine.
From S2P Require Import Effects.
From S2P Require Import Store.
From S2P Require Import Sorting.

(** ** Rows *)

Inductive AgentRunOrigin := FLOW_NODE | DIRECT | A2A_DELEGATION.

Record agent_run_row : Type := {
  rn_tenant : uuid;
  rn_agent : uuid;
  rn_version : uuid;
  rn_correlation : uuid;
  rn_origin : AgentRunOrigin;
  rn_parent : option uuid;
  rn_root : uuid;
  rn_depth : Z;
  rn_input : pydict;
  rn_output : pydict;
  rn_error : pydict;
  rn_context : pydict;
  rn_grant : pydict;
  rn_max_iterations : Z;
  rn_iterations_used : Z;
  rn_model : string;
  rn_snapshot : pydict;
  rn_idempotency : option string;
  rn_status : string;
  rn_canonical : string;
  rn_finish_reason : option string;
  rn_tokens : option (Z * Z);
  rn_cost : option pyfloat;
  rn_started : bool;
  rn_finished : bool;
}.

Record AgentToolCall : Type := {
  call_id : string;
  call_name : string;
  call_arguments : pydict;
}.

(** A message without its run and number. *)
Record message_data : Type := {
  md_role : string;
  md_content : option string;
  md_call_id : option string;
  md_tool_name : option string;
  md_tool_calls : list AgentToolCall;
  md_trust : option string;
  md_source : option string;
  md_provenance : pydict;
}.

Record run_event : Type := {
  re_tenant : uuid;
  re_type : string;
  re_correlation : uuid;
  re_payload : pydict;
}.

Record artifact_data : Type := {
  af_name : string;
  af_description : option string;
  af_text : string;
}.

(** A numbered row of a run. *)
Record numbered {A : Type} : Type := {
  nb_run : uuid;
  nb_sequence : nat;
  nb_data : A;
}.
Arguments numbered : clear implicits.

Record tool_run : Type := {
  tl_config : uuid;
  tl_agent_run : option uuid;
  tl_node_run : option uuid;
  tl_correlation : uuid;
  tl_key : option string;
  tl_input : pydict;
  tl_call_id : option string;
  tl_status : string;
  tl_canonical : string;
  tl_output : pydict;
  tl_error : pydict;
  tl_finished : bool;
}.

Record delegation : Type := {
  dg_tenant : uuid;
  dg_parent : uuid;
  dg_target : uuid;
  dg_task : string;
  dg_context : string;
  dg_state : string;
  dg_child : option uuid;
  dg_result : pyval;
  dg_error : pydict;
  dg_finished : bool;
}.

(** A row of the spend ledger. *)
Record usage_row : Type := {
  us_tenant : uuid;
  us_run : uuid;
  us_model : string;
  us_tokens : Z * Z;
  us_cost : option pyfloat;
}.

(** The tables, and what the process talks to ([W]: language models, tools). *)
Record agents {W : Type} : Type := {
  next_run_id : uuid;
  runs : gmap uuid agent_run_row;
  messages : list (numbered message_data);
  run_events : list (numbered run_event);
  artifacts : list (numbered artifact_data);
  tool_runs : gmap uuid tool_run;
  run_failures : list (uuid * string);
  delegations : gmap uuid delegation;
  usage : list usage_row;
  outside : W;
}.
Arguments agents : clear implicits.

Section repository.
Context {W : Type}.
Implicit Types s : agents W.

Definition set_next_run_id v s : agents W :=
  Build_agents W v (runs s) (messages s) (run_events s) (artifacts s) (tool_runs s) (run_failures s)
    (delegations s) (usage s) (outside s).
Definition set_runs v s : agents W :=
  Build_agents W (next_run_id s) v (messages s) (run_events s) (artifacts s) (tool_runs s) (run_failures s)
    (delegations s) (usage s) (outside s).
Definition set_messages v s : agents W :=
  Build_agents W (next_run_id s) (runs s) v (run_events s) (artifacts s) (tool_runs s) (run_failures s)
    (delegations s) (usage s) (outside s).
Definition set_run_events v s : agents W :=
  Build_agents W (next_run_id s) (runs s) (messages s) v (artifacts s) (tool_runs s) (run_failures s)
    (delegations s) (usage s) (outside s).
Definition set_artifacts v s : agents W :=
  Build_agents W (next_run_id s) (runs s) (messages s) (run_events s) v (tool_runs s) (run_failures s)
    (delegations s) (usage s) (outside s).
Definition set_tool_runs v s : agents W :=
  Build_agents W (next_run_id s) (runs s) (messages s) (run_events s) (artifacts s) v (run_failures s)
    (delegations s) (usage s) (outside s).
Definition set_run_failures v s : agents W :=
  Build_agents W (next_run_id s) (runs s) (messages s) (run_events s) (artifacts s) (tool_runs s) v
    (delegations s) (usage s) (outside s).
Definition set_delegations v s : agents W :=
  Build_agents W (next_run_id s) (runs s) (messages s) (run_events s) (artifacts s) (tool_runs s)
    (run_failures s) v (usage s) (outside s).
Definition set_usage v s : agents W :=
  Build_agents W (next_run_id s) (runs s) (messages s) (run_events s) (artifacts s) (tool_runs s)
    (run_failures s) (delegations s) v (outside s).
Definition set_outside v s : agents W :=
  Build_agents W (next_run_id s) (runs s) (messages s) (run_events s) (artifacts s) (tool_runs s)
    (run_failures s) (delegations s) (usage s) v.

(** [uuid4()]. *)
Definition new_id : M (agents W) uuid :=
  fun s => (Ok (next_run_id s), set_next_run_id (next_run_id s + 1)%N s).

(** A call to the outside. *)
Definition external {A} (f : W -> res exc A * W) : M (agents W) A := fun s =>
  match f (outside s) with (r, w) => (r, set_outside w s) end.

(** ** Numbered rows *)

Definition of_run {A} (r : uuid) (l : list (numbered A)) : list (numbered A) :=
  filter (fun x => nb_run x = r) l.

(** [_next_sequence]: [coalesce(max(sequence), 0) + 1]. *)
Definition _next_sequence {A} (r : uuid) (l : list (numbered A)) : nat :=
  foldr max 0 (nb_sequence <$> of_run r l) + 1.

Definition append_row {A} (r : uuid) (d : A) (l : list (numbered A)) : list (numbered A) :=
  l ++ [{| nb_run := r; nb_sequence := _next_sequence r l; nb_data := d |}].

(** [append_message], [append_event], [append_artifact]. *)
Definition append_message (r : uuid) (d : message_data) : M (agents W) unit :=
  mmodify (fun s => set_messages (append_row r d (messages s)) s).
Definition append_event (r : uuid) (d : run_event) : M (agents W) unit :=
  mmodify (fun s => set_run_events (append_row r d (run_events s)) s).
Definition append_artifact (r : uuid) (d : artifact_data) : M (agents W) unit :=
  mmodify (fun s => set_artifacts (append_row r d (artifacts s)) s).

(** [list_messages] and its siblings: the data of a run, by number. *)
Definition list_rows {A} (r : uuid) (l : list (numbered A)) : list A := nb_data <$> of_run r l.

(** ** Runs *)

(** [create_agent_run]. *)
Definition create_agent_run_row (tenant agent version correlation : uuid) (origin : AgentRunOrigin)
    (input context grant : pydict) (max_iterations : Z) (model : string) (snapshot : pydict)
    (parent root : option uuid) (depth : Z) (idempotency : option string) : M (agents W) uuid :=
  let* r := new_id in
  mmodify (fun s => set_runs (<[r := {|
    rn_tenant := tenant; rn_agent := agent; rn_version := version; rn_correlation := correlation;
    rn_origin := origin; rn_parent := parent; rn_root := default r root; rn_depth := depth;
    rn_input := input; rn_output := []; rn_error := []; rn_context := context; rn_grant := grant;
    rn_max_iterations := max_iterations; rn_iterations_used := 0; rn_model := model;
    rn_snapshot := snapshot; rn_idempotency := idempotency;
    rn_status := run_status_str RS_CREATED; rn_canonical := agent_status_str AR_CREATED;
    rn_finish_reason := None; rn_tokens := None; rn_cost := None; rn_started := false;
    rn_finished := false |}]> (runs s)) s) ;;*
  mret r.

(** [get_agent_run]: only within the tenant. *)
Definition get_agent_run (tenant r : uuid) : M (agents W) (option agent_run_row) :=
  let* s := mget in
  mret (match runs s !! r with
        | Some x => if decide (rn_tenant x = tenant) then Some x else None
        | None => None
        end).

Definition running (x : agent_run_row) : agent_run_row := {|
  rn_tenant := rn_tenant x; rn_agent := rn_agent x; rn_version := rn_version x;
  rn_correlation := rn_correlation x; rn_origin := rn_origin x; rn_parent := rn_parent x;
  rn_root := rn_root x; rn_depth := rn_depth x; rn_input := rn_input x; rn_output := rn_output x;
  rn_error := rn_error x; rn_context := rn_context x; rn_grant := rn_grant x;
  rn_max_iterations := rn_max_iterations x; rn_iterations_used := rn_iterations_used x;
  rn_model := rn_model x; rn_snapshot := rn_snapshot x; rn_idempotency := rn_idempotency x;
  rn_status := run_status_str RS_RUNNING; rn_canonical := agent_status_str AR_RUNNING;
  rn_finish_reason := rn_finish_reason x; rn_tokens := rn_tokens x; rn_cost := rn_cost x;
  rn_started := true; rn_finished := rn_finished x |}.

(** [mark_running]. *)
Definition mark_running (r : uuid) : M (agents W) unit :=
  let* s := mget in
  match runs s !! r with
  | None => mraise (NotFoundServiceException "agent_run_not_found")
  | Some x => mmodify (fun s => set_runs (<[r := running x]> (runs s)) s)
  end.

(** What [finish_agent_run] writes. *)
Record finish : Type := {
  fi_status : string;
  fi_canonical : string;
  fi_output : pydict;
  fi_error : pydict;
  fi_reason : option string;
  fi_iterations : Z;
  fi_tokens : option (Z * Z);
  fi_cost : option pyfloat;
}.

Definition finished (f : finish) (x : agent_run_row) : agent_run_row := {|
  rn_tenant := rn_tenant x; rn_agent := rn_agent x; rn_version := rn_version x;
  rn_correlation := rn_correlation x; rn_origin := rn_origin x; rn_parent := rn_parent x;
  rn_root := rn_root x; rn_depth := rn_depth x; rn_input := rn_input x; rn_output := fi_output f;
  rn_error := fi_error f; rn_context := rn_context x; rn_grant := rn_grant x;
  rn_max_iterations := rn_max_iterations x; rn_iterations_used := fi_iterations f;
  rn_model := rn_model x; rn_snapshot := rn_snapshot x; rn_idempotency := rn_idempotency x;
  rn_status := fi_status f; rn_canonical := fi_canonical f; rn_finish_reason := fi_reason f;
  rn_tokens := fi_tokens f; rn_cost := fi_cost f; rn_started := rn_started x; rn_finished := true |}.

(** [finish_agent_run]: whatever status the row has. *)
Definition finish_agent_run (r : uuid) (f : finish) : M (agents W) unit :=
  let* s := mget in
  match runs s !! r with
  | None => mraise (NotFoundServiceException "agent_run_not_found")
  | Some x => mmodify (fun s => set_runs (<[r := finished f x]> (runs s)) s)
  end.

(** ** Tool runs *)

(** [create_tool_run]; the statuses are the columns' defaults. *)
Definition create_tool_run (config correlation : uuid) (agent_run node_run : option uuid)
    (key : option string) (input : pydict) (call : option string) : M (agents W) uuid :=
  let* t := new_id in
  mmodify (fun s => set_tool_runs (<[t := {|
    tl_config := config; tl_agent_run := agent_run; tl_node_run := node_run;
    tl_correlation := correlation; tl_key := key; tl_input := input; tl_call_id := call;
    tl_status := "CREATED"; tl_canonical := "CREATED"; tl_output := []; tl_error := [];
    tl_finished := false |}]>
    (tool_runs s)) s) ;;*
  mret t.

Definition with_tool_result (status canonical : string) (output error : pydict) (x : tool_run) : tool_run := {|
  tl_config := tl_config x; tl_agent_run := tl_agent_run x; tl_node_run := tl_node_run x;
  tl_correlation := tl_correlation x; tl_key := tl_key x; tl_input := tl_input x;
  tl_call_id := tl_call_id x; tl_status := status; tl_canonical := canonical;
  tl_output := output; tl_error := error;
  tl_finished := tl_finished x
    || bool_decide (status ∈ [tool_status_str TR_SUCCESS; tool_status_str TR_ERROR]) |}.

(** [update_tool_run_result].  The finish time is set on a status of the canonical
    lifecycle. *)
Definition update_tool_run_result (t : uuid) (status canonical : string) (output error : pydict) :
    M (agents W) unit :=
  let* s := mget in
  match tool_runs s !! t with
  | None => mraise (NotFoundServiceException "tool_run_not_found")
  | Some x => mmodify (fun s => set_tool_runs (<[t := with_tool_result status canonical output error x]>
                                                 (tool_runs s)) s)
  end.

(** [create_run_failure_for_tool_run]. *)
Definition create_run_failure_for_tool_run (t : uuid) (error_type : string) : M (agents W) unit :=
  mmodify (fun s => set_run_failures (run_failures s ++ [(t, error_type)]) s).

(** ** Delegations *)

(** [create_delegation]. *)
Definition create_delegation (tenant parent target : uuid) (task context state : string) :
    M (agents W) uuid :=
  let* d := new_id in
  mmodify (fun s => set_delegations (<[d := {|
    dg_tenant := tenant; dg_parent := parent; dg_target := target; dg_task := task;
    dg_context := context; dg_state := state; dg_child := None; dg_result := PDict [];
    dg_error := []; dg_finished := false |}]> (delegations s)) s) ;;*
  mret d.

Definition with_delegation_result (state : string) (child : option uuid) (result : pyval) (error : pydict)
    (x : delegation) : delegation := {|
  dg_tenant := dg_tenant x; dg_parent := dg_parent x; dg_target := dg_target x; dg_task := dg_task x;
  dg_context := dg_context x; dg_state := state; dg_child := child; dg_result := result;
  dg_error := error; dg_finished := true |}.

(** [update_delegation_result] with [finished]: nothing when the row is missing. *)
Definition update_delegation_result (d : uuid) (state : string) (child : option uuid) (result : pyval)
    (error : pydict) : M (agents W) unit :=
  mmodify (fun s => set_delegations (alter (with_delegation_result state child result error) d (delegations s)) s).

(** [get_delegation_by_task_id]: within the tenant; a second match is an error. *)
Definition get_delegation_by_task_id (tenant : uuid) (task : string) : M (agents W) (option delegation) :=
  let* s := mget in
  match filter (fun kv => dg_tenant kv.2 = tenant /\ dg_task kv.2 = task) (map_to_list (delegations s)) with
  | [] => mret None
  | [kv] => mret (Some kv.2)
  | _ => mraise (ExternalError "MultipleResultsFound" "")
  end.

(** ** Lists

    Identifiers are handed out in order, so the order of identifiers is the order of
    [created_at]. *)

Definition by_creation {A} (m : gmap uuid A) : list (uuid * A) := sorted_by N.le fst (map_to_list m).

(** [list_tool_runs]. *)
Definition list_tool_runs (r : uuid) s : list (uuid * tool_run) :=
  filter (fun kv => tl_agent_run kv.2 = Some r) (by_creation (tool_runs s)).
(** [list_delegations_for_agent_run]. *)
Definition list_delegations_for_agent_run (r : uuid) s : list (uuid * delegation) :=
  filter (fun kv => dg_parent kv.2 = r) (by_creation (delegations s)).

(** [list_agent_runs], newest first; these rows belong to no flow run. *)
Definition list_agent_runs (tenant : uuid) (agent root parent : option uuid) (limit : nat) s :
    list (uuid * agent_run_row) :=
  take limit (rev (filter (fun kv =>
    rn_tenant kv.2 = tenant /\ (agent = None \/ agent = Some (rn_agent kv.2)) /\
    (root = None \/ root = Some (rn_root kv.2)) /\ (parent = None \/ parent = rn_parent kv.2))
    (by_creation (runs s)))).

(** [record_llm_usage], for an agent run. *)
Definition record_run_usage (row : usage_row) : M (agents W) unit :=
  mmodify (fun s => set_usage (usage s ++ [row]) s).
End repository.
