(* ===== verification/ToolRuns.v ===== *)
(** * ToolRuns: executing a tool call of an agent run

    [src/src/domain/tools/services/tool_orchestrator.py] ([execute_agent_tool_run], the
    URL and the headers of a call) and the request assembly of
    [src/src/infra/http_tool_executor.py].  The HTTP client, the secret store and
    pydantic's validation of the response are outside. *)

From S2P Require Import Prelude.
From S2P Require Import Errors.
From S2P Require Import PyValue.
From S2P Require Import PyString.
From S2P Require Import PyFloat.
From S2P Require Import StateMachine.
From S2P Require Import Effects.
From S2P Require Import Store.
From S2P Require Import AgentStore.

Record tool_config : Type := {
  tcf_tenant : uuid;
  tcf_config : pydict;
}.

Record http_request : Type := {
  hq_method : string;
  hq_url : string;
  hq_headers : pydict;
  hq_json : option pydict;
  hq_params : option pydict;
  hq_timeout : pyfloat;
}.

Section orchestrator.
Context {W : Type}.
Variable py_str : pyval -> string.
Variable float_of_string : string -> option pyfloat.
Variable exc_str : exc -> string.
(** [client.request], [secret_resolver.resolve], [HttpToolResult.model_validate]. *)
Variable http_send : http_request -> W -> res exc pydict * W.
Variable resolve_secret : string -> W -> res exc string * W.
Variable result_valid : pydict -> bool.
Variable get_tool_config : uuid -> option tool_config.

(** [str(v or "").strip()]. *)
Definition text_of (v : pyval) : string := py_strip (if truthy v then str_of py_str v else "").

(** [effective_tool_http_url]. *)
Definition effective_tool_http_url (config : pydict) : string :=
  let base := py_rstrip "/" (text_of (dict_getv "base_url" config)) in
  let path := text_of (dict_getv "path" config) in
  let path := if negb (String.eqb path "") && negb (String.prefix "/" path) then "/" +:+ path else path in
  let explicit := text_of (dict_getv "url" config) in
  if negb (String.eqb base "") && negb (String.eqb path "") then base +:+ path
  else if negb (String.eqb explicit "") then explicit
  else if negb (String.eqb base "") then base else path.

(** [resolve_metadata_value]. *)
Definition resolve_metadata_value (metadata : pydict) (key : string) : option pyval :=
  match dict_getv key metadata with
  | PNone => None
  | PStr s => if String.eqb (py_strip s) "" then None else Some (PStr s)
  | v => Some v
  end.

(** One header of [_resolve_headers]. *)
Definition resolve_header (metadata : pydict) (value : pyval) : M (agents W) string :=
  match value with
  | PDict d =>
      if dict_has "secret_ref" d then external (resolve_secret (str_of py_str (dict_getv "secret_ref" d)))
      else if dict_has "interaction_metadata_key" d then
        match resolve_metadata_value metadata (str_of py_str (dict_getv "interaction_metadata_key" d)) with
        | None => mraise (DomainValidationException "interaction_metadata_header_missing")
        | Some raw => mret (py_strip (str_of py_str raw))
        end
      else mraise (DomainValidationException "invalid_tool_headers_config")
  | PStr s => mret s
  | _ => mraise (DomainValidationException "invalid_tool_headers_config")
  end.

Fixpoint resolve_items (metadata : pydict) (items : pydict) (resolved : pydict) : M (agents W) pydict :=
  match items with
  | [] => mret resolved
  | (k, v) :: items =>
      let* h := resolve_header metadata v in
      resolve_items metadata items (dict_set k (PStr h) resolved)
  end.

(** [_resolve_headers]. *)
Definition _resolve_headers (headers_config : pyval) (metadata : pydict) : M (agents W) pydict :=
  match headers_config with
  | PDict items => resolve_items metadata items []
  | _ => mraise PyAttributeError
  end.

Definition upper_ascii (a : Ascii.ascii) : Ascii.ascii :=
  let n := Ascii.nat_of_ascii a in
  if (97 <=? n) && (n <=? 122) then Ascii.ascii_of_nat (n - 32) else a.
Fixpoint str_upper (s : string) : string :=
  match s with EmptyString => "" | String a s' => String (upper_ascii a) (str_upper s') end.

(** The non-null items of a body, [None] when there are none. *)
Definition present (body : pydict) : option pydict :=
  match filter (fun kv => kv.2 <> PNone) body with [] => None | d => Some d end.

(** [HttpToolExecutor.execute_http]: a [GET] sends the body as parameters. *)
Definition http_call (method url : string) (headers body : pydict) (timeout : pyfloat) : http_request :=
  let m := str_upper method in {|
    hq_method := m; hq_url := url;
    hq_headers := foldl (fun d kv => dict_set kv.1 kv.2 d) [("Accept-Encoding", PStr "identity")] headers;
    hq_json := if String.eqb m "GET" then None else present body;
    hq_params := if String.eqb m "GET" then present body else None;
    hq_timeout := timeout |}.
Definition execute_http (method : pyval) (url : string) (headers body : pydict) (timeout : pyfloat) :
    M (agents W) pydict :=
  match method with
  | PStr m => external (http_send (http_call m url headers body timeout))
  | _ => mraise PyAttributeError
  end.

(** [get_tool_run]. *)
Definition get_tool_run (t : uuid) : M (agents W) (option tool_run) :=
  let* s := mget in mret (tool_runs s !! t).

(** The guarded part of [execute_agent_tool_run]. *)
Definition call_tool (config : pydict) (input metadata : pydict) : M (agents W) pydict :=
  let url := effective_tool_http_url config in
  mlift (raise_if (String.eqb url "") (DomainValidationException "tool_config_missing_url")) ;;*
  let method := default (PStr "POST") (dict_get "method" config) in
  let* timeout := mlift (py_float float_of_string (default (PInt 10) (dict_get "timeout_seconds" config))) in
  let* headers := _resolve_headers (or_empty (default (PDict []) (dict_get "headers" config))) metadata in
  let* result := execute_http method url headers input timeout in
  mlift (raise_if (negb (result_valid result))
           (DomainValidationException "tool_response_validation_failed")) ;;*
  mret result.

(** [execute_agent_tool_run]. *)
Definition execute_agent_tool_run (t tenant : uuid) (metadata : pydict) : M (agents W) pydict :=
  let* found := get_tool_run t in
  match found with
  | None => mraise (DomainValidationException "tool_run_not_found")
  | Some tr =>
      match get_tool_config (tl_config tr) with
      | None => mraise (DomainValidationException "tool_config_not_found")
      | Some c =>
          mlift (raise_if (negb (bool_decide (tcf_tenant c = tenant)))
                   (DomainValidationException "tool_config_not_found")) ;;*
          update_tool_run_result t (run_status_str RS_RUNNING) (tool_status_str TR_EXECUTING) [] [] ;;*
          let* result :=
            mtry (call_tool (tcf_config c) (tl_input tr) metadata) (fun e =>
              update_tool_run_result t (run_status_str RS_FAILED) (tool_status_str TR_ERROR) []
                [("error", PStr (exc_str e))] ;;*
              create_run_failure_for_tool_run t
                (if is_domain_validation e then "tool_response_validation_failed"
                 else "tool_execution_error") ;;*
              mraise e) in
          update_tool_run_result t (run_status_str RS_COMPLETED) (tool_status_str TR_SUCCESS) result [] ;;*
          mret result
      end
  end.

(** ** What a tool run leaves behind *)

(** Calls to the outside leave the tables alone. *)
Definition same_tables (s s' : agents W) : Prop := exists w, s' = set_outside w s.

#[global] Instance same_tables_preorder : PreOrder same_tables.
Proof.
  split; [intros s; exists (outside s); by destruct s|].
  intros a b c [w ->] [w' ->]. by exists w'.
Qed.

Lemma external_tables {A} (f : W -> res exc A * W) : respects same_tables (external f).
Proof. intros s. unfold external. destruct (f (outside s)) as [r w]. by exists w. Qed.
#[local] Hint Resolve external_tables : frame.

Lemma resolve_header_tables metadata v : respects same_tables (resolve_header metadata v).
Proof. unfold resolve_header. repeat case_match; frame. Qed.
#[local] Hint Resolve resolve_header_tables : frame.

Lemma resolve_items_tables metadata items acc : respects same_tables (resolve_items metadata items acc).
Proof.
  revert acc. induction items as [|[k v] items IH]; intros acc; simpl; [frame|].
  apply respects_bind; [apply _|eauto with frame|]. intros h. apply IH.
Qed.
#[local] Hint Resolve resolve_items_tables : frame.

Lemma call_tool_tables config input metadata : respects same_tables (call_tool config input metadata).
Proof. unfold call_tool, _resolve_headers, execute_http. repeat (frame; try case_match). Qed.

(** The row a tool run ends with. *)
Definition settled (exc_str : exc -> string) (r : res exc pydict) (x : tool_run) : tool_run :=
  match r with
  | Ok out => with_tool_result (run_status_str RS_COMPLETED) (tool_status_str TR_SUCCESS) out []
                (with_tool_result (run_status_str RS_RUNNING) (tool_status_str TR_EXECUTING) [] [] x)
  | Err e => with_tool_result (run_status_str RS_FAILED) (tool_status_str TR_ERROR) []
               [("error", PStr (exc_str e))]
               (with_tool_result (run_status_str RS_RUNNING) (tool_status_str TR_EXECUTING) [] [] x)
  end.

Lemma update_present t status canonical out err (s : agents W) x :
  tool_runs s !! t = Some x ->
  update_tool_run_result t status canonical out err s =
    (Ok tt, set_tool_runs (<[t := with_tool_result status canonical out err x]> (tool_runs s)) s).
Proof. intros H. unfold update_tool_run_result, mbind_, mget. by rewrite H. Qed.

(** The statuses written are operational ones; only canonical ones set the time. *)
Lemma settled_unfinished r x : tl_finished (settled exc_str r x) = tl_finished x.
Proof. destruct r, x as [? ? ? ? ? ? ? ? ? ? ? []]; reflexivity. Qed.

(** A tool run is settled.  Once the configuration of the run is found in the caller's
    tenant, whatever the call does, the run ends as COMPLETED/SUCCESS with the result or as
    FAILED/ERROR with the error that is raised and one recorded failure; no other row
    changes, and the run's finish time is never set. *)
Theorem tool_run_settles t tenant metadata (s : agents W) x c :
  tool_runs s !! t = Some x -> get_tool_config (tl_config x) = Some c -> tcf_tenant c = tenant ->
  exists r w, execute_agent_tool_run t tenant metadata s =
    (r, set_outside w (set_run_failures (run_failures s ++ match r with
           | Ok _ => []
           | Err e => [(t, if is_domain_validation e then "tool_response_validation_failed"
                           else "tool_execution_error")]
           end) (set_tool_runs (<[t := settled exc_str r x]> (tool_runs s)) s))) /\
    tl_finished (settled exc_str r x) = tl_finished x.
Proof.
  intros Hx Hc Ht. unfold execute_agent_tool_run, get_tool_run. unfold mbind_ at 1 2, mget. simpl.
  rewrite Hx, Hc, Ht, bool_decide_eq_true_2 by done. unfold mbind_ at 1, mlift at 1. simpl.
  rewrite (mbind_run _ _ _ _ _ (update_present t _ _ _ _ s x Hx)).
  set (y := with_tool_result _ _ _ _ x). set (s1 := set_tool_runs _ s).
  pose proof (call_tool_tables (tcf_config c) (tl_input x) metadata s1) as [w Hw].
  assert (Hy : tool_runs (set_outside w s1) !! t = Some y) by apply lookup_insert_eq.
  destruct (call_tool (tcf_config c) (tl_input x) metadata s1) as [[out|e] s2] eqn:E; simpl in Hw; subst s2.
  - exists (Ok out), w.
    assert (Hm : forall h, mtry (call_tool (tcf_config c) (tl_input x) metadata) h s1 =
      (Ok out, set_outside w s1)) by (intros h; unfold mtry; by rewrite E).
    rewrite (mbind_run _ _ _ _ _ (Hm _)), (mbind_run _ _ _ _ _ (update_present t _ _ _ _ _ y Hy)).
    rewrite app_nil_r. split; [|apply settled_unfinished]. unfold mret, s1, settled, set_outside, set_tool_runs,
      set_run_failures. simpl. by rewrite insert_insert_eq.
  - exists (Err e), w. erewrite mbind_run.
    2:{ unfold mtry. rewrite E. rewrite (mbind_run _ _ _ _ _ (update_present t _ _ _ _ _ y Hy)). reflexivity. }
    split; [|apply settled_unfinished]. unfold s1, settled, set_outside, set_tool_runs,
      set_run_failures. simpl. by rewrite insert_insert_eq.
Qed.
End orchestrator.
