(* ===== verification/AgentRun.v ===== *)
(** * AgentRun: the lifecycle of an agent run

    [src/src/domain/execution/services/agent_run_service.py] (create, execute, cancel,
    and the in-process runner of delegated tasks) with the definition resolver of
    [agent_runtime/definition.py].

    Executing a run needs the runner of delegated tasks, which executes runs: the
    recursion has fuel, and [delegation_is_flat] shows that one level is all that is ever
    used.  The tables the resolver reads are the record [catalog]. *)

From S2P Require Import Prelude.
From S2P Require Import Errors.
From S2P Require Import PyValue.
From S2P Require Import PyString.
From S2P Require Import PyFloat.
From S2P Require Import Sorting.
From S2P Require Import StateMachine.
From S2P Require Import Effects.
From S2P Require Import Store.
From S2P Require Import Redis.
From S2P Require Import AgentTools.
From S2P Require Import AgentStore.
From S2P Require Import ToolRuns.
From S2P Require Import AgentLoop.

(** ** The definition of an agent *)

Record agent_version_row : Type := {
  av_status : string;
  av_policy : option uuid;
  av_persona : pyval;
  av_prompt : option string;
}.

Record catalog : Type := {
  (** Tenant and name of an agent. *)
  cf_agent : uuid -> option (uuid * option string);
  cf_active_version : uuid -> option uuid;
  cf_version : uuid -> option agent_version_row;
  (** Status and model of an execution policy version. *)
  cf_policy : uuid -> option (string * uuid);
  cf_model : uuid -> option string;
  cf_billing : uuid -> option uuid;
  (** The published tools bound to an agent version. *)
  cf_tools : uuid -> list tool_row;
}.

(** [None] is raised as [e]. *)
Definition or_raise {A} (o : option A) (e : exc) : res exc A :=
  match o with Some a => Ok a | None => Err e end.

Section service.
Context {W : Type}.
Variable uuid_str : uuid -> string.
Variable uuid_hex : uuid -> string.
Variable uuid_parse : string -> option uuid.
Variable py_str : pyval -> string.
Variable int_str : Z -> string.
Variable dumps : pyval -> string.
Variable exc_str : exc -> string.
Variable exc_errors : exc -> list string.
Variable dump_task : A2ATask -> pydict.
Variable schema_check : pydict -> pydict -> res exc (option string).
Variable execute_tool : uuid -> uuid -> pydict -> M (agents W) pydict.
Variable max_delegation_depth : Z.
Variable complete_agent_turn : AgentTurnRequest -> W -> res exc AgentTurnCompletion * W.
Variable compute_cost : option (string -> Z -> Z -> W -> res exc pyfloat * W).
Variable float_decimal : pyfloat -> decimal.
(** [PersonaConfig.model_validate] and [AgentRunContextItem.model_validate]. *)
Variable persona_validate : pyval -> res exc PersonaConfig.
Variable item_validate : pyval -> res exc AgentRunContextItem.
Variable item_dump : AgentRunContextItem -> pyval.
Variable cfg : catalog.
Variable default_max_iterations : Z.

Definition PUBLISHED : string := "PUBLISHED".

(** [AgentDefinitionResolver.resolve]. *)
Definition resolve_definition (tenant agent : uuid) : res exc AgentDefinition :=
  let! found := or_raise (cf_agent cfg agent) (NotFoundServiceException "agent_not_found") in
  raise_if (negb (bool_decide (found.1 = tenant))) (NotFoundServiceException "agent_not_found") ;;!
  let! version := or_raise (cf_active_version cfg agent)
                    (ResourceBlockedServiceException "agent_version_not_active") in
  let! v := or_raise (cf_version cfg version) (NotFoundServiceException "agent_version_not_found") in
  raise_if (negb (String.eqb (av_status v) PUBLISHED))
    (ResourceBlockedServiceException "agent_version_blocked") ;;!
  let! policy := or_raise (av_policy v) (ResourceBlockedServiceException "ai_execution_policy_not_active") in
  let! p := or_raise (cf_policy cfg policy)
              (NotFoundServiceException "ai_execution_policy_version_not_found") in
  raise_if (negb (String.eqb p.1 PUBLISHED)) (ResourceBlockedServiceException "ai_execution_policy_blocked") ;;!
  let! model := or_raise (cf_model cfg p.2) (NotFoundServiceException "model_not_found") in
  raise_if (String.eqb model "") (NotFoundServiceException "model_not_found") ;;!
  let! billing := or_raise (cf_billing cfg tenant)
                    (ResourceBlockedServiceException "billing_policy_not_active") in
  let! persona := if truthy (av_persona v) then let! x := persona_validate (av_persona v) in Ok (Some x)
                  else Ok None in
  Ok {| ad_agent := agent; ad_name := found.2; ad_version := version; ad_system_prompt := av_prompt v;
        ad_persona := persona; ad_model := model; ad_policy := policy; ad_billing := billing;
        ad_tools := list_agent_version_tools uuid_str py_str (cf_tools cfg version) |}.

(** [AgentDefinition.runtime_snapshot]. *)
Definition runtime_snapshot (d : AgentDefinition) : pydict :=
  [("agent_id", PStr (uuid_str (ad_agent d))); ("agent_version_id", PStr (uuid_str (ad_version d)));
   ("ai_execution_policy_version_id", PStr (uuid_str (ad_policy d)));
   ("billing_policy_version_id", PStr (uuid_str (ad_billing d))); ("model", PStr (ad_model d));
   ("tool_function_names", PList (PStr <$> sorted_by String.le id (function_name <$> ad_tools d)))].

Definition agent_tenant (a : uuid) : option uuid := fst <$> cf_agent cfg a.
Definition resolve_for (tenant : uuid) (d : AgentDefinition) (q : AgentRunToolGrant) :
    res exc ResolvedToolGrant := resolve_grant agent_tenant tenant (ad_agent d) (ad_tools d) q.

(** ** Records of runs *)

Definition origin_str (o : AgentRunOrigin) : string :=
  match o with FLOW_NODE => "FLOW_NODE" | DIRECT => "DIRECT" | A2A_DELEGATION => "A2A_DELEGATION" end.

(** [_create_run_record]. *)
Definition _create_run_record (tenant : uuid) (principal : string) (d : AgentDefinition)
    (g : ResolvedToolGrant) (instruction : string) (payload : pydict) (items : list AgentRunContextItem)
    (max_iterations : option Z) (correlation : uuid) (origin : AgentRunOrigin) (metadata : pydict)
    (idempotency : option string) (parent root : option uuid) (depth : Z) : M (agents W) uuid :=
  let* r := create_agent_run_row tenant (ad_agent d) (ad_version d) correlation origin
              [("instruction", PStr instruction); ("payload", PDict payload); ("metadata", PDict metadata);
               ("principal_id", PStr principal)]
              [("items", PList (item_dump <$> items))] (snapshot uuid_str g)
              (match max_iterations with
               | Some n => if (n =? 0)%Z then default_max_iterations else n
               | None => default_max_iterations
               end)
              (ad_model d) (runtime_snapshot d) parent root depth idempotency in
  append_event r {|
    re_tenant := tenant; re_type := "AgentRunStarted"; re_correlation := correlation;
    re_payload := [("agent_id", PStr (uuid_str (ad_agent d)));
                   ("agent_version_id", PStr (uuid_str (ad_version d)));
                   ("origin", PStr (origin_str origin)); ("model", PStr (ad_model d));
                   ("granted_tools", PList ((fun b => PStr (function_name b)) <$> gr_tools g));
                   ("allow_agent_delegation", PBool (allow_agent_delegation g));
                   ("delegation_depth", PInt depth);
                   ("parent_agent_run_id", opt_uuid uuid_str parent)] |} ;;*
  mret r.

(** ** Execution *)

Definition FINAL_OUTPUT_ARTIFACT_NAME : string := "final-output".

Definition emit_end (sc : AgentRunScope) (type : string) (payload : pydict) : M (agents W) unit :=
  append_event (sc_run sc) {| re_tenant := sc_tenant sc; re_type := type;
                              re_correlation := sc_correlation sc; re_payload := payload |}.

(** The row of a finished loop. *)
Definition finish_of (res : AgentLoopResult) : finish :=
  let ok := bool_decide (lr_reason res = FINAL_OUTPUT) in
  {| fi_status := run_status_str (if ok then RS_COMPLETED else RS_FAILED);
     fi_canonical := agent_status_str (if ok then AR_COMPLETED else AR_FAILED);
     fi_output := [("text", PStr (lr_text res))]; fi_error := lr_error res;
     fi_reason := Some (finish_reason_str (lr_reason res)); fi_iterations := lr_iterations res;
     fi_tokens := Some (lr_input_tokens res, lr_output_tokens res); fi_cost := lr_cost res |}.

(** [_finalize]. *)
Definition _finalize (sc : AgentRunScope) (res : AgentLoopResult) : M (agents W) unit :=
  let ok := bool_decide (lr_reason res = FINAL_OUTPUT) in
  (if ok && negb (String.eqb (lr_text res) "") then
     append_artifact (sc_run sc) {| af_name := FINAL_OUTPUT_ARTIFACT_NAME;
                                    af_description := Some "Final answer produced by the agent run.";
                                    af_text := lr_text res |}
   else mret tt) ;;*
  finish_agent_run (sc_run sc) (finish_of res) ;;*
  emit_end sc (if ok then "AgentRunCompleted" else "AgentRunFailed")
    [("finish_reason", PStr (finish_reason_str (lr_reason res)));
     ("iterations_used", PInt (lr_iterations res)); ("tool_call_count", PInt (lr_tool_calls res));
     ("input_tokens", PInt (lr_input_tokens res)); ("output_tokens", PInt (lr_output_tokens res))].

Definition failure_of (e : exc) : finish :=
  {| fi_status := run_status_str RS_FAILED; fi_canonical := agent_status_str AR_FAILED; fi_output := [];
     fi_error := [("error", PStr (exc_type e)); ("detail", PStr (exc_str e))];
     fi_reason := Some (finish_reason_str LLM_ERROR); fi_iterations := 0; fi_tokens := None;
     fi_cost := None |}.

(** [_finalize_failure]. *)
Definition _finalize_failure (sc : AgentRunScope) (e : exc) : M (agents W) unit :=
  finish_agent_run (sc_run sc) (failure_of e) ;;*
  emit_end sc "AgentRunFailed" [("error", PStr (exc_type e))].

(** The metadata of a run, as text. *)
Definition text_metadata (v : pyval) : res exc pydict :=
  if truthy v then
    match v with
    | PDict d => Ok ((fun kv => (kv.1, PStr (str_of py_str kv.2))) <$> d)
    | _ => Err PyAttributeError
    end
  else Ok [].

(** What [_execute] derives from the row before the run starts. *)
Record prepared : Type := {
  pr_scope : AgentRunScope;
  pr_definition : AgentDefinition;
  pr_grant : ResolvedToolGrant;
  pr_parts : list AgentRunPromptPart;
  pr_max_iterations : Z;
}.

Definition prepare_run (tenant : uuid) (principal : string) (r : uuid) (m : agent_run_row) :
    res exc prepared :=
  let! d := resolve_definition tenant (rn_agent m) in
  let! q := _grant_request_from_snapshot uuid_parse py_str (rn_grant m) in
  let! g := resolve_for tenant d q in
  let! l := py_iter (default (PList []) (dict_get "items" (rn_context m))) in
  let! items := rmap item_validate l in
  let instruction := argument_text py_str (rn_input m) "instruction" in
  let payload := default [] (as_dict (dict_getv "payload" (rn_input m))) in
  let! metadata := text_metadata (dict_getv "metadata" (rn_input m)) in
  Ok {| pr_scope := {| sc_tenant := tenant; sc_principal := principal; sc_run := r;
                       sc_agent := rn_agent m; sc_correlation := rn_correlation m;
                       sc_root := rn_root m; sc_depth := rn_depth m; sc_metadata := metadata |};
        pr_definition := d; pr_grant := g;
        pr_parts := build uuid_str int_str dumps d g items instruction payload;
        pr_max_iterations := if (rn_max_iterations m =? 0)%Z then default_max_iterations
                             else rn_max_iterations m |}.

(** [_execute]. *)
Definition _execute (runner : Runner (W := W)) (tenant : uuid) (principal : string) (r : uuid) :
    M (agents W) AgentLoopResult :=
  let* found := get_agent_run tenant r in
  match found with
  | None => mraise (NotFoundServiceException "agent_run_not_found")
  | Some m =>
      let* p := mlift (prepare_run tenant principal r m) in
      mark_running r ;;*
      let* result :=
        mtry (run_loop uuid_str uuid_hex uuid_parse py_str dumps exc_str exc_errors dump_task schema_check
                execute_tool max_delegation_depth complete_agent_turn compute_cost float_decimal
                (pr_scope p) (pr_definition p) (pr_grant p) (pr_parts p) (pr_max_iterations p) runner)
          (fun e => _finalize_failure (pr_scope p) e ;;* mraise e) in
      _finalize (pr_scope p) result ;;*
      mret result
  end.

(** ** Delegated tasks *)

(** [A2ATranslator.build_output_artifact], for a text. *)
Definition build_output_artifact (index : nat) (name : string) (description : option string) (text : string) :
    A2AArtifact :=
  {| aa_id := name +:+ "-" +:+ int_str (Z.of_nat index); aa_name := name; aa_description := description;
     aa_parts := if String.eqb text "" then [] else [A2ATextPart text] |}.

Definition run_artifacts (r : uuid) (s : agents W) : list A2AArtifact :=
  (fun a => build_output_artifact (nb_sequence a) (af_name (nb_data a)) (af_description (nb_data a))
              (af_text (nb_data a))) <$> of_run r (artifacts s).

(** The part of [run_a2a_task] whose errors reject the task. *)
Definition accept_task (ex : A2ATaskExecution) : M (agents W) uuid :=
  let* d := mlift (resolve_definition (ex_tenant ex) (ex_target ex)) in
  let* q := mlift (grant_request (ex_allowed ex) false []) in
  let* g := mlift (resolve_for (ex_tenant ex) d q) in
  _create_run_record (ex_tenant ex) (ex_principal ex) d g (message_text (ex_message ex))
    (message_data_of (ex_message ex)) [] (ex_max_iterations ex) (ex_correlation ex) A2A_DELEGATION
    [("a2a_task_id", PStr (ex_task ex)); ("a2a_context_id", PStr (ex_context ex))]
    None (ex_parent ex) (ex_root ex) (ex_depth ex).

(** [run_a2a_task]; [fuel] bounds the nesting of delegations. *)
Fixpoint run_a2a_task (fuel : nat) (ex : A2ATaskExecution) : M (agents W) A2ATaskExecutionResult :=
  match fuel with
  | 0 => mraise (ExternalError "RecursionError" "")
  | S fuel =>
      let* accepted := mtry (let* r := accept_task ex in mret (inl r)) (fun e => mret (inr e)) in
      match accepted with
      | inr e => mret {| xr_state := REJECTED; xr_child := None; xr_text := ""; xr_artifacts := [];
                         xr_error := [("error", PStr (exc_type e)); ("detail", PStr (exc_str e))] |}
      | inl r =>
          let* result := _execute (run_a2a_task fuel) (ex_tenant ex) (ex_principal ex) r in
          let* s := mget in
          mret {| xr_state := if bool_decide (lr_reason result = FINAL_OUTPUT) then TS_COMPLETED else TS_FAILED;
                  xr_child := Some r; xr_text := lr_text result; xr_artifacts := run_artifacts r s;
                  xr_error := lr_error result |}
      end
  end.

(** ** Creation and cancellation *)

Record AgentRunCreate : Type := {
  cr_agent : uuid;
  cr_instruction : string;
  cr_payload : pydict;
  cr_context : list AgentRunContextItem;
  cr_tools : AgentRunToolGrant;
  cr_max_iterations : option Z;
  cr_correlation : option uuid;
  cr_metadata : pydict;
}.

(** [_load_summary]: the row. *)
Definition _load_summary (tenant r : uuid) : M (agents W) (uuid * agent_run_row) :=
  let* found := get_agent_run tenant r in
  match found with
  | None => mraise (NotFoundServiceException "agent_run_not_found")
  | Some m => mret (r, m)
  end.

(** The part of [create_agent_run] under the idempotency key.  Without [wait] the execution
    is a task of its own: an [_execute] after the summary is read. *)
Definition create_and_wait (fuel : nat) (wait : bool) (tenant : uuid) (principal : string) (idempotency : string)
    (d : AgentDefinition) (g : ResolvedToolGrant) (q : AgentRunCreate) : M (agents W) (uuid * agent_run_row) :=
  let* correlation := match cr_correlation q with Some c => mret c | None => new_id end in
  let* r := _create_run_record tenant principal d g (cr_instruction q) (cr_payload q) (cr_context q)
              (cr_max_iterations q) correlation DIRECT (cr_metadata q) (Some idempotency) None None 0 in
  (if wait then let* _ := _execute (run_a2a_task fuel) tenant principal r in mret tt else mret tt) ;;*
  _load_summary tenant r.

(** [create_agent_run]; the key protects the creation, not the resolution. *)
Definition create_agent_run (silent_mode : bool) (ttl : Z) (dump : uuid * agent_run_row -> pyval)
    (validate : pyval -> res exc (uuid * agent_run_row)) (fuel : nat) (wait : bool) (tenant : uuid)
    (principal key idempotency : string) (q : AgentRunCreate) : M (redis * agents W) (uuid * agent_run_row) :=
  let* d := mlift (resolve_definition tenant (cr_agent q)) in
  let* g := mlift (resolve_for tenant d (cr_tools q)) in
  idempotent_call silent_mode ttl key (fun summary => PDict [("response", dump summary)]) validate
    (on_world 0 (create_and_wait fuel wait tenant principal idempotency d g q)).

(** [float(x) if x else None]. *)
Definition nonzero (c : option pyfloat) : option pyfloat :=
  match c with Some x => if float_is_zero x then None else Some x | None => None end.

Definition cancellation (m : agent_run_row) : finish :=
  {| fi_status := run_status_str RS_CANCELLED; fi_canonical := agent_status_str AR_CANCELLED; fi_output := [];
     fi_error := [("error", PStr "cancelled")]; fi_reason := Some (finish_reason_str FR_CANCELLED_);
     fi_iterations := rn_iterations_used m; fi_tokens := rn_tokens m; fi_cost := nonzero (rn_cost m) |}.

(** [cancel_agent_run], for a run whose task is not in this process. *)
Definition cancel_agent_run (tenant r : uuid) : M (agents W) (uuid * agent_run_row) :=
  let* found := get_agent_run tenant r in
  match found with
  | None => mraise (NotFoundServiceException "agent_run_not_found")
  | Some m =>
      mlift (raise_if (bool_decide (rn_canonical m ∈ agent_status_str <$> [AR_COMPLETED; AR_FAILED; AR_CANCELLED]))
               (ResourceBlockedServiceException "agent_run_not_cancellable")) ;;*
      finish_agent_run r (cancellation m) ;;*
      append_event r {| re_tenant := tenant; re_type := "AgentRunAborted"; re_correlation := rn_correlation m;
                        re_payload := [("reason", PStr (finish_reason_str FR_CANCELLED_))] |} ;;*
      _load_summary tenant r
  end.
(** ** Reading a run *)

Record AgentRunToolCall : Type := {
  vc_run : uuid;
  vc_call : string;
  vc_name : string;
  vc_config : uuid;
  vc_status : string;
  vc_input : pydict;
  vc_output : pydict;
  vc_error : pydict;
}.

Record AgentRunDetail : Type := {
  vd_id : uuid;
  vd_row : agent_run_row;
  vd_messages : list (numbered message_data);
  vd_tool_calls : list AgentRunToolCall;
  vd_events : list (numbered run_event);
  vd_artifacts : list (numbered artifact_data);
  vd_delegations : list (uuid * delegation);
}.

(** [tool_names_by_call_id]: the last message of a call wins. *)
Definition tool_names_by_call_id (l : list message_data) : pydict :=
  foldl (fun d m => match md_call_id m, md_tool_name m with
                    | Some c, Some n => if String.eqb c "" || String.eqb n "" then d else dict_set c (PStr n) d
                    | _, _ => d
                    end) [] l.

Definition tool_call_view (names : pydict) (kv : uuid * tool_run) : AgentRunToolCall :=
  let t := kv.2 in {|
    vc_run := kv.1; vc_call := or_text (tl_call_id t) "";
    vc_name := match tl_call_id t with
               | Some c => match dict_get c names with Some (PStr n) => n | _ => "" end
               | None => ""
               end;
    vc_config := tl_config t; vc_status := tl_canonical t; vc_input := tl_input t;
    vc_output := tl_output t; vc_error := tl_error t |}.

(** [get_agent_run] of the service. *)
Definition get_agent_run_detail (tenant r : uuid) : M (agents W) AgentRunDetail :=
  let* found := get_agent_run tenant r in
  match found with
  | None => mraise (NotFoundServiceException "agent_run_not_found")
  | Some m =>
      let* s := mget in
      mret {|
        vd_id := r; vd_row := m; vd_messages := of_run r (messages s);
        vd_tool_calls := tool_call_view (tool_names_by_call_id (list_rows r (messages s))) <$> list_tool_runs r s;
        vd_events := of_run r (run_events s); vd_artifacts := of_run r (artifacts s);
        vd_delegations := list_delegations_for_agent_run r s |}
  end.

(** [A2ADelegationService.get_task]. *)
Definition get_task (tenant : uuid) (task : string) : M (agents W) (option pydict) :=
  let* found := get_delegation_by_task_id tenant task in
  match found with
  | None => mret None
  | Some d =>
      if truthy (dg_result d) then
        match dg_result d with PDict r => mret (Some r) | _ => mraise PyTypeError end
      else
        match find (fun st => String.eqb (task_state_str st) (dg_state d)) all_task_states with
        | None => mraise PyValueError
        | Some st =>
            mret (Some (dump_task {|
              tk_id := dg_task d; tk_context := dg_context d; tk_state := st; tk_message := None;
              tk_history := []; tk_artifacts := []; tk_metadata := [] |}))
        end
  end.
End service.

(** ** Facts *)

Section facts.
Context {W : Type}.
Variable uuid_str : uuid -> string.
Variable uuid_hex : uuid -> string.
Variable uuid_parse : string -> option uuid.
Variable py_str : pyval -> string.
Variable int_str : Z -> string.
Variable dumps : pyval -> string.
Variable exc_str : exc -> string.
Variable exc_errors : exc -> list string.
Variable dump_task : A2ATask -> pydict.
Variable schema_check : pydict -> pydict -> res exc (option string).
Variable execute_tool : uuid -> uuid -> pydict -> M (agents W) pydict.
Variable max_delegation_depth : Z.
Variable complete_agent_turn : AgentTurnRequest -> W -> res exc AgentTurnCompletion * W.
Variable compute_cost : option (string -> Z -> Z -> W -> res exc pyfloat * W).
Variable float_decimal : pyfloat -> decimal.
Variable persona_validate : pyval -> res exc PersonaConfig.
Variable item_validate : pyval -> res exc AgentRunContextItem.
Variable item_dump : AgentRunContextItem -> pyval.
Variable cfg : catalog.
Variable default_max_iterations : Z.

(** Executing a tool call touches neither runs nor messages. *)
Class ToolFrame : Prop := {
  tool_plain t tenant md : respects plain (execute_tool t tenant md)
}.
Context {Tools : ToolFrame}.

Abbreviation prepare_ := (prepare_run uuid_str uuid_parse py_str int_str dumps persona_validate item_validate
  cfg default_max_iterations).
Abbreviation run_loop_ := (run_loop uuid_str uuid_hex uuid_parse py_str dumps exc_str exc_errors dump_task
  schema_check execute_tool max_delegation_depth complete_agent_turn compute_cost float_decimal).
Abbreviation execute_ := (_execute uuid_str uuid_hex uuid_parse py_str int_str dumps exc_str exc_errors dump_task
  schema_check execute_tool max_delegation_depth complete_agent_turn compute_cost float_decimal
  persona_validate item_validate cfg default_max_iterations).
Abbreviation accept_ := (accept_task (W := W) uuid_str py_str persona_validate item_dump cfg default_max_iterations).
Abbreviation task_ := (run_a2a_task uuid_str uuid_hex uuid_parse py_str int_str dumps exc_str exc_errors dump_task
  schema_check execute_tool max_delegation_depth complete_agent_turn compute_cost float_decimal
  persona_validate item_validate item_dump cfg default_max_iterations).

(** The row a tenant sees. *)
Definition visible (tenant r : uuid) (s : agents W) : option agent_run_row :=
  match runs s !! r with
  | Some x => if decide (rn_tenant x = tenant) then Some x else None
  | None => None
  end.

Lemma get_agent_run_eq tenant r (s : agents W) : get_agent_run tenant r s = (Ok (visible tenant r s), s).
Proof. done. Qed.

(** Whether the stored grant of a run lets it delegate. *)
Definition may_delegate (m : agent_run_row) : bool := truthy (dict_getv "allow_agent_delegation" (rn_grant m)).

Lemma prepare_inv tenant principal r m p :
  prepare_ tenant principal r m = Ok p ->
  allow_agent_delegation (pr_grant p) = may_delegate m /\ sc_run (pr_scope p) = r /\
  sc_depth (pr_scope p) = rn_depth m.
Proof.
  unfold prepare_run. intros H. apply rbind_ok in H as (d & _ & H). apply rbind_ok in H as (q & Hq & H).
  apply rbind_ok in H as (g & Hg & H). apply rbind_ok in H as (l & _ & H). apply rbind_ok in H as (items & _ & H).
  apply rbind_ok in H as (md & _ & H). injection H as <-. simpl. split; [|done].
  apply resolve_inv in Hg as (-> & _). unfold _grant_request_from_snapshot in Hq.
  apply rbind_ok in Hq as (a & _ & Hq). apply rbind_ok in Hq as (ds & _ & Hq).
  unfold grant_request in Hq. apply rbind_ok in Hq as ([] & _ & Hq). by injection Hq as <-.
Qed.

(** *** One level of delegation *)

Lemma execute_ext r1 r2 tenant principal r s :
  (forall m, runs s !! r = Some m -> may_delegate m = true -> forall ex s, r1 ex s = r2 ex s) ->
  execute_ r1 tenant principal r s = execute_ r2 tenant principal r s.
Proof.
  intros H. unfold _execute. rewrite !(mbind_run _ _ _ _ _ (get_agent_run_eq tenant r s)). unfold visible.
  destruct (runs s !! r) as [m|] eqn:E; [|done]. case_decide; [|done].
  rewrite !(mbind_run _ _ _ _ _ (eq_refl : mlift (prepare_ tenant principal r m) s = (_, s))).
  destruct (prepare_ tenant principal r m) as [p|] eqn:Hp; [|done]. apply prepare_inv in Hp as (Hp & _).
  apply mbind_ext; [done|]. intros _ s1. apply mbind_ext; [|done]. unfold mtry.
  rewrite (run_loop_ext uuid_str uuid_hex uuid_parse py_str dumps exc_str exc_errors dump_task schema_check
    execute_tool max_delegation_depth complete_agent_turn compute_cost float_decimal r1 r2 (pr_grant p)); [done|].
  rewrite Hp. intros Hm. by apply (H m).
Qed.

(** An accepted task has a new run, which cannot delegate. *)
Lemma accept_inv ex s r s' :
  accept_ ex s = (Ok r, s') ->
  r = next_run_id s /\ next_run_id s' = (next_run_id s + 1)%N /\ messages s' = messages s /\
  exists m, runs s' = <[r := m]> (runs s) /\ may_delegate m = false /\ rn_depth m = ex_depth ex /\
    rn_tenant m = ex_tenant ex /\ rn_canonical m = agent_status_str AR_CREATED.
Proof.
  unfold accept_task. intros H. apply mbind_ok in H as (d & s1 & H1 & H). injection H1 as _ <-.
  apply mbind_ok in H as (q & s2 & H2 & H). injection H2 as H2 <-.
  apply mbind_ok in H as (g & s3 & H3 & H). unfold mlift in H3. injection H3 as H3 <-. simplify_eq.
  apply resolve_inv in H3 as (Hg & _). simpl in Hg. unfold _create_run_record, create_agent_run_row in H.
  cbn in H. injection H as <- <-. split_and!; try done. eexists. split; [done|].
  unfold may_delegate. simpl. by rewrite Hg.
Qed.

Lemma accept_error ex s e s' : accept_ ex s = (Err e, s') -> s' = s.
Proof.
  unfold accept_task, mbind_, mlift.
  destruct (resolve_definition _ _ _ _ _ _) as [d|]; [|intros H; congruence].
  destruct (grant_request _ _ _) as [q|]; [|intros H; congruence].
  destruct (resolve_for _ _ _ _) as [g|]; [|intros H; congruence].
  intros H. unfold _create_run_record, create_agent_run_row in H. cbn in H. discriminate.
Qed.

Lemma accepted_eq ex s :
  mtry (let* r := accept_ ex in mret (inl r)) (fun e => mret (inr e)) s =
  match accept_ ex s with (Ok r, s1) => (Ok (inl r), s1) | (Err e, s1) => (Ok (inr e), s1) end.
Proof. unfold mtry, mbind_. by destruct (accept_ ex s) as [[r|e] s1]. Qed.

Lemma task_flat n k ex s : task_ (S n) ex s = task_ (S k) ex s.
Proof.
  cbn [run_a2a_task]. pose proof (accepted_eq ex s) as E.
  destruct (accept_ ex s) as [[r|e] s1] eqn:Ea; rewrite !(mbind_run _ _ _ _ _ E); [|done].
  apply accept_inv in Ea as (-> & _ & _ & m & Hm & Hd & _). apply mbind_ext; [|done].
  apply execute_ext. intros m' Hm'. rewrite Hm, lookup_insert_eq in Hm'. injection Hm' as <-. congruence.
Qed.

(** *** What a run leaves of the others *)

(** Writing the row of a run. *)
Lemma row_write r f (s : agents W) :
  (let* s0 := mget in
   match runs s0 !! r with
   | None => mraise (NotFoundServiceException "agent_run_not_found")
   | Some x => mmodify (fun s => set_runs (<[r := f x]> (runs s)) s)
   end) s =
  match runs s !! r with
  | None => (Err (NotFoundServiceException "agent_run_not_found"), s)
  | Some x => (Ok tt, set_runs (<[r := f x]> (runs s)) s)
  end.
Proof. unfold mbind_, mget. by destruct (runs s !! r). Qed.

Lemma mark_running_eq r (s : agents W) :
  mark_running r s = match runs s !! r with
  | None => (Err (NotFoundServiceException "agent_run_not_found"), s)
  | Some x => (Ok tt, set_runs (<[r := running x]> (runs s)) s)
  end.
Proof. apply row_write. Qed.
Lemma finish_eq r f (s : agents W) :
  finish_agent_run r f s = match runs s !! r with
  | None => (Err (NotFoundServiceException "agent_run_not_found"), s)
  | Some x => (Ok tt, set_runs (<[r := finished f x]> (runs s)) s)
  end.
Proof. apply row_write. Qed.

(** A relation that the steps of an execution of [r] preserve. *)
Lemma execute_frame (R : agents W -> agents W -> Prop) `{!PreOrder R} runner tenant principal r s :
  (forall s s', plain s s' -> R s s') ->
  (forall s, R s (mark_running r s).2) -> (forall f s, R s (finish_agent_run r f s).2) ->
  (forall m p, runs s !! r = Some m -> prepare_ tenant principal r m = Ok p ->
     LoopFrame execute_tool (pr_scope p) runner R) ->
  R s (execute_ runner tenant principal r s).2.
Proof.
  intros Hp Hm Hf HL. unfold _execute. rewrite (mbind_run _ _ _ _ _ (get_agent_run_eq tenant r s)).
  unfold visible. destruct (runs s !! r) as [m|] eqn:E; [|reflexivity]. case_decide; [|reflexivity].
  rewrite (mbind_run _ _ _ _ _ (eq_refl : mlift (prepare_ tenant principal r m) s = (_, s))).
  destruct (prepare_ tenant principal r m) as [p|] eqn:Ep; [|reflexivity].
  specialize (HL m p eq_refl Ep). apply prepare_inv in Ep as (_ & Er & _).
  assert (Hpl : forall {A} (x : M (agents W) A), respects plain x -> respects R x) by (intros A x Hx s0; apply Hp, Hx).
  revert s E. assert (HR : respects R (mark_running r ;;*
      let* result := mtry (run_loop_ (pr_scope p) (pr_definition p) (pr_grant p) (pr_parts p)
                             (pr_max_iterations p) runner)
                       (fun e => _finalize_failure exc_str (pr_scope p) e ;;* mraise e) in
      _finalize (pr_scope p) result ;;* mret result)).
  { apply respects_bind; [apply _|exact Hm|intros _]. apply respects_bind; [apply _| |intros res].
    - apply respects_try; [apply _|by apply run_loop_frame|]. intros e. unfold _finalize_failure. rewrite Er.
      apply respects_bind; [apply _| |intros; apply respects_raise; apply _].
      apply respects_bind; [apply _|intros s0; apply Hf|intros _]. apply Hpl, plain_event.
    - apply respects_bind; [apply _| |intros; apply respects_ret; apply _]. unfold _finalize. rewrite Er.
      apply respects_bind; [apply _| |intros _].
      { case_match; [apply Hpl, plain_artifact|apply respects_ret; apply _]. }
      apply respects_bind; [apply _|intros s0; apply Hf|intros _]. apply Hpl, plain_event. }
  intros s _. apply HR.
Qed.

Lemma row_keeps r r' f (s : agents W) : r <> r' ->
  keeps_run r s (match runs s !! r' with
                 | None => (Err (NotFoundServiceException "agent_run_not_found"), s)
                 | Some x => (Ok tt, set_runs (<[r' := f x]> (runs s)) s)
                 end).2.
Proof.
  intros Hne. destruct (runs s !! r'); [|reflexivity]. split; [simpl; lia|]. intros _. simpl.
  by rewrite lookup_insert_ne.
Qed.

Lemma execute_keeps r r' runner tenant principal :
  r <> r' -> (forall ex, respects (keeps_run r) (runner ex)) ->
  respects (keeps_run r) (execute_ runner tenant principal r').
Proof using Tools.
  intros Hne Hr s. apply execute_frame; [apply _|apply plain_keeps| | |].
  - intros s0. rewrite mark_running_eq. by apply row_keeps.
  - intros f s0. rewrite finish_eq. by apply row_keeps.
  - intros m p _ Hp. apply prepare_inv in Hp as (_ & Er & _). apply other_run_frame; [by rewrite Er|].
    split; [|done]. intros t tn md s0. apply plain_keeps, tool_plain.
Qed.

Lemma task_keeps n ex r : respects (keeps_run r) (task_ n ex).
Proof using Tools.
  revert ex r. induction n as [|n IH]; intros ex r; [apply respects_raise; apply _|].
  intros s. cbn [run_a2a_task]. pose proof (accepted_eq ex s) as E.
  destruct (accept_ ex s) as [[r0|e] s1] eqn:Ea; rewrite (mbind_run _ _ _ _ _ E);
    [|apply accept_error in Ea as ->; reflexivity].
  apply accept_inv in Ea as (-> & Hn & Hms & m & Hm & _).
  set (k := (let* result := _ in _) : M (agents W) A2ATaskExecutionResult).
  assert (Hk : forall r, r <> next_run_id s -> respects (keeps_run r) k).
  { intros r' Hne. unfold k. apply respects_bind; [apply _|by apply execute_keeps|intros; frame]. }
  destruct (decide (r = next_run_id s)) as [->|Hne].
  - destruct (Hk (next_run_id s + 1)%N ltac:(lia) s1) as [Hmono _]. split; [lia|intros; lia].
  - destruct (Hk r Hne s1) as [Hmono Hkeep]. split; [lia|]. intros Hr.
    destruct (Hkeep ltac:(lia)) as [-> ->]. by rewrite Hm, Hms, lookup_insert_ne.
Qed.

(** The runner of the service leaves a calling run alone. *)
Lemma service_frame n r : RunFrame execute_tool r (task_ n).
Proof using Tools.
  split; [intros t tn md s; apply plain_keeps, tool_plain|]. intros ex. apply task_keeps.
Qed.

(** *** The end of a run *)

(** The row of a run that exists is kept. *)
Definition keeps_row (r : uuid) (s s' : agents W) : Prop :=
  (next_run_id s <= next_run_id s')%N /\ ((r < next_run_id s)%N -> runs s' !! r = runs s !! r).

#[local] Instance keeps_row_preorder r : PreOrder (keeps_row r).
Proof.
  split; [intros s; split; [lia|done]|]. intros a b c [H1 H2] [H3 H4]. split; [lia|].
  intros Hr. rewrite <- H2 by done. apply H4. lia.
Qed.

Lemma own_row_frame n sc : LoopFrame execute_tool sc (task_ n) (keeps_row (sc_run sc)).
Proof using Tools.
  assert (Hp : forall s s' : agents W, plain s s' -> keeps_row (sc_run sc) s s').
  { intros s s' (H1 & H2 & _). split; [done|]. by rewrite H2. }
  split; [split; [apply _|done| |]|].
  - intros t tn md s. apply Hp, tool_plain.
  - intros ex _ s. destruct (task_keeps n ex (sc_run sc) s) as [H1 H2]. split; [done|]. intros H. by apply H2.
  - intros d s. split; [simpl; lia|done].
Qed.

Lemma run_loop_row n sc d g parts mx s x s' m :
  run_loop_ sc d g parts mx (task_ n) s = (x, s') -> (sc_run sc < next_run_id s)%N ->
  runs s !! sc_run sc = Some m -> runs s' !! sc_run sc = Some m.
Proof using Tools.
  intros H Hr Hm. pose proof (run_loop_frame uuid_str uuid_hex uuid_parse py_str dumps exc_str exc_errors dump_task
    schema_check execute_tool max_delegation_depth complete_agent_turn compute_cost float_decimal
    sc (task_ n) (keeps_row (sc_run sc)) (Frame := own_row_frame n sc) d g parts mx s) as HR.
  rewrite H in HR. destruct HR as [_ HR]. simpl in HR. by rewrite HR.
Qed.

Lemma finalize_eq sc res (s : agents W) m :
  runs s !! sc_run sc = Some m ->
  exists s', _finalize sc res s = (Ok tt, s') /\ runs s' = <[sc_run sc := finished (finish_of res) m]> (runs s).
Proof.
  intros Hm. unfold _finalize. set (art := if _ && _ then _ else _).
  assert (Ha : exists s1, art s = (Ok tt, s1) /\ runs s1 = runs s).
  { unfold art. destruct (_ && _); (eexists; split; [reflexivity|done]). }
  destruct Ha as (s1 & Ha & Hs1). rewrite (mbind_run _ _ _ _ _ Ha).
  pose proof (finish_eq (sc_run sc) (finish_of res) s1) as Hf. rewrite Hs1, Hm in Hf.
  rewrite (mbind_run _ _ _ _ _ Hf). eexists. split; [reflexivity|]. done.
Qed.

Lemma finalize_failure_eq sc e (s : agents W) m :
  runs s !! sc_run sc = Some m ->
  exists s', _finalize_failure exc_str sc e s = (Ok tt, s') /\
    runs s' = <[sc_run sc := finished (failure_of exc_str e) m]> (runs s).
Proof.
  intros Hm. unfold _finalize_failure. pose proof (finish_eq (sc_run sc) (failure_of exc_str e) s) as Hf.
  rewrite Hm in Hf. rewrite (mbind_run _ _ _ _ _ Hf). eexists. split; [reflexivity|]. done.
Qed.

Lemma execute_settled n tenant principal r s m res s' :
  execute_ (task_ n) tenant principal r s = (res, s') ->
  visible tenant r s = Some m -> (r < next_run_id s)%N ->
  match res with
  | Ok result => runs s' !! r = Some (finished (finish_of result) (running m))
  | Err e => s' = s /\ prepare_ tenant principal r m = Err e \/
             runs s' !! r = Some (finished (failure_of exc_str e) (running m))
  end.
Proof using Tools.
  intros H Hv Hr. unfold _execute in H. rewrite (mbind_run _ _ _ _ _ (get_agent_run_eq tenant r s)), Hv in H.
  rewrite (mbind_run _ _ _ _ _ (eq_refl : mlift (prepare_ tenant principal r m) s = (_, s))) in H.
  destruct (prepare_ tenant principal r m) as [p|e] eqn:Ep; [|injection H as <- <-; by left].
  assert (Hm : runs s !! r = Some m).
  { unfold visible in Hv. destruct (runs s !! r); [|done]. case_decide; congruence. }
  apply prepare_inv in Ep as (_ & Er & _). pose proof (mark_running_eq r s) as Hmark. rewrite Hm in Hmark.
  rewrite (mbind_run _ _ _ _ _ Hmark) in H. set (s1 := set_runs _ s) in *.
  assert (Hm1 : runs s1 !! r = Some (running m)) by apply lookup_insert_eq.
  destruct (run_loop_ (pr_scope p) (pr_definition p) (pr_grant p) (pr_parts p) (pr_max_iterations p) (task_ n) s1)
    as [x s2] eqn:EL.
  assert (Hm2 : runs s2 !! r = Some (running m)).
  { rewrite <- Er. eapply run_loop_row; [exact EL|by rewrite Er|by rewrite Er]. }
  destruct x as [result|e].
  - rewrite (mbind_run _ _ s1 (Ok result) s2) in H by (unfold mtry; by rewrite EL).
    rewrite <- Er in Hm2. destruct (finalize_eq (pr_scope p) result s2 _ Hm2) as (s3 & Hf & Hs3).
    rewrite (mbind_run _ _ _ _ _ Hf) in H. injection H as <- <-. rewrite Hs3, Er. apply lookup_insert_eq.
  - rewrite <- Er in Hm2. destruct (finalize_failure_eq (pr_scope p) e s2 _ Hm2) as (s3 & Hf & Hs3).
    rewrite (mbind_run _ _ s1 (Err e) s3) in H.
    2:{ unfold mtry. rewrite EL. by rewrite (mbind_run _ _ _ _ _ Hf). }
    injection H as <- <-. right. rewrite Hs3, Er. apply lookup_insert_eq.
Qed.

(** A run that starts is settled.  When the row of a run is executed, either nothing
    changes, because the agent's definition or the stored grant can no longer be resolved
    (the run then stays as it was, and the error is raised), or the row ends finished:
    COMPLETED exactly when the loop ended with a final output, FAILED otherwise or when
    the loop raised, with the loop's own account of turns, tokens and cost. *)
Theorem execute_settles n tenant principal r s m res s' :
  execute_ (task_ n) tenant principal r s = (res, s') ->
  visible tenant r s = Some m -> (r < next_run_id s)%N ->
  match res with
  | Ok result => runs s' !! r = Some (finished (finish_of result) (running m))
  | Err e => s' = s /\ prepare_ tenant principal r m = Err e \/
             runs s' !! r = Some (finished (failure_of exc_str e) (running m))
  end.
Proof using Tools. apply execute_settled. Qed.

(** *** Depth *)

(** Runs are at most one delegation deep, and only those of depth 0 may delegate. *)
Definition flat (s : agents W) : Prop :=
  forall r m, runs s !! r = Some m ->
    (0 <= rn_depth m <= 1)%Z /\ (may_delegate m = true -> rn_depth m = 0%Z).
Definition keeps_flat (s s' : agents W) : Prop := flat s -> flat s'.

#[local] Instance keeps_flat_preorder : PreOrder keeps_flat.
Proof. split; [intros s H; exact H|]. intros a b c H1 H2 H. exact (H2 (H1 H)). Qed.

Lemma flat_runs s s' : runs s' = runs s -> keeps_flat s s'.
Proof. intros E H. unfold flat. by rewrite E. Qed.
Lemma flat_plain s s' : plain s s' -> keeps_flat s s'.
Proof. intros (_ & E & _). by apply flat_runs. Qed.

Lemma flat_insert (s s' : agents W) r m :
  runs s' = <[r := m]> (runs s) -> (0 <= rn_depth m <= 1)%Z -> (may_delegate m = true -> rn_depth m = 0%Z) ->
  keeps_flat s s'.
Proof.
  intros E Hd Hm H r' m'. rewrite E. destruct (decide (r = r')) as [->|Hne].
  - rewrite lookup_insert_eq. intros [= <-]. done.
  - rewrite lookup_insert_ne by done. apply H.
Qed.

(** A write that keeps depth and grant. *)
Lemma flat_write r f (s : agents W) :
  (forall x, rn_depth (f x) = rn_depth x /\ rn_grant (f x) = rn_grant x) ->
  keeps_flat s (match runs s !! r with
                | None => (Err (NotFoundServiceException "agent_run_not_found"), s)
                | Some x => (Ok tt, set_runs (<[r := f x]> (runs s)) s)
                end).2.
Proof.
  intros Hf H. destruct (runs s !! r) as [x|] eqn:E; [|done]. destruct (Hf x) as [Hd Hg].
  destruct (H r x E) as [H1 H2]. eapply flat_insert; [reflexivity|by rewrite Hd| |done].
  unfold may_delegate. by rewrite Hd, Hg.
Qed.

(** The frame of a loop: its tasks, one level down, must keep the tables flat. *)
Lemma flat_frame sc runner :
  (forall ex, ex_depth ex = (sc_depth sc + 1)%Z -> respects keeps_flat (runner ex)) ->
  LoopFrame execute_tool sc runner keeps_flat.
Proof using Tools.
  intros Hr. split; [split; [apply _|exact flat_plain| |exact Hr]|].
  - intros t tn md s. apply flat_plain, tool_plain.
  - intros d s. by apply flat_runs.
Qed.

Lemma execute_flat runner tenant principal r s :
  (forall m ex, runs s !! r = Some m -> may_delegate m = true -> ex_depth ex = (rn_depth m + 1)%Z ->
     respects keeps_flat (runner ex)) ->
  keeps_flat s (execute_ runner tenant principal r s).2.
Proof using Tools.
  intros Hr. set (runner' := fun ex => match runs s !! r with
    | Some m => if may_delegate m then runner ex else mraise PyKeyError
    | None => runner ex end).
  rewrite (execute_ext runner runner' tenant principal r s).
  2:{ intros m Hm Hd ex s0. unfold runner'. by rewrite Hm, Hd. }
  apply execute_frame; [apply _|exact flat_plain| | |].
  - intros s0. rewrite mark_running_eq. by apply flat_write.
  - intros f s0. rewrite finish_eq. by apply flat_write.
  - intros m p Hm Hp. apply prepare_inv in Hp as (_ & _ & Hd). apply flat_frame. intros ex Hex.
    unfold runner'. rewrite Hm. destruct (may_delegate m) eqn:Em; [|apply respects_raise; apply _].
    apply (Hr m); [done|done|]. by rewrite Hex, Hd.
Qed.

Lemma task_keeps_flat n ex : ex_depth ex = 1%Z -> respects keeps_flat (task_ n ex).
Proof using Tools.
  intros Hex s. destruct n as [|n]; [reflexivity|]. cbn [run_a2a_task]. pose proof (accepted_eq ex s) as E.
  destruct (accept_ ex s) as [[r0|e] s1] eqn:Ea; rewrite (mbind_run _ _ _ _ _ E);
    [|apply accept_error in Ea as ->; reflexivity].
  apply accept_inv in Ea as (-> & _ & _ & m & Hm & Hd & Hdepth & _).
  transitivity s1; [eapply flat_insert; [exact Hm|lia|congruence]|].
  pose proof (execute_flat (task_ n) (ex_tenant ex) (ex_principal ex) (next_run_id s) s1) as HF.
  unfold mbind_ at 1. destruct (execute_ _ _ _ _ s1) as [[res|e] s2]; apply HF;
    intros m' ex'; rewrite Hm, lookup_insert_eq; intros [= <-]; congruence.
Qed.

Abbreviation create_ := (create_and_wait uuid_str uuid_hex uuid_parse py_str int_str dumps exc_str exc_errors
  dump_task schema_check execute_tool max_delegation_depth complete_agent_turn compute_cost float_decimal
  persona_validate item_validate item_dump cfg default_max_iterations).

(** The record of a run: a new row with the given depth and the resolved grant. *)
Lemma create_record_eq tenant principal d g instr payload items mx c o md k parent root depth (s : agents W) :
  exists m s', _create_run_record uuid_str item_dump default_max_iterations tenant principal d g instr payload
      items mx c o md k parent root depth s = (Ok (next_run_id s), s') /\
    runs s' = <[next_run_id s := m]> (runs s) /\ rn_depth m = depth /\
    may_delegate m = allow_agent_delegation g /\ rn_tenant m = tenant /\
    next_run_id s' = (next_run_id s + 1)%N.
Proof.
  unfold _create_run_record, create_agent_run_row. do 2 eexists. split; [reflexivity|]. simpl. done.
Qed.

(** A creation that waits answers with the row of a finished run. *)
Lemma create_wait_row n tenant principal k d g q s r m s' :
  create_ n true tenant principal k d g q s = (Ok (r, m), s') ->
  visible tenant r s' = Some m /\ exists res, rn_canonical m = fi_canonical (finish_of res).
Proof using Tools.
  unfold create_and_wait. intros H. apply mbind_ok in H as (c & s1 & _ & H).
  destruct (create_record_eq tenant principal d g (cr_instruction q) (cr_payload q) (cr_context q)
    (cr_max_iterations q) c DIRECT (cr_metadata q) (Some k) None None 0 s1)
    as (x & s2 & Hrec & Hr2 & _ & _ & Ht & Hn). rewrite (mbind_run _ _ _ _ _ Hrec) in H.
  apply mbind_ok in H as ([] & s3 & H3 & H). apply mbind_ok in H3 as (res & s3' & H3 & E).
  injection E as <-. unfold _load_summary in H. rewrite (mbind_run _ _ _ _ _ (get_agent_run_eq tenant _ s3')) in H.
  destruct (visible tenant (next_run_id s1) s3') as [y|] eqn:Ey; [|discriminate]. injection H as <- <- <-.
  split; [done|]. assert (Hv : visible tenant (next_run_id s1) s2 = Some x).
  { unfold visible. rewrite Hr2, lookup_insert_eq. by case_decide. }
  pose proof (execute_settled _ _ _ _ _ _ _ _ H3 Hv ltac:(lia)) as HE. simpl in HE.
  unfold visible in Ey. rewrite HE in Ey. case_decide; [|done]. injection Ey as <-. by exists res.
Qed.

(** Delegation is one level deep.  Creating and running an agent run keeps the tables
    flat: every run has depth 0 or 1 and a run that may delegate has depth 0, since a task
    is accepted with a grant that cannot delegate.  So the recursion between the service
    and its runner is bounded by one level, whatever the limit on the depth is: more fuel
    never changes a result. *)
Theorem delegation_is_flat n wait tenant principal k d g q s :
  flat s ->
  create_ (S n) wait tenant principal k d g q s = create_ 1 wait tenant principal k d g q s /\
  flat (create_ (S n) wait tenant principal k d g q s).2.
Proof using Tools.
  intros Hs. unfold create_and_wait.
  assert (Hc : exists c s1, (match cr_correlation q with Some c => mret c | None => new_id end) s = (Ok c, s1) /\
    runs s1 = runs s) by (destruct (cr_correlation q); by do 2 eexists).
  destruct Hc as (c & s1 & Hc & Hr1). rewrite !(mbind_run _ _ _ _ _ Hc).
  destruct (create_record_eq tenant principal d g (cr_instruction q) (cr_payload q) (cr_context q)
    (cr_max_iterations q) c DIRECT (cr_metadata q) (Some k) None None 0 s1) as (m & s2 & Hrec & Hr2 & Hd & _).
  rewrite !(mbind_run _ _ _ _ _ Hrec). split.
  - destruct wait; [|done]. apply mbind_ext; [|done]. apply mbind_ext; [|done]. apply execute_ext.
    intros; apply task_flat.
  - assert (H2 : flat s2) by (apply (flat_insert s1 s2 _ _ Hr2); [lia|done|by apply (flat_runs s)]).
    assert (Hload : forall s3, flat s3 -> flat (_load_summary tenant (next_run_id s1) s3).2).
    { intros s3 H3. unfold _load_summary. rewrite (mbind_run _ _ _ _ _ (get_agent_run_eq tenant _ s3)).
      by destruct (visible _ _ s3). }
    destruct wait; [|by apply Hload].
    assert (HF : flat (execute_ (task_ (S n)) tenant principal (next_run_id s1) s2).2).
    { apply execute_flat; [|done]. intros m' ex. rewrite Hr2, lookup_insert_eq. intros [= <-] _ Hex.
      apply task_keeps_flat. by rewrite Hex, Hd. }
    unfold mbind_. destruct (execute_ _ _ _ _ s2) as [[x|e] s3]; [|done]. by apply Hload.
Qed.
End facts.

(** ** The tools of the service *)

(** The orchestrator of tool runs touches neither runs nor messages. *)
#[global] Instance orchestrator_frame {W} py_str float_of_string exc_str http_send resolve_secret result_valid
    get_tool_config :
  ToolFrame (W := W) (execute_agent_tool_run py_str float_of_string exc_str http_send resolve_secret result_valid
                        get_tool_config).
Proof.
  split. intros t tenant md. unfold execute_agent_tool_run.
  apply respects_bind; [apply _|intros s; reflexivity|intros [x|]]; [|apply respects_raise; apply _].
  destruct (get_tool_config _) as [c|]; [|apply respects_raise; apply _].
  apply respects_bind; [apply _|apply respects_lift; apply _|intros _].
  apply respects_bind; [apply _|apply plain_tool_run_result|intros _].
  apply respects_bind; [apply _| |intros out].
  - apply respects_try; [apply _| |].
    + intros s. destruct (call_tool_tables py_str float_of_string http_send resolve_secret result_valid
        (tcf_config c) (tl_input x) md s) as [w ->]. split; [simpl; lia|done].
    + intros e. apply respects_bind; [apply _|apply plain_tool_run_result|intros _].
      apply respects_bind; [apply _|apply plain_failure|intros _; apply respects_raise; apply _].
  - apply respects_bind; [apply _|apply plain_tool_run_result|intros _; apply respects_ret; apply _].
Qed.

(** ** Cancelling a run that is executing *)

(** A cancelled run may still complete.  A run that is not over is cancelled; when the
    loop that was executing it then ends, the row is overwritten with the outcome of the
    loop: COMPLETED after a final output, FAILED otherwise, although the lifecycle of an
    agent run allows neither after CANCELLED. *)
Theorem cancelled_run_completes {W} tenant r (s : agents W) m sc res :
  visible tenant r s = Some m ->
  rn_canonical m ∉ agent_status_str <$> [AR_COMPLETED; AR_FAILED; AR_CANCELLED] ->
  sc_run sc = r ->
  exists s1 s2 c, cancel_agent_run tenant r s = (Ok (r, c), s1) /\
    rn_canonical c = agent_status_str AR_CANCELLED /\ agent_transitions AR_CANCELLED = [] /\
    _finalize sc res s1 = (Ok tt, s2) /\
    (rn_canonical <$> runs s2 !! r) =
      Some (agent_status_str (if bool_decide (lr_reason res = FINAL_OUTPUT) then AR_COMPLETED else AR_FAILED)).
Proof.
  intros Hv Hc Hr. assert (Hm : runs s !! r = Some m /\ rn_tenant m = tenant).
  { unfold visible in Hv. destruct (runs s !! r); [|done]. case_decide; by simplify_eq. }
  destruct Hm as [Hm Ht].
  assert (Hcancel : exists s1, cancel_agent_run tenant r s = (Ok (r, finished (cancellation m) m), s1) /\
    runs s1 = <[r := finished (cancellation m) m]> (runs s)).
  { unfold cancel_agent_run. rewrite (mbind_run _ _ _ _ _ (get_agent_run_eq tenant r s)), Hv.
    rewrite bool_decide_eq_false_2 by done. rewrite (mbind_run _ _ s (Ok tt) s) by done.
    pose proof (finish_eq r (cancellation m) s) as Hf. rewrite Hm in Hf. rewrite (mbind_run _ _ _ _ _ Hf).
    rewrite (mbind_run (append_event r _) _ _ (Ok tt) _ eq_refl). unfold _load_summary.
    rewrite (mbind_run _ _ _ _ _ (get_agent_run_eq tenant r _)). unfold visible. simpl.
    rewrite lookup_insert_eq. simpl. rewrite decide_True by done. by eexists. }
  destruct Hcancel as (s1 & H1 & Hr1).
  destruct (finalize_eq sc res s1 (finished (cancellation m) m)) as (s2 & H2 & Hr2).
  { by rewrite Hr, Hr1, lookup_insert_eq. }
  exists s1, s2, (finished (cancellation m) m). split_and!; try done.
  rewrite Hr2, Hr, lookup_insert_eq. done.
Qed.
