(* ===== verification/AgentSample.v ===== *)
(** * AgentSample: an agent service on concrete data

    Two agents of one tenant: the first has a tool and may delegate to the second.  The
    model is a script of answers, the tool's endpoint always answers.  The witnesses of
    the theorems on tool runs, the agent loop and agent runs evaluate this service. *)

From S2P Require Import Prelude.
From S2P Require Import Errors.
From S2P Require Import PyValue.
From S2P Require Import PyString.
From S2P Require Import PyFloat.
From S2P Require Import StateMachine.
From S2P Require Import Effects.
From S2P Require Import Store.
From S2P Require Import AgentTools.
From S2P Require Import AgentStore.
From S2P Require Import ToolRuns.
From S2P Require Import AgentLoop.
From S2P Require Import AgentRun.

Module SampleAgents.
(** The answers still to come. *)
Definition script : Type := list (res exc AgentTurnCompletion).

Definition complete (_ : AgentTurnRequest) (w : script) : res exc AgentTurnCompletion * script :=
  match w with [] => (Err (ExternalError "APIError" "no answer"), []) | c :: w => (c, w) end.
Definition send (_ : http_request) (w : script) : res exc pydict * script :=
  (Ok [("status_code", PInt 200)], w).
Definition secret (_ : string) (w : script) : res exc string * script := (Ok "s3cret", w).

Definition show_exc (e : exc) : string := exc_type e.
Definition config (c : uuid) : option tool_config :=
  if (c =? 2)%N then Some {| tcf_tenant := 7%N; tcf_config := [("base_url", PStr "https://t/"); ("path", PStr "x")] |}
  else None.

Definition execute_tool : uuid -> uuid -> pydict -> M (agents script) pydict :=
  execute_agent_tool_run SampleTools.show (fun _ => None) show_exc send secret (fun _ => true) config.

(** Agents 1 and 2 of tenant 7, with versions 1 and 2, policy 5 and model 6. *)
Definition tables : catalog := {|
  cf_agent := fun a => if ((a =? 1) || (a =? 2))%N then Some (7%N, Some "agent") else None;
  cf_active_version := fun a => Some a;
  cf_version := fun _ => Some {| av_status := "PUBLISHED"; av_policy := Some 5%N; av_persona := PNone;
                                 av_prompt := Some "be brief" |};
  cf_policy := fun _ => Some ("PUBLISHED", 6%N);
  cf_model := fun _ => Some "model-x";
  cf_billing := fun _ => Some 8%N;
  cf_tools := fun v => if (v =? 1)%N then [SampleTools.row 2 "lookup"] else [];
|}.

Definition answer (text : string) (calls : list AgentToolCall) : res exc AgentTurnCompletion :=
  Ok {| cp_text := text; cp_tool_calls := calls; cp_stop_reason := "stop"; cp_usage := [("input_tokens", 3%Z)] |}.
Definition lookup_call : AgentToolCall := {| call_id := "c1"; call_name := "lookup"; call_arguments := [] |}.
Definition delegate_call : AgentToolCall := {|
  call_id := "c2"; call_name := DELEGATION_TOOL_NAME;
  call_arguments := [("agent_id", PStr (SampleTools.text 2)); ("instruction", PStr "help")] |}.

(** The caller's run calls the tool and delegates, the delegate answers, the caller answers. *)
Definition answers : script :=
  [answer "" [lookup_call; delegate_call]; answer "helped" []; answer "done" []].

Definition empty : agents script := {|
  next_run_id := 100; runs := ∅; messages := []; run_events := []; artifacts := []; tool_runs := ∅;
  run_failures := []; delegations := ∅; usage := []; outside := answers |}.

Definition persona (_ : pyval) : res exc PersonaConfig := Err PydanticValidationError.
Definition no_item (_ : pyval) : res exc AgentRunContextItem := Err PydanticValidationError.
Definition dump_item (_ : AgentRunContextItem) : pyval := PNone.
Definition digits (_ : Z) : string := "1".
Definition json (_ : pyval) : string := "{}".
Definition no_errors (_ : exc) : list string := [].
Definition dumped (_ : A2ATask) : pydict := [].
Definition accept_all (_ _ : pydict) : res exc (option string) := Ok None.
Definition decimal_of (_ : pyfloat) : decimal := dec_zero.

Abbreviation the_runner n := (run_a2a_task SampleTools.text SampleTools.text SampleTools.parse SampleTools.show digits
  json show_exc no_errors dumped accept_all execute_tool 3 complete None decimal_of persona no_item dump_item tables 5 n).
Abbreviation the_execute := (_execute SampleTools.text SampleTools.text SampleTools.parse SampleTools.show digits
  json show_exc no_errors dumped accept_all execute_tool 3 complete None decimal_of persona no_item tables 5).
Abbreviation the_create := (create_and_wait SampleTools.text SampleTools.text SampleTools.parse SampleTools.show digits
  json show_exc no_errors dumped accept_all execute_tool 3 complete None decimal_of persona no_item dump_item tables 5).

#[global] Instance sample_tools : ToolFrame execute_tool := orchestrator_frame _ _ _ _ _ _ _.

Definition definition : AgentDefinition :=
  match resolve_definition SampleTools.text SampleTools.show persona tables 7 1 with
  | Ok d => d
  | Err _ => {| ad_agent := 0; ad_name := None; ad_version := 0; ad_system_prompt := None; ad_persona := None;
                ad_model := ""; ad_policy := 0; ad_billing := 0; ad_tools := [] |}
  end.
Definition grant : ResolvedToolGrant :=
  {| gr_tools := SampleTools.tools [SampleTools.row 2 "lookup"]; allow_agent_delegation := true;
     delegate_agent_ids := [2%N] |}.
Definition request : AgentRunCreate := {|
  cr_agent := 1; cr_instruction := "work"; cr_payload := []; cr_context := [];
  cr_tools := {| allowed_tool_names := None; rq_allow_delegation := true; rq_delegates := [2%N] |};
  cr_max_iterations := None; cr_correlation := Some 50%N; cr_metadata := [] |}.

(** What the run leaves: two completed runs, one of depth 1, a tool run and a delegation. *)
Example service_runs :
  match the_create 1 true 7 "alice" "k" definition grant request empty with
  | (Ok (r, m), s) =>
      (r, rn_canonical m, rn_iterations_used m, rn_tokens m) = (100%N, "COMPLETED", 2%Z, Some (6%Z, 0%Z)) /\
      (fun kv => (kv.1, rn_canonical kv.2, rn_depth kv.2)) <$> map_to_list (runs s) =
        [(100%N, "COMPLETED", 0%Z); (105%N, "COMPLETED", 1%Z)] /\
      md_role <$> list_rows 100 (messages s) =
        ["system"; "developer"; "user"; "assistant"; "tool"; "tool"; "assistant"] /\
      md_role <$> list_rows 105 (messages s) = ["system"; "developer"; "user"; "assistant"]
  | _ => False
  end.
Proof. by vm_compute. Qed.

(** A run that exists and has not started. *)
Definition created : agents script :=
  match _create_run_record SampleTools.text dump_item 5 7 "alice" definition grant "work" [] [] None 50 DIRECT []
          None None None 0 empty with
  | (_, s) => s
  end.
Definition scope : AgentRunScope := {|
  sc_tenant := 7; sc_principal := "alice"; sc_run := 100; sc_agent := 1; sc_correlation := 50; sc_root := 100;
  sc_depth := 0; sc_metadata := [] |}.
Definition opening : list AgentRunPromptPart :=
  build SampleTools.text digits json definition grant [] "work" [].
Abbreviation the_loop := (run_loop SampleTools.text SampleTools.text SampleTools.parse SampleTools.show json show_exc
  no_errors dumped accept_all execute_tool 3 complete None decimal_of).

#[global] Instance sample_frame : RunFrame execute_tool 100 (the_runner 1).
Proof. apply service_frame, _. Defined.

(** A tool run of the tool's configuration. *)
Definition with_tool_run : agents script := (create_tool_run 2 50 (Some 100%N) None None [] (Some "c1") empty).2.
End SampleAgents.

(** ** Witnesses *)

Lemma tool_run_settles_witness :
  exists r w, SampleAgents.execute_tool 100 7 [] SampleAgents.with_tool_run =
    (r, set_outside w (set_run_failures (match r with
           | Ok _ => []
           | Err e => [(100%N, if is_domain_validation e then "tool_response_validation_failed"
                               else "tool_execution_error")]
           end) (set_tool_runs (<[100%N := settled SampleAgents.show_exc r
              {| tl_config := 2; tl_agent_run := Some 100%N; tl_node_run := None; tl_correlation := 50;
                 tl_key := None; tl_input := []; tl_call_id := Some "c1"; tl_status := "CREATED";
                 tl_canonical := "CREATED"; tl_output := []; tl_error := []; tl_finished := false |}]>
            (tool_runs SampleAgents.with_tool_run)) SampleAgents.with_tool_run))).
Proof.
  destruct (tool_run_settles SampleTools.show (fun _ => None) SampleAgents.show_exc SampleAgents.send
    SampleAgents.secret (fun _ => true) SampleAgents.config 100 7 [] SampleAgents.with_tool_run
    {| tl_config := 2; tl_agent_run := Some 100%N; tl_node_run := None; tl_correlation := 50;
       tl_key := None; tl_input := []; tl_call_id := Some "c1"; tl_status := "CREATED";
       tl_canonical := "CREATED"; tl_output := []; tl_error := []; tl_finished := false |}
    {| tcf_tenant := 7%N; tcf_config := [("base_url", PStr "https://t/"); ("path", PStr "x")] |})
    as (r & w & H & _); [reflexivity..|]. exists r, w. exact H.
Defined.

Lemma dispatch_authorised_witness :
  exists o s', dispatch SampleTools.text SampleTools.text SampleTools.parse SampleTools.show SampleAgents.json
      SampleAgents.show_exc SampleAgents.dumped SampleAgents.accept_all SampleAgents.execute_tool 3
      SampleAgents.scope SampleAgents.grant SampleAgents.lookup_call (SampleAgents.the_runner 1)
      SampleAgents.created = (Ok o, s') /\
    oc_tool_run o = Some (next_run_id SampleAgents.created).
Proof.
  destruct (dispatch SampleTools.text SampleTools.text SampleTools.parse SampleTools.show SampleAgents.json
      SampleAgents.show_exc SampleAgents.dumped SampleAgents.accept_all SampleAgents.execute_tool 3
      SampleAgents.scope SampleAgents.grant SampleAgents.lookup_call (SampleAgents.the_runner 1)
      SampleAgents.created) as [[o|e] s'] eqn:E; [|vm_compute in E; discriminate].
  exists o, s'. split; [reflexivity|].
  destruct (dispatch_authorised _ _ _ _ _ _ _ _ _ _ _ _ _ _ _ _ _ E) as [(Hs & _)|[(b & _ & _ & _ & H & _)|(H & _)]].
  - rewrite Hs in E. apply (f_equal (fun x => next_run_id x.2)) in E. vm_compute in E. discriminate.
  - exact H.
  - discriminate.
Defined.

Lemma loop_reads_transcript_witness :
  SampleAgents.the_loop SampleAgents.scope SampleAgents.definition SampleAgents.grant SampleAgents.opening 5
    (SampleAgents.the_runner 1) SampleAgents.created =
  (_seed_transcript SampleAgents.scope SampleAgents.opening ;;*
   loop_stored SampleTools.text SampleTools.text SampleTools.parse SampleTools.show SampleAgents.json
     SampleAgents.show_exc SampleAgents.no_errors SampleAgents.dumped SampleAgents.accept_all
     SampleAgents.execute_tool 3 SampleAgents.complete None SampleAgents.decimal_of SampleAgents.scope
     (SampleAgents.the_runner 1) SampleAgents.definition SampleAgents.grant 5 5 1
     (fresh_state (to_message <$> SampleAgents.opening))) SampleAgents.created.
Proof. apply loop_reads_transcript; reflexivity || apply _. Defined.

Lemma run_transcript_witness :
  exists res s', SampleAgents.the_loop SampleAgents.scope SampleAgents.definition SampleAgents.grant
      SampleAgents.opening 5 (SampleAgents.the_runner 1) SampleAgents.created = (Ok res, s') /\
    ends_well SampleAgents.scope (to_message <$> SampleAgents.opening) 5 res s'.
Proof.
  destruct (SampleAgents.the_loop SampleAgents.scope SampleAgents.definition SampleAgents.grant
      SampleAgents.opening 5 (SampleAgents.the_runner 1) SampleAgents.created) as [[res|e] s'] eqn:E;
    [|vm_compute in E; discriminate].
  exists res, s'. split; [reflexivity|].
  eapply (run_transcript _ _ _ _ _ _ _ _ _ _ _ _ _ _ _ _ _ _ _ 5 _ _ _ E); reflexivity.
Defined.

Lemma execute_settles_witness :
  exists result s', SampleAgents.the_execute (SampleAgents.the_runner 1) 7 "alice" 100 SampleAgents.created =
      (Ok result, s') /\
    rn_canonical <$> runs s' !! 100%N = Some "COMPLETED".
Proof.
  destruct (SampleAgents.the_execute (SampleAgents.the_runner 1) 7 "alice" 100 SampleAgents.created)
    as [res s'] eqn:E.
  destruct (visible 7 100 SampleAgents.created) as [m|] eqn:Em; [|vm_compute in Em; discriminate].
  pose proof (execute_settles _ _ _ _ _ _ _ _ _ _ _ _ _ _ _ _ _ _ _ _ 1 7 "alice" 100 SampleAgents.created m
    res s' E Em eq_refl) as H.
  destruct res as [result|e]; [|vm_compute in E; discriminate]. exists result, s'. split; [reflexivity|].
  rewrite H. vm_compute in E. injection E as <- _. reflexivity.
Defined.

Lemma delegation_is_flat_witness :
  SampleAgents.the_create 9 true 7 "alice" "k" SampleAgents.definition SampleAgents.grant SampleAgents.request
    SampleAgents.empty =
  SampleAgents.the_create 1 true 7 "alice" "k" SampleAgents.definition SampleAgents.grant SampleAgents.request
    SampleAgents.empty /\
  flat (SampleAgents.the_create 9 true 7 "alice" "k" SampleAgents.definition SampleAgents.grant SampleAgents.request
    SampleAgents.empty).2.
Proof. apply delegation_is_flat; [apply _|]. intros r m H. discriminate. Defined.

Lemma cancelled_run_completes_witness :
  exists s1 s2 c, cancel_agent_run 7 100 SampleAgents.created = (Ok (100%N, c), s1) /\
    rn_canonical c = agent_status_str AR_CANCELLED /\
    _finalize SampleAgents.scope
      {| lr_reason := FINAL_OUTPUT; lr_text := "done"; lr_iterations := 1; lr_input_tokens := 0;
         lr_output_tokens := 0; lr_cost := None; lr_error := []; lr_tool_calls := 0 |} s1 = (Ok tt, s2) /\
    rn_canonical <$> runs s2 !! 100%N = Some "COMPLETED".
Proof.
  destruct (visible 7 100 SampleAgents.created) as [m|] eqn:Em; [|vm_compute in Em; discriminate].
  destruct (cancelled_run_completes 7 100 SampleAgents.created m SampleAgents.scope
    {| lr_reason := FINAL_OUTPUT; lr_text := "done"; lr_iterations := 1; lr_input_tokens := 0;
       lr_output_tokens := 0; lr_cost := None; lr_error := []; lr_tool_calls := 0 |}) as (s1 & s2 & c & H).
  - exact Em.
  - vm_compute in Em. injection Em as <-. apply (bool_decide_eq_false_1 _). reflexivity.
  - reflexivity.
  - exists s1, s2, c. destruct H as (H1 & H2 & _ & H4 & H5). split_and!; done.
Defined.
