(* ===== verification/A2A.v ===== *)
(** * A2A: the agent-to-agent surface

    [src/src/domain/agents/controllers/a2a_controller.py] (JSON-RPC methods over agent
    runs) and the status translation of [a2a_translator.py].  The operations of the
    execution boundary that the controller calls are arguments of the controller; the
    theorems run it against the service of [AgentRun]. *)

From S2P Require Import Prelude.
From S2P Require Import Errors.
From S2P Require Import PyValue.
From S2P Require Import PyString.
From S2P Require Import PyFloat.
From S2P Require Import StateMachine.
From S2P Require Import Effects.
From S2P Require Import Store.
From S2P Require Import Redis.
From S2P Require Import AgentTools.
From S2P Require Import AgentStore.
From S2P Require Import ToolRuns.
From S2P Require Import AgentLoop.
From S2P Require Import AgentRun.
From S2P Require Import AgentSample.

(** ** Tasks of runs *)

(** [A2ATranslator.task_state_for_run_status]. *)
Definition task_state_for_run_status (canonical : string) : A2ATaskState :=
  if String.eqb canonical "CREATED" then SUBMITTED
  else if String.eqb canonical "RUNNING" then WORKING
  else if String.eqb canonical "COMPLETED" then TS_COMPLETED
  else if String.eqb canonical "FAILED" then TS_FAILED
  else if String.eqb canonical "CANCELLED" then CANCELED
  else UNKNOWN.

(** [TERMINAL_TASK_STATES]. *)
Definition is_terminal_task (s : A2ATaskState) : bool :=
  match s with TS_COMPLETED | CANCELED | TS_FAILED | REJECTED => true | _ => false end.

(** ** Requests and responses *)

Record JsonRpcRequest : Type := {
  jq_method : string;
  jq_id : pyval;
  jq_params : pydict;
}.

Record JsonRpcError : Type := {
  je_code : Z;
  je_message : string;
  je_data : pydict;
}.

Record JsonRpcResponse : Type := {
  jr_id : pyval;
  jr_result : option pydict;
  jr_error : option JsonRpcError;
}.

(** [A2AErrorCode], the codes the controller uses. *)
Definition METHOD_NOT_FOUND : Z := (-32601)%Z.
Definition INVALID_PARAMS : Z := (-32602)%Z.
Definition INTERNAL_ERROR : Z := (-32603)%Z.
Definition TASK_NOT_FOUND : Z := (-32001)%Z.

(** [isinstance(exc, ValueError)]: pydantic's error is one. *)
Definition is_value_error (e : exc) : bool :=
  match e with PyValueError | PydanticValidationError => true | _ => false end.

Definition ENDPOINT : string := "/core/v1/agents/a2a".

Section controller.
Context {S : Type}.
Variable uuid_str : uuid -> string.
Variable uuid_parse : string -> option uuid.
Variable py_str : pyval -> string.
Variable int_str : Z -> string.
Variable exc_str : exc -> string.
Variable dump_task : A2ATask -> pydict.
(** [A2AMessage.model_validate]. *)
Variable message_validate : pydict -> res exc A2AMessage.
(** [uuid4().hex]. *)
Variable fresh_hex : M S string.
(** [boundary.create_agent_run] with [wait], [get_agent_run] and [cancel_agent_run]. *)
Variable create : string -> AgentRunCreate -> M S (uuid * agent_run_row).
Variable detail : uuid -> M S AgentRunDetail.
Variable cancel : uuid -> M S (uuid * agent_run_row).

(** [_task_id_to_run_id]. *)
Definition _task_id_to_run_id (params : pydict) : res exc uuid :=
  match dict_getv "id" params with
  | PStr raw =>
      raise_if (String.eqb (py_strip raw) "") PyValueError ;;!
      or_raise (uuid_parse raw) PyValueError
  | _ => Err PyValueError
  end.

(** [_task_from_run]. *)
Definition _task_from_run (d : AgentRunDetail) : M S A2ATask :=
  let m := vd_row d in
  let task := uuid_str (vd_id d) in
  let context := uuid_str (rn_root m) in
  let output := dict_getv "text" (rn_output m) in
  let text := if truthy output then str_of py_str output else "" in
  let* status := (if String.eqb text "" then mret None
                  else let* i := fresh_hex in
                       mret (Some {| am_id := i; am_role := "agent"; am_parts := [A2ATextPart text];
                                     am_task := task; am_context := context |})) in
  mret {|
    tk_id := task; tk_context := context; tk_state := task_state_for_run_status (rn_canonical m);
    tk_message := status; tk_history := option_list status;
    tk_artifacts := (fun a => build_output_artifact int_str (nb_sequence a)
                                (if String.eqb (af_name (nb_data a)) "" then "artifact" else af_name (nb_data a))
                                (af_description (nb_data a)) (af_text (nb_data a))) <$> vd_artifacts d;
    tk_metadata := [("agent_id", PStr (uuid_str (rn_agent m)));
                    ("agent_version_id", PStr (uuid_str (rn_version m)));
                    ("finish_reason", match rn_finish_reason m with
                                      | Some f => if String.eqb f "" then PNone else PStr f
                                      | None => PNone
                                      end)] |}.

(** [AgentRunCreate(...)] as [_message_send] builds it: the instruction has a maximal length. *)
Definition run_request (agent : uuid) (instruction : string) (m : A2AMessage) : res exc AgentRunCreate :=
  raise_if (20 * 1000 <? String.length instruction) PydanticValidationError ;;!
  Ok {| cr_agent := agent; cr_instruction := instruction; cr_payload := message_data_of m; cr_context := [];
        cr_tools := {| allowed_tool_names := None; rq_allow_delegation := false; rq_delegates := [] |};
        cr_max_iterations := None; cr_correlation := None;
        cr_metadata := [("a2a_context_id", PStr (am_context m))] |}.

(** [_message_send]. *)
Definition _message_send (agent : uuid) (params : pydict) : M S A2ATask :=
  match dict_getv "message" params with
  | PDict raw =>
      let* m := mlift (message_validate raw) in
      let instruction := py_strip (message_text m) in
      mlift (raise_if (String.eqb instruction "") PyValueError) ;;*
      let* key := if String.eqb (am_id m) "" then fresh_hex else mret (am_id m) in
      let* q := mlift (run_request agent instruction m) in
      let* summary := create key q in
      let* d := detail summary.1 in
      _task_from_run d
  | _ => mraise PyValueError
  end.

(** [_tasks_get]. *)
Definition _tasks_get (params : pydict) : M S A2ATask :=
  let* r := mlift (_task_id_to_run_id params) in
  let* d := detail r in
  _task_from_run d.

(** [_tasks_cancel]. *)
Definition _tasks_cancel (params : pydict) : M S A2ATask :=
  let* r := mlift (_task_id_to_run_id params) in
  let* summary := cancel r in
  let* d := detail summary.1 in
  _task_from_run d.

Definition _error (i : pyval) (code : Z) (message : string) (data : pydict) : JsonRpcResponse :=
  {| jr_id := i; jr_result := None;
     jr_error := Some {| je_code := code; je_message := message; je_data := data |} |}.

(** The method of a request, [None] for an unknown one. *)
Definition rpc_method (agent : uuid) (rpc : JsonRpcRequest) : option (M S A2ATask) :=
  if String.eqb (jq_method rpc) "message/send" then Some (_message_send agent (jq_params rpc))
  else if String.eqb (jq_method rpc) "tasks/get" then Some (_tasks_get (jq_params rpc))
  else if String.eqb (jq_method rpc) "tasks/cancel" then Some (_tasks_cancel (jq_params rpc))
  else None.

(** [handle_json_rpc]. *)
Definition handle_json_rpc (agent : uuid) (rpc : JsonRpcRequest) : M S JsonRpcResponse :=
  match rpc_method agent rpc with
  | None => mret (_error (jq_id rpc) METHOD_NOT_FOUND "method_not_found" [("method", PStr (jq_method rpc))])
  | Some m =>
      mtry (let* t := m in
            mret {| jr_id := jq_id rpc; jr_result := Some (dump_task t); jr_error := None |})
        (fun e =>
           if is_value_error e then
             mret (_error (jq_id rpc) INVALID_PARAMS "invalid_params" [("detail", PStr (exc_str e))])
           else match status_code e with
                | Some c => mret (_error (jq_id rpc) (if (c =? 404)%Z then TASK_NOT_FOUND else INTERNAL_ERROR)
                                    (exc_message e) [("name", PStr (exc_code e))])
                | None => mraise e
                end)
  end.
End controller.

(** The identifier of a valid message. *)
Definition message_id_of (m : res exc A2AMessage) : string :=
  match m with Ok m => am_id m | Err _ => "" end.

(** ** The lifecycle over the wire *)

(** A run's status has one task state, never [UNKNOWN], and the task is terminal exactly
    when the lifecycle of the run has ended. *)
Lemma task_state_lifecycle st :
  task_state_for_run_status (agent_status_str st) <> UNKNOWN /\
  (is_terminal_task (task_state_for_run_status (agent_status_str st)) = true <-> agent_transitions st = []).
Proof. destruct st; (split; [discriminate|]); split; (discriminate || reflexivity). Qed.

(** ** Agent cards

    [src/src/domain/agents/services/agent_card_service.py]. *)

Record A2AAgentSkill : Type := {
  sk_id : string;
  sk_name : string;
  sk_description : string;
}.

Record A2AAgentCard : Type := {
  ac_name : string;
  ac_description : string;
  ac_url : string;
  ac_version : string;
  ac_skills : list A2AAgentSkill;
}.

(** What the card reads of an agent version. *)
Record card_version : Type := {
  cv_description : option string;
  cv_numbers : Z * Z * Z;
}.

Section card.
Variable uuid_str : uuid -> string.
Variable py_str : pyval -> string.
Variable int_str : Z -> string.
Variable public_base_url : string.
Variable cfg : catalog.
Variable card_version_of : uuid -> option card_version.

(** [_rpc_url]. *)
Definition _rpc_url (agent : uuid) : string :=
  py_rstrip "/" public_base_url +:+ "/core/v1/a2a/agents/" +:+ uuid_str agent.

(** [str(a or b or "")] of two values of a configuration. *)
Definition first_text (a b : pyval) : string :=
  str_of py_str (if truthy a then a else if truthy b then b else PStr "").

Definition skill_of (r : tool_row) : A2AAgentSkill :=
  let operation := first_text (dict_getv "operation_id" (tr_config r)) (PStr "") in
  let id := if String.eqb operation "" then uuid_str (tr_config_id r) else operation in
  {| sk_id := id; sk_name := or_text (tr_name r) id;
     sk_description := first_text (dict_getv "summary" (tr_config r)) (dict_getv "description" (tr_config r)) |}.

(** [build_agent_card]: the skills are the published tools of the active version. *)
Definition build_agent_card (tenant agent : uuid) : res exc A2AAgentCard :=
  let! found := or_raise (cf_agent cfg agent) (NotFoundServiceException "agent_not_found") in
  raise_if (negb (bool_decide (found.1 = tenant))) (NotFoundServiceException "agent_not_found") ;;!
  let! version := or_raise (cf_active_version cfg agent)
                    (NotFoundServiceException "agent_active_version_not_found") in
  let! v := or_raise (card_version_of version) (NotFoundServiceException "agent_version_not_found") in
  let '(major, minor, patch) := cv_numbers v in
  Ok {| ac_name := or_text found.2 ("agent-" +:+ uuid_str agent);
        ac_description := or_text (cv_description v) "";
        ac_url := _rpc_url agent;
        ac_version := int_str major +:+ "." +:+ int_str minor +:+ "." +:+ int_str patch;
        ac_skills := skill_of <$> cf_tools cfg version |}.

(** The route of [handle_json_rpc] ([prefix] and path of the controller). *)
Definition rpc_route (agent : uuid) : string := "/core/v1/agents/" +:+ uuid_str agent +:+ "/a2a".
End card.

Lemma append_inj (a x y : string) : a +:+ x = a +:+ y -> x = y.
Proof. induction a as [|c a IH]; simpl; [done|]. intros [= H]. auto. Qed.

(** The address a card advertises is never the address the controller serves. *)
Lemma card_url_not_served uuid_str py_str int_str base cfg versions tenant agent card :
  build_agent_card uuid_str py_str int_str base cfg versions tenant agent = Ok card ->
  ac_url card <> py_rstrip "/" base +:+ rpc_route uuid_str agent.
Proof.
  unfold build_agent_card. intros H. apply rbind_ok in H as (f & _ & H). apply rbind_ok in H as ([] & _ & H).
  apply rbind_ok in H as (ver & _ & H). apply rbind_ok in H as (v & _ & H).
  destruct (cv_numbers v) as [[a b] c]. injection H as <-. cbn [ac_url]. unfold _rpc_url, rpc_route.
  intros E. apply append_inj in E. discriminate E.
Qed.

(** ** The controller over the agent run service *)

Section over_service.
Context {W : Type}.
Variable uuid_str : uuid -> string.
Variable uuid_hex : uuid -> string.
Variable uuid_parse : string -> option uuid.
Variable py_str : pyval -> string.
Variable int_str : Z -> string.
Variable dumps : pyval -> string.
Variable exc_str : exc -> string.
Variable exc_errors : exc -> list string.
Variable dump_task : A2ATask -> pydict.
Variable schema_check : pydict -> pydict -> res exc (option string).
Variable execute_tool : uuid -> uuid -> pydict -> M (agents W) pydict.
Context {Tools : ToolFrame execute_tool}.
Variable max_delegation_depth : Z.
Variable complete_agent_turn : AgentTurnRequest -> W -> res exc AgentTurnCompletion * W.
Variable compute_cost : option (string -> Z -> Z -> W -> res exc pyfloat * W).
Variable float_decimal : pyfloat -> decimal.
Variable persona_validate : pyval -> res exc PersonaConfig.
Variable item_validate : pyval -> res exc AgentRunContextItem.
Variable item_dump : AgentRunContextItem -> pyval.
Variable cfg : catalog.
Variable default_max_iterations : Z.
Variable silent_mode : bool.
Variable ttl : Z.
Hypothesis ttl_ok : (0 < ttl)%Z.
Variable dump : uuid * agent_run_row -> pyval.
Variable validate : pyval -> res exc (uuid * agent_run_row).
Variable message_validate : pydict -> res exc A2AMessage.
Variable fuel : nat.
Variable tenant : uuid.
Variable principal : string.

(** The key a message is stored under: the tenant and the message, not the agent. *)
Definition message_key (message_id : string) : string := build_key (uuid_str tenant) ENDPOINT message_id.

Definition service_create (key : string) (q : AgentRunCreate) : M (redis * agents W) (uuid * agent_run_row) :=
  create_agent_run uuid_str uuid_hex uuid_parse py_str int_str dumps exc_str exc_errors dump_task schema_check
    execute_tool max_delegation_depth complete_agent_turn compute_cost float_decimal persona_validate
    item_validate item_dump cfg default_max_iterations silent_mode ttl dump validate fuel true tenant principal
    (message_key key) key q.
Definition service_detail (r : uuid) : M (redis * agents W) AgentRunDetail :=
  on_world 0 (get_agent_run_detail tenant r).
Definition service_hex : M (redis * agents W) string := on_world 0 (new_hex uuid_hex).

Abbreviation send_ := (_message_send uuid_str py_str int_str message_validate service_hex service_create
  service_detail).
Abbreviation task_of_ := (_task_from_run uuid_str py_str int_str service_hex).

Lemma on_world_ok {A} (m : M (agents W) A) s a s' :
  on_world 0 m s = (Ok a, s') -> m s.2 = (Ok a, s'.2) /\ s'.1 = tick 0 s.1.
Proof. unfold on_world. destruct (m s.2) as [x w]. intros [= -> <-]. done. Qed.

(** The detail of a visible run. *)
Lemma detail_ok r (s : agents W) d s' :
  get_agent_run_detail tenant r s = (Ok d, s') ->
  s' = s /\ vd_id d = r /\ visible tenant r s = Some (vd_row d).
Proof.
  unfold get_agent_run_detail. rewrite (mbind_run _ _ _ _ _ (get_agent_run_eq tenant r s)).
  destruct (visible tenant r s) as [m|]; [|discriminate]. cbn. by intros [= <- <-].
Qed.

(** The identity and the state of a task are those of the run; translating it writes nothing
    but fresh identifiers. *)
Lemma task_from_run_ok d (s : redis * agents W) t s' :
  task_of_ d s = (Ok t, s') ->
  tk_id t = uuid_str (vd_id d) /\ tk_state t = task_state_for_run_status (rn_canonical (vd_row d)) /\
  runs s'.2 = runs s.2.
Proof.
  unfold _task_from_run. intros H. apply mbind_ok in H as (st & s1 & H1 & H). injection H as <- <-.
  split; [done|]. split; [done|]. destruct (String.eqb _ ""); [by injection H1 as _ <-|].
  apply mbind_ok in H1 as (i & s2 & H1 & H2). injection H2 as _ <-.
  unfold service_hex in H1. apply on_world_ok in H1 as [H1 _]. unfold new_hex in H1.
  apply mbind_ok in H1 as (u & a & Hu & Ha). injection Ha as _ <-. by injection Hu as _ <-.
Qed.

(** A first request runs the service; what it answers is the row of a finished run. *)
Lemma service_create_row key q s r m s' :
  healthy s.1 -> rlookup s.1 (message_key key) = None ->
  service_create key q s = (Ok (r, m), s') ->
  visible tenant r s'.2 = Some m /\ exists res, rn_canonical m = fi_canonical (finish_of res).
Proof using ttl_ok Tools.
  intros Hh Hk H. unfold service_create, create_agent_run, idempotent_call in H.
  apply mbind_ok in H as (d & s1 & H1 & H). injection H1 as _ <-.
  apply mbind_ok in H as (g & s2 & H2 & H). injection H2 as _ <-.
  destruct s as [rd ag]. simpl in Hh, Hk.
  rewrite (mbind_run _ _ _ _ _ (on_redis_run _ _ _ _ _ (acquire_free silent_mode ttl ttl_ok _ rd Hh Hk))) in H.
  apply mbind_ok in H as ([r' m'] & s3 & H3 & H). apply on_world_ok in H3 as [H3 _].
  apply create_wait_row in H3; [|done].
  apply mbind_ok in H as ([] & s4 & H4 & H). injection H as <- <- <-.
  unfold on_redis in H4. destruct (set_result _ _ _ _ s3.1) as [x rd']. injection H4 as _ <-. exact H3.
Qed.

(** A message is a finished task.  When a message with a new identifier is answered
    with a task, the run behind it is over: the task is completed or failed, so a caller
    never polls a task that message/send returned. *)
Theorem message_send_settles agent params m t s s' :
  dict_getv "message" params = PDict m -> message_id_of (message_validate m) <> "" ->
  healthy s.1 -> rlookup s.1 (message_key (message_id_of (message_validate m))) = None ->
  send_ agent params s = (Ok t, s') ->
  (tk_state t = TS_COMPLETED \/ tk_state t = TS_FAILED) /\ is_terminal_task (tk_state t) = true.
Proof using ttl_ok Tools.
  intros Hm Hid Hh Hk H. unfold _message_send in H. rewrite Hm in H.
  apply mbind_ok in H as (msg & s1 & H1 & H). injection H1 as Hv <-. rewrite Hv in Hid, Hk. simpl in Hid, Hk.
  apply mbind_ok in H as ([] & s2 & H2 & H). injection H2 as _ <-.
  apply mbind_ok in H as (key & s3 & H3 & H). apply String.eqb_neq in Hid. rewrite Hid in H3.
  injection H3 as <- <-. apply mbind_ok in H as (q & s4 & H4 & H). injection H4 as _ <-.
  apply mbind_ok in H as ([r row] & s5 & H5 & H). apply service_create_row in H5 as [Hr [res Hres]]; [|done..].
  apply mbind_ok in H as (d & s6 & H6 & H). apply on_world_ok in H6 as [H6 _].
  apply detail_ok in H6 as (_ & _ & Hd). simpl in Hd. rewrite Hr in Hd. injection Hd as ->.
  apply task_from_run_ok in H as (_ & -> & _). rewrite Hres. simpl.
  destruct (bool_decide _); simpl; auto.
Qed.

(** A message identifier is one task for the whole tenant.  Once a response is stored
    for a message identifier, sending a message with that identifier to any other agent
    whose definition resolves answers with the task of the stored run: no run of the
    addressed agent is created. *)
Theorem message_id_spans_agents agent params m t s s' v r row exp :
  dict_getv "message" params = PDict m -> message_id_of (message_validate m) <> "" ->
  healthy s.1 ->
  rlookup s.1 (message_key (message_id_of (message_validate m))) = Some (RJson (PDict [("response", v)]), exp) ->
  validate v = Ok (r, row) ->
  send_ agent params s = (Ok t, s') ->
  tk_id t = uuid_str r /\ runs s'.2 = runs s.2.
Proof using ttl_ok.
  intros Hm Hid Hh Hk Hval H. unfold _message_send in H. rewrite Hm in H.
  apply mbind_ok in H as (msg & s1 & H1 & H). injection H1 as Hv <-. rewrite Hv in Hid, Hk. simpl in Hid, Hk.
  apply mbind_ok in H as ([] & s2 & H2 & H). injection H2 as _ <-.
  apply mbind_ok in H as (key & s3 & H3 & H). apply String.eqb_neq in Hid. rewrite Hid in H3.
  injection H3 as <- <-. apply mbind_ok in H as (q & s4 & H4 & H). injection H4 as _ <-.
  apply mbind_ok in H as (summary & s5 & H5 & H). unfold service_create, create_agent_run, idempotent_call in H5.
  apply mbind_ok in H5 as (d & s6 & H6 & H5). injection H6 as _ <-.
  apply mbind_ok in H5 as (g & s7 & H7 & H5). injection H7 as _ <-.
  destruct s as [rd ag]. simpl in Hh, Hk.
  rewrite (mbind_run _ _ _ _ _ (on_redis_run _ _ _ _ _ (acquire_taken silent_mode ttl ttl_ok _ rd _ Hh Hk))) in H5.
  rewrite (mbind_run _ _ _ _ _ (on_redis_run _ _ _ _ _ (get_taken silent_mode _ rd _ Hh Hk))) in H5.
  cbn in H5. rewrite Hval in H5. injection H5 as <- <-.
  apply mbind_ok in H as (d' & s8 & H8 & H). apply on_world_ok in H8 as [H8 _].
  apply detail_ok in H8 as (E8 & Hid8 & _). simpl in E8, Hid8.
  apply task_from_run_ok in H as (-> & _ & ->). rewrite Hid8, E8. done.
Qed.
End over_service.

(** ** Witnesses *)

Module SampleA2A.
Import SampleAgents.

Definition message : A2AMessage :=
  {| am_id := "m1"; am_role := "user"; am_parts := [A2ATextPart "work"]; am_task := ""; am_context := "" |}.
Definition parsed (_ : pydict) : res exc A2AMessage := Ok message.
Definition params : pydict := [("message", PDict [])].

Definition row : agent_run_row := {|
  rn_tenant := 7; rn_agent := 1; rn_version := 1; rn_correlation := 50; rn_origin := DIRECT; rn_parent := None;
  rn_root := 100; rn_depth := 0; rn_input := []; rn_output := []; rn_error := []; rn_context := [];
  rn_grant := []; rn_max_iterations := 5; rn_iterations_used := 0; rn_model := ""; rn_snapshot := [];
  rn_idempotency := None; rn_status := ""; rn_canonical := ""; rn_finish_reason := None; rn_tokens := None;
  rn_cost := None; rn_started := false; rn_finished := false |}.
Definition dump (x : uuid * agent_run_row) : pyval := PInt (Z.of_N x.1).
Definition load (v : pyval) : res exc (uuid * agent_run_row) :=
  match v with PInt z => Ok (Z.to_N z, row) | _ => Err PydanticValidationError end.

Abbreviation send := (_message_send SampleTools.text SampleTools.show digits parsed
  (service_hex SampleTools.text)
  (service_create SampleTools.text SampleTools.text SampleTools.parse SampleTools.show digits json show_exc no_errors
     dumped accept_all execute_tool 3 complete None decimal_of persona no_item dump_item tables 5 false 60 dump load
     1 7 "alice")
  (service_detail 7)).

Definition first : redis * agents script := (empty_redis, empty).
(** After the message was answered by agent 1. *)
Definition later : redis * agents script := (send 1 params first).2.
End SampleA2A.

Lemma message_send_settles_witness :
  exists t s', SampleA2A.send 1 SampleA2A.params SampleA2A.first = (Ok t, s') /\
    is_terminal_task (tk_state t) = true.
Proof.
  destruct (SampleA2A.send 1 SampleA2A.params SampleA2A.first) as [[t|e] s'] eqn:E; [|vm_compute in E; discriminate].
  exists t, s'. split; [reflexivity|].
  eapply (message_send_settles _ _ _ _ _ _ _ _ _ _ _ _ _ _ _ _ _ _ _ _ _ 60 eq_refl _ _ _ _ _ _ 1 _ [] _ _ _).
  5: exact E.
  - reflexivity.
  - discriminate.
  - reflexivity.
  - reflexivity.
Defined.

Lemma message_id_spans_agents_witness :
  exists t s', SampleA2A.send 2 SampleA2A.params SampleA2A.later = (Ok t, s') /\
    tk_id t = SampleTools.text 101 /\ runs s'.2 = runs SampleA2A.later.2.
Proof.
  destruct (SampleA2A.send 2 SampleA2A.params SampleA2A.later) as [[t|e] s'] eqn:E; [|vm_compute in E; discriminate].
  exists t, s'. split; [reflexivity|].
  eapply (message_id_spans_agents _ _ _ _ _ _ _ _ _ _ _ _ _ _ _ _ _ _ _ _ _ 60 eq_refl _ _ _ _ _ _ 2 _ [] t
    SampleA2A.later s' (PInt 101) 101 SampleA2A.row (Some 60%Z)).
  6: exact E.
  - reflexivity.
  - discriminate.
  - reflexivity.
  - vm_compute. reflexivity.
  - reflexivity.
Defined.
