(* ===== verification/LLM.v ===== *)
(** * LLM: calls to language models

    [src/src/domain/llm/services/]: the selection of a provider
    ([provider_selector.py]) and the executor around a provider call ([llm_executor.py]).

    A provider's [infer], jsonschema and the JSON parser are outside.  Tracing and the measured pipeline latency are dropped.  The executor's
    [try] re-reads the variables it has reassigned, so each segment of its body is guarded
    with the request and the model that are current when it starts. *)

From S2P Require Import Prelude.
From S2P Require Import Errors.
From S2P Require Import PyValue.
From S2P Require Import PyString.
From S2P Require Import PyFloat.
From S2P Require Import Sorting.
From S2P Require Import Effects.
From S2P Require Import Store.
From S2P Require Import Redis.
From S2P Require Import Guardrail.

(** ** Data *)

(** The fields of an [LLMRequest] that the executor reads; the others reach the provider. *)
Record inference_request : Type := {
  iq_prompt : string;
  iq_user_message : option string;
  iq_user_payload : pydict;
  iq_input_payload : pydict;
  iq_input_schema : pydict;
  iq_output_schema : pydict;
  iq_model_alias : string;
  iq_max_tokens : option Z;
  iq_max_latency_ms : option Z;
  iq_max_cost_usd : option pyfloat;
  iq_prompt_version : option Z;
  iq_prompt_frozen_hash : option string;
  iq_task_type : option string;
  iq_rest : pydict;
}.

Definition with_model (m : string) (q : inference_request) : inference_request := {|
  iq_prompt := iq_prompt q; iq_user_message := iq_user_message q; iq_user_payload := iq_user_payload q;
  iq_input_payload := iq_input_payload q; iq_input_schema := iq_input_schema q;
  iq_output_schema := iq_output_schema q; iq_model_alias := m; iq_max_tokens := iq_max_tokens q;
  iq_max_latency_ms := iq_max_latency_ms q; iq_max_cost_usd := iq_max_cost_usd q;
  iq_prompt_version := iq_prompt_version q; iq_prompt_frozen_hash := iq_prompt_frozen_hash q;
  iq_task_type := iq_task_type q; iq_rest := iq_rest q |}.

Definition with_latency (l : option Z) (q : inference_request) : inference_request := {|
  iq_prompt := iq_prompt q; iq_user_message := iq_user_message q; iq_user_payload := iq_user_payload q;
  iq_input_payload := iq_input_payload q; iq_input_schema := iq_input_schema q;
  iq_output_schema := iq_output_schema q; iq_model_alias := iq_model_alias q; iq_max_tokens := iq_max_tokens q;
  iq_max_latency_ms := l; iq_max_cost_usd := iq_max_cost_usd q;
  iq_prompt_version := iq_prompt_version q; iq_prompt_frozen_hash := iq_prompt_frozen_hash q;
  iq_task_type := iq_task_type q; iq_rest := iq_rest q |}.

Inductive InferenceLayer := CACHE | SLM | LLM_LAYER.
#[global] Instance layer_eq_dec : EqDecision InferenceLayer.
Proof. solve_decision. Defined.
Definition layer_str (l : InferenceLayer) : string :=
  match l with CACHE => "CACHE" | SLM => "SLM" | LLM_LAYER => "LLM" end.

Record LLMResult : Type := {
  ir_output : pyval;
  ir_token_usage : pydict;
  ir_cost_usd : option pyfloat;
  ir_latency_ms : pyval;
  ir_model_alias : option string;
  ir_layer : option InferenceLayer;
}.

Definition with_cost (c : pyfloat) (r : LLMResult) : LLMResult := {|
  ir_output := ir_output r; ir_token_usage := ir_token_usage r; ir_cost_usd := Some c;
  ir_latency_ms := ir_latency_ms r; ir_model_alias := ir_model_alias r; ir_layer := ir_layer r |}.
Definition with_output (v : pyval) (r : LLMResult) : LLMResult := {|
  ir_output := v; ir_token_usage := ir_token_usage r; ir_cost_usd := ir_cost_usd r;
  ir_latency_ms := ir_latency_ms r; ir_model_alias := ir_model_alias r; ir_layer := ir_layer r |}.
Definition with_layer (l : InferenceLayer) (r : LLMResult) : LLMResult := {|
  ir_output := ir_output r; ir_token_usage := ir_token_usage r; ir_cost_usd := ir_cost_usd r;
  ir_latency_ms := ir_latency_ms r; ir_model_alias := ir_model_alias r; ir_layer := Some l |}.

Record LLMProviderSelection : Type := {
  ps_provider : string;
  ps_provider_model : string;
  ps_base_url : option string;
  ps_secret : option string;
}.

(** The identifiers a call is attributed to. *)
Record call_scope : Type := {
  cs_tenant : uuid;
  cs_session : uuid;
  cs_flow : uuid;
  cs_correlation : uuid;
  cs_node : option uuid;
  cs_trace : string;
}.

(** The counters, the tables and what is outside. *)
Record llm_env {txt W : Type} : Type := {
  lx_spend : spend txt;
  lx_store : store;
  lx_world : W;
}.
Arguments llm_env : clear implicits.

Section executor.
Context {txt W : Type}.
Implicit Types s : llm_env txt W.
Variable txt_add : option txt -> pyfloat -> res exc txt.
Variable txt_float : txt -> pyfloat.
Variable silent_mode breaker_silent : bool.
Variable failure_threshold window_seconds : Z.
Variable same : pyval -> pyval -> bool.
Variable int_of_string : string -> option Z.
Variable float_of_string : string -> option pyfloat.
Variable uuid_str : uuid -> string.
Variable py_str : pyval -> string.
Variable exc_str : exc -> string.
Variable batch_size : nat.
(** [jsonschema.validate]: the message of a validation error, or another exception. *)
Variable schema_check : pyval -> pydict -> res exc (option string).
Variable json_loads : string -> option pyval.
Variable get_active_pricing : string -> string -> M (spend txt) (option LLMPricing).
(** The active configuration (address and secret) and model mapping of a tenant. *)
Variable get_active_config : uuid -> string -> option (option string * option string).
Variable get_active_mapping : uuid -> string -> string -> option string.
(** [infer] of a selected provider, or of the executor's own. *)
Variable infer : option LLMProviderSelection -> inference_request -> W -> res exc LLMResult * W.
(** What the executor was built with. *)
Variable has_provider has_selector has_breaker has_cost_engine has_guardrail guardrail_costs : bool.

Definition on_spend {A} (m : M (spend txt) A) : M (llm_env txt W) A := fun s =>
  match m (lx_spend s) with
  | (r, x) => (r, {| lx_spend := x; lx_store := lx_store s; lx_world := lx_world s |})
  end.
Definition on_store {A} (m : M store A) : M (llm_env txt W) A := fun s =>
  match m (lx_store s) with
  | (r, x) => (r, {| lx_spend := lx_spend s; lx_store := x; lx_world := lx_world s |})
  end.
Definition on_outside {A} (f : W -> res exc A * W) : M (llm_env txt W) A := fun s =>
  match f (lx_world s) with
  | (r, x) => (r, {| lx_spend := lx_spend s; lx_store := lx_store s; lx_world := x |})
  end.

(** ** Provider selection *)

(** [LLMProviderSelector.select]. *)
Definition select (tenant : uuid) (provider model_alias : string) : M (llm_env txt W) LLMProviderSelection :=
  match get_active_config tenant provider with
  | None => mraise (DomainValidationException "llm_provider_not_active")
  | Some config =>
      match get_active_mapping tenant provider model_alias with
      | None => mraise (DomainValidationException "llm_model_mapping_not_found")
      | Some provider_model =>
          let* pricing := on_spend (get_active_pricing provider provider_model) in
          match pricing with
          | None => mraise (DomainValidationException "llm_pricing_not_found")
          | Some _ => mret {| ps_provider := provider; ps_provider_model := provider_model;
                              ps_base_url := config.1; ps_secret := config.2 |}
          end
      end
  end.

(** ** Checks *)

(** [_validate_schema]. *)
Definition _validate_schema (payload : pyval) (schema : pydict) (error_code : string) : res exc unit :=
  match schema with
  | [] => Ok tt
  | _ => match schema_check payload schema with
         | Ok None => Ok tt
         | Ok (Some _) => Err (DomainValidationException error_code)
         | Err _ => Err (DomainValidationException "internal_schema_validation_error")
         end
  end.

Definition present_text (t : option string) : option string :=
  match t with Some x => if String.eqb x "" then None else Some x | None => None end.

(** What the input schema is checked against. *)
Definition call_payload (q : inference_request) : pyval :=
  match iq_user_payload q, iq_input_payload q with
  | (_ :: _) as d, _ => PDict d
  | [], (_ :: _) as d => PDict d
  | [], [] => match present_text (iq_user_message q) with
              | Some m => PDict [("user_message", PStr m)]
              | None => PDict [("prompt", PStr (iq_prompt q))]
              end
  end.

Definition completion_tokens (usage : pydict) : pyval :=
  match dict_getv "completion_tokens" usage with
  | PNone => match dict_getv "output_tokens" usage with
             | PNone => dict_getv "total_tokens" usage
             | v => v
             end
  | v => v
  end.

(** [_enforce_policy]. *)
Definition _enforce_policy (q : inference_request) (r : LLMResult) : res exc unit :=
  match iq_max_tokens q with
  | None => Ok tt
  | Some m =>
      let used := match completion_tokens (ir_token_usage r) with
                  | (PInt _ | PFloat _ | PBool _) as v => v
                  | _ => PInt 0
                  end in
      let! over := py_order same OpGt used (PInt m) in
      raise_if over (DomainValidationException "llm_policy_max_tokens_exceeded")
  end ;;!
  match iq_max_cost_usd q, ir_cost_usd r with
  | Some m, Some c => raise_if (float_ltb m c) (DomainValidationException "llm_policy_cost_exceeded")
  | _, _ => Ok tt
  end ;;!
  match iq_max_latency_ms q, ir_latency_ms r with
  | None, _ | _, PNone => Ok tt
  | Some m, l => let! over := py_order same OpGt l (PInt m) in
                 raise_if over (DomainValidationException "llm_policy_latency_exceeded")
  end.

(** The output of a provider, parsed when it is JSON text. *)
Definition parse_output (v : pyval) : res exc pyval :=
  let parse t := match json_loads t with
                 | Some x => Ok x
                 | None => Err (DomainValidationException "llm_output_json_parse_error")
                 end in
  match v with
  | PStr t => parse t
  | PDict [(k, PStr t)] => if String.eqb k "content" then parse t else Ok v
  | _ => Ok v
  end.

(** [isinstance(value, (int, float)) or value is None], else [None]. *)
Definition sanitized_usage (usage : pydict) : pydict :=
  (fun kv => (kv.1, match kv.2 with (PInt _ | PFloat _ | PBool _ | PNone) as v => v | _ => PNone end)) <$> usage.

Definition sanitized_overrides (overrides : pydict) : pydict :=
  (fun kv => (kv.1, match kv.2 with
                    | (PStr _ | PInt _ | PFloat _ | PBool _ | PNone) as v => v
                    | v => PStr (str_of py_str v)
                    end)) <$> overrides.

(** ** Events *)

Definition emit (sc : call_scope) (type : string) (payload : pydict) : M (llm_env txt W) unit :=
  let* _ := on_store (append_execution_event batch_size (Some (cs_flow sc)) {|
      ed_tenant := cs_tenant sc; ed_user := None; ed_session := cs_session sc; ed_type := type;
      ed_payload := PDict payload; ed_correlation := cs_correlation sc; ed_node := cs_node sc;
      ed_edge := None |}) in
  mret tt.

Definition opt_text (t : option string) : pyval := match t with Some x => PStr x | None => PNone end.
Definition opt_float (x : option pyfloat) : pyval := match x with Some c => PFloat c | None => PNone end.

Definition model_fields (sc : call_scope) (q : inference_request) (provider provider_model : string) : pydict :=
  [("model_alias", PStr (iq_model_alias q)); ("provider_model", PStr provider_model);
   ("provider", PStr provider); ("trace_id", PStr (cs_trace sc))].

Definition scope_of (provider : string) (tenant : uuid) : string := provider +:+ ":" +:+ uuid_str tenant.

(** The handler of the executor's [try]. *)
Definition fail_call {A} (sc : call_scope) (provider provider_model : string) (q : inference_request) (e : exc) :
    M (llm_env txt W) A :=
  (if has_breaker then
     on_spend (on_counters (record_failure silent_mode breaker_silent failure_threshold window_seconds
                              (scope_of provider (cs_tenant sc))))
   else mret tt) ;;*
  emit sc "LLMCallFailed" ([("task_type", opt_text (iq_task_type q)); ("error_class", PStr (exc_type e));
                            ("message", PStr (exc_str e))] ++ model_fields sc q provider provider_model) ;;*
  mraise e.

(** A segment of the body. *)
Definition guarded {A} (sc : call_scope) (provider provider_model : string) (q : inference_request)
    (m : M (llm_env txt W) A) : M (llm_env txt W) A :=
  mtry m (fail_call sc provider provider_model q).

(** ** The guardrail's decision *)

Definition decision_str (d : GuardrailDecisionType) : string :=
  match d with ALLOW => "ALLOW" | DEGRADE => "DEGRADE" | BLOCK => "BLOCK" end.

Definition limit_label (limits : pydict) : string :=
  match limits with [] => "none" | _ => str_join "," (fst <$> limits) end.

Definition or_val (a b : pyval) : pyval := if truthy a then a else b.
Definition current_value (limits : pydict) : pyval :=
  or_val (dict_getv "projected_cost" limits)
    (or_val (dict_getv "current_calls" limits) (dict_getv "max_latency_ms_hard" limits)).

(** Checking a call: the decision and its event; a blocked call raises. *)
Definition check_call (sc : call_scope) (provider provider_model : string) (q : inference_request)
    (policy : pydict) : M (llm_env txt W) GuardrailDecision :=
  let* d := on_spend (check_and_reserve txt_float silent_mode same int_of_string float_of_string uuid_str
                        guardrail_costs get_active_pricing (cs_tenant sc) (cs_flow sc)
                        {| rq_max_tokens := iq_max_tokens q; rq_max_latency_ms := iq_max_latency_ms q |}
                        policy provider provider_model) in
  let limits := gd_applied_limits d in
  emit sc "GuardrailChecked"
    ([("guardrail_type", PStr "LLM"); ("decision", PStr (decision_str (gd_decision d)));
      ("limit", PStr (limit_label limits)); ("current_value", current_value limits);
      ("estimated_cost_usd", dict_getv "projected_cost" limits)] ++ model_fields sc q provider provider_model) ;;*
  match gd_decision d with
  | BLOCK =>
      emit sc "GuardrailBlocked"
        ([("guardrail_type", PStr "LLM"); ("limit", PStr (limit_label limits));
          ("current_value", current_value limits); ("reason_code", PStr (gd_reason_code d))]
         ++ model_fields sc q provider provider_model) ;;*
      mraise (DomainValidationException "guardrail_blocked")
  | _ => mret d
  end.

(** A degraded call: the cheaper model when the executor can select one, and the latency
    the decision asks for, if any. *)
Definition degrade_call (sc : call_scope) (provider provider_model : string) (q : inference_request)
    (instance : option LLMProviderSelection) (d : GuardrailDecision) :
    M (llm_env txt W) (inference_request * string * option LLMProviderSelection) :=
  let alias := dict_getv "model_alias" (gd_overrides d) in
  let* chosen :=
    (if truthy alias && has_selector then
       let* sel := guarded sc provider provider_model q (select (cs_tenant sc) provider (str_of py_str alias)) in
       mret (with_model (ps_provider_model sel) q, ps_provider_model sel, Some sel)
     else mret (q, provider_model, instance)) in
  let '(q, provider_model, instance) := chosen in
  guarded sc provider provider_model q
    (emit sc "GuardrailDegraded"
       ([("guardrail_type", PStr "LLM"); ("limit", PStr (limit_label (gd_applied_limits d)));
         ("current_value", current_value (gd_applied_limits d)); ("reason_code", PStr (gd_reason_code d));
         ("overrides", PDict (sanitized_overrides (gd_overrides d)))]
        ++ model_fields sc q provider provider_model)) ;;*
  mret (match dict_getv "max_latency_ms" (gd_overrides d) with
        | PInt l => if (l =? 0)%Z then q else with_latency (Some l) q
        | _ => q
        end, provider_model, instance).

(** The checks before a provider is called: the request, model and provider to call. *)
Definition before_call (sc : call_scope) (provider provider_model : string) (q : inference_request)
    (instance : option LLMProviderSelection) (policy : option pydict) :
    M (llm_env txt W) (inference_request * string * option LLMProviderSelection) :=
  guarded sc provider provider_model q
    (match iq_task_type q with
     | None => mraise PyAttributeError
     | Some _ => mlift (_validate_schema (call_payload q) (iq_input_schema q) "llm_input_invalid")
     end) ;;*
  match policy with
  | Some pol =>
      if has_guardrail then
        let* d := guarded sc provider provider_model q (check_call sc provider provider_model q pol) in
        match gd_decision d with
        | DEGRADE => degrade_call sc provider provider_model q instance d
        | _ => mret (q, provider_model, instance)
        end
      else mret (q, provider_model, instance)
  | None => mret (q, provider_model, instance)
  end.

(** ** The call *)

(** The provider's answer, priced, parsed and checked. *)
Definition call_provider (provider provider_model : string) (q : inference_request)
    (instance : option LLMProviderSelection) : M (llm_env txt W) LLMResult :=
  let* r := on_outside (infer instance q) in
  let* r := (if has_cost_engine then
               let* pricing := on_spend (get_active_pricing provider provider_model) in
               let* c := mlift (cost_of_usage int_of_string pricing (Some (ir_token_usage r))) in
               mret (with_cost c r)
             else mret r) in
  let* output := mlift (parse_output (ir_output r)) in
  let r := with_output output r in
  mlift (_validate_schema output (iq_output_schema q) "llm_output_invalid") ;;*
  mlift (_enforce_policy q r) ;;*
  mret r.

(** What is recorded of a call that succeeded. *)
Definition after_call (sc : call_scope) (provider provider_model : string) (q : inference_request)
    (policy : option pydict) (r : LLMResult) : M (llm_env txt W) unit :=
  let numbers := [("token_usage", PDict (sanitized_usage (ir_token_usage r)));
                  ("cost_usd", opt_float (ir_cost_usd r)); ("latency_ms", ir_latency_ms r)] in
  emit sc "LLMCallCompleted"
    ([("task_type", opt_text (iq_task_type q))] ++ numbers ++ model_fields sc q provider provider_model) ;;*
  (match iq_prompt_version q, present_text (iq_prompt_frozen_hash q) with
   | Some v, Some h =>
       if (v =? 0)%Z then mret tt
       else emit sc "NodePromptExecuted"
              ([("node_type", PNone); ("prompt_version", PInt v); ("frozen_hash", PStr h)] ++ numbers)
   | _, _ => mret tt
   end) ;;*
  (match policy with
   | Some pol => if has_guardrail then
                   on_spend (record_post_call_cost txt_add txt_float int_of_string uuid_str (cs_tenant sc)
                               (cs_flow sc) (ir_cost_usd r) pol)
                 else mret tt
   | None => mret tt
   end) ;;*
  (if has_breaker then
     on_spend (on_counters (record_success silent_mode breaker_silent (scope_of provider (cs_tenant sc))))
   else mret tt).

(** The provider to call: a selected one, or the executor's own. *)
Definition choose_provider (sc : call_scope) (provider : string) (q : inference_request) :
    M (llm_env txt W) (inference_request * string * option LLMProviderSelection) :=
  if has_selector then
    let* sel := select (cs_tenant sc) provider (iq_model_alias q) in
    mret (with_model (ps_provider_model sel) q, ps_provider_model sel, Some sel)
  else if has_provider then mret (q, iq_model_alias q, None)
  else mraise (DomainValidationException "llm_provider_not_configured").

(** [LLMExecutor.execute_llm]. *)
Definition execute_llm (sc : call_scope) (provider : string) (policy : option pydict) (q : inference_request) :
    M (llm_env txt W) LLMResult :=
  let* chosen := choose_provider sc provider q in
  let '(q, provider_model, instance) := chosen in
  (if has_breaker then
     on_spend (on_counters (ensure_closed silent_mode breaker_silent (scope_of provider (cs_tenant sc))))
   else mret tt) ;;*
  emit sc "LLMCallStarted" (("task_type", opt_text (iq_task_type q)) :: model_fields sc q provider provider_model) ;;*
  let* ready := before_call sc provider provider_model q instance policy in
  let '(q, provider_model, instance) := ready in
  guarded sc provider provider_model q
    (let* r := call_provider provider provider_model q instance in
     after_call sc provider provider_model q policy r ;;*
     mret r).
End executor.

(** ** The record of a call *)

Section account.
Context {txt W : Type}.
Implicit Types s : llm_env txt W.
Variable txt_add : option txt -> pyfloat -> res exc txt.
Variable txt_float : txt -> pyfloat.
Variable silent_mode : bool.
Variable failure_threshold window_seconds : Z.
Variable same : pyval -> pyval -> bool.
Variable int_of_string : string -> option Z.
Variable float_of_string : string -> option pyfloat.
Variable uuid_str : uuid -> string.
Variable py_str : pyval -> string.
Variable exc_str : exc -> string.
Variable batch_size : nat.
Variable schema_check : pyval -> pydict -> res exc (option string).
Variable json_loads : string -> option pyval.
Variable get_active_pricing : string -> string -> M (spend txt) (option LLMPricing).
Context {Pricing : PricingFrame get_active_pricing}.
Variable get_active_config : uuid -> string -> option (option string * option string).
Variable get_active_mapping : uuid -> string -> string -> option string.
Variable infer : option LLMProviderSelection -> inference_request -> W -> res exc LLMResult * W.
Variable has_provider has_selector has_breaker has_cost_engine has_guardrail guardrail_costs : bool.
Variable sc : call_scope.
Variable provider : string.

Abbreviation execute_ := (execute_llm txt_add txt_float silent_mode true failure_threshold window_seconds same
  int_of_string float_of_string uuid_str py_str exc_str batch_size schema_check json_loads get_active_pricing
  get_active_config get_active_mapping infer has_provider has_selector has_breaker has_cost_engine has_guardrail
  guardrail_costs sc provider).
Abbreviation select_ := (select (W := W) get_active_pricing get_active_config get_active_mapping).
Abbreviation fail_ := (fail_call (W := W) silent_mode true failure_threshold window_seconds uuid_str exc_str batch_size
  has_breaker sc provider).
Abbreviation guarded_ := (guarded (W := W) silent_mode true failure_threshold window_seconds uuid_str exc_str batch_size
  has_breaker sc provider).
Abbreviation emit_ := (emit (txt := txt) (W := W) batch_size sc).
Abbreviation check_ := (check_call (W := W) txt_float silent_mode same int_of_string float_of_string uuid_str batch_size
  get_active_pricing guardrail_costs sc provider).
Abbreviation degrade_ := (degrade_call (W := W) silent_mode true failure_threshold window_seconds uuid_str py_str
  exc_str batch_size get_active_pricing get_active_config get_active_mapping has_selector has_breaker sc provider).
Abbreviation before_ := (before_call (W := W) txt_float silent_mode true failure_threshold window_seconds same
  int_of_string float_of_string uuid_str py_str exc_str batch_size schema_check get_active_pricing get_active_config
  get_active_mapping has_selector has_breaker has_guardrail guardrail_costs sc provider).
Abbreviation provider_ := (call_provider same int_of_string schema_check json_loads get_active_pricing infer
  has_cost_engine provider).
Abbreviation after_ := (after_call (W := W) txt_add txt_float silent_mode true int_of_string uuid_str batch_size
  has_breaker has_guardrail sc provider).

(** *** Steps that write neither events nor costs *)

Definition same_costs s s' : Prop := sp_costs (lx_spend s') = sp_costs (lx_spend s).
Definition quiet_step s s' : Prop := lx_store s' = lx_store s /\ same_costs s s'.

#[local] Instance quiet_step_preorder : PreOrder quiet_step.
Proof. split; [done|]. intros a b c [H1 H2] [H3 H4]. split; [congruence|]. unfold same_costs in *. congruence. Qed.

Definition spend_costs (s s' : spend txt) : Prop := sp_costs s' = sp_costs s.
#[local] Instance spend_costs_preorder : PreOrder spend_costs.
Proof. split; [done|]. intros a b c H1 H2. unfold spend_costs in *. congruence. Qed.

Lemma on_spend_quiet {A} (m : M (spend txt) A) : respects spend_costs m -> respects quiet_step (on_spend (W := W) m).
Proof.
  intros H s. specialize (H (lx_spend s)). unfold on_spend. destruct (m (lx_spend s)) as [r x]. by split.
Qed.
Lemma on_outside_quiet {A} (f : W -> res exc A * W) : respects quiet_step (on_outside (txt := txt) f).
Proof. intros s. unfold on_outside. by destruct (f (lx_world s)). Qed.
Lemma counters_costs {A} (m : M redis A) : respects spend_costs (on_counters (txt := txt) m).
Proof. intros s. unfold on_counters. by destruct (m (sp_redis s)). Qed.
Lemma pricing_costs p m : respects spend_costs (get_active_pricing p m).
Proof using Pricing. intros s. by destruct (pricing_frame _ p m s). Qed.
#[local] Hint Resolve on_spend_quiet on_outside_quiet counters_costs pricing_costs : frame.

Lemma check_costs t f rq pol p m :
  respects spend_costs (check_and_reserve txt_float silent_mode same int_of_string float_of_string uuid_str
    guardrail_costs get_active_pricing t f rq pol p m).
Proof using Pricing.
  unfold check_and_reserve, _estimate_cost, _get_cost, get_float, _incr_calls, unavailable.
  repeat (frame; try case_match).
Qed.

Lemma select_quiet t p a : respects quiet_step (select_ t p a).
Proof using Pricing. unfold select. repeat (frame; try case_match). Qed.

Lemma call_provider_quiet pm q i : respects quiet_step (provider_ pm q i).
Proof using Pricing. unfold call_provider. repeat (frame; try case_match). Qed.

(** *** Events *)

Definition logged s : list string := (fun e => ed_type (ev_data e)) <$> flow_events (cs_flow sc) (events (lx_store s)).
(** The flow run exists and its events are written at once. *)
Definition sink s : Prop := is_Some (flow_runs (lx_store s) !! cs_flow sc) /\ cs_flow sc ∉ batching (lx_store s).

(** The event types appended by a step. *)
Definition logs (ts : list string) s s' : Prop := sink s' /\ logged s' = logged s ++ ts.
(** ... which also leaves the cost counters alone. *)
Definition extends (ts : list string) s s' : Prop := logs ts s s' /\ same_costs s s'.

Lemma extends_trans ts1 ts2 s1 s2 s3 :
  extends ts1 s1 s2 -> extends ts2 s2 s3 -> extends (ts1 ++ ts2) s1 s3.
Proof.
  intros [[_ H1] C1] [[K H2] C2]. split; [split; [done|by rewrite H2, H1, app_assoc]|].
  unfold same_costs in *. congruence.
Qed.

Lemma quiet_extends s s' : sink s -> quiet_step s s' -> extends [] s s'.
Proof. intros H [E C]. split; [|done]. unfold logs, sink, logged. rewrite E, app_nil_r. done. Qed.

Lemma quiet_run {A} (m : M (llm_env txt W) A) s r s' :
  respects quiet_step m -> m s = (r, s') -> sink s -> extends [] s s'.
Proof. intros H E Hs. apply quiet_extends; [done|]. exact (respects_run _ _ _ _ _ H E). Qed.

Lemma emit_run t p s : sink s -> exists s', emit_ t p s = (Ok tt, s') /\ extends [t] s s'.
Proof.
  intros [[fr Hf] Hb]. unfold emit, append_execution_event, insert_event, on_store, mbind_, uuid4, mget, mmodify.
  simpl. rewrite bool_decide_eq_false_2 by done. simpl. rewrite Hf. simpl. eexists. split; [reflexivity|].
  split; [|done]. split; [split; [by eexists|done]|]. unfold logged. simpl.
  unfold flow_events. rewrite filter_app, filter_cons_True, filter_nil by done. by rewrite fmap_app.
Qed.

Lemma record_failure_silent k (r : redis) :
  exists r', record_failure silent_mode true failure_threshold window_seconds k r = (Ok tt, r').
Proof. unfold record_failure, mtry. destruct (mbind_ _ _ r) as [[[]|e] r']; by eexists. Qed.
Lemma record_success_silent k (r : redis) :
  exists r', record_success silent_mode true k r = (Ok tt, r').
Proof. unfold record_success, mtry. destruct (mbind_ _ _ r) as [[[]|e] r']; by eexists. Qed.

Lemma fail_run {A} pm q e s :
  sink s -> exists s', fail_ pm q e s = ((Err e : res exc A), s') /\ extends ["LLMCallFailed"] s s'.
Proof.
  intros Hs. unfold fail_call.
  assert (H1 : exists s1, (if has_breaker then on_spend (W := W) (on_counters (record_failure silent_mode true
      failure_threshold window_seconds (scope_of uuid_str provider (cs_tenant sc)))) else mret tt) s = (Ok tt, s1) /\
    extends [] s s1).
  { destruct has_breaker; [|exists s; split; [done|by apply quiet_extends]].
    unfold on_spend, on_counters.
    destruct (record_failure_silent (scope_of uuid_str provider (cs_tenant sc)) (sp_redis (lx_spend s))) as [r' ->].
    eexists. split; [reflexivity|]. by apply quiet_extends. }
  destruct H1 as (s1 & H1 & E1). rewrite (mbind_run _ _ _ _ _ H1). destruct E1 as [[K1 L1] C1].
  match goal with |- context [emit_ "LLMCallFailed" ?p] => destruct (emit_run "LLMCallFailed" p s1 K1) as (s2 & H2 & E2) end.
  rewrite (mbind_run _ _ _ _ _ H2). exists s2. split; [done|].
  eapply (extends_trans []); [|exact E2]. by split.
Qed.

(** A guarded segment that has written [ts] when it fails. *)
Lemma guarded_run {A} pm q (m : M (llm_env txt W) A) s r s' (P : list string -> Prop) :
  guarded_ pm q m s = (r, s') ->
  (forall r1 s1, m s = (r1, s1) -> exists ts, P ts /\ extends ts s s1) ->
  exists ts, P ts /\ match r with
    | Ok a => m s = (Ok a, s') /\ extends ts s s'
    | Err e => exists s1, m s = (Err e, s1) /\ extends (ts ++ ["LLMCallFailed"]) s s'
    end.
Proof.
  unfold guarded, mtry. intros H Hm. destruct (m s) as [[a|e] s1] eqn:E.
  - injection H as <- <-. destruct (Hm _ _ eq_refl) as (ts & Hp & Hx). by exists ts.
  - destruct (Hm _ _ eq_refl) as (ts & Hp & Hx). exists ts. split; [done|].
    destruct (fail_run (A := A) pm q e s1 (proj1 (proj1 Hx))) as (s2 & Hf & Hy). rewrite Hf in H.
    injection H as <- <-. exists s1. split; [done|]. by eapply extends_trans.
Qed.

(** *** Before the provider is called *)

Definition guard_events (ts : list string) : Prop :=
  ts ∈ [[]; ["GuardrailChecked"]; ["GuardrailChecked"; "GuardrailBlocked"]; ["GuardrailChecked"; "GuardrailDegraded"]].

Lemma check_run pm q pol s r s' :
  check_ pm q pol s = (r, s') -> sink s ->
  exists ts, extends ts s s' /\ match r with
    | Ok d => ts = ["GuardrailChecked"] /\ gd_decision d <> BLOCK
    | Err _ => ts = [] \/ ts = ["GuardrailChecked"; "GuardrailBlocked"]
    end.
Proof using Pricing.
  intros H Hs. unfold check_call in H.
  first_step H as [[d|e] s1] eqn:E.
  2:{ injection H as <- <-. exists []. split; [|by left].
      eapply quiet_run; [|exact E|done]. apply on_spend_quiet, check_costs. }
  pose proof (quiet_run _ _ _ _ (on_spend_quiet _ (check_costs _ _ _ _ _ _)) E Hs) as E1.
  match type of H with context [emit_ "GuardrailChecked" ?p] =>
    destruct (emit_run "GuardrailChecked" p s1 (proj1 (proj1 E1))) as (s2 & H2 & E2) end.
  rewrite (mbind_run _ _ _ _ _ H2) in H. pose proof (extends_trans _ _ _ _ _ E1 E2) as E12. simpl in E12.
  destruct (gd_decision d) eqn:Ed.
  - injection H as <- <-. exists ["GuardrailChecked"]. rewrite Ed. done.
  - injection H as <- <-. exists ["GuardrailChecked"]. rewrite Ed. done.
  - match type of H with context [emit_ "GuardrailBlocked" ?p] =>
      destruct (emit_run "GuardrailBlocked" p s2 (proj1 (proj1 E2))) as (s3 & H3 & E3) end.
    rewrite (mbind_run _ _ _ _ _ H3) in H. injection H as <- <-.
    exists ["GuardrailChecked"; "GuardrailBlocked"]. split; [exact (extends_trans _ _ _ _ _ E12 E3)|by right].
Qed.

Lemma degrade_run pm q i d s r s' :
  degrade_ pm q i d s = (r, s') -> sink s ->
  match r with
  | Ok _ => extends ["GuardrailDegraded"] s s'
  | Err _ => extends ["LLMCallFailed"] s s'
  end.
Proof using Pricing.
  intros H Hs. unfold degrade_call in H. set (m := if _ && _ then _ else _) in H.
  assert (Hm : forall x s1, m s = (x, s1) -> extends (match x with Ok _ => [] | Err _ => ["LLMCallFailed"] end) s s1).
  { intros x s1 E. unfold m in E. destruct (_ && _); [|injection E as <- <-; by apply quiet_extends].
    first_step E as [[sel|e] s2] eqn:E1.
    - injection E as <- <-. apply (guarded_run _ _ _ _ _ _ (fun ts => ts = [])) in E1 as (ts & -> & _ & Hx); [done|].
      intros r1 s1 H1. exists []. split; [done|]. eapply quiet_run; [apply select_quiet|exact H1|done].
    - injection E as <- <-. apply (guarded_run _ _ _ _ _ _ (fun ts => ts = [])) in E1 as (ts & -> & s0 & _ & Hx); [done|].
      intros r1 s1 H1. exists []. split; [done|]. eapply quiet_run; [apply select_quiet|exact H1|done]. }
  first_step H as [[[[q' pm'] i']|e] s1] eqn:E; [|injection H as <- <-; exact (Hm _ _ eq_refl)].
  pose proof (Hm _ _ eq_refl) as E1. simpl in E1.
  match type of H with context [emit_ "GuardrailDegraded" ?p] =>
    destruct (emit_run "GuardrailDegraded" p s1 (proj1 (proj1 E1))) as (s2 & H2 & E2) end.
  rewrite (mbind_run _ _ s1 (Ok tt) s2) in H by (unfold guarded, mtry; by rewrite H2).
  injection H as <- <-. exact (extends_trans _ _ _ _ _ E1 E2).
Qed.

Lemma before_run pm q i pol s r s' :
  before_ pm q i pol s = (r, s') -> sink s ->
  exists gs, guard_events gs /\
    extends (gs ++ match r with Ok _ => [] | Err _ => ["LLMCallFailed"] end) s s'.
Proof using Pricing infer json_loads.
  intros H Hs. unfold before_call in H. first_step H as [[[]|e] s1] eqn:E.
  all: apply (guarded_run _ _ _ _ _ _ (fun ts => ts = [])) in E as (ts & -> & E).
  2, 4: intros r1 s2 H1; exists []; split; [done|]; eapply quiet_run; [|exact H1|exact Hs]; destruct (iq_task_type q); frame.
  2:{ destruct E as (s2 & _ & E). injection H as <- <-. exists []. split; [by left|exact E]. }
  destruct E as [_ E1]. simpl in E1.
  assert (Hplain : forall x, (Ok x, s1) = (r, s') -> exists gs, guard_events gs /\
    extends (gs ++ match r with Ok _ => [] | Err _ => ["LLMCallFailed"] end) s s').
  { intros x [= <- <-]. exists []. split; [by left|exact E1]. }
  destruct pol as [pol|]; [|by eapply Hplain]. destruct has_guardrail; [|by eapply Hplain].
  first_step H as [[d|e] s2] eqn:E2.
  all: apply (guarded_run _ _ _ _ _ _ (fun ts => ts = ["GuardrailChecked"] \/ ts = [] \/
      ts = ["GuardrailChecked"; "GuardrailBlocked"])) in E2 as (ts & Hts & E2).
  2, 4: intros r1 s3 H1; destruct (check_run _ _ _ _ _ _ H1 (proj1 (proj1 E1))) as (ts & Hx & Hts);
        exists ts; split; [destruct r1; [left; apply Hts|right; exact Hts]|done].
  2:{ destruct E2 as (s3 & _ & E2). injection H as <- <-. exists ts.
      split; [unfold guard_events; rewrite !elem_of_cons; tauto|]. exact (extends_trans _ _ _ _ _ E1 E2). }
  destruct E2 as [Hc E2]. destruct (check_run _ _ _ _ _ _ Hc (proj1 (proj1 E1))) as (ts' & Hx & -> & Hd).
  pose proof (extends_trans _ _ _ _ _ E1 Hx) as E12. simpl in E12. destruct (gd_decision d) eqn:Ed.
  - injection H as <- <-. exists ["GuardrailChecked"]. split; [unfold guard_events; rewrite !elem_of_cons; tauto|exact E12].
  - apply degrade_run in H; [|exact (proj1 (proj1 Hx))]. destruct r as [x|e].
    + exists ["GuardrailChecked"; "GuardrailDegraded"]. split; [unfold guard_events; rewrite !elem_of_cons; tauto|].
      exact (extends_trans _ _ _ _ _ E12 H).
    + exists ["GuardrailChecked"]. split; [unfold guard_events; rewrite !elem_of_cons; tauto|]. exact (extends_trans _ _ _ _ _ E12 H).
  - done.
Qed.

(** *** After the provider has answered *)

(** The cost counters after a completed call. *)
Definition costs_recorded (pol : option pydict) (r : LLMResult) s : gmap string (txt * option Z) :=
  match pol with
  | Some p => if has_guardrail then
                sp_costs (record_post_call_cost txt_add txt_float int_of_string uuid_str (cs_tenant sc)
                            (cs_flow sc) (ir_cost_usd r) p (lx_spend s)).2
              else sp_costs (lx_spend s)
  | None => sp_costs (lx_spend s)
  end.

Definition completed_events (ts : list string) : Prop :=
  ts = ["LLMCallCompleted"] \/ ts = ["LLMCallCompleted"; "NodePromptExecuted"].

Lemma after_run pm q pol res s x s' :
  after_ pm q pol res s = (x, s') -> sink s ->
  exists ts s1, completed_events ts /\ extends ts s s1 /\ logs ts s s' /\
    match x with
    | Ok _ => sp_costs (lx_spend s') = costs_recorded pol res s1
    | Err _ => True
    end.
Proof.
  intros H Hs. unfold after_call in H.
  match type of H with context [emit_ "LLMCallCompleted" ?p] =>
    destruct (emit_run "LLMCallCompleted" p s Hs) as (s1 & H1 & E1) end.
  rewrite (mbind_run _ _ _ _ _ H1) in H. match type of H with mbind_ ?m _ _ = _ => set (prompt := m) in H end.
  assert (Hp : exists ts s2, prompt s1 = (Ok tt, s2) /\ completed_events ("LLMCallCompleted" :: ts) /\ extends ts s1 s2).
  { pose proof (proj1 (proj1 E1)) as K1. unfold prompt.
    assert (Hnone : exists ts s2, @mret (llm_env txt W) unit tt s1 = (Ok tt, s2) /\
      completed_events ("LLMCallCompleted" :: ts) /\ extends ts s1 s2).
    { exists [], s1. split; [done|]. split; [by left|]. by apply quiet_extends. }
    destruct (iq_prompt_version q) as [v|]; [|done]. destruct (present_text _) as [h|]; [|done].
    destruct (v =? 0)%Z; [done|].
    match goal with |- context [emit_ "NodePromptExecuted" ?p] =>
      destruct (emit_run "NodePromptExecuted" p s1 K1) as (s2 & H2 & E2) end.
    exists ["NodePromptExecuted"], s2. split; [done|]. split; [by right|done]. }
  destruct Hp as (ts & s2 & H2 & Hts & E2). rewrite (mbind_run _ _ _ _ _ H2) in H.
  pose proof (extends_trans _ _ _ _ _ E1 E2) as E12. exists ("LLMCallCompleted" :: ts), s2.
  split; [done|]. split; [exact E12|]. destruct E12 as [[K2 L2] _].
  assert (Hlogs : forall s4, lx_store s4 = lx_store s2 -> logs ("LLMCallCompleted" :: ts) s s4).
  { intros s4 E. unfold logs, sink, logged. rewrite E. by split. }
  match type of H with mbind_ ?m _ _ = _ => set (record := m) in H end.
  assert (Hr : forall y s3, record s2 = (y, s3) -> lx_store s3 = lx_store s2 /\
    sp_costs (lx_spend s3) = costs_recorded pol res s2).
  { intros y s3 E. unfold record in E. unfold costs_recorded.
    destruct pol as [p|]; [|by injection E as _ <-]. destruct has_guardrail; [|by injection E as _ <-].
    unfold on_spend in E. destruct (record_post_call_cost _ _ _ _ _ _ _ _ _) as [z sp]. by injection E as _ <-. }
  first_step H as [[[]|e] s3] eqn:E3; destruct (Hr _ _ eq_refl) as [St Co].
  2:{ injection H as <- <-. split; [by apply Hlogs|done]. }
  destruct has_breaker; [|injection H as <- <-; by split; [apply Hlogs|]].
  unfold on_spend, on_counters in H.
  destruct (record_success_silent (scope_of uuid_str provider (cs_tenant sc)) (sp_redis (lx_spend s3))) as [r' Hr'].
  rewrite Hr' in H. injection H as <- <-. split; [by apply Hlogs|done].
Qed.

(** The account of a call.  For a flow run whose events are written at once and a breaker
    in silent mode, a call that returns has written LLMCallStarted, the guardrail's events
    and LLMCallCompleted, and its cost has been recorded exactly once.  A call that raises
    has written nothing, or LLMCallStarted ... LLMCallFailed without touching a cost
    counter, even when the provider has answered and was paid; or, when the error came from
    recording the cost of a completed call, both LLMCallCompleted and LLMCallFailed. *)
Theorem call_account pol q s r s' :
  execute_ pol q s = (r, s') -> sink s ->
  exists ts, logs ts s s' /\
    match r with
    | Ok res => exists gs cs s1, guard_events gs /\ completed_events cs /\
        ts = "LLMCallStarted" :: gs ++ cs /\ same_costs s s1 /\
        sp_costs (lx_spend s') = costs_recorded pol res s1
    | Err _ =>
        (ts = [] /\ same_costs s s') \/
        (exists gs, guard_events gs /\ ts = "LLMCallStarted" :: gs ++ ["LLMCallFailed"] /\ same_costs s s') \/
        (exists gs cs, guard_events gs /\ completed_events cs /\
           ts = "LLMCallStarted" :: gs ++ cs ++ ["LLMCallFailed"])
    end.
Proof using Pricing.
  intros H Hs. unfold execute_llm in H. first_step H as [[[[q1 pm1] i1]|e] s1] eqn:E1.
  all: eapply quiet_run in E1; [|unfold choose_provider; repeat (frame; try case_match); apply select_quiet|done].
  2:{ injection H as <- <-. exists []. destruct E1 as [L C]. split; [done|by left]. }
  first_step H as [[[]|e] s2] eqn:E2.
  all: eapply quiet_run in E2; [|case_match; frame|exact (proj1 (proj1 E1))];
    pose proof (extends_trans _ _ _ _ _ E1 E2) as E12.
  2:{ injection H as <- <-. exists []. destruct E12 as [L C]. split; [done|by left]. }
  match type of H with context [emit_ "LLMCallStarted" ?p] =>
    destruct (emit_run "LLMCallStarted" p s2 (proj1 (proj1 E2))) as (s3 & H3 & E3) end.
  rewrite (mbind_run _ _ _ _ _ H3) in H. pose proof (extends_trans _ _ _ _ _ E12 E3) as E13.
  first_step H as [[[[q2 pm2] i2]|e] s4] eqn:E4;
    apply before_run in E4 as (gs & Hgs & E4); try exact (proj1 (proj1 E3));
    pose proof (extends_trans _ _ _ _ _ E13 E4) as E14.
  2:{ injection H as <- <-. eexists. destruct E14 as [L C]. split; [exact L|]. right. left. by exists gs. }
  simpl in E14. rewrite app_nil_r in E14. destruct E14 as [[K4 L4] C4]. unfold guarded, mtry in H.
  destruct (mbind_ (provider_ pm2 q2 i2) _ s4) as [x s5] eqn:E5 in H.
  first_step E5 as [[res|e] s6] eqn:E6.
  all: eapply quiet_run in E6; [|apply call_provider_quiet|done].
  2:{ injection E5 as <- <-. destruct (fail_run (A := LLMResult) pm2 q2 e s6 (proj1 (proj1 E6))) as (s7 & F & E7).
      rewrite F in H. injection H as <- <-. pose proof (extends_trans _ _ _ _ _ E6 E7) as E67. simpl in E67.
      destruct (extends_trans _ _ _ _ _ (conj (conj K4 L4) C4) E67) as [L C]. eexists. split; [exact L|].
      right. left. by exists gs. }
  destruct (extends_trans _ _ _ _ _ (conj (conj K4 L4) C4) E6) as [[K6 L6] C6]. rewrite app_nil_r in L6.
  first_step E5 as [[[]|e] s7] eqn:E7; apply after_run in E7 as (cs & s8 & Hcs & E8 & [K7 L7] & Hcost); try done.
  - injection E5 as <- <-. injection H as <- <-. eexists. split; [split; [done|]; rewrite L7, L6, <- app_assoc; reflexivity|].
    exists gs, cs, s8. split_and!; try done. destruct E8 as [_ C8]. unfold same_costs in *. congruence.
  - injection E5 as <- <-. destruct (fail_run (A := LLMResult) pm2 q2 e s7 K7) as (s9 & F & [[K9 L9] _]).
    rewrite F in H. injection H as <- <-. eexists.
    split; [split; [done|]; rewrite L9, L7, L6, <- !app_assoc; reflexivity|]. right. right. by exists gs, cs.
Qed.
End account.

(** ** The hard latency limit *)

Section latency.
Context {txt W : Type}.
Variable txt_float : txt -> pyfloat.
Variable silent_mode breaker_silent : bool.
Variable failure_threshold window_seconds : Z.
Variable same : pyval -> pyval -> bool.
Variable int_of_string : string -> option Z.
Variable float_of_string : string -> option pyfloat.
Variable uuid_str : uuid -> string.
Variable py_str : pyval -> string.
Variable exc_str : exc -> string.
Variable batch_size : nat.
Variable schema_check : pyval -> pydict -> res exc (option string).
Variable get_active_pricing : string -> string -> M (spend txt) (option LLMPricing).
Variable get_active_config : uuid -> string -> option (option string * option string).
Variable get_active_mapping : uuid -> string -> string -> option string.
Variable has_selector has_breaker has_guardrail guardrail_costs : bool.

(** Only a decision to allow the call carries the latency, and only a decision to degrade
    it is applied. *)
Lemma degrade_without_latency rq pol est cf ct a b d :
  verdict same int_of_string float_of_string rq pol est cf ct a b = Ok d ->
  gd_decision d = DEGRADE -> dict_getv "max_latency_ms" (gd_overrides d) = PNone.
Proof.
  unfold verdict, latency_verdict, cost_verdict. intros H.
  repeat (apply rbind_ok in H as ([] & _ & H)); repeat case_match; simplify_eq; try done;
    repeat (apply rbind_ok in H as ([] & _ & H); repeat case_match; simplify_eq; try done); done.
Qed.

Lemma check_decides t f rq pol p m (s : spend txt) d s' :
  check_and_reserve txt_float silent_mode same int_of_string float_of_string uuid_str guardrail_costs
    get_active_pricing t f rq pol p m s = (Ok d, s') ->
  exists est cf ct a b, verdict same int_of_string float_of_string rq pol est cf ct a b = Ok d.
Proof.
  unfold check_and_reserve. intros H. apply mbind_ok in H as (est & s1 & _ & H).
  apply mbind_ok in H as (cf & s2 & _ & H). apply mbind_ok in H as (ct & s3 & _ & H).
  apply mbind_ok in H as (ttl & s4 & _ & H). apply mbind_ok in H as (a & s5 & _ & H).
  apply mbind_ok in H as (b & s6 & _ & H). injection H as H _. by exists est, cf, ct, a, b.
Qed.

Lemma guarded_ok {A} sc p pm q (m : M (llm_env txt W) A) s a s' :
  guarded silent_mode breaker_silent failure_threshold window_seconds uuid_str exc_str batch_size has_breaker
    sc p pm q m s = (Ok a, s') -> m s = (Ok a, s').
Proof.
  unfold guarded, mtry. destruct (m s) as [[x|e] s1]; [done|]. unfold fail_call. intros H.
  apply mbind_ok in H as (u & s2 & _ & H). apply mbind_ok in H as (v & s3 & _ & H). discriminate.
Qed.

(** The hard latency limit has no effect.  Whatever the policy and the guardrail say,
    the request that reaches the provider has the caller's latency limit: the decision
    that carries the hard limit is ALLOW, and overrides are applied for DEGRADE only. *)
Theorem hard_latency_inert sc p pm q i pol s q' pm' i' s' :
  before_call (W := W) txt_float silent_mode breaker_silent failure_threshold window_seconds same int_of_string
    float_of_string uuid_str py_str exc_str batch_size schema_check get_active_pricing get_active_config
    get_active_mapping has_selector has_breaker has_guardrail guardrail_costs sc p pm q i pol s
    = (Ok (q', pm', i'), s') -> iq_max_latency_ms q' = iq_max_latency_ms q.
Proof.
  unfold before_call. intros H. apply mbind_ok in H as ([] & s1 & _ & H).
  destruct pol as [pol|]; [|by injection H as <-]. destruct has_guardrail; [|by injection H as <-].
  apply mbind_ok in H as (d & s2 & Hd & H). apply guarded_ok in Hd. unfold check_call in Hd.
  apply mbind_ok in Hd as (d' & s3 & Hc & Hd). apply mbind_ok in Hd as ([] & s4 & _ & Hd).
  assert (d' = d) as ->.
  { destruct (gd_decision d'); [by injection Hd as -> _..|]. apply mbind_ok in Hd as (x & s5 & _ & Hd). discriminate. }
  destruct (gd_decision d) eqn:Ed; [by injection H as <-| |by injection H as <-].
  unfold on_spend in Hc. destruct (check_and_reserve _ _ _ _ _ _ _ _ _ _ _ _ _ _ _) as [x sp] eqn:Ec.
  injection Hc as -> _. apply check_decides in Ec as (est & cf & ct & a & b & Hv).
  pose proof (degrade_without_latency _ _ _ _ _ _ _ _ Hv Ed) as Hl. unfold degrade_call in H.
  apply mbind_ok in H as ([[q1 pm1] i1] & s5 & H5 & H). apply mbind_ok in H as ([] & s6 & _ & H).
  rewrite Hl in H. injection H as <- _ _ _.
  destruct (_ && _); [|by injection H5 as <-]. apply mbind_ok in H5 as (sel & s7 & _ & H5). by injection H5 as <-.
Qed.
End latency.

(** ** A concrete executor *)

Module Calls.
Definition scope : call_scope := {|
  cs_tenant := 1%N; cs_session := 1%N; cs_flow := 7%N; cs_correlation := 1%N; cs_node := None; cs_trace := "t" |}.
Definition request : inference_request := {|
  iq_prompt := "Classify."; iq_user_message := Some "hello"; iq_user_payload := []; iq_input_payload := [];
  iq_input_schema := []; iq_output_schema := []; iq_model_alias := "gpt"; iq_max_tokens := Some 1000%Z;
  iq_max_latency_ms := Some 500%Z; iq_max_cost_usd := None; iq_prompt_version := None;
  iq_prompt_frozen_hash := None; iq_task_type := Some "classification"; iq_rest := [] |}.
Definition env : llm_env pyfloat unit := {|
  lx_spend := Guardrail.Sample.start; lx_store := demo_store; lx_world := tt |}.
Definition text (_ : pyval) : string := "".
Definition message (_ : exc) : string := "".
Definition any_schema (_ : pyval) (_ : pydict) : res exc (option string) := Ok None.
Definition no_json (_ : string) : option pyval := None.
Definition config (_ : uuid) (_ : string) : option (option string * option string) := Some (None, None).
Definition mapping (_ : uuid) (_ alias : string) : option string := Some alias.
(** A provider that answers with a label and used two hundred tokens. *)
Definition answer (_ : option LLMProviderSelection) (_ : inference_request) (w : unit) : res exc LLMResult * unit :=
  (Ok {| ir_output := PDict [("label", PStr "greeting")];
         ir_token_usage := [("prompt_tokens", PInt 100); ("completion_tokens", PInt 100)];
         ir_cost_usd := None; ir_latency_ms := PInt 40; ir_model_alias := None; ir_layer := None |}, w).

Definition execute (policy : option pydict) : M (llm_env pyfloat unit) LLMResult :=
  execute_llm Guardrail.Sample.add Guardrail.Sample.value false true 5 60 Guardrail.Sample.same Guardrail.Sample.no_int
    Guardrail.Sample.no_float Guardrail.Sample.name text message 2 any_schema no_json Guardrail.Sample.pricing config
    mapping answer true true true true true true scope "openai" policy request.
Definition before (policy : option pydict) :=
  before_call (W := unit) Guardrail.Sample.value false true 5 60 Guardrail.Sample.same Guardrail.Sample.no_int
    Guardrail.Sample.no_float Guardrail.Sample.name text message 2 any_schema Guardrail.Sample.pricing config
    mapping true true true true scope "openai" "gpt" request None policy.
Definition hard_latency : option pydict := Some [("max_latency_ms_hard", PInt 100)].
End Calls.

Lemma call_account_witness :
  exists ts, logs Calls.scope ts Calls.env (Calls.execute (Some (cost_policy (FFin 1 0))) Calls.env).2 /\
    exists gs cs, guard_events gs /\ completed_events cs /\ ts = "LLMCallStarted" :: gs ++ cs.
Proof.
  pose proof (call_account Guardrail.Sample.add Guardrail.Sample.value false 5 60 Guardrail.Sample.same
    Guardrail.Sample.no_int Guardrail.Sample.no_float Guardrail.Sample.name Calls.text Calls.message 2 Calls.any_schema
    Calls.no_json Guardrail.Sample.pricing Calls.config Calls.mapping Calls.answer true true true true true true
    Calls.scope "openai" (Some (cost_policy (FFin 1 0))) Calls.request Calls.env _ _ (surjective_pairing _)) as H.
  destruct H as (ts & L & H).
  { split; [by eexists|]. apply not_elem_of_empty. }
  exists ts. split; [exact L|].
  assert (Hok : exists x, (Calls.execute (Some (cost_policy (FFin 1 0))) Calls.env).1 = Ok x) by (eexists; by vm_compute).
  destruct Hok as [x Hx]. unfold Calls.execute in Hx. rewrite Hx in H.
  destruct H as (gs & cs & s1 & G & C & E & _). exists gs, cs. exact (conj G (conj C E)).
Defined.

(** The limit of 100 ms does not replace the caller's 500 ms. *)
Lemma hard_latency_inert_witness :
  exists q pm i s', Calls.before Calls.hard_latency Calls.env = (Ok (q, pm, i), s') /\ iq_max_latency_ms q = Some 500%Z.
Proof.
  assert (H : exists q pm i s', Calls.before Calls.hard_latency Calls.env = (Ok (q, pm, i), s'))
    by (eexists _, _, _, _; by vm_compute).
  destruct H as (q & pm & i & s' & H). exists q, pm, i, s'. split; [exact H|].
  unfold Calls.before in H. exact (hard_latency_inert _ _ _ _ _ _ _ _ _ _ _ _ _ _ _ _ _ _ _ _ _ _ _ _ _ _ _ _ _ _ _ H).
Defined.
