(* ===== verification/Layers.v ===== *)
(** * Layers: the semantic answer cache and the layers of inference

    [src/src/domain/llm/services/semantic_cache_service.py] with its repository, and
    [layered_inference_orchestrator.py]: a cached answer, a small model, the large model.

    Embeddings and their distance are outside; the cache reads one clock. *)

From S2P Require Import Prelude.
From S2P Require Import Errors.
From S2P Require Import PyValue.
From S2P Require Import PyString.
From S2P Require Import PyFloat.
From S2P Require Import Effects.
From S2P Require Import Store.
From S2P Require Import Redis.
From S2P Require Import Guardrail.
From S2P Require Import LLM.

(** ** The semantic answer cache *)

(** A row of [semantic_answer_cache]. *)
Record cache_row {E : Type} : Type := {
  ca_id : uuid;
  ca_tenant : uuid;
  ca_task : string;
  ca_query_hash : string;
  ca_embedding : E;
  ca_response : pyval;
  ca_model : option string;
  ca_layer : string;
  ca_hits : Z;
  ca_expires : Z;
  ca_created : Z;
}.
Arguments cache_row : clear implicits.

Record answer_cache {E : Type} : Type := {
  ac_rows : list (cache_row E);
  ac_now : Z;
  ac_next : uuid;
}.
Arguments answer_cache : clear implicits.

Record SemanticCacheEntry : Type := {
  se_id : uuid;
  se_response : pyval;
  se_similarity : pyfloat;
  se_model : option string;
  se_layer : string;
}.

Section cache.
Context {E W : Type}.
(** [cosine_distance], as the database computes it. *)
Variable distance : E -> E -> pyfloat.
(** The embedding model, and [hashlib.sha256(...).hexdigest()]. *)
Variable embed : string -> W -> res exc E * W.
Variable sha256 : string -> string.

Definition float_leb (x y : pyfloat) : bool :=
  match num_compare x y with Some (Lt | Eq) => true | _ => false end.

Definition one : pyfloat := FFin 1 0.

(** The rows a search ranges over. *)
Definition candidate (tenant : uuid) (task : string) (e : E) (threshold : pyfloat) (now : Z) (r : cache_row E) :
    bool :=
  bool_decide (ca_tenant r = tenant) && String.eqb (ca_task r) task && (now <? ca_expires r)%Z
  && float_leb (distance (ca_embedding r) e) (float_sub one threshold).

(** [ORDER BY distance LIMIT 1]; of rows at the same distance the first in the table. *)
Definition closer (e : E) (best : option (cache_row E)) (r : cache_row E) : option (cache_row E) :=
  match best with
  | None => Some r
  | Some b => if float_ltb (distance (ca_embedding r) e) (distance (ca_embedding b) e) then Some r else Some b
  end.

(** [SemanticCacheRepository.search_similar]. *)
Definition search_similar (tenant : uuid) (task : string) (e : E) (threshold : pyfloat) (c : answer_cache E) :
    option (cache_row E * pyfloat) :=
  (fun r => (r, float_sub one (distance (ca_embedding r) e))) <$>
  foldl (closer e) None (filter (fun r => candidate tenant task e threshold (ac_now c) r = true) (ac_rows c)).

Definition set_rows (rows : list (cache_row E)) (c : answer_cache E) : answer_cache E :=
  {| ac_rows := rows; ac_now := ac_now c; ac_next := ac_next c |}.

Definition hit (r : cache_row E) : cache_row E := {|
  ca_id := ca_id r; ca_tenant := ca_tenant r; ca_task := ca_task r; ca_query_hash := ca_query_hash r;
  ca_embedding := ca_embedding r; ca_response := ca_response r; ca_model := ca_model r; ca_layer := ca_layer r;
  ca_hits := ca_hits r + 1; ca_expires := ca_expires r; ca_created := ca_created r |}.

(** [increment_hit]. *)
Definition increment_hit (i : uuid) (c : answer_cache E) : answer_cache E :=
  set_rows ((fun r => if decide (ca_id r = i) then hit r else r) <$> ac_rows c) c.

(** [evict_expired]: the number of rows removed. *)
Definition evict_expired (tenant : uuid) (c : answer_cache E) : nat * answer_cache E :=
  let gone r := ca_tenant r = tenant /\ (ca_expires r <= ac_now c)%Z in
  (length (filter gone (ac_rows c)), set_rows (filter (fun r => ~ gone r) (ac_rows c)) c).

(** The unique constraint on tenant, task type and query hash. *)
Definition clash (new r : cache_row E) : bool :=
  bool_decide (ca_tenant r = ca_tenant new) && String.eqb (ca_task r) (ca_task new)
  && String.eqb (ca_query_hash r) (ca_query_hash new).

(** The insert of [SemanticCacheRepository.persist]: a row of the same tenant, task and
    query is overwritten and keeps its identifier, hits and creation. *)
Definition upsert (new : cache_row E) (rows : list (cache_row E)) : list (cache_row E) :=
  if existsb (clash new) rows then
    (fun r => if clash new r then {|
       ca_id := ca_id r; ca_tenant := ca_tenant r; ca_task := ca_task r; ca_query_hash := ca_query_hash r;
       ca_embedding := ca_embedding new; ca_response := ca_response new; ca_model := ca_model new;
       ca_layer := ca_layer new; ca_hits := ca_hits r; ca_expires := ca_expires new; ca_created := ca_created r |}
     else r) <$> rows
  else rows ++ [new].

(** The entry of a row: pydantic wants a dictionary. *)
Definition entry_of (rs : cache_row E * pyfloat) : res exc SemanticCacheEntry :=
  match ca_response rs.1 with
  | PDict _ => Ok {| se_id := ca_id rs.1; se_response := ca_response rs.1; se_similarity := rs.2;
                     se_model := ca_model rs.1; se_layer := ca_layer rs.1 |}
  | _ => Err PydanticValidationError
  end.

(** [SemanticCacheService.lookup]: the embedding, and the entry of a hit. *)
Definition cache_lookup (tenant : uuid) (task query : string) (threshold : pyfloat) :
    M (W * answer_cache E) (E * option SemanticCacheEntry) := fun s =>
  match embed query s.1 with
  | (Err x, w) => (Err x, (w, s.2))
  | (Ok e, w) =>
      match search_similar tenant task e threshold s.2 with
      | None => (Ok (e, None), (w, s.2))
      | Some rs =>
          let c := increment_hit (ca_id rs.1) s.2 in
          match entry_of rs with
          | Ok entry => (Ok (e, Some entry), (w, c))
          | Err x => (Err x, (w, c))
          end
      end
  end.

(** [SemanticCacheService.persist]. *)
Definition cache_persist (tenant : uuid) (task query : string) (known : option E) (response : pyval)
    (model : option string) (layer : string) (ttl : Z) : M (W * answer_cache E) unit := fun s =>
  match match known with Some e => (Ok e, s.1) | None => embed query s.1 end with
  | (Err x, w) => (Err x, (w, s.2))
  | (Ok e, w) =>
      let c := s.2 in
      let new := {| ca_id := ac_next c; ca_tenant := tenant; ca_task := task; ca_query_hash := sha256 query;
                    ca_embedding := e; ca_response := response; ca_model := model; ca_layer := layer;
                    ca_hits := 0; ca_expires := ac_now c + ttl; ca_created := ac_now c |} in
      (Ok tt, (w, {| ac_rows := upsert new (ac_rows c); ac_now := ac_now c; ac_next := ac_next c + 1 |}))
  end.
End cache.

(** ** The layers *)

Record InferenceLayerPolicy : Type := {
  cache_enabled : bool;
  cache_similarity_threshold : pyfloat;
  cache_ttl_seconds : Z;
  slm_enabled : bool;
  slm_eligible_tasks : list string;
  slm_provider : string;
  slm_model_alias : string;
  escalation_on_schema_mismatch : bool;
}.

(** [key in output]. *)
Definition py_contains (same : pyval -> pyval -> bool) (key output : pyval) : res exc bool :=
  match output with
  | PDict d => match key with PStr k => Ok (dict_has k d) | PList _ | PDict _ => Err PyTypeError | _ => Ok false end
  | PList l => Ok (existsb (py_eq same key) l)
  | PStr t => match key with
              | PStr k => Ok (match String.index 0 k t with Some _ => true | None => false end)
              | _ => Err PyTypeError
              end
  | _ => Err PyTypeError
  end.

Section layers.
Context {E W S : Type}.
Variable distance : E -> E -> pyfloat.
Variable embed : string -> W -> res exc E * W.
Variable sha256 : string -> string.
Variable same : pyval -> pyval -> bool.
Variable layer_policy_validate : pyval -> option InferenceLayerPolicy.
Variable default_policy : InferenceLayerPolicy.
Variable has_cache : bool.
(** The executor: scope, provider, policy and request. *)
Variable execute : call_scope -> string -> option pydict -> inference_request -> M S LLMResult.

(** The executor's state, and the cache's. *)
Definition layer_env : Type := S * (W * answer_cache E).
Definition on_executor {A} (m : M S A) : M layer_env A := fun s =>
  match m s.1 with (r, x) => (r, (x, s.2)) end.
Definition on_cache {A} (m : M (W * answer_cache E) A) : M layer_env A := fun s =>
  match m s.2 with (r, x) => (r, (s.1, x)) end.

(** [_resolve_layer_policy]. *)
Definition _resolve_layer_policy (policy : option pydict) : InferenceLayerPolicy :=
  match policy with
  | None => default_policy
  | Some p => match dict_getv "inference_layers" p with
              | PNone => default_policy
              | raw => default default_policy (layer_policy_validate raw)
              end
  end.

(** The keys an output must have. *)
Definition expected_keys (schema : pydict) : res exc (list pyval) :=
  match dict_getv "required" schema with
  | PList l => Ok l
  | _ => match default (PDict []) (dict_get "properties" schema) with
         | PDict d => Ok ((fun kv => PStr kv.1) <$> d)
         | _ => Err PyAttributeError
         end
  end.

(** [_passes_confidence_gate]. *)
Definition _passes_confidence_gate (r : LLMResult) (q : inference_request) : res exc bool :=
  if negb (truthy (ir_output r)) then Ok false
  else match iq_output_schema q with
       | [] => Ok true
       | schema => let! keys := expected_keys schema in
                   rall (fun k => py_contains same k (ir_output r)) keys
       end.

(** [request.user_message or request.prompt]. *)
Definition user_query (q : inference_request) : string := default (iq_prompt q) (present_text (iq_user_message q)).

(** Whether the cache takes part, and for which task. *)
Definition cache_task (lp : InferenceLayerPolicy) (q : inference_request) : option string :=
  if cache_enabled lp && negb (String.eqb (user_query q) "") && has_cache then present_text (iq_task_type q)
  else None.

Definition cached_result (entry : SemanticCacheEntry) : LLMResult := {|
  ir_output := se_response entry; ir_token_usage := []; ir_cost_usd := Some (FFin 0 0); ir_latency_ms := PInt 0;
  ir_model_alias := se_model entry; ir_layer := Some CACHE |}.

(** The small model's answer, when the task is eligible and the answer is good enough. *)
Definition try_slm (lp : InferenceLayerPolicy) (sc : call_scope) (policy : option pydict) (q : inference_request) :
    M layer_env (option LLMResult) :=
  if slm_enabled lp && match iq_task_type q with
                       | Some t => bool_decide (t ∈ slm_eligible_tasks lp)
                       | None => false
                       end
  then
    let* r := mtry (let* r := on_executor (execute sc (slm_provider lp) policy (with_model (slm_model_alias lp) q)) in
                    mret (Some r))
                (fun _ => mret None) in
    match r with
    | None => mret None
    | Some r =>
        if escalation_on_schema_mismatch lp then
          let* good := mlift (_passes_confidence_gate r q) in
          mret (if (good : bool) then Some r else None)
        else mret (Some r)
    end
  else mret None.

(** [LayeredInferenceOrchestrator.execute_llm]. *)
Definition layered_execute_llm (sc : call_scope) (provider : string) (policy : option pydict)
    (q : inference_request) : M layer_env LLMResult :=
  let lp := _resolve_layer_policy policy in
  let* found := match cache_task lp q with
                | Some task =>
                    let* x := on_cache (cache_lookup distance embed (cs_tenant sc) task (user_query q)
                                          (cache_similarity_threshold lp)) in
                    mret (Some x.1, x.2)
                | None => mret (None, None)
                end in
  match found.2 with
  | Some entry => mret (cached_result entry)
  | None =>
      let* small := try_slm lp sc policy q in
      let* answered := match small with
                       | Some r => mret (r, SLM)
                       | None => let* r := on_executor (execute sc provider policy q) in mret (r, LLM_LAYER)
                       end in
      let r := with_layer answered.2 answered.1 in
      match cache_task lp q with
      | Some task =>
          if truthy (ir_output r) then
            on_cache (cache_persist embed sha256 (cs_tenant sc) task (user_query q) found.1 (ir_output r)
                        (ir_model_alias r) (layer_str answered.2) (cache_ttl_seconds lp))
          else mret tt
      | None => mret tt
      end ;;*
      mret r
  end.
End layers.

(** ** What a cached answer depends on *)

Section facts.
Context {E W S : Type}.
Variable distance : E -> E -> pyfloat.
Variable embed : string -> W -> res exc E * W.
Variable sha256 : string -> string.
Variable same : pyval -> pyval -> bool.
Variable layer_policy_validate : pyval -> option InferenceLayerPolicy.
Variable default_policy : InferenceLayerPolicy.
Variable has_cache : bool.
Variable execute : call_scope -> string -> option pydict -> inference_request -> M S LLMResult.

Abbreviation layered_ := (layered_execute_llm distance embed sha256 same layer_policy_validate default_policy
  has_cache execute).
Abbreviation policy_ := (_resolve_layer_policy layer_policy_validate default_policy).

Lemma closer_elem e l best r :
  foldl (closer distance e) best l = Some r -> best = Some r \/ r ∈ l.
Proof.
  revert best. induction l as [|x l IH]; intros best; [by left|]. simpl. intros H. apply IH in H as [H|H].
  - unfold closer in H. destruct best as [b|]; [|injection H as ->; right; left].
    destruct (float_ltb _ _); injection H as ->; [right; left|by left].
  - right. by right.
Qed.

Lemma search_elem tenant task e th c r x :
  search_similar distance tenant task e th c = Some (r, x) ->
  r ∈ ac_rows c /\ candidate distance tenant task e th (ac_now c) r = true.
Proof.
  unfold search_similar. intros H. apply fmap_Some in H as (r0 & H & Heq). injection Heq as -> _.
  apply closer_elem in H as [H|H]; [done|]. apply list_elem_of_filter in H as [H1 H2]. done.
Qed.

Lemma cache_lookup_entry tenant task query th s e entry s' :
  cache_lookup distance embed tenant task query th s = (Ok (e, Some entry), s') ->
  exists r, r ∈ ac_rows s.2 /\ candidate distance tenant task e th (ac_now s.2) r = true /\
    se_response entry = ca_response r /\ se_model entry = ca_model r /\ exists w, embed query s.1 = (Ok e, w).
Proof.
  unfold cache_lookup. destruct (embed query s.1) as [[e'|x] w] eqn:Ee; [|done].
  destruct (search_similar _ _ _ _ _ _) as [[r x]|] eqn:Es; [|done]. unfold entry_of. simpl.
  destruct (ca_response r) eqn:Er; try done. intros [= -> <- _]. apply search_elem in Es as [H1 H2].
  exists r. rewrite Er. split_and!; try done. by exists w.
Qed.

Lemma candidate_iff tenant task e th now r :
  candidate distance tenant task e th now r = true <->
  ca_tenant r = tenant /\ ca_task r = task /\ (now < ca_expires r)%Z /\
  float_leb (distance (ca_embedding r) e) (float_sub one th) = true.
Proof. unfold candidate. rewrite !andb_true_iff, bool_decide_eq_true, String.eqb_eq, Z.ltb_lt. tauto. Qed.

(** Cached answers.  An answer from the cache is the stored response of a row of the same
    tenant and task type that has not expired and whose query is within the similarity
    threshold, and the model is not called.  Nothing else is looked at: any other request
    of the tenant with the same query and task type, whatever its prompt, schema, model or
    flow run, gets the same answer. *)
Theorem cached_answers sc p pol q s r s' :
  layered_ sc p pol q s = (Ok r, s') -> ir_layer r = Some CACHE ->
  s'.1 = s.1 /\
  (exists row task e w, row ∈ ac_rows s.2.2 /\ iq_task_type q = Some task /\
     embed (user_query q) s.2.1 = (Ok e, w) /\
     ca_tenant row = cs_tenant sc /\ ca_task row = task /\ (ac_now s.2.2 < ca_expires row)%Z /\
     float_leb (distance (ca_embedding row) e) (float_sub one (cache_similarity_threshold (policy_ pol))) = true /\
     ir_output r = ca_response row) /\
  (forall sc' p' q', cs_tenant sc' = cs_tenant sc -> user_query q' = user_query q ->
     iq_task_type q' = iq_task_type q -> layered_ sc' p' pol q' s = (Ok r, s')).
Proof.
  unfold layered_execute_llm. intros H Hl. first_step H as [[[e entry]|x] s1] eqn:E1; [|done]. simpl in H.
  destruct entry as [entry|].
  2:{ apply mbind_ok in H as (small & s2 & _ & H). apply mbind_ok in H as ([r0 l] & s3 & H3 & H).
      apply mbind_ok in H as ([] & s4 & _ & H). injection H as <- _. simpl in Hl. injection Hl as ->.
      destruct small; [by injection H3|]. apply mbind_ok in H3 as (r1 & s5 & _ & H3). by injection H3. }
  injection H as <- <-. destruct (cache_task has_cache (policy_ pol) q) as [task|] eqn:Ht; [|by injection E1].
  assert (Htask : iq_task_type q = Some task).
  { unfold cache_task in Ht. destruct (_ && _ && _); [|done]. unfold present_text in Ht.
    destruct (iq_task_type q) as [t|]; [|done]. destruct (String.eqb t ""); congruence. }
  pose proof E1 as E0. apply mbind_ok in E1 as ([e' en] & s2 & E1 & [= <- -> <-]). unfold on_cache in E1.
  destruct (cache_lookup _ _ _ _ _ _ s.2) as [x c] eqn:Ec. injection E1 as -> <-. simpl in *.
  apply cache_lookup_entry in Ec as (row & H1 & H2 & H3 & H4 & w & H5).
  split; [done|]. split; [apply candidate_iff in H2; by exists row, task, e', w; naive_solver|].
  intros sc' p' q' Hs Hq Hk. assert (Ht' : cache_task has_cache (policy_ pol) q' = Some task).
  { rewrite <- Ht. unfold cache_task. by rewrite Hq, Hk. }
  rewrite Ht', Hs, Hq. by rewrite (mbind_run _ _ _ _ _ E0).
Qed.

(** *** Round trip *)

Lemma float_ltb_asym x y : float_ltb x y = true -> float_ltb y x = false.
Proof.
  unfold float_ltb. destruct x as [m e|n|], y as [m' e'|n'|]; simpl; try done.
  - rewrite Z.min_comm, Z.compare_antisym. by destruct (Z.compare _ _).
  - by destruct n'.
  - by destruct n.
  - destruct n, n'; done.
Qed.

Definition zero : pyfloat := FFin 0 0.

(** A list that has rows at distance zero and otherwise only rows farther away. *)
Lemma nearest_own (P : cache_row E -> Prop) e l best :
  (forall r, P r -> distance (ca_embedding r) e = zero) ->
  (forall r, r ∈ l \/ best = Some r -> P r \/ float_ltb zero (distance (ca_embedding r) e) = true) ->
  (exists r, P r /\ (r ∈ l \/ best = Some r)) ->
  exists r, foldl (closer distance e) best l = Some r /\ P r.
Proof.
  intros HP. revert best. induction l as [|x l IH]; intros best Hall (r & Hr & Hin).
  - destruct Hin as [Hin|Hin]; [by apply not_elem_of_nil in Hin|]. by exists r.
  - simpl. apply IH.
    + intros y [Hy|Hy]; [apply Hall; left; by right|]. unfold closer in Hy.
      destruct best as [b|]; [|injection Hy as <-; apply Hall; left; left].
      destruct (float_ltb _ _); injection Hy as <-; apply Hall; [left; left|by right].
    + destruct Hin as [Hin|Hin].
      * apply elem_of_cons in Hin as [->|Hin]; [|by exists r; auto]. unfold closer. destruct best as [b|]; [|by exists x; auto].
        destruct (Hall b (or_intror eq_refl)) as [Hb|Hb].
        -- destruct (float_ltb _ _); [by exists x; auto|by exists b; auto].
        -- rewrite (HP x Hr), Hb. by exists x; auto.
      * subst best. unfold closer. destruct (Hall x (or_introl (list_elem_of_here _ _))) as [Hx|Hx].
        -- destruct (float_ltb _ _); [by exists x; auto|by exists r; auto].
        -- rewrite (HP r Hr), (float_ltb_asym _ _ Hx). by exists r; auto.
Qed.

(** The rows after a write: the written ones and the others. *)
Lemma upsert_rows (new : cache_row E) rows :
  (exists r, r ∈ upsert new rows /\ ca_tenant r = ca_tenant new /\ ca_task r = ca_task new /\
     ca_expires r = ca_expires new /\ ca_embedding r = ca_embedding new /\ ca_response r = ca_response new /\
     ca_model r = ca_model new) /\
  (forall r, r ∈ upsert new rows ->
     (ca_embedding r = ca_embedding new /\ ca_response r = ca_response new /\ ca_model r = ca_model new) \/
     (r ∈ rows /\ ~ (ca_tenant r = ca_tenant new /\ ca_task r = ca_task new /\
                     ca_query_hash r = ca_query_hash new))).
Proof.
  unfold upsert. assert (Hc : forall r, clash new r = true <->
    ca_tenant r = ca_tenant new /\ ca_task r = ca_task new /\ ca_query_hash r = ca_query_hash new).
  { intros r. unfold clash. rewrite !andb_true_iff, bool_decide_eq_true, !String.eqb_eq. tauto. }
  destruct (existsb (clash new) rows) eqn:Ex.
  - apply existsb_exists in Ex as (r0 & Hin & Hr0). apply list_elem_of_In in Hin. split.
    + eexists. split; [apply list_elem_of_fmap_2, Hin|]. rewrite Hr0. simpl. apply Hc in Hr0. tauto.
    + intros r Hr. apply list_elem_of_fmap_1 in Hr as (y & -> & Hy). destruct (clash new y) eqn:Ey; [by left|].
      right. split; [done|]. rewrite <- Hc. congruence.
  - split; [exists new; split; [apply elem_of_app; right; by apply list_elem_of_singleton|done]|].
    intros r Hr. apply elem_of_app in Hr as [Hr|Hr].
    + right. split; [done|]. rewrite <- Hc. intros Hcl.
      assert (existsb (clash new) rows = true) by (apply existsb_exists; exists r; split; [by apply list_elem_of_In|done]). congruence.
    + apply list_elem_of_singleton in Hr as ->. by left.
Qed.

(** Writing and reading the cache.  After an answer is stored for a query, the same query
    (or any with the same embedding) reads it back until it expires, with the model that
    gave it, provided that no other query of the tenant and task has the same embedding.  An
    answer that is not a dictionary is stored all the same, and then every such lookup
    raises until the row expires. *)
Theorem cache_roundtrip tenant task query query' e resp model layer ttl th (s s1 : W * answer_cache E) w2 w3 :
  cache_persist embed sha256 tenant task query (Some e) resp model layer ttl s = (Ok tt, s1) ->
  (0 < ttl)%Z -> embed query' w2 = (Ok e, w3) ->
  distance e e = zero -> float_leb zero (float_sub one th) = true ->
  (forall r, r ∈ ac_rows s.2 -> ca_tenant r = tenant -> ca_task r = task -> ca_query_hash r <> sha256 query ->
     float_ltb zero (distance (ca_embedding r) e) = true) ->
  exists s2, match resp with
    | PDict d => exists entry, cache_lookup distance embed tenant task query' th (w2, s1.2) = (Ok (e, Some entry), s2) /\
                   se_response entry = PDict d /\ se_model entry = model
    | _ => cache_lookup distance embed tenant task query' th (w2, s1.2) = (Err PydanticValidationError, s2)
    end.
Proof.
  intros Hp Httl He Hd Hth Hother. unfold cache_persist in Hp. injection Hp as <-. unfold cache_lookup. cbn [fst snd].
  rewrite He. match goal with |- context [upsert ?n _] => set (new := n) end.
  destruct (upsert_rows new (ac_rows s.2)) as [(r & Hr & R1 & R2 & R3 & R4 & R5 & R6) Hrows].
  set (P := fun r : cache_row E => ca_embedding r = e /\ ca_response r = resp /\ ca_model r = model).
  assert (Hs : exists r x, search_similar distance tenant task e th
    {| ac_rows := upsert new (ac_rows s.2); ac_now := ac_now s.2; ac_next := ac_next s.2 + 1 |} = Some (r, x) /\ P r).
  { unfold search_similar. cbn [ac_rows ac_now].
    destruct (nearest_own P e (filter (fun r => candidate distance tenant task e th (ac_now s.2) r = true)
      (upsert new (ac_rows s.2))) None) as (r' & -> & HP'); [| | |by eexists _, _].
    - intros r' (-> & _). done.
    - intros r' [H|H]; [|done]. apply list_elem_of_filter in H as [Hc H]. destruct (Hrows r' H) as [Hn|[H1 H2]]; [by left|].
      right. apply candidate_iff in Hc as (C1 & C2 & _). apply Hother; try done. intros Hq. by apply H2.
    - exists r. split; [done|]. left. apply list_elem_of_filter. split; [|done]. apply candidate_iff.
      rewrite R1, R2, R3, R4. simpl. rewrite Hd. split_and!; try done. lia. }
  destruct Hs as (r' & x & -> & (P1 & P2 & P3)). unfold entry_of. cbn [fst snd]. rewrite P2.
  destruct resp; try (by eexists). eexists. eexists. split; [reflexivity|]. by split.
Qed.
End facts.

(** ** A concrete cache *)

Module Answers.
(** Embeddings are lengths, and other lengths are at distance one. *)
Definition distance (a b : Z) : pyfloat := if (a =? b)%Z then FFin 0 0 else FFin 1 0.
Definition embed (t : string) (w : unit) : res exc Z * unit := (Ok (Z.of_nat (String.length t)), w).
Definition digest (t : string) : string := t.
Definition policy : InferenceLayerPolicy := {|
  cache_enabled := true; cache_similarity_threshold := FFin 1 (-1); cache_ttl_seconds := 60; slm_enabled := false;
  slm_eligible_tasks := []; slm_provider := ""; slm_model_alias := ""; escalation_on_schema_mismatch := false |}.
Definition unreadable (_ : pyval) : option InferenceLayerPolicy := None.
Definition executor (_ : call_scope) (_ : string) (_ : option pydict) (q : inference_request) :
    M (llm_env pyfloat unit) LLMResult := Calls.execute None.
Definition empty : answer_cache Z := {| ac_rows := []; ac_now := 0; ac_next := 1%N |}.
Definition layered := layered_execute_llm distance embed digest Guardrail.Sample.same unreadable policy true executor.
(** One call fills the cache. *)
Definition filled : layer_env (E := Z) (W := unit) (S := llm_env pyfloat unit) :=
  (layered Calls.scope "openai" None Calls.request (Calls.env, (tt, empty))).2.
(** Another prompt, schema and model, for the same message. *)
Definition other_request : inference_request := {|
  iq_prompt := "Translate."; iq_user_message := Some "hello"; iq_user_payload := []; iq_input_payload := [];
  iq_input_schema := []; iq_output_schema := [("required", PList [PStr "text"])]; iq_model_alias := "other";
  iq_max_tokens := None; iq_max_latency_ms := None; iq_max_cost_usd := None; iq_prompt_version := None;
  iq_prompt_frozen_hash := None; iq_task_type := Some "classification"; iq_rest := [] |}.
End Answers.

(** The second request is answered with the label of the first. *)
Lemma cached_answers_witness :
  exists r s', Answers.layered Calls.scope "anthropic" None Answers.other_request Answers.filled = (Ok r, s') /\
    ir_output r = PDict [("label", PStr "greeting")] /\ s'.1 = Answers.filled.1.
Proof.
  assert (H : exists r s', Answers.layered Calls.scope "openai" None Calls.request Answers.filled = (Ok r, s') /\
    ir_layer r = Some CACHE /\ ir_output r = PDict [("label", PStr "greeting")]) by (eexists _, _; by vm_compute).
  destruct H as (r & s' & H & Hl & Ho). exists r, s'. unfold Answers.layered in *.
  destruct (cached_answers Answers.distance Answers.embed Answers.digest Guardrail.Sample.same Answers.unreadable
    Answers.policy true Answers.executor _ _ _ _ _ _ _ H Hl) as (H1 & _ & H3).
  split; [by apply H3|]. split; [exact Ho|exact H1].
Defined.

Lemma cache_roundtrip_witness :
  exists entry s2, cache_lookup Answers.distance Answers.embed 1%N "t" "hallo" (FFin 1 (-1))
      (tt, (cache_persist Answers.embed Answers.digest 1%N "t" "hello" (Some 5%Z) (PDict []) None "LLM" 60
              (tt, Answers.empty)).2.2) = (Ok (5%Z, Some entry), s2) /\ se_response entry = PDict [].
Proof.
  destruct (cache_roundtrip (W := unit) Answers.distance Answers.embed Answers.digest 1%N "t" "hello" "hallo" 5%Z
    (PDict []) None "LLM" 60 (FFin 1 (-1)) (tt, Answers.empty)
    (cache_persist Answers.embed Answers.digest 1%N "t" "hello" (Some 5%Z) (PDict []) None "LLM" 60
       (tt, Answers.empty)).2 tt tt) as (s2 & entry & H & R & _); [reflexivity|lia|reflexivity..| |].
  - intros r H. by apply not_elem_of_nil in H.
  - exists entry, s2. exact (conj H R).
Defined.
