(* ===== verification/HumanSLA.v ===== *)
(** * HumanSLA: cases for human agents and their deadlines

    [src/src/domain/human_sla/]: the tables of cases, policies and escalation rules
    ([repositories/]) and the service over them ([services/human_sla_service.py]).

    Times are instants in microseconds; the service and the database read one clock.
    Foreign keys are taken to hold. *)

From S2P Require Import Prelude.
From S2P Require Import Errors.
From S2P Require Import PyValue.
From S2P Require Import Sorting.
From S2P Require Import PyFloat.
From S2P Require Import Effects.
From S2P Require Import Store.
From S2P Require Import NodeStep.

(** ** Data *)

Inductive SLAStatus : Type := OPEN | ASSIGNED | RESOLVED | ABANDONED.
Inductive SLAResolutionStatus : Type := RES_RESOLVED | UNRESOLVED | TRANSFERRED | USER_ABANDONED.

#[global] Instance SLAStatus_eq_dec : EqDecision SLAStatus.
Proof. solve_decision. Defined.

(** A row of [sla_case]. *)
Record SLACase : Type := {
  sla_case_id : uuid;
  sc_tenant : uuid;
  sc_session : uuid;
  sc_flow_run : uuid;
  sc_node_run : uuid;
  sc_interaction : option uuid;
  sc_user : string;
  sc_status : SLAStatus;
  priority : option string;
  fallback_reason : SLAFallbackReason;
  human_agent : option string;
  resolution : option (SLAResolutionStatus * string);
  human_sla_policy : option uuid;
  current_escalation_level : Z;
  opened_at : Z;
  assigned_at : option Z;
  resolved_at : option Z;
  sla_target_at : option Z;
  sla_breached : bool;
}.

Record SLACaseCreate : Type := {
  cc_tenant : uuid;
  cc_session : uuid;
  cc_flow_run : uuid;
  cc_node_run : uuid;
  cc_interaction : option uuid;
  cc_user : string;
  cc_priority : option string;
  cc_reason : SLAFallbackReason;
  cc_opened : Z;
  cc_target : option Z;
  cc_policy : option uuid;
  cc_level : Z;
}.

Record SLACaseResolve : Type := {
  rv_status : SLAResolutionStatus;
  rv_summary : string;
  rv_agent : string;
}.

Record HumanSLAPolicy : Type := {
  hp_id : uuid;
  hp_tenant : uuid;
  hp_node : string;
  hp_reason : string;
  initial_priority : string;
  target_response_hours : option Z;
  target_resolution_hours : option Z;
  hp_active : bool;
}.

Record HumanSLAEscalationRule : Type := {
  er_policy : uuid;
  er_level : Z;
  trigger_after_hours : Z;
  new_priority : string;
}.

Record sla_db : Type := {
  cases : list SLACase;
  policies : list HumanSLAPolicy;
  rules : list HumanSLAEscalationRule;
  sla_now : Z;
  sla_next : uuid;
}.

Definition set_cases (v : list SLACase) (d : sla_db) : sla_db := {|
  cases := v; policies := policies d; rules := rules d; sla_now := sla_now d; sla_next := sla_next d |}.

(** ** The tables *)

Definition new_case (i : uuid) (c : SLACaseCreate) : SLACase := {|
  sla_case_id := i; sc_tenant := cc_tenant c; sc_session := cc_session c; sc_flow_run := cc_flow_run c;
  sc_node_run := cc_node_run c; sc_interaction := cc_interaction c; sc_user := cc_user c; sc_status := OPEN;
  priority := cc_priority c; fallback_reason := cc_reason c; human_agent := None; resolution := None;
  human_sla_policy := cc_policy c; current_escalation_level := cc_level c; opened_at := cc_opened c;
  assigned_at := None; resolved_at := None; sla_target_at := cc_target c; sla_breached := false |}.

(** [uq_sla_case_flow_run_node_run]. *)
Definition same_step (c : SLACaseCreate) (x : SLACase) : bool :=
  bool_decide (sc_flow_run x = cc_flow_run c) && bool_decide (sc_node_run x = cc_node_run c).

(** [create_case]: nothing when the step has a case. *)
Definition create_case (c : SLACaseCreate) : M sla_db (option SLACase) := fun d =>
  if existsb (same_step c) (cases d) then (Ok None, d)
  else let x := new_case (sla_next d) c in
       (Ok (Some x), {| cases := cases d ++ [x]; policies := policies d; rules := rules d; sla_now := sla_now d;
                        sla_next := sla_next d + 1 |}).

Definition is_case (i tenant : uuid) (x : SLACase) : Prop := sla_case_id x = i /\ sc_tenant x = tenant.
#[global] Instance is_case_dec i tenant x : Decision (is_case i tenant x).
Proof. unfold is_case. apply _. Defined.

(** [get_case]. *)
Definition get_case (i tenant : uuid) (d : sla_db) : option SLACase := head (filter (is_case i tenant) (cases d)).

(** [UPDATE ... WHERE sla_case_id AND tenant_id]. *)
Definition update_case (i tenant : uuid) (f : SLACase -> SLACase) (d : sla_db) : sla_db :=
  set_cases ((fun x => if decide (is_case i tenant x) then f x else x) <$> cases d) d.

(** The newest first. *)
Definition newest_first (l : list SLACase) : list SLACase := sorted_by Z.ge opened_at l.

Definition listed (tenant : uuid) (status : option SLAStatus) (x : SLACase) : bool :=
  bool_decide (sc_tenant x = tenant) &&
  match status with Some s => bool_decide (sc_status x = s) | None => true end.

(** [HumanSLARepository.list_cases]. *)
Definition list_cases (tenant : uuid) (status : option SLAStatus) (limit offset : nat) (d : sla_db) : list SLACase :=
  take limit (drop offset (newest_first (filter (fun x => listed tenant status x = true) (cases d)))).

(** [list_cases_by_session]. *)
Definition list_cases_by_session (tenant session : uuid) (d : sla_db) : list SLACase :=
  newest_first (filter (fun x => sc_tenant x = tenant /\ sc_session x = session) (cases d)).

Definition open_in (tenant session : uuid) (x : SLACase) : Prop :=
  sc_tenant x = tenant /\ sc_session x = session /\ sc_status x = OPEN.
#[global] Instance open_in_dec tenant session x : Decision (open_in tenant session x).
Proof. unfold open_in. apply _. Defined.

(** [get_last_open_case_for_session]. *)
Definition get_last_open_case_for_session (tenant session : uuid) (d : sla_db) : option SLACase :=
  head (newest_first (filter (open_in tenant session) (cases d))).

Definition assigned (agent : string) (now : Z) (x : SLACase) : SLACase := {|
  sla_case_id := sla_case_id x; sc_tenant := sc_tenant x; sc_session := sc_session x; sc_flow_run := sc_flow_run x;
  sc_node_run := sc_node_run x; sc_interaction := sc_interaction x; sc_user := sc_user x; sc_status := ASSIGNED;
  priority := priority x; fallback_reason := fallback_reason x; human_agent := Some agent;
  resolution := resolution x; human_sla_policy := human_sla_policy x;
  current_escalation_level := current_escalation_level x; opened_at := opened_at x; assigned_at := Some now;
  resolved_at := resolved_at x; sla_target_at := sla_target_at x; sla_breached := sla_breached x |}.

Definition resolved (p : SLACaseResolve) (now : Z) (x : SLACase) : SLACase := {|
  sla_case_id := sla_case_id x; sc_tenant := sc_tenant x; sc_session := sc_session x; sc_flow_run := sc_flow_run x;
  sc_node_run := sc_node_run x; sc_interaction := sc_interaction x; sc_user := sc_user x; sc_status := RESOLVED;
  priority := priority x; fallback_reason := fallback_reason x; human_agent := Some (rv_agent p);
  resolution := Some (rv_status p, rv_summary p); human_sla_policy := human_sla_policy x;
  current_escalation_level := current_escalation_level x; opened_at := opened_at x; assigned_at := assigned_at x;
  resolved_at := Some now; sla_target_at := sla_target_at x; sla_breached := sla_breached x |}.

(** The columns that escalation writes. *)
Definition with_escalation (p : option string) (level : Z) (breached : bool) (x : SLACase) : SLACase := {|
  sla_case_id := sla_case_id x; sc_tenant := sc_tenant x; sc_session := sc_session x; sc_flow_run := sc_flow_run x;
  sc_node_run := sc_node_run x; sc_interaction := sc_interaction x; sc_user := sc_user x; sc_status := sc_status x;
  priority := p; fallback_reason := fallback_reason x; human_agent := human_agent x;
  resolution := resolution x; human_sla_policy := human_sla_policy x; current_escalation_level := level;
  opened_at := opened_at x; assigned_at := assigned_at x; resolved_at := resolved_at x;
  sla_target_at := sla_target_at x; sla_breached := breached |}.

(** [update_case_escalation] and [update_case_sla_breached]. *)
Definition update_case_escalation (i tenant : uuid) (p : string) (level : Z) : M sla_db unit :=
  mmodify (update_case i tenant (fun x => with_escalation (Some p) level (sla_breached x) x)).
Definition update_case_sla_breached (i tenant : uuid) : M sla_db unit :=
  mmodify (update_case i tenant (fun x => with_escalation (priority x) (current_escalation_level x) true x)).

(** [HumanSLAPolicyRepository.resolve_policy]: some active policy, here the first. *)
Definition resolve_policy (tenant : uuid) (node reason : string) (d : sla_db) : option HumanSLAPolicy :=
  head (filter (fun p => hp_tenant p = tenant /\ hp_node p = node /\ hp_reason p = reason /\ hp_active p = true)
          (policies d)).

(** [get_policy_with_rules]: the policy and its rules by level. *)
Definition get_policy_with_rules (i : uuid) (d : sla_db) : option (HumanSLAPolicy * list HumanSLAEscalationRule) :=
  match head (filter (fun p => hp_id p = i) (policies d)) with
  | None => None
  | Some p => Some (p, sorted_by Z.le er_level (filter (fun r => er_policy r = i) (rules d)))
  end.

(** ** The service *)

Definition HOUR : Z := 3600 * 1000000.

(** [create_case_for_fallback]. *)
Definition create_case_for_fallback (c : SLACaseCreate) : M sla_db (option uuid) :=
  let* x := create_case c in
  mret (sla_case_id <$> x).

(** [get_or_create_open_case_for_fallback]. *)
Definition get_or_create_open_case_for_fallback (tenant session flow node_run : uuid) (interaction : option uuid)
    (user node : string) (reason : SLAFallbackReason) (opened : Z) : M sla_db (option SLACase) :=
  let* d := mget in
  match get_last_open_case_for_session tenant session d with
  | Some x => mret (Some x)
  | None =>
      let policy := resolve_policy tenant node (sla_reason_value reason) d in
      create_case {|
        cc_tenant := tenant; cc_session := session; cc_flow_run := flow; cc_node_run := node_run;
        cc_interaction := interaction; cc_user := user; cc_priority := initial_priority <$> policy;
        cc_reason := reason; cc_opened := opened;
        cc_target := match policy with
                     | Some p => (fun h => opened + h * HOUR)%Z <$> target_response_hours p
                     | None => None
                     end;
        cc_policy := hp_id <$> policy; cc_level := 0 |}
  end.

(** [list_open_cases]. *)
Definition list_open_cases (tenant : uuid) (limit offset : nat) : M sla_db (list SLACase) :=
  let* d := mget in mret (list_cases tenant (Some OPEN) limit offset d).

Definition or_not_found (x : option SLACase) : M sla_db SLACase :=
  match x with Some c => mret c | None => mraise (NotFoundServiceException "sla_case_not_found") end.

(** [get_case_detail]. *)
Definition get_case_detail (tenant i : uuid) : M sla_db SLACase :=
  let* d := mget in or_not_found (get_case i tenant d).

(** [assign_case]. *)
Definition assign_case (tenant i : uuid) (agent : string) : M sla_db SLACase :=
  mmodify (fun d => update_case i tenant (assigned agent (sla_now d)) d) ;;*
  let* d := mget in or_not_found (get_case i tenant d).

(** [resolve_case]. *)
Definition resolve_case (tenant i : uuid) (p : SLACaseResolve) : M sla_db SLACase :=
  mmodify (fun d => update_case i tenant (resolved p (sla_now d)) d) ;;*
  let* d := mget in or_not_found (get_case i tenant d).

(** [(now - opened).total_seconds() / 3600.0]. *)
Definition elapsed_hours (now opened : Z) : pyfloat := float_div (ratio (now - opened) 1000000) (FFin 3600 0).
(** [elapsed_hours >= h]. *)
Definition due (elapsed : pyfloat) (h : Z) : bool :=
  match num_compare elapsed (FFin h 0) with Some (Eq | Gt) => true | _ => false end.

(** The loop of [evaluate_sla]; the case is read again after every escalation. *)
Fixpoint escalate (i tenant : uuid) (elapsed : pyfloat) (rs : list HumanSLAEscalationRule) (level : Z) : M sla_db bool :=
  match rs with
  | [] => mret true
  | r :: rs =>
      if due elapsed (trigger_after_hours r) && (level <? er_level r)%Z then
        update_case_escalation i tenant (new_priority r) (er_level r) ;;*
        let* d := mget in
        match get_case i tenant d with
        | None => mret false
        | Some x => escalate i tenant elapsed rs (current_escalation_level x)
        end
      else escalate i tenant elapsed rs level
  end.

(** [evaluate_sla]. *)
Definition evaluate_sla (i tenant : uuid) : M sla_db unit :=
  let* d := mget in
  match get_case i tenant d with
  | None => mret tt
  | Some x =>
      match human_sla_policy x with
      | None => mret tt
      | Some h =>
          match get_policy_with_rules h d with
          | None => mret tt
          | Some (p, rs) =>
              let elapsed := elapsed_hours (sla_now d) (opened_at x) in
              let* present := escalate i tenant elapsed rs (current_escalation_level x) in
              if (present : bool) then
                match target_resolution_hours p with
                | Some h => if due elapsed h then update_case_sla_breached i tenant else mret tt
                | None => mret tt
                end
              else mret tt
          end
      end
  end.

(** ** Updates *)

(** A change of other columns than the keys. *)
Definition keeps_keys (f : SLACase -> SLACase) : Prop :=
  forall x, sla_case_id (f x) = sla_case_id x /\ sc_tenant (f x) = sc_tenant x /\ sc_session (f x) = sc_session x /\
    sc_flow_run (f x) = sc_flow_run x /\ sc_node_run (f x) = sc_node_run x.

Lemma keeps_is_case f i t x : keeps_keys f -> is_case i t (f x) <-> is_case i t x.
Proof. intros H. unfold is_case. destruct (H x) as (-> & -> & _). done. Qed.

Lemma update_update i t f g d :
  keeps_keys f -> update_case i t g (update_case i t f d) = update_case i t (fun x => g (f x)) d.
Proof.
  intros Hf. unfold update_case, set_cases. simpl. f_equal. rewrite <- list_fmap_compose. apply list_fmap_ext.
  intros _ x _. simpl. destruct (decide (is_case i t x)) as [H|H].
  - by rewrite decide_True by (by apply keeps_is_case).
  - by rewrite decide_False.
Qed.

Lemma update_ext i t f g d : (forall x, x ∈ cases d -> is_case i t x -> f x = g x) -> update_case i t f d = update_case i t g d.
Proof.
  intros H. unfold update_case, set_cases. f_equal. apply list_fmap_ext. intros k x Hx.
  destruct (decide _); [|done]. apply H; [by eapply list_elem_of_lookup_2|done].
Qed.

Lemma update_same i t d : update_case i t (fun x => x) d = d.
Proof.
  unfold update_case, set_cases. destruct d as [l ? ? ? ?]; simpl. f_equal. rewrite <- (list_fmap_id l) at 2.
  apply list_fmap_ext. intros _ x _. by destruct (decide _).
Qed.

Lemma get_update i t f d : keeps_keys f -> get_case i t (update_case i t f d) = f <$> get_case i t d.
Proof.
  intros Hf. unfold get_case, update_case, set_cases. simpl. induction (cases d) as [|x l IH]; [done|].
  rewrite fmap_cons, !filter_cons. destruct (decide (is_case i t x)) as [H|H].
  - rewrite (decide_True _ _ (proj2 (keeps_is_case f i t x Hf) H)). done.
  - rewrite decide_False by done. exact IH.
Qed.

(** ** Escalation *)

(** The columns after the escalation to a rule, if any, and a missed deadline. *)
Definition escalated (r : option HumanSLAEscalationRule) (late : bool) (x : SLACase) : SLACase :=
  with_escalation (match r with Some r => Some (new_priority r) | None => priority x end)
    (match r with Some r => er_level r | None => current_escalation_level x end) (late || sla_breached x) x.

(** The highest due rule above a level. *)
Definition highest_due (elapsed : pyfloat) (rs : list HumanSLAEscalationRule) (level : Z)
    (r : option HumanSLAEscalationRule) : Prop :=
  match r with
  | None => forall r', r' ∈ rs -> due elapsed (trigger_after_hours r') = true -> (er_level r' <= level)%Z
  | Some r => r ∈ rs /\ due elapsed (trigger_after_hours r) = true /\ (level < er_level r)%Z /\
      forall r', r' ∈ rs -> due elapsed (trigger_after_hours r') = true -> (er_level r' <= er_level r)%Z
  end.

Lemma escalated_keys r b : keeps_keys (escalated r b).
Proof. by intros x. Qed.
Lemma escalated_nothing x : escalated None false x = x.
Proof. by destruct x. Qed.
Lemma escalated_twice r r' b b' x :
  escalated r' b' (escalated r b x) = escalated (match r' with Some _ => r' | None => r end) (b' || b) x.
Proof. unfold escalated, with_escalation. by destruct r, r', b', b. Qed.

Lemma escalate_run i t el rs x d :
  get_case i t d = Some x ->
  exists r, escalate i t el rs (current_escalation_level x) d = (Ok true, update_case i t (escalated r false) d) /\
    highest_due el rs (current_escalation_level x) r.
Proof.
  revert x d. induction rs as [|r rs IH]; intros x d Hx.
  { exists None. split; [|intros r' H; by apply not_elem_of_nil in H]. simpl. unfold mret. f_equal.
    rewrite <- (update_same i t d) at 1. apply update_ext. intros y _ _. by rewrite escalated_nothing. }
  simpl. destruct (due el (trigger_after_hours r)) eqn:Ed; [destruct (Z.ltb_spec (current_escalation_level x) (er_level r))|];
    simpl; cycle 1.
  - destruct (IH x d Hx) as (r' & -> & Hr). exists r'. split; [done|]. destruct r' as [r'|]; simpl in *.
    + destruct Hr as (H1 & H2 & H3 & H4). split_and!; try done; [by right|].
      intros y [->|Hy]%elem_of_cons; [lia|by apply H4].
    + intros y [->|Hy]%elem_of_cons; [lia|by apply Hr].
  - destruct (IH x d Hx) as (r' & -> & Hr). exists r'. split; [done|]. destruct r' as [r'|]; simpl in *.
    + destruct Hr as (H1 & H2 & H3 & H4). split_and!; try done; [by right|].
      intros y [->|Hy]%elem_of_cons Hd; [congruence|by apply H4].
    + intros y [->|Hy]%elem_of_cons Hd; [congruence|by apply Hr].
  - unfold mbind_, update_case_escalation, mmodify, mget. simpl.
    match goal with |- context [update_case i t ?f d] =>
      rewrite (update_ext i t f (escalated (Some r) false) d) by done end.
    rewrite get_update by apply escalated_keys. rewrite Hx. cbn [fmap option_fmap option_map].
    destruct (IH (escalated (Some r) false x) (update_case i t (escalated (Some r) false) d)) as (r' & -> & Hr).
    { rewrite get_update by apply escalated_keys. by rewrite Hx. }
    exists (match r' with Some _ => r' | None => Some r end). split.
    + f_equal. rewrite update_update by apply escalated_keys. apply update_ext. intros y _ _.
      rewrite escalated_twice. by destruct r'.
    + destruct r' as [r'|]; simpl in *.
      * destruct Hr as (H1 & H2 & H3 & H4). split_and!; try done; [by right|lia|].
        intros y [->|Hy]%elem_of_cons Hd; [lia|by apply H4].
      * split_and!; try done; [by left|]. intros y [->|Hy]%elem_of_cons Hd; [lia|by apply Hr].
Qed.

(** Whether the deadline for the resolution is missed. *)
Definition is_late (p : HumanSLAPolicy) (elapsed : pyfloat) : bool :=
  match target_resolution_hours p with Some h => due elapsed h | None => false end.

Lemma evaluate_run i t d x h p rs :
  get_case i t d = Some x -> human_sla_policy x = Some h -> get_policy_with_rules h d = Some (p, rs) ->
  let elapsed := elapsed_hours (sla_now d) (opened_at x) in
  exists r, evaluate_sla i t d = (Ok tt, update_case i t (escalated r (is_late p elapsed)) d) /\
    highest_due elapsed rs (current_escalation_level x) r.
Proof.
  intros Hx Hh Hp el. destruct (escalate_run i t el rs x d Hx) as (r & He & Hr). exists r. split; [|done].
  unfold evaluate_sla. rewrite (mbind_run _ _ d (Ok d) d) by done. rewrite Hx, Hh, Hp. fold el.
  rewrite (mbind_run _ _ _ _ _ He). unfold is_late. destruct (target_resolution_hours p) as [hr|]; [|done].
  destruct (due el hr); [|done]. unfold update_case_sla_breached, mmodify. f_equal.
  rewrite update_update by apply escalated_keys. apply update_ext. intros y _ _. by destruct y, r.
Qed.

(** Evaluating a case against its policy.  The case is raised to the highest level whose
    time has come, with that level's priority, or left where it is when it is there already;
    it is marked as breached when the time for its resolution has passed; no other column
    and no other case changes.  Levels never go down, and evaluating again at the same time
    changes nothing. *)
Theorem escalation_outcome i t d x h p rs :
  get_case i t d = Some x -> human_sla_policy x = Some h -> get_policy_with_rules h d = Some (p, rs) ->
  let elapsed := elapsed_hours (sla_now d) (opened_at x) in
  exists r d', evaluate_sla i t d = (Ok tt, d') /\ d' = update_case i t (escalated r (is_late p elapsed)) d /\
    highest_due elapsed rs (current_escalation_level x) r /\ evaluate_sla i t d' = (Ok tt, d').
Proof.
  intros Hx Hh Hp el. destruct (evaluate_run i t d x h p rs Hx Hh Hp) as (r & He & Hr). fold el in He, Hr.
  exists r. eexists. split; [exact He|]. split; [done|]. split; [done|].
  set (x' := escalated r (is_late p el) x). set (d' := update_case _ _ _ _).
  assert (Hx' : get_case i t d' = Some x') by (unfold d'; rewrite get_update by apply escalated_keys; by rewrite Hx).
  destruct (evaluate_run i t d' x' h p rs Hx' Hh Hp) as (r' & -> & Hr').
  change (elapsed_hours (sla_now d') (opened_at x')) with el in *.
  assert (r' = None) as ->.
  { destruct r' as [r'|]; [|done]. destruct Hr' as (H1 & H2 & H3 & _). unfold x', escalated in H3. simpl in H3.
    destruct r as [r|]; simpl in Hr; [destruct Hr as (_ & _ & _ & Hr)|]; specialize (Hr r' H1 H2); lia. }
  f_equal. unfold d'. rewrite update_update by apply escalated_keys. apply update_ext. intros y _ _.
  rewrite escalated_twice. by destruct (is_late p el).
Qed.

(** ** One open case per session *)

Record cases_wf (d : sla_db) : Prop := {
  wf_ids : NoDup (sla_case_id <$> cases d);
  wf_fresh : Forall (fun x => (sla_case_id x < sla_next d)%N) (cases d);
  wf_steps : NoDup ((fun x => (sc_flow_run x, sc_node_run x)) <$> cases d);
  wf_open : forall t s, length (filter (open_in t s) (cases d)) <= 1;
}.

Inductive sla_op : Type :=
  | OpFallback (tenant session flow node_run : uuid) (interaction : option uuid) (user node : string)
      (reason : SLAFallbackReason) (opened : Z)
  | OpAssign (tenant i : uuid) (agent : string)
  | OpResolve (tenant i : uuid) (p : SLACaseResolve)
  | OpEvaluate (tenant i : uuid)
  | OpTick (us : Z).

Definition run_sla_op (o : sla_op) (d : sla_db) : sla_db :=
  match o with
  | OpFallback t s f n i u nd r op => (get_or_create_open_case_for_fallback t s f n i u nd r op d).2
  | OpAssign t i a => (assign_case t i a d).2
  | OpResolve t i p => (resolve_case t i p d).2
  | OpEvaluate t i => (evaluate_sla i t d).2
  | OpTick us => {| cases := cases d; policies := policies d; rules := rules d; sla_now := sla_now d + us;
                    sla_next := sla_next d |}
  end.

Lemma fmap_update {K} (key : SLACase -> K) i t f d :
  (forall x, key (f x) = key x) -> key <$> cases (update_case i t f d) = key <$> cases d.
Proof.
  intros H. unfold update_case. simpl. rewrite <- list_fmap_compose. apply list_fmap_ext. intros _ x _. simpl.
  by destruct (decide _).
Qed.

(** Updates that close cases or leave their status alone. *)
Lemma update_wf i t f d :
  keeps_keys f -> (forall x, sc_status (f x) = OPEN -> sc_status x = OPEN) -> cases_wf d -> cases_wf (update_case i t f d).
Proof.
  intros Hf Hs [H1 H2 H3 H4]. split.
  - rewrite fmap_update; [done|]. intros x. by destruct (Hf x).
  - unfold update_case. simpl. apply Forall_fmap, (Forall_impl _ _ _ H2). intros x Hx. simpl.
    destruct (decide _); [|done]. by destruct (Hf x) as [-> _].
  - rewrite (fmap_update (fun x => (sc_flow_run x, sc_node_run x))); [done|]. intros x.
    by destruct (Hf x) as (_ & _ & _ & -> & ->).
  - intros t' s'. etrans; [|exact (H4 t' s')]. unfold update_case. simpl. clear -Hf Hs.
    induction (cases d) as [|x l IH]; [done|]. rewrite fmap_cons, !filter_cons.
    set (y := if decide (is_case i t x) then f x else x).
    assert (Hy : open_in t' s' y -> open_in t' s' x).
    { unfold y, open_in. destruct (decide _); [|done]. destruct (Hf x) as (_ & -> & -> & _). naive_solver. }
    destruct (decide (open_in t' s' y)) as [Ho|Ho].
    + rewrite (decide_True _ _ (Hy Ho)). simpl. lia.
    + destruct (decide (open_in t' s' x)); simpl; lia.
Qed.

Lemma create_wf c d :
  cases_wf d -> filter (open_in (cc_tenant c) (cc_session c)) (cases d) = [] -> cases_wf (create_case c d).2.
Proof.
  intros [H1 H2 H3 H4] He. unfold create_case. destruct (existsb (same_step c) (cases d)) eqn:Ex; [by split|]. simpl. split; simpl.
  - rewrite fmap_app. apply NoDup_app. split_and!; [done| |by apply NoDup_singleton].
    intros k Hk Hn. apply list_elem_of_singleton in Hn as ->. apply list_elem_of_fmap_1 in Hk as (x & Hk & Hx).
    rewrite Forall_forall in H2. specialize (H2 x Hx). simpl in Hk. lia.
  - apply Forall_app. split; [|constructor; [simpl; lia|constructor]]. apply (Forall_impl _ _ _ H2). intros x. simpl. lia.
  - rewrite fmap_app. apply NoDup_app. split_and!; [done| |by apply NoDup_singleton].
    intros k Hk Hn. apply list_elem_of_singleton in Hn as ->. apply list_elem_of_fmap_1 in Hk as (x & Hk & Hx).
    simpl in Hk. injection Hk as E1 E2.
    assert (existsb (same_step c) (cases d) = true); [|congruence]. apply existsb_elem_of. exists x. split; [done|].
    unfold same_step. by rewrite !bool_decide_eq_true_2.
  - intros t s. rewrite filter_app, filter_cons, filter_nil. destruct (decide (open_in t s _)) as [(Ht & Hs & _)|_].
    + simpl in Ht, Hs. subst. by rewrite He.
    + rewrite app_nil_r. apply H4.
Qed.

Lemma last_open_none t s d :
  get_last_open_case_for_session t s d = None -> filter (open_in t s) (cases d) = [].
Proof.
  unfold get_last_open_case_for_session, newest_first. intros H.
  apply head_None in H. apply Permutation_nil. rewrite <- H. apply sorted_by_perm.
Qed.

Lemma run_sla_op_wf o d : cases_wf d -> cases_wf (run_sla_op o d).
Proof.
  intros Hd. destruct o as [t s f n i u nd r op|t i a|t i p|t i|us]; simpl.
  - unfold get_or_create_open_case_for_fallback. rewrite (mbind_run _ _ d (Ok d) d) by done.
    destruct (get_last_open_case_for_session t s d) eqn:E; [done|]. apply create_wf; [done|]. by apply last_open_none.
  - unfold assign_case, mbind_, mmodify, mget, or_not_found. destruct (get_case _ _ _); by apply update_wf.
  - unfold resolve_case, mbind_, mmodify, mget, or_not_found. destruct (get_case _ _ _); by apply update_wf.
  - destruct (get_case i t d) as [x|] eqn:Hx; [|unfold evaluate_sla, mbind_, mget; by rewrite Hx].
    destruct (human_sla_policy x) as [h|] eqn:Hh; [|unfold evaluate_sla, mbind_, mget; by rewrite Hx, Hh].
    destruct (get_policy_with_rules h d) as [[p rs]|] eqn:Hp; [|unfold evaluate_sla, mbind_, mget; by rewrite Hx, Hh, Hp].
    destruct (evaluate_run i t d x h p rs Hx Hh Hp) as (r & -> & _). by apply update_wf.
  - destruct Hd. by split.
Qed.

(** Cases of a session.  Starting from well-formed tables, after any sequence of fallbacks,
    assignments, resolutions and evaluations there is at most one open case per session and
    at most one case per step of a flow run.  A fallback is answered with the session's open
    case, the only one; it gets none exactly when its own step already has a case that is no
    longer open in the session, and then nothing is written. *)
Theorem one_open_case ops d t s f n i u nd r op :
  cases_wf d ->
  let d1 := foldl (fun d o => run_sla_op o d) d ops in
  let d2 := run_sla_op (OpFallback t s f n i u nd r op) d1 in
  cases_wf d1 /\
  match get_or_create_open_case_for_fallback t s f n i u nd r op d1 with
  | (Ok (Some x), _) => filter (open_in t s) (cases d2) = [x]
  | (Ok None, _) => d2 = d1 /\ exists x, x ∈ cases d1 /\ sc_flow_run x = f /\ sc_node_run x = n /\ ~ open_in t s x
  | (Err _, _) => False
  end.
Proof.
  intros Hd d1 d2.
  assert (H1 : cases_wf d1).
  { unfold d1. clear -Hd. revert d Hd. induction ops as [|o ops IH]; intros d Hd; [done|]. apply IH, run_sla_op_wf, Hd. }
  split; [done|]. pose proof (run_sla_op_wf (OpFallback t s f n i u nd r op) d1 H1) as H2. fold d2 in H2.
  assert (Hone : forall x, x ∈ cases d2 -> open_in t s x -> filter (open_in t s) (cases d2) = [x]).
  { intros x Hx Ho. pose proof (wf_open _ H2 t s) as Hl.
    assert (Hin : x ∈ filter (open_in t s) (cases d2)) by (by apply list_elem_of_filter).
    revert Hin Hl. generalize (filter (open_in t s) (cases d2)). intros [|y [|z l]] Hin Hl;
      [by apply not_elem_of_nil in Hin|by apply list_elem_of_singleton in Hin as ->|simpl in Hl; lia]. }
  unfold d2, run_sla_op in *. unfold get_or_create_open_case_for_fallback in *.
  rewrite (mbind_run _ _ d1 (Ok d1) d1) in * by done.
  destruct (get_last_open_case_for_session t s d1) as [x|] eqn:E.
  - simpl in *. assert (Hin : x ∈ filter (open_in t s) (cases d1)).
    { by apply head_Some_elem_of, elem_of_sorted_by in E. }
    apply list_elem_of_filter in Hin as [Ho Hx]. by apply Hone.
  - apply last_open_none in E. unfold create_case in *. destruct (existsb _ (cases d1)) eqn:Ex; simpl in *.
    + split; [done|]. apply existsb_elem_of in Ex as (x & Hx & Hs). unfold same_step in Hs.
      apply andb_true_iff in Hs as [H3%bool_decide_eq_true H4%bool_decide_eq_true]. exists x. split_and!; try done.
      intros Ho. assert (Hin : x ∈ filter (open_in t s) (cases d1)) by (by apply list_elem_of_filter).
      rewrite E in Hin. by apply not_elem_of_nil in Hin.
    + apply Hone; [|done]. apply elem_of_app. right. by apply list_elem_of_singleton.
Qed.

(** A case that is over can be assigned again: it is no longer resolved, but keeps its
    resolution and the time of it. *)
Lemma resolved_case_reassigned t i p agent d x :
  get_case i t d = Some x ->
  exists y d2, (resolve_case t i p ;;* assign_case t i agent) d = (Ok y, d2) /\
    sc_status y = ASSIGNED /\ resolution y = Some (rv_status p, rv_summary p) /\ resolved_at y = Some (sla_now d).
Proof.
  intros Hx. unfold resolve_case, assign_case, mbind_, mmodify, mget, or_not_found.
  rewrite get_update by done. rewrite Hx. cbn [fmap option_fmap option_map]. unfold mret.
  rewrite get_update by done. rewrite get_update by done. rewrite Hx. cbn [fmap option_fmap option_map].
  eexists _, _. by split_and!.
Qed.

(** ** A concrete desk *)

Module Desk.
Definition policy : HumanSLAPolicy := {|
  hp_id := 1; hp_tenant := 1; hp_node := "n"; hp_reason := "TOOL_FAILURE"; initial_priority := "low";
  target_response_hours := Some 1%Z; target_resolution_hours := Some 24%Z; hp_active := true |}.
Definition rule (l h : Z) (p : string) : HumanSLAEscalationRule := {|
  er_policy := 1; er_level := l; trigger_after_hours := h; new_priority := p |}.
Definition start : sla_db := {|
  cases := []; policies := [policy]; rules := [rule 2 8 "high"; rule 1 4 "medium"; rule 3 48 "urgent"];
  sla_now := 0; sla_next := 1 |}.
Definition fallback : sla_op := OpFallback 1 1 1 1 None "ana" "n" TOOL_FAILURE 0.
(** Ten hours later. *)
Definition later : sla_db := run_sla_op (OpTick (10 * HOUR)) (run_sla_op fallback start).

Lemma start_wf : cases_wf start.
Proof. split; simpl; [constructor..|]. intros t s. simpl. lia. Qed.
End Desk.

Lemma escalation_outcome_witness :
  exists x d', evaluate_sla 1 1 Desk.later = (Ok tt, d') /\ get_case 1 1 d' = Some x /\
    current_escalation_level x = 2%Z /\ priority x = Some "high" /\ sla_breached x = false.
Proof.
  assert (H : exists x p rs, get_case 1 1 Desk.later = Some x /\ human_sla_policy x = Some 1%N /\
    get_policy_with_rules 1 Desk.later = Some (p, rs)) by (eexists _, _, _; by vm_compute).
  destruct H as (x & p & rs & Hx & Hh & Hp).
  destruct (escalation_outcome 1 1 Desk.later x 1 p rs Hx Hh Hp) as (r & d' & H & _).
  exists (default x (get_case 1 1 d')), d'. split; [exact H|]. vm_compute in H. injection H as <-. by vm_compute.
Defined.

Lemma one_open_case_witness :
  cases_wf (run_sla_op Desk.fallback Desk.start) /\
  filter (open_in 1 1) (cases (run_sla_op (OpFallback 1 1 2 2 None "ana" "n" TOOL_FAILURE 5)
                                 (run_sla_op Desk.fallback Desk.start))) =
    cases (run_sla_op Desk.fallback Desk.start).
Proof.
  destruct (one_open_case [Desk.fallback] Desk.start 1 1 2 2 None "ana" "n" TOOL_FAILURE 5 Desk.start_wf) as [H1 H2].
  split; [exact H1|]. vm_compute in H2. vm_compute. exact H2.
Defined.
