(* ===== verification/ToolNodes.v ===== *)
(** * ToolNodes: operations, their results and their retries

    [src/src/domain/execution/services/graph_runtime/nodes/]: the error handler for tools
    ([tool_error_handler.py]) and the part of the tool executor that reads the state
    ([tool_executor.py]: operations, tool configurations, schedules, carried and merged
    results), with [schemas/tool_executor.py].

    Pydantic's validation of operations, selections, schedules and results is outside. *)

From S2P Require Import Prelude.
From S2P Require Import Errors.
From S2P Require Import PyValue.
From S2P Require Import PyString.
From S2P Require Import Sorting.
From S2P Require Import Effects.
From S2P Require Import Store.
From S2P Require Import NodeStep.

(** ** Data *)

Inductive OperationStatus : Type := OP_READY | OP_INCOMPLETE | OP_SUCCESS | OP_ERROR | OP_SCHEDULED | OP_CANCELLED.
#[global] Instance OperationStatus_eq_dec : EqDecision OperationStatus.
Proof. solve_decision. Defined.
Definition operation_status_str (s : OperationStatus) : string :=
  match s with
  | OP_READY => "ready" | OP_INCOMPLETE => "incomplete" | OP_SUCCESS => "success" | OP_ERROR => "error"
  | OP_SCHEDULED => "scheduled" | OP_CANCELLED => "cancelled"
  end.

Inductive ToolExecutionMode : Type := IMMEDIATE | SCHEDULED.
#[global] Instance ToolExecutionMode_eq_dec : EqDecision ToolExecutionMode.
Proof. solve_decision. Defined.
Definition mode_str (m : ToolExecutionMode) : string :=
  match m with IMMEDIATE => "immediate" | SCHEDULED => "scheduled" end.

Inductive ToolSchedulingError : Type :=
  | SCHEDULER_UNAVAILABLE | SCHEDULE_FAILED | RUN_AT_INVALID | RUN_AT_IN_THE_PAST | RUN_AT_MISSING.
Definition scheduling_error_str (e : ToolSchedulingError) : string :=
  match e with
  | SCHEDULER_UNAVAILABLE => "tool_scheduler_unavailable" | SCHEDULE_FAILED => "tool_schedule_failed"
  | RUN_AT_INVALID => "tool_schedule_run_at_invalid" | RUN_AT_IN_THE_PAST => "tool_schedule_run_at_in_the_past"
  | RUN_AT_MISSING => "tool_schedule_run_at_missing"
  end.

Record ToolSchedulingConfig : Type := {
  ts_mode : ToolExecutionMode;
  delay_seconds : option Z;
  run_at_param : option string;
  ts_tool_names : option (list string);
}.

Record ToolRunInput : Type := {
  ti_operation : string;
  ti_tool : string;
  ti_config : string;
  ti_params : pydict;
  ti_run_at : option Z;
}.

Record ToolRunResult : Type := {
  tr_operation : string;
  tr_tool : string;
  tr_mode : ToolExecutionMode;
  tr_status : OperationStatus;
  tr_result : pydict;
  tr_schedule : option string;
  tr_run_at : option string;
}.

(** [_ParamExtractionOperation] and [_SelectedTool]. *)
Record operation : Type := {
  po_id : string;
  po_tool : string;
  po_status : OperationStatus;
  po_params : pydict;
}.
Record selected_tool : Type := {
  st_name : string;
  st_config : string;
}.

Definition opt_str (s : option string) : pyval := match s with Some x => PStr x | None => PNone end.

(** [ToolRunResult.model_dump(mode="json")]. *)
Definition dump_tool_result (r : ToolRunResult) : pyval :=
  PDict [("operation_id", PStr (tr_operation r)); ("tool_name", PStr (tr_tool r));
         ("execution_mode", PStr (mode_str (tr_mode r))); ("status", PStr (operation_status_str (tr_status r)));
         ("result", PDict (tr_result r)); ("schedule_id", opt_str (tr_schedule r)); ("run_at", opt_str (tr_run_at r))].

Definition RETRY_COUNTS_STATE_KEY : string := "retry_counts".
Definition RETRY_OPERATION_IDS_STATE_KEY : string := "retry_operation_ids".
Definition FINALIZED_RESULTS_STATE_KEY : string := "finalized_results".

(** [ExecutionContext.get_node_output]. *)
Definition get_node_output (t : NodeType) (c : ExecutionContext) : pyval :=
  match dict_getv (node_type_value t) (state c) with PNone => PDict [] | v => v end.

(** [v.get(key)]. *)
Definition py_get (key : string) (v : pyval) : res exc pyval :=
  match v with PDict d => Ok (dict_getv key d) | _ => Err PyAttributeError end.

(** A node that succeeds or fails without memory, metrics or usage. *)
Definition plain_result (s : NodeExecutionStatus) (d : pydict) (e : pyval) (next : option pydict) : NodeResult := {|
  status := s; data := d; error := e; metrics := PNone; next_state := next; context_state := None; context_text := None; context_offer := None;
  result_memory := None; usage := None |}.

Section nodes.
Variable int_of_string : string -> option Z.

(** ** The error handler *)

(** Results of the last tool execution: from the state, or from the previous node. *)
Definition handler_results (c : ExecutionContext) : res exc (list pyval) :=
  let! result := py_get "result" (get_node_output ToolExecutor c) in
  let! legacy := py_get "results" (get_node_output ToolExecutor c) in
  Ok (match result, dict_getv "result" (node_output c), legacy, dict_getv "results" (node_output c) with
      | PList l, _, _, _ | _, PList l, _, _ | _, _, PList l, _ | _, _, _, PList l => l
      | _, _, _, _ => []
      end).

(** [int(raw)], or the given value when the text or type does not allow it. *)
Definition int_or {A} (raw : pyval) (other : A) (f : Z -> A) : res exc A :=
  match py_int int_of_string raw with
  | Ok z => Ok (f z)
  | Err (PyTypeError | PyValueError) => Ok other
  | Err e => Err e
  end.

Definition max_retries_of (config : pydict) : res exc Z :=
  int_or (default (PInt 0) (dict_get "max_retries" config)) 0%Z (Z.max 0).

(** The counts of the state that can be read as integers. *)
Fixpoint normalize_counts (d : pydict) : res exc pydict :=
  match d with
  | [] => Ok []
  | (k, v) :: d =>
      let! here := int_or v [] (fun z => [(k, PInt z)]) in
      let! rest := normalize_counts d in
      Ok (here ++ rest)
  end.

Definition retry_counts_of (st : pydict) : res exc pydict :=
  match dict_getv RETRY_COUNTS_STATE_KEY st with PDict d => normalize_counts d | _ => Ok [] end.

Record handling : Type := {
  hd_retry : list string;
  hd_final : list pyval;
  hd_fallback : bool;
  hd_counts : pydict;
}.

(** [int(retry_counts.get(operation_id, 0))]. *)
Definition attempts (counts : pydict) (op : string) : Z :=
  match dict_getv op counts with PInt z => z | _ => 0 end.

(** [status in {ERROR, INCOMPLETE, CANCELLED}]. *)
Definition retry_eligible (status : pyval) : res exc bool :=
  if hashable status then
    Ok (match status with
        | PStr s => bool_decide (s ∈ operation_status_str <$> [OP_ERROR; OP_INCOMPLETE; OP_CANCELLED])
        | _ => false
        end)
  else Err PyTypeError.

(** One result. *)
Definition handle_result (max_retries : Z) (h : handling) (r : pyval) : res exc handling :=
  match r with
  | PDict d =>
      match dict_getv "operation_id" d with
      | PStr op =>
          let! eligible := retry_eligible (dict_getv "status" d) in
          Ok (if (eligible : bool) then
                if (attempts (hd_counts h) op <? max_retries)%Z then
                  {| hd_retry := hd_retry h ++ [op]; hd_final := hd_final h; hd_fallback := hd_fallback h;
                     hd_counts := dict_set op (PInt (attempts (hd_counts h) op + 1)) (hd_counts h) |}
                else {| hd_retry := hd_retry h; hd_final := hd_final h ++ [r]; hd_fallback := true;
                        hd_counts := hd_counts h |}
              else {| hd_retry := hd_retry h; hd_final := hd_final h ++ [r]; hd_fallback := hd_fallback h;
                      hd_counts := hd_counts h |})
      | _ => Ok h
      end
  | _ => Ok h
  end.

(** What the handler decides. *)
Definition handle_results (c : ExecutionContext) (config : pydict) : res exc handling :=
  let! results := handler_results c in
  let! max_retries := max_retries_of config in
  let! counts := retry_counts_of (state c) in
  rfold (handle_result max_retries) results
    {| hd_retry := []; hd_final := []; hd_fallback := false; hd_counts := counts |}.

Definition count_val {A} (l : list A) : pyval := PInt (Z.of_nat (length l)).

Definition handler_state (st : pydict) (h : handling) : pydict :=
  dict_set FINALIZED_RESULTS_STATE_KEY (PList (hd_final h))
    (dict_set RETRY_OPERATION_IDS_STATE_KEY (PList (PStr <$> hd_retry h))
       (dict_set RETRY_COUNTS_STATE_KEY (PDict (hd_counts h)) st)).

(** [ToolErrorHandlerNode.execute]; [config or {}]. *)
Definition error_handler_execute (c : ExecutionContext) (config : pydict) : res exc NodeResult :=
  let! h := handle_results c config in
  Ok (plain_result SUCCESS
        [("retry_operation_ids", PList (PStr <$> hd_retry h)); ("retry_operation_ids_count", count_val (hd_retry h));
         ("finalized_results", PList (hd_final h)); ("finalized_results_count", count_val (hd_final h));
         ("fallback_required", PBool (hd_fallback h))]
        PNone (Some (handler_state (state c) h))).

(** ** What becomes of a result *)

(** Results the handler looks at: those with an operation. *)
Definition operation_of (r : pyval) : option string :=
  match r with
  | PDict d => match dict_getv "operation_id" d with PStr op => Some op | _ => None end
  | _ => None
  end.
Definition failed_result (r : pyval) : bool :=
  match r with
  | PDict d => match retry_eligible (dict_getv "status" d) with Ok b => b | Err _ => false end
  | _ => false
  end.

(** Every result with an operation is retried, by its operation, or finalised; a fallback
    is asked for when a failed one is finalised. *)
Lemma handler_partition m l h h' :
  rfold (handle_result m) l h = Ok h' ->
  exists ret fin, hd_retry h' = hd_retry h ++ ret /\ hd_final h' = hd_final h ++ fin /\
    omap operation_of l ≡ₚ ret ++ omap operation_of fin /\ fin ⊆ l /\
    (forall op, op ∈ ret -> exists r, r ∈ l /\ operation_of r = Some op /\ failed_result r = true) /\
    hd_fallback h' = hd_fallback h || existsb failed_result fin.
Proof.
  revert h. induction l as [|r l IH]; intros h H; simpl in H.
  { injection H as <-. exists [], []. rewrite !app_nil_r, orb_false_r. split_and!; try done. intros op Hop.
    by apply not_elem_of_nil in Hop. }
  apply rbind_ok in H as (h1 & H1 & H). apply IH in H as (ret & fin & Hr & Hf & Hp & Hs & Hret & Hb).
  assert (Hskip : operation_of r = None -> h1 = h -> exists ret fin, hd_retry h' = hd_retry h ++ ret /\
    hd_final h' = hd_final h ++ fin /\ omap operation_of (r :: l) ≡ₚ ret ++ omap operation_of fin /\ fin ⊆ r :: l /\
    (forall op, op ∈ ret -> exists x, x ∈ r :: l /\ operation_of x = Some op /\ failed_result x = true) /\
    hd_fallback h' = hd_fallback h || existsb failed_result fin).
  { intros Ho ->. exists ret, fin. simpl. rewrite Ho. split_and!; try done; [set_solver|].
    intros op Hop. destruct (Hret op Hop) as (x & Hx & E). exists x. split; [by right|done]. }
  unfold handle_result in H1. destruct r as [| | | | | |d|]; try (injection H1 as <-; by apply Hskip).
  destruct (dict_getv "operation_id" d) as [| | | |op| | |] eqn:Eo;
    try (injection H1 as <-; apply Hskip; [simpl; by rewrite Eo|done]).
  apply rbind_ok in H1 as (e & He & H1). clear Hskip.
  assert (Hfail : failed_result (PDict d) = e) by (unfold failed_result; by rewrite He).
  assert (Hop : operation_of (PDict d) = Some op) by (unfold operation_of; by rewrite Eo).
  assert (Hmore : forall op', op' ∈ ret -> exists x, x ∈ PDict d :: l /\ operation_of x = Some op' /\ failed_result x = true).
  { intros op' Hop'. destruct (Hret op' Hop') as (x & Hx & E). exists x. split; [by right|done]. }
  assert (Hfin : h1 = {| hd_retry := hd_retry h; hd_final := hd_final h ++ [PDict d];
      hd_fallback := e || hd_fallback h; hd_counts := hd_counts h |} ->
    exists ret fin, hd_retry h' = hd_retry h ++ ret /\
    hd_final h' = hd_final h ++ fin /\ omap operation_of (PDict d :: l) ≡ₚ ret ++ omap operation_of fin /\ fin ⊆ PDict d :: l /\
    (forall op, op ∈ ret -> exists x, x ∈ PDict d :: l /\ operation_of x = Some op /\ failed_result x = true) /\
    hd_fallback h' = hd_fallback h || existsb failed_result fin).
  { intros ->. simpl in Hr, Hf, Hb. exists ret, (PDict d :: fin). rewrite <- app_assoc in Hf.
    split_and!; try done; [|set_solver|].
    - cbn [omap list_omap]. rewrite Hop, Hp. apply Permutation_middle.
    - cbn [existsb]. rewrite Hb, Hfail. by destruct e, (hd_fallback h). }
  destruct e; [destruct (attempts (hd_counts h) op <? m)%Z|]; injection H1 as <-; [|by apply Hfin..].
  simpl in Hr, Hf, Hb. exists (op :: ret), fin. rewrite <- app_assoc in Hr. split_and!; try done; [|set_solver|].
  - cbn [omap list_omap]. by rewrite Hop, Hp.
  - intros op' [->|Hop']%elem_of_cons; [|by apply Hmore]. exists (PDict d). split; [left|done].
Qed.

(** Of results with distinct operations, those that are not retried are finalised as they
    are. *)
Lemma handle_dumps m rs h h' :
  rfold (handle_result m) (dump_tool_result <$> rs) h = Ok h' -> NoDup (tr_operation <$> rs) ->
  exists ret, hd_retry h' = hd_retry h ++ ret /\ ret ⊆ tr_operation <$> rs /\
    hd_final h' = hd_final h ++ (dump_tool_result <$> filter (fun r => tr_operation r ∉ ret) rs).
Proof.
  revert h. induction rs as [|r rs IH]; intros h H Hn.
  { injection H as <-. exists []. by rewrite !app_nil_r. }
  rewrite fmap_cons in H. cbn [rfold] in H. apply rbind_ok in H as (h1 & H1 & H).
  rewrite fmap_cons in Hn. apply NoDup_cons in Hn as [Hr Hn].
  apply IH in H as (ret & E1 & Hs & E2); [|done]. unfold handle_result in H1. cbn [dump_tool_result dict_getv dict_get] in H1.
  apply rbind_ok in H1 as (b & _ & H1). set (op := tr_operation r) in *.
  assert (Hkeep : hd_final h1 = hd_final h ++ [dump_tool_result r] -> hd_retry h1 = hd_retry h ->
    exists ret, hd_retry h' = hd_retry h ++ ret /\ ret ⊆ tr_operation <$> r :: rs /\
    hd_final h' = hd_final h ++ (dump_tool_result <$> filter (fun r => tr_operation r ∉ ret) (r :: rs))).
  { intros F1 R1. exists ret. rewrite E1, E2, F1, R1. split; [done|]. split; [set_solver|].
    rewrite filter_cons_True by (fold op; set_solver). by rewrite fmap_cons, <- app_assoc. }
  destruct b; [destruct (attempts (hd_counts h) op <? m)%Z eqn:Ea|]; 
    injection H1 as <-; [|by apply Hkeep..].
  exists (op :: ret). rewrite E1, E2. cbn [hd_retry hd_final]. rewrite <- app_assoc. split; [done|].
  split; [rewrite fmap_cons; set_solver|]. rewrite filter_cons_False by (fold op; set_solver). do 2 f_equal.
  apply filter_local. intros x Hx. assert (tr_operation x <> op); [|set_solver]. intros Ex. apply Hr.
  rewrite <- Ex. by apply list_elem_of_fmap_2.
Qed.

(** ** How often an operation is retried *)

(** Successive executions of the handler; in between, other nodes may do what they want
    with the state except for the retry counts. *)
Definition with_state (st : pydict) (c : ExecutionContext) : ExecutionContext := {|
  tenant_id := tenant_id c; user_id := user_id c; session_id := session_id c;
  input_payload := input_payload c; flow_run_id := flow_run_id c; correlation_id := correlation_id c;
  current_node_id := current_node_id c; current_node_run_id := current_node_run_id c; state := st;
  memory := memory c; metadata := metadata c; node_output := node_output c;
  system_prompt := system_prompt c; system_context := system_context c; context_tools := context_tools c |}.
Definition with_counts (counts : pydict) (c : ExecutionContext) : ExecutionContext :=
  with_state (dict_set RETRY_COUNTS_STATE_KEY (PDict counts) (state c)) c.

Fixpoint rounds (cs : list (ExecutionContext * pydict)) (counts : pydict) : res exc (list (list string)) :=
  match cs with
  | [] => Ok []
  | (c, config) :: cs =>
      let! h := handle_results (with_counts counts c) config in
      let! rest := rounds cs (hd_counts h) in
      Ok (hd_retry h :: rest)
  end.

Definition occurrences (op : string) (l : list string) : Z := Z.of_nat (length (filter (fun x => x = op) l)).

Lemma occurrences_app op l l' : occurrences op (l ++ l') = (occurrences op l + occurrences op l')%Z.
Proof. unfold occurrences. rewrite filter_app, length_app. lia. Qed.

Definition int_counts (counts : pydict) : Prop := Forall (fun kv => exists z, kv.2 = PInt z) counts.

Lemma int_counts_set op z counts : int_counts counts -> int_counts (dict_set op (PInt z) counts).
Proof.
  unfold int_counts. induction 1 as [|[k v] d [z' Hv] Hd IH]; simpl in *; [constructor; [by eexists|constructor]|].
  destruct (String.eqb op k); constructor; simpl; eauto.
Qed.

Lemma normalize_int_counts counts : int_counts counts -> normalize_counts counts = Ok counts.
Proof.
  induction 1 as [|[k v] d [z Hv] _ IH]; simpl in *; [done|]. by rewrite Hv, IH.
Qed.

Lemma attempts_set op op' z counts :
  attempts (dict_set op (PInt z) counts) op' = if decide (op' = op) then z else attempts counts op'.
Proof.
  unfold attempts. destruct (decide (op' = op)) as [->|H]; [by rewrite dict_getv_set_eq|by rewrite dict_getv_set_ne].
Qed.

(** A round that allows [m] retries. *)
Lemma handle_result_bound m n counts h r h' :
  (m <= n)%Z -> handle_result m h r = Ok h' ->
  (int_counts (hd_counts h) /\ forall op, attempts (hd_counts h) op = (attempts counts op + occurrences op (hd_retry h))%Z /\
     (attempts (hd_counts h) op <= Z.max n (attempts counts op))%Z) ->
  int_counts (hd_counts h') /\ forall op, attempts (hd_counts h') op = (attempts counts op + occurrences op (hd_retry h'))%Z /\
     (attempts (hd_counts h') op <= Z.max n (attempts counts op))%Z.
Proof.
  intros Hm H [Hi Ha]. unfold handle_result in H. destruct r as [| | | | | |d|]; try by injection H as <-.
  destruct (dict_getv "operation_id" d) as [| | | |op| | |]; try by injection H as <-.
  apply rbind_ok in H as ([] & _ & H); [|by injection H as <-].
  destruct (Z.ltb_spec (attempts (hd_counts h) op) m) as [Hlt|]; injection H as <-; [|done]. simpl.
  split; [by apply int_counts_set|]. intros op'. rewrite attempts_set, occurrences_app. unfold occurrences at 2.
  rewrite filter_cons, filter_nil. destruct (Ha op') as [E1 E2]. destruct (decide (op' = op)) as [->|Hne].
  - rewrite decide_True by done. simpl. lia.
  - rewrite decide_False by done. simpl. lia.
Qed.

Lemma handle_results_bound c config m n counts h :
  int_counts counts -> max_retries_of config = Ok m -> (m <= n)%Z ->
  handle_results (with_counts counts c) config = Ok h ->
  int_counts (hd_counts h) /\ forall op, attempts (hd_counts h) op = (attempts counts op + occurrences op (hd_retry h))%Z /\
    (attempts (hd_counts h) op <= Z.max n (attempts counts op))%Z.
Proof.
  intros Hi Hc Hm H. unfold handle_results in H. apply rbind_ok in H as (rs & _ & H). rewrite Hc in H. simpl in H.
  unfold retry_counts_of in H. rewrite dict_getv_set_eq, normalize_int_counts in H by done. simpl in H.
  eapply (rfold_invariant (fun h => int_counts (hd_counts h) /\ forall op,
    attempts (hd_counts h) op = (attempts counts op + occurrences op (hd_retry h))%Z /\
    (attempts (hd_counts h) op <= Z.max n (attempts counts op))%Z)); [|split|exact H].
  - intros a x a' _ Ha Hx. by eapply handle_result_bound.
  - done.
  - intros op. unfold occurrences. simpl. lia.
Qed.

(** Retries are bounded.  However often the error handler runs in a flow, with whatever
    results and with limits of at most [n] retries, it asks for at most [n] retries of an
    operation in total. *)
Theorem retries_bounded cs n ls op :
  rounds cs [] = Ok ls -> (0 <= n)%Z ->
  (forall c config, (c, config) ∈ cs -> exists m, max_retries_of config = Ok m /\ (m <= n)%Z) ->
  (occurrences op (concat ls) <= n)%Z.
Proof.
  intros H Hn Hc.
  assert (Hgen : forall counts, int_counts counts -> rounds cs counts = Ok ls ->
    (attempts counts op + occurrences op (concat ls) <= Z.max n (attempts counts op))%Z).
  { clear H. revert ls Hc. induction cs as [|[c config] cs IH]; intros ls Hc counts Hi H; simpl in H.
    { injection H as <-. unfold occurrences. simpl. lia. }
    apply rbind_ok in H as (h & Hh & H). apply rbind_ok in H as (rest & Hr & H). injection H as <-.
    destruct (Hc c config (list_elem_of_here _ _)) as (m & Hm & Hmn).
    destruct (handle_results_bound c config m n counts h Hi Hm Hmn Hh) as [Hi' Ha].
    specialize (IH rest (fun c' x Hx => Hc c' x (list_elem_of_further _ _ _ Hx)) _ Hi' Hr). destruct (Ha op) as [E1 E2].
    simpl. rewrite occurrences_app. lia. }
  specialize (Hgen [] (Forall_nil_2 _) H). unfold attempts in Hgen. simpl in Hgen. lia.
Qed.
End nodes.

(** ** Operations to execute *)

(** [datetime.max], in microseconds. *)
Definition MAX_INSTANT : Z := 253402300799999999.

Section inputs.
Variable validate_operation : pyval -> option operation.
Variable validate_selection : pyval -> option selected_tool.
Variable validate_scheduling : pydict -> option ToolSchedulingConfig.
Variable validate_result : pydict -> option ToolRunResult.
(** [datetime.fromisoformat]; without a zone the time is UTC. *)
Variable fromisoformat : string -> option Z.

Definition dve (m : string) : exc := DomainValidationException m.

(** [_strict_contract_mode]. *)
Definition _strict_contract_mode (c : ExecutionContext) : bool :=
  match dict_getv "runtime_policy" (metadata c) with
  | PDict p => match dict_getv "execution" p with
               | PDict e => truthy (default (PBool false) (dict_get "strict_contract_mode" e))
               | _ => false
               end
  | _ => false
  end.

(** [_resolve_scheduling]. *)
Definition _resolve_scheduling (config : pydict) : res exc ToolSchedulingConfig :=
  match dict_getv "scheduling" config with
  | PNone => Ok {| ts_mode := IMMEDIATE; delay_seconds := None; run_at_param := None; ts_tool_names := None |}
  | PDict raw => match validate_scheduling raw with
                 | Some s => Ok s
                 | None => Err (dve "tool_scheduling_config_invalid")
                 end
  | _ => Err (dve "tool_scheduling_config_invalid")
  end.

(** [_parse_datetime]. *)
Definition _parse_datetime (raw : pyval) : option Z :=
  match raw with PStr s => fromisoformat s | _ => None end.

(** [now + timedelta(seconds=delay)]. *)
Definition after_delay (now delay : Z) : res exc Z :=
  let t := (now + delay * 1000000)%Z in
  if (t <=? MAX_INSTANT)%Z then Ok t else Err (ExternalError "OverflowError" "").

(** [_resolve_run_at]. *)
Definition _resolve_run_at (s : ToolSchedulingConfig) (tool : string) (params : pydict) (now : Z) :
    res exc (option Z * option ToolSchedulingError) :=
  let delayed := match delay_seconds s with
                 | None => Ok (None, Some RUN_AT_MISSING)
                 | Some d => let! t := after_delay now d in Ok (Some t, None)
                 end in
  if negb (bool_decide (ts_mode s = SCHEDULED)) then Ok (None, None)
  else if match ts_tool_names s with Some names => negb (bool_decide (tool ∈ names)) | None => false end
  then Ok (None, None)
  else match run_at_param s with
       | Some p =>
           if String.eqb p "" then delayed
           else match dict_getv p params with
                | PNone => delayed
                | raw => match _parse_datetime raw with
                         | None => Ok (None, Some RUN_AT_INVALID)
                         | Some t => if (t <=? now)%Z then Ok (None, Some RUN_AT_IN_THE_PAST) else Ok (Some t, None)
                         end
                end
       | None => delayed
       end.

(** Items that pydantic accepts; in strict mode the others are an error. *)
Fixpoint accepted {A} (validate : pyval -> option A) (strict : bool) (message : string) (items : list pyval) :
    res exc (list A) :=
  match items with
  | [] => Ok []
  | i :: items =>
      match validate i with
      | Some a => let! rest := accepted validate strict message items in Ok (a :: rest)
      | None => if strict then Err (dve message) else accepted validate strict message items
      end
  end.

(** [_build_tool_config_map]: the configurations selected for a tool, each once. *)
Definition _build_tool_config_map (tool_slice : pyval) (strict : bool) : res exc (string -> list string) :=
  let! raw := py_get "result" tool_slice in
  let! items := match raw with
                | PList l => Ok l
                | _ => if strict then Err (dve "tool_selection_result_invalid") else Ok []
                end in
  let! selected := accepted validate_selection strict "tool_selection_item_invalid" items in
  Ok (fun name => fromkeys (st_config <$> filter (fun s => st_name s = name) selected)).

Definition operation_error (o : operation) (m : ToolExecutionMode) (message : string) (more : pydict) : ToolRunResult := {|
  tr_operation := po_id o; tr_tool := po_tool o; tr_mode := m; tr_status := OP_ERROR;
  tr_result := [("message", PStr message); ("tool_name", PStr (po_tool o))] ++ more;
  tr_schedule := None; tr_run_at := None |}.

(** One ready operation: an input to execute or a result that is known already. *)
Definition resolve_operation (configs : string -> list string) (s : ToolSchedulingConfig) (strict : bool) (now : Z)
    (o : operation) : res exc (ToolRunInput + ToolRunResult) :=
  let refuse m message more :=
    if strict then Err (dve message) else Ok (inr (operation_error o m message more)) in
  match configs (po_tool o) with
  | [] => refuse IMMEDIATE "ready_operation_tool_config_unresolved" []
  | [config] =>
      let! at_ := _resolve_run_at s (po_tool o) (po_params o) now in
      match at_ with
      | (_, Some e) => refuse SCHEDULED (scheduling_error_str e) []
      | (run_at, None) => Ok (inl {| ti_operation := po_id o; ti_tool := po_tool o; ti_config := config;
                                     ti_params := po_params o; ti_run_at := run_at |})
      end
  | many => refuse IMMEDIATE "ready_operation_tool_config_ambiguous"
              [("tool_config_ids", PList (PStr <$> sorted_by String.le id many))]
  end.

Definition inputs_of (l : list (ToolRunInput + ToolRunResult)) : list ToolRunInput :=
  omap (fun x => match x with inl i => Some i | inr _ => None end) l.
Definition precomputed_of (l : list (ToolRunInput + ToolRunResult)) : list ToolRunResult :=
  omap (fun x => match x with inl _ => None | inr r => Some r end) l.

(** [_parse_inputs_from_context]. *)
Definition _parse_inputs_from_context (c : ExecutionContext) (s : ToolSchedulingConfig) (now : Z) :
    res exc (list (ToolRunInput + ToolRunResult)) :=
  let! raw := py_get "result" (get_node_output ToolInputFiller c) in
  let strict := _strict_contract_mode c in
  match raw with
  | PNone => if strict then Err (dve "param_extraction_result_missing") else Ok []
  | _ =>
      let! items := py_iter raw in
      let! parsed := accepted validate_operation strict "param_extraction_operation_invalid" items in
      match filter (fun o => po_status o = OP_READY) parsed with
      | [] => Ok []
      | ready =>
          let! configs := _build_tool_config_map (get_node_output ToolResolver c) strict in
          rmap (resolve_operation configs s strict now) ready
      end
  end.

(** ** Results of earlier executions *)

(** [_retry_operation_ids]. *)
Definition _retry_operation_ids (st : pydict) : list string :=
  match dict_getv RETRY_OPERATION_IDS_STATE_KEY st with
  | PList l => omap (fun v => match v with PStr s => if String.eqb s "" then None else Some s | _ => None end) l
  | _ => []
  end.

(** One finalised result, unless it is executed again. *)
Definition carried_result (excluded : list string) (v : pyval) : option ToolRunResult :=
  match v with
  | PDict d => match dict_getv "operation_id" d with
               | PStr op => if bool_decide (op ∈ excluded) then None else validate_result d
               | _ => None
               end
  | _ => None
  end.

(** [_carried_results]. *)
Definition _carried_results (st : pydict) (excluded : list string) : list ToolRunResult :=
  match dict_getv FINALIZED_RESULTS_STATE_KEY st with
  | PList l => omap (carried_result excluded) l
  | _ => []
  end.

(** [_merge_results]: the last result of an operation, at the place of its first. *)
Fixpoint merge_into (r : ToolRunResult) (l : list ToolRunResult) : list ToolRunResult :=
  match l with
  | [] => [r]
  | x :: l => if String.eqb (tr_operation x) (tr_operation r) then r :: l else x :: merge_into r l
  end.
Definition _merge_results (l : list ToolRunResult) : list ToolRunResult := foldl (fun acc r => merge_into r acc) [] l.

(** [tool_fanout_max_concurrency]. *)
Definition max_concurrency (int_of_string : string -> option Z) (c : ExecutionContext) : res exc Z :=
  let limits := match dict_getv "runtime_policy" (metadata c) with
                | PDict p => match dict_getv "limits" p with PDict l => l | _ => [] end
                | _ => []
                end in
  let! n := py_int int_of_string match dict_getv "tool_fanout_max_concurrency" limits with PNone => PInt 4 | v => v end in
  Ok (Z.max 1 n).
End inputs.
