(* ===== verification/FlowTools.v ===== *)
(** * FlowTools: executing the tools of a flow

    [src/src/domain/tools/services/tool_orchestrator.py] ([execute_tool_run]) and the
    effects of the tool executor node ([graph_runtime/nodes/tool_executor.py]).

    The calls of one node run one after the other, as with a concurrency of one.  The HTTP
    client, the secret store, the scheduler and pydantic are outside, as are measured times
    and sizes. *)

From S2P Require Import Prelude.
From S2P Require Import Errors.
From S2P Require Import PyValue.
From S2P Require Import PyString.
From S2P Require Import PyFloat.
From S2P Require Import StateMachine.
From S2P Require Import Effects.
From S2P Require Import Store.
From S2P Require Import NodeStep.
From S2P Require Import AgentStore.
From S2P Require Import ToolRuns.
From S2P Require Import HumanSLA.
From S2P Require Import ToolNodes.

(** ** The world of the node executors *)

(** A row of [response_artifact]. *)
Record response_artifact : Type := {
  ra_interaction : uuid;
  ra_flow : uuid;
  ra_payload : pydict;
}.

(** The tables that only node executors write, and what is outside; the desk's clock is
    the clock. *)
Record node_world {W : Type} : Type := {
  nw_tools : agents W;
  nw_responses : list response_artifact;
  nw_sla : sla_db;
}.
Arguments node_world : clear implicits.

Section lifts.
Context {W : Type}.

Definition set_world (w : node_world W) (e : @env (node_world W)) : @env (node_world W) :=
  {| db := db e; world := w; counters := counters e; loop_keys := loop_keys e |}.

Definition on_tools {A} (m : M (agents W) A) : M (@env (node_world W)) A := fun e =>
  match m (nw_tools (world e)) with
  | (r, t) => (r, set_world {| nw_tools := t; nw_responses := nw_responses (world e); nw_sla := nw_sla (world e) |} e)
  end.
Definition on_sla {A} (m : M sla_db A) : M (@env (node_world W)) A := fun e =>
  match m (nw_sla (world e)) with
  | (r, d) => (r, set_world {| nw_tools := nw_tools (world e); nw_responses := nw_responses (world e); nw_sla := d |} e)
  end.
Definition now_utc : M (@env (node_world W)) Z := fun e => (Ok (sla_now (nw_sla (world e))), e).

Lemma on_tools_db {A} (m : M (agents W) A) e : db (on_tools m e).2 = db e /\ counters (on_tools m e).2 = counters e.
Proof. unfold on_tools. by destruct (m (nw_tools (world e))). Qed.
Lemma on_sla_db {A} (m : M sla_db A) e : db (on_sla m e).2 = db e /\ counters (on_sla m e).2 = counters e.
Proof. unfold on_sla. by destruct (m (nw_sla (world e))). Qed.
End lifts.

Section flow_tools.
Context {W : Type}.
Abbreviation ENV := (@env (node_world W)).
Variable uuid_parse : string -> option uuid.
Variable uuid_str : uuid -> string.
Variable int_of_string : string -> option Z.
Variable float_of_string : string -> option pyfloat.
Variable py_str : pyval -> string.
Variable exc_str : exc -> string.
Variable exc_detail : exc -> pyval.
Variable batch_size : nat.
Variable http_send : http_request -> W -> res exc pydict * W.
Variable resolve_secret : string -> W -> res exc string * W.
Variable result_valid : pydict -> bool.
Variable get_tool_config : uuid -> option tool_config.
Variable session_tenant : uuid -> option uuid.
(** Measured milliseconds, and the size of a value as JSON. *)
Variable latency_ms : Z.
Variable json_size : pyval -> Z.

(** ** Tool runs of a flow *)

(** [get_flow_run_id_for_tool_run]. *)
Definition get_flow_run_id_for_tool_run (t : uuid) : M ENV uuid :=
  let* found := on_tools (get_tool_run t) in
  match found with
  | None => mraise (NotFoundServiceException "tool_run_not_found")
  | Some x =>
      let flow_of n := let* nr := repo (get_node_run n) in
                       match nr with
                       | None => mraise (NotFoundServiceException "node_run_not_found")
                       | Some r => mret (nr_flow r)
                       end in
      match tl_node_run x, tl_agent_run x with
      | Some n, _ => flow_of n
      | None, Some a =>
          let* s := repo mget in
          match agent_runs s !! a with
          | None => mraise (NotFoundServiceException "agent_run_not_found")
          | Some r => flow_of (ar_node_run r)
          end
      | None, None => mraise (DomainValidationException "tool_run_missing_parent")
      end
  end.

(** [get_interaction_metadata_for_flow_run]. *)
Definition get_interaction_metadata_for_flow_run (f : uuid) : M ENV pydict :=
  let* s := repo mget in
  mret (match flow_runs s !! f ≫= fr_interaction with
        | Some i => match interactions s !! i with Some r => in_metadata r | None => [] end
        | None => []
        end).

(** [get_flow_context]: session and tenant. *)
Definition flow_context (f : uuid) : M ENV (uuid * uuid) :=
  let* found := repo (get_flow_run f) in
  match found with
  | None => mraise (NotFoundServiceException "flow_run_not_found")
  | Some r => match session_tenant (fr_session r) with
              | None => mraise (NotFoundServiceException "session_not_found")
              | Some t => mret (fr_session r, t)
              end
  end.

(** [create_response_artifact_for_tool_run]. *)
Definition create_response_artifact_for_tool_run (t : uuid) (payload : pydict) : M ENV unit :=
  let* f := get_flow_run_id_for_tool_run t in
  let* found := repo (get_flow_run f) in
  match found ≫= fr_interaction with
  | None => mraise (DomainValidationException "flow_run_missing_interaction")
  | Some i => mmodify (fun e => set_world {| nw_tools := nw_tools (world e);
                nw_responses := nw_responses (world e) ++ [{| ra_interaction := i; ra_flow := f; ra_payload := payload |}];
                nw_sla := nw_sla (world e) |} e)
  end.

(** The secrets among the headers. *)
Definition secret_refs (headers : pyval) : list string :=
  match headers with
  | PDict items => omap (fun kv => match kv.2 with
                                   | PDict d => if dict_has "secret_ref" d
                                                then Some (str_of py_str (dict_getv "secret_ref" d)) else None
                                   | _ => None
                                   end) items
  | _ => []
  end.

Definition tool_event (f session tenant : uuid) (x : tool_run) (ty : string) (payload : pydict) : M ENV unit :=
  let* _ := repo (append_execution_event batch_size (Some f) {|
      ed_tenant := tenant; ed_user := None; ed_session := session; ed_type := ty; ed_payload := PDict payload;
      ed_correlation := tl_correlation x; ed_node := None; ed_edge := None |}) in
  mret tt.

Definition tool_fields (t : uuid) (x : tool_run) : pydict :=
  [("tool_run_id", PStr (uuid_str t)); ("tool_config_id", PStr (uuid_str (tl_config x)))].

Definition invocation_fields (t : uuid) (x : tool_run) (response : Z) : pydict :=
  tool_fields t x ++ [("executor_type", PStr "http"); ("latency_ms", PInt latency_ms);
    ("request_size", PInt (json_size (PDict (tl_input x)))); ("response_size", PInt response); ("retries", PInt 0)].

(** The failure path of [execute_tool_run]. *)
Definition fail_tool_run {A} (t : uuid) (x : tool_run) (e : exc) : M ENV A :=
  let* f := get_flow_run_id_for_tool_run t in
  let* ctx := flow_context f in
  (if is_domain_validation e then
     tool_event f ctx.1 ctx.2 x "ValidationFailed"
       (tool_fields t x ++ [("error_class", PStr (exc_type e)); ("message", PStr (exc_message e))])
   else mret tt) ;;*
  on_tools (update_tool_run_result t (run_status_str RS_FAILED) (tool_status_str TR_ERROR) []
              [("error", PStr (exc_str e))]) ;;*
  tool_event f ctx.1 ctx.2 x "ToolInvocationFailed"
    (invocation_fields t x 0 ++ [("error_class", PStr (exc_type e))]) ;;*
  on_tools (create_run_failure_for_tool_run t
              (if is_domain_validation e then "tool_response_validation_failed" else "tool_execution_error")) ;;*
  mraise e.

(** What follows a successful call. *)
Definition complete_tool_run (t : uuid) (x : tool_run) (result : pydict) : M ENV pydict :=
  let* f := get_flow_run_id_for_tool_run t in
  let* ctx := flow_context f in
  on_tools (update_tool_run_result t (run_status_str RS_COMPLETED) (tool_status_str TR_SUCCESS) result []) ;;*
  tool_event f ctx.1 ctx.2 x "ToolInvocationSucceeded"
    (invocation_fields t x (json_size (dict_getv "body" result))) ;;*
  create_response_artifact_for_tool_run t
    [("type", PStr "tool_result"); ("tool_run_id", PStr (uuid_str t)); ("result", PDict result)] ;;*
  mret result.

(** The guarded call. *)
Definition invoke_tool (t : uuid) (x : tool_run) (f : uuid) (refs : list string) (method : pyval) (url : string)
    (headers : pydict) (timeout : pyfloat) : M ENV pydict :=
  (match refs with
   | [] => mret tt
   | _ => let* ctx := flow_context f in
          tool_event f ctx.1 ctx.2 x "SecretAccessed" (tool_fields t x ++ [("secret_refs", PList (PStr <$> refs))])
   end) ;;*
  let* result := on_tools (execute_http http_send method url headers (tl_input x) timeout) in
  mlift (raise_if (negb (result_valid result)) (DomainValidationException "tool_response_validation_failed")) ;;*
  mret result.

(** What a call needs: method, URL, headers, time limit and the flow run it belongs to. *)
Definition prepare_tool_run (t : uuid) (config : pydict) : M ENV (pyval * string * pydict * pyfloat * uuid) :=
  let url := effective_tool_http_url py_str config in
  let method := default (PStr "POST") (dict_get "method" config) in
  let* timeout := mlift (py_float float_of_string (default (PInt 10) (dict_get "timeout_seconds" config))) in
  let* _ := mlift (py_int int_of_string (default (PInt 3) (dict_get "max_attempts" config))) in
  let* f := get_flow_run_id_for_tool_run t in
  let* metadata := get_interaction_metadata_for_flow_run f in
  let* headers := on_tools (_resolve_headers py_str resolve_secret
                              (or_empty (default (PDict []) (dict_get "headers" config))) metadata) in
  mlift (raise_if (String.eqb url "") (DomainValidationException "tool_config_missing_url")) ;;*
  mret (method, url, headers, timeout, f).

(** [execute_tool_run]. *)
Definition execute_tool_run (t : uuid) : M ENV pydict :=
  let* found := on_tools (get_tool_run t) in
  match found with
  | None => mraise (DomainValidationException "tool_run_not_found")
  | Some x =>
      match get_tool_config (tl_config x) with
      | None => mraise (DomainValidationException "tool_config_not_found")
      | Some c =>
          let config := tcf_config c in
          let* ready := prepare_tool_run t config in
          let '(method, url, headers, timeout, f) := ready in
          on_tools (update_tool_run_result t (run_status_str RS_RUNNING) (tool_status_str TR_EXECUTING) [] []) ;;*
          let* result :=
            mtry (invoke_tool t x f (secret_refs (or_empty (default (PDict []) (dict_get "headers" config)))) method url
                    headers timeout)
              (fail_tool_run t x) in
          complete_tool_run t x result
      end
  end.

(** ** The tool executor node *)

Variable validate_operation : pyval -> option operation.
Variable validate_selection : pyval -> option selected_tool.
Variable validate_scheduling : pydict -> option ToolSchedulingConfig.
Variable validate_result : pydict -> option ToolRunResult.
Variable fromisoformat : string -> option Z.
Variable isoformat : Z -> string.
(** [schedule_tool_run] of the scheduler, if there is one: identifier and time. *)
Variable schedule_tool_run : option (uuid -> uuid -> uuid -> Z -> W -> res exc (string * Z) * W).

(** [_error_payload]. *)
Definition _error_payload (e : exc) (fallback : string) (t : option uuid) : pydict :=
  (if is_domain_validation e then [("message", PStr (exc_message e)); ("detail", exc_detail e)]
   else [("message", PStr fallback); ("error_class", PStr (exc_type e))])
  ++ match t with Some t => [("tool_run_id", PStr (uuid_str t))] | None => [] end.

Definition tool_result (i : ToolRunInput) (m : ToolExecutionMode) (s : OperationStatus) (r : pydict)
    (schedule run_at : option string) : ToolRunResult := {|
  tr_operation := ti_operation i; tr_tool := ti_tool i; tr_mode := m; tr_status := s; tr_result := r;
  tr_schedule := schedule; tr_run_at := run_at |}.

(** The key of a tool run of a node. *)
Definition tool_run_key (c : ExecutionContext) (op : string) : string :=
  uuid_str (flow_run_id c) +:+ ":" +:+
  match current_node_run_id c with Some n => uuid_str n | None => "None" end +:+ ":" +:+ op.

(** The row of an operation. *)
Definition create_operation_run (c : ExecutionContext) (i : ToolRunInput) : M ENV uuid :=
  match uuid_parse (ti_config i) with
  | None => mraise PyValueError
  | Some config => on_tools (create_tool_run config (correlation_id c) None (current_node_run_id c)
                               (Some (tool_run_key c (ti_operation i))) (ti_params i) None)
  end.

(** [_schedule_one]. *)
Definition _schedule_one (c : ExecutionContext) (i : ToolRunInput) (at_ : Z) : M ENV ToolRunResult :=
  let failed e t := mret (tool_result i SCHEDULED OP_ERROR (_error_payload e (scheduling_error_str SCHEDULE_FAILED) t)
                            None (Some (isoformat at_))) in
  match schedule_tool_run with
  | None => mret (tool_result i SCHEDULED OP_ERROR [("message", PStr (scheduling_error_str SCHEDULER_UNAVAILABLE))]
                    None (Some (isoformat at_)))
  | Some schedule => fun e =>
      match create_operation_run c i e with
      | (Err x, e) => failed x None e
      | (Ok t, e) =>
          mtry (let* s := on_tools (external (schedule t (tenant_id c) (correlation_id c) at_)) in
                mret (tool_result i SCHEDULED OP_SCHEDULED [("tool_run_id", PStr (uuid_str t))] (Some s.1)
                        (Some (isoformat s.2))))
            (fun x => failed x (Some t)) e
      end
  end.

(** [_execute_one]. *)
Definition _execute_one (c : ExecutionContext) (i : ToolRunInput) : M ENV ToolRunResult :=
  match ti_run_at i with
  | Some at_ => _schedule_one c i at_
  | None => fun e =>
      match create_operation_run c i e with
      | (Err x, e) => (Ok (tool_result i IMMEDIATE OP_ERROR (_error_payload x "tool_run_creation_failed" None) None None), e)
      | (Ok t, e) =>
          mtry (let* r := execute_tool_run t in mret (tool_result i IMMEDIATE OP_SUCCESS r None None))
            (fun x => mret (tool_result i IMMEDIATE OP_ERROR (_error_payload x "tool_execution_failed" (Some t)) None None)) e
      end
  end.

Fixpoint execute_all (c : ExecutionContext) (inputs : list ToolRunInput) : M ENV (list ToolRunResult) :=
  match inputs with
  | [] => mret []
  | i :: inputs =>
      let* r := _execute_one c i in
      let* rest := execute_all c inputs in
      mret (r :: rest)
  end.

(** What is left to do when only some operations are to be retried. *)
Definition selected_for {A} (op : A -> string) (retry : list string) (l : list A) : list A :=
  match retry with [] => l | _ => filter (fun x => op x ∈ retry) l end.

(** Operations to execute, and the results that are known already. *)
Definition tool_plan (c : ExecutionContext) (config : pydict) (now : Z) : res exc (list ToolRunInput * list ToolRunResult) :=
  let! s := _resolve_scheduling validate_scheduling config in
  let! parsed := _parse_inputs_from_context validate_operation validate_selection fromisoformat c s now in
  let retry := _retry_operation_ids (state c) in
  Ok (selected_for ti_operation retry (inputs_of parsed),
      match retry with [] => [] | _ => _carried_results validate_result (state c) retry end
      ++ selected_for tr_operation retry (precomputed_of parsed)).

Definition tool_state (st data : pydict) : pydict :=
  dict_set RETRY_OPERATION_IDS_STATE_KEY (PList []) (dict_set (node_type_value ToolExecutor) (PDict data) st).

(** [ToolExecutor.execute]. *)
Definition tool_executor_execute (c : ExecutionContext) (config : pydict) : M ENV NodeResult :=
  let* now := now_utc in
  match tool_plan c config now with
  | Err e =>
      if is_domain_validation e then
        mret (plain_result ERROR [] (PDict [("message", PStr (exc_message e)); ("detail", exc_detail e)]) (Some (state c)))
      else mraise e
  | Ok (inputs, known) =>
      let* _ := mlift (max_concurrency int_of_string c) in
      let* executed := execute_all c inputs in
      let data := [("result", PList (dump_tool_result <$> _merge_results (known ++ executed)))] in
      mret (plain_result SUCCESS data PNone (Some (tool_state (state c) data)))
  end.
End flow_tools.

(** ** What node executors may change *)

(** The tables of runs and checkpoints, which belong to the engine. *)
Definition engine_view (s : store) : gmap uuid flow_run * gmap uuid node_run * gmap uuid graph_state *
    gmap uuid agent_run * gset uuid :=
  (flow_runs s, node_runs s, graph_states s, agent_runs s, batching s).
#[global] Instance engine_view_frame : EventFrame engine_view.
Proof. by split. Qed.

Definition node_frame {W} (e e' : @env W) : Prop :=
  engine_view (db e') = engine_view (db e) /\ counters e' = counters e /\ loop_keys e' = loop_keys e.
#[global] Instance node_frame_preorder {W} : PreOrder (@node_frame W).
Proof.
  split; [done|]. intros a b c (H1 & H2 & H3) (H4 & H5 & H6).
  split; [by rewrite H4|]. split; congruence.
Qed.

Section frame.
Context {W : Type}.
Abbreviation ENV := (@env (node_world W)).

Lemma on_tools_frame {A} (m : M (agents W) A) : respects node_frame (on_tools m).
Proof. intros e. unfold on_tools. by destruct (m (nw_tools (world e))). Qed.
Lemma on_sla_frame {A} (m : M sla_db A) : respects node_frame (on_sla (W := W) m).
Proof. intros e. unfold on_sla. by destruct (m (nw_sla (world e))). Qed.
Lemma now_frame : respects node_frame (now_utc (W := W)).
Proof. by intros e. Qed.
Lemma repo_view_frame {W'} {A} (m : M store A) :
  (forall s, engine_view (m s).2 = engine_view s) -> respects node_frame (repo (W := W') m).
Proof. intros H e. specialize (H (db e)). unfold repo. by destruct (m (db e)). Qed.
Lemma append_node_frame {W'} bs f d : respects node_frame (repo (W := W') (append_execution_event bs f d)).
Proof. apply repo_view_frame. intros s. apply append_frame, _. Qed.
Lemma read_frame {W'} {A} (f : store -> A) : respects node_frame (repo (W := W') (let* s := mget in mret (f s))).
Proof. by intros e. Qed.
Lemma get_node_run_frame {W'} n : respects node_frame (repo (W := W') (get_node_run n)).
Proof. by intros e. Qed.
Lemma get_flow_run_frame {W'} n : respects node_frame (repo (W := W') (get_flow_run n)).
Proof. by intros e. Qed.
Lemma mget_frame {W'} : respects node_frame (repo (W := W') mget).
Proof. by intros e. Qed.
End frame.
#[export] Hint Resolve on_tools_frame on_sla_frame now_frame append_node_frame get_node_run_frame get_flow_run_frame
  mget_frame : frame.

Section tool_frame.
Context {W : Type}.
Variable uuid_parse : string -> option uuid.
Variable uuid_str : uuid -> string.
Variable int_of_string : string -> option Z.
Variable float_of_string : string -> option pyfloat.
Variable py_str : pyval -> string.
Variable exc_str : exc -> string.
Variable exc_detail : exc -> pyval.
Variable batch_size : nat.
Variable http_send : http_request -> W -> res exc pydict * W.
Variable resolve_secret : string -> W -> res exc string * W.
Variable result_valid : pydict -> bool.
Variable get_tool_config : uuid -> option tool_config.
Variable session_tenant : uuid -> option uuid.
Variable latency_ms : Z.
Variable json_size : pyval -> Z.
Variable validate_operation : pyval -> option operation.
Variable validate_selection : pyval -> option selected_tool.
Variable validate_scheduling : pydict -> option ToolSchedulingConfig.
Variable validate_result : pydict -> option ToolRunResult.
Variable fromisoformat : string -> option Z.
Variable isoformat : Z -> string.
Variable schedule_tool_run : option (uuid -> uuid -> uuid -> Z -> W -> res exc (string * Z) * W).

Abbreviation ENV := (@env (node_world W)).
Abbreviation flow_of_ := (get_flow_run_id_for_tool_run (W := W)).
Abbreviation context_ := (flow_context (W := W) session_tenant).
Abbreviation event_ := (tool_event (W := W) batch_size).
Abbreviation fail_ := (fail_tool_run (W := W) uuid_str exc_str batch_size session_tenant latency_ms json_size).
Abbreviation complete_ := (complete_tool_run (W := W) uuid_str batch_size session_tenant latency_ms json_size).
Abbreviation invoke_ := (invoke_tool uuid_str batch_size http_send result_valid session_tenant).
Abbreviation prepare_ := (prepare_tool_run int_of_string float_of_string py_str resolve_secret).
Abbreviation execute_ := (execute_tool_run uuid_str int_of_string float_of_string py_str exc_str batch_size http_send
  resolve_secret result_valid get_tool_config session_tenant latency_ms json_size).
Abbreviation one_ := (_execute_one uuid_parse uuid_str int_of_string float_of_string py_str exc_str exc_detail batch_size
  http_send resolve_secret result_valid get_tool_config session_tenant latency_ms json_size isoformat schedule_tool_run).
Abbreviation all_ := (execute_all uuid_parse uuid_str int_of_string float_of_string py_str exc_str exc_detail batch_size
  http_send resolve_secret result_valid get_tool_config session_tenant latency_ms json_size isoformat schedule_tool_run).
Abbreviation plan_ := (tool_plan validate_operation validate_selection validate_scheduling validate_result fromisoformat).
Abbreviation node_ := (tool_executor_execute uuid_parse uuid_str int_of_string float_of_string py_str exc_str exc_detail
  batch_size http_send resolve_secret result_valid get_tool_config session_tenant latency_ms json_size validate_operation
  validate_selection validate_scheduling validate_result fromisoformat isoformat schedule_tool_run).

Lemma flow_of_frame t : respects node_frame (flow_of_ t).
Proof. unfold get_flow_run_id_for_tool_run. repeat (frame; try case_match). Qed.
Lemma context_frame f : respects node_frame (context_ f).
Proof. unfold flow_context. repeat (frame; try case_match). Qed.
Lemma event_frame_ f s t x ty p : respects node_frame (event_ f s t x ty p).
Proof. unfold tool_event. repeat (frame; try case_match). Qed.
#[local] Hint Resolve flow_of_frame context_frame event_frame_ : frame.

Lemma fail_frame {A} t x e : respects node_frame (fail_ t x e : M ENV A).
Proof. unfold fail_tool_run. repeat (frame; try case_match). Qed.
Lemma invoke_frame t x f refs m u h tm : respects node_frame (invoke_ t x f refs m u h tm).
Proof. unfold invoke_tool. repeat (frame; try case_match). Qed.
Lemma prepare_frame t config : respects node_frame (prepare_ t config).
Proof. unfold prepare_tool_run, get_interaction_metadata_for_flow_run. repeat (frame; try case_match). Qed.
Lemma artifact_frame t p : respects node_frame (create_response_artifact_for_tool_run (W := W) t p).
Proof.
  unfold create_response_artifact_for_tool_run. repeat (frame; try case_match).
Qed.
#[local] Hint Resolve fail_frame invoke_frame prepare_frame artifact_frame : frame.
Lemma complete_frame t x result : respects node_frame (complete_ t x result).
Proof. unfold complete_tool_run. repeat (frame; try case_match). Qed.
#[local] Hint Resolve complete_frame : frame.

Lemma execute_tool_run_frame t : respects node_frame (execute_ t).
Proof. unfold execute_tool_run. repeat (frame; try case_match). Qed.
#[local] Hint Resolve execute_tool_run_frame : frame.

Lemma create_operation_frame c i : respects node_frame (create_operation_run (W := W) uuid_parse uuid_str c i).
Proof. unfold create_operation_run. repeat (frame; try case_match). Qed.

(** A computation that goes on after an exception of its first part. *)
Lemma settle_frame {A B} (m : M ENV A) (h : exc -> M ENV B) (k : A -> M ENV B) :
  respects node_frame m -> (forall x, respects node_frame (h x)) -> (forall a, respects node_frame (k a)) ->
  respects node_frame (fun e => match m e with (Err x, e) => h x e | (Ok a, e) => k a e end).
Proof.
  intros Hm Hh Hk e. specialize (Hm e). destruct (m e) as [[a|x] e1]; (etrans; [exact Hm|]); [apply Hk|apply Hh].
Qed.

Lemma execute_one_frame c i : respects node_frame (one_ c i).
Proof.
  unfold _execute_one, _schedule_one. destruct (ti_run_at i) as [at_|]; [destruct schedule_tool_run as [sch|]|].
  - apply settle_frame; [apply create_operation_frame|intros x; frame|intros t; frame].
  - frame.
  - apply (settle_frame _ (fun x => mret _)); [apply create_operation_frame|intros x; frame|intros t].
    frame_step; [|frame]. frame_step; [apply execute_tool_run_frame|frame].
Qed.

Lemma execute_all_frame c l : respects node_frame (all_ c l).
Proof.
  induction l as [|i l IH]; simpl; [frame|]. frame_step; [apply execute_one_frame|]. frame_step; [exact IH|frame].
Qed.

(** The tool executor leaves the engine's tables and counters alone. *)
Lemma tool_executor_frame c config : respects node_frame (node_ c config).
Proof.
  unfold tool_executor_execute. frame_step; [frame|].
  destruct (plan_ _ _ _) as [[inputs known]|e]; [|case_match; frame].
  frame_step; [frame|]. frame_step; [apply execute_all_frame|frame].
Qed.

(** ** The outcome of a tool run *)

Definition rows (e : ENV) : gmap uuid tool_run := tool_runs (nw_tools (world e)).
Definition failures (e : ENV) : list (uuid * string) := run_failures (nw_tools (world e)).

(** Steps that leave the rows of tool runs and artifacts alone. *)
Definition quiet_tools (e e' : ENV) : Prop :=
  node_frame e e' /\ rows e' = rows e /\ failures e' = failures e /\ nw_responses (world e') = nw_responses (world e).
#[local] Instance quiet_tools_preorder : PreOrder quiet_tools.
Proof.
  split; [done|]. intros a b c (F1 & R1 & L1 & A1) (F2 & R2 & L2 & A2). split; [by etrans|]. split_and!; congruence.
Qed.

Lemma repo_quiet {A} (m : M store A) : respects node_frame (repo (W := node_world W) m) -> respects quiet_tools (repo m).
Proof. intros H e. specialize (H e). revert H. unfold repo. destruct (m (db e)) as [r s]. intros H. by split. Qed.
Lemma outside_quiet {A} (m : M (agents W) A) : respects same_tables m -> respects quiet_tools (on_tools m).
Proof.
  intros H e. pose proof (on_tools_frame m e) as Hf. specialize (H (nw_tools (world e))). revert H Hf. unfold on_tools.
  destruct (m (nw_tools (world e))) as [r t]. intros [w Hw] Hf. simpl in Hw. subst t. split; [exact Hf|]. done.
Qed.
Lemma get_tool_quiet t : respects quiet_tools (on_tools (W := W) (get_tool_run t)).
Proof. apply outside_quiet. intros s. by exists (outside s); destruct s. Qed.
#[local] Hint Resolve repo_quiet get_tool_quiet : frame.

Lemma flow_of_quiet t : respects quiet_tools (flow_of_ t).
Proof. unfold get_flow_run_id_for_tool_run. repeat (frame; try case_match). Qed.
Lemma context_quiet f : respects quiet_tools (context_ f).
Proof. unfold flow_context. repeat (frame; try case_match). Qed.
Lemma event_quiet f s t x ty p : respects quiet_tools (event_ f s t x ty p).
Proof. unfold tool_event. repeat (frame; try case_match). Qed.
#[local] Hint Resolve flow_of_quiet context_quiet event_quiet : frame.

Lemma headers_quiet hc md : respects quiet_tools (on_tools (_resolve_headers (W := W) py_str resolve_secret hc md)).
Proof.
  apply outside_quiet. unfold _resolve_headers. destruct hc; try (apply respects_raise; apply _).
  apply resolve_items_tables.
Qed.
Lemma http_quiet m u h b tm : respects quiet_tools (on_tools (execute_http http_send m u h b tm)).
Proof. apply outside_quiet. unfold execute_http. destruct m; first [apply external_tables|frame]. Qed.
#[local] Hint Resolve headers_quiet http_quiet : frame.

Lemma invoke_quiet t x f refs m u h tm : respects quiet_tools (invoke_ t x f refs m u h tm).
Proof. unfold invoke_tool. repeat (frame; try case_match). Qed.
Lemma prepare_quiet t config : respects quiet_tools (prepare_ t config).
Proof. unfold prepare_tool_run, get_interaction_metadata_for_flow_run. repeat (frame; try case_match). Qed.

Lemma get_tool_run_eq t (e : ENV) : on_tools (get_tool_run t) e = (Ok (rows e !! t), e).
Proof. by destruct e as [? [] ? ?]. Qed.
Lemma get_node_run_eq n (e : ENV) : repo (get_node_run n) e = (Ok (node_runs (db e) !! n), e).
Proof. by destruct e. Qed.
Lemma read_db_eq (e : ENV) : repo mget e = (Ok (db e), e).
Proof. by destruct e. Qed.

(** The parents of a tool run lead to the same flow run later on. *)
Lemma flow_of_stable t f (e e1 e' : ENV) x y :
  flow_of_ t e = (Ok f, e1) -> engine_view (db e') = engine_view (db e) -> rows e !! t = Some x -> rows e' !! t = Some y ->
  tl_node_run y = tl_node_run x -> tl_agent_run y = tl_agent_run x -> flow_of_ t e' = (Ok f, e').
Proof.
  intros H Hv Hx Hy Hn Ha. unfold engine_view in Hv. injection Hv as H1 H2 H3 H4 H5.
  unfold get_flow_run_id_for_tool_run in *. rewrite (mbind_run _ _ _ _ _ (get_tool_run_eq t e)), Hx in H.
  rewrite (mbind_run _ _ _ _ _ (get_tool_run_eq t e')), Hy, Hn, Ha. destruct (tl_node_run x) as [n|].
  - rewrite (mbind_run _ _ _ _ _ (get_node_run_eq n e)) in H. rewrite (mbind_run _ _ _ _ _ (get_node_run_eq n e')), H2.
    destruct (node_runs (db e) !! n); [|done]. by injection H as ->.
  - destruct (tl_agent_run x) as [a|]; [|done].
    rewrite (mbind_run _ _ _ _ _ (read_db_eq e)) in H. rewrite (mbind_run _ _ _ _ _ (read_db_eq e')), H4.
    destruct (agent_runs (db e) !! a) as [ar|]; [|done].
    rewrite (mbind_run _ _ _ _ _ (get_node_run_eq _ e)) in H. rewrite (mbind_run _ _ _ _ _ (get_node_run_eq _ e')), H2.
    destruct (node_runs (db e) !! ar_node_run ar); [|done]. by injection H as ->.
Qed.

(** The flow run is known, with its session, and its events are written at once. *)
Definition flow_ready (f : uuid) (fr : flow_run) (tn : uuid) (e : ENV) : Prop :=
  flow_runs (db e) !! f = Some fr /\ session_tenant (fr_session fr) = Some tn /\ f ∉ batching (db e).

Lemma flow_ready_frame f fr tn (e e' : ENV) : node_frame e e' -> flow_ready f fr tn e -> flow_ready f fr tn e'.
Proof. intros [Hv _] (H1 & H2 & H3). injection Hv as E1 _ _ _ E5. unfold flow_ready. by rewrite E1, E5. Qed.

Lemma context_run f fr tn (e : ENV) : flow_ready f fr tn e -> context_ f e = (Ok (fr_session fr, tn), e).
Proof.
  intros (H1 & H2 & _). unfold flow_context, repo, get_flow_run, mbind_, mget, mret. rewrite H1. simpl. rewrite H2.
  by destruct e.
Qed.

Lemma event_run f fr tn s t x ty p (e : ENV) :
  flow_ready f fr tn e -> exists e', event_ f s t x ty p e = (Ok tt, e') /\ quiet_tools e e'.
Proof.
  intros (H1 & _ & H3). pose proof (event_quiet f s t x ty p e) as Hq. revert Hq.
  unfold tool_event, append_execution_event, insert_event, mbind_, repo, uuid4, mget, mmodify, mret. simpl.
  rewrite bool_decide_eq_false_2 by done. simpl. rewrite H1. simpl. intros Hq. eexists. by split.
Qed.

Lemma update_row t st ca out err (e : ENV) x :
  rows e !! t = Some x ->
  exists e', on_tools (update_tool_run_result t st ca out err) e = (Ok tt, e') /\ node_frame e e' /\
    rows e' = <[t := with_tool_result st ca out err x]> (rows e) /\ failures e' = failures e /\
    nw_responses (world e') = nw_responses (world e).
Proof.
  intros H. pose proof (on_tools_frame (update_tool_run_result t st ca out err) e) as Hf. revert Hf.
  unfold on_tools. rewrite (update_present _ _ _ _ _ _ _ H). intros Hf. eexists. split; [reflexivity|]. by split.
Qed.

(** The rows of a settled run, over the rows before. *)
Definition settled_rows (t : uuid) (r : res exc pydict) (x : tool_run) (e e' : ENV) : Prop :=
  rows e' = <[t := settled exc_str r x]> (rows e).

Lemma fail_tool_run_outcome {A} t x f fr tn err (e e0 e1 : ENV) :
  flow_ready f fr tn e -> flow_of_ t e0 = (Ok f, e1) -> engine_view (db e) = engine_view (db e0) ->
  rows e0 !! t = Some x ->
  rows e = <[t := with_tool_result (run_status_str RS_RUNNING) (tool_status_str TR_EXECUTING) [] [] x]> (rows e0) ->
  exists e', fail_ t x err e = ((Err err : res exc A), e') /\ node_frame e e' /\
    settled_rows t (Err err) x e0 e' /\
    failures e' = failures e ++ [(t, if is_domain_validation err then "tool_response_validation_failed"
                                     else "tool_execution_error")] /\
    nw_responses (world e') = nw_responses (world e).
Proof.
  intros Hr Hf Hv Hx Hrows. set (y := with_tool_result _ _ _ _ x) in Hrows.
  assert (Hy : rows e !! t = Some y) by (rewrite Hrows; apply lookup_insert_eq).
  unfold fail_tool_run. rewrite (mbind_run _ _ _ _ _ (flow_of_stable t f e0 e1 e x y Hf Hv Hx Hy eq_refl eq_refl)).
  rewrite (mbind_run _ _ _ _ _ (context_run f fr tn e Hr)).
  set (first := if is_domain_validation err then _ else _).
  assert (H1 : exists e2, first e = (Ok tt, e2) /\ quiet_tools e e2).
  { unfold first. destruct (is_domain_validation err); [by eapply event_run|]. by exists e. }
  destruct H1 as (e2 & H1 & Q1). rewrite (mbind_run _ _ _ _ _ H1). destruct Q1 as (F1 & R1 & L1 & A1).
  assert (Hy2 : rows e2 !! t = Some y) by (by rewrite R1).
  destruct (update_row t (run_status_str RS_FAILED) (tool_status_str TR_ERROR) [] [("error", PStr (exc_str err))] e2 y Hy2)
    as (e3 & H3 & F3 & R3 & L3 & A3).
  rewrite (mbind_run _ _ _ _ _ H3).
  assert (Hr3 : flow_ready f fr tn e3) by (eapply flow_ready_frame; [|exact Hr]; by etrans).
  destruct (event_run f fr tn (fr_session fr) tn x "ToolInvocationFailed"
    (invocation_fields uuid_str latency_ms json_size t x 0 ++ [("error_class", PStr (exc_type err))]) e3 Hr3)
    as (e4 & H4 & F4 & R4 & L4 & A4).
  rewrite (mbind_run _ _ _ _ _ H4). unfold on_tools at 1, create_run_failure_for_tool_run, mbind_, mmodify, mraise.
  eexists. split; [reflexivity|]. split; [by etrans; [|etrans; [|exact F4]]; [|etrans; [exact F1|exact F3]]|].
  unfold settled_rows, rows, failures in *. simpl. split_and!; [|congruence..].
  rewrite R4, R3, R1, Hrows. by rewrite insert_insert_eq.
Qed.

Lemma artifact_run t f fr (e : ENV) p :
  flow_of_ t e = (Ok f, e) -> flow_runs (db e) !! f = Some fr ->
  exists e', node_frame e e' /\ rows e' = rows e /\ failures e' = failures e /\
    match fr_interaction fr with
    | None => create_response_artifact_for_tool_run t p e =
        (Err (DomainValidationException "flow_run_missing_interaction"), e') /\
        nw_responses (world e') = nw_responses (world e)
    | Some i => create_response_artifact_for_tool_run t p e = (Ok tt, e') /\
        nw_responses (world e') = nw_responses (world e) ++ [{| ra_interaction := i; ra_flow := f; ra_payload := p |}]
    end.
Proof.
  intros Hf Hfr. unfold create_response_artifact_for_tool_run. rewrite (mbind_run _ _ _ _ _ Hf).
  rewrite (mbind_run _ _ e (Ok (Some fr)) e) by (unfold repo, get_flow_run, mbind_, mget, mret; rewrite Hfr; by destruct e).
  simpl. destruct (fr_interaction fr) as [i|]; [|by exists e].
  eexists (set_world _ e). split; [|split; [|split; [|split; [reflexivity|reflexivity]]]]; done.
Qed.

Lemma complete_outcome t x f fr tn result (e e0 e1 : ENV) :
  flow_ready f fr tn e -> flow_of_ t e0 = (Ok f, e1) -> engine_view (db e) = engine_view (db e0) ->
  rows e0 !! t = Some x ->
  rows e = <[t := with_tool_result (run_status_str RS_RUNNING) (tool_status_str TR_EXECUTING) [] [] x]> (rows e0) ->
  exists e', node_frame e e' /\ settled_rows t (Ok result) x e0 e' /\ failures e' = failures e /\
    match fr_interaction fr with
    | None => complete_ t x result e = (Err (DomainValidationException "flow_run_missing_interaction"), e') /\
        nw_responses (world e') = nw_responses (world e)
    | Some i => complete_ t x result e = (Ok result, e') /\ nw_responses (world e') = nw_responses (world e) ++
        [{| ra_interaction := i; ra_flow := f;
            ra_payload := [("type", PStr "tool_result"); ("tool_run_id", PStr (uuid_str t)); ("result", PDict result)] |}]
    end.
Proof.
  intros Hr Hf Hv Hx Hrows. set (y := with_tool_result _ _ _ _ x) in Hrows.
  assert (Hy : rows e !! t = Some y) by (rewrite Hrows; apply lookup_insert_eq).
  unfold complete_tool_run. rewrite (mbind_run _ _ _ _ _ (flow_of_stable t f e0 e1 e x y Hf Hv Hx Hy eq_refl eq_refl)).
  rewrite (mbind_run _ _ _ _ _ (context_run f fr tn e Hr)).
  destruct (update_row t (run_status_str RS_COMPLETED) (tool_status_str TR_SUCCESS) result [] e y Hy)
    as (e4 & H4 & F4 & R4 & L4 & A4).
  rewrite (mbind_run _ _ _ _ _ H4). assert (Hr4 : flow_ready f fr tn e4) by (by eapply flow_ready_frame).
  match goal with |- context [event_ f ?a ?b x "ToolInvocationSucceeded" ?p] =>
    destruct (event_run f fr tn a b x "ToolInvocationSucceeded" p e4 Hr4) as (e5 & H5 & F5 & R5 & L5 & A5) end.
  rewrite (mbind_run _ _ _ _ _ H5).
  assert (Hrow5 : rows e5 = <[t := settled exc_str (Ok result) x]> (rows e0)).
  { rewrite R5, R4, Hrows. by rewrite insert_insert_eq. }
  assert (F05 : node_frame e e5) by (by etrans).
  assert (Hf5 : flow_of_ t e5 = (Ok f, e5)).
  { eapply (flow_of_stable t f e0 e1 e5 x); [exact Hf| |exact Hx|rewrite Hrow5; apply lookup_insert_eq|done..].
    destruct F05 as [V1 _]. by rewrite V1, Hv. }
  destruct (artifact_run t f fr e5
    [("type", PStr "tool_result"); ("tool_run_id", PStr (uuid_str t)); ("result", PDict result)] Hf5) as (e6 & F6 & R6 & L6 & H6).
  { by destruct (flow_ready_frame f fr tn e e5 F05 Hr) as (Hfr & _). }
  exists e6. split; [by etrans|]. split; [unfold settled_rows; by rewrite R6|]. split; [congruence|].
  destruct (fr_interaction fr) as [i|]; destruct H6 as [H6 A6]; rewrite (mbind_run _ _ _ _ _ H6); (split; [done|]); congruence.
Qed.

(** The flow run a preparation belongs to is the tool run's. *)
Lemma prepare_flow t config (e e1 : ENV) m u h tm f :
  prepare_ t config e = (Ok (m, u, h, tm, f), e1) -> exists e0 e2, flow_of_ t e0 = (Ok f, e2) /\ quiet_tools e e0.
Proof.
  unfold prepare_tool_run. intros H. apply mbind_ok in H as (tm' & e0 & H0 & H). injection H0 as _ <-.
  apply mbind_ok in H as (n & e0 & H0 & H). injection H0 as _ <-. apply mbind_ok in H as (f' & e2 & Hf & H).
  apply mbind_ok in H as (md & e3 & _ & H). apply mbind_ok in H as (hd & e4 & _ & H).
  apply mbind_ok in H as ([] & e5 & _ & H). injection H as _ _ _ _ <- _. by exists e, e2.
Qed.

(** A tool run of a flow.  Until the headers are resolved and the URL is known, an error leaves
    the run as it was created.  From then on the run ends as FAILED with the error that is
    raised and one recorded failure, or as COMPLETED with the result.  In the second case
    the caller still gets an exception when the flow run has no interaction to attach the
    artifact to, although the tool was called and the run says so. *)
Theorem flow_tool_run_outcome t x c (e : ENV) :
  rows e !! t = Some x -> get_tool_config (tl_config x) = Some c ->
  match prepare_ t (tcf_config c) e with
  | (Err err, e1) => execute_ t e = (Err err, e1) /\ rows e1 = rows e /\ failures e1 = failures e
  | (Ok (m, u, h, tm, f), e1) =>
      forall fr tn, flow_ready f fr tn e ->
      exists r e', execute_ t e = (r, e') /\ node_frame e e' /\
        match r with
        | Ok result => settled_rows t (Ok result) x e e' /\ failures e' = failures e /\
            exists i, fr_interaction fr = Some i /\ nw_responses (world e') = nw_responses (world e) ++
              [{| ra_interaction := i; ra_flow := f;
                  ra_payload := [("type", PStr "tool_result"); ("tool_run_id", PStr (uuid_str t)); ("result", PDict result)] |}]
        | Err err => nw_responses (world e') = nw_responses (world e) /\
            ((settled_rows t (Err err) x e e' /\ exists ty, failures e' = failures e ++ [(t, ty)]) \/
             (fr_interaction fr = None /\ err = DomainValidationException "flow_run_missing_interaction" /\
              failures e' = failures e /\ exists result, settled_rows t (Ok result) x e e'))
        end
  end.
Proof.
  intros Hx Hc. pose proof (prepare_quiet t (tcf_config c) e) as Hq.
  destruct (prepare_ t (tcf_config c) e) as [[[[[[m u] h] tm] f]|err] e1] eqn:Ep; simpl in Hq;
    destruct Hq as (F1 & R1 & L1 & A1).
  2:{ split; [|done]. unfold execute_tool_run. rewrite (mbind_run _ _ _ _ _ (get_tool_run_eq t e)), Hx, Hc.
      by rewrite (mbind_run _ _ _ _ _ Ep). }
  intros fr tn Hr. destruct (prepare_flow _ _ _ _ _ _ _ _ _ Ep) as (e0 & e0' & Hf & (F0 & R0 & _)).
  unfold execute_tool_run. rewrite (mbind_run _ _ _ _ _ (get_tool_run_eq t e)), Hx, Hc, (mbind_run _ _ _ _ _ Ep).
  assert (Hx1 : rows e1 !! t = Some x) by (by rewrite R1).
  destruct (update_row t (run_status_str RS_RUNNING) (tool_status_str TR_EXECUTING) [] [] e1 x Hx1)
    as (e2 & H2 & F2 & R2 & L2 & A2).
  rewrite (mbind_run _ _ _ _ _ H2). set (y := with_tool_result _ _ _ _ x) in R2.
  set (refs := secret_refs _ _). pose proof (invoke_quiet t x f refs m u h tm e2) as Hq.
  destruct (invoke_ t x f refs m u h tm e2) as [[result|err] e3] eqn:Ei; simpl in Hq; destruct Hq as (F3 & R3 & L3 & A3).
  all: assert (F03 : node_frame e e3) by (by etrans; [|exact F3]; etrans; [exact F1|exact F2]).
  all: assert (Hrows : rows e3 = <[t := y]> (rows e)) by (by rewrite R3, R2, R1).
  all: assert (Hv : engine_view (db e3) = engine_view (db e0))
    by (destruct F03 as [V1 _], F0 as [V0 _]; by rewrite V1, V0).
  all: assert (Hx0 : rows e0 !! t = Some x) by (by rewrite R0).
  all: assert (Hr3 : flow_ready f fr tn e3) by (by eapply flow_ready_frame).
  2:{ destruct (fail_tool_run_outcome (A := pydict) t x f fr tn err e3 e0 e0' Hr3 Hf Hv Hx0) as (e4 & H4 & F4 & R4 & L4 & A4).
      { by rewrite Hrows, R0. }
      exists (Err err), e4. erewrite mbind_run by (unfold mtry; rewrite Ei; exact H4).
      split; [done|]. split; [by etrans|]. split; [congruence|]. left. split; [unfold settled_rows in *; by rewrite R4, R0|].
      eexists. rewrite L4. by rewrite L3, L2, L1. }
  erewrite mbind_run by (unfold mtry; rewrite Ei; reflexivity). cbn beta iota.
  destruct (complete_outcome t x f fr tn result e3 e0 e0' Hr3 Hf Hv Hx0) as (e4 & F4 & R4 & L4 & H4).
  { by rewrite Hrows, R0. }
  unfold settled_rows in *. rewrite R0 in R4. destruct (fr_interaction fr) as [i|].
  - destruct H4 as [H4 A4]. exists (Ok result), e4. split; [exact H4|]. split; [by etrans|]. split; [exact R4|].
    split; [congruence|]. exists i. split; [done|]. by rewrite A4, A3, A2, A1.
  - destruct H4 as [H4 A4]. eexists _, e4. split; [exact H4|]. split; [by etrans|]. split; [congruence|]. right.
    split_and!; try done; [congruence|]. by exists result.
Qed.

(** ** The outcome of an execution *)

(** Whatever the tools do, executing an operation returns a result for it. *)
Lemma execute_one_ok c i e : exists r e', one_ c i e = (Ok r, e') /\ tr_operation r = ti_operation i.
Proof.
  unfold _execute_one, _schedule_one, mtry. destruct (ti_run_at i) as [at_|].
  - destruct schedule_tool_run as [sch|]; [|by eexists _, _].
    destruct (create_operation_run _ _ c i e) as [[t|x] e1]; [|by eexists _, _].
    destruct (mbind_ _ _ e1) as [[r|x] e2] eqn:E; [|by eexists _, _].
    apply mbind_ok in E as (s & e3 & _ & [= <- <-]). by eexists _, _.
  - destruct (create_operation_run _ _ c i e) as [[t|x] e1]; [|by eexists _, _].
    destruct (mbind_ _ _ e1) as [[r|x] e2] eqn:E; [|by eexists _, _].
    apply mbind_ok in E as (s & e3 & _ & [= <- <-]). by eexists _, _.
Qed.

Lemma execute_all_ok c l e :
  exists rs e', all_ c l e = (Ok rs, e') /\ tr_operation <$> rs = ti_operation <$> l.
Proof.
  revert e. induction l as [|i l IH]; intros e; simpl; [by exists [], e|].
  destruct (execute_one_ok c i e) as (r & e1 & H1 & Hr). destruct (IH e1) as (rs & e2 & H2 & Hrs).
  exists (r :: rs), e2. rewrite (mbind_run _ _ _ _ _ H1), (mbind_run _ _ _ _ _ H2). split; [done|].
  by rewrite !fmap_cons, Hr, Hrs.
Qed.

Lemma merge_into_operations r l op :
  op ∈ tr_operation <$> merge_into r l <-> op = tr_operation r \/ op ∈ tr_operation <$> l.
Proof.
  induction l as [|x l IH]; simpl; [set_solver|]. destruct (String.eqb_spec (tr_operation x) (tr_operation r)) as [E|E];
    rewrite !fmap_cons, !elem_of_cons; [rewrite E; naive_solver|rewrite IH; naive_solver].
Qed.

Lemma merge_into_NoDup r l : NoDup (tr_operation <$> l) -> NoDup (tr_operation <$> merge_into r l).
Proof.
  induction l as [|x l IH]; simpl; [intros _; by apply NoDup_singleton|]. intros [H1 H2]%NoDup_cons.
  destruct (String.eqb_spec (tr_operation x) (tr_operation r)) as [E|E]; rewrite fmap_cons.
  - rewrite <- E. by constructor.
  - constructor; [|by apply IH]. rewrite merge_into_operations. naive_solver.
Qed.

Lemma merge_results_spec l :
  NoDup (tr_operation <$> _merge_results l) /\
  forall op, op ∈ tr_operation <$> _merge_results l <-> op ∈ tr_operation <$> l.
Proof.
  unfold _merge_results. assert (Hgen : forall acc, NoDup (tr_operation <$> acc) ->
    NoDup (tr_operation <$> foldl (fun acc r => merge_into r acc) acc l) /\
    forall op, op ∈ tr_operation <$> foldl (fun acc r => merge_into r acc) acc l <->
      op ∈ tr_operation <$> acc \/ op ∈ tr_operation <$> l).
  { induction l as [|r l IH]; intros acc Hn; cbn [foldl]; [set_solver|].
    destruct (IH (merge_into r acc) (merge_into_NoDup r acc Hn)) as [H1 H2]. split; [done|]. intros op.
    rewrite H2, merge_into_operations, fmap_cons, elem_of_cons. tauto. }
  destruct (Hgen [] (NoDup_nil_2)) as [H1 H2]. split; [done|]. intros op. rewrite H2. set_solver.
Qed.

(** [C30] Executing the tools of a node.  When the operations can be read and the configured
    concurrency is a number, the node always succeeds, whatever happens to tool runs,
    secrets, schedules and HTTP calls: failures are results.  Its output has exactly one
    result for every operation that was to be executed, refused or carried over, and no
    other; the engine's tables and counters are untouched. *)
Theorem tool_executor_results c config (e : ENV) inputs known n :
  plan_ c config (sla_now (nw_sla (world e))) = Ok (inputs, known) -> max_concurrency int_of_string c = Ok n ->
  exists r results e', node_ c config e = (Ok r, e') /\ status r = SUCCESS /\
    data r = [("result", PList (dump_tool_result <$> results))] /\
    next_state r = Some (tool_state (state c) (data r)) /\
    NoDup (tr_operation <$> results) /\
    (forall op, op ∈ tr_operation <$> results <-> op ∈ ti_operation <$> inputs \/ op ∈ tr_operation <$> known) /\
    node_frame e e'.
Proof.
  intros Hp Hn. pose proof (tool_executor_frame c config e) as Hf. revert Hf. unfold tool_executor_execute.
  rewrite (mbind_run _ _ e (Ok (sla_now (nw_sla (world e)))) e) by done. rewrite Hp.
  rewrite (mbind_run _ _ e (Ok n) e) by (unfold mlift; by rewrite Hn).
  destruct (execute_all_ok c inputs e) as (rs & e' & H & Hrs). rewrite (mbind_run _ _ _ _ _ H). intros Hf.
  destruct (merge_results_spec (known ++ rs)) as [M1 M2].
  eexists _, (_merge_results (known ++ rs)), e'. split; [reflexivity|]. split_and!; try done.
  intros op. rewrite M2, fmap_app, elem_of_app, Hrs. tauto.
Qed.

(** ** A round of retries *)

Lemma carried_dumps (rs : list ToolRunResult) (retry : list string) (st : pydict) :
  (forall r d, dump_tool_result r = PDict d -> validate_result d = Some r) ->
  dict_getv FINALIZED_RESULTS_STATE_KEY st = PList (dump_tool_result <$> rs) ->
  _carried_results validate_result st retry = filter (fun r => tr_operation r ∉ retry) rs.
Proof.
  intros Hlaw Hst. unfold _carried_results. rewrite Hst. clear Hst. induction rs as [|r rs IH]; [done|].
  assert (Hr : carried_result validate_result retry (dump_tool_result r) =
    if decide (tr_operation r ∉ retry) then Some r else None).
  { unfold carried_result. simpl. destruct (decide (tr_operation r ∉ retry)) as [H|H].
    - rewrite bool_decide_eq_false_2 by done. by apply Hlaw.
    - by rewrite bool_decide_eq_true_2 by (by apply dec_stable). }
  rewrite fmap_cons, filter_cons, <- IH. cbn [omap list_omap]. rewrite Hr. by destruct (decide _).
Qed.

Lemma retry_ids_of_strings l st :
  dict_getv RETRY_OPERATION_IDS_STATE_KEY st = PList (PStr <$> l) -> Forall (fun s => s <> "") l ->
  _retry_operation_ids st = l.
Proof.
  intros Hst Hl. unfold _retry_operation_ids. rewrite Hst. clear Hst. induction Hl as [|s l Hs _ IH]; [done|].
  rewrite fmap_cons. cbn [omap list_omap]. destruct (String.eqb_spec s ""); [done|]. by f_equal.
Qed.

(** A round of retries.  After the tool executor has stored results with distinct operations,
    the error handler asks for some of them again, and the tool executor runs on the state
    it left: it executes only operations that were asked for, and starts from the other
    results, unchanged and in their order.  (Pydantic is taken to read back what it
    dumped.) *)
Theorem retry_round c config tconfig now h rs inputs known :
  (forall r d, dump_tool_result r = PDict d -> validate_result d = Some r) ->
  dict_get (node_type_value ToolExecutor) (state c) = Some (PDict [("result", PList (dump_tool_result <$> rs))]) ->
  NoDup (tr_operation <$> rs) -> Forall (fun r => tr_operation r <> "") rs ->
  handle_results int_of_string c config = Ok h -> hd_retry h <> [] ->
  tool_plan validate_operation validate_selection validate_scheduling validate_result fromisoformat
    (with_state (handler_state (state c) h) c) tconfig now = Ok (inputs, known) ->
  hd_retry h ⊆ tr_operation <$> rs /\
  ti_operation <$> inputs ⊆ hd_retry h /\
  exists refused, known = filter (fun r => tr_operation r ∉ hd_retry h) rs ++ refused /\
    tr_operation <$> refused ⊆ hd_retry h.
Proof.
  intros Hlaw Hst Hn Hne Hh Hret Hp. unfold handle_results in Hh. apply rbind_ok in Hh as (l & Hl & Hh).
  apply rbind_ok in Hh as (m & _ & Hh). apply rbind_ok in Hh as (counts & _ & Hh).
  unfold handler_results, get_node_output, dict_getv in Hl. rewrite Hst in Hl. simpl in Hl. injection Hl as <-.
  destruct (handle_dumps int_of_string m rs _ h Hh Hn) as (ret & Er & Hs & Ef). simpl in Er, Ef. subst ret.
  split; [exact Hs|]. unfold tool_plan in Hp. apply rbind_ok in Hp as (s & _ & Hp). apply rbind_ok in Hp as (parsed & _ & Hp).
  assert (Hids : _retry_operation_ids (handler_state (state c) h) = hd_retry h).
  { apply retry_ids_of_strings.
    - unfold handler_state. rewrite dict_getv_set_ne by done. apply dict_getv_set_eq.
    - apply Forall_forall. intros op Hop. apply Hs, list_elem_of_fmap_1 in Hop as (r & -> & Hr).
      rewrite Forall_forall in Hne. by apply Hne. }
  change (state (with_state (handler_state (state c) h) c)) with (handler_state (state c) h) in Hp.
  rewrite Hids, (carried_dumps (filter (fun r => tr_operation r ∉ hd_retry h) rs)) in Hp;
    [|exact Hlaw|unfold handler_state; by rewrite dict_getv_set_eq, Ef].
  assert (Hsel : forall A (op : A -> string) (l : list A), op <$> selected_for op (hd_retry h) l ⊆ hd_retry h).
  { intros A op l x Hx. unfold selected_for in Hx. destruct (hd_retry h) as [|y ys] eqn:E; [done|].
    apply list_elem_of_fmap_1 in Hx as (a & -> & Ha). by apply list_elem_of_filter in Ha as [Ha _]. }
  destruct (hd_retry h) as [|y ys] eqn:E; [done|]. injection Hp as <- <-. split; [apply Hsel|].
  eexists. split; [|apply Hsel]. f_equal. by apply list_filter_filter_l.
Qed.
End tool_frame.
