(* ===== verification/LLMNodes.v ===== *)
(** * LLMNodes: the node executors that call a language model, and the remaining ones

    [src/src/domain/execution/services/graph_runtime/nodes/]: the base of the LLM nodes
    ([_llm_base.py], [_common.py]) and the classes built on it, the content moderation, the
    memory commit, and [agent_runtime_resolver.py]; the completion budget of
    [domain/llm/services/completion_budget_policy.py].

    Prompt resolution, retrieval of tools, moderation and the memory writer act on the
    outside only; the LLM executor is an interface. *)

From S2P Require Import Prelude.
From S2P Require Import Errors.
From S2P Require Import PyValue.
From S2P Require Import PyString.
From S2P Require Import PyFloat.
From S2P Require Import StateMachine.
From S2P Require Import Effects.
From S2P Require Import Store.
From S2P Require Import NodeStep.
From S2P Require Import Durable.
From S2P Require Import Redis.
From S2P Require Import Guardrail.
From S2P Require Import AgentTools.
From S2P Require Import AgentStore.
From S2P Require Import ToolRuns.
From S2P Require Import LLM.
From S2P Require Import HumanSLA.
From S2P Require Import ToolNodes.
From S2P Require Import FlowTools.

(** ** Configuration *)

(** What a class built on [LLMNodeExecutor] declares. *)
Record llm_node : Type := {
  ln_type : NodeType;
  llm_task : string;
  prompt_intent : string;
  resolve_prompt_passes_node_type : bool;
  include_available_tools : bool;
  result_status : NodeExecutionStatus;
  write_next_state : bool;
}.

Definition intent_classifier : llm_node := {|
  ln_type := IntentClassifier; llm_task := "intent_selection"; prompt_intent := "intent_tool_selection";
  resolve_prompt_passes_node_type := true; include_available_tools := false; result_status := SUCCESS;
  write_next_state := true |}.
Definition tool_input_filler : llm_node := {|
  ln_type := ToolInputFiller; llm_task := "slot_filling"; prompt_intent := "slot_filling";
  resolve_prompt_passes_node_type := false; include_available_tools := false; result_status := SUCCESS;
  write_next_state := true |}.
Definition query_clarifier : llm_node := {|
  ln_type := QueryClarifier; llm_task := "clarification"; prompt_intent := "clarification";
  resolve_prompt_passes_node_type := false; include_available_tools := false; result_status := NEEDS_INPUT;
  write_next_state := false |}.
Definition response_builder : llm_node := {|
  ln_type := ResponseBuilder; llm_task := "response_render"; prompt_intent := "response_render";
  resolve_prompt_passes_node_type := true; include_available_tools := false; result_status := SUCCESS;
  write_next_state := true |}.
Definition human_fallback : llm_node := {|
  ln_type := HumanFallback; llm_task := "fallback_response"; prompt_intent := "fallback_response";
  resolve_prompt_passes_node_type := true; include_available_tools := false; result_status := SUCCESS;
  write_next_state := false |}.
Definition tool_resolver : llm_node := {|
  ln_type := ToolResolver; llm_task := "tool_selection"; prompt_intent := "intent_tool_selection";
  resolve_prompt_passes_node_type := true; include_available_tools := true; result_status := SUCCESS;
  write_next_state := true |}.
Definition context_summarizer : llm_node := {|
  ln_type := ContextSummarizer; llm_task := "memory_payload_summarize"; prompt_intent := "memory_payload_summarize";
  resolve_prompt_passes_node_type := true; include_available_tools := false; result_status := SUCCESS;
  write_next_state := true |}.

Record ResolvedPrompt : Type := {
  rp_text : string;
  rp_input_schema : pydict;
  rp_output_schema : pydict;
  rp_id : option uuid;
  rp_version : pyval;
  rp_hash : pyval;
}.

(** [{k: v for k, v in d.items() if k != key}]: [d.pop(key, None)]. *)
Definition dict_pop (key : string) (d : pydict) : pydict := filter (fun kv => kv.1 <> key) d.

(** [read_user_input]. *)
Definition read_user_input (c : ExecutionContext) : string :=
  match input_payload c with
  | PDict d => match dict_getv "user_input" d with PStr s => s | _ => "" end
  | _ => ""
  end.

(** [a or b]. *)
Definition py_or (a b : pyval) : pyval := if truthy a then a else b.

(** [config or {}], of which items are read. *)
Definition config_of (v : pyval) : res exc pydict :=
  if truthy v then match v with PDict d => Ok d | _ => Err PyAttributeError end else Ok [].

(** ** Agents of nodes *)

Section resolver.
Variable uuid_str : uuid -> string.
(** [get_agent_version_id_by_node_id], and the system prompt of a version. *)
Variable agent_version_of_node : uuid -> option uuid.
Variable agent_prompt : uuid -> option (option string).

Definition _prompt_key (n : uuid) : string := "_agent_system_prompt_" +:+ uuid_str n.
Definition _version_key (n : uuid) : string := "_agent_version_id_" +:+ uuid_str n.

(** [state.setdefault(key, None)]. *)
Definition set_default (key : string) (st : pydict) : pydict :=
  if dict_has key st then st else dict_set key PNone st.

(** [_resolve_binding]: the state after it. *)
Definition _resolve_binding (n : uuid) (required : string) (st : pydict) : pydict :=
  if dict_has required st then st
  else
    let st := set_default (_version_key n) (set_default (_prompt_key n) st) in
    match agent_version_of_node n with
    | None => st
    | Some v =>
        match agent_prompt v with
        | None => st
        | Some p =>
            let text := py_strip (default "" p) in
            dict_set (_prompt_key n) (if String.eqb text "" then PNone else PStr text)
              (dict_set (_version_key n) (PStr (uuid_str v)) st)
        end
    end.

(** [resolve_system_prompt] and [resolve_agent_version_id], one after the other: the state
    they leave, the prompt and the version. *)
Definition resolve_agent (n : uuid) (st : pydict) : pydict * pyval * pyval :=
  let st1 := _resolve_binding n (_prompt_key n) st in
  let st2 := _resolve_binding n (_version_key n) st1 in
  (st2, dict_getv (_prompt_key n) st1, dict_getv (_version_key n) st2).
End resolver.

(** ** Completion budgets *)

Section budget.
Variable int_of_string : string -> option Z.
(** The number of tokens of a value's JSON text. *)
Variable schema_tokens : pydict -> Z.

(** [a * b] and [a + b] on numbers. *)
Definition num_op (iop : Z -> Z -> Z) (fop : pyfloat -> pyfloat -> pyfloat) (a b : pyval) : res exc pyval :=
  match a, b with
  | PInt x, PInt y => Ok (PInt (iop x y))
  | PInt x, PFloat y => let! x := float_of_int x in Ok (PFloat (fop x y))
  | PFloat x, PInt y => let! y := float_of_int y in Ok (PFloat (fop x y))
  | PFloat x, PFloat y => Ok (PFloat (fop x y))
  | _, _ => Err PyTypeError
  end.

(** [max(floor, raw)], [min(out, ceiling)]. *)
Definition py_max (same : pyval -> pyval -> bool) (a b : pyval) : res exc pyval :=
  let! gt := py_order same OpGt b a in Ok (if (gt : bool) then b else a).
Definition py_min (same : pyval -> pyval -> bool) (a b : pyval) : res exc pyval :=
  let! lt := py_order same OpLt b a in Ok (if (lt : bool) then b else a).

(** [CompletionBudgetPolicy.compute_max_tokens]; the entries of the budget are numbers.
    1.2 is the float nearest to it. *)
Definition compute_max_tokens (same : pyval -> pyval -> bool) (output_schema : pydict) (policy_max : pyval)
    (budget : pydict) : res exc pyval :=
  let factor := default (PFloat (ratio 12 10)) (dict_get "schema_factor" budget) in
  let margin := default (PInt 16) (dict_get "safety_margin" budget) in
  let floor := default (PInt 32) (dict_get "floor" budget) in
  let! scaled := num_op Z.mul float_mul (PInt (schema_tokens output_schema)) factor in
  let! total := num_op Z.add float_add scaled margin in
  let! raw := py_int int_of_string total in
  let! out := py_max same floor (PInt raw) in
  match policy_max with
  | PNone => Ok out
  | m => let! positive := py_order same OpGt m (PInt 0) in
         if (positive : bool) then py_min same out m else Ok out
  end.
End budget.

(** ** The base of the LLM nodes *)

(** [_token_count]. *)
Fixpoint _token_count (int_of_string : string -> option Z) (usage : pydict) (keys : list string) : res exc Z :=
  match keys with
  | [] => Ok 0%Z
  | k :: keys => match dict_getv k usage with
                 | (PInt _ | PFloat _ | PBool _) as v => py_int int_of_string v
                 | _ => _token_count int_of_string usage keys
                 end
  end.

(** [_whole_milliseconds]: only whether the value is accepted. *)
Definition whole_milliseconds (v : pyval) : res exc unit :=
  match v with
  | PNone | PInt _ | PFloat (FFin _ _) => Ok tt
  | PFloat (FInf _) => Err (ExternalError "OverflowError" "")
  | _ => Err PydanticValidationError
  end.

Section llm_nodes.
Context {W : Type}.
Abbreviation ENV := (@env (node_world W)).
Variable uuid_parse : string -> option uuid.
Variable uuid_str : uuid -> string.
Variable int_of_string : string -> option Z.
Variable py_str : pyval -> string.
Variable same : pyval -> pyval -> bool.
(** Fields of the context that are fixed for a run. *)
Variable interaction_id : ExecutionContext -> option uuid.
Variable trace_id : ExecutionContext -> string.
Variable has_delta : ExecutionContext -> bool.
(** What the executors are built with. *)
Variable has_agent_resolver has_budget has_sla : bool.
Variable agent_version_of_node : uuid -> option uuid.
Variable agent_prompt : uuid -> option (option string).
Variable schema_tokens : pydict -> Z.
(** [prompt_resolver.resolve]: the prompt, and the system context when it assigned one to the
    context it was given. *)
Variable resolve_prompt : string -> ExecutionContext -> option uuid -> option NodeType -> W ->
  res exc (option ResolvedPrompt * option string) * W.
(** [LLMRequest(...)], and the executor it is sent to. *)
Variable make_request : pydict -> option inference_request.
Variable execute_llm : call_scope -> string -> option pydict -> inference_request -> M ENV LLMResult.

(** [conversation_key_and_stateless]. *)
Definition conversation_key_and_stateless (task : string) (llm_policy : pydict) (tenant session : string)
    (override : pyval) : res exc (option string * bool) :=
  let! enabled := match override with
                  | PNone => py_in same (PStr task) (default (PList [PStr "response_render"])
                                                      (dict_get "history_enabled_tasks" llm_policy))
                  | v => Ok (truthy v)
                  end in
  Ok (if (enabled : bool) then (Some (tenant +:+ ":" +:+ session), false) else (None, true)).

(** The [llm] entries of the node's configuration and of the runtime policy. *)
Definition llm_config (config : pydict) : res exc pydict := config_of (dict_getv "llm" config).
Definition llm_policy_of (c : ExecutionContext) : res exc pydict :=
  match default (PDict []) (dict_get "runtime_policy" (metadata c)) with
  | PDict p => match default (PDict []) (dict_get "llm" p) with PDict l => Ok l | _ => Err PyAttributeError end
  | _ => Err PyAttributeError
  end.

(** Whether the answer is streamed. *)
Definition should_stream (n : llm_node) (c : ExecutionContext) (llm_policy : pydict) : bool :=
  let eligible := match dict_getv "stream_eligible_tasks" llm_policy with
                  | PList l => omap (fun v => match v with PStr s => Some s | _ => None end) l
                  | _ => []
                  end in
  truthy (dict_getv "stream_enabled" llm_policy) && has_delta c &&
  match eligible with [] => true | _ => bool_decide (llm_task n ∈ eligible) end.

(** The system context with the node's addition. *)
Definition full_system_context (config llm_cfg : pydict) (text : option string) : option string :=
  let base := if truthy (default (PBool true) (dict_get "use_system_context" llm_cfg)) then text else None in
  match dict_getv "extra_system_context" config with
  | PStr extra =>
      if String.eqb (py_strip extra) "" then base
      else match present_text base with
           | Some b => Some (b +:+ bytes [10; 10] +:+ extra)
           | None => Some extra
           end
  | _ => base
  end.

Definition schema_or (own : pydict) (key : string) (llm_cfg : pydict) : pyval :=
  match own with [] => default (PDict []) (dict_get key llm_cfg) | _ => PDict own end.

(** The limit of the node or of the policy, within the completion budget. *)
Definition max_tokens_for (llm_cfg llm_policy : pydict) (output_schema : pyval) : res exc pyval :=
  let ceiling := match dict_getv "max_tokens" llm_cfg with
                 | PNone => dict_getv "max_tokens" llm_policy
                 | v => v
                 end in
  if has_budget && truthy output_schema then
    match output_schema with
    | PDict schema =>
        let! budget := config_of (dict_getv "completion_budget" llm_cfg) in
        compute_max_tokens int_of_string schema_tokens same schema ceiling budget
    | _ => Err PyTypeError
    end
  else Ok ceiling.

(** The agent of the node: the state with what is cached there, the system prompt and the
    agent version. *)
Definition node_agent (c : ExecutionContext) : pydict * pyval * pyval :=
  match has_agent_resolver, uuid_parse (current_node_id c) with
  | true, Some n => resolve_agent uuid_str agent_version_of_node agent_prompt n (state c)
  | _, _ => (state c, opt_text (system_prompt c), PNone)
  end.

(** [self.__class__.__name__.lower()]: the registry hands out subclasses whose names start
    with an underscore. *)
Definition class_name (n : llm_node) : string := "_" +:+ str_lower (node_type_value (ln_type n)).

(** The keyword arguments of the request. *)
Definition request_fields (n : llm_node) (c : ExecutionContext) (config llm_cfg llm_policy : pydict)
    (rp : ResolvedPrompt) (text : option string) (agent_system_prompt model max_tokens : pyval)
    (conversation : option string * bool) : pydict :=
  let output_schema := schema_or (rp_output_schema rp) "output_schema" llm_cfg in
  [("prompt", PStr (rp_text rp));
   ("system_prompt", if truthy (default (PBool true) (dict_get "use_system_prompt" llm_cfg))
                     then agent_system_prompt else PNone);
   ("system_context", opt_text (full_system_context config llm_cfg text));
   ("user_message", PStr (read_user_input c));
   ("input_schema", schema_or (rp_input_schema rp) "input_schema" llm_cfg);
   ("output_schema", output_schema);
   ("json_schema", py_or output_schema (default (PDict []) (dict_get "output_schema" llm_cfg)));
   ("json_schema_name", PStr (class_name n +:+ "_output"));
   ("model_alias", model);
   ("temperature", match dict_get "temperature" llm_cfg with Some v => v | None => dict_getv "temperature" llm_policy end);
   ("max_tokens", max_tokens);
   ("max_latency_ms", dict_getv "max_latency_ms" llm_policy);
   ("max_cost_usd", dict_getv "max_cost_usd" llm_policy);
   ("retry_limit", dict_getv "retry_limit" llm_policy);
   ("fallback_model_alias", py_or (dict_getv "fallback_model_alias" llm_cfg) (dict_getv "fallback_model_alias" llm_policy));
   ("available_tools", PList (if include_available_tools n then context_tools c else []));
   ("prompt_id", opt_text (uuid_str <$> rp_id rp));
   ("prompt_version", rp_version rp);
   ("prompt_frozen_hash", rp_hash rp);
   ("task_type", PStr (llm_task n));
   ("user_id", PStr (user_id c));
   ("conversation_key", opt_text conversation.1);
   ("stateless", PBool conversation.2);
   ("stream", PBool (should_stream n c llm_policy))].

(** [_usage_record]; the version of the agent is read back as a UUID. *)
Definition _usage_record (r : LLMResult) (task : string) (version : pyval) : res exc LLMUsageRecord :=
  let! i := _token_count int_of_string (ir_token_usage r) ["prompt_tokens"; "input_tokens"] in
  let! o := _token_count int_of_string (ir_token_usage r) ["completion_tokens"; "output_tokens"] in
  whole_milliseconds (ir_latency_ms r) ;;!
  let! v := match version with
            | PNone => Ok None
            | PStr s => match uuid_parse s with Some v => Ok (Some v) | None => Err PydanticValidationError end
            | _ => Err PydanticValidationError
            end in
  Ok {| task_type := PStr task; input_tokens := i; output_tokens := o; agent_version_id := v |}.

(** [_run_llm_after_setup]. *)
Definition run_llm (n : llm_node) (c : ExecutionContext) (config : pydict) : M ENV NodeResult :=
  let* llm_cfg := mlift (llm_config config) in
  let* llm_policy := mlift (llm_policy_of c) in
  let provider := str_of py_str (py_or (dict_getv "provider" llm_cfg) (PStr "OPENAI")) in
  let model := py_or (dict_getv "model_alias" llm_cfg) (dict_getv "model_alias" llm_policy) in
  mlift (raise_if (negb (truthy model)) (DomainValidationException "llm_model_alias_required")) ;;*
  let node := uuid_parse (current_node_id c) in
  let* resolved := on_tools (external (resolve_prompt (prompt_intent n) c node
                     (if resolve_prompt_passes_node_type n then Some (ln_type n) else None))) in
  let text := match resolved.2 with Some x => Some x | None => system_context c end in
  match resolved.1 with
  | None => mraise (DomainValidationException "prompt_resolution_failed")
  | Some rp =>
      let '(st, prompt, version) := node_agent c in
      let* max_tokens := mlift (max_tokens_for llm_cfg llm_policy (schema_or (rp_output_schema rp) "output_schema" llm_cfg)) in
      let* conversation := mlift (conversation_key_and_stateless (llm_task n) llm_policy (uuid_str (tenant_id c))
                                    (uuid_str (session_id c)) (dict_getv "use_conversation_history" llm_cfg)) in
      match make_request (request_fields n c config llm_cfg llm_policy rp text prompt model max_tokens conversation) with
      | None => mraise PydanticValidationError
      | Some request =>
          let* r := execute_llm {| cs_tenant := tenant_id c; cs_session := session_id c; cs_flow := flow_run_id c;
                                   cs_correlation := correlation_id c; cs_node := node; cs_trace := trace_id c |}
                      provider (Some llm_policy) request in
          let* u := mlift (_usage_record r (llm_task n) version) in
          match ir_output r with
          | PDict output =>
              mret {| status := result_status n; data := output; error := PNone; metrics := PDict (ir_token_usage r);
                      next_state := if write_next_state n
                                    then Some (dict_set (node_type_value (ln_type n)) (PDict output) st) else None;
                      context_state := Some st; context_text := resolved.2; context_offer := None; result_memory := None; NodeStep.usage := Some u |}
          | _ => mraise PydanticValidationError
          end
      end
  end.

(** ** Human fallback *)

(** [HumanFallback.execute]: a case, and the answer. *)
Definition human_fallback_execute (c : ExecutionContext) (config : pyval) : M ENV NodeResult :=
  (match has_sla, current_node_run_id c with
   | true, Some run =>
       let '(node, reason) := fallback_case (metadata c) in
       let* now := now_utc in
       let* _ := on_sla (get_or_create_open_case_for_fallback (tenant_id c) (session_id c) (flow_run_id c) run
                           (interaction_id c) (user_id c)
                           (match node with PStr s => s | v => if truthy v then str_of py_str v else "" end) reason now) in
       mret tt
   | _, _ => mret tt
   end) ;;*
  let* config := mlift (config_of config) in
  run_llm human_fallback c config.

(** ** Tool selection *)

(** [resolve_effective_rag_config_id_for_node] and [retrieve_tools]. *)
Variable rag_config_of_node : uuid -> res exc uuid.
Variable retrieve_tools : uuid -> uuid -> string -> pyval -> option uuid -> W -> res exc (list pyval) * W.

(** [(context.input_payload or {}).get("user_input", "") or ""]. *)
Definition raw_user_input (c : ExecutionContext) : res exc pyval :=
  let! p := config_of (input_payload c) in
  Ok (py_or (default (PStr "") (dict_get "user_input" p)) (PStr "")).

(** [context.available_tools = tools], for the call of the model and for the nodes after. *)
Definition with_tools (tools : list pyval) (c : ExecutionContext) : ExecutionContext := {|
  tenant_id := tenant_id c; user_id := user_id c; session_id := session_id c;
  input_payload := input_payload c; flow_run_id := flow_run_id c; correlation_id := correlation_id c;
  current_node_id := current_node_id c; current_node_run_id := current_node_run_id c; state := state c;
  memory := memory c; metadata := metadata c; node_output := node_output c;
  system_prompt := system_prompt c; system_context := system_context c; context_tools := tools |}.
Definition with_offer (tools : list pyval) (r : NodeResult) : NodeResult := {|
  status := status r; data := data r; error := error r; metrics := metrics r; next_state := next_state r;
  context_state := context_state r; context_text := context_text r; context_offer := Some tools;
  result_memory := result_memory r; NodeStep.usage := NodeStep.usage r |}.

(** [ToolResolver.execute]; indexing the selection happens in a task of its own. *)
Definition tool_resolver_execute (c : ExecutionContext) (config : pyval) : M ENV NodeResult :=
  let* config := mlift (config_of config) in
  let* user_input := mlift (raw_user_input c) in
  match uuid_parse (current_node_id c) with
  | None => mraise PyValueError
  | Some n =>
      let* rag := mlift (rag_config_of_node n) in
      let* tools := on_tools (external (retrieve_tools (tenant_id c) rag (str_of py_str user_input)
                                          (default (PInt 5) (dict_get "top_k" config)) (agent_version_of_node n))) in
      match tools with
      | [] => mret (with_offer [] (plain_result SUCCESS [("result", PList [])] PNone None))
      | _ => let* r := run_llm tool_resolver (with_tools tools c) config in mret (with_offer tools r)
      end
  end.

(** ** Summaries *)

(** [json.dumps(..., sort_keys=True, default=str)]; strings are UTF-8. *)
Variable serialize_payload : pyval -> string.

Definition MEMORY_CONTENT_SUMMARIZE_STAGING_KEY : string := "_MEMORY_CONTENT_SUMMARIZE_input".
Definition payload_bytes (v : pyval) : Z := Z.of_nat (String.length (serialize_payload v)).

(** [_resolve_threshold]. *)
Definition _resolve_threshold (raw : pyval) : res exc Z :=
  match raw with PNone => Ok 1%Z | v => int_or int_of_string v 1%Z (Z.max 0) end.

(** [_compaction_stats]. *)
Definition _compaction_stats (source : string) (payload summary threshold : Z) (replaced : bool) : pydict :=
  [("source_node_id", PStr source); ("payload_bytes", PInt payload); ("summary_bytes", PInt summary);
   ("saved_bytes", PInt (payload - summary));
   ("compaction_ratio", if (0 <? payload)%Z then PFloat (py_round (ratio summary payload) 4) else PNone);
   ("min_payload_bytes_to_run", PInt threshold); ("source_output_replaced", PBool replaced)].

(** [_skipped]. *)
Definition _skipped (c : ExecutionContext) (reason source : string) (payload threshold : Z) : NodeResult :=
  let compaction := PDict (_compaction_stats source payload payload threshold false) in
  {| status := SUCCESS;
     data := [("summarized", PBool false); ("reason_code", PStr reason); ("compaction", compaction)];
     error := PNone; metrics := PDict [("compaction", compaction)]; next_state := Some (state c);
     context_state := None; context_text := None; context_offer := None; result_memory := None; NodeStep.usage := None |}.

(** The result of a summary. *)
Definition summarized (cfg : pydict) (source : string) (payload threshold : Z) (staged : pydict) (r : NodeResult) :
    res exc NodeResult :=
  let replaced := truthy (default (PBool false) (dict_get "replace_source_output" cfg)) in
  let next := dict_pop MEMORY_CONTENT_SUMMARIZE_STAGING_KEY
                match next_state r with Some ((_ :: _) as st) => st | _ => staged end in
  let! next := if (replaced : bool) then
                 let! outputs := outputs_by_node next in
                 Ok (dict_set NODE_OUTPUTS_BY_NODE_ID_KEY (PDict (dict_set source (PDict (data r)) outputs)) next)
               else Ok next in
  let compaction := PDict (_compaction_stats source payload (payload_bytes (PDict (data r))) threshold replaced) in
  Ok {| status := status r;
        data := dict_merge (data r) [("summarized", PBool true); ("reason_code", PStr "context_summarizer_compacted");
                                     ("compaction", compaction)];
        error := error r;
        metrics := PDict (dict_set "compaction" compaction match metrics r with PDict m => m | _ => [] end);
        next_state := Some next; context_state := None; context_text := None; context_offer := None; result_memory := None; NodeStep.usage := None |}.

(** [ContextSummarizer.execute]. *)
Definition context_summarizer_execute (c : ExecutionContext) (config : pyval) : M ENV NodeResult :=
  let* cfg := mlift (config_of config) in
  let* threshold := mlift (_resolve_threshold (dict_getv "min_payload_bytes_to_run" cfg)) in
  let missing := plain_result ERROR
    [("summarized", PBool false); ("reason_code", PStr "context_summarizer_source_node_id_missing");
     ("error", PStr "context_summarizer_source_node_id_missing")] PNone (Some (state c)) in
  match dict_getv "source_node_id" cfg with
  | PStr source =>
      if String.eqb (py_strip source) "" then mret missing
      else
        match match dict_getv NODE_OUTPUTS_BY_NODE_ID_KEY (state c) with PDict s => dict_getv source s | _ => PNone end with
        | PNone => mret (_skipped c "context_summarizer_source_output_missing" source 0 threshold)
        | output =>
            let raw := serialize_payload output in
            let payload := Z.of_nat (String.length raw) in
            if (payload <? threshold)%Z then
              mret (_skipped c "context_summarizer_below_threshold" source payload threshold)
            else
              let staged := dict_set MEMORY_CONTENT_SUMMARIZE_STAGING_KEY
                              (PDict [("raw", PStr raw); ("source_node_id", PStr source); ("payload_bytes", PInt payload)])
                              (state c) in
              let* r := run_llm context_summarizer (with_state staged c) cfg in
              mlift (summarized cfg source payload threshold staged r)
        end
  | _ => mret missing
  end.
End llm_nodes.

(** ** Facts *)

Lemma dict_pop_has k d : dict_has k (dict_pop k d) = false.
Proof.
  unfold dict_has, dict_pop. induction d as [|[k' v] d IH]; [done|]. rewrite filter_cons. simpl.
  destruct (decide (k' <> k)) as [H|H]; [|done]. simpl. by rewrite (proj2 (String.eqb_neq k k')).
Qed.

Lemma dict_has_set_ne k k' v d : k <> k' -> dict_has k (dict_set k' v d) = dict_has k d.
Proof. intros H. unfold dict_has. by rewrite dict_get_set_ne. Qed.

Lemma py_order_int same o x y : py_order same o (PInt x) (PInt y) = Ok (cmp_holds o (x ?= y)%Z).
Proof. simpl. by rewrite !Z.mul_1_r. Qed.

(** The completion budget of a call with an output schema.  With an integer floor and an
    integer limit of the policy, or none, the number of tokens is an integer; it never exceeds
    a positive limit, and it is at least the floor unless the limit is smaller. *)
Theorem completion_budget_bounds int_of_string tokens same schema budget ceiling floor v :
  default (PInt 32) (dict_get "floor" budget) = PInt floor ->
  match ceiling with PNone | PInt _ => True | _ => False end ->
  compute_max_tokens int_of_string tokens same schema ceiling budget = Ok v ->
  exists k, v = PInt k /\
    match ceiling with
    | PInt m => if (0 <? m)%Z then (k <= m /\ (floor <= k \/ k = m))%Z else (floor <= k)%Z
    | _ => (floor <= k)%Z
    end.
Proof.
  intros Hf Hc. unfold compute_max_tokens, py_max, py_min. rewrite Hf. intros H.
  apply rbind_ok in H as (scaled & _ & H). apply rbind_ok in H as (total & _ & H). apply rbind_ok in H as (raw & _ & H).
  apply rbind_ok in H as (out & Hout & H). rewrite py_order_int in Hout. simpl in Hout.
  assert (exists o, out = PInt o /\ floor <= o)%Z as (o & -> & Ho).
  { destruct (Z.compare_spec raw floor); injection Hout as <-; eexists; (split; [done|]); lia. }
  destruct ceiling as [| |m| | | | |]; try done; [injection H as <-; by exists o|]. rewrite !py_order_int in H. simpl in H.
  rewrite Z.compare_antisym in H. destruct (Z.ltb_spec 0 m), (Z.compare_spec 0 m); try lia; simpl in H;
    [|injection H as <-; by exists o..].
  destruct (Z.compare_spec m o); simpl in H; injection H as <-; eexists; (split; [done|]); lia.
Qed.

Lemma completion_budget_bounds_witness :
  exists k, compute_max_tokens (fun _ => None) (fun _ => 100%Z) (fun _ _ => true) [] (PInt 64) [] = Ok (PInt k) /\ (k <= 64)%Z.
Proof.
  destruct (completion_budget_bounds (fun _ => None) (fun _ => 100%Z) (fun _ _ => true) [] [] (PInt 64) 32 (PInt 64))
    as (k & [= <-] & Hk); [done|done|vm_compute; reflexivity|]. exists 64%Z. split; [vm_compute; reflexivity|]. by destruct Hk.
Defined.

(** *** Agents *)

Section agents.
Variable uuid_str : uuid -> string.
Variable agent_version_of_node : uuid -> option uuid.
Variable agent_prompt : uuid -> option (option string).
Abbreviation binding_ := (_resolve_binding uuid_str agent_version_of_node agent_prompt).
Abbreviation resolve_ := (resolve_agent uuid_str agent_version_of_node agent_prompt).

Lemma keys_differ n : _prompt_key uuid_str n <> _version_key uuid_str n.
Proof. intros H. apply (f_equal (String.get 7)) in H. discriminate. Qed.

Lemma binding_cached n key st : dict_has key st = true -> binding_ n key st = st.
Proof. intros H. unfold _resolve_binding. by rewrite H. Qed.

Lemma set_default_has k k' st : dict_has k st = true \/ k = k' -> dict_has k (set_default k' st) = true.
Proof.
  unfold set_default. destruct (dict_has k' st) eqn:E; [naive_solver|]. destruct (decide (k = k')) as [->|Hk].
  - intros _. apply dict_has_set_eq.
  - rewrite dict_has_set_ne by done. naive_solver.
Qed.

Lemma dict_set_has k k' v st : dict_has k st = true -> dict_has k (dict_set k' v st) = true.
Proof. destruct (decide (k = k')) as [->|Hk]; [intros; apply dict_has_set_eq|by rewrite dict_has_set_ne]. Qed.

(** After a miss both entries of the node are cached. *)
Lemma binding_miss n key st k :
  dict_has key st = false -> k = _prompt_key uuid_str n \/ k = _version_key uuid_str n ->
  dict_has k (binding_ n key st) = true.
Proof.
  intros Hm Hk. unfold _resolve_binding. rewrite Hm.
  assert (H : dict_has k (set_default (_version_key uuid_str n) (set_default (_prompt_key uuid_str n) st)) = true).
  { destruct Hk as [->| ->]; apply set_default_has; [left; apply set_default_has|]; tauto. }
  destruct (agent_version_of_node n); [|done]. destruct (agent_prompt _); [|done]. by apply dict_set_has, dict_set_has.
Qed.

(** The agent of a node is looked up once per run: from then on the state answers. *)
Lemma resolve_agent_cached n st st' p v :
  dict_has (_prompt_key uuid_str n) st = dict_has (_version_key uuid_str n) st ->
  resolve_ n st = (st', p, v) -> resolve_ n st' = (st', p, v).
Proof.
  intros Hs [= <- <- <-]. assert (Hc : exists s, binding_ n (_prompt_key uuid_str n) st = s /\
    dict_has (_prompt_key uuid_str n) s = true /\ dict_has (_version_key uuid_str n) s = true).
  { eexists. split; [done|]. destruct (dict_has (_prompt_key uuid_str n) st) eqn:E.
    - by rewrite binding_cached.
    - split; apply binding_miss; tauto. }
  destruct Hc as (s & -> & H1 & H2). rewrite (binding_cached n _ s H2).
  unfold resolve_agent. by rewrite (binding_cached n _ s H1), (binding_cached n _ s H2).
Qed.
End agents.
