(* ===== verification/Nodes.v ===== *)
(** * Nodes: moderation, memory commits, and the registry of node executors

    [src/src/domain/execution/services/graph_runtime/]: [nodes/content_moderation.py],
    [nodes/memory_commit.py] and [registry.py], which builds the executor of a node type
    and hands it the services it works with.  [node_execute] is the executor the engine
    calls; the theorems show that it keeps the laws the engine relies on. *)

From S2P Require Import Prelude.
From S2P Require Import Errors.
From S2P Require Import PyValue.
From S2P Require Import PyString.
From S2P Require Import PyFloat.
From S2P Require Import StateMachine.
From S2P Require Import Effects.
From S2P Require Import Store.
From S2P Require Import NodeStep.
From S2P Require Import Executor.
From S2P Require Import Durable.
From S2P Require Import Guardrail.
From S2P Require Import AgentTools.
From S2P Require Import AgentStore.
From S2P Require Import ToolRuns.
From S2P Require Import LLM.
From S2P Require Import HumanSLA.
From S2P Require Import ToolNodes.
From S2P Require Import FlowTools.
From S2P Require Import LLMNodes.

(** ** Content moderation *)

Record ModerationResult : Type := {
  md_flagged : bool;
  md_categories : pydict;
}.

(** [_resolve_config]: the policy's entries, overridden by the node's. *)
Definition moderation_config (c : ExecutionContext) (config : pydict) : pydict :=
  dict_merge
    match dict_getv "runtime_policy" (metadata c) with
    | PDict p => match dict_getv "moderation" p with PDict m => m | _ => [] end
    | _ => []
    end config.

(** ** Memory commits *)

Inductive MemoryCommitMergeErrorCode : Type :=
  | RULE_INVALID | MISSING_FROM_NODE_ID | MISSING_TARGET_KEY | RESOLVED_DATA_EMPTY.

Definition merge_error_value (x : MemoryCommitMergeErrorCode) : string :=
  match x with
  | RULE_INVALID => "memory_commit_data_merge_rule_invalid"
  | MISSING_FROM_NODE_ID => "memory_commit_data_merge_missing_from_node_id"
  | MISSING_TARGET_KEY => "memory_commit_data_merge_missing_target_key"
  | RESOLVED_DATA_EMPTY => "memory_commit_resolved_data_empty"
  end.

Inductive MemoryCommitPersistOutcome : Type :=
  | MC_PERSISTED | MC_WRITE_NOT_ALLOWED | MC_WRITER_UNAVAILABLE | MC_NODE_NOT_FOUND | MC_INVALID_NODE_ID
  | MC_WRITE_FAILED.

#[global] Instance persist_outcome_eq_dec : EqDecision MemoryCommitPersistOutcome.
Proof. solve_decision. Defined.

Definition commit_outcome_value (x : MemoryCommitPersistOutcome) : string :=
  match x with
  | MC_PERSISTED => "persisted" | MC_WRITE_NOT_ALLOWED => "write_not_allowed"
  | MC_WRITER_UNAVAILABLE => "writer_unavailable" | MC_NODE_NOT_FOUND => "node_not_found"
  | MC_INVALID_NODE_ID => "invalid_node_id" | MC_WRITE_FAILED => "write_failed"
  end.

Definition MEMORY_COMMIT_FAILED_OUTCOMES : list MemoryCommitPersistOutcome :=
  [MC_NODE_NOT_FOUND; MC_INVALID_NODE_ID; MC_WRITE_FAILED].

(** [MEMORY_COMMIT_REASON_BY_OUTCOME], with the value of the reason. *)
Definition MEMORY_COMMIT_REASON_BY_OUTCOME (x : MemoryCommitPersistOutcome) : string :=
  match x with
  | MC_PERSISTED => "memory_commit_persisted" | MC_WRITE_NOT_ALLOWED => "memory_commit_write_not_allowed"
  | MC_WRITER_UNAVAILABLE => "memory_commit_writer_unavailable" | MC_NODE_NOT_FOUND => "memory_commit_node_not_found"
  | MC_INVALID_NODE_ID => "memory_commit_invalid_node_id" | MC_WRITE_FAILED => "memory_commit_write_failed"
  end.

Definition dot : Ascii.ascii := Ascii.ascii_of_nat 46.

(** [_get_value_at_path]. *)
Fixpoint walk_path (parts : list string) (v : pyval) : pyval :=
  match parts with
  | [] => v
  | k :: parts => match v with
                  | PDict d => match dict_get k d with Some v => walk_path parts v | None => PNone end
                  | _ => PNone
                  end
  end.
Definition _get_value_at_path (v : pyval) (path : string) : pyval :=
  if String.eqb path "" then v else walk_path (str_split dot path) v.

(** [not v or not isinstance(v, str)] does not hold. *)
Definition present_str (v : pyval) : option string :=
  match v with PStr s => if String.eqb s "" then None else Some s | _ => None end.

(** One rule of [data_merge]. *)
Definition apply_rule (snap merged : pydict) (rule : pyval) : MemoryCommitMergeErrorCode + pydict :=
  match rule with
  | PDict rule =>
      match present_str (dict_getv "from_node_id" rule), present_str (dict_getv "target_key" rule) with
      | None, _ => inl MISSING_FROM_NODE_ID
      | _, None => inl MISSING_TARGET_KEY
      | Some source, Some target =>
          let path := match default (PStr "") (dict_get "path" rule) with PStr p => p | _ => "" end in
          inr match dict_getv source snap with
              | PDict out => match _get_value_at_path (PDict out) path with
                             | PNone => merged
                             | v => dict_set target v merged
                             end
              | _ => merged
              end
      end
  | _ => inl RULE_INVALID
  end.

Fixpoint apply_rules (snap merged : pydict) (rules : list pyval) : MemoryCommitMergeErrorCode + pydict :=
  match rules with
  | [] => inr merged
  | r :: rules => match apply_rule snap merged r with
                  | inl x => inl x
                  | inr merged => apply_rules snap merged rules
                  end
  end.

(** [_resolve_memory_commit_data]. *)
Definition _resolve_memory_commit_data (cfg : pydict) (c : ExecutionContext) : MemoryCommitMergeErrorCode + pydict :=
  let base := match dict_getv "data" cfg with PDict d => d | _ => [] end in
  let snap := match dict_getv NODE_OUTPUTS_BY_NODE_ID_KEY (state c) with PDict d => d | _ => [] end in
  let rules := match dict_getv "data_merge" cfg with PList l => l | _ => [] end in
  let overlay := match dict_getv "literal_overlay" cfg with PDict d => d | _ => [] end in
  match apply_rules snap base rules with
  | inl x => inl x
  | inr merged =>
      match dict_merge merged overlay, rules, overlay with
      | [], _ :: _, _ | [], _, _ :: _ => inl RESOLVED_DATA_EMPTY
      | merged, _, _ => inr merged
      end
  end.

(** [MemoryWriteEventContext]. *)
Record MemoryWriteEventContext : Type := {
  me_session : uuid;
  me_flow_run : uuid;
  me_correlation : uuid;
  me_causation : option uuid;
  me_node : uuid;
}.

Section executors.
Context {W : Type}.
Abbreviation ENV := (@env (node_world W)).
Variable uuid_parse : string -> option uuid.
Variable int_of_string : string -> option Z.
Variable py_str : pyval -> string.
Variable moderate : string -> pydict -> W -> res exc ModerationResult * W.
(** [write_memory_item], if there is a writer, and [allow_memory_write] of a node. *)
Variable write_memory_item :
  option (uuid -> string -> pydict -> MemoryWriteEventContext -> W -> res exc unit * W).
Variable allow_memory_write : uuid -> option bool.

(** [ContentModeration.execute]. *)
Definition content_moderation_execute (c : ExecutionContext) (config : pydict) : M ENV NodeResult :=
  let* r := on_tools (external (moderate (read_user_input c) (moderation_config c config))) in
  mret (plain_result SUCCESS [("flagged", PBool (md_flagged r)); ("categories", PDict (md_categories r))] PNone None).

(** [_persist_memory_item]. *)
Definition _persist_memory_item (c : ExecutionContext) (item : pydict) :
    M ENV (MemoryCommitPersistOutcome * option string) :=
  match write_memory_item with
  | None => mret (MC_WRITER_UNAVAILABLE, None)
  | Some write =>
      match uuid_parse (current_node_id c) with
      | None => mret (MC_INVALID_NODE_ID, None)
      | Some n =>
          match allow_memory_write n with
          | None => mret (MC_NODE_NOT_FOUND, None)
          | Some false => mret (MC_WRITE_NOT_ALLOWED, None)
          | Some true => fun e =>
              match on_tools (external (write (tenant_id c) (user_id c) item {|
                       me_session := session_id c; me_flow_run := flow_run_id c; me_correlation := correlation_id c;
                       me_causation := current_node_run_id c; me_node := n |})) e with
              | (Ok tt, e) => (Ok (MC_PERSISTED, None), e)
              | (Err x, e) => match status_code x with
                              | Some _ => (Ok (MC_WRITE_FAILED, Some (exc_message x)), e)
                              | None => (Err x, e)
                              end
              end
          end
      end
  end.

(** A refused commit. *)
Definition commit_error (code : string) : NodeResult :=
  plain_result ERROR [("error", PStr code); ("reason_code", PStr code)] PNone None.

(** The item a configuration describes. *)
Definition memory_item (cfg data : pydict) (version : Z) : pydict :=
  [("schema_id", PStr (str_of py_str (dict_getv "schema_id" cfg))); ("schema_version", PInt version);
   ("data", PDict data);
   ("source", PStr (str_of py_str (default (PStr "explicit_user") (dict_get "source" cfg))));
   ("rag_config_id", PStr (str_of py_str (dict_getv "rag_config_id" cfg)))].

Definition commit_result (c : ExecutionContext) (item : pydict) (x : MemoryCommitPersistOutcome)
    (detail : option string) : NodeResult :=
  let reason := MEMORY_COMMIT_REASON_BY_OUTCOME x in
  let failed := bool_decide (x ∈ MEMORY_COMMIT_FAILED_OUTCOMES) in
  {| status := if failed then ERROR else SUCCESS;
     data := [("memory_commit", PStr (commit_outcome_value x)); ("persisted", PBool (bool_decide (x = MC_PERSISTED)));
              ("reason_code", PStr reason)]
             ++ (if failed then ("error", PStr reason) ::
                                match detail with Some d => [("detail", PStr d)] | None => [] end
                 else []);
     error := PNone; metrics := PNone; next_state := None; context_state := None; context_text := None; context_offer := None;
     result_memory := Some (memory c ++ [PDict item]); NodeStep.usage := None |}.

(** [MemoryCommitNode.execute]. *)
Definition memory_commit_execute (c : ExecutionContext) (cfg : pydict) : M ENV NodeResult :=
  if negb (truthy (dict_getv "schema_id" cfg)) || negb (truthy (dict_getv "rag_config_id" cfg)) then
    mret (commit_error "memory_commit_invalid_config")
  else
    match uuid_parse (str_of py_str (dict_getv "rag_config_id" cfg)) with
    | None => mret (commit_error "memory_commit_invalid_rag_config_id")
    | Some _ =>
        match _resolve_memory_commit_data cfg c with
        | inl x => mret (commit_error (merge_error_value x))
        | inr data =>
            let* version := mlift (py_int int_of_string (py_or (dict_getv "schema_version" cfg) (PInt 1))) in
            let item := memory_item cfg data version in
            let* r := _persist_memory_item c item in
            mret (commit_result c item r.1 r.2)
        end
    end.
End executors.

(** ** The registry *)

(** The services the registry was built with, and the functions of the outside they rest on:
    an optional service is an [option] or a flag.  The LLM executor, the prompt resolver, the
    tool orchestrator and the execution repository are always given. *)
Record services {W : Type} : Type := {
  sv_uuid_parse : string -> option uuid;
  sv_uuid_str : uuid -> string;
  sv_int : string -> option Z;
  sv_float : string -> option pyfloat;
  sv_str : pyval -> string;
  sv_same : pyval -> pyval -> bool;
  sv_exc_str : exc -> string;
  sv_exc_detail : exc -> pyval;
  sv_batch_size : nat;
  (* contexts *)
  sv_interaction : ExecutionContext -> option uuid;
  sv_trace : ExecutionContext -> string;
  sv_has_delta : ExecutionContext -> bool;
  (* agents, prompts and models *)
  sv_agent_resolver : bool;
  sv_completion_budget : bool;
  sv_agent_version : uuid -> option uuid;
  sv_agent_prompt : uuid -> option (option string);
  sv_schema_tokens : pydict -> Z;
  sv_prompt : string -> ExecutionContext -> option uuid -> option NodeType -> W -> res exc (option ResolvedPrompt * option string) * W;
  sv_make_request : pydict -> option inference_request;
  sv_llm : call_scope -> string -> option pydict -> inference_request -> M (@env (node_world W)) LLMResult;
  (* tools *)
  sv_catalog : bool;
  sv_rag_config : uuid -> res exc uuid;
  sv_retrieve_tools : uuid -> uuid -> string -> pyval -> option uuid -> W -> res exc (list pyval) * W;
  sv_http : http_request -> W -> res exc pydict * W;
  sv_secret : string -> W -> res exc string * W;
  sv_result_valid : pydict -> bool;
  sv_tool_config : uuid -> option tool_config;
  sv_session_tenant : uuid -> option uuid;
  sv_latency_ms : Z;
  sv_json_size : pyval -> Z;
  sv_validate_operation : pyval -> option operation;
  sv_validate_selection : pyval -> option selected_tool;
  sv_validate_scheduling : pydict -> option ToolSchedulingConfig;
  sv_validate_result : pydict -> option ToolRunResult;
  sv_fromisoformat : string -> option Z;
  sv_isoformat : Z -> string;
  sv_schedule : option (uuid -> uuid -> uuid -> Z -> W -> res exc (string * Z) * W);
  (* escalation, moderation, memory *)
  sv_sla : bool;
  sv_moderate : option (string -> pydict -> W -> res exc ModerationResult * W);
  sv_memory : option (uuid -> string -> pydict -> MemoryWriteEventContext -> W -> res exc unit * W);
  sv_allow_memory_write : uuid -> option bool;
  sv_serialize : pyval -> string;
}.
Arguments services : clear implicits.

Section registry.
Context {W : Type} (P : services W).
Abbreviation ENV := (@env (node_world W)).

(** The constructors of the classes [NodeRegistry.resolve] returns. *)
Definition construct (t : NodeType) : res exc unit :=
  match t with
  | ToolResolver => raise_if (negb (sv_catalog P)) PyValueError
  | ContentModeration => raise_if (match sv_moderate P with None => true | _ => false end) PyValueError
  | _ => Ok tt
  end.

(** An LLM node with no code of its own. *)
Definition llm_execute (n : llm_node) (c : ExecutionContext) (config : pydict) : M ENV NodeResult :=
  run_llm (sv_uuid_parse P) (sv_uuid_str P) (sv_int P) (sv_str P) (sv_same P)
    (sv_trace P) (sv_has_delta P) (sv_agent_resolver P) (sv_completion_budget P) (sv_agent_version P)
    (sv_agent_prompt P) (sv_schema_tokens P) (sv_prompt P) (sv_make_request P) (sv_llm P) n c config.

Definition fallback_execute (c : ExecutionContext) (config : pyval) : M ENV NodeResult :=
  human_fallback_execute (sv_uuid_parse P) (sv_uuid_str P) (sv_int P) (sv_str P) (sv_same P)
    (sv_interaction P) (sv_trace P) (sv_has_delta P) (sv_agent_resolver P) (sv_completion_budget P)
    (sv_sla P) (sv_agent_version P) (sv_agent_prompt P) (sv_schema_tokens P) (sv_prompt P) (sv_make_request P)
    (sv_llm P) c config.

Definition selection_execute (c : ExecutionContext) (config : pyval) : M ENV NodeResult :=
  tool_resolver_execute (sv_uuid_parse P) (sv_uuid_str P) (sv_int P) (sv_str P) (sv_same P)
    (sv_trace P) (sv_has_delta P) (sv_agent_resolver P) (sv_completion_budget P) (sv_agent_version P)
    (sv_agent_prompt P) (sv_schema_tokens P) (sv_prompt P) (sv_make_request P) (sv_llm P) (sv_rag_config P)
    (sv_retrieve_tools P) c config.

Definition summarizer_execute (c : ExecutionContext) (config : pyval) : M ENV NodeResult :=
  context_summarizer_execute (sv_uuid_parse P) (sv_uuid_str P) (sv_int P) (sv_str P) (sv_same P)
    (sv_trace P) (sv_has_delta P) (sv_agent_resolver P) (sv_completion_budget P) (sv_agent_version P)
    (sv_agent_prompt P) (sv_schema_tokens P) (sv_prompt P) (sv_make_request P) (sv_llm P) (sv_serialize P) c config.

Definition tools_execute (c : ExecutionContext) (config : pydict) : M ENV NodeResult :=
  tool_executor_execute (sv_uuid_parse P) (sv_uuid_str P) (sv_int P) (sv_float P) (sv_str P) (sv_exc_str P) (sv_exc_detail P)
    (sv_batch_size P) (sv_http P) (sv_secret P) (sv_result_valid P) (sv_tool_config P) (sv_session_tenant P)
    (sv_latency_ms P) (sv_json_size P) (sv_validate_operation P) (sv_validate_selection P) (sv_validate_scheduling P)
    (sv_validate_result P) (sv_fromisoformat P) (sv_isoformat P) (sv_schedule P) c config.

(** [execute] of the node a type resolves to; a configuration is a dict. *)
Definition node_execute (t : NodeType) (c : ExecutionContext) (config : pyval) : M ENV NodeResult :=
  let with_config k := let* config := mlift (config_of config) in k config in
  match t with
  | ContentModeration => with_config (fun config =>
      match sv_moderate P with
      | Some moderate => content_moderation_execute moderate c config
      | None => mraise PyAttributeError
      end)
  | ContextSummarizer => summarizer_execute c config
  | IntentClassifier => with_config (llm_execute intent_classifier c)
  | ToolInputFiller => with_config (llm_execute tool_input_filler c)
  | QueryClarifier => with_config (llm_execute query_clarifier c)
  | ToolResolver => selection_execute c config
  | ToolExecutor => with_config (tools_execute c)
  | ToolErrorHandlerNode => with_config (fun config => mlift (error_handler_execute (sv_int P) c config))
  | ResponseBuilder => with_config (llm_execute response_builder c)
  | HumanFallback => fallback_execute c config
  | MemoryCommitNode => with_config (memory_commit_execute (sv_uuid_parse P) (sv_int P) (sv_str P) (sv_memory P)
                                       (sv_allow_memory_write P) c)
  end.
End registry.

(** ** The LLM executor as a service of the nodes *)

(** What nodes rely on from the LLM executor: it stays out of the engine's tables. *)
Class LLMPort {W} (llm : call_scope -> string -> option pydict -> inference_request -> M (@env W) LLMResult) : Prop :=
  llm_port : forall sc provider policy q, respects node_frame (llm sc provider policy q).

Section llm_port.
Context {txt W : Type}.

(** The executor of [LLM] in the world of the nodes: the store is shared, its own counters and
    providers are outside. *)
Definition on_llm {A} (m : M (llm_env txt W) A) : M (@env (node_world (spend txt * W))) A := fun e =>
  let o := outside (nw_tools (world e)) in
  match m {| lx_spend := o.1; lx_store := db e; lx_world := o.2 |} with
  | (r, x) => (r, {| db := lx_store x;
                     world := {| nw_tools := set_outside (lx_spend x, lx_world x) (nw_tools (world e));
                                 nw_responses := nw_responses (world e); nw_sla := nw_sla (world e) |};
                     counters := counters e; loop_keys := loop_keys e |})
  end.

Definition engine_kept (s s' : llm_env txt W) : Prop := engine_view (lx_store s') = engine_view (lx_store s).
#[global] Instance engine_kept_preorder : PreOrder engine_kept.
Proof. split; [done|]. intros a b c H1 H2. unfold engine_kept in *. congruence. Qed.

Lemma on_llm_frame {A} (m : M (llm_env txt W) A) : respects engine_kept m -> respects node_frame (on_llm m).
Proof.
  intros H e. unfold on_llm. set (s := {| lx_spend := _; lx_store := _; lx_world := _ |}). specialize (H s).
  destruct (m s) as [r x]. split; [exact H|done].
Qed.

Lemma on_spend_kept {A} (m : M (spend txt) A) : respects engine_kept (on_spend (W := W) m).
Proof. intros s. unfold on_spend. by destruct (m (lx_spend s)). Qed.
Lemma on_outside_kept {A} (f : W -> res exc A * W) : respects engine_kept (on_outside (txt := txt) f).
Proof. intros s. unfold on_outside. by destruct (f (lx_world s)). Qed.
Lemma append_kept bs f d : respects engine_kept (on_store (txt := txt) (W := W) (append_execution_event bs f d)).
Proof.
  intros s. unfold on_store. pose proof (append_frame engine_view bs f d (lx_store s)) as H.
  by destruct (append_execution_event _ _ _ _).
Qed.
End llm_port.
#[export] Hint Resolve on_spend_kept on_outside_kept append_kept : frame.

Section llm_instance.
Context {txt W : Type}.
Variable txt_add : option txt -> pyfloat -> res exc txt.
Variable txt_float : txt -> pyfloat.
Variable silent_mode breaker_silent : bool.
Variable failure_threshold window_seconds : Z.
Variable same : pyval -> pyval -> bool.
Variable int_of_string : string -> option Z.
Variable float_of_string : string -> option pyfloat.
Variable uuid_str : uuid -> string.
Variable py_str : pyval -> string.
Variable exc_str : exc -> string.
Variable batch_size : nat.
Variable schema_check : pyval -> pydict -> res exc (option string).
Variable json_loads : string -> option pyval.
Variable get_active_pricing : string -> string -> M (spend txt) (option LLMPricing).
Variable get_active_config : uuid -> string -> option (option string * option string).
Variable get_active_mapping : uuid -> string -> string -> option string.
Variable infer : option LLMProviderSelection -> inference_request -> W -> res exc LLMResult * W.
Variable has_provider has_selector has_breaker has_cost_engine has_guardrail guardrail_costs : bool.

Abbreviation execute_ := (execute_llm txt_add txt_float silent_mode breaker_silent failure_threshold window_seconds same
  int_of_string float_of_string uuid_str py_str exc_str batch_size schema_check json_loads get_active_pricing
  get_active_config get_active_mapping infer has_provider has_selector has_breaker has_cost_engine has_guardrail
  guardrail_costs).

(** The executor as the nodes call it. *)
Definition node_llm (sc : call_scope) (provider : string) (policy : option pydict) (q : inference_request) :
    M (@env (node_world (spend txt * W))) LLMResult := on_llm (execute_ sc provider policy q).

#[global] Instance node_llm_port : LLMPort node_llm.
Proof.
  intros sc provider policy q. apply on_llm_frame. unfold execute_llm, choose_provider, before_call, check_call,
    degrade_call, call_provider, after_call, guarded, fail_call, LLM.emit, select.
  repeat (frame; try case_match).
Qed.
End llm_instance.

(** ** What node executors leave alone *)

Section laws.
Context {W : Type} (P : services W) {LLM_ok : LLMPort (sv_llm P)}.
Abbreviation ENV := (@env (node_world W)).

(** Walk through an executor up to its call of the LLM. *)
Ltac node_step := first [apply respects_ret; apply _ | apply respects_raise; apply _ | apply respects_lift; apply _
  | apply on_tools_frame | apply on_sla_frame | apply now_frame | apply llm_port
  | apply respects_bind; [apply _ | | intros ?]].

Lemma llm_frame n c config : respects node_frame (llm_execute P n c config).
Proof using LLM_ok.
  unfold llm_execute, run_llm. repeat (node_step || case_match).
Qed.

Lemma commit_write_frame c item : respects node_frame
  (_persist_memory_item (sv_uuid_parse P) (sv_memory P) (sv_allow_memory_write P) c item).
Proof using.
  unfold _persist_memory_item. do 3 (case_match; [|node_step]). case_match; [|node_step]. intros e.
  pose proof (fun m => on_tools_frame (W := W) (A := unit) (external m) e) as Hf.
  match goal with |- context [on_tools (external ?m) e] => specialize (Hf m) end.
  destruct (on_tools _ e) as [[[]|x] e']; [done|]. by destruct (status_code x).
Qed.

Lemma commit_frame c config : respects node_frame (memory_commit_execute (sv_uuid_parse P) (sv_int P) (sv_str P)
  (sv_memory P) (sv_allow_memory_write P) c config).
Proof using.
  unfold memory_commit_execute. repeat (apply commit_write_frame || node_step || case_match).
Qed.

Lemma node_execute_frame t c config : respects node_frame (node_execute P t c config).
Proof using LLM_ok.
  assert (Hllm : forall n c config, respects node_frame (llm_execute P n c config)) by apply llm_frame.
  unfold llm_execute in Hllm.
  unfold node_execute. destruct t; cbn zeta beta.
  - node_step; [node_step|]. case_match; [|node_step]. unfold content_moderation_execute. repeat node_step.
  - unfold summarizer_execute, context_summarizer_execute. repeat (apply Hllm || node_step || case_match).
  - node_step; [node_step|apply Hllm].
  - node_step; [node_step|apply Hllm].
  - node_step; [node_step|apply Hllm].
  - unfold selection_execute, tool_resolver_execute. repeat (apply Hllm || node_step || case_match).
  - node_step; [node_step|apply tool_executor_frame].
  - node_step; [node_step|node_step].
  - node_step; [node_step|apply Hllm].
  - unfold fallback_execute, human_fallback_execute. repeat (apply Hllm || node_step || case_match).
  - node_step; [node_step|]. apply commit_frame.
Qed.
End laws.

#[global] Instance node_laws {W} (P : services W) `{!LLMPort (sv_llm P)} : ExecutorLaws (node_execute P).
Proof.
  split.
  - intros t c cfg e. destruct (node_execute_frame P t c cfg e) as [H _]. unfold keeps. unfold engine_view in H. congruence.
  - intros t c cfg e. by destruct (node_execute_frame P t c cfg e) as (_ & H & _).
Qed.

Section outcomes.
Context {W : Type} (P : services W) {LLM_ok : LLMPort (sv_llm P)}.
Abbreviation ENV := (@env (node_world W)).

(** [C3] Node executors stay out of the engine's state.  Whatever the type of the node, its
    configuration, the answers of models, tools and other services, and also when it raises:
    the executor leaves flow runs, node runs, checkpoints, agent runs, open event batches and
    the iteration counters as they were.  So the engine's theorems apply to the program's own
    executors: a traversal that returns has ended its flow run by one final write. *)
Theorem nodes_keep_engine :
  (forall t c config e, node_frame e (node_execute P t c config e).2) /\
  forall uuid_str dump_result same use_hook traced batch_size n plan lim c (e e' : ENV),
    traverse (sv_uuid_parse P) uuid_str (construct P) (node_execute P) dump_result same use_hook traced batch_size
      n plan lim c e = (Ok tt, e') ->
    exists g, flow_runs (db e') = alter g (flow_run_id c) (flow_runs (db e)) /\ forall r, flow_result r (g r).
Proof using LLM_ok.
  split; [intros t c config e; apply node_execute_frame, _|].
  intros * H. eapply traverse_ended; [apply _|exact H].
Qed.

(** ** Memory commits *)

Abbreviation commit_ := (memory_commit_execute (W := W) (sv_uuid_parse P) (sv_int P) (sv_str P) (sv_memory P)
  (sv_allow_memory_write P)).

(** What a memory commit reports.  When the node returns without error the writer
    either has stored the item, is absent, or the node may not write; otherwise the status is
    an error.  [persisted] is reported exactly when the writer was called for this item and
    accepted it.  An item that was built joins the memory of the run in every case, stored or
    not; a configuration that gives no item changes neither the memory nor anything else. *)
Theorem memory_commit_outcome c cfg e r e' :
  commit_ c cfg e = (Ok r, e') ->
  (exists code, r = commit_error code /\ e' = e) \/
  exists item x detail, r = commit_result c item x detail /\ result_memory r = Some (memory c ++ [PDict item]) /\
    (status r = SUCCESS <-> x = MC_PERSISTED \/ x = MC_WRITE_NOT_ALLOWED \/ x = MC_WRITER_UNAVAILABLE) /\
    match x with
    | MC_PERSISTED => exists write n, sv_memory P = Some write /\ sv_uuid_parse P (current_node_id c) = Some n /\
        sv_allow_memory_write P n = Some true /\
        on_tools (external (write (tenant_id c) (user_id c) item {|
          me_session := session_id c; me_flow_run := flow_run_id c; me_correlation := correlation_id c;
          me_causation := current_node_run_id c; me_node := n |})) e = (Ok tt, e')
    | MC_WRITE_FAILED => is_Some detail
    | _ => e' = e
    end.
Proof using.
  unfold memory_commit_execute. destruct (_ || _). { intros [= <- <-]. left. by eexists. }
  destruct (sv_uuid_parse P (str_of _ _)) as [u|]; [|intros [= <- <-]; left; by eexists].
  destruct (_resolve_memory_commit_data cfg c) as [x|data]; [intros [= <- <-]; left; by eexists|].
  intros (v & e1 & H1 & H)%mbind_ok. injection H1 as _ <-. set (item := memory_item _ _ _ _) in *. clearbody item.
  apply mbind_ok in H as ([x detail] & e2 & H & H2). injection H2 as <- <-. right. exists item, x, detail.
  split; [done|]. split; [done|]. split; [by destruct x; simpl; naive_solver|]. revert H. unfold _persist_memory_item.
  destruct (sv_memory P) as [write|] eqn:Ew; [|by intros [= <- <-]].
  destruct (sv_uuid_parse P (current_node_id c)) as [n|] eqn:En; [|by intros [= <- <-]].
  destruct (sv_allow_memory_write P n) as [[]|] eqn:Ea; [|by intros [= <- <- <-]..].
  match goal with |- context [on_tools ?m e] => destruct (on_tools m e) as [[[]|y] e3] eqn:Eo end.
  - intros [= <- <- <-]. by exists write, n.
  - destruct (status_code y); [|done]. intros [= <- <- <-]. by eexists.
Qed.
(** ** Summaries *)

Definition staging : string := MEMORY_CONTENT_SUMMARIZE_STAGING_KEY.

Lemma summarized_spec cfg source payload threshold staged r r' :
  summarized (sv_serialize P) cfg source payload threshold staged r = Ok r' ->
  NodeStep.usage r' = None /\ dict_getv "summarized" (data r') = PBool true /\
  exists st, next_state r' = Some st /\ dict_has staging st = false.
Proof using.
  unfold summarized. intros (next & Hn & [= <-])%rbind_ok. split; [done|]. split.
  - simpl. unfold dict_merge. cbn [foldl fst snd]. by rewrite !dict_getv_set_ne, dict_getv_set_eq by done.
  - exists next. split; [done|]. destruct (truthy _).
    + apply rbind_ok in Hn as (outputs & _ & [= <-]). rewrite dict_has_set_ne by done. apply dict_pop_has.
    + injection Hn as <-. apply dict_pop_has.
Qed.

(** Summarising an output.  The staging entry the prompt reads never reaches the state of
    the following nodes; the node reports a summary exactly when the model was asked, and
    otherwise leaves the state and everything else as it was.  The tokens of the model call
    are not part of the result, so the engine does not record them. *)
Theorem summarizer_outcome c config e r e' :
  summarizer_execute P c config e = (Ok r, e') -> dict_has staging (state c) = false ->
  NodeStep.usage r = None /\
  (exists st, next_state r = Some st /\ dict_has staging st = false) /\
  (dict_getv "summarized" (data r) = PBool true \/
   dict_getv "summarized" (data r) = PBool false /\ next_state r = Some (state c) /\ e' = e).
Proof using.
  unfold summarizer_execute, context_summarizer_execute. intros H Hs.
  apply mbind_ok in H as (cfg & e1 & H1 & H). injection H1 as _ <-.
  apply mbind_ok in H as (threshold & e1 & H1 & H). injection H1 as _ <-.
  assert (Hkept : forall x, mret x e = (Ok r, e') -> NodeStep.usage x = None -> next_state x = Some (state c) ->
    dict_getv "summarized" (data x) = PBool false -> NodeStep.usage r = None /\
    (exists st, next_state r = Some st /\ dict_has staging st = false) /\
    (dict_getv "summarized" (data r) = PBool true \/
     dict_getv "summarized" (data r) = PBool false /\ next_state r = Some (state c) /\ e' = e)).
  { intros x [= <- <-] Hu Hn Hd. rewrite Hn. eauto 8. }
  destruct (dict_getv "source_node_id" cfg); try by eapply Hkept.
  destruct (String.eqb _ ""); [by eapply Hkept|].
  match type of H with context [match ?x with PNone => _ | _ => _ end] => set (output := x) in H; clearbody output end.
  destruct output; [by eapply Hkept|..].
  all: destruct (_ <? _)%Z; [by eapply Hkept|].
  all: apply mbind_ok in H as (x & e1 & _ & H); injection H as H ->.
  all: destruct (summarized_spec _ _ _ _ _ _ _ H) as (H1 & H2 & H3); eauto.
Qed.

(** ** Errors of tools after a reload *)

(** The error handler looks at the previous node's output only when the state has no results,
    and the tool executor always leaves them there. *)
Lemma handler_state_only c config l :
  dict_getv (node_type_value ToolExecutor) (state c) = PDict l -> (exists rs, dict_getv "result" l = PList rs) ->
  error_handler_execute (sv_int P) c config = error_handler_execute (sv_int P) (with_node_output [] c) config.
Proof using.
  intros Hs (rs & Hr). unfold error_handler_execute, handle_results.
  assert (H : handler_results c = handler_results (with_node_output [] c)).
  { unfold handler_results, get_node_output. change (state (with_node_output [] c)) with (state c). rewrite Hs. simpl.
    by rewrite Hr. }
  by rewrite H.
Qed.
End outcomes.

(** ** Node executors on concrete data

    A flow run with a tool executor node: two operations of one tool, an endpoint that
    answers, and the sample LLM executor.  The witnesses of the theorems on node executors
    evaluate it. *)

Module bench.
Module SampleNodes.
Definition world_of : Type := spend pyfloat * unit.

(** *** Readers *)

Definition no_int (_ : string) : option Z := None.
Definition no_float (_ : string) : option pyfloat := None.
Definition no_detail (_ : exc) : pyval := PNone.
Definition string_at (d : pydict) (k : string) : option string := match dict_getv k d with PStr s => Some s | _ => None end.
Definition status_of (s : string) : option OperationStatus :=
  head (filter (fun x => operation_status_str x = s)
    [OP_READY; OP_INCOMPLETE; OP_SUCCESS; OP_ERROR; OP_SCHEDULED; OP_CANCELLED]).
Definition mode_of (s : string) : option ToolExecutionMode :=
  head (filter (fun x => mode_str x = s) [IMMEDIATE; SCHEDULED]).
Definition dict_at (d : pydict) (k : string) : option pydict := as_dict (dict_getv k d).
Definition text_or_none (d : pydict) (k : string) : option (option string) :=
  match dict_getv k d with PStr s => Some (Some s) | PNone => Some None | _ => None end.

Definition read_operation (v : pyval) : option operation :=
  d ← as_dict v; i ← string_at d "operation_id"; t ← string_at d "tool_name"; s ← string_at d "status" ≫= status_of;
  p ← dict_at d "params";
  Some {| po_id := i; po_tool := t; po_status := s; po_params := p |}.
Definition read_selection (v : pyval) : option selected_tool :=
  d ← as_dict v; n ← string_at d "tool_name"; c ← string_at d "tool_config_id"; Some {| st_name := n; st_config := c |}.
Definition read_scheduling (_ : pydict) : option ToolSchedulingConfig := None.
Definition read_result (d : pydict) : option ToolRunResult :=
  i ← string_at d "operation_id"; t ← string_at d "tool_name"; m ← string_at d "execution_mode" ≫= mode_of;
  s ← string_at d "status" ≫= status_of; r ← dict_at d "result"; c ← text_or_none d "schedule_id";
  a ← text_or_none d "run_at";
  Some {| tr_operation := i; tr_tool := t; tr_mode := m; tr_status := s; tr_result := r; tr_schedule := c; tr_run_at := a |}.

Lemma read_dumped r d : dump_tool_result r = PDict d -> read_result d = Some r.
Proof. intros [= <-]. destruct r as [i t [] [] p [c|] [a|]]; reflexivity. Qed.

(** *** Services *)

Definition send (_ : http_request) (w : world_of) : res exc pydict * world_of :=
  (Ok [("status_code", PInt 200); ("body", PStr "ok")], w).
Definition secret (_ : string) (w : world_of) : res exc string * world_of := (Ok "s3cret", w).
Definition valid (_ : pydict) : bool := true.
Definition config (c : uuid) : option tool_config :=
  if (c =? 2)%N then Some {| tcf_tenant := 1%N; tcf_config := [("base_url", PStr "https://t/"); ("path", PStr "x");
    ("timeout_seconds", PInt 5)] |} else None.
Definition tenant_of (_ : uuid) : option uuid := Some 1%N.
Definition size (_ : pyval) : Z := 2.
Definition no_time (_ : string) : option Z := None.
Definition iso (_ : Z) : string := "2026-01-01T00:00:00+00:00".
Definition show_exc (e : exc) : string := exc_type e.
Definition prompt (_ : string) (_ : ExecutionContext) (_ : option uuid) (_ : option NodeType) (w : world_of) :
    res exc (option ResolvedPrompt * option string) * world_of :=
  (Ok (Some {| rp_text := "Classify."; rp_input_schema := []; rp_output_schema := []; rp_id := None; rp_version := PNone;
               rp_hash := PNone |}, None), w).
Definition request (_ : pydict) : option inference_request := Some Calls.request.

Definition llm : call_scope -> string -> option pydict -> inference_request -> M (@env (node_world world_of)) LLMResult :=
  node_llm Guardrail.Sample.add Guardrail.Sample.value false true 5 60 Guardrail.Sample.same Guardrail.Sample.no_int
    Guardrail.Sample.no_float Guardrail.Sample.name Calls.text Calls.message 2 Calls.any_schema Calls.no_json
    Guardrail.Sample.pricing Calls.config Calls.mapping Calls.answer true true true true true true.
#[global] Instance llm_ok : LLMPort llm.
Proof. apply node_llm_port. Qed.

Definition services : services world_of := {|
  sv_uuid_parse := SampleTools.parse; sv_uuid_str := SampleTools.text; sv_int := no_int; sv_float := no_float;
  sv_str := SampleTools.show; sv_same := Guardrail.Sample.same; sv_exc_str := show_exc; sv_exc_detail := no_detail;
  sv_batch_size := 20;
  sv_interaction := fun _ => None; sv_trace := fun _ => "t"; sv_has_delta := fun _ => false; sv_agent_resolver := true;
  sv_completion_budget := true; sv_agent_version := fun _ => None; sv_agent_prompt := fun _ => None;
  sv_schema_tokens := fun _ => 100%Z; sv_prompt := prompt; sv_make_request := request; sv_llm := llm; sv_catalog := true;
  sv_rag_config := fun _ => Ok 1%N; sv_retrieve_tools := fun _ _ _ _ _ w => (Ok [], w); sv_http := send;
  sv_secret := secret; sv_result_valid := valid; sv_tool_config := config; sv_session_tenant := tenant_of;
  sv_latency_ms := 3; sv_json_size := size; sv_validate_operation := read_operation; sv_validate_selection := read_selection;
  sv_validate_scheduling := read_scheduling; sv_validate_result := read_result; sv_fromisoformat := no_time;
  sv_isoformat := iso; sv_schedule := None; sv_sla := true; sv_moderate := None;
  sv_memory := Some (fun _ _ _ _ w => (Ok tt, w)); sv_allow_memory_write := fun _ => Some true;
  sv_serialize := fun _ => "payload" |}.
#[global] Instance services_ok : LLMPort (sv_llm services).
Proof. apply llm_ok. Qed.

(** *** State *)

Definition operation_row (i : string) : pyval :=
  PDict [("operation_id", PStr i); ("tool_name", PStr "lookup"); ("status", PStr "ready"); ("params", PDict [])].
Definition outputs : pydict :=
  [("ToolResolver", PDict [("result", PList [PDict [("tool_name", PStr "lookup");
      ("tool_config_id", PStr (SampleTools.text 2))]])]);
   ("ToolInputFiller", PDict [("result", PList [operation_row "a"; operation_row "b"])])].
Definition context (st : pydict) : ExecutionContext := {|
  tenant_id := 1; user_id := "ana"; session_id := 1; input_payload := PDict [("user_input", PStr "hello")];
  flow_run_id := 7; correlation_id := 1; current_node_id := SampleTools.text 1; current_node_run_id := Some 8%N; state := st;
  memory := []; metadata := [("runtime_policy", PDict [("llm", PDict [("model_alias", PStr "gpt")])])]; node_output := [];
  system_prompt := None; system_context := None; context_tools := [] |}.

Definition flow : flow_run := {|
  fr_session := 1; fr_version := 1; fr_correlation := 1; fr_snapshot := Some 1%N; fr_user := "ana"; fr_status := "RUNNING";
  fr_canonical := "RUNNING"; fr_input := PDict []; fr_output := PDict []; fr_error := PDict []; fr_finished := false;
  fr_interaction := Some 3%N; fr_turn_index := 0; fr_workflow := None |}.
Definition node : node_run := {|
  nr_flow := 7; nr_node := 1; nr_input := PNone; nr_output := PNone; nr_status := "RUNNING"; nr_canonical := "RUNNING";
  nr_finished := false |}.
Definition tool : tool_run := {|
  tl_config := 2; tl_agent_run := None; tl_node_run := Some 8%N; tl_correlation := 1; tl_key := None; tl_input := [];
  tl_call_id := None; tl_status := "CREATED"; tl_canonical := "PENDING"; tl_output := []; tl_error := [];
  tl_finished := false |}.
Definition start : @env (node_world world_of) := {|
  db := set_node_runs {[8%N := node]} (set_flow_runs {[7%N := flow]} empty_store);
  world := {| nw_tools := {| next_run_id := 100; runs := ∅; messages := []; run_events := []; artifacts := [];
                             tool_runs := {[5%N := tool]}; run_failures := []; delegations := ∅; AgentStore.usage := [];
                             outside := (Guardrail.Sample.start, tt) |};
              nw_responses := []; nw_sla := Desk.start |};
  counters := ∅; loop_keys := [] |}.
End SampleNodes.

(** ** Witnesses *)

Module Rounds.
Definition result (i : string) (s : OperationStatus) : ToolRunResult := {|
  tr_operation := i; tr_tool := "lookup"; tr_mode := IMMEDIATE; tr_status := s; tr_result := []; tr_schedule := None;
  tr_run_at := None |}.
Definition results : list ToolRunResult := [result "a" OP_ERROR; result "b" OP_SUCCESS].
Definition context : ExecutionContext := SampleNodes.context
  (("ToolExecutor", PDict [("result", PList (dump_tool_result <$> results))]) :: SampleNodes.outputs).
Definition limit : pydict := [("max_retries", PInt 1)].
End Rounds.

(** Three failures, one retry. *)
Lemma retries_bounded_witness :
  exists ls, rounds SampleNodes.no_int (replicate 3 (Rounds.context, Rounds.limit)) [] = Ok ls /\
    ls = [["a"]; []; []] /\ (occurrences "a" (concat ls) <= 1)%Z.
Proof.
  exists [["a"]; []; []]. split; [by vm_compute|]. split; [reflexivity|].
  apply (retries_bounded SampleNodes.no_int (replicate 3 (Rounds.context, Rounds.limit)) 1); [by vm_compute|lia|].
  intros c config Hc. apply elem_of_replicate in Hc as [[= -> ->] _]. exists 1%Z. split; [by vm_compute|lia].
Defined.

Lemma retry_round_witness :
  exists h inputs known, handle_results SampleNodes.no_int Rounds.context Rounds.limit = Ok h /\ hd_retry h = ["a"] /\
    tool_plan SampleNodes.read_operation SampleNodes.read_selection SampleNodes.read_scheduling SampleNodes.read_result
      SampleNodes.no_time (with_state (handler_state (state Rounds.context) h) Rounds.context) [] 0 = Ok (inputs, known) /\
    ti_operation <$> inputs ⊆ ["a"] /\ exists refused, known = [Rounds.result "b" OP_SUCCESS] ++ refused.
Proof.
  destruct (handle_results SampleNodes.no_int Rounds.context Rounds.limit) as [h|] eqn:Hh; [|discriminate].
  destruct (tool_plan SampleNodes.read_operation SampleNodes.read_selection SampleNodes.read_scheduling
    SampleNodes.read_result SampleNodes.no_time (with_state (handler_state (state Rounds.context) h) Rounds.context) [] 0)
    as [[inputs known]|] eqn:Hp; [|vm_compute in Hh; injection Hh as <-; discriminate].
  assert (Hr : hd_retry h = ["a"]) by (vm_compute in Hh; injection Hh as <-; reflexivity).
  destruct (retry_round SampleNodes.no_int SampleNodes.read_operation SampleNodes.read_selection
    SampleNodes.read_scheduling SampleNodes.read_result SampleNodes.no_time Rounds.context Rounds.limit [] 0 h
    Rounds.results inputs known) as (_ & H1 & refused & H2 & _);
    [exact SampleNodes.read_dumped|reflexivity| | |exact Hh|by rewrite Hr|exact Hp|].
  - apply (bool_decide_eq_true_1 _). by vm_compute.
  - repeat constructor; discriminate.
  - exists h, inputs, known. rewrite Hr in H1, H2. split_and!; try done. exists refused. rewrite H2. by vm_compute.
Defined.

Lemma tool_executor_results_witness :
  exists r results e', tools_execute SampleNodes.services (SampleNodes.context SampleNodes.outputs) [] SampleNodes.start
      = (Ok r, e') /\
    data r = [("result", PList (dump_tool_result <$> results))] /\ "a" ∈ tr_operation <$> results /\
    node_frame SampleNodes.start e'.
Proof.
  destruct (tool_executor_results (W := SampleNodes.world_of) SampleTools.parse SampleTools.text SampleNodes.no_int
    SampleNodes.no_float SampleTools.show SampleNodes.show_exc SampleNodes.no_detail 20 SampleNodes.send
    SampleNodes.secret SampleNodes.valid SampleNodes.config SampleNodes.tenant_of 3 SampleNodes.size
    SampleNodes.read_operation SampleNodes.read_selection SampleNodes.read_scheduling SampleNodes.read_result
    SampleNodes.no_time SampleNodes.iso None (SampleNodes.context SampleNodes.outputs) [] SampleNodes.start
    [{| ti_operation := "a"; ti_tool := "lookup"; ti_config := SampleTools.text 2; ti_params := []; ti_run_at := None |};
     {| ti_operation := "b"; ti_tool := "lookup"; ti_config := SampleTools.text 2; ti_params := []; ti_run_at := None |}]
    [] 4) as (r & results & e' & H & _ & Hd & _ & _ & Ho & Hf); [by vm_compute|by vm_compute|].
  exists r, results, e'. split; [exact H|]. split; [exact Hd|]. split; [|exact Hf]. apply Ho. left. left.
Defined.

(** The call of the tool run of the sample succeeds, and its artifact is attached. *)
Lemma flow_tool_run_outcome_witness :
  exists result e', execute_tool_run SampleTools.text SampleNodes.no_int SampleNodes.no_float SampleTools.show
      SampleNodes.show_exc 20 SampleNodes.send SampleNodes.secret SampleNodes.valid SampleNodes.config
      SampleNodes.tenant_of 3 SampleNodes.size 5 SampleNodes.start = (Ok result, e') /\
    settled_rows SampleNodes.show_exc 5 (Ok result) SampleNodes.tool SampleNodes.start e' /\
    length (nw_responses (world e')) = 1.
Proof.
  pose proof (flow_tool_run_outcome (W := SampleNodes.world_of) SampleTools.text SampleNodes.no_int SampleNodes.no_float
    SampleTools.show SampleNodes.show_exc 20 SampleNodes.send SampleNodes.secret SampleNodes.valid SampleNodes.config
    SampleNodes.tenant_of 3 SampleNodes.size 5 SampleNodes.tool
    {| tcf_tenant := 1%N; tcf_config := [("base_url", PStr "https://t/"); ("path", PStr "x"); ("timeout_seconds", PInt 5)] |}
    SampleNodes.start eq_refl eq_refl) as H.
  destruct (prepare_tool_run _ _ _ _ _ _ _) as [[[[[[m u] h] tm] f]|err] e1] eqn:Ep; [|vm_compute in Ep; discriminate].
  assert (f = 7%N) as -> by (vm_compute in Ep; congruence).
  destruct (H SampleNodes.flow 1%N) as (r & e' & He & _ & Hr).
  { split; [done|]. split; [done|]. apply not_elem_of_empty. }
  destruct r as [result|err]; [|exfalso; vm_compute in He; discriminate].
  exists result, e'. destruct Hr as (H1 & _ & i & _ & H2). split; [exact He|]. split; [exact H1|]. rewrite H2. reflexivity.
Defined.

Lemma nodes_keep_engine_witness :
  LLMPort (sv_llm SampleNodes.services) /\
  node_frame SampleNodes.start
    (node_execute SampleNodes.services ResponseBuilder (SampleNodes.context []) PNone SampleNodes.start).2.
Proof. split; [apply _|]. apply (nodes_keep_engine SampleNodes.services). Defined.

Module Commit.
Definition config : pydict :=
  [("schema_id", PStr "profile"); ("rag_config_id", PStr (SampleTools.text 2)); ("data", PDict [("name", PStr "Ana")])].
Definition summary : pydict := [("source_node_id", PStr "n"); ("min_payload_bytes_to_run", PInt 1)].
Definition context : ExecutionContext := SampleNodes.context
  [(NODE_OUTPUTS_BY_NODE_ID_KEY, PDict [("n", PDict [("text", PStr "long")])])].
End Commit.

Lemma memory_commit_outcome_witness :
  exists r e', node_execute SampleNodes.services MemoryCommitNode Commit.context (PDict Commit.config) SampleNodes.start
      = (Ok r, e') /\ status r = SUCCESS /\ exists item, result_memory r = Some [PDict item].
Proof.
  destruct (node_execute SampleNodes.services MemoryCommitNode Commit.context (PDict Commit.config) SampleNodes.start)
    as [[r|x] e'] eqn:E; [|vm_compute in E; discriminate].
  exists r, e'. split; [reflexivity|].
  destruct (memory_commit_outcome SampleNodes.services Commit.context Commit.config SampleNodes.start r e' E)
    as [(code & -> & _)|(item & x & d & _ & Hm & _)]; [vm_compute in E; discriminate|].
  split; [vm_compute in E; by injection E as <-|]. exists item. exact Hm.
Defined.

(** The model is asked; its answer is the summary. *)
Lemma summarizer_outcome_witness :
  exists r e', summarizer_execute SampleNodes.services Commit.context (PDict Commit.summary) SampleNodes.start = (Ok r, e') /\
    NodeStep.usage r = None /\ dict_getv "summarized" (data r) = PBool true.
Proof.
  destruct (summarizer_execute SampleNodes.services Commit.context (PDict Commit.summary) SampleNodes.start)
    as [[r|x] e'] eqn:E; [|vm_compute in E; discriminate].
  exists r, e'. split; [reflexivity|].
  destruct (summarizer_outcome SampleNodes.services Commit.context (PDict Commit.summary) SampleNodes.start r e' E eq_refl)
    as (H1 & _ & H2). split; [exact H1|]. destruct H2 as [H2|[H2 _]]; [exact H2|]. vm_compute in E. by injection E as <-.
Defined.

(** The error handler on a context whose state has no results: what it does depends on the
    output of the previous node, which is not part of a stored graph state. *)
Lemma handler_needs_output :
  exists c config, error_handler_execute SampleNodes.no_int c config
    <> error_handler_execute SampleNodes.no_int (with_node_output [] c) config.
Proof.
  exists (with_node_output [("result", PList (dump_tool_result <$> Rounds.results))] (SampleNodes.context [])), Rounds.limit.
  vm_compute. discriminate.
Qed.
End bench.
