(* ===== verification/FlowService.v ===== *)
(** * FlowService: creating and resuming flow runs

    [src/src/domain/execution/services/execution_service.py] ([create_flow_run],
    [resume_flow_run] and their helpers), with the repository calls they add to [Store]:
    sessions, interactions, locks and the search for a waiting run.

    The service works on the engine's environment, the tables of sessions and users, further
    columns of the flow runs, the plan cache and Temporal's workflows; idempotency keys are in
    Redis.  Published versions, deployments and snapshots are read only.  Tracing is
    dropped. *)

From S2P Require Import Prelude.
From S2P Require Import Errors.
From S2P Require Import PyValue.
From S2P Require Import PyString.
From S2P Require Import StateMachine.
From S2P Require Import Sorting.
From S2P Require Import FlowGraph.
From S2P Require Import DraftGraph.
From S2P Require Import GraphCompiler.
From S2P Require Import Effects.
From S2P Require Import Store.
From S2P Require Import NodeStep.
From S2P Require Import Executor.
From S2P Require Import Temporal.
From S2P Require Import Dispatch.
From S2P Require Import Redis.

(** ** Data *)

(** [FlowRunInput]. *)
Record FlowRunInput : Type := {
  user_input : option string;
}.

(** Its [model_dump]. *)
Definition input_dump (i : FlowRunInput) : pyval :=
  PDict [("user_input", match user_input i with Some t => PStr t | None => PNone end)].

(** [FlowRunCreate]; parts of a multi-part input are opaque. *)
Record FlowRunCreate : Type := {
  fc_flow : option uuid;
  fc_version : option uuid;
  fc_session : uuid;
  fc_user : string;
  fc_origin : option uuid;
  fc_correlation : option uuid;
  fc_input : option FlowRunInput;
  fc_parts : list pyval;
  fc_metadata : pydict;
}.

(** [FlowRunResumeInput]. *)
Record FlowRunResumeInput : Type := {
  ri_user : string;
  ri_input : option string;
  ri_parts : list pyval;
}.

(** [FlowRun], for the columns of the model. *)
Record FlowRun : Type := {
  vw_id : uuid;
  vw_origin : option uuid;
  vw_version : uuid;
  vw_session : uuid;
  vw_user : string;
  vw_interaction : option uuid;
  vw_status : string;
  vw_canonical : string;
  vw_correlation : uuid;
  vw_finished : bool;
  vw_input : pyval;
  vw_output : pyval;
  vw_error : pyval;
  vw_contract : pydict;
  vw_workflow : option (string * string);
}.

(** Columns of a flow run that only the service uses. *)
Record run_origin : Type := {
  ro_origin : option uuid;
  ro_contract : pydict;
}.

(** Rows of flow versions, snapshots of flows with their policy, and graph snapshots. *)
Record flow_version : Type := {
  fv_flow : uuid;
  fv_status : string;
}.
Record flow_snapshot : Type := {
  fsn_id : uuid;
  fsn_snapshot : pydict;
  fsn_policy : pydict;
  fsn_tools : pydict;
  fsn_llm_hash : option string;
}.
Record graph_snapshot : Type := {
  gsn_id : uuid;
  gsn_graph : Snapshot;
  gsn_hash : string;
}.

Record flows {W : Type} : Type := {
  fs_env : @env W;
  fs_sessions : gmap uuid (uuid * string);
  fs_users : gset (uuid * string);
  fs_origins : gmap uuid run_origin;
  fs_locks : gset uuid;
  fs_plans : gmap string ExecutionPlan;
  fs_workflows : gmap string WorkflowExecutionStatus;
}.
Arguments flows : clear implicits.

(** [try: m finally: fin]. *)
Definition mfinally {S A} (m : M S A) (fin : M S unit) : M S A := fun s =>
  match m s with
  | (r, s) => match fin s with (Ok _, s) => (r, s) | (Err e, s) => (Err e, s) end
  end.

Section lifts.
Context {W : Type}.
Implicit Types s : flows W.

Definition set_env (e : @env W) s : flows W := {|
  fs_env := e; fs_sessions := fs_sessions s; fs_users := fs_users s; fs_origins := fs_origins s; fs_locks := fs_locks s;
  fs_plans := fs_plans s; fs_workflows := fs_workflows s |}.
Definition set_sessions v u s : flows W := {|
  fs_env := fs_env s; fs_sessions := v; fs_users := u; fs_origins := fs_origins s; fs_locks := fs_locks s;
  fs_plans := fs_plans s; fs_workflows := fs_workflows s |}.
Definition set_origins v l s : flows W := {|
  fs_env := fs_env s; fs_sessions := fs_sessions s; fs_users := fs_users s; fs_origins := v; fs_locks := l;
  fs_plans := fs_plans s; fs_workflows := fs_workflows s |}.
Definition set_plans v s : flows W := {|
  fs_env := fs_env s; fs_sessions := fs_sessions s; fs_users := fs_users s; fs_origins := fs_origins s; fs_locks := fs_locks s;
  fs_plans := v; fs_workflows := fs_workflows s |}.

(** A call into the engine, the repository and the workflow engine. *)
Definition engine {A} (m : M (@env W) A) : M (flows W) A := fun s =>
  match m (fs_env s) with (r, e) => (r, set_env e s) end.
Definition table {A} (m : M store A) : M (flows W) A := engine (repo m).
Definition workflows {A} (m : M system A) : M (flows W) A := fun s =>
  match m {| sys_db := db (fs_env s); sys_workflows := fs_workflows s |} with
  | (r, x) => (r, {| fs_env := {| db := sys_db x; world := world (fs_env s); counters := counters (fs_env s);
                                  loop_keys := loop_keys (fs_env s) |};
                     fs_sessions := fs_sessions s; fs_users := fs_users s; fs_origins := fs_origins s;
                     fs_locks := fs_locks s; fs_plans := fs_plans s; fs_workflows := sys_workflows x |})
  end.
(** A call outside. *)
Definition outside_call {A} (f : W -> res exc A * W) : M (flows W) A := engine (fun e =>
  match f (world e) with
  | (r, w) => (r, {| db := db e; world := w; counters := counters e; loop_keys := loop_keys e |})
  end).
End lifts.

(** ** The repository *)

Section repository.
Context {W : Type}.

(** [create_session]: the user is registered with it; [get_session] found none just before. *)
Definition create_session (session tenant : uuid) (user : string) : M (flows W) unit :=
  let* s := mget in
  match fs_sessions s !! session with
  | None => mmodify (fun s => set_sessions (<[session := (tenant, user)]> (fs_sessions s))
                                ({[(tenant, user)]} ∪ fs_users s) s)
  | Some (t, u) =>
      if bool_decide (t = tenant /\ u = user) then
        mmodify (fun s => set_sessions (fs_sessions s) ({[(tenant, user)]} ∪ fs_users s) s)
      else mraise (DomainConflictException "session_user_mismatch")
  end.

(** [create_interaction], for the columns of the model. *)
Definition create_interaction (metadata : pydict) : M store uuid :=
  let* i := uuid4 in
  mmodify (fun s => set_interactions (<[i := {| in_flow := None; in_output := PDict []; in_result_node_run := None;
                                                in_completed := false; in_metadata := metadata |}]> (interactions s)) s) ;;*
  mret i.

(** A run that waits for input. *)
Definition is_waiting (r : flow_run) : bool :=
  String.eqb (fr_status r) (run_status_str RS_WAITING_INPUT) || String.eqb (fr_canonical r) (flow_status_str FR_WAITING).

(** [get_latest_waiting_flow_run_id]; identifiers are handed out in the order of creation. *)
Definition get_latest_waiting_flow_run_id (session correlation version : uuid) (user : string) (s : store) : option uuid :=
  fst <$> head (sorted_by Z.ge (fun fr => Z.of_N fr.1) (filter (fun fr =>
    fr_session fr.2 = session /\ fr_correlation fr.2 = correlation /\ fr_version fr.2 = version /\
    fr_user fr.2 = user /\ is_waiting fr.2 = true) (map_to_list (flow_runs s)))).

(** [acquire_flow_run_lock]: the row exists afterwards, and its lock is released with the
    transaction. *)
Definition acquire_flow_run_lock (f : uuid) : M (flows W) unit :=
  mmodify (fun s => set_origins (fs_origins s) ({[f]} ∪ fs_locks s) s).

(** [create_flow_run] of the repository, with the columns only the service uses; [None] has
    no [model_dump]. *)
Definition insert_flow_run (session version correlation : uuid) (origin : option uuid) (user : string)
    (input : option FlowRunInput) (interaction snapshot : uuid) (contract : pydict) : M (flows W) uuid :=
  match input with
  | None => let* _ := table uuid4 in mraise PyAttributeError
  | Some i =>
      let* f := table (Store.create_flow_run session version correlation user
                         (input_dump i) (Some interaction) (Some snapshot)) in
      mmodify (fun s => set_origins (<[f := {| ro_origin := origin; ro_contract := contract |}]> (fs_origins s))
                          ({[f]} ∪ fs_locks s) s) ;;*
      mret f
  end.
End repository.

(** ** The service *)

Section service.
Context {W : Type}.
Variable uuid_parse : string -> option uuid.
Variable uuid_str : uuid -> string.
Variable construct : NodeType -> res exc unit.
Variable execute : NodeType -> ExecutionContext -> pyval -> M (@env W) NodeResult.
Variable dump_result : NodeResult -> pyval.
Variable same : pyval -> pyval -> bool.
Variable use_hook traced : bool.
Variable batch_size : nat.
Variable int_of_string : string -> option Z.
Variable int_str : Z -> string.
Variable py_str : pyval -> string.
(** The catalogue of flows. *)
Variable get_flow_version : uuid -> option flow_version.
Variable flow_tenant : uuid -> option uuid.
Variable get_active_flow_version_id : uuid -> option uuid.
Variable get_active_flow_deployment : uuid -> option (uuid * uuid).
Variable get_flow_snapshot_by_id get_flow_snapshot_by_flow_version : uuid -> option flow_snapshot.
Variable get_flow_graph_snapshot get_flow_graph_snapshot_by_flow_version : uuid -> option graph_snapshot.
(** [RuntimePolicyDefinition.model_validate(...)], dumped; the resolved policy of a tenant and
    flow; the digest of a dict. *)
Variable policy_validate : pydict -> res exc pydict.
Variable resolve_policy : uuid -> uuid -> res exc pydict.
Variable hash_dict : pydict -> string.
(** The normaliser of multi-part inputs, if there is one. *)
Variable normalize : option (uuid -> option string -> list pyval -> W -> res exc (option string) * W).
(** Settings. *)
Variable temporal_enabled legacy_contract : bool.
(** The workflow engine, the run ids it hands out, and waiting for a turn of a workflow. *)
Variable has_engine : bool.
Variable run_id : string -> string.
Variable await_turn : uuid -> M (flows W) unit.

(** [_normalize_flow_run_input]. *)
Definition _normalize_flow_run_input (tenant : uuid) (q : FlowRunCreate) : M (flows W) (option FlowRunInput) :=
  match fc_parts q with
  | [] => mret (fc_input q)
  | parts =>
      match normalize with
      | None => mraise (DomainValidationException "user_input_normalizer_required")
      | Some f => let* merged := outside_call (f tenant (fc_input q ≫= user_input) parts) in
                  mret (Some {| user_input := merged |})
      end
  end.

(** [_normalize_resume_input]. *)
Definition _normalize_resume_input (tenant : uuid) (q : FlowRunResumeInput) : M (flows W) (option string) :=
  match ri_parts q with
  | [] => mret (ri_input q)
  | parts =>
      match normalize with
      | None => mraise (DomainValidationException "user_input_normalizer_required")
      | Some f => outside_call (f tenant (ri_input q) parts)
      end
  end.

(** The head of [create_flow_run]: the flow and the version that will run. *)
Definition select_version (tenant : uuid) (q : FlowRunCreate) : res exc (uuid * uuid) :=
  raise_if (bool_decide (fc_flow q = None /\ fc_version q = None))
    (DomainValidationException "flow_id_or_flow_version_id_required") ;;!
  let! flow := match fc_version q with
               | None => Ok (fc_flow q)
               | Some v =>
                   match get_flow_version v with
                   | None => Err (NotFoundServiceException "flow_version_not_found")
                   | Some r => if String.eqb (fv_status r) "PUBLISHED" then Ok (Some (fv_flow r))
                               else Err (ResourceBlockedServiceException "flow_version_not_published")
                   end
               end in
  match flow with
  | None => Err (DomainValidationException "flow_id_required")
  | Some flow =>
      raise_if (String.eqb (py_strip (fc_user q)) "") (DomainValidationException "user_id_required") ;;!
      raise_if (negb (bool_decide (flow_tenant flow = Some tenant))) (NotFoundServiceException "flow_not_found") ;;!
      match get_active_flow_version_id flow with
      | None => Err (ResourceBlockedServiceException "flow_not_active")
      | Some active =>
          raise_if match fc_version q with Some v => negb (bool_decide (v = active)) | None => false end
            (ResourceBlockedServiceException "flow_version_not_active") ;;!
          Ok (flow, active)
      end
  end.

(** The session of a run: a new one, or the caller's own. *)
Definition ensure_session (tenant session : uuid) (user : string) : M (flows W) unit :=
  let* s := mget in
  match fs_sessions s !! session with
  | None => create_session session tenant user
  | Some (t, u) => if bool_decide (t = tenant /\ u = user) then mret tt
                   else mraise (DomainConflictException "session_user_mismatch")
  end.

(** What a run takes over from a waiting run. *)
Record inherited : Type := {
  ih_origin : option uuid;
  ih_start : option string;
  ih_state : pydict;
  ih_memory : list pyval;
}.
Definition nothing_inherited : inherited := {| ih_origin := None; ih_start := None; ih_state := []; ih_memory := [] |}.

(** [snapshot.resume_to_node_id or snapshot.current_node_id]. *)
Definition resume_node (ss : GraphStateSnapshot) : option string :=
  match nonempty (ss_resume ss) with Some n => Some n | None => ss_current ss end.

(** [_GraphStateSnapshot.model_validate(state or {})]. *)
Definition read_snapshot (v : pyval) : res exc GraphStateSnapshot :=
  match snapshot_validate (or_empty v) with
  | Ok ss => Ok ss
  | Err PydanticValidationError => Err (DomainValidationException "invalid_graph_state")
  | Err e => Err e
  end.

(** The origin of a new run: the one the caller names, or the latest waiting run of the same
    session, correlation, version and user. *)
Definition resolve_origin (q : FlowRunCreate) (correlation version : uuid) : M (flows W) inherited :=
  let* s := mget in
  let candidate := match fc_origin q, fc_correlation q with
                   | Some o, _ => Some o
                   | None, Some c => get_latest_waiting_flow_run_id (fc_session q) c version (fc_user q) (db (fs_env s))
                   | None, None => None
                   end in
  match candidate with
  | None => mret nothing_inherited
  | Some o =>
      acquire_flow_run_lock o ;;*
      let* found := table (Store.get_flow_run o) in
      match found with
      | Some r =>
          if is_waiting r then
            let* g := table (Store.get_graph_state o) in
            match g with
            | Some g => let* ss := mlift (read_snapshot (gs_state g)) in
                        mret {| ih_origin := Some o; ih_start := resume_node ss; ih_state := ss_state ss; ih_memory := ss_memory ss |}
            | None => mret nothing_inherited
            end
          else mret nothing_inherited
      | None => mret nothing_inherited
      end
  end.

Definition opt_uuid (u : option uuid) : pyval := match u with Some u => PStr (uuid_str u) | None => PNone end.
Definition opt_hash (h : option string) : pyval := match h with Some h => PStr h | None => PNone end.

(** [UUID(value)] of a JSON value. *)
Definition uuid_of (v : pyval) : res exc uuid :=
  match v with
  | PStr s => match uuid_parse s with Some u => Ok u | None => Err PyValueError end
  | _ => Err PyAttributeError
  end.

(** The graph and the policy of a run, and its runtime contract. *)
Definition resolve_contract (tenant flow version : uuid) : res exc (graph_snapshot * pydict * pydict) :=
  let deployment := get_active_flow_deployment flow in
  let snapshot := match deployment ≫= (fun d => get_flow_snapshot_by_id d.2) with
                  | Some s => Some s
                  | None => get_flow_snapshot_by_flow_version version
                  end in
  let! parts :=
    match snapshot with
    | Some s =>
        let ref := dict_getv "flow_graph_snapshot_id" (fsn_snapshot s) in
        let! graph := (if truthy ref then let! u := uuid_of ref in Ok (get_flow_graph_snapshot u)
                       else Ok (get_flow_graph_snapshot_by_flow_version version)) in
        let! policy := policy_validate (fsn_policy s) in
        let hash := dict_getv "graph_hash" (fsn_snapshot s) in
        Ok (graph, policy, if truthy hash then str_of py_str hash else hash_dict (fsn_snapshot s),
            hash_dict (fsn_policy s), hash_dict (fsn_tools s), fsn_llm_hash s)
    | None =>
        raise_if (negb legacy_contract) (ResourceBlockedServiceException "flow_snapshot_required") ;;!
        match get_flow_graph_snapshot_by_flow_version version with
        | None => Err (ResourceBlockedServiceException "flow_graph_snapshot_missing")
        | Some g =>
            let! policy := resolve_policy tenant flow in
            let policy_hash := hash_dict policy in
            Ok (Some g, policy, gsn_hash g, policy_hash,
                hash_dict [("graph", PStr (gsn_hash g)); ("runtime_policy", PStr policy_hash)], None)
        end
    end in
  let '(graph, policy, plan_hash, policy_hash, tool_hash, llm_hash) := parts in
  match graph with
  | None => Err (ResourceBlockedServiceException "flow_graph_snapshot_missing")
  | Some g =>
      Ok (g, policy,
          [("flow_version_id", PStr (uuid_str version)); ("flow_graph_snapshot_id", PStr (uuid_str (gsn_id g)));
           ("flow_snapshot_id", opt_uuid (fsn_id <$> snapshot)); ("flow_deployment_id", opt_uuid (fst <$> deployment));
           ("execution_plan_hash", PStr plan_hash); ("runtime_policy_hash", PStr policy_hash);
           ("tool_catalog_hash", PStr tool_hash); ("llm_provider_config_hash", opt_hash llm_hash)])
  end.

(** The plan of a graph, compiled once per hash. *)
Definition plan_of (g : graph_snapshot) : M (flows W) ExecutionPlan :=
  let* s := mget in
  match fs_plans s !! gsn_hash g with
  | Some plan => mret plan
  | None =>
      let* plan := mlift (compile (gsn_graph g) (gsn_hash g) (Some [])) in
      mmodify (fun s => set_plans (<[gsn_hash g := plan]> (fs_plans s)) s) ;;*
      mret plan
  end.

(** [hook.on_flow_start]. *)
Definition on_flow_start (tenant session f correlation : uuid) (user : string) (payload : pydict) : M (flows W) unit :=
  table (mtry (append_execution_event batch_size (Some f) {|
           ed_tenant := tenant; ed_user := Some user; ed_session := session; ed_type := "FlowStarted";
           ed_payload := PDict payload; ed_correlation := correlation; ed_node := None; ed_edge := None |} ;;* mret tt)
         (fun _ => mret tt)).

(** [RunStatus(value)] and [FlowRunStatus(value)]. *)
Definition run_status_of (v : string) : res exc RunStatus :=
  match find (fun r => String.eqb (run_status_str r) v) all_run_statuses with Some r => Ok r | None => Err PyValueError end.
Definition all_flow_statuses : list FlowRunStatus :=
  [FR_CREATED; FR_RUNNING; FR_WAITING; FR_COMPLETED; FR_FAILED; FR_ESCALATED].
Definition flow_status_of (v : string) : res exc FlowRunStatus :=
  match find (fun r => String.eqb (flow_status_str r) v) all_flow_statuses with Some r => Ok r | None => Err PyValueError end.

(** [_merge_flow_run_result]. *)
Definition _merge_flow_run_result (v : FlowRun) (row : option flow_run) : res exc FlowRun :=
  match row with
  | None => Ok v
  | Some r =>
      let! st := run_status_of (fr_status r) in
      let! ca := flow_status_of (fr_canonical r) in
      Ok {| vw_id := vw_id v; vw_origin := vw_origin v; vw_version := vw_version v; vw_session := vw_session v;
            vw_user := vw_user v; vw_interaction := vw_interaction v; vw_status := run_status_str st;
            vw_canonical := flow_status_str ca; vw_correlation := vw_correlation v; vw_finished := fr_finished r;
            vw_input := vw_input v; vw_output := or_empty (fr_output r); vw_error := or_empty (fr_error r);
            vw_contract := vw_contract v; vw_workflow := fr_workflow r |}
  end.

(** [FlowRun.from_model]. *)
Definition from_model (f : uuid) (r : flow_run) (o : option run_origin) : FlowRun := {|
  vw_id := f; vw_origin := o ≫= ro_origin; vw_version := fr_version r; vw_session := fr_session r; vw_user := fr_user r;
  vw_interaction := fr_interaction r; vw_status := fr_status r; vw_canonical := fr_canonical r;
  vw_correlation := fr_correlation r; vw_finished := fr_finished r; vw_input := or_empty (fr_input r);
  vw_output := or_empty (fr_output r); vw_error := or_empty (fr_error r);
  vw_contract := default [] (ro_contract <$> o); vw_workflow := fr_workflow r |}.

(** [_dispatch_flow_run] with its wait. *)
Definition dispatch_turn (f : uuid) (turn_index : Z) (wait : bool) : M (flows W) unit :=
  workflows (Dispatch._dispatch_flow_run uuid_str int_str run_id has_engine f turn_index) ;;*
  if wait then await_turn f else mret tt.

(** [runtime.run] on the run's arguments. *)
Definition runtime_run (plan : ExecutionPlan) (a : run_args) : M (flows W) unit :=
  engine (Executor.run uuid_parse uuid_str construct execute dump_result same use_hook traced batch_size int_of_string
            py_str plan a).

(** [UUID(trace_id)], or a new identifier. *)
Definition trace_of (trace : option string) : M (flows W) uuid :=
  match trace with
  | None => table uuid4
  | Some t => match uuid_parse t with Some u => mret u | None => mraise (DomainValidationException "invalid_trace_id") end
  end.

(** A run that was created: what the rest of the call needs. *)
Record started : Type := {
  st_run : uuid;
  st_tenant : uuid;
  st_input : option FlowRunInput;
  st_inherited : inherited;
  st_graph : graph_snapshot;
  st_policy : pydict;
  st_response : FlowRun;
}.

(** [create_flow_run] from the acquired key to the started event. *)
Definition start_run (tenant flow version : uuid) (channel : string) (trace : option string) (q : FlowRunCreate) :
    M (flows W) started :=
  let* trace_uuid := trace_of trace in
  ensure_session tenant (fc_session q) (fc_user q) ;;*
  let* input := _normalize_flow_run_input tenant q in
  let* i := table (create_interaction (fc_metadata q)) in
  let* correlation := match fc_correlation q with Some c => mret c | None => table uuid4 end in
  let* ih := resolve_origin q correlation version in
  let* contract := mlift (resolve_contract tenant flow version) in
  let '(g, policy, contract) := contract in
  let* f := insert_flow_run (fc_session q) version correlation (ih_origin ih) (fc_user q) input i (gsn_id g) contract in
  table (link_interaction_to_flow_run i f) ;;*
  table (start_event_batching f) ;;*
  on_flow_start tenant (fc_session q) f correlation (fc_user q)
    [("interaction_id", PStr (uuid_str i)); ("channel", PStr channel); ("trace_id", PStr (uuid_str trace_uuid));
     ("user_id", PStr (fc_user q))] ;;*
  mret {| st_run := f; st_tenant := tenant; st_input := input; st_inherited := ih; st_graph := g; st_policy := policy;
          st_response := {| vw_id := f; vw_origin := ih_origin ih; vw_version := version; vw_session := fc_session q;
                            vw_user := fc_user q; vw_interaction := Some i; vw_status := run_status_str RS_CREATED;
                            vw_canonical := flow_status_str FR_CREATED; vw_correlation := correlation;
                            vw_finished := false; vw_input := from_option input_dump (PDict []) input;
                            vw_output := PDict []; vw_error := PDict []; vw_contract := contract; vw_workflow := None |} |}.

(** The arguments of the executor for a new run. *)
Definition new_run_args (st : started) : run_args :=
  let v := st_response st in {|
  ra_tenant := st_tenant st; ra_session := vw_session v; ra_input := from_option input_dump PNone (st_input st);
  ra_flow_run := st_run st; ra_correlation := vw_correlation v; ra_user := Some (vw_user v);
  ra_start := ih_start (st_inherited st); ra_state := ih_state (st_inherited st); ra_memory := ih_memory (st_inherited st);
  ra_policy := st_policy st |}.

(** The rest of [create_flow_run]: hand the run to the workflow engine, or run it here. *)
Definition run_started (wait : bool) (st : started) : M (flows W) FlowRun :=
  if temporal_enabled then
    dispatch_turn (st_run st) 0 wait ;;*
    let* row := table (Store.get_flow_run (st_run st)) in
    mlift (_merge_flow_run_result (st_response st) row)
  else
    let* plan := plan_of (st_graph st) in
    let* row := mfinally (runtime_run plan (new_run_args st) ;;* table (Store.get_flow_run (st_run st)))
                  (table (end_event_batching (st_run st))) in
    mlift (_merge_flow_run_result (st_response st) row).

(** [get_flow_context]: the run is read again. *)
Definition flow_context (f : uuid) : M (flows W) (uuid * uuid) :=
  let* r := table (Store.get_flow_run f) in
  match r with
  | None => mraise (NotFoundServiceException "flow_run_not_found")
  | Some r =>
      let* s := mget in
      match fs_sessions s !! fr_session r with
      | None => mraise (NotFoundServiceException "session_not_found")
      | Some (t, _) => mret (fr_session r, t)
      end
  end.

(** The graph and the policy of a run that is resumed, from its runtime contract. *)
Definition resume_contract (tenant flow version : uuid) (contract : pydict) : res exc (graph_snapshot * pydict) :=
  let ref := dict_getv "flow_snapshot_id" contract in
  let! found := (if truthy ref then
                   match uuid_parse (str_of py_str ref) with
                   | Some u => Ok (get_flow_snapshot_by_id u)
                   | None => Err PyValueError
                   end
                 else Ok None) in
  let! parts := match found with
                | None => let! p := resolve_policy tenant flow in Ok (None, p)
                | Some s =>
                    let gref := dict_getv "flow_graph_snapshot_id" (fsn_snapshot s) in
                    let! g := (if truthy gref then
                                 match uuid_parse (str_of py_str gref) with
                                 | Some u => Ok (get_flow_graph_snapshot u)
                                 | None => Err PyValueError
                                 end
                               else Ok None) in
                    let! p := policy_validate (fsn_policy s) in Ok (g, p)
                end in
  match (match parts.1 with Some g => Some g | None => get_flow_graph_snapshot_by_flow_version version end) with
  | None => Err (NotFoundServiceException "flow_graph_snapshot_not_found")
  | Some g => Ok (g, parts.2)
  end.

(** [resume_flow_run]: the response is read from the row the run has left. *)
Definition resumed_view (f : uuid) : M (flows W) FlowRun :=
  let* row := table (Store.get_flow_run f) in
  match row with
  | None => mraise (NotFoundServiceException "flow_run_not_found")
  | Some r => let* s := mget in mret (from_model f r (fs_origins s !! f))
  end.

(** [UUID(trace_id) if trace_id else ...]. *)
Definition resume_trace (trace : option string) : M (flows W) unit :=
  match nonempty trace with
  | None => mret tt
  | Some t => match uuid_parse t with Some _ => mret tt | None => mraise PyValueError end
  end.

(** The turn of a resumed run. *)
Definition resume_turn (f tenant session : uuid) (user : string) (r : flow_run) (input : option string)
    (policy : pydict) (plan : ExecutionPlan) (ss : GraphStateSnapshot) : M (flows W) FlowRun :=
  if temporal_enabled then
    table (set_flow_run_input f (input_dump {| user_input := input |})) ;;*
    let* turn := table (next_flow_run_turn_index f) in
    dispatch_turn f turn true ;;*
    resumed_view f
  else
    table (start_event_batching f) ;;*
    mfinally
      (runtime_run plan {|
         ra_tenant := tenant; ra_session := session; ra_input := input_dump {| user_input := input |};
         ra_flow_run := f; ra_correlation := fr_correlation r; ra_user := Some user; ra_start := resume_node ss;
         ra_state := ss_state ss; ra_memory := ss_memory ss; ra_policy := policy |} ;;*
       resumed_view f)
      (table (end_event_batching f)).

Definition resume_flow_run (f : uuid) (q : option FlowRunResumeInput) (trace : option string) : M (flows W) FlowRun :=
  match q with
  | None => mraise (DomainValidationException "user_id_required")
  | Some q =>
      let* found := table (Store.get_flow_run f) in
      match found with
      | None => mraise (NotFoundServiceException "flow_run_not_found")
      | Some r =>
          if negb (String.eqb (fr_user r) (ri_user q)) then mraise (DomainConflictException "session_user_mismatch")
          else
            let* ctx := flow_context f in
            let* input := _normalize_resume_input ctx.2 q in
            let* g := table (Store.get_graph_state f) in
            match g with
            | None => mraise (NotFoundServiceException "graph_state_not_found")
            | Some gs =>
                match get_flow_version (fr_version r) with
                | None => mraise (NotFoundServiceException "flow_version_not_found")
                | Some fv =>
                    let* s := mget in
                    let* gp := mlift (resume_contract ctx.2 (fv_flow fv) (fr_version r)
                                        (default [] (ro_contract <$> fs_origins s !! f))) in
                    let* plan := plan_of gp.1 in
                    let* i := table (create_interaction []) in
                    table (link_interaction_to_flow_run i f) ;;*
                    resume_trace trace ;;*
                    table (set_flow_run_status f (run_status_str RS_RUNNING) (flow_status_str FR_RUNNING)) ;;*
                    let* ss := mlift (read_snapshot (gs_state gs)) in
                    resume_turn f ctx.2 ctx.1 (ri_user q) r input gp.2 plan ss
                end
            end
      end
  end.

(** ** Idempotency *)

Variable silent_mode : bool.
Variable idempotency_ttl : Z.
(** [model_dump] and [model_validate] of a response. *)
Variable dump_flow_run : FlowRun -> pyval.
Variable load_flow_run : pyval -> res exc FlowRun.

(** [create_flow_run]; the run takes [d] seconds. *)
Definition create_flow_run (d : Z) (tenant : uuid) (endpoint idempotency_key channel : string) (trace : option string)
    (wait : bool) (q : FlowRunCreate) : M (redis * flows W) FlowRun :=
  let* selected := mlift (select_version tenant q) in
  let key := build_key (uuid_str tenant) endpoint idempotency_key in
  idempotent_call silent_mode idempotency_ttl key
    (fun v => PDict [("flow_run_id", PStr (uuid_str (vw_id v))); ("response", dump_flow_run v)]) load_flow_run
    (on_world d (let* st := start_run tenant selected.1 selected.2 channel trace q in run_started wait st)).
End service.

(** ** What the calls leave alone *)

Lemma finally_ok {S A} (m : M S A) fin s a s' :
  mfinally m fin s = (Ok a, s') -> exists s1, m s = (Ok a, s1) /\ fin s1 = (Ok tt, s').
Proof. unfold mfinally. destruct (m s) as [x s1]. destruct (fin s1) as [[[]|e] s2] eqn:E; [|done]. intros [= -> <-]. eauto. Qed.

Lemma finally_runs {S A} (m : M S A) fin s : exists s1, (mfinally m fin s).2 = (fin s1).2.
Proof. unfold mfinally. destruct (m s) as [x s1]. exists s1. by destruct (fin s1) as [[[]|e] s2]. Qed.

Lemma on_redis_world {V A} (m : M redis A) y (z : V) r y' z' : on_redis m (y, z) = (r, (y', z')) -> z' = z.
Proof. unfold on_redis. simpl. destruct (m y). by intros [= _ _ <-]. Qed.

Section frame.
Context {W : Type}.
Implicit Types s : flows W.

Definition runs s : gmap uuid flow_run := flow_runs (db (fs_env s)).

(** Neither flow runs nor sessions change. *)
Definition calm s s' : Prop :=
  runs s' = runs s /\ fs_sessions s' = fs_sessions s /\ fs_origins s' = fs_origins s.

#[export] Instance calm_preorder : PreOrder calm.
Proof. split; [done|]. intros a b c (H1 & H2 & H3) (H4 & H5 & H6). split_and!; congruence. Qed.

Lemma calm_modify (f : flows W -> flows W) :
  (forall s, runs (f s) = runs s) -> (forall s, fs_sessions (f s) = fs_sessions s) ->
  (forall s, fs_origins (f s) = fs_origins s) -> respects calm (mmodify f).
Proof. intros H1 H2 H3 s. split_and!; [apply H1 | apply H2 | apply H3]. Qed.

Lemma calm_table {A} (m : M store A) : (forall x, flow_runs (m x).2 = flow_runs x) -> respects calm (table (W := W) m).
Proof. intros H s. unfold table, engine, repo. specialize (H (db (fs_env s))). by destruct (m _). Qed.

Lemma calm_outside {A} (f : W -> res exc A * W) : respects calm (outside_call f).
Proof. intros s. unfold outside_call, engine. by destruct (f _). Qed.

Lemma calm_uuid4 : respects calm (table (W := W) uuid4).
Proof. by apply calm_table. Qed.

Lemma calm_interaction md : respects calm (table (W := W) (create_interaction md)).
Proof. by apply calm_table. Qed.

Lemma calm_get_run f : respects calm (table (W := W) (Store.get_flow_run f)).
Proof. by apply calm_table. Qed.

Lemma calm_graph_state f : respects calm (table (W := W) (Store.get_graph_state f)).
Proof.
  apply calm_table. intros s. unfold get_graph_state, mbind_, mget, mmodify, mret. simpl.
  by destruct (state_cache s !! f), (graph_states s !! f).
Qed.

Lemma calm_batching f : respects calm (table (W := W) (start_event_batching f)).
Proof. apply calm_table. intros s. unfold start_event_batching. simpl. by destruct (event_buffer s !! f). Qed.

Lemma calm_end f : respects calm (table (W := W) (end_event_batching f)).
Proof.
  apply calm_table. intros s. unfold end_event_batching, flush_execution_events.
  unfold mbind_ at 1, mget. unfold mbind_ at 1, mmodify. by rewrite (persist_frame flow_runs).
Qed.

Lemma calm_lock f : respects calm (acquire_flow_run_lock (W := W) f).
Proof. by apply calm_modify. Qed.

Lemma calm_event bs tenant session f c user p : respects calm (on_flow_start (W := W) bs tenant session f c user p).
Proof.
  apply calm_table. intros s. unfold mtry. unfold mbind_ at 1.
  match goal with |- context [append_execution_event ?bs ?f ?d s] =>
    pose proof (append_frame flow_runs bs f d s) as H; destruct (append_execution_event bs f d s) as [[]] end; exact H.
Qed.
(** No events are held back for the run. *)
Definition closed (f : uuid) s : Prop :=
  (f ∉ batching (db (fs_env s))) /\ event_buffer (db (fs_env s)) !! f = None.

Lemma persist_buffers f evs (x : store) :
  batching (_persist_execution_events_batch f evs x).2 = batching x /\
  event_buffer (_persist_execution_events_batch f evs x).2 = event_buffer x.
Proof. destruct evs as [|[i d] evs]; [done|]. unfold _persist_execution_events_batch, mbind_, mget. by destruct (resolve_user _ _ _). Qed.

Lemma end_closes f s : closed f (table (W := W) (end_event_batching f) s).2.
Proof.
  unfold closed, table, engine, repo.
  set (x := end_event_batching f (db (fs_env s))).
  enough (H : (f ∉ batching x.2) /\ event_buffer x.2 !! f = None) by (by destruct x).
  subst x. unfold end_event_batching, flush_execution_events, mget, mmodify, mbind_. simpl.
  rewrite (proj1 (persist_buffers _ _ _)), (proj2 (persist_buffers _ _ _)). simpl.
  split; [set_solver | apply lookup_delete_eq].
Qed.
End frame.

#[export] Hint Resolve calm_modify calm_outside calm_uuid4 calm_interaction calm_get_run calm_graph_state calm_batching
  calm_end calm_lock calm_event : frame.


(** ** A new run *)

Section new_run.
Context {W : Type}.
Variable uuid_parse : string -> option uuid.
Variable uuid_str : uuid -> string.
Variable construct : NodeType -> res exc unit.
Variable execute : NodeType -> ExecutionContext -> pyval -> M (@env W) NodeResult.
Variable dump_result : NodeResult -> pyval.
Variable same : pyval -> pyval -> bool.
Variable use_hook traced : bool.
Variable batch_size : nat.
Variable int_of_string : string -> option Z.
Variable int_str : Z -> string.
Variable py_str : pyval -> string.
Variable get_active_flow_deployment : uuid -> option (uuid * uuid).
Variable get_flow_snapshot_by_id get_flow_snapshot_by_flow_version : uuid -> option flow_snapshot.
Variable get_flow_graph_snapshot get_flow_graph_snapshot_by_flow_version : uuid -> option graph_snapshot.
Variable policy_validate : pydict -> res exc pydict.
Variable resolve_policy : uuid -> uuid -> res exc pydict.
Variable hash_dict : pydict -> string.
Variable normalize : option (uuid -> option string -> list pyval -> W -> res exc (option string) * W).
Variable legacy_contract has_engine : bool.
Variable run_id : string -> string.
Variable await_turn : uuid -> M (flows W) unit.
Context `{Laws : !ExecutorLaws execute}.
Implicit Types s : flows W.

Abbreviation start_run_ := (start_run uuid_parse uuid_str batch_size py_str get_active_flow_deployment
  get_flow_snapshot_by_id get_flow_snapshot_by_flow_version get_flow_graph_snapshot get_flow_graph_snapshot_by_flow_version
  policy_validate resolve_policy hash_dict normalize legacy_contract).
Abbreviation run_started_ temporal := (run_started uuid_parse uuid_str construct execute dump_result same use_hook traced
  batch_size int_of_string int_str py_str temporal has_engine run_id await_turn).

Lemma calm_trace t : respects calm (trace_of (W := W) uuid_parse t).
Proof. unfold trace_of. destruct t as [t|]; [|frame]. destruct (uuid_parse t); frame. Qed.

Lemma calm_normalize tenant q : respects calm (_normalize_flow_run_input normalize tenant q).
Proof. unfold _normalize_flow_run_input. destruct (fc_parts q); [frame|]. destruct normalize; frame. Qed.

Lemma calm_origin q c v : respects calm (resolve_origin (W := W) q c v).
Proof.
  unfold resolve_origin. apply respects_bind; [apply _ | frame | intros s].
  match goal with |- context [match ?x with Some _ => _ | None => mret nothing_inherited end] => destruct x as [o|] end; [|frame].
  apply respects_bind; [apply _ | frame | intros _]. apply respects_bind; [apply _ | frame | intros [r|]]; [|frame].
  destruct (is_waiting r); [|frame]. apply respects_bind; [apply _ | frame | intros [g|]]; frame.
Qed.

Lemma calm_plan g : respects calm (plan_of (W := W) g).
Proof.
  unfold plan_of. apply respects_bind; [apply _ | frame | intros s]. destruct (fs_plans s !! gsn_hash g); [frame|].
  apply respects_bind; [apply _ | frame | intros p]. apply respects_bind; [apply _ | | frame]. by apply calm_modify.
Qed.

(** The session of the request, afterwards. *)
Lemma ensure_session_ok tenant session user s s' :
  ensure_session tenant session user s = (Ok tt, s') ->
  runs s' = runs s /\ fs_sessions s' !! session = Some (tenant, user).
Proof.
  unfold ensure_session. unfold mbind_ at 1, mget. destruct (fs_sessions s !! session) as [[t u]|] eqn:E.
  - case_bool_decide as H; [|done]. destruct H as [-> ->]. by intros [= <-].
  - unfold create_session. unfold mbind_ at 1, mget. rewrite E. intros [= <-]. simpl. by rewrite lookup_insert_eq.
Qed.

(** The row of a run that has just been created. *)
Record created (q : FlowRunCreate) (version : uuid) (r : flow_run) : Prop := {
  cr_session : fr_session r = fc_session q;
  cr_version : fr_version r = version;
  cr_user : fr_user r = fc_user q;
  cr_status : fr_status r = "CREATED" /\ fr_canonical r = "CREATED" /\ fr_finished r = false;
  cr_blank : fr_output r = PDict [] /\ fr_error r = PDict [] /\ fr_workflow r = None;
}.

Definition with_interaction (i : uuid) (r : flow_run) : flow_run := {|
  fr_session := fr_session r; fr_version := fr_version r; fr_correlation := fr_correlation r; fr_snapshot := fr_snapshot r;
  fr_user := fr_user r; fr_status := fr_status r; fr_canonical := fr_canonical r; fr_input := fr_input r;
  fr_output := fr_output r; fr_error := fr_error r; fr_finished := fr_finished r; fr_interaction := Some i;
  fr_turn_index := fr_turn_index r; fr_workflow := fr_workflow r |}.

Lemma insert_ok session version correlation origin user input i snapshot contract s f s' :
  insert_flow_run session version correlation origin user input i snapshot contract s = (Ok f, s') ->
  exists x r, input = Some x /\ runs s' = <[f := r]> (runs s) /\ fs_sessions s' = fs_sessions s /\
    fs_origins s' !! f = Some {| ro_origin := origin; ro_contract := contract |} /\
    r = {| fr_session := session; fr_version := version; fr_correlation := correlation; fr_snapshot := Some snapshot;
           fr_user := user; fr_status := "CREATED"; fr_canonical := "CREATED"; fr_input := input_dump x;
           fr_output := PDict []; fr_error := PDict []; fr_finished := false; fr_interaction := Some i;
           fr_turn_index := 0; fr_workflow := None |}.
Proof.
  unfold insert_flow_run. destruct input as [x|]; [|by intros (? & ? & ? & ?)%mbind_ok].
  unfold Store.create_flow_run, table, engine, repo, mbind_, mmodify, mret, uuid4. intros [= <- <-].
  eexists x, _. split_and!; [done | | done | | done]; simpl; [done|]. apply lookup_insert_eq.
Qed.

Lemma link_ok i f s s' :
  table (link_interaction_to_flow_run i f) s = (Ok tt, s') ->
  fs_sessions s' = fs_sessions s /\ fs_origins s' = fs_origins s /\ runs s' = alter (with_interaction i) f (runs s).
Proof.
  unfold table, engine, repo, link_interaction_to_flow_run. unfold mbind_ at 1, mget.
  destruct (interactions (db (fs_env s)) !! i) as [x|] eqn:E; [|done].
  unfold mbind_, mmodify, update_flow_run. by intros [= <-].
Qed.

Lemma batching_on f s s' : table (start_event_batching f) s = (Ok tt, s') -> f ∈ batching (db (fs_env s')).
Proof.
  unfold table, engine, repo, start_event_batching, mmodify. intros [= <-]. simpl.
  destruct (event_buffer (db (fs_env s)) !! f); simpl; set_solver.
Qed.

(** The start of a request: one new row, in the caller's session, shown by the response. *)
Lemma start_run_ok tenant flow version channel trace q s st s' :
  start_run_ tenant flow version channel trace q s = (Ok st, s') ->
  exists r, created q version r /\ runs s' = <[st_run st := r]> (runs s) /\
    fs_sessions s' !! fc_session q = Some (tenant, fc_user q) /\
    st_response st = from_model (st_run st) r (fs_origins s' !! st_run st).
Proof.
  unfold start_run. intros (tu & s1 & H1 & H)%mbind_ok. apply (respects_run calm) in H1 as (R1 & _); [|apply calm_trace].
  apply mbind_ok in H as ([] & s2 & [R2 S2]%ensure_session_ok & H).
  apply mbind_ok in H as (input & s3 & H3 & H). apply (respects_run calm) in H3 as (R3 & S3 & _); [|apply calm_normalize].
  apply mbind_ok in H as (i & s4 & H4 & H). apply (respects_run calm) in H4 as (R4 & S4 & _); [|frame].
  apply mbind_ok in H as (c & s5 & H5 & H).
  apply (respects_run calm) in H5 as (R5 & S5 & _); [|destruct (fc_correlation q); frame].
  apply mbind_ok in H as (ih & s6 & H6 & H). apply (respects_run calm) in H6 as (R6 & S6 & _); [|apply calm_origin].
  apply mbind_ok in H as ([[g policy] contract] & s7 & H7 & H). apply (respects_run calm) in H7 as (R7 & S7 & _); [|frame].
  apply mbind_ok in H as (f & s8 & (x & r & -> & R8 & S8 & O8 & ->)%insert_ok & H).
  apply mbind_ok in H as ([] & s9 & (S9 & O9 & R9)%link_ok & H).
  apply mbind_ok in H as ([] & s10 & H10 & H). apply (respects_run calm) in H10 as (R10 & S10 & O10); [|frame].
  apply mbind_ok in H as ([] & s11 & H11 & H). apply (respects_run calm) in H11 as (R11 & S11 & O11); [|frame].
  injection H as <- <-. simpl. eexists. split; [|split_and!].
  2: { rewrite R11, R10, R9, R8. rewrite R7, R6, R5, R4, R3, R2, R1. apply map_eq. intros k.
       destruct (decide (k = f)) as [->|]; [by rewrite lookup_alter_eq, !lookup_insert_eq|].
       by rewrite lookup_alter_ne, !lookup_insert_ne. }
  - by split.
  - congruence.
  - rewrite O11, O10, O9, O8. done.
Qed.

(** The response after the run is the view of the row it has left. *)
Lemma merge_result f r r' o v :
  flow_result r r' -> _merge_flow_run_result (from_model f r o) (Some r') = Ok v -> v = from_model f r' o.
Proof. by intros [] [= <-]. Qed.

Lemma runtime_run_ok plan a s s' :
  runtime_run uuid_parse uuid_str construct execute dump_result same use_hook traced batch_size int_of_string py_str plan a s
    = (Ok tt, s') ->
  fs_sessions s' = fs_sessions s /\ fs_origins s' = fs_origins s /\
  exists g, runs s' = alter g (ra_flow_run a) (runs s) /\ forall r, flow_result r (g r).
Proof using Laws.
  unfold runtime_run, engine. destruct (Executor.run _ _ _ _ _ _ _ _ _ _ _ _ _ (fs_env s)) as [x e] eqn:E. intros [= -> <-].
  split_and!; [done..|]. unfold Executor.run in E. apply mbind_ok in E as (lim & e1 & H1 & E). injection H1 as _ <-.
  destruct (ra_user a) as [user|]; [|done]. apply mbind_ok in E as ([] & e2 & H2 & E). injection H2 as <-.
  apply traverse_ended in E as (g & Hg & Hr); [|done]. exists g. split; [exact Hg | exact Hr].
Qed.

(** A run in this process: its row has ended, the response shows it, its events are written. *)
Record settled (q : FlowRunCreate) (tenant version : uuid) (v : FlowRun) s s' : Prop := {
  se_row : exists r r', created q version r /\ flow_result r r' /\ runs s' = <[vw_id v := r']> (runs s) /\
             v = from_model (vw_id v) r' (fs_origins s' !! vw_id v);
  se_session : fs_sessions s' !! fc_session q = Some (tenant, fc_user q);
  se_closed : closed (vw_id v) s';
}.

Lemma run_settles wait tenant flow version channel trace q s v s' :
  (let* st := start_run_ tenant flow version channel trace q in run_started_ false wait st) s = (Ok v, s') ->
  settled q tenant version v s s'.
Proof using Laws.
  intros (st & s1 & (r & Hr & R1 & S1 & V1)%start_run_ok & H)%mbind_ok. unfold run_started in H.
  apply mbind_ok in H as (plan & s2 & H2 & H). apply (respects_run calm) in H2 as (R2 & S2 & O2); [|apply calm_plan].
  apply mbind_ok in H as (row & s3 & (s4 & H4 & H3)%finally_ok & H). injection H as H <-.
  apply mbind_ok in H4 as ([] & s5 & (S5 & O5 & g & R5 & Hg)%runtime_run_ok & H4).
  assert (Hrow : row = runs s4 !! st_run st).
  { unfold table, engine, repo, Store.get_flow_run, mbind_, mget, mret in H4. by injection H4 as <- <-. }
  apply (respects_run calm) in H4 as (R4 & S4 & O4); [|frame].
  pose proof (end_closes (st_run st) s4) as Hc. rewrite H3 in Hc. simpl in Hc.
  apply (respects_run calm) in H3 as (R3 & S3 & O3); [|frame].
  assert (Hruns : runs s3 = <[st_run st := g r]> (runs s)).
  { rewrite R3, R4, R5, R2, R1. apply map_eq. intros k. simpl.
    destruct (decide (k = st_run st)) as [->|]; [by rewrite lookup_alter_eq, !lookup_insert_eq|].
    by rewrite lookup_alter_ne, !lookup_insert_ne. }
  assert (HO : fs_origins s3 = fs_origins s1) by congruence.
  rewrite Hrow, <- R3, Hruns, lookup_insert_eq, V1 in H. apply (merge_result _ _ _ _ _ (Hg r)) in H. subst v. simpl.
  split; [|congruence | exact Hc]. exists r, (g r). split_and!; [done | apply Hg | exact Hruns | by rewrite HO].
Qed.
Variable get_flow_version : uuid -> option flow_version.
Variable flow_tenant : uuid -> option uuid.
Variable get_active_flow_version_id : uuid -> option uuid.
Variable silent_mode : bool.
Variable ttl : Z.
Variable dump_flow_run : FlowRun -> pyval.
Variable load_flow_run : pyval -> res exc FlowRun.

Abbreviation select_ := (select_version get_flow_version flow_tenant get_active_flow_version_id).
Abbreviation create_ temporal := (create_flow_run uuid_parse uuid_str construct execute dump_result same use_hook traced
  batch_size int_of_string int_str py_str get_flow_version flow_tenant get_active_flow_version_id get_active_flow_deployment
  get_flow_snapshot_by_id get_flow_snapshot_by_flow_version get_flow_graph_snapshot get_flow_graph_snapshot_by_flow_version
  policy_validate resolve_policy hash_dict normalize temporal legacy_contract has_engine run_id await_turn silent_mode ttl
  dump_flow_run load_flow_run).

(** Only the active version of a flow of the tenant is selected. *)
Lemma select_version_ok tenant q flow version :
  select_ tenant q = Ok (flow, version) ->
  flow_tenant flow = Some tenant /\ get_active_flow_version_id flow = Some version /\
  (fc_version q = Some version \/ (fc_version q = None /\ fc_flow q = Some flow)) /\ py_strip (fc_user q) <> "".
Proof.
  unfold select_version, rbind, raise_if. case_bool_decide as H0; [done|].
  destruct (fc_version q) as [w|] eqn:Ev; simpl.
  - destruct (get_flow_version w) as [fv|]; [|done]. destruct (String.eqb (fv_status fv) "PUBLISHED"); [|done].
    destruct (String.eqb_spec (py_strip (fc_user q)) ""); [done|]. case_bool_decide as Ht; [|done]. simpl.
    destruct (get_active_flow_version_id (fv_flow fv)) as [a|] eqn:Ea; [|done]. case_bool_decide as Hw; [|done].
    subst w. intros [= <- <-]. naive_solver.
  - destruct (fc_flow q) as [x|]; [|done].
    destruct (String.eqb_spec (py_strip (fc_user q)) ""); [done|]. case_bool_decide as Ht; [|done]. simpl.
    destruct (get_active_flow_version_id x) as [a|] eqn:Ea; [|done]. intros [= <- <-]. naive_solver.
Qed.


(** [C39] Creating a flow run is idempotent while Redis can be reached.  The key of the tenant, the endpoint
    and the client is free when the first request arrives.  While that request is being handled, another one
    under the key is refused with a conflict; when it was answered, a request under the key, whatever it asks
    for, is answered with the stored response as long as the key lives; when it failed, such requests are
    refused until the key expires.  In all these cases the later request changes nothing of the flows, whatever
    happened to them in between.  A later request is one that passes the checks before the key: those need an
    active version and come first. *)
Theorem create_flow_run_idempotent temporal d d' d2 tenant endpoint ikey channel trace wait q x s sel
    channel' trace' wait' q' sel' :
  let key := build_key (uuid_str tenant) endpoint ikey in
  healthy x -> (0 < ttl)%Z -> rlookup x key = None -> (0 <= d)%Z -> (0 <= d' < ttl)%Z ->
  select_ tenant q = Ok sel -> select_ tenant q' = Ok sel' ->
  let later y s2 := create_ temporal d2 tenant endpoint ikey channel' trace' wait' q' (tick d' y, s2) in
  (forall x1, try_acquire silent_mode ttl key x = (Ok true, x1) ->
     forall s2, exists y, later x1 s2 = (Err (IdempotencyInProgressException ""), (y, s2))) /\
  match create_ temporal d tenant endpoint ikey channel trace wait q (x, s) with
  | (Ok v, (x1, _)) => forall s2, exists y, later x1 s2 = (load_flow_run (dump_flow_run v), (y, s2))
  | (Err e, (x1, _)) => (d + d' < ttl)%Z -> forall s2, exists y, later x1 s2 = (Err (IdempotencyInProgressException ""), (y, s2))
  end.
Proof.
  intros key Hh Httl Hfree Hd Hd' Hsel Hsel' later. set (pack := fun v : FlowRun => PDict
    [("flow_run_id", PStr (uuid_str (vw_id v))); ("response", dump_flow_run v)]).
  set (body := let* st := start_run_ tenant sel.1 sel.2 channel trace q in run_started_ temporal wait st).
  set (body' := on_world d2 (let* st := start_run_ tenant sel'.1 sel'.2 channel' trace' q' in run_started_ temporal wait' st)).
  assert (Hlater : forall y s2, later y s2 = idempotent_call silent_mode ttl key pack load_flow_run body' (tick d' y, s2)).
  { intros y s2. unfold later, create_flow_run. by rewrite Hsel'. }
  destruct (idempotent_requests silent_mode ttl Httl key d d' pack dump_flow_run load_flow_run body body' x s Hh Hfree Hd Hd'
    ltac:(done)) as [H1 H2]. split; [intros x1 Hx s2; rewrite Hlater; by apply H1|].
  assert (Hfirst : create_ temporal d tenant endpoint ikey channel trace wait q (x, s) =
    idempotent_call silent_mode ttl key pack load_flow_run (on_world d body) (x, s)).
  { unfold create_flow_run. by rewrite Hsel. }
  rewrite Hfirst. destruct (body s) as [[v|e] w1]; destruct H2 as (s1 & -> & H3).
  - intros s2. rewrite Hlater. apply H3.
  - intros Hdd s2. rewrite Hlater. by apply H3.
Qed.

(** *** Resuming *)

Abbreviation resume_ temporal := (resume_flow_run uuid_parse uuid_str construct execute dump_result same use_hook traced
  batch_size int_of_string int_str py_str get_flow_version get_flow_snapshot_by_id get_flow_graph_snapshot
  get_flow_graph_snapshot_by_flow_version policy_validate resolve_policy normalize temporal has_engine run_id await_turn).

Lemma get_run_ok f s o s' : table (W := W) (Store.get_flow_run f) s = (Ok o, s') -> o = runs s !! f /\ calm s s'.
Proof.
  intros H. split; [|apply (respects_run calm) in H; [done | frame]].
  unfold table, engine, repo, Store.get_flow_run, mbind_, mget, mret in H. by injection H as <- <-.
Qed.

Lemma resumed_view_ok f s v s' :
  resumed_view f s = (Ok v, s') -> exists r, runs s !! f = Some r /\ v = from_model f r (fs_origins s !! f) /\ calm s s'.
Proof.
  unfold resumed_view. intros (o & s1 & [-> C]%get_run_ok & H)%mbind_ok.
  destruct (runs s !! f) as [r|]; [|done]. unfold mbind_, mget in H. injection H as <- <-.
  exists r. destruct C as (? & ? & O). split_and!; [done | by rewrite O | done].
Qed.

Lemma calm_context f : respects calm (flow_context (W := W) f).
Proof.
  unfold flow_context. apply respects_bind; [apply _ | frame | intros [r|]]; [|frame].
  apply respects_bind; [apply _ | frame | intros s]. destruct (fs_sessions s !! fr_session r) as [[]|]; frame.
Qed.

Lemma calm_resume_input tenant q : respects calm (_normalize_resume_input normalize tenant q).
Proof. unfold _normalize_resume_input. destruct (ri_parts q); [frame|]. destruct normalize; frame. Qed.

Lemma calm_resume_trace t : respects calm (resume_trace (W := W) uuid_parse t).
Proof. unfold resume_trace. destruct (nonempty t) as [x|]; [|frame]. destruct (uuid_parse x); frame. Qed.

(** The row a resumed turn starts from. *)
Definition reopened (i : uuid) (r : flow_run) : flow_run := with_status "RUNNING" "RUNNING" (with_interaction i r).

(** A resumed turn settles.  When [resume_flow_run] answers without the workflow engine, the run exists and
    belongs to the named user, and its turn, started as running under a new interaction, has completed, failed
    or waits again; the response is the view of that row, no other flow run changed, and none of the run's
    events are still held back.  Nothing is required of the status the run had before. *)
Theorem resume_flow_run_settles f q trace s v s' :
  resume_ false f q trace s = (Ok v, s') ->
  exists a r i r', q = Some a /\ runs s !! f = Some r /\ fr_user r = ri_user a /\
    flow_result (reopened i r) r' /\ runs s' = <[f := r']> (runs s) /\
    v = from_model f r' (fs_origins s' !! f) /\ closed f s'.
Proof using Laws.
  unfold resume_flow_run. destruct q as [q|]; [|done]. intros (o & s1 & [-> (R1 & _)]%get_run_ok & H)%mbind_ok.
  destruct (runs s !! f) as [r|] eqn:Hr; [|done]. destruct (String.eqb_spec (fr_user r) (ri_user q)) as [Hu|]; [|done].
  simpl in H. apply mbind_ok in H as (ctx & s2 & H2 & H). apply (respects_run calm) in H2 as (R2 & _); [|apply calm_context].
  apply mbind_ok in H as (input & s3 & H3 & H). apply (respects_run calm) in H3 as (R3 & _); [|apply calm_resume_input].
  apply mbind_ok in H as (g & s4 & H4 & H). apply (respects_run calm) in H4 as (R4 & _); [|frame].
  destruct g as [gs|]; [|done]. destruct (get_flow_version (fr_version r)) as [fv|]; [|done].
  apply mbind_ok in H as (z & s5 & H5 & H). injection H5 as <- <-.
  apply mbind_ok in H as (gp & s5 & H5 & H). injection H5 as _ <-.
  apply mbind_ok in H as (plan & s6 & H6 & H). apply (respects_run calm) in H6 as (R6 & _); [|apply calm_plan].
  apply mbind_ok in H as (i & s7 & H7 & H). apply (respects_run calm) in H7 as (R7 & _); [|frame].
  apply mbind_ok in H as ([] & s8 & (_ & _ & R8)%link_ok & H).
  apply mbind_ok in H as ([] & s9 & H9 & H). apply (respects_run calm) in H9 as (R9 & _); [|apply calm_resume_trace].
  apply mbind_ok in H as ([] & s10 & H10 & H). injection H10 as <-.
  apply mbind_ok in H as (ss & s11 & H11 & H). injection H11 as _ <-. unfold resume_turn in H.
  apply mbind_ok in H as ([] & s12 & H12 & H). apply (respects_run calm) in H12 as (R12 & _); [|frame].
  apply finally_ok in H as (s13 & H & H13).
  apply mbind_ok in H as ([] & s14 & (_ & _ & up & R14 & Hup)%runtime_run_ok & H).
  apply resumed_view_ok in H as (r' & Hr' & -> & R15 & _ & O15).
  pose proof (end_closes f s13) as Hc. rewrite H13 in Hc. apply (respects_run calm) in H13 as (R16 & _ & O16); [|frame].
  assert (Hruns : runs s' = <[f := up (reopened i r)]> (runs s)).
  { rewrite R16, R15, R14, R12. change (runs (set_env ?e _)) with (flow_runs (db e)). simpl. fold (runs s9).
    rewrite R9, R8, R7, R6, R4, R3, R2, R1. apply map_eq. intros k.
    destruct (decide (k = f)) as [->|]; [by rewrite !lookup_alter_eq, lookup_insert_eq, Hr|].
    by rewrite !lookup_alter_ne, !lookup_insert_ne. }
  rewrite <- R15, <- R16, Hruns, lookup_insert_eq in Hr'. injection Hr' as <-.
  exists q, r, i, (up (reopened i r)). rewrite O16, O15.
  split_and!; [reflexivity | exact eq_refl | exact Hu | apply Hup | exact Hruns | reflexivity | exact Hc].
Qed.

(** *** Requests that cannot start *)

Definition same_runs s s' : Prop := runs s' = runs s.

#[local] Instance same_runs_preorder : PreOrder same_runs.
Proof. split; [done|]. intros a b c H1 H2. unfold same_runs in *. congruence. Qed.

Lemma calm_same {A} (m : M (flows W) A) : respects calm m -> respects same_runs m.
Proof. intros H s. apply H. Qed.

Lemma start_run_same tenant flow version channel trace q :
  fc_input q = None -> fc_parts q = [] -> respects same_runs (start_run_ tenant flow version channel trace q).
Proof.
  intros Hi Hp. unfold start_run. apply respects_bind; [apply _ | apply calm_same, calm_trace | intros tu].
  apply respects_bind; [apply _ | | intros _].
  { unfold ensure_session. apply respects_bind; [apply _ | frame | intros s]. destruct (fs_sessions s !! fc_session q) as [[t u]|] eqn:E.
    - case_bool_decide; frame.
    - unfold create_session. apply respects_bind; [apply _ | frame | intros s2].
      destruct (fs_sessions s2 !! fc_session q) as [[t u]|]; [case_bool_decide|]; try frame; by intros s3. }
  unfold _normalize_flow_run_input. rewrite Hp, Hi.
  match goal with |- respects _ (mbind_ (mret ?a) ?k) => change (respects same_runs (k a)) end.
  apply respects_bind; [apply _ | apply calm_same; frame | intros i].
  apply respects_bind; [apply _ | apply calm_same; destruct (fc_correlation q); frame | intros c].
  apply respects_bind; [apply _ | apply calm_same, calm_origin | intros ih].
  apply respects_bind; [apply _ | frame | intros [[g policy] contract]]. by intros s.
Qed.

(** A request without an input never starts a run.  It raises, and no flow run is added. *)
Theorem create_without_input tenant flow version channel trace q s :
  fc_input q = None -> fc_parts q = [] ->
  (exists e, (start_run_ tenant flow version channel trace q s).1 = Err e) /\
  runs (start_run_ tenant flow version channel trace q s).2 = runs s.
Proof.
  intros Hi Hp. split.
  - destruct (start_run_ tenant flow version channel trace q s) as [[st|e] s'] eqn:H; [|by eauto]. exfalso. unfold start_run in H.
    apply mbind_ok in H as (tu & ? & _ & H). apply mbind_ok in H as ([] & ? & _ & H). apply mbind_ok in H as (input & ? & H3 & H).
    unfold _normalize_flow_run_input in H3. rewrite Hp, Hi in H3. injection H3 as <- _.
    apply mbind_ok in H as (i & ? & _ & H). apply mbind_ok in H as (c & ? & _ & H). apply mbind_ok in H as (ih & ? & _ & H).
    apply mbind_ok in H as ([[g policy] contract] & ? & _ & H). by apply mbind_ok in H as (f & ? & (y & r & ? & _)%insert_ok & _).
  - apply (start_run_same tenant flow version channel trace q Hi Hp s).
Qed.
End new_run.

(** *** Where state is inherited from *)

#[local] Instance ge_total : Total Z.ge.
Proof. intros x y. lia. Qed.
#[local] Instance ge_trans : Transitive Z.ge.
Proof. intros x y z. lia. Qed.

Lemma latest_waiting_ok session c v user st o :
  get_latest_waiting_flow_run_id session c v user st = Some o ->
  exists r, flow_runs st !! o = Some r /\
    (fr_session r = session /\ fr_correlation r = c /\ fr_version r = v /\ fr_user r = user) /\ is_waiting r = true /\
    forall o' r', flow_runs st !! o' = Some r' -> fr_session r' = session -> fr_correlation r' = c -> fr_version r' = v ->
      fr_user r' = user -> is_waiting r' = true -> (o' <= o)%N.
Proof.
  unfold get_latest_waiting_flow_run_id. set (l := filter _ _). pose proof (sorted_by_sorted Z.ge (fun fr => Z.of_N fr.1) l) as Hs.
  pose proof (fun x => elem_of_sorted_by Z.ge (fun fr => Z.of_N fr.1) x l) as He.
  destruct (sorted_by _ _ l) as [|[k r] l'] eqn:E; [done|]. intros [= <-]. simpl.
  assert (Hk : (k, r) ∈ l) by (apply He; left). unfold l in Hk. apply list_elem_of_filter in Hk as [Hp Hk].
  apply elem_of_map_to_list in Hk. exists r. simpl in Hp. split_and!; try naive_solver.
  intros o' r' Hr' H1 H2 H3 H4 H5. assert (Hin : (o', r') ∈ (k, r) :: l').
  { apply He. unfold l. apply list_elem_of_filter. split; [done | by apply elem_of_map_to_list]. }
  apply elem_of_cons in Hin as [[= -> ->]|Hin]; [done|].
  inversion_clear Hs as [|? ? _ Hf]. rewrite Forall_forall in Hf. apply Hf in Hin. simpl in Hin. lia.
Qed.

(** The origin of a new run.  A run that inherits state inherits it from a waiting run, and exactly what
    that run's graph state holds; the run is the one the request names, or, when it names none, the latest
    waiting run of the same session, correlation, version and user. *)
Theorem origin_of_new_run {W} q c v (s : flows W) ih s' o :
  resolve_origin q c v s = (Ok ih, s') -> ih_origin ih = Some o ->
  exists r, runs s !! o = Some r /\ is_waiting r = true /\
    (exists g ss, (Store.get_graph_state o (db (fs_env s))).1 = Ok (Some g) /\ read_snapshot (gs_state g) = Ok ss /\
       ih_start ih = resume_node ss /\ ih_state ih = ss_state ss /\ ih_memory ih = ss_memory ss) /\
    (fc_origin q = Some o \/
     (fc_origin q = None /\ fr_session r = fc_session q /\ fc_correlation q = Some (fr_correlation r) /\
      fr_version r = v /\ fr_user r = fc_user q /\
      forall o' r', runs s !! o' = Some r' -> fr_session r' = fr_session r -> fr_correlation r' = fr_correlation r ->
        fr_version r' = fr_version r -> fr_user r' = fr_user r -> is_waiting r' = true -> (o' <= o)%N)).
Proof.
  unfold resolve_origin. intros (s0 & s1 & H0 & H)%mbind_ok Ho. injection H0 as <- <-.
  match type of H with (match ?x with _ => _ end) _ = _ => destruct x as [k|] eqn:Hc end; [|by injection H as <- <-].
  apply mbind_ok in H as ([] & s2 & H2 & H). injection H2 as <-. apply mbind_ok in H as (found & s3 & H3 & H).
  injection H3 as <- <-. simpl in H. fold (runs s) in H.
  destruct (runs s !! k) as [r|] eqn:Hr; [|by injection H as <- <-]. destruct (is_waiting r) eqn:Hw; [|by injection H as <- <-].
  apply mbind_ok in H as (g & s4 & H4 & H). destruct g as [g|]; [|by injection H as <- <-].
  apply mbind_ok in H as (ss & s5 & H5 & H). injection H as <- <-. injection H5 as H5 _. injection Ho as <-.
  exists r. split_and!; [done | done | |].
  - exists g, ss. split_and!; try done. unfold table, engine, repo in H4. simpl in H4.
    by destruct (Store.get_graph_state k (db (fs_env s))) as [x y]; injection H4 as -> _.
  - destruct (fc_origin q); [left; congruence|]. right. split; [done|]. destruct (fc_correlation q) as [c'|]; [|done].
    apply latest_waiting_ok in Hc as (r0 & Hr0 & (<- & <- & <- & <-) & _ & Hmax). fold (runs s) in Hr0.
    assert (r0 = r) as -> by congruence. naive_solver.
Qed.

(** ** Creating and resuming flow runs, on concrete requests

    A service over a catalogue of one flow of tenant 1, whose active version is 1: witnesses for the
    theorems of this file, and the behaviours its checks leave open. *)

Module launch.
(** ** The catalogue *)

Definition sample_graph : graph_snapshot :=
  {| gsn_id := 50; gsn_graph := snapshot_of demo_parse demo_graph; gsn_hash := "graph" |}.
Definition sample_snapshot (policy : pydict) : flow_snapshot :=
  {| fsn_id := 60; fsn_snapshot := [("graph_hash", PStr "graph")]; fsn_policy := policy; fsn_tools := []; fsn_llm_hash := None |}.

Definition sample_version (v : uuid) : option flow_version :=
  if (v =? 1)%N then Some {| fv_flow := 5; fv_status := "PUBLISHED" |} else None.
Definition sample_tenant (f : uuid) : option uuid := if (f =? 5)%N then Some 1%N else None.
Definition sample_active (f : uuid) : option uuid := if (f =? 5)%N then Some 1%N else None.
Definition sample_graph_of (v : uuid) : option graph_snapshot := if (v =? 1)%N then Some sample_graph else None.
Definition sample_snapshot_of (v : uuid) : option flow_snapshot := if (v =? 1)%N then Some (sample_snapshot []) else None.
Definition sample_normalize : option (uuid -> option string -> list pyval -> unit -> res exc (option string) * unit) :=
  Some (fun _ t _ w => (Ok t, w)).

(** A run of user [ana]. *)
Definition ana_run (status canonical : string) : flow_run := {|
  fr_session := 3; fr_version := 1; fr_correlation := 4; fr_snapshot := None; fr_user := "ana"; fr_status := status;
  fr_canonical := canonical; fr_input := PDict []; fr_output := PDict []; fr_error := PDict []; fr_finished := false;
  fr_interaction := None; fr_turn_index := 0; fr_workflow := None |}.

(** The status is what this server keeps of a response. *)
Definition sample_dump (v : FlowRun) : pyval := PDict [("status", PStr (vw_status v))].
Definition sample_load (p : pyval) : res exc FlowRun :=
  match p with
  | PDict d => match dict_getv "status" d with PStr x => Ok (from_model 7 (ana_run x x) None) | _ => Err PydanticValidationError end
  | _ => Err PydanticValidationError
  end.

Section sample.
Variable temporal : bool.

Definition sample_start : uuid -> uuid -> uuid -> string -> option string -> FlowRunCreate -> M (flows unit) started :=
  start_run (fun _ => Some 60%N) (fun _ => "uuid") 20 (fun _ => "text") (fun _ => None) sample_snapshot_of sample_snapshot_of
    (fun _ => Some sample_graph) sample_graph_of (fun p => Ok p) (fun _ _ => Ok []) (fun _ => "hash") sample_normalize true.

Definition sample_create : Z -> uuid -> string -> string -> string -> option string -> bool -> FlowRunCreate ->
    M (redis * flows unit) FlowRun :=
  create_flow_run (fun _ => Some 60%N) (fun _ => "uuid") (fun _ => Ok tt) (demo_execute demo_output) (fun _ => PNone)
    (fun _ _ => true) true true 20 (fun _ => None) (fun _ => "0") (fun _ => "text") sample_version sample_tenant sample_active
    (fun _ => None) sample_snapshot_of sample_snapshot_of (fun _ => Some sample_graph) sample_graph_of (fun p => Ok p)
    (fun _ _ => Ok []) (fun _ => "hash") sample_normalize temporal true true (fun w => w) (fun _ => mret tt) true 3600
    sample_dump sample_load.

Definition sample_resume : uuid -> option FlowRunResumeInput -> option string -> M (flows unit) FlowRun :=
  resume_flow_run (fun _ => Some 60%N) (fun _ => "uuid") (fun _ => Ok tt) (demo_execute demo_output) (fun _ => PNone)
    (fun _ _ => true) true true 20 (fun _ => None) (fun _ => "0") (fun _ => "text") sample_version sample_snapshot_of
    (fun _ => Some sample_graph) sample_graph_of (fun p => Ok p) (fun _ _ => Ok []) sample_normalize temporal true (fun w => w)
    (fun _ => mret tt).
End sample.

(** ** The state and the requests *)

(** A run of session 9, which belongs to user [bob] of tenant 2. *)
Definition bob_run (status canonical : string) : flow_run := {|
  fr_session := 9; fr_version := 77; fr_correlation := 4; fr_snapshot := None; fr_user := "bob"; fr_status := status;
  fr_canonical := canonical; fr_input := PDict []; fr_output := PDict []; fr_error := PDict []; fr_finished := false;
  fr_interaction := None; fr_turn_index := 0; fr_workflow := None |}.

Definition sample_flows (row : flow_run) (graph : pyval) : flows unit := {|
  fs_env := {| db := set_graph_states {[7%N := {| gs_state := graph; gs_last_node_run := None |}]}
                       (set_flow_runs {[7%N := row]} empty_store);
               world := tt; counters := ∅; loop_keys := [] |};
  fs_sessions := <[9%N := (2%N, "bob")]> {[3%N := (1%N, "ana")]};
  fs_users := ∅; fs_origins := ∅; fs_locks := ∅; fs_plans := ∅; fs_workflows := ∅ |}.

Definition secret_state : pyval :=
  PDict [("current_node_id", PStr "intent"); ("state", PDict [("card", PStr "4111")]); ("memory", PList [PDict [("note", PStr "n")]])].

Definition sample_request (origin : option uuid) : FlowRunCreate := {|
  fc_flow := Some 5%N; fc_version := None; fc_session := 3; fc_user := "ana"; fc_origin := origin; fc_correlation := Some 4%N;
  fc_input := Some {| user_input := Some "hello" |}; fc_parts := []; fc_metadata := [] |}.

Definition sample_resume_input : FlowRunResumeInput := {| ri_user := "ana"; ri_input := Some "yes"; ri_parts := [] |}.

(** ** Witnesses *)


Lemma create_flow_run_idempotent_witness :
  let s := sample_flows (bob_run "RUNNING" "RUNNING") secret_state in
  exists v x1 s1, sample_create false 5 1 "/flow-runs" "k" "http" None false (sample_request None) (empty_redis, s) = (Ok v, (x1, s1)) /\
    exists y v', sample_create false 1 1 "/flow-runs" "k" "http" None false (sample_request (Some 9%N)) (tick 10 x1, s1) =
      (Ok v', (y, s1)) /\ vw_status v' = vw_status v.
Proof.
  cbv zeta. set (s := sample_flows _ _).
  pose proof (create_flow_run_idempotent (fun _ => Some 60%N) (fun _ => "uuid") (fun _ => Ok tt) (demo_execute demo_output)
    (fun _ => PNone) (fun _ _ => true) true true 20 (fun _ => None) (fun _ => "0") (fun _ => "text") (fun _ => None)
    sample_snapshot_of sample_snapshot_of (fun _ => Some sample_graph) sample_graph_of (fun p => Ok p)
    (fun _ _ => Ok []) (fun _ => "hash") sample_normalize true true (fun w => w) (fun _ => mret tt)
    sample_version sample_tenant sample_active true 3600 sample_dump sample_load
    false 5 10 1 1 "/flow-runs" "k" "http" None false (sample_request None) empty_redis s (5%N, 1%N) "http" None false
    (sample_request (Some 9%N)) (5%N, 1%N) eq_refl ltac:(lia) eq_refl ltac:(lia) ltac:(lia) eq_refl eq_refl) as [_ H].
  destruct (create_flow_run _ _ _ _ _ _ _ _ _ _ _ _ _ _ _ _ _ _ _ _ _ _ _ _ _ _ _ _ _ _ _ _ _ _ _ _ _ _ _ _ _ (empty_redis, s))
    as [[v|e] [x1 s1]] eqn:E; [|vm_compute in E; discriminate].
  exists v, x1, s1. split; [exact E|]. destruct (H s1) as (y & Hy).
  exists y, (from_model 7 (ana_run (vw_status v) (vw_status v)) None). split; [exact Hy|reflexivity].
Defined.

Lemma resume_flow_run_settles_witness :
  exists v s', sample_resume false 7 (Some sample_resume_input) None
      (sample_flows (ana_run "WAITING_INPUT" "WAITING") secret_state) = (Ok v, s') /\ vw_status v = "COMPLETED" /\
    exists i r', flow_result (reopened i (ana_run "WAITING_INPUT" "WAITING")) r' /\ v = from_model 7 r' (fs_origins s' !! 7%N) /\
      closed 7 s'.
Proof.
  destruct (sample_resume false 7 (Some sample_resume_input) None
      (sample_flows (ana_run "WAITING_INPUT" "WAITING") secret_state)) as [[v|e] s'] eqn:H; [|vm_compute in H; discriminate].
  exists v, s'. split; [done|]. split; [vm_compute in H; injection H as <- _; reflexivity|].
  destruct (resume_flow_run_settles _ _ _ _ _ _ _ _ _ _ _ _ _ _ _ _ _ _ _ _ _ _ _ _ _ _ _ _ H)
    as (a & r & i & r' & _ & Hr & _ & H1 & _ & H2 & H3).
  vm_compute in Hr. injection Hr as <-. exists i, r'. split_and!; [exact H1 | exact H2 | exact H3].
Defined.

Lemma create_without_input_witness :
  exists e, (sample_start 1 5 1 "http" None {| fc_flow := Some 5%N; fc_version := None; fc_session := 3; fc_user := "ana";
    fc_origin := None; fc_correlation := None; fc_input := None; fc_parts := []; fc_metadata := [] |}
    (sample_flows (ana_run "RUNNING" "RUNNING") secret_state)).1 = Err e.
Proof.
  apply (create_without_input (fun _ => Some 60%N) (fun _ => "uuid") 20 (fun _ => "text") (fun _ => None) sample_snapshot_of
    sample_snapshot_of (fun _ => Some sample_graph) sample_graph_of (fun p => Ok p) (fun _ _ => Ok []) (fun _ => "hash")
    sample_normalize true 1 5 1 "http" None); reflexivity.
Defined.

Definition ana_flows : flows unit := sample_flows (ana_run "WAITING_INPUT" "WAITING") secret_state.

Lemma origin_of_new_run_witness :
  exists ih s', resolve_origin (sample_request None) 4 1 ana_flows = (Ok ih, s') /\
    ih_state ih = [("card", PStr "4111")] /\
    exists r, runs ana_flows !! 7%N = Some r /\ is_waiting r = true.
Proof.
  destruct (resolve_origin (sample_request None) 4 1 ana_flows) as [[ih|e] s'] eqn:H; [|vm_compute in H; discriminate].
  assert (Hi : ih_origin ih = Some 7%N) by (vm_compute in H; injection H as <- _; reflexivity).
  exists ih, s'. split; [done|]. split; [vm_compute in H; injection H as <- _; reflexivity|].
  destruct (origin_of_new_run _ _ _ _ _ _ _ H Hi) as (r & H1 & H2 & _). eauto.
Defined.

(** ** What the checks leave open *)

(** The state a new run starts from, its origin and the owner of that origin's session. *)
Definition foreign_view (r : res exc inherited * flows unit) : option (option uuid * pydict * list pyval) :=
  match r with (Ok ih, _) => Some (ih_origin ih, ih_state ih, ih_memory ih) | _ => None end.

(** A request of tenant 1 that names a waiting run of another tenant's user starts from that run's state and
    memory: an origin the caller names is not checked for tenant, session, user or version. *)
Theorem foreign_origin_inherited :
  let s := sample_flows (bob_run "WAITING_INPUT" "WAITING") secret_state in
  fs_sessions s !! 9%N = Some (2%N, "bob") /\
  foreign_view (resolve_origin (sample_request (Some 7%N)) 4 1 s) =
    Some (Some 7%N, [("card", PStr "4111")], [PDict [("note", PStr "n")]]) /\
  exists v y, sample_create false 5 1 "/flow-runs" "k" "http" None false (sample_request (Some 7%N)) (empty_redis, s) = (Ok v, y) /\
    vw_origin v = Some 7%N /\ vw_user v = "ana" /\ vw_status v = "COMPLETED".
Proof. split; [done|]. split; [done|]. eexists _, _. split; [vm_compute; reflexivity|]. done. Qed.

(** The events of a run that were written, and those held back. *)
Definition event_view (f : uuid) (s : flows unit) : list string * list string :=
  (map (fun e => ed_type (ev_data e)) (flow_events f (events (db (fs_env s)))),
   map (fun d => ed_type d.2) (default [] (event_buffer (db (fs_env s)) !! f))).

(** Status, written and held events after a request. *)
Definition create_view (r : res exc FlowRun * (redis * flows unit)) : option (string * (list string * list string)) :=
  match r with (Ok v, (_, s)) => Some (vw_status v, event_view (vw_id v) s) | _ => None end.

(** The started event of a dispatched run is held back.  With the workflow engine the call returns while
    event batching for the run is still on, and nothing in it writes the buffer; without the engine the same
    request has written all its events, in order. *)
Theorem dispatched_run_holds_started_event :
  let s := sample_flows (bob_run "RUNNING" "RUNNING") secret_state in
  let create t := create_view (sample_create t 5 1 "/flow-runs" "k" "http" None false (sample_request None) (empty_redis, s)) in
  create true = Some ("QUEUED", ([], ["FlowStarted"])) /\
  (exists l, create false = Some ("COMPLETED", ("FlowStarted" :: l, [])) /\ last l = Some "FlowCompleted").
Proof. split; [vm_compute; reflexivity|]. eexists. split; [vm_compute; reflexivity|]. reflexivity. Qed.

Definition resume_view (r : res exc FlowRun * flows unit) : option exc * option string :=
  (match r.1 with Ok _ => None | Err e => Some e end, fr_status <$> runs r.2 !! 7%N).

(** Resuming looks at neither the status nor, in time, the graph state.  Whatever statuses a run has, the
    call runs its turn again; and when the stored graph state does not validate, the call raises after it has
    written the status, which leaves the run as running. *)
Theorem resume_ignores_status status canonical :
  resume_view (sample_resume false 7 (Some sample_resume_input) None (sample_flows (ana_run status canonical) secret_state)) =
    (None, Some "COMPLETED") /\
  resume_view (sample_resume false 7 (Some sample_resume_input) None
    (sample_flows (ana_run status canonical) (PDict [("state", PStr "broken")]))) =
    (Some (DomainValidationException "invalid_graph_state"), Some "RUNNING").
Proof. split; vm_compute; reflexivity. Qed.
End launch.
