(* ===== verification/RunService.v ===== *)
(** * RunService: agent runs, tool runs and reads of the execution service

    [src/src/domain/execution/services/execution_service.py]: [create_agent_run],
    [complete_agent_run], [create_tool_run], [get_flow_run], [get_graph_state] and the lists,
    with the counting and listing queries of the repository behind them.

    The service works on Redis, the engine's environment with the tool tables of [FlowTools],
    and the columns of agent runs only it uses.  Agents, policies, retrieval and tool
    configurations are read only. *)

From S2P Require Import Prelude.
From S2P Require Import Errors.
From S2P Require Import PyValue.
From S2P Require Import PyString.
From S2P Require Import StateMachine.
From S2P Require Import Sorting.
From S2P Require Import Effects.
From S2P Require Import Store.
From S2P Require Import NodeStep.
From S2P Require Import Redis.
From S2P Require Import Governance.
From S2P Require Import AgentStore.
From S2P Require Import ToolRuns.
From S2P Require Import HumanSLA.
From S2P Require Import FlowTools.

(** ** Data *)

(** [AgentRunCreate] and [ToolRunCreate]. *)
Record AgentRunCreate : Type := {
  ac_node_run : uuid;
  ac_version : uuid;
  ac_correlation : option uuid;
  ac_input : pydict;
}.
Record ToolRunCreate : Type := {
  tc_config : uuid;
  tc_agent_run : option uuid;
  tc_node_run : option uuid;
  tc_correlation : option uuid;
  tc_input : pydict;
  tc_side_effect : bool;
}.

(** [AgentRun] and [ToolRun], for the columns of the model. *)
Record AgentRun : Type := {
  aw_id : uuid;
  aw_node_run : uuid;
  aw_version : uuid;
  aw_billing : option uuid;
  aw_model : option string;
  aw_tokens : pyval * pyval;
  aw_cost : pyval;
  aw_status : string;
  aw_canonical : string;
  aw_correlation : uuid;
  aw_input : pyval;
  aw_output : pyval;
  aw_prompt_hash : option string;
  aw_snapshot : pydict;
  aw_snapshot_hash : option string;
}.
Record ToolRun : Type := {
  tw_id : uuid;
  tw_config : uuid;
  tw_agent_run : option uuid;
  tw_node_run : option uuid;
  tw_status : string;
  tw_canonical : string;
  tw_correlation : uuid;
  tw_input : pydict;
  tw_key : string;
  tw_side_effect : bool;
  tw_billing : uuid;
}.

(** Rows of the catalogue: nodes, agent versions, execution policy versions, retrieval
    configurations and tool configurations. *)
Inductive RagCorpusKind : Type := TENANT_KNOWLEDGE | USER_MEMORY | TOOL_CATALOG.
Record node_row : Type := {
  nd_prompt : option uuid;
  nd_rag : option uuid;
  nd_allow_rag : bool;
  nd_allow_structured : bool;
  nd_allow_vector : bool;
  nd_allow_session : bool;
  nd_allow_write : bool;
}.
Record version_row : Type := {
  vr_agent : uuid;
  vr_status : string;
  vr_policy : option uuid;
  vr_rag : option uuid;
  vr_prompt : option string;
  vr_tool_schema : option Z;
  vr_tool_hash : option string;
}.
Record policy_row : Type := {
  pl_status : string;
  pl_model : uuid;
}.
Record rag_row : Type := {
  rg_tenant : uuid;
  rg_kind : RagCorpusKind;
}.
Record config_row : Type := {
  cf_tenant : uuid;
  cf_status : string;
  cf_schema : option Z;
  cf_hash : option string;
}.

(** Columns of an agent run that only the service uses. *)
Record agent_details : Type := {
  dt_correlation : uuid;
  dt_billing : option uuid;
  dt_model : option string;
  dt_tokens : pyval * pyval;
  dt_cost : pyval;
  dt_error : pydict;
  dt_snapshot : pydict;
  dt_snapshot_hash : option string;
}.

Record services {W : Type} : Type := {
  sv_env : @env (node_world W);
  sv_details : gmap uuid agent_details;
}.
Arguments services : clear implicits.

Section lifts.
Context {W : Type}.

Definition at_env {A} (m : M (@env (node_world W)) A) : M (redis * services W) A := fun s =>
  match m (sv_env s.2) with (r, e) => (r, (s.1, {| sv_env := e; sv_details := sv_details s.2 |})) end.
Definition at_db {A} (m : M store A) : M (redis * services W) A := at_env (repo m).
Definition set_details (v : gmap uuid agent_details) : M (redis * services W) unit :=
  mmodify (fun s => (s.1, {| sv_env := sv_env s.2; sv_details := v |})).
End lifts.

(** ** Queries *)

(** The flow run of a tool run, by its node run and by its agent run. *)
Definition flows_of_tool_run (s : store) (x : tool_run) : list uuid :=
  omap (fun n => nr_flow <$> node_runs s !! n)
    (option_list (tl_node_run x) ++ option_list (tl_agent_run x ≫= fun a => ar_node_run <$> agent_runs s !! a)).

(** [count_tool_runs_for_flow_run]. *)
Definition count_tool_runs_for_flow_run {W} (f : uuid) (e : @env (node_world W)) : Z :=
  Z.of_nat (length (filter (fun tr => f ∈ flows_of_tool_run (db e) tr.2) (map_to_list (tool_runs (nw_tools (world e)))))).

(** [list_execution_events]. *)
Definition wanted (o : option uuid) (u : uuid) : bool := match o with Some x => (x =? u)%N | None => true end.
Definition list_execution_events (tenant : uuid) (f correlation : option uuid) (limit : nat) (s : store) : list event :=
  take limit (sorted_by (lex N.le Nat.le) (fun e => (ev_flow e, ev_sequence e)) (filter (fun e =>
    wanted (Some tenant) (ed_tenant (ev_data e)) && wanted f (ev_flow e) &&
    wanted correlation (ed_correlation (ev_data e)) = true) (events s))).

(** The tenant of a flow run, by its session. *)
Definition tenant_of_flow (session_tenant : uuid -> option uuid) (s : store) (f : uuid) : option uuid :=
  flow_runs s !! f ≫= fun r => session_tenant (fr_session r).

(** [list_node_runs] and [list_agent_runs] of the repository, newest first; identifiers are
    handed out in the order of creation. *)
Definition list_node_runs (session_tenant : uuid -> option uuid) (tenant : uuid) (f : option uuid) (limit : nat) (s : store) :
    list (uuid * node_run) :=
  take limit (sorted_by (flip N.le) fst (filter (fun nr =>
    tenant_of_flow session_tenant s (nr_flow nr.2) = Some tenant /\ wanted f (nr_flow nr.2) = true)
    (map_to_list (node_runs s)))).
Definition list_agent_runs (session_tenant : uuid -> option uuid) (tenant : uuid) (f : option uuid) (limit : nat) (s : store) :
    list (uuid * agent_run) :=
  let flow_of ar := nr_flow <$> node_runs s !! ar_node_run ar in
  take limit (sorted_by (flip N.le) fst (filter (fun ar =>
    flow_of ar.2 ≫= tenant_of_flow session_tenant s = Some tenant /\ from_option (wanted f) false (flow_of ar.2) = true)
    (map_to_list (agent_runs s)))).

(** ** The service *)

Section service.
Context {W : Type}.
Variable uuid_parse : string -> option uuid.
Variable uuid_str : uuid -> string.
Variable batch_size : nat.
Variable silent_mode : bool.
Variable ttl : Z.
Variable session_tenant : uuid -> option uuid.
Variable limit_policies : list (uuid * uuid).
Variable limit_versions : list (version limit_version).
(** The catalogue. *)
Variable get_node : uuid -> option node_row.
Variable get_agent_version : uuid -> option version_row.
Variable get_active_agent_version_id : uuid -> option uuid.
Variable get_ai_execution_policy_version : uuid -> option policy_row.
Variable get_model : uuid -> option string.
Variable get_rag_config : uuid -> option rag_row.
Variable get_active_billing_policy_version_id : uuid -> option uuid.
Variable get_tool_config : uuid -> option config_row.
Variable hash_dict : pydict -> string.
Variable sha256 : string -> string.
(** [model_dump] and [model_validate] of responses. *)
Variable dump_agent_run : AgentRun -> pyval.
Variable load_agent_run : pyval -> res exc AgentRun.
Variable dump_tool_run : ToolRun -> pyval.
Variable load_tool_run : pyval -> res exc ToolRun.

Abbreviation ST := (redis * services W)%type.

Definition append (tenant session f correlation : uuid) (ty : string) (payload : pydict) : M ST unit :=
  let* _ := at_db (append_execution_event batch_size (Some f) {|
      ed_tenant := tenant; ed_user := None; ed_session := session; ed_type := ty; ed_payload := PDict payload;
      ed_correlation := correlation; ed_node := None; ed_edge := None |}) in
  mret tt.

Definition correlation_of (c : option uuid) : M ST uuid :=
  match c with Some c => mret c | None => at_db uuid4 end.

(** A limit check: an exceeded limit is recorded on the flow run, if there is one, and raised. *)
Definition guarded (tenant f : uuid) (correlation : option uuid) (action : string) (check : M ST unit) : M ST unit :=
  mtry check (fun e =>
    match e with
    | LimitExceededException m =>
        let* found := at_db (get_flow_run f) in
        match found with
        | None => mraise e
        | Some r =>
            let* c := correlation_of correlation in
            append tenant (fr_session r) f c "LimitExceeded" [("action", PStr action); ("message", PStr m)] ;;*
            mraise e
        end
    | _ => mraise e
    end).

Definition can_create_agent_run (tenant f : uuid) : M ST unit :=
  at_db (assert_can_create_agent_run limit_policies limit_versions (Some tenant) f).
Definition can_create_tool_run (tenant f : uuid) : M ST unit :=
  let* s := mget in
  mlift (assert_can_create_tool_run limit_policies limit_versions
           (fun f => count_tool_runs_for_flow_run f (sv_env s.2)) (Some tenant) f).

Definition node_run_of (n : uuid) : M ST node_run :=
  let* found := at_db (get_node_run n) in
  match found with None => mraise (NotFoundServiceException "node_run_not_found") | Some r => mret r end.

(** The retrieval an agent run may use. *)
Definition check_rag (tenant : uuid) (nd : node_row) (v : version_row) : res exc (option uuid) :=
  let effective := match nd_rag nd with Some r => Some r | None => vr_rag v end in
  match effective with
  | None => Ok None
  | Some r =>
      let denied := Err (RagNotAllowedException "rag_not_allowed_for_task") in
      match get_rag_config r with
      | None => denied
      | Some rc =>
          if negb (bool_decide (rg_tenant rc = tenant)) then denied
          else match rg_kind rc with
               | TENANT_KNOWLEDGE | TOOL_CATALOG => if nd_allow_rag nd then Ok effective else denied
               | USER_MEMORY => if nd_allow_structured nd || nd_allow_vector nd then Ok effective else denied
               end
      end
  end.

Definition id_or_none (u : option uuid) : pyval := match u with Some u => PStr (uuid_str u) | None => PNone end.
(** [str(x)] of an optional identifier. *)
Definition id_str (u : option uuid) : pyval := PStr (match u with Some u => uuid_str u | None => "None" end).

(** The checks of [create_agent_run] after the limit: the version, its policy, the model, the
    retrieval and the billing policy. *)
Definition agent_contract (tenant : uuid) (node : uuid) (q : AgentRunCreate) :
    res exc (option string * uuid * option string * pydict * uuid) :=
  match get_node node with
  | None => Err (NotFoundServiceException "node_not_found")
  | Some nd =>
      match get_agent_version (ac_version q) with
      | None => Err (NotFoundServiceException "agent_version_not_found")
      | Some v =>
          raise_if (negb (String.eqb (vr_status v) "PUBLISHED")) (ResourceBlockedServiceException "agent_version_blocked") ;;!
          raise_if (negb (bool_decide (get_active_agent_version_id (vr_agent v) = Some (ac_version q))))
            (ResourceBlockedServiceException "agent_version_not_active") ;;!
          match vr_policy v with
          | None => Err (ResourceBlockedServiceException "ai_execution_policy_not_active")
          | Some pid =>
              match get_ai_execution_policy_version pid with
              | None => Err (NotFoundServiceException "ai_execution_policy_version_not_found")
              | Some p =>
                  raise_if (negb (String.eqb (pl_status p) "PUBLISHED"))
                    (ResourceBlockedServiceException "ai_execution_policy_blocked") ;;!
                  let! effective := check_rag tenant nd v in
                  match get_active_billing_policy_version_id tenant with
                  | None => Err (ResourceBlockedServiceException "billing_policy_not_active")
                  | Some billing =>
                      let text := py_strip (default "" (vr_prompt v)) in
                      Ok (get_model (pl_model p), billing,
                          (if String.eqb text "" then None else Some (sha256 text)),
                          [("node_id", PStr (uuid_str node)); ("node_prompt_id", id_str (nd_prompt nd));
                           ("allow_rag_tenant", PBool (nd_allow_rag nd));
                           ("allow_user_memory_structured", PBool (nd_allow_structured nd));
                           ("allow_user_memory_vector", PBool (nd_allow_vector nd));
                           ("rag_config_id", id_or_none (nd_rag nd)); ("effective_rag_config_id", id_or_none effective);
                           ("allow_session_context", PBool (nd_allow_session nd));
                           ("allow_memory_write", PBool (nd_allow_write nd));
                           ("agent_version_id", PStr (uuid_str (ac_version q)));
                           ("ai_execution_policy_version_id", PStr (uuid_str pid));
                           ("model_id", PStr (uuid_str (pl_model p)))], pid)
                  end
              end
          end
      end
  end.

Definition opt_str (s : option string) : pyval := match s with Some s => PStr s | None => PNone end.

(** The key, and the response of an earlier request under it. *)
Definition idempotent {A} (key : string) (name : string) (id : A -> uuid) (dump : A -> pyval) (load : pyval -> res exc A)
    (body : M ST A) : M ST A :=
  idempotent_call silent_mode ttl key (fun v => PDict [(name, PStr (uuid_str (id v))); ("response", dump v)]) load body.

(** [create_agent_run]. *)
Definition create_agent_run (tenant : uuid) (endpoint ikey : string) (q : AgentRunCreate) : M ST AgentRun :=
  let* nr := node_run_of (ac_node_run q) in
  let f := nr_flow nr in
  guarded tenant f (ac_correlation q) "agent_run:create" (can_create_agent_run tenant f) ;;*
  let* contract := mlift (agent_contract tenant (nr_node nr) q) in
  let '(model, billing, prompt_hash, snapshot, policy) := contract in
  let hash := hash_dict snapshot in
  idempotent (build_key (uuid_str tenant) endpoint ikey) "agent_run_id" aw_id dump_agent_run load_agent_run
    (let* c := correlation_of (ac_correlation q) in
     let* a := at_db (Store.create_agent_run (ac_node_run q) (ac_version q) (PDict (ac_input q)) (agent_status_str AR_CREATED)) in
     let* s := mget in
     set_details (<[a := {| dt_correlation := c; dt_billing := Some billing; dt_model := model; dt_tokens := (PNone, PNone);
                            dt_cost := PNone; dt_error := []; dt_snapshot := snapshot;
                            dt_snapshot_hash := Some hash |}]> (sv_details s.2)) ;;*
     let* found := at_db (get_flow_run f) in
     match found with
     | None => mraise (NotFoundServiceException "flow_run_not_found")
     | Some r =>
         append tenant (fr_session r) f c "AgentRunStarted"
           [("agent_run_id", PStr (uuid_str a)); ("node_run_id", PStr (uuid_str (ac_node_run q)));
            ("agent_version_id", PStr (uuid_str (ac_version q))); ("policy_version_id", PStr (uuid_str policy));
            ("billing_policy_version_id", PStr (uuid_str billing)); ("model", opt_str model);
            ("runtime_snapshot_hash", PStr hash)] ;;*
         mret {| aw_id := a; aw_node_run := ac_node_run q; aw_version := ac_version q; aw_billing := Some billing;
                 aw_model := model; aw_tokens := (PNone, PNone); aw_cost := PNone; aw_status := run_status_str RS_CREATED;
                 aw_canonical := agent_status_str AR_CREATED; aw_correlation := c; aw_input := PDict (ac_input q);
                 aw_output := PDict []; aw_prompt_hash := prompt_hash; aw_snapshot := snapshot;
                 aw_snapshot_hash := Some hash |}
     end).

(** [update_agent_run_result], with the columns of the service. *)
Definition update_agent_run (a : uuid) (status : string) (output : pydict) (error : pydict) (tokens : pyval * pyval)
    (cost : pyval) : M ST unit :=
  let* s := at_db mget in
  match agent_runs s !! a with
  | None => mraise (NotFoundServiceException "agent_run_not_found")
  | Some r =>
      at_db (mmodify (fun s => set_agent_runs (<[a := {|
        ar_node_run := ar_node_run r; ar_agent_version := ar_agent_version r; ar_input := ar_input r; ar_status := status;
        ar_output := PDict output; ar_tokens := match tokens with (PInt i, PInt o) => Some (i, o) | _ => None end;
        ar_finished := true |}]> (agent_runs s)) s)) ;;*
      mmodify (fun s => (s.1, {| sv_env := sv_env s.2; sv_details := alter (fun d => {|
        dt_correlation := dt_correlation d; dt_billing := dt_billing d; dt_model := dt_model d; dt_tokens := tokens;
        dt_cost := cost; dt_error := error; dt_snapshot := dt_snapshot d; dt_snapshot_hash := dt_snapshot_hash d |}) a
        (sv_details s.2) |}))
  end.

(** [complete_agent_run], for the runs this service has created.  The schema, if there is one,
    turns an output into its normal form or into validation errors. *)
Definition complete_agent_run (py_str : pyval -> string) (a : uuid) (raw : pydict)
    (schema : option (pydict -> res pyval pydict)) (metrics : pydict) : M ST AgentRun :=
  let* s := mget in
  match agent_runs (db (sv_env s.2)) !! a, sv_details s.2 !! a with
  | Some r, Some d =>
      let* nr := at_db (get_node_run (ar_node_run r)) in
      let policy := PStr (str_of py_str (dict_getv "ai_execution_policy_version_id" (dt_snapshot d))) in
      match from_option (fun f => f raw) (Ok raw) schema with
      | Err errors =>
          match nr with
          | None => mraise (DomainValidationException "node_run_not_found")
          | Some n =>
              let* ctx := at_env (flow_context session_tenant (nr_flow n)) in
              append ctx.2 ctx.1 (nr_flow n) (dt_correlation d) "AgentRunFailed"
                [("agent_run_id", PStr (uuid_str a)); ("policy_version_id", policy); ("tokens_input", PNone);
                 ("tokens_output", PNone); ("cost_estimated", PNone); ("error_class", PStr "validation");
                 ("errors", errors)] ;;*
              update_agent_run a (run_status_str RS_FAILED) [] [("validation_errors", errors)] (PNone, PNone) PNone ;;*
              mraise (AIOutputValidationException "ai_output_validation_failed")
          end
      | Ok output =>
          let tokens := (dict_getv "input_tokens" metrics, dict_getv "output_tokens" metrics) in
          let cost := dict_getv "estimated_cost" metrics in
          update_agent_run a (run_status_str RS_COMPLETED) output [] tokens cost ;;*
          match nr with
          | None => mraise (DomainValidationException "node_run_not_found")
          | Some n =>
              let* ctx := at_env (flow_context session_tenant (nr_flow n)) in
              append ctx.2 ctx.1 (nr_flow n) (dt_correlation d) "AgentRunCompleted"
                [("agent_run_id", PStr (uuid_str a)); ("agent_version_id", PStr (uuid_str (ar_agent_version r)));
                 ("policy_version_id", policy); ("model", opt_str (dt_model d)); ("tokens_input", tokens.1);
                 ("tokens_output", tokens.2); ("cost_estimated", cost);
                 ("runtime_snapshot_hash", opt_str (dt_snapshot_hash d))] ;;*
              mret {| aw_id := a; aw_node_run := ar_node_run r; aw_version := ar_agent_version r; aw_billing := None;
                      aw_model := dt_model d; aw_tokens := tokens; aw_cost := cost;
                      aw_status := run_status_str RS_COMPLETED; aw_canonical := agent_status_str AR_COMPLETED;
                      aw_correlation := dt_correlation d; aw_input := or_empty (ar_input r); aw_output := PDict output;
                      aw_prompt_hash := None; aw_snapshot := dt_snapshot d; aw_snapshot_hash := dt_snapshot_hash d |}
          end
      end
  | _, _ => mraise (NotFoundServiceException "agent_run_not_found")
  end.

(** ** Tool runs *)

Definition agent_run_of (a : uuid) : M ST agent_run :=
  let* s := at_db mget in
  match agent_runs s !! a with None => mraise (NotFoundServiceException "agent_run_not_found") | Some r => mret r end.

(** The flow run of the node run, or of the agent run's node run. *)
Definition parent_flow (q : ToolRunCreate) : M ST uuid :=
  match tc_node_run q, tc_agent_run q with
  | Some n, _ => let* nr := node_run_of n in mret (nr_flow nr)
  | None, Some a => let* r := agent_run_of a in let* nr := node_run_of (ar_node_run r) in mret (nr_flow nr)
  | None, None => mraise (DomainValidationException "tool_run_missing_parent")
  end.

(** A tool configuration an agent run may use. *)
Definition check_compatible (q : ToolRunCreate) (c : config_row) : M ST unit :=
  match tc_agent_run q with
  | None => mret tt
  | Some a =>
      let* r := agent_run_of a in
      match get_agent_version (ar_agent_version r) with
      | None => mraise (NotFoundServiceException "agent_version_not_found")
      | Some v =>
          mlift (raise_if match vr_tool_schema v, cf_schema c with Some x, Some y => negb (x =? y)%Z | _, _ => false end
                   (SchemaIncompatibleException "tool_config_schema_incompatible")) ;;*
          mlift (raise_if match vr_tool_hash v, cf_hash c with
                          | Some ((String _ _) as p), Some ((String _ _) as h) => negb (String.prefix p h)
                          | _, _ => false
                          end (HashIncompatibleException "tool_config_hash_incompatible"))
      end
  end.

(** [create_tool_run]. *)
Definition create_tool_run (tenant : uuid) (endpoint ikey : string) (q : ToolRunCreate) : M ST ToolRun :=
  mlift (raise_if (bool_decide (tc_node_run q = None /\ tc_agent_run q = None))
           (DomainValidationException "tool_run_missing_parent")) ;;*
  match get_active_billing_policy_version_id tenant with
  | None => mraise (ResourceBlockedServiceException "billing_policy_not_active")
  | Some billing =>
      let* f := parent_flow q in
      guarded tenant f (tc_correlation q) "tool_run:create" (can_create_tool_run tenant f) ;;*
      match get_tool_config (tc_config q) with
      | None => mraise (NotFoundServiceException "tool_config_not_found")
      | Some c =>
          mlift (raise_if (negb (String.eqb (cf_status c) "PUBLISHED"))
                   (ResourceBlockedServiceException "tool_config_blocked")) ;;*
          check_compatible q c ;;*
          idempotent (build_key (uuid_str tenant) endpoint ikey) "tool_run_id" tw_id dump_tool_run load_tool_run
            (let* correlation := correlation_of (tc_correlation q) in
             let* t := at_env (on_tools (AgentStore.create_tool_run (tc_config q) correlation (tc_agent_run q) (tc_node_run q)
                                  (Some ikey) (tc_input q) None)) in
             let* f := at_env (get_flow_run_id_for_tool_run t) in
             let* found := at_db (get_flow_run f) in
             match found with
             | None => mraise (NotFoundServiceException "flow_run_not_found")
             | Some r =>
                 append tenant (fr_session r) f correlation "ToolInvocationRequested"
                   [("tool_run_id", PStr (uuid_str t)); ("tool_config_id", PStr (uuid_str (tc_config q)));
                    ("executor_type", PStr "http")] ;;*
                 mret {| tw_id := t; tw_config := tc_config q; tw_agent_run := tc_agent_run q; tw_node_run := tc_node_run q;
                         tw_status := run_status_str RS_CREATED; tw_canonical := tool_status_str TR_CREATED;
                         tw_correlation := correlation; tw_input := tc_input q; tw_key := ikey;
                         tw_side_effect := tc_side_effect q; tw_billing := billing |}
             end)
      end
  end.

(** ** Reads *)

(** [UUID(flow_run_id)] and its row. *)
Definition named_flow_run (f : string) : M ST (uuid * flow_run) :=
  match uuid_parse f with
  | None => mraise PyValueError
  | Some u =>
      let* found := at_db (get_flow_run u) in
      match found with None => mraise (NotFoundServiceException "flow_run_not_found") | Some r => mret (u, r) end
  end.

(** [get_flow_run]: the events are asked for without the tenant, a required argument. *)
Definition read_flow_run (f : string) : M ST flow_run :=
  let* _ := named_flow_run f in mraise PyTypeError.

(** [get_graph_state]. *)
Definition read_graph_state (f : string) : M ST graph_state :=
  let* ur := named_flow_run f in
  let* g := at_db (Store.get_graph_state ur.1) in
  match g with None => mraise (NotFoundServiceException "graph_state_not_found") | Some g => mret g end.
End service.

(** ** Creating tool runs *)

Section facts.
Context {W : Type}.
Variable uuid_str : uuid -> string.
Variable batch_size : nat.
Variable silent_mode : bool.
Variable ttl : Z.
Variable limit_policies : list (uuid * uuid).
Variable limit_versions : list (version limit_version).
Variable get_agent_version : uuid -> option version_row.
Variable get_active_billing_policy_version_id : uuid -> option uuid.
Variable get_tool_config : uuid -> option config_row.
Variable dump_tool_run : ToolRun -> pyval.
Variable load_tool_run : pyval -> res exc ToolRun.
Implicit Types s : redis * services W.

Abbreviation create_ := (create_tool_run uuid_str batch_size silent_mode ttl limit_policies limit_versions get_agent_version
  get_active_billing_policy_version_id get_tool_config dump_tool_run load_tool_run).

Definition tables s : gmap uuid tool_run := tool_runs (nw_tools (world (sv_env s.2))).
Definition rows s : store := db (sv_env s.2).

(** The flow run a tool run will belong to. *)
Definition parent (q : ToolRunCreate) (x : store) : option uuid :=
  let node := match tc_node_run q with Some n => Some n | None => tc_agent_run q ≫= fun a => ar_node_run <$> agent_runs x !! a end in
  node ≫= fun n => nr_flow <$> node_runs x !! n.

(** Nothing but events changes. *)
Definition quiet s s' : Prop :=
  tables s' = tables s /\ node_runs (rows s') = node_runs (rows s) /\ agent_runs (rows s') = agent_runs (rows s).

#[export] Instance quiet_preorder : PreOrder quiet.
Proof. split; [done|]. intros a b c (?&?&?) (?&?&?). unfold quiet. split_and!; congruence. Qed.

Lemma quiet_db {A} (m : M store A) :
  (forall x, node_runs (m x).2 = node_runs x /\ agent_runs (m x).2 = agent_runs x) -> respects quiet (at_db (W := W) m).
Proof.
  intros H s. unfold quiet, tables, rows, at_db, at_env, repo. specialize (H (db (sv_env s.2))).
  destruct (m _). simpl in *. tauto.
Qed.

Lemma quiet_redis {A} (m : M redis A) : respects quiet (on_redis (W := services W) m).
Proof. intros s. unfold on_redis. by destruct (m s.1). Qed.

#[local] Instance node_runs_frame_ : EventFrame node_runs.
Proof. by split. Qed.
#[local] Instance agent_runs_frame_ : EventFrame agent_runs.
Proof. by split. Qed.

Lemma quiet_append tenant session f c ty payload : respects quiet (append (W := W) batch_size tenant session f c ty payload).
Proof.
  unfold append. apply respects_bind; [apply _ | | frame]. apply quiet_db. intros x. split; [apply (append_frame node_runs) | apply (append_frame agent_runs)].
Qed.

Lemma quiet_correlation c : respects quiet (correlation_of (W := W) c).
Proof. unfold correlation_of. destruct c; [frame | by apply quiet_db]. Qed.

Lemma quiet_guarded tenant f c action m : respects quiet m -> respects quiet (guarded (W := W) batch_size tenant f c action m).
Proof.
  intros Hm. unfold guarded. apply respects_try; [apply _ | done | intros e]. destruct e; try (apply respects_raise; apply _).
  apply respects_bind; [apply _ | by apply quiet_db | intros [r|]]; [|frame].
  apply respects_bind; [apply _ | apply quiet_correlation | intros c']. apply respects_bind; [apply _ | apply quiet_append | frame].
Qed.

Lemma parent_flow_ok q s f s' : parent_flow q s = (Ok f, s') -> parent q (rows s) = Some f /\ quiet s s'.
Proof.
  assert (Hn : forall n s f s', (let* nr := node_run_of n in mret (nr_flow nr)) s = (Ok f, s') ->
    nr_flow <$> node_runs (rows s) !! n = Some f /\ quiet s s').
  { intros n s0 f0 s0' (nr & s1 & H & H1)%mbind_ok. injection H1 as <- <-. unfold node_run_of in H.
    apply mbind_ok in H as (o & s2 & H2 & H). injection H2 as <- <-. simpl in H. fold (rows s0) in H.
    destruct (node_runs (rows s0) !! n); [|done]. by injection H as -> <-. }
  unfold parent_flow, parent. destruct (tc_node_run q) as [n|]; [by intros [? ?]%Hn|].
  destruct (tc_agent_run q) as [a|]; [|done]. intros (r & s1 & H & H1)%mbind_ok.
  unfold agent_run_of in H. apply mbind_ok in H as (x & s2 & H2 & H). injection H2 as <- <-. fold (rows s) in H. simpl.
  destruct (agent_runs (rows s) !! a) as [r0|] eqn:E; [|done]. injection H as -> <-. simpl. apply Hn in H1. exact H1.
Qed.

Lemma guarded_run_ok tenant f c action m s s' : guarded batch_size tenant f c action m s = (Ok tt, s') -> m s = (Ok tt, s').
Proof.
  unfold guarded, mtry. destruct (m s) as [[[]|e] s1]; [done|]. destruct e; try done.
  intros (o & s2 & H2 & H)%mbind_ok. destruct o; [|done]. apply mbind_ok in H as (? & ? & _ & H).
  by apply mbind_ok in H as (? & ? & _ & H).
Qed.

Lemma can_create_ok tenant f s s' :
  can_create_tool_run limit_policies limit_versions tenant f s = (Ok tt, s') -> s' = s /\
  exists lim, _get_limits limit_policies limit_versions (Some tenant) = Ok lim /\
    (count_tool_runs_for_flow_run f (sv_env s.2) < lv_max_tool_runs lim)%Z.
Proof.
  unfold can_create_tool_run, assert_can_create_tool_run. intros (x & s1 & H1 & H)%mbind_ok. injection H1 as <- <-.
  injection H as H <-. split; [done|]. destruct (_get_limits _ _ _) as [lim|]; [|done]. exists lim. split; [done|].
  simpl in H. unfold raise_if in H. destruct (Z.leb_spec (lv_max_tool_runs lim) (count_tool_runs_for_flow_run f (sv_env s.2))); [done | lia].
Qed.

Lemma compatible_quiet q c : respects quiet (check_compatible (W := W) get_agent_version q c).
Proof.
  unfold check_compatible, agent_run_of. destruct (tc_agent_run q) as [a|]; [|frame].
  apply respects_bind; [apply _ | | intros r].
  - apply respects_bind; [apply _ | by apply quiet_db | intros x]. destruct (agent_runs x !! a); frame.
  - destruct (get_agent_version (ar_agent_version r)); frame.
Qed.

(** The row of a new tool run. *)
Definition new_tool_run (q : ToolRunCreate) (v : ToolRun) : tool_run := {|
  tl_config := tc_config q; tl_agent_run := tc_agent_run q; tl_node_run := tc_node_run q; tl_correlation := tw_correlation v;
  tl_key := Some (tw_key v); tl_input := tc_input q; tl_call_id := None; tl_status := "CREATED"; tl_canonical := "CREATED";
  tl_output := []; tl_error := []; tl_finished := false |}.

(** The limit counts a new tool run of the flow. *)
Lemma count_new q v f s s' :
  parent q (rows s) = Some f -> tables s !! tw_id v = None -> tables s' = <[tw_id v := new_tool_run q v]> (tables s) ->
  node_runs (rows s') = node_runs (rows s) -> agent_runs (rows s') = agent_runs (rows s) ->
  count_tool_runs_for_flow_run f (sv_env s'.2) = (count_tool_runs_for_flow_run f (sv_env s.2) + 1)%Z.
Proof.
  intros Hp Hf Ht Hn Ha. unfold count_tool_runs_for_flow_run. fold (tables s') (tables s) (rows s') (rows s).
  assert (Hflows : forall x, flows_of_tool_run (rows s') x = flows_of_tool_run (rows s) x).
  { intros x. unfold flows_of_tool_run. by rewrite Hn, Ha. }
  rewrite Ht. rewrite (map_to_list_insert _ _ _ Hf). rewrite filter_cons, decide_True.
  - simpl. assert (Hl : forall l : list (uuid * tool_run), filter (fun tr => f ∈ flows_of_tool_run (rows s') tr.2) l =
      filter (fun tr => f ∈ flows_of_tool_run (rows s) tr.2) l).
    { intros l. apply list_filter_iff. intros [i x]. simpl. by rewrite Hflows. }
    rewrite Hl. lia.
  - simpl. rewrite Hflows. unfold flows_of_tool_run, parent in *. simpl. destruct (tc_node_run q) as [n|]; simpl in *.
    + rewrite Hp. left.
    + destruct (tc_agent_run q) as [a|]; simpl in *; [|done]. destruct (agent_runs (rows s) !! a) as [r|]; simpl in *; [|done].
      rewrite Hp. left.
Qed.

Lemma count_quiet f s s' : quiet s s' ->
  count_tool_runs_for_flow_run f (sv_env s'.2) = count_tool_runs_for_flow_run f (sv_env s.2).
Proof.
  intros (Ht & Hn & Ha). unfold count_tool_runs_for_flow_run. fold (tables s') (tables s) (rows s') (rows s). rewrite Ht.
  do 2 f_equal. apply list_filter_iff. intros [i x]. simpl. unfold flows_of_tool_run. by rewrite Hn, Ha.
Qed.

Lemma idempotent_ok {A} key name (id : A -> uuid) dump load body s v s' :
  idempotent (W := W) uuid_str silent_mode ttl key name id dump load body s = (Ok v, s') ->
  (quiet s s' /\ exists p, load p = Ok v) \/ (exists s1 s2, quiet s s1 /\ body s1 = (Ok v, s2) /\ quiet s2 s').
Proof.
  unfold idempotent, idempotent_call. intros (b & s1 & H1 & H)%mbind_ok. apply (respects_run quiet) in H1; [|apply quiet_redis]. destruct b.
  - right. apply mbind_ok in H as (v' & s2 & H2 & H). apply mbind_ok in H as ([] & s3 & H3 & H).
    apply (respects_run quiet) in H3; [|apply quiet_redis]. injection H as -> <-. eauto 10.
  - left. apply mbind_ok in H as (e & s2 & H2 & H). apply (respects_run quiet) in H2; [|apply quiet_redis].
    apply mbind_ok in H as (o & s3 & H3 & H). injection H3 as _ <-. destruct o as [p|]; [|done]. injection H as H <-.
    split; [by etrans | eauto].
Qed.

Lemma flow_of_tool_quiet t : respects quiet (at_env (W := W) (get_flow_run_id_for_tool_run t)).
Proof.
  intros s. unfold at_env. destruct (get_flow_run_id_for_tool_run t (sv_env s.2)) as [r e] eqn:E.
  assert (e = sv_env s.2) as ->; [|done]. clear -E. set (x := sv_env s.2) in *. clearbody x. destruct x as [d w c k], w as [w1 w2 w3].
  unfold get_flow_run_id_for_tool_run, on_tools, repo, get_tool_run, get_node_run, mget, mret, mraise, mbind_, set_world, set_db in E.
  simpl in E.
  repeat (case_match; simplify_eq; simpl in *; try done).
Qed.

(** Creating a tool run.  When [create_tool_run] answers, the parent of the tool run exists, its
    configuration is published, and the flow run was below the tenant's limit; either the answer is the one
    stored under the key, with no tool run added, or exactly the row of the request was added, as created, and
    with a fresh identifier the flow run is still within the limit. *)
Theorem create_tool_run_within_limit tenant endpoint ikey q s v s' :
  create_ tenant endpoint ikey q s = (Ok v, s') ->
  exists f c lim, parent q (rows s) = Some f /\ get_tool_config (tc_config q) = Some c /\ cf_status c = "PUBLISHED" /\
    _get_limits limit_policies limit_versions (Some tenant) = Ok lim /\
    (count_tool_runs_for_flow_run f (sv_env s.2) < lv_max_tool_runs lim)%Z /\
    ((tables s' = tables s /\ exists p, load_tool_run p = Ok v) \/
     (tables s' = <[tw_id v := new_tool_run q v]> (tables s) /\ tw_key v = ikey /\
      (tables s !! tw_id v = None -> (count_tool_runs_for_flow_run f (sv_env s'.2) <= lv_max_tool_runs lim)%Z))).
Proof.
  unfold create_tool_run. intros ([] & s0 & H0 & H)%mbind_ok. injection H0 as _ <-.
  destruct (get_active_billing_policy_version_id tenant) as [billing|]; [|done].
  apply mbind_ok in H as (f & s1 & [Hp Q1]%parent_flow_ok & H).
  apply mbind_ok in H as ([] & s2 & H2%guarded_run_ok & H). apply can_create_ok in H2 as (-> & lim & Hlim & Hcount).
  destruct (get_tool_config (tc_config q)) as [c|] eqn:Hc; [|done].
  apply mbind_ok in H as ([] & s3 & H3 & H). injection H3 as H3 <-. unfold raise_if in H3.
  destruct (String.eqb_spec (cf_status c) "PUBLISHED") as [Hs|]; [|done].
  apply mbind_ok in H as ([] & s4 & H4 & H). apply (respects_run quiet) in H4 as Q4; [|apply compatible_quiet]. clear H4.
  rewrite (count_quiet f _ _ Q1) in Hcount. assert (Q : quiet s s4) by (by etrans). clear Q1 Q4.
  exists f, c, lim. do 5 (split; [done|]).
  apply idempotent_ok in H as [(Q' & p & Hp')|(s5 & s6 & Q5 & H & Q6)].
  { left. destruct Q as (T1 & _), Q' as (T2 & _). split; [congruence | eauto]. }
  right. apply mbind_ok in H as (cor & s7 & H7 & H). apply (respects_run quiet) in H7 as Q7; [|apply quiet_correlation].
  assert (QA : quiet s s7) by (etrans; [exact Q|]; by etrans). clear Q Q5 Q7 H7.
  apply mbind_ok in H as (t & s8 & H8 & H). injection H8 as Ht <-.
  apply mbind_ok in H as (f' & s9 & H9 & H). apply (respects_run quiet) in H9 as Q9; [|apply flow_of_tool_quiet].
  apply mbind_ok in H as (o & s10 & H10 & H). apply (respects_run quiet) in H10 as Q10; [|by apply quiet_db].
  destruct o as [r|]; [|done]. apply mbind_ok in H as ([] & s11 & H11 & H).
  apply (respects_run quiet) in H11 as Q11; [|apply quiet_append]. injection H as <- <-. simpl.
  assert (QB := transitivity Q9 (transitivity Q10 (transitivity Q11 Q6))).
  destruct QA as (T1 & N1 & A1), QB as (T2 & N2 & A2). change (rows (_, _)) with (rows s7) in N2, A2.
  assert (HT : tables s' = <[t := new_tool_run q {| tw_id := t; tw_config := tc_config q; tw_agent_run := tc_agent_run q;
     tw_node_run := tc_node_run q; tw_status := "CREATED"; tw_canonical := "CREATED"; tw_correlation := cor; tw_input := tc_input q;
     tw_key := ikey; tw_side_effect := tc_side_effect q; tw_billing := billing |}]> (tables s)).
  { rewrite T2. rewrite <- T1, <- Ht. done. }
  split_and!; [exact HT | done |]. intros Hf. erewrite count_new; [| exact Hp | | exact HT | congruence | congruence]; [lia | done].
Qed.
End facts.

(** ** Creating and completing agent runs *)

Section agent_facts.
Context {W : Type}.
Variable uuid_str : uuid -> string.
Variable batch_size : nat.
Variable session_tenant : uuid -> option uuid.
Variable get_node : uuid -> option node_row.
Variable get_agent_version : uuid -> option version_row.
Variable get_active_agent_version_id : uuid -> option uuid.
Variable get_ai_execution_policy_version : uuid -> option policy_row.
Variable get_model : uuid -> option string.
Variable get_rag_config : uuid -> option rag_row.
Variable get_active_billing_policy_version_id : uuid -> option uuid.
Variable sha256 : string -> string.

(** The retrieval a node and an agent version name together. *)
Definition effective_rag (nd : node_row) (v : version_row) : option uuid :=
  match nd_rag nd with Some r => Some r | None => vr_rag v end.

(** Retrieval is of the tenant, and of a kind the node allows. *)
Definition rag_allowed (tenant : uuid) (nd : node_row) (rc : rag_row) : Prop :=
  rg_tenant rc = tenant /\
  match rg_kind rc with
  | TENANT_KNOWLEDGE | TOOL_CATALOG => nd_allow_rag nd = true
  | USER_MEMORY => nd_allow_structured nd = true \/ nd_allow_vector nd = true
  end.

Lemma run_check_rag_ok tenant nd v e :
  check_rag get_rag_config tenant nd v = Ok e ->
  e = effective_rag nd v /\ forall r, e = Some r -> exists rc, get_rag_config r = Some rc /\ rag_allowed tenant nd rc.
Proof.
  unfold check_rag, rag_allowed. fold (effective_rag nd v). destruct (effective_rag nd v) as [r|]; [|by intros [= <-]].
  destruct (get_rag_config r) as [rc|] eqn:E; [|done]. case_bool_decide as Ht; [|done]. simpl.
  destruct (rg_kind rc) eqn:Hk.
  - destruct (nd_allow_rag nd) eqn:Ha; [|done]. intros [= <-]. split; [done|]. intros ? [= <-]. exists rc. by rewrite Hk.
  - destruct (nd_allow_structured nd || nd_allow_vector nd) eqn:Ha; [|done]. intros [= <-]. split; [done|].
    intros ? [= <-]. exists rc. rewrite Hk. apply orb_true_iff in Ha. tauto.
  - destruct (nd_allow_rag nd) eqn:Ha; [|done]. intros [= <-]. split; [done|]. intros ? [= <-]. exists rc. by rewrite Hk.
Qed.

(** What an agent run is created for.  The checks pass only for the active, published version of an
    agent, with a published execution policy, an active billing policy of the tenant, and no retrieval or
    retrieval of this tenant that the node allows. *)
Theorem agent_contract_checked tenant node q model billing prompt_hash snapshot policy :
  agent_contract uuid_str get_node get_agent_version get_active_agent_version_id get_ai_execution_policy_version get_model
    get_rag_config get_active_billing_policy_version_id sha256 tenant node q = Ok (model, billing, prompt_hash, snapshot, policy) ->
  exists nd v p, get_node node = Some nd /\ get_agent_version (ac_version q) = Some v /\ vr_status v = "PUBLISHED" /\
    get_active_agent_version_id (vr_agent v) = Some (ac_version q) /\ vr_policy v = Some policy /\
    get_ai_execution_policy_version policy = Some p /\ pl_status p = "PUBLISHED" /\ model = get_model (pl_model p) /\
    get_active_billing_policy_version_id tenant = Some billing /\
    (forall r, effective_rag nd v = Some r -> exists rc, get_rag_config r = Some rc /\ rag_allowed tenant nd rc).
Proof.
  unfold agent_contract, rbind, raise_if. destruct (get_node node) as [nd|]; [|done].
  destruct (get_agent_version (ac_version q)) as [v|]; [|done].
  destruct (String.eqb_spec (vr_status v) "PUBLISHED"); [|done]. case_bool_decide as Ha; [|done]. simpl.
  destruct (vr_policy v) as [pid|] eqn:Hv; [|done]. destruct (get_ai_execution_policy_version pid) as [p|] eqn:Hp; [|done].
  destruct (String.eqb_spec (pl_status p) "PUBLISHED"); [|done]. simpl.
  destruct (check_rag get_rag_config tenant nd v) as [eff|] eqn:He; [|done]. apply run_check_rag_ok in He as [-> Hr].
  destruct (get_active_billing_policy_version_id tenant) as [b|]; [|done]. intros [= <- <- <- <- <-].
  exists nd, v, p. split_and!; done.
Qed.

Abbreviation complete_ := (complete_agent_run (W := W) uuid_str batch_size session_tenant).

Lemma update_agent_run_rows a status output error tokens cost (s s' : redis * services W) :
  update_agent_run a status output error tokens cost s = (Ok tt, s') ->
  exists r, agent_runs (rows s) !! a = Some r /\ agent_runs (rows s') = <[a := {|
    ar_node_run := ar_node_run r; ar_agent_version := ar_agent_version r; ar_input := ar_input r; ar_status := status;
    ar_output := PDict output; ar_tokens := match tokens with (PInt i, PInt o) => Some (i, o) | _ => None end;
    ar_finished := true |}]> (agent_runs (rows s)).
Proof.
  unfold update_agent_run. intros (x & s1 & H1 & H)%mbind_ok. injection H1 as <- <-. fold (rows s) in H.
  destruct (agent_runs (rows s) !! a) as [r|]; [|done]. apply mbind_ok in H as ([] & s2 & H2 & H). injection H2 as <-.
  injection H as <-. by exists r.
Qed.

#[local] Instance agent_frame_ : EventFrame agent_runs.
Proof. by split. Qed.

Lemma append_agent_runs tenant session f c ty payload (s s' : redis * services W) r :
  append batch_size tenant session f c ty payload s = (r, s') -> agent_runs (rows s') = agent_runs (rows s).
Proof.
  unfold append, at_db, at_env, repo, mbind_, mret.
  match goal with |- context [append_execution_event ?b ?x ?d (db (sv_env s.2))] =>
    pose proof (append_frame agent_runs b x d (db (sv_env s.2))) as H; destruct (append_execution_event b x d _) as [[]] end;
    by intros [= <- <-].
Qed.

Lemma context_agent_runs f (s s' : redis * services W) r :
  at_env (flow_context session_tenant f) s = (r, s') -> agent_runs (rows s') = agent_runs (rows s).
Proof.
  unfold at_env, rows. destruct s as [x [[d w c k] y]]. unfold flow_context, repo, get_flow_run, mbind_, mget, mret, mraise. simpl.
  repeat (case_match; simplify_eq; simpl); by intros [= <- <-].
Qed.

(** Completing an agent run: an answer comes with the row completed, with the normal form of the output; no other
    agent run changes, and an output its schema rejects is never answered. *)
Theorem complete_agent_run_outcome py_str a raw schema metrics (s s' : redis * services W) v :
  complete_ py_str a raw schema metrics s = (Ok v, s') ->
  exists output r r', from_option (fun f => f raw) (Ok raw) schema = Ok output /\ aw_output v = PDict output /\
    agent_runs (rows s) !! a = Some r /\ agent_runs (rows s') = <[a := r']> (agent_runs (rows s)) /\
    ar_status r' = "COMPLETED" /\ ar_output r' = PDict output /\ ar_finished r' = true.
Proof.
  unfold complete_agent_run. intros (z & s1 & H1 & H)%mbind_ok. injection H1 as <- <-. fold (rows s) in H.
  destruct (agent_runs (rows s) !! a) as [r|] eqn:Hr; [|done]. destruct (sv_details s.2 !! a) as [d|]; [|done].
  apply mbind_ok in H as (nr & s2 & H2 & H). injection H2 as <- <-. fold (rows s) in H.
  destruct (from_option (fun f => f raw) (Ok raw) schema) as [output|errors].
  - apply mbind_ok in H as ([] & s3 & (r0 & Hr0 & H3)%update_agent_run_rows & H).
    change (rows (_, _)) with (rows s) in Hr0, H3.
    destruct (node_runs (rows s) !! ar_node_run r) as [n|]; [|done].
    apply mbind_ok in H as (ctx & s4 & H4%context_agent_runs & H). apply mbind_ok in H as ([] & s5 & H5%append_agent_runs & H).
    injection H as <- <-. eexists output, r, _. split_and!; [done | done | done | by rewrite H5, H4, H3 | done..].
  - destruct (node_runs (rows s) !! ar_node_run r) as [n|]; [|done]. apply mbind_ok in H as (? & ? & _ & H).
    apply mbind_ok in H as (? & ? & _ & H). by apply mbind_ok in H as (? & ? & _ & H).
Qed.
End agent_facts.

(** ** Concrete requests *)

Module Shop.
(** Tenant 1 has session 3 with flow run 7 and its node run 20; configuration 90 belongs to tenant 2. *)
Definition session_tenant (s : uuid) : option uuid := if (s =? 3)%N then Some 1%N else None.
Definition limits (n : Z) : list (version limit_version) :=
  [{| v_policy := 4; v_status := "PUBLISHED"; v_number := (1, (0, (0, 0)))%Z;
      v_body := {| lv_max_agent_runs := n; lv_max_tool_runs := n |} |}].
Definition config (c : uuid) : option config_row :=
  if (c =? 90)%N then Some {| cf_tenant := 2; cf_status := "PUBLISHED"; cf_schema := None; cf_hash := None |} else None.
Definition tool (c : uuid) : option tool_config :=
  if (c =? 90)%N then Some {| tcf_tenant := 2; tcf_config := [("url", PStr "https://two.example");
    ("headers", PDict [("Authorization", PDict [("secret_ref", PStr "two/key")])])] |}
  else None.

(** What is outside: the requests that were sent. *)
Definition send (q : http_request) (w : list (string * pydict)) : res exc pydict * list (string * pydict) :=
  (Ok [("status_code", PInt 200)], w ++ [(hq_url q, hq_headers q)]).
Definition secret (ref : string) (w : list (string * pydict)) : res exc string * list (string * pydict) :=
  (Ok ("secret of " +:+ ref), w).

Definition run_7 : flow_run := {|
  fr_session := 3; fr_version := 1; fr_correlation := 4; fr_snapshot := None; fr_user := "ana"; fr_status := "RUNNING";
  fr_canonical := "RUNNING"; fr_input := PDict []; fr_output := PDict []; fr_error := PDict []; fr_finished := false;
  fr_interaction := Some 30%N; fr_turn_index := 0; fr_workflow := None |}.

Definition start : redis * services (list (string * pydict)) :=
  (empty_redis, {|
    sv_env := {| db := set_node_runs {[20%N := {| nr_flow := 7; nr_node := 1; nr_input := PNone; nr_output := PNone;
                                                  nr_status := "RUNNING"; nr_canonical := "RUNNING"; nr_finished := false |}]}
                         (set_flow_runs {[7%N := run_7]} empty_store);
                 world := {| nw_tools := {| next_run_id := 500; runs := ∅; messages := []; run_events := []; artifacts := [];
                                            tool_runs := ∅; run_failures := []; delegations := ∅; usage := []; outside := [] |};
                             nw_responses := []; nw_sla := {| cases := []; policies := []; rules := []; sla_now := 0; sla_next := 0 |} |};
                 counters := ∅; loop_keys := [] |};
    sv_details := ∅ |}).

Definition request : ToolRunCreate := {|
  tc_config := 90; tc_agent_run := None; tc_node_run := Some 20%N; tc_correlation := Some 4%N; tc_input := [];
  tc_side_effect := true |}.

Definition create (max : Z) : M (redis * services (list (string * pydict))) ToolRun :=
  create_tool_run (fun _ => "uuid") 20 true 3600 [(1%N, 4%N)] (limits max) (fun _ => None) (fun _ => Some 8%N) config
    (fun _ => PDict []) (fun _ => Err PyValueError) 1 "/tool-runs" "k" request.

Definition execute (t : uuid) : M (redis * services (list (string * pydict))) pydict :=
  at_env (execute_tool_run (fun _ => "uuid") (fun _ => None) (fun _ => None) (fun _ => "text") (fun _ => "error") 20 send secret
            (fun _ => true) tool session_tenant 0 (fun _ => 0%Z) t).

(** The boundary's check of a tool run, for a caller of tenant 1. *)
Definition admitted (t : uuid) (s : redis * services (list (string * pydict))) : res exc unit :=
  (_assert_tool_run_tenant session_tenant (fun t => (fun x => (tl_node_run x, tl_agent_run x)) <$> tables s !! t)
     {| au_tenant := Some 1%N; au_principal_type := "user"; au_principal_id := "u"; au_scopes := [];
        au_token_issuer := "core"; au_token_audience := "core"; au_expires_at := 9999999999 |} t
     {| gv_redis := s.1; gv_db := rows s |}).1.
End Shop.

(** A published tool of another tenant can be run.  Neither the creation of a tool run nor its execution
    compares the tenant of the configuration with the caller's: the run is created, passes the boundary's check,
    and its request is sent to the other tenant's address with the other tenant's secret. *)
Theorem foreign_tool_config_runs :
  exists v s1 s2 out, Shop.create 10 Shop.start = (Ok v, s1) /\ cf_tenant <$> Shop.config (tw_config v) = Some 2%N /\
    Shop.admitted (tw_id v) s1 = Ok tt /\ Shop.execute (tw_id v) s1 = (Ok out, s2) /\
    outside (nw_tools (world (sv_env s2.2))) =
      [("https://two.example", [("Accept-Encoding", PStr "identity"); ("Authorization", PStr "secret of two/key")])].
Proof. eexists _, _, _, _. split; [vm_compute; reflexivity|]. split; [done|]. split; [vm_compute; reflexivity|]. split; vm_compute; reflexivity. Qed.

(** The limit is checked before the key.  A request that used the last slot is refused when it is
    repeated with the same key, and the refusal is recorded as a new event. *)
Theorem repeated_request_hits_limit :
  exists v s1 s2, Shop.create 1 Shop.start = (Ok v, s1) /\
    Shop.create 1 s1 = (Err (LimitExceededException "max_tool_runs_exceeded"), s2) /\
    map (fun e => ed_type (ev_data e)) (events (rows s2)) = ["ToolInvocationRequested"; "LimitExceeded"].
Proof. eexists _, _, _. split; [vm_compute; reflexivity|]. split; vm_compute; reflexivity. Qed.

Lemma create_tool_run_within_limit_witness :
  exists v s1, Shop.create 10 Shop.start = (Ok v, s1) /\ exists f lim, parent Shop.request (rows Shop.start) = Some f /\
    (count_tool_runs_for_flow_run f (sv_env Shop.start.2) < lv_max_tool_runs lim)%Z.
Proof.
  destruct (Shop.create 10 Shop.start) as [[v|e] s1] eqn:H; [|vm_compute in H; discriminate].
  exists v, s1. split; [done|]. unfold Shop.create in H.
  destruct (create_tool_run_within_limit _ _ _ _ _ _ _ _ _ _ _ _ _ _ _ _ _ _ H) as (f & c & lim & H1 & _ & _ & _ & H2 & _).
  exists f, lim. split; [exact H1 | exact H2].
Defined.

(** A flow run is never read back by [get_flow_run]: once its row is found, the call for its events lacks an
    argument. *)
Theorem read_flow_run_fails {W} uuid_parse f u r (s : redis * services W) :
  uuid_parse f = Some u -> flow_runs (rows s) !! u = Some r -> (read_flow_run uuid_parse f s).1 = Err PyTypeError.
Proof.
  intros Hu Hr. unfold read_flow_run, named_flow_run. rewrite Hu. unfold rows in Hr.
  unfold at_db, at_env, repo, get_flow_run, mbind_, mget, mret. simpl. by rewrite Hr.
Qed.
