(* ===== verification/FlowAuthoring.v ===== *)
(** * FlowAuthoring: flows, their versions, graphs and deployments

    [src/src/domain/flows/services/flows_service.py] over
    [src/src/domain/flows/repositories/flows_repository.py].

    The state is the authoring tables.  Graph drafts are validated and compiled by the
    definitions of [FlowGraph] and [DraftGraph]; the snapshots are those that [FlowService]
    runs.  Identifiers given as strings are taken as parsed.  Templates, prompts, retrieval
    configurations and limit policies are read only. *)

From S2P Require Import Prelude.
From S2P Require Import Errors.
From S2P Require Import PyValue.
From S2P Require Import PyString.
From S2P Require Import StateMachine.
From S2P Require Import Sorting.
From S2P Require Import FlowGraph.
From S2P Require Import EdgeEvaluator.
From S2P Require Import ConditionEvaluator.
From S2P Require Import DraftGraph.
From S2P Require Import GraphCompiler.
From S2P Require Import Effects.
From S2P Require Import Store.
From S2P Require Import Redis.
From S2P Require Import FlowService.

(** ** Tables *)

Inductive VersionStatus : Type := VS_DRAFT | VS_VALIDATED | VS_PUBLISHED | VS_DEPRECATED | VS_DISABLED.
#[global] Instance VersionStatus_eq_dec : EqDecision VersionStatus.
Proof. solve_decision. Defined.

(** [Flow] and its row. *)
Record flow_row : Type := {
  fl_tenant : uuid;
  fl_name : string;
  fl_description : option string;
  fl_tags : list string;
  fl_created_by : string;
}.

Record version_number : Type := {
  vn_major : Z;
  vn_minor : Z;
  vn_patch : Z;
}.
Record min_agent : Type := {
  ma_major : option Z;
  ma_minor : option Z;
  ma_patch : option Z;
}.
Record version_row : Type := {
  ve_flow : uuid;
  ve_status : VersionStatus;
  ve_number : version_number;
  ve_min_agent : min_agent;
  ve_active : bool;
}.

(** What a node may use. *)
Record node_rights : Type := {
  allow_rag_tenant : bool;
  allow_user_memory_structured : bool;
  allow_user_memory_vector : bool;
  rag_config_id : option uuid;
  allow_session_context : bool;
  allow_memory_write : bool;
}.
Record node_row : Type := {
  no_version : uuid;
  no_prompt : uuid;
  no_rights : node_rights;
  no_spec : option FlowGraphNodeSpec;
  no_template : option uuid;
}.
Record draft_row : Type := {
  dr_definition : FlowGraphDefinition;
  dr_status : VersionStatus;
}.

(** The row of a flow snapshot: the part the runtime reads, its hash and the frozen retrieval. *)
Record frozen_rag : Type := {
  fz_config : option uuid;
  fz_rule : option uuid;
  fz_policy : option uuid;
  fz_hash : option string;
}.
Record snapshot_row : Type := {
  sr_snapshot : flow_snapshot;
  sr_hash : string;
  sr_frozen : frozen_rag;
}.
Record deployment : Type := {
  dp_id : uuid;
  dp_flow : uuid;
  dp_version : uuid;
  dp_snapshot : uuid;
  dp_environment : string;
  dp_active : bool;
}.
Record routing_rule : Type := {
  rr_router : uuid;
  rr_condition : uuid;
  rr_from : uuid;
  rr_to : uuid;
}.
Record authoring_event : Type := {
  ae_tenant : uuid;
  ae_resource : string;
  ae_resource_id : uuid;
  ae_version : option uuid;
  ae_type : string;
  ae_change : string;
  ae_principal : string;
  ae_justification : string;
}.

Record authoring : Type := {
  au_next : uuid;
  au_flows : gmap uuid flow_row;
  au_versions : gmap uuid version_row;
  au_nodes : gmap uuid node_row;
  au_graphs : gmap uuid FlowGraphDefinition;
  au_drafts : gmap uuid draft_row;
  au_graph_snapshots : gmap uuid graph_snapshot;
  au_snapshots : gmap uuid snapshot_row;
  au_policies : gmap uuid (string * pydict);
  au_bindings : gmap uuid (list pydict);
  au_deployments : list deployment;
  au_routers : gmap uuid uuid;
  au_conditions : gmap uuid (option string);
  au_rules : gmap uuid routing_rule;
  au_events : list authoring_event;
}.

Definition set_next v s := Build_authoring v (au_flows s) (au_versions s) (au_nodes s) (au_graphs s) (au_drafts s)
  (au_graph_snapshots s) (au_snapshots s) (au_policies s) (au_bindings s) (au_deployments s) (au_routers s) (au_conditions s)
  (au_rules s) (au_events s).
Definition set_flows v s := Build_authoring (au_next s) v (au_versions s) (au_nodes s) (au_graphs s) (au_drafts s)
  (au_graph_snapshots s) (au_snapshots s) (au_policies s) (au_bindings s) (au_deployments s) (au_routers s) (au_conditions s)
  (au_rules s) (au_events s).
Definition set_versions v s := Build_authoring (au_next s) (au_flows s) v (au_nodes s) (au_graphs s) (au_drafts s)
  (au_graph_snapshots s) (au_snapshots s) (au_policies s) (au_bindings s) (au_deployments s) (au_routers s) (au_conditions s)
  (au_rules s) (au_events s).
Definition set_nodes v s := Build_authoring (au_next s) (au_flows s) (au_versions s) v (au_graphs s) (au_drafts s)
  (au_graph_snapshots s) (au_snapshots s) (au_policies s) (au_bindings s) (au_deployments s) (au_routers s) (au_conditions s)
  (au_rules s) (au_events s).
Definition set_graphs v s := Build_authoring (au_next s) (au_flows s) (au_versions s) (au_nodes s) v (au_drafts s)
  (au_graph_snapshots s) (au_snapshots s) (au_policies s) (au_bindings s) (au_deployments s) (au_routers s) (au_conditions s)
  (au_rules s) (au_events s).
Definition set_drafts v s := Build_authoring (au_next s) (au_flows s) (au_versions s) (au_nodes s) (au_graphs s) v
  (au_graph_snapshots s) (au_snapshots s) (au_policies s) (au_bindings s) (au_deployments s) (au_routers s) (au_conditions s)
  (au_rules s) (au_events s).
Definition set_graph_snapshots v s := Build_authoring (au_next s) (au_flows s) (au_versions s) (au_nodes s) (au_graphs s)
  (au_drafts s) v (au_snapshots s) (au_policies s) (au_bindings s) (au_deployments s) (au_routers s) (au_conditions s)
  (au_rules s) (au_events s).
Definition set_snapshots v p b s := Build_authoring (au_next s) (au_flows s) (au_versions s) (au_nodes s) (au_graphs s)
  (au_drafts s) (au_graph_snapshots s) v p b (au_deployments s) (au_routers s) (au_conditions s) (au_rules s) (au_events s).
Definition set_deployments v s := Build_authoring (au_next s) (au_flows s) (au_versions s) (au_nodes s) (au_graphs s)
  (au_drafts s) (au_graph_snapshots s) (au_snapshots s) (au_policies s) (au_bindings s) v (au_routers s) (au_conditions s)
  (au_rules s) (au_events s).
Definition set_routing r c q s := Build_authoring (au_next s) (au_flows s) (au_versions s) (au_nodes s) (au_graphs s)
  (au_drafts s) (au_graph_snapshots s) (au_snapshots s) (au_policies s) (au_bindings s) (au_deployments s) r c q (au_events s).
Definition set_events v s := Build_authoring (au_next s) (au_flows s) (au_versions s) (au_nodes s) (au_graphs s) (au_drafts s)
  (au_graph_snapshots s) (au_snapshots s) (au_policies s) (au_bindings s) (au_deployments s) (au_routers s) (au_conditions s)
  (au_rules s) v.

Abbreviation A := (M authoring).

(** ** The repository *)

(** A primary key. *)
Definition new_id : A uuid := fun s => (Ok (au_next s), set_next (au_next s + 1)%N s).

Definition append_event (tenant : uuid) (resource : string) (id : uuid) (version : option uuid)
    (type change principal justification : string) : A unit :=
  mmodify (fun s => set_events (au_events s ++ [{| ae_tenant := tenant; ae_resource := resource; ae_resource_id := id;
    ae_version := version; ae_type := type; ae_change := change; ae_principal := principal;
    ae_justification := justification |}]) s).

(** [set_flow_version_status]. *)
Definition with_version_status (st : VersionStatus) (v : version_row) : version_row := {|
  ve_flow := ve_flow v; ve_status := st; ve_number := ve_number v; ve_min_agent := ve_min_agent v; ve_active := ve_active v |}.
Definition set_flow_version_status (v : uuid) (st : VersionStatus) : A unit :=
  let* s := mget in
  match au_versions s !! v with
  | None => mraise (NotFoundServiceException "flow_version_not_found")
  | Some r => mmodify (fun s => set_versions (<[v := with_version_status st r]> (au_versions s)) s)
  end.

(** [list_nodes_for_flow_version]. *)
Definition list_nodes_for_flow_version (v : uuid) (s : authoring) : list node_row :=
  filter (fun n => no_version n = v) (map snd (map_to_list (au_nodes s))).

(** [create_flow_graph]. *)
Definition insert_flow_graph (v : uuid) (d : FlowGraphDefinition) : A unit :=
  let* s := mget in
  match au_graphs s !! v with
  | Some _ => mraise (NotFoundServiceException "flow_graph_exists")
  | None => mmodify (fun s => set_graphs (<[v := d]> (au_graphs s)) s)
  end.

(** [get_active_flow_version_id]; more than one active version raises. *)
Definition active_versions (f : uuid) (s : authoring) : list uuid :=
  omap (fun kv => if bool_decide (ve_flow kv.2 = f) && ve_active kv.2 then Some kv.1 else None) (map_to_list (au_versions s)).

(** [upsert_active_flow_version]: one transaction. *)
Definition with_active (b : bool) (v : version_row) : version_row := {|
  ve_flow := ve_flow v; ve_status := ve_status v; ve_number := ve_number v; ve_min_agent := ve_min_agent v; ve_active := b |}.
Definition upsert_active_flow_version (f v : uuid) : A unit :=
  let* s := mget in
  match au_versions s !! v with
  | None => mraise (NotFoundServiceException "flow_version_not_found")
  | Some r =>
      if bool_decide (ve_flow r = f) then
        mmodify (fun s => set_versions (<[v := with_active true r]>
          ((fun x => if bool_decide (ve_flow x = f) then with_active false x else x) <$> au_versions s)) s)
      else mraise (NotFoundServiceException "flow_version_not_found")
  end.

(** [upsert_flow_graph_draft]: a changed draft has to be validated again. *)
Definition put_draft (v : uuid) (d : FlowGraphDefinition) : A unit :=
  mmodify (fun s => set_drafts (<[v := {| dr_definition := d; dr_status := VS_DRAFT |}]> (au_drafts s)) s).

(** [validate_flow_graph_draft]. *)
Definition mark_draft_validated (v : uuid) : A unit :=
  let* s := mget in
  match au_drafts s !! v with
  | None => mraise (NotFoundServiceException "flow_graph_draft_not_found")
  | Some d => mmodify (fun s => set_drafts (<[v := {| dr_definition := dr_definition d; dr_status := VS_VALIDATED |}]>
                                              (au_drafts s)) s)
  end.

(** [create_flow_graph_snapshot]; the hash is unique in the table. *)
Definition create_flow_graph_snapshot (v : uuid) (g : Snapshot) (hash : string) : A graph_snapshot :=
  let* s := mget in
  match au_graph_snapshots s !! v with
  | Some _ => mraise (NotFoundServiceException "flow_graph_snapshot_exists")
  | None =>
      let* i := new_id in
      if existsb (fun kv => String.eqb (gsn_hash kv.2) hash) (map_to_list (au_graph_snapshots s))
      then mraise (ExternalError "IntegrityError" "flow_graph_snapshot.graph_hash")
      else
        let row := {| gsn_id := i; gsn_graph := g; gsn_hash := hash |} in
        mmodify (fun s => set_graph_snapshots (<[v := row]> (au_graph_snapshots s)) s) ;;*
        mret row
  end.

(** [upsert_flow_snapshot]; the hash is unique in the table. *)
Definition upsert_flow_snapshot (v : uuid) (hash : string) (snapshot policy tools : pydict) (llm_hash : option string)
    (fz : frozen_rag) : A flow_snapshot :=
  let* s := mget in
  if existsb (fun kv => negb (kv.1 =? v)%N && String.eqb (sr_hash kv.2) hash) (map_to_list (au_snapshots s))
  then mraise (ExternalError "IntegrityError" "flow_snapshot.snapshot_hash")
  else
    let* i := match au_snapshots s !! v with Some r => mret (fsn_id (sr_snapshot r)) | None => new_id end in
    let row := {| fsn_id := i; fsn_snapshot := snapshot; fsn_policy := policy; fsn_tools := tools; fsn_llm_hash := llm_hash |} in
    mmodify (fun s => set_snapshots (<[v := {| sr_snapshot := row; sr_hash := hash; sr_frozen := fz |}]> (au_snapshots s))
                        (au_policies s) (au_bindings s) s) ;;*
    mret row.

(** [upsert_snapshot_effective_policy] and [replace_snapshot_bindings]. *)
Definition upsert_snapshot_effective_policy (i : uuid) (hash : string) (definition : pydict) : A unit :=
  mmodify (fun s => set_snapshots (au_snapshots s) (<[i := (hash, definition)]> (au_policies s)) (au_bindings s) s).
Definition replace_snapshot_bindings (i : uuid) (bindings : list pydict) : A unit :=
  mmodify (fun s => set_snapshots (au_snapshots s) (au_policies s) (<[i := bindings]> (au_bindings s)) s).

(** [upsert_flow_deployment]: the active deployment of the environment gives way. *)
Definition in_slot (f : uuid) (env : string) (d : deployment) : bool :=
  (dp_flow d =? f)%N && String.eqb (dp_environment d) env && dp_active d.
Definition retire (f : uuid) (env : string) (d : deployment) : deployment :=
  if in_slot f env d
  then {| dp_id := dp_id d; dp_flow := dp_flow d; dp_version := dp_version d; dp_snapshot := dp_snapshot d;
          dp_environment := dp_environment d; dp_active := false |}
  else d.
Definition upsert_flow_deployment (f v snapshot : uuid) (env : string) : A deployment :=
  let* i := new_id in
  let row := {| dp_id := i; dp_flow := f; dp_version := v; dp_snapshot := snapshot; dp_environment := env; dp_active := true |} in
  mmodify (fun s => set_deployments (map (retire f env) (au_deployments s) ++ [row]) s) ;;*
  mret row.

(** [get_active_flow_deployment] of the runtime's repository. *)
Definition get_active_flow_deployment (f : uuid) (s : authoring) : option deployment :=
  find (in_slot f "default") (au_deployments s).

(** *** Versions *)

(** [FlowVersionCreate]. *)
Record FlowVersionCreate : Type := {
  vc_source : option uuid;
  vc_major : option Z;
  vc_minor : option Z;
  vc_patch : option Z;
  vc_min_agent : min_agent;
}.

Definition number_key (n : version_number) : Z * (Z * Z) := (vn_major n, (vn_minor n, vn_patch n)).
(** Descending order of version numbers. *)
Definition newer_number : relation (Z * (Z * Z)) := lex (flip Z.le) (lex (flip Z.le) (flip Z.le)).
#[global] Instance newer_number_dec : RelDecision newer_number := _.

Definition versions_of (f : uuid) (s : authoring) : list (uuid * version_row) :=
  sorted_by newer_number (fun kv => number_key (ve_number kv.2))
    (filter (fun kv => ve_flow kv.2 = f) (map_to_list (au_versions s))).

(** [list_flow_versions]. *)
Definition list_flow_versions_rows (f : uuid) (status_filter : list VersionStatus) (s : authoring) :
    list (uuid * version_row) :=
  match status_filter with
  | [] => versions_of f s
  | l => filter (fun kv => ve_status kv.2 ∈ l) (versions_of f s)
  end.

(** The number of a new version: as asked for, after the source, after the newest, or [1.0.0]. *)
Definition next_number (major minor patch : option Z) (source last : option version_number) : version_number :=
  let major := match major with Some x => Some x | None => vn_major <$> source end in
  let minor := match minor with Some x => Some x | None => vn_minor <$> source end in
  let patch := match patch with Some x => Some x | None => (fun n => vn_patch n + 1)%Z <$> source end in
  match major, minor, patch with
  | Some a, Some b, Some c => {| vn_major := a; vn_minor := b; vn_patch := c |}
  | _, _, _ =>
      match last with
      | None => {| vn_major := 1; vn_minor := 0; vn_patch := 0 |}
      | Some l => {| vn_major := default (vn_major l) major; vn_minor := default (vn_minor l) minor;
                     vn_patch := default (vn_patch l + 1)%Z patch |}
      end
  end.
Definition number_of (q : FlowVersionCreate) : option version_number -> option version_number -> version_number :=
  next_number (vc_major q) (vc_minor q) (vc_patch q).

Definition min_agent_of (q : min_agent) (source : option min_agent) : min_agent :=
  match source with
  | None => q
  | Some m => {| ma_major := match ma_major q with Some x => Some x | None => ma_major m end;
                 ma_minor := match ma_minor q with Some x => Some x | None => ma_minor m end;
                 ma_patch := match ma_patch q with Some x => Some x | None => ma_patch m end |}
  end.

(** [create_flow_version] of the repository; numbers are unique within a flow. *)
Definition insert_flow_version (f : uuid) (q : FlowVersionCreate) : A uuid :=
  let* s := mget in
  let* source := match vc_source q with
                 | None => mret None
                 | Some v => match au_versions s !! v with
                             | None => mraise (NotFoundServiceException "source_version_not_found")
                             | Some r => mret (Some r)
                             end
                 end in
  let number := number_of q (ve_number <$> source) ((fun kv => ve_number kv.2) <$> head (versions_of f s)) in
  let* i := new_id in
  if existsb (fun kv => bool_decide (number_key (ve_number kv.2) = number_key number)) (versions_of f s)
  then mraise (ExternalError "IntegrityError" "uq_flow_version_semver")
  else
    mmodify (fun s => set_versions (<[i := {| ve_flow := f; ve_status := VS_DRAFT; ve_number := number;
      ve_min_agent := min_agent_of (vc_min_agent q) (ve_min_agent <$> source); ve_active := false |}]> (au_versions s)) s) ;;*
    mret i.

(** *** Nodes and routing *)

(** [create_node], [create_node_from_template] and [create_custom_node]. *)
Definition insert_node (v prompt : uuid) (rights : node_rights) (spec : option FlowGraphNodeSpec) (template : option uuid) :
    A uuid :=
  let* s := mget in
  match au_versions s !! v with
  | None => mraise (NotFoundServiceException "flow_version_not_found")
  | Some _ =>
      let* i := new_id in
      mmodify (fun s => set_nodes (<[i := {| no_version := v; no_prompt := prompt; no_rights := rights; no_spec := spec;
                                             no_template := template |}]> (au_nodes s)) s) ;;*
      mret i
  end.

(** [create_router], [create_condition_expression] and [create_routing_rule]. *)
Definition insert_router (n : uuid) : A uuid :=
  let* s := mget in
  match au_nodes s !! n with
  | None => mraise (NotFoundServiceException "node_not_found")
  | Some _ =>
      let* i := new_id in
      mmodify (fun s => set_routing (<[i := n]> (au_routers s)) (au_conditions s) (au_rules s) s) ;;*
      mret i
  end.
Definition insert_condition (expression : option string) : A uuid :=
  let* i := new_id in
  mmodify (fun s => set_routing (au_routers s) (<[i := expression]> (au_conditions s)) (au_rules s) s) ;;*
  mret i.
Definition required {T} (o : option T) (message : string) : A T :=
  match o with Some x => mret x | None => mraise (NotFoundServiceException message) end.
Definition insert_routing_rule (q : routing_rule) : A uuid :=
  let* s := mget in
  let* rn := required (au_routers s !! rr_router q) "router_not_found" in
  let* _ := required (au_conditions s !! rr_condition q) "condition_expression_not_found" in
  let* from := required (au_nodes s !! rr_from q) "from_node_not_found" in
  let* to := required (au_nodes s !! rr_to q) "to_node_not_found" in
  let* router := required (au_nodes s !! rn) "router_node_not_found" in
  if bool_decide (no_version from = no_version to /\ no_version from = no_version router) then
    let* i := new_id in
    mmodify (fun s => set_routing (au_routers s) (au_conditions s) (<[i := q]> (au_rules s)) s) ;;*
    mret i
  else mraise (DomainValidationException "nodes_must_belong_to_same_flow_version").

(** ** The service *)

Record ChangeRequest : Type := {
  change_type : string;
  justification : string;
}.

(** [DeploymentComposeRequest]; the graph is the validated definition, or its error. *)
Record DeploymentComposeRequest : Type := {
  dc_flow : uuid;
  dc_version : uuid;
  dc_principal : string;
  dc_environment : string;
  dc_definition : res exc FlowGraphDefinition;
  dc_policy : pydict;
  dc_tools : pydict;
  dc_llm_hash : option string;
  dc_bindings : list pydict;
}.
Record DeploymentComposeResponse : Type := {
  dx_snapshot : uuid;
  dx_deployment : uuid;
  dx_version : uuid;
  dx_environment : string;
}.

Record template : Type := {
  tp_active : bool;
  tp_scope : string;
  tp_owner : option uuid;
  tp_type : string;
  tp_config : pydict;
}.
Record NodeTemplateCopyRequest : Type := {
  nt_flow : uuid;
  nt_version : uuid;
  nt_template : option uuid;
  nt_code : option string;
  nt_overrides : pydict;
  nt_rights : node_rights;
}.
Record CustomNodeCreate : Type := {
  cn_flow : uuid;
  cn_version : uuid;
  cn_type : string;
  cn_prompt : uuid;
  cn_config : pydict;
  cn_rights : node_rights;
}.

Section service.
Variable parse_string : string -> option ast.
Variable ast_parse : string -> option pyast.
Variable same : pyval -> pyval -> bool.
Variable model_validate : schema_class -> pydict -> bool.
Variable sha256_json : pyval -> string.
Variable uuid_str : uuid -> string.
(** The services for retrieval: a configuration's tenant and chunking rule, a rule's parameters,
    and the policy of a tenant. *)
Variable has_rag : bool.
Variable get_rag_config : uuid -> option (uuid * uuid).
Variable get_chunking_rule : uuid -> uuid -> option pyval.
Variable rag_policy : uuid -> res exc (option (uuid * pydict)).
(** Templates, prompts and limit policies. *)
Variable get_node_template : uuid -> option template.
Variable template_by_code : string -> option uuid.
Variable get_active_prompt_id_by_node_type : string -> option uuid.
Variable limit_policy : uuid -> option uuid.
Variable limit_policy_published : uuid -> bool.

(** [_hash_dict]. *)
Definition _hash_dict (d : pydict) : string := sha256_json (canonical (PDict d)).

(** The flow of a tenant, and a version of a flow. *)
Definition owned_flow (tenant f : uuid) : A flow_row :=
  let* s := mget in
  match au_flows s !! f with
  | Some r => if bool_decide (fl_tenant r = tenant) then mret r else mraise (NotFoundServiceException "flow_not_found")
  | None => mraise (NotFoundServiceException "flow_not_found")
  end.
Definition version_of (f v : uuid) : A version_row :=
  let* s := mget in
  match au_versions s !! v with
  | Some r => if bool_decide (ve_flow r = f) then mret r else mraise (NotFoundServiceException "flow_version_not_found")
  | None => mraise (NotFoundServiceException "flow_version_not_found")
  end.
Definition owned_version (tenant f v : uuid) : A version_row := owned_flow tenant f ;;* version_of f v.

Definition blocked_unless (b : bool) (message : string) : A unit :=
  mlift (raise_if (negb b) (ResourceBlockedServiceException message)).
Definition in_status (st : VersionStatus) (v : version_row) : bool := bool_decide (ve_status v = st).

(** [_unique_rag_config_id_for_flow_nodes]. *)
Fixpoint unique_rag (found : option uuid) (l : list node_row) : res exc (option uuid) :=
  match l with
  | [] => Ok found
  | n :: l' =>
      match rag_config_id (no_rights n), found with
      | None, _ => unique_rag found l'
      | Some r, None => unique_rag (Some r) l'
      | Some r, Some x => if (x =? r)%N then unique_rag found l'
                          else Err (DomainValidationException "flow_snapshot_rag_config_conflict")
      end
  end.
Definition _unique_rag_config_id_for_flow_nodes (l : list node_row) : res exc (option uuid) := unique_rag None l.

(** [resolve_frozen_rag_snapshot_fields], with [rag_materialization_sha256]. *)
Definition no_rag : frozen_rag := {| fz_config := None; fz_rule := None; fz_policy := None; fz_hash := None |}.
Definition rag_materialization_sha256 (config rule : uuid) (params policy : pydict) : string :=
  sha256_json (canonical (PDict [("rag_config_id", PStr (uuid_str config)); ("chunking_rule_id", PStr (uuid_str rule));
                                 ("params", PDict params); ("policy_definition", PDict policy)])).
Definition resolve_frozen_rag_snapshot_fields (tenant : uuid) (config : option uuid) : res exc frozen_rag :=
  match config with
  | None => Ok no_rag
  | Some c =>
      match get_rag_config c with
      | None => Ok no_rag
      | Some (t, rule) =>
          if negb (t =? tenant)%N then Ok no_rag
          else match get_chunking_rule tenant rule with
               | None => Ok {| fz_config := Some c; fz_rule := None; fz_policy := None; fz_hash := None |}
               | Some params =>
                   let! resolved := rag_policy tenant in
                   let params := match params with PDict p => p | _ => [] end in
                   Ok {| fz_config := Some c; fz_rule := Some rule; fz_policy := fst <$> resolved;
                         fz_hash := Some (rag_materialization_sha256 c rule params (default [] (snd <$> resolved))) |}
               end
      end
  end.
Definition _resolve_frozen_rag_for_flow_version (tenant v : uuid) : A frozen_rag :=
  if negb has_rag then mret no_rag
  else
    let* s := mget in
    let* effective := mlift (_unique_rag_config_id_for_flow_nodes (list_nodes_for_flow_version v s)) in
    mlift (resolve_frozen_rag_snapshot_fields tenant effective).

(** The two assertions on memory-writing nodes. *)
Definition writers (v : uuid) (s : authoring) : list node_row :=
  filter (fun n => allow_memory_write (no_rights n) = true) (list_nodes_for_flow_version v s).
Definition _assert_at_most_one_allow_memory_write_on_create (v : uuid) (r : node_rights) : A unit :=
  if negb (allow_memory_write r) then mret tt
  else
    let* s := mget in
    mlift (raise_if (0 <? length (writers v s)) (DomainValidationException "multiple_nodes_allow_memory_write")).
Definition _assert_flow_version_at_most_one_memory_write (v : uuid) : A unit :=
  let* s := mget in
  mlift (raise_if (1 <? length (writers v s)) (DomainValidationException "multiple_nodes_allow_memory_write")).

(** What is hashed and stored of a snapshot. *)
Definition snapshot_hash_of (graph_hash : string) (policy tools : pydict) (bindings : list pydict) (fz : frozen_rag) : string :=
  _hash_dict [("graph_hash", PStr graph_hash); ("runtime_policy", PDict policy); ("tool_catalog", PDict tools);
              ("bindings", PList (PDict <$> bindings)); ("frozen_rag_materialization_hash", from_option PStr PNone (fz_hash fz))].
Definition snapshot_body (g : graph_snapshot) (graph : Snapshot) : pydict :=
  [("flow_graph_snapshot_id", PStr (uuid_str (gsn_id g))); ("graph_hash", PStr (gsn_hash g)); ("graph", snapshot_value graph)].

(** [_materialize_snapshot_for_flow_version]. *)
Definition _materialize_snapshot_for_flow_version (f v : uuid) (attach : bool) : A unit :=
  let* s := mget in
  match au_graph_snapshots s !! v, au_flows s !! f with
  | Some g, Some fl =>
      let* fz := _resolve_frozen_rag_for_flow_version (fl_tenant fl) v in
      let* snap := upsert_flow_snapshot v (snapshot_hash_of (gsn_hash g) [] [] [] fz) (snapshot_body g (gsn_graph g)) [] [] None fz in
      upsert_snapshot_effective_policy (fsn_id snap) (_hash_dict []) [] ;;*
      replace_snapshot_bindings (fsn_id snap) [] ;;*
      if attach then let* _ := upsert_flow_deployment f v (fsn_id snap) "default" in mret tt else mret tt
  | _, _ => mret tt
  end.

(** [create_flow_graph]. *)
Definition create_flow_graph (tenant f v : uuid) (principal : string) (d : FlowGraphDefinition) : A unit :=
  let* r := owned_version tenant f v in
  blocked_unless (in_status VS_PUBLISHED r) "flow_version_not_published" ;;*
  mlift (FlowGraph.validate d) ;;*
  let* s := mget in
  match au_graphs s !! v with
  | Some _ => mraise (ResourceBlockedServiceException "flow_graph_already_exists")
  | None =>
      insert_flow_graph v d ;;*
      append_event tenant "flow_graph" f (Some v) "FLOW_GRAPH_ATTACHED" "CREATE" principal "attach flow graph"
  end.

(** [upsert_flow_graph_draft]. *)
Definition upsert_flow_graph_draft (tenant f v : uuid) (principal : string) (d : FlowGraphDefinition) : A unit :=
  owned_version tenant f v ;;*
  mlift (FlowGraph.validate d) ;;*
  put_draft v d ;;*
  append_event tenant "flow_graph_draft" f (Some v) "FLOW_GRAPH_DRAFT_SAVED" "UPDATE" principal "save flow graph draft".

Definition draft_of (v : uuid) (e : exc) : A draft_row :=
  let* s := mget in match au_drafts s !! v with Some d => mret d | None => mraise e end.

(** [validate_flow_graph_draft]. *)
Definition validate_flow_graph_draft (tenant f v : uuid) (principal : string) : A unit :=
  owned_flow tenant f ;;*
  let* d := draft_of v (NotFoundServiceException "flow_graph_draft_not_found") in
  mlift (draft_validate parse_string ast_parse same model_validate (dr_definition d)) ;;*
  _assert_flow_version_at_most_one_memory_write v ;;*
  mark_draft_validated v ;;*
  append_event tenant "flow_graph_draft" f (Some v) "FLOW_GRAPH_DRAFT_VALIDATED" "UPDATE" principal "validate flow graph draft".

(** [compile_flow_graph]. *)
Definition compile_flow_graph (tenant f v : uuid) (principal : string) : A graph_snapshot :=
  let* r := owned_version tenant f v in
  blocked_unless (in_status VS_PUBLISHED r) "flow_version_not_published" ;;*
  let* d := draft_of v (NotFoundServiceException "flow_graph_draft_not_found") in
  blocked_unless (bool_decide (dr_status d = VS_VALIDATED)) "flow_graph_draft_not_validated" ;;*
  mlift (draft_validate parse_string ast_parse same model_validate (dr_definition d)) ;;*
  _assert_flow_version_at_most_one_memory_write v ;;*
  let* gh := mlift (compile_snapshot parse_string sha256_json (dr_definition d)) in
  let* g := create_flow_graph_snapshot v gh.1 gh.2 in
  append_event tenant "flow_graph_snapshot" f (Some v) "FLOW_GRAPH_COMPILED" "UPDATE" principal "compile flow graph snapshot" ;;*
  mret g.

(** [validate_flow_version]. *)
Definition validate_flow_version (tenant f v : uuid) : A version_row :=
  let* r := owned_version tenant f v in
  blocked_unless (in_status VS_DRAFT r) "flow_version_not_draft" ;;*
  let* d := draft_of v (DomainValidationException "flow_graph_draft_not_found") in
  mlift (raise_if (negb (bool_decide (dr_status d = VS_VALIDATED))) (DomainValidationException "flow_graph_draft_not_validated")) ;;*
  match limit_policy tenant with
  | None => mraise (ResourceBlockedServiceException "execution_limit_policy_not_configured")
  | Some p =>
      blocked_unless (limit_policy_published p) "execution_limit_policy_not_published" ;;*
      _assert_flow_version_at_most_one_memory_write v ;;*
      set_flow_version_status v VS_VALIDATED ;;*
      let* s := mget in
      required (au_versions s !! v) "flow_version_not_found"
  end.

Definition justified (c : ChangeRequest) : A unit :=
  mlift (raise_if (String.eqb (py_strip (justification c)) "") (DomainValidationException "justification_required")).

(** [publish_flow_version]. *)
Definition publish_flow_version (tenant f v : uuid) (principal : string) (c : ChangeRequest) : A version_row :=
  let* r := owned_version tenant f v in
  blocked_unless (in_status VS_VALIDATED r) "flow_version_not_validated" ;;*
  justified c ;;*
  _assert_flow_version_at_most_one_memory_write v ;;*
  set_flow_version_status v VS_PUBLISHED ;;*
  append_event tenant "flow" f (Some v) "VERSION_PUBLISHED" (change_type c) principal (justification c) ;;*
  _materialize_snapshot_for_flow_version f v false ;;*
  let* s := mget in
  required (au_versions s !! v) "flow_version_not_found".

(** The common part of [activate_flow_version] and [rollback_flow_version]. *)
Definition make_active (tenant f v : uuid) (c : ChangeRequest) : A version_row :=
  let* r := owned_version tenant f v in
  blocked_unless (in_status VS_PUBLISHED r) "flow_version_not_published" ;;*
  justified c ;;*
  let* s := mget in
  match au_graph_snapshots s !! v with
  | None => mraise (ResourceBlockedServiceException "flow_graph_snapshot_missing")
  | Some _ => upsert_active_flow_version f v ;;* mret r
  end.

(** [activate_flow_version]. *)
Definition activate_flow_version (tenant f v : uuid) (principal : string) (c : ChangeRequest) : A version_row :=
  let* r := make_active tenant f v c in
  _materialize_snapshot_for_flow_version f v true ;;*
  append_event tenant "flow" f (Some v) "VERSION_ACTIVATED" (change_type c) principal (justification c) ;;*
  mret r.

(** [rollback_flow_version]. *)
Definition rollback_flow_version (tenant f v : uuid) (principal : string) (c : ChangeRequest) : A version_row :=
  let* r := make_active tenant f v c in
  append_event tenant "flow" f (Some v) "VERSION_ROLLED_BACK" (change_type c) principal (justification c) ;;*
  mret r.

(** *** Deployments *)

(** The body of [compose_deployment]. *)
Definition compose (tenant : uuid) (q : DeploymentComposeRequest) : A DeploymentComposeResponse :=
  let v := dc_version q in
  let* r := owned_version tenant (dc_flow q) v in
  blocked_unless (in_status VS_PUBLISHED r) "flow_version_not_published" ;;*
  let* d := mlift (dc_definition q) in
  mlift (draft_validate parse_string ast_parse same model_validate d) ;;*
  _assert_flow_version_at_most_one_memory_write v ;;*
  let* gh := mlift (compile_snapshot parse_string sha256_json d) in
  let* s := mget in
  let* g := match au_graph_snapshots s !! v with
            | Some g => mret g
            | None => create_flow_graph_snapshot v gh.1 gh.2
            end in
  let* fz := _resolve_frozen_rag_for_flow_version tenant v in
  let* snap := upsert_flow_snapshot v (snapshot_hash_of (gsn_hash g) (dc_policy q) (dc_tools q) (dc_bindings q) fz)
                 (snapshot_body g gh.1) (dc_policy q) (dc_tools q) (dc_llm_hash q) fz in
  upsert_snapshot_effective_policy (fsn_id snap) (_hash_dict (dc_policy q)) (dc_policy q) ;;*
  replace_snapshot_bindings (fsn_id snap) (dc_bindings q) ;;*
  let* dep := upsert_flow_deployment (dc_flow q) v (fsn_id snap) (dc_environment q) in
  mret {| dx_snapshot := fsn_id snap; dx_deployment := dp_id dep; dx_version := v; dx_environment := dp_environment dep |}.

(** [validate_compose_deployment]: the hash the deployment would have. *)
Definition validate_compose_deployment (tenant : uuid) (q : DeploymentComposeRequest) : A string :=
  let v := dc_version q in
  owned_version tenant (dc_flow q) v ;;*
  let* d := mlift (dc_definition q) in
  mlift (draft_validate parse_string ast_parse same model_validate d) ;;*
  _assert_flow_version_at_most_one_memory_write v ;;*
  let* gh := mlift (compile_snapshot parse_string sha256_json d) in
  let* fz := _resolve_frozen_rag_for_flow_version tenant v in
  mret (snapshot_hash_of gh.2 (dc_policy q) (dc_tools q) (dc_bindings q) fz).

(** *** Flows and versions *)

(** [create_flow]. *)
Definition create_flow (tenant : uuid) (name : string) (description : option string) (tags : list string) (principal : string) :
    A uuid :=
  mlift (raise_if (String.eqb (py_strip name) "") (DomainValidationException "flow_name_required")) ;;*
  let* i := new_id in
  mmodify (fun s => set_flows (<[i := {| fl_tenant := tenant; fl_name := py_strip name; fl_description := description;
                                         fl_tags := tags; fl_created_by := principal |}]> (au_flows s)) s) ;;*
  append_event tenant "flow" i None "FLOW_CREATED" "CREATE" principal "create flow" ;;*
  mret i.

(** [list_flows], newest first. *)
Definition list_flows (tenant : uuid) (limit : nat) (s : authoring) : list (uuid * flow_row) :=
  take limit (sorted_by (flip N.le) fst (filter (fun kv => fl_tenant kv.2 = tenant) (map_to_list (au_flows s)))).

(** [list_flow_versions] and [list_nodes]. *)
Definition list_flow_versions (tenant f : uuid) (status_filter : list VersionStatus) : A (list (uuid * version_row)) :=
  owned_flow tenant f ;;* let* s := mget in mret (list_flow_versions_rows f status_filter s).
Definition list_nodes (tenant f v : uuid) : A (list node_row) :=
  owned_version tenant f v ;;* let* s := mget in mret (list_nodes_for_flow_version v s).

(** [create_flow_version]. *)
Definition create_flow_version (tenant f : uuid) (q : FlowVersionCreate) (principal : string) : A uuid :=
  owned_flow tenant f ;;*
  let* i := insert_flow_version f q in
  append_event tenant "flow" f (Some i) "FLOW_VERSION_CREATED" "CREATE" principal "create flow version" ;;*
  mret i.

(** *** Nodes *)

(** The flow of a version, for requests that name only the version. *)
Definition owner_of_version (tenant v : uuid) : A unit :=
  let* s := mget in
  let* r := required (au_versions s !! v) "flow_version_not_found" in
  owned_flow tenant (ve_flow r) ;;* mret tt.

(** [create_node]. *)
Definition create_node (tenant v prompt : uuid) (rights : node_rights) (principal : string) : A uuid :=
  owner_of_version tenant v ;;*
  _assert_at_most_one_allow_memory_write_on_create v rights ;;*
  let* i := insert_node v prompt rights None None in
  append_event tenant "node" i (Some v) "NODE_CREATED" "CREATE" principal "create node" ;;*
  mret i.

(** [definition.nodes[id] = spec]. *)
Fixpoint put_node (id : string) (spec : FlowGraphNodeSpec) (l : list (string * FlowGraphNodeSpec)) :
    list (string * FlowGraphNodeSpec) :=
  match l with
  | [] => [(id, spec)]
  | (k, x) :: l' => if String.eqb k id then (k, spec) :: l' else (k, x) :: put_node id spec l'
  end.

(** The draft after a node was added. *)
Definition draft_with (d : option draft_row) (id : string) (spec : FlowGraphNodeSpec) : FlowGraphDefinition :=
  match d with
  | None => {| start_node := id; nodes := [(id, spec)]; edges := [] |}
  | Some d => {| start_node := start_node (dr_definition d); nodes := put_node id spec (nodes (dr_definition d));
                 edges := edges (dr_definition d) |}
  end.
Definition add_to_draft (v n : uuid) (spec : FlowGraphNodeSpec) : A unit :=
  let* s := mget in put_draft v (draft_with (au_drafts s !! v) (uuid_str n) spec).

(** [copy_node_from_template]. *)
Definition copy_node_from_template (tenant f v t : uuid) (overrides : pydict) (rights : node_rights) (principal : string) :
    A uuid :=
  owned_version tenant f v ;;*
  match get_node_template t with
  | None => mraise (NotFoundServiceException "node_template_not_found")
  | Some tp =>
      blocked_unless (tp_active tp) "node_template_not_active" ;;*
      blocked_unless (negb (String.eqb (tp_scope tp) "tenant" && negb (bool_decide (tp_owner tp = Some tenant))))
        "node_template_not_available_for_tenant" ;;*
      let config := foldl (fun d kv => dict_set kv.1 kv.2 d) (tp_config tp) overrides in
      mlift (validate_node_config model_validate (tp_type tp) (Some config)) ;;*
      match get_active_prompt_id_by_node_type (tp_type tp) with
      | None => mraise (NotFoundServiceException "node_prompt_not_found")
      | Some prompt =>
          _assert_at_most_one_allow_memory_write_on_create v rights ;;*
          let spec := {| type := tp_type tp; config := Some config |} in
          let* n := insert_node v prompt rights (Some spec) (Some t) in
          add_to_draft v n spec ;;*
          append_event tenant "node" n (Some v) "NODE_CREATED_FROM_TEMPLATE" "CREATE" principal "copy node from template" ;;*
          mret n
      end
  end.

(** [copy_node_from_template_request]. *)
Definition copy_node_from_template_request (tenant f v : uuid) (q : NodeTemplateCopyRequest) (principal : string) : A uuid :=
  mlift (raise_if (negb (bool_decide (nt_flow q = f /\ nt_version q = v)))
           (DomainValidationException "flow_id_or_version_mismatch")) ;;*
  let* t := match nt_template q, nt_code q with
            | Some t, _ => mret t
            | None, Some ((String _ _) as code) =>
                match template_by_code code with
                | Some t => mret t
                | None => mraise (NotFoundServiceException "node_template_not_found")
                end
            | None, _ => mraise (DomainValidationException "node_template_identifier_required")
            end in
  copy_node_from_template tenant f v t (nt_overrides q) (nt_rights q) principal.

(** [create_custom_node]. *)
Definition create_custom_node (tenant f v : uuid) (q : CustomNodeCreate) (principal : string) : A uuid :=
  mlift (raise_if (negb (bool_decide (cn_flow q = f /\ cn_version q = v)))
           (DomainValidationException "flow_id_or_version_mismatch")) ;;*
  owned_version tenant f v ;;*
  mlift (validate_node_config model_validate (cn_type q) (Some (cn_config q))) ;;*
  _assert_at_most_one_allow_memory_write_on_create v (cn_rights q) ;;*
  let spec := {| type := cn_type q; config := Some (cn_config q) |} in
  let* n := insert_node v (cn_prompt q) (cn_rights q) (Some spec) None in
  add_to_draft v n spec ;;*
  append_event tenant "node" n (Some v) "NODE_CREATED_CUSTOM" "CREATE" principal "create custom node" ;;*
  mret n.

(** *** Routing *)

(** [create_router]. *)
Definition create_router (tenant n : uuid) (principal : string) : A uuid :=
  let* s := mget in
  let* nd := required (au_nodes s !! n) "node_not_found" in
  owner_of_version tenant (no_version nd) ;;*
  let* i := insert_router n in
  append_event tenant "router" i None "ROUTER_CREATED" "CREATE" principal "create router" ;;*
  mret i.

(** [create_condition_expression]. *)
Definition create_condition_expression (tenant : uuid) (expression : option string) (principal : string) : A uuid :=
  let* i := insert_condition expression in
  append_event tenant "condition_expression" i None "CONDITION_EXPRESSION_CREATED" "CREATE" principal
    "create condition expression" ;;*
  mret i.

(** [create_routing_rule]. *)
Definition create_routing_rule (tenant : uuid) (q : routing_rule) (principal : string) : A uuid :=
  let* s := mget in
  let* n := required (au_routers s !! rr_router q) "router_not_found" in
  let* nd := required (au_nodes s !! n) "router_node_not_found" in
  owner_of_version tenant (no_version nd) ;;*
  let* i := insert_routing_rule q in
  append_event tenant "routing_rule" i None "ROUTING_RULE_CREATED" "CREATE" principal "create routing rule" ;;*
  mret i.

(** [list_routers], newest first. *)
Definition list_routers (tenant : uuid) (limit : nat) (s : authoring) : list (uuid * uuid) :=
  take limit (sorted_by (flip N.le) fst (filter (fun kv =>
    (au_nodes s !! kv.2 ≫= fun n => au_versions s !! no_version n ≫= fun v => fl_tenant <$> au_flows s !! ve_flow v) = Some tenant)
    (map_to_list (au_routers s)))).

(** *** Batches *)

Record FlowArtifactsBatchUpsertRequest : Type := {
  ba_flow : uuid;
  ba_version : uuid;
  ba_principal : string;
  ba_templates : list NodeTemplateCopyRequest;
  ba_custom : list CustomNodeCreate;
  ba_routers : list uuid;
  ba_conditions : list (option string);
  ba_rules : list routing_rule;
}.

(** [batch_upsert_artifacts]: one after the other, each on its own; the answer counts them. *)
Definition batch_upsert_artifacts (tenant : uuid) (q : FlowArtifactsBatchUpsertRequest) : A (nat * nat * nat * nat) :=
  let f := ba_flow q in let v := ba_version q in let p := ba_principal q in
  owned_version tenant f v ;;*
  mfor (fun x => let* _ := copy_node_from_template_request tenant f v x p in mret tt) (ba_templates q) ;;*
  mfor (fun x => let* _ := create_custom_node tenant f v x p in mret tt) (ba_custom q) ;;*
  mfor (fun x => let* _ := create_router tenant x p in mret tt) (ba_routers q) ;;*
  mfor (fun x => let* _ := create_condition_expression tenant x p in mret tt) (ba_conditions q) ;;*
  mfor (fun x => let* _ := create_routing_rule tenant x p in mret tt) (ba_rules q) ;;*
  mret (length (ba_templates q) + length (ba_custom q), length (ba_routers q), length (ba_conditions q), length (ba_rules q)).

(** *** Idempotency *)

Variable silent_mode : bool.
Variable ttl : Z.
Variable dump_response : DeploymentComposeResponse -> pyval.
Variable load_response : pyval -> res exc DeploymentComposeResponse.

(** [compose_deployment]; the body takes [d] seconds. *)
Definition compose_deployment (d : Z) (tenant : uuid) (ikey : string) (q : DeploymentComposeRequest) :
    M (redis * authoring) DeploymentComposeResponse :=
  let key := build_key (uuid_str tenant) "flows:deployments:compose" ikey in
  idempotent_call silent_mode ttl key (fun r => PDict [("response", dump_response r)]) load_response
    (on_world d (compose tenant q)).
End service.
