(* ===== verification/AuthoringFacts.v ===== *)
(** * AuthoringFacts: what the authoring tables always satisfy

    The invariant of the tables of [FlowAuthoring] and its preservation by every request, in a
    small program logic: a triple bounds what a computation leaves behind, whether it returns or
    raises. *)

From S2P Require Import Prelude.
From S2P Require Import Errors.
From S2P Require Import PyValue.
From S2P Require Import PyString.
From S2P Require Import StateMachine.
From S2P Require Import Sorting.
From S2P Require Import FlowGraph.
From S2P Require Import EdgeEvaluator.
From S2P Require Import ConditionEvaluator.
From S2P Require Import DraftGraph.
From S2P Require Import GraphCompiler.
From S2P Require Import Effects.
From S2P Require Import Store.
From S2P Require Import Redis.
From S2P Require Import FlowService.
From S2P Require Import FlowAuthoring.

(** Retiring a slot empties it and no other. *)
Lemma in_slot_retire f env f' env' d :
  in_slot f' env' (retire f env d) = in_slot f' env' d && negb (bool_decide (f' = f /\ env' = env)).
Proof.
  unfold retire. destruct (in_slot f env d) eqn:E; unfold in_slot in *; simpl.
  - apply andb_true_iff in E as [E Ea]. apply andb_true_iff in E as [Ef Ee]. apply N.eqb_eq in Ef. apply String.eqb_eq in Ee.
    rewrite Ea, Ef, Ee, andb_false_r, andb_true_r. case_bool_decide as Hb; simpl; [by rewrite andb_false_r|].
    destruct (N.eqb_spec f f'), (String.eqb_spec env env'); simpl; try done. naive_solver.
  - case_bool_decide as Hb; simpl; [|by rewrite andb_true_r]. destruct Hb as [-> ->]. by rewrite E, andb_false_r.
Qed.

Lemma slots_retired f env f' env' l :
  length (filter (fun d => in_slot f' env' d = true) (map (retire f env) l)) =
  if bool_decide (f' = f /\ env' = env) then 0 else length (filter (fun d => in_slot f' env' d = true) l).
Proof.
  induction l as [|d l IH]; simpl; [by case_bool_decide|]. rewrite !filter_cons. rewrite in_slot_retire.
  revert IH. destruct (in_slot f' env' d); case_bool_decide as Hb; simpl; intros IH; rewrite ?IH; done.
Qed.

Lemma slot_of_row d f env : dp_active d = true -> in_slot f env d = bool_decide (f = dp_flow d /\ env = dp_environment d).
Proof.
  intros Ha. unfold in_slot. rewrite Ha, andb_true_r.
  destruct (N.eqb_spec (dp_flow d) f), (String.eqb_spec (dp_environment d) env); simpl; symmetry;
    [apply bool_decide_eq_true_2 | apply bool_decide_eq_false_2..]; naive_solver.
Qed.

Section sound.
Variable parse_string : string -> option ast.
Variable ast_parse : string -> option pyast.
Variable same : pyval -> pyval -> bool.
Variable model_validate : schema_class -> pydict -> bool.
Variable sha256_json : pyval -> string.
Variable uuid_str : uuid -> string.
Variable has_rag : bool.
Variable get_rag_config : uuid -> option (uuid * uuid).
Variable get_chunking_rule : uuid -> uuid -> option pyval.
Variable rag_policy : uuid -> res exc (option (uuid * pydict)).
Variable get_node_template : uuid -> option template.
Variable template_by_code : string -> option uuid.
Variable get_active_prompt_id_by_node_type : string -> option uuid.
Variable limit_policy : uuid -> option uuid.
Variable limit_policy_published : uuid -> bool.
(** The tables at the beginning. *)
Variable origin : authoring.

(** A graph the draft validator accepts. *)
Definition accepted (d : FlowGraphDefinition) : Prop := draft_validate parse_string ast_parse same model_validate d = Ok tt.

(** What never changes: flows, the place and number of a version, compiled graphs and the events so far; the status of a
    version only advances. *)
Definition rank (st : VersionStatus) : nat :=
  match st with VS_DRAFT => 0 | VS_VALIDATED => 1 | VS_PUBLISHED => 2 | VS_DEPRECATED => 3 | VS_DISABLED => 4 end.
Definition succeeds (r r' : version_row) : Prop :=
  ve_flow r' = ve_flow r /\ ve_number r' = ve_number r /\ rank (ve_status r) <= rank (ve_status r').
Definition grows (s s' : authoring) : Prop :=
  (forall f r, au_flows s !! f = Some r -> au_flows s' !! f = Some r) /\
  (forall v r, au_versions s !! v = Some r -> exists r', au_versions s' !! v = Some r' /\ succeeds r r') /\
  (forall v g, au_graph_snapshots s !! v = Some g -> au_graph_snapshots s' !! v = Some g) /\
  au_events s `prefix_of` au_events s'.

(** What the tables always satisfy. *)
Record sound (s : authoring) : Prop := {
  so_grows : grows origin s;
  so_flows : (forall f, is_Some (au_flows s !! f) -> (f < au_next s)%N) /\
             (forall v r, au_versions s !! v = Some r -> is_Some (au_flows s !! ve_flow r));
  so_numbers : forall v w r x, au_versions s !! v = Some r -> au_versions s !! w = Some x -> ve_flow r = ve_flow x ->
    number_key (ve_number r) = number_key (ve_number x) -> v = w;
  so_fresh : (forall v, is_Some (au_versions s !! v) -> (v < au_next s)%N) /\
             (forall v g, au_graph_snapshots s !! v = Some g -> (gsn_id g < au_next s)%N) /\
             (forall v r, au_snapshots s !! v = Some r -> (fsn_id (sr_snapshot r) < au_next s)%N);
  so_active : forall v r, au_versions s !! v = Some r -> ve_active r = true ->
    ve_status r = VS_PUBLISHED /\ is_Some (au_graph_snapshots s !! v);
  so_one_active : forall v w r x, au_versions s !! v = Some r -> au_versions s !! w = Some x ->
    ve_active r = true -> ve_active x = true -> ve_flow r = ve_flow x -> v = w;
  so_graph : forall v g, au_graph_snapshots s !! v = Some g ->
    (exists r, au_versions s !! v = Some r /\ ve_status r = VS_PUBLISHED) /\
    exists d, accepted d /\ compile_snapshot parse_string sha256_json d = Ok (gsn_graph g, gsn_hash g);
  so_graph_ids : forall v w g h, au_graph_snapshots s !! v = Some g -> au_graph_snapshots s !! w = Some h ->
    gsn_id g = gsn_id h \/ gsn_hash g = gsn_hash h -> v = w;
  so_drafts : forall v d, au_drafts s !! v = Some d -> dr_status d = VS_VALIDATED -> accepted (dr_definition d);
  so_writers : forall v, length (writers v s) <= 1;
  so_snapshots : forall v r, au_snapshots s !! v = Some r -> exists g, au_graph_snapshots s !! v = Some g /\
    dict_getv "flow_graph_snapshot_id" (fsn_snapshot (sr_snapshot r)) = PStr (uuid_str (gsn_id g));
  so_snapshot_ids : forall v w r x, au_snapshots s !! v = Some r -> au_snapshots s !! w = Some x ->
    fsn_id (sr_snapshot r) = fsn_id (sr_snapshot x) -> v = w;
  so_slots : forall f env, length (filter (fun d => in_slot f env d = true) (au_deployments s)) <= 1;
  so_deployed : forall d, d ∈ au_deployments s ->
    (exists r, au_versions s !! dp_version d = Some r /\ ve_flow r = dp_flow d) /\
    exists x, au_snapshots s !! dp_version d = Some x /\ fsn_id (sr_snapshot x) = dp_snapshot d;
}.

(** The tables the invariant reads. *)
Definition view (s : authoring) :=
  (au_flows s, au_versions s, au_nodes s, au_drafts s, au_graph_snapshots s, au_snapshots s, au_deployments s).
Definition calm (s s' : authoring) : Prop := view s' = view s /\ (au_next s <= au_next s')%N /\ au_events s `prefix_of` au_events s'.

#[local] Instance calm_preorder : PreOrder calm.
Proof. split; [done|]. intros a b c (H1 & H2 & H3) (H4 & H5 & H6). split_and!; [congruence | lia | by etrans]. Qed.

Lemma sound_calm s s' : calm s s' -> sound s -> sound s'.
Proof.
  intros (Hv & Hn & He) H. unfold view in Hv. simplify_eq Hv. intros H0 H1 H2 H3 H4 H5 H6.
  destruct H as [(G0 & G1 & G2 & G3) [W1 W2] N [F1 [F2 F3]] B C D E F G I J K L].
  split; rewrite ?H0, ?H1, ?H2, ?H3, ?H4, ?H5, ?H6; try done.
  - unfold grows. rewrite H0, H1, H4. split_and!; [done..|]. by etrans.
  - split; [|done]. intros f Hf. eapply N.lt_le_trans; [by apply W1 | done].
  - split_and!; intros; [eapply N.lt_le_trans; [by apply F1|done] | eapply N.lt_le_trans; [by eapply F2|done] |
      eapply N.lt_le_trans; [by eapply F3|done]].
  - intros v. unfold writers, list_nodes_for_flow_version. rewrite H2. apply G.
Qed.

(** ** Triples *)

(** From [P], a returned value satisfies [Q], and an exception leaves sound tables. *)
Definition triple {T} (P : authoring -> Prop) (m : A T) (Q : T -> authoring -> Prop) : Prop :=
  forall s, P s -> match m s with (Ok a, s') => Q a s' | (Err _, s') => sound s' end.

Lemma triple_bind {T U} P (m : A T) Q (k : T -> A U) R :
  triple P m Q -> (forall a, triple (Q a) (k a) R) -> triple P (mbind_ m k) R.
Proof.
  intros Hm Hk s Hs. specialize (Hm s Hs). unfold mbind_. destruct (m s) as [[a|e] s']; [by apply Hk | done].
Qed.

Lemma triple_ret {T} (P : authoring -> Prop) (a : T) Q : (forall s, P s -> Q a s) -> triple P (mret a) Q.
Proof. intros H s Hs. by apply H. Qed.
Lemma triple_raise {T} (P : authoring -> Prop) e (Q : T -> authoring -> Prop) : (forall s, P s -> sound s) -> triple P (mraise e) Q.
Proof. intros H s Hs. by apply H. Qed.
Lemma triple_get (P : authoring -> Prop) : triple P mget (fun x s => x = s /\ P s).
Proof. by intros s Hs. Qed.
Lemma triple_lift {T} (P : authoring -> Prop) (r : res exc T) :
  (forall s, P s -> sound s) -> triple P (mlift r) (fun a s => r = Ok a /\ P s).
Proof. intros H s Hs. unfold mlift. destruct r; auto. Qed.
Lemma triple_modify (P : authoring -> Prop) f Q : (forall s, P s -> Q tt (f s)) -> triple P (mmodify f) Q.
Proof. intros H s Hs. by apply H. Qed.
Lemma triple_weaken {T} (P P' : authoring -> Prop) (m : A T) Q Q' :
  triple P' m Q' -> (forall s, P s -> P' s) -> (forall a s, Q' a s -> Q a s) -> triple P m Q.
Proof. intros H HP HQ s Hs. specialize (H s (HP s Hs)). destruct (m s) as [[a|e] s']; auto. Qed.
Lemma triple_if {T} P (b : bool) (m n : A T) Q : triple P m Q -> triple P n Q -> triple P (if b then m else n) Q.
Proof. by destruct b. Qed.

(** A computation that preserves soundness. *)
Definition safe {T} (m : A T) : Prop := triple sound m (fun _ => sound).

Lemma safe_for {T} (body : T -> A unit) l : (forall x, safe (body x)) -> safe (mfor body l).
Proof.
  intros H. induction l as [|x l IH]; simpl; [by apply triple_ret|]. eapply triple_bind; [apply H|]. intros []. exact IH.
Qed.

Lemma triple_forget {T} (P : authoring -> Prop) (m : A T) :
  safe m -> (forall s, P s -> sound s) -> triple P m (fun _ => sound).
Proof. intros H HP s Hs. by apply (H s), HP. Qed.

Lemma safe_after {T U} (m : A T) (k : T -> A U) : safe m -> (forall a, safe (k a)) -> safe (mbind_ m k).
Proof. apply triple_bind. Qed.

(** Computations that only touch other tables. *)
Lemma safe_calm {T} (m : A T) : respects calm m -> safe m.
Proof. intros H s Hs. specialize (H s). apply (sound_calm s (m s).2) in Hs; [|exact H]. by destruct (m s) as [[a|e] s']. Qed.

Lemma calm_new_id : respects calm new_id.
Proof. intros s. split_and!; [done | simpl; lia | done]. Qed.
Lemma calm_authoring_event t r i v ty c p j : respects calm (append_event t r i v ty c p j).
Proof. intros s. split_and!; [done | done |]. by apply prefix_app_r. Qed.

(** ** The tables, one by one *)

(** Versions are replaced by versions of the same flow, which stay published. *)
Lemma sound_versions s m :
  sound s ->
  (forall v, is_Some (m !! v) -> (v < au_next s)%N) ->
  (forall v r, m !! v = Some r -> ve_active r = true -> ve_status r = VS_PUBLISHED /\ is_Some (au_graph_snapshots s !! v)) ->
  (forall v w r x, m !! v = Some r -> m !! w = Some x -> ve_active r = true -> ve_active x = true -> ve_flow r = ve_flow x -> v = w) ->
  (forall v r, au_versions s !! v = Some r ->
     exists r', m !! v = Some r' /\ succeeds r r' /\ (ve_status r = VS_PUBLISHED -> ve_status r' = VS_PUBLISHED)) ->
  (forall v r, m !! v = Some r -> is_Some (au_flows s !! ve_flow r)) ->
  (forall v w r x, m !! v = Some r -> m !! w = Some x -> ve_flow r = ve_flow x ->
     number_key (ve_number r) = number_key (ve_number x) -> v = w) ->
  sound (set_versions m s).
Proof.
  intros H Hf Ha H1 Hk Ho Hnum. destruct H as [(G0 & G1 & G2 & G3) [W1 W2] N [F1 [F2 F3]] B C D E F G I J K L]. split; simpl; try done.
  - split_and!; try done. intros v r Hr. destruct (G1 v r Hr) as (r1 & Hr1 & S1). destruct (Hk v r1 Hr1) as (r2 & Hr2 & S2 & _).
    exists r2. split; [done|]. destruct S1 as (? & ? & ?), S2 as (? & ? & ?). split_and!; [congruence | congruence | lia].
  - intros v g Hg. destruct (D v g Hg) as [(r & Hr & Hs) Hd]. split; [|done]. destruct (Hk v r Hr) as (r' & ? & _ & ?). eauto.
  - intros d Hd. destruct (L d Hd) as [(r & Hr & Hfl) Hx]. split; [|done]. destruct (Hk _ r Hr) as (r' & ? & [? _] & _). exists r'.
    split; [done | congruence].
Qed.

(** A version that is not published has neither a graph nor an activation. *)
Lemma unpublished s v r : sound s -> au_versions s !! v = Some r -> ve_status r <> VS_PUBLISHED ->
  ve_active r = false /\ au_graph_snapshots s !! v = None.
Proof.
  intros H Hr Hs. split.
  - destruct (ve_active r) eqn:E; [|done]. by destruct (so_active s H v r Hr E).
  - destruct (au_graph_snapshots s !! v) as [g|] eqn:E; [|done]. destruct (so_graph s H v g E) as [(r' & ? & ?) _]. congruence.
Qed.

Lemma succeeds_refl r : succeeds r r.
Proof. by split_and!. Qed.

Lemma sound_status s v r st :
  sound s -> au_versions s !! v = Some r -> ve_status r <> VS_PUBLISHED -> rank (ve_status r) <= rank st ->
  sound (set_versions (<[v := with_version_status st r]> (au_versions s)) s).
Proof.
  intros H Hr Hs Hst. destruct (unpublished s v r H Hr Hs) as [Ha _]. apply sound_versions; [done|..].
  - intros w Hw. apply (proj1 (so_fresh s H)). destruct (decide (w = v)) as [->|]; [by rewrite Hr | by rewrite lookup_insert_ne in Hw].
  - intros w x. rewrite lookup_insert_Some. intros [[<- <-]|[? Hx]]; simpl; [congruence | by apply (so_active s H)].
  - intros w1 w2 x y. rewrite !lookup_insert_Some. intros [[<- <-]|[? Hx]] [[<- <-]|[? Hy]]; simpl; try congruence.
    by apply (so_one_active s H).
  - intros w x Hx. destruct (decide (w = v)) as [->|].
    + rewrite lookup_insert_eq. simplify_eq. eexists. split; [done|]. by split.
    + rewrite lookup_insert_ne by done. eauto using succeeds_refl.
  - intros w x. rewrite lookup_insert_Some. intros [[<- <-]|[? Hx]];
      [exact (proj2 (so_flows s H) v r Hr) | by apply (proj2 (so_flows s H) w)].
  - intros w1 w2 x y. rewrite !lookup_insert_Some. intros [[<- <-]|[? Hx]] [[<- <-]|[? Hy]]; simpl; try done; intros ??;
      (eapply (so_numbers s H); eassumption).
Qed.

Lemma sound_activate s f v r :
  sound s -> au_versions s !! v = Some r -> ve_flow r = f -> ve_status r = VS_PUBLISHED -> is_Some (au_graph_snapshots s !! v) ->
  sound (set_versions (<[v := with_active true r]>
    ((fun x => if bool_decide (ve_flow x = f) then with_active false x else x) <$> au_versions s)) s).
Proof.
  intros H Hr Hf Hs Hg. apply sound_versions; [done|..].
  - intros w Hw. apply (proj1 (so_fresh s H)). destruct (decide (w = v)) as [->|]; [by rewrite Hr|].
    rewrite lookup_insert_ne, lookup_fmap in Hw by done. by apply fmap_is_Some in Hw.
  - intros w x. rewrite lookup_insert_Some, lookup_fmap, fmap_Some. intros [[<- <-]|[? (y & Hy & ->)]]; simpl; [done|].
    case_bool_decide; simpl; [done | by apply (so_active s H)].
  - intros w1 w2 x y. rewrite !lookup_insert_Some, !lookup_fmap, !fmap_Some.
    intros [[<- <-]|[? (a & Ha & ->)]] [[<- <-]|[? (b & Hb & ->)]]; simpl; try done; repeat case_bool_decide; simpl; try done; try congruence.
    by apply (so_one_active s H).
  - intros w x Hx. destruct (decide (w = v)) as [->|].
    + rewrite lookup_insert_eq. simplify_eq. eexists. by split.
    + rewrite lookup_insert_ne, lookup_fmap, Hx by done. simpl. eexists. split; [done|]. by case_bool_decide.
  - intros w x. rewrite lookup_insert_Some, lookup_fmap, fmap_Some. intros [[<- <-]|[? (y & Hy & ->)]]; simpl;
      [exact (proj2 (so_flows s H) v r Hr) | case_bool_decide; exact (proj2 (so_flows s H) w y Hy)].
  - intros w1 w2 x y. rewrite !lookup_insert_Some, !lookup_fmap, !fmap_Some.
    intros [[<- <-]|[? (a & Ha & ->)]] [[<- <-]|[? (b & Hb & ->)]]; simpl; try done; repeat case_bool_decide; simpl; intros ??;
      (eapply (so_numbers s H); eassumption).
Qed.

Lemma sound_new_version s i x :
  sound s -> (i < au_next s)%N -> au_versions s !! i = None -> ve_active x = false -> is_Some (au_flows s !! ve_flow x) ->
  (forall w y, au_versions s !! w = Some y -> ve_flow y = ve_flow x -> number_key (ve_number y) <> number_key (ve_number x)) ->
  sound (set_versions (<[i := x]> (au_versions s)) s).
Proof.
  intros H Hi Hn Ha Hfl Hnum. apply sound_versions; [done|..].
  - intros w Hw. destruct (decide (w = i)) as [->|]; [done|]. rewrite lookup_insert_ne in Hw by done. by apply (proj1 (so_fresh s H)).
  - intros w y. rewrite lookup_insert_Some. intros [[<- <-]|[? Hy]]; [congruence | by apply (so_active s H)].
  - intros w1 w2 y z. rewrite !lookup_insert_Some. intros [[<- <-]|[? Hy]] [[<- <-]|[? Hz]]; try congruence. by apply (so_one_active s H).
  - intros w y Hy. rewrite lookup_insert_ne by congruence. eauto using succeeds_refl.
  - intros w y. rewrite lookup_insert_Some. intros [[<- <-]|[? Hy]]; [done | by apply (proj2 (so_flows s H) w)].
  - intros w1 w2 y z. rewrite !lookup_insert_Some. intros [[<- <-]|[? Hy]] [[<- <-]|[? Hz]] Hf Hk; try done.
    + by destruct (Hnum w2 z).
    + by destruct (Hnum w1 y).
    + by apply (so_numbers s H w1 w2 y z).
Qed.

Lemma sound_flow s i x : sound s -> (i < au_next s)%N -> au_flows s !! i = None -> sound (set_flows (<[i := x]> (au_flows s)) s).
Proof.
  intros H Hi Hn. destruct H as [(G0 & G1 & G2 & G3) [W1 W2] N ? B C D E F G I J K L]. split; simpl; try done.
  - split_and!; try done. intros f r Hr. apply G0 in Hr. simpl. rewrite lookup_insert_ne; [done | congruence].
  - split.
    + intros f Hf. destruct (decide (f = i)) as [->|]; [done|]. rewrite lookup_insert_ne in Hf by done. by apply W1.
    + intros v r Hr. apply lookup_insert_is_Some'. right. by apply (W2 v).
Qed.

Lemma sound_draft s v d :
  sound s -> (dr_status d = VS_VALIDATED -> accepted (dr_definition d)) -> sound (set_drafts (<[v := d]> (au_drafts s)) s).
Proof.
  intros H Hd. destruct H as [Gr W N ? B C D E F G I J K L]. split; simpl; try done.
  intros w x. rewrite lookup_insert_Some. intros [[<- <-]|[? Hx]]; [done | by apply (F w)].
Qed.

Lemma sound_graph_snapshot s v r g d :
  sound s -> au_versions s !! v = Some r -> ve_status r = VS_PUBLISHED -> au_graph_snapshots s !! v = None ->
  (gsn_id g < au_next s)%N -> (forall w h, au_graph_snapshots s !! w = Some h -> gsn_id h <> gsn_id g /\ gsn_hash h <> gsn_hash g) ->
  accepted d -> compile_snapshot parse_string sha256_json d = Ok (gsn_graph g, gsn_hash g) ->
  sound (set_graph_snapshots (<[v := g]> (au_graph_snapshots s)) s).
Proof.
  intros H Hr Hs Hn Hi Hu Ha Hc. destruct H as [Gr W N [F1 [F2 F3]] B C D E F G I J K L]. split; simpl; try done.
  - destruct Gr as (G0 & G1 & G2 & G3). split_and!; try done. intros w h Hh. apply G2 in Hh. simpl. rewrite lookup_insert_ne; [done | congruence].
  - split_and!; [done | | done]. intros w h. rewrite lookup_insert_Some. intros [[<- <-]|[? Hh]]; [done | by eapply F2].
  - intros w x Hx Hact. destruct (B w x Hx Hact) as [Hst Hg]. split; [done|].
    destruct (decide (w = v)) as [->|]; [by rewrite lookup_insert_eq | by rewrite lookup_insert_ne].
  - intros w h. rewrite lookup_insert_Some. intros [[<- <-]|[? Hh]]; [eauto 10 | by apply D].
  - intros w1 w2 g1 g2. rewrite !lookup_insert_Some. intros [[<- <-]|[? H1]] [[<- <-]|[? H2]] Hor; try done.
    + destruct (Hu _ _ H2) as [? ?]. destruct Hor; congruence.
    + destruct (Hu _ _ H1) as [? ?]. destruct Hor; congruence.
    + by apply (E w1 w2 g1 g2).
  - intros w x Hx. destruct (I w x Hx) as (h & Hh & Hd'). exists h. split; [|done]. rewrite lookup_insert_ne; [done | congruence].
Qed.

Lemma sound_snapshot s v x g p b :
  sound s -> au_graph_snapshots s !! v = Some g -> (fsn_id (sr_snapshot x) < au_next s)%N ->
  (forall y, au_snapshots s !! v = Some y -> fsn_id (sr_snapshot x) = fsn_id (sr_snapshot y)) ->
  (forall w y, w <> v -> au_snapshots s !! w = Some y -> fsn_id (sr_snapshot y) <> fsn_id (sr_snapshot x)) ->
  dict_getv "flow_graph_snapshot_id" (fsn_snapshot (sr_snapshot x)) = PStr (uuid_str (gsn_id g)) ->
  sound (set_snapshots (<[v := x]> (au_snapshots s)) p b s).
Proof.
  intros H Hg Hi Hsame Hother Hd. destruct H as [Gr W N [F1 [F2 F3]] B C D E F G I J K L]. split; simpl; try done.
  - split_and!; [done..|]. intros w y. rewrite lookup_insert_Some. intros [[<- <-]|[? Hy]]; [done | by eapply F3].
  - intros w y. rewrite lookup_insert_Some. intros [[<- <-]|[? Hy]]; [eauto | by apply I].
  - intros w1 w2 y z. rewrite !lookup_insert_Some. intros [[<- <-]|[? Hy]] [[<- <-]|[? Hz]] Hid; try done.
    + by destruct (Hother w2 z).
    + by destruct (Hother w1 y).
    + by apply (J w1 w2 y z).
  - intros d Hd'. destruct (L d Hd') as [Hr (y & Hy & Hid)]. split; [done|].
    destruct (decide (dp_version d = v)) as [Hv|]; [|by rewrite lookup_insert_ne; eauto].
    rewrite Hv in Hy |- *. rewrite lookup_insert_eq. exists x. split; [done|]. rewrite (Hsame y Hy). done.
Qed.

Lemma sound_deployment s f v env row r x :
  sound s -> au_versions s !! v = Some r -> ve_flow r = f -> au_snapshots s !! v = Some x -> fsn_id (sr_snapshot x) = dp_snapshot row ->
  dp_flow row = f -> dp_version row = v -> dp_environment row = env -> dp_active row = true ->
  sound (set_deployments (map (retire f env) (au_deployments s) ++ [row]) s).
Proof.
  intros H Hr Hf Hx Hid Rf Rv Re Ra. destruct H as [Gr W N ? B C D E F G I J K L]. split; simpl; try done.
  - intros f' env'. rewrite filter_app, length_app. specialize (K f' env').
    rewrite (slots_retired f env), filter_cons, (slot_of_row row), Rf, Re by done. case_bool_decide; simpl; lia.
  - intros d Hd. apply elem_of_app in Hd as [Hd|Hd].
    + apply list_elem_of_In, in_map_iff in Hd as (d0 & <- & Hd0%list_elem_of_In). specialize (L d0 Hd0).
      unfold retire. by destruct (in_slot f env d0).
    + apply list_elem_of_singleton in Hd as ->. rewrite Rv, Rf. split; [by exists r | by exists x].
Qed.

(** The memory-writing nodes of a version after a node was added. *)
Lemma writers_insert s i n v :
  length (writers v (set_nodes (<[i := n]> (au_nodes s)) s)) <=
  length (writers v s) + (if allow_memory_write (no_rights n) && bool_decide (no_version n = v) then 1 else 0).
Proof.
  assert (Hperm : forall (m : gmap uuid node_row), exists l, map_to_list (<[i := n]> m) ≡ₚ (i, n) :: l /\
    (l ⊆+ map_to_list m)).
  { intros m. exists (map_to_list (delete i m)). split.
    - rewrite <- insert_delete_eq. apply map_to_list_insert, lookup_delete_eq.
    - apply map_to_list_submseteq, delete_subseteq. }
  destruct (Hperm (au_nodes s)) as (l & Hl & Hsub). unfold writers, list_nodes_for_flow_version. simpl.
  set (W := fun m : list (uuid * node_row) => filter (fun n0 => allow_memory_write (no_rights n0) = true)
    (filter (fun n0 => no_version n0 = v) (map snd m))).
  change (length (W (map_to_list (<[i := n]> (au_nodes s)))) <= length (W (map_to_list (au_nodes s))) +
    (if allow_memory_write (no_rights n) && bool_decide (no_version n = v) then 1 else 0)).
  assert (HW : forall a b, a ≡ₚ b -> length (W a) = length (W b)).
  { intros a b Hab. unfold W. by rewrite Hab. }
  rewrite (HW _ _ Hl). apply submseteq_Permutation in Hsub as [k Hk]. rewrite (HW _ _ Hk).
  unfold W. simpl. rewrite map_app, !filter_app, length_app, filter_cons. case_decide; [rewrite filter_cons; case_decide as Hw|]; simpl.
  - rewrite Hw, bool_decide_true by done. simpl. lia.
  - lia.
  - lia.
Qed.

Lemma sound_node s i n :
  sound s -> (allow_memory_write (no_rights n) = true -> length (writers (no_version n) s) = 0) ->
  sound (set_nodes (<[i := n]> (au_nodes s)) s).
Proof.
  intros H Hw. destruct H as [Gr W N ? B C D E F G I J K L]. split; simpl; try done. intros v.
  pose proof (writers_insert s i n v) as Hle. specialize (G v).
  destruct (allow_memory_write (no_rights n)); simpl in Hle; [|lia]. case_bool_decide as Hv; [|lia].
  subst v. rewrite (Hw eq_refl) in Hle. lia.
Qed.

(** ** Checks *)

(** A computation that only reads. *)
Lemma triple_read {T} (P : authoring -> Prop) (m : A T) (R : T -> authoring -> Prop) :
  (forall s, P s -> sound s) -> (forall s, (m s).2 = s) -> (forall s a, m s = (Ok a, s) -> R a s) ->
  triple P m (fun a s => R a s /\ P s).
Proof.
  intros HP Hm HR s Hs. specialize (Hm s). specialize (HR s). destruct (m s) as [[a|e] s']; simpl in Hm; subst s'; auto.
Qed.

Section checks.
Context (P : authoring -> Prop) (HP : forall s, P s -> sound s).

Lemma check_flow tenant f :
  triple P (owned_flow tenant f) (fun r s => (au_flows s !! f = Some r /\ fl_tenant r = tenant) /\ P s).
Proof using HP.
  apply (triple_read P (owned_flow tenant f) (fun r s => au_flows s !! f = Some r /\ fl_tenant r = tenant)); [done|..]; intros s.
  - unfold owned_flow, mbind_, mget. destruct (au_flows s !! f); [by case_bool_decide | done].
  - intros r. unfold owned_flow, mbind_, mget. destruct (au_flows s !! f); [case_bool_decide; [by intros [= <-] | done] | done].
Qed.

Lemma check_version tenant f v :
  triple P (owned_version tenant f v) (fun r s => (au_versions s !! v = Some r /\ ve_flow r = f) /\ P s).
Proof using HP.
  eapply triple_bind; [apply check_flow|]. intros r. apply (triple_weaken _ P _ _ (fun r s => (au_versions s !! v = Some r /\ ve_flow r = f) /\ P s));
    [|by intros s [_ ?] | done].
  apply (triple_read P (version_of f v) (fun r s => au_versions s !! v = Some r /\ ve_flow r = f)); [done|..]; intros s.
  - unfold version_of, mbind_, mget. destruct (au_versions s !! v); [by case_bool_decide | done].
  - intros x. unfold version_of, mbind_, mget. destruct (au_versions s !! v); [case_bool_decide; [by intros [= <-] | done] | done].
Qed.

Lemma check_blocked b msg : triple P (blocked_unless b msg) (fun _ s => b = true /\ P s).
Proof using HP.
  eapply triple_weaken; [by apply (triple_lift P) | done |]. intros a s [H Hs]. unfold raise_if in H. by destruct b.
Qed.

Lemma check_lift {T} (r : res exc T) : triple P (mlift r) (fun a s => r = Ok a /\ P s).
Proof using HP. by apply triple_lift. Qed.

Lemma check_draft v e : triple P (draft_of v e) (fun d s => au_drafts s !! v = Some d /\ P s).
Proof using HP.
  apply (triple_read P (draft_of v e) (fun d s => au_drafts s !! v = Some d)); [done|..]; intros s.
  - unfold draft_of, mbind_, mget. by destruct (au_drafts s !! v).
  - intros d. unfold draft_of, mbind_, mget. by destruct (au_drafts s !! v); intros [= <-].
Qed.

Lemma check_required {T} (o : option T) msg : triple P (required o msg) (fun x s => o = Some x /\ P s).
Proof using HP. unfold required. destruct o; [by apply triple_ret | by apply triple_raise]. Qed.

Lemma check_writers v : triple P (_assert_flow_version_at_most_one_memory_write v) (fun _ => P).
Proof using HP.
  eapply triple_bind; [apply triple_get|]. intros x. eapply triple_weaken; [apply (triple_lift (fun s => x = s /\ P s)) | done |];
    [by intros s [_ ?%HP] | by intros a s (_ & _ & ?)].
Qed.

Lemma check_writers_create v r :
  triple P (_assert_at_most_one_allow_memory_write_on_create v r)
    (fun _ s => (allow_memory_write r = true -> length (writers v s) = 0) /\ P s).
Proof using HP.
  unfold _assert_at_most_one_allow_memory_write_on_create. destruct (allow_memory_write r); simpl; [|by apply triple_ret].
  eapply triple_bind; [apply triple_get|]. intros x.
  eapply triple_weaken; [apply (triple_lift (fun s => x = s /\ P s)) | done |]; [by intros s [_ ?%HP]|].
  intros a s (H & -> & Hs). split; [|done]. intros _. unfold raise_if in H. destruct (length (writers v s)); [done | discriminate].
Qed.

Lemma check_rag tenant v :
  triple P (_resolve_frozen_rag_for_flow_version sha256_json uuid_str has_rag get_rag_config get_chunking_rule rag_policy tenant v)
    (fun _ => P).
Proof using HP.
  unfold _resolve_frozen_rag_for_flow_version. apply triple_if; [by apply triple_ret|].
  eapply triple_bind; [apply triple_get|]. intros x. eapply triple_bind.
  - apply (triple_lift (fun s => x = s /\ P s)). by intros s [_ ?%HP].
  - intros e. eapply triple_weaken; [by apply (triple_lift P) | by intros s (_ & _ & ?) | by intros a s [_ ?]].
Qed.
End checks.

(** ** Requests *)

Lemma safe_event t r i v ty c p j : safe (append_event t r i v ty c p j).
Proof. apply safe_calm, calm_authoring_event. Qed.

(** A last event, and the answer. *)
Lemma safe_event_ret {T} t r i v ty c p j (a : T) : safe (append_event t r i v ty c p j ;;* mret a).
Proof. eapply safe_after; [apply safe_event|]. intros []. by apply triple_ret. Qed.

Lemma safe_put_draft v d : safe (put_draft v d).
Proof. apply triple_modify. intros s Hs. by apply sound_draft. Qed.

Lemma safe_set_status P v st :
  (forall s, P s -> sound s /\ forall r, au_versions s !! v = Some r -> ve_status r <> VS_PUBLISHED /\ rank (ve_status r) <= rank st) ->
  triple P (set_flow_version_status v st) (fun _ => sound).
Proof.
  intros HP. eapply triple_bind; [apply triple_get|]. intros x s [<- Hs]. apply HP in Hs as [Hs Hr].
  destruct (au_versions x !! v) as [r|] eqn:E; [|done]. simpl. apply sound_status; [done | done | by apply Hr..].
Qed.

Lemma create_graph_snapshot_triple P v g h :
  (forall s, P s -> sound s /\ (exists r, au_versions s !! v = Some r /\ ve_status r = VS_PUBLISHED) /\
     exists d, accepted d /\ compile_snapshot parse_string sha256_json d = Ok (g, h)) ->
  triple P (create_flow_graph_snapshot v g h)
    (fun x s => sound s /\ au_graph_snapshots s !! v = Some x /\ exists s0, P s0 /\ calm s0 (set_graph_snapshots (au_graph_snapshots s0) s)).
Proof.
  intros HP s Hs. destruct (HP s Hs) as (Hso & (r & Hr & Hst) & d & Hd & Hc). unfold create_flow_graph_snapshot. unfold mbind_ at 1, mget.
  destruct (au_graph_snapshots s !! v) as [g0|] eqn:E; [done|]. unfold mbind_ at 1, new_id.
  set (s1 := set_next (au_next s + 1) s). assert (Hs1 : sound s1) by (apply (sound_calm s); [apply calm_new_id | done]).
  destruct (existsb _ _) eqn:Hx; [done|]. unfold mbind_, mmodify, mret. split; [|split].
  - eapply (sound_graph_snapshot s1 v r _ d); try done; simpl; [lia|]. intros w k Hk. split.
    + pose proof (proj1 (proj2 (so_fresh s Hso)) w k Hk). lia.
    + intros Hh. apply not_true_iff_false in Hx. apply Hx. apply existsb_exists. exists (w, k). split.
      * apply list_elem_of_In, elem_of_map_to_list. done.
      * simpl. rewrite Hh. apply String.eqb_refl.
  - apply lookup_insert_eq.
  - exists s. split; [done|]. split_and!; [done | simpl; lia | done].
Qed.

(** [upsert_flow_snapshot] of a version that has a graph. *)
Lemma upsert_snapshot_triple P v h g gr pol tools llm fz :
  (forall s, P s -> sound s /\ au_graph_snapshots s !! v = Some g) ->
  triple P (upsert_flow_snapshot v h (snapshot_body uuid_str g gr) pol tools llm fz)
    (fun x s => sound s /\ (exists r, au_snapshots s !! v = Some r /\ fsn_id (sr_snapshot r) = fsn_id x) /\
       exists s0, P s0 /\ au_versions s = au_versions s0).
Proof.
  intros HP s Hs. destruct (HP s Hs) as (Hso & Hg). unfold upsert_flow_snapshot. unfold mbind_ at 1, mget.
  destruct (existsb _ _); [done|]. destruct (au_snapshots s !! v) as [r|] eqn:E.
  - unfold mbind_, mmodify, mret. split; [|split].
    + eapply sound_snapshot; [done | done | | | | done]; simpl.
      * by apply (proj2 (proj2 (so_fresh s Hso)) v).
      * intros y Hy. by simplify_eq.
      * intros w y Hw Hy Hid. apply Hw. by apply (so_snapshot_ids s Hso w v y r).
    + simpl. rewrite lookup_insert_eq. eauto.
    + eauto.
  - unfold mbind_, mmodify, mret, new_id. set (s1 := set_next (au_next s + 1) s).
    assert (Hs1 : sound s1) by (apply (sound_calm s); [apply calm_new_id | done]). split; [|split].
    + eapply (sound_snapshot s1); [done | done | | | | done]; simpl; [lia | by intros y Hy; simplify_eq |].
      intros w y Hw Hy. pose proof (proj2 (proj2 (so_fresh s Hso)) w y Hy). lia.
    + simpl. rewrite lookup_insert_eq. eauto.
    + eauto.
Qed.

Lemma triple_frame {T} (P : authoring -> Prop) (m : A T) :
  respects calm m -> (forall s, P s -> sound s) -> (forall s s', calm s s' -> P s -> P s') -> triple P m (fun _ => P).
Proof. intros Hm HP Hst s Hs. specialize (Hm s). destruct (m s) as [[a|e] s']; [by eapply Hst | by eapply HP, Hst]. Qed.

Lemma calm_policy i h d : respects calm (upsert_snapshot_effective_policy i h d).
Proof. by split. Qed.
Lemma calm_bindings i l : respects calm (replace_snapshot_bindings i l).
Proof. by split. Qed.

(** A version of the flow with a flow snapshot: it can be deployed. *)
Definition deployable (f v i : uuid) (s : authoring) : Prop :=
  sound s /\ (exists r, au_versions s !! v = Some r /\ ve_flow r = f) /\
  exists x, au_snapshots s !! v = Some x /\ fsn_id (sr_snapshot x) = i.

Lemma deployable_calm f v i s s' : calm s s' -> deployable f v i s -> deployable f v i s'.
Proof.
  intros Hc (Hs & Hr & Hx). split; [by eapply sound_calm|]. destruct Hc as [Hv _]. unfold view in Hv. simplify_eq Hv.
  intros H0 H1 H2 H3 H4 H5 H6. by rewrite H1, H5.
Qed.

Lemma deploy_triple f v i env : triple (deployable f v i) (upsert_flow_deployment f v i env) (fun _ => sound).
Proof.
  eapply triple_bind; [apply (triple_frame (deployable f v i)); [apply calm_new_id | by intros s [? _] | apply deployable_calm]|].
  intros n. eapply (triple_bind _ _ (fun _ => sound)); [|intros []; by apply triple_ret]. apply triple_modify.
  intros s (Hs & (r & Hr & Hf) & x & Hx & Hi). by eapply sound_deployment.
Qed.

Abbreviation materialize_ := (_materialize_snapshot_for_flow_version sha256_json uuid_str has_rag get_rag_config
  get_chunking_rule rag_policy).

Lemma materialize_triple f v attach :
  triple (fun s => sound s /\ (attach = true -> exists r, au_versions s !! v = Some r /\ ve_flow r = f)) (materialize_ f v attach)
    (fun _ => sound).
Proof.
  eapply triple_bind; [apply triple_get|]. intros x.
  destruct (au_graph_snapshots x !! v) as [g|] eqn:Hg; [|apply triple_ret; by intros s (_ & ? & _)].
  destruct (au_flows x !! f) as [fl|] eqn:Hf; [|apply triple_ret; by intros s (_ & ? & _)].
  eapply triple_bind; [apply check_rag; by intros s (_ & ? & _)|]. intros fz.
  eapply triple_bind; [apply (upsert_snapshot_triple _ v _ g)|].
  { intros s (<- & Hs & _). done. }
  intros snap. destruct attach.
  - eapply triple_bind.
    { eapply triple_weaken; [apply (triple_frame (deployable f v (fsn_id snap))) | | done];
        [apply calm_policy | by intros s [? _] | apply deployable_calm |].
      intros s (Hs & Hx & s0 & (_ & _ & Hr) & Hv). split; [done|]. rewrite Hv. auto. }
    intros []. eapply triple_bind; [apply (triple_frame (deployable f v (fsn_id snap))); [apply calm_bindings | by intros s [? _] | apply deployable_calm]|].
    intros []. eapply triple_bind; [apply deploy_triple|]. intros d. by apply triple_ret.
  - apply triple_forget; [|by intros s [? _]].
    eapply safe_after; [apply safe_calm, calm_policy|]. intros []. eapply safe_after; [apply safe_calm, calm_bindings|].
    intros []. by apply triple_ret.
Qed.

(** *** Graphs *)

Lemma safe_create_flow_graph tenant f v p d : safe (create_flow_graph tenant f v p d).
Proof.
  eapply triple_bind; [by apply check_version|]. intros r. eapply triple_bind; [apply check_blocked; by intros s [_ ?]|]. intros [].
  eapply triple_bind; [apply check_lift; by intros s (_ & _ & ?)|]. intros [].
  eapply triple_bind; [apply triple_get|]. intros x. destruct (au_graphs x !! v) eqn:E.
  { apply triple_raise. by intros s (_ & _ & _ & _ & ?). }
  apply triple_forget; [|by intros s (_ & _ & _ & _ & ?)]. eapply safe_after; [|intros []; apply safe_event].
  apply safe_calm. intros s. unfold insert_flow_graph, mbind_, mget, mmodify. destruct (au_graphs s !! v); by split.
Qed.

Lemma safe_upsert_draft tenant f v p d : safe (upsert_flow_graph_draft tenant f v p d).
Proof.
  eapply triple_bind; [by apply check_version|]. intros r. eapply triple_bind; [apply check_lift; by intros s [_ ?]|]. intros [].
  apply triple_forget; [|by intros s (_ & _ & ?)].
  eapply safe_after; [apply safe_put_draft|]. intros []. apply safe_event.
Qed.

Lemma safe_validate_draft tenant f v p :
  safe (validate_flow_graph_draft parse_string ast_parse same model_validate tenant f v p).
Proof.
  eapply triple_bind; [by apply check_flow|]. intros r. eapply triple_bind; [apply check_draft; by intros s [_ ?]|]. intros d.
  eapply triple_bind; [apply check_lift; by intros s (_ & _ & ?)|]. intros [].
  eapply triple_bind; [apply check_writers; by intros s (_ & _ & _ & ?)|]. intros [].
  eapply (triple_bind _ _ (fun _ => sound)); [|intros []; apply safe_event].
  eapply triple_bind; [apply triple_get|]. intros x.
  intros s (<- & Ha & Hd & _ & Hs). rewrite Hd. simpl. by apply sound_draft.
Qed.

Lemma safe_compile tenant f v p :
  safe (compile_flow_graph parse_string ast_parse same model_validate sha256_json tenant f v p).
Proof.
  eapply triple_bind; [by apply check_version|]. intros r. eapply triple_bind; [apply check_blocked; by intros s [_ ?]|]. intros [].
  eapply triple_bind; [apply check_draft; by intros s (_ & _ & ?)|]. intros d.
  eapply triple_bind; [apply check_blocked; by intros s (_ & _ & _ & ?)|]. intros [].
  eapply triple_bind; [apply check_lift; by intros s (_ & _ & _ & _ & ?)|]. intros [].
  eapply triple_bind; [apply check_writers; by intros s (_ & _ & _ & _ & _ & ?)|]. intros [].
  eapply triple_bind; [apply check_lift; by intros s (_ & _ & _ & _ & _ & ?)|]. intros [g h].
  eapply triple_bind; [apply create_graph_snapshot_triple|].
  { intros s (Hc & Ha & _ & _ & Hst & [Hr _] & Hs). apply bool_decide_eq_true_1 in Hst. eauto 10. }
  intros x. apply triple_forget; [apply safe_event_ret | by intros s [? _]].
Qed.

(** *** Versions *)

Lemma safe_validate_version tenant f v : safe (validate_flow_version limit_policy limit_policy_published tenant f v).
Proof.
  eapply triple_bind; [by apply check_version|]. intros r. eapply triple_bind; [apply check_blocked; by intros s [_ ?]|]. intros [].
  eapply triple_bind; [apply check_draft; by intros s (_ & _ & ?)|]. intros d.
  eapply triple_bind; [apply check_lift; by intros s (_ & _ & _ & ?)|]. intros [].
  destruct (limit_policy tenant) as [lp|]; [|apply triple_raise; by intros s (_ & _ & _ & _ & ?)].
  eapply triple_bind; [apply check_blocked; by intros s (_ & _ & _ & _ & ?)|]. intros [].
  eapply triple_bind; [apply check_writers; by intros s (_ & _ & _ & _ & _ & ?)|]. intros [].
  eapply triple_bind; [apply safe_set_status|].
  { intros s (_ & _ & _ & Hst & [Hr _] & Hs). apply bool_decide_eq_true_1 in Hst. split; [done|]. intros r' Hr'. simplify_eq. rewrite Hst. split; [done | simpl; lia]. }
  intros []. eapply triple_bind; [apply triple_get|]. intros x.
  eapply triple_weaken; [apply (check_required (fun s => x = s /\ sound s)) | done |]; [by intros s [_ ?] | by intros a s (_ & _ & ?)].
Qed.

Lemma safe_publish tenant f v p c :
  safe (publish_flow_version sha256_json uuid_str has_rag get_rag_config get_chunking_rule rag_policy tenant f v p c).
Proof.
  eapply triple_bind; [by apply check_version|]. intros r. eapply triple_bind; [apply check_blocked; by intros s [_ ?]|]. intros [].
  eapply triple_bind; [apply check_lift; by intros s (_ & _ & ?)|]. intros [].
  eapply triple_bind; [apply check_writers; by intros s (_ & _ & _ & ?)|]. intros [].
  eapply triple_bind; [apply safe_set_status|].
  { intros s (_ & Hst & [Hr _] & Hs). apply bool_decide_eq_true_1 in Hst. split; [done|]. intros r' Hr'. simplify_eq. rewrite Hst. split; [done | simpl; lia]. }
  intros []. eapply triple_bind; [apply safe_event|]. intros [].
  eapply triple_bind; [eapply triple_weaken; [apply (materialize_triple f v false) | done | done]|]. intros [].
  eapply triple_bind; [apply triple_get|]. intros x.
  eapply triple_weaken; [apply (check_required (fun s => x = s /\ sound s)) | done |]; [by intros s [_ ?] | by intros a s (_ & _ & ?)].
Qed.

Lemma make_active_triple tenant f v c :
  triple sound (make_active tenant f v c) (fun _ s => sound s /\ exists r, au_versions s !! v = Some r /\ ve_flow r = f).
Proof.
  eapply triple_bind; [by apply check_version|]. intros r. eapply triple_bind; [apply check_blocked; by intros s [_ ?]|]. intros [].
  eapply triple_bind; [apply check_lift; by intros s (_ & _ & ?)|]. intros [].
  eapply triple_bind; [apply triple_get|]. intros x.
  destruct (au_graph_snapshots x !! v) as [g|] eqn:Hg; [|apply triple_raise; by intros s (_ & _ & _ & _ & ?)].
  eapply (triple_bind _ _ (fun _ s => sound s /\ exists r, au_versions s !! v = Some r /\ ve_flow r = f)); [|intros []; by apply triple_ret].
  intros s (<- & _ & Hst & [Hr Hf] & Hs). apply bool_decide_eq_true_1 in Hst.
  unfold upsert_active_flow_version, mbind_, mget, mmodify. rewrite Hr, bool_decide_true by done.
  split; [by apply sound_activate | simpl; rewrite lookup_insert_eq; by eexists].
Qed.

Lemma safe_activate tenant f v p c :
  safe (activate_flow_version sha256_json uuid_str has_rag get_rag_config get_chunking_rule rag_policy tenant f v p c).
Proof.
  eapply triple_bind; [apply make_active_triple|]. intros r.
  eapply triple_bind; [eapply triple_weaken; [apply (materialize_triple f v true) | | done]|]; [by intros s [? ?]|].
  intros []. apply safe_event_ret.
Qed.

Lemma safe_rollback tenant f v p c : safe (rollback_flow_version tenant f v p c).
Proof.
  eapply triple_bind; [apply make_active_triple|]. intros r. apply triple_forget; [apply safe_event_ret | by intros s [? _]].
Qed.

(** A fresh key. *)
Lemma fresh_triple (P : authoring -> Prop) :
  (forall s, P s -> sound s) -> (forall s s', calm s s' -> P s -> P s') ->
  triple P new_id (fun i s => (i < au_next s)%N /\ au_flows s !! i = None /\ au_versions s !! i = None /\ P s).
Proof.
  intros HP Hc s Hs. split_and!; simpl; [lia|..].
  - apply eq_None_not_Some. intros Hx. pose proof (proj1 (so_flows s (HP s Hs)) _ Hx). lia.
  - apply eq_None_not_Some. intros Hx. pose proof (proj1 (so_fresh s (HP s Hs)) _ Hx). lia.
  - apply (Hc s); [apply calm_new_id | done].
Qed.

Lemma safe_create_flow tenant name d tags p : safe (create_flow tenant name d tags p).
Proof.
  eapply triple_bind; [by apply check_lift|]. intros []. eapply triple_bind.
  { eapply triple_weaken; [apply (fresh_triple sound); [done | apply sound_calm] | by intros s [_ ?] | done]. }
  intros i. eapply (triple_bind _ _ (fun _ => sound)); [|intros []; apply safe_event_ret].
  apply triple_modify. intros s (Hi & Hf & _ & Hs). by apply sound_flow.
Qed.

Lemma safe_create_version tenant f q p : safe (create_flow_version tenant f q p).
Proof.
  eapply triple_bind; [by apply check_flow|]. intros r.
  eapply (triple_bind _ _ (fun _ => sound)); [|intros i; apply safe_event_ret].
  eapply triple_bind; [apply triple_get|]. intros x.
  set (P := fun s => sound s /\ is_Some (au_flows s !! f) /\ au_versions s = au_versions x).
  eapply (triple_bind _ _ (fun _ => P)).
  { destruct (vc_source q) as [v|]; [destruct (au_versions x !! v)|]; try (apply triple_raise; by intros s (_ & _ & ?));
      apply triple_ret; intros s (-> & [? _] & ?); split_and!; by eauto. }
  intros src. eapply triple_bind.
  { apply (fresh_triple P); [by intros s [? _]|]. intros s s' Hc (Hs & Hf & Hv). split; [by eapply sound_calm|].
    destruct Hc as [Hw _]. unfold view in Hw. simplify_eq Hw. intros H0 H1 _ _ _ _ _. by rewrite H0, H1. }
  intros i. destruct (existsb _ _) eqn:He; [apply triple_raise; by intros s (_ & _ & _ & ? & _)|].
  eapply (triple_bind _ _ (fun _ => sound)); [|intros []; by apply triple_ret].
  apply triple_modify. intros s (Hi & _ & Hn & Hs & Hf & Hv). apply sound_new_version; [done..|].
  intros w y Hw Hy Hk. simpl in Hy, Hk. apply not_true_iff_false in He. apply He, existsb_exists. exists (w, y). split.
  - apply list_elem_of_In. unfold versions_of. rewrite elem_of_sorted_by, list_elem_of_filter, elem_of_map_to_list. by rewrite <- Hv.
  - by apply bool_decide_eq_true_2.
Qed.

(** *** Deployments *)

Lemma safe_compose tenant q :
  safe (compose parse_string ast_parse same model_validate sha256_json uuid_str has_rag get_rag_config get_chunking_rule rag_policy
          tenant q).
Proof.
  eapply triple_bind; [by apply check_version|]. intros r. eapply triple_bind; [apply check_blocked; by intros s [_ ?]|]. intros [].
  eapply triple_bind; [apply check_lift; by intros s (_ & _ & ?)|]. intros d.
  eapply triple_bind; [apply check_lift; by intros s (_ & _ & _ & ?)|]. intros [].
  eapply triple_bind; [apply check_writers; by intros s (_ & _ & _ & _ & ?)|]. intros [].
  eapply triple_bind; [apply check_lift; by intros s (_ & _ & _ & _ & ?)|]. intros [g h].
  eapply triple_bind; [apply triple_get|]. intros x.
  set (Q := fun g s => sound s /\ au_graph_snapshots s !! dc_version q = Some g /\
    exists r, au_versions s !! dc_version q = Some r /\ ve_flow r = dc_flow q).
  eapply (triple_bind _ _ Q).
  { destruct (au_graph_snapshots x !! dc_version q) as [g0|] eqn:Hg.
    - apply triple_ret. intros s (<- & _ & _ & _ & _ & Hr & Hs). split; [done|]. eauto.
    - eapply triple_weaken; [apply create_graph_snapshot_triple | intros s Hs; exact Hs |].
      + intros s (_ & Hc & Ha & _ & Hst & [Hr _] & Hs). apply bool_decide_eq_true_1 in Hst. eauto 10.
      + intros g0 s (Hs & Hg0 & s0 & (_ & _ & _ & _ & _ & Hr & _) & [Hv _]). split; [done|]. split; [done|]. exists r.
        unfold view in Hv. simpl in Hv. simplify_eq Hv. intros _ Hver. by rewrite Hver. }
  intros g0. eapply triple_bind; [apply (check_rag (Q g0)); by intros s [? _]|]. intros fz.
  eapply triple_bind; [apply (upsert_snapshot_triple _ _ _ g0); by intros s (? & ? & _)|]. intros snap.
  set (D := deployable (dc_flow q) (dc_version q) (fsn_id snap)).
  eapply (triple_bind _ _ (fun _ => D)).
  { eapply triple_weaken; [apply (triple_frame D) | | done]; [apply calm_policy | by intros s [? _] | apply deployable_calm |].
    intros s (Hs & Hx & s0 & (_ & _ & Hr) & Hv). split; [done|]. rewrite Hv. auto. }
  intros []. eapply (triple_bind _ _ (fun _ => D)); [apply triple_frame; [apply calm_bindings | by intros s [? _] | apply deployable_calm]|].
  intros []. eapply triple_bind; [apply deploy_triple|]. intros dep. by apply triple_ret.
Qed.

(** *** Nodes and routing *)

Lemma check_owner (P : authoring -> Prop) tenant v :
  (forall s, P s -> sound s) -> triple P (owner_of_version tenant v) (fun _ => P).
Proof.
  intros HP. eapply triple_bind; [apply triple_get|]. intros x. eapply triple_bind; [apply check_required; by intros s [_ ?%HP]|].
  intros r. eapply triple_bind; [apply check_flow; by intros s (_ & _ & ?%HP)|]. intros fl. apply triple_ret. by intros s (_ & _ & _ & ?).
Qed.

(** A node is added once its rights were checked. *)
Lemma safe_insert_node v prompt rights spec t :
  triple (fun s => (allow_memory_write rights = true -> length (writers v s) = 0) /\ sound s) (insert_node v prompt rights spec t)
    (fun _ => sound).
Proof.
  eapply triple_bind; [apply triple_get|]. intros x. destruct (au_versions x !! v); [|apply triple_raise; by intros s (_ & _ & ?)].
  eapply (triple_bind _ _ (fun _ s => (allow_memory_write rights = true -> length (writers v s) = 0) /\ sound s)).
  { intros s (_ & Hw & Hs). split; [exact Hw|]. apply (sound_calm s); [apply calm_new_id | done]. }
  intros i. eapply (triple_bind _ _ (fun _ => sound)); [|intros []; by apply triple_ret].
  apply triple_modify. intros s [Hw Hs]. by apply sound_node.
Qed.

Lemma safe_add_to_draft v n spec : safe (add_to_draft uuid_str v n spec).
Proof. eapply triple_bind; [apply triple_get|]. intros x. apply triple_forget; [apply safe_put_draft | by intros s [_ ?]]. Qed.

Lemma safe_create_node tenant v prompt rights p : safe (create_node tenant v prompt rights p).
Proof.
  eapply triple_bind; [by apply check_owner|]. intros []. eapply triple_bind; [by apply check_writers_create|]. intros [].
  eapply triple_bind; [apply safe_insert_node|]. intros i. apply safe_event_ret.
Qed.

Lemma safe_copy_node tenant f v t overrides rights p :
  safe (copy_node_from_template model_validate uuid_str get_node_template get_active_prompt_id_by_node_type tenant f v t overrides
          rights p).
Proof.
  eapply safe_after; [eapply triple_weaken; [by apply check_version | done | by intros a s [_ ?]]|]. intros _.
  destruct (get_node_template t) as [tp|]; [|by apply triple_raise].
  eapply triple_bind; [by apply check_blocked|]. intros []. eapply triple_bind; [apply check_blocked; by intros s [_ ?]|]. intros [].
  eapply triple_bind; [apply check_lift; by intros s (_ & _ & ?)|]. intros [].
  destruct (get_active_prompt_id_by_node_type _); [|apply triple_raise; by intros s (_ & _ & _ & ?)].
  eapply triple_bind; [eapply triple_weaken; [by apply (check_writers_create sound) | by intros s (_ & _ & _ & ?) | done]|].
  intros []. eapply triple_bind; [apply safe_insert_node|]. intros i. eapply safe_after; [apply safe_add_to_draft|].
  intros []. apply safe_event_ret.
Qed.

Lemma safe_copy_request tenant f v q p :
  safe (copy_node_from_template_request model_validate uuid_str get_node_template template_by_code get_active_prompt_id_by_node_type
          tenant f v q p).
Proof.
  eapply triple_bind; [by apply check_lift|]. intros [].
  apply triple_forget; [|by intros s [_ ?]]. eapply safe_after; [|intros t; apply safe_copy_node].
  destruct (nt_template q); [by apply triple_ret|]. destruct (nt_code q) as [[|c code]|]; try by apply triple_raise.
  destruct (template_by_code _); [by apply triple_ret | by apply triple_raise].
Qed.

Lemma safe_custom_node tenant f v q p : safe (create_custom_node model_validate uuid_str tenant f v q p).
Proof.
  eapply triple_bind; [by apply check_lift|]. intros []. eapply triple_bind; [apply check_version; by intros s [_ ?]|]. intros r.
  eapply triple_bind; [apply check_lift; by intros s (_ & _ & ?)|]. intros [].
  eapply triple_bind; [eapply triple_weaken; [by apply (check_writers_create sound) | by intros s (_ & _ & _ & ?) | done]|].
  intros []. eapply triple_bind; [apply safe_insert_node|]. intros n. eapply safe_after; [apply safe_add_to_draft|].
  intros []. apply safe_event_ret.
Qed.

(** Rows of the routing tables. *)
Lemma safe_row {T} (f : uuid -> authoring -> authoring) (a : uuid -> T) :
  (forall i s, calm s (f i s)) -> safe (let* i := new_id in mmodify (f i) ;;* mret (a i)).
Proof.
  intros H. eapply safe_after; [apply safe_calm, calm_new_id|]. intros i. eapply safe_after; [|intros []; by apply triple_ret].
  apply safe_calm. intros s. apply H.
Qed.

Lemma safe_insert_router n : safe (insert_router n).
Proof.
  eapply triple_bind; [apply triple_get|]. intros x. apply triple_forget; [|by intros s [_ ?]].
  destruct (au_nodes x !! n); [|by apply triple_raise]. apply (safe_row _ (fun i => i)). by split.
Qed.

Lemma safe_create_router tenant n p : safe (create_router tenant n p).
Proof.
  eapply triple_bind; [apply triple_get|]. intros x. eapply triple_bind; [apply check_required; by intros s [_ ?]|]. intros nd.
  apply triple_forget; [|by intros s (_ & _ & ?)]. eapply safe_after; [by apply check_owner|]. intros [].
  eapply safe_after; [apply safe_insert_router|]. intros i. apply safe_event_ret.
Qed.

Lemma safe_create_condition tenant e p : safe (create_condition_expression tenant e p).
Proof. eapply safe_after; [apply (safe_row _ (fun i => i)); by split|]. intros i. apply safe_event_ret. Qed.

Lemma safe_required {T} (o : option T) msg : safe (required o msg).
Proof. destruct o; [by apply triple_ret | by apply triple_raise]. Qed.
Lemma safe_get : safe mget.
Proof. by intros s Hs. Qed.

Lemma safe_insert_rule q : safe (insert_routing_rule q).
Proof.
  eapply safe_after; [apply safe_get|]. intros x. do 5 (eapply safe_after; [apply safe_required|]; intros ?).
  apply triple_if; [|by apply triple_raise]. apply (safe_row _ (fun i => i)). by split.
Qed.

Lemma safe_create_rule tenant q p : safe (create_routing_rule tenant q p).
Proof.
  eapply safe_after; [apply safe_get|]. intros x. do 2 (eapply safe_after; [apply safe_required|]; intros ?).
  eapply safe_after; [by apply check_owner|]. intros []. eapply safe_after; [apply safe_insert_rule|]. intros i. apply safe_event_ret.
Qed.

Lemma safe_ignore {T} (m : A T) : safe m -> safe (let* _ := m in mret tt).
Proof. intros H. eapply safe_after; [exact H|]. intros a. by apply triple_ret. Qed.

Lemma safe_batch tenant q :
  safe (batch_upsert_artifacts model_validate uuid_str get_node_template template_by_code get_active_prompt_id_by_node_type tenant q).
Proof.
  eapply safe_after; [eapply triple_weaken; [by apply check_version | done | by intros a s [_ ?]]|]. intros _.
  eapply safe_after; [apply safe_for; intros y; apply safe_ignore, safe_copy_request|]. intros [].
  eapply safe_after; [apply safe_for; intros y; apply safe_ignore, safe_custom_node|]. intros [].
  eapply safe_after; [apply safe_for; intros y; apply safe_ignore, safe_create_router|]. intros [].
  eapply safe_after; [apply safe_for; intros y; apply safe_ignore, safe_create_condition|]. intros [].
  eapply safe_after; [apply safe_for; intros y; apply safe_ignore, safe_create_rule|]. intros []. by apply triple_ret.
Qed.
End sound.
