(* ===== verification/AuthoringRuns.v ===== *)
(** * AuthoringRuns: sequences of authoring requests, and what the runtime makes of them

    Requests of [FlowsService] in any order, from any tables ([AuthoringFacts] has the invariant),
    and the catalogue that [FlowService] reads from the tables they leave. *)

From S2P Require Import Prelude.
From S2P Require Import Errors.
From S2P Require Import PyValue.
From S2P Require Import PyString.
From S2P Require Import StateMachine.
From S2P Require Import Sorting.
From S2P Require Import FlowGraph.
From S2P Require Import EdgeEvaluator.
From S2P Require Import ConditionEvaluator.
From S2P Require Import DraftGraph.
From S2P Require Import GraphCompiler.
From S2P Require Import Effects.
From S2P Require Import Store.
From S2P Require Import Redis.
From S2P Require Import FlowService.
From S2P Require Import FlowAuthoring.
From S2P Require Import AuthoringFacts.

(** The requests of [FlowsService] that change a table. *)
Inductive request : Type :=
  | ReqFlow (tenant : uuid) (name : string) (description : option string) (tags : list string) (principal : string)
  | ReqVersion (tenant f : uuid) (q : FlowVersionCreate) (principal : string)
  | ReqGraph (tenant f v : uuid) (principal : string) (d : FlowGraphDefinition)
  | ReqDraft (tenant f v : uuid) (principal : string) (d : FlowGraphDefinition)
  | ReqValidateDraft (tenant f v : uuid) (principal : string)
  | ReqCompile (tenant f v : uuid) (principal : string)
  | ReqValidate (tenant f v : uuid)
  | ReqPublish (tenant f v : uuid) (principal : string) (c : ChangeRequest)
  | ReqActivate (tenant f v : uuid) (principal : string) (c : ChangeRequest)
  | ReqRollback (tenant f v : uuid) (principal : string) (c : ChangeRequest)
  | ReqCompose (tenant : uuid) (q : DeploymentComposeRequest)
  | ReqNode (tenant v prompt : uuid) (rights : node_rights) (principal : string)
  | ReqTemplate (tenant f v : uuid) (q : NodeTemplateCopyRequest) (principal : string)
  | ReqCustom (tenant f v : uuid) (q : CustomNodeCreate) (principal : string)
  | ReqRouter (tenant n : uuid) (principal : string)
  | ReqCondition (tenant : uuid) (expression : option string) (principal : string)
  | ReqRule (tenant : uuid) (q : routing_rule) (principal : string)
  | ReqBatch (tenant : uuid) (q : FlowArtifactsBatchUpsertRequest).

Definition empty_authoring : authoring := {|
  au_next := 1; au_flows := ∅; au_versions := ∅; au_nodes := ∅; au_graphs := ∅; au_drafts := ∅; au_graph_snapshots := ∅;
  au_snapshots := ∅; au_policies := ∅; au_bindings := ∅; au_deployments := []; au_routers := ∅; au_conditions := ∅;
  au_rules := ∅; au_events := [] |}.

(** ** The catalogue *)

Definition version_status_str (st : VersionStatus) : string :=
  match st with
  | VS_DRAFT => "DRAFT" | VS_VALIDATED => "VALIDATED" | VS_PUBLISHED => "PUBLISHED" | VS_DEPRECATED => "DEPRECATED"
  | VS_DISABLED => "DISABLED"
  end.

Section catalogue.
Variable s : authoring.

(** The rows that the queries of [ExecutionRepository.get_flow_version], [get_flow] and [get_active_flow_version_id] find; the
    cache of 300 seconds in front of the first and the last is [Catalogue.get_flow_version] and
    [Catalogue.get_active_flow_version_id]. *)
Definition catalogue_version (v : uuid) : option flow_version :=
  (fun r => {| fv_flow := ve_flow r; fv_status := version_status_str (ve_status r) |}) <$> au_versions s !! v.
Definition catalogue_tenant (f : uuid) : option uuid := fl_tenant <$> au_flows s !! f.
Definition catalogue_active (f : uuid) : option uuid := head (active_versions f s).
(** [get_active_flow_deployment] of the default environment: its id and its snapshot. *)
Definition catalogue_deployment (f : uuid) : option (uuid * uuid) :=
  (fun d => (dp_id d, dp_snapshot d)) <$> get_active_flow_deployment f s.
(** [get_flow_snapshot_by_id], [get_flow_snapshot_by_flow_version], and those of graph snapshots. *)
Definition catalogue_snapshot (i : uuid) : option flow_snapshot :=
  find (fun x => (fsn_id x =? i)%N) (map (fun kv => sr_snapshot kv.2) (map_to_list (au_snapshots s))).
Definition catalogue_snapshot_of (v : uuid) : option flow_snapshot := sr_snapshot <$> au_snapshots s !! v.
Definition catalogue_graph (i : uuid) : option graph_snapshot :=
  find (fun g => (gsn_id g =? i)%N) (map snd (map_to_list (au_graph_snapshots s))).
Definition catalogue_graph_of (v : uuid) : option graph_snapshot := au_graph_snapshots s !! v.
End catalogue.

(** ** Version numbers *)

#[local] Instance geq_trans : Transitive (flip Z.le).
Proof. intros a b c H1 H2. unfold flip in *. lia. Qed.
#[local] Instance geq_antisym : AntiSymm (=) (flip Z.le).
Proof. intros a b H1 H2. unfold flip in *. lia. Qed.
#[local] Instance geq_total : Total (flip Z.le).
Proof. intros a b. unfold flip. lia. Qed.
#[local] Instance newer_trans : Transitive newer_number.
Proof. unfold newer_number. apply _. Qed.
#[local] Instance newer_total : Total newer_number.
Proof. unfold newer_number. apply _. Qed.

(** A version created with no number and no source comes after all versions of its flow. *)
Theorem next_number_is_newest f s v r q :
  vc_major q = None -> vc_minor q = None -> vc_patch q = None -> au_versions s !! v = Some r -> ve_flow r = f ->
  let n := number_of q None ((fun kv => ve_number kv.2) <$> head (versions_of f s)) in
  newer_number (number_key n) (number_key (ve_number r)) /\ number_key n <> number_key (ve_number r).
Proof.
  intros H1 H2 H3 Hr Hf. assert (Hin : (v, r) ∈ versions_of f s).
  { unfold versions_of. rewrite elem_of_sorted_by, list_elem_of_filter, elem_of_map_to_list. done. }
  pose proof (sorted_by_sorted newer_number (fun kv : uuid * version_row => number_key (ve_number kv.2))
    (filter (fun kv => ve_flow kv.2 = f) (map_to_list (au_versions s)))) as Hsort.
  fold (versions_of f s) in Hsort. destruct (versions_of f s) as [|[w x] l]; [by apply elem_of_nil in Hin|].
  assert (Hle : newer_number (number_key (ve_number x)) (number_key (ve_number r))).
  { apply elem_of_cons in Hin as [[= <- <-]|Hin].
    - by destruct (total newer_number (number_key (ve_number r)) (number_key (ve_number r))).
    - inversion Hsort as [|? ? _ Hall]; subst. rewrite Forall_forall in Hall. by apply (Hall (v, r)). }
  unfold number_of, next_number. rewrite H1, H2, H3. simpl. revert Hle. unfold newer_number, lex, number_key, flip. simpl.
  destruct (ve_number x) as [a b c], (ve_number r) as [a' b' c']. simpl. intros Hle. split; [|intros [= ]]; lia.
Qed.

Section runs.
Variable parse_string : string -> option ast.
Variable ast_parse : string -> option pyast.
Variable same : pyval -> pyval -> bool.
Variable model_validate : schema_class -> pydict -> bool.
Variable sha256_json : pyval -> string.
Variable uuid_str : uuid -> string.
Variable has_rag : bool.
Variable get_rag_config : uuid -> option (uuid * uuid).
Variable get_chunking_rule : uuid -> uuid -> option pyval.
Variable rag_policy : uuid -> res exc (option (uuid * pydict)).
Variable get_node_template : uuid -> option template.
Variable template_by_code : string -> option uuid.
Variable get_active_prompt_id_by_node_type : string -> option uuid.
Variable limit_policy : uuid -> option uuid.
Variable limit_policy_published : uuid -> bool.

Abbreviation sound := (AuthoringFacts.sound parse_string ast_parse same model_validate sha256_json uuid_str).
Abbreviation safe := (AuthoringFacts.safe parse_string ast_parse same model_validate sha256_json uuid_str).
Abbreviation activate_flow_version :=
  (FlowAuthoring.activate_flow_version sha256_json uuid_str has_rag get_rag_config get_chunking_rule rag_policy).

(** One request, without its answer. *)
Definition serve (q : request) : A unit :=
  let quiet {T} (m : A T) : A unit := let* _ := m in mret tt in
  match q with
  | ReqFlow t n d tags p => quiet (create_flow t n d tags p)
  | ReqVersion t f q p => quiet (create_flow_version t f q p)
  | ReqGraph t f v p d => create_flow_graph t f v p d
  | ReqDraft t f v p d => upsert_flow_graph_draft t f v p d
  | ReqValidateDraft t f v p => validate_flow_graph_draft parse_string ast_parse same model_validate t f v p
  | ReqCompile t f v p => quiet (compile_flow_graph parse_string ast_parse same model_validate sha256_json t f v p)
  | ReqValidate t f v => quiet (validate_flow_version limit_policy limit_policy_published t f v)
  | ReqPublish t f v p c =>
      quiet (publish_flow_version sha256_json uuid_str has_rag get_rag_config get_chunking_rule rag_policy t f v p c)
  | ReqActivate t f v p c => quiet (activate_flow_version t f v p c)
  | ReqRollback t f v p c => quiet (rollback_flow_version t f v p c)
  | ReqCompose t q =>
      quiet (compose parse_string ast_parse same model_validate sha256_json uuid_str has_rag get_rag_config get_chunking_rule
               rag_policy t q)
  | ReqNode t v prompt rights p => quiet (create_node t v prompt rights p)
  | ReqTemplate t f v q p =>
      quiet (copy_node_from_template_request model_validate uuid_str get_node_template template_by_code
               get_active_prompt_id_by_node_type t f v q p)
  | ReqCustom t f v q p => quiet (create_custom_node model_validate uuid_str t f v q p)
  | ReqRouter t n p => quiet (create_router t n p)
  | ReqCondition t e p => quiet (create_condition_expression t e p)
  | ReqRule t q p => quiet (create_routing_rule t q p)
  | ReqBatch t q =>
      quiet (batch_upsert_artifacts model_validate uuid_str get_node_template template_by_code get_active_prompt_id_by_node_type t q)
  end.

(** The tables after some requests, answered or refused. *)
Definition perform (s : authoring) (l : list request) : authoring := foldl (fun s q => (serve q s).2) s l.

Lemma serve_safe origin q : safe origin (serve q).
Proof.
  destruct q; cbv beta zeta iota delta [serve]; try apply safe_ignore.
  - apply safe_create_flow.
  - apply safe_create_version.
  - apply safe_create_flow_graph.
  - apply safe_upsert_draft.
  - apply safe_validate_draft.
  - apply safe_compile.
  - apply safe_validate_version.
  - apply safe_publish.
  - apply safe_activate.
  - apply safe_rollback.
  - apply safe_compose.
  - apply safe_create_node.
  - apply safe_copy_request.
  - apply safe_custom_node.
  - apply safe_create_router.
  - apply safe_create_condition.
  - apply safe_create_rule.
  - apply safe_batch.
Qed.

Lemma safe_run {T} origin (m : A T) s : safe origin m -> sound origin s -> sound origin (m s).2.
Proof. intros H Hs. specialize (H s Hs). by destruct (m s) as [[a|e] s']. Qed.

(** Sound tables may count as the beginning. *)
Lemma sound_restart origin s : sound origin s -> sound s s.
Proof.
  intros H. destruct H as [Gr W N Fr B C D E F G I J K L]. split; try done. split_and!; try done.
  intros v r Hr. exists r. split; [done | apply succeeds_refl].
Qed.

Lemma empty_sound : sound empty_authoring empty_authoring.
Proof.
  split; simpl; try (intros; by simplify_map_eq).
  - split; [intros f Hf; apply lookup_empty_is_Some in Hf; done | intros; by simplify_map_eq].
  - split_and!; [intros v Hv; apply lookup_empty_is_Some in Hv; done | intros; by simplify_map_eq..].
  - intros v. unfold writers, list_nodes_for_flow_version. simpl. rewrite map_to_list_empty. simpl. lia.
  - intros f env. simpl. lia.
  - intros d Hd. by apply elem_of_nil in Hd.
Qed.

Lemma perform_sound origin s l : sound origin s -> sound origin (perform s l).
Proof.
  revert s. induction l as [|q l IH]; intros s Hs; simpl; [done|]. apply IH. apply safe_run; [apply serve_safe | done].
Qed.

(** [C5] Whatever requests [FlowsService] gets, in whatever order, answered or refused, the tables stay sound: an active version
    is published and has a compiled graph, a flow has at most one active version and an environment at most one active
    deployment, compiled graphs come from accepted definitions of published versions and have distinct hashes, a validated draft
    is accepted, at most one node of a version writes memory, snapshots and deployments refer to the graph of their own
    version, numbers are unique within a flow; and nothing is lost from any moment on: flows, compiled graphs and events stay,
    a version keeps its flow and number, and its status only advances. *)
Theorem authoring_sound (earlier later : list request) :
  sound (perform empty_authoring earlier) (perform empty_authoring (earlier ++ later)).
Proof.
  unfold perform. rewrite foldl_app. apply perform_sound, (sound_restart empty_authoring), perform_sound, empty_sound.
Qed.

(** ** Activation *)

Lemma elem_of_active f s v :
  v ∈ active_versions f s <-> exists r, au_versions s !! v = Some r /\ ve_flow r = f /\ ve_active r = true.
Proof.
  unfold active_versions. rewrite list_elem_of_omap. split.
  - intros ([w r] & Hr%elem_of_map_to_list & Hc). simpl in Hc. case_bool_decide; simpl in Hc; [|done].
    destruct (ve_active r) eqn:E; simplify_eq. eauto.
  - intros (r & Hr & Hf & Ha). exists (v, r). split; [by apply elem_of_map_to_list|]. simpl. by rewrite bool_decide_true, Ha by done.
Qed.

Lemma active_head origin s f v r :
  sound origin s -> au_versions s !! v = Some r -> ve_flow r = f -> ve_active r = true -> catalogue_active s f = Some v.
Proof.
  intros Hs Hr Hf Ha. assert (Hv : v ∈ active_versions f s) by (apply elem_of_active; eauto).
  unfold catalogue_active. destruct (active_versions f s) as [|w l] eqn:E; [by apply elem_of_nil in Hv|]. simpl. f_equal.
  assert (Hw : w ∈ active_versions f s) by (rewrite E; left). apply elem_of_active in Hw as (x & Hx & Hxf & Hxa).
  apply (so_one_active _ _ _ _ _ _ _ _ Hs w v x r); congruence.
Qed.

(** A run of the default environment reads the deployment that came last. *)
Lemma deployed_last f env d l :
  dp_flow d = f -> dp_environment d = env -> dp_active d = true -> find (in_slot f env) (map (retire f env) l ++ [d]) = Some d.
Proof.
  intros Hf He Ha. induction l as [|x l IH]; simpl.
  - unfold in_slot. rewrite Hf, He, Ha, N.eqb_refl, String.eqb_refl. done.
  - rewrite in_slot_retire, (bool_decide_true (f = f /\ env = env)) by done. by rewrite andb_false_r.
Qed.

Abbreviation materialize_ := (_materialize_snapshot_for_flow_version sha256_json uuid_str has_rag get_rag_config
  get_chunking_rule rag_policy).

(** What a version's activation leaves: its own deployment, with the empty policy. *)
Lemma materialize_deploys f v g s s' :
  materialize_ f v true s = (Ok tt, s') -> au_graph_snapshots s !! v = Some g -> is_Some (au_flows s !! f) ->
  au_flows s' = au_flows s /\ au_versions s' = au_versions s /\ au_graph_snapshots s' = au_graph_snapshots s /\
  exists d x, FlowAuthoring.get_active_flow_deployment f s' = Some d /\ dp_version d = v /\ au_snapshots s' !! v = Some x /\
    fsn_policy (sr_snapshot x) = [].
Proof.
  intros H Hg [fl Hfl]. revert H. unfold _materialize_snapshot_for_flow_version. unfold mbind_ at 1, mget. rewrite Hg, Hfl.
  unfold mbind_ at 1.
  assert (Hr : (_resolve_frozen_rag_for_flow_version sha256_json uuid_str has_rag get_rag_config get_chunking_rule rag_policy
                  (fl_tenant fl) v s).2 = s).
  { unfold _resolve_frozen_rag_for_flow_version, mbind_, mget, mret, mlift. destruct has_rag; [|done]. simpl. by case_match. }
  destruct (_resolve_frozen_rag_for_flow_version _ _ _ _ _ _ _ _ s) as [[fz|e] s1]; simpl in Hr; subst s1; [|done].
  unfold upsert_flow_snapshot, mbind_ at 1. unfold mbind_ at 1, mget. destruct (existsb _ _); [done|].
  unfold FlowAuthoring.get_active_flow_deployment.
  destruct (au_snapshots s !! v) as [x|]; intros [= <-]; simpl; split_and!; try done; eexists _, _;
    (split; [by apply deployed_last | split_and!; [done | apply lookup_insert_eq | done]]).
Qed.

Lemma make_active_outcome origin tenant f v c r s s' :
  sound origin s -> make_active tenant f v c s = (Ok r, s') ->
  sound origin s' /\ au_flows s' = au_flows s /\ au_snapshots s' = au_snapshots s /\ au_deployments s' = au_deployments s /\
  au_graph_snapshots s' = au_graph_snapshots s /\ is_Some (au_graph_snapshots s' !! v) /\
  (exists fl, au_flows s' !! f = Some fl /\ fl_tenant fl = tenant) /\
  exists x, au_versions s' !! v = Some x /\ ve_flow x = f /\ ve_active x = true /\ ve_status x = VS_PUBLISHED.
Proof.
  intros Hs H. pose proof (make_active_triple parse_string ast_parse same model_validate sha256_json uuid_str origin tenant f v c s Hs) as Ht.
  rewrite H in Ht. split; [apply Ht|]. clear Ht. revert H.
  unfold make_active, owned_version, owned_flow, version_of, blocked_unless, justified, upsert_active_flow_version, mbind_, mget, mlift, mret, mraise.
  destruct (au_flows s !! f) as [fl|] eqn:Hf; [|done]. case_bool_decide as Hten; [|done].
  destruct (au_versions s !! v) as [x|] eqn:Hv; [|done]. case_bool_decide as Hvf; [|done].
  destruct (in_status VS_PUBLISHED x) eqn:Hst; [|done]. simpl. destruct (String.eqb _ _); [done|]. simpl.
  destruct (au_graph_snapshots s !! v) as [g|] eqn:Hg; [|done]. rewrite Hv, bool_decide_true by done. intros [= _ <-].
  simpl. split_and!; eauto. eexists. split; [apply lookup_insert_eq|]. by apply bool_decide_eq_true_1 in Hst.
Qed.

(** Publishing deploys nothing: a version that is being published has no compiled graph yet, so there is no snapshot to
    materialise. *)
Theorem publish_deploys_nothing origin tenant f v principal c r s s' :
  sound origin s ->
  publish_flow_version sha256_json uuid_str has_rag get_rag_config get_chunking_rule rag_policy tenant f v principal c s = (Ok r, s') ->
  ve_status r = VS_PUBLISHED /\ au_versions s' !! v = Some r /\ au_graph_snapshots s' !! v = None /\
  au_snapshots s' = au_snapshots s /\ au_deployments s' = au_deployments s.
Proof.
  intros Hs. unfold publish_flow_version, owned_version, owned_flow, version_of, blocked_unless, justified, set_flow_version_status,
    _assert_flow_version_at_most_one_memory_write, append_event, mbind_, mget, mlift, mret, mraise, mmodify.
  destruct (au_flows s !! f) as [fl|] eqn:Hf; [|done]. case_bool_decide; [|done].
  destruct (au_versions s !! v) as [x|] eqn:Hv; [|done]. case_bool_decide; [|done].
  destruct (in_status VS_VALIDATED x) eqn:Hst; [|done]. simpl. destruct (String.eqb _ _); [done|]. simpl.
  destruct (1 <? _); [done|]. simpl. rewrite Hv. apply bool_decide_eq_true_1 in Hst.
  destruct (unpublished _ _ _ _ _ _ _ s v x Hs Hv) as [_ Hg]; [congruence|].
  unfold _materialize_snapshot_for_flow_version, mbind_, mget. simpl. rewrite Hg. simpl. rewrite lookup_insert_eq. simpl.
  intros [= <- <-]. simpl. by rewrite lookup_insert_eq.
Qed.

(** ** The contract of a run *)

Section contract.
Variable uuid_parse : string -> option uuid.
Variable py_str : pyval -> string.
Variable policy_validate : pydict -> res exc pydict.
Variable resolve_policy : uuid -> uuid -> res exc pydict.
Variable hash_dict : pydict -> string.
Variable legacy_contract : bool.
Hypothesis uuid_round : forall u, uuid_parse (uuid_str u) = Some u.
Hypothesis uuid_text : forall u, uuid_str u <> "".

(** [resolve_contract] of [FlowService], over the tables. *)
Definition contract_of (s : authoring) (tenant f v : uuid) : res exc (graph_snapshot * pydict * pydict) :=
  resolve_contract uuid_parse uuid_str py_str (catalogue_deployment s) (catalogue_snapshot s) (catalogue_snapshot_of s)
    (catalogue_graph s) (catalogue_graph_of s) policy_validate resolve_policy hash_dict legacy_contract tenant f v.

Lemma find_map {X} (p : X -> bool) (l : list X) x :
  x ∈ l -> p x = true -> (forall y, y ∈ l -> p y = true -> y = x) -> find p l = Some x.
Proof using.
  intros Hx Hp Hu. destruct (find p l) as [y|] eqn:E.
  - apply find_some in E as [Hy Hpy]. f_equal. apply Hu; [by apply list_elem_of_In | done].
  - rewrite (find_none p l E x) in Hp; [done | by apply list_elem_of_In].
Qed.

Lemma catalogue_snapshot_found origin s v x :
  sound origin s -> au_snapshots s !! v = Some x -> catalogue_snapshot s (fsn_id (sr_snapshot x)) = Some (sr_snapshot x).
Proof using.
  intros Hs Hx. apply find_map; [|apply N.eqb_refl|].
  - apply list_elem_of_In, in_map_iff. exists (v, x). split; [done|]. by apply list_elem_of_In, elem_of_map_to_list.
  - intros y Hy Hid. apply list_elem_of_In, in_map_iff in Hy as ([w z] & <- & Hz%list_elem_of_In%elem_of_map_to_list).
    apply N.eqb_eq in Hid. simpl in *. rewrite (so_snapshot_ids _ _ _ _ _ _ _ _ Hs w v z x Hz Hx Hid) in Hz. congruence.
Qed.

Lemma catalogue_graph_found origin s v g :
  sound origin s -> au_graph_snapshots s !! v = Some g -> catalogue_graph s (gsn_id g) = Some g.
Proof using.
  intros Hs Hg. apply find_map; [|apply N.eqb_refl|].
  - apply list_elem_of_In, in_map_iff. exists (v, g). split; [done|]. by apply list_elem_of_In, elem_of_map_to_list.
  - intros y Hy Hid. apply list_elem_of_In, in_map_iff in Hy as ([w z] & <- & Hz%list_elem_of_In%elem_of_map_to_list).
    apply N.eqb_eq in Hid. simpl in *. rewrite (so_graph_ids _ _ _ _ _ _ _ _ Hs w v z g Hz Hg (or_introl Hid)) in Hz. congruence.
Qed.

(** With a deployment, the contract is that of the deployed version, whatever version is asked for. *)
Lemma contract_deployed origin s tenant f v d :
  sound origin s -> FlowAuthoring.get_active_flow_deployment f s = Some d ->
  exists g x, au_graph_snapshots s !! dp_version d = Some g /\ au_snapshots s !! dp_version d = Some x /\
    match policy_validate (fsn_policy (sr_snapshot x)) with
    | Ok p => exists c, contract_of s tenant f v = Ok (g, p, c) /\ dict_getv "flow_version_id" c = PStr (uuid_str v)
    | Err e => contract_of s tenant f v = Err e
    end.
Proof using uuid_round uuid_text.
  intros Hs Hd. assert (Hin : d ∈ au_deployments s) by (apply find_some in Hd as [Hd _]; by apply list_elem_of_In).
  destruct (so_deployed _ _ _ _ _ _ _ _ Hs d Hin) as [_ (x & Hx & Hid)]. destruct (so_snapshots _ _ _ _ _ _ _ _ Hs _ x Hx) as (g & Hg & Href).
  exists g, x. split; [done|]. split; [done|]. unfold contract_of, resolve_contract, catalogue_deployment. rewrite Hd. simpl.
  rewrite <- Hid, (catalogue_snapshot_found origin s _ x Hs Hx), Href. simpl.
  rewrite (proj2 (String.eqb_neq _ _) (uuid_text _)). simpl. rewrite uuid_round. simpl. rewrite (catalogue_graph_found origin s _ g Hs Hg).
  destruct (policy_validate _) as [p|e]; simpl; [|done]. eexists. by split.
Qed.

(** In the tables an activated version is the active one: a request for its flow that reads them selects it, and the contract of
    the run has the graph compiled for that very version.  [resolve_contract] accepts the empty policy an activation deploys. *)
Lemma activated_contract origin tenant f v principal c r s s' policy q :
  sound origin s -> activate_flow_version tenant f v principal c s = (Ok r, s') -> policy_validate [] = Ok policy ->
  fc_flow q = Some f -> fc_version q = None \/ fc_version q = Some v -> py_strip (fc_user q) <> "" ->
  catalogue_active s' f = Some v /\
  select_version (catalogue_version s') (catalogue_tenant s') (catalogue_active s') tenant q = Ok (f, v) /\
  exists g k, au_graph_snapshots s' !! v = Some g /\ contract_of s' tenant f v = Ok (g, policy, k).
Proof using uuid_round uuid_text.
  intros Hs H Hpol Hqf Hqv Huser. pose proof (safe_activate parse_string ast_parse same model_validate sha256_json uuid_str has_rag
    get_rag_config get_chunking_rule rag_policy origin tenant f v principal c s Hs) as Ht. rewrite H in Ht. revert H.
  unfold FlowAuthoring.activate_flow_version. unfold mbind_ at 1. destruct (make_active tenant f v c s) as [[x|e] s1] eqn:Hm; [|done].
  destruct (make_active_outcome origin _ _ _ _ _ _ _ Hs Hm) as (Hs1 & _ & _ & _ & _ & [g Hg] & (fl & Hfl & Hten) & y & Hy & Hyf & Hact & Hpub).
  unfold mbind_ at 1. destruct (materialize_ f v true s1) as [[[]|e] s2] eqn:Hmat; [|done]. intros [= _ <-].
  destruct (materialize_deploys f v g s1 s2 Hmat Hg (ex_intro _ fl Hfl)) as (Ef & Ev & Eg & d & z & Hd & Hdv & Hz & Hzp).
  set (s3 := set_events _ s2) in *.
  assert (Hact3 : catalogue_active s3 f = Some v) by (eapply active_head; [exact Ht | simpl; by rewrite Ev | done | done]).
  split; [exact Hact3|]. split.
  - assert (Hver : catalogue_version s3 v = Some {| fv_flow := f; fv_status := "PUBLISHED" |}).
    { unfold catalogue_version. simpl. rewrite Ev, Hy. simpl. by rewrite Hyf, Hpub. }
    assert (Hten3 : catalogue_tenant s3 f = Some tenant) by (unfold catalogue_tenant; simpl; by rewrite Ef, Hfl; simpl; rewrite Hten).
    unfold select_version. rewrite Hqf, bool_decide_false by (by intros [? _]).
    destruct Hqv as [->| ->]; simpl; rewrite ?Hver; simpl; rewrite (proj2 (String.eqb_neq _ _) Huser), Hten3, Hact3; simpl;
      by rewrite !bool_decide_true by done.
  - destruct (contract_deployed origin _ tenant f v d Ht Hd) as (g' & z' & Hg' & Hz' & Hc).
    rewrite Hdv in Hg', Hz'. simpl in Hz'. rewrite Hz in Hz'. injection Hz' as <-. rewrite Hzp, Hpol in Hc. destruct Hc as (k & Hc & _). eauto.
Qed.

(** A rollback does not reach the runs of a flow that has a deployment: the version that was rolled back to is selected and
    recorded in the contract, but the graph stays that of the deployed version. *)
Theorem rollback_keeps_deployed_graph origin tenant f v principal c r s s' d g policy k :
  sound origin s -> rollback_flow_version tenant f v principal c s = (Ok r, s') ->
  FlowAuthoring.get_active_flow_deployment f s = Some d -> contract_of s' tenant f v = Ok (g, policy, k) ->
  catalogue_active s' f = Some v /\ dict_getv "flow_version_id" k = PStr (uuid_str v) /\
  au_graph_snapshots s' !! dp_version d = Some g /\ (dp_version d <> v -> au_graph_snapshots s' !! v <> Some g).
Proof using uuid_round uuid_text.
  intros Hs H Hd Hc. pose proof (safe_rollback parse_string ast_parse same model_validate sha256_json uuid_str origin tenant f v principal
    c s Hs) as Ht. rewrite H in Ht. revert H. unfold rollback_flow_version. unfold mbind_ at 1.
  destruct (make_active tenant f v c s) as [[x|e] s1] eqn:Hm; [|done].
  destruct (make_active_outcome origin _ _ _ _ _ _ _ Hs Hm) as (Hs1 & _ & _ & Ed & _ & _ & _ & y & Hy & Hyf & Hact & _).
  intros [= _ Hs']. assert (Hd' : FlowAuthoring.get_active_flow_deployment f s' = Some d).
  { rewrite <- Hs'. unfold FlowAuthoring.get_active_flow_deployment. simpl. by rewrite Ed. }
  destruct (contract_deployed origin s' tenant f v d Ht Hd') as (g' & z & Hg' & Hz & Hcon).
  destruct (policy_validate _) as [p|e]; [|congruence]. destruct Hcon as (k' & Hk & Hfv). rewrite Hc in Hk. injection Hk as -> -> ->.
  split_and!; [|done|done|].
  - apply (active_head origin s' f v y); [done | by rewrite <- Hs' | done | done].
  - intros Hne Hg. apply Hne. by apply (so_graph_ids _ _ _ _ _ _ _ _ Ht _ v g' g' Hg' Hg (or_introl eq_refl)).
Qed.
End contract.
End runs.
