(* ===== verification/AuthoringSample.v ===== *)
(** * AuthoringSample: a flow with two versions, authored and deployed

    Concrete requests of [FlowsService]: witnesses for the theorems of [AuthoringRuns], and the behaviours its checks leave
    open. *)

From S2P Require Import Prelude.
From S2P Require Import Errors.
From S2P Require Import PyValue.
From S2P Require Import PyString.
From S2P Require Import StateMachine.
From S2P Require Import Sorting.
From S2P Require Import FlowGraph.
From S2P Require Import EdgeEvaluator.
From S2P Require Import ConditionEvaluator.
From S2P Require Import DraftGraph.
From S2P Require Import GraphCompiler.
From S2P Require Import Effects.
From S2P Require Import Store.
From S2P Require Import Redis.
From S2P Require Import FlowService.
From S2P Require Import FlowAuthoring.
From S2P Require Import AuthoringFacts.
From S2P Require Import AuthoringRuns.

(** ** Identifiers and digests *)

Fixpoint tally (n : nat) : string := match n with 0 => "u" | S n => "a" +:+ tally n end.
Definition tally_str (u : uuid) : string := tally (N.to_nat u).
Definition tally_parse (s : string) : option uuid := Some (N.of_nat (String.length s - 1)).

Lemma tally_round u : tally_parse (tally_str u) = Some u.
Proof.
  unfold tally_parse, tally_str. assert (H : forall n, String.length (tally n) = S n) by (induction n as [|n IH]; [done | simpl; by f_equal]).
  rewrite H. f_equal. lia.
Qed.
Lemma tally_text u : tally_str u <> "".
Proof. unfold tally_str. by destruct (N.to_nat u). Qed.

Fixpoint digest (v : pyval) : string :=
  match v with
  | PStr s => s
  | PList l => "[" +:+ String.concat "," (map digest l) +:+ "]"
  | PDict d => "{" +:+ String.concat "," (map (fun kv => kv.1 +:+ ":" +:+ digest kv.2) d) +:+ "}"
  | _ => "."
  end.

(** ** Requests *)

(** The graph of the second version: no way back from the clarification. *)
Definition straight_graph : FlowGraphDefinition := {|
  start_node := start_node demo_graph; nodes := nodes demo_graph; edges := take 2 (edges demo_graph) |}.

Definition change : ChangeRequest := {| change_type := "UPDATE"; justification := "release" |}.
Definition next_version : FlowVersionCreate := {|
  vc_source := None; vc_major := None; vc_minor := None; vc_patch := None;
  vc_min_agent := {| ma_major := None; ma_minor := None; ma_patch := None |} |}.

Definition published (t f v : uuid) (d : FlowGraphDefinition) : list request := [
  ReqVersion t f next_version "ana"; ReqDraft t f v "ana" d; ReqValidateDraft t f v "ana"; ReqValidate t f v;
  ReqPublish t f v "ana" change ].
Definition released (t f v : uuid) (d : FlowGraphDefinition) : list request :=
  published t f v d ++ [ReqCompile t f v "ana"; ReqActivate t f v "ana" change].

Abbreviation sample_perform := (perform demo_parse demo_ast_parse yes yes digest tally_str false (fun _ => None) (fun _ _ => None)
  (fun _ => Ok None) (fun _ => None) (fun _ => None) (fun _ => None) (fun _ => Some 900%N) (fun _ => true)).

Definition two_versions : list request :=
  ReqFlow 1 "support" None [] "ana" :: released 1 1 2 demo_graph ++ released 1 1 6 straight_graph.
Definition sample_tables : authoring := sample_perform empty_authoring two_versions.


(** The tables before the second version was activated. *)
Definition before_activation : authoring :=
  sample_perform empty_authoring (ReqFlow 1 "support" None [] "ana" :: released 1 1 2 demo_graph ++ published 1 1 6 straight_graph ++
    [ReqCompile 1 1 6 "ana"]).

Definition sample_query (v : option uuid) : FlowRunCreate := {|
  fc_flow := Some 1%N; fc_version := v; fc_session := 3; fc_user := "ana"; fc_origin := None; fc_correlation := None;
  fc_input := Some {| user_input := Some "hello" |}; fc_parts := []; fc_metadata := [] |}.

Abbreviation sample_contract := (contract_of tally_str tally_parse (fun _ => "text") (fun p => Ok p) (fun _ _ => Ok []) (fun _ => "hash") false).
Abbreviation sample_activate := (activate_flow_version digest tally_str false (fun _ => None) (fun _ _ => None) (fun _ => Ok None)).
Abbreviation sample_sound := (AuthoringFacts.sound demo_parse demo_ast_parse yes yes digest tally_str).

(** ** Witnesses *)

Lemma sample_sound_before : sample_sound empty_authoring before_activation.
Proof. apply perform_sound, empty_sound. Qed.
Lemma sample_sound_tables : sample_sound empty_authoring sample_tables.
Proof. apply perform_sound, empty_sound. Qed.

(** The first version is rolled back to: it is active, but the graph that runs is that of the second. *)
Lemma rollback_keeps_deployed_graph_witness :
  exists r s' g k, rollback_flow_version 1 1 2 "ana" change sample_tables = (Ok r, s') /\ sample_contract s' 1 1 2 = Ok (g, [], k) /\
    catalogue_active s' 1 = Some 2%N /\ dict_getv "flow_version_id" k = PStr (tally_str 2) /\
    au_graph_snapshots s' !! 6%N = Some g /\ (6%N <> 2%N -> au_graph_snapshots s' !! 2%N <> Some g).
Proof.
  destruct (rollback_flow_version 1 1 2 "ana" change sample_tables) as [[r|e] s'] eqn:H; [|vm_compute in H; discriminate].
  assert (Hs : s' = (rollback_flow_version 1 1 2 "ana" change sample_tables).2) by (by rewrite H).
  destruct (sample_contract s' 1 1 2) as [[[g p] k]|e] eqn:Hc; [|rewrite Hs in Hc; vm_compute in Hc; discriminate].
  assert (Hp : p = []) by (rewrite Hs in Hc; vm_compute in Hc; by injection Hc as _ <- _). subst p.
  exists r, s', g, k. split; [done|]. split; [done|].
  apply (rollback_keeps_deployed_graph demo_parse demo_ast_parse yes yes digest tally_str tally_parse (fun _ => "text") (fun p => Ok p)
    (fun _ _ => Ok []) (fun _ => "hash") false tally_round tally_text empty_authoring 1 1 2 "ana" change r sample_tables s'
    {| dp_id := 9; dp_flow := 1; dp_version := 6; dp_snapshot := 8; dp_environment := "default"; dp_active := true |} g [] k);
    [apply sample_sound_tables | exact H | vm_compute; reflexivity | exact Hc].
Defined.

(** ** What the checks leave open *)

(** The hash of a compiled graph is unique in the table, across tenants: tenant 2 cannot compile the graph of tenant 1. *)
Lemma same_graph_twice_fails :
  (compile_flow_graph demo_parse demo_ast_parse yes yes digest 2 10 11 "bob"
     (sample_perform sample_tables (ReqFlow 2 "other" None [] "bob" :: published 2 10 11 demo_graph))).1 =
  Err (ExternalError "IntegrityError" "flow_graph_snapshot.graph_hash").
Proof. vm_compute. reflexivity. Qed.

(** Tenant 2 validates a draft of tenant 1, under the name of a flow of its own. *)
Lemma foreign_draft_validated :
  let s := sample_perform sample_tables [ReqDraft 1 1 6 "ana" straight_graph; ReqFlow 2 "other" None [] "bob"] in
  dr_status <$> au_drafts s !! 6%N = Some VS_DRAFT /\
  dr_status <$> au_drafts (validate_flow_graph_draft demo_parse demo_ast_parse yes yes 2 10 6 "bob" s).2 !! 6%N = Some VS_VALIDATED.
Proof. vm_compute. done. Qed.

(** A deployment composed with another graph stores that graph beside the id and the hash of the compiled one, which is the
    one that runs. *)
Definition other_graph : DeploymentComposeRequest := {|
  dc_flow := 1; dc_version := 6; dc_principal := "ana"; dc_environment := "default"; dc_definition := Ok demo_graph;
  dc_policy := []; dc_tools := []; dc_llm_hash := None; dc_bindings := [] |}.

Lemma composed_graph_does_not_run :
  let s := sample_perform sample_tables [ReqCompose 1 other_graph] in
  match au_snapshots s !! 6%N, au_graph_snapshots sample_tables !! 6%N, au_graph_snapshots sample_tables !! 2%N with
  | Some x, Some g, Some h =>
      dict_getv "graph" (fsn_snapshot (sr_snapshot x)) = snapshot_value (gsn_graph h) /\
      dict_getv "graph_hash" (fsn_snapshot (sr_snapshot x)) = PStr (gsn_hash g) /\ gsn_hash g <> gsn_hash h /\
      (fun r => r.1.1) <$> (match sample_contract s 1 1 6 with Ok r => Some r | Err _ => None end) = Some g
  | _, _, _ => False
  end.
Proof. vm_compute. split_and!; done. Qed.

(** The first version of a flow is [1.0.0], whatever part of the number was asked for. *)
Lemma first_number_ignores_request :
  let q := {| vc_source := None; vc_major := Some 3%Z; vc_minor := Some 2%Z; vc_patch := None; vc_min_agent := vc_min_agent next_version |} in
  let s := sample_perform empty_authoring [ReqFlow 1 "support" None [] "ana"; ReqVersion 1 1 q "ana"] in
  ve_number <$> au_versions s !! 2%N = Some {| vn_major := 1; vn_minor := 0; vn_patch := 0 |}.
Proof. vm_compute. reflexivity. Qed.
