(* ===== verification/Catalogue.v ===== *)
(** * Catalogue: the rows the runtime reads through its cache

    [src/src/domain/execution/repositories/execution_repository.py] keeps versions, graphs, policies, agents, models, nodes and
    tool configurations in Redis for 300 seconds; [src/src/infra/database/models/base.py] turns rows into dicts and back.
    Nothing removes these entries when the tables change. *)

From S2P Require Import Prelude.
From S2P Require Import Errors.
From S2P Require Import PyValue.
From S2P Require Import PyString.
From S2P Require Import StateMachine.
From S2P Require Import Sorting.
From S2P Require Import EdgeEvaluator.
From S2P Require Import ConditionEvaluator.
From S2P Require Import DraftGraph.
From S2P Require Import GraphCompiler.
From S2P Require Import Effects.
From S2P Require Import Store.
From S2P Require Import Redis.
From S2P Require Import FlowService.
From S2P Require Import FlowAuthoring.
From S2P Require Import AuthoringFacts.
From S2P Require Import AuthoringRuns.
From S2P Require Import AuthoringSample.

(** ** Rows *)

Inductive column : Type := CUuid | CTime | CPlain.
(** A loaded value: [UUID], [datetime] in microseconds, [Decimal] in millionths, or a JSON value. *)
Inductive cell : Type :=
  | VUuid (u : uuid)
  | VTime (t : Z)
  | VDecimal (z : Z)
  | VJson (v : pyval).
Definition row : Type := list (string * cell).

Section rows.
Variable uuid_parse : string -> option uuid.
Variable uuid_str : uuid -> string.
Variable time_parse : string -> option Z.
Variable time_str : Z -> string.
Variable decimal_str : Z -> string.

(** [json.dumps(data, default=str)], loaded again. *)
Definition dump_cell (c : cell) : pyval :=
  match c with
  | VUuid u => PStr (uuid_str u)
  | VTime t => PStr (time_str t)
  | VDecimal z => PStr (decimal_str z)
  | VJson v => v
  end.
Definition to_dict (r : row) : pydict := map (fun kc => (kc.1, dump_cell kc.2)) r.

(** [from_dict]: keys that are no columns are skipped. *)
Definition load_cell (c : column) (v : pyval) : res exc cell :=
  match c, v with
  | CUuid, PStr s => match uuid_parse s with Some u => Ok (VUuid u) | None => Err PyValueError end
  | CTime, PStr s => match time_parse s with Some t => Ok (VTime t) | None => Err PyValueError end
  | _, v => Ok (VJson v)
  end.
Fixpoint column_of (k : string) (cols : list (string * column)) : option column :=
  match cols with
  | [] => None
  | (k', c) :: l => if String.eqb k k' then Some c else column_of k l
  end.
Fixpoint from_items (cols : list (string * column)) (d : pydict) : res exc row :=
  match d with
  | [] => Ok []
  | (k, v) :: d' =>
      match column_of k cols with
      | None => from_items cols d'
      | Some c => let! x := load_cell c v in let! l := from_items cols d' in Ok ((k, x) :: l)
      end
  end.
Definition from_dict (cols : list (string * column)) (v : pyval) : res exc row :=
  match v with PDict d => from_items cols d | _ => Err PyAttributeError end.

(** A row of the table: no decimals, and text in a column of identifiers or times is a parsed one. *)
Definition cell_ok (c : column) (x : cell) : Prop :=
  match c, x with
  | CUuid, VUuid _ | CTime, VTime _ => True
  | CPlain, VJson _ => True
  | _, VJson PNone => True
  | _, _ => False
  end.
Definition row_ok (cols : list (string * column)) (r : row) : Prop :=
  Forall (fun kc => exists c, column_of kc.1 cols = Some c /\ cell_ok c kc.2) r.

Hypothesis uuid_round : forall u, uuid_parse (uuid_str u) = Some u.
Hypothesis time_round : forall t, time_parse (time_str t) = Some t.

Lemma from_items_dump cols r : row_ok cols r -> from_items cols (to_dict r) = Ok r.
Proof using uuid_round time_round.
  induction 1 as [|[k' x] r (c & Hc & Hx) Hr IH]; simpl in *; [done|]. rewrite Hc, IH.
  destruct c, x as [u|t|z'|[]]; simpl in *; try done; by rewrite ?uuid_round, ?time_round.
Qed.

(** A cached row is the row that was stored: [from_dict] of what [to_dict] wrote gives back every column.  A [Decimal]
    comes back as text. *)
Theorem row_round_trip cols r k z :
  row_ok cols r ->
  from_dict cols (PDict (to_dict r)) = Ok r /\
  (column_of k cols = Some CPlain ->
   from_dict cols (PDict (to_dict ((k, VDecimal z) :: r))) = Ok ((k, VJson (PStr (decimal_str z))) :: r)).
Proof using uuid_round time_round.
  intros H. apply from_items_dump in H. split; [exact H|]. intros Hk. simpl. rewrite Hk. simpl. by rewrite H.
Qed.
End rows.

(** ** Reads through the cache *)

Section cached.
Context {W : Type}.
Variable silent_mode : bool.
Variable ttl : Z.

(** A read of the repository: the cached value when there is one that can be used, else the table's, which is then cached. *)
Definition read_through {T} (key : string) (load : pyval -> res exc (option T)) (dump : T -> pyval) (find : W -> option T) :
    M (redis * W) (option T) :=
  let* cached := on_redis (cache_get silent_mode key) in
  let* hit := (if truthy cached then mlift (load cached) else mret None) in
  match hit with
  | Some x => mret (Some x)
  | None =>
      let* s := mget in
      match find s.2 with
      | None => mret None
      | Some x => on_redis (cache_set silent_mode key (dump x) ttl) ;;* mret (Some x)
      end
  end.
End cached.

(** The reads of [ExecutionRepository], for tables [W]. *)
Section reads.
Context {W : Type}.
Variable silent_mode : bool.
Variable uuid_parse : string -> option uuid.
Variable uuid_str : uuid -> string.
Variable time_parse : string -> option Z.
Variable time_str : Z -> string.
Variable decimal_str : Z -> string.

(** The default [ttl] of [RedisAdapter.set]. *)
Definition default_ttl : Z := 300.

(** A row by its identifier. *)
Definition cached_row (prefix : string) (cols : list (string * column)) (find : uuid -> W -> option row) (i : uuid) :
    M (redis * W) (option row) :=
  read_through silent_mode default_ttl (prefix +:+ uuid_str i) (fun v => let! r := from_dict uuid_parse time_parse cols v in Ok (Some r))
    (fun r => PDict (to_dict uuid_str time_str decimal_str r)) (find i).

(** An identifier, cached as a dict with one entry; anything else is read again. *)
Definition load_id (field : string) (v : pyval) : res exc (option uuid) :=
  match v with
  | PDict d => if truthy (dict_getv field d) then let! u := uuid_of uuid_parse (dict_getv field d) in Ok (Some u) else Ok None
  | _ => Ok None
  end.
Definition dump_id (field : string) (u : uuid) : pyval := PDict [(field, PStr (uuid_str u))].
Definition cached_id (prefix field : string) (find : uuid -> W -> option uuid) (i : uuid) : M (redis * W) (option uuid) :=
  read_through silent_mode default_ttl (prefix +:+ uuid_str i) (load_id field) (dump_id field) (find i).

(** The tables, with the columns of each model. *)
Variable columns : string -> list (string * column).
Variable table_row : string -> uuid -> W -> option row.
Variable active_id : string -> uuid -> W -> option uuid.

Definition get_flow_version := cached_row "flow_version:" (columns "flow_version") (table_row "flow_version").
Definition get_active_flow_version_id := cached_id "flow_active_version:" "flow_version_id" (active_id "flow_version").
Definition get_flow_graph_by_flow_version := cached_row "flow_graph:" (columns "flow_graph") (table_row "flow_graph").
Definition get_flow_graph_snapshot_by_flow_version :=
  cached_row "flow_snapshot:" (columns "flow_graph_snapshot") (table_row "flow_graph_snapshot").
Definition get_tool_config := cached_row "tool_config:" (columns "tool_config") (table_row "tool_config").
Definition get_agent_version := cached_row "agent_version:" (columns "agent_version") (table_row "agent_version").
Definition get_active_agent_version_id := cached_id "agent_active_version:" "agent_version_id" (active_id "agent_version").
Definition get_ai_execution_policy_version :=
  cached_row "ai_policy_version:" (columns "ai_execution_policy_version") (table_row "ai_execution_policy_version").
Definition get_model := cached_row "model:" (columns "model") (table_row "model").
Definition get_node := cached_row "node:" (columns "node") (table_row "node").
Definition get_active_billing_policy_version_id :=
  cached_id "active_billing_version:" "billing_policy_version_id" (active_id "billing_policy_version").
Definition get_billing_policy_version :=
  cached_row "billing_policy_version:" (columns "billing_policy_version") (table_row "billing_policy_version").
Definition get_active_memory_policy_version_id :=
  cached_id "active_memory_version:" "memory_policy_version_id" (active_id "memory_policy_version").
Definition get_memory_policy_version :=
  cached_row "memory_policy_version:" (columns "memory_policy_version") (table_row "memory_policy_version").
Definition get_active_rag_policy_version_id :=
  cached_id "active_rag_version:" "rag_policy_version_id" (active_id "rag_policy_version").
Definition get_rag_policy_version :=
  cached_row "rag_policy_version:" (columns "rag_policy_version") (table_row "rag_policy_version").
End reads.

(** ** Histories *)

Section history.
Context {W T : Type}.
Variable silent_mode : bool.
Variable ttl : Z.
Variable key : string.
Variable load : pyval -> res exc (option T).
Variable dump : T -> pyval.
Variable find : W -> option T.

(** What happens around a key: it is read, the tables change, time passes, other keys are written, Redis fails. *)
Inductive event : Type :=
  | Read
  | Change (f : W -> W)
  | Wait (d : N)
  | Foreign (k : string) (e : rvalue * option Z)
  | Outage (l : list bool).

Record history : Type := {
  hi_now : redis * W;
  hi_past : list (Z * W);
}.
Definition noted (s : redis * W) (h : history) : history := {| hi_now := s; hi_past := (clock s.1, s.2) :: hi_past h |}.

Definition happen (e : event) (h : history) : history :=
  let '(r, w) := hi_now h in
  match e with
  | Read => noted (read_through silent_mode ttl key load dump find (r, w)).2 h
  | Change f => noted (r, f w) h
  | Wait d => noted (tick (Z.of_N d) r, w) h
  | Foreign k e => if String.eqb k key then h else noted (set_entries (<[k := e]> (entries r)) r, w) h
  | Outage l => noted (set_faults l r, w) h
  end.
Definition begin_with (w : W) : history := noted (empty_redis, w) {| hi_now := (empty_redis, w); hi_past := [] |}.
Definition after (w : W) (l : list event) : history := foldl (fun h e => happen e h) (begin_with w) l.

Hypothesis ttl_ok : (0 < ttl)%Z.
Hypothesis round_trip : forall w x, find w = Some x -> truthy (dump x) = true /\ load (dump x) = Ok (Some x).

(** A cached value was in the table when it was cached. *)
Definition backed (h : history) : Prop :=
  (clock (hi_now h).1, (hi_now h).2) ∈ hi_past h /\
  (forall t w, (t, w) ∈ hi_past h -> (t <= clock (hi_now h).1)%Z) /\
  forall e, entries (hi_now h).1 !! key = Some e ->
    exists t w x, (t, w) ∈ hi_past h /\ find w = Some x /\ e = (RJson (dump x), Some (t + ttl)%Z).

(** The outcomes of a read. *)
Lemma get_outcomes r :
  let '(o, r') := cache_get silent_mode key r in
  clock r' = clock r /\ entries r' = entries r /\
  match o with
  | Ok v => v = PBool false \/ v = match rlookup r key with Some e => loads e.1 | None => PNone end
  | Err _ => True
  end.
Proof.
  unfold cache_get, silent_mode_wrapper, mtry, mbind_, mret, redis_get, command.
  destruct silent_mode; simpl; destruct (faults r) as [|[] fs]; simpl; split_and!; try done; first [by left | right];
    unfold rlookup; simpl; (destruct (entries r !! key) as [[v [z|]]|]; [unfold live; simpl; by destruct (clock r <? z)%Z | done | done]).
Qed.

Lemma set_outcomes r x :
  let '(o, r') := cache_set silent_mode key (dump x) ttl r in
  clock r' = clock r /\ (entries r' = entries r \/ entries r' = <[key := (RJson (dump x), Some (clock r + ttl)%Z)]> (entries r)).
Proof using ttl_ok.
  assert (Hw : (ttl <=? 0)%Z = false) by (apply Z.leb_gt; lia).
  unfold cache_set, silent_mode_wrapper, mtry, mbind_, mret, redis_set, command.
  destruct silent_mode; simpl; destruct (faults r) as [|[] fs]; simpl; rewrite ?Hw; simpl; auto.
Qed.

(** What a read answers and leaves, in a backed history. *)
Lemma read_outcome h :
  backed h ->
  let '(o, (r', w')) := read_through silent_mode ttl key load dump find (hi_now h) in
  w' = (hi_now h).2 /\ clock r' = clock (hi_now h).1 /\
  (entries r' = entries (hi_now h).1 \/
   exists x, find w' = Some x /\ entries r' = <[key := (RJson (dump x), Some (clock r' + ttl)%Z)]> (entries (hi_now h).1)) /\
  match o with
  | Ok v => v = find w' \/ exists t w x, (t, w) ∈ hi_past h /\ (clock r' < t + ttl)%Z /\ find w = Some x /\ v = Some x
  | Err _ => silent_mode = false
  end.
Proof using ttl_ok round_trip.
  intros (_ & _ & Hb). destruct (hi_now h) as [r w]. simpl in Hb. unfold read_through, mbind_, on_redis, mlift, mret, mget. simpl.
  pose proof (get_outcomes r) as Hg. destruct (cache_get silent_mode key r) as [[v|e] r1] eqn:Eg.
  2:{ destruct Hg as (Hc & He & _). simpl. split_and!; auto.
      revert Eg. unfold cache_get, silent_mode_wrapper, mtry, mbind_. destruct silent_mode; [|done].
      by destruct (redis_get key r) as [[]]. }
  destruct Hg as (Hc & He & Hv).
  assert (Hhit : (truthy v = false) \/ exists t w' x, (t, w') ∈ hi_past h /\ (clock r < t + ttl)%Z /\ find w' = Some x /\ v = dump x).
  { destruct Hv as [->|Hv]; [by left|]. unfold rlookup in Hv. destruct (entries r !! key) as [e|] eqn:Ek; [|left; by rewrite Hv].
    destruct (Hb e eq_refl) as (t & w' & x & Hin & Hf & ->). unfold live in Hv. simpl in Hv.
    destruct (Z.ltb_spec (clock r) (t + ttl)); [right; eauto 10 | left; by rewrite Hv]. }
  destruct Hhit as [Hf|(t & w' & x & Hin & Hlt & Hx & ->)].
  - rewrite Hf. simpl. destruct (find w) as [x|] eqn:Efw; simpl; [|split_and!; auto].
    pose proof (set_outcomes r1 x) as Hs. destruct (cache_set silent_mode key (dump x) ttl r1) as [[u|e] r2] eqn:Es.
    + destruct Hs as (Hc2 & Hent). simpl. split_and!; [done | congruence | | by left]. rewrite Hc2, Hc in *. rewrite He in Hent.
      destruct Hent as [?|?]; [by left | right; eauto].
    + destruct Hs as (Hc2 & Hent). simpl. split_and!; [done | congruence | |].
      * rewrite Hc2, Hc in *. rewrite He in Hent. destruct Hent as [?|?]; [by left | right; eauto].
      * revert Es. unfold cache_set, silent_mode_wrapper, mtry, mbind_. destruct silent_mode; [|done].
        by destruct (redis_set _ _ _ _) as [[]].
  - destruct (round_trip w' x Hx) as [Ht Hl]. rewrite Ht, Hl. simpl. split_and!; auto. right. rewrite Hc. eauto 10.
Qed.

Lemma noted_backed h r' w' :
  backed h -> (clock (hi_now h).1 <= clock r')%Z ->
  (forall e, entries r' !! key = Some e -> entries (hi_now h).1 !! key = Some e \/
     exists x, find w' = Some x /\ e = (RJson (dump x), Some (clock r' + ttl)%Z)) ->
  backed (noted (r', w') h).
Proof.
  intros (_ & Htime & Hent) Hc He. split_and!; simpl; [left | |].
  - intros t w1 [[= -> ->]|Hin]%elem_of_cons; [lia|]. pose proof (Htime t w1 Hin). lia.
  - intros e [Hk|(x & Hx & ->)]%He.
    + destruct (Hent e Hk) as (t & w1 & x & Hin & ? & ?). exists t, w1, x. split; [by right | done].
    + exists (clock r'), w', x. split; [left | done].
Qed.

Lemma happen_backed e h : backed h -> backed (happen e h).
Proof using ttl_ok round_trip.
  intros Hb. pose proof (read_outcome h Hb) as Hr. pose proof (fun r' w' => noted_backed h r' w' Hb) as Hn.
  unfold happen. destruct (hi_now h) as [r w]. simpl in *. destruct e as [|f|d|k e|l].
  - destruct (read_through _ _ _ _ _ _ (r, w)) as [o [r' w']]. destruct Hr as (-> & Hc & He & _). apply Hn; [lia|]. intros e Hk.
    destruct He as [He|(x & Hx & He)]; rewrite He in Hk; [by left|]. rewrite lookup_insert_eq in Hk. injection Hk as <-. eauto.
  - apply Hn; [lia | by left].
  - apply Hn; [simpl; lia | by left].
  - destruct (String.eqb_spec k key) as [->|Hne]; [done|]. apply Hn; [simpl; lia|]. intros e' Hk. left. simpl in Hk.
    by rewrite lookup_insert_ne in Hk.
  - apply Hn; [simpl; lia | by left].
Qed.

Lemma after_backed w l : backed (after w l).
Proof using ttl_ok round_trip.
  unfold after. assert (H : backed (begin_with w)).
  { split_and!; simpl; [left | |].
    - intros t w' [[= -> ->]|Hin]%elem_of_cons; [done | by apply elem_of_nil in Hin].
    - intros e He. by rewrite lookup_empty in He. }
  revert H. generalize (begin_with w). induction l as [|e l IH]; intros h Hh; simpl; [done|]. by apply IH, happen_backed.
Qed.

(** A read through the cache answers with what the tables held at some moment less than the time to live ago, whatever
    happened in between: changes of the tables, other keys, failures of Redis; in silent mode it never fails. *)
Theorem bounded_staleness w l :
  let h := after w l in
  match (read_through silent_mode ttl key load dump find (hi_now h)).1 with
  | Ok v => exists t w', (t, w') ∈ hi_past h /\ find w' = v /\ (clock (hi_now h).1 - ttl < t <= clock (hi_now h).1)%Z
  | Err _ => silent_mode = false
  end.
Proof using ttl_ok round_trip.
  intros h. pose proof (after_backed w l) as Hb. fold h in Hb. pose proof (read_outcome h Hb) as Hr.
  destruct (read_through _ _ _ _ _ _ (hi_now h)) as [[v|e] [r' w']]; destruct Hr as (-> & Hc & _ & Hv); simpl; [|done].
  destruct Hb as (Hnow & Htime & _). destruct Hv as [->|(t & w' & x & Hin & Hlt & Hf & ->)].
  - exists (clock (hi_now h).1), (hi_now h).2. split_and!; [done | done | lia | lia].
  - exists t, w'. split_and!; [done | done | lia | by eapply Htime].
Qed.

(** Rows that do not change once they are there are never stale. *)
Variable I : W -> Prop.
Definition keeps (e : event) : Prop :=
  match e with Change f => forall w, I w -> I (f w) /\ (forall x, find w = Some x -> find (f w) = Some x) | _ => True end.

Lemma after_kept w l :
  I w -> Forall keeps l -> I (hi_now (after w l)).2 /\
  forall t w' x, (t, w') ∈ hi_past (after w l) -> find w' = Some x -> find (hi_now (after w l)).2 = Some x.
Proof using ttl_ok round_trip.
  intros Hw. induction l as [|e l IH] using rev_ind; intros Hk.
  - split; [done|]. simpl. intros t w' x [[= -> ->]|Hin]%elem_of_cons Hx; [done | by apply elem_of_nil in Hin].
  - apply Forall_app in Hk as [Hl [He _]%Forall_cons]. destruct (IH Hl) as [HI Hpast]. unfold after in *. rewrite foldl_app. simpl.
    set (h := foldl _ _ l) in *. pose proof (read_outcome h (after_backed w l)) as Hr. unfold happen.
    destruct (hi_now h) as [r w0] eqn:En. simpl in HI, Hpast, Hr. destruct e as [|f|d|k e|fs]; simpl.
    + destruct (read_through _ _ _ _ _ _ (r, w0)) as [o [r' w']]. destruct Hr as (-> & _). simpl. split; [done|].
      intros t w1 x [[= -> ->]|Hin]%elem_of_cons Hx; [done | by eapply Hpast].
    + destruct (He w0 HI) as [HI' Hf]. split; [done|]. intros t w1 x [[= -> ->]|Hin]%elem_of_cons Hx; [done|]. by eapply Hf, Hpast.
    + split; [done|]. intros t w1 x [[= -> ->]|Hin]%elem_of_cons Hx; [done | by eapply Hpast].
    + destruct (String.eqb k key); [rewrite En; done|]. split; [done|].
      intros t w1 x [[= -> ->]|Hin]%elem_of_cons Hx; [done | by eapply Hpast].
    + split; [done|]. intros t w1 x [[= -> ->]|Hin]%elem_of_cons Hx; [done | by eapply Hpast].
Qed.

Lemma stable_reads w l v s' :
  I w -> Forall keeps l -> read_through silent_mode ttl key load dump find (hi_now (after w l)) = (Ok v, s') ->
  v = find (hi_now (after w l)).2.
Proof using ttl_ok round_trip.
  intros Hw Hk H. destruct (after_kept w l Hw Hk) as [_ Hp]. pose proof (read_outcome _ (after_backed w l)) as Hr.
  rewrite H in Hr. destruct s' as [r' w']. destruct Hr as (-> & _ & _ & [->|(t & w1 & x & Hin & _ & Hf & ->)]); [done|].
  symmetry. by eapply Hp.
Qed.
(** When the table and the entry agree, or nothing is cached, a read answers with the table's value. *)
Lemma read_fresh r w x v s' :
  find w = Some x -> (forall e, rlookup r key = Some e -> e.1 = RJson (dump x)) ->
  read_through silent_mode ttl key load dump find (r, w) = (Ok v, s') -> v = Some x.
Proof using round_trip.
  intros Hf He. destruct (round_trip w x Hf) as [Ht Hl]. unfold read_through, mbind_, on_redis, mlift, mret, mget. simpl.
  pose proof (get_outcomes r) as Hg. destruct (cache_get silent_mode key r) as [[c|] r1]; [|done]. destruct Hg as (_ & _ & Hc).
  assert (Hc' : truthy c = false \/ c = dump x).
  { destruct Hc as [->|Hc]; [by left|]. destruct (rlookup r key) as [e|]; [|left; by rewrite Hc]. right. by rewrite Hc, He. }
  destruct Hc' as [->| ->]; simpl.
  - rewrite Hf. simpl. destruct (cache_set silent_mode key (dump x) ttl r1) as [[y|y] r2]; intros H; by simplify_eq.
  - rewrite Ht, Hl. simpl. intros H. by simplify_eq.
Qed.

(** After a change of the table. *)
Definition undisturbed (e : event) : Prop := match e with Change _ => False | _ => True end.

Lemma after_snoc w l e : after w (l ++ [e]) = happen e (after w l).
Proof. unfold after. by rewrite foldl_app. Qed.

(** What is cached after the change is the new value, or was cached before. *)
Lemma after_change w l1 f x l2 :
  find (f (hi_now (after w l1)).2) = Some x -> Forall undisturbed l2 ->
  let h1 := after w l1 in let h2 := after w (l1 ++ Change f :: l2) in
  (hi_now h2).2 = f (hi_now h1).2 /\ (clock (hi_now h1).1 <= clock (hi_now h2).1)%Z /\
  forall e, entries (hi_now h2).1 !! key = Some e -> e.1 = RJson (dump x) \/ entries (hi_now h1).1 !! key = Some e.
Proof using ttl_ok round_trip.
  intros Hx. induction l2 as [|e l2 IH] using rev_ind; intros Hl; cbv zeta.
  - rewrite after_snoc. unfold happen. destruct (hi_now (after w l1)) as [r w1]. simpl. split_and!; [done|lia|by right].
  - apply Forall_app in Hl as [Hl [He _]%Forall_cons]. destruct (IH Hl) as (Hw & Hc & Hk). clear IH.
    rewrite app_comm_cons, app_assoc, after_snoc.
    set (h := after w (l1 ++ Change f :: l2)) in *. pose proof (read_outcome h (after_backed w _)) as Hr.
    unfold happen. destruct (hi_now h) as [r w0] eqn:E. simpl in Hw, Hc, Hk, Hr. subst w0. destruct e as [|g|d|k y|fs]; simpl; try done.
    + destruct (read_through _ _ _ _ _ _ (r, _)) as [o [r' w']]. destruct Hr as (-> & Hcl & Hent & _). simpl.
      split; [done|]. split; [lia|]. intros e Hek. destruct Hent as [Hent|(z & Hz & Hent)]; rewrite Hent in Hek; [by apply Hk|].
      rewrite lookup_insert_eq in Hek. injection Hek as <-. left. simpl. congruence.
    + split; [done|]. split; [lia|done].
    + destruct (String.eqb_spec k key) as [->|Hne]; [rewrite E; done|]. simpl. split; [done|]. split; [done|]. intros e Hek.
      rewrite lookup_insert_ne in Hek by done. by apply Hk.
Qed.

(** A change is seen by every read once the time to live has passed, and at once when nothing was cached. *)
Lemma settled_reads w l1 f x l2 v s' :
  let h1 := after w l1 in let h2 := after w (l1 ++ Change f :: l2) in
  find (f (hi_now h1).2) = Some x -> Forall undisturbed l2 ->
  rlookup (hi_now h1).1 key = None \/ (clock (hi_now h1).1 + ttl <= clock (hi_now h2).1)%Z ->
  read_through silent_mode ttl key load dump find (hi_now h2) = (Ok v, s') -> v = Some x.
Proof using ttl_ok round_trip.
  intros h1 h2 Hx Hl Hold H. destruct (after_change w l1 f x l2 Hx Hl) as (Hw & Hc & Hk). fold h1 h2 in Hw, Hc, Hk.
  pose proof (after_backed w l1) as (_ & Htime & Hent). fold h1 in Htime, Hent.
  destruct (hi_now h2) as [r2 w2] eqn:E. simpl in *. subst w2. eapply read_fresh; [exact Hx| |exact H].
  intros e He. unfold rlookup in He. destruct (entries r2 !! key) as [e'|] eqn:Ek; [|done].
  destruct (live r2 e') eqn:Hlv; [|done]. injection He as ->. destruct (Hk e eq_refl) as [?|He1]; [done|]. exfalso.
  destruct (Hent e He1) as (t & w' & z & Hin & _ & ->). pose proof (Htime t w' Hin) as Ht.
  unfold live in Hlv. simpl in Hlv. apply Z.ltb_lt in Hlv. destruct Hold as [Hold|Hold]; [|lia].
  unfold rlookup in Hold. rewrite He1 in Hold. unfold live in Hold. simpl in Hold.
  destruct (Z.ltb_spec (clock (hi_now h1).1) (t + ttl)); [done|lia].
Qed.
End history.

(** ** Authoring behind the cache *)

(** The row of a compiled graph, for the columns of the model; [created_at] and [updated_at], which every table has, are left out. *)
Definition graph_columns : list (string * column) :=
  [("flow_graph_snapshot_id", CUuid); ("flow_version_id", CUuid); ("snapshot", CPlain); ("graph_hash", CPlain)].
Definition graph_row (v : uuid) (g : graph_snapshot) : row :=
  [("flow_graph_snapshot_id", VUuid (gsn_id g)); ("flow_version_id", VUuid v); ("snapshot", VJson (snapshot_value (gsn_graph g)));
   ("graph_hash", VJson (PStr (gsn_hash g)))].

Lemma graph_row_ok v g : row_ok graph_columns (graph_row v g).
Proof. repeat constructor; simpl; eexists; split; done. Qed.

Section authored.
Variable parse_string : string -> option ast.
Variable ast_parse : string -> option pyast.
Variable same : pyval -> pyval -> bool.
Variable model_validate : schema_class -> pydict -> bool.
Variable sha256_json : pyval -> string.
Variable uuid_str : uuid -> string.
Variable has_rag : bool.
Variable get_rag_config : uuid -> option (uuid * uuid).
Variable get_chunking_rule : uuid -> uuid -> option pyval.
Variable rag_policy : uuid -> res exc (option (uuid * pydict)).
Variable get_node_template : uuid -> option template.
Variable template_by_code : string -> option uuid.
Variable get_active_prompt_id_by_node_type : string -> option uuid.
Variable limit_policy : uuid -> option uuid.
Variable limit_policy_published : uuid -> bool.

Abbreviation serve_ := (serve parse_string ast_parse same model_validate sha256_json uuid_str has_rag get_rag_config
  get_chunking_rule rag_policy get_node_template template_by_code get_active_prompt_id_by_node_type limit_policy
  limit_policy_published).

(** The tables change by requests of [FlowsService]. *)
Definition authored (e : @event authoring) : Prop :=
  match e with Change f => exists q, forall s, f s = (serve_ q s).2 | _ => True end.

Variable silent_mode : bool.
Variable uuid_parse : string -> option uuid.
Variable time_parse : string -> option Z.
Variable time_str : Z -> string.
Variable decimal_str : Z -> string.
Hypothesis uuid_round : forall u, uuid_parse (uuid_str u) = Some u.
Hypothesis time_round : forall t, time_parse (time_str t) = Some t.

(** The cached read of a version's graph, and what happens around its key. *)
Definition graph_table (_ : string) (v : uuid) (s : authoring) : option row := graph_row v <$> catalogue_graph_of s v.
Definition cached_graph : uuid -> M (redis * authoring) (option row) :=
  get_flow_graph_snapshot_by_flow_version silent_mode uuid_parse uuid_str time_parse time_str decimal_str (fun _ => graph_columns)
    graph_table.
Definition graph_history (v : uuid) (l : list event) : history :=
  after silent_mode default_ttl ("flow_snapshot:" +:+ uuid_str v)
    (fun x => let! r := from_dict uuid_parse time_parse graph_columns x in Ok (Some r))
    (fun r => PDict (to_dict uuid_str time_str decimal_str r)) (graph_table "" v) empty_authoring l.

(** [C32] Cached graphs are current: however authoring requests, reads, the passing of time and failures of Redis interleave, the
    cached read of a version's compiled graph answers with the row the table holds. *)
Theorem cached_graph_is_current v l x s' :
  Forall authored l -> cached_graph v (hi_now (graph_history v l)) = (Ok x, s') ->
  x = graph_row v <$> catalogue_graph_of (hi_now (graph_history v l)).2 v.
Proof using uuid_round time_round.
  intros Hl. intros H. change (x = graph_table "" v (hi_now (graph_history v l)).2).
  eapply (stable_reads silent_mode default_ttl) with
    (I := fun s => exists origin, AuthoringFacts.sound parse_string ast_parse same model_validate sha256_json uuid_str origin s); [done | | | | exact H].
  - intros s r Hr. unfold graph_table in Hr. apply fmap_Some in Hr as (g & _ & ->). split; [done|].
    unfold from_dict. by rewrite (from_items_dump _ _ _ _ _ uuid_round time_round _ _ (graph_row_ok v g)).
  - eexists. apply empty_sound.
  - eapply Forall_impl; [exact Hl|]. intros [|f| | |] He; simpl; try done. destruct He as [q Hq]. intros s [origin Hs].
    apply sound_restart in Hs. rewrite Hq.
    assert (Hs' : AuthoringFacts.sound parse_string ast_parse same model_validate sha256_json uuid_str s (serve_ q s).2)
      by (apply safe_run; [apply serve_safe | done]).
    split; [by eexists|]. unfold graph_table. intros r Hr. apply fmap_Some in Hr as (g & Hg & ->).
    assert (Hg' : catalogue_graph_of (serve_ q s).2 v = Some g) by (by apply (so_grows _ _ _ _ _ _ _ _ Hs')). by rewrite Hg'.
Qed.
(** *** Activations *)

Variable py_str : pyval -> string.
Variable policy_validate : pydict -> res exc pydict.
Variable resolve_policy : uuid -> uuid -> res exc pydict.
Variable hash_dict : pydict -> string.
Variable legacy_contract : bool.
Hypothesis uuid_text : forall u, uuid_str u <> "".

Abbreviation activate_ := (activate_flow_version sha256_json uuid_str has_rag get_rag_config get_chunking_rule rag_policy).
Abbreviation contract_ := (contract_of uuid_str uuid_parse py_str policy_validate resolve_policy hash_dict legacy_contract).

(** The cached read of the active version of a flow, and what happens around its key. *)
Definition active_read (f : uuid) : M (redis * authoring) (option uuid) :=
  get_active_flow_version_id silent_mode uuid_parse uuid_str (fun _ f s => catalogue_active s f) f.
Definition active_history (f : uuid) (w : authoring) (l : list event) : history :=
  after silent_mode default_ttl ("flow_active_version:" +:+ uuid_str f) (load_id uuid_parse "flow_version_id")
    (dump_id uuid_str "flow_version_id") (fun s => catalogue_active s f) w l.

Lemma dump_id_loads field u :
  truthy (dump_id uuid_str field u) = true /\ load_id uuid_parse field (dump_id uuid_str field u) = Ok (Some u).
Proof using uuid_round uuid_text.
  split; [done|]. unfold load_id, dump_id, dict_getv. cbn [dict_get]. rewrite String.eqb_refl. cbn [default from_option id].
  pose proof (uuid_text u) as Hn. assert (Ht : truthy (PStr (uuid_str u)) = true) by (simpl; by destruct (uuid_str u)).
  unfold default, from_option, id. rewrite Ht. unfold uuid_of. by rewrite uuid_round.
Qed.

(** [C6] An activated version is what runs, once the cache lets it through.  Before the activation the tables are sound, and
    reads, other changes, time and failures of Redis have left any entry for the flow's active version; after it the tables
    stay as they are.  Then a read of the active version that answers gives the activated one, provided nothing live was
    cached when it was activated or 300 seconds have passed since (before that an older entry may still answer).  With that
    answer a request that names the flow and a user selects the version, and the contract of the run, which is read past the
    cache, has the graph compiled for that very version; the empty policy an activation deploys must be valid. *)
Theorem activation_reaches_runs origin tenant f v principal c r w l1 l2 s' policy q a y :
  let h1 := active_history f w l1 in
  let h2 := active_history f w (l1 ++ Change (fun s => (activate_ tenant f v principal c s).2) :: l2) in
  AuthoringFacts.sound parse_string ast_parse same model_validate sha256_json uuid_str origin (hi_now h1).2 ->
  activate_ tenant f v principal c (hi_now h1).2 = (Ok r, s') -> policy_validate [] = Ok policy ->
  Forall undisturbed l2 ->
  rlookup (hi_now h1).1 ("flow_active_version:" +:+ uuid_str f) = None \/
    (clock (hi_now h1).1 + 300 <= clock (hi_now h2).1)%Z ->
  active_read f (hi_now h2) = (Ok a, y) ->
  fc_flow q = Some f -> fc_version q = None -> py_strip (fc_user q) <> "" ->
  (hi_now h2).2 = s' /\ a = Some v /\
  select_version (catalogue_version s') (catalogue_tenant s') (fun _ => a) tenant q = Ok (f, v) /\
  exists g k, au_graph_snapshots s' !! v = Some g /\ contract_ s' tenant f v = Ok (g, policy, k).
Proof using uuid_round uuid_text.
  intros h1 h2 Hs H Hpol Hl Hold Hread Hqf Hqv Huser.
  destruct (activated_contract parse_string ast_parse same model_validate sha256_json uuid_str has_rag get_rag_config get_chunking_rule
    rag_policy uuid_parse py_str policy_validate resolve_policy hash_dict legacy_contract uuid_round uuid_text
    origin tenant f v principal c r (hi_now h1).2 s' policy q Hs H Hpol Hqf (or_introl Hqv) Huser) as (Hact & Hsel & Hg).
  assert (Hf : (fun s => catalogue_active s f) ((activate_ tenant f v principal c (hi_now h1).2).2) = Some v) by (simpl; by rewrite H).
  assert (Ha : a = Some v).
  { eapply (settled_reads silent_mode default_ttl ("flow_active_version:" +:+ uuid_str f) (load_id uuid_parse "flow_version_id")
      (dump_id uuid_str "flow_version_id") (fun s => catalogue_active s f) eq_refl (fun _ u _ => dump_id_loads "flow_version_id" u)
      w l1 (fun s => (activate_ tenant f v principal c s).2) v l2); [exact Hf | exact Hl | exact Hold | exact Hread]. }
  destruct (after_change silent_mode default_ttl ("flow_active_version:" +:+ uuid_str f) (load_id uuid_parse "flow_version_id")
    (dump_id uuid_str "flow_version_id") (fun s => catalogue_active s f) eq_refl (fun _ u _ => dump_id_loads "flow_version_id" u)
    w l1 (fun s => (activate_ tenant f v principal c s).2) v l2 Hf Hl) as (Hw & _).
  split; [|split; [done|split; [|done]]].
  - unfold h2, active_history. rewrite Hw. change (hi_now (after _ _ _ _ _ _ w l1)) with (hi_now h1). by rewrite H.
  - revert Hsel. unfold select_version. rewrite Hqf, Hqv. simpl. by rewrite Hact, Ha.
Qed.
End authored.

(** ** On the sample *)

Definition plain_columns : list (string * column) := [("id", CUuid); ("created_at", CTime); ("name", CPlain)].
Definition plain_row : row := [("id", VUuid 7); ("created_at", VTime 3); ("name", VJson (PStr "n"))].

Lemma plain_row_ok : row_ok plain_columns plain_row.
Proof. repeat constructor; simpl; eexists; split; done. Qed.

Definition minus : Ascii.ascii := Ascii.ascii_of_nat 45.
Definition tally_time (t : Z) : string := if (t <? 0)%Z then String minus (tally_str (Z.to_N (- t))) else tally_str (Z.to_N t).
Definition tally_time_parse (s : string) : option Z :=
  match s with
  | String a s' => if Ascii.eqb a minus then (fun n => - Z.of_N n)%Z <$> tally_parse s' else Z.of_N <$> tally_parse s
  | EmptyString => None
  end.
Lemma tally_time_round t : tally_time_parse (tally_time t) = Some t.
Proof.
  unfold tally_time. destruct (Z.ltb_spec t 0) as [H|H].
  - unfold tally_time_parse. rewrite Ascii.eqb_refl, tally_round. simpl. f_equal. lia.
  - assert (Hs : tally_time_parse (tally_str (Z.to_N t)) = Z.of_N <$> tally_parse (tally_str (Z.to_N t))).
    { unfold tally_str. by destruct (N.to_nat (Z.to_N t)). }
    rewrite Hs, tally_round. simpl. f_equal. lia.
Qed.

Lemma row_round_trip_witness :
  from_dict tally_parse tally_time_parse plain_columns (PDict (to_dict tally_str tally_time (fun _ => "0.5") plain_row)) = Ok plain_row /\
  (column_of "name" plain_columns = Some CPlain ->
   from_dict tally_parse tally_time_parse plain_columns
     (PDict (to_dict tally_str tally_time (fun _ => "0.5") (("name", VDecimal 500000) :: plain_row))) =
   Ok (("name", VJson (PStr "0.5")) :: plain_row)).
Proof.
  apply (row_round_trip tally_parse tally_str tally_time_parse tally_time (fun _ => "0.5") tally_round tally_time_round plain_columns
    plain_row "name" 500000 plain_row_ok).
Defined.

Abbreviation sample_serve := (serve demo_parse demo_ast_parse yes yes digest tally_str false (fun _ => None) (fun _ _ => None)
  (fun _ => Ok None) (fun _ => None) (fun _ => None) (fun _ => None) (fun _ => Some 900%N) (fun _ => true)).

(** The identifier of the active version, as the repository caches it. *)
Abbreviation sample_after l := (after true default_ttl "flow_active_version:1" (load_id tally_parse "flow_version_id")
  (dump_id tally_str "flow_version_id") (fun s => catalogue_active s 1) before_activation l).
Abbreviation sample_read := (read_through true default_ttl "flow_active_version:1" (load_id tally_parse "flow_version_id")
  (dump_id tally_str "flow_version_id") (fun s => catalogue_active s 1)).

Lemma id_round_trip field u :
  truthy (dump_id tally_str field u) = true /\ load_id tally_parse field (dump_id tally_str field u) = Ok (Some u).
Proof.
  split; [done|]. unfold load_id, dump_id, dict_getv. cbn [dict_get]. rewrite String.eqb_refl.
  pose proof (tally_text u) as Hn. pose proof (tally_round u) as Hr. destruct (tally_str u); [done|].
  cbv [default from_option truthy id]. simpl String.eqb. unfold uuid_of. by rewrite Hr.
Qed.

Definition activation : @event authoring := Change (fun s => (sample_activate 1 1 6 "ana" change s).2).

(** An activation is not seen until the cached identifier expires. *)
Lemma activation_seen_late :
  let h := sample_after [Read; Wait 1; activation; Wait 298] in
  catalogue_active (hi_now h).2 1 = Some 6%N /\ (sample_read (hi_now h)).1 = Ok (Some 2%N) /\
  (sample_read (hi_now (sample_after [Read; Wait 1; activation; Wait 299]))).1 = Ok (Some 6%N).
Proof. vm_compute. done. Qed.

Lemma bounded_staleness_witness :
  let h := sample_after [Read; Wait 1; activation; Wait 298] in
  exists t w', (t, w') ∈ hi_past h /\ catalogue_active w' 1 = Some 2%N /\ (clock (hi_now h).1 - 300 < t <= clock (hi_now h).1)%Z.
Proof.
  pose proof (bounded_staleness true default_ttl "flow_active_version:1" (load_id tally_parse "flow_version_id")
    (dump_id tally_str "flow_version_id") (fun s => catalogue_active s 1) (eq_refl : (0 < 300)%Z) (fun _ u _ => id_round_trip "flow_version_id" u)
    before_activation [Read; Wait 1; activation; Wait 298]) as H.
  assert (Hr : (sample_read (hi_now (sample_after [Read; Wait 1; activation; Wait 298]))).1 = Ok (Some 2%N)) by (vm_compute; done).
  cbv zeta in H |- *. rewrite Hr in H. exact H.
Defined.

(** The second version is activated while the first one is cached: after 300 seconds it runs. *)
Lemma activation_reaches_runs_witness :
  let h := active_history tally_str true tally_parse 1 before_activation [Read; Wait 1; activation; Wait 300] in
  exists s' y, (hi_now h).2 = s' /\ active_read tally_str true tally_parse 1 (hi_now h) = (Ok (Some 6%N), y) /\
    select_version (catalogue_version s') (catalogue_tenant s') (fun _ => Some 6%N) 1 (sample_query None) = Ok (1%N, 6%N) /\
    exists g k, au_graph_snapshots s' !! 6%N = Some g /\ sample_contract s' 1 1 6 = Ok (g, [], k).
Proof.
  cbv zeta. set (h := active_history _ _ _ _ _ _).
  destruct (active_read tally_str true tally_parse 1 (hi_now h)) as [[a|e] y] eqn:Hr; [|vm_compute in Hr; discriminate].
  destruct (sample_activate 1 1 6 "ana" change (hi_now (active_history tally_str true tally_parse 1 before_activation [Read; Wait 1])).2)
    as [[r|e] s'] eqn:H; [|vm_compute in H; discriminate].
  destruct (activation_reaches_runs demo_parse demo_ast_parse yes yes digest tally_str false (fun _ => None) (fun _ _ => None)
    (fun _ => Ok None) true tally_parse tally_round (fun _ => "text") (fun p => Ok p) (fun _ _ => Ok []) (fun _ => "hash") false tally_text
    empty_authoring 1 1 6 "ana" change r before_activation [Read; Wait 1] [Wait 300] s' [] (sample_query None) a y)
    as (H1 & H2 & H3 & H4); try reflexivity; [| exact H | by repeat constructor | right; vm_compute; discriminate | exact Hr | discriminate|].
  - assert (E : (hi_now (active_history tally_str true tally_parse 1 before_activation [Read; Wait 1])).2 = before_activation)
      by (vm_compute; reflexivity).
    rewrite E. apply sample_sound_before.
  - exists s', y. split; [exact H1|]. subst a. split; [reflexivity|]. split; [exact H3|exact H4].
Defined.

(** The graph of a version is read before and after the version is authored. *)
Definition around_release : list event := Read :: map (fun q => Change (fun s => (sample_serve q s).2)) two_versions ++ [Wait 10].

Abbreviation sample_history := (graph_history tally_str true tally_parse tally_time_parse tally_time (fun _ => "0.5") 2).
Abbreviation sample_cached := (cached_graph tally_str true tally_parse tally_time_parse tally_time (fun _ => "0.5") 2).

Lemma cached_graph_is_current_witness :
  exists x s', sample_cached (hi_now (sample_history around_release)) = (Ok x, s') /\ x <> None /\
    x = graph_row 2 <$> catalogue_graph_of (hi_now (sample_history around_release)).2 2.
Proof.
  destruct (sample_cached (hi_now (sample_history around_release))) as [[x|e] s'] eqn:H; [|vm_compute in H; discriminate].
  exists x, s'. split; [done|]. split; [vm_compute in H; intros ->; discriminate|].
  apply (cached_graph_is_current demo_parse demo_ast_parse yes yes digest tally_str false (fun _ => None) (fun _ _ => None)
    (fun _ => Ok None) (fun _ => None) (fun _ => None) (fun _ => None) (fun _ => Some 900%N) (fun _ => true) true tally_parse
    tally_time_parse tally_time (fun _ => "0.5") tally_round tally_time_round 2 around_release x s'); [|exact H].
  unfold around_release. apply Forall_cons. split; [done|]. apply Forall_app. split; [|by repeat constructor].
  apply Forall_map, Forall_forall. intros q _. by exists q.
Defined.
