(* ===== verification/ConversationFacts.v ===== *)
(** * ConversationFacts: what a turn of a conversation leaves behind

    The protocol of the event stream, the record of the turn and its replay, and the bounds the continuity service keeps. *)

From S2P Require Import Prelude.
From S2P Require Import Errors.
From S2P Require Import PyValue.
From S2P Require Import PyString.
From S2P Require Import StateMachine.
From S2P Require Import Effects.
From S2P Require Import Store.
From S2P Require Import NodeStep.
From S2P Require Import Temporal.
From S2P Require Import Redis.
From S2P Require Import FlowService.
From S2P Require Import Conversation.

(** ** Redis stays reachable *)

Definition stays_healthy (r r' : redis) : Prop := healthy r -> healthy r'.
#[global] Instance stays_healthy_preorder : PreOrder stays_healthy.
Proof. split; [by intros r H|]. intros a b c H1 H2 H. by apply H2, H1. Qed.

Lemma healthy_command {A} (act : redis -> res exc A * redis) :
  (forall r, healthy r -> healthy (act r).2) -> respects stays_healthy (command act).
Proof. intros H r Hr. unfold command. rewrite Hr. by apply H. Qed.

Lemma healthy_get k : respects stays_healthy (redis_get k).
Proof. by apply healthy_command. Qed.
Lemma healthy_set k v ttl : respects stays_healthy (redis_set k v ttl).
Proof. apply healthy_command. intros r Hr. by destruct (ttl <=? 0)%Z. Qed.
Lemma healthy_set_nx k v ttl : respects stays_healthy (redis_set_nx k v ttl).
Proof. apply healthy_command. intros r Hr. destruct (ttl <=? 0)%Z; [done|]. by destruct (rlookup r k). Qed.
Lemma healthy_delete k : respects stays_healthy (redis_delete k).
Proof. by apply healthy_command. Qed.
Lemma healthy_incr k : respects stays_healthy (redis_incr k).
Proof. apply healthy_command. intros r Hr. by destruct (rlookup r k) as [[[] ?]|]. Qed.
Lemma healthy_incrby k n : respects stays_healthy (redis_incrby k n).
Proof. apply healthy_command. intros r Hr. by destruct (rlookup r k) as [[[] ?]|]. Qed.
Lemma healthy_expire k ttl : respects stays_healthy (redis_expire k ttl).
Proof. apply healthy_command. intros r Hr. destruct (rlookup r k) as [[? ?]|]; [|done]. by destruct (ttl <=? 0)%Z. Qed.
#[global] Hint Resolve healthy_get healthy_set healthy_set_nx healthy_delete healthy_incr healthy_incrby healthy_expire : frame.

Lemma healthy_wrapper b m : respects stays_healthy m -> respects stays_healthy (silent_mode_wrapper b m).
Proof. intros H. unfold silent_mode_wrapper. destruct b; [apply respects_try; [apply _ | done | intros ?; apply respects_ret; apply _] | done]. Qed.

Section commands.
Variable silent_mode : bool.
Lemma healthy_cache_get k : respects stays_healthy (cache_get silent_mode k).
Proof. apply healthy_wrapper. frame. Qed.
Lemma healthy_cache_set k v ttl : respects stays_healthy (cache_set silent_mode k v ttl).
Proof. apply healthy_wrapper. frame. Qed.
Lemma healthy_cache_delete k : respects stays_healthy (cache_delete silent_mode k).
Proof. apply healthy_wrapper. frame. Qed.
Lemma healthy_incr_ttl k ttl : respects stays_healthy (incr_with_ttl silent_mode k ttl).
Proof. apply healthy_wrapper. frame. destruct (_ =? 1)%Z; frame. Qed.
Lemma healthy_incrby_ttl k n ttl : respects stays_healthy (incrby_with_ttl k n ttl).
Proof. unfold incrby_with_ttl. frame. destruct (_ && _); frame. Qed.
Lemma healthy_try_acquire ttl k : respects stays_healthy (try_acquire silent_mode ttl k).
Proof. unfold try_acquire, set_if_not_exists. frame. apply healthy_wrapper. frame. Qed.
Lemma healthy_set_result ttl k v : respects stays_healthy (set_result silent_mode ttl k v).
Proof. unfold set_result. frame. apply healthy_cache_set. Qed.
End commands.
#[global] Hint Resolve healthy_cache_get healthy_cache_set healthy_cache_delete healthy_incr_ttl healthy_incrby_ttl
  healthy_try_acquire healthy_set_result : frame.

(** ** What a turn moves *)

Section moves.
Context {P : Type}.
(** The provider's streams may report errors. *)
Variable loud : Prop.
Implicit Types s : redis * talk P.

Definition its s : gmap uuid interaction := interactions (db (fs_env (tk_flows s.2))).

(** Events between the first and the last. *)
Definition chatter_if (e : option ConversationEvent) : Prop :=
  match e with
  | Some e => ce_type e = CONTENT_DELTA \/ ce_type e = TOOL_PROGRESS \/
              (loud /\ ce_type e = ERROR /\ dict_getv "message" (ce_payload e) = PStr "openai_stream_error")
  | None => False
  end.

(** The interaction the turn has noted exists. *)
Definition held s : Prop := forall i, tv_interaction (tk_vars s.2) = Some i -> is_Some (its s !! i).

Definition moves_if s s' : Prop :=
  (exists l, tk_queue s'.2 = tk_queue s.2 ++ l /\ Forall chatter_if l) /\ (held s -> held s') /\ stays_healthy s.1 s'.1.

#[global] Instance moves_preorder : PreOrder moves_if.
Proof.
  split.
  - intros s. split; [exists []; by rewrite app_nil_r | done].
  - intros a b c ((l & Hl & Cl) & H1 & H2) ((k & Hk & Ck) & H3 & H4). split_and!; [|auto|by etrans].
    exists (l ++ k). rewrite Hk, Hl, app_assoc. split; [done | by apply Forall_app].
Qed.

(** The queue and the variables are untouched, and no interaction is lost. *)
Lemma moves_quiet s s' :
  tk_queue s'.2 = tk_queue s.2 -> tv_interaction (tk_vars s'.2) = tv_interaction (tk_vars s.2) ->
  (forall i, is_Some (its s !! i) -> is_Some (its s' !! i)) -> stays_healthy s.1 s'.1 -> moves_if s s'.
Proof.
  intros Hq Hv Hi Hh. split_and!; [exists []; by rewrite app_nil_r | | done]. intros H i Ei. apply Hi, H. congruence.
Qed.

Lemma moves_assign f : (forall v, tv_interaction (f v) = tv_interaction v) -> respects moves_if (assign f).
Proof. intros H s. by apply moves_quiet; simpl; try done. Qed.
Lemma moves_enqueue e : chatter_if e -> respects moves_if (enqueue e).
Proof. intros H s. split_and!; [exists [e]; by repeat constructor | done | done]. Qed.
Lemma moves_redis {A} (m : M redis A) : respects stays_healthy m -> respects moves_if (on_redis m).
Proof. intros H s. specialize (H s.1). unfold on_redis. destruct (m s.1) as [r s1]. by apply moves_quiet. Qed.

(** Repository calls lose no interaction. *)
Definition keeps_interactions (f f' : flows P) : Prop :=
  forall i, is_Some (interactions (db (fs_env f)) !! i) -> is_Some (interactions (db (fs_env f')) !! i).
#[global] Instance keeps_interactions_preorder : PreOrder keeps_interactions.
Proof. split; [by intros f i|]. intros a b c H1 H2 i Hi. auto. Qed.

Lemma moves_database {A} (m : M (flows P) A) : respects keeps_interactions m -> respects moves_if (database m).
Proof. intros H s. specialize (H (tk_flows s.2)). unfold database. destruct (m (tk_flows s.2)) as [r f]. by apply moves_quiet. Qed.
Lemma moves_remote {A} d (f : P -> res exc A * P) : respects moves_if (remote d f).
Proof.
  intros s. unfold remote, database, outside_call, engine. destruct (f _) as [r p]. apply moves_quiet; try done.
  by intros H.
Qed.
Lemma moves_summary k v : respects moves_if (put_summary (P := P) k v).
Proof. intros s. by apply moves_quiet. Qed.
Lemma moves_usage u : respects moves_if (append_usage (P := P) u).
Proof. intros s. by apply moves_quiet. Qed.
End moves.
#[global] Hint Resolve moves_redis moves_remote moves_summary moves_usage : frame.

(** Walk through a computation and its cases. *)
Ltac walk := cbv zeta; frame; repeat (case_match; frame).

Section turn.
Context {P : Type}.
Variable uuid_str : uuid -> string.
Variable py_str : pyval -> string.
Variable exc_errors : exc -> list string.
Variable silent_mode : bool.
Variable idempotency_ttl : Z.
Variable conversations_create : string -> option string -> P -> res exc string * P.
Variable responses_create : pydict -> P -> (list stream_event * option exc) * P.
Variable duration : Z.
Variable json_loads : string -> option pyval.
Variable estimate_tokens : string -> Z.
Variable agent_tenant : uuid -> option uuid.
Variable active_agent_version : uuid -> option uuid.
Variable system_prompt_of : uuid -> option (option string).
Variable user_prompt : uuid -> uuid -> option (option string).
Variable compute_cost : option (string -> Z -> Z -> P -> res exc (option pyfloat) * P).
Variable conversation_model : string.
Variable continuity : option ConversationContinuityPolicy.
Variable mcp_config : option TenantMcpConfig.

(** The provider's streams report errors. *)
Definition loud : Prop :=
  exists payload p e, e ∈ (responses_create payload p).1.1 /\ event_type_of py_str (ev_payload e) = "response.error".
Abbreviation chatter := (chatter_if loud).
Abbreviation moves := (@moves_if P loud).
Abbreviation respects_ := (respects moves).

Lemma moves_upsert tenant key session text g c : respects_ (upsert_summary tenant key session text g c).
Proof. unfold upsert_summary, summary_of. frame. Qed.
Lemma moves_bind key id : respects_ (set_provider_conversation_id key id).
Proof. unfold set_provider_conversation_id, summary_of. walk. Qed.
Lemma moves_carry key : respects_ (carry_forward_text key).
Proof. unfold carry_forward_text, summary_of. frame. Qed.

Lemma healthy_reset key : respects stays_healthy (_reset_growth silent_mode key).
Proof. unfold _reset_growth. frame. Qed.
Lemma healthy_record p key text : respects stays_healthy (record_turn silent_mode estimate_tokens p key text).
Proof. unfold record_turn. walk. Qed.
#[local] Hint Resolve moves_upsert moves_bind moves_carry healthy_reset healthy_record : frame.

Lemma moves_commit p tenant key session text g c : respects_ (commit_rollover silent_mode p tenant key session text g c).
Proof. unfold commit_rollover. frame. Qed.
Lemma moves_create key seed : respects_ (_create_conversation silent_mode conversations_create duration continuity key seed).
Proof. unfold _create_conversation. walk. Qed.
#[local] Hint Resolve moves_commit moves_create : frame.
Lemma moves_get_or_create key :
  respects_ (_get_or_create_conversation_id silent_mode conversations_create duration continuity key).
Proof. unfold _get_or_create_conversation_id. walk. Qed.
Lemma moves_roll_over tenant key session text g :
  respects_ (roll_over_conversation silent_mode conversations_create duration continuity tenant key session text g).
Proof. unfold roll_over_conversation. walk. Qed.
#[local] Hint Resolve moves_get_or_create moves_roll_over : frame.
Lemma moves_payload q : respects_ (_compile_streaming_payload silent_mode conversations_create duration continuity q).
Proof. unfold _compile_streaming_payload. walk. Qed.
Definition told (e : pydict) : Prop := event_type_of py_str e = "response.error" -> loud.
Lemma moves_on_event correlation trace e : told e -> respects_ (_on_openai_event py_str correlation trace e).
Proof.
  intros He. unfold _on_openai_event. cbv zeta. destruct (String.eqb_spec (event_type_of py_str e) "response.error") as [E|E].
  - rewrite E. simpl. apply moves_enqueue. simpl. auto.
  - repeat (case_match; frame). all: first [by apply moves_assign | apply moves_enqueue; simpl; auto].
Qed.
Lemma moves_deliver on_event l r :
  (forall e, e ∈ l -> respects_ (on_event (ev_payload e))) -> respects_ (deliver py_str on_event l r).
Proof.
  revert r. induction l as [|e l IH]; intros r H; simpl; [frame|].
  apply respects_bind; [apply _ | apply H; constructor | intros _; apply IH; intros x Hx; apply H; by constructor].
Qed.
(** What is done with an answer from outside, for all such answers. *)
Lemma moves_remote_bind {A B} (f : P -> res exc A * P) (k : A -> M (redis * talk P) B) :
  (forall p a, (f p).1 = Ok a -> respects_ (k a)) -> respects_ (mbind_ (remote duration f) k).
Proof.
  intros H s. pose proof (moves_remote loud duration f s) as Hm. unfold mbind_.
  assert (Hr : (remote duration f s).1 = (f (world (fs_env (tk_flows s.2)))).1)
    by (unfold remote, database, outside_call, engine; by destruct (f _)).
  destruct (remote duration f s) as [[a|e] s1]; [|done]. simpl in *. etrans; [exact Hm|]. by eapply H.
Qed.
Lemma moves_consume on_event payload b n r :
  (forall e, told e -> respects_ (on_event e)) -> respects_ (consume py_str responses_create duration on_event payload b n r).
Proof.
  intros H. revert r. induction n as [|n IH]; intros r; simpl; [frame|]. apply moves_remote_bind. intros p st Hst.
  assert (Hend : forall r', respects_ (match st.2 with
      | None => mret r'
      | Some e => if negb b || (n =? 0) || negb (retryable e) then mraise e
                  else consume py_str responses_create duration on_event payload b n r'
      end)) by (intros r'; destruct st.2 as [e|]; [destruct (_ || _); [frame | apply IH] | frame]).
  apply respects_bind; [apply _ | | exact Hend].
  apply moves_deliver. intros e He. apply H. intros Ht. exists payload, p, e. split; [|done].
  destruct (responses_create payload p). simpl in Hst. by injection Hst as ->.
Qed.
#[local] Hint Resolve moves_payload : frame.
Lemma moves_infer on_event q :
  (forall e, told e -> respects_ (on_event e)) ->
  respects_ (infer_streaming_request py_str silent_mode conversations_create responses_create duration json_loads continuity on_event q).
Proof.
  intros H. unfold infer_streaming_request, _consume_response_stream. cbv zeta. apply respects_bind; [apply _ | apply moves_payload | intros payload].
  apply respects_bind; [apply _ | | intros r; walk]. apply respects_try; [apply _ | by apply moves_consume | intros e; frame].
Qed.
Lemma moves_record tenant session model r : respects_ (_record_turn_usage duration compute_cost tenant session model r).
Proof. unfold _record_turn_usage. walk. Qed.
Lemma moves_bound tenant session key text :
  respects_ (_bound_conversation_growth silent_mode conversations_create duration estimate_tokens continuity tenant session key text).
Proof. unfold _bound_conversation_growth. walk. Qed.
#[local] Hint Resolve moves_record moves_bound : frame.

(** ** The end of a turn *)

Hypothesis silent : silent_mode = true.
Hypothesis ttl_ok : (0 < idempotency_ttl)%Z.

Definition done_value (payload : pydict) : pyval := PDict [("status", PStr "DONE"); ("payload", PDict payload)].
Definition recorded (s : redis * talk P) (output : pydict) (status : string) : Prop :=
  forall i, tv_interaction (tk_vars s.2) = Some i ->
    exists r, its s !! i = Some r /\ in_output r = PDict output /\ dict_getv "status" (in_metadata r) = PStr status.

(** The provider, the summaries and the ledger. *)
Definition outside (s : redis * talk P) : P * gmap string summary * list turn_usage :=
  (world (fs_env (tk_flows s.2)), tk_summaries s.2, tk_ledger s.2).

(** A turn that was answered: its last event, its interaction and its stored answer agree. *)
Definition closes (key : string) (s s' : redis * talk P) : Prop :=
  exists l payload, tk_queue s'.2 = tk_queue s.2 ++ l ++ [event DONE payload; None] /\ Forall chatter l /\
    recorded s' [("content", dict_getv "final_text" payload)] "SUCCESS" /\
    (healthy s.1 -> healthy s'.1 /\ entries s'.1 !! key = Some (RJson (done_value payload), Some (clock s'.1 + idempotency_ttl)%Z)).

(** Every write of the result succeeds silently, and is stored when Redis is reachable. *)
Lemma set_result_silent key v r :
  exists r', set_result silent_mode idempotency_ttl key v r = (Ok tt, r') /\ clock r' = clock r /\
    (healthy r -> healthy r' /\ entries r' = <[key := (RJson v, Some (clock r + idempotency_ttl)%Z)]> (entries r)).
Proof using silent ttl_ok.
  unfold set_result, cache_set, silent_mode_wrapper, mtry, mbind_, mret, redis_set, command. rewrite silent.
  assert (Hw : (idempotency_ttl <=? 0)%Z = false) by (apply Z.leb_gt; lia).
  destruct (faults r) as [|[] fs] eqn:E; rewrite ?Hw; eexists; split; try done; (split; [done|]); intros Hh; unfold healthy in *; simpl in *; congruence.
Qed.

Lemma dict_get_filter k k' (d : pydict) : k <> k' -> dict_getv k (filter (fun kv => kv.1 <> k') d) = dict_getv k d.
Proof.
  intros Hne. unfold dict_getv. induction d as [|[k1 x] d IH]; simpl; [done|]. rewrite filter_cons. destruct (decide (k1 = k')) as [->|H]; case_decide; simpl in *; try done; [|by destruct (String.eqb k k1)].
  by rewrite (proj2 (String.eqb_neq _ _) Hne).
Qed.

(** The interaction of a turn is written. *)
Lemma update_recorded i output status error (s : redis * talk P) :
  tv_interaction (tk_vars s.2) = Some i -> is_Some (its s !! i) ->
  exists f, database (table (update_interaction_result i (PDict output) status error)) s = (Ok tt, (s.1, with_flows s.2 f)) /\
    recorded (s.1, with_flows s.2 f) output status /\ world (fs_env f) = world (fs_env (tk_flows s.2)).
Proof.
  intros Hi [r Hr]. unfold its in Hr. unfold database, table, engine, repo, update_interaction_result, mbind_, mget. rewrite Hr. simpl.
  eexists. split; [done|]. split; [|done]. intros j Hj. simpl in Hj. assert (j = i) as -> by congruence. unfold its. simpl. rewrite lookup_insert_eq.
  eexists. split; [done|]. split; [done|]. simpl. destruct error.
  - rewrite dict_getv_set_ne by done. apply dict_getv_set_eq.
  - rewrite dict_get_filter by done. apply dict_getv_set_eq.
Qed.

(** From [held] tables, an answer closes the turn, and an exception leaves only chatter. *)
Definition ends {A} (key : string) (m : M (redis * talk P) A) : Prop :=
  forall s, held s -> match m s with (Ok _, s') => closes key s s' | (Err _, s') => moves s s' end.

Lemma ends_bind {A B} key (m : M (redis * talk P) A) (k : A -> M (redis * talk P) B) :
  respects_ m -> (forall a, ends key (k a)) -> ends key (mbind_ m k).
Proof.
  intros Hm Hk s Hs. specialize (Hm s). unfold mbind_. destruct (m s) as [[a|e] s1]; simpl in Hm; [|done].
  destruct Hm as ((l & Hl & Cl) & Hheld & Hh). specialize (Hk a s1 (Hheld Hs)). destruct (k a s1) as [[b|e] s2].
  - destruct Hk as (l' & payload & Hq & Cl' & Hrec & Hent). exists (l ++ l'), payload. split_and!; [|by apply Forall_app| done | auto].
    by rewrite Hq, Hl, <- !app_assoc.
  - etrans; [|exact Hk]. split_and!; [by exists l | done | done].
Qed.

Lemma finish_closes key session correlation : ends key (finish_turn uuid_str silent_mode idempotency_ttl key session correlation).
Proof using silent ttl_ok.
  intros s Hs. unfold finish_turn. rewrite (mbind_run vars _ s _ _ eq_refl). cbv zeta.
  set (v := tk_vars s.2). set (payload := ids uuid_str session correlation ++ [("final_text", PStr (tv_final v))]).
  assert (Hstep : exists f, (match tv_interaction v with
      | Some i => database (table (update_interaction_result i (PDict [("content", PStr (tv_final v))]) "SUCCESS" None))
      | None => mret tt end) s = (Ok tt, (s.1, with_flows s.2 f)) /\ recorded (s.1, with_flows s.2 f) [("content", PStr (tv_final v))] "SUCCESS").
  { destruct (tv_interaction v) as [i|] eqn:Ei.
    - destruct (update_recorded i [("content", PStr (tv_final v))] "SUCCESS" None s) as (f & ? & ? & _); [done | by apply Hs | by exists f].
    - exists (tk_flows s.2). unfold mret. destruct s as [r t]. split; [by destruct t|]. intros i Hi. simpl in Hi. unfold v in Ei. simpl in Ei. congruence. }
  destruct Hstep as (f & Hf & Hrec). rewrite (mbind_run _ _ _ _ _ Hf), (mbind_run (enqueue _) _ _ _ _ eq_refl).
  unfold mbind_ at 1, on_redis. simpl.
  destruct (set_result_silent key (done_value payload) s.1) as (r' & Hr & Hc & Hh).
  change (PDict [("status", PStr "DONE"); ("payload", PDict payload)]) with (done_value payload). rewrite Hr.
  unfold enqueue, on_talk, mmodify. exists [], payload. simpl. split_and!; [by rewrite <- app_assoc | done | exact Hrec|].
  intros Hhealthy. destruct (Hh Hhealthy) as [Hr' ->]. split; [done|]. rewrite lookup_insert_eq. by rewrite Hc.
Qed.

(** A session is created without touching the interactions. *)
Lemma keeps_session session tenant user : respects (@keeps_interactions P) (create_session session tenant user).
Proof.
  unfold create_session. intros f. unfold mbind_, mget. destruct (fs_sessions f !! session) as [[t u]|]; [case_bool_decide|]; by intros i Hi.
Qed.

Lemma moves_interaction (s : redis * talk P) metadata i s1 :
  held s -> database (table (create_interaction metadata)) s = (Ok i, s1) -> moves s s1 /\ is_Some (its s1 !! i).
Proof.
  intros Hs H. unfold database, table, engine, repo, create_interaction, mbind_, uuid4, mmodify, mret in H. injection H as <- <-. split.
  - apply moves_quiet; try done. intros j Hj. unfold its in *. simpl. destruct (decide (j = next_uuid (db (fs_env (tk_flows s.2))))) as [->|Hne];
      [by rewrite lookup_insert_eq | by rewrite lookup_insert_ne].
  - unfold its. simpl. by rewrite lookup_insert_eq.
Qed.

Abbreviation converse_new_ := (converse_new uuid_str py_str silent_mode idempotency_ttl conversations_create responses_create duration
  json_loads estimate_tokens agent_tenant active_agent_version system_prompt_of user_prompt compute_cost conversation_model continuity
  mcp_config).

Lemma converse_new_ends c q key session correlation : ends key (converse_new_ c q key session correlation).
Proof using silent ttl_ok.
  unfold converse_new. apply ends_bind; [apply moves_redis, healthy_try_acquire|]. intros acquired.
  destruct (negb acquired); [intros s Hs; unfold mraise; reflexivity|].
  apply ends_bind; [case_match; [by apply moves_assign | frame]|]. intros _.
  apply ends_bind; [frame|]. intros history. apply ends_bind; [by apply moves_assign|]. intros _.
  apply ends_bind; [apply moves_database, keeps_session|]. intros _ s Hs. unfold mbind_ at 1.
  destruct (database (table (create_interaction _)) s) as [[i|e] s1] eqn:Hi; [|by unfold database, table, engine, repo in Hi].
  destruct (moves_interaction s _ i s1 Hs Hi) as [Hm Hex]. unfold mbind_ at 1. set (s2 := (assign (set_interaction (Some i)) s1).2).
  change (assign (set_interaction (Some i)) s1) with (@Ok exc unit tt, s2). cbv iota beta.
  assert (Hs2 : held s2) by (intros j Hj; simpl in Hj; injection Hj as <-; exact Hex).
  assert (Hq2 : tk_queue s2.2 = tk_queue s1.2) by done.
  match goal with |- match ?k s2 with _ => _ end => set (rest := k) end. assert (Hk : ends key rest).
  { subst rest. apply ends_bind; [by apply moves_assign|]. intros _. apply ends_bind; [unfold vars; frame|]. intros v.
    apply ends_bind; [frame|]. intros spec. cbv zeta. apply ends_bind; [by apply moves_assign|]. intros _.
    apply ends_bind; [apply moves_infer; intros e; by apply moves_on_event|]. intros r.
    apply ends_bind; [walk; by apply moves_assign|]. intros _. apply ends_bind; [apply moves_record|]. intros _.
    apply ends_bind; [unfold vars; frame|]. intros w. apply ends_bind; [apply moves_bound|]. intros _. apply finish_closes. }
  specialize (Hk s2 Hs2). destruct Hm as ((l & Hl & Cl) & _ & Hh). destruct (rest s2) as [[b|e] s3].
  - destruct Hk as (l' & payload & Hq & Cl' & Hrec & Hent). exists (l ++ l'), payload. split_and!; [|by apply Forall_app| done | auto].
    by rewrite Hq, Hq2, Hl, <- !app_assoc.
  - destruct Hk as ((l' & Hq & Cl') & Hheld & Hh'). split_and!; [|by intros _; apply Hheld|by intros H; apply Hh', Hh].
    exists (l ++ l'). rewrite Hq, Hq2, Hl, app_assoc. split; [done | by apply Forall_app].
Qed.

(** The error handler. *)
Lemma fail_turn_ends c key correlation e s :
  held s -> exists s' payload, fail_turn uuid_str exc_errors silent_mode idempotency_ttl c key correlation e s = (Ok tt, s') /\
    tk_queue s'.2 = tk_queue s.2 ++ [event ERROR payload; None] /\ dict_getv "code" payload = PStr "conversation_turn_failed" /\
    dict_getv "error_code" payload = dict_getv "code" (_build_structured_error exc_errors e (tk_vars s.2)) /\ outside s' = outside s /\
    recorded s' [] "FAILED" /\
    (healthy s.1 -> healthy s'.1 /\ exists v, entries s'.1 !! key = Some (RJson (PDict [("status", PStr "FAILED"); ("error", v)]),
       Some (clock s'.1 + idempotency_ttl)%Z)).
Proof using silent ttl_ok.
  intros Hs. unfold fail_turn. rewrite (mbind_run vars _ s _ _ eq_refl). cbv zeta. set (v := tk_vars s.2).
  set (error := _build_structured_error exc_errors e v). unfold mbind_ at 1, on_redis.
  destruct (set_result_silent key (PDict [("status", PStr "FAILED"); ("error", PDict error)]) s.1) as (r' & Hr & Hc & Hh). rewrite Hr.
  assert (Hstep : exists f, (match tv_interaction v with
      | Some i => database (table (update_interaction_result i (PDict []) "FAILED" (Some (PDict error))))
      | None => mret tt end) (r', s.2) = (Ok tt, (r', with_flows s.2 f)) /\ recorded (r', with_flows s.2 f) [] "FAILED" /\
      world (fs_env f) = world (fs_env (tk_flows s.2))).
  { destruct (tv_interaction v) as [i|] eqn:Ei.
    - apply (update_recorded i [] "FAILED" (Some (PDict error)) (r', s.2)); [done | by apply Hs].
    - exists (tk_flows s.2). unfold mret. destruct s as [r t]. split; [by destruct t|]. split; [|done]. intros i Hi. simpl in Hi. unfold v in Ei. simpl in Ei. congruence. }
  destruct Hstep as (f & Hf & Hrec & Hw). rewrite (mbind_run _ _ _ _ _ Hf), (mbind_run (enqueue _) _ _ _ _ eq_refl).
  eexists _, _. split; [reflexivity|]. simpl. split_and!; [by rewrite <- app_assoc | done | done | unfold outside; simpl; by rewrite Hw | exact Hrec |].
  intros Hhealthy. destruct (Hh Hhealthy) as [Hr' ->]. split; [done|]. exists (PDict error). rewrite lookup_insert_eq. by rewrite Hc.
Qed.

Abbreviation converse_ := (converse uuid_str py_str silent_mode idempotency_ttl conversations_create responses_create duration
  json_loads estimate_tokens agent_tenant active_agent_version system_prompt_of user_prompt compute_cost conversation_model continuity
  mcp_config).
Abbreviation execute_turn_ := (execute_turn uuid_str py_str exc_errors silent_mode idempotency_ttl conversations_create
  responses_create duration json_loads estimate_tokens agent_tenant active_agent_version system_prompt_of user_prompt compute_cost
  conversation_model continuity mcp_config).

(** Events with consecutive numbers. *)
Fixpoint numbered (n : Z) (l : list ConversationEvent) : list (Z * ConversationEvent) :=
  match l with [] => [] | e :: l' => (n + 1, e)%Z :: numbered (n + 1) l' end.
Lemma sse_stream_ends n l : sse_stream n ((Some <$> l) ++ [None]) = (numbered n l, true).
Proof. revert n. induction l as [|e l IH]; intros n; simpl; [done|]. by rewrite IH. Qed.

Lemma numbered_snd n l : map snd (numbered n l) = l.
Proof. revert n. induction l as [|e l IH]; intros n; simpl; [done | by rewrite IH]. Qed.

(** What the [try] of a turn leaves in the queue: chatter, one last event and the end. *)
Definition final_event (s' : redis * talk P) (e : ConversationEvent) : Prop :=
  (ce_type e = DONE /\ recorded s' [("content", dict_getv "final_text" (ce_payload e))] "SUCCESS") \/
  (ce_type e = ERROR /\ dict_getv "code" (ce_payload e) = PStr "conversation_turn_failed" /\ recorded s' [] "FAILED").

Lemma chatter_events l : Forall chatter l -> exists k, l = Some <$> k /\ Forall (fun e => chatter (Some e)) k.
Proof.
  induction 1 as [|[e|] l He Hl (k & -> & Hk)]; [by exists [] | by exists (e :: k); split; [|constructor] | done].
Qed.

Lemma try_ends c q key session correlation s :
  held s -> tv_interaction (tk_vars s.2) = None ->
  exists s' mid e, mtry (converse_ c q key session correlation) (fail_turn uuid_str exc_errors silent_mode idempotency_ttl c key correlation) s =
      (Ok tt, s') /\ tk_queue s'.2 = tk_queue s.2 ++ (Some <$> mid) ++ [Some e; None] /\ Forall (fun e => chatter (Some e)) mid /\ final_event s' e.
Proof using silent ttl_ok.
  intros Hs Hv. assert (Hc : match converse_ c q key session correlation s with
    | (Ok _, s') => exists l payload, tk_queue s'.2 = tk_queue s.2 ++ l ++ [event DONE payload; None] /\ Forall chatter l /\
        recorded s' [("content", dict_getv "final_text" payload)] "SUCCESS"
    | (Err _, s') => moves s s' end).
  { unfold converse. unfold mbind_ at 1. pose proof (moves_redis loud _ (healthy_cache_get silent_mode key) s) as Hm.
    destruct (on_redis (idempotency_get silent_mode key) s) as [[cached|e] s1] eqn:Eg; [|by unfold idempotency_get in Eg; rewrite Eg in Hm].
    unfold idempotency_get in Eg. rewrite Eg in Hm. simpl in Hm.
    assert (Hq : s1.2 = s.2) by (unfold on_redis in Eg; destruct (cache_get silent_mode key s.1); by injection Eg as _ <-).
    destruct s1 as [r1 t1]. simpl in Hq. subst t1. cbv zeta.
    match goal with |- match (match ?o with Some _ => _ | None => _ end) _ with _ => _ end => destruct o as [payload|] end.
    - unfold mbind_, enqueue, on_talk, mmodify. simpl. eexists [], _. split_and!; [by rewrite <- app_assoc | done |].
      intros i Hi. simpl in Hi. congruence.
    - destruct Hm as ((l & Hl & Cl) & Hheld & Hh). pose proof (converse_new_ends c q key session correlation (r1, s.2) (Hheld Hs)) as He.
      destruct (converse_new_ c q key session correlation (r1, s.2)) as [[u|e] s2].
      + destruct He as (l' & payload & Hq' & Cl' & Hrec & _). exists l', payload. done.
      + etrans; [|exact He]. split_and!; [by exists l | done | done]. }
  unfold mtry. destruct (converse_ c q key session correlation s) as [[[]|e] s1].
  - destruct Hc as (l & payload & Hq & Cl & Hrec). destruct (chatter_events l Cl) as (k & -> & Hk).
    exists s1, k, {| ce_type := DONE; ce_payload := payload |}. split_and!; [done | done | done | by left].
  - destruct Hc as ((l & Hq & Cl) & Hheld & _). destruct (chatter_events l Cl) as (k & -> & Hk).
    destruct (fail_turn_ends c key correlation e s1 (Hheld Hs)) as (s2 & payload & Hf & Hq2 & Hcode & _ & _ & Hrec & _).
    exists s2, k, {| ce_type := ERROR; ce_payload := payload |}. split_and!; [done | by rewrite Hq2, Hq, <- app_assoc | done | by right].
Qed.

Abbreviation run_direct_ := (_run_direct uuid_str py_str exc_errors silent_mode idempotency_ttl conversations_create
  responses_create duration json_loads estimate_tokens agent_tenant active_agent_version system_prompt_of user_prompt compute_cost
  conversation_model continuity mcp_config).
Abbreviation fail_turn_ := (fail_turn uuid_str exc_errors silent_mode idempotency_ttl).

(** Identifiers a request leaves open. *)
Lemma fresh_id (o : option uuid) (s : redis * talk P) :
  exists u f, (match o with Some x => mret x | None => database (table uuid4) end) s = (Ok u, (s.1, with_flows s.2 f)) /\
    world (fs_env f) = world (fs_env (tk_flows s.2)) /\ (forall x, o = Some x -> u = x).
Proof.
  destruct o as [x|].
  - exists x, (tk_flows s.2). unfold mret. destruct s as [r t]. destruct t. split_and!; [done | done | by intros y [= ->]].
  - unfold database, table, engine, repo, uuid4. eexists _, _. split_and!; [reflexivity | done | done].
Qed.

(** The first event of a turn. *)
Definition connected (f : flows P) (payload : pydict) (s : redis * talk P) : redis * talk P := (s.1, {|
  tk_flows := f; tk_summaries := tk_summaries s.2; tk_ledger := tk_ledger s.2; tk_queue := tk_queue s.2 ++ [event CONNECTED payload];
  tk_vars := tk_vars s.2 |}).
Lemma run_direct_starts c q s :
  exists session correlation f payload, world (fs_env f) = world (fs_env (tk_flows s.2)) /\
    run_direct_ c q s = mtry (converse_ c q (turn_key uuid_str c correlation) session correlation)
      (fail_turn_ c (turn_key uuid_str c correlation) correlation) (connected f payload s).
Proof.
  unfold _run_direct. destruct (fresh_id (cq_session q) s) as (session & f & Hf & Hw & _). rewrite (mbind_run _ _ _ _ _ Hf).
  destruct (fresh_id (cq_correlation q) (s.1, with_flows s.2 f)) as (correlation & f' & Hf' & Hw' & _). rewrite (mbind_run _ _ _ _ _ Hf').
  exists session, correlation, f', (ids uuid_str session correlation ++ [("interaction_id", PNone)]).
  split; [by rewrite Hw', <- Hw|]. by rewrite (mbind_run (enqueue _) _ _ _ _ eq_refl).
Qed.

(** The state in which a turn starts. *)
Definition started (s : redis * talk P) : redis * talk P := (s.1, {|
  tk_flows := tk_flows s.2; tk_summaries := tk_summaries s.2; tk_ledger := tk_ledger s.2; tk_queue := []; tk_vars := fresh_vars |}).

(** The stream of a turn: between the first and the last event there are deltas, tool progress and the errors that the provider's
    own stream reports. *)
Lemma turn_stream c q last s :
  exists l s', execute_turn_ c q last s = (Ok (l, true), s') /\
  exists ids mid e, l = numbered (default 0%Z last) ({| ce_type := CONNECTED; ce_payload := ids |} :: mid ++ [e]) /\
    Forall (fun e => chatter (Some e)) mid /\ final_event s' e.
Proof using silent ttl_ok.
  unfold execute_turn. fold (started s). destruct (run_direct_starts c q (started s)) as (session & correlation & f & payload & _ & ->).
  destruct (try_ends c q (turn_key uuid_str c correlation) session correlation (connected f payload (started s))) as (s' & mid & e & Hrun & Hq & Hmid & Hfin);
    [by intros i Hi | done|].
  rewrite Hrun. simpl. rewrite Hq. simpl. exists (numbered (default 0%Z last) ({| ce_type := CONNECTED; ce_payload := payload |} :: mid ++ [e])), s'.
  split; [|by exists payload, mid, e]. do 2 f_equal.
  rewrite <- (sse_stream_ends (default 0%Z last) ({| ce_type := CONNECTED; ce_payload := payload |} :: mid ++ [e])).
  f_equal. rewrite fmap_cons, fmap_app. simpl. by rewrite <- app_assoc.
Qed.

(** [C16] The protocol of a turn.  The adapter of Redis is in silent mode (the default), keys have a positive lifetime, and the
    provider's streams report no [response.error].  Then, whatever else the request, the provider and Redis do, the stream of a turn
    ends; it is numbered from the last event the client has seen, starts with [connected], continues with deltas and tool progress
    only, and ends with exactly one final event, [done] or [error]; and the interaction of the turn says the same, with the text the
    final event has or the failure. *)
Theorem turn_protocol c q last s :
  (forall payload p e, e ∈ (responses_create payload p).1.1 -> event_type_of py_str (ev_payload e) <> "response.error") ->
  exists l s', execute_turn_ c q last s = (Ok (l, true), s') /\
  exists ids mid e, l = numbered (default 0%Z last) ({| ce_type := CONNECTED; ce_payload := ids |} :: mid ++ [e]) /\
    Forall (fun e => ce_type e = CONTENT_DELTA \/ ce_type e = TOOL_PROGRESS) mid /\ final_event s' e.
Proof using silent ttl_ok.
  intros Hcalm. destruct (turn_stream c q last s) as (l & s' & Hrun & ids & mid & e & Hl & Hmid & Hfin).
  exists l, s'. split; [done|]. exists ids, mid, e. split_and!; [done | | done]. eapply Forall_impl; [exact Hmid|].
  intros x [H|[H|((payload & p & y & Hy & Ht) & _)]]; [by left | by right | by destruct (Hcalm payload p y Hy)].
Qed.

(** ** The key of a turn *)

(** With a free key, the turn leaves its outcome under it. *)
Lemma try_stores c q key session correlation s :
  held s -> healthy s.1 -> rlookup s.1 key = None ->
  exists s' l e v, mtry (converse_ c q key session correlation) (fail_turn_ c key correlation) s = (Ok tt, s') /\
    tk_queue s'.2 = tk_queue s.2 ++ l ++ [Some e; None] /\ Forall chatter l /\ healthy s'.1 /\
    entries s'.1 !! key = Some (RJson v, Some (clock s'.1 + idempotency_ttl)%Z) /\
    ((ce_type e = DONE /\ v = done_value (ce_payload e)) \/ (ce_type e = ERROR /\ exists x, v = PDict [("status", PStr "FAILED"); ("error", x)])).
Proof using silent ttl_ok.
  intros Hs Hh Hk. assert (Hget : on_redis (idempotency_get silent_mode key) s = (Ok PNone, s)).
  { unfold on_redis, idempotency_get, cache_get, silent_mode_wrapper, mtry, mbind_, redis_get, command. rewrite silent, Hh, Hk. by destruct s. }
  unfold mtry, converse. rewrite (mbind_run _ _ _ _ _ Hget). cbv zeta. cbv iota beta.
  pose proof (converse_new_ends c q key session correlation s Hs) as He.
  destruct (converse_new_ c q key session correlation s) as [[[]|e] s1].
  - destruct He as (l & payload & Hq & Cl & _ & Hent). destruct (Hent Hh) as [Hh' Hent'].
    exists s1, l, {| ce_type := DONE; ce_payload := payload |}, (done_value payload). split_and!; [done..|by left].
  - destruct He as ((l & Hq & Cl) & Hheld & Hh1). destruct (fail_turn_ends c key correlation e s1 (Hheld Hs)) as (s2 & payload & Hf & Hq2 & _ & _ & _ & _ & Hent).
    destruct (Hent (Hh1 Hh)) as [Hh2 [v Hv]]. exists s2, l, {| ce_type := ERROR; ce_payload := payload |}, (PDict [("status", PStr "FAILED"); ("error", v)]).
    split_and!; [done | by rewrite Hq2, Hq, <- app_assoc | done | done | done | right; split; [done | by exists v]].
Qed.

(** A turn whose key is taken. *)
Lemma replay_taken c q key session correlation s payload exp :
  healthy s.1 -> rlookup s.1 key = Some (RJson (done_value payload), exp) ->
  exists s', mtry (converse_ c q key session correlation) (fail_turn_ c key correlation) s = (Ok tt, s') /\ outside s' = outside s /\
    tk_queue s'.2 = tk_queue s.2 ++ [event DONE payload; None].
Proof using silent.
  intros Hh Hk. assert (Hget : on_redis (idempotency_get silent_mode key) s = (Ok (done_value payload), s)).
  { unfold on_redis, idempotency_get, cache_get, silent_mode_wrapper, mtry, mbind_, redis_get, command. rewrite silent, Hh, Hk. by destruct s. }
  unfold mtry, converse. rewrite (mbind_run _ _ _ _ _ Hget). eexists. split; [reflexivity|]. split; [done|]. simpl. by rewrite <- app_assoc.
Qed.

Lemma refused_taken c q key session correlation s v exp :
  healthy s.1 -> held s -> rlookup s.1 key = Some (RJson (PDict [("status", PStr "FAILED"); ("error", v)]), exp) ->
  exists s' payload, mtry (converse_ c q key session correlation) (fail_turn_ c key correlation) s = (Ok tt, s') /\ outside s' = outside s /\
    dict_getv "error_code" payload = PStr "idempotency_in_progress" /\ tk_queue s'.2 = tk_queue s.2 ++ [event ERROR payload; None].
Proof using silent ttl_ok.
  intros Hh Hs Hk. assert (Hget : on_redis (idempotency_get silent_mode key) s = (Ok (PDict [("status", PStr "FAILED"); ("error", v)]), s)).
  { unfold on_redis, idempotency_get, cache_get, silent_mode_wrapper, mtry, mbind_, redis_get, command. rewrite silent, Hh, Hk. by destruct s. }
  assert (Hacq : on_redis (try_acquire silent_mode idempotency_ttl key) s = (Ok false, s)).
  { unfold on_redis. rewrite (acquire_taken silent_mode idempotency_ttl ttl_ok key s.1 _ Hh Hk). by destruct s. }
  unfold mtry, converse. rewrite (mbind_run _ _ _ _ _ Hget). cbv zeta. rewrite bool_decide_false by done.
  unfold converse_new. rewrite (mbind_run _ _ _ _ _ Hacq). simpl.
  destruct (fail_turn_ends c key correlation (DomainValidationException "idempotency_in_progress") s Hs) as
    (s' & payload & Hf & Hq & _ & Hcode & Hout & _). exists s', payload. by rewrite Hcode.
Qed.

(** [C17] A turn runs once.  The adapter of Redis is in silent mode (the default) and keys have a positive lifetime.  A request with a
    request id, whose key is free, is run while Redis is reachable; then its outcome is stored under the key, and the same caller's
    next turn with that request id, within the key's lifetime and after the first has ended, whatever it asks, calls no provider and
    writes no usage.  It is answered with the same [done] event; after a failed turn it is refused as still in progress.  (Of turns
    that overlap, one may replace the stored answer: [late_duplicate_overwrites] in [Continuity].) *)
Theorem turn_runs_once c q q' last last' s s' l d rid :
  healthy s.1 -> nonempty (rq_request_id c) = Some rid -> rlookup s.1 (turn_key uuid_str c 0) = None ->
  execute_turn_ c q last s = (Ok (l, true), s') -> (0 <= d < idempotency_ttl)%Z ->
  exists s2 before e e' ids, execute_turn_ c q' last' (tick d s'.1, s'.2) =
      (Ok (numbered (default 0%Z last') [{| ce_type := CONNECTED; ce_payload := ids |}; e'], true), s2) /\
    map snd l = before ++ [e] /\ outside s2 = outside s' /\
    ((ce_type e = DONE /\ e' = e) \/
     (ce_type e = ERROR /\ ce_type e' = ERROR /\ dict_getv "error_code" (ce_payload e') = PStr "idempotency_in_progress")).
Proof using silent ttl_ok.
  intros Hh Hrid Hfree. assert (Hkey : forall u, turn_key uuid_str c u = turn_key uuid_str c 0) by (intros u; unfold turn_key; by rewrite Hrid).
  set (key := turn_key uuid_str c 0) in *. unfold execute_turn at 1. fold (started s).
  destruct (run_direct_starts c q (started s)) as (session & correlation & f & payload & _ & Hrun). rewrite Hrun, Hkey.
  destruct (try_stores c q key session correlation (connected f payload (started s))) as (s1 & m & e & v & Htry & Hq & Cm & Hh1 & Hent & Hcase);
    [by intros i Hi | done | done |].
  rewrite Htry. cbn [snd]. intros [= Hl <-] Hd.
  assert (Hlive : rlookup (tick d s1.1) key = Some (RJson v, Some (clock s1.1 + idempotency_ttl)%Z)).
  { unfold rlookup. simpl. rewrite Hent. unfold live. simpl. by rewrite (proj2 (Z.ltb_lt _ _)) by lia. }
  unfold execute_turn. fold (started (tick d s1.1, s1.2)). set (s0 := started (tick d s1.1, s1.2)).
  destruct (run_direct_starts c q' s0) as (session' & correlation' & f' & payload' & Hw & Hrun'). rewrite Hrun', Hkey.
  assert (Hx : exists before, map snd l = before ++ [e]).
  { destruct (chatter_events m Cm) as (k & -> & _). exists ({| ce_type := CONNECTED; ce_payload := payload |} :: k).
    assert (Hs1 : tk_queue s1.2 = (Some <$> ({| ce_type := CONNECTED; ce_payload := payload |} :: k ++ [e])) ++ [None])
      by (rewrite Hq, fmap_cons, fmap_app; simpl; by rewrite <- app_assoc).
    rewrite Hs1, sse_stream_ends in Hl. injection Hl as <-. apply (numbered_snd _ (_ :: k ++ [e])). }
  destruct Hx as [before Hx].
  destruct Hcase as [[He ->]|[He [w ->]]].
  - destruct (replay_taken c q' key session' correlation' (connected f' payload' s0) (ce_payload e) _ Hh1 Hlive) as (s2 & Hr & Hout & Hq2).
    exists s2, before, e, e, payload'. rewrite Hr. cbn [snd]. rewrite Hq2. split_and!; [by destruct e; simpl in *; subst | done | | by left].
    rewrite Hout. unfold outside. simpl. by rewrite Hw.
  - assert (Hheld : held (connected f' payload' s0)) by (by intros i Hi).
    destruct (refused_taken c q' key session' correlation' (connected f' payload' s0) w _ Hh1 Hheld Hlive) as (s2 & p2 & Hr & Hout & Hcode & Hq2).
    exists s2, before, e, {| ce_type := ERROR; ce_payload := p2 |}, payload'. rewrite Hr. cbn [snd]. rewrite Hq2.
    split_and!; [done | done | | right; done]. rewrite Hout. unfold outside. simpl. by rewrite Hw.
Qed.
End turn.
