(* ===== verification/Continuity.v ===== *)
(** * Continuity: how a provider-side conversation is bounded and carried on

    The thresholds and the carry-forward of [Conversation]'s continuity service, and the sessions of turns. *)

From S2P Require Import Prelude.
From S2P Require Import Errors.
From S2P Require Import PyValue.
From S2P Require Import PyString.
From S2P Require Import StateMachine.
From S2P Require Import Effects.
From S2P Require Import Store.
From S2P Require Import NodeStep.
From S2P Require Import Temporal.
From S2P Require Import Redis.
From S2P Require Import FlowService.
From S2P Require Import Conversation.
From S2P Require Import ConversationFacts.

(** ** Carried text *)

(** A text that is full is what remains of it and of whatever follows it on a new line. *)
Lemma py_take_full n a b : length (utf8_chars a) = n -> starts_inside b = false -> py_take n (a +:+ b) = a.
Proof.
  intros Hn Hb. unfold py_take. rewrite utf8_chars_app by done. rewrite take_app_length' by done. apply str_concat_chars.
Qed.

Lemma carry_forward_prefix previous latest :
  previous <> "" -> exists rest, carry_forward (Some previous) latest = previous +:+ rest /\ starts_inside rest = false.
Proof.
  intros Hp. unfold carry_forward. simpl. rewrite filter_cons, decide_True by done. rewrite filter_cons. case_decide; simpl.
  - by exists (newline +:+ newline +:+ py_strip latest).
  - exists "". split; [|done]. symmetry. apply string_app_nil.
Qed.

(** ** Counters *)

(** The value of a counter; a missing one is zero. *)
Definition counter (r : redis) (k : string) : option Z :=
  match rlookup r k with Some (RInt z, _) => Some z | None => Some 0%Z | Some (RJson _, _) => None end.

Lemma rlookup_other r k k' e : k' <> k -> rlookup (set_entries (<[k := e]> (entries r)) r) k' = rlookup r k'.
Proof. intros H. unfold rlookup. simpl. by rewrite lookup_insert_ne. Qed.
Lemma rlookup_same r k e : rlookup (set_entries (<[k := e]> (entries r)) r) k = if live r e then Some e else None.
Proof. unfold rlookup. simpl. by rewrite lookup_insert_eq. Qed.
Lemma rlookup_delete r k k' : rlookup (set_entries (delete k (entries r)) r) k' = if decide (k' = k) then None else rlookup r k'.
Proof. unfold rlookup. simpl. case_decide as H; [subst; by rewrite lookup_delete_eq | by rewrite lookup_delete_ne]. Qed.

(** What a command on [k] leaves of the rest. *)
Definition elsewhere (k : string) (r r' : redis) : Prop :=
  healthy r' /\ clock r' = clock r /\ forall k', k' <> k -> rlookup r' k' = rlookup r k'.

Lemma incrby_counter k n r z :
  healthy r -> counter r k = Some z ->
  exists r', redis_incrby k n r = (Ok (z + n)%Z, r') /\ elsewhere k r r' /\
    exists e, rlookup r' k = Some (RInt (z + n), e).
Proof.
  intros Hh Hc. unfold redis_incrby, command. rewrite Hh. unfold counter in Hc.
  destruct (rlookup r k) as [[[z'|v] t]|] eqn:E; simplify_eq.
  - eexists. split; [done|]. split; [by split_and!; [| |intros; apply rlookup_other]|]. exists t. rewrite rlookup_same.
    unfold rlookup in E. destruct (entries r !! k) as [e|]; [|done]. destruct (live r e) eqn:El; [|done]. simplify_eq. unfold live in *. simpl in *. by rewrite El.
  - rewrite Z.add_0_l. eexists. split; [done|]. split; [by split_and!; [| |intros; apply rlookup_other]|]. exists None. by rewrite rlookup_same.
Qed.

Lemma incr_is_incrby k r z : counter r k = Some z -> redis_incr k r = redis_incrby k 1 r \/ ~ healthy r.
Proof.
  unfold redis_incr, redis_incrby, command, healthy, counter. intros Hc. destruct (faults r) as [|b fs]; [left | by right].
  by destruct (rlookup r k) as [[[] t]|].
Qed.

Lemma expire_counter k ttl r z e :
  healthy r -> (0 < ttl)%Z -> rlookup r k = Some (RInt z, e) ->
  exists r', redis_expire k ttl r = (Ok tt, r') /\ elsewhere k r r' /\ counter r' k = Some z.
Proof.
  intros Hh Ht He. unfold redis_expire, command. rewrite Hh, He, (proj2 (Z.leb_gt _ _)) by done. eexists. split; [done|].
  split; [by split_and!; [| |intros; apply rlookup_other]|]. unfold counter. rewrite rlookup_same. unfold live. simpl.
  by rewrite (proj2 (Z.ltb_lt _ _)) by lia.
Qed.

Lemma elsewhere_trans k a b c : elsewhere k a b -> elsewhere k b c -> elsewhere k a c.
Proof. intros (H1 & H2 & H3) (H4 & H5 & H6). split_and!; [done | congruence |]. intros k' Hk. by rewrite H6, H3. Qed.
Lemma counter_elsewhere k k' r r' : elsewhere k r r' -> k' <> k -> counter r' k' = counter r k'.
Proof. intros (_ & _ & H) Hk. unfold counter. by rewrite H. Qed.

(** Both increments with expiry. *)
Lemma counted_with_ttl (first : bool) k n ttl r z :
  healthy r -> (0 < ttl)%Z -> counter r k = Some z ->
  exists r', (let* v := redis_incrby k n in (if first then redis_expire k ttl else mret tt) ;;* mret v) r = (Ok (z + n)%Z, r') /\
    elsewhere k r r' /\ counter r' k = Some (z + n)%Z.
Proof.
  intros Hh Ht Hc. destruct (incrby_counter k n r z Hh Hc) as (r1 & Hr1 & He1 & e & Hk). rewrite (mbind_run _ _ _ _ _ Hr1).
  destruct first.
  - destruct (expire_counter k ttl r1 _ e (proj1 He1) Ht Hk) as (r2 & Hr2 & He2 & Hc2). rewrite (mbind_run _ _ _ _ _ Hr2).
    exists r2. split_and!; [done | by eapply elsewhere_trans | done].
  - exists r1. split_and!; [done | done |]. unfold counter. by rewrite Hk.
Qed.

Section growth.
Context {P : Type}.
Variable silent_mode : bool.
Variable conversations_create : string -> option string -> P -> res exc string * P.
Variable duration : Z.
Variable estimate_tokens : string -> Z.
Variable policy : ConversationContinuityPolicy.

Lemma incr_with_ttl_counter k ttl r z :
  healthy r -> (0 < ttl)%Z -> counter r k = Some z ->
  exists r', incr_with_ttl silent_mode k ttl r = (Ok (PInt (z + 1)), r') /\ elsewhere k r r' /\ counter r' k = Some (z + 1)%Z.
Proof.
  intros Hh Ht Hc. destruct (counted_with_ttl (z + 1 =? 1)%Z k 1 ttl r z Hh Ht Hc) as (r' & Hr & He & Hc').
  exists r'. split_and!; [|done|done]. destruct (incr_is_incrby k r z Hc) as [Hi|]; [|done].
  destruct (incrby_counter k 1 r z Hh Hc) as (r1 & Hr1 & _). rewrite (mbind_run _ _ _ _ _ Hr1) in Hr.
  assert (Hm : (let* value := redis_incr k in (if (value =? 1)%Z then redis_expire k ttl else mret tt) ;;* mret (PInt value)) r = (Ok (PInt (z + 1)), r')).
  { rewrite (mbind_run _ _ _ _ _ (eq_trans Hi Hr1)). unfold mbind_, mret in *.
    destruct ((if (z + 1 =? 1)%Z then redis_expire k ttl else _) r1) as [[]]; by simplify_eq. }
  unfold incr_with_ttl, silent_mode_wrapper. destruct silent_mode; [|done]. unfold mtry. by rewrite Hm.
Qed.

Lemma incrby_with_ttl_counter k n ttl r z :
  healthy r -> (0 < ttl)%Z -> counter r k = Some z ->
  exists r', incrby_with_ttl k n ttl r = (Ok (z + n)%Z, r') /\ elsewhere k r r' /\ counter r' k = Some (z + n)%Z.
Proof.
  intros Hh Ht Hc. destruct (counted_with_ttl (z + n =? n)%Z k n ttl r z Hh Ht Hc) as (r' & Hr & He & Hc').
  exists r'. split_and!; [|done|done]. destruct (incrby_counter k n r z Hh Hc) as (r1 & Hr1 & _). unfold incrby_with_ttl.
  rewrite (mbind_run _ _ _ _ _ Hr1). rewrite (mbind_run _ _ _ _ _ Hr1) in Hr. rewrite (proj2 (Z.ltb_lt _ _) Ht). exact Hr.
Qed.

Lemma cache_delete_healthy k r :
  healthy r -> exists v, cache_delete silent_mode k r = (Ok v, set_entries (delete k (entries r)) r).
Proof.
  intros Hh. assert (Hd : redis_delete k r = (Ok tt, set_entries (delete k (entries r)) r)) by (unfold redis_delete, command; by rewrite Hh).
  exists PNone. unfold cache_delete, silent_mode_wrapper, mtry. destruct silent_mode; by rewrite (mbind_run _ _ _ _ _ Hd).
Qed.

Lemma counters_differ key : tokens_key key <> turns_key key.
Proof. done. Qed.

(** One turn: both counters grow, and the policy decides on what they have become. *)
Lemma record_turn_counts key text r t n :
  healthy r -> counter r (turns_key key) = Some t -> counter r (tokens_key key) = Some n ->
  let g := {| cg_turns := t + 1; cg_tokens := n + estimate_tokens text |} in
  exists r', record_turn silent_mode estimate_tokens policy key text r = (Ok (decide_rollover policy g, g), r') /\ healthy r' /\
    clock r' = clock r /\ counter r' (turns_key key) = Some (cg_turns g) /\ counter r' (tokens_key key) = Some (cg_tokens g).
Proof.
  intros Hh Ht Hn g. assert (Hw : (0 < growth_ttl)%Z) by done.
  destruct (incr_with_ttl_counter (turns_key key) growth_ttl r t Hh Hw Ht) as (r1 & Hr1 & He1 & Hc1).
  pose proof (counter_elsewhere _ _ _ _ He1 (counters_differ key)) as Hn1. rewrite Hn in Hn1.
  destruct (incrby_with_ttl_counter (tokens_key key) (estimate_tokens text) growth_ttl r1 n (proj1 He1) Hw Hn1) as (r2 & Hr2 & He2 & Hc2).
  exists r2. unfold record_turn, mtry. rewrite (mbind_run _ _ _ _ _ Hr1), (mbind_run _ _ _ _ _ Hr2). split_and!; try done; [by apply He2 | | ].
  - destruct He1 as (_ & E1 & _), He2 as (_ & E2 & _). congruence.
  - rewrite (counter_elsewhere _ _ _ _ He2 (not_eq_sym (counters_differ key))). done.
Qed.

Lemma reset_growth_counts key r :
  healthy r -> exists r', _reset_growth silent_mode key r = (Ok tt, r') /\ healthy r' /\ clock r' = clock r /\
    entries r' !! turns_key key = None /\ entries r' !! tokens_key key = None.
Proof.
  intros Hh. unfold _reset_growth, mtry. destruct (cache_delete_healthy (turns_key key) r Hh) as [v1 H1]. rewrite (mbind_run _ _ _ _ _ H1).
  match goal with |- context [set_entries ?x ?y] => set (r1 := set_entries x y) in * end.
  destruct (cache_delete_healthy (tokens_key key) r1 Hh) as [v2 H2]. rewrite (mbind_run _ _ _ _ _ H2). eexists. split_and!; try done; simpl.
  - rewrite lookup_delete_ne by done. apply lookup_delete_eq.
  - apply lookup_delete_eq.
Qed.

(** ** After the counters are reset *)

Implicit Types s : redis * talk P.

(** The reset and the carried text stay. *)
Definition settled (key : string) s s' : Prop :=
  stays_healthy s.1 s'.1 /\
  (forall k, k = turns_key key \/ k = tokens_key key -> entries s.1 !! k = None -> entries s'.1 !! k = None) /\
  su_text <$> tk_summaries s'.2 !! key = su_text <$> tk_summaries s.2 !! key.
#[local] Instance settled_preorder key : PreOrder (settled key).
Proof.
  split; [by intros s; split_and!|]. intros a b c (H1 & H2 & H3) (H4 & H5 & H6). split_and!; [by etrans | auto | congruence].
Qed.

Lemma settled_redis {A} key (m : M redis A) :
  respects stays_healthy m ->
  (forall r k, k = turns_key key \/ k = tokens_key key -> entries r !! k = None -> entries (m r).2 !! k = None) -> respects (settled key) (on_redis m).
Proof. intros Hh H s. specialize (Hh s.1). specialize (H s.1). unfold on_redis. destruct (m s.1) as [x r]. by split_and!. Qed.

Lemma settled_set key k v ttl : k <> turns_key key -> k <> tokens_key key -> respects (settled key) (on_redis (cache_set silent_mode k v ttl)).
Proof.
  intros H1 H2. apply settled_redis; [frame|]. intros r k' Hk Hn. unfold cache_set, silent_mode_wrapper, mtry, mbind_, mret, redis_set, command.
  destruct silent_mode, (faults r) as [|[] fs]; simpl; destruct (ttl <=? 0)%Z; simpl; try done; rewrite lookup_insert_ne; naive_solver.
Qed.
Lemma settled_delete key k : respects (settled key) (on_redis (cache_delete silent_mode k)).
Proof.
  apply settled_redis; [frame|]. intros r k' _ Hn. unfold cache_delete, silent_mode_wrapper, mtry, mbind_, mret, redis_delete, command.
  destruct silent_mode, (faults r) as [|[] fs]; simpl; try done; by rewrite lookup_delete_None; right.
Qed.
Lemma settled_remote {A} key (f : P -> res exc A * P) : respects (settled key) (remote duration f).
Proof. intros s. unfold remote, database, outside_call, engine. destruct (f _) as [r p]. by split_and!; [intros H | |]. Qed.
Lemma settled_bind key id : respects (settled key) (set_provider_conversation_id key id).
Proof.
  intros s. unfold set_provider_conversation_id, summary_of, mbind_, mget, mret, put_summary, on_talk, mmodify.
  destruct (tk_summaries s.2 !! key) as [r|] eqn:E; split_and!; try done; simpl. by rewrite lookup_insert_eq, E.
Qed.
Lemma settled_create key seed : respects (settled key) (_create_conversation silent_mode conversations_create duration (Some policy) key seed).
Proof.
  unfold _create_conversation. cbv zeta. apply respects_bind; [apply _ | apply settled_remote | intros id].
  apply respects_bind; [apply _ | by apply settled_set | intros _]. apply respects_bind; [apply _ | | intros _; apply respects_ret; apply _].
  case_match; [apply settled_bind | apply respects_ret; apply _].
Qed.

(** ** The contract of continuity *)

(** What a conversation has grown to, and the text carried forward. *)
Record grown : Type := {
  gr_turns : Z;
  gr_tokens : Z;
  gr_text : option string;
}.
(** One more turn. *)
Definition grow (g : grown) (text : string) : grown :=
  let t := (gr_turns g + 1)%Z in
  let n := (gr_tokens g + estimate_tokens text)%Z in
  match decide_rollover policy {| cg_turns := t; cg_tokens := n |} with
  | None => {| gr_turns := t; gr_tokens := n; gr_text := gr_text g |}
  | Some _ => {| gr_turns := 0; gr_tokens := 0; gr_text := Some (py_take (summary_max_chars policy) (carry_forward (gr_text g) text)) |}
  end.
Definition measures (key : string) s (g : grown) : Prop :=
  healthy s.1 /\ counter s.1 (turns_key key) = Some (gr_turns g) /\ counter s.1 (tokens_key key) = Some (gr_tokens g) /\
  su_text <$> tk_summaries s.2 !! key = gr_text g.

Abbreviation bound_ := (_bound_conversation_growth silent_mode conversations_create duration estimate_tokens (Some policy)).

Lemma counter_none r k : entries r !! k = None -> counter r k = Some 0%Z.
Proof. intros H. unfold counter, rlookup. by rewrite H. Qed.

Lemma commit_measures tenant key session text growth s :
  healthy s.1 -> exists s', commit_rollover silent_mode policy tenant key session text growth None s = (Ok tt, s') /\ healthy s'.1 /\
    entries s'.1 !! turns_key key = None /\ entries s'.1 !! tokens_key key = None /\
    su_text <$> tk_summaries s'.2 !! key = Some (py_take (summary_max_chars policy) text).
Proof.
  intros Hh. destruct (reset_growth_counts key s.1 Hh) as (r & Hr & Hr1 & _ & Hr2 & Hr3). unfold commit_rollover.
  destruct (upsert_summary tenant key session (py_take (summary_max_chars policy) text) growth None s) as [x s1] eqn:E.
  unfold upsert_summary, summary_of, mbind_, mget, mret, put_summary, on_talk, mmodify in E. simpl in E. injection E as <- <-.
  unfold mbind_ at 1. unfold upsert_summary, summary_of, put_summary, on_talk, mbind_, mget, mret, mmodify, on_redis. simpl. rewrite Hr.
  eexists. split_and!; [reflexivity | done | done | done |]. simpl. by rewrite lookup_insert_eq.
Qed.

Lemma nonempty_key key : key <> "" -> nonempty (Some key) = Some key.
Proof. by destruct key. Qed.

Lemma bound_step tenant session key text s g :
  key <> "" -> measures key s g -> exists s', bound_ tenant session (Some key) text s = (Ok tt, s') /\ measures key s' (grow g text).
Proof.
  intros Hk (Hh & Ht & Hn & Hs). unfold _bound_conversation_growth. rewrite nonempty_key by done. unfold mtry.
  destruct (record_turn_counts key text s.1 _ _ Hh Ht Hn) as (r & Hr & Hr1 & _ & Hr2 & Hr3).
  assert (Hd : on_redis (record_turn silent_mode estimate_tokens policy key text) s =
    (Ok (decide_rollover policy {| cg_turns := gr_turns g + 1; cg_tokens := gr_tokens g + estimate_tokens text |},
         {| cg_turns := gr_turns g + 1; cg_tokens := gr_tokens g + estimate_tokens text |}), (r, s.2))) by (unfold on_redis; by rewrite Hr).
  rewrite (mbind_run _ _ _ _ _ Hd). unfold grow. cbn [fst snd]. destruct (decide_rollover _ _) as [reason|]; [|eexists; split; [done|]; by split_and!].
  rewrite (mbind_run _ _ _ _ _ (eq_refl : carry_forward_text key (r, s.2) = (Ok (su_text <$> tk_summaries s.2 !! key), (r, s.2)))), Hs.
  unfold roll_over_conversation. set (text' := carry_forward (gr_text g) text). set (growth := {| cg_turns := _ |}).
  destruct (commit_measures tenant key (Some session) text' growth (r, s.2) Hr1) as (s1 & Hc & Hc1 & Hc2 & Hc3 & Hc4).
  rewrite (mbind_run _ _ _ _ _ Hc).
  set (m := (on_redis _ ;;* _)). assert (Hm : respects (settled key) m); [|destruct (Hm s1) as (Hh2 & Hz & Hx); destruct (m s1) as [x s2]].
  { apply respects_bind; [apply _ | apply settled_delete | intros _]. apply respects_bind; [apply _ | apply settled_create | intros _].
    apply respects_ret, _. }
  exists s2. split; [by destruct x as [[]|]|]. cbn [snd] in *. split_and!; [auto | apply counter_none; auto | apply counter_none; auto | by rewrite Hx].
Qed.

(** The turns of one conversation: after each, some time passes. *)
Fixpoint turns_of (tenant session : uuid) (key : string) (l : list (string * Z)) : M (redis * talk P) unit :=
  match l with
  | [] => mret tt
  | (text, gap) :: l' => bound_ tenant session (Some key) text ;;* mmodify (fun s => (tick gap s.1, s.2)) ;;* turns_of tenant session key l'
  end.

(** Below every threshold that is set. *)
Definition below (g : grown) : Prop :=
  ((0 < max_turns policy)%Z -> (gr_turns g < max_turns policy)%Z) /\
  ((0 < max_estimated_tokens policy)%Z -> (gr_tokens g < max_estimated_tokens policy)%Z).
Definition full (text : string) : Prop := text <> "" /\ length (utf8_chars text) = summary_max_chars policy.

Lemma grow_below g text : below (grow g text).
Proof.
  unfold grow, decide_rollover. cbn [cg_turns cg_tokens].
  destruct (Z.ltb_spec 0 (max_turns policy)), (Z.leb_spec (max_turns policy) (gr_turns g + 1)),
    (Z.ltb_spec 0 (max_estimated_tokens policy)), (Z.leb_spec (max_estimated_tokens policy) (gr_tokens g + estimate_tokens text));
    split; cbn; intros; lia.
Qed.

Lemma grow_full g text x : gr_text g = Some x -> full x -> gr_text (grow g text) = Some x.
Proof.
  intros Hg [Hx Hl]. unfold grow. destruct (decide_rollover _ _); [|done]. cbn [gr_text]. rewrite Hg.
  destruct (carry_forward_prefix x text Hx) as (rest & -> & Hr). f_equal. by apply py_take_full.
Qed.

(** Counters that expire start again. *)
Lemma tick_counter d r k z : (0 <= d)%Z -> counter r k = Some z -> counter (tick d r) k = Some z \/ counter (tick d r) k = Some 0%Z.
Proof.
  intros Hd. unfold counter, rlookup. simpl. destruct (entries r !! k) as [[v [t|]]|]; [|by left..].
  unfold live. simpl. destruct (Z.ltb_spec (clock r) t), (Z.ltb_spec (clock r + d) t); try lia; intros Hc; [by left | by right | by right].
Qed.
Lemma tick_measures d key s g :
  (0 <= d)%Z -> measures key s g -> below g -> exists g', measures key (tick d s.1, s.2) g' /\ below g' /\ gr_text g' = gr_text g.
Proof.
  intros Hd (Hh & Ht & Hn & Hs) [B1 B2]. destruct (tick_counter d _ _ _ Hd Ht) as [Et|Et], (tick_counter d _ _ _ Hd Hn) as [En|En].
  all: eexists {| gr_turns := _; gr_tokens := _; gr_text := gr_text g |}; split_and!; [split_and!; [exact Hh | exact Et | exact En | exact Hs]| |done].
  all: split; cbn; auto.
Qed.

Lemma turns_measured tenant session key l s g :
  key <> "" -> Forall (fun x => 0 <= x.2)%Z l -> measures key s g -> below g ->
  exists s' g', turns_of tenant session key l s = (Ok tt, s') /\ measures key s' g' /\ below g' /\
    (forall x, gr_text g = Some x -> full x -> gr_text g' = Some x).
Proof.
  intros Hk Hl. revert s g. induction Hl as [|[text gap] l Hgap Hl IH]; intros s g Hm Hb; [by exists s, g|].
  destruct (bound_step tenant session key text s g Hk Hm) as (s1 & Hs1 & Hm1). simpl. rewrite (mbind_run _ _ _ _ _ Hs1).
  destruct (tick_measures gap key s1 _ Hgap Hm1 (grow_below g text)) as (g2 & Hm2 & Hb2 & Ht2).
  destruct (IH _ g2 Hm2 Hb2) as (s' & g' & Hrun & Hm' & Hb' & Hf). exists s', g'. split_and!; [exact Hrun | done | done |].
  intros x Hx Hfull. apply Hf; [|done]. rewrite Ht2. by apply grow_full.
Qed.

(** Provider-side conversations stay bounded: whatever the turns of a conversation say, whatever the provider answers and however much
    time passes between them, with a reachable Redis the counters of the conversation stay below the thresholds of its policy (a
    turn that reaches one starts a new conversation and resets both), and no turn fails because of the bookkeeping. *)
Theorem growth_bounded tenant session key l s g :
  key <> "" -> Forall (fun x => 0 <= x.2)%Z l -> measures key s g -> below g ->
  exists s' g', turns_of tenant session key l s = (Ok tt, s') /\ measures key s' g' /\ below g'.
Proof.
  intros Hk Hl Hm Hb. destruct (turns_measured tenant session key l s g Hk Hl Hm Hb) as (s' & g' & H & H1 & H2 & _). by exists s', g'.
Qed.

(** The text carried forward freezes: once it has the policy's length, no later turn of the conversation changes it, so that a
    conversation re-created from it knows none of the newer turns: the trim keeps the oldest text. *)
Theorem carried_text_freezes tenant session key l s g x :
  key <> "" -> Forall (fun x => 0 <= x.2)%Z l -> measures key s g -> below g -> gr_text g = Some x -> full x ->
  exists s', turns_of tenant session key l s = (Ok tt, s') /\ carry_forward_text key s' = (Ok (Some x), s').
Proof.
  intros Hk Hl Hm Hb Hx Hf. destruct (turns_measured tenant session key l s g Hk Hl Hm Hb) as (s' & g' & H & (_ & _ & _ & H1) & _ & H2).
  exists s'. split; [done|]. unfold carry_forward_text, summary_of, mbind_, mget, mret. by rewrite H1, (H2 x Hx Hf).
Qed.

(** Continuity keeps its contract: a conversation's counters and carried text after a sequence of turns are those of the
    abstract conversation, which counts turns and estimated tokens and, where the policy asks for it, starts again from the
    trimmed layers of text. *)
Theorem continuity_refines tenant session key texts s g :
  key <> "" -> measures key s g ->
  exists s', turns_of tenant session key ((fun t => (t, 0%Z)) <$> texts) s = (Ok tt, s') /\ measures key s' (foldl grow g texts).
Proof.
  intros Hk. revert s g. induction texts as [|t l IH]; intros s g Hm; [by exists s|].
  destruct (bound_step tenant session key t s g Hk Hm) as (s1 & Hs1 & Hm1). simpl. rewrite (mbind_run _ _ _ _ _ Hs1).
  apply IH. destruct s1 as [[en cl fl] t1]. unfold measures, counter, rlookup, live, tick in *. simpl. by rewrite Z.add_0_r.
Qed.
End growth.

(** ** Sessions of others *)

Section sessions.
Context {P : Type}.
Variable session : uuid.
Variable owner : uuid * string.
Implicit Types s : redis * talk P.

(** The session keeps its owner, and nothing outside happens. *)
Definition refusing s s' : Prop :=
  fs_sessions (tk_flows s.2) !! session = Some owner ->
  fs_sessions (tk_flows s'.2) !! session = Some owner /\ outside s' = outside s.
#[local] Instance refusing_preorder : PreOrder refusing.
Proof. split; [by intros s H|]. intros a b c H1 H2 H. destruct (H1 H) as [Hb <-]. by apply H2. Qed.

Lemma refusing_redis {A} (m : M redis A) : respects refusing (on_redis m).
Proof. intros s H. unfold on_redis. by destruct (m s.1). Qed.
Lemma refusing_enqueue e : respects refusing (enqueue e).
Proof. by intros s H. Qed.
Lemma refusing_assign f : respects refusing (assign f).
Proof. by intros s H. Qed.
Lemma refusing_table {A} (m : M store A) : respects refusing (database (table m)).
Proof. intros s H. unfold database, table, engine, repo. by destruct (m _). Qed.
#[local] Hint Resolve refusing_redis refusing_enqueue refusing_assign refusing_table : frame.

(** The wrong user gets no further than [create_session]. *)
Lemma refusing_session {A} tenant user (k : unit -> M (redis * talk P) A) :
  owner <> (tenant, user) -> respects refusing (mbind_ (database (create_session session tenant user)) k).
Proof.
  intros Ho s H. unfold mbind_ at 1, database, create_session. unfold mbind_, mget. rewrite H. destruct owner as [t u].
  rewrite bool_decide_false by naive_solver. by destruct s as [r []].
Qed.

Lemma refusing_fail uuid_str exc_errors silent_mode ttl c key correlation e :
  respects refusing (fail_turn uuid_str exc_errors silent_mode ttl c key correlation e).
Proof. unfold fail_turn, vars. walk. Qed.

Section refused.
Variable uuid_str : uuid -> string.
Variable py_str : pyval -> string.
Variable exc_errors : exc -> list string.
Variable silent_mode : bool.
Variable idempotency_ttl : Z.
Variable conversations_create : string -> option string -> P -> res exc string * P.
Variable responses_create : pydict -> P -> (list stream_event * option exc) * P.
Variable duration : Z.
Variable json_loads : string -> option pyval.
Variable estimate_tokens : string -> Z.
Variable agent_tenant : uuid -> option uuid.
Variable active_agent_version : uuid -> option uuid.
Variable system_prompt_of : uuid -> option (option string).
Variable user_prompt : uuid -> uuid -> option (option string).
Variable compute_cost : option (string -> Z -> Z -> P -> res exc (option pyfloat) * P).
Variable conversation_model : string.
Variable continuity : option ConversationContinuityPolicy.
Variable mcp_config : option TenantMcpConfig.

Lemma refusing_converse c q key correlation :
  owner <> (rq_tenant c, rq_user c) ->
  respects refusing (converse uuid_str py_str silent_mode idempotency_ttl conversations_create responses_create duration json_loads
    estimate_tokens agent_tenant active_agent_version system_prompt_of user_prompt compute_cost conversation_model continuity mcp_config
    c q key session correlation).
Proof.
  intros Ho. unfold converse. apply respects_bind; [apply _ | frame | intros cached]. cbv zeta. match goal with |- respects _ (match ?o with Some _ => _ | None => _ end) => destruct o end; [frame|].
  unfold converse_new. apply respects_bind; [apply _ | frame | intros acquired]. destruct (negb acquired); [frame|].
  apply respects_bind; [apply _ | destruct mcp_config; frame | intros _]. apply respects_bind; [apply _ | frame | intros history].
  apply respects_bind; [apply _ | frame | intros _]. by apply refusing_session.
Qed.

(** A turn in the session of someone else: if the session of the request belongs to another tenant or user, then whatever the request asks
    and whatever is cached, the provider is not called, no summary is touched and no usage is recorded, and the session keeps its
    owner. *)
Theorem foreign_session_untouched c q last s :
  cq_session q = Some session -> fs_sessions (tk_flows s.2) !! session = Some owner -> owner <> (rq_tenant c, rq_user c) ->
  let s' := (execute_turn uuid_str py_str exc_errors silent_mode idempotency_ttl conversations_create responses_create duration
    json_loads estimate_tokens agent_tenant active_agent_version system_prompt_of user_prompt compute_cost conversation_model continuity
    mcp_config c q last s).2 in
  fs_sessions (tk_flows s'.2) !! session = Some owner /\ outside s' = outside s.
Proof.
  intros Hq Hs Ho. unfold execute_turn. fold (started s). cbv zeta. cbn [snd].
  assert (Hr : respects refusing (_run_direct uuid_str py_str exc_errors silent_mode idempotency_ttl conversations_create responses_create
    duration json_loads estimate_tokens agent_tenant active_agent_version system_prompt_of user_prompt compute_cost conversation_model
    continuity mcp_config c q)); [|exact (Hr (started s) Hs)].
  unfold _run_direct. rewrite Hq. match goal with |- respects _ (mbind_ (mret ?x) ?k) => change (respects refusing (k x)) end. cbv beta.
  apply respects_bind; [apply _ | destruct (cq_correlation q); frame | intros correlation]. apply respects_bind; [apply _ | frame | intros _].
  cbv zeta. apply respects_try; [apply _ | by apply refusing_converse | intros e; apply refusing_fail].
Qed.
End refused.
End sessions.

(** ** Turns against a scripted provider

    An agent of tenant 1 and a provider that plays a script of streams: witnesses for the theorems of [ConversationFacts] and
    this file, and the behaviours a client of the stream has to know. *)

Module talks.
(** ** The provider *)

Definition script : Type := list (list stream_event * option exc).
Definition play (payload : pydict) (p : script) : (list stream_event * option exc) * script :=
  match p with [] => (([], Some (ExternalError "APIError" "no answer")), []) | x :: p' => (x, p') end.
Definition open_conversation (key : string) (seed : option string) (p : script) : res exc string * script := (Ok "conv", p).

Definition answer (text : string) : Response := {|
  rs_id := "resp"; rs_output := [PDict [("content", PList [PDict [("type", PStr "output_text"); ("text", PStr text)]])]];
  rs_usage := Some (3, 2)%Z |}.
Definition says (text : string) : stream_event := {|
  ev_payload := [("type", PStr "response.output_text.delta"); ("delta", PStr text)]; ev_response := answer "" |}.
Definition completes (text : string) : stream_event := {|
  ev_payload := [("type", PStr "response.completed"); ("response", PDict [])]; ev_response := answer text |}.

(** ** The turn *)

Definition small_policy : ConversationContinuityPolicy := {| max_turns := 2; max_estimated_tokens := 100; summary_max_chars := 4 |}.
Definition of_one {A} (x : A) (u : uuid) : option A := if (u =? 1)%N then Some x else None.

Section sample.
Variable silent : bool.
Variable mcp : option TenantMcpConfig.
Definition sample_turn : requester -> ConversationRequest -> option Z ->
    M (redis * talk script) (list (Z * ConversationEvent) * bool) :=
  execute_turn (fun _ => "uuid") (fun _ => "text") (fun _ => []) silent 60 open_conversation play 1 (fun _ => None) (fun _ => 1%Z)
    (of_one 1%N) (of_one 1%N) (of_one (Some "Be brief.")) (fun _ _ => None) None "gpt" (Some small_policy) mcp.
End sample.

Definition ana : requester := {|
  rq_tenant := 1; rq_principal := "ana"; rq_user := "ana"; rq_authorization := None; rq_request_id := Some "r1"; rq_trace := "t" |}.
Definition ask (text : string) : ConversationRequest := {|
  cq_agent := 1; cq_session := Some 3%N; cq_user := "ana"; cq_input := Some text; cq_prompt := None; cq_correlation := Some 4%N;
  cq_metadata := [] |}.
Definition talk_start (p : script) : talk script := {|
  tk_flows := {| fs_env := {| db := empty_store; world := p; counters := ∅; loop_keys := [] |};
                 fs_sessions := {[9%N := (2%N, "bob")]}; fs_users := ∅; fs_origins := ∅; fs_locks := ∅; fs_plans := ∅;
                 fs_workflows := ∅ |};
  tk_summaries := ∅; tk_ledger := []; tk_queue := []; tk_vars := fresh_vars |}.
Definition one_answer : script := [([says "He"; says "llo"; completes "Hello"], None)].
Definition events_of (x : res exc (list (Z * ConversationEvent) * bool) * (redis * talk script)) : list (Z * SSEEventType) :=
  match x.1 with Ok (l, _) => (fun e => (e.1, ce_type e.2)) <$> l | Err _ => [] end.

(** A provider whose streams report no error. *)
Definition calm_event (e : stream_event) : bool := negb (String.eqb (event_type_of (fun _ => "text") (ev_payload e)) "response.error").
Definition calm_play (payload : pydict) (p : script) : (list stream_event * option exc) * script :=
  let '((l, e), p') := play payload p in ((List.filter calm_event l, e), p').
Definition calm_turn : M (redis * talk script) (list (Z * ConversationEvent) * bool) :=
  execute_turn (fun _ => "uuid") (fun _ => "text") (fun _ => []) true 60 open_conversation calm_play 1 (fun _ => None) (fun _ => 1%Z)
    (of_one 1%N) (of_one 1%N) (of_one (Some "Be brief.")) (fun _ _ => None) None "gpt" (Some small_policy) None ana (ask "Hi") (Some 7%Z).

Lemma turn_protocol_witness :
  events_of (calm_turn (empty_redis, talk_start one_answer)) = [(8, CONNECTED); (9, CONTENT_DELTA); (10, CONTENT_DELTA); (11, DONE)]%Z /\
  exists l s', calm_turn (empty_redis, talk_start one_answer) = (Ok (l, true), s') /\
  exists ids mid e, l = numbered 7 ({| ce_type := CONNECTED; ce_payload := ids |} :: mid ++ [e]) /\
    Forall (fun e => ce_type e = CONTENT_DELTA \/ ce_type e = TOOL_PROGRESS) mid /\ final_event s' e.
Proof.
  split; [vm_compute; reflexivity|].
  apply (turn_protocol (fun _ => "uuid") (fun _ => "text") (fun _ => []) true 60 open_conversation calm_play 1 (fun _ => None) (fun _ => 1%Z)
    (of_one 1%N) (of_one 1%N) (of_one (Some "Be brief.")) (fun _ _ => None) None "gpt" (Some small_policy) None eq_refl eq_refl
    ana (ask "Hi") (Some 7%Z) (empty_redis, talk_start one_answer)).
  intros payload p e. unfold calm_play. destruct (play payload p) as [[l x] p']. simpl. intros [_ H]%list_elem_of_In%filter_In.
  intros E. unfold calm_event in H. by rewrite E in H.
Defined.

(** An error that the provider's stream reports is passed on as an [error] event, and the turn goes on to its [done]. *)
Definition fails (code : string) : stream_event := {|
  ev_payload := [("type", PStr "response.error"); ("error", PDict [("code", PStr code)])]; ev_response := answer "" |}.
Example error_then_done :
  map snd (events_of (sample_turn true None ana (ask "Hi") None
    (empty_redis, talk_start [([says "He"; fails "busy"; says "llo"; completes "Hello"], None)]))) =
    [CONNECTED; CONTENT_DELTA; ERROR; CONTENT_DELTA; DONE].
Proof. vm_compute. reflexivity. Qed.

(** The first turn of [one_answer], and its replay. *)
Definition first_turn := sample_turn true None ana (ask "Hi") None (empty_redis, talk_start one_answer).
Definition events (x : res exc (list (Z * ConversationEvent) * bool)) : list (Z * ConversationEvent) := match x with Ok r => r.1 | Err _ => [] end.

Lemma turn_runs_once_witness :
  exists s2 before e e' ids, sample_turn true None ana (ask "again") None (tick 30 first_turn.2.1, first_turn.2.2) =
      (Ok (numbered 0 [{| ce_type := CONNECTED; ce_payload := ids |}; e'], true), s2) /\
    map snd (events first_turn.1) = before ++ [e] /\ outside s2 = outside first_turn.2 /\
    ((ce_type e = DONE /\ e' = e) \/
     (ce_type e = ERROR /\ ce_type e' = ERROR /\ dict_getv "error_code" (ce_payload e') = PStr "idempotency_in_progress")).
Proof.
  refine (turn_runs_once (fun _ => "uuid") (fun _ => "text") (fun _ => []) true 60 open_conversation play 1 (fun _ => None) (fun _ => 1%Z)
    (of_one 1%N) (of_one 1%N) (of_one (Some "Be brief.")) (fun _ _ => None) None "gpt" (Some small_policy) None eq_refl eq_refl
    ana (ask "Hi") (ask "again") None None (empty_redis, talk_start one_answer) first_turn.2 (events first_turn.1) 30 "r1" _ _ _ _ _).
  - reflexivity.
  - reflexivity.
  - reflexivity.
  - vm_compute. reflexivity.
  - lia.
Defined.

(** ** Sessions *)

Definition in_session (u : uuid) : ConversationRequest := {|
  cq_agent := 1; cq_session := Some u; cq_user := "ana"; cq_input := Some "Hi"; cq_prompt := None; cq_correlation := Some 4%N;
  cq_metadata := [] |}.

Lemma foreign_session_untouched_witness :
  events_of (sample_turn true None ana (in_session 9) None (empty_redis, talk_start one_answer)) = [(1, CONNECTED); (2, ERROR)]%Z /\
  let s' := (sample_turn true None ana (in_session 9) None (empty_redis, talk_start one_answer)).2 in
  fs_sessions (tk_flows s'.2) !! 9%N = Some (2%N, "bob") /\ outside s' = outside (empty_redis, talk_start one_answer).
Proof.
  split; [vm_compute; reflexivity|].
  refine (foreign_session_untouched 9 (2%N, "bob") (fun _ => "uuid") (fun _ => "text") (fun _ => []) true 60 open_conversation play 1
    (fun _ => None) (fun _ => 1%Z) (of_one 1%N) (of_one 1%N) (of_one (Some "Be brief.")) (fun _ _ => None) None "gpt" (Some small_policy)
    None ana (in_session 9) None (empty_redis, talk_start one_answer) _ _ _); [reflexivity | reflexivity | discriminate].
Defined.

(** ** Growth *)

Definition new_talk : grown := {| gr_turns := 0; gr_tokens := 0; gr_text := None |}.
Definition at_start : redis * talk script := (empty_redis, talk_start []).
Definition first_turns : list (string * Z) := [("one", 5); ("two", 100); ("three", 0)]%Z.
Abbreviation sample_turns := (turns_of true open_conversation 1 (fun _ => 1%Z) small_policy).

Lemma new_talk_measures : measures "k" at_start new_talk.
Proof. by split_and!. Qed.

Lemma growth_bounded_witness :
  exists s' g', sample_turns 1 3 "k" first_turns at_start = (Ok tt, s') /\ measures "k" s' g' /\ below small_policy g'.
Proof.
  apply (growth_bounded true open_conversation 1 (fun _ => 1%Z) small_policy 1 3 "k" first_turns at_start new_talk).
  - discriminate.
  - repeat constructor; simpl; lia.
  - exact new_talk_measures.
  - split; reflexivity.
Defined.

Lemma continuity_refines_witness :
  exists s', sample_turns 1 3 "k" [("one", 0); ("two", 0); ("three", 0)]%Z at_start = (Ok tt, s') /\
    measures "k" s' {| gr_turns := 1; gr_tokens := 1; gr_text := Some "two" |}.
Proof.
  refine (continuity_refines true open_conversation 1 (fun _ => 1%Z) small_policy 1 3 "k" ["one"; "two"; "three"] at_start new_talk _ _).
  - discriminate.
  - exact new_talk_measures.
Defined.

(** Four turns fill the carried text. *)
Definition filled : redis * talk script :=
  (sample_turns 1 3 "k" [("one", 0); ("two", 0); ("three", 0); ("four", 0)]%Z at_start).2.
Definition filled_text : string := Eval vm_compute in match gr_text (foldl (grow (fun _ => 1%Z) small_policy) new_talk ["one"; "two"; "three"; "four"]) with Some t => t | None => "" end.

Lemma filled_measures : measures "k" filled {| gr_turns := 0; gr_tokens := 0; gr_text := Some filled_text |}.
Proof. split_and!; vm_compute; reflexivity. Qed.

Lemma carried_text_freezes_witness :
  exists s', sample_turns 1 3 "k" first_turns filled = (Ok tt, s') /\ carry_forward_text "k" s' = (Ok (Some filled_text), s').
Proof.
  apply (carried_text_freezes true open_conversation 1 (fun _ => 1%Z) small_policy 1 3 "k" first_turns filled
    {| gr_turns := 0; gr_tokens := 0; gr_text := Some filled_text |} filled_text).
  - discriminate.
  - repeat constructor; simpl; lia.
  - exact filled_measures.
  - split; reflexivity.
  - reflexivity.
  - split; [discriminate | vm_compute; reflexivity].
Defined.

(** ** What a client has to know *)

Definition deltas (l : list (Z * ConversationEvent)) : list pyval :=
  omap (fun e => match ce_type e.2 with CONTENT_DELTA => dict_get "delta" (ce_payload e.2) | _ => None end) l.
Definition final_texts (l : list (Z * ConversationEvent)) : list pyval :=
  omap (fun e => match ce_type e.2 with DONE => dict_get "final_text" (ce_payload e.2) | _ => None end) l.
Definition failed_once (last : list stream_event) : script :=
  [([says "He"], Some (ExternalError "APIError" "424 Failed Dependency")); (last, None)].

(** A stream that is retried is heard twice: the deltas of the failed attempt are not taken back, and an answer without text
    items is taken from them. *)
Lemma retried_stream_repeats :
  let retried last := events (sample_turn true None ana (ask "Hi") None (empty_redis, talk_start (failed_once last))).1 in
  deltas (retried [says "Hello"; completes "Hello"]) = [PStr "He"; PStr "Hello"] /\
  final_texts (retried [says "Hello"; completes "Hello"]) = [PStr "Hello"] /\
  final_texts (retried [says "Hello"; {| ev_payload := ev_payload (completes ""); ev_response := {| rs_id := "resp"; rs_output := []; rs_usage := None |} |}])
    = [PStr "HeHello"].
Proof. vm_compute. auto. Qed.

(** Without silent mode, a Redis that fails after the answer turns it into an error: the stream has both. *)
Definition flaky (good : nat) : redis := {| entries := ∅; clock := 0; faults := repeat false good ++ [true] |}.
Lemma done_then_error :
  map snd (events_of (sample_turn false None ana (ask "Hi") None (flaky 9, talk_start one_answer))) =
    [CONNECTED; CONTENT_DELTA; CONTENT_DELTA; DONE; ERROR].
Proof. vm_compute. reflexivity. Qed.

(** A duplicate that looked for the answer before it was stored, and asks for the key after, replaces the answer with its own refusal. *)
Definition late_duplicate : redis * talk script :=
  (mtry (converse_new (fun _ => "uuid") (fun _ => "text") true 60 open_conversation play 1 (fun _ => None) (fun _ => 1%Z)
      (of_one 1%N) (of_one 1%N) (of_one (Some "Be brief.")) (fun _ _ => None) None "gpt" (Some small_policy) None ana (ask "Hi")
      (turn_key (fun _ => "uuid") ana 4) 3 4)
    (fail_turn (fun _ => "uuid") (fun _ => []) true 60 ana (turn_key (fun _ => "uuid") ana 4) 4) first_turn.2).2.
Definition status_at (r : redis) (key : string) : pyval :=
  match rlookup r key with Some (RJson (PDict d), _) => dict_getv "status" d | _ => PNone end.
Lemma late_duplicate_overwrites :
  status_at first_turn.2.1 (turn_key (fun _ => "uuid") ana 4) = PStr "DONE" /\
  status_at late_duplicate.1 (turn_key (fun _ => "uuid") ana 4) = PStr "FAILED".
Proof. vm_compute. auto. Qed.
End talks.
