(* ===== verification/Chunking.v ===== *)
(** * Chunking: how documents are cut into pieces for embedding

    [_chunks_for_ingest], [_chunk_text] and [_recursive_character_chunks] of
    [src/src/domain/rag/services/rag_runtime_service.py].  A text is its code points; [tiktoken]'s encoder is a parameter.
    The [while] loops take fuel: the token window needs one more than its tokens, the recursive chunker one more than its
    code points, and both are shown to be enough.

    The theorems: both chunkers end, bound their pieces, and lose nothing that they do not report. *)

From S2P Require Import Prelude.
From S2P Require Import Errors.
From S2P Require Import PyValue.
From S2P Require Import PyString.

(** ** Slices *)

(** [l[a:b]]: negative indices count from the end. *)
Definition slice_index (n i : Z) : Z := Z.min n (if (i <? 0)%Z then Z.max 0 (i + n) else i).
Definition py_slice {A} (a b : Z) (l : list A) : list A :=
  let n := Z.of_nat (length l) in
  let a := slice_index n a in
  take (Z.to_nat (slice_index n b - a)) (drop (Z.to_nat a) l).

(** [w.rfind(sep)]. *)
Fixpoint is_prefix (sep w : list string) : bool :=
  match sep, w with
  | [], _ => true
  | x :: sep', y :: w' => String.eqb x y && is_prefix sep' w'
  | _ :: _, [] => false
  end.
Fixpoint rfind_from (i : Z) (sep w : list string) : Z :=
  match w with
  | [] => if is_prefix sep [] then i else -1
  | _ :: w' => let later := rfind_from (i + 1) sep w' in
               if (0 <=? later)%Z then later else if is_prefix sep w then i else -1
  end.
Definition py_rfind (sep w : list string) : Z := rfind_from 0 sep w.

(** ** Rules *)

(** The parameters of the strategies. *)
Inductive ChunkRuleParams : Type :=
  | TOKEN_WINDOW (target_tokens overlap_tokens max_chunks max_chars : Z)
  | RECURSIVE_CHARACTER (chunk_size chunk_overlap max_chunks max_chars : Z) (separators : list string)
  | SEMANTIC (target_tokens overlap_tokens max_chunks max_chars : Z)
  | PER_PAGE (max_chars max_chunks : Z).
Definition max_document_chars (r : ChunkRuleParams) : Z :=
  match r with
  | TOKEN_WINDOW _ _ _ m | RECURSIVE_CHARACTER _ _ _ m _ | SEMANTIC _ _ _ m | PER_PAGE m _ => m
  end.

Section chunking.
(** [encoder.encode] and [encoder.decode]. *)
Variable encode : string -> list Z.
Variable decode : list Z -> string.

(** ** The token window *)

Section window.
Variable tokens : list Z.
Variables target_tokens overlap_tokens max_chunks : Z.

Definition step : Z := Z.max 1 (target_tokens - overlap_tokens).
Fixpoint window_loop (fuel : nat) (start : Z) (chunks : list string) : option (list string * bool) :=
  match fuel with
  | 0 => None
  | S fuel =>
      if (Z.of_nat (length tokens) <=? start)%Z then Some (chunks, false)
      else if (max_chunks <=? Z.of_nat (length chunks))%Z then Some (chunks, true)
      else
        let stop := Z.min (start + target_tokens) (Z.of_nat (length tokens)) in
        let chunks := chunks ++ [decode (py_slice start stop tokens)] in
        if (Z.of_nat (length tokens) <=? stop)%Z then Some (chunks, false)
        else window_loop fuel (start + step) chunks
  end.
End window.

(** [_chunk_text]. *)
Definition _chunk_text (text : string) (target_tokens overlap_tokens max_chunks : Z) : option (list string * bool) :=
  let tokens := encode text in
  if (Z.of_nat (length tokens) <=? target_tokens)%Z then Some ([text], false)
  else window_loop tokens target_tokens overlap_tokens max_chunks (S (length tokens)) 0 [].

(** ** The recursive chunker *)

Section recursive.
Variable text : list string.
Variables chunk_size chunk_overlap max_chunks : Z.
Variable separators : list string.

(** The separators are tried in order; one in the second half of the window cuts it. *)
Fixpoint cut_at (seps : list string) (window : list string) : Z :=
  match seps with
  | [] => Z.of_nat (length window)
  | sep :: seps' =>
      if String.eqb sep "" then cut_at seps' window
      else
        let pos := py_rfind (utf8_chars sep) window in
        if (chunk_size / 2 <=? pos)%Z then pos + Z.of_nat (length (utf8_chars sep)) else cut_at seps' window
  end.
Definition append_nonempty (s : string) (l : list string) : list string := if String.eqb s "" then l else l ++ [s].

(** The loop returns the parts and the last index. *)
Fixpoint recursive_loop (fuel : nat) (idx : Z) (parts : list string) : option (list string * Z) :=
  match fuel with
  | 0 => None
  | S fuel =>
      if (idx <? Z.of_nat (length text))%Z && (Z.of_nat (length parts) <? max_chunks)%Z then
        let window := py_slice idx (idx + chunk_size) text in
        if (Z.of_nat (length window) <? chunk_size)%Z then
          Some (append_nonempty (py_strip (str_concat window)) parts, idx)
        else
          let cut := cut_at separators window in
          let parts := append_nonempty (py_strip (str_concat (py_slice idx (idx + cut) text))) parts in
          let nxt := (idx + cut - chunk_overlap)%Z in
          recursive_loop fuel (if (idx <? nxt)%Z then nxt else idx + cut)%Z parts
      else Some (parts, idx)
  end.
End recursive.

(** [_recursive_character_chunks]. *)
Definition _recursive_character_chunks (text : string) (chunk_size chunk_overlap max_chunks : Z) (separators : list string) :
    option (list string * bool) :=
  let chars := utf8_chars text in
  if (Z.of_nat (length chars) <=? chunk_size)%Z then Some ([text], false)
  else
    match recursive_loop chars chunk_size chunk_overlap max_chunks separators (S (length chars)) 0 [] with
    | Some (parts, idx) => Some (parts, (idx <? Z.of_nat (length chars))%Z && (max_chunks <=? Z.of_nat (length parts))%Z)
    | None => None
    end.

(** ** The strategies *)

(** [len(s)] and [s[:n]]. *)
Definition chars_of (s : string) : Z := Z.of_nat (length (utf8_chars s)).
Definition str_prefix (n : Z) (s : string) : string := str_concat (py_slice 0 n (utf8_chars s)).

Definition page_chunks (max_chars max_chunks : Z) (pages : list string) : list string * bool :=
  let piece raw := if (chars_of raw <=? max_chars)%Z then raw else str_prefix max_chars raw in
  (filter (.≠ "") (piece <$> py_slice 0 max_chunks pages),
   (max_chunks <? Z.of_nat (length pages))%Z || existsb (fun p => (max_chars <? chars_of p)%Z) pages).

(** [_chunks_for_ingest]; [None] is a loop that does not end. *)
Definition _chunks_for_ingest (content : string) (rule : ChunkRuleParams) (pages : option (list string)) :
    option (res exc (list string * bool)) :=
  match rule with
  | PER_PAGE max_chars max_chunks =>
      match pages with
      | None | Some [] => Some (Err (DomainValidationException "rag_per_page_pages_required"))
      | Some l => Some (Ok (page_chunks max_chars max_chunks l))
      end
  | TOKEN_WINDOW t o m _ | SEMANTIC t o m _ => Ok <$> _chunk_text content t o m
  | RECURSIVE_CHARACTER size o m _ seps => Ok <$> _recursive_character_chunks content size o m seps
  end.
End chunking.

(** ** The chunkers end, bound their pieces and cover the text

    Theorems about this file: what the token window and the recursive chunker return, in terms of the ranges of the text their
    pieces are cut from. *)

Module cover.
(** ** Ranges *)

(** A range is inside a list of [n] elements and has at most [size] of them. *)
Definition inside (n size : Z) (r : Z * Z) : Prop := (0 <= r.1 < r.2 /\ r.2 <= n /\ r.2 - r.1 <= size)%Z.
(** Every index from [a] on is in one of the ranges. *)
Definition covers (a n : Z) (ranges : list (Z * Z)) : Prop :=
  forall i, (a <= i < n)%Z -> exists r, r ∈ ranges /\ (r.1 <= i < r.2)%Z.

Lemma covers_nil a n : (n <= a)%Z -> covers a n [].
Proof. intros H i Hi. lia. Qed.
Lemma covers_cons a b n r ranges : (r.1 <= a)%Z -> (b <= r.2)%Z -> covers b n ranges -> covers a n (r :: ranges).
Proof.
  intros H1 H2 Hc i Hi. destruct (Z.lt_ge_cases i r.2).
  - exists r. split; [constructor | lia].
  - destruct (Hc i) as (r' & Hr & Hi'); [lia|]. exists r'. split; [by constructor | done].
Qed.

Lemma slice_length {A} (l : list A) a b :
  (0 <= a)%Z -> (a <= b)%Z -> Z.of_nat (length (py_slice a b l)) = (Z.min b (Z.of_nat (length l)) - Z.min a (Z.of_nat (length l)))%Z.
Proof.
  intros Ha Hb. unfold py_slice, slice_index. rewrite length_take, length_drop.
  destruct (Z.ltb_spec a 0), (Z.ltb_spec b 0); try lia.
Qed.

(** ** The token window *)

Section window.
Variable decode : list Z -> string.
Variable tokens : list Z.
Variables target_tokens overlap_tokens max_chunks : Z.
Hypothesis target_pos : (0 < target_tokens)%Z.
Hypothesis overlap_nonneg : (0 <= overlap_tokens)%Z.
Abbreviation n := (Z.of_nat (length tokens)).
Abbreviation loop := (window_loop decode tokens target_tokens overlap_tokens max_chunks).
Definition decoded (ranges : list (Z * Z)) : list string := (fun r => decode (py_slice r.1 r.2 tokens)) <$> ranges.

Lemma window_loop_spec fuel start chunks :
  (0 <= start)%Z -> (n - start < Z.of_nat fuel)%Z -> (0 < fuel) ->
  exists ranges truncated, loop fuel start chunks = Some (chunks ++ decoded ranges, truncated) /\
    Forall (inside n target_tokens) ranges /\
    (Z.of_nat (length (chunks ++ decoded ranges)) <= Z.max max_chunks (Z.of_nat (length chunks)))%Z /\
    (truncated = false -> covers start n ranges).
Proof using target_pos overlap_nonneg.
  revert start chunks. induction fuel as [|fuel IH]; intros start chunks Hs Hf Hpos; [lia|]. cbn [window_loop].
  destruct (Z.leb_spec n start).
  { exists [], false. simpl. rewrite app_nil_r. split_and!; [done | done | lia | intros _; by apply covers_nil]. }
  destruct (Z.leb_spec max_chunks (Z.of_nat (length chunks))).
  { exists [], true. simpl. rewrite app_nil_r. split_and!; [done | done | lia | done]. }
  cbv zeta. set (stop := Z.min (start + target_tokens) n). assert (Hstop : (start < stop <= n)%Z) by lia.
  assert (Hin : inside n target_tokens (start, stop)) by (unfold inside; simpl; lia).
  destruct (Z.leb_spec n stop).
  { exists [(start, stop)], false. split_and!; [done | by constructor | rewrite length_app; simpl; lia |].
    intros _. apply (covers_cons _ stop); simpl; [lia | lia | by apply covers_nil]. }
  assert (Hstep : (1 <= step target_tokens overlap_tokens <= target_tokens)%Z) by (unfold step; lia).
  destruct (IH (start + step target_tokens overlap_tokens)%Z (chunks ++ [decode (py_slice start stop tokens)])) as
    (ranges & truncated & Hl & Hr & Hn & Hc); [lia | lia | lia |].
  exists ((start, stop) :: ranges), truncated. split_and!.
  - rewrite Hl, <- app_assoc. done.
  - by constructor.
  - rewrite <- app_assoc in Hn. rewrite length_app in Hn |- *. simpl in *. rewrite length_app in Hn. simpl in Hn. lia.
  - intros Ht. apply (covers_cons _ (start + step target_tokens overlap_tokens)%Z); simpl; [lia | lia | by apply Hc].
Qed.
End window.

(** The token window is complete: with a positive window and a non-negative overlap, cutting a text ends; every piece is decoded from a
    run of at most [target_tokens] tokens of the text, there are at most [max_chunks] pieces (one, for a short text), and unless
    the result says that it was truncated, every token of the text is in a piece. *)
Theorem chunk_text_complete encode decode text target overlap max_chunks :
  (0 < target)%Z -> (0 <= overlap)%Z ->
  exists chunks truncated, _chunk_text encode decode text target overlap max_chunks = Some (chunks, truncated) /\
    (Z.of_nat (length chunks) <= Z.max max_chunks 1)%Z /\
    ((chunks = [text] /\ truncated = false /\ (Z.of_nat (length (encode text)) <= target)%Z) \/
     exists ranges, chunks = decoded decode (encode text) ranges /\ Forall (inside (Z.of_nat (length (encode text))) target) ranges /\
       (truncated = false -> covers 0 (Z.of_nat (length (encode text))) ranges)).
Proof.
  intros Ht Ho. unfold _chunk_text. cbv zeta. destruct (Z.leb_spec (Z.of_nat (length (encode text))) target).
  { exists [text], false. split_and!; [done | simpl; lia | by left]. }
  destruct (window_loop_spec decode (encode text) target overlap max_chunks Ht Ho (S (length (encode text))) 0 []) as
    (ranges & truncated & Hl & Hr & Hn & Hc); [lia | lia | lia |].
  exists (decoded decode (encode text) ranges), truncated. split_and!; [done | simpl in Hn; lia | right; by exists ranges].
Qed.

(** ** The recursive chunker *)

Lemma is_prefix_length sep w : is_prefix sep w = true -> length sep <= length w.
Proof.
  revert w. induction sep as [|x sep IH]; intros [|y w] H; simpl in *; try done; [lia|]. apply andb_true_iff in H as [_ H].
  apply IH in H. lia.
Qed.

Lemma rfind_bounds sep w i :
  (0 <= i)%Z -> rfind_from i sep w = (-1)%Z \/
    (i <= rfind_from i sep w /\ rfind_from i sep w + Z.of_nat (length sep) <= i + Z.of_nat (length w))%Z.
Proof.
  revert i. induction w as [|y w IH]; intros i Hi; cbn [rfind_from].
  - destruct (is_prefix sep []) eqn:E; [right | by left]. apply is_prefix_length in E. simpl in *. lia.
  - cbv zeta. destruct (IH (i + 1)%Z ltac:(lia)) as [->|Hb].
    + simpl. destruct (is_prefix sep (y :: w)) eqn:E; [right | by left]. apply is_prefix_length in E. simpl in *. lia.
    + right. rewrite (proj2 (Z.leb_le _ _)) by lia. simpl. lia.
Qed.

Section recursive.
Variable text : list string.
Variables chunk_size chunk_overlap max_chunks : Z.
Variable separators : list string.
Hypothesis size_pos : (0 < chunk_size)%Z.
Hypothesis overlap_nonneg : (0 <= chunk_overlap)%Z.
Abbreviation n := (Z.of_nat (length text)).
Abbreviation loop := (recursive_loop text chunk_size chunk_overlap max_chunks separators).

Lemma cut_at_bounds seps w :
  (0 < Z.of_nat (length w))%Z -> (0 < cut_at chunk_size seps w <= Z.of_nat (length w))%Z.
Proof using size_pos.
  intros Hw. induction seps as [|sep seps IH]; cbn [cut_at]; [lia|]. destruct (String.eqb_spec sep ""); [done|]. cbv zeta.
  destruct (Z.leb_spec (chunk_size / 2) (py_rfind (utf8_chars sep) w)) as [Hle|]; [|done].
  assert (Hs : 0 < length (utf8_chars sep)).
  { destruct (utf8_chars sep) eqn:E; [by apply utf8_chars_nil in E | simpl; lia]. }
  assert (0 <= chunk_size / 2)%Z by (apply Z.div_pos; lia).
  destruct (rfind_bounds (utf8_chars sep) w 0 ltac:(lia)) as [Hr|Hr]; unfold py_rfind in *; lia.
Qed.

(** The piece of a range, and the pieces of ranges. *)
Definition piece (r : Z * Z) : string := py_strip (str_concat (py_slice r.1 r.2 text)).
Definition pieces (ranges : list (Z * Z)) : list string := filter (.≠ "") (piece <$> ranges).
Lemma append_piece r parts : append_nonempty (piece r) parts = parts ++ pieces [r].
Proof.
  unfold append_nonempty, pieces. simpl. rewrite filter_cons, filter_nil. destruct (String.eqb_spec (piece r) "") as [->|H].
  - rewrite decide_False by naive_solver. by rewrite app_nil_r.
  - by rewrite decide_True.
Qed.
Lemma pieces_cons r ranges : pieces (r :: ranges) = pieces [r] ++ pieces ranges.
Proof. unfold pieces. by rewrite <- filter_app. Qed.
Lemma pieces_one r : length (pieces [r]) <= 1.
Proof. unfold pieces. etrans; [apply length_filter|]. done. Qed.

Lemma recursive_loop_spec fuel idx parts :
  (0 <= idx)%Z -> (n - idx < Z.of_nat fuel)%Z -> (0 < fuel) ->
  exists ranges last, loop fuel idx parts = Some (parts ++ pieces ranges, last) /\
    Forall (inside n chunk_size) ranges /\
    (Z.of_nat (length (parts ++ pieces ranges)) <= Z.max max_chunks (Z.of_nat (length parts)))%Z /\
    ((last < n /\ max_chunks <= Z.of_nat (length (parts ++ pieces ranges)))%Z \/ covers idx n ranges).
Proof using size_pos overlap_nonneg.
  revert idx parts. induction fuel as [|fuel IH]; intros idx parts Hi Hf Hpos; [lia|]. cbn [recursive_loop].
  destruct (Z.ltb_spec idx n); cbn [andb].
  2: { exists [], idx. unfold pieces. simpl. rewrite app_nil_r. split_and!; [done | done | lia | right; by apply covers_nil]. }
  destruct (Z.ltb_spec (Z.of_nat (length parts)) max_chunks).
  2: { exists [], idx. unfold pieces. simpl. rewrite app_nil_r. split_and!; [done | done | lia | left; lia]. }
  cbv zeta. set (window := py_slice idx (idx + chunk_size) text).
  pose proof (slice_length text idx (idx + chunk_size) Hi ltac:(lia)) as Hw. fold window in Hw.
  destruct (Z.ltb_spec (Z.of_nat (length window)) chunk_size).
  - exists [(idx, n)], idx. split_and!.
    + f_equal. f_equal. rewrite <- append_piece. unfold piece. simpl. do 2 f_equal. unfold window, py_slice, slice_index.
      destruct (Z.ltb_spec idx 0), (Z.ltb_spec (idx + chunk_size) 0), (Z.ltb_spec n 0); try lia. f_equal. f_equal. lia.
    + constructor; [|done]. unfold inside. simpl. lia.
    + pose proof (pieces_one (idx, n)). rewrite length_app. lia.
    + right. apply (covers_cons _ n); simpl; [lia | lia | by apply covers_nil].
  - pose proof (cut_at_bounds separators window ltac:(lia)) as Hcut. set (cut := cut_at chunk_size separators window) in *.
    set (r := (idx, (idx + cut)%Z)). change (py_strip (str_concat (py_slice idx (idx + cut) text))) with (piece r). rewrite append_piece.
    set (nxt := (if (idx <? idx + cut - chunk_overlap)%Z then idx + cut - chunk_overlap else idx + cut)%Z).
    assert (Hn : (idx < nxt <= idx + cut)%Z) by (unfold nxt; destruct (Z.ltb_spec idx (idx + cut - chunk_overlap)); lia).
    destruct (IH nxt (parts ++ pieces [r])) as (ranges & last & Hl & Hr & Hlen & Hc); [lia | lia | lia |].
    exists (r :: ranges), last. rewrite (pieces_cons r ranges), app_assoc. split_and!; [exact Hl | | |].
    + constructor; [|done]. unfold inside. simpl. lia.
    + pose proof (pieces_one r). rewrite (length_app parts) in Hlen. lia.
    + destruct Hc as [Hc|Hc]; [by left | right]. apply (covers_cons _ nxt); simpl; [lia | lia | done].
Qed.
End recursive.


Lemma cut_at_empty seps : cut_at 0 seps [] = 0%Z.
Proof.
  induction seps as [|sep seps IH]; [done|]. cbn [cut_at]. destruct (String.eqb_spec sep ""); [done|]. cbv zeta.
  destruct (utf8_chars sep) eqn:E; [by apply utf8_chars_nil in E | done].
Qed.

(** A chunk size of zero makes no progress: the loop does not end, whatever the fuel. *)
Theorem zero_size_diverges text overlap max_chunks separators fuel :
  text <> [] -> (0 <= overlap)%Z -> (0 < max_chunks)%Z ->
  recursive_loop text 0 overlap max_chunks separators fuel 0 [] = None.
Proof.
  intros Ht Ho Hm. induction fuel as [|fuel IH]; [done|]. cbn [recursive_loop].
  assert (Hl : 0 < length text) by (destruct text; [done | simpl; lia]).
  rewrite (proj2 (Z.ltb_lt 0 (Z.of_nat (length text)))), (proj2 (Z.ltb_lt (Z.of_nat (@length string [])) max_chunks)) by (simpl; lia).
  cbn [andb]. cbv zeta. assert (Hw : py_slice 0 (0 + 0) text = []) by (unfold py_slice, slice_index; cbv zeta; replace (Z.to_nat _) with 0 by (simpl; lia); done).
  rewrite Hw. cbn [length]. change (Z.of_nat 0 <? 0)%Z with false. cbv iota.
  rewrite cut_at_empty, Hw. destruct (Z.ltb_spec 0 (0 + 0 - overlap)); [lia|]. exact IH.
Qed.

(** The flag is also set when nothing was left out: a text whose last piece is the last one allowed. *)
Lemma truncated_without_loss :
  _recursive_character_chunks "aaaabbb" 4 0 2 [] = Some (["aaaa"; "bbb"], true).
Proof. vm_compute. reflexivity. Qed.

(** ** Witnesses *)

Definition letters (s : string) : list Z := (fun c => match c with String a _ => Z.of_nat (Ascii.nat_of_ascii a) | EmptyString => 0%Z end) <$> utf8_chars s.
Definition spell (l : list Z) : string := bytes (Z.to_nat <$> l).

Lemma chunk_text_complete_witness :
  _chunk_text letters spell "abcde" 2 1 10 = Some (["ab"; "bc"; "cd"; "de"], false) /\
  exists chunks truncated, _chunk_text letters spell "abcde" 2 1 10 = Some (chunks, truncated) /\
    (Z.of_nat (length chunks) <= Z.max 10 1)%Z /\
    ((chunks = ["abcde"] /\ truncated = false /\ (Z.of_nat (length (letters "abcde")) <= 2)%Z) \/
     exists ranges, chunks = decoded spell (letters "abcde") ranges /\ Forall (inside (Z.of_nat (length (letters "abcde"))) 2) ranges /\
       (truncated = false -> covers 0 (Z.of_nat (length (letters "abcde"))) ranges)).
Proof. split; [vm_compute; reflexivity|]. apply (chunk_text_complete letters spell "abcde" 2 1 10); lia. Defined.

End cover.
