(* ===== verification/Rag.v ===== *)
(** * Rag: ingestion and retrieval of documents

    [src/src/domain/rag/services/rag_runtime_service.py], [embedding_executor.py], the policy service of retrieval and the tables of
    [src/src/domain/rag/repositories/rag_repository.py] they work on: documents with their embedding status, chunks, usage
    counters, configurations, vector stores and the cache of query embeddings.

    Repository calls are transactions: one that raises changes nothing.  The embedding model, [tiktoken], SHA-256, pgvector's
    distance and [pydantic] are parameters; the Redis cache in front of [get_rag_config] is left out, and so are the columns
    nobody reads.  A chunking rule whose loop does not end ([Chunking.cover] says when) is an exception here. *)

From S2P Require Import Prelude.
From S2P Require Import Errors.
From S2P Require Import PyValue.
From S2P Require Import PyString.
From S2P Require Import PyFloat.
From S2P Require Import StateMachine.
From S2P Require Import Sorting.
From S2P Require Import Effects.
From S2P Require Import Store.
From S2P Require Import Chunking.

(** ** Tables *)

Inductive EmbeddingStatus : Type := PENDING | PROCESSING | COMPLETED | FAILED.
Definition status_str (s : EmbeddingStatus) : string :=
  match s with PENDING => "PENDING" | PROCESSING => "PROCESSING" | COMPLETED => "COMPLETED" | FAILED => "FAILED" end.
#[global] Instance EmbeddingStatus_eq_dec : EqDecision EmbeddingStatus.
Proof. solve_decision. Defined.
(** [_as_embedding_status]. *)
Definition _as_embedding_status (s : string) : EmbeddingStatus :=
  if String.eqb s "PROCESSING" then PROCESSING else if String.eqb s "COMPLETED" then COMPLETED
  else if String.eqb s "FAILED" then FAILED else PENDING.

Definition vec : Type := list pyfloat.

Record rag_document : Type := {
  rd_tenant : uuid;
  rd_config : option uuid;
  rd_source : string;
  rd_type : string;
  rd_hash : string;
  rd_content : string;
  rd_metadata : pydict;
  rd_status : string;
  rd_attempts : Z;
  rd_error : option string;
  rd_created : Z;
}.
Record rag_chunk : Type := {
  rk_document : uuid;
  rk_store : uuid;
  rk_index : nat;
  rk_content : string;
  rk_tokens : Z;
  rk_embedding : vec;
  rk_metadata : pydict;
}.
Record rag_config : Type := {
  rc_tenant : uuid;
  rc_store : uuid;
  rc_rule : uuid;
  rc_corpus : string;
  rc_status : string;
  rc_version : Z * Z * Z;
  rc_options : pydict;
}.
Record vector_store : Type := {
  vs_tenant : uuid;
  vs_model : string;
  vs_dimension : Z;
  vs_metric : string;
  vs_version : Z;
  vs_active : bool;
}.
Record chunking_rule : Type := {
  cr_tenant : uuid;
  cr_params : pydict;
}.
(** The columns of a cached query that select it, and its embedding. *)
Record query_key : Type := {
  qk_tenant : uuid;
  qk_store : uuid;
  qk_version : Z;
  qk_contract : string;
  qk_query : string;
}.
#[global] Instance query_key_eq_dec : EqDecision query_key.
Proof. solve_decision. Defined.
(** A counter belongs to a tenant and a configuration, and to a user unless its scope is [TENANT]. *)
Definition counter_key : Type := uuid * uuid * option string.

Record rag {P : Type} : Type := {
  rg_documents : gmap uuid rag_document;
  rg_chunks : list rag_chunk;
  rg_counters : gmap counter_key (Z * Z);
  rg_configs : gmap uuid rag_config;
  rg_stores : gmap uuid vector_store;
  rg_rules : gmap uuid chunking_rule;
  rg_cache : list (query_key * (vec * Z));
  rg_clock : Z;
  rg_next : uuid;
  rg_world : P;
}.
Arguments rag : clear implicits.

(** ** Options and policies *)

Record RagEmbeddingOptions : Type := {
  eo_alias : string;
  eo_dimension : Z;
  eo_model : option uuid;
}.
Record RagConfigOptions : Type := {
  ro_embedding : RagEmbeddingOptions;
  ro_indexing : option RagEmbeddingOptions;
  ro_top_k : Z;
  ro_threshold : pyfloat;
  ro_filters : pydict;
}.
Definition SUPPORTED_EMBEDDING_DIMENSIONS : list Z := [512; 1024; 1536; 3072]%Z.

Record ai_model : Type := {
  am_name : string;
  am_provider : option string;
  am_type : string;
  am_active : bool;
}.
Record EmbeddingContract : Type := {
  ec_provider : string;
  ec_model : string;
  ec_dimension : Z;
  ec_metric : string;
  ec_version : Z;
}.

Inductive RagActivationScope : Type := TENANT_KNOWLEDGE | USER_MEMORY_VECTOR.
#[global] Instance RagActivationScope_eq_dec : EqDecision RagActivationScope.
Proof. solve_decision. Defined.
Record RagScopePolicy : Type := {
  sp_enabled : bool;
  sp_tools : list uuid;
}.
Record RagIngestQuotas : Type := {
  max_documents_per_tenant : option Z;
  max_chunks_per_tenant : option Z;
  max_documents_per_user : option Z;
  max_chunks_per_user : option Z;
}.
Definition no_quotas : RagIngestQuotas :=
  {| max_documents_per_tenant := None; max_chunks_per_tenant := None; max_documents_per_user := None; max_chunks_per_user := None |}.
Record RagPolicyDefinition : Type := {
  pd_defaults : list (string * (RagScopePolicy * RagScopePolicy));
  pd_published : bool;
  pd_top_k_cap : option Z;
  pd_min_chars : list (RagActivationScope * Z);
  pd_structured : bool;
  pd_quotas : option RagIngestQuotas;
}.

(** The payload of an ingestion, and what a search returns. *)
Record RagDocumentCreate : Type := {
  dc_source : string;
  dc_type : string;
  dc_content : string;
  dc_metadata : pydict;
  dc_config : option uuid;
  dc_pages : option (list string);
}.
Record RagContextItem : Type := {
  ci_chunk : rag_chunk;
  ci_score : pyfloat;
  ci_created : Z;
  ci_observed : option Z;
}.
Inductive RagContextReason : Type := OK | NO_MATCHES | CONFIG_NOT_FOUND.
Record RagContext : Type := {
  cx_items : list RagContextItem;
  cx_reason : RagContextReason;
}.

(** ** The service *)

Section rag.
Context {P : Type}.
(** SHA-256, [tiktoken], text of JSON values, ISO times and the order of text in the database. *)
Variable sha256 : string -> string.
Variable encode : string -> list Z.
Variable decode : list Z -> string.
Variable int_str : Z -> string.
Variable json_text : pyval -> string.
Variable py_str : pyval -> string.
Variable fromisoformat : string -> option Z.
Variable text_gtb : string -> string -> bool.
(** The embedding adapter and pgvector. *)
Variable generate_embedding : string -> string -> Z -> P -> res exc vec * P.
Variable generate_embeddings_batch : list string -> string -> Z -> P -> res exc (list vec) * P.
Variable cosine_distance : vec -> vec -> pyfloat.
(** [pydantic], the registry of models, and the policies of tenants. *)
Variable parse_options : pydict -> res exc RagConfigOptions.
Variable parse_rule : pydict -> res exc ChunkRuleParams.
Variable get_model : uuid -> option ai_model.
Variable get_model_by_name : string -> option ai_model.
Variable active_policy_version : uuid -> option uuid.
Variable policy_version : uuid -> option pydict.
Variable parse_policy : pydict -> res exc RagPolicyDefinition.
(** [settings.MAX_USER_MEMORY_DOCUMENTS]. *)
Variable app_max : Z.

Abbreviation R := (M (rag P)).

Definition set_documents (v : gmap uuid rag_document) (s : rag P) : rag P := {|
  rg_documents := v; rg_chunks := rg_chunks s; rg_counters := rg_counters s; rg_configs := rg_configs s; rg_stores := rg_stores s;
  rg_rules := rg_rules s; rg_cache := rg_cache s; rg_clock := rg_clock s; rg_next := rg_next s; rg_world := rg_world s |}.
Definition set_chunks (v : list rag_chunk) (s : rag P) : rag P := {|
  rg_documents := rg_documents s; rg_chunks := v; rg_counters := rg_counters s; rg_configs := rg_configs s; rg_stores := rg_stores s;
  rg_rules := rg_rules s; rg_cache := rg_cache s; rg_clock := rg_clock s; rg_next := rg_next s; rg_world := rg_world s |}.
Definition set_counters (v : gmap counter_key (Z * Z)) (s : rag P) : rag P := {|
  rg_documents := rg_documents s; rg_chunks := rg_chunks s; rg_counters := v; rg_configs := rg_configs s; rg_stores := rg_stores s;
  rg_rules := rg_rules s; rg_cache := rg_cache s; rg_clock := rg_clock s; rg_next := rg_next s; rg_world := rg_world s |}.
Definition set_configs (v : gmap uuid rag_config) (s : rag P) : rag P := {|
  rg_documents := rg_documents s; rg_chunks := rg_chunks s; rg_counters := rg_counters s; rg_configs := v; rg_stores := rg_stores s;
  rg_rules := rg_rules s; rg_cache := rg_cache s; rg_clock := rg_clock s; rg_next := rg_next s; rg_world := rg_world s |}.
Definition set_stores (v : gmap uuid vector_store) (s : rag P) : rag P := {|
  rg_documents := rg_documents s; rg_chunks := rg_chunks s; rg_counters := rg_counters s; rg_configs := rg_configs s; rg_stores := v;
  rg_rules := rg_rules s; rg_cache := rg_cache s; rg_clock := rg_clock s; rg_next := rg_next s; rg_world := rg_world s |}.
Definition set_cache (v : list (query_key * (vec * Z))) (s : rag P) : rag P := {|
  rg_documents := rg_documents s; rg_chunks := rg_chunks s; rg_counters := rg_counters s; rg_configs := rg_configs s;
  rg_stores := rg_stores s; rg_rules := rg_rules s; rg_cache := v; rg_clock := rg_clock s; rg_next := rg_next s;
  rg_world := rg_world s |}.
Definition set_rag_world (v : P) (s : rag P) : rag P := {|
  rg_documents := rg_documents s; rg_chunks := rg_chunks s; rg_counters := rg_counters s; rg_configs := rg_configs s;
  rg_stores := rg_stores s; rg_rules := rg_rules s; rg_cache := rg_cache s; rg_clock := rg_clock s; rg_next := rg_next s;
  rg_world := v |}.
Definition rag_uuid4 : R uuid := fun s => (Ok (rg_next s), {|
  rg_documents := rg_documents s; rg_chunks := rg_chunks s; rg_counters := rg_counters s; rg_configs := rg_configs s;
  rg_stores := rg_stores s; rg_rules := rg_rules s; rg_cache := rg_cache s; rg_clock := rg_clock s; rg_next := (rg_next s + 1)%N;
  rg_world := rg_world s |}).
(** A call of the embedding adapter. *)
Definition adapter {A} (f : P -> res exc A * P) : R A := fun s =>
  let '(r, p) := f (rg_world s) in (r, set_rag_world p s).
Definition look {A} (f : rag P -> A) : R A := let* s := mget in mret (f s).

(** *** The repository *)

(** [metadata ->> key]. *)
Definition astext (k : string) (d : pydict) : option string :=
  match dict_get k d with
  | None | Some PNone => None
  | Some (PStr s) => Some s
  | Some (PInt z) => Some (int_str z)
  | Some v => Some (json_text v)
  end.

Definition get_rag_config (c : uuid) : R (option rag_config) := look (fun s => rg_configs s !! c).
Definition get_vector_store (v tenant : uuid) : R (option vector_store) := look (fun s =>
  x ← rg_stores s !! v; if bool_decide (vs_tenant x = tenant) then Some x else None).
Definition get_chunking_rule (tenant r : uuid) : R (option chunking_rule) := look (fun s =>
  x ← rg_rules s !! r; if bool_decide (cr_tenant x = tenant) then Some x else None).

Definition has_hash (tenant : uuid) (hash : string) (d : rag_document) : bool :=
  bool_decide (rd_tenant d = tenant) && String.eqb (rd_hash d) hash.
Definition get_document_by_hash (tenant : uuid) (hash : string) : R (option (uuid * rag_document)) := look (fun s =>
  List.find (fun kd => has_hash tenant hash kd.2) (map_to_list (rg_documents s))).
(** [create_document]; the table has a unique index on tenant and hash. *)
Definition create_document (d : rag_document) : R uuid :=
  let* existing := get_document_by_hash (rd_tenant d) (rd_hash d) in
  match existing with
  | Some _ => mraise (ExternalError "IntegrityError" "uq_rag_document_tenant_id_content_hash")
  | None =>
      let* i := rag_uuid4 in
      let* s := mget in
      mmodify (set_documents (<[i := {|
        rd_tenant := rd_tenant d; rd_config := rd_config d; rd_source := rd_source d; rd_type := rd_type d; rd_hash := rd_hash d;
        rd_content := rd_content d; rd_metadata := rd_metadata d; rd_status := rd_status d; rd_attempts := rd_attempts d;
        rd_error := rd_error d; rd_created := rg_clock s |}]> (rg_documents s))) ;;*
      mret i
  end.
Definition get_document_by_id (i : uuid) : R (option rag_document) := look (fun s => rg_documents s !! i).

Definition with_status (status : EmbeddingStatus) (error : option string) (attempt : bool) (d : rag_document) : rag_document := {|
  rd_tenant := rd_tenant d; rd_config := rd_config d; rd_source := rd_source d; rd_type := rd_type d; rd_hash := rd_hash d;
  rd_content := rd_content d; rd_metadata := rd_metadata d; rd_status := status_str status;
  rd_attempts := if attempt then rd_attempts d + 1 else rd_attempts d; rd_error := error; rd_created := rd_created d |}.
(** [update_document_embedding_status]. *)
Definition update_document_embedding_status (i : uuid) (status : EmbeddingStatus) (error : option string) (attempt : bool) : R unit :=
  let* s := mget in mmodify (set_documents (alter (with_status status error attempt) i (rg_documents s))).

(** The counts over documents. *)
Definition count_documents (f : rag_document -> bool) (s : rag P) : Z :=
  Z.of_nat (length (filter (fun kd => f kd.2) (map_to_list (rg_documents s)))).
Definition of_user (tenant : uuid) (user : string) (d : rag_document) : bool :=
  bool_decide (rd_tenant d = tenant) && bool_decide (astext "scope" (rd_metadata d) = Some "USER_MEMORY") &&
  bool_decide (astext "user_id" (rd_metadata d) = Some user).
Definition count_documents_for_user (tenant : uuid) (user : string) : R Z := look (count_documents (of_user tenant user)).
Definition count_user_memory_documents_for_rag_config (tenant : uuid) (user : string) (c : uuid) : R Z :=
  look (count_documents (fun d => of_user tenant user d && bool_decide (rd_config d = Some c))).
Definition count_documents_by_embedding_status (tenant c : uuid) (statuses : list string) : R Z :=
  look (count_documents (fun d => bool_decide (rd_tenant d = tenant) && bool_decide (rd_config d = Some c) &&
    bool_decide (rd_status d ∈ statuses))).

(** [_check_cap]. *)
Definition _check_cap (current delta : Z) (cap : option Z) (code : string) : res exc unit :=
  match cap with
  | Some c => if (c <? current + delta)%Z then Err (DomainValidationException code) else Ok tt
  | None => Ok tt
  end.
Definition bump (delta : Z) (n : Z * Z) : Z * Z := (n.1 + 1, n.2 + delta)%Z.

(** [INSERT ... ON CONFLICT (document_id, chunk_index) DO NOTHING]. *)
Definition same_place (a b : rag_chunk) : bool := bool_decide (rk_document a = rk_document b) && (rk_index a =? rk_index b).
Definition insert_chunk (l : list rag_chunk) (c : rag_chunk) : list rag_chunk := if existsb (same_place c) l then l else l ++ [c].

(** The user a document belongs to. *)
Definition user_of (d : rag_document) : option string :=
  match dict_get "user_id" (rd_metadata d) with None | Some PNone => None | Some v => Some (str_of py_str v) end.

(** The checks of [finalize_document_embedding_with_usage]: the counters that are to be raised. *)
Definition finalize_counters (tenant c : uuid) (corpus : string) (d : rag_document) (delta : Z) (q : RagIngestQuotas)
    (counters : gmap counter_key (Z * Z)) : res exc (list counter_key) :=
  let current k := default (0, 0)%Z (counters !! k) in
  let tenant_key : counter_key := (tenant, c, None) in
  let check_tenant :=
    _check_cap (current tenant_key).1 1 (max_documents_per_tenant q) "rag_quota_max_documents_per_tenant" ;;!
    _check_cap (current tenant_key).2 delta (max_chunks_per_tenant q) "rag_quota_max_chunks_per_tenant" in
  if String.eqb corpus "USER_MEMORY" then
    let uid := default "" (user_of d) in
    if String.eqb uid "" then Err (DomainValidationException "rag_user_memory_user_id_required")
    else
      let user_key : counter_key := (tenant, c, Some uid) in
      _check_cap (current user_key).1 1 (max_documents_per_user q) "rag_quota_max_documents_per_user" ;;!
      _check_cap (current user_key).2 delta (max_chunks_per_user q) "rag_quota_max_chunks_per_user" ;;!
      if bool_decide (is_Some (max_documents_per_tenant q)) || bool_decide (is_Some (max_chunks_per_tenant q))
      then check_tenant ;;! Ok [user_key; tenant_key]
      else Ok [user_key]
  else check_tenant ;;! Ok [tenant_key].

(** [finalize_document_embedding_with_usage]. *)
Definition finalize_document_embedding_with_usage (tenant c : uuid) (corpus : string) (i : uuid) (chunks : list rag_chunk)
    (quotas : option RagIngestQuotas) : R unit :=
  match chunks with
  | [] => mraise (DomainValidationException "rag_chunks_required_for_finalize")
  | _ =>
      let* s := mget in
      match rg_documents s !! i with
      | None => mraise (NotFoundServiceException "rag_document_not_found")
      | Some d =>
          if negb (bool_decide (rd_tenant d = tenant)) || negb (bool_decide (rd_config d = Some c))
          then mraise (NotFoundServiceException "rag_document_not_found")
          else
            let delta := Z.of_nat (length chunks) in
            let* keys := mlift (finalize_counters tenant c corpus d delta (default no_quotas quotas) (rg_counters s)) in
            mmodify (fun s =>
              set_counters (foldr (fun k m => <[k := bump delta (default (0, 0)%Z (m !! k))]> m) (rg_counters s) keys)
                (set_documents (<[i := with_status COMPLETED None false d]> (rg_documents s))
                  (set_chunks (foldl insert_chunk (rg_chunks s) chunks) s)))
      end
  end.

(** *** Embeddings *)

(** [_resolve_embedding_model]; the type is compared without regard to case. *)
Definition check_model (row : option ai_model) : res exc (string * string) :=
  match row with
  | None => Err (NotFoundServiceException "embedding_model_not_found")
  | Some m =>
      if negb (am_active m) then Err (DomainValidationException "embedding_model_inactive")
      else if negb (String.eqb (str_lower (am_type m)) "embedding")
      then Err (DomainValidationException "rag_embedding_model_registry_type_mismatch")
      else if String.eqb (py_strip (default "" (am_provider m))) ""
      then Err (DomainValidationException "rag_embedding_model_registry_provider_missing")
      else Ok (am_name m, str_lower (default "" (am_provider m)))
  end.
Definition _resolve_embedding_model (o : RagEmbeddingOptions) : res exc (string * string) :=
  check_model (match eo_model o with Some i => get_model i | None => get_model_by_name (eo_alias o) end).

(** [_ingest_rag_embedding_options] and [_query_embedding_options_for_retrieval]. *)
Definition _ingest_rag_embedding_options (o : RagConfigOptions) : RagEmbeddingOptions := default (ro_embedding o) (ro_indexing o).
Definition _query_embedding_options_for_retrieval (o : RagConfigOptions) (v : vector_store) : RagEmbeddingOptions :=
  match ro_indexing o with
  | None => ro_embedding o
  | Some ix =>
      if negb (vs_dimension v =? eo_dimension ix)%Z then ro_embedding o
      else if (vs_dimension v <=? eo_dimension (ro_embedding o))%Z then ro_embedding o
      else {| eo_alias := eo_alias ix; eo_dimension := eo_dimension (ro_embedding o); eo_model := eo_model ix |}
  end.
(** [_embedding_contract_from_store], [contract_hash]. *)
Definition _embedding_contract_from_store (v : vector_store) (provider : string) : EmbeddingContract := {|
  ec_provider := provider; ec_model := vs_model v; ec_dimension := vs_dimension v; ec_metric := vs_metric v; ec_version := vs_version v |}.
Definition contract_hash (c : EmbeddingContract) : string :=
  sha256 (str_join "|" [ec_provider c; ec_model c; int_str (ec_dimension c); ec_metric c; int_str (ec_version c)]).

(** [EmbeddingExecutor]: only the OpenAI adapter can be built. *)
Definition executor_build (c : EmbeddingContract) : res exc unit :=
  if String.eqb (str_lower (ec_provider c)) "openai" then Ok tt else Err (DomainValidationException "embedding_provider_not_supported").
Definition has_dimension (c : EmbeddingContract) (v : vec) : bool := (Z.of_nat (length v) =? ec_dimension c)%Z.
Definition execute (text : string) (c : EmbeddingContract) : R vec :=
  mlift (executor_build c) ;;*
  let* v := adapter (generate_embedding text (ec_model c) (ec_dimension c)) in
  if has_dimension c v then mret v else mraise (DomainValidationException "rag_embedding_dimension_mismatch").
Definition execute_batch (texts : list string) (c : EmbeddingContract) : R (list vec) :=
  mlift (executor_build c) ;;*
  let* l := adapter (generate_embeddings_batch texts (ec_model c) (ec_dimension c)) in
  if forallb (has_dimension c) l then mret l else mraise (DomainValidationException "rag_embedding_dimension_mismatch").

(** *** Policies *)

(** [RagPolicyService.resolve], [scope_policy] and [cap_top_k]. *)
Definition resolve_policy (tenant : uuid) : res exc (option uuid * option RagPolicyDefinition) :=
  match active_policy_version tenant with
  | None => Ok (None, None)
  | Some v => match policy_version v with
              | None => Ok (None, None)
              | Some d => let! p := parse_policy d in Ok (Some v, Some p)
              end
  end.
Definition scope_policy (p : RagPolicyDefinition) (task : string) (scope : RagActivationScope) : RagScopePolicy :=
  let off := {| sp_enabled := false; sp_tools := [] |} in
  let defaults := match List.find (fun d => String.eqb d.1 task) (pd_defaults p) with Some d => d.2 | None => (off, off) end in
  match scope with TENANT_KNOWLEDGE => defaults.1 | USER_MEMORY_VECTOR => defaults.2 end.
Definition cap_top_k (top_k : Z) (p : option RagPolicyDefinition) : Z :=
  match p with Some p => match pd_top_k_cap p with Some c => Z.min top_k c | None => top_k end | None => top_k end.

(** [resolve_user_memory_vector_document_cap]: the effective cap. *)
Definition resolve_user_memory_vector_document_cap (tenant : uuid) : res exc Z :=
  let! p := resolve_policy tenant in
  Ok match p.2 ≫= pd_quotas with
     | Some q => match max_documents_per_user q with Some n => if (n <? app_max)%Z then n else app_max | None => app_max end
     | None => app_max
     end.

(** *** Ingestion *)

(** [_resolve_rag_ingest_bundle]. *)
Definition supported (o : RagEmbeddingOptions) : bool := bool_decide (eo_dimension o ∈ SUPPORTED_EMBEDDING_DIMENSIONS).
Definition _resolve_rag_ingest_bundle (tenant c : uuid) : R (RagConfigOptions * ChunkRuleParams * rag_config) :=
  let* config := get_rag_config c in
  match config with
  | Some config =>
      if negb (bool_decide (rc_tenant config = tenant)) then mraise (NotFoundServiceException "rag_config_not_found")
      else
        let* rule := get_chunking_rule tenant (rc_rule config) in
        match rule with
        | None => mraise (NotFoundServiceException "rag_chunking_rule_not_found")
        | Some rule =>
            let* params := mlift (parse_rule (cr_params rule)) in
            let* options := mlift (parse_options (rc_options config)) in
            if negb (supported (ro_embedding options)) || negb (from_option supported true (ro_indexing options))
            then mraise (DomainValidationException "rag_embedding_dimension_not_supported")
            else mret (options, params, config)
        end
  | None => mraise (NotFoundServiceException "rag_config_not_found")
  end.

(** The identifier and the status of a prepared document. *)
Definition set_default (k : string) (v : pyval) (d : pydict) : pydict :=
  match dict_get k d with Some _ => d | None => dict_set k v d end.
Definition prepare_document_for_embedding (tenant c : uuid) (x : RagDocumentCreate) : R (uuid * EmbeddingStatus) :=
  let* bundle := _resolve_rag_ingest_bundle tenant c in
  if (max_document_chars bundle.1.2 <? chars_of (dc_content x))%Z then mraise (DomainValidationException "rag_document_too_large")
  else
    let hash := sha256 (dc_content x) in
    let* existing := get_document_by_hash tenant hash in
    match existing with
    | Some (i, d) =>
        if bool_decide (_as_embedding_status (rd_status d) = COMPLETED) then mret (i, COMPLETED)
        else update_document_embedding_status i PENDING None false ;;* mret (i, PENDING)
    | None =>
        let meta := if String.eqb (dc_type x) "tool_catalog" then set_default "category" (PStr "TOOL_CATALOG") (dc_metadata x)
                    else dc_metadata x in
        let meta := match dc_pages x with Some l => dict_set "ingest_pages" (PList (PStr <$> l)) meta | None => meta end in
        let* i := create_document {|
          rd_tenant := tenant; rd_config := Some (default c (dc_config x)); rd_source := dc_source x; rd_type := dc_type x;
          rd_hash := hash; rd_content := dc_content x; rd_metadata := meta; rd_status := status_str PENDING; rd_attempts := 0;
          rd_error := None; rd_created := 0 |} in
        mret (i, PENDING)
    end.

(** The pages kept with a document. *)
Definition ingest_pages (meta : pydict) : option (list string) :=
  match dict_get "ingest_pages" meta with Some (PList l) => Some (str_of py_str <$> l) | _ => None end.
Definition chunk_models (i store : uuid) (meta : pydict) (l : list (string * vec)) : list rag_chunk :=
  imap (fun n x => {| rk_document := i; rk_store := store; rk_index := n; rk_content := x.1;
                      rk_tokens := Z.of_nat (length (encode x.1)); rk_embedding := x.2; rk_metadata := meta |}) l.

(** The [try] of [embed_document_by_id]. *)
Definition embed_chunks (tenant c i : uuid) (config : rag_config) (store : vector_store) (provider : string) (meta : pydict)
    (chunks : list string) : R unit :=
  let* policy := mlift (resolve_policy tenant) in
  let* embeddings := execute_batch chunks (_embedding_contract_from_store store provider) in
  finalize_document_embedding_with_usage tenant c (rc_corpus config) i
    (chunk_models i (rc_store config) meta (zip chunks embeddings)) (policy.2 ≫= pd_quotas).

(** [embed_document_by_id]. *)
Definition embed_document_by_id (tenant c i : uuid) : R (uuid * EmbeddingStatus) :=
  let* bundle := _resolve_rag_ingest_bundle tenant c in
  let '(options, rule, config) := bundle in
  let* store := get_vector_store (rc_store config) tenant in
  match store with
  | None => mraise (NotFoundServiceException "vector_store_not_found")
  | Some store =>
      let ingest := _ingest_rag_embedding_options options in
      let* model := mlift (_resolve_embedding_model ingest) in
      if negb (String.eqb model.1 (vs_model store)) then mraise (DomainValidationException "rag_embedding_model_vector_store_mismatch")
      else if negb (eo_dimension ingest =? vs_dimension store)%Z
      then mraise (DomainValidationException "rag_embedding_dimension_vector_store_mismatch")
      else
        let* d := get_document_by_id i in
        match d with
        | None => mraise (NotFoundServiceException "rag_document_not_found")
        | Some d =>
            if negb (bool_decide (rd_tenant d = tenant)) then mraise (NotFoundServiceException "rag_document_not_found")
            else if bool_decide (_as_embedding_status (rd_status d) = COMPLETED) then mret (i, COMPLETED)
            else if String.eqb (rd_content d) "" then mraise (DomainValidationException "rag_document_content_required")
            else
              update_document_embedding_status i PROCESSING None true ;;*
              let* chunks := mlift (default (Err (ExternalError "Diverges" ""))
                (_chunks_for_ingest encode decode (rd_content d) rule (ingest_pages (rd_metadata d)))) in
              let meta := if chunks.2 then dict_set "truncated_chunks" (PInt (Z.of_nat (length chunks.1)))
                                             (dict_set "truncated" (PBool true) (rd_metadata d)) else rd_metadata d in
              mtry (embed_chunks tenant c i config store model.2 meta chunks.1)
                (fun e => update_document_embedding_status i FAILED (Some (exc_type e)) false ;;* mraise e) ;;*
              mret (i, COMPLETED)
        end
  end.

(** [ingest_document] and [ingest_documents_batch]. *)
Definition ingest_document (tenant c : uuid) (x : RagDocumentCreate) : R (uuid * EmbeddingStatus) :=
  let* p := prepare_document_for_embedding tenant c x in
  if bool_decide (p.2 = COMPLETED) then mret p else embed_document_by_id tenant c p.1.
Fixpoint ingest_all (tenant c : uuid) (l : list RagDocumentCreate) (n : Z * Z) : R (Z * Z) :=
  match l with
  | [] => mret n
  | x :: l' =>
      let* n := mtry (ingest_document tenant c x ;;* mret (n.1 + 1, n.2)%Z) (fun _ => mret (n.1, n.2 + 1)%Z) in
      ingest_all tenant c l' n
  end.
Definition ingest_documents_batch (tenant c : uuid) (l : list RagDocumentCreate) : R (Z * Z) :=
  match l with
  | [] => mraise (DomainValidationException "rag_documents_required")
  | _ => ingest_all tenant c l (0, 0)%Z
  end.

(** *** Retrieval *)

(** One filter of the search: a truthy value restricts the documents. *)
Definition filter_on (filters : pydict) (k : string) (f : pyval -> rag_document -> bool) (d : rag_document) : bool :=
  let v := dict_getv k filters in if truthy v then f v d else true.
Definition meta_is (k : string) (v : pyval) (d : rag_document) : bool := bool_decide (astext k (rd_metadata d) = Some (str_of py_str v)).
Definition scope_matches (v : pyval) (d : rag_document) : bool :=
  meta_is "scope" v d || (String.eqb (str_of py_str v) "TENANT_KNOWLEDGE" && bool_decide (astext "scope" (rd_metadata d) = None)).
Definition passes (filters : pydict) (d : rag_document) : bool :=
  filter_on filters "source" (fun v d => bool_decide (v = PStr (rd_source d))) d &&
  filter_on filters "doc_type" (fun v d => bool_decide (v = PStr (rd_type d))) d &&
  filter_on filters "scope" scope_matches d &&
  filter_on filters "user_id" (meta_is "user_id") d &&
  filter_on filters "category" (meta_is "category") d &&
  filter_on filters "tool_intent" (meta_is "tool_intent") d &&
  filter_on filters "created_after" (fun v d => match v with
    | PStr t => match fromisoformat t with Some t => (t <=? rd_created d)%Z | None => true end
    | _ => true end) d &&
  filter_on filters "expires_after" (fun v d => match v with
    | PStr t => from_option (fun e => text_gtb e t) false (astext "expires_at" (rd_metadata d))
    | _ => true end) d.
(** A [created_after] that is no time raises. *)
Definition bad_created_after (filters : pydict) : bool :=
  match dict_getv "created_after" filters with
  | PStr t => negb (String.eqb t "") && bool_decide (fromisoformat t = None)
  | _ => false
  end.

(** A row of the join that the conditions keep. *)
Definition eligible (tenant c store : uuid) (user : option string) (filters : pydict) (docs : gmap uuid rag_document) (k : rag_chunk) :
    option (rag_chunk * rag_document) :=
  d ← docs !! rk_document k;
  if bool_decide (rd_tenant d = tenant) && bool_decide (rd_config d = Some c) && bool_decide (rk_store k = store) && passes filters d &&
     match (match user with Some (String _ _ as u) => Some u | _ => None end) with Some u => bool_decide (astext "user_id" (rd_metadata d) = Some u) | None => true end
  then Some (k, d) else None.

Definition nearer (x y : pyfloat) : Prop := float_ltb y x = false.
#[global] Instance nearer_dec : RelDecision nearer.
Proof. intros x y. unfold nearer. apply _. Defined.
Definition to_item (row : pyfloat * (rag_chunk * rag_document)) : RagContextItem := {|
  ci_chunk := row.2.1; ci_score := float_sub (FFin 1 0) row.1; ci_created := rd_created row.2.2;
  ci_observed := astext "observed_at" (rd_metadata row.2.2) ≫= fromisoformat |}.

(** [search_similar_chunks] and the items made of its rows: the nearest [top_k], those that are similar enough. *)
Definition search_similar_chunks (tenant c store : uuid) (user : option string) (query : vec) (top_k : Z) (threshold : pyfloat)
    (filters : pydict) : R (list RagContextItem) :=
  if (length query =? 0) then mret []
  else if bad_created_after filters then mraise PyValueError
  else if (top_k <? 0)%Z then mraise (ExternalError "DBAPIError" "LIMIT must not be negative")
  else
    look (fun s =>
      let rows := omap (eligible tenant c store user filters (rg_documents s)) (rg_chunks s) in
      let measured := (fun row => (cosine_distance (take (length query) (rk_embedding row.1)) query, row)) <$> rows in
      filter (fun i => float_ltb (ci_score i) threshold = false)
        (to_item <$> take (Z.to_nat top_k) (sorted_by nearer fst measured))).

(** The cache of query embeddings. *)
Definition invalidate_query_cache_contract (tenant store : uuid) (hash : string) : R unit :=
  mmodify (fun s => set_cache (filter (fun e => ~ (qk_tenant e.1 = tenant /\ qk_store e.1 = store /\ qk_contract e.1 <> hash)) (rg_cache s)) s).
Definition invalidate_query_cache_vector_store (tenant store : uuid) : R unit :=
  mmodify (fun s => set_cache (filter (fun e => ~ (qk_tenant e.1 = tenant /\ qk_store e.1 = store)) (rg_cache s)) s).
Definition get_query_cache (k : query_key) : R (option vec) :=
  look (fun s => match List.find (fun e => bool_decide (e.1 = k)) (rg_cache s) with Some e => Some e.2.1 | None => None end).
Definition update_query_cache_usage (k : query_key) : R unit :=
  mmodify (fun s => set_cache ((fun e => if bool_decide (e.1 = k) then (e.1, (e.2.1, e.2.2 + 1)%Z) else e) <$> rg_cache s) s).
Definition save_query_cache (k : query_key) (v : vec) : R unit := mmodify (fun s => set_cache (rg_cache s ++ [(k, (v, 0%Z))]) s).

Definition query_embedding (text : string) (k : query_key) (contract : EmbeddingContract) : R vec :=
  let* cached := get_query_cache k in
  match cached with
  | Some v => update_query_cache_usage k ;;* mret v
  | None => let* v := execute text contract in save_query_cache k v ;;* mret v
  end.

Definition empty_context (r : RagContextReason) : RagContext := {| cx_items := []; cx_reason := r |}.
(** [dict.update]. *)
Definition dict_update (d e : pydict) : pydict := foldl (fun d kv => dict_set kv.1 kv.2 d) d e.

(** [get_context]. *)
Definition get_context (tenant c : uuid) (user : option string) (text : string) (filters_override : pydict) (top_k_override : option Z)
    (threshold_cap : option pyfloat) : R RagContext :=
  let* config := get_rag_config c in
  match config with
  | None => mret (empty_context CONFIG_NOT_FOUND)
  | Some config =>
      if negb (bool_decide (rc_tenant config = tenant)) then mret (empty_context CONFIG_NOT_FOUND)
      else
        let* options := mlift (parse_options (rc_options config)) in
        if negb (supported (ro_embedding options)) then mraise (DomainValidationException "rag_embedding_dimension_not_supported")
        else
          let* store := get_vector_store (rc_store config) tenant in
          match store with
          | None => mret (empty_context CONFIG_NOT_FOUND)
          | Some store =>
              if (vs_dimension store <? eo_dimension (ro_embedding options))%Z
              then mraise (DomainValidationException "rag_retrieval_embedding_dimension_vector_store_mismatch")
              else
                let opts := _query_embedding_options_for_retrieval options store in
                let* model := mlift (_resolve_embedding_model opts) in
                let contract := {| ec_provider := model.2; ec_model := model.1; ec_dimension := eo_dimension opts;
                                   ec_metric := vs_metric store; ec_version := vs_version store |} in
                invalidate_query_cache_contract tenant (rc_store config) (contract_hash contract) ;;*
                let* v := query_embedding text {| qk_tenant := tenant; qk_store := rc_store config; qk_version := vs_version store;
                                                  qk_contract := contract_hash contract; qk_query := sha256 text |} contract in
                let filters := dict_update (ro_filters options) filters_override in
                let top_k := match top_k_override with Some k => Z.max 1 k | None => ro_top_k options end in
                let threshold := match threshold_cap with
                                 | Some t => if float_ltb t (ro_threshold options) then t else ro_threshold options
                                 | None => ro_threshold options
                                 end in
                let* items := search_similar_chunks tenant c (rc_store config) user v top_k threshold filters in
                mret match items with [] => empty_context NO_MATCHES | _ => {| cx_items := items; cx_reason := OK |} end
          end
  end.

(** *** Moving a configuration to another store *)

Definition update_rag_config_vector_store (c tenant store : uuid) : R unit :=
  mmodify (fun s => set_configs (alter (fun x => if bool_decide (rc_tenant x = tenant) then {|
    rc_tenant := rc_tenant x; rc_store := store; rc_rule := rc_rule x; rc_corpus := rc_corpus x; rc_status := rc_status x; rc_version := rc_version x;
    rc_options := rc_options x |} else x) c (rg_configs s)) s).
Definition set_vector_store_active (v tenant : uuid) (active : bool) : R unit :=
  mmodify (fun s => set_stores (alter (fun x => if bool_decide (vs_tenant x = tenant) then {|
    vs_tenant := vs_tenant x; vs_model := vs_model x; vs_dimension := vs_dimension x; vs_metric := vs_metric x;
    vs_version := vs_version x; vs_active := active |} else x) v (rg_stores s)) s).

(** [reindex_cutover_vector_store]. *)
Definition reindex_cutover_vector_store (tenant c target : uuid) : R unit :=
  let* config := get_rag_config c in
  match config with
  | None => mraise (NotFoundServiceException "rag_config_not_found")
  | Some config =>
      if negb (bool_decide (rc_tenant config = tenant)) then mraise (NotFoundServiceException "rag_config_not_found")
      else if bool_decide (rc_store config = target) then mret tt
      else
        let* busy := count_documents_by_embedding_status tenant c [status_str PENDING; status_str PROCESSING] in
        if (0 <? busy)%Z then mraise (DomainValidationException "rag_reindex_cutover_in_progress_documents")
        else
          let* current_store := get_vector_store (rc_store config) tenant in
          let* target_store := get_vector_store target tenant in
          match current_store, target_store with
          | Some _, Some _ =>
              update_rag_config_vector_store c tenant target ;;*
              set_vector_store_active (rc_store config) tenant false ;;*
              set_vector_store_active target tenant true ;;*
              invalidate_query_cache_vector_store tenant (rc_store config) ;;*
              invalidate_query_cache_vector_store tenant target
          | _, _ => mraise (NotFoundServiceException "vector_store_not_found")
          end
  end.
End rag.
