(* ===== verification/RagFacts.v ===== *)
(** * RagFacts: what ingestion keeps and what retrieval returns

    Theorems about [Rag]: the tables stay consistent, usage counters are exact, an ingested document can be retrieved from, and
    retrieval returns chunks of the right tenant, configuration and user only. *)

From S2P Require Import Prelude.
From S2P Require Import Errors.
From S2P Require Import PyValue.
From S2P Require Import PyString.
From S2P Require Import PyFloat.
From S2P Require Import StateMachine.
From S2P Require Import Sorting.
From S2P Require Import Effects.
From S2P Require Import Store.
From S2P Require Import Chunking.
From S2P Require Import Rag.

Lemma filter_ext_in {A} (Q1 Q2 : A -> Prop) `{!forall x, Decision (Q1 x), !forall x, Decision (Q2 x)} (l : list A) :
  (forall x, x ∈ l -> Q1 x <-> Q2 x) -> filter Q1 l = filter Q2 l.
Proof.
  induction l as [|x l IH]; intros Hl; [done|]. rewrite !filter_cons, IH by (intros; apply Hl; by constructor).
  pose proof (Hl x ltac:(by constructor)). do 2 case_decide; naive_solver.
Qed.

Lemma filter_all {A} (Q : A -> Prop) `{!forall x, Decision (Q x)} (l : list A) : (forall x, x ∈ l -> Q x) -> filter Q l = l.
Proof. induction l as [|x l IH]; intros Hl; [done|]. rewrite filter_cons, decide_True, IH by (intros; apply Hl; by constructor). done. Qed.
Lemma filter_none {A} (Q : A -> Prop) `{!forall x, Decision (Q x)} (l : list A) : (forall x, x ∈ l -> ~ Q x) -> filter Q l = [].
Proof. induction l as [|x l IH]; intros Hl; [done|]. rewrite filter_cons, decide_False by (apply Hl; by constructor). apply IH. intros; apply Hl; by constructor. Qed.

(** ** Consistency *)

Section facts.
Context {P : Type}.
Variable py_str : pyval -> string.
(** The quotas of a tenant. *)
Variable quotas_of : uuid -> option RagIngestQuotas.
Implicit Types s : rag P.

Definition completed (d : rag_document) : Prop := rd_status d = "COMPLETED".
Definition chunks_of (i : uuid) (l : list rag_chunk) : list rag_chunk := filter (fun k => rk_document k = i) l.

(** The documents a counter is about: those of a tenant and a configuration, and of a user if the key has one. *)
Abbreviation user_of := (user_of py_str).
Definition counted (key : counter_key) (d : rag_document) : Prop :=
  rd_tenant d = key.1.1 /\ rd_config d = Some key.1.2 /\ match key.2 with Some u => user_of d = Some u | None => True end.
#[global] Instance counted_dec key d : Decision (counted key d).
Proof. unfold counted. destruct (key.2); apply _. Defined.
Definition chunk_counted (key : counter_key) (docs : gmap uuid rag_document) (k : rag_chunk) : Prop :=
  match docs !! rk_document k with Some d => counted key d | None => False end.
#[global] Instance chunk_counted_dec key docs k : Decision (chunk_counted key docs k).
Proof. unfold chunk_counted. destruct (docs !! rk_document k); apply _. Defined.
(** The exact usage: completed documents, and chunks of such documents. *)
Definition usage (key : counter_key) s : Z * Z :=
  (Z.of_nat (size (filter (fun x => completed x.2 /\ counted key x.2) (rg_documents s))),
   Z.of_nat (length (filter (chunk_counted key (rg_documents s)) (rg_chunks s)))).
(** The keys whose counter is kept: of users in the corpus of user memories; of tenants elsewhere, and in that corpus too when the
    quotas of the tenant limit it. *)
Definition limited (q : RagIngestQuotas) : Prop := is_Some (max_documents_per_tenant q) \/ is_Some (max_chunks_per_tenant q).
Definition kept (key : counter_key) (c : rag_config) : Prop :=
  match key.2 with
  | Some _ => rc_corpus c = "USER_MEMORY"
  | None => rc_corpus c = "USER_MEMORY" -> limited (default no_quotas (quotas_of key.1.1))
  end.

(** The bounds a counter has to keep. *)
Definition below_cap (n : Z) (cap : option Z) : Prop := match cap with Some c => (n <= Z.max 0 c)%Z | None => True end.
Definition below_quotas (q : RagIngestQuotas) (user : option string) (n : Z * Z) : Prop :=
  match user with
  | Some _ => below_cap n.1 (max_documents_per_user q) /\ below_cap n.2 (max_chunks_per_user q)
  | None => below_cap n.1 (max_documents_per_tenant q) /\ below_cap n.2 (max_chunks_per_tenant q)
  end.

Record consistent s : Prop := {
  co_fresh : forall i, is_Some (rg_documents s !! i) -> (i < rg_next s)%N;
  co_unique : forall i j d e, rg_documents s !! i = Some d -> rg_documents s !! j = Some e -> rd_tenant d = rd_tenant e ->
    rd_hash d = rd_hash e -> i = j;
  co_chunks : forall k, k ∈ rg_chunks s -> exists d, rg_documents s !! rk_document k = Some d /\ completed d;
  co_indices : forall i d, rg_documents s !! i = Some d -> completed d ->
    exists n, 0 < n /\ rk_index <$> chunks_of i (rg_chunks s) = seq 0 n;
  co_usage : forall (key : counter_key) c, rg_configs s !! key.1.2 = Some c -> kept key c -> default (0, 0)%Z (rg_counters s !! key) = usage key s;
  co_quota : forall (key : counter_key) c q, rg_configs s !! key.1.2 = Some c -> kept key c -> quotas_of key.1.1 = Some q ->
    below_quotas q key.2 (default (0, 0)%Z (rg_counters s !! key));
}.

(** An operation keeps the tables consistent. *)
Definition keeps s s' : Prop := consistent s -> consistent s'.
#[global] Instance keeps_preorder : PreOrder keeps.
Proof. split; [by intros s H|]. intros a b c H1 H2 H. by apply H2, H1. Qed.

(** Nothing of it changes. *)
Definition same_tables s s' : Prop :=
  rg_documents s' = rg_documents s /\ rg_chunks s' = rg_chunks s /\ rg_counters s' = rg_counters s /\ rg_next s' = rg_next s /\
  (forall c x', rg_configs s' !! c = Some x' -> exists x, rg_configs s !! c = Some x /\ rc_corpus x = rc_corpus x').
#[global] Instance same_tables_preorder : PreOrder same_tables.
Proof.
  split; [intros s; split_and!; [done..|by intros c x ?; exists x]|]. intros a b c (H1 & H2 & H3 & H4 & H5) (K1 & K2 & K3 & K4 & K5).
  split_and!; [congruence..|]. intros i x Hx. destruct (K5 i x Hx) as (y & Hy & Ey). destruct (H5 i y Hy) as (z & Hz & Ez).
  exists z. split; [done | congruence].
Qed.
Lemma same_usage key s s' : same_tables s s' -> usage key s' = usage key s.
Proof. intros (H1 & H2 & _). unfold usage. by rewrite H1, H2. Qed.
Lemma same_keeps s s' : same_tables s s' -> keeps s s'.
Proof.
  intros H [F U C I Q B]. pose proof (fun key => same_usage key s s' H) as Hu. destruct H as (H1 & H2 & H3 & H4 & H5).
  split; rewrite ?H1, ?H2, ?H3, ?H4; try done.
  - intros key c Hc Hk. destruct (H5 _ _ Hc) as (x & Hx & Ex). rewrite Hu. apply (Q key x Hx). unfold kept in *. by rewrite Ex.
  - intros key c q Hc Hk. destruct (H5 _ _ Hc) as (x & Hx & Ex). apply (B key x q Hx). unfold kept in *. by rewrite Ex.
Qed.

(** ** Status changes *)

Lemma usage_status i d d' key s :
  rg_documents s !! i = Some d -> ~ completed d -> ~ completed d' -> (forall key, counted key d' <-> counted key d) ->
  usage key (set_documents (<[i := d']> (rg_documents s)) s) = usage key s.
Proof.
  intros Hi Hd Hd' Hc. unfold usage. simpl. f_equal.
  - rewrite map_filter_insert_False by naive_solver. rewrite map_filter_delete, delete_id; [done|].
    apply map_lookup_filter_None. right. naive_solver.
  - do 2 f_equal. apply list_filter_iff. intros k. unfold chunk_counted. destruct (decide (rk_document k = i)) as [->|Hne].
    + rewrite lookup_insert_eq, Hi. apply Hc.
    + by rewrite lookup_insert_ne.
Qed.

Lemma consistent_status i d d' s :
  rg_documents s !! i = Some d -> ~ completed d -> ~ completed d' -> rd_tenant d' = rd_tenant d -> rd_hash d' = rd_hash d ->
  (forall key, counted key d' <-> counted key d) -> keeps s (set_documents (<[i := d']> (rg_documents s)) s).
Proof.
  intros Hi Hd Hd' Ht Hh Hc [F U C I Q B]. split; simpl.
  - intros j. destruct (decide (j = i)) as [->|]; [intros _; apply F; by rewrite Hi | rewrite lookup_insert_ne by done; apply F].
  - intros j k x y. destruct (decide (j = i)) as [->|Hj], (decide (k = i)) as [->|Hk]; rewrite ?lookup_insert_eq, ?lookup_insert_ne by done;
      intros Hx Hy Etn Eh; simplify_eq; [done | eapply U; eauto; congruence | eapply U; eauto; congruence | eapply U; eauto].
  - intros k Hk. destruct (C k Hk) as (x & Hx & Cx). exists x. destruct (decide (rk_document k = i)) as [E|]; [naive_solver|]. by rewrite lookup_insert_ne.
  - intros j x. destruct (decide (j = i)) as [->|]; [rewrite lookup_insert_eq; naive_solver | rewrite lookup_insert_ne by done; apply I].
  - intros key c Hx Hk. rewrite usage_status with (d := d) by done. by apply (Q key c).
  - exact B.
Qed.

Lemma keeps_update i d status error attempt s :
  rg_documents s !! i = Some d -> ~ completed d -> status <> COMPLETED ->
  keeps s (update_document_embedding_status i status error attempt s).2.
Proof.
  intros Hi Hd Hst. unfold update_document_embedding_status, mbind_, mget, mmodify. cbn [snd].
  replace (alter (with_status status error attempt) i (rg_documents s)) with (<[i := with_status status error attempt d]> (rg_documents s)).
  2: { apply map_eq. intros j. destruct (decide (j = i)) as [->|]; [by rewrite lookup_insert_eq, lookup_alter_eq, Hi | by rewrite lookup_insert_ne, lookup_alter_ne]. }
  apply (consistent_status i d); try done. unfold completed. simpl. by destruct status.
Qed.

(** ** New documents *)

Lemma by_hash_none tenant hash s :
  List.find (fun kd => has_hash tenant hash kd.2) (map_to_list (rg_documents s)) = None ->
  forall i d, rg_documents s !! i = Some d -> rd_tenant d = tenant -> rd_hash d <> hash.
Proof.
  intros H i d Hi Ht Hh. apply elem_of_map_to_list in Hi. apply list_elem_of_In in Hi. pose proof (find_none _ _ H _ Hi) as Hn. simpl in Hn. unfold has_hash in Hn.
  rewrite bool_decide_true in Hn by done. by rewrite Hh, String.eqb_refl in Hn.
Qed.
Lemma by_hash_some tenant hash s i d :
  List.find (fun kd => has_hash tenant hash kd.2) (map_to_list (rg_documents s)) = Some (i, d) ->
  rg_documents s !! i = Some d /\ rd_tenant d = tenant /\ rd_hash d = hash.
Proof.
  intros H. apply find_some in H as [Hin Hf]. apply list_elem_of_In in Hin. apply elem_of_map_to_list in Hin. simpl in Hf.
  unfold has_hash in Hf. apply andb_true_iff in Hf as [H1 H2]. apply bool_decide_eq_true in H1. by apply String.eqb_eq in H2.
Qed.

Lemma usage_new i d key s :
  consistent s -> rg_documents s !! i = None -> ~ completed d -> usage key (set_documents (<[i := d]> (rg_documents s)) s) = usage key s.
Proof.
  intros Hs Hi Hd. unfold usage. simpl. f_equal.
  - rewrite map_filter_insert_False by naive_solver. by rewrite delete_id.
  - do 2 f_equal. apply filter_ext_in. intros k Hk. destruct (co_chunks _ Hs k Hk) as (x & Hx & _). unfold chunk_counted.
    rewrite lookup_insert_ne; [done|]. intros ->. congruence.
Qed.

Lemma consistent_new i d s s' :
  rg_documents s !! i = None -> ~ completed d ->
  (forall j e, rg_documents s !! j = Some e -> rd_tenant e = rd_tenant d -> rd_hash e <> rd_hash d) ->
  s' = set_documents (<[i := d]> (rg_documents s)) s -> (i < rg_next s)%N -> keeps s s'.
Proof.
  intros Hi Hd Hu -> Hn Hs. pose proof Hs as [F U C I Q B]. split; simpl.
  - intros j. destruct (decide (j = i)) as [->|]; [done | rewrite lookup_insert_ne by done; apply F].
  - intros j k x y. destruct (decide (j = i)) as [->|Hj], (decide (k = i)) as [->|Hk]; rewrite ?lookup_insert_eq, ?lookup_insert_ne by done;
      intros Hx Hy Etn Eh; simplify_eq; [done | | | eapply U; eauto].
    + by destruct (Hu k y).
    + by destruct (Hu j x).
  - intros k Hk. destruct (C k Hk) as (x & Hx & Cx). exists x. destruct (decide (rk_document k = i)) as [E|]; [naive_solver|]. by rewrite lookup_insert_ne.
  - intros j x. destruct (decide (j = i)) as [->|]; [rewrite lookup_insert_eq; naive_solver | rewrite lookup_insert_ne by done; apply I].
  - intros key c Hx Hk. rewrite usage_new by done. by apply (Q key c).
  - exact B.
Qed.

Definition draw s : rag P := (rag_uuid4 s).2.
Lemma keeps_draw s : keeps s (draw s).
Proof. intros [F U C I Q B]. split; simpl; try done. intros i Hi. specialize (F i Hi). lia. Qed.

Lemma create_document_spec d s :
  consistent s -> ~ completed d ->
  match create_document d s with
  | (Ok i, s') => consistent s' /\ rg_documents s !! i = None /\
      (exists d', rg_documents s' = <[i := d']> (rg_documents s) /\ rd_tenant d' = rd_tenant d /\ rd_hash d' = rd_hash d /\
        rd_status d' = rd_status d /\ rd_content d' = rd_content d /\ rd_config d' = rd_config d)
  | (Err _, s') => s' = s
  end.
Proof.
  intros Hs Hd. unfold create_document, get_document_by_hash, look. unfold mbind_ at 1 2, mget at 1. unfold mret at 1.
  destruct (List.find _ _) as [x|] eqn:Ef; [done|]. unfold mbind_, mget, mmodify, mret. simpl. fold (draw s).
  assert (Hn : rg_documents s !! rg_next s = None).
  { destruct (rg_documents s !! rg_next s) eqn:E; [|done]. pose proof (co_fresh _ Hs (rg_next s)) as Hf. rewrite E in Hf. specialize (Hf ltac:(done)). lia. }
  split_and!; [|done|eexists; split_and!; try done].
  match goal with |- consistent (set_documents (<[_ := ?x]> _) _) => apply (consistent_new (rg_next s) x (draw s)) end;
    [done | done | | done | simpl; lia | by apply keeps_draw].
  intros j e Hj Ht. by apply (by_hash_none _ _ _ Ef j e).
Qed.

(** ** Finalising *)

Lemma insert_chunks_fresh base l :
  NoDup (rk_index <$> l) -> (forall a b, a ∈ l -> b ∈ base -> same_place a b = false) ->
  (forall a b, a ∈ l -> b ∈ l -> rk_document a = rk_document b) -> foldl insert_chunk base l = base ++ l.
Proof.
  revert base. induction l as [|x l IH]; intros base Hnd Hb Hl; simpl; [by rewrite app_nil_r|].
  apply NoDup_cons in Hnd as [Hx Hnd]. assert (Hi : insert_chunk base x = base ++ [x]).
  { unfold insert_chunk. destruct (existsb (same_place x) base) eqn:E; [|done]. apply existsb_exists in E as (b & Hin & Hs).
    apply list_elem_of_In in Hin. rewrite (Hb x b) in Hs; [done | by constructor | done]. }
  rewrite Hi, IH; [by rewrite <- app_assoc | done | |].
  - intros a b Ha Hin. apply elem_of_app in Hin as [Hin|Hin]; [apply Hb; [by constructor | done]|].
    apply list_elem_of_singleton in Hin as ->. unfold same_place. destruct (Nat.eqb_spec (rk_index a) (rk_index x)) as [E|]; [|by rewrite andb_false_r].
    destruct Hx. apply list_elem_of_fmap. by exists a.
  - intros a b Ha Hin. apply Hl; by constructor.
Qed.

Lemma bumped_lookup (delta : Z) (keys : list counter_key) (m : gmap counter_key (Z * Z)) (k : counter_key) :
  NoDup keys ->
  default (0, 0)%Z (foldr (fun k m => <[k := bump delta (default (0, 0)%Z (m !! k))]> m) m keys !! k) =
  if bool_decide (k ∈ keys) then bump delta (default (0, 0)%Z (m !! k)) else default (0, 0)%Z (m !! k).
Proof.
  induction keys as [|x keys IH]; intros Hnd; [done|]. apply NoDup_cons in Hnd as [Hx Hnd]. cbn [foldr].
  destruct (decide (k = x)) as [->|Hk].
  - rewrite lookup_insert_eq. simpl. rewrite IH by done. rewrite bool_decide_false by done. by rewrite bool_decide_true by constructor.
  - rewrite lookup_insert_ne by done. rewrite IH by done. destruct (bool_decide_reflect (k ∈ keys)) as [H|H].
    + by rewrite bool_decide_true by (by constructor).
    + rewrite bool_decide_false; [done|]. rewrite elem_of_cons. naive_solver.
Qed.

(** The counters that are raised are, among those that are kept, the ones that count the document. *)
Lemma finalize_counters_keys tenant c config d delta m keys :
  finalize_counters py_str tenant c (rc_corpus config) d delta (default no_quotas (quotas_of tenant)) m = Ok keys ->
  rd_tenant d = tenant -> rd_config d = Some c ->
  NoDup keys /\ forall key, (key.1.2 = c -> kept key config) -> key ∈ keys <-> counted key d.
Proof.
  intros Hf Ht Hc. assert (Hfar : forall key, counted key d -> key.1 = (tenant, c)) by (intros [[t c'] u] (H1 & H2 & _); simpl in *; congruence).
  unfold finalize_counters in Hf. cbv zeta in Hf. destruct (String.eqb_spec (rc_corpus config) "USER_MEMORY") as [Hu|Hu].
  - destruct (String.eqb_spec (default "" (user_of d)) "") as [|Hne]; [done|]. assert (Huser : user_of d = Some (default "" (user_of d))) by (by destruct (user_of d)).
    set (uid := default "" (user_of d)) in *. set (q := default no_quotas (quotas_of tenant)) in *.
    assert (Hkeys : keys = [(tenant, c, Some uid); (tenant, c, None)] \/ keys = [(tenant, c, Some uid)] /\ ~ limited q).
    { repeat match type of Hf with context [_check_cap ?a ?b ?x ?y] => destruct (_check_cap a b x y); try discriminate Hf end.
      all: cbn [rbind] in Hf; destruct (bool_decide_reflect (is_Some (max_documents_per_tenant q))) as [H1|H1];
        destruct (bool_decide_reflect (is_Some (max_chunks_per_tenant q))) as [H2|H2]; cbn in Hf; simplify_eq; unfold limited; tauto. }
    assert (Hown : forall u, counted (tenant, c, Some u) d -> u = uid) by (intros u (_ & _ & Hcu); simpl in Hcu; congruence).
    assert (Hin : counted (tenant, c, Some uid) d /\ counted (tenant, c, None) d) by done.
    destruct Hkeys as [->|[-> Hq]]; (split; [repeat constructor; set_solver|]); intros key Hkept; rewrite ?elem_of_cons, elem_of_nil;
      (split; [destruct Hin; intros Hk; destruct_or? Hk; by subst|]); intros Hcnt; pose proof (Hfar key Hcnt) as Ek;
      destruct key as [tc [u|]]; simpl in Ek; subst tc; try (apply Hown in Hcnt as ->; tauto); [tauto|].
    destruct (Hq (Hkept eq_refl Hu)).
  - repeat match type of Hf with context [_check_cap ?a ?b ?x ?y] => destruct (_check_cap a b x y); try discriminate Hf end. injection Hf as <-.
    split; [repeat constructor; set_solver|]. intros key Hkept. rewrite list_elem_of_singleton. split; [by intros ->|].
    intros Hcnt. pose proof (Hfar key Hcnt) as Ek. destruct key as [tc [u|]]; simpl in Ek; subst tc; [|done].
    destruct (Hu (Hkept eq_refl)).
Qed.

Lemma check_cap_below n delta cap code : _check_cap n delta cap code = Ok tt -> below_cap (n + delta) cap.
Proof. unfold _check_cap, below_cap. destruct cap as [c|]; [|done]. destruct (Z.ltb_spec c (n + delta)); [done | intros _; lia]. Qed.

Lemma finalize_counters_shape tenant c corpus d delta q m keys key :
  finalize_counters py_str tenant c corpus d delta q m = Ok keys -> key ∈ keys -> key.1 = (tenant, c).
Proof.
  unfold finalize_counters. cbv zeta. intros Hf Hin.
  assert (Hk : keys = [(tenant, c, None)] \/ exists u tl, keys = (tenant, c, Some u) :: tl /\ (tl = [] \/ tl = [(tenant, c, None)])).
  { repeat match type of Hf with
      | context [_check_cap ?a ?b ?x ?y] => destruct (_check_cap a b x y); try discriminate Hf
      | context [if ?b then _ else _] => destruct b; try discriminate Hf
      end; cbn in Hf; repeat match type of Hf with context [if ?b then _ else _] => destruct b; try discriminate Hf end; injection Hf as <-; eauto 6. }
  destruct Hk as [->|(u & tl & -> & [->| ->])]; rewrite ?elem_of_cons, ?elem_of_nil in Hin; naive_solver.
Qed.

(** The counters that are raised stay within the quotas. *)
Lemma finalize_counters_quota tenant c corpus d delta q m keys key :
  finalize_counters py_str tenant c corpus d delta q m = Ok keys -> key ∈ keys ->
  below_quotas q key.2 (bump delta (default (0, 0)%Z (m !! key))).
Proof.
  intros Hf Hin. unfold finalize_counters in Hf. cbv zeta in Hf. destruct (String.eqb corpus "USER_MEMORY").
  - destruct (String.eqb (default "" (user_of d)) ""); [done|].
    destruct (_check_cap _ 1 (max_documents_per_user q) _) as [[]|] eqn:E1; [|done]. destruct (_check_cap _ delta (max_chunks_per_user q) _) as [[]|] eqn:E2; [|done].
    apply check_cap_below in E1, E2. cbn [rbind] in Hf.
    destruct (_ || _); [|injection Hf as <-; by apply list_elem_of_singleton in Hin as ->].
    destruct (_check_cap _ 1 (max_documents_per_tenant q) _) as [[]|] eqn:E3; [|done].
    destruct (_check_cap _ delta (max_chunks_per_tenant q) _) as [[]|] eqn:E4; [|done]. apply check_cap_below in E3, E4.
    injection Hf as <-. rewrite !elem_of_cons, elem_of_nil in Hin. destruct_or? Hin; by subst.
  - destruct (_check_cap _ 1 (max_documents_per_tenant q) _) as [[]|] eqn:E1; [|done]. destruct (_check_cap _ delta (max_chunks_per_tenant q) _) as [[]|] eqn:E2; [|done].
    apply check_cap_below in E1, E2. injection Hf as <-. apply list_elem_of_singleton in Hin as ->. done.
Qed.

Lemma counted_status key d status error attempt : counted key (with_status status error attempt d) <-> counted key d.
Proof. done. Qed.

(** The usage once a document is completed and its chunks are stored. *)
Lemma usage_completed i d chunks key s m :
  rg_documents s !! i = Some d -> ~ completed d -> (forall k, k ∈ chunks -> rk_document k = i) ->
  usage key (set_counters m (set_documents (<[i := with_status COMPLETED None false d]> (rg_documents s)) (set_chunks (rg_chunks s ++ chunks) s))) =
  if decide (counted key d) then bump (Z.of_nat (length chunks)) (usage key s) else usage key s.
Proof.
  intros Hi Hd Hk. unfold usage. simpl.
  assert (Hch : forall k, chunk_counted key (<[i := with_status COMPLETED None false d]> (rg_documents s)) k <-> chunk_counted key (rg_documents s) k).
  { intros k. unfold chunk_counted. destruct (decide (rk_document k = i)) as [->|]; [by rewrite lookup_insert_eq, Hi | by rewrite lookup_insert_ne]. }
  rewrite filter_app, length_app.
  rewrite (filter_ext_in _ (chunk_counted key (rg_documents s)) (rg_chunks s)) by (intros; apply Hch).
  assert (Hn : length (filter (chunk_counted key (<[i := with_status COMPLETED None false d]> (rg_documents s))) chunks) =
    if decide (counted key d) then length chunks else 0).
  { rewrite (filter_ext_in _ (fun _ => counted key d)).
    - clear. induction chunks as [|k l IH]; simpl; [by case_decide|]. rewrite filter_cons. case_decide; simpl; by rewrite IH.
    - intros k Hin. rewrite Hch. unfold chunk_counted. by rewrite (Hk k Hin), Hi. }
  rewrite Hn. case_decide as Hc.
  - rewrite map_filter_insert_True by done. rewrite map_size_insert_None; [unfold bump; simpl; f_equal; lia|].
    apply map_lookup_filter_None. right. naive_solver.
  - rewrite map_filter_insert_False by naive_solver. rewrite map_filter_delete, delete_id; [f_equal; lia|].
    apply map_lookup_filter_None. right. naive_solver.
Qed.

Lemma no_chunks_yet i d s k : consistent s -> rg_documents s !! i = Some d -> ~ completed d -> k ∈ rg_chunks s -> rk_document k <> i.
Proof. intros Hs Hi Hd Hk E. destruct (co_chunks _ Hs k Hk) as (x & Hx & Hc). rewrite E in Hx. congruence. Qed.

Lemma finalize_spec tenant c config i d chunks quotas s :
  quotas = quotas_of tenant -> consistent s -> rg_configs s !! c = Some config -> rg_documents s !! i = Some d -> ~ completed d ->
  (forall k, k ∈ chunks -> rk_document k = i) -> rk_index <$> chunks = seq 0 (length chunks) ->
  match finalize_document_embedding_with_usage py_str tenant c (rc_corpus config) i chunks quotas s with
  | (Ok _, s') => consistent s' /\ rg_documents s' = <[i := with_status COMPLETED None false d]> (rg_documents s) /\
      rg_chunks s' = rg_chunks s ++ chunks
  | (Err _, s') => s' = s
  end.
Proof.
  intros -> Hs Hcfg Hi Hd Hk Hidx. unfold finalize_document_embedding_with_usage. destruct chunks as [|x chunks'] eqn:Ech; [done|]. rewrite <- Ech in *.
  assert (Hlen : 0 < length chunks) by (rewrite Ech; simpl; lia). clear Ech.
  unfold mbind_ at 1, mget at 1. rewrite Hi. destruct (bool_decide_reflect (rd_tenant d = tenant)) as [Ht|]; [|done].
  destruct (bool_decide_reflect (rd_config d = Some c)) as [Hc|]; [|done]. cbn [negb orb]. cbv zeta.
  destruct (finalize_counters _ _ _ _ _ _ _ _) as [keys|e] eqn:Hf; [|done]. unfold mlift, mbind_ at 1, mmodify.
  destruct (finalize_counters_keys _ _ _ _ _ _ _ Hf Ht Hc) as [Hnd Hkeys].
  rewrite (insert_chunks_fresh (rg_chunks s) chunks).
  2: { rewrite Hidx. apply NoDup_seq. }
  2: { intros a b Ha Hb. unfold same_place. rewrite bool_decide_false; [done|]. rewrite (Hk a Ha). intros E. by apply (no_chunks_yet i d s b). }
  2: { intros a b Ha Hb. by rewrite (Hk a), (Hk b). }
  split_and!; [|done|done]. pose proof Hs as [F U C I Q B]. split; simpl.
  - intros j. destruct (decide (j = i)) as [->|]; [intros _; apply F; by rewrite Hi | rewrite lookup_insert_ne by done; apply F].
  - intros j k a b. destruct (decide (j = i)) as [->|Hj], (decide (k = i)) as [->|Hk']; rewrite ?lookup_insert_eq, ?lookup_insert_ne by done;
      intros Ha Hb Et Eh; simplify_eq; [done | eapply U; eauto | eapply U; eauto | eapply U; eauto].
  - intros k Hin. apply elem_of_app in Hin as [Hin|Hin].
    + destruct (C k Hin) as (y & Hy & Cy). exists y. rewrite lookup_insert_ne; [done|]. intros E. by apply (no_chunks_yet i d s k).
    + exists (with_status COMPLETED None false d). by rewrite (Hk k Hin), lookup_insert_eq.
  - intros j y Hj Hy. unfold chunks_of. rewrite filter_app. destruct (decide (j = i)) as [->|Hne].
    + exists (length chunks). split; [done|]. rewrite (filter_none _ (rg_chunks s)) by (intros k Hin; by apply (no_chunks_yet i d s k)).
      by rewrite (filter_all _ chunks) by (intros k Hin; by rewrite Hk).
    + rewrite lookup_insert_ne in Hj by done. destruct (I j y Hj Hy) as (n & Hn & Hseq). exists n. split; [done|]. rewrite fmap_app.
      rewrite (filter_none _ chunks) by (intros k Hin E; destruct Hne; by rewrite <- E, Hk). by rewrite app_nil_r.
  - intros key x0 Hx Hkept. rewrite usage_completed with (i := i) (d := d) by done. rewrite bumped_lookup by done.
    rewrite (Q key x0 Hx Hkept). assert (Hiff : key ∈ keys <-> counted key d).
    { apply Hkeys. intros E. rewrite E in Hx. by simplify_eq. }
    case_decide; case_bool_decide; naive_solver.
  - intros key x0 q Hx Hkept Hq. rewrite bumped_lookup by done. case_bool_decide as Hin; [|by apply (B key x0)].
    assert (Hcnt : key.1 = (tenant, c)).
    { apply (finalize_counters_shape _ _ _ _ _ _ _ _ _ Hf Hin). }
    rewrite Hcnt in Hx, Hq. simpl in Hx, Hq. simplify_eq. rewrite Hq in Hf. simpl in Hf.
    by apply (finalize_counters_quota _ _ _ _ _ _ _ _ _ Hf Hin).
Qed.
End facts.

(** ** Outcomes *)

(** [Q] holds of the outcome of a computation. *)
Definition wp {S A} (m : M S A) (s : S) (Q : res exc A -> S -> Prop) : Prop := Q (m s).1 (m s).2.
Lemma wp_bind {S A B} (m : M S A) (k : A -> M S B) s Q :
  wp m s (fun r s' => match r with Ok a => wp (k a) s' Q | Err e => Q (Err e) s' end) -> wp (mbind_ m k) s Q.
Proof. unfold wp, mbind_. by destruct (m s) as [[a|e] s']. Qed.
Lemma wp_try {S A} (m : M S A) h s Q :
  wp m s (fun r s' => match r with Ok a => Q (Ok a) s' | Err e => wp (h e) s' Q end) -> wp (mtry m h) s Q.
Proof. unfold wp, mtry. by destruct (m s) as [[a|e] s']. Qed.
Lemma wp_read {P A} (f : rag P -> A) s Q : Q (Ok (f s)) s -> wp (look f) s Q.
Proof. done. Qed.
Lemma wp_lift {S A} (r : res exc A) (s : S) Q : Q r s -> wp (mlift r) s Q.
Proof. done. Qed.
(** A computation that only reads. *)
Lemma wp_reads {P A} (m : M (rag P) A) s Q : respects eq m -> (forall r, m s = (r, s) -> Q r s) -> wp m s Q.
Proof. intros Hm H. unfold wp. specialize (Hm s). destruct (m s) as [r s'] eqn:E. simpl in *. subst s'. by apply H. Qed.

Section ingest.
Context {P : Type}.
Variable sha256 : string -> string.
Variable encode : string -> list Z.
Variable decode : list Z -> string.
Variable int_str : Z -> string.
Variable json_text : pyval -> string.
Variable py_str : pyval -> string.
Variable generate_embeddings_batch : list string -> string -> Z -> P -> res exc (list vec) * P.
Variable parse_options : pydict -> res exc RagConfigOptions.
Variable parse_rule : pydict -> res exc ChunkRuleParams.
Variable get_model : uuid -> option ai_model.
Variable get_model_by_name : string -> option ai_model.
Variable active_policy_version : uuid -> option uuid.
Variable policy_version : uuid -> option pydict.
Variable parse_policy : pydict -> res exc RagPolicyDefinition.
Implicit Types s : rag P.

(** The quotas of the active policy. *)
Definition policy_quotas (tenant : uuid) : option RagIngestQuotas :=
  match resolve_policy active_policy_version policy_version parse_policy tenant with Ok p => p.2 ≫= pd_quotas | Err _ => None end.
Abbreviation consistent_ := (consistent py_str policy_quotas).
Abbreviation bundle_ := (_resolve_rag_ingest_bundle parse_options parse_rule).
Abbreviation embed_chunks_ := (embed_chunks encode py_str generate_embeddings_batch active_policy_version policy_version parse_policy).
Abbreviation embed_ := (embed_document_by_id encode decode py_str generate_embeddings_batch parse_options parse_rule get_model
  get_model_by_name active_policy_version policy_version parse_policy).

Lemma bundle_reads tenant c : respects eq (bundle_ tenant c : M (rag P) _).
Proof.
  intros s. unfold _resolve_rag_ingest_bundle, get_rag_config, get_chunking_rule, look, mbind_, mget, mret, mlift, mraise.
  repeat (case_match; simplify_eq; try done).
Qed.
Lemma bundle_config tenant c s options rule config :
  bundle_ tenant c s = (Ok (options, rule, config), s) -> rg_configs s !! c = Some config /\ rc_tenant config = tenant.
Proof.
  unfold _resolve_rag_ingest_bundle, get_rag_config, get_chunking_rule, look, mbind_, mget, mret, mlift, mraise.
  repeat (case_match; simplify_eq; try done). intros. simplify_eq.
  match goal with H : negb (bool_decide ?p) = false |- _ => destruct (bool_decide_reflect p) end; done.
Qed.

Lemma chunk_models_places i store meta l :
  (forall k, k ∈ chunk_models encode i store meta l -> rk_document k = i) /\
  rk_index <$> chunk_models encode i store meta l = seq 0 (length (chunk_models encode i store meta l)).
Proof.
  unfold chunk_models. split.
  - intros k Hk. apply elem_of_lookup_imap in Hk as (n & x & -> & _). done.
  - rewrite length_imap. rewrite fmap_imap. apply list_eq. intros n. rewrite list_lookup_imap. unfold compose. simpl.
    destruct (decide (n < length l)) as [Hn|Hn].
    + rewrite lookup_seq_lt by done. destruct (lookup_lt_is_Some_2 l n Hn) as [x ->]. done.
    + rewrite lookup_seq_ge by lia. by rewrite lookup_ge_None_2 by lia.
Qed.

(** The [try] of an embedding: the document is completed, or nothing happened to the tables. *)
Lemma embed_chunks_spec tenant c i d config store provider meta chunks s :
  consistent_ s -> rg_configs s !! c = Some config -> rg_documents s !! i = Some d -> ~ completed d ->
  wp (embed_chunks_ tenant c i config store provider meta chunks) s (fun r s' =>
    match r with
    | Ok _ => consistent_ s' /\ rg_documents s' = <[i := with_status COMPLETED None false d]> (rg_documents s)
    | Err _ => consistent_ s' /\ rg_documents s' = rg_documents s
    end).
Proof.
  intros Hs Hc Hi Hd. unfold embed_chunks. apply wp_bind, wp_lift. destruct (resolve_policy _ _ _ tenant) as [policy|e] eqn:Hp; [|done].
  assert (Hq : policy.2 ≫= pd_quotas = policy_quotas tenant) by (unfold policy_quotas; by rewrite Hp).
  apply wp_bind. unfold execute_batch. apply wp_bind, wp_lift. destruct (executor_build _) as [[]|e]; [|done].
  apply wp_bind. unfold wp, adapter. destruct (generate_embeddings_batch _ _ _ (rg_world s)) as [l p]. cbn [fst snd].
  assert (Hs1 : same_tables s (set_rag_world p s)) by (split_and!; [done..|by intros j x; exists x]).
  pose proof (same_keeps py_str policy_quotas _ _ Hs1 Hs) as Hs'. destruct l as [l|e]; [|done]. destruct (forallb _ l); [|done].
  cbn [mret fst snd]. destruct (chunk_models_places i (rc_store config) meta (zip chunks l)) as [Hk Hidx].
  pose proof (finalize_spec py_str policy_quotas tenant c config i d _ (policy.2 ≫= pd_quotas) (set_rag_world p s) Hq Hs' Hc Hi Hd Hk Hidx) as Hf.
  destruct (finalize_document_embedding_with_usage _ _ _ _ _ _ _ _) as [[u|e] s2]; cbn [fst snd]; [by destruct Hf as (H1 & H2 & _) | by subst].
Qed.

(** An embedding that returns leaves the document completed; whatever it does, the tables stay consistent, and only the document
    itself changes, in its status. *)
Definition embedded (tenant i : uuid) s (r : res exc (uuid * EmbeddingStatus)) s' : Prop :=
  consistent_ s' /\ (forall j, j <> i -> rg_documents s' !! j = rg_documents s !! j) /\
  (forall d, rg_documents s !! i = Some d -> exists d', rg_documents s' !! i = Some d' /\ rd_hash d' = rd_hash d /\ rd_tenant d' = rd_tenant d) /\
  match r with
  | Ok x => x = (i, COMPLETED) /\ exists d, rg_documents s' !! i = Some d /\ completed d /\ rd_tenant d = tenant
  | Err _ => True
  end.

Lemma as_status_completed d : _as_embedding_status (rd_status d) = COMPLETED <-> completed d.
Proof.
  unfold _as_embedding_status, completed. destruct (String.eqb_spec (rd_status d) "PROCESSING") as [->|]; [done|].
  destruct (String.eqb_spec (rd_status d) "COMPLETED") as [->|]; [done|]. destruct (String.eqb_spec (rd_status d) "FAILED"); naive_solver.
Qed.

Lemma embedded_unchanged tenant i s e : consistent_ s -> embedded tenant i s (Err e) s.
Proof. intros Hs. split_and!; [done | done | by intros d; exists d | done]. Qed.

(** One status change of the document. *)
Lemma status_changed i d status error attempt s :
  consistent_ s -> rg_documents s !! i = Some d -> ~ completed d -> status <> COMPLETED ->
  let s' := (update_document_embedding_status i status error attempt s).2 in
  consistent_ s' /\ rg_documents s' = <[i := with_status status error attempt d]> (rg_documents s) /\ rg_configs s' = rg_configs s.
Proof.
  intros Hs Hi Hd Hst. split_and!; [by apply (keeps_update py_str policy_quotas i d) | | done]. simpl.
  apply map_eq. intros j. destruct (decide (j = i)) as [->|]; [by rewrite lookup_alter_eq, Hi, lookup_insert_eq | by rewrite lookup_alter_ne, lookup_insert_ne].
Qed.

Lemma embed_spec tenant c i s : consistent_ s -> wp (embed_ tenant c i) s (embedded tenant i s).
Proof.
  intros Hs. pose proof (embedded_unchanged tenant i s) as Hsame. unfold embed_document_by_id. apply wp_bind.
  apply wp_reads; [apply bundle_reads|]. intros [[[options rule] config]|e] Hb; [|by apply Hsame]. destruct (bundle_config _ _ _ _ _ _ Hb) as [Hc _].
  apply wp_bind, wp_read. destruct (rg_stores s !! _ ≫= _) as [store|]; [|by apply Hsame]. cbv zeta. apply wp_bind, wp_lift.
  destruct (_resolve_embedding_model _ _ _) as [model|e]; [|by apply Hsame]. case_match; [by apply Hsame|]. case_match; [by apply Hsame|].
  apply wp_bind, wp_read. destruct (rg_documents s !! i) as [d|] eqn:Hi; [|by apply Hsame].
  destruct (bool_decide_reflect (rd_tenant d = tenant)) as [Ht|]; [|by apply Hsame]. cbn [negb].
  destruct (bool_decide_reflect (_as_embedding_status (rd_status d) = COMPLETED)) as [Hd|Hd]; rewrite as_status_completed in Hd.
  { unfold wp. cbn [mret fst snd]. split_and!; [done | done | intros d' Hd'; by exists d' | done |]. by exists d. }
  destruct (String.eqb (rd_content d) ""); [by apply Hsame|]. apply wp_bind.
  destruct (status_changed i d PROCESSING None true s Hs Hi Hd) as (Hs1 & Hdocs1 & Hc1); [done|].
  unfold wp at 1. set (s1 := (update_document_embedding_status i PROCESSING None true s).2) in *.
  set (d1 := with_status PROCESSING None true d) in *. assert (Hi1 : rg_documents s1 !! i = Some d1) by (by rewrite Hdocs1, lookup_insert_eq).
  assert (Hframe : forall r s', consistent_ s' -> (forall j, j <> i -> rg_documents s' !! j = rg_documents s1 !! j) ->
    (exists d', rg_documents s' !! i = Some d' /\ rd_hash d' = rd_hash d /\ rd_tenant d' = rd_tenant d /\ (forall x, r = Ok x -> completed d')) ->
    (forall x, r = Ok x -> x = (i, COMPLETED)) -> embedded tenant i s r s').
  { intros r s' H1 H2 (d' & H3 & H4 & H5 & H6) H7. split_and!; [done | intros j Hj; rewrite H2, Hdocs1 by done; by rewrite lookup_insert_ne | |].
    - intros x Hx. exists d'. naive_solver.
    - destruct r as [x|]; [|done]. split; [by apply H7|]. exists d'. split_and!; [done | by apply (H6 x) | congruence]. }
  apply wp_bind, wp_lift. destruct (default _ _) as [chunks|e].
  2: { apply Hframe; [done | done | by exists d1; split_and! | done]. }
  cbv zeta. apply wp_bind, wp_try. unfold wp at 1.
  match goal with |- context [embed_chunks _ _ _ _ _ _ _ _ _ _ _ _ ?m _] => set (meta := m) end.
  pose proof (embed_chunks_spec tenant c i d1 config store model.2 meta chunks.1 s1 Hs1 ltac:(by rewrite Hc1) Hi1) as He. unfold wp in He.
  destruct (embed_chunks_ tenant c i config store model.2 meta chunks.1 s1) as [[u|e] s2]; cbn [fst snd] in *; destruct (He ltac:(done)) as [Hs2 Hdocs2].
  - unfold wp. cbn [mret fst snd]. apply Hframe; [done | intros j Hj; by rewrite Hdocs2, lookup_insert_ne | | by intros x [= <-]].
    exists (with_status COMPLETED None false d1). by rewrite Hdocs2, lookup_insert_eq.
  - assert (Hi2 : rg_documents s2 !! i = Some d1) by (by rewrite Hdocs2). apply wp_bind. unfold wp.
    destruct (status_changed i d1 FAILED (Some (exc_type e)) false s2 Hs2 Hi2) as (Hs3 & Hdocs3 & _); [done | done|].
    set (s3 := (update_document_embedding_status i FAILED (Some (exc_type e)) false s2).2) in *. change (embedded tenant i s (Err e) s3).
    apply Hframe; [done | intros j Hj; by rewrite Hdocs3, lookup_insert_ne, Hdocs2 | | done].
    exists (with_status FAILED (Some (exc_type e)) false d1). rewrite Hdocs3, lookup_insert_eq. by split_and!.
Qed.

Abbreviation prepare_ := (prepare_document_for_embedding sha256 parse_options parse_rule).
Abbreviation ingest_ := (ingest_document sha256 encode decode py_str generate_embeddings_batch parse_options parse_rule get_model
  get_model_by_name active_policy_version policy_version parse_policy).

(** The document of a content. *)
Definition document_of (tenant : uuid) (content : string) (d : rag_document) : Prop := rd_tenant d = tenant /\ rd_hash d = sha256 content.

Lemma prepare_spec tenant c x s :
  consistent_ s ->
  wp (prepare_ tenant c x) s (fun r s' => consistent_ s' /\
    match r with
    | Ok p => exists d, rg_documents s' !! p.1 = Some d /\ document_of tenant (dc_content x) d /\ (p.2 = COMPLETED -> completed d)
    | Err _ => True
    end).
Proof.
  intros Hs. unfold prepare_document_for_embedding. apply wp_bind. apply wp_reads; [apply bundle_reads|].
  intros [bundle|e] _; [|done]. case_match; [done|]. cbv zeta. apply wp_bind, wp_read.
  destruct (List.find _ _) as [[i d]|] eqn:Ef.
  - destruct (by_hash_some _ _ _ _ _ Ef) as (Hi & Ht & Hh). destruct (bool_decide_reflect (_as_embedding_status (rd_status d) = COMPLETED)) as [Hd|Hd];
      rewrite as_status_completed in Hd.
    { split; [done|]. by exists d. }
    apply wp_bind. unfold wp at 1. destruct (status_changed i d PENDING None false s Hs Hi Hd) as (Hs1 & Hdocs & _); [done|].
    set (s1 := (update_document_embedding_status i PENDING None false s).2) in *. split; [done|].
    exists (with_status PENDING None false d). cbn [mret fst snd]. by rewrite Hdocs, lookup_insert_eq.
  - apply wp_bind. match goal with |- wp (create_document ?d) s _ => pose proof (create_document_spec py_str policy_quotas d s Hs) as Hn end.
    unfold wp. destruct (create_document _ s) as [[i|e] s1]; cbn [fst snd] in *; [|by rewrite Hn by done].
    destruct (Hn ltac:(done)) as (Hs1 & _ & d & Hdocs & Ht & Hh & Hst & _). split; [done|]. exists d. cbn [mret fst snd].
    rewrite Hdocs, lookup_insert_eq. by split_and!.
Qed.

(** What an ingestion leaves. *)
Definition ingested (tenant : uuid) (content : string) (r : res exc (uuid * EmbeddingStatus)) s' : Prop :=
  consistent_ s' /\
  match r with
  | Ok p => p.2 = COMPLETED /\ exists d n, rg_documents s' !! p.1 = Some d /\ document_of tenant content d /\ completed d /\ 0 < n /\
      rk_index <$> chunks_of p.1 (rg_chunks s') = seq 0 n
  | Err _ => True
  end.
Lemma completed_ingested tenant content i d s :
  consistent_ s -> rg_documents s !! i = Some d -> document_of tenant content d -> completed d -> ingested tenant content (Ok (i, COMPLETED)) s.
Proof. intros Hs Hi Hd Hc. destruct (co_indices _ _ _ Hs i d Hi Hc) as (n & Hn & Hseq). split; [done|]. split; [done|]. by exists d, n. Qed.

Lemma ingest_spec tenant c x s : consistent_ s -> wp (ingest_ tenant c x) s (ingested tenant (dc_content x)).
Proof.
  intros Hs. unfold ingest_document. apply wp_bind. pose proof (prepare_spec tenant c x s Hs) as Hp. unfold wp in Hp |- * at 1.
  destruct (prepare_ tenant c x s) as [[[i st]|e] s1]; cbn [fst snd] in *; destruct Hp as [Hs1 Hp]; [|done].
  destruct Hp as (d & Hi & Hd & Hc). case_bool_decide as Hst.
  - cbn in Hst. subst st. apply (completed_ingested tenant (dc_content x) i d); auto.
  - pose proof (embed_spec tenant c i s1 Hs1) as He. unfold wp in He |- *. destruct (embed_ tenant c i s1) as [[y|e] s2]; cbn [fst snd] in *;
      destruct He as (Hs2 & _ & Hsame & Hr); [|done]. destruct Hr as (-> & d2 & Hi2 & Hc2 & _).
    destruct (Hsame d Hi) as (d3 & Hi3 & Hh & Ht). assert (d3 = d2) as -> by congruence. apply (completed_ingested tenant (dc_content x) i d2); try done.
    destruct Hd as [E1 E2]. split; congruence.
Qed.

(** Every document of a batch is counted once, as stored or as failed. *)
Lemma ingest_all_spec tenant c l n s :
  consistent_ s ->
  exists m s', ingest_all sha256 encode decode py_str generate_embeddings_batch parse_options parse_rule get_model get_model_by_name
      active_policy_version policy_version parse_policy tenant c l n s = (Ok m, s') /\ consistent_ s' /\
    (m.1 + m.2 = n.1 + n.2 + Z.of_nat (length l))%Z /\ (n.1 <= m.1 /\ n.2 <= m.2)%Z.
Proof.
  revert n s. induction l as [|x l IH]; intros n s Hs; simpl; [by exists n, s; split_and!; try done; lia|].
  pose proof (ingest_spec tenant c x s Hs) as Hx. unfold wp in Hx. unfold mbind_ at 1, mtry, mbind_ at 1.
  destruct (ingest_ tenant c x s) as [[p|e] s1]; cbn [fst snd] in Hx; destruct Hx as [Hs1 _]; cbn [mret].
  - destruct (IH (n.1 + 1, n.2)%Z s1 Hs1) as (m & s' & -> & Hs' & Hm & Hle). simpl in *. exists m, s'. split_and!; try done; lia.
  - destruct (IH (n.1, n.2 + 1)%Z s1 Hs1) as (m & s' & -> & Hs' & Hm & Hle). simpl in *. exists m, s'. split_and!; try done; lia.
Qed.
End ingest.

(** ** Requests *)

Section requests.
Context {P : Type}.
Variable sha256 : string -> string.
Variable encode : string -> list Z.
Variable decode : list Z -> string.
Variable int_str : Z -> string.
Variable json_text : pyval -> string.
Variable py_str : pyval -> string.
Variable fromisoformat : string -> option Z.
Variable text_gtb : string -> string -> bool.
Variable generate_embedding : string -> string -> Z -> P -> res exc vec * P.
Variable generate_embeddings_batch : list string -> string -> Z -> P -> res exc (list vec) * P.
Variable cosine_distance : vec -> vec -> pyfloat.
Variable parse_options : pydict -> res exc RagConfigOptions.
Variable parse_rule : pydict -> res exc ChunkRuleParams.
Variable get_model : uuid -> option ai_model.
Variable get_model_by_name : string -> option ai_model.
Variable active_policy_version : uuid -> option uuid.
Variable policy_version : uuid -> option pydict.
Variable parse_policy : pydict -> res exc RagPolicyDefinition.
Implicit Types s : rag P.

Abbreviation same_ := (respects (@same_tables P)).
Abbreviation query_ := (get_context sha256 int_str json_text py_str fromisoformat text_gtb generate_embedding cosine_distance parse_options
  get_model get_model_by_name).

Lemma same_look {A} (f : rag P -> A) : same_ (look f).
Proof. intros s. apply same_tables_preorder. Qed.
Lemma same_adapter {A} (f : P -> res exc A * P) : same_ (adapter f).
Proof. intros s. unfold adapter. destruct (f _) as [r p]. split_and!; [done..|]. by intros c x; exists x. Qed.
Lemma same_cache f : same_ (mmodify (fun s => set_cache (f s) s)).
Proof. intros s. split_and!; [done..|]. by intros c x; exists x. Qed.
Lemma same_store f : same_ (mmodify (fun s => set_stores (f s) s)).
Proof. intros s. split_and!; [done..|]. by intros c x; exists x. Qed.
Lemma same_config c tenant store : same_ (update_rag_config_vector_store c tenant store).
Proof.
  intros s. split_and!; [done..|]. intros i x. simpl. destruct (decide (i = c)) as [->|]; [|rewrite lookup_alter_ne by done; by exists x].
  rewrite lookup_alter_eq. intros H. apply fmap_Some in H as (y & Hy & ->). exists y. split; [done|]. by case_bool_decide.
Qed.
#[local] Hint Resolve same_look same_adapter same_cache same_store same_config : frame.

Lemma same_query_embedding text k contract : same_ (query_embedding generate_embedding text k contract).
Proof.
  unfold query_embedding, get_query_cache, update_query_cache_usage, save_query_cache, execute. apply respects_bind; [apply _ | frame | intros cached].
  destruct cached; frame. case_match; frame.
Qed.
Lemma same_search tenant c store user v k t filters :
  same_ (search_similar_chunks int_str json_text py_str fromisoformat text_gtb cosine_distance tenant c store user v k t filters).
Proof. unfold search_similar_chunks. repeat (case_match; frame). Qed.
#[local] Hint Resolve same_query_embedding same_search : frame.

Lemma same_context tenant c user text filters k t : same_ (query_ tenant c user text filters k t).
Proof.
  unfold get_context, get_rag_config, get_vector_store, invalidate_query_cache_contract. cbv zeta. repeat (frame || case_match).
Qed.
Lemma same_cutover tenant c target : same_ (reindex_cutover_vector_store tenant c target).
Proof.
  unfold reindex_cutover_vector_store, get_rag_config, get_vector_store, count_documents_by_embedding_status, invalidate_query_cache_vector_store,
    set_vector_store_active. repeat (frame || case_match).
Qed.

(** The requests of the service. *)
Inductive rag_request : Type :=
  | ReqIngest (tenant c : uuid) (x : RagDocumentCreate)
  | ReqBatch (tenant c : uuid) (l : list RagDocumentCreate)
  | ReqPrepare (tenant c : uuid) (x : RagDocumentCreate)
  | ReqEmbed (tenant c i : uuid)
  | ReqQuery (tenant c : uuid) (user : option string) (text : string) (filters : pydict) (k : option Z) (t : option pyfloat)
  | ReqCutover (tenant c target : uuid).
Definition serve_rag (r : rag_request) s : rag P :=
  match r with
  | ReqIngest t c x => (ingest_document sha256 encode decode py_str generate_embeddings_batch parse_options parse_rule get_model
      get_model_by_name active_policy_version policy_version parse_policy t c x s).2
  | ReqBatch t c l => (ingest_documents_batch sha256 encode decode py_str generate_embeddings_batch parse_options parse_rule get_model
      get_model_by_name active_policy_version policy_version parse_policy t c l s).2
  | ReqPrepare t c x => (prepare_document_for_embedding sha256 parse_options parse_rule t c x s).2
  | ReqEmbed t c i => (embed_document_by_id encode decode py_str generate_embeddings_batch parse_options parse_rule get_model
      get_model_by_name active_policy_version policy_version parse_policy t c i s).2
  | ReqQuery t c u text f k th => (query_ t c u text f k th s).2
  | ReqCutover t c v => (reindex_cutover_vector_store t c v s).2
  end.

Abbreviation consistent_ := (consistent py_str (policy_quotas active_policy_version policy_version parse_policy)).
Lemma serve_rag_consistent r s : consistent_ s -> consistent_ (serve_rag r s).
Proof.
  intros Hs. destruct r; simpl.
  - eapply (ingest_spec sha256 encode decode py_str); exact Hs.
  - unfold ingest_documents_batch. destruct l as [|x l]; [done|].
    destruct (ingest_all_spec sha256 encode decode py_str generate_embeddings_batch parse_options parse_rule get_model get_model_by_name
      active_policy_version policy_version parse_policy tenant c (x :: l) (0, 0)%Z s Hs) as (m & s' & -> & Hs' & _). exact Hs'.
  - eapply (prepare_spec sha256 py_str); exact Hs.
  - eapply (embed_spec encode decode py_str); exact Hs.
  - by eapply same_keeps; [apply same_context|].
  - by eapply same_keeps; [apply same_cutover|].
Qed.

(** [C21] Ingestion keeps its tables consistent: while the policies of the tenants stay as they are, whatever documents are ingested,
    embedded, searched and moved, and however the embedding model fails, identifiers are fresh, a tenant has a content once, only
    completed documents have chunks and theirs are numbered from zero without a gap, the usage counters are exactly the completed
    documents and their chunks (of the user in a corpus of user memories, and there of the tenant too when its quotas limit it; of
    the tenant elsewhere), and they stay within the quotas of the tenant's policy, a negative quota read as zero. *)
Theorem rag_stays_consistent requests s : consistent_ s -> consistent_ (foldl (fun s r => serve_rag r s) s requests).
Proof. revert s. induction requests as [|r l IH]; intros s Hs; simpl; [done|]. by apply IH, serve_rag_consistent. Qed.
End requests.
