(* ===== verification/Memory.v ===== *)
(** * Memory: what a tenant remembers of its users

    [src/src/domain/context/services/memory_writer.py] and [memory_extraction_processor.py],
    [src/src/domain/governance/services/memory_policy_service.py], and the profile table of the execution repository: writes of
    preferences, profile patches and embedded memories, under the memory policy of the tenant.

    Memories that are embedded are documents of [Rag].  Events are kept as they are appended ([Store] numbers them); [pydantic],
    [json.dumps], ISO times and the extraction model are parameters. *)

From S2P Require Import Prelude.
From S2P Require Import Errors.
From S2P Require Import PyValue.
From S2P Require Import PyString.
From S2P Require Import PyFloat.
From S2P Require Import StateMachine.
From S2P Require Import Effects.
From S2P Require Import Store.
From S2P Require Import Chunking.
From S2P Require Import Rag.

(** ** Policies and items *)

Inductive MemoryPolicySource : Type := EXPLICIT_USER | INFERRED_LLM | TOOL_OUTPUT | ADMIN_SEED.
#[global] Instance MemoryPolicySource_eq_dec : EqDecision MemoryPolicySource.
Proof. solve_decision. Defined.
Definition source_str (s : MemoryPolicySource) : string :=
  match s with
  | EXPLICIT_USER => "explicit_user" | INFERRED_LLM => "inferred_llm" | TOOL_OUTPUT => "tool_output" | ADMIN_SEED => "admin_seed"
  end.
Inductive MemoryWriteTarget : Type := USER_PREFERENCE | USER_MEMORY_PROFILE | USER_MEMORY_VECTOR.
#[global] Instance MemoryWriteTarget_eq_dec : EqDecision MemoryWriteTarget.
Proof. solve_decision. Defined.
Definition target_str (t : MemoryWriteTarget) : string :=
  match t with
  | USER_PREFERENCE => "USER_PREFERENCE" | USER_MEMORY_PROFILE => "USER_MEMORY_PROFILE" | USER_MEMORY_VECTOR => "USER_MEMORY_VECTOR"
  end.

Record PreferenceUpdatePolicy : Type := {
  pu_fixed_key : option string;
  pu_allowed_keys : list string;
  pu_ignore_unchanged : bool;
}.
Record ConsentDefinition : Type := {
  cd_required : bool;
  cd_key : string;
  cd_sources : list MemoryPolicySource;
}.
Record AllowedSchema : Type := {
  as_schema : string;
  as_max_bytes : option Z;
  as_fields : pydict;
  as_targets : list MemoryWriteTarget;
  as_preference : option PreferenceUpdatePolicy;
}.
Record MemoryPolicyDefinition : Type := {
  mp_ttl : Z;
  mp_consent : ConsentDefinition;
  mp_sources : list MemoryPolicySource;
  mp_schemas : list AllowedSchema;
}.
Record UserMemoryItem : Type := {
  mi_schema : string;
  mi_version : Z;
  mi_data : pydict;
  mi_source : MemoryPolicySource;
  mi_observed : option Z;
  mi_config : uuid;
}.
Record MemoryWriteEventContext : Type := {
  we_session : option uuid;
  we_run : option uuid;
  we_correlation : option uuid;
}.
Record MemoryWriteResult : Type := {
  wr_targets : list MemoryWriteTarget;
  wr_preference : option Z;
  wr_profile : option Z;
  wr_document : option uuid;
}.
Record memory_event : Type := {
  me_tenant : uuid;
  me_run : uuid;
  me_type : string;
  me_payload : pydict;
}.
Record EmbeddingJobPayload : Type := {
  ej_tenant : uuid;
  ej_config : uuid;
  ej_document : uuid;
  ej_user : string;
}.

(** The configuration, and what the model answered. *)
Record MemoryExtractionConfig : Type := {
  xc_enabled : bool;
  xc_config : uuid;
  xc_preference_schema : string;
  xc_profile_schema : string;
}.
Record MemoryExtractionLLMOutput : Type := {
  xo_preferences : list (option string * pyval);
  xo_patch : option pydict;
  xo_vector : list (string * Z * pydict);
}.
(** Attempted and applied writes of one target. *)
Definition tally : Type := Z * Z.

(** Profiles have a version; one row per tenant and user. *)
Record memory {P : Type} : Type := {
  mm_rag : rag P;
  mm_profiles : gmap (uuid * string) (pydict * Z);
  mm_events : list memory_event;
  mm_jobs : list EmbeddingJobPayload;
}.
Arguments memory : clear implicits.

(** ** Profiles *)

Section profiles.
Variable same : pyval -> pyval -> bool.
Variable py_str : pyval -> string.
Variable int_of_string : string -> option Z.

(** [_preferences_dict_from_profile]. *)
Definition preference_value (entry : pyval) : pyval :=
  match entry with PDict d => default entry (dict_get "value" d) | _ => entry end.
Definition _preferences_dict_from_profile (profile : pydict) : pydict :=
  match dict_get "memory_preferences" profile with
  | Some (PDict d) => (fun kv => (kv.1, preference_value kv.2)) <$> d
  | _ => []
  end.

(** [_validate_profile_schema_version]. *)
Definition _validate_profile_schema_version (profile : pydict) : res exc unit :=
  match dict_getv "profile_schema_version" profile with
  | PNone => Ok tt
  | v => match py_int int_of_string v with
         | Ok n => if (n <? 1)%Z || (1 <? n)%Z then Err (DomainValidationException "user_memory_profile_schema_unsupported") else Ok tt
         | Err PyTypeError | Err PyValueError => Err (DomainValidationException "user_memory_profile_schema_invalid")
         | Err e => Err e
         end
  end.

(** An entry of the preferences: source, version and value. *)
Definition entry_source (d : pydict) : option string := match dict_getv "source" d with PNone => None | v => Some (str_of py_str v) end.
Definition entry_version (d : pydict) : res exc Z :=
  match dict_getv "version" d with
  | PNone => Ok 0%Z
  | v => match py_int int_of_string v with Err PyTypeError | Err PyValueError => Ok 0%Z | r => r end
  end.
Definition priority_in (priorities : list (string * Z)) (source : string) : Z :=
  match List.find (fun p => String.eqb p.1 source) priorities with Some p => p.2 | None => 0 end.

Record UserPreferenceUpsertResult : Type := {
  up_updated : bool;
  up_version : Z;
  up_reason : string;
}.
Definition make_entry (value : pyval) (source : string) (version : Z) : pyval :=
  PDict [("value", value); ("source", PStr source); ("version", PInt version)].

(** What [upsert_user_preference_deterministic] does to a profile: the new profile, if it changes. *)
Definition update_preference (profile : pydict) (key : string) (value : pyval) (source : string) (priorities : list (string * Z))
    (ignore_unchanged : bool) : res exc (option pydict * UserPreferenceUpsertResult) :=
  _validate_profile_schema_version profile ;;!
  let profile := if truthy (dict_getv "profile_schema_version" profile) then profile
                 else dict_set "profile_schema_version" (PInt 1) profile in
  let prefs := match dict_get "memory_preferences" profile with Some (PDict d) => d | _ => [] end in
  let entry := dict_getv key prefs in
  let details := match entry with PDict d => d | _ => [] end in
  let previous_source := entry_source details in
  let previous_priority := from_option (priority_in priorities) 0%Z previous_source in
  let! previous_version := entry_version details in
  let written version := dict_set "memory_preferences" (PDict (dict_set key (make_entry value source version) prefs)) profile in
  match entry with
  | PNone => Ok (Some (written 1%Z), {| up_updated := true; up_version := 1; up_reason := "inserted" |})
  | _ =>
      let kept := if (previous_version =? 0)%Z then 1%Z else previous_version in
      if ignore_unchanged && py_eq same (dict_getv "value" details) value
      then Ok (None, {| up_updated := false; up_version := kept; up_reason := "unchanged" |})
      else if (priority_in priorities source <? previous_priority)%Z
      then Ok (None, {| up_updated := false; up_version := kept; up_reason := "source_priority_denied" |})
      else Ok (Some (written (previous_version + 1)%Z),
               {| up_updated := true; up_version := previous_version + 1; up_reason := "updated" |})
  end.

(** [_deep_merge]. *)
Fixpoint merge_value (current value : pyval) {struct value} : pyval :=
  match current, value with
  | PDict l, PDict r =>
      PDict ((fix go (acc r : pydict) : pydict :=
                match r with
                | [] => acc
                | (k, v) :: r' => go (dict_set k (merge_value (dict_getv k acc) v) acc) r'
                end) l r)
  | _, _ => value
  end.
Definition _deep_merge (l r : pydict) : pydict :=
  foldl (fun acc kv => dict_set kv.1 (merge_value (dict_getv kv.1 acc) kv.2) acc) l r.
End profiles.

(** ** The service *)

Section memory.
Context {P : Type}.
Variable same : pyval -> pyval -> bool.
Variable py_str : pyval -> string.
Variable int_of_string : string -> option Z.
Variable uuid_str : uuid -> string.
(** [pydantic], [json.dumps], ISO times and the clock. *)
Variable parse_item : pydict -> res exc UserMemoryItem.
Variable json_dumps : pydict -> string.
Variable isoformat : Z -> string.
Variable now : Z.
(** The memory policies of tenants. *)
Variable active_memory_policy_version : uuid -> option uuid.
Variable memory_policy_version : uuid -> option (res exc MemoryPolicyDefinition).
(** The calls of the retrieval service ([Rag]): the cap, the count, preparing and embedding a document. *)
Variable document_cap : uuid -> res exc Z.
Variable count_memories : uuid -> string -> uuid -> M (rag P) Z.
Variable prepare : uuid -> uuid -> RagDocumentCreate -> M (rag P) (uuid * EmbeddingStatus).
Variable embed : uuid -> uuid -> uuid -> M (rag P) (uuid * EmbeddingStatus).
(** Is there a queue of embedding jobs? *)
Variable queued : bool.

Abbreviation W := (M (memory P)).

Definition on_rag {A} (m : M (rag P) A) : W A := fun s =>
  match m (mm_rag s) with
  | (r, g) => (r, {| mm_rag := g; mm_profiles := mm_profiles s; mm_events := mm_events s; mm_jobs := mm_jobs s |})
  end.
Definition set_profiles (v : gmap (uuid * string) (pydict * Z)) (s : memory P) : memory P :=
  {| mm_rag := mm_rag s; mm_profiles := v; mm_events := mm_events s; mm_jobs := mm_jobs s |}.

(** *** The policy *)

(** [MemoryPolicyService.resolve]. *)
Definition resolve_memory_policy (tenant : uuid) : res exc (option uuid * option MemoryPolicyDefinition) :=
  match active_memory_policy_version tenant with
  | None => Ok (None, None)
  | Some v => match memory_policy_version v with
              | None => Ok (None, None)
              | Some r => let! d := r in Ok (Some v, Some d)
              end
  end.

(** The profile of a user and the preferences in it. *)
Definition get_user_memory_profile (tenant : uuid) (user : string) (s : memory P) : pydict := from_option fst [] (mm_profiles s !! (tenant, user)).
Definition get_user_preferences (tenant : uuid) (user : string) : W pydict :=
  let* s := mget in
  let profile := get_user_memory_profile tenant user s in
  mlift (_validate_profile_schema_version int_of_string profile) ;;*
  mret (_preferences_dict_from_profile profile).

(** [_validate_allowed_source], [_validate_allowed_schema], [_validate_schema_payload]. *)
Definition _validate_allowed_source (d : MemoryPolicyDefinition) (source : MemoryPolicySource) : res exc unit :=
  if negb (bool_decide (mp_sources d = [])) && negb (bool_decide (source ∈ mp_sources d))
  then Err (AuthorizationDeniedException "memory_source_not_allowed") else Ok tt.
Definition _find_allowed_schema (schema : string) (l : list AllowedSchema) : option AllowedSchema :=
  List.find (fun a => String.eqb (as_schema a) schema) l.
Definition _validate_allowed_schema (d : MemoryPolicyDefinition) (schema : string) : res exc (option AllowedSchema) :=
  match mp_schemas d with
  | [] => Ok None
  | l => match _find_allowed_schema schema l with
         | Some a => Ok (Some a)
         | None => Err (AuthorizationDeniedException "memory_schema_not_allowed")
         end
  end.
Definition _validate_schema_payload (schema : option AllowedSchema) (payload : pydict) : res exc unit :=
  match schema with
  | None => Ok tt
  | Some a =>
      if from_option (fun m => (m <? Z.of_nat (String.length (json_dumps payload)))%Z) false (as_max_bytes a)
      then Err (DomainValidationException "memory_item_too_large")
      else match dict_get "allowed" (as_fields a) with
           | Some (PList l) => if forallb (fun kv => bool_decide (kv.1 ∈ str_of py_str <$> l)) payload then Ok tt
                               else Err (DomainValidationException "memory_item_fields_not_allowed")
           | _ => Ok tt
           end
  end.

(** [_is_consent_granted] and [_enforce_consent]. *)
Definition _is_consent_granted (v : pyval) : bool :=
  match v with
  | PBool b => b
  | PDict d => match dict_get "granted" d with
               | Some (PBool b) => b
               | _ => match dict_get "enabled" d with Some (PBool b) => b | _ => false end
               end
  | _ => false
  end.
Definition requires_consent (d : MemoryPolicyDefinition) (source : MemoryPolicySource) : bool :=
  cd_required (mp_consent d) || bool_decide (source ∈ cd_sources (mp_consent d)).
Definition _enforce_consent (tenant : uuid) (user : string) (d : MemoryPolicyDefinition) (source : MemoryPolicySource) : W unit :=
  if negb (requires_consent d source) then mret tt
  else
    let* preferences := get_user_preferences tenant user in
    if _is_consent_granted (dict_getv (cd_key (mp_consent d)) preferences) then mret tt
    else mraise (AuthorizationDeniedException "memory_consent_not_granted").

(** [enforce_write]: the policy and the expiry of the item. *)
Definition enforce_write (tenant : uuid) (user : string) (i : UserMemoryItem) :
    W (option uuid * option MemoryPolicyDefinition * option Z) :=
  let* p := mlift (resolve_memory_policy tenant) in
  match p.2 with
  | None =>
      if bool_decide (mi_source i = INFERRED_LLM) then mraise (AuthorizationDeniedException "memory_policy_required_for_inferred_memory")
      else mret (p, None)
  | Some d =>
      mlift (_validate_allowed_source d (mi_source i)) ;;*
      let* schema := mlift (_validate_allowed_schema d (mi_schema i)) in
      mlift (_validate_schema_payload schema (mi_data i)) ;;*
      _enforce_consent tenant user d (mi_source i) ;;*
      if (mp_ttl d <=? 0)%Z then mraise (DomainValidationException "invalid_memory_policy_ttl")
      else mret (p, Some (default now (mi_observed i) + mp_ttl d)%Z)
  end.

(** *** Events *)

(** [_append_execution_event]. *)
Definition _append_execution_event (tenant : uuid) (ctx : option MemoryWriteEventContext) (type : string) (payload : pydict) : W unit :=
  match ctx with
  | Some {| we_session := Some _; we_run := Some run; we_correlation := Some _ |} =>
      mmodify (fun s => {| mm_rag := mm_rag s; mm_profiles := mm_profiles s; mm_jobs := mm_jobs s;
        mm_events := mm_events s ++ [{| me_tenant := tenant; me_run := run; me_type := type; me_payload := payload |}] |})
  | _ => mret tt
  end.
Definition event_fields (i : UserMemoryItem) (version : option uuid) (target : MemoryWriteTarget) (rest : pydict) : pydict :=
  [("scope", PStr "USER_MEMORY"); ("target", PStr (target_str target)); ("schema_id", PStr (mi_schema i));
   ("schema_version", PInt (mi_version i)); ("source", PStr (source_str (mi_source i)));
   ("policy_version_id", from_option (fun v => PStr (uuid_str v)) PNone version)] ++ rest.
(** [_emit_memory_updated_outcome]. *)
Definition _emit_memory_updated_outcome (tenant : uuid) (ctx : option MemoryWriteEventContext) (i : UserMemoryItem)
    (version : option uuid) (key : option string) (outcome reason : string) (new_version : option Z) : W unit :=
  _append_execution_event tenant ctx "MemoryUpdated" (event_fields i version USER_PREFERENCE
    ([("preference_key", from_option PStr PNone key); ("outcome", PStr outcome); ("reason", PStr reason)] ++
     match new_version with Some n => [("new_version", PInt n)] | None => [] end)).

(** *** Preferences *)

Definition SOURCE_PRIORITY_MAP : list (string * Z) :=
  [(source_str EXPLICIT_USER, 4); (source_str ADMIN_SEED, 3); (source_str TOOL_OUTPUT, 2); (source_str INFERRED_LLM, 1)]%Z.

Definition nonempty_strip (s : string) : option string := if String.eqb (py_strip s) "" then None else Some (py_strip s).
Definition _extract_payload_preference_key (i : UserMemoryItem) : option string :=
  match dict_get "preference_key" (mi_data i) with Some (PStr k) => nonempty_strip k | _ => None end.
(** [_derive_preference_key]. *)
Definition _derive_preference_key (i : UserMemoryItem) (p : option PreferenceUpdatePolicy) : option string * string :=
  match p with
  | None => (None, "no_policy")
  | Some p =>
      match pu_fixed_key p with
      | Some k => match nonempty_strip k with Some k => (Some k, "fixed_key_used") | None => (None, "no_policy") end
      | None =>
          match _extract_payload_preference_key i with
          | Some k => if bool_decide (k ∈ pu_allowed_keys p) then (Some k, "key_allowed") else (None, "key_not_allowed")
          | None => (None, "key_not_allowed")
          end
      end
  end.

(** [upsert_user_preference_deterministic], on the row of the user. *)
Definition upsert_user_preference_deterministic (tenant : uuid) (user key : string) (value : pyval) (source : string)
    (priorities : list (string * Z)) (ignore_unchanged : bool) : W UserPreferenceUpsertResult :=
  let* s := mget in
  let* r := mlift (update_preference same py_str int_of_string (get_user_memory_profile tenant user s) key value source priorities ignore_unchanged) in
  (match r.1 with
   | Some profile => mmodify (set_profiles (<[(tenant, user) := (profile, from_option (fun p => p.2 + 1)%Z 1%Z (mm_profiles s !! (tenant, user)))]> (mm_profiles s)))
   | None => mret tt
   end) ;;*
  mret r.2.
(** [upsert_user_memory_profile]. *)
Definition upsert_user_memory_profile (tenant : uuid) (user : string) (profile : pydict) : W Z :=
  let* s := mget in
  let version := from_option (fun p => p.2 + 1)%Z 1%Z (mm_profiles s !! (tenant, user)) in
  mmodify (set_profiles (<[(tenant, user) := (profile, version)]> (mm_profiles s))) ;;*
  mret version.

(** *** Writing an item *)

Definition _resolve_write_targets (i : UserMemoryItem) (l : list AllowedSchema) : list MemoryWriteTarget :=
  match _find_allowed_schema (mi_schema i) l with
  | Some a => match as_targets a with [] => [USER_MEMORY_VECTOR] | t => t end
  | None => [USER_MEMORY_VECTOR]
  end.
Definition no_result : MemoryWriteResult := {| wr_targets := []; wr_preference := None; wr_profile := None; wr_document := None |}.

Definition write_preference (tenant : uuid) (user : string) (i : UserMemoryItem) (ctx : option MemoryWriteEventContext)
    (version : option uuid) (schema : option AllowedSchema) (r : MemoryWriteResult) : W MemoryWriteResult :=
  let policy := schema ≫= as_preference in
  let '(key, reason) := _derive_preference_key i policy in
  match key with
  | None =>
      _emit_memory_updated_outcome tenant ctx i version (_extract_payload_preference_key i) "ignored" reason None ;;* mret r
  | Some key =>
      match dict_get "preference_value" (mi_data i) with
      | None => _emit_memory_updated_outcome tenant ctx i version (Some key) "ignored" "missing_value" None ;;* mret r
      | Some value =>
          let* u := upsert_user_preference_deterministic tenant user key value (source_str (mi_source i)) SOURCE_PRIORITY_MAP
                      (from_option pu_ignore_unchanged true policy) in
          if up_updated u then
            _emit_memory_updated_outcome tenant ctx i version (Some key) "applied" reason (Some (up_version u)) ;;*
            mret {| wr_targets := wr_targets r ++ [USER_PREFERENCE]; wr_preference := Some (up_version u); wr_profile := wr_profile r;
                    wr_document := wr_document r |}
          else
            _emit_memory_updated_outcome tenant ctx i version (Some key) "ignored"
              (if String.eqb (up_reason u) "" then "source_priority_denied" else up_reason u) None ;;*
            mret r
      end
  end.

Definition write_profile (tenant : uuid) (user : string) (i : UserMemoryItem) (ctx : option MemoryWriteEventContext)
    (version : option uuid) (r : MemoryWriteResult) : W MemoryWriteResult :=
  match dict_get "profile_patch" (mi_data i) with
  | Some (PDict patch) =>
      let* s := mget in
      let* n := upsert_user_memory_profile tenant user (_deep_merge (get_user_memory_profile tenant user s) patch) in
      _append_execution_event tenant ctx "MemoryUpdated" (event_fields i version USER_MEMORY_PROFILE [("profile_version", PInt n)]) ;;*
      mret {| wr_targets := wr_targets r ++ [USER_MEMORY_PROFILE]; wr_preference := wr_preference r; wr_profile := Some n;
              wr_document := wr_document r |}
  | _ => mraise (DomainValidationException "memory_profile_patch_required")
  end.

(** The document of a memory. *)
Definition memory_document (user : string) (i : UserMemoryItem) (version : option uuid) (expires : option Z) : RagDocumentCreate := {|
  dc_source := source_str (mi_source i); dc_type := "USER_MEMORY_ITEM"; dc_content := json_dumps (mi_data i);
  dc_metadata := [("scope", PStr "USER_MEMORY"); ("user_id", PStr user); ("schema_id", PStr (mi_schema i));
    ("schema_version", PInt (mi_version i)); ("policy_version_id", from_option (fun v => PStr (uuid_str v)) PNone version);
    ("observed_at", from_option (fun t => PStr (isoformat t)) PNone (mi_observed i));
    ("expires_at", from_option (fun t => PStr (isoformat t)) PNone expires)];
  dc_config := None; dc_pages := None |}.

Definition write_vector (tenant : uuid) (user : string) (i : UserMemoryItem) (ctx : option MemoryWriteEventContext)
    (version : option uuid) (expires : option Z) (r : MemoryWriteResult) : W MemoryWriteResult :=
  let* cap := mlift (document_cap tenant) in
  let* count := on_rag (count_memories tenant user (mi_config i)) in
  if (count <? cap)%Z then
    let* p := on_rag (prepare tenant (mi_config i) (memory_document user i version expires)) in
    let applied d := {| wr_targets := wr_targets r ++ [USER_MEMORY_VECTOR]; wr_preference := wr_preference r; wr_profile := wr_profile r;
                        wr_document := Some d |} in
    let fields d := event_fields i version USER_MEMORY_VECTOR [("rag_config_id", PStr (uuid_str (mi_config i))); ("document_id", PStr (uuid_str d))] in
    if queued then
      mmodify (fun s => {| mm_rag := mm_rag s; mm_profiles := mm_profiles s; mm_events := mm_events s;
        mm_jobs := mm_jobs s ++ [{| ej_tenant := tenant; ej_config := mi_config i; ej_document := p.1; ej_user := user |}] |}) ;;*
      _append_execution_event tenant ctx "MemoryEmbeddingQueued" (fields p.1) ;;*
      mret (applied p.1)
    else if bool_decide (p.2 = COMPLETED) then
      _append_execution_event tenant ctx "MemoryEmbedded" (fields p.1) ;;* mret (applied p.1)
    else
      let* d := on_rag (embed tenant (mi_config i) p.1) in
      _append_execution_event tenant ctx "MemoryEmbedded" (fields d.1) ;;* mret (applied d.1)
  else mret r.

(** [write_memory_item]. *)
Definition write_memory_item (tenant : uuid) (user : string) (item : pydict) (ctx : option MemoryWriteEventContext) : W MemoryWriteResult :=
  let* i := mlift (parse_item item) in
  let* e := enforce_write tenant user i in
  let '(version, definition, expires) := e in
  let schemas := from_option mp_schemas [] definition in
  let targets := _resolve_write_targets i schemas in
  let schema := _find_allowed_schema (mi_schema i) schemas in
  let* r := if bool_decide (USER_PREFERENCE ∈ targets) then write_preference tenant user i ctx version schema no_result else mret no_result in
  let* r := if bool_decide (USER_MEMORY_PROFILE ∈ targets) then write_profile tenant user i ctx version r else mret r in
  if bool_decide (USER_MEMORY_VECTOR ∈ targets) then write_vector tenant user i ctx version expires r else mret r.

(** ** Extraction *)

Variable parse_config : pydict -> res exc MemoryExtractionConfig.
(** The model: its output, validated; [None] without a model. *)
Variable extract : option (pydict -> MemoryExtractionConfig -> P -> res exc MemoryExtractionLLMOutput * P).

Definition inferred_item (c : MemoryExtractionConfig) (schema : string) (version : Z) (data : pydict) : pydict :=
  [("schema_id", PStr schema); ("schema_version", PInt version); ("data", PDict data); ("source", PStr (source_str INFERRED_LLM));
   ("observed_at", PNone); ("rag_config_id", PStr (uuid_str (xc_config c)))].
Definition counted_write (tenant : uuid) (user : string) (ctx : option MemoryWriteEventContext) (target : MemoryWriteTarget) (n : tally)
    (item : pydict) : W tally :=
  let* r := write_memory_item tenant user item ctx in
  mret (n.1 + 1, if bool_decide (target ∈ wr_targets r) then n.2 + 1 else n.2)%Z.
Fixpoint write_items (tenant : uuid) (user : string) (ctx : option MemoryWriteEventContext) (target : MemoryWriteTarget) (n : tally)
    (l : list pydict) : W tally :=
  match l with
  | [] => mret n
  | x :: l' => let* n := counted_write tenant user ctx target n x in write_items tenant user ctx target n l'
  end.

(** [MemoryExtractionProcessor.execute]: the reason it was skipped, or what was written. *)
Definition execute_extraction (tenant : uuid) (user : string) (output config : pydict) (ctx : option MemoryWriteEventContext) :
    W (string + (tally * tally * tally)) :=
  match parse_config config with
  | Err _ => mret (inl "invalid_config")
  | Ok c =>
      if negb (xc_enabled c) then mret (inl "disabled")
      else match extract with
      | None => mret (inl "missing_llm_executor")
      | Some extract =>
          let* p := mlift (resolve_memory_policy tenant) in
          if negb (bool_decide (INFERRED_LLM ∈ from_option mp_sources [] p.2)) then mret (inl "inferred_llm_not_allowed")
          else
            let* x := mtry (let* x := on_rag (adapter (extract output c)) in mret (Some x)) (fun _ => mret None) in
            match x with
            | None => mret (inl "llm_failed")
            | Some x =>
                let* a := write_items tenant user ctx USER_PREFERENCE (0, 0)%Z
                  ((fun kv => inferred_item c (xc_preference_schema c) 1
                      [("preference_key", PStr (default "" kv.1)); ("preference_value", kv.2)]) <$> xo_preferences x) in
                let* b := write_items tenant user ctx USER_MEMORY_PROFILE (0, 0)%Z
                  (match xo_patch x with
                   | Some (_ :: _ as patch) => [inferred_item c (xc_profile_schema c) 1 [("profile_patch", PDict patch)]]
                   | _ => []
                   end) in
                let* d := write_items tenant user ctx USER_MEMORY_VECTOR (0, 0)%Z
                  ((fun v => inferred_item c v.1.1 v.1.2 v.2) <$> xo_vector x) in
                mret (inr (a, b, d))
            end
      end
  end.
End memory.
