(* ===== verification/MemoryFacts.v ===== *)
(** * MemoryFacts: what writes of memories keep

    Theorems about [Memory]: patches of a profile are idempotent, preferences follow the priority of their sources, writes are
    authorised by the policy and stay within the user and the cap. *)

From S2P Require Import Prelude.
From S2P Require Import Errors.
From S2P Require Import PyValue.
From S2P Require Import PyString.
From S2P Require Import PyFloat.
From S2P Require Import StateMachine.
From S2P Require Import Effects.
From S2P Require Import Store.
From S2P Require Import Chunking.
From S2P Require Import Rag.
From S2P Require Import RagFacts.
From S2P Require Import Memory.

(** ** Patches *)

(** [merge_value] on two dicts is [_deep_merge]. *)
Lemma merge_dicts l r : merge_value (PDict l) (PDict r) = PDict (_deep_merge l r).
Proof.
  unfold _deep_merge. simpl. f_equal. revert l. induction r as [|[k v] r IH]; intros l; [done|]. apply IH.
Qed.

Lemma deep_merge_cons l k v r : _deep_merge l ((k, v) :: r) = _deep_merge (dict_set k (merge_value (dict_getv k l) v) l) r.
Proof. done. Qed.

(** Keys the patch does not have keep their values. *)
Lemma deep_merge_frame l r k : k ∉ r.*1 -> dict_get k (_deep_merge l r) = dict_get k l.
Proof.
  revert l. induction r as [|[k' v] r IH]; intros l Hk; [done|]. rewrite deep_merge_cons, IH by set_solver.
  apply dict_get_set_ne. set_solver.
Qed.
(** Keys the patch has are merged. *)
Lemma deep_merge_lookup l r k v : NoDup r.*1 -> (k, v) ∈ r -> dict_get k (_deep_merge l r) = Some (merge_value (dict_getv k l) v).
Proof.
  revert l. induction r as [|[k' v'] r IH]; intros l Hnd Hin; [by apply not_elem_of_nil in Hin|]. simpl in Hnd. apply NoDup_cons in Hnd as [Hk Hnd].
  rewrite deep_merge_cons. apply elem_of_cons in Hin as [[= -> ->]|Hin].
  - rewrite deep_merge_frame by done. apply dict_get_set_eq.
  - rewrite (IH _ Hnd Hin). do 2 f_equal. assert (k <> k').
    { intros ->. apply Hk. apply list_elem_of_fmap. by exists (k', v). }
    unfold dict_getv. by rewrite dict_get_set_ne.
Qed.

(** Dicts have every key once, at every depth. *)
Fixpoint well_keyed (v : pyval) : Prop :=
  match v with
  | PDict d => NoDup d.*1 /\ (fix go (d : pydict) : Prop := match d with [] => True | (_, x) :: d' => well_keyed x /\ go d' end) d
  | _ => True
  end.
Lemma well_keyed_dict d : well_keyed (PDict d) <-> NoDup d.*1 /\ Forall (fun kv => well_keyed kv.2) d.
Proof.
  simpl. split; intros [H1 H2]; (split; [done|]); clear H1.
  - induction d as [|[k x] d IH]; [constructor|]. destruct H2 as [Hx Hd]. constructor; [done | by apply IH].
  - induction H2 as [|[k x] d Hx _ IH]; [done|]. by split.
Qed.

Lemma dict_get_NoDup k v (d : pydict) : NoDup d.*1 -> (k, v) ∈ d -> dict_get k d = Some v.
Proof.
  induction d as [|[k' x] d IH]; intros Hnd Hin; [by apply not_elem_of_nil in Hin|]. simpl in *. apply NoDup_cons in Hnd as [Hk Hnd].
  apply elem_of_cons in Hin as [[= -> ->]|Hin]; [by rewrite String.eqb_refl|]. destruct (String.eqb_spec k k') as [->|]; [|by apply IH].
  destruct Hk. apply list_elem_of_fmap. by exists (k', v).
Qed.
Lemma dict_set_same k v d : dict_get k d = Some v -> dict_set k v d = d.
Proof.
  induction d as [|[k' x] d IH]; simpl; [done|]. destruct (String.eqb_spec k k') as [->|]; [by intros [= ->] | intros H; by rewrite IH].
Qed.

(** A second pass over merged keys changes nothing. *)
Lemma deep_merge_stable l r : (forall k v, (k, v) ∈ r -> exists x, dict_get k l = Some x /\ merge_value x v = x) -> _deep_merge l r = l.
Proof.
  induction r as [|[k v] r IH]; intros H; [done|]. rewrite deep_merge_cons. destruct (H k v ltac:(by constructor)) as (x & Hx & Hm).
  assert (Hg : dict_getv k l = x) by (unfold dict_getv; by rewrite Hx). rewrite Hg, Hm, dict_set_same by done. apply IH. intros k' v' Hin. apply H. by constructor.
Qed.

Lemma merge_idempotent v c : well_keyed v -> merge_value (merge_value c v) v = merge_value c v.
Proof.
  revert c. induction v as [| | | | | l IH | d IH | o n IH] using pyval_nested_ind; intros c Hv; try by destruct c.
  apply well_keyed_dict in Hv as [Hnd Hv].
  assert (Hgo : forall l, _deep_merge (_deep_merge l d) d = _deep_merge l d).
  { intros l. apply deep_merge_stable. intros k v Hin. exists (merge_value (dict_getv k l) v). split; [by apply deep_merge_lookup|].
    rewrite Forall_forall in IH, Hv. exact (IH (k, v) Hin _ (Hv (k, v) Hin)). }
  assert (Hself : _deep_merge d d = d).
  { apply deep_merge_stable. intros k v Hin. exists v. split; [by apply dict_get_NoDup|]. rewrite Forall_forall in IH, Hv.
    assert (Hv1 : merge_value PNone v = v) by (by destruct v). pose proof (IH (k, v) Hin PNone (Hv (k, v) Hin)) as Hi. cbn [snd] in Hi. by rewrite Hv1 in Hi. }
  destruct c as [| | | | | |e|]; try (change (merge_value (PDict d) (PDict d) = PDict d); by rewrite merge_dicts, Hself).
  by rewrite !merge_dicts, Hgo.
Qed.

(** Profile patches are idempotent: applying a patch to a profile sets the keys the patch has, merging dicts, and leaves the others; applying
    it again, as a repeated write does, changes nothing more. *)
Theorem patches_idempotent profile patch :
  well_keyed (PDict patch) ->
  _deep_merge (_deep_merge profile patch) patch = _deep_merge profile patch /\
  (forall k, k ∉ patch.*1 -> dict_get k (_deep_merge profile patch) = dict_get k profile) /\
  (forall k v, (k, v) ∈ patch -> dict_get k (_deep_merge profile patch) = Some (merge_value (dict_getv k profile) v)).
Proof.
  intros Hp. pose proof (merge_idempotent (PDict patch) (PDict profile) Hp) as Hm. rewrite !merge_dicts in Hm. injection Hm as Hm.
  apply well_keyed_dict in Hp as [Hnd _]. split_and!; [done | intros k; apply deep_merge_frame | intros k v; by apply deep_merge_lookup].
Qed.

(** ** Preferences *)

Section preferences.
Variable same : pyval -> pyval -> bool.
Variable py_str : pyval -> string.
Variable int_of_string : string -> option Z.
Variable priorities : list (string * Z).
Variable ignore_unchanged : bool.

(** What is remembered under a key: value, source and version. *)
Definition remembered : Type := pyval * string * Z.
(** A write: a value that is not new is ignored, and so is one of a lower source. *)
Definition remember (m : option remembered) (w : string * pyval) : option remembered :=
  match m with
  | None => Some (w.2, w.1, 1%Z)
  | Some (v, s, n) =>
      if ignore_unchanged && py_eq same v w.2 then m
      else if (priority_in priorities w.1 <? priority_in priorities s)%Z then m
      else Some (w.2, w.1, (n + 1)%Z)
  end.

Lemma remember_monotone m w v s n :
  m = Some (v, s, n) -> (1 <= n)%Z ->
  exists v' s' n', remember m w = Some (v', s', n') /\ (priority_in priorities s <= priority_in priorities s')%Z /\ (n <= n')%Z.
Proof.
  intros -> Hn. unfold remember. case_match; [by exists v, s, n; split_and!|].
  destruct (Z.ltb_spec (priority_in priorities w.1) (priority_in priorities s)); [by exists v, s, n; split_and!|].
  eexists _, _, _. split_and!; [done | done | lia].
Qed.

(** The entries of a profile. *)
Definition entries_of (profile : pydict) : pydict := match dict_get "memory_preferences" profile with Some (PDict d) => d | _ => [] end.
Definition holds (profile : pydict) (key : string) (m : option remembered) : Prop :=
  (dict_getv "profile_schema_version" profile = PNone \/ dict_getv "profile_schema_version" profile = PInt 1) /\
  dict_getv key (entries_of profile) = from_option (fun x => make_entry x.1.1 x.1.2 x.2) PNone m /\
  from_option (fun x => (1 <= x.2)%Z) True m.

(** [update_preference] does what [remember] says, to that key only. *)
Lemma update_remembers profile key value source m :
  holds profile key m ->
  exists r res, update_preference same py_str int_of_string profile key value source priorities ignore_unchanged = Ok (r, res) /\
    holds (default profile r) key (remember m (source, value)) /\
    (forall k, k <> key -> dict_getv k (entries_of (default profile r)) = dict_getv k (entries_of profile)) /\
    (forall k, k <> "memory_preferences" -> k <> "profile_schema_version" -> dict_get k (default profile r) = dict_get k profile).
Proof.
  intros (Hv & He & Hn). unfold update_preference.
  assert (Hval : _validate_profile_schema_version int_of_string profile = Ok tt) by (unfold _validate_profile_schema_version; by destruct Hv as [-> | ->]).
  rewrite Hval. cbn [rbind]. set (profile1 := if truthy _ then profile else _).
  assert (H1 : dict_getv "profile_schema_version" profile1 = PInt 1).
  { unfold profile1. destruct Hv as [Hv|Hv]; rewrite Hv; [apply (dict_getv_set_eq "profile_schema_version" (PInt 1) profile) | exact Hv]. }
  assert (H2 : forall k, k <> "profile_schema_version" -> dict_get k profile1 = dict_get k profile).
  { intros k Hk. unfold profile1. case_match; [done | by rewrite dict_get_set_ne]. }
  assert (Hent : match dict_get "memory_preferences" profile1 with Some (PDict d) => d | _ => [] end = entries_of profile) by (by rewrite H2).
  cbv zeta. rewrite Hent, He.
  assert (Hwritten : forall n, (1 <= n)%Z -> let p := dict_set "memory_preferences" (PDict (dict_set key (make_entry value source n) (entries_of profile))) profile1 in
    holds p key (Some (value, source, n)) /\ (forall k, k <> key -> dict_getv k (entries_of p) = dict_getv k (entries_of profile)) /\
    (forall k, k <> "memory_preferences" -> k <> "profile_schema_version" -> dict_get k p = dict_get k profile)).
  { intros n Hn1 p. assert (Hp : entries_of p = dict_set key (make_entry value source n) (entries_of profile)) by (unfold entries_of at 1; unfold p; by rewrite dict_get_set_eq).
    split_and!; [split_and!|..].
    - right. unfold p. by rewrite dict_getv_set_ne.
    - by rewrite Hp, dict_getv_set_eq.
    - done.
    - intros k Hk. by rewrite Hp, dict_getv_set_ne.
    - intros k Hk1 Hk2. unfold p. rewrite dict_get_set_ne by done. by apply H2. }
  destruct m as [[[v s] n]|]; cbn [from_option] in *.
  - cbn [fst snd]. change (make_entry v s n) with (PDict [("value", v); ("source", PStr s); ("version", PInt n)]). cbv iota.
    set (d0 := [("value", v); ("source", PStr s); ("version", PInt n)]) in *.
    assert (E1 : entry_source py_str d0 = Some s) by done. assert (E2 : entry_version int_of_string d0 = Ok n) by done.
    assert (E3 : dict_getv "value" d0 = v) by done. rewrite E1, E2, E3. cbn [rbind from_option]. unfold remember. cbn [fst snd].
    destruct (ignore_unchanged && py_eq same v value); [|destruct (priority_in priorities source <? priority_in priorities s)%Z].
    + eexists _, _. split; [done|]. split_and!; done.
    + eexists _, _. split; [done|]. split_and!; done.
    + eexists _, _. split; [done|]. apply Hwritten. cbn in Hn. lia.
  - eexists _, _. split; [done|]. by apply (Hwritten 1%Z).
Qed.

Section history.
Context {P : Type}.
Implicit Types s : memory P.
Abbreviation upsert_ := (upsert_user_preference_deterministic (P := P) same py_str int_of_string).

(** Writes of one preference, one after the other. *)
Fixpoint prefer_all (tenant : uuid) (user key : string) (l : list (string * pyval)) : M (memory P) unit :=
  match l with
  | [] => mret tt
  | (source, value) :: l' => upsert_ tenant user key value source priorities ignore_unchanged ;;* prefer_all tenant user key l'
  end.

Lemma upsert_remembers tenant user key value source m s :
  holds (get_user_memory_profile tenant user s) key m ->
  exists u s', upsert_ tenant user key value source priorities ignore_unchanged s = (Ok u, s') /\
    holds (get_user_memory_profile tenant user s') key (remember m (source, value)) /\
    (forall k, k <> key -> dict_getv k (entries_of (get_user_memory_profile tenant user s')) = dict_getv k (entries_of (get_user_memory_profile tenant user s))) /\
    (forall t, t <> (tenant, user) -> mm_profiles s' !! t = mm_profiles s !! t).
Proof.
  intros Hm. destruct (update_remembers _ key value source m Hm) as (r & res & Hu & Hh & Hk & _).
  unfold upsert_user_preference_deterministic, mbind_ at 1, mget. rewrite Hu. unfold mlift, mbind_, mret. cbn [fst snd].
  destruct r as [profile|]; cbn [default from_option] in *; [|by eexists _, _; split_and!].
  eexists _, _. split; [done|]. unfold get_user_memory_profile in *. simpl. rewrite lookup_insert_eq. split_and!; [done | done |].
  intros t Ht. by rewrite lookup_insert_ne.
Qed.

(** [C23] Preferences are what their sources left: after any sequence of writes of a preference, the profile of the user holds under its key
    exactly the value, source and version of the abstract preference, which ignores values that are not new and writes of a
    source with a lower priority than the one remembered, and counts the others; the priority of the remembered source never
    decreases, and neither other preferences nor profiles of other users change. *)
Theorem preferences_refine tenant user key l m s :
  holds (get_user_memory_profile tenant user s) key m ->
  exists s', prefer_all tenant user key l s = (Ok tt, s') /\
    holds (get_user_memory_profile tenant user s') key (foldl remember m l) /\
    (forall v source n v' source' n', m = Some (v, source, n) -> foldl remember m l = Some (v', source', n') ->
       (priority_in priorities source <= priority_in priorities source' /\ n <= n')%Z) /\
    (forall k, k <> key -> dict_getv k (entries_of (get_user_memory_profile tenant user s')) = dict_getv k (entries_of (get_user_memory_profile tenant user s))) /\
    (forall t, t <> (tenant, user) -> mm_profiles s' !! t = mm_profiles s !! t).
Proof.
  revert m s. induction l as [|[source value] l IH]; intros m s Hm; cbn [prefer_all foldl].
  { exists s. split_and!; [done | done | | done | done]. intros. simplify_eq. lia. }
  destruct (upsert_remembers tenant user key value source m s Hm) as (u & s1 & Hu & Hh & Hk & Ht). rewrite (mbind_run _ _ _ _ _ Hu).
  destruct (IH _ s1 Hh) as (s' & Hr & Hh' & Hmono & Hk' & Ht'). exists s'. split_and!; [done | done | | |].
  - intros v src n v' src' n' Em Ef. assert (1 <= n)%Z by (destruct Hm as (_ & _ & Hn); subst m; exact Hn).
    destruct (remember_monotone m (source, value) v src n Em ltac:(done)) as (v1 & s1' & n1 & E1 & Hp & Hn1).
    destruct (Hmono _ _ _ _ _ _ E1 Ef). lia.
  - intros k Hne. by rewrite Hk', Hk.
  - intros t Hne. by rewrite Ht', Ht.
Qed.
End history.
End preferences.

(** ** Authorised writes *)

Section writes.
Context {P : Type}.
Variable same : pyval -> pyval -> bool.
Variable py_str : pyval -> string.
Variable int_of_string : string -> option Z.
Variable uuid_str : uuid -> string.
Variable parse_item : pydict -> res exc UserMemoryItem.
Variable json_dumps : pydict -> string.
Variable isoformat : Z -> string.
Variable now : Z.
Variable active_memory_policy_version : uuid -> option uuid.
Variable memory_policy_version : uuid -> option (res exc MemoryPolicyDefinition).
Variable document_cap : uuid -> res exc Z.
Variable count_memories : uuid -> string -> uuid -> M (rag P) Z.
Variable prepare : uuid -> uuid -> RagDocumentCreate -> M (rag P) (uuid * EmbeddingStatus).
Variable embed : uuid -> uuid -> uuid -> M (rag P) (uuid * EmbeddingStatus).
Variable queued : bool.
Implicit Types s : memory P.

Abbreviation policy_ := (resolve_memory_policy active_memory_policy_version memory_policy_version).
Abbreviation enforce_ := (enforce_write (P := P) py_str int_of_string json_dumps now active_memory_policy_version memory_policy_version).
Abbreviation write_ := (write_memory_item same py_str int_of_string uuid_str parse_item json_dumps isoformat now
  active_memory_policy_version memory_policy_version document_cap count_memories prepare embed queued).

(** The user has consented. *)
Definition consented (tenant : uuid) (user : string) (d : MemoryPolicyDefinition) s : Prop :=
  _is_consent_granted (dict_getv (cd_key (mp_consent d)) (_preferences_dict_from_profile (get_user_memory_profile tenant user s))) = true.
(** The payload fits a schema. *)
Definition fits (a : AllowedSchema) (payload : pydict) : Prop :=
  from_option (fun m => Z.of_nat (String.length (json_dumps payload)) <= m)%Z True (as_max_bytes a) /\
  forall l, dict_get "allowed" (as_fields a) = Some (PList l) -> forall k v, (k, v) ∈ payload -> k ∈ str_of py_str <$> l.
(** The policy permits the write. *)
Definition permitted (tenant : uuid) (user : string) (i : UserMemoryItem) s : Prop :=
  exists version definition, policy_ tenant = Ok (version, definition) /\
    match definition with
    | None => mi_source i <> INFERRED_LLM
    | Some d =>
        (mp_sources d = [] \/ mi_source i ∈ mp_sources d) /\
        (mp_schemas d = [] \/ exists a, a ∈ mp_schemas d /\ as_schema a = mi_schema i /\ fits a (mi_data i)) /\
        (requires_consent d (mi_source i) = true -> consented tenant user d s) /\ (0 < mp_ttl d)%Z
    end.

Lemma payload_fits a payload : _validate_schema_payload py_str json_dumps (Some a) payload = Ok tt -> fits a payload.
Proof.
  unfold _validate_schema_payload, fits. destruct (as_max_bytes a) as [m|]; cbn [from_option].
  - destruct (Z.ltb_spec m (Z.of_nat (String.length (json_dumps payload)))); [done|]. intros H1. split; [lia|]. intros l Hl. rewrite Hl in H1.
    destruct (forallb _ payload) eqn:E; [|done]. rewrite forallb_forall in E. intros k v Hin. specialize (E (k, v)). apply list_elem_of_In in Hin.
    by apply E, bool_decide_eq_true in Hin.
  - intros H1. split; [done|]. intros l Hl. rewrite Hl in H1. destruct (forallb _ payload) eqn:E; [|done]. rewrite forallb_forall in E.
    intros k v Hin. specialize (E (k, v)). apply list_elem_of_In in Hin. by apply E, bool_decide_eq_true in Hin.
Qed.

(** A consent is read, not written. *)
Lemma consent_spec tenant user d source s :
  exists r, _enforce_consent int_of_string tenant user d source s = (r, s) /\
    (r = Ok tt -> requires_consent d source = true -> consented tenant user d s).
Proof.
  unfold _enforce_consent. destruct (requires_consent d source); cbn [negb]; [|by eexists].
  unfold get_user_preferences, mbind_, mget, mlift, mret, mraise. destruct (_validate_profile_schema_version _ _) as [[]|e]; [|by eexists].
  destruct (_is_consent_granted _) eqn:E; eexists; (split; [reflexivity|]); [by intros _ _ | done].
Qed.

Lemma enforce_spec tenant user i s :
  exists r, enforce_ tenant user i s = (r, s) /\ (forall x, r = Ok x -> permitted tenant user i s).
Proof.
  unfold enforce_write, permitted. unfold mbind_ at 1, mlift at 1. destruct (policy_ tenant) as [[version definition]|e]; [|by eexists].
  cbn [snd]. destruct definition as [d|].
  2: { case_bool_decide as Hs; eexists; (split; [reflexivity|]); [done|]. intros x _. by eexists _, _. }
  unfold mbind_ at 1, mlift at 1. unfold _validate_allowed_source. destruct (negb _ && negb _) eqn:Esrc; [by eexists|].
  unfold mbind_ at 1, mlift at 1. unfold _validate_allowed_schema.
  assert (Hsrc : mp_sources d = [] \/ mi_source i ∈ mp_sources d).
  { apply andb_false_iff in Esrc as [H|H]; apply negb_false_iff, bool_decide_eq_true in H; auto. }
  destruct (mp_schemas d) as [|a0 l] eqn:El; [|destruct (_find_allowed_schema (mi_schema i) (a0 :: l)) as [a|] eqn:Ea; [|by eexists]];
    unfold mbind_ at 1, mlift at 1.
  - cbn [_validate_schema_payload]. destruct (consent_spec tenant user d (mi_source i) s) as ([[]|e] & Hc & Hok); unfold mbind_ at 1; rewrite Hc; [|by eexists].
    destruct (Z.leb_spec (mp_ttl d) 0); eexists; (split; [reflexivity|]); [done|]. intros x _. eexists _, _. split; [done|]. split_and!; auto.
  - destruct (_validate_schema_payload _ _ (Some a) _) as [[]|] eqn:Ep; [|by eexists].
    destruct (consent_spec tenant user d (mi_source i) s) as ([[]|e] & Hc & Hok); unfold mbind_ at 1; rewrite Hc; [|by eexists].
    destruct (Z.leb_spec (mp_ttl d) 0); eexists; (split; [reflexivity|]); [done|]. intros x _. eexists _, _. split; [done|].
    apply find_some in Ea as [Hin Heq]. apply list_elem_of_In in Hin. apply String.eqb_eq in Heq. apply payload_fits in Ep.
    split_and!; [done | right; rewrite El; by exists a | auto | done].
Qed.

(** Only the user's own rows change; events and jobs are the tenant's and the user's. *)
Definition own (tenant : uuid) (user : string) s s' : Prop :=
  (forall t, t <> (tenant, user) -> mm_profiles s' !! t = mm_profiles s !! t) /\
  (exists l, mm_events s' = mm_events s ++ l /\ Forall (fun e => me_tenant e = tenant) l) /\
  (exists l, mm_jobs s' = mm_jobs s ++ l /\ Forall (fun j => ej_tenant j = tenant /\ ej_user j = user) l).
#[local] Instance own_preorder tenant user : PreOrder (own tenant user).
Proof.
  split.
  - intros s. split_and!; [done | exists []; by rewrite app_nil_r | exists []; by rewrite app_nil_r].
  - intros a b c (H1 & (l1 & E1 & F1) & (j1 & J1 & G1)) (H2 & (l2 & E2 & F2) & (j2 & J2 & G2)). split_and!.
    + intros t Ht. by rewrite H2, H1.
    + exists (l1 ++ l2). rewrite E2, E1, app_assoc. split; [done | by apply Forall_app].
    + exists (j1 ++ j2). rewrite J2, J1, app_assoc. split; [done | by apply Forall_app].
Qed.
Lemma own_quiet tenant user s s' :
  (forall t, t <> (tenant, user) -> mm_profiles s' !! t = mm_profiles s !! t) -> mm_events s' = mm_events s -> mm_jobs s' = mm_jobs s -> own tenant user s s'.
Proof. intros H E J. split_and!; [done | exists []; by rewrite app_nil_r | exists []; by rewrite app_nil_r]. Qed.

Lemma own_rag {A} tenant user (m : M (rag P) A) : respects (own tenant user) (on_rag m).
Proof. intros s. unfold on_rag. destruct (m (mm_rag s)). by apply own_quiet. Qed.
Lemma own_upsert tenant user key value source priorities ignore :
  respects (own tenant user) (upsert_user_preference_deterministic same py_str int_of_string tenant user key value source priorities ignore).
Proof.
  intros s. unfold upsert_user_preference_deterministic, mbind_ at 1, mget, mlift, mbind_, mret.
  destruct (update_preference _ _ _ _ _ _ _ _ _) as [[[profile|] u]|e]; [|by apply own_quiet..].
  apply own_quiet; [|done..]. intros t Ht. simpl. by rewrite lookup_insert_ne.
Qed.
Lemma own_profile tenant user profile : respects (own tenant user) (upsert_user_memory_profile tenant user profile).
Proof. intros s. apply own_quiet; [|done..]. intros t Ht. simpl. by rewrite lookup_insert_ne. Qed.
Lemma own_event tenant user ctx type payload : respects (own tenant user) (_append_execution_event tenant ctx type payload).
Proof.
  unfold _append_execution_event. destruct ctx as [[[] [run|] []]|]; try (apply respects_ret; apply _).
  intros s. split_and!; [done | eexists [_]; by repeat constructor | exists []; by rewrite app_nil_r].
Qed.
Lemma own_job tenant user c d :
  respects (own tenant user) (mmodify (fun s => {| mm_rag := mm_rag s; mm_profiles := mm_profiles s; mm_events := mm_events s;
    mm_jobs := mm_jobs s ++ [{| ej_tenant := tenant; ej_config := c; ej_document := d; ej_user := user |}] |})).
Proof. intros s. split_and!; [done | exists []; by rewrite app_nil_r | eexists [_]; by repeat constructor]. Qed.
#[local] Hint Resolve own_rag own_upsert own_profile own_event own_job : frame.
#[local] Opaque upsert_user_preference_deterministic upsert_user_memory_profile.

Lemma own_preference tenant user i ctx version schema r :
  respects (own tenant user) (write_preference (P := P) same py_str int_of_string uuid_str tenant user i ctx version schema r).
Proof.
  unfold write_preference, _emit_memory_updated_outcome. destruct (_derive_preference_key i _) as [[key|] reason]; [|frame].
  repeat (frame || case_match).
Qed.
Lemma own_patch tenant user i ctx version r : respects (own tenant user) (write_profile (P := P) uuid_str tenant user i ctx version r).
Proof. unfold write_profile. repeat (frame || case_match). Qed.
Lemma own_vector tenant user i ctx version expires r :
  respects (own tenant user) (write_vector uuid_str json_dumps isoformat document_cap count_memories prepare embed queued tenant user i ctx version expires r).
Proof. unfold write_vector. cbv zeta. repeat (frame || case_match). Qed.
#[local] Hint Resolve own_preference own_patch own_vector : frame.

Lemma own_enforce tenant user i : respects (own tenant user) (enforce_ tenant user i).
Proof. intros s. destruct (enforce_spec tenant user i s) as (r & -> & _). reflexivity. Qed.
Lemma own_write tenant user item ctx : respects (own tenant user) (write_ tenant user item ctx).
Proof.
  unfold write_memory_item. apply respects_bind; [apply _ | apply respects_lift; apply _ | intros i].
  apply respects_bind; [apply _ | apply own_enforce | intros [[version definition] expires]].
  cbv zeta. repeat (frame || case_match).
Qed.

(** [C22] Memories are written as the policy permits, and only those of the user: a write is either refused with nothing changed, or the policy
    of the tenant permits the item (without a policy, everything that is not inferred; else its source, its schema, its size and
    fields, the consent of the user where one is required, and a positive retention); and in any case no profile of another
    tenant or user changes, and the events and embedding jobs it leaves are of that tenant and that user. *)
Theorem writes_are_authorised tenant user item ctx s :
  ((exists e, write_ tenant user item ctx s = (Err e, s)) \/ (exists i, parse_item item = Ok i /\ permitted tenant user i s)) /\
  own tenant user s (write_ tenant user item ctx s).2.
Proof.
  split; [|apply own_write]. unfold write_memory_item. unfold mbind_ at 1, mlift at 1.
  destruct (parse_item item) as [i|e]; [|left; by exists e]. unfold mbind_ at 1.
  destruct (enforce_spec tenant user i s) as ([x|e] & -> & Hp); [right; exists i; split; [done | by eapply Hp] | left; by exists e].
Qed.
End writes.
