(* ===== verification/Retrieval.v ===== *)
(** * Retrieval: what a node is told of the tenant and the user

    [src/src/domain/context/services/]: the scope of a search ([scope_resolver.py]), whether retrieval is activated
    ([rag_activation_service.py]), the retriever of tenant knowledge and the reader of user memory ([retrievers.py]), snapshots of
    the session ([session_context.py]), and the layers put together ([memory_retrieval.py], [runtime_policy.py]).

    Searches are those of [Rag], profiles those of [Memory], graph states those of [Store].  The configurations of tools are a
    table of another component, read only; [math.exp] and the printing of times are parameters.  Times are in the unit of the
    clock, [total_seconds] turns a difference of them into seconds.  Items are ranked as Python does where no score is a NaN. *)

From S2P Require Import Prelude.
From S2P Require Import Errors.
From S2P Require Import PyValue.
From S2P Require Import PyString.
From S2P Require Import PyFloat.
From S2P Require Import StateMachine.
From S2P Require Import Sorting.
From S2P Require Import Effects.
From S2P Require Import Store.
From S2P Require Import Chunking.
From S2P Require Import Rag.
From S2P Require Import Memory.

(** ** Layers *)

Record AITaskContextFlags : Type := {
  tf_rag_tenant : bool;
  tf_memory_structured : bool;
  tf_memory_vector : bool;
  tf_config : option uuid;
  tf_session : bool;
  tf_memory_write : bool;
}.
Record LayerUsageDecision : Type := {
  ld_session : bool;
  ld_tenant_knowledge : bool;
  ld_memory_structured : bool;
  ld_memory_vector : bool;
  ld_memory_write : bool;
}.
(** [LayerUsageDecision.from_ai_task_flags] and [RuntimeContextLayerPolicy.decide]. *)
Definition layer_decision (flags : option AITaskContextFlags) : LayerUsageDecision :=
  match flags with
  | Some f => {| ld_session := tf_session f; ld_tenant_knowledge := tf_rag_tenant f; ld_memory_structured := tf_memory_structured f;
                 ld_memory_vector := tf_memory_vector f; ld_memory_write := tf_memory_write f |}
  | None => {| ld_session := false; ld_tenant_knowledge := false; ld_memory_structured := false; ld_memory_vector := false;
               ld_memory_write := false |}
  end.

Record SessionContextSnapshot : Type := {
  ss_flow_run : uuid;
  ss_node : option string;
  ss_resume : option string;
  ss_state : pydict;
  ss_memory : list pydict;
}.
Record UserMemoryContext : Type := {
  uc_preferences : pydict;
  uc_profile : pydict;
  uc_rag : option RagContext;
}.
Record LayeredMemoryContext : Type := {
  lc_session : option SessionContextSnapshot;
  lc_tenant : option RagContext;
  lc_user : option UserMemoryContext;
}.
Inductive TemporalTimestampSource : Type := OBSERVED_AT | CREATED_AT.
Record TemporalScoringConfig : Type := {
  ts_enabled : bool;
  ts_half_life : Z;
  ts_source : TemporalTimestampSource;
  ts_multiplier : Z;
}.
(** [TemporalScoringConfig()]. *)
Definition default_scoring : TemporalScoringConfig :=
  {| ts_enabled := false; ts_half_life := 604800; ts_source := OBSERVED_AT; ts_multiplier := 3 |}.

Inductive RagActivationDecisionReason : Type :=
  | STRUCTURAL_DENY | POLICY_MISSING | POLICY_DENY | RAG_CONFIG_MISSING | RAG_CONFIG_NOT_FOUND | RAG_CONFIG_TENANT_MISMATCH
  | RAG_CONFIG_NOT_PUBLISHED | USER_ID_MISSING | INPUT_EMPTY | INPUT_TOO_SHORT | INPUT_STRUCTURED | TOOL_CONFIG_EXPLICIT_DENY
  | TOOL_CONFIG_EXPLICIT_ALLOW | POLICY_DEFAULT_ALLOW.
Record RagActivationDecision : Type := {
  ad_enabled : bool;
  ad_reason : RagActivationDecisionReason;
  ad_version : option uuid;
  ad_top_k : option Z;
  ad_filters : option pydict;
}.

(** ** The scope of a search *)

Inductive ContextLayerScope : Type := SCOPE_TENANT | SCOPE_USER.
Definition ALLOWED_FILTER_OVERRIDE_KEYS : list string := ["tags"; "namespace"; "doc_type"; "expires_after"].
Definition only_keys (keys : list string) (d : pydict) : pydict := filter (fun kv => kv.1 ∈ keys) d.
(** [resolve_rag_scope]: the filters, and the user searched for. *)
Definition resolve_rag_scope (scope : ContextLayerScope) (user : option string) (filters_override : option pydict) : pydict * option string :=
  let base := match scope with
              | SCOPE_TENANT => ([("scope", PStr "TENANT_KNOWLEDGE")], None)
              | SCOPE_USER => ([("scope", PStr "USER_MEMORY"); ("user_id", from_option PStr PNone user)], user)
              end in
  match filters_override with
  | Some d => (dict_update base.1 (only_keys ALLOWED_FILTER_OVERRIDE_KEYS d), base.2)
  | None => base
  end.

(** ** Activation *)

(** [_structural_gate]. *)
Definition _structural_gate (scope : RagActivationScope) (flags : option AITaskContextFlags) : bool :=
  match flags with
  | None => false
  | Some f => match scope with
              | TENANT_KNOWLEDGE => tf_rag_tenant f
              | Rag.USER_MEMORY_VECTOR => tf_memory_structured f || tf_memory_vector f
              end
  end.

(** [_effective_filters_override]. *)
Definition _effective_filters_override (scope : RagActivationScope) (user : option string) (filters_override : option pydict) : pydict :=
  let scoped := from_option (only_keys ["tags"; "namespace"; "doc_type"]) [] filters_override in
  match scope with
  | TENANT_KNOWLEDGE => dict_set "scope" (PStr "TENANT_KNOWLEDGE") scoped
  | Rag.USER_MEMORY_VECTOR => dict_set "user_id" (from_option PStr PNone user) (dict_set "scope" (PStr "USER_MEMORY") scoped)
  end.

(** [(user_input or "").strip()]; only strings have [strip]. *)
Definition stripped_input (v : pyval) : res exc string :=
  if truthy v then match v with PStr s => Ok (py_strip s) | _ => Err PyAttributeError end else Ok "".
(** A string that starts like a JSON object or array. *)
Definition looks_structured (s : string) : bool :=
  match s with
  | String a _ => String.eqb (String a "") "{" || String.eqb (String a "") "["
  | EmptyString => false
  end.
(** [_heuristic_reason]. *)
Definition min_chars (scope : RagActivationScope) (l : list (RagActivationScope * Z)) : Z :=
  match List.find (fun p => bool_decide (p.1 = scope)) l with Some p => p.2 | None => 8 end.
Definition _heuristic_reason (scope : RagActivationScope) (user_input : pyval) (p : RagPolicyDefinition) :
    res exc (option RagActivationDecisionReason) :=
  let! text := stripped_input user_input in
  if String.eqb text "" then Ok (Some INPUT_EMPTY)
  else if (chars_of text <? min_chars scope (pd_min_chars p))%Z then Ok (Some INPUT_TOO_SHORT)
  else if negb (pd_structured p) && looks_structured text then Ok (Some INPUT_STRUCTURED)
  else Ok None.

(** ** The services *)

Record context_tables {P : Type} : Type := {
  ct_store : store;
  ct_memory : memory P;
}.
Arguments context_tables : clear implicits.

Section retrieval.
Context {P : Type}.
Variable sha256 : string -> string.
Variable int_str : Z -> string.
Variable json_text : pyval -> string.
Variable py_str : pyval -> string.
Variable int_of_string : string -> option Z.
Variable fromisoformat : string -> option Z.
Variable text_gtb : string -> string -> bool.
Variable generate_embedding : string -> string -> Z -> P -> res exc vec * P.
Variable cosine_distance : vec -> vec -> pyfloat.
Variable parse_options : pydict -> res exc RagConfigOptions.
Variable get_model : uuid -> option ai_model.
Variable get_model_by_name : string -> option ai_model.
Variable active_policy_version : uuid -> option uuid.
Variable policy_version : uuid -> option pydict.
Variable parse_policy : pydict -> res exc RagPolicyDefinition.
Variable active_memory_policy_version : uuid -> option uuid.
Variable memory_policy_version : uuid -> option (res exc MemoryPolicyDefinition).
(** The configurations of tools, [math.exp] and times. *)
Variable get_tool_config : uuid -> option pydict.
Variable math_exp : pyfloat -> pyfloat.
Variable total_seconds : Z -> pyfloat.
Variable isoformat : Z -> string.
Variable now : Z.
(** The services that are optional. *)
Variable has_retriever has_reader has_session : bool.
Variable has_rag has_activation has_memory_policy : bool.

Abbreviation C := (M (context_tables P)).

Definition on_store {A} (m : M store A) : C A := fun s =>
  match m (ct_store s) with (r, x) => (r, {| ct_store := x; ct_memory := ct_memory s |}) end.
Definition on_memory {A} (m : M (memory P) A) : C A := fun s =>
  match m (ct_memory s) with (r, x) => (r, {| ct_store := ct_store s; ct_memory := x |}) end.

Abbreviation rag_context := (get_context (P := P) sha256 int_str json_text py_str fromisoformat text_gtb generate_embedding cosine_distance
  parse_options get_model get_model_by_name).
Abbreviation rag_policy := (resolve_policy active_policy_version policy_version parse_policy).
Abbreviation memory_policy := (resolve_memory_policy active_memory_policy_version memory_policy_version).

(** *** Activation *)

(** [_tool_scope_metadata]. *)
Definition _tool_scope_metadata (scope : RagActivationScope) (tool : option uuid) : option bool * option pydict :=
  match tool ≫= get_tool_config with
  | None => (None, None)
  | Some config =>
      match dict_get "rag_activation" config with
      | Some (PDict activation) =>
          match dict_get (match scope with TENANT_KNOWLEDGE => "tenant_knowledge" | Rag.USER_MEMORY_VECTOR => "user_memory_vector" end) activation with
          | Some (PDict cfg) =>
              (match dict_get "enabled" cfg with Some (PBool b) => Some b | _ => None end,
               match dict_get "filters_override" cfg with Some (PDict d) => Some d | _ => None end)
          | _ => (None, None)
          end
      | _ => (None, None)
      end
  end.

Definition denied (reason : RagActivationDecisionReason) (version : option uuid) : RagActivationDecision :=
  {| ad_enabled := false; ad_reason := reason; ad_version := version; ad_top_k := None; ad_filters := None |}.

(** [RagActivationService.decide]. *)
Definition decide_activation (tenant : uuid) (task : string) (scope : RagActivationScope) (flags : option AITaskContextFlags)
    (config_id : option uuid) (user : option string) (user_input : pyval) (tool : option uuid) : M (rag P) RagActivationDecision :=
  if negb (_structural_gate scope flags) then mret (denied STRUCTURAL_DENY None)
  else
    let* resolved := mlift (rag_policy tenant) in
    let version := resolved.1 in
    match resolved.2 with
    | None => mret (denied POLICY_MISSING version)
    | Some p =>
        let sp := scope_policy p task scope in
        if negb (sp_enabled sp) then mret (denied POLICY_DENY version)
        else if negb (bool_decide (sp_tools sp = [])) && negb (from_option (fun t => bool_decide (t ∈ sp_tools sp)) false tool)
        then mret (denied POLICY_DENY version)
        else
          let '(explicit, filters_override) := _tool_scope_metadata scope tool in
          if bool_decide (explicit = Some false) then mret (denied TOOL_CONFIG_EXPLICIT_DENY version)
          else match config_id with
          | None => mret (denied RAG_CONFIG_MISSING version)
          | Some c =>
              let* config := get_rag_config c in
              match config with
              | None => mret (denied RAG_CONFIG_NOT_FOUND version)
              | Some config =>
                  if negb (bool_decide (rc_tenant config = tenant)) then mret (denied RAG_CONFIG_TENANT_MISMATCH version)
                  else if pd_published p && negb (String.eqb (rc_status config) "PUBLISHED")
                  then mret (denied RAG_CONFIG_NOT_PUBLISHED version)
                  else if bool_decide (scope = Rag.USER_MEMORY_VECTOR) && String.eqb (default "" user) ""
                  then mret (denied USER_ID_MISSING version)
                  else
                    let* reason := mlift (_heuristic_reason scope user_input p) in
                    match reason with
                    | Some r => mret (denied r version)
                    | None =>
                        let* options := mlift (parse_options (rc_options config)) in
                        mret {| ad_enabled := true;
                                ad_reason := if bool_decide (explicit = Some true) then TOOL_CONFIG_EXPLICIT_ALLOW else POLICY_DEFAULT_ALLOW;
                                ad_version := version;
                                ad_top_k := Some (cap_top_k (ro_top_k options) (Some p));
                                ad_filters := Some (_effective_filters_override scope user filters_override) |}
                    end
              end
          end
    end.

(** *** Sources of context *)

(** [TenantKnowledgeRetriever.retrieve]. *)
Definition retrieve (tenant c : uuid) (user_input : string) (top_k_override : option Z) (filters_override : option pydict) :
    M (rag P) RagContext :=
  let '(filters, user) := resolve_rag_scope SCOPE_TENANT None filters_override in
  rag_context tenant c user user_input filters top_k_override None.

(** [get_user_memory_preferences_and_profile]. *)
Definition get_user_memory_preferences_and_profile (tenant : uuid) (user : string) : M (memory P) (pydict * pydict) :=
  let* s := mget in
  let profile := get_user_memory_profile tenant user s in
  mlift (_validate_profile_schema_version int_of_string profile) ;;*
  mret (_preferences_dict_from_profile profile, profile).

(** [UserMemoryReader.get_context]. *)
Definition search_user_memory (tenant c : uuid) (user : string) (user_input : string) (filters_override : pydict) (top_k : option Z) :
    M (memory P) RagContext :=
  let* filters_override :=
    (if has_memory_policy then
       let* p := mlift (memory_policy tenant) in
       mret (match p.2 with Some _ => dict_set "expires_after" (PStr (isoformat now)) filters_override | None => filters_override end)
     else mret filters_override) in
  let '(filters, searched) := resolve_rag_scope SCOPE_USER (Some user) (Some filters_override) in
  on_rag (rag_context tenant c searched user_input filters top_k None).
Definition get_user_context (tenant : uuid) (user : string) (config_id : option uuid) (user_input : string) (task : option string)
    (flags : option AITaskContextFlags) (tool : option uuid) (top_k_override : option Z) : M (memory P) UserMemoryContext :=
  let* structured := get_user_memory_preferences_and_profile tenant user in
  let without := {| uc_preferences := structured.1; uc_profile := structured.2; uc_rag := None |} in
  let found r := {| uc_preferences := structured.1; uc_profile := structured.2; uc_rag := Some r |} in
  match config_id with
  | Some c =>
      if has_rag && negb (String.eqb user_input "") then
        match task with
        | Some task =>
            if has_activation then
              let* a := on_rag (decide_activation tenant task Rag.USER_MEMORY_VECTOR flags (Some c) (Some user) (PStr user_input) tool) in
              if ad_enabled a then
                let* r := search_user_memory tenant c user user_input (default [] (ad_filters a))
                            (match top_k_override with Some k => Some k | None => ad_top_k a end) in
                mret (found r)
              else mret without
            else let* r := search_user_memory tenant c user user_input [] top_k_override in mret (found r)
        | None => let* r := search_user_memory tenant c user user_input [] top_k_override in mret (found r)
        end
      else mret without
  | None => mret without
  end.

(** [SessionContextSnapshot(...)] validates its fields. *)
Definition optional_text (v : pyval) : res exc (option string) :=
  match v with PNone => Ok None | PStr s => Ok (Some s) | _ => Err PydanticValidationError end.
Definition dict_field (v : pyval) : res exc pydict := match v with PDict d => Ok d | _ => Err PydanticValidationError end.
Definition list_of_dicts (v : pyval) : res exc (list pydict) :=
  match v with PList l => rmap dict_field l | _ => Err PydanticValidationError end.
(** [SessionContextService.load_snapshot]. *)
Definition load_snapshot (f : uuid) : M store SessionContextSnapshot :=
  let* g := get_graph_state f in
  match g with
  | None => mret {| ss_flow_run := f; ss_node := None; ss_resume := None; ss_state := []; ss_memory := [] |}
  | Some g =>
      match or_else (gs_state g) (PDict []) with
      | PDict payload =>
          let* node := mlift (optional_text (dict_getv "current_node_id" payload)) in
          let* resume := mlift (optional_text (dict_getv "resume_to_node_id" payload)) in
          let* st := mlift (dict_field (or_else (dict_getv "state" payload) (PDict []))) in
          let* mem := mlift (list_of_dicts (or_else (dict_getv "memory" payload) (PList []))) in
          mret {| ss_flow_run := f; ss_node := node; ss_resume := resume; ss_state := st; ss_memory := mem |}
      | _ => mraise PyAttributeError
      end
  end.

(** *** The layers *)

(** [_resolve_timestamp]; every item has a creation time. *)
Definition _resolve_timestamp (source : TemporalTimestampSource) (i : RagContextItem) : Z :=
  match source with CREATED_AT => ci_created i | OBSERVED_AT => default (ci_created i) (ci_observed i) end.
Definition decayed (source : TemporalTimestampSource) (half_life : Z) (i : RagContextItem) : res exc RagContextItem :=
  let age := total_seconds (now - _resolve_timestamp source i) in
  let age := if float_ltb (FFin 0 0) age then age else FFin 0 0 in
  let! h := float_of_int (Z.max 1 half_life) in
  Ok {| ci_chunk := ci_chunk i; ci_score := float_mul (ci_score i) (math_exp (float_div (float_sub (FFin 0 0) age) h));
        ci_created := ci_created i; ci_observed := ci_observed i |}.
Definition not_below (x y : pyfloat) : Prop := float_ltb x y = false.
#[global] Instance not_below_dec : RelDecision not_below.
Proof. intros x y. unfold not_below. apply _. Defined.
(** [_rerank_with_temporal_decay]. *)
Definition _rerank_with_temporal_decay (x : RagContext) (base_top_k : option Z) (source : TemporalTimestampSource) (half_life : Z) :
    res exc RagContext :=
  match cx_items x with
  | [] => Ok x
  | items =>
      let! rescored := rmap (decayed source half_life) items in
      let ordered := sorted_by not_below ci_score rescored in
      Ok {| cx_items := match base_top_k with
                        | Some k => if (0 <? k)%Z then take (Z.to_nat k) ordered else ordered
                        | None => ordered
                        end;
            cx_reason := cx_reason x |}
  end.

(** The scope of the node that asks. *)
Record retrieval_scope : Type := {
  sc_flow_run : uuid;
  sc_tenant : uuid;
}.
Definition text_field (v : pyval) : res exc string := match v with PStr s => Ok s | _ => Err PydanticValidationError end.

(** The tenant's part and the user's part of [get_layered_context]. *)
Definition tenant_layer (d : LayerUsageDecision) (user_input : pyval) (tenant config_id : option uuid) (top_k : option Z)
    (filters : option pydict) : C (option RagContext) :=
  match tenant, config_id with
  | Some t, Some c =>
      if ld_tenant_knowledge d && has_retriever && truthy user_input then
        let* text := mlift (text_field user_input) in
        let* r := on_memory (on_rag (retrieve t c text top_k filters)) in
        mret (Some r)
      else mret None
  | _, _ => mret None
  end.
Definition user_layer (scope : option retrieval_scope) (d : LayerUsageDecision) (task : string) (user_input : pyval)
    (config_id : option uuid) (user : option string) (flags : option AITaskContextFlags) (tool : option uuid)
    (scoring : TemporalScoringConfig) (base_top_k : option Z) : C (option UserMemoryContext) :=
  match scope, user with
  | Some sc, Some u =>
      if ld_memory_structured d && has_reader then
        let temporal := ld_memory_vector d && ts_enabled scoring in
        let candidates := if temporal then (fun k => (k * Z.max 1 (ts_multiplier scoring))%Z) <$> base_top_k else base_top_k in
        let* text := mlift (text_field (if ld_memory_vector d then user_input else PStr "")) in
        let* x := on_memory (get_user_context (sc_tenant sc) u (if ld_memory_vector d then config_id else None) text (Some task) flags tool
                               candidates) in
        match uc_rag x with
        | Some r =>
            if temporal then
              let* r := mlift (_rerank_with_temporal_decay r base_top_k (ts_source scoring) (ts_half_life scoring)) in
              mret (Some {| uc_preferences := uc_preferences x; uc_profile := uc_profile x; uc_rag := Some r |})
            else mret (Some x)
        | None => mret (Some x)
        end
      else mret None
  | _, _ => mret None
  end.
(** [MemoryRetrievalService.get_layered_context]. *)
Definition get_layered_context (scope : option retrieval_scope) (d : LayerUsageDecision) (task : string) (user_input : pyval)
    (tenant config_id : option uuid) (user : option string) (flags : option AITaskContextFlags) (tool : option uuid)
    (scoring : TemporalScoringConfig) (tenant_top_k : option Z) (tenant_filters : option pydict) (user_top_k : option Z) :
    C LayeredMemoryContext :=
  let* session := (match scope with
                   | Some sc => if ld_session d && has_session then let* x := on_store (load_snapshot (sc_flow_run sc)) in mret (Some x)
                                else mret None
                   | None => mret None
                   end) in
  let* t := tenant_layer d user_input tenant config_id tenant_top_k tenant_filters in
  let* u := user_layer scope d task user_input config_id user flags tool scoring user_top_k in
  mret {| lc_session := session; lc_tenant := t; lc_user := u |}.
End retrieval.
