(* ===== verification/ContextBuilder.v ===== *)
(** * ContextBuilder: the context a prompt is rendered with

    [src/src/domain/llm/services/context_builder.py]: what the task may see of the tenant's knowledge and the user's memory, the
    layers it retrieves ([Retrieval]) and the template context it makes of them.

    The fields of an execution context that [NodeStep] does not have (the flow and its version) are arguments; the system context,
    which the builder may set, is part of what it returns.  The tables of agents, of nodes and of tools are read only;
    [pydantic] (personas, tools, the retrieval configuration) is a parameter. *)

From S2P Require Import Prelude.
From S2P Require Import Errors.
From S2P Require Import PyValue.
From S2P Require Import PyString.
From S2P Require Import PyFloat.
From S2P Require Import StateMachine.
From S2P Require Import Sorting.
From S2P Require Import Effects.
From S2P Require Import Store.
From S2P Require Import NodeStep.
From S2P Require Import ToolNodes.
From S2P Require Import Chunking.
From S2P Require Import Rag.
From S2P Require Import Memory.
From S2P Require Import Retrieval.

Record agent_version_row : Type := {
  av_agent : uuid;
  av_rag_config : option uuid;
  av_persona : pyval;
}.

(** ** Reading the execution context *)

Definition runtime_policy_of (c : ExecutionContext) : pyval := default (PDict []) (dict_get "runtime_policy" (metadata c)).

(** [_first_tool_id_from_context]: every way to fail gives [None]. *)
Definition _first_tool_id_from_context (py_str : pyval -> string) (c : ExecutionContext) : option string :=
  match get_node_output ToolResolver c with
  | PDict out =>
      match dict_getv "result" out with
      | PList (PDict first :: _) =>
          match or_else (dict_getv "selected_tool" first) (PDict []) with
          | PDict selected => match dict_getv "tool_config_id" selected with PNone => None | v => Some (str_of py_str v) end
          | _ => None
          end
      | _ => None
      end
  | _ => None
  end.

(** [_user_context_enrichment_policy]. *)
Definition _user_context_enrichment_policy (c : ExecutionContext) : pyval :=
  match runtime_policy_of c with
  | PDict p => or_else (dict_getv "user_context_enrichment" p) (PDict [])
  | _ => PDict []
  end.

(** [decision.model_copy(update=...)] for the layers of knowledge and memory. *)
Definition with_layers (tenant structured vector : bool) (d : LayerUsageDecision) : LayerUsageDecision :=
  {| ld_session := ld_session d; ld_tenant_knowledge := tenant; ld_memory_structured := structured; ld_memory_vector := vector;
     ld_memory_write := ld_memory_write d |}.
Definition layer_flag (key : string) (other : bool) (layers : pydict) : bool := truthy (default (PBool other) (dict_get key layers)).
Definition read_layers (layers : pydict) (d : LayerUsageDecision) : LayerUsageDecision :=
  with_layers (layer_flag "allow_tenant_knowledge" (ld_tenant_knowledge d) layers)
    (layer_flag "allow_user_memory_structured" (ld_memory_structured d) layers)
    (layer_flag "allow_user_memory_vector" (ld_memory_vector d) layers) d.

(** [_apply_user_context_enrichment_gating]. *)
Definition _apply_user_context_enrichment_gating (d : LayerUsageDecision) (c : ExecutionContext) (task : string) : res exc LayerUsageDecision :=
  let policy := _user_context_enrichment_policy c in
  let! gating := get_or "gating" (PBool false) policy in
  if negb (truthy gating) then Ok d
  else
    let handle := match dict_get "user_context_enrichment" (state c) with Some (PDict h) => h | _ => [] end in
    if negb (truthy (default (PBool false) (dict_get "published" handle))) then
      if String.eqb task "response_render" then
        let! layers := get_or "default_layers_when_published" PNone policy in
        match or_else layers (PDict []) with
        | PDict l => Ok (read_layers l d)
        | _ => Ok (with_layers true (ld_memory_structured d) (ld_memory_vector d) d)
        end
      else Ok (with_layers false false false d)
    else
      match or_else (dict_getv "layers" handle) (PDict []) with
      | PDict l => Ok (read_layers l d)
      | _ => Ok d
      end.

(** ** Operations of the parameter filler *)

Record derived_operations : Type := {
  do_ready : list pyval;
  do_pending : list pyval;
  do_missing : list string;
}.
Section operations.
Variable py_str : pyval -> string.

Definition missing_name (field : pyval) : option string :=
  if negb (truthy field) then None
  else
    let value := match field with PDict d => dict_getv "field" d | v => v end in
    if truthy value then Some (str_of py_str value) else None.
Definition derive_operation (x : derived_operations) (operation : pyval) : res exc derived_operations :=
  match operation with
  | PDict d =>
      let missing := or_else (dict_getv "missing_fields" d) (PList []) in
      let pending := truthy missing in
      let! fields := py_iter missing in
      Ok {| do_ready := if pending then do_ready x else do_ready x ++ [operation];
            do_pending := if pending then do_pending x ++ [operation] else do_pending x;
            do_missing := do_missing x ++ omap missing_name fields |}
  | _ => Ok x
  end.
Definition derive_operations (param_slice : pyval) : res exc derived_operations :=
  let operations := match param_slice with PDict d => or_else (dict_getv "result" d) (PList []) | _ => PList [] end in
  let! l := py_iter operations in
  rfold derive_operation l {| do_ready := []; do_pending := []; do_missing := [] |}.
End operations.

(** ** The builder *)

Section builder.
Context {P : Type}.
Variable sha256 : string -> string.
Variable int_str : Z -> string.
Variable json_text : pyval -> string.
Variable py_str : pyval -> string.
Variable int_of_string : string -> option Z.
Variable fromisoformat : string -> option Z.
Variable text_gtb : string -> string -> bool.
Variable generate_embedding : string -> string -> Z -> P -> res exc vec * P.
Variable cosine_distance : vec -> vec -> pyfloat.
Variable parse_options : pydict -> res exc RagConfigOptions.
Variable get_model : uuid -> option ai_model.
Variable get_model_by_name : string -> option ai_model.
Variable active_policy_version : uuid -> option uuid.
Variable policy_version : uuid -> option pydict.
Variable parse_policy : pydict -> res exc RagPolicyDefinition.
Variable active_memory_policy_version : uuid -> option uuid.
Variable memory_policy_version : uuid -> option (res exc MemoryPolicyDefinition).
Variable get_tool_config : uuid -> option pydict.
Variable math_exp : pyfloat -> pyfloat.
Variable total_seconds : Z -> pyfloat.
Variable isoformat : Z -> string.
Variable now : Z.
Variable has_retriever has_reader has_session : bool.
Variable has_rag has_activation has_memory_policy : bool.
(** The builder's own: whether it has a retrieval service and an activation service, identifiers, agents and nodes, [pydantic]. *)
Variable has_retrieval builder_activation : bool.
Variable uuid_str : uuid -> string.
Variable uuid_parse : string -> option uuid.
Variable agent_version : uuid -> option agent_version_row.
Variable agent_tenant : uuid -> option uuid.
Variable node_rag_config : uuid -> option uuid.
Variable node_agent_version : uuid -> option uuid.
Variable default_persona : pyval.
Variable parse_persona : pyval -> res exc pyval.
Variable coerce_tool : pyval -> option pyval.
Variable parse_scoring : pyval -> res exc TemporalScoringConfig.
Variable dump_flags : AITaskContextFlags -> pyval.
Variable today : string.
(** The context's fields that are not in [ExecutionContext]. *)
Variable flow_id flow_version_id : uuid.

Abbreviation C := (M (context_tables P)).
Abbreviation activation := (decide_activation (P := P) parse_options active_policy_version policy_version parse_policy get_tool_config).
Abbreviation layered := (get_layered_context (P := P) sha256 int_str json_text py_str int_of_string fromisoformat text_gtb generate_embedding
  cosine_distance parse_options get_model get_model_by_name active_policy_version policy_version parse_policy
  active_memory_policy_version memory_policy_version get_tool_config math_exp total_seconds isoformat now has_retriever has_reader
  has_session has_rag has_activation has_memory_policy).

(** [_extract_tool_config_id]. *)
Definition _extract_tool_config_id (c : ExecutionContext) : option uuid :=
  match _first_tool_id_from_context py_str c with
  | Some t => if String.eqb t "" then None else uuid_parse t
  | None => None
  end.
(** [_memory_retrieval_config]: anything that does not validate is the default. *)
Definition _memory_retrieval_config (c : ExecutionContext) : TemporalScoringConfig :=
  match runtime_policy_of c with
  | PDict p => match parse_scoring (or_else (dict_getv "memory_retrieval" p) (PDict [])) with Ok x => x | Err _ => default_scoring end
  | _ => default_scoring
  end.

(** [_get_persona]. *)
Definition _get_persona (version : option agent_version_row) : res exc pyval :=
  match version with
  | Some v => if truthy (av_persona v) then parse_persona (av_persona v) else Ok default_persona
  | None => Ok default_persona
  end.
(** [resolve_effective_rag_config_id_for_node]. *)
Definition resolve_effective_rag_config_id_for_node (n : uuid) : option uuid :=
  match node_rag_config n with
  | Some r => Some r
  | None => v ← node_agent_version n; r ← agent_version v; av_rag_config r
  end.
(** The persona, the tenant of the agent and the configuration that is searched. *)
Definition agent_parts (version : option uuid) (c : ExecutionContext) : res exc (pyval * option uuid * option uuid) :=
  match version with
  | None => Ok (PDict [], None, None)
  | Some v =>
      let! persona := _get_persona (agent_version v) in
      let config := match uuid_parse (current_node_id c) with
                    | Some n => resolve_effective_rag_config_id_for_node n
                    | None => agent_version v ≫= av_rag_config
                    end in
      Ok (persona, agent_version v ≫= (fun r => agent_tenant (av_agent r)), config)
  end.

(** [_resolve_tenant_knowledge_activation]. *)
Definition _resolve_tenant_knowledge_activation (tenant : uuid) (user : string) (user_input : pyval) (task : string)
    (flags : option AITaskContextFlags) (config_id tool : option uuid) : M (rag P) (bool * option Z * option pydict) :=
  match config_id with
  | None => mret (false, None, None)
  | Some _ =>
      if negb builder_activation then mret (true, None, None)
      else
        let* a := activation tenant task Rag.TENANT_KNOWLEDGE flags config_id (Some user) user_input tool in
        mret (if ad_enabled a then (true, ad_top_k a, ad_filters a) else (false, None, None))
  end.

(** [_build_session_snapshot]. *)
Definition dump_snapshot (x : SessionContextSnapshot) : pyval :=
  PDict [("flow_run_id", PStr (uuid_str (ss_flow_run x))); ("current_node_id", from_option PStr PNone (ss_node x));
         ("resume_to_node_id", from_option PStr PNone (ss_resume x)); ("state", PDict (ss_state x));
         ("memory", PList (PDict <$> ss_memory x))].
Definition _build_session_snapshot (c : ExecutionContext) : res exc SessionContextSnapshot :=
  let! mem := rmap dict_field (NodeStep.memory c) in
  Ok {| ss_flow_run := flow_run_id c; ss_node := Some (current_node_id c); ss_resume := None; ss_state := state c; ss_memory := mem |}.

(** The parts of the system context. *)
Definition knowledge_parts (i : RagContextItem) : list string :=
  let title := dict_getv "title" (rk_metadata (ci_chunk i)) in
  (if truthy title then ["## " +:+ str_of py_str title] else []) ++
  (if String.eqb (rk_content (ci_chunk i)) "" then [] else [rk_content (ci_chunk i)]).
Definition memory_parts (i : RagContextItem) : list string :=
  if String.eqb (rk_content (ci_chunk i)) "" then [] else ["- " +:+ rk_content (ci_chunk i)].
Definition newline : string := String (Ascii.ascii_of_nat 10) "".
Definition context_parts (tenant_items user_items : list RagContextItem) : list string :=
  match tenant_items with [] => [] | _ => "# Tenant Knowledge Base" :: concat (knowledge_parts <$> tenant_items) end ++
  match user_items with [] => [] | _ => "# User Memory" :: concat (memory_parts <$> user_items) end.
Definition tenant_items_of (x : LayeredMemoryContext) : list RagContextItem := from_option cx_items [] (lc_tenant x).
Definition user_items_of (x : LayeredMemoryContext) : list RagContextItem := from_option cx_items [] (lc_user x ≫= uc_rag).

(** The retrieved layers: the session and structured memory as dumped, and the system context. *)
Definition retrieve_layers (d : LayerUsageDecision) (c : ExecutionContext) (task : string) (user_input : pyval) (tenant config_id : option uuid)
    (flags : option AITaskContextFlags) (top_k : option Z) (filters : option pydict) (system : option string) :
    C (pyval * pyval * option string) :=
  let dumped x := from_option dump_snapshot PNone x in
  if negb has_retrieval then mret (PNone, PNone, system)
  else match system with
  | Some _ =>
      if ld_session d then let* x := mlift (_build_session_snapshot c) in mret (dump_snapshot x, PNone, system)
      else mret (PNone, PNone, system)
  | None =>
      let* x := layered (Some {| sc_flow_run := flow_run_id c; sc_tenant := tenant_id c |}) d task user_input tenant config_id
                  (Some (user_id c)) flags (_extract_tool_config_id c) (_memory_retrieval_config c) top_k filters None in
      let* session := (match lc_session x with
                       | Some s => mret (Some s)
                       | None => if ld_session d then let* s := mlift (_build_session_snapshot c) in mret (Some s) else mret None
                       end) in
      let structured := match lc_user x with
                        | Some u => PDict [("preferences", PDict (uc_preferences u)); ("profile", PDict (uc_profile u))]
                        | None => PNone
                        end in
      let parts := context_parts (tenant_items_of x) (user_items_of x) in
      mret (dumped session, structured, match parts with [] => system | _ => Some (str_join newline parts) end)
  end.

(** What the decision becomes once the activation of tenant knowledge is known. *)
Definition activate_knowledge (d : LayerUsageDecision) (c : ExecutionContext) (task : string) (user_input : pyval) (tenant config_id : option uuid)
    (flags : option AITaskContextFlags) : C (LayerUsageDecision * option Z * option pydict) :=
  match tenant, config_id with
  | Some t, Some _ =>
      if ld_tenant_knowledge d then
        let* a := on_memory (on_rag (_resolve_tenant_knowledge_activation t (user_id c) user_input task flags config_id (_extract_tool_config_id c))) in
        mret (with_layers a.1.1 (ld_memory_structured d) (ld_memory_vector d) d, a.1.2, a.2)
      else mret (d, None, None)
  | _, _ => mret (d, None, None)
  end.

Definition result_of (v : pyval) : pyval := match v with PDict d => or_else (dict_getv "result" d) (PList []) | _ => PList [] end.
Definition tool_response_of (input tool_slice : pyval) : pyval :=
  let v := if truthy input then input else tool_slice in match v with PDict _ => v | _ => PDict [] end.
Definition output_schema_of (c : ExecutionContext) : pyval :=
  match dict_get "current_node_type" (metadata c) with
  | Some (PStr t) =>
      if String.eqb t (node_type_value ToolInputFiller) then
        from_option (fun config => or_else (dict_getv "request_schema" config) (PList [])) (PList []) (_extract_tool_config_id c ≫= get_tool_config)
      else PList []
  | _ => PList []
  end.

(** [build_template_context]: the template context, and the system context it leaves. *)
Definition build_template_context (version : option uuid) (task : string) (c : ExecutionContext) (input : pydict)
    (flags : option AITaskContextFlags) : C (pydict * option string) :=
  let user_input := or_else (dict_getv "user_input" input) (PStr "") in
  let* execution_policy := mlift (get_or "execution_policy" (PDict []) (runtime_policy_of c)) in
  let* operations := mlift (derive_operations py_str (get_node_output ToolInputFiller c)) in
  let* agent := mlift (agent_parts version c) in
  let '(persona, tenant, config_id) := agent in
  let* d := mlift (_apply_user_context_enrichment_gating (layer_decision flags) c task) in
  let* a := activate_knowledge d c task user_input tenant config_id flags in
  let* layers := retrieve_layers a.1.1 c task user_input tenant config_id flags a.1.2 a.2 (system_context c) in
  mret ([("meta", PDict
           [("tenant_id", PStr (uuid_str (tenant_id c))); ("user_id", PStr (user_id c)); ("session_id", PStr (uuid_str (session_id c)));
            ("flow_id", PStr (uuid_str flow_id)); ("flow_version_id", PStr (uuid_str flow_version_id));
            ("flow_run_id", PStr (uuid_str (flow_run_id c))); ("correlation_id", PStr (uuid_str (correlation_id c)));
            ("current_node_id", PStr (current_node_id c));
            ("current_node_run_id", from_option (fun r => PStr (uuid_str r)) PNone (current_node_run_id c));
            ("current_node_type", dict_getv "current_node_type" (metadata c)); ("current_date", PStr today);
            ("available_tools", PList (omap coerce_tool (context_tools c)))]);
         ("persona", persona);
         ("config", PDict [("ai_task", from_option dump_flags (PDict []) flags); ("execution_policy", execution_policy)]);
         ("input", PDict [("user_input", user_input); ("input_payload", PDict input)]);
         ("layers", PDict [("tenant_knowledge", PList []); ("user_memory_structured", layers.1.2); ("user_memory_vector", PList []);
                           ("session_context", layers.1.1)]);
         ("state", PDict (state c));
         ("derived", PDict
           [("intents", result_of (get_node_output IntentClassifier c)); ("selected_tools", result_of (get_node_output ToolResolver c));
            ("ready_operations", PList (do_ready operations)); ("pending_operations", PList (do_pending operations));
            ("missing_fields", PList (PStr <$> sorted_by String.le id (remove_dups (do_missing operations))))]);
         ("output_schema", output_schema_of c);
         ("tool_response", tool_response_of (dict_getv "tool_response" input) (get_node_output ToolExecutor c))], layers.2).
End builder.
