(* ===== verification/RetrievalFacts.v ===== *)
(** * RetrievalFacts: who sees what

    Theorems about [Retrieval]: when retrieval is activated, and whose documents the layers of a context are made of. *)

From S2P Require Import Prelude.
From S2P Require Import Errors.
From S2P Require Import PyValue.
From S2P Require Import PyString.
From S2P Require Import PyFloat.
From S2P Require Import StateMachine.
From S2P Require Import Sorting.
From S2P Require Import Effects.
From S2P Require Import Store.
From S2P Require Import Chunking.
From S2P Require Import Rag.
From S2P Require Import RagFacts.
From S2P Require Import Memory.
From S2P Require Import Retrieval.

(** ** Computations that keep [I] and whose results satisfy [Q] *)

Section yields.
Context {S : Type} (I : S -> Prop).

Definition yields {A} (Q : A -> Prop) (m : M S A) : Prop :=
  forall s, I s -> I (m s).2 /\ match (m s).1 with Ok a => Q a | Err _ => True end.

Lemma yields_ret {A} (Q : A -> Prop) a : Q a -> yields Q (mret a).
Proof. by intros H s Hs. Qed.
Lemma yields_raise {A} (Q : A -> Prop) e : yields Q (mraise e).
Proof. by intros s Hs. Qed.
Lemma yields_lift {A} (Q : A -> Prop) (r : res exc A) : (forall a, r = Ok a -> Q a) -> yields Q (mlift r).
Proof. intros H s Hs. split; [done|]. simpl. destruct r; auto. Qed.
Lemma yields_get (Q : S -> Prop) : (forall s, I s -> Q s) -> yields Q mget.
Proof. intros H s Hs. split; [done|]. by apply H. Qed.
Lemma yields_bind {A B} (Q1 : A -> Prop) (Q : B -> Prop) (m : M S A) (k : A -> M S B) :
  yields Q1 m -> (forall a, Q1 a -> yields Q (k a)) -> yields Q (mbind_ m k).
Proof.
  intros Hm Hk s Hs. destruct (Hm s Hs) as [H1 H2]. unfold mbind_. destruct (m s) as [[a|e] s']; simpl in *; [|done]. by apply Hk.
Qed.
Lemma yields_weaken {A} (Q Q' : A -> Prop) m : yields Q m -> (forall a, Q a -> Q' a) -> yields Q' m.
Proof. intros Hm H s Hs. destruct (Hm s Hs) as [H1 H2]. split; [done|]. destruct (m s).1; auto. Qed.
Lemma yields_keep {A} (R : S -> S -> Prop) (m : M S A) :
  respects R m -> (forall s s', R s s' -> I s -> I s') -> yields (fun _ => True) m.
Proof. intros Hm HR s Hs. split; [by eapply HR; [apply Hm|]|]. by destruct (m s).1. Qed.
Lemma yields_run {A} (Q : A -> Prop) m s a s' : yields Q m -> I s -> m s = (Ok a, s') -> Q a.
Proof. intros Hm Hs E. specialize (Hm s Hs). rewrite E in Hm. apply Hm. Qed.
End yields.

(** ** Dictionaries *)

Lemma dict_update_notin k d e : k ∉ e.*1 -> dict_get k (dict_update d e) = dict_get k d.
Proof.
  unfold dict_update. revert d. induction e as [|[k' v] e IH]; intros d H; [done|]. simpl in *. rewrite not_elem_of_cons in H.
  destruct H as [H1 H2]. rewrite IH by done. by rewrite dict_get_set_ne.
Qed.
Lemma dict_update_in k v d e : NoDup e.*1 -> dict_get k e = Some v -> dict_get k (dict_update d e) = Some v.
Proof.
  unfold dict_update. revert d. induction e as [|[k' v'] e IH]; intros d Hn Hk; [done|]. simpl in *. apply NoDup_cons in Hn as [Hn1 Hn2].
  destruct (String.eqb_spec k k') as [->|].
  - injection Hk as ->. change (dict_get k' (dict_update (dict_set k' v d) e) = Some v). rewrite dict_update_notin by done. apply dict_get_set_eq.
  - by apply IH.
Qed.
Lemma dict_set_keys k v d x : x ∈ (dict_set k v d).*1 <-> x = k \/ x ∈ d.*1.
Proof.
  induction d as [|[k' v'] d IH]; simpl; [set_solver|]. destruct (String.eqb_spec k k') as [->|]; simpl; [set_solver|].
  rewrite !elem_of_cons, IH. tauto.
Qed.
Lemma dict_set_NoDup k v d : NoDup d.*1 -> NoDup (dict_set k v d).*1.
Proof.
  induction d as [|[k' v'] d IH]; simpl; intros H; [repeat constructor; set_solver|]. apply NoDup_cons in H as [H1 H2].
  destruct (String.eqb_spec k k') as [->|]; simpl; constructor; auto. rewrite dict_set_keys. naive_solver.
Qed.
Lemma dict_update_NoDup d e : NoDup d.*1 -> NoDup (dict_update d e).*1.
Proof. unfold dict_update. revert d. induction e as [|kv e IH]; intros d H; simpl; [done|]. by apply IH, dict_set_NoDup. Qed.
Lemma only_keys_notin keys k d : k ∉ keys -> k ∉ (only_keys keys d).*1.
Proof. intros Hk Hin. apply list_elem_of_fmap in Hin as (kv & -> & Hkv). by apply list_elem_of_filter in Hkv as [H _]. Qed.

(** What the scope of a search pins down, whatever the overrides. *)
Lemma scope_filters scope user overrides :
  NoDup (resolve_rag_scope scope user overrides).1.*1 /\
  dict_get "scope" (resolve_rag_scope scope user overrides).1 =
    Some (PStr (match scope with SCOPE_TENANT => "TENANT_KNOWLEDGE" | SCOPE_USER => "USER_MEMORY" end)) /\
  (scope = SCOPE_USER -> dict_get "user_id" (resolve_rag_scope scope user overrides).1 = Some (from_option PStr PNone user)) /\
  (resolve_rag_scope scope user overrides).2 = match scope with SCOPE_TENANT => None | SCOPE_USER => user end.
Proof.
  assert (H1 : forall o, "scope" ∉ (only_keys ALLOWED_FILTER_OVERRIDE_KEYS o).*1) by (intros; apply only_keys_notin; set_solver).
  assert (H2 : forall o, "user_id" ∉ (only_keys ALLOWED_FILTER_OVERRIDE_KEYS o).*1) by (intros; apply only_keys_notin; set_solver).
  destruct scope, overrides as [o|]; simpl; split_and!; try done; rewrite ?dict_update_notin by done; try done;
    try (apply dict_update_NoDup; simpl); repeat (constructor; [set_solver|]); constructor.
Qed.

(** ** Searches *)

Section searches.
Context {P : Type}.
Variable sha256 : string -> string.
Variable int_str : Z -> string.
Variable json_text : pyval -> string.
Variable py_str : pyval -> string.
Variable fromisoformat : string -> option Z.
Variable text_gtb : string -> string -> bool.
Variable generate_embedding : string -> string -> Z -> P -> res exc vec * P.
Variable cosine_distance : vec -> vec -> pyfloat.
Variable parse_options : pydict -> res exc RagConfigOptions.
Variable get_model : uuid -> option ai_model.
Variable get_model_by_name : string -> option ai_model.
Variable docs : gmap uuid rag_document.
Variable chunks : list rag_chunk.

Abbreviation passes_ := (passes int_str json_text py_str fromisoformat text_gtb).
Abbreviation text_of := (astext int_str json_text).
(** The corpus that is searched. *)
Definition corpus (s : rag P) : Prop := rg_documents s = docs /\ rg_chunks s = chunks.
(** An item that is a chunk of a document. *)
Definition item_of (Q : rag_document -> Prop) (i : RagContextItem) : Prop :=
  ci_chunk i ∈ chunks /\ exists d, docs !! rk_document (ci_chunk i) = Some d /\ Q d.

Lemma corpus_same s s' : same_tables s s' -> corpus s -> corpus s'.
Proof. intros (H1 & H2 & _) [E1 E2]. split; congruence. Qed.

Lemma eligible_some tenant c store user filters k row :
  eligible int_str json_text py_str fromisoformat text_gtb tenant c store user filters docs k = Some row ->
  row.1 = k /\ docs !! rk_document k = Some row.2 /\ rd_tenant row.2 = tenant /\ rd_config row.2 = Some c /\ rk_store k = store /\
  passes_ filters row.2 = true /\ (forall u, user = Some u -> u <> "" -> text_of "user_id" (rd_metadata row.2) = Some u).
Proof.
  unfold eligible. intros H. apply bind_Some in H as (d & Hd & H). case_match eqn:Hc; [|done]. injection H as <-. simpl.
  rewrite !andb_true_iff, !bool_decide_eq_true in Hc. destruct Hc as ((((H1 & H2) & H3) & H4) & H5). split_and!; try done.
  intros u -> Hu. destruct u; [done|]. by apply bool_decide_eq_true in H5.
Qed.

Lemma search_finds tenant c store user v k t filters :
  yields corpus (Forall (item_of (fun d => rd_tenant d = tenant /\ rd_config d = Some c /\ passes_ filters d = true /\
    (forall u, user = Some u -> u <> "" -> text_of "user_id" (rd_metadata d) = Some u))))
    (search_similar_chunks int_str json_text py_str fromisoformat text_gtb cosine_distance tenant c store user v k t filters).
Proof.
  unfold search_similar_chunks. case_match; [by apply yields_ret; constructor|]. case_match; [by apply yields_raise|].
  case_match; [by apply yields_raise|]. intros s [Hd Hk]. split; [done|]. cbn [look mbind_ mget mret fst]. apply Forall_forall.
  intros i [_ Hi]%list_elem_of_filter. apply list_elem_of_fmap in Hi as (row & -> & Hrow). apply elem_of_take in Hrow as (n & Hrow & _).
  apply list_elem_of_lookup_2 in Hrow. rewrite sorted_by_perm in Hrow. apply list_elem_of_fmap in Hrow as (x & -> & Hx).
  apply list_elem_of_omap in Hx as (ch & Hch & Hx). rewrite Hd in Hx. rewrite Hk in Hch. apply eligible_some in Hx as (E & F1 & F2 & F3 & _ & F4 & F5).
  split; simpl; rewrite E; [done|]. exists x.2. by split.
Qed.
Lemma context_finds tenant c user text filters k t :
  yields corpus (fun x => Forall (item_of (fun d => rd_tenant d = tenant /\ rd_config d = Some c /\
      (exists options, passes_ (dict_update options filters) d = true) /\
      (forall u, user = Some u -> u <> "" -> text_of "user_id" (rd_metadata d) = Some u))) (cx_items x))
    (get_context sha256 int_str json_text py_str fromisoformat text_gtb generate_embedding cosine_distance parse_options get_model
       get_model_by_name tenant c user text filters k t).
Proof.
  assert (Hkeep : forall A (m : M (rag P) A), respects same_tables m -> yields corpus (fun _ => True) m)
    by (intros A m Hm; eapply yields_keep; [exact Hm | apply corpus_same]).
  assert (Hnone : forall r, yields corpus (fun x => Forall (item_of (fun d => rd_tenant d = tenant /\ rd_config d = Some c /\
      (exists options, passes_ (dict_update options filters) d = true) /\
      (forall u, user = Some u -> u <> "" -> text_of "user_id" (rd_metadata d) = Some u))) (cx_items x)) (mret (empty_context r)))
    by (intros r; apply yields_ret; constructor).
  unfold get_context, get_rag_config, get_vector_store. eapply yields_bind; [apply Hkeep, same_look | intros [config|] _; [|apply Hnone]].
  case_match; [apply Hnone|]. eapply yields_bind; [apply yields_lift; intros o Ho; exact Ho | intros options _].
  case_match; [by apply yields_raise|]. eapply yields_bind; [apply Hkeep, same_look | intros [store|] _; [|apply Hnone]].
  case_match; [by apply yields_raise|]. cbv zeta. eapply yields_bind; [apply yields_lift; intros m Hm; exact Hm | intros model _].
  eapply yields_bind; [apply Hkeep, same_cache | intros _ _]. eapply yields_bind; [apply Hkeep, same_query_embedding | intros v _].
  eapply yields_bind; [apply search_finds | intros items Hitems]. apply yields_ret. destruct items; [constructor|]. simpl in *.
  eapply Forall_impl; [exact Hitems|]. intros i (Hi & d & Hd & F1 & F2 & F3 & F4). split; [done|]. exists d. split_and!; eauto.
Qed.

End searches.

Section selects.
Variable int_str : Z -> string.
Variable json_text : pyval -> string.
Variable py_str : pyval -> string.
Variable fromisoformat : string -> option Z.
Variable text_gtb : string -> string -> bool.
Abbreviation passes_ := (passes int_str json_text py_str fromisoformat text_gtb).
Abbreviation text_of := (astext int_str json_text).

(** What the filters of a scope select. *)
Lemma passes_parts filters d :
  passes_ filters d = true ->
  filter_on filters "scope" (scope_matches int_str json_text py_str) d = true /\
  filter_on filters "user_id" (meta_is int_str json_text py_str "user_id") d = true /\
  filter_on filters "expires_after" (fun v d => match v with
    | PStr t => from_option (fun e => text_gtb e t) false (text_of "expires_at" (rd_metadata d))
    | _ => true end) d = true.
Proof. unfold passes. rewrite !andb_true_iff. tauto. Qed.

(** Documents of a tenant's knowledge; memories of a user, not expired. *)
Definition knowledge_of (tenant c : uuid) (d : rag_document) : Prop :=
  rd_tenant d = tenant /\ rd_config d = Some c /\
  (text_of "scope" (rd_metadata d) = None \/ text_of "scope" (rd_metadata d) = Some "TENANT_KNOWLEDGE").
Definition memory_of (tenant c : uuid) (user : string) (d : rag_document) : Prop :=
  rd_tenant d = tenant /\ rd_config d = Some c /\ text_of "scope" (rd_metadata d) = Some "USER_MEMORY" /\
  (user <> "" -> text_of "user_id" (rd_metadata d) = Some user).
Definition alive_at (t : string) (d : rag_document) : Prop :=
  exists e, text_of "expires_at" (rd_metadata d) = Some e /\ text_gtb e t = true.

Lemma scope_selects v filters d :
  dict_get "scope" filters = Some (PStr v) -> v <> "" -> passes_ filters d = true ->
  text_of "scope" (rd_metadata d) = Some v \/ (v = "TENANT_KNOWLEDGE" /\ text_of "scope" (rd_metadata d) = None).
Proof.
  intros Hv Hne (Hp & _)%passes_parts. unfold filter_on, dict_getv in Hp. rewrite Hv in Hp. simpl in Hp. destruct (String.eqb_spec v ""); [done|].
  simpl in Hp. unfold scope_matches, meta_is in Hp. simpl in Hp.
  apply orb_true_iff in Hp as [Hp|Hp]; [left; by apply bool_decide_eq_true in Hp|]. apply andb_true_iff in Hp as [H1 H2].
  apply String.eqb_eq in H1. apply bool_decide_eq_true in H2. auto.
Qed.
Lemma expiry_selects t filters d :
  dict_get "expires_after" filters = Some (PStr t) -> t <> "" -> passes_ filters d = true -> alive_at t d.
Proof.
  intros Hv Hne (_ & _ & Hp)%passes_parts. unfold filter_on, dict_getv in Hp. rewrite Hv in Hp. simpl in Hp. destruct (String.eqb_spec t ""); [done|].
  simpl in Hp. unfold alive_at. destruct (text_of "expires_at" (rd_metadata d)) as [e|]; [|done]. by exists e.
Qed.
End selects.

(** ** Layers *)

Lemma yields_on_rag {P A} (I : rag P -> Prop) (Q : A -> Prop) m : yields I Q m -> yields (fun s => I (mm_rag s)) Q (on_rag m).
Proof. intros Hm s Hs. specialize (Hm (mm_rag s) Hs). unfold on_rag. by destruct (m (mm_rag s)). Qed.
Lemma yields_on_memory {P A} (I : memory P -> Prop) (Q : A -> Prop) m :
  yields I Q m -> yields (fun s => I (ct_memory s)) Q (on_memory m).
Proof. intros Hm s Hs. specialize (Hm (ct_memory s) Hs). unfold on_memory. by destruct (m (ct_memory s)). Qed.
Lemma yields_on_store {P A} (I : memory P -> Prop) (m : M store A) : yields (fun s => I (ct_memory s)) (fun _ => True) (on_store m).
Proof. intros s Hs. unfold on_store. destruct (m (ct_store s)) as [[a|e] x]; by split. Qed.

Lemma dict_set_new k v d : k ∉ d.*1 -> dict_set k v d = d ++ [(k, v)].
Proof.
  induction d as [|[k' v'] d IH]; [done|]. simpl. intros H. rewrite not_elem_of_cons in H. destruct H as [H1 H2].
  destruct (String.eqb_spec k k'); [done|]. by rewrite IH.
Qed.
Lemma dict_update_last k v d e : dict_get k (dict_update d (e ++ [(k, v)])) = Some v.
Proof. unfold dict_update. rewrite foldl_app. simpl. apply dict_get_set_eq. Qed.
Lemma only_keys_last keys k v d : k ∈ keys -> only_keys keys (d ++ [(k, v)]) = only_keys keys d ++ [(k, v)].
Proof. intros H. unfold only_keys. rewrite filter_app. f_equal. by rewrite filter_cons, decide_True. Qed.

Section activation.
Context {P : Type}.
Variable parse_options : pydict -> res exc RagConfigOptions.
Variable active_policy_version : uuid -> option uuid.
Variable policy_version : uuid -> option pydict.
Variable parse_policy : pydict -> res exc RagPolicyDefinition.
Variable get_tool_config : uuid -> option pydict.
Abbreviation rag_policy := (resolve_policy active_policy_version policy_version parse_policy).
Abbreviation activation := (decide_activation (P := P) parse_options active_policy_version policy_version parse_policy get_tool_config).

(** When retrieval is activated for a task. *)
Definition activatable (tenant : uuid) (task : string) (scope : RagActivationScope) (flags : option AITaskContextFlags)
    (config_id : option uuid) (user : option string) (input : pyval) (tool : option uuid) (s : rag P) : Prop :=
  _structural_gate scope flags = true /\
  exists version p c config text options,
    rag_policy tenant = Ok (version, Some p) /\
    sp_enabled (scope_policy p task scope) = true /\
    (sp_tools (scope_policy p task scope) = [] \/ exists t, tool = Some t /\ t ∈ sp_tools (scope_policy p task scope)) /\
    (_tool_scope_metadata get_tool_config scope tool).1 <> Some false /\
    config_id = Some c /\ rg_configs s !! c = Some config /\ rc_tenant config = tenant /\
    (pd_published p = true -> rc_status config = "PUBLISHED") /\
    (scope = Rag.USER_MEMORY_VECTOR -> default "" user <> "") /\
    stripped_input input = Ok text /\ text <> "" /\ (min_chars scope (pd_min_chars p) <= chars_of text)%Z /\
    (pd_structured p = true \/ looks_structured text = false) /\
    parse_options (rc_options config) = Ok options.

Lemma heuristic_passes scope input p :
  _heuristic_reason scope input p = Ok None <->
  exists text, stripped_input input = Ok text /\ text <> "" /\ (min_chars scope (pd_min_chars p) <= chars_of text)%Z /\
    (pd_structured p = true \/ looks_structured text = false).
Proof.
  unfold _heuristic_reason. destruct (stripped_input input) as [text|e]; simpl; [|naive_solver].
  destruct (String.eqb_spec text "") as [->|Hne]; [naive_solver|].
  destruct (Z.ltb_spec (chars_of text) (min_chars scope (pd_min_chars p))); [split; [done|]; intros (t & [= <-] & _ & Hl & _); lia|].
  destruct (pd_structured p) eqn:Es, (looks_structured text) eqn:El; simpl; split; try done;
    try (intros _; exists text; split_and!; auto; fail); intros (t & [= <-] & _ & _ & [?|?]); congruence.
Qed.

Lemma activation_reads tenant task scope flags config_id user input tool :
  respects eq (activation tenant task scope flags config_id user input tool).
Proof. unfold decide_activation, get_rag_config, look. cbv zeta. repeat (frame || case_match). Qed.

Lemma activation_enabled tenant task scope flags config_id user input tool s a :
  (activation tenant task scope flags config_id user input tool s).1 = Ok a -> ad_enabled a = true ->
  activatable tenant task scope flags config_id user input tool s /\
  ad_filters a = Some (_effective_filters_override scope user (_tool_scope_metadata get_tool_config scope tool).2).
Proof.
  unfold decide_activation, activatable, mret. destruct (_structural_gate scope flags); simpl; [|by intros [= <-]].
  unfold mbind_ at 1, mlift at 1. destruct (rag_policy tenant) as [[version [p|]]|]; simpl; [|by intros [= <-]|done].
  destruct (sp_enabled _) eqn:Een; simpl; [|by intros [= <-]]. destruct (negb _ && negb _) eqn:Et; [by intros [= <-]|].
  destruct (_tool_scope_metadata get_tool_config scope tool) as [explicit override] eqn:Em.
  destruct (bool_decide_reflect (explicit = Some false)) as [|Hx]; [by intros [= <-]|].
  destruct config_id as [c|]; [|by intros [= <-]]. unfold get_rag_config, look, mbind_ at 1 2, mget at 1.
  destruct (rg_configs s !! c) as [config|] eqn:Ec; [|by intros [= <-]]. 
  simpl. match goal with |- ((if ?b then _ else _) _).1 = _ -> _ => destruct b eqn:Htn end; [by intros [= <-]|]. apply negb_false_iff, bool_decide_eq_true in Htn.
  destruct (pd_published p && _) eqn:Ep; [by intros [= <-]|]. destruct (bool_decide _ && _) eqn:Eu; [by intros [= <-]|].
  unfold mbind_ at 1, mlift at 1. destruct (_heuristic_reason scope input p) as [[r|]|] eqn:Eh; [by intros [= <-]| |done].
  unfold mbind_, mlift. destruct (parse_options (rc_options config)) as [options|] eqn:Eo; [|done]. simpl. intros [= <-] _.
  apply heuristic_passes in Eh as (text & H1 & H2 & H3 & H4). split; [|done]. split; [done|]. exists version, p, c, config, text, options.
  split_and!; try done.
  - apply andb_false_iff in Et as [Et|Et]; apply negb_false_iff in Et; [left; by apply bool_decide_eq_true in Et|].
    right. destruct tool as [t|]; [|done]. simpl in Et. apply bool_decide_eq_true in Et. by exists t.
  - intros Hp. rewrite Hp in Ep. simpl in Ep. apply negb_false_iff in Ep. by apply String.eqb_eq.
  - intros ->. rewrite bool_decide_true in Eu by done. simpl in Eu. by apply String.eqb_neq in Eu.
Qed.
Lemma activatable_enabled tenant task scope flags config_id user input tool s :
  activatable tenant task scope flags config_id user input tool s ->
  exists a, (activation tenant task scope flags config_id user input tool s).1 = Ok a /\ ad_enabled a = true.
Proof.
  intros (Hg & version & p & c & config & text & options & Hp & Hen & Ht & Hx & -> & Hc & Htn & Hpub & Hu & H1 & H2 & H3 & H4 & Ho).
  unfold decide_activation, mret. rewrite Hg. simpl. unfold mbind_ at 1, mlift at 1. rewrite Hp. simpl. rewrite Hen. simpl.
  replace (negb (bool_decide (sp_tools _ = [])) && _) with false.
  2: { symmetry. destruct Ht as [->|(t & -> & Ht)]; [done|]. simpl. rewrite (bool_decide_true (t ∈ _)) by done. apply andb_false_r. }
  destruct (_tool_scope_metadata get_tool_config scope tool) as [explicit override]. rewrite bool_decide_false by done.
  unfold get_rag_config, look, mbind_ at 1 2, mget at 1. rewrite Hc. simpl. rewrite (@bool_decide_true (rc_tenant config = tenant)) by done. simpl.
  replace (pd_published p && _) with false by (destruct (pd_published p); [by rewrite Hpub | done]).
  replace (bool_decide _ && _) with false.
  2: { symmetry. case_bool_decide as Hs; [|done]. simpl. by apply String.eqb_neq, Hu. }
  unfold mbind_ at 1, mlift at 1. rewrite (proj2 (heuristic_passes scope input p)) by (exists text; auto).
  unfold mbind_, mlift. rewrite Ho. by eexists.
Qed.

(** [C33] Retrieval is activated exactly when it is allowed: the task has a flag of the scope, the tenant's policy enables the scope for the
    task and for the tool, the tool's configuration does not forbid it, the configuration is the tenant's and published where the
    policy asks for it, a user is known where memory is searched, and the input is long enough and not structured; deciding changes
    nothing, and the filters it gives are of that scope and user whatever the tool's configuration says. *)
Theorem activation_exact tenant task scope flags config_id user input tool s :
  (activation tenant task scope flags config_id user input tool s).2 = s /\
  ((exists a, (activation tenant task scope flags config_id user input tool s).1 = Ok a /\ ad_enabled a = true) <->
   activatable tenant task scope flags config_id user input tool s) /\
  (forall a, (activation tenant task scope flags config_id user input tool s).1 = Ok a -> ad_enabled a = true ->
   exists f, ad_filters a = Some f /\ match scope with
   | Rag.TENANT_KNOWLEDGE => dict_get "scope" f = Some (PStr "TENANT_KNOWLEDGE")
   | Rag.USER_MEMORY_VECTOR => dict_get "scope" f = Some (PStr "USER_MEMORY") /\ dict_get "user_id" f = Some (from_option PStr PNone user)
   end).
Proof.
  split_and!; [symmetry; apply activation_reads | split; [intros (a & H1 & H2); by apply (activation_enabled _ _ _ _ _ _ _ _ _ a) | apply activatable_enabled] |].
  intros a H1 H2. destruct (activation_enabled _ _ _ _ _ _ _ _ _ _ H1 H2) as [_ ->]. eexists. split; [done|].
  unfold _effective_filters_override. destruct scope; [apply dict_get_set_eq|]. split; [|apply dict_get_set_eq].
  rewrite dict_get_set_ne by done. apply dict_get_set_eq.
Qed.

End activation.

Section layers.
Context {P : Type}.
Variable sha256 : string -> string.
Variable int_str : Z -> string.
Variable json_text : pyval -> string.
Variable py_str : pyval -> string.
Variable int_of_string : string -> option Z.
Variable fromisoformat : string -> option Z.
Variable text_gtb : string -> string -> bool.
Variable generate_embedding : string -> string -> Z -> P -> res exc vec * P.
Variable cosine_distance : vec -> vec -> pyfloat.
Variable parse_options : pydict -> res exc RagConfigOptions.
Variable get_model : uuid -> option ai_model.
Variable get_model_by_name : string -> option ai_model.
Variable active_policy_version : uuid -> option uuid.
Variable policy_version : uuid -> option pydict.
Variable parse_policy : pydict -> res exc RagPolicyDefinition.
Variable active_memory_policy_version : uuid -> option uuid.
Variable memory_policy_version : uuid -> option (res exc MemoryPolicyDefinition).
Variable get_tool_config : uuid -> option pydict.
Variable math_exp : pyfloat -> pyfloat.
Variable total_seconds : Z -> pyfloat.
Variable isoformat : Z -> string.
Variable now : Z.
Variable has_retriever has_reader has_session : bool.
Variable has_rag has_activation has_memory_policy : bool.

Abbreviation rag_policy := (resolve_policy active_policy_version policy_version parse_policy).
Abbreviation memory_policy := (resolve_memory_policy active_memory_policy_version memory_policy_version).
Abbreviation activation := (decide_activation (P := P) parse_options active_policy_version policy_version parse_policy get_tool_config).
Abbreviation retrieve_ := (retrieve (P := P) sha256 int_str json_text py_str fromisoformat text_gtb generate_embedding cosine_distance
  parse_options get_model get_model_by_name).
Abbreviation search_ := (search_user_memory (P := P) sha256 int_str json_text py_str fromisoformat text_gtb generate_embedding cosine_distance
  parse_options get_model get_model_by_name active_memory_policy_version memory_policy_version isoformat now has_memory_policy).
Abbreviation user_context := (get_user_context (P := P) sha256 int_str json_text py_str int_of_string fromisoformat text_gtb
  generate_embedding cosine_distance parse_options get_model get_model_by_name active_policy_version policy_version parse_policy
  active_memory_policy_version memory_policy_version get_tool_config isoformat now has_rag has_activation has_memory_policy).
Abbreviation layered := (get_layered_context (P := P) sha256 int_str json_text py_str int_of_string fromisoformat text_gtb generate_embedding
  cosine_distance parse_options get_model get_model_by_name active_policy_version policy_version parse_policy
  active_memory_policy_version memory_policy_version get_tool_config math_exp total_seconds isoformat now has_retriever has_reader
  has_session has_rag has_activation has_memory_policy).

(** *** Isolation *)

Variable docs : gmap uuid rag_document.
Variable chunks : list rag_chunk.
Abbreviation corpus_ := (corpus (P := P) docs chunks).
Abbreviation item_ := (item_of docs chunks).
Abbreviation knowledge_ := (knowledge_of int_str json_text).
Abbreviation memory_ := (memory_of int_str json_text).

Lemma retrieve_yields tenant c text k filters :
  yields corpus_ (fun x => Forall (item_ (knowledge_ tenant c)) (cx_items x)) (retrieve_ tenant c text k filters).
Proof.
  unfold retrieve. destruct (scope_filters SCOPE_TENANT None filters) as (Hn & Hs & _ & Hu). destruct (resolve_rag_scope _ _ _) as [f u].
  simpl in *. subst u. eapply yields_weaken; [apply context_finds|]. intros x Hx. eapply Forall_impl; [exact Hx|].
  intros i (Hi & d & Hd & H1 & H2 & (o & H3) & _). split; [done|]. exists d. unfold knowledge_of. split_and!; [done..|].
  apply (scope_selects _ _ _ _ _ "TENANT_KNOWLEDGE") in H3; [destruct H3 as [H3|[_ H3]]; auto | by apply dict_update_in | done].
Qed.

(** A memory policy is in force; a memory that a search may return. *)
Definition retention (tenant : uuid) : Prop := has_memory_policy = true /\ exists v p, memory_policy tenant = Ok (v, Some p).
Definition remembered (tenant c : uuid) (user : string) (d : rag_document) : Prop :=
  memory_ tenant c user d /\ (retention tenant -> isoformat now <> "" -> alive_at int_str json_text text_gtb (isoformat now) d).

Lemma overrides_yield tenant overrides :
  yields (fun s => corpus_ (mm_rag s))
    (fun o => retention tenant -> o = dict_set "expires_after" (PStr (isoformat now)) overrides)
    (if has_memory_policy then
       let* p := mlift (memory_policy tenant) in
       mret (match p.2 with Some _ => dict_set "expires_after" (PStr (isoformat now)) overrides | None => overrides end)
     else mret overrides).
Proof.
  unfold retention. destruct has_memory_policy; [|apply yields_ret; by intros [? _]].
  eapply yields_bind; [apply yields_lift; intros p Hp; exact Hp|]. intros [v p] Hp. apply yields_ret. intros (_ & v' & p' & Hp').
  rewrite Hp' in Hp. injection Hp as <- <-. done.
Qed.
Lemma expiry_kept user t overrides :
  "expires_after" ∉ overrides.*1 ->
  dict_get "expires_after" (resolve_rag_scope SCOPE_USER user (Some (dict_set "expires_after" t overrides))).1 = Some t.
Proof. intros H. unfold resolve_rag_scope. rewrite dict_set_new, only_keys_last by (done || set_solver). apply dict_update_last. Qed.

Lemma search_yields tenant c user text overrides k :
  "expires_after" ∉ overrides.*1 ->
  yields (fun s => corpus_ (mm_rag s)) (fun x => Forall (item_ (remembered tenant c user)) (cx_items x)) (search_ tenant c user text overrides k).
Proof.
  intros Ho. unfold search_user_memory. eapply yields_bind; [apply overrides_yield|]. intros o Hr.
  destruct (scope_filters SCOPE_USER (Some user) (Some o)) as (Hn & Hs & Hid & Hu).
  assert (He : retention tenant -> dict_get "expires_after" (resolve_rag_scope SCOPE_USER (Some user) (Some o)).1 = Some (PStr (isoformat now)))
    by (intros H; rewrite Hr by done; by apply expiry_kept).
  destruct (resolve_rag_scope _ _ _) as [f u]. simpl in *. subst u. eapply yields_weaken; [apply yields_on_rag, context_finds|].
  intros x Hx. eapply Forall_impl; [exact Hx|]. intros i (Hi & d & Hd & H1 & H2 & (opts & H3) & H4). split; [done|]. exists d. split; [done|].
  unfold remembered, memory_of. split; [split_and!; try done|].
  - apply (scope_selects _ _ _ _ _ "USER_MEMORY") in H3; [by destruct H3 as [H3|[? H3]] | by apply dict_update_in | done].
  - by apply H4.
  - intros H Hne. eapply expiry_selects; [|done|exact H3]. apply dict_update_in; auto.
Qed.

(** Structured memory comes with whatever of the user's memories was searched. *)
Definition user_items (tenant : uuid) (config_id : option uuid) (user : string) (x : option UserMemoryContext) : Prop :=
  forall u r, x = Some u -> uc_rag u = Some r -> exists c, config_id = Some c /\ (has_activation = true -> user <> "") /\
    Forall (item_ (remembered tenant c user)) (cx_items r).

Lemma activation_yields tenant task c user text tool flags :
  yields (fun s => corpus_ (mm_rag s))
    (fun a => ad_enabled a = true -> user <> "" /\ "expires_after" ∉ (default [] (ad_filters a)).*1)
    (on_rag (activation tenant task Rag.USER_MEMORY_VECTOR flags (Some c) (Some user) (PStr text) tool)).
Proof.
  apply yields_on_rag. intros s Hs. rewrite <- (activation_reads _ _ _ _ _ _ _ _ _ _ _ _ _ s). split; [done|]. case_match eqn:Ha; [|done]. intros He.
  destruct (activation_enabled _ _ _ _ _ _ _ _ _ _ _ _ _ _ _ Ha He) as [(_ & version & p & c' & config & t & options & Hp) ->]. split.
  - assert (Hu : Rag.USER_MEMORY_VECTOR = Rag.USER_MEMORY_VECTOR -> default "" (Some user) <> "") by tauto. by apply Hu.
  - simpl. rewrite !dict_set_keys. intros [H|[H|H]]; [done..|]. destruct (_tool_scope_metadata _ _ _) as [x [o|]]; simpl in H; [|by apply not_elem_of_nil in H].
    revert H. apply only_keys_notin. set_solver.
Qed.
Lemma found_yields tenant c user text overrides k (structured : pydict * pydict) :
  "expires_after" ∉ overrides.*1 -> (has_activation = true -> user <> "") ->
  yields (fun s => corpus_ (mm_rag s)) (fun x => user_items tenant (Some c) user (Some x))
    (let* r := search_ tenant c user text overrides k in
     mret {| uc_preferences := structured.1; uc_profile := structured.2; uc_rag := Some r |}).
Proof.
  intros Ho Hu. eapply yields_bind; [by apply search_yields|]. intros r Hr. apply yields_ret. intros u r' [= <-] [= <-]. by exists c.
Qed.
Lemma user_context_yields tenant user config_id text task flags tool k :
  yields (fun s => corpus_ (mm_rag s)) (fun x => user_items tenant config_id user (Some x))
    (user_context tenant user config_id text (Some task) flags tool k).
Proof.
  unfold get_user_context. eapply (yields_bind _ (fun _ => True)).
  { unfold get_user_memory_preferences_and_profile. intros s Hs. unfold mbind_, mget, mlift, mret. destruct (_validate_profile_schema_version _ _); by split. }
  intros structured _. cbv zeta.
  assert (Hw : forall c, yields (fun s => corpus_ (mm_rag s)) (fun x => user_items tenant c user (Some x))
    (mret {| uc_preferences := structured.1; uc_profile := structured.2; uc_rag := None |})).
  { intros c. apply yields_ret. by intros u r [= <-]. }
  destruct config_id as [c|]; [|apply Hw]. case_match; [|apply Hw]. destruct has_activation eqn:Eh.
  - eapply yields_bind; [apply activation_yields|]. intros a Ha. destruct (ad_enabled a) eqn:Ee; [|apply Hw]. destruct (Ha Ee) as [H1 H2].
    eapply yields_weaken; [by apply found_yields|]. done.
  - eapply yields_weaken; [apply found_yields; [set_solver | by rewrite Eh]|]. done.
Qed.

Lemma rerank_items x k source half_life y (Q : rag_document -> Prop) :
  _rerank_with_temporal_decay math_exp total_seconds now x k source half_life = Ok y -> Forall (item_ Q) (cx_items x) -> Forall (item_ Q) (cx_items y).
Proof.
  unfold _rerank_with_temporal_decay. destruct (cx_items x) as [|i l] eqn:Ei; [intros [= <-]; by rewrite Ei|].
  destruct (rmap _ (i :: l)) as [rescored|] eqn:Er; simpl; [|done]. intros [= <-] Hx. simpl.
  assert (H : Forall (item_ Q) rescored).
  { clear Ei. revert rescored Er Hx. generalize (i :: l) as items. induction items as [|j items IH]; intros l' Hl Hx; [by injection Hl as <-|].
    simpl in Hl. rinv. apply Forall_cons in Hx as [Hj Hx]. constructor; [|by eapply IH].
    unfold decayed in *. rinv. destruct Hj as (H1 & d & H2). split; [done|]. by exists d. }
  assert (Ho : Forall (item_ Q) (sorted_by not_below ci_score rescored)) by (by rewrite sorted_by_perm).
  destruct k as [k|]; [|done]. case_match; [|done]. by apply Forall_take.
Qed.


Lemma tenant_layer_yields d input tenant config_id k filters :
  yields (fun s => corpus_ (mm_rag (ct_memory s)))
    (fun x => forall r, x = Some r -> exists t c, tenant = Some t /\ config_id = Some c /\ ld_tenant_knowledge d = true /\
       Forall (item_ (knowledge_ t c)) (cx_items r))
    (tenant_layer sha256 int_str json_text py_str fromisoformat text_gtb generate_embedding cosine_distance parse_options get_model
       get_model_by_name has_retriever d input tenant config_id k filters).
Proof.
  unfold tenant_layer. destruct tenant as [t|]; [|by apply yields_ret]. destruct config_id as [c|]; [|by apply yields_ret].
  case_match eqn:Hc; [|by apply yields_ret]. eapply yields_bind; [apply yields_lift; intros a Ha; exact Ha|]. intros text _.
  eapply yields_bind; [apply (yields_on_memory (fun m => corpus_ (mm_rag m))), yields_on_rag, retrieve_yields|].
  intros r Hr. apply yields_ret. intros r' [= <-]. exists t, c. rewrite !andb_true_iff in Hc. tauto.
Qed.
Lemma user_layer_yields scope d task input config_id user flags tool scoring k :
  yields (fun s => corpus_ (mm_rag (ct_memory s)))
    (fun x => forall u r, x = Some u -> uc_rag u = Some r -> exists sc c name, scope = Some sc /\ config_id = Some c /\ user = Some name /\
       ld_memory_structured d = true /\ ld_memory_vector d = true /\ (has_activation = true -> name <> "") /\
       Forall (item_ (remembered (sc_tenant sc) c name)) (cx_items r))
    (user_layer sha256 int_str json_text py_str int_of_string fromisoformat text_gtb generate_embedding cosine_distance parse_options get_model
       get_model_by_name active_policy_version policy_version parse_policy active_memory_policy_version memory_policy_version get_tool_config
       math_exp total_seconds isoformat now has_reader has_rag has_activation has_memory_policy scope d task input config_id user flags tool
       scoring k).
Proof.
  unfold user_layer. destruct scope as [sc|]; [|by apply yields_ret]. destruct user as [name|]; [|by apply yields_ret].
  destruct (ld_memory_structured d && has_reader) eqn:Hc; [|by apply yields_ret]. apply andb_true_iff in Hc as [Hs _]. cbv zeta.
  eapply yields_bind; [apply yields_lift; intros a Ha; exact Ha|]. intros text _.
  eapply yields_bind; [apply (yields_on_memory (fun m => corpus_ (mm_rag m))), user_context_yields|]. intros x Hx.
  assert (Hv : forall r, uc_rag x = Some r -> exists c, config_id = Some c /\ ld_memory_vector d = true /\ (has_activation = true -> name <> "") /\
    Forall (item_ (remembered (sc_tenant sc) c name)) (cx_items r)).
  { intros r Hr. destruct (Hx x r eq_refl Hr) as (c & Hc & Hr'). destruct (ld_memory_vector d); [|done]. by exists c. }
  destruct (uc_rag x) as [r|] eqn:Er; [|apply yields_ret; intros u r [= <-]; congruence]. destruct (Hv r eq_refl) as (c & H1 & H2 & H3 & H4).
  destruct (ld_memory_vector d && ts_enabled scoring).
  - eapply yields_bind; [apply yields_lift; intros y Hy; exact Hy|]. intros y Hy. apply yields_ret. intros u r' [= <-] [= <-].
    exists sc, c, name. split_and!; auto. eapply rerank_items; [exact Hy | exact H4].
  - apply yields_ret. intros u r' [= <-] Hr'. rewrite Er in Hr'. injection Hr' as <-. by exists sc, c, name.
Qed.

(** Items of the knowledge layer are chunks of the tenant's documents which are not user memories; those of the memory layer are
    memories of the user in the tenant of the run, not expired if a memory policy is in force. *)
Definition isolated (scope : option retrieval_scope) (d : LayerUsageDecision) (tenant config_id : option uuid) (user : option string)
    (x : LayeredMemoryContext) : Prop :=
  (forall r, lc_tenant x = Some r -> exists t c, tenant = Some t /\ config_id = Some c /\ ld_tenant_knowledge d = true /\
     Forall (item_ (knowledge_ t c)) (cx_items r)) /\
  (forall u r, lc_user x = Some u -> uc_rag u = Some r -> exists sc c name, scope = Some sc /\ config_id = Some c /\ user = Some name /\
     ld_memory_structured d = true /\ ld_memory_vector d = true /\ (has_activation = true -> name <> "") /\
     Forall (item_ (remembered (sc_tenant sc) c name)) (cx_items r)).
Lemma layered_yields scope d task input tenant config_id user flags tool scoring k filters user_k :
  yields (fun s => corpus_ (mm_rag (ct_memory s))) (isolated scope d tenant config_id user)
    (layered scope d task input tenant config_id user flags tool scoring k filters user_k).
Proof.
  unfold get_layered_context. eapply (yields_bind _ (fun _ => True)).
  { destruct scope as [sc|]; [|by apply yields_ret]. case_match; [|by apply yields_ret].
    eapply yields_bind; [apply (yields_on_store (fun m => corpus_ (mm_rag m)))|]. intros; by apply yields_ret. }
  intros session _. eapply yields_bind; [apply tenant_layer_yields|]. intros t Ht.
  eapply yields_bind; [apply user_layer_yields|]. intros u Hu. apply yields_ret. split; [exact Ht | exact Hu].
Qed.
End layers.
