(* ===== verification/ContextFacts.v ===== *)
(** * ContextFacts: what a prompt is told

    Theorems about [ContextBuilder]: whose documents and memories the system context is made of, that a closed gate lets nothing
    through, and that a system context, once set, stays. *)

From S2P Require Import Prelude.
From S2P Require Import Errors.
From S2P Require Import PyValue.
From S2P Require Import PyString.
From S2P Require Import PyFloat.
From S2P Require Import StateMachine.
From S2P Require Import Effects.
From S2P Require Import Store.
From S2P Require Import NodeStep.
From S2P Require Import ToolNodes.
From S2P Require Import Chunking.
From S2P Require Import Rag.
From S2P Require Import RagFacts.
From S2P Require Import Memory.
From S2P Require Import Retrieval.
From S2P Require Import ContextBuilder.
From S2P Require Import RetrievalFacts.

Section facts.
Context {P : Type}.
Variable sha256 : string -> string.
Variable int_str : Z -> string.
Variable json_text : pyval -> string.
Variable py_str : pyval -> string.
Variable int_of_string : string -> option Z.
Variable fromisoformat : string -> option Z.
Variable text_gtb : string -> string -> bool.
Variable generate_embedding : string -> string -> Z -> P -> res exc vec * P.
Variable cosine_distance : vec -> vec -> pyfloat.
Variable parse_options : pydict -> res exc RagConfigOptions.
Variable get_model : uuid -> option ai_model.
Variable get_model_by_name : string -> option ai_model.
Variable active_policy_version : uuid -> option uuid.
Variable policy_version : uuid -> option pydict.
Variable parse_policy : pydict -> res exc RagPolicyDefinition.
Variable active_memory_policy_version : uuid -> option uuid.
Variable memory_policy_version : uuid -> option (res exc MemoryPolicyDefinition).
Variable get_tool_config : uuid -> option pydict.
Variable math_exp : pyfloat -> pyfloat.
Variable total_seconds : Z -> pyfloat.
Variable isoformat : Z -> string.
Variable now : Z.
Variable has_retriever has_reader has_session : bool.
Variable has_rag has_activation has_memory_policy : bool.
Variable has_retrieval builder_activation : bool.
Variable uuid_str : uuid -> string.
Variable uuid_parse : string -> option uuid.
Variable agent_version : uuid -> option agent_version_row.
Variable agent_tenant : uuid -> option uuid.
Variable node_rag_config : uuid -> option uuid.
Variable node_agent_version : uuid -> option uuid.
Variable default_persona : pyval.
Variable parse_persona : pyval -> res exc pyval.
Variable coerce_tool : pyval -> option pyval.
Variable parse_scoring : pyval -> res exc TemporalScoringConfig.
Variable dump_flags : AITaskContextFlags -> pyval.
Variable today : string.
Variable flow_id flow_version_id : uuid.
Implicit Types s : context_tables P.

Abbreviation build := (build_template_context (P := P) sha256 int_str json_text py_str int_of_string fromisoformat text_gtb
  generate_embedding cosine_distance parse_options get_model get_model_by_name active_policy_version policy_version parse_policy
  active_memory_policy_version memory_policy_version get_tool_config math_exp total_seconds isoformat now has_retriever has_reader
  has_session has_rag has_activation has_memory_policy has_retrieval builder_activation uuid_str uuid_parse agent_version agent_tenant
  node_rag_config node_agent_version default_persona parse_persona coerce_tool parse_scoring dump_flags today flow_id flow_version_id).
Abbreviation layers_ := (retrieve_layers (P := P) sha256 int_str json_text py_str int_of_string fromisoformat text_gtb
  generate_embedding cosine_distance parse_options get_model get_model_by_name active_policy_version policy_version parse_policy
  active_memory_policy_version memory_policy_version get_tool_config math_exp total_seconds isoformat now has_retriever has_reader
  has_session has_rag has_activation has_memory_policy has_retrieval uuid_str uuid_parse parse_scoring).
Abbreviation activate_ := (activate_knowledge (P := P) py_str parse_options active_policy_version policy_version parse_policy get_tool_config
  builder_activation uuid_parse).
Abbreviation agent_ := (agent_parts uuid_parse agent_version agent_tenant node_rag_config node_agent_version default_persona parse_persona).
Abbreviation tool_ := (_extract_tool_config_id py_str uuid_parse).
Abbreviation activatable_ := (activatable (P := P) parse_options active_policy_version policy_version parse_policy get_tool_config).

(** Nothing but the store's cache changes. *)
Definition same_memory s s' : Prop := ct_memory s' = ct_memory s.
#[local] Instance same_memory_preorder : PreOrder same_memory.
Proof. split; [done|]. intros a b c H1 H2. unfold same_memory in *. congruence. Qed.

Lemma on_memory_reads {A} (m : M (rag P) A) : respects eq m -> respects same_memory (on_memory (on_rag m)).
Proof.
  intros Hm s. specialize (Hm (mm_rag (ct_memory s))). unfold same_memory, on_memory, on_rag. destruct (m _) as [r g]. simpl in *. subst g.
  by destruct (ct_memory s).
Qed.
Lemma on_store_reads {A} (m : M store A) : respects same_memory (on_store (P := P) m).
Proof. intros s. unfold same_memory, on_store. by destruct (m (ct_store s)). Qed.
#[local] Hint Resolve on_store_reads : frame.

Lemma resolve_reads tenant user input task flags config_id tool :
  respects eq (_resolve_tenant_knowledge_activation (P := P) parse_options active_policy_version policy_version parse_policy get_tool_config
    builder_activation tenant user input task flags config_id tool).
Proof.
  unfold _resolve_tenant_knowledge_activation. destruct config_id; [|frame]. case_match; frame. apply activation_reads.
Qed.
Lemma activate_reads d c task input tenant config_id flags : respects same_memory (activate_ d c task input tenant config_id flags).
Proof.
  unfold activate_knowledge. repeat case_match; frame. apply on_memory_reads, resolve_reads.
Qed.

(** The steps of a build that returns. *)
Lemma build_steps version task c input flags s ctx system' s' :
  build version task c input flags s = (Ok (ctx, system'), s') ->
  exists persona tenant config_id d a s1 l,
    agent_ version c = Ok (persona, tenant, config_id) /\
    _apply_user_context_enrichment_gating (layer_decision flags) c task = Ok d /\
    activate_ d c task (or_else (dict_getv "user_input" input) (PStr "")) tenant config_id flags s = (Ok a, s1) /\
    layers_ a.1.1 c task (or_else (dict_getv "user_input" input) (PStr "")) tenant config_id flags a.1.2 a.2 (system_context c) s1 = (Ok l, s') /\
    system' = l.2 /\
    dict_get "layers" ctx = Some (PDict [("tenant_knowledge", PList []); ("user_memory_structured", l.1.2);
      ("user_memory_vector", PList []); ("session_context", l.1.1)]).
Proof.
  unfold build_template_context. cbv zeta. rewrite mbind_ok. intros (pol & ? & [= H0 <-] & H). rewrite mbind_ok in H.
  destruct H as (ops & ? & [= H1 <-] & H). rewrite mbind_ok in H. destruct H as (agent & ? & [= H2 <-] & H).
  destruct agent as [[persona tenant] config_id]. rewrite mbind_ok in H. destruct H as (d & ? & [= H3 <-] & H).
  rewrite mbind_ok in H. destruct H as (a & s1 & H4 & H). rewrite mbind_ok in H. destruct H as (l & s2 & H5 & H).
  injection H as <- <- <-. by exists persona, tenant, config_id, d, a, s1, l.
Qed.

(** Tenant knowledge is looked for when it is activated. *)
Lemma activate_spec d c task input tenant config_id flags s a s1 :
  activate_ d c task input tenant config_id flags s = (Ok a, s1) ->
  ld_session a.1.1 = ld_session d /\ ld_memory_structured a.1.1 = ld_memory_structured d /\ ld_memory_vector a.1.1 = ld_memory_vector d /\
  (ld_tenant_knowledge a.1.1 = true -> ld_tenant_knowledge d = true /\
   (forall t cid, tenant = Some t -> config_id = Some cid -> builder_activation = true ->
     activatable_ t task Rag.TENANT_KNOWLEDGE flags (Some cid) (Some (user_id c)) input (tool_ c) (mm_rag (ct_memory s)))).
Proof.
  unfold activate_knowledge. destruct tenant as [t|]; [|intros [= <- <-]; split_and!; [done..|]; intros H; split; [done|]; by intros].
  destruct config_id as [cid|]; [|intros [= <- <-]; split_and!; [done..|]; intros H; split; [done|]; by intros].
  destruct (ld_tenant_knowledge d) eqn:Ek; [|intros [= <- <-]; split_and!; [done..|]; simpl; by rewrite Ek].
  rewrite mbind_ok. intros ([[b k] f] & s2 & H & [= <- <-]). simpl. split_and!; [done..|]. intros ->. split; [done|]. intros ? ? [= <-] [= <-] Hb.
  unfold on_memory, on_rag in H. destruct (_resolve_tenant_knowledge_activation _ _ _ _ _ _ _ _ _ _ _ _ _ _) as [r g] eqn:Er.
  injection H as -> _. unfold _resolve_tenant_knowledge_activation in Er. rewrite Hb in Er. simpl in Er. rewrite mbind_ok in Er.
  destruct Er as (x & s3 & Hx & Er). destruct (ad_enabled x) eqn:Ex; [|done].
  exact (proj1 (activation_enabled _ _ _ _ _ _ _ _ _ _ _ _ _ _ _ (f_equal fst Hx) Ex)).
Qed.

(** Without a system context, the one that is set is made of the items that were retrieved. *)
Abbreviation isolated_ := (isolated int_str json_text text_gtb active_memory_policy_version memory_policy_version isoformat now has_activation
  has_memory_policy).
Lemma layers_fresh d c task input tenant config_id flags k filters s l text s' :
  layers_ d c task input tenant config_id flags k filters None s = (Ok l, s') -> l.2 = Some text ->
  exists x, text = str_join newline (context_parts py_str (tenant_items_of x) (user_items_of x)) /\
    isolated_ (rg_documents (mm_rag (ct_memory s))) (rg_chunks (mm_rag (ct_memory s)))
      (Some {| sc_flow_run := flow_run_id c; sc_tenant := tenant_id c |}) d tenant config_id (Some (user_id c)) x.
Proof.
  unfold retrieve_layers. destruct has_retrieval; simpl; [|by intros [= <- <-]]. rewrite mbind_ok. intros (x & s1 & Hx & H) Ht.
  rewrite mbind_ok in H. destruct H as (session & s2 & _ & H). injection H as <- <-. simpl in Ht.
  destruct (context_parts _ _ _) as [|part parts] eqn:Ep; [done|]. injection Ht as <-. exists x. split; [by rewrite Ep|].
  eapply yields_run; [| |exact Hx]; [eapply layered_yields | by split].
Qed.

(** Nothing is retrieved if a system context is there already, or if knowledge and memory are both denied. *)
Definition quiet (system : option string) (d : LayerUsageDecision) : Prop :=
  is_Some system \/ (ld_tenant_knowledge d = false /\ ld_memory_structured d = false).
Lemma layers_quiet d c task input tenant config_id flags k filters system s l s' :
  layers_ d c task input tenant config_id flags k filters system s = (Ok l, s') -> quiet system d ->
  l.2 = system /\ l.1.2 = PNone /\ ct_memory s' = ct_memory s.
Proof.
  unfold retrieve_layers. destruct has_retrieval; simpl; [|by intros [= <- <-]]. intros H [[t ->]|[Hk Hu]].
  - destruct (ld_session d); [|by injection H as <- <-]. rewrite mbind_ok in H. destruct H as (x & s1 & [= _ <-] & H). by injection H as <- <-.
  - destruct system as [t|].
    { destruct (ld_session d); [|by injection H as <- <-]. rewrite mbind_ok in H. destruct H as (x & s1 & [= _ <-] & H). by injection H as <- <-. }
    rewrite mbind_ok in H. destruct H as (x & s1 & Hx & H). rewrite mbind_ok in H. destruct H as (session & s2 & Hs & H). injection H as <- <-.
    assert (E2 : s2 = s1).
    { destruct (lc_session x); [by injection Hs as _ <-|]. destruct (ld_session d); [|by injection Hs as _ <-]. rewrite mbind_ok in Hs.
      destruct Hs as (y & s3 & [= _ <-] & Hs). by injection Hs as _ <-. }
    assert (Hx' : lc_tenant x = None /\ lc_user x = None /\ ct_memory s1 = ct_memory s).
    { unfold get_layered_context in Hx. rewrite mbind_ok in Hx. destruct Hx as (ss & s3 & Hss & Hx).
      assert (E3 : ct_memory s3 = ct_memory s).
      { eapply (respects_run same_memory); [|exact Hss]. simpl. destruct (_ && _); [apply respects_bind; [apply _ | apply on_store_reads | intros; frame] | frame]. }
      unfold tenant_layer, user_layer in Hx. rewrite Hk, Hu in Hx. simpl in Hx. destruct tenant, config_id; injection Hx as <- <-; done. }
    destruct Hx' as (E & E' & E3). unfold tenant_items_of, user_items_of. rewrite E, E', E2. done.
Qed.


(** A gate that is shut: gating is on and nothing was published. *)
Definition shut (c : ExecutionContext) : Prop :=
  (exists p, _user_context_enrichment_policy c = PDict p /\ truthy (dict_getv "gating" p) = true) /\
  match dict_get "user_context_enrichment" (state c) with
  | Some (PDict h) => truthy (dict_getv "published" h) = false
  | _ => True
  end.
Lemma shut_denies d c task d' :
  shut c -> task <> "response_render" -> _apply_user_context_enrichment_gating d c task = Ok d' -> d' = with_layers false false false d.
Proof.
  intros ((p & Hp & Hg) & Hh) Ht. unfold _apply_user_context_enrichment_gating. rewrite Hp. simpl.
  replace (truthy (default (PBool false) (dict_get "gating" p))) with true by (unfold dict_getv in Hg; by destruct (dict_get "gating" p)).
  simpl. apply String.eqb_neq in Ht. rewrite Ht.
  assert (E : forall h : pydict, truthy (dict_getv "published" h) = false -> truthy (default (PBool false) (dict_get "published" h)) = false)
    by (intros h; unfold dict_getv; by destruct (dict_get "published" h)).
  destruct (dict_get "user_context_enrichment" (state c)) as [[]|]; rewrite ?E by done; simpl; by intros [= <-].
Qed.

(** A shut gate lets nothing through, and a system context stays what it was: where the runtime policy gates the user's context and
    nothing has been published, a task other than the rendering of the response is told nothing of tenant knowledge or user
    memory, whatever its flags; and once a system context is there no later task retrieves anything or changes it, whatever its
    flags.  In both cases the tables are as before. *)
Theorem context_gated version task c input flags s ctx system' s' :
  build version task c input flags s = (Ok (ctx, system'), s') ->
  is_Some (system_context c) \/ (shut c /\ task <> "response_render") ->
  system' = system_context c /\ ct_memory s' = ct_memory s /\
  exists session, dict_get "layers" ctx = Some (PDict [("tenant_knowledge", PList []); ("user_memory_structured", PNone);
    ("user_memory_vector", PList []); ("session_context", session)]).
Proof.
  intros (persona & tenant & config_id & d & a & s1 & l & Ha & Hd & Hact & Hl & -> & Hc)%build_steps Hq.
  destruct (activate_spec _ _ _ _ _ _ _ _ _ _ Hact) as (_ & Es & Ev & Hk).
  pose proof (activate_reads d c task (or_else (dict_getv "user_input" input) (PStr "")) tenant config_id flags s) as Hm.
  rewrite Hact in Hm. unfold same_memory in Hm. simpl in Hm.
  assert (Hquiet : quiet (system_context c) a.1.1).
  { destruct Hq as [Hq|[Hs Ht]]; [by left|]. right. apply (shut_denies _ _ _ _ Hs Ht) in Hd. subst d. simpl in *. split; [|done].
    destruct (ld_tenant_knowledge a.1.1); [|done]. by destruct (Hk eq_refl). }
  destruct (layers_quiet _ _ _ _ _ _ _ _ _ _ _ _ _ Hl Hquiet) as (H1 & H2 & H3). split_and!; [done | congruence |].
  rewrite H2 in Hc. by eexists.
Qed.
End facts.
