(* ===== verification/RagSample.v ===== *)
(** * RagSample: retrieval and memory run on concrete inputs

    A tenant with two configurations, a model that embeds everything alike and a store of 512 dimensions: witnesses of the
    theorems about ingestion, memory and context, and inputs on which the code does not do what its parts mean to. *)

From S2P Require Import Prelude.
From S2P Require Import Errors.
From S2P Require Import PyValue.
From S2P Require Import PyString.
From S2P Require Import PyFloat.
From S2P Require Import StateMachine.
From S2P Require Import Sorting.
From S2P Require Import Effects.
From S2P Require Import Store.
From S2P Require Import NodeStep.
From S2P Require Import Executor.
From S2P Require Import Chunking.
From S2P Require Import Rag.
From S2P Require Import RagFacts.
From S2P Require Import Memory.
From S2P Require Import MemoryFacts.
From S2P Require Import Retrieval.
From S2P Require Import ContextBuilder.
From S2P Require Import RetrievalFacts.
From S2P Require Import ContextFacts.

(** ** Parameters *)

Definition tenant1 : uuid := 1%N.
Definition shop : uuid := 20%N.
Definition diary : uuid := 21%N.
Definition old_store : uuid := 30%N.
Definition new_store : uuid := 31%N.
Definition no_text (_ : pyval) : string := "".
Definition no_number (_ : Z) : string := "".
Definition no_int (_ : string) : option Z := None.
Definition never (_ _ : string) : bool := false.
Definition char_tokens (s : string) : list Z := (fun c => Z.of_nat (Ascii.nat_of_ascii c)) <$> String.list_ascii_of_string s.
Definition of_tokens (l : list Z) : string := String.string_of_list_ascii ((fun z => Ascii.ascii_of_nat (Z.to_nat z)) <$> l).
Definition a_vector : vec := replicate (Z.to_nat 512) (FFin 1 0).
Definition embed_one (_ _ : string) (_ : Z) (p : unit) : res exc vec * unit := (Ok a_vector, p).
Definition embed_all (l : list string) (_ : string) (_ : Z) (p : unit) : res exc (list vec) * unit := (Ok ((fun _ => a_vector) <$> l), p).
Definition alike (_ _ : vec) : pyfloat := FFin 0 0.
Definition options_of (_ : pydict) : res exc RagConfigOptions := Ok {|
  ro_embedding := {| eo_alias := "small"; eo_dimension := 512; eo_model := None |}; ro_indexing := None; ro_top_k := 3;
  ro_threshold := FFin 0 0; ro_filters := [] |}.
Definition rule_of (d : pydict) : res exc ChunkRuleParams :=
  match dict_get "pages" d with Some _ => Ok (PER_PAGE 100 10) | None => Ok (TOKEN_WINDOW 50 10 10 1000) end.
Definition a_model : ai_model := {| am_name := "small"; am_provider := Some "openai"; am_type := "embedding"; am_active := true |}.
Definition by_id (_ : uuid) : option ai_model := Some a_model.
Definition by_name (_ : string) : option ai_model := Some a_model.
Definition no_version (_ : uuid) : option uuid := None.
Definition no_policy (_ : uuid) : option pydict := None.
Definition bad_policy (_ : pydict) : res exc RagPolicyDefinition := Err PydanticValidationError.

Definition start : rag unit := {|
  rg_documents := ∅; rg_chunks := []; rg_counters := ∅;
  rg_configs := {[shop := {| rc_tenant := tenant1; rc_store := old_store; rc_rule := 40%N; rc_corpus := "TENANT_KNOWLEDGE"; rc_status := "PUBLISHED"; rc_version := (1, 0, 0)%Z; rc_options := [] |};
                  diary := {| rc_tenant := tenant1; rc_store := old_store; rc_rule := 41%N; rc_corpus := "TENANT_KNOWLEDGE"; rc_status := "PUBLISHED"; rc_version := (1, 0, 0)%Z; rc_options := [] |}]};
  rg_stores := {[old_store := {| vs_tenant := tenant1; vs_model := "small"; vs_dimension := 512; vs_metric := "cosine"; vs_version := 1; vs_active := true |};
                 new_store := {| vs_tenant := tenant1; vs_model := "small"; vs_dimension := 512; vs_metric := "cosine"; vs_version := 1; vs_active := false |}]};
  rg_rules := {[40%N := {| cr_tenant := tenant1; cr_params := [] |}; 41%N := {| cr_tenant := tenant1; cr_params := [("pages", PBool true)] |}]};
  rg_cache := []; rg_clock := 0; rg_next := 100%N; rg_world := tt |}.
Definition opening_hours : RagDocumentCreate := {| dc_source := "site"; dc_type := "page"; dc_content := "open from nine to five"; dc_metadata := [];
  dc_config := None; dc_pages := None |}.

Abbreviation ingest_ := (ingest_document id char_tokens of_tokens no_text embed_all options_of rule_of by_id by_name no_version no_policy bad_policy).
Abbreviation embed_ := (embed_document_by_id char_tokens of_tokens no_text embed_all options_of rule_of by_id by_name no_version no_policy bad_policy).
Abbreviation prepare_ := (prepare_document_for_embedding id options_of rule_of).
Abbreviation query_ := (get_context id no_number no_text no_text no_int never embed_one alike options_of by_id by_name).
Abbreviation cutover_ := reindex_cutover_vector_store.

(** ** Ingestion *)

Lemma start_consistent : consistent no_text (policy_quotas no_version no_policy bad_policy) start.
Proof.
  split.
  - intros i [d Hd]. cbn in Hd. by rewrite lookup_empty in Hd.
  - intros i j d e Hd. cbn in Hd. by rewrite lookup_empty in Hd.
  - intros k Hk. by apply not_elem_of_nil in Hk.
  - intros i d Hd. cbn in Hd. by rewrite lookup_empty in Hd.
  - intros key c _ _. unfold usage. simpl. rewrite lookup_empty, map_filter_empty. done.
  - intros key c q _ _ Hq. done.
Defined.
Lemma rag_stays_consistent_witness :
  consistent no_text (policy_quotas no_version no_policy bad_policy)
    (foldl (fun s r => serve_rag id char_tokens of_tokens no_number no_text no_text no_int never embed_one embed_all alike options_of rule_of by_id by_name
       no_version no_policy bad_policy r s) start [ReqIngest tenant1 shop opening_hours; ReqQuery tenant1 shop None "when are you open" [] None None]).
Proof. apply rag_stays_consistent, start_consistent. Defined.

(** ** What ingestion does not mean to do *)

Definition contents (r : res exc RagContext) : list string :=
  match r with Ok x => (fun i => rk_content (ci_chunk i)) <$> cx_items x | Err _ => [] end.
Definition with_hours : rag unit := (ingest_ tenant1 shop opening_hours start).2.

(** A document that is found is found no more once its configuration has moved to another store: its chunks stay in the old one, and
    ingesting it again does nothing since it is completed. *)
Lemma cutover_loses_documents :
  let moved := (cutover_ tenant1 shop new_store with_hours).2 in
  let again := (ingest_ tenant1 shop opening_hours moved).2 in
  contents (query_ tenant1 shop None "when are you open" [] None None with_hours).1 = ["open from nine to five"] /\
  (cutover_ tenant1 shop new_store with_hours).1 = Ok tt /\
  contents (query_ tenant1 shop None "when are you open" [] None None moved).1 = [] /\
  (ingest_ tenant1 shop opening_hours moved).1 = Ok (100%N, COMPLETED) /\
  contents (query_ tenant1 shop None "when are you open" [] None None again).1 = [].
Proof. vm_compute. done. Qed.

(** A rule that needs pages leaves a document without pages in [PROCESSING], and then the configuration can never be moved. *)
Lemma stuck_in_processing :
  let s := (ingest_ tenant1 diary opening_hours start).2 in
  (ingest_ tenant1 diary opening_hours start).1 = Err (DomainValidationException "rag_per_page_pages_required") /\
  rd_status <$> rg_documents s !! 100%N = Some "PROCESSING" /\
  (cutover_ tenant1 diary new_store s).1 = Err (DomainValidationException "rag_reindex_cutover_in_progress_documents").
Proof. vm_compute. done. Qed.

(** Two users with the same memory: the second is told it is stored, but it is the first one's, and a search of the second finds nothing. *)
Definition memory_doc (user : string) : RagDocumentCreate := {| dc_source := "explicit_user"; dc_type := "USER_MEMORY_ITEM"; dc_content := "likes tea";
  dc_metadata := [("scope", PStr "USER_MEMORY"); ("user_id", PStr user)]; dc_config := None; dc_pages := None |}.
Lemma second_memory_lost :
  let s1 := (ingest_ tenant1 shop (memory_doc "alice") start).2 in
  let s2 := (ingest_ tenant1 shop (memory_doc "bob") s1).2 in
  (ingest_ tenant1 shop (memory_doc "bob") s1).1 = Ok (100%N, COMPLETED) /\
  contents (query_ tenant1 shop (Some "alice") "what do I drink" [("scope", PStr "USER_MEMORY")] None None s2).1 = ["likes tea"] /\
  contents (query_ tenant1 shop (Some "bob") "what do I drink" [("scope", PStr "USER_MEMORY")] None None s2).1 = [] /\
  (* and a second configuration of the tenant cannot have the content either *)
  (ingest_ tenant1 diary opening_hours with_hours).1 = Ok (100%N, COMPLETED) /\
  contents (query_ tenant1 diary None "when are you open" [] None None with_hours).1 = [].
Proof. vm_compute. done. Qed.

(** ** Memory *)

Definition nothing_remembered : memory unit := {| mm_rag := start; mm_profiles := ∅; mm_events := []; mm_jobs := [] |}.
Definition eq_same (a b : pyval) : bool := bool_decide (a = b).
Definition language_patch : pydict := [("language", PDict [("spoken", PStr "pt")])].

Lemma patches_idempotent_witness :
  _deep_merge (_deep_merge [("language", PDict [("written", PStr "en")]); ("name", PStr "Ana")] language_patch) language_patch =
  [("language", PDict [("written", PStr "en"); ("spoken", PStr "pt")]); ("name", PStr "Ana")].
Proof.
  rewrite (proj1 (patches_idempotent [("language", PDict [("written", PStr "en")]); ("name", PStr "Ana")] language_patch
    ltac:(simpl; repeat split; repeat constructor; set_solver))). reflexivity.
Defined.

Lemma preferences_refine_witness :
  exists s', prefer_all eq_same no_text no_int SOURCE_PRIORITY_MAP true tenant1 "ana" "tone"
    [("inferred_llm", PStr "formal"); ("explicit_user", PStr "casual"); ("tool_output", PStr "formal")] nothing_remembered = (Ok tt, s') /\
    holds (get_user_memory_profile tenant1 "ana" s') "tone" (Some (PStr "casual", "explicit_user", 2%Z)).
Proof.
  destruct (preferences_refine eq_same no_text no_int SOURCE_PRIORITY_MAP true tenant1 "ana" "tone"
    [("inferred_llm", PStr "formal"); ("explicit_user", PStr "casual"); ("tool_output", PStr "formal")] None nothing_remembered
    ltac:(split; [left; reflexivity | split; [reflexivity | exact I]])) as (s' & H1 & H2 & _).
  exists s'. split; [exact H1 | exact H2].
Defined.

(** A value the user confirms keeps the source it had, so a weaker source may still overwrite it. *)
Lemma confirmed_value_overwritten :
  let writes := [("inferred_llm", PStr "formal"); ("explicit_user", PStr "formal"); ("inferred_llm", PStr "casual")] in
  foldl (remember eq_same SOURCE_PRIORITY_MAP true) None writes = Some (PStr "casual", "inferred_llm", 2%Z).
Proof. vm_compute. done. Qed.
(** A profile patch may write the preferences themselves, whatever source they had. *)
Lemma patch_overrides_preferences :
  let profile := [("memory_preferences", PDict [("tone", make_entry (PStr "casual") "explicit_user" 2)])] in
  let patch := [("memory_preferences", PDict [("tone", PDict [("value", PStr "formal")])])] in
  dict_getv "tone" (_preferences_dict_from_profile (_deep_merge profile patch)) = PStr "formal".
Proof. vm_compute. done. Qed.

(** ** Context *)

(** The tenant's policy lets both scopes be searched for every task; [flags] say what a task may see. *)
Definition open_scope : RagScopePolicy := {| sp_enabled := true; sp_tools := [] |}.
Definition open_policy (_ : pydict) : res exc RagPolicyDefinition := Ok {|
  pd_defaults := [("response_render", (open_scope, open_scope)); ("intent", (open_scope, open_scope))]; pd_published := true; pd_top_k_cap := Some 2%Z; pd_min_chars := [];
  pd_structured := false; pd_quotas := None |}.
Definition one_version (_ : uuid) : option uuid := Some 60%N.
Definition one_policy (_ : uuid) : option pydict := Some [].
Definition no_memory_policy (_ : uuid) : option (res exc MemoryPolicyDefinition) := None.
Definition no_tool (_ : uuid) : option pydict := None.
Definition unit_float (_ : pyfloat) : pyfloat := FFin 1 0.
Definition seconds (z : Z) : pyfloat := FFin z 0.
Definition a_time (_ : Z) : string := "2026-01-01T00:00:00+00:00".
Definition agent_row (_ : uuid) : option agent_version_row := Some {| av_agent := 70%N; av_rag_config := Some shop; av_persona := PNone |}.
Definition its_tenant (_ : uuid) : option uuid := Some tenant1.
Definition dumped (_ : AITaskContextFlags) : pyval := PDict [].
Definition as_is (v : pyval) : res exc pyval := Ok v.
Definition kept_tool (v : pyval) : option pyval := Some v.
Definition no_scoring (_ : pyval) : res exc TemporalScoringConfig := Err PydanticValidationError.
Definition no_uuid (_ : string) : option uuid := None.
Definition uuid_name (_ : uuid) : string := "id".

Abbreviation build_ := (build_template_context id no_number no_text no_text no_int no_int never embed_one alike options_of by_id by_name one_version one_policy open_policy
  no_version no_memory_policy no_tool unit_float seconds a_time 0 true true true true true true true true uuid_name no_uuid agent_row its_tenant no_version
  no_version PNone as_is kept_tool no_scoring dumped "2026-01-01" 80%N 81%N).

Definition all_flags : AITaskContextFlags := {| tf_rag_tenant := true; tf_memory_structured := true; tf_memory_vector := true; tf_config := None;
  tf_session := false; tf_memory_write := false |}.
Definition no_memory_flags : AITaskContextFlags := {| tf_rag_tenant := false; tf_memory_structured := false; tf_memory_vector := false; tf_config := None;
  tf_session := false; tf_memory_write := false |}.
Definition run_context (st meta : pydict) : ExecutionContext := {| tenant_id := tenant1; user_id := "alice"; session_id := 82%N; input_payload := PDict [];
  flow_run_id := 83%N; correlation_id := 84%N; current_node_id := "n"; current_node_run_id := None; state := st; NodeStep.memory := []; metadata := meta;
  node_output := []; system_prompt := None; system_context := None; context_tools := [] |}.
Definition question : pydict := [("user_input", PStr "when are you open")].
Definition tables : context_tables unit := {| ct_store := empty_store; ct_memory := {|
  mm_rag := (ingest_ tenant1 shop (memory_doc "alice") with_hours).2; mm_profiles := ∅; mm_events := []; mm_jobs := [] |} |}.
Definition gated_policy (layers : pyval) : pydict :=
  [("runtime_policy", PDict [("user_context_enrichment", PDict [("gating", PBool true); ("default_layers_when_published", layers)])])].

Definition system_of (r : res exc (pydict * option string)) : option string := match r with Ok x => x.2 | Err _ => None end.
Definition both_parts : string := str_join newline ["# Tenant Knowledge Base"; "open from nine to five"; "# User Memory"; "- likes tea"].
Definition ok_of {A} (r : res exc A) (d : A) : A := match r with Ok a => a | Err _ => d end.


Lemma context_gated_witness :
  let c := run_context [] (gated_policy PNone) in
  let r := build_ (Some 71%N) "intent" c question (Some all_flags) tables in
  r = (Ok ((ok_of r.1 ([], None)).1, None), r.2) /\ ct_memory r.2 = ct_memory tables.
Proof.
  intros c r. assert (H : r = (Ok ((ok_of r.1 ([], None)).1, None), r.2)) by (vm_compute; reflexivity). split; [exact H|].
  apply (context_gated id no_number no_text no_text no_int no_int never embed_one alike options_of by_id by_name one_version one_policy open_policy
    no_version no_memory_policy no_tool unit_float seconds a_time 0 true true true true true true true true uuid_name no_uuid agent_row its_tenant no_version
    no_version PNone as_is kept_tool no_scoring dumped "2026-01-01" 80%N 81%N (Some 71%N) "intent" c question (Some all_flags)
    tables _ _ _ H). right. split; [|done]. split; [eexists; split; [reflexivity | reflexivity] | exact Logic.I].
Defined.

(** A task without any flag of memory is still told it, if the gate's default layers say so; and a task that may see nothing is told what
    an earlier one was, through the system context. *)
Definition told (text : option string) (c : ExecutionContext) : ExecutionContext := {| tenant_id := tenant_id c; user_id := user_id c;
  session_id := session_id c; input_payload := input_payload c; flow_run_id := flow_run_id c; correlation_id := correlation_id c;
  current_node_id := current_node_id c; current_node_run_id := current_node_run_id c; state := state c; NodeStep.memory := NodeStep.memory c;
  metadata := metadata c; node_output := node_output c; system_prompt := system_prompt c; system_context := text; context_tools := context_tools c |}.
Lemma gate_widens :
  let c := run_context [] (gated_policy (PDict [("allow_user_memory_structured", PBool true)])) in
  _apply_user_context_enrichment_gating (layer_decision (Some no_memory_flags)) c "response_render" =
    Ok (with_layers false true false (layer_decision (Some no_memory_flags))) /\
  (let r := build_ (Some 71%N) "response_render" (run_context [] []) question (Some all_flags) tables in
   system_of (build_ (Some 71%N) "intent" (told (system_of r.1) (run_context [] [])) question (Some no_memory_flags) r.2).1 = Some both_parts).
Proof. split; vm_compute; done. Qed.

(** The vector memory is activated for a task whose flags allow structured memory only. *)
Lemma structured_flag_activates_vector :
  _structural_gate Rag.USER_MEMORY_VECTOR (Some {| tf_rag_tenant := false; tf_memory_structured := true; tf_memory_vector := false; tf_config := None;
    tf_session := false; tf_memory_write := false |}) = true.
Proof. done. Qed.
