(* ===== verification/OpenApi.v ===== *)
(** * OpenApi: operations read from an OpenAPI document

    [src/src/domain/tools/services/openapi_parser.py] and [tool_import_http_base.py]: the document that is fetched, its operations,
    and the self-contained JSON schema of a request, with references to components inlined.

    Documents are Python values.  The fetch, the JSON and YAML parsers, the printing of values and [urlparse] are parameters. *)

From S2P Require Import Prelude.
From S2P Require Import Errors.
From S2P Require Import PyValue.
From S2P Require Import PyString.

(** ** References *)

(** [s.replace(pat, "")]; [skip] characters of a match are left to drop. *)
Fixpoint remove_sub (skip : nat) (pat s : string) : string :=
  match s with
  | EmptyString => ""
  | String a s' =>
      match skip with
      | S k => remove_sub k pat s'
      | 0 => if String.prefix pat s then remove_sub (String.length pat - 1) pat s' else String a (remove_sub 0 pat s')
      end
  end.
Definition COMPONENTS : string := "#/components/schemas/".
Definition ref_key (path : string) : string := remove_sub 0 COMPONENTS path.

Section resolve.
(** [components.get("schemas", {})]. *)
Variable schemas : pyval.

(** [dereference_schema_node], with what is left of the guard. *)
Fixpoint dereference (guard : nat) (current : pydict) : res exc pydict :=
  match guard with
  | 0 => Ok current
  | S guard =>
      match dict_get "$ref" current with
      | Some (PStr path) =>
          let! next := get_or (ref_key path) (PDict []) schemas in
          match next with PDict d => dereference guard d | _ => Ok current end
      | _ => Ok current
      end
  end.
Definition dereference_schema_node : pydict -> res exc pydict := dereference 32.

Definition is_union (k : string) : bool := bool_decide (k ∈ ["anyOf"; "oneOf"; "allOf"]).
(** [deep_resolve_refs]; [fuel] is [33 - _depth]. *)
Fixpoint deep_resolve (fuel : nat) (node : pyval) : res exc pyval :=
  match fuel, node with
  | S fuel, PDict d =>
      let! resolved := dereference_schema_node d in
      let! out := rmap (fun kv : string * pyval =>
        let! v := (match kv.2 with
                   | PDict props =>
                       if String.eqb kv.1 "properties"
                       then let! l := rmap (fun p : string * pyval => let! x := deep_resolve fuel p.2 in Ok (p.1, x)) props in Ok (PDict l)
                       else if String.eqb kv.1 "items" then deep_resolve fuel kv.2 else Ok kv.2
                   | PList l => if is_union kv.1 then let! l := rmap (deep_resolve fuel) l in Ok (PList l) else Ok kv.2
                   | v => Ok v
                   end) in
        Ok (kv.1, v)) resolved in
      Ok (PDict out)
  | _, _ => Ok node
  end.
Definition deep_resolve_refs : pyval -> res exc pyval := deep_resolve 33.

(** ** Parameters *)

Definition without_notes (d : pydict) : pydict := filter (fun kv => kv.1 ∉ ["title"; "default"; "examples"]) d.
Definition string_schema : pydict := [("type", PStr "string")].
(** [normalize_parameter_json_schema]. *)
Definition proper_branch (v : pyval) : bool :=
  match v with PDict d => negb (bool_decide (dict_get "type" d = Some (PStr "null"))) | _ => false end.
Definition normalize_parameter_json_schema (fragment : pydict) : res exc pydict :=
  let! resolved := deep_resolve_refs (PDict fragment) in
  match resolved with
  | PDict r =>
      Ok match dict_get "anyOf" r with
         | None => without_notes r
         | Some (PList branches) => match List.find proper_branch branches with Some (PDict b) => without_notes b | _ => string_schema end
         | Some _ => string_schema
         end
  | _ => Err PyTypeError
  end.

Definition json_media (content : pyval) : res exc pyval :=
  let! a := get_or "application/json" PNone content in
  if truthy a then Ok a else get_or "application/json; charset=utf-8" PNone content.

Section parser.
Variable py_str : pyval -> string.
Variable json_dumps : pyval -> string.

(** [extract_json_body_object_shape]: the properties of the body and the required names among them. *)
Definition extract_json_body_object_shape (operation : pydict) : res exc (pydict * list string) :=
  let body := default (PDict []) (dict_get "requestBody" operation) in
  if negb (truthy body) then Ok ([], [])
  else
    let! content := get_or "content" (PDict []) body in
    if negb (truthy content) then Ok ([], [])
    else
      let! media := json_media content in
      if negb (truthy media) then Ok ([], [])
      else
        let! node := get_or "schema" (PDict []) media in
        match node with
        | PDict node =>
            let! d := dereference_schema_node node in
            match dict_get "properties" d with
            | Some (PDict props) =>
                let required := match dict_get "required" d with Some (PList l) => str_of py_str <$> l | _ => [] end in
                Ok (props, filter (fun n => is_Some (dict_get n props)) required)
            | _ => Ok ([], [])
            end
        | _ => Ok ([], [])
        end.

(** The merged properties and the required names, in the order they were met. *)
Definition shape : Type := pydict * list string.
Definition add_name (n : string) (l : list string) : list string := if bool_decide (n ∈ l) then l else l ++ [n].

(** The description of a parameter joins that of its schema. *)
Definition described (entry schema : pydict) : pydict :=
  match dict_get "description" entry with
  | Some (PStr desc) =>
      if String.eqb (py_strip desc) "" then schema
      else dict_set "description" (PStr (match dict_get "description" schema with
                                         | Some (PStr e) => if String.eqb (py_strip e) "" then py_strip desc
                                                            else py_strip (py_strip e +:+ " " +:+ py_strip desc)
                                         | _ => py_strip desc
                                         end)) schema
  | _ => schema
  end.
Definition add_parameter (s : shape) (entry : pydict) : res exc shape :=
  match dict_get "name" entry with
  | Some (PStr (String _ _ as name)) =>
      let! schema := normalize_parameter_json_schema (match dict_get "schema" entry with Some (PDict d) => d | _ => string_schema end) in
      Ok (dict_set name (PDict (described entry schema)) s.1,
          if bool_decide (dict_get "required" entry = Some (PBool true)) then add_name name s.2 else s.2)
  | _ => Ok s
  end.
Definition parameters_in (location : string) (operation : pydict) : list pydict :=
  match dict_get "parameters" operation with
  | Some (PList l) => filter (fun d => dict_get "in" d = Some (PStr location)) (omap as_dict l)
  | _ => []
  end.
(** [build_merged_request_schema]. *)
Definition build_merged_request_schema (operation : pydict) : res exc pyval :=
  let! body := extract_json_body_object_shape operation in
  let start : shape := (foldl (fun d kv => dict_set kv.1 kv.2 d) [] body.1, foldl (fun l n => add_name n l) [] body.2) in
  let! s := rfold add_parameter (parameters_in "path" operation ++ parameters_in "query" operation) start in
  match s.1 with
  | [] => Ok (PDict [])
  | props => deep_resolve_refs (PDict [("type", PStr "object"); ("additionalProperties", PBool false); ("properties", PDict props);
                                       ("required", PList (PStr <$> s.2))])
  end.

(** [extract_request_body_examples]. *)
Definition example_of (v : pyval) : option string :=
  match v with PDict d => match dict_getv "value" d with PNone => None | x => Some (json_dumps x) end | _ => None end.
Definition extract_request_body_examples (operation : pydict) : res exc (list string) :=
  let! content := get_or "content" (PDict []) (default (PDict []) (dict_get "requestBody" operation)) in
  let! media := json_media content in
  if negb (truthy media) then Ok []
  else
    let! examples := get_or "examples" PNone media in
    Ok (match examples with PDict d => omap example_of d.*2 | _ => [] end).

(** [extract_success_json_response_schema]. *)
Definition extract_success_json_response_schema (operation : pydict) : res exc pyval :=
  let responses := default (PDict []) (dict_get "responses" operation) in
  let! ok := get_or "200" PNone responses in
  let! response := (if truthy ok then Ok ok else get_or "201" PNone responses) in
  if negb (truthy response) then Ok (PDict [])
  else
    let! content := get_or "content" (PDict []) response in
    if negb (truthy content) then Ok (PDict [])
    else
      let! media := json_media content in
      if negb (truthy media) then Ok (PDict [])
      else
        let! schema := get_or "schema" (PDict []) media in
        match schema with
        | PDict ((_ :: _) as d) =>
            match dict_get "$ref" d with
            | Some (PStr path) => let! r := get_or (ref_key path) (PDict []) schemas in Ok (match r with PDict _ => r | _ => PDict [] end)
            | Some _ => Err PyAttributeError
            | None => Ok schema
            end
        | _ => Ok (PDict [])
        end.
End parser.
End resolve.

(** ** Documents *)

Record OpenAPISpec : Type := {
  os_title : pyval;
  os_version : pyval;
  os_paths : pydict;
  os_schemas : pyval;
  os_openapi : pyval;
  os_servers : pyval;
}.
Record OpenAPIOperation : Type := {
  op_path : string;
  op_method : string;
  op_id : pyval;
  op_summary : pyval;
  op_description : pyval;
  op_examples : list string;
  op_request : pyval;
  op_response : pyval;
}.
Definition METHODS : list string := ["get"; "post"; "put"; "patch"; "delete"].

Section documents.
Variable py_str : pyval -> string.
Variable json_dumps : pyval -> string.
Variable json_loads yaml_load : string -> string + pyval.

(** The checks of [parse_openapi_spec] on what was fetched. *)
Definition invalid (m : string) : exc := DomainValidationException m.
Definition read_openapi_spec (content : string) : res exc OpenAPISpec :=
  let! spec := (match (if String.prefix "{" (py_strip content) then json_loads content else yaml_load content) with
                | inl e => Err (invalid ("invalid_openapi_format: " +:+ e))
                | inr v => Ok v
                end) in
  match spec with
  | PDict d =>
      if negb (dict_has "openapi" d) && negb (dict_has "swagger" d)
      then Err (invalid "invalid_openapi_spec: missing 'openapi' or 'swagger' version field")
      else match dict_get "paths" d with
      | Some (PDict paths) =>
          let info := default (PDict []) (dict_get "info" d) in
          let! title := get_or "title" PNone info in
          let! name := get_or "name" PNone info in
          let! version := get_or "version" PNone info in
          let! schemas := get_or "schemas" (PDict []) (default (PDict []) (dict_get "components" d)) in
          Ok {| os_title := or_else title name; os_version := version; os_paths := paths; os_schemas := schemas;
                os_openapi := or_else (dict_getv "openapi" d) (dict_getv "swagger" d);
                os_servers := default (PList []) (dict_get "servers" d) |}
      | _ => Err (invalid "invalid_openapi_spec: missing or invalid 'paths' field")
      end
  | _ => Err (invalid "invalid_openapi_spec: root must be an object")
  end.

(** [str.upper] of the methods. *)
Definition upper_method (m : string) : string :=
  match m with
  | "get" => "GET" | "post" => "POST" | "put" => "PUT" | "patch" => "PATCH" | "delete" => "DELETE" | _ => m
  end.
(** One operation of [extract_operations]. *)
Definition extract_operation (schemas : pyval) (path method : string) (operation : pydict) : res exc OpenAPIOperation :=
  let! request := build_merged_request_schema schemas py_str operation in
  let! response := extract_success_json_response_schema schemas operation in
  let! examples := extract_request_body_examples json_dumps operation in
  Ok {| op_path := path; op_method := upper_method method;
        op_id := default (PStr (method +:+ "_" +:+ path)) (dict_get "operationId" operation);
        op_summary := dict_getv "summary" operation; op_description := dict_getv "description" operation; op_examples := examples;
        op_request := request; op_response := response |}.
(** The operations of a path, and [extract_operations]. *)
Definition path_operations (path_item : string * pyval) : list (string * string * pydict) :=
  match path_item.2 with
  | PDict item => omap (fun m => match dict_get m item with Some (PDict ((_ :: _) as op)) => Some (path_item.1, m, op) | _ => None end) METHODS
  | _ => []
  end.
Definition extract_operations (spec : OpenAPISpec) : res exc (list OpenAPIOperation) :=
  rmap (fun x => extract_operation (os_schemas spec) x.1.1 x.1.2 x.2) (concat (path_operations <$> os_paths spec)).

(** [resolve_tool_import_base_url]; [urlparse] gives scheme, location and path. *)
Variable urlparse : string -> string * string * string.
Definition origin (u : string * string * string) : string := py_rstrip "/" (u.1.1 +:+ "://" +:+ u.1.2).
Definition resolve_tool_import_base_url (servers : pyval) (fetch_url default_base_url : string) : string :=
  let raw := match servers with
             | PList (PDict d :: _) => py_strip (str_of py_str (or_else (dict_getv "url" d) (PStr "")))
             | _ => ""
             end in
  let cand := py_rstrip "/" raw in
  let u := urlparse cand in
  let f := urlparse fetch_url in
  if (String.prefix "http://" cand || String.prefix "https://" cand) && negb (String.eqb u.1.1 "") && negb (String.eqb u.1.2 "")
  then if String.eqb u.2 "" || String.eqb u.2 "/" then origin u else cand
  else if (String.eqb f.1.1 "http" || String.eqb f.1.1 "https") && negb (String.eqb f.1.2 "") then origin f
  else py_rstrip "/" (py_strip default_base_url).
End documents.

(** ** Self-contained schemas *)

(** The schemas below an entry that are resolved with it. *)
Definition children (kv : string * pyval) : list pyval :=
  match kv.2 with
  | PDict props => if String.eqb kv.1 "properties" then props.*2 else if String.eqb kv.1 "items" then [kv.2] else []
  | PList l => if is_union kv.1 then l else []
  | _ => []
  end.

Lemma dict_get_keys k d : dict_get k d = None <-> k ∉ d.*1.
Proof.
  induction d as [|[k' v] d IH]; simpl; [set_solver|]. rewrite not_elem_of_cons. destruct (String.eqb_spec k k') as [->|]; [naive_solver|]. tauto.
Qed.
(** [rmap] of a function that is defined on every element. *)
Lemma rmap_pointwise {A B} (f : A -> res exc B) (R : A -> B -> Prop) l :
  (forall x, x ∈ l -> exists y, f x = Ok y /\ R x y) -> exists l', rmap f l = Ok l' /\ Forall2 R l l'.
Proof.
  induction l as [|x l IH]; intros H; [by exists []; split; [|constructor]|].
  destruct (H x ltac:(left)) as (y & Hy & HR). destruct IH as (l' & Hl & HF); [intros; apply H; by right|].
  exists (y :: l'). simpl. rewrite Hy. simpl. rewrite Hl. simpl. split; [done | by constructor].
Qed.

Section ranked.
Variable schemas : pyval.
(** The nesting depth of components. *)
Variable depth : nat.

(** [ranked r n v]: below [v] there are [n] levels of schemas, and references lead through at most [r] components. *)
Inductive ranked : nat -> nat -> pyval -> Prop :=
  | ranked_leaf r n v : as_dict v = None -> ranked r n v
  | ranked_node r n d : dict_get "$ref" d = None -> (forall kv c, kv ∈ d -> c ∈ children kv -> ranked r n c) -> ranked r (S n) (PDict d)
  | ranked_ref r n d path t :
      dict_get "$ref" d = Some (PStr path) -> get_or (ref_key path) (PDict []) schemas = Ok (PDict t) ->
      ranked r depth (PDict t) -> ranked (S r) n (PDict d).

Lemma ranked_mono r n n' v : ranked r n v -> n <= n' -> ranked r n' v.
Proof.
  intros H. revert n'. induction H as [r n v Hv | r n d Hd Hc IH | r n d path t Hd Ht Hr _]; intros n' Hn.
  - by constructor.
  - destruct n' as [|n']; [lia|]. apply ranked_node; [done|]. intros kv c Hkv Hin. apply (IH kv c Hkv Hin). lia.
  - by eapply ranked_ref.
Qed.

(** Following references ends at a schema without one, whose children are nearer to the end. *)
Lemma dereference_ranked guard r n d :
  ranked r n (PDict d) -> r <= guard ->
  exists d' r' n', dereference schemas guard d = Ok d' /\ dict_get "$ref" d' = None /\ r' <= r /\ r' * depth + S n' <= r * depth + n /\
    (forall kv c, kv ∈ d' -> c ∈ children kv -> ranked r' n' c).
Proof.
  revert r n d. induction guard as [|guard IH]; intros r n d H Hr; inversion H as [? ? ? Hv | ? n1 ? Hd Hc | r1 ? ? path t Hd Ht Hk]; subst.
  - done.
  - exists d, r, n1. split_and!; [done | done | lia | lia | done].
  - lia.
  - done.
  - exists d, r, n1. split_and!; [simpl; by rewrite Hd | done | lia | lia | done].
  - simpl. rewrite Hd, Ht. simpl. destruct (IH r1 depth t Hk ltac:(lia)) as (d' & r' & n' & H1 & H2 & H3 & H4 & H5).
    exists d', r', n'. split_and!; [done | done | lia | lia | done].
Qed.

(** A resolved entry has its key, and the resolved children. *)
Lemma entry_resolves fuel kv (Q : pyval -> pyval -> Prop) :
  (forall c, c ∈ children kv -> exists w, deep_resolve schemas fuel c = Ok w /\ Q c w) ->
  (forall c w, Q c w -> is_Some (as_dict c) <-> is_Some (as_dict w)) ->
  exists v, (match kv.2 with
     | PDict props =>
         if String.eqb kv.1 "properties"
         then let! l := rmap (fun p : string * pyval => let! x := deep_resolve schemas fuel p.2 in Ok (p.1, x)) props in Ok (PDict l)
         else if String.eqb kv.1 "items" then deep_resolve schemas fuel kv.2 else Ok kv.2
     | PList l => if is_union kv.1 then let! l := rmap (deep_resolve schemas fuel) l in Ok (PList l) else Ok kv.2
     | v => Ok v
     end) = Ok v /\ Forall2 Q (children kv) (children (kv.1, v)).
Proof.
  destruct kv as [k v]. unfold children. cbn [fst snd]. intros H HQ. destruct v as [| | | | |l|props|]; try (by eexists; split; [reflexivity | constructor]).
  - destruct (is_union k) eqn:Ek; [|eexists; split; [reflexivity|]; cbn; by rewrite ?Ek].
    destruct (rmap_pointwise (deep_resolve schemas fuel) Q l H) as (l' & Hl & HF). rewrite Hl. eexists. split; [reflexivity|]. simpl. done.
  - destruct (String.eqb_spec k "properties") as [->|Hk].
    + destruct (rmap_pointwise (fun p : string * pyval => let! x := deep_resolve schemas fuel p.2 in Ok (p.1, x)) (fun p q => q.1 = p.1 /\ Q p.2 q.2) props) as (l' & Hl & HF).
      { intros p Hp. destruct (H p.2) as (w & Hw & Hq); [by apply list_elem_of_fmap_2|]. rewrite Hw. by exists (p.1, w). }
      rewrite Hl. eexists. split; [reflexivity|]. simpl. clear H Hl. induction HF as [|p q ps qs [_ Hpq] _ IH]; simpl; by constructor.
    + destruct (String.eqb_spec k "items") as [->|Hi]; [|eexists; split; [reflexivity|]; simpl].
      * destruct (H (PDict props)) as (w & Hw & Hq); [left|]. exists w. split; [done|]. simpl.
        destruct (proj1 (HQ _ _ Hq)) as [d Hd]; [done|]. destruct w; try done. repeat constructor. done.
      * destruct (String.eqb_spec k "properties"), (String.eqb_spec k "items"); by constructor.
Qed.

(** Resolution gives a schema without references, of the depth that is left. *)
Definition closes (n : nat) (c w : pyval) : Prop := ranked 0 n w /\ (is_Some (as_dict c) <-> is_Some (as_dict w)).
Lemma deep_resolve_ranked fuel r n v :
  1 <= depth -> ranked r n v -> r <= 32 -> r * depth + n <= fuel -> exists w, deep_resolve schemas fuel v = Ok w /\ closes fuel v w.
Proof.
  intros Hdep. revert r n v. induction fuel as [|fuel IH]; intros r n v Hv Hr Hf.
  - exists v. split; [done|]. split; [|done]. inversion Hv; subst; [by constructor | lia | nia].
  - destruct (as_dict v) as [d|] eqn:Ed.
    2: { exists v. split; [by destruct v|]. split; [by constructor | by rewrite Ed]. }
    destruct v; try done. injection Ed as ->. destruct (dereference_ranked 32 r n d Hv Hr) as (d' & r' & n' & Hde & Href & Hr' & Hle & Hc).
    cbn [deep_resolve]. unfold dereference_schema_node. rewrite Hde. cbn [rbind].
    match goal with |- context [rmap ?f d'] => destruct (rmap_pointwise f (fun kv kw => kw.1 = kv.1 /\ Forall2 (closes fuel) (children kv) (children kw)) d') as (out & Hout & HF) end.
    { intros kv Hkv. destruct (entry_resolves fuel kv (closes fuel)) as (w & Hw & HF).
      - intros c Hin. apply (IH r' n' c); [by eapply Hc | lia | lia].
      - by intros c w [_ ?].
      - rewrite Hw. cbn [rbind]. by exists (kv.1, w). }
    rewrite Hout. cbn [rbind]. eexists. split; [done|]. split; [|done]. apply ranked_node.
    + apply dict_get_keys. replace (out.*1) with (d'.*1); [by apply dict_get_keys|]. clear -HF. induction HF as [|x y xs ys [Hxy _] _ IH]; [done|]. rewrite !fmap_cons, Hxy. by f_equal.
    + intros kv c Hkv Hin. clear -HF Hkv Hin. induction HF as [|x y xs ys [_ Hxy] _ IH]; [by apply not_elem_of_nil in Hkv|].
      apply elem_of_cons in Hkv as [->|Hkv]; [|by apply IH]. clear IH.
      induction Hxy as [|a b la lb [Hab _] _ IH]; [by apply not_elem_of_nil in Hin|]. apply elem_of_cons in Hin as [->|Hin]; [done | by apply IH].
Qed.

Lemma rmap_id {A} (f : A -> res exc A) l : (forall x, x ∈ l -> f x = Ok x) -> rmap f l = Ok l.
Proof.
  induction l as [|x l IH]; intros H; [done|]. simpl. rewrite (H x) by left. simpl. rewrite IH; [done|]. intros; apply H; by right.
Qed.
(** A schema without references is left as it is. *)
Lemma deep_resolve_id fuel n v : ranked 0 n v -> deep_resolve schemas fuel v = Ok v.
Proof.
  revert n v. induction fuel as [|fuel IH]; intros n v H; [done|]. inversion H as [? ? ? Hv | ? n1 d Hd Hc | ]; subst; [by destruct v|].
  cbn [deep_resolve]. unfold dereference_schema_node. cbn [dereference]. rewrite Hd. cbn [rbind]. rewrite rmap_id; [done|].
  intros [k v] Hkv. pose proof (fun c => Hc (k, v) c Hkv) as Hk. unfold children in Hk. cbn [fst snd] in *.
  destruct v as [| | | | |l|props|]; try done.
  - destruct (is_union k); [|done]. rewrite rmap_id; [done|]. intros c Hin. by eapply IH, Hk.
  - destruct (String.eqb k "properties"); [|destruct (String.eqb k "items"); [|done]].
    + rewrite rmap_id; [done|]. intros [pn ps] Hp. cbn [fst snd]. rewrite (IH n1); [done|]. apply Hk. by apply (list_elem_of_fmap_2 snd _ (pn, ps)).
    + rewrite (IH n1); [done|]. apply Hk. left.
Qed.
End ranked.

(** Without references the components do not matter. *)
Lemma ranked_closed schemas schemas' depth n v : ranked schemas depth 0 n v -> ranked schemas' depth 0 n v.
Proof.
  intros H. remember 0 as r eqn:Er. induction H as [r n v Hv | r n d Hd Hc IH | r n d path t Hd Ht Hr _]; [by constructor | | done].
  apply ranked_node; [done|]. intros kv c Hkv Hin. by eapply IH.
Qed.


(** ** Request schemas *)

Lemma dict_set_sub k v d x : x = k \/ x ∈ d.*1 -> x ∈ (dict_set k v d).*1.
Proof.
  intros H. induction d as [|[k' v'] d IH]; simpl; [destruct H as [->|H]; [left | by apply not_elem_of_nil in H]|].
  destruct (String.eqb_spec k k') as [->|Hk]; rewrite fmap_cons; simpl; [destruct H as [->|H]; [left | done]|].
  rewrite fmap_cons in H. simpl in H. set_solver.
Qed.
Lemma add_name_elem n l x : x ∈ add_name n l <-> x = n \/ x ∈ l.
Proof. unfold add_name. case_bool_decide; set_solver. Qed.
Lemma add_name_nodup n l : NoDup l -> NoDup (add_name n l).
Proof. unfold add_name. case_bool_decide; [done|]. intros. apply NoDup_app. split_and!; [done | set_solver | apply NoDup_singleton]. Qed.

(** The required names are distinct, and are properties. *)
Definition named (s : shape) : Prop := NoDup s.2 /\ forall n, n ∈ s.2 -> n ∈ s.1.*1.

Section shapes.
Variable schemas : pyval.
Variable py_str : pyval -> string.

Lemma add_parameter_named s entry s' : named s -> add_parameter schemas s entry = Ok s' -> named s'.
Proof.
  intros [Hd Hs]. unfold add_parameter. destruct (dict_get "name" entry) as [[| | | |[|a name]| | |]|]; try by intros [= <-].
  destruct (normalize_parameter_json_schema _ _) as [schema|]; [|done]. simpl. intros [= <-]. split; simpl.
  - case_bool_decide; [by apply add_name_nodup | done].
  - intros n Hn. apply dict_set_sub. case_bool_decide; [apply add_name_elem in Hn as [->|Hn]|]; auto.
Qed.
Lemma body_named operation body :
  extract_json_body_object_shape schemas py_str operation = Ok body ->
  named (foldl (fun d kv => dict_set kv.1 kv.2 d) [] body.1, foldl (fun l n => add_name n l) [] body.2).
Proof.
  intros H. assert (Hin : forall n, n ∈ body.2 -> n ∈ body.1.*1).
  { revert H. unfold extract_json_body_object_shape. case_match; [by intros [= <-] ? ?%not_elem_of_nil|].
    destruct (get_or "content" _ _) as [content|]; [|done]. simpl. case_match; [by intros [= <-] ? ?%not_elem_of_nil|].
    destruct (json_media content) as [media|]; [|done]. simpl. case_match; [by intros [= <-] ? ?%not_elem_of_nil|].
    destruct (get_or "schema" _ _) as [node|]; [|done]. simpl. destruct node as [| | | | | |node|]; try by intros [= <-] ? ?%not_elem_of_nil.
    destruct (dereference_schema_node schemas node) as [d|]; [|done]. simpl.
    destruct (dict_get "properties" d) as [[| | | | | |props|]|]; try by intros [= <-] ? ?%not_elem_of_nil.
    intros [= <-] n [[v Hn] _]%list_elem_of_filter. simpl. destruct (decide (n ∈ props.*1)) as [|Hno]; [done|].
    by apply dict_get_keys in Hno as Hno'; rewrite Hno' in Hn. }
  destruct body as [props names]. cbn [fst snd] in *. split; cbn [fst snd].
  - assert (G : forall l0, NoDup l0 -> NoDup (foldl (fun l n => add_name n l) l0 names)); [|by apply G; constructor].
    clear. induction names as [|n names IH]; intros l0 H0; [done|]. simpl. by apply IH, add_name_nodup.
  - assert (G1 : forall l0 n, n ∈ foldl (fun l n => add_name n l) l0 names -> n ∈ l0 \/ n ∈ names).
    { clear. induction names as [|m names IH]; intros l0 n; [by left|]. simpl. intros [H|H]%IH; [apply add_name_elem in H|]; set_solver. }
    assert (G2 : forall (d0 : pydict) n, n ∈ d0.*1 \/ n ∈ props.*1 -> n ∈ (foldl (fun d kv => dict_set kv.1 kv.2 d) d0 props).*1).
    { clear. induction props as [|[k v] props IH]; intros d0 n; [by intros [?|[]%not_elem_of_nil]|]. rewrite fmap_cons. simpl. intros H.
      apply IH. destruct H as [H|[->|H]%elem_of_cons]; [left; apply dict_set_sub; auto | left; apply dict_set_sub; auto | by right]. }
    intros n [[]%not_elem_of_nil|Hn]%G1. apply G2. right. auto.
Qed.

Lemma deep_resolve_refs_eq v : deep_resolve_refs schemas v = deep_resolve schemas (S 32) v.
Proof. reflexivity. Qed.
(** What resolution makes of the merged schema: its properties resolved one by one. *)
Lemma deep_resolve_object fuel props names w :
  deep_resolve schemas (S fuel) (PDict [("type", PStr "object"); ("additionalProperties", PBool false); ("properties", PDict props); ("required", PList (PStr <$> names))]) = Ok w ->
  exists props', w = PDict [("type", PStr "object"); ("additionalProperties", PBool false); ("properties", PDict props'); ("required", PList (PStr <$> names))] /\
    props'.*1 = props.*1.
Proof.
  cbn [deep_resolve]. unfold dereference_schema_node. cbn [dereference dict_get String.eqb Ascii.eqb Bool.eqb rbind rmap fst snd].
  destruct (rmap _ props) as [props'|] eqn:E; [|done]. cbn. intros [= <-]. exists props'. split; [done|].
  revert props' E. induction props as [|[k v] props IH]; intros props'; cbn; [by intros [= <-]|].
  destruct (deep_resolve schemas fuel v); [|done]. cbn. destruct (rmap _ props) as [l|]; [|done]. cbn. intros [= <-]. rewrite fmap_cons. simpl. f_equal. by apply IH.
Qed.
End shapes.

(** The request schema of an operation is empty, or a closed object schema: it has at least one property, admits no other,
    and its required names are distinct properties of it, whatever the body and the parameters of the operation declare. *)
Theorem request_schema_shape schemas py_str operation w :
  build_merged_request_schema schemas py_str operation = Ok w ->
  w = PDict [] \/
  exists props names,
    w = PDict [("type", PStr "object"); ("additionalProperties", PBool false); ("properties", PDict props); ("required", PList (PStr <$> names))] /\
    props <> [] /\ named (props, names).
Proof.
  unfold build_merged_request_schema. destruct (extract_json_body_object_shape _ _ _) as [body|] eqn:Eb; [|done]. cbn [rbind].
  destruct (rfold _ _ _) as [s|] eqn:Es; [|done]. cbn [rbind].
  apply (rfold_invariant named) in Es; [|intros x y z _; apply add_parameter_named | by eapply body_named].
  destruct s as [props names]. cbn [fst snd] in *. destruct props as [|p ps]; [intros [= <-]; by left|].
  rewrite deep_resolve_refs_eq. intros (props' & -> & Hk)%deep_resolve_object. right. exists props', names. destruct Es as [Hd Hn]. split_and!; [done | | split].
  - by intros ->.
  - done.
  - intros n Hin. cbn [fst snd] in *. rewrite Hk. by apply Hn.
Qed.

(** ** A document *)

Module document.
(** An order has lines, each with an article; its parent is an order again. *)
Definition schemas : pyval := PDict
  [("Order", PDict [("type", PStr "object");
                    ("properties", PDict [("lines", PDict [("type", PStr "array"); ("items", PDict [("$ref", PStr "#/components/schemas/Line")])])]);
                    ("required", PList [PStr "lines"; PStr "vendor"])]);
   ("Line", PDict [("type", PStr "object"); ("properties", PDict [("article", PDict [("$ref", PStr "#/components/schemas/Article")])])]);
   ("Article", PDict [("type", PStr "string")]);
   ("Node", PDict [("type", PStr "object"); ("properties", PDict [("next", PDict [("$ref", PStr "#/components/schemas/Node")])])])].
Definition reference (n : string) : pyval := PDict [("$ref", PStr ("#/components/schemas/" +:+ n))].
Definition operation : pydict :=
  [("requestBody", PDict [("content", PDict [("application/json", PDict [("schema", reference "Order")])])]);
   ("parameters", PList [PDict [("name", PStr "dry_run"); ("in", PStr "query"); ("schema", PDict [("type", PStr "boolean"); ("title", PStr "Dry run")]);
                                ("description", PStr " only check ")];
                         PDict [("name", PStr "shop"); ("in", PStr "path"); ("required", PBool true)]])].
Definition text (v : pyval) : string := match v with PStr s => s | _ => "" end.

(** The branches of a schema at once. *)
Lemma ranked_all ss depth r n d : dict_get "$ref" d = None -> Forall (ranked ss depth r n) (mjoin (children <$> d)) -> ranked ss depth r (S n) (PDict d).
Proof.
  intros Hd H. apply ranked_node; [done|]. intros kv c Hkv Hc. rewrite Forall_forall in H. apply H. rewrite list_elem_of_join.
  exists (children kv). split; [done | by apply list_elem_of_fmap_2].
Qed.
Ltac rank :=
  solve [ apply ranked_leaf; reflexivity
        | apply ranked_all; [reflexivity | cbn; repeat (apply Forall_cons_2; [rank|]); apply Forall_nil_2]
        | eapply ranked_ref; [reflexivity | reflexivity | rank] ].


Definition merged : pyval :=
  PDict [("type", PStr "object"); ("additionalProperties", PBool false);
         ("properties", PDict [("lines", PDict [("type", PStr "array");
                                                ("items", PDict [("type", PStr "object"); ("properties", PDict [("article", PDict [("type", PStr "string")])])])]);
                               ("shop", PDict [("type", PStr "string")]);
                               ("dry_run", PDict [("type", PStr "boolean"); ("description", PStr "only check")])]);
         ("required", PList [PStr "lines"; PStr "shop"])].
Example merged_request : build_merged_request_schema schemas text operation = Ok merged.
Proof. vm_compute. reflexivity. Qed.
Lemma request_schema_shape_witness : merged = PDict [] \/ exists props names,
  merged = PDict [("type", PStr "object"); ("additionalProperties", PBool false); ("properties", PDict props); ("required", PList (PStr <$> names))] /\
  props <> [] /\ named (props, names).
Proof. apply (request_schema_shape schemas text operation). vm_compute. reflexivity. Defined.

(** A map's value schema is not resolved: its reference stays. *)
Example additional_reference_stays :
  deep_resolve_refs schemas (PDict [("additionalProperties", reference "Article")]) = Ok (PDict [("additionalProperties", reference "Article")]).
Proof. vm_compute. reflexivity. Qed.
(** A response keeps the references below its top. *)
Example response_references_stay :
  extract_success_json_response_schema schemas
    [("responses", PDict [("200", PDict [("content", PDict [("application/json", PDict [("schema", reference "Line")])])])])]
  = Ok (PDict [("type", PStr "object"); ("properties", PDict [("article", reference "Article")])]).
Proof. vm_compute. reflexivity. Qed.
(** The reference at the end of [n] nested [next] properties. *)
Fixpoint next_of (n : nat) (v : pyval) : pyval :=
  match n, v with
  | S n, PDict d => match dict_get "properties" d with Some (PDict p) => next_of n (dict_getv "next" p) | _ => PNone end
  | _, _ => v
  end.
(** A recursive component is unfolded 33 times and then left as a reference. *)
Example recursive_reference_stays : exists w, deep_resolve_refs schemas (reference "Node") = Ok w /\ next_of 33 w = reference "Node".
Proof. eexists. split; vm_compute; reflexivity. Qed.
End document.
