(* ===== verification/Versions.v ===== *)
(** * Versions: tables of numbered versions

    Agents, tools and policies keep versions in tables of one shape: a row has a semantic version number that is unique within the
    rows of its group, and a new row that names no number comes after the newest.  [Versioned] is that interface; the repositories
    of [Agents], [Tools] and [Policies] are its instances. *)

From stdpp Require Import sorting.
From S2P Require Import Prelude.
From S2P Require Import Errors.
From S2P Require Import PyValue.
From S2P Require Import Sorting.
From S2P Require Import Effects.
From S2P Require Import Store.
From S2P Require Import FlowAuthoring.

#[global] Instance version_number_eq_dec : EqDecision version_number.
Proof. solve_decision. Defined.

(** What a table keeps of a row: the columns its unique constraint names. *)
Class Versioned (T : Type) : Type := {
  row_group : T -> uuid * uuid;
  row_number : T -> version_number;
}.

(** A write to the cache after a change of the tables: it is done, it is lost in silent mode, or the adapter raises. *)
Inductive cache_write : Type := Written | Lost | Failed.
Definition cache_step {S} (w : cache_write) (f : S -> S) : M S unit :=
  match w with
  | Written => mmodify f
  | Lost => mret tt
  | Failed => mraise (ExternalError "ConnectionError" "")
  end.

(** [scalar_one_or_none] raises on a second row. *)
Definition one_or_none {T} (l : list T) : res exc (option T) :=
  match l with [] => Ok None | [x] => Ok (Some x) | _ => Err (ExternalError "MultipleResultsFound" "") end.
Lemma one_or_none_elem {T} (l : list T) x : one_or_none l = Ok (Some x) -> x ∈ l.
Proof. destruct l as [|y [|z l]]; try done. intros [= ->]. left. Qed.
Lemma one_or_none_nil {T} (l : list T) : one_or_none l = Ok None -> l = [].
Proof. by destruct l as [|y [|z l]]. Qed.
(** A list without repetition whose elements are all the same. *)
Lemma only_element {T} (l : list T) x : NoDup l -> x ∈ l -> (forall y, y ∈ l -> y = x) -> l = [x].
Proof.
  intros Hn Hx Hall. destruct l as [|y [|z l]]; [by apply not_elem_of_nil in Hx | f_equal; apply Hall; left|].
  exfalso. apply NoDup_cons in Hn as [Hn _]. apply Hn. rewrite (Hall y) by left. rewrite (Hall z) by (right; left). left.
Qed.

Section keys.
Context {T : Type}.
Implicit Types m : gmap uuid T.
(** [select id ... where ...], in no particular order. *)
Definition keys_where (f : T -> bool) m : list uuid := omap (fun kv => if f kv.2 then Some kv.1 else None) (map_to_list m).
Lemma elem_of_keys_where f m v : v ∈ keys_where f m <-> exists r, m !! v = Some r /\ f r = true.
Proof.
  unfold keys_where. rewrite list_elem_of_omap. split.
  - intros ([w r] & Hw & H). simpl in H. apply elem_of_map_to_list in Hw. destruct (f r) eqn:E; [|done]. injection H as ->. eauto.
  - intros (r & Hr & Hf). exists (v, r). split; [by apply elem_of_map_to_list|]. simpl. by rewrite Hf.
Qed.
Lemma keys_where_nodup f m : NoDup (keys_where f m).
Proof.
  unfold keys_where. pose proof (NoDup_fst_map_to_list m) as H. induction (map_to_list m) as [|[v r] l IH]; simpl; [constructor|].
  rewrite fmap_cons in H. apply NoDup_cons in H as [Hn H]. simpl in *. specialize (IH H). destruct (f r); [|done]. constructor; [|done].
  intros ([w x] & Hw & Hx)%list_elem_of_omap. simpl in Hx. destruct (f x); [|done]. injection Hx as ->. apply Hn. by apply (list_elem_of_fmap_2 fst _ (v, x)).
Qed.

End keys.

Section table.
Context {T : Type} `{!Versioned T}.
Implicit Types (m : gmap uuid T) (g : uuid * uuid).

(** The rows of a group, the newest first. *)
Definition members g m : list (uuid * T) :=
  sorted_by newer_number (fun kv => number_key (row_number kv.2)) (filter (fun kv => row_group kv.2 = g) (map_to_list m)).
Definition newest g m : option version_number := (fun kv : uuid * T => row_number kv.2) <$> head (members g m).
(** The unique constraint rejects a number. *)
Definition taken g (n : version_number) m : bool := existsb (fun kv => bool_decide (row_number kv.2 = n)) (members g m).

Definition unique_numbers m : Prop :=
  forall i j a b, m !! i = Some a -> m !! j = Some b -> row_group a = row_group b -> row_number a = row_number b -> i = j.

Lemma elem_of_members g m i a : (i, a) ∈ members g m <-> m !! i = Some a /\ row_group a = g.
Proof. unfold members. rewrite elem_of_sorted_by, list_elem_of_filter, elem_of_map_to_list. naive_solver. Qed.

Lemma taken_false g n m i a : taken g n m = false -> m !! i = Some a -> row_group a = g -> row_number a <> n.
Proof.
  intros Ht Ha Hg Hn. assert (Hin : (i, a) ∈ members g m) by by apply elem_of_members.
  unfold taken in Ht. apply not_true_iff_false in Ht. apply Ht, existsb_exists. exists (i, a).
  split; [by apply list_elem_of_In | by apply bool_decide_eq_true].
Qed.

(** A row with a free number. *)
Lemma unique_insert m i a : unique_numbers m -> taken (row_group a) (row_number a) m = false -> unique_numbers (<[i := a]> m).
Proof.
  intros Hu Ht j k b c. rewrite !lookup_insert_Some. intros [[<- <-]|[? Hb]] [[<- <-]|[? Hc]] Hg Hn; try done.
  - by edestruct taken_false.
  - by edestruct taken_false.
  - by eapply Hu.
Qed.

(** Rows that keep their group and number. *)
Lemma unique_update m m' :
  unique_numbers m ->
  (forall i a', m' !! i = Some a' -> exists a, m !! i = Some a /\ row_group a = row_group a' /\ row_number a = row_number a') ->
  unique_numbers m'.
Proof.
  intros Hu Hk i j a b Ha Hb Hg Hn. destruct (Hk i a Ha) as (a0 & ? & ? & ?), (Hk j b Hb) as (b0 & ? & ? & ?).
  eapply Hu; [done..| |]; congruence.
Qed.

#[local] Instance geq_trans : Transitive (flip Z.le).
Proof. intros a b c H1 H2. unfold flip in *. lia. Qed.
#[local] Instance geq_antisym : AntiSymm (=) (flip Z.le).
Proof. intros a b H1 H2. unfold flip in *. lia. Qed.
#[local] Instance geq_total : Total (flip Z.le).
Proof. intros a b. unfold flip. lia. Qed.
#[local] Instance newer_trans : Transitive newer_number.
Proof. unfold newer_number. apply _. Qed.
#[local] Instance newer_total : Total newer_number.
Proof. unfold newer_number. apply _. Qed.

Lemma members_sorted g m :
  StronglySorted (fun a b => newer_number (number_key (row_number a.2)) (number_key (row_number b.2))) (members g m).
Proof. exact (sorted_by_sorted newer_number (fun kv : uuid * T => number_key (row_number kv.2)) _). Qed.
(** No row of the group is newer than the newest. *)
Lemma newest_newer g m i a :
  m !! i = Some a -> row_group a = g -> exists n, newest g m = Some n /\ newer_number (number_key n) (number_key (row_number a)).
Proof.
  intros Ha Hg. assert (Hin : (i, a) ∈ members g m) by by apply elem_of_members. unfold newest.
  pose proof (members_sorted g m) as Hs. destruct (members g m) as [|[j b] l]; [by apply not_elem_of_nil in Hin|]. exists (row_number b). split; [done|].
  apply elem_of_cons in Hin as [[= <- <-]|Hin].
  - by destruct (total newer_number (number_key (row_number a)) (number_key (row_number a))).
  - inversion Hs as [|? ? _ Hall]; subst. rewrite Forall_forall in Hall. by apply (Hall (i, a)).
Qed.

(** A number that is derived from the newest is free. *)
Lemma next_number_free g m : taken g (next_number None None None None (newest g m)) m = false.
Proof.
  destruct (taken g _ m) eqn:E; [|done]. exfalso. unfold taken in E. apply existsb_exists in E as ([i a] & Hin & Hn).
  apply list_elem_of_In, elem_of_members in Hin as [Ha Hg]. apply bool_decide_eq_true in Hn. simpl in Hn.
  destruct (newest_newer g m i a Ha Hg) as (n & Hn' & Hle). rewrite Hn' in Hn. simpl in Hn. rewrite Hn in Hle. revert Hle.
  unfold newer_number, lex, number_key, flip. simpl. lia.
Qed.
End table.
