(* ===== verification/Agents.v ===== *)
(** * Agents: agents, their versions and their nodes

    [src/src/domain/agents/services/agents_service.py] on [src/src/domain/agents/repositories/agents_repository.py]: agents with
    numbered versions that are validated, published, activated and rolled back, and the nodes they are bound to.

    Repository calls are transactions.  The two caches in front of the tables are kept in Redis; a row comes back from its
    dictionary as it was stored ([Catalogue] has the round trip), and an entry may expire at any time, also right after it was
    filled.  The writes that keep a cache in step with its table may be lost: the adapter swallows their errors in silent mode,
    which is the default, and raises them otherwise.  [pydantic] is a parameter. *)

From S2P Require Import Prelude.
From S2P Require Import Errors.
From S2P Require Import PyValue.
From S2P Require Import PyString.
From S2P Require Import StateMachine.
From S2P Require Import Sorting.
From S2P Require Import Effects.
From S2P Require Import Store.
From S2P Require Import FlowAuthoring.
From S2P Require Import AuthoringFacts.
From S2P Require Import Versions.

(** ** Tables *)

Record agent_row : Type := {
  an_tenant : uuid;
  an_name : option string;
}.
Record agent_version : Type := {
  av_agent : uuid;
  av_status : VersionStatus;
  av_number : version_number;
  av_description : option string;
  av_tool_schema : option Z;
  av_hash_prefix : option string;
  av_persona : option pydict;
  av_prompt : option string;
  av_policy : option uuid;
  av_rag : option uuid;
  av_active : bool;
  av_activation : option (string * string);
}.
Record node_binding : Type := {
  nb_id : uuid;
  nb_node : uuid;
  nb_version : uuid;
}.
#[global] Instance agent_version_Versioned : Versioned agent_version :=
  {| row_group r := (av_agent r, 0%N); row_number := av_number |}.

(** Agents and bindings in the order they were created; the flow tables hold the events and the supply of keys. *)
Record agency : Type := {
  ag_authoring : authoring;
  ag_agents : list (uuid * agent_row);
  ag_versions : gmap uuid agent_version;
  ag_bindings : list node_binding;
  ag_version_cache : gmap uuid agent_version;
  ag_node_cache : gmap uuid (option uuid);
}.
Definition set_authoring (v : authoring) (s : agency) : agency := {|
  ag_authoring := v; ag_agents := ag_agents s; ag_versions := ag_versions s; ag_bindings := ag_bindings s;
  ag_version_cache := ag_version_cache s; ag_node_cache := ag_node_cache s |}.
Definition set_agents (v : list (uuid * agent_row)) (s : agency) : agency := {|
  ag_authoring := ag_authoring s; ag_agents := v; ag_versions := ag_versions s; ag_bindings := ag_bindings s;
  ag_version_cache := ag_version_cache s; ag_node_cache := ag_node_cache s |}.
Definition set_agent_versions (v : gmap uuid agent_version) (s : agency) : agency := {|
  ag_authoring := ag_authoring s; ag_agents := ag_agents s; ag_versions := v; ag_bindings := ag_bindings s;
  ag_version_cache := ag_version_cache s; ag_node_cache := ag_node_cache s |}.
Definition set_node_bindings (v : list node_binding) (s : agency) : agency := {|
  ag_authoring := ag_authoring s; ag_agents := ag_agents s; ag_versions := ag_versions s; ag_bindings := v;
  ag_version_cache := ag_version_cache s; ag_node_cache := ag_node_cache s |}.
Definition set_caches (v : gmap uuid agent_version) (n : gmap uuid (option uuid)) (s : agency) : agency := {|
  ag_authoring := ag_authoring s; ag_agents := ag_agents s; ag_versions := ag_versions s; ag_bindings := ag_bindings s;
  ag_version_cache := v; ag_node_cache := n |}.

Abbreviation G := (M agency).
(** A computation on the flow tables. *)
Definition on_flows {T} (m : A T) : G T := fun s => let '(r, a) := m (ag_authoring s) in (r, set_authoring a s).
Definition asks {T} (f : agency -> T) : G T := let* s := mget in mret (f s).

(** ** The repository *)

Definition agent_of (a : uuid) (l : list (uuid * agent_row)) : option agent_row := snd <$> List.find (fun x => (x.1 =? a)%N) l.
Definition get_agent (a : uuid) : G (option agent_row) := asks (fun s => agent_of a (ag_agents s)).

(** [get_agent_version]: through the cache. *)
Definition get_agent_version (v : uuid) : G (option agent_version) :=
  let* s := mget in
  match ag_version_cache s !! v with
  | Some r => mret (Some r)
  | None =>
      match ag_versions s !! v with
      | Some r => mmodify (set_caches (<[v := r]> (ag_version_cache s)) (ag_node_cache s)) ;;* mret (Some r)
      | None => mret None
      end
  end.

Definition with_agent_status (st : VersionStatus) (r : agent_version) : agent_version := {|
  av_agent := av_agent r; av_status := st; av_number := av_number r; av_description := av_description r;
  av_tool_schema := av_tool_schema r; av_hash_prefix := av_hash_prefix r; av_persona := av_persona r; av_prompt := av_prompt r;
  av_policy := av_policy r; av_rag := av_rag r; av_active := av_active r; av_activation := av_activation r |}.
Definition with_activation (b : bool) (x : option (string * string)) (r : agent_version) : agent_version := {|
  av_agent := av_agent r; av_status := av_status r; av_number := av_number r; av_description := av_description r;
  av_tool_schema := av_tool_schema r; av_hash_prefix := av_hash_prefix r; av_persona := av_persona r; av_prompt := av_prompt r;
  av_policy := av_policy r; av_rag := av_rag r; av_active := b; av_activation := x |}.

(** [set_agent_version_status]: the cached row goes, if it can be deleted. *)
Definition set_agent_version_status (w : cache_write) (v : uuid) (st : VersionStatus) : G unit :=
  let* s := mget in
  match ag_versions s !! v with
  | None => mraise (NotFoundServiceException "agent_version_not_found")
  | Some r =>
      mmodify (set_agent_versions (<[v := with_agent_status st r]> (ag_versions s))) ;;*
      cache_step w (fun s => set_caches (delete v (ag_version_cache s)) (ag_node_cache s) s)
  end.

(** [get_active_agent_version_id]. *)
Definition active_ids (a : uuid) : gmap uuid agent_version -> list uuid := keys_where (fun r => bool_decide (av_agent r = a) && av_active r).
Definition get_active_agent_version_id (a : uuid) : G (option uuid) :=
  let* s := mget in mlift (one_or_none (active_ids a (ag_versions s))).

(** [upsert_active_agent_version]: one transaction. *)
Definition retired (a : uuid) (r : agent_version) : agent_version :=
  if bool_decide (av_agent r = a) && av_active r then with_activation false (av_activation r) r else r.
Definition upsert_active_agent_version (a v : uuid) (principal why : string) : G unit :=
  let* s := mget in
  match ag_versions s !! v with
  | Some r =>
      if bool_decide (av_agent r = a)
      then mmodify (set_agent_versions (<[v := with_activation true (Some (principal, why)) r]> (retired a <$> ag_versions s)))
      else mraise (NotFoundServiceException "agent_version_not_found")
  | None => mraise (NotFoundServiceException "agent_version_not_found")
  end.

(** [list_agents]: the newest first. *)
Definition list_agents (tenant : uuid) (limit : nat) : G (list (uuid * agent_row)) :=
  asks (fun s => take limit (filter (fun x => an_tenant x.2 = tenant) (rev (ag_agents s)))).
Definition count_active_agent_versions (tenant : uuid) : G nat :=
  asks (fun s => length (filter (fun kv => av_active kv.2 = true /\ an_tenant <$> agent_of (av_agent kv.2) (ag_agents s) = Some tenant)
                           (map_to_list (ag_versions s)))).
Definition insert_agent (r : agent_row) : G uuid :=
  let* i := on_flows new_id in
  mmodify (fun s => set_agents (ag_agents s ++ [(i, r)]) s) ;;* mret i.

(** [list_agent_versions]. *)
Definition list_agent_versions_rows (a : uuid) (status_filter : list VersionStatus) : G (list (uuid * agent_version)) :=
  asks (fun s =>
    let rows := members (a, 0%N) (ag_versions s) in
    match status_filter with [] => rows | l => filter (fun kv => av_status kv.2 ∈ l) rows end).

Record AgentVersionCreate : Type := {
  ac_source : option uuid;
  ac_major : option Z;
  ac_minor : option Z;
  ac_patch : option Z;
  ac_description : option string;
  ac_tool_schema : option Z;
  ac_hash_prefix : option string;
  ac_persona : option pydict;
  ac_prompt : option string;
  ac_policy : option uuid;
}.
(** A column that is given, or else the source's. *)
Definition or_source {T} (given : option T) (f : agent_version -> option T) (source : option agent_version) : option T :=
  match given with Some x => Some x | None => source ≫= f end.
(** [create_agent_version] of the repository. *)
Definition insert_agent_version (a : uuid) (q : AgentVersionCreate) : G uuid :=
  let* s := mget in
  let* source := match ac_source q with
                 | None => mret None
                 | Some v => match ag_versions s !! v with
                             | None => mraise (NotFoundServiceException "source_version_not_found")
                             | Some r => mret (Some r)
                             end
                 end in
  let number := next_number (ac_major q) (ac_minor q) (ac_patch q) (av_number <$> source) (newest (a, 0%N) (ag_versions s)) in
  let* i := on_flows new_id in
  if taken (a, 0%N) number (ag_versions s) then mraise (ExternalError "IntegrityError" "uq_agent_version_semver")
  else
    mmodify (fun s => set_agent_versions (<[i := {|
      av_agent := a; av_status := VS_DRAFT; av_number := number;
      av_description := or_source (ac_description q) av_description source;
      av_tool_schema := or_source (ac_tool_schema q) av_tool_schema source;
      av_hash_prefix := or_source (ac_hash_prefix q) av_hash_prefix source;
      av_persona := or_source (ac_persona q) av_persona source;
      av_prompt := or_source (ac_prompt q) av_prompt source;
      av_policy := or_source (ac_policy q) av_policy source;
      av_rag := None; av_active := false; av_activation := None |}]> (ag_versions s)) s) ;;*
    mret i.

(** [create_node_agent_binding] of the repository: the node's flow and the agent have one tenant. *)
Definition found {T} (o : option T) (message : string) : G T :=
  match o with Some x => mret x | None => mraise (NotFoundServiceException message) end.
Definition flow_tenant_of_node (n : uuid) (s : authoring) : option uuid :=
  r ← au_nodes s !! n; v ← au_versions s !! no_version r; f ← au_flows s !! ve_flow v; Some (fl_tenant f).
Definition insert_node_binding (w : cache_write) (n v : uuid) : G node_binding :=
  let* s := mget in
  let* node := found (au_nodes (ag_authoring s) !! n) "node_not_found" in
  let* version := found (ag_versions s !! v) "agent_version_not_found" in
  let* fv := found (au_versions (ag_authoring s) !! no_version node) "flow_version_not_found" in
  let* flow := found (au_flows (ag_authoring s) !! ve_flow fv) "flow_not_found" in
  let* agent := found (agent_of (av_agent version) (ag_agents s)) "agent_not_found" in
  if negb (bool_decide (fl_tenant flow = an_tenant agent)) then mraise (DomainValidationException "node_and_agent_must_belong_to_same_tenant")
  else
    let* i := on_flows new_id in
    let row := {| nb_id := i; nb_node := n; nb_version := v |} in
    mmodify (fun s => set_node_bindings (ag_bindings s ++ [row]) s) ;;*
    cache_step w (fun s => set_caches (ag_version_cache s) (<[n := Some v]> (ag_node_cache s)) s) ;;*
    mret row.

(** [get_agent_version_id_by_node_id]: a node without an agent is cached too. *)
Definition versions_of_node (n : uuid) (l : list node_binding) : list uuid := nb_version <$> filter (fun b => nb_node b = n) l.
Definition get_agent_version_id_by_node_id (n : uuid) : G (option uuid) :=
  let* s := mget in
  match ag_node_cache s !! n with
  | Some x => mret x
  | None =>
      let* x := mlift (one_or_none (versions_of_node n (ag_bindings s))) in
      mmodify (set_caches (ag_version_cache s) (<[n := x]> (ag_node_cache s))) ;;*
      mret x
  end.

(** [resolve_effective_rag_config_id_for_node]: the node's own configuration, or its agent's. *)
Definition resolve_effective_rag_config_id_for_node (n : uuid) : G (option uuid) :=
  let* s := mget in
  match au_nodes (ag_authoring s) !! n ≫= (fun r => rag_config_id (no_rights r)) with
  | Some c => mret (Some c)
  | None =>
      let* v := get_agent_version_id_by_node_id n in
      match v with
      | None => mret None
      | Some v => let* r := get_agent_version v in mret (r ≫= av_rag)
      end
  end.

(** [list_node_bindings_by_agent_version_id]. *)
Definition tenant_of_version (v : uuid) (s : agency) : option uuid :=
  r ← ag_versions s !! v; an_tenant <$> agent_of (av_agent r) (ag_agents s).
Definition newer_id : relation uuid := N.le.
#[global] Instance newer_id_dec : RelDecision newer_id.
Proof. intros a b. unfold newer_id. apply _. Defined.
Definition list_node_bindings_by_agent_version_id (tenant v : uuid) : G (list node_binding) :=
  let* s := mget in
  if bool_decide (tenant_of_version v s = Some tenant)
  then mret (sorted_by newer_id nb_id (filter (fun b => nb_version b = v) (ag_bindings s)))
  else mraise (NotFoundServiceException "agent_version_not_found").

(** ** The service *)

Section service.
(** [PersonaConfig.model_validate], and the tenant of a version of an execution policy for models. *)
Variable parse_persona : pydict -> res exc pydict.
Variable policy_tenant : uuid -> option uuid.

(** The agent of a tenant, and a version of an agent. *)
Definition owned_agent (tenant a : uuid) : G agent_row :=
  let* r := get_agent a in
  match r with
  | Some r => if bool_decide (an_tenant r = tenant) then mret r else mraise (NotFoundServiceException "agent_not_found")
  | None => mraise (NotFoundServiceException "agent_not_found")
  end.
Definition owned_agent_version (tenant a v : uuid) : G agent_version :=
  owned_agent tenant a ;;*
  let* r := get_agent_version v in
  match r with
  | Some r => if bool_decide (av_agent r = a) then mret r else mraise (NotFoundServiceException "agent_version_not_found")
  | None => mraise (NotFoundServiceException "agent_version_not_found")
  end.
Definition refreshed (v : uuid) : G agent_version :=
  let* r := get_agent_version v in found r "agent_version_not_found".

(** [AgentVersion] of a row: its persona is validated. *)
Definition persona_of (r : agent_version) : res exc (option pydict) :=
  match av_persona r with Some ((_ :: _) as p) => let! p := parse_persona p in Ok (Some p) | _ => Ok None end.

Definition create_agent (tenant : uuid) (name : option string) (principal : string) : G uuid :=
  let* i := insert_agent {| an_tenant := tenant; an_name := name |} in
  on_flows (append_event tenant "agent" i None "AGENT_CREATED" "CREATE" principal "create agent") ;;*
  mret i.

Definition list_agent_versions (tenant a : uuid) (status_filter : list VersionStatus) : G (list (uuid * agent_version * option pydict)) :=
  owned_agent tenant a ;;*
  let* rows := list_agent_versions_rows a status_filter in
  mlift (rmap (fun kv => let! p := persona_of kv.2 in Ok (kv, p)) rows).

Definition create_agent_version (tenant a : uuid) (q : AgentVersionCreate) (principal : string) : G (uuid * option pydict) :=
  owned_agent tenant a ;;*
  (match ac_policy q with
   | Some p => if bool_decide (policy_tenant p = Some tenant) then mret tt
               else mraise (NotFoundServiceException "ai_execution_policy_version_not_found")
   | None => mret tt
   end) ;;*
  let* i := insert_agent_version a q in
  on_flows (append_event tenant "agent" a (Some i) "AGENT_VERSION_CREATED" "CREATE" principal "create agent version") ;;*
  let* s := mget in
  let* row := found (ag_versions s !! i) "agent_version_not_found" in
  let* p := mlift (persona_of row) in
  mret (i, p).

Definition create_node_agent_binding (w : cache_write) (tenant n v : uuid) (principal : string) : G node_binding :=
  let* r := get_agent_version v in
  match r with
  | None => mraise (NotFoundServiceException "agent_version_not_found")
  | Some r =>
      owned_agent tenant (av_agent r) ;;*
      let* b := insert_node_binding w n v in
      on_flows (append_event tenant "node_agent_binding" (nb_id b) None "NODE_AGENT_BINDING_CREATED" "CREATE" principal
                  "create node agent binding") ;;*
      mret b
  end.

Definition blocked {T} (message : string) : G T := mraise (ResourceBlockedServiceException message).
Definition validate_agent_version (w : cache_write) (tenant a v : uuid) : G agent_version :=
  let* r := owned_agent_version tenant a v in
  if negb (bool_decide (av_status r = VS_DRAFT)) then blocked "agent_version_not_draft"
  else set_agent_version_status w v VS_VALIDATED ;;* refreshed v.

Definition justified (c : ChangeRequest) : G unit :=
  if String.eqb (py_strip (justification c)) "" then mraise (DomainValidationException "justification_required") else mret tt.
Definition publish_agent_version (w : cache_write) (tenant a v : uuid) (principal : string) (c : ChangeRequest) : G agent_version :=
  let* r := owned_agent_version tenant a v in
  if negb (bool_decide (av_status r = VS_VALIDATED)) then blocked "agent_version_not_validated"
  else
    justified c ;;*
    set_agent_version_status w v VS_PUBLISHED ;;*
    on_flows (append_event tenant "agent" a (Some v) "VERSION_PUBLISHED" (change_type c) principal (justification c)) ;;*
    refreshed v.

(** [activate_agent_version] and [rollback_agent_version] differ in the event. *)
Definition switch_to (event : string) (tenant a v : uuid) (principal : string) (c : ChangeRequest) : G agent_version :=
  let* r := owned_agent_version tenant a v in
  if negb (bool_decide (av_status r = VS_PUBLISHED)) then blocked "agent_version_not_published"
  else
    justified c ;;*
    upsert_active_agent_version a v principal (justification c) ;;*
    on_flows (append_event tenant "agent" a (Some v) event (change_type c) principal (justification c)) ;;*
    mret r.
Definition activate_agent_version := switch_to "VERSION_ACTIVATED".
Definition rollback_agent_version := switch_to "VERSION_ROLLED_BACK".
End service.
