(* ===== verification/AgentFacts.v ===== *)
(** * AgentFacts: what the tables of agents always satisfy

    The invariant of [Agents] and its preservation by every request, by every read through the caches and by the expiry of their
    entries.  A part of it rests on the caches following the tables: [sure] says that no write to a cache was lost. *)

From S2P Require Import Prelude.
From S2P Require Import Errors.
From S2P Require Import PyValue.
From S2P Require Import PyString.
From S2P Require Import StateMachine.
From S2P Require Import Sorting.
From S2P Require Import Effects.
From S2P Require Import Store.
From S2P Require Import FlowAuthoring.
From S2P Require Import AuthoringFacts.
From S2P Require Import Versions.
From S2P Require Import Agents.

(** Rows that differ in their activation only. *)
Definition alike (r r' : agent_version) : Prop := with_activation false None r = with_activation false None r'.
Lemma alike_fields r r' : alike r r' -> av_agent r = av_agent r' /\ av_status r = av_status r' /\ av_number r = av_number r'.
Proof. unfold alike, with_activation. by intros [= ]. Qed.

(** Rows that differ in their status and activation only. *)
Definition same_content (r r' : agent_version) : Prop :=
  exists st, with_agent_status st (with_activation false None r) = with_agent_status st (with_activation false None r').
Lemma same_content_fields r r' : same_content r r' -> av_agent r = av_agent r' /\ av_number r = av_number r'.
Proof. intros [st H]. unfold with_agent_status, with_activation in H. simpl in H. by injection H. Qed.
Lemma same_content_refl r : same_content r r.
Proof. by exists VS_DRAFT. Qed.
Lemma same_content_trans r r' r'' : same_content r r' -> same_content r' r'' -> same_content r r''.
Proof.
  intros [a H1] [b H2]. exists b. revert H1 H2. unfold with_agent_status, with_activation. simpl. intros [= ] [= ]. congruence.
Qed.

(** A cached status is the table's or the one before it: only a request that has read the cached row moves the status on. *)
Definition lags (c t : VersionStatus) : Prop :=
  c = t \/ (c = VS_DRAFT /\ t = VS_VALIDATED) \/ (c = VS_VALIDATED /\ t = VS_PUBLISHED).
Lemma lags_published t : lags VS_PUBLISHED t -> t = VS_PUBLISHED.
Proof. intros [?|[[? _]|[? _]]]; [done | discriminate..]. Qed.

(** ** The invariant *)

Section sure.
Variable sure : Prop.

Record tidy (s : agency) : Prop := {
  ti_fresh : (forall i r, (i, r) ∈ ag_agents s -> (i < au_next (ag_authoring s))%N) /\
             (forall v, is_Some (ag_versions s !! v) -> (v < au_next (ag_authoring s))%N);
  ti_numbers : unique_numbers (ag_versions s);
  ti_owner : forall v r, ag_versions s !! v = Some r -> is_Some (agent_of (av_agent r) (ag_agents s));
  ti_active : forall v r, ag_versions s !! v = Some r -> av_active r = true -> av_status r = VS_PUBLISHED;
  ti_one_active : forall v w r x, ag_versions s !! v = Some r -> ag_versions s !! w = Some x ->
    av_active r = true -> av_active x = true -> av_agent r = av_agent x -> v = w;
  ti_cache : forall v r, ag_version_cache s !! v = Some r -> exists r', ag_versions s !! v = Some r' /\ same_content r r' /\ lags (av_status r) (av_status r') /\ (sure -> alike r r');
  ti_nodes : forall n x, ag_node_cache s !! n = Some x ->
    match x with Some v => v ∈ versions_of_node n (ag_bindings s) | None => sure -> versions_of_node n (ag_bindings s) = [] end;
  ti_bound : forall b, b ∈ ag_bindings s -> exists t,
    flow_tenant_of_node (nb_node b) (ag_authoring s) = Some t /\ tenant_of_version (nb_version b) s = Some t;
}.

(** What never changes: agents, the content of a version, bindings and events; the status of a version only advances. *)
Definition carries_on (r r' : agent_version) : Prop :=
  same_content r r' /\ rank (av_status r) <= rank (av_status r').
Record develops (s s' : agency) : Prop := {
  de_agents : ag_agents s `prefix_of` ag_agents s';
  de_versions : forall v r, ag_versions s !! v = Some r -> exists r', ag_versions s' !! v = Some r' /\ carries_on r r';
  de_bindings : ag_bindings s `prefix_of` ag_bindings s';
  de_events : au_events (ag_authoring s) `prefix_of` au_events (ag_authoring s');
  de_next : (au_next (ag_authoring s) <= au_next (ag_authoring s'))%N;
}.

Lemma carries_on_refl r : carries_on r r.
Proof. split; [apply same_content_refl | done]. Qed.
Lemma carries_on_trans r r' r'' : carries_on r r' -> carries_on r' r'' -> carries_on r r''.
Proof.
  intros [H1 H2] [H3 H4]. split; [by eapply same_content_trans | lia].
Qed.
Lemma carries_on_agent r r' : carries_on r r' -> av_agent r' = av_agent r /\ av_number r' = av_number r.
Proof. intros [[-> ->]%same_content_fields _]. done. Qed.

#[global] Instance develops_preorder : PreOrder develops.
Proof.
  split.
  - intros s. split; [done | eauto using carries_on_refl | done | done | done].
  - intros a b c [H1 H2 H3 H4 H5] [K1 K2 K3 K4 K5]. split; [by etrans | | by etrans | by etrans | by etrans].
    intros v r Hr. destruct (H2 v r Hr) as (r' & Hr' & Hc). destruct (K2 v r' Hr') as (r'' & ? & ?). eauto using carries_on_trans.
Qed.
Abbreviation good := (keeps tidy develops).

(** An agent that was found stays found. *)
Lemma agent_of_prefix a l l' r : l `prefix_of` l' -> agent_of a l = Some r -> agent_of a l' = Some r.
Proof.
  intros [k ->]. unfold agent_of. induction l as [|x l IH]; simpl; [done|]. by destruct (x.1 =? a)%N.
Qed.
Lemma tenant_of_version_mono s s' v t :
  ag_agents s `prefix_of` ag_agents s' ->
  (forall v r, ag_versions s !! v = Some r -> exists r', ag_versions s' !! v = Some r' /\ carries_on r r') ->
  tenant_of_version v s = Some t -> tenant_of_version v s' = Some t.
Proof.
  intros Ha Hv. unfold tenant_of_version. destruct (ag_versions s !! v) as [r|] eqn:Er; [|done]. simpl. intros Ht.
  destruct (Hv v r Er) as (r' & -> & [Hag _]%carries_on_agent). simpl. rewrite Hag.
  destruct (agent_of (av_agent r) (ag_agents s)) as [x|] eqn:Ex; [|done]. by rewrite (agent_of_prefix _ _ _ _ Ha Ex).
Qed.

(** ** The tables, one by one *)

(** Keys and events. *)
Lemma good_flows {T} (m : A T) : respects calm m -> respects good (on_flows m).
Proof.
  intros Hm s Ht. unfold on_flows. specialize (Hm s.(ag_authoring)). destruct (m (ag_authoring s)) as [r a]. simpl in *.
  destruct Hm as (Hv & Hn & He). injection Hv as H0 H1 H2 H3 H4 H5 H6. destruct Ht as [[F1 F2] N O A1 A2 C K B]. split.
  - split; simpl; try done.
    + split; [intros i x Hi; specialize (F1 i x Hi) | intros v Hv; specialize (F2 v Hv)]; lia.
    + intros b Hb. destruct (B b Hb) as (t & Hf & Ht). exists t. split; [|done]. unfold flow_tenant_of_node in *. by rewrite H0, H1, H2.
  - split; simpl; try done. intros v x Hx. eauto using carries_on_refl.
Qed.

(** A new agent. *)
Lemma good_agent s i r : au_next (ag_authoring s) = (i + 1)%N -> (forall x, (i, x) ∉ ag_agents s) ->
  good s (set_agents (ag_agents s ++ [(i, r)]) s).
Proof.
  intros Hi Hn [[F1 F2] N O A1 A2 C K B]. assert (Hp : ag_agents s `prefix_of` ag_agents s ++ [(i, r)]) by by exists [(i, r)].
  split; [split; simpl; try done | split; simpl; try done; eauto using carries_on_refl].
  - split; [|done]. intros j x [Hj|[= -> ->]%list_elem_of_singleton]%elem_of_app; [by eapply F1 | lia].
  - intros v x Hx. destruct (O v x Hx) as [y Hy]. exists y. by eapply agent_of_prefix.
  - intros b Hb. destruct (B b Hb) as (t & Hf & Ht). exists t. split; [done|]. eapply tenant_of_version_mono; [done | | done]. eauto using carries_on_refl.
Qed.

(** Versions that carry on, with what the activations and the cache need. *)
Lemma good_versions s m c :
  (forall v, is_Some (m !! v) -> (v < au_next (ag_authoring s))%N) ->
  (tidy s -> unique_numbers m) ->
  (forall v r, m !! v = Some r -> is_Some (agent_of (av_agent r) (ag_agents s))) ->
  (tidy s -> forall v r, m !! v = Some r -> av_active r = true -> av_status r = VS_PUBLISHED) ->
  (tidy s -> forall v w r x, m !! v = Some r -> m !! w = Some x -> av_active r = true -> av_active x = true -> av_agent r = av_agent x -> v = w) ->
  (tidy s -> forall v r, c !! v = Some r -> exists r', m !! v = Some r' /\ same_content r r' /\ lags (av_status r) (av_status r') /\ (sure -> alike r r')) ->
  (forall v r, ag_versions s !! v = Some r -> exists r', m !! v = Some r' /\ carries_on r r') ->
  good s (set_caches c (ag_node_cache s) (set_agent_versions m s)).
Proof.
  intros H1 H2 H3 H4 H5 H6 H7 Ht. pose proof Ht as [[F1 F2] N O A1 A2 C K B].
  split; [|split; simpl; done].
  split; simpl; [done | by apply H2 | done | by apply H4 | by apply H5 | by apply H6 | done |].
  intros b Hb. destruct (B b Hb) as (t & Hf & Hv). exists t. split; [done|]. by eapply (tenant_of_version_mono s).
Qed.

Lemma set_caches_same s : set_caches (ag_version_cache s) (ag_node_cache s) s = s.
Proof. by destruct s. Qed.

(** A row is cached. *)
Lemma good_fill s v r : ag_versions s !! v = Some r -> good s (set_caches (<[v := r]> (ag_version_cache s)) (ag_node_cache s) s).
Proof.
  intros Hr Ht. pose proof Ht as [[F1 F2] N O A1 A2 C K B]. split; [split; simpl; try done | split; simpl; try done; eauto using carries_on_refl].
  intros w x. rewrite lookup_insert_Some. intros [[<- <-]|[? Hx]]; [|by apply C]. exists r. split_and!; [done | apply same_content_refl | by left | done].
Qed.
Lemma good_drop s v : good s (set_caches (delete v (ag_version_cache s)) (ag_node_cache s) s).
Proof.
  intros Ht. pose proof Ht as [[F1 F2] N O A1 A2 C K B]. split; [split; simpl; try done | split; simpl; try done; eauto using carries_on_refl].
  intros w x [? Hx]%lookup_delete_Some. by apply C.
Qed.
Lemma good_drop_node s n : good s (set_caches (ag_version_cache s) (delete n (ag_node_cache s)) s).
Proof.
  intros Ht. pose proof Ht as [[F1 F2] N O A1 A2 C K B]. split; [split; simpl; try done | split; simpl; try done; eauto using carries_on_refl].
  intros w x [? Hx]%lookup_delete_Some. by apply K.
Qed.

(** A version changes its status; its cached row goes, or stays when the deletion is lost. *)
Lemma same_content_status st r : same_content r (with_agent_status st r).
Proof. by exists st. Qed.
Lemma good_status s v r st c :
  ag_versions s !! v = Some r ->
  rank (av_status r) <= rank st -> st = VS_PUBLISHED \/ av_status r <> VS_PUBLISHED ->
  c = delete v (ag_version_cache s) \/
    (~ sure /\ c = ag_version_cache s /\ forall y, ag_version_cache s !! v = Some y -> lags (av_status y) st) ->
  good s (set_caches c (ag_node_cache s) (set_agent_versions (<[v := with_agent_status st r]> (ag_versions s)) s)).
Proof.
  intros Hr Hk Hst Hc Ht. pose proof Ht as [[F1 F2] N O A1 A2 C K B]. revert Ht. apply good_versions; intros.
  - destruct (decide (v0 = v)) as [->|]; [eauto | rewrite lookup_insert_ne in H by done; eauto].
  - apply (unique_update (ag_versions s)); [done|]. intros i a. rewrite lookup_insert_Some. intros [[<- <-]|[? Ha]]; [by exists r | by exists a].
  - revert H. rewrite lookup_insert_Some. intros [[<- <-]|[? Ha]]; [exact (O v r Hr) | by eapply O].
  - revert H0. rewrite lookup_insert_Some. intros [[<- <-]|[? Ha]]; [|by eapply A1]. simpl in *.
    destruct Hst as [->|Hst]; [done|]. destruct Hst. by eapply (A1 v).
  - revert H0 H1. rewrite !lookup_insert_Some. intros [[<- <-]|[? Ha]] [[<- <-]|[? Hb]]; simpl in *; [done | eapply A2; eassumption..].
  - destruct Hc as [->|(Hns & -> & Hlag)].
    { apply lookup_delete_Some in H0 as [Hne Hx]. rewrite lookup_insert_ne by done. by apply C. }
    destruct (C v0 r0 H0) as (r' & Hr' & Hct & Hl & Hal). destruct (decide (v0 = v)) as [->|Hne]; [|rewrite lookup_insert_ne by done; eauto].
    rewrite lookup_insert_eq. simplify_eq. eexists. split; [done|]. split; [eauto using same_content_trans, same_content_status|].
    split; [by apply Hlag | by intros Hs].
  - destruct (decide (v0 = v)) as [->|].
    + rewrite lookup_insert_eq. simplify_eq. eexists. split; [done|]. split; [apply same_content_status | done].
    + rewrite lookup_insert_ne by done. eauto using carries_on_refl.
Qed.

(** The activation moves to a published version. *)
Lemma alike_activation b x r : alike r (with_activation b x r).
Proof. done. Qed.
Lemma alike_content r r' : alike r r' -> same_content r r'.
Proof. unfold alike. intros H. exists VS_DRAFT. by rewrite H. Qed.
Lemma carries_on_activation b x r : carries_on r (with_activation b x r).
Proof. split; [by exists VS_DRAFT | done]. Qed.
Lemma retired_cases a r : retired a r = r /\ ~ (av_agent r = a /\ av_active r = true) \/ exists x, retired a r = with_activation false x r.
Proof. unfold retired. case_bool_decide; simpl; [|left; naive_solver]. destruct (av_active r); [right; eauto | left; naive_solver]. Qed.
Lemma alike_trans r r' r'' : alike r r' -> alike r' r'' -> alike r r''.
Proof. unfold alike. congruence. Qed.
Lemma good_activate s v r x :
  ag_versions s !! v = Some r -> av_status r = VS_PUBLISHED ->
  good s (set_agent_versions (<[v := with_activation true x r]> (retired (av_agent r) <$> ag_versions s)) s).
Proof.
  intros Hr Hp Ht. pose proof Ht as [[F1 F2] N O A1 A2 C K B]. set (m := <[v := _]> _).
  assert (Hm : forall w y, m !! w = Some y -> exists y0, ag_versions s !! w = Some y0 /\ carries_on y0 y /\ alike y0 y /\ av_status y = av_status y0 /\
    (av_active y = true -> w = v \/ av_agent y <> av_agent r /\ y = y0)).
  { intros w y. unfold m. rewrite lookup_insert_Some, lookup_fmap, fmap_Some. intros [[<- <-]|[? (y0 & Hy & ->)]].
    - exists r. split_and!; auto using carries_on_activation, alike_activation.
    - exists y0. destruct (retired_cases (av_agent r) y0) as [[-> Hn]|[z ->]].
      + split_and!; [done | apply carries_on_refl | done | done |]. intros Ha. right. split; [naive_solver | done].
      + split_and!; [done | apply carries_on_activation | done | done | done]. }
  assert (Hg : good s (set_caches (ag_version_cache s) (ag_node_cache s) (set_agent_versions m s))); [|by apply Hg].
  apply good_versions.
  - intros w [y Hy]. destruct (Hm w y Hy) as (y0 & ? & _). eauto.
  - intros _. apply (unique_update (ag_versions s)); [done|]. intros w y Hy. destruct (Hm w y Hy) as (y0 & ? & [? ?]%carries_on_agent & _). exists y0.
    split; [done|]. simpl. split; congruence.
  - intros w y Hy. destruct (Hm w y Hy) as (y0 & ? & [-> _]%carries_on_agent & _). by eapply O.
  - intros _ w y Hy Ha. destruct (Hm w y Hy) as (y0 & Hy0 & _ & _ & -> & Hc). destruct (Hc Ha) as [->|[_ ->]]; [congruence | by eapply A1].
  - intros _ w1 w2 y z Hy Hz Hay Haz Hag. destruct (Hm w1 y Hy) as (y0 & Hy0 & [Gy _]%carries_on_agent & _ & _ & Hcy), (Hm w2 z Hz) as (z0 & Hz0 & [Gz _]%carries_on_agent & _ & _ & Hcz).
    destruct (Hcy Hay) as [->|[Hn1 ->]], (Hcz Haz) as [->|[Hn2 ->]]; try done.
    + simplify_eq. destruct Hn2. congruence.
    + simplify_eq. destruct Hn1. congruence.
    + by eapply A2.
  - intros _ w y Hy. destruct (C w y Hy) as (y' & Hy' & Hct & Hl & Hal).
    assert (Hk : forall z, alike y' z -> same_content y z /\ lags (av_status y) (av_status z) /\ (sure -> alike y z)).
    { intros z Hz. pose proof (alike_fields _ _ Hz) as (_ & Hst & _). rewrite <- Hst. split_and!; [eapply same_content_trans; [done | by apply alike_content] | done | intros Hs; eapply alike_trans; [by apply Hal | done]]. }
    unfold m. destruct (decide (w = v)) as [->|].
    + rewrite lookup_insert_eq. simplify_eq. eexists. split; [done|]. apply Hk, alike_activation.
    + rewrite lookup_insert_ne, lookup_fmap, Hy' by done. simpl. eexists. split; [done|]. apply Hk.
      by destruct (retired_cases (av_agent r) y') as [[-> _]|[z ->]].
  - intros w y Hy. unfold m. destruct (decide (w = v)) as [->|].
    + rewrite lookup_insert_eq. simplify_eq. eauto using carries_on_activation.
    + rewrite lookup_insert_ne, lookup_fmap, Hy by done. simpl. eexists. split; [done|].
      destruct (retired_cases (av_agent r) y) as [[-> _]|[z ->]]; auto using carries_on_refl, carries_on_activation.
Qed.

(** A new version, in draft. *)
Lemma good_insert s i r :
  (i < au_next (ag_authoring s))%N -> ag_versions s !! i = None -> is_Some (agent_of (av_agent r) (ag_agents s)) ->
  taken (av_agent r, 0%N) (av_number r) (ag_versions s) = false -> av_active r = false ->
  good s (set_agent_versions (<[i := r]> (ag_versions s)) s).
Proof.
  intros Hi Hf Ho Hk Ha Ht. pose proof Ht as [[F1 F2] N O A1 A2 C K B].
  assert (Hg : good s (set_caches (ag_version_cache s) (ag_node_cache s) (set_agent_versions (<[i := r]> (ag_versions s)) s))); [|by apply Hg].
  apply good_versions.
  - intros v. destruct (decide (v = i)) as [->|]; [done | rewrite lookup_insert_ne by done; eauto].
  - intros _. by apply unique_insert.
  - intros v x. rewrite lookup_insert_Some. intros [[<- <-]|[? Hx]]; [done | by eapply O].
  - intros _ v x. rewrite lookup_insert_Some. intros [[<- <-]|[? Hx]] Hac; [congruence | by eapply A1].
  - intros _ v w x y. rewrite !lookup_insert_Some. intros [[<- <-]|[? Hx]] [[<- <-]|[? Hy]] Hax Hay Hag; try congruence. by eapply A2.
  - intros _ v x Hx. destruct (C v x Hx) as (x' & Hx' & Hal). exists x'. split; [|done]. rewrite lookup_insert_ne; [done | congruence].
  - intros v x Hx. rewrite lookup_insert_ne by congruence. eauto using carries_on_refl.
Qed.

(** A node is bound, and the binding cached. *)
Lemma versions_of_node_app n l b : versions_of_node n (l ++ [b]) = versions_of_node n l ++ if bool_decide (nb_node b = n) then [nb_version b] else [].
Proof.
  unfold versions_of_node. rewrite filter_app, fmap_app. f_equal. unfold filter. simpl. case_decide; case_bool_decide; done.
Qed.
Lemma good_bind s b t c :
  flow_tenant_of_node (nb_node b) (ag_authoring s) = Some t -> tenant_of_version (nb_version b) s = Some t ->
  c = <[nb_node b := Some (nb_version b)]> (ag_node_cache s) \/ (~ sure /\ c = ag_node_cache s) ->
  good s (set_caches (ag_version_cache s) c (set_node_bindings (ag_bindings s ++ [b]) s)).
Proof.
  intros Hn Hv Hc Ht. pose proof Ht as [[F1 F2] N O A1 A2 C K B]. split; [split; simpl; try done | split; simpl; try done; eauto using carries_on_refl].
  - intros n x Hx. rewrite versions_of_node_app. destruct Hc as [->|[Hns ->]].
    + revert Hx. rewrite lookup_insert_Some. intros [[<- <-]|[Hne Hx]].
      * rewrite (bool_decide_true (_ = _)) by done. set_solver.
      * specialize (K n x Hx). rewrite (bool_decide_false (_ = _)) by congruence. by rewrite app_nil_r.
    + specialize (K n x Hx). destruct x as [v|]; [set_solver | by intros].
  - intros b' [Hb| ->%list_elem_of_singleton]%elem_of_app; [by apply B | by exists t].
  - by exists [b].
Qed.
Lemma good_node_fill s n x :
  match x with Some v => v ∈ versions_of_node n (ag_bindings s) | None => sure -> versions_of_node n (ag_bindings s) = [] end ->
  good s (set_caches (ag_version_cache s) (<[n := x]> (ag_node_cache s)) s).
Proof.
  intros Hx Ht. pose proof Ht as [[F1 F2] N O A1 A2 C K B]. split; [split; simpl; try done | split; simpl; try done; eauto using carries_on_refl].
  intros n' x'. rewrite lookup_insert_Some. intros [[<- <-]|[? H]]; [done | by apply K].
Qed.

(** ** Requests *)

(** Reads through the cache. *)
Lemma good_get_agent_version v : respects good (get_agent_version v).
Proof.
  intros s. unfold get_agent_version. rewrite get_bind. destruct (ag_version_cache s !! v); [by intros Ht|]. destruct (ag_versions s !! v) as [r|] eqn:Er; [|apply (keeps_refl tidy develops)].
  by apply good_fill.
Qed.
Lemma get_agent_version_run v s o s1 :
  tidy s -> get_agent_version v s = (Ok o, s1) ->
  ag_versions s1 = ag_versions s /\ ag_agents s1 = ag_agents s /\ ag_authoring s1 = ag_authoring s /\ ag_bindings s1 = ag_bindings s /\
  match o with
  | Some r => ag_version_cache s1 !! v = Some r /\
      exists r', ag_versions s !! v = Some r' /\ same_content r r' /\ lags (av_status r) (av_status r')
  | None => ag_versions s !! v = None
  end.
Proof.
  intros Ht. unfold get_agent_version. rewrite get_bind. destruct (ag_version_cache s !! v) as [r|] eqn:Ec.
  - intros [= <- <-]. split_and!; try done. destruct (ti_cache s Ht v r Ec) as (r' & ? & ? & ? & _). eauto.
  - destruct (ag_versions s !! v) as [r|] eqn:Er; intros [= <- <-]; split_and!; try done; [simpl; apply lookup_insert_eq|]. exists r. split_and!; [done | apply same_content_refl | by left].
Qed.
Lemma get_agent_version_total v s : exists o s1, get_agent_version v s = (Ok o, s1).
Proof. unfold get_agent_version. rewrite get_bind. destruct (ag_version_cache s !! v); [eauto|]. destruct (ag_versions s !! v); simpl; eauto. Qed.

Lemma good_node_read n : respects good (get_agent_version_id_by_node_id n).
Proof.
  intros s. unfold get_agent_version_id_by_node_id. rewrite get_bind. destruct (ag_node_cache s !! n); [by intros Ht|]. unfold mbind_, mlift.
  destruct (one_or_none _) as [x|e] eqn:E; [|apply (keeps_refl tidy develops)]. simpl. apply good_node_fill. destruct x; [by apply one_or_none_elem | intros _; by apply one_or_none_nil].
Qed.
Lemma good_rag_read n : respects good (resolve_effective_rag_config_id_for_node n).
Proof.
  intros s. unfold resolve_effective_rag_config_id_for_node. rewrite get_bind. destruct (_ ≫= _); [by intros Ht|].
  apply respects_bind; [apply _ | apply good_node_read|]. intros [v|]; [|apply respects_ret; apply _].
  apply respects_bind; [apply _ | apply good_get_agent_version|]. intros. apply respects_ret. apply _.
Qed.

Lemma good_asks {T} (f : agency -> T) : respects good (asks f).
Proof. intros s; apply (keeps_refl tidy develops). Qed.
Lemma good_found {T} (o : option T) m : respects good (found o m).
Proof. by destruct o; intros s Ht. Qed.
Lemma good_owned_agent t a : respects good (owned_agent t a).
Proof.
  apply respects_bind; [apply _ | apply good_asks|]. intros [r|]; [case_bool_decide|]; first [apply respects_ret; apply _ | apply respects_raise; apply _].
Qed.
Lemma good_refreshed v : respects good (refreshed v).
Proof. apply respects_bind; [apply _ | apply good_get_agent_version|]. intros. apply good_found. Qed.
Lemma good_event t r i v ty c p j : respects good (on_flows (append_event t r i v ty c p j)).
Proof. apply good_flows, calm_authoring_event. Qed.
#[local] Hint Resolve good_event good_refreshed good_owned_agent good_found good_asks good_get_agent_version : frame.

Lemma owned_agent_run t a s r s1 : owned_agent t a s = (Ok r, s1) -> s1 = s /\ agent_of a (ag_agents s) = Some r /\ an_tenant r = t.
Proof.
  unfold owned_agent, get_agent, asks, mbind_, mget, mret. destruct (agent_of a (ag_agents s)) as [x|]; [|done]. case_bool_decide; [|done]. by intros [= -> ->].
Qed.
Lemma owned_version_run t a v s r s1 :
  tidy s -> owned_agent_version t a v s = (Ok r, s1) ->
  (tidy s1 /\ develops s s1) /\ av_agent r = a /\ ag_version_cache s1 !! v = Some r /\
  exists r', ag_versions s1 !! v = Some r' /\ same_content r r' /\ lags (av_status r) (av_status r').
Proof.
  intros Ht H. unfold owned_agent_version in H. first_step H as [[x|e] s0] eqn:E0; [|done]. apply owned_agent_run in E0 as (-> & _).
  destruct (get_agent_version_total v s) as (o & s2 & E2). rewrite (mbind_run _ _ _ _ _ E2) in H.
  pose proof (good_get_agent_version v s Ht) as Hg. rewrite E2 in Hg. simpl in Hg.
  destruct (get_agent_version_run v s o s2 Ht E2) as (Hv & _ & _ & _ & Ho). destruct o as [y|]; [|done].
  case_bool_decide as Ha; [|done]. injection H as -> ->. rewrite Hv. destruct Ho as (Hc & Ho). split_and!; [by destruct Hg.. | done | done | done].
Qed.
Lemma good_owned_version t a v : respects good (owned_agent_version t a v).
Proof.
  unfold owned_agent_version. apply respects_bind; [apply _ | apply good_owned_agent|]. intros _. apply respects_bind; [apply _ | apply good_get_agent_version|].
  intros [r|]; [case_bool_decide|]; first [apply respects_ret; apply _ | apply respects_raise; apply _].
Qed.

(** *** Changes of versions *)

Lemma set_status_at w v st s r y :
  (sure -> w = Written) -> ag_versions s !! v = Some r -> ag_version_cache s !! v = Some y -> lags (av_status y) st ->
  rank (av_status r) <= rank st -> st = VS_PUBLISHED \/ av_status r <> VS_PUBLISHED ->
  good s (set_agent_version_status w v st s).2.
Proof.
  intros Hw Hr Hy Hl H1 H2. unfold set_agent_version_status. rewrite get_bind, Hr.
  assert (Hstay : w <> Written -> good s (set_agent_versions (<[v := with_agent_status st r]> (ag_versions s)) s)).
  { intros Hn. pose proof (good_status s v r st (ag_version_cache s) Hr) as Hg. apply Hg; [done..|]. right.
    split_and!; [intros Hs; by apply Hn, Hw | done | intros y0 Hy0; by simplify_eq]. }
  destruct w; [|by apply Hstay..]. apply (good_status s v r st (delete v (ag_version_cache s)) Hr); [done..|by left].
Qed.

Lemma good_validate w t a v : (sure -> w = Written) -> respects good (validate_agent_version w t a v).
Proof.
  intros Hw s. apply (keeps_bind tidy develops); [apply good_owned_version|]. intros Ht r s1 H _.
  apply owned_version_run in H as (_ & _ & Hc & r' & Hr' & _ & Hl); [|done].
  case_bool_decide as Hd; [|apply (keeps_refl tidy develops)]. apply (keeps_bind tidy develops); [|intros; apply good_refreshed].
  rewrite Hd in Hl. apply (set_status_at _ _ _ _ r' r Hw Hr' Hc).
  - rewrite Hd. by right; left.
  - destruct Hl as [<-|[[_ ->]|[? _]]]; simpl; [lia..|done].
  - right. by destruct Hl as [<-|[[_ ->]|[? _]]].
Qed.
Lemma good_justified c : respects good (justified c).
Proof. unfold justified. destruct (String.eqb _ _); [apply respects_raise; apply _ | apply respects_ret; apply _]. Qed.
Lemma justified_run c s x s1 : justified c s = (Ok x, s1) -> s1 = s.
Proof. unfold justified. destruct (String.eqb _ _); [done|]. by intros [= _ ->]. Qed.
Lemma good_publish w t a v p c : (sure -> w = Written) -> respects good (publish_agent_version w t a v p c).
Proof.
  intros Hw s. apply (keeps_bind tidy develops); [apply good_owned_version|]. intros Ht r s1 H _.
  apply owned_version_run in H as (_ & _ & Hc & r' & Hr' & _ & Hl); [|done].
  case_bool_decide as Hd; [|apply (keeps_refl tidy develops)]. apply (keeps_bind tidy develops); [apply good_justified|]. intros _ x s2 ->%justified_run _.
  apply (keeps_bind tidy develops); [rewrite Hd in Hl; apply (set_status_at _ _ _ _ r' r Hw Hr' Hc); [rewrite Hd; by right; right | destruct Hl as [<-|[[? _]|[_ ->]]]; simpl; first [done | lia] | by left]|].
  intros _ _ s2 _ _. apply respects_bind; [apply _ | apply good_event | intros _; apply good_refreshed].
Qed.
Lemma good_switch e t a v p c : respects good (switch_to e t a v p c).
Proof.
  intros s. apply (keeps_bind tidy develops); [apply good_owned_version|]. intros Ht r s1 H _.
  apply owned_version_run in H as (_ & Hag & _ & r' & Hr' & [Hag' _]%same_content_fields & Hl); [|done].
  case_bool_decide as Hd; [|apply (keeps_refl tidy develops)]. apply (keeps_bind tidy develops); [apply good_justified|]. intros _ x s2 ->%justified_run _.
  apply (keeps_bind tidy develops).
  - unfold upsert_active_agent_version. rewrite get_bind, Hr'. rewrite <- Hag, Hag'. rewrite bool_decide_true by done. apply good_activate; [done|]. rewrite Hd in Hl. by apply lags_published.
  - intros _ _ s2 _ _. apply respects_bind; [apply _ | apply good_event | intros _; apply respects_ret; apply _].
Qed.

(** *** New rows *)

Lemma new_id_run s i s1 : on_flows new_id s = (Ok i, s1) ->
  i = au_next (ag_authoring s) /\ au_next (ag_authoring s1) = (i + 1)%N /\ ag_agents s1 = ag_agents s /\ ag_versions s1 = ag_versions s /\
  ag_bindings s1 = ag_bindings s /\ view (ag_authoring s1) = view (ag_authoring s) /\ ag_node_cache s1 = ag_node_cache s.
Proof. unfold on_flows, new_id. by intros [= <- <-]. Qed.
Lemma good_new_id : respects good (on_flows new_id).
Proof. apply good_flows, calm_new_id. Qed.

Lemma good_create_agent t n p : respects good (create_agent t n p).
Proof.
  apply respects_bind; [apply _ | | intros i; apply respects_bind; [apply _ | apply good_event | intros _; apply respects_ret; apply _]].
  intros s. apply (keeps_bind tidy develops); [apply good_new_id|]. intros Ht i s1 (-> & Hn & Ha & _)%new_id_run _. apply good_agent; [done|].
  intros x Hx. rewrite Ha in Hx. apply (proj1 (ti_fresh s Ht)) in Hx. lia.
Qed.

Lemma good_insert_version a q s : is_Some (agent_of a (ag_agents s)) -> good s (insert_agent_version a q s).2.
Proof.
  intros Ho. unfold insert_agent_version. rewrite get_bind. apply (keeps_bind tidy develops).
  { destruct (ac_source q) as [v|]; [|apply (keeps_refl tidy develops)]. destruct (ag_versions s !! v); apply (keeps_refl tidy develops). }
  intros _ source s1 Hs _. assert (s1 = s) as -> by (destruct (ac_source q) as [v|]; [destruct (ag_versions s !! v)|]; by simplify_eq Hs).
  clear Hs. apply (keeps_bind tidy develops); [apply good_new_id|]. intros Ht i s1 (-> & Hn & Ha & Hv & _)%new_id_run _.
  destruct (taken _ _ _) eqn:Et; [apply (keeps_refl tidy develops)|]. cbn [mmodify mbind_ mret snd]. apply good_insert; simpl; [lia | | by rewrite Ha | by rewrite Hv | done].
  rewrite Hv. destruct (ag_versions s !! _) eqn:E; [|done]. assert (Hlt := proj2 (ti_fresh s Ht) (au_next (ag_authoring s)) ltac:(by rewrite E)). lia.
Qed.
Lemma good_create_version parse_persona policy_tenant t a q p : respects good (create_agent_version parse_persona policy_tenant t a q p).
Proof.
  intros s. apply (keeps_bind tidy develops); [apply good_owned_agent|]. intros Ht r s1 (-> & Ha & _)%owned_agent_run _.
  apply (keeps_bind tidy develops); [destruct (ac_policy q); [case_bool_decide|]; apply (keeps_refl tidy develops)|].
  intros _ x s1 Hx _. assert (s1 = s) as -> by (destruct (ac_policy q); [case_bool_decide|]; by simplify_eq Hx).
  apply (keeps_bind tidy develops); [by apply good_insert_version|]. intros _ i s1 _ _.
  apply respects_bind; [apply _ | apply good_event|]. intros _ s2. rewrite get_bind. apply respects_bind; [apply _ | apply good_found|]. intros row.
  apply respects_bind; [apply _ | apply respects_lift; apply _ | intros; apply respects_ret; apply _].
Qed.

Lemma found_run {T} (o : option T) m s x s1 : found o m s = (Ok x, s1) -> o = Some x /\ s1 = s.
Proof. destruct o; [by intros [= -> ->] | done]. Qed.
Lemma good_insert_binding w n v : (sure -> w = Written) -> respects good (insert_node_binding w n v).
Proof.
  intros Hw s. unfold insert_node_binding. rewrite get_bind.
  apply (keeps_bind tidy develops); [apply good_found|]. intros _ node s1 [Hn ->]%found_run _.
  apply (keeps_bind tidy develops); [apply good_found|]. intros _ version s1 [Hv ->]%found_run _.
  apply (keeps_bind tidy develops); [apply good_found|]. intros _ fv s1 [Hf ->]%found_run _.
  apply (keeps_bind tidy develops); [apply good_found|]. intros _ flow s1 [Hfl ->]%found_run _.
  apply (keeps_bind tidy develops); [apply good_found|]. intros _ agent s1 [Ha ->]%found_run _.
  case_bool_decide as Heq; [|apply (keeps_refl tidy develops)]. apply (keeps_bind tidy develops); [apply good_new_id|].
  intros _ i s1 (-> & _ & Hag & Hve & _ & Hview & _)%new_id_run _.
  set (b := {| nb_id := au_next (ag_authoring s); nb_node := n; nb_version := v |}).
  assert (Hgo : forall c, c = <[n := Some v]> (ag_node_cache s1) \/ (~ sure /\ c = ag_node_cache s1) ->
    good s1 (set_caches (ag_version_cache s1) c (set_node_bindings (ag_bindings s1 ++ [b]) s1))).
  2: { assert (Hstay : w <> Written -> good s1 (set_node_bindings (ag_bindings s1 ++ [b]) s1)).
       { intros Hl. apply (Hgo (ag_node_cache s1)). right. split; [|done]. intros Hs. by apply Hl, Hw. }
       destruct w; cbn [negb mmodify mbind_ mret mraise cache_step snd]; [apply Hgo; by left | by apply Hstay..]. }
  intros c Hc. apply (good_bind s1 b (an_tenant agent)); simpl; [| |exact Hc].
  - unfold view in Hview. simplify_eq Hview. intros E1 E2 E3 _ _ _ _. unfold flow_tenant_of_node. rewrite E1, E2, E3, Hn. simpl. rewrite Hf. simpl. rewrite Hfl. simpl. by rewrite Heq.
  - unfold tenant_of_version. rewrite Hve, Hv. simpl. by rewrite Hag, Ha.
Qed.
Lemma good_bind_node w t n v p : (sure -> w = Written) -> respects good (create_node_agent_binding w t n v p).
Proof.
  intros Hw. apply respects_bind; [apply _ | apply good_get_agent_version|]. intros [r|]; [|apply respects_raise; apply _].
  apply respects_bind; [apply _ | apply good_owned_agent|]. intros _. apply respects_bind; [apply _ | by apply good_insert_binding|]. intros b.
  apply respects_bind; [apply _ | apply good_event | intros _; apply respects_ret; apply _].
Qed.

End sure.

(** ** Histories *)

Inductive agent_request : Type :=
  | CreateAgent (tenant : uuid) (name : option string) (principal : string)
  | CreateAgentVersion (tenant a : uuid) (q : AgentVersionCreate) (principal : string)
  | ListAgentVersions (tenant a : uuid) (status_filter : list VersionStatus)
  | ValidateAgentVersion (w : cache_write) (tenant a v : uuid)
  | PublishAgentVersion (w : cache_write) (tenant a v : uuid) (principal : string) (c : ChangeRequest)
  | ActivateAgentVersion (tenant a v : uuid) (principal : string) (c : ChangeRequest)
  | RollbackAgentVersion (tenant a v : uuid) (principal : string) (c : ChangeRequest)
  | BindNode (w : cache_write) (tenant n v : uuid) (principal : string)
  | ReadAgentVersion (v : uuid)
  | ReadAgentOfNode (n : uuid)
  | ReadRagConfigOfNode (n : uuid)
  | ExpireVersion (v : uuid)
  | ExpireNode (n : uuid).

Section histories.
Variable parse_persona : pydict -> res exc pydict.
Variable policy_tenant : uuid -> option uuid.

(** One request, or the expiry of a cached entry, without its answer. *)
Definition serve_agents (q : agent_request) : G unit :=
  let quiet {T} (m : G T) : G unit := let* _ := m in mret tt in
  match q with
  | CreateAgent t n p => quiet (create_agent t n p)
  | CreateAgentVersion t a q p => quiet (create_agent_version parse_persona policy_tenant t a q p)
  | ListAgentVersions t a l => quiet (list_agent_versions parse_persona t a l)
  | ValidateAgentVersion w t a v => quiet (validate_agent_version w t a v)
  | PublishAgentVersion w t a v p c => quiet (publish_agent_version w t a v p c)
  | ActivateAgentVersion t a v p c => quiet (activate_agent_version t a v p c)
  | RollbackAgentVersion t a v p c => quiet (rollback_agent_version t a v p c)
  | BindNode w t n v p => quiet (create_node_agent_binding w t n v p)
  | ReadAgentVersion v => quiet (get_agent_version v)
  | ReadAgentOfNode n => quiet (get_agent_version_id_by_node_id n)
  | ReadRagConfigOfNode n => quiet (resolve_effective_rag_config_id_for_node n)
  | ExpireVersion v => mmodify (fun s => set_caches (delete v (ag_version_cache s)) (ag_node_cache s) s)
  | ExpireNode n => mmodify (fun s => set_caches (ag_version_cache s) (delete n (ag_node_cache s)) s)
  end.
(** The request's write to a cache is done. *)
Definition kept_in_step (q : agent_request) : Prop :=
  match q with ValidateAgentVersion w _ _ _ | PublishAgentVersion w _ _ _ _ _ | BindNode w _ _ _ _ => w = Written | _ => True end.
Definition after_agents (l : list agent_request) (s : agency) : agency := foldl (fun s q => (serve_agents q s).2) s l.

Section sure_histories.
Variable sure : Prop.
Abbreviation good := (keeps (tidy sure) develops).

Lemma good_quiet {T} (m : G T) : respects good m -> respects good (let* _ := m in mret tt).
Proof using. intros H. apply respects_bind; [apply _ | done | intros _; apply respects_ret; apply _]. Qed.
Lemma good_list t a l : respects good (list_agent_versions parse_persona t a l).
Proof using.
  apply respects_bind; [apply _ | apply good_owned_agent|]. intros _. apply respects_bind; [apply _ | apply good_asks|]. intros. apply respects_lift. apply _.
Qed.
Lemma good_serve_agents q : (sure -> kept_in_step q) -> respects good (serve_agents q).
Proof using.
  destruct q; simpl; intros Hw; try apply good_quiet;
    auto using good_create_agent, good_create_version, good_list, good_validate, good_publish, good_switch, good_bind_node, good_get_agent_version,
      good_node_read, good_rag_read.
  - apply good_switch.
  - apply good_switch.
  - intros s. apply good_drop.
  - intros s. apply good_drop_node.
Qed.
Lemma good_after_agents l s : (sure -> Forall kept_in_step l) -> good s (after_agents l s).
Proof using.
  revert s. induction l as [|q l IH]; intros s Hl; [apply (keeps_refl (tidy sure) develops)|]. simpl. etrans.
  - apply good_serve_agents. intros Hs. by apply Hl, Forall_cons in Hs as [? _].
  - apply IH. intros Hs. by apply Hl, Forall_cons in Hs as [_ ?].
Qed.
End sure_histories.
End histories.

(** The active version of an agent: at most one row, and it is published. *)
Lemma elem_of_active_agents a m v : v ∈ active_ids a m <-> exists r, m !! v = Some r /\ av_agent r = a /\ av_active r = true.
Proof. unfold active_ids. rewrite elem_of_keys_where. setoid_rewrite andb_true_iff. setoid_rewrite bool_decide_eq_true. done. Qed.
Lemma active_lookup sure a s v : tidy sure s -> v ∈ active_ids a (ag_versions s) -> active_ids a (ag_versions s) = [v].
Proof.
  intros Ht Hv. apply only_element; [apply keys_where_nodup | done|]. apply elem_of_active_agents in Hv as (r & Hr & Ha & Hac).
  intros w (x & Hx & Hax & Hcx)%elem_of_active_agents. eapply (ti_one_active sure s Ht); [done | done | done | done | congruence].
Qed.


Lemma upsert_active_run sure a v p j s x s1 :
  tidy sure s1 -> upsert_active_agent_version a v p j s = (Ok x, s1) -> active_ids a (ag_versions s1) = [v].
Proof.
  intros Ht H. apply (active_lookup sure); [done|]. unfold upsert_active_agent_version in H. rewrite get_bind in H.
  destruct (ag_versions s !! v) as [r|]; [|done]. case_bool_decide; [|done]. injection H as _ <-. apply elem_of_active_agents. eexists. simpl. by rewrite lookup_insert_eq.
Qed.
(** An activation or a rollback that succeeds takes effect: the version that was read is published, and from then on it is the
    active version of its agent; one that fails leaves the versions as they were. *)
Theorem activation_takes_effect sure event t a v p c s :
  tidy sure s ->
  match switch_to event t a v p c s with
  | (Ok r, s') => av_status r = VS_PUBLISHED /\ av_agent r = a /\ get_active_agent_version_id a s' = (Ok (Some v), s')
  | (Err _, s') => ag_versions s' = ag_versions s
  end.
Proof.
  intros Ht. unfold switch_to, mbind_ at 1. pose proof (owned_version_run sure t a v s) as Ho.
  assert (Hkeep : ag_versions (owned_agent_version t a v s).2 = ag_versions s).
  { unfold owned_agent_version, mbind_. destruct (owned_agent t a s) as [[x|e] s0] eqn:E0.
    - apply owned_agent_run in E0 as (-> & _). destruct (get_agent_version_total v s) as (o & s2 & E2). rewrite E2.
      apply (get_agent_version_run sure) in E2 as (Hv & _); [|done]. destruct o; [case_bool_decide|]; exact Hv.
    - simpl. revert E0. unfold owned_agent, get_agent, asks, mbind_, mget, mret. destruct (agent_of a (ag_agents s)); [case_bool_decide|]; by intros [= _ <-]. }
  destruct (owned_agent_version t a v s) as [[r|e] s1] eqn:E1; [|done]. simpl in Hkeep.
  destruct (Ho r s1 Ht eq_refl) as ((Ht1 & _) & Hag & _ & r' & Hr' & Hct & Hl). apply same_content_fields in Hct as (Hag' & _).
  case_bool_decide as Hp; [|done]. simpl. unfold justified. destruct (String.eqb _ _); [done|].
  unfold mbind_ at 1. cbn [mret]. unfold mbind_ at 1.
  assert (Hup : exists s2, upsert_active_agent_version a v p (justification c) s1 = (Ok tt, s2) /\ tidy sure s2).
  { unfold upsert_active_agent_version. rewrite get_bind, Hr'. rewrite bool_decide_true by congruence. eexists. split; [done|].
    rewrite <- Hag, Hag'. apply (good_activate sure s1 v r' (Some (p, justification c))); [done | | done]. rewrite Hp in Hl. by apply lags_published. }
  destruct Hup as (s2 & E2 & Ht2). rewrite E2. apply (upsert_active_run sure) in E2; [|done]. unfold mbind_, on_flows, append_event, mmodify, mret. simpl.
  split_and!; [done | done|]. unfold get_active_agent_version_id. rewrite get_bind. simpl. by rewrite E2.
Qed.

(** ** A registry *)

Module registry.
Definition rights : node_rights := {| allow_rag_tenant := false; allow_user_memory_structured := false; allow_user_memory_vector := false;
  rag_config_id := None; allow_session_context := false; allow_memory_write := false |}.
(** Flow 1 of tenant 7, with version 2 and node 3. *)
Definition flows : authoring := {|
  au_next := 10%N;
  au_flows := {[ 1%N := {| fl_tenant := 7%N; fl_name := "shop"; fl_description := None; fl_tags := []; fl_created_by := "ann" |} ]};
  au_versions := {[ 2%N := {| ve_flow := 1%N; ve_status := VS_PUBLISHED; ve_number := {| vn_major := 1; vn_minor := 0; vn_patch := 0 |};
                             ve_min_agent := {| ma_major := None; ma_minor := None; ma_patch := None |}; ve_active := true |} ]};
  au_nodes := {[ 3%N := {| no_version := 2%N; no_prompt := 4%N; no_rights := rights; no_spec := None; no_template := None |} ]};
  au_graphs := ∅; au_drafts := ∅; au_graph_snapshots := ∅; au_snapshots := ∅; au_policies := ∅; au_bindings := ∅; au_deployments := [];
  au_routers := ∅; au_conditions := ∅; au_rules := ∅; au_events := [] |}.
Definition start : agency := {| ag_authoring := flows; ag_agents := []; ag_versions := ∅; ag_bindings := []; ag_version_cache := ∅; ag_node_cache := ∅ |}.
Lemma tidy_start sure : tidy sure start.
Proof.
  split; simpl; try done; [split; [by intros i r ?%not_elem_of_nil | by intros v [r Hr]] | by intros b ?%not_elem_of_nil].
Qed.

Definition persona (d : pydict) : res exc pydict := Ok d.
Definition policies (p : uuid) : option uuid := None.
Definition why : ChangeRequest := {| change_type := "UPDATE"; justification := "release" |}.
Definition draft (source : option uuid) (prompt : option string) : AgentVersionCreate := {|
  ac_source := source; ac_major := None; ac_minor := None; ac_patch := None; ac_description := None; ac_tool_schema := None;
  ac_hash_prefix := None; ac_persona := None; ac_prompt := prompt; ac_policy := None |}.
(** Tenant 7 creates agent 10 with versions 11 and 12, and activates the first. *)
Definition story : list agent_request :=
  [CreateAgent 7 (Some "clerk") "ann"; CreateAgentVersion 7 10 (draft None (Some "Be brief.")) "ann"; CreateAgentVersion 7 10 (draft None None) "ann";
   ReadAgentVersion 11; ValidateAgentVersion Written 7 10 11; PublishAgentVersion Written 7 10 11 "ann" why; ReadAgentVersion 11;
   ActivateAgentVersion 7 10 11 "ann" why; BindNode Written 7 3 11 "ann"]%N.
Definition told : agency := after_agents persona policies story start.
Example told_versions : (fun r => (av_number r, av_status r, av_active r)) <$> ag_versions told !! 12%N =
  Some ({| vn_major := 1; vn_minor := 0; vn_patch := 1 |}, VS_DRAFT, false).
Proof. vm_compute. reflexivity. Qed.

(** A lost deletion: version 12 is validated, but until its cached row expires it is still a draft for the services. *)
Example lost_deletion :
  let s := after_agents persona policies (story ++ [ReadAgentVersion 12; ValidateAgentVersion Lost 7 10 12])%N start in
  av_status <$> ag_versions s !! 12%N = Some VS_VALIDATED /\
  (publish_agent_version Written 7 10 12 "ann" why s).1 = Err (ResourceBlockedServiceException "agent_version_not_validated") /\
  av_status <$> ag_versions (after_agents persona policies [ExpireVersion 12; PublishAgentVersion Written 7 10 12 "ann" why]%N s) !! 12%N =
    Some VS_PUBLISHED.
Proof. vm_compute. split_and!; reflexivity. Qed.
Example active_is_read : (get_active_agent_version_id 10%N told).1 = Ok (Some 11%N).
Proof. vm_compute. reflexivity. Qed.

Lemma activation_takes_effect_witness :
  match switch_to "VERSION_ROLLED_BACK" 7 10 11 "bob" why told with
  | (Ok r, s') => av_status r = VS_PUBLISHED /\ av_agent r = 10%N /\ get_active_agent_version_id 10%N s' = (Ok (Some 11%N), s')
  | (Err _, s') => ag_versions s' = ag_versions told
  end.
Proof.
  apply (activation_takes_effect False "VERSION_ROLLED_BACK" 7 10 11 "bob" why told). apply (good_after_agents _ _ False); [done|]. apply tidy_start.
Defined.
Example rollback_succeeds : exists r, (rollback_agent_version 7 10 11 "bob" why told).1 = Ok r.
Proof. eexists. vm_compute. reflexivity. Qed.

(** The source of a version may be any agent's: tenant 8 reads the prompt of tenant 7. *)
Example prompt_of_another_tenant :
  let s := after_agents persona policies (story ++ [CreateAgent 8 None "eve"; CreateAgentVersion 8 14 (draft (Some 11) None) "eve"])%N start in
  (fun r => (av_agent r, av_prompt r)) <$> ag_versions s !! 15%N = Some (14%N, Some "Be brief.") /\
  an_tenant <$> agent_of 14 (ag_agents s) = Some 8%N.
Proof. vm_compute. split; reflexivity. Qed.
(** A node that is bound a second time has its last agent while the binding is cached, and none that can be read afterwards. *)
Example second_binding :
  let s := after_agents persona policies (story ++ [BindNode Written 7 3 12 "ann"])%N start in
  (get_agent_version_id_by_node_id 3%N s).1 = Ok (Some 12%N) /\
  (get_agent_version_id_by_node_id 3%N (after_agents persona policies [ExpireNode 3%N] s)).1 = Err (ExternalError "MultipleResultsFound" "").
Proof. vm_compute. split; reflexivity. Qed.
(** A first version that names only its major number gets [1.0.0]. *)
Example first_number_is_fixed : next_number (Some 2%Z) None None None None = {| vn_major := 1; vn_minor := 0; vn_patch := 0 |}.
Proof. reflexivity. Qed.
End registry.
