(* ===== verification/Tools.v ===== *)
(** * Tools: tools, their configurations and the catalogue

    [src/src/domain/tools/services/tools_service.py], [tool_catalog_indexer.py] and [tool_catalog_retriever.py] on
    [src/src/domain/tools/repositories/tools_repository.py]: tools imported from OpenAPI documents, numbered configurations that are
    published, deprecated and disabled, their bindings to versions of agents, the catalogue document of a configuration, and the
    search for tools by what a user says.

    Repository calls are transactions.  Retrieval is an interface: [RagRuntime] is what the service takes of
    [rag_runtime_service.py], and [Rag] implements it.  The batches of published configurations are cached in Redis, and a cached
    batch may expire at any time.  Parsers, printers and [urlparse] are parameters. *)

From S2P Require Import Prelude.
From S2P Require Import Errors.
From S2P Require Import PyValue.
From S2P Require Import PyString.
From S2P Require Import PyFloat.
From S2P Require Import StateMachine.
From S2P Require Import Sorting.
From S2P Require Import Effects.
From S2P Require Import Store.
From S2P Require Import ToolRuns.
From S2P Require Import Chunking.
From S2P Require Import Rag.
From S2P Require Import FlowAuthoring.
From S2P Require Import Versions.
From S2P Require Import OpenApi.
From S2P Require Import Agents.

(** ** Tables *)

Record tool_row : Type := {
  tl_id : uuid;
  tl_name : option string;
}.
Record tool_config : Type := {
  tc_tool : uuid;
  tc_tenant : uuid;
  tc_status : VersionStatus;
  tc_number : version_number;
  tc_schema : option Z;
  tc_config : pydict;
}.
#[global] Instance tool_config_Versioned : Versioned tool_config :=
  {| row_group r := (tc_tool r, tc_tenant r); row_number := tc_number |}.
Record tool_binding : Type := {
  tb_id : uuid;
  tb_version : uuid;
  tb_config : uuid;
}.
(** A configuration with its tool. *)
Definition tool_pair : Type := uuid * tool_config * tool_row.
Definition batch_key : Type := uuid * gset uuid.

Record toolbox {P : Type} : Type := {
  bx_agency : agency;
  bx_tools : list tool_row;
  bx_configs : gmap uuid tool_config;
  bx_bindings : list tool_binding;
  bx_batches : gmap batch_key (list tool_pair);
  bx_rag : rag P;
}.
Arguments toolbox : clear implicits.

(** What the service takes of [RagRuntimeService]. *)
Record RagRuntime {P : Type} : Type := {
  rt_ingest : uuid -> uuid -> RagDocumentCreate -> M (rag P) (uuid * EmbeddingStatus);
  rt_context : uuid -> uuid -> option string -> string -> pydict -> option Z -> option pyfloat -> M (rag P) RagContext;
}.
Arguments RagRuntime : clear implicits.

Record ToolConfigCreate : Type := {
  tq_tool : uuid;
  tq_source : option uuid;
  tq_config : option pydict;
  tq_major : option Z;
  tq_minor : option Z;
  tq_patch : option Z;
  tq_schema : option Z;
}.
Record AvailableTool : Type := {
  at_name : option string;
  at_tool : uuid;
  at_config : uuid;
  at_summary : option string;
  at_description : option string;
  at_operation : option string;
  at_method : option string;
  at_path : option string;
  at_score : option pyfloat;
}.
Record ToolCatalogDocument : Type := {
  td_tool : uuid;
  td_config : uuid;
  td_name : option string;
  td_operation : option string;
  td_method : option string;
  td_path : option string;
  td_summary : option string;
  td_description : option string;
  td_request : pydict;
  td_response : pydict;
  td_examples : list string;
}.
Record ToolDiscoveryCandidate : Type := {
  dq_config : uuid;
  dq_score : pyfloat;
  dq_content : string;
}.

Section tools.
Context {P : Type}.
Variable runtime : RagRuntime P.
(** Printing, JSON, UUIDs and URLs. *)
Variable py_str : pyval -> string.
Variable uuid_str : uuid -> string.
Variable uuid_parse : string -> option uuid.
Variable dumps dumps_sorted : pyval -> string.
Variable json_loads yaml_load : string -> string + pyval.
Variable urlparse : string -> string * string * string.
(** [settings.TOOL_IMPORT_DEFAULT_BASE_URL], and whether an indexer was given. *)
Variable default_base_url : string.
Variable has_indexer : bool.

Abbreviation B := (M (toolbox P)).

Definition set_agency (v : agency) (s : toolbox P) : toolbox P := {|
  bx_agency := v; bx_tools := bx_tools s; bx_configs := bx_configs s; bx_bindings := bx_bindings s; bx_batches := bx_batches s; bx_rag := bx_rag s |}.
Definition set_tools (v : list tool_row) (s : toolbox P) : toolbox P := {|
  bx_agency := bx_agency s; bx_tools := v; bx_configs := bx_configs s; bx_bindings := bx_bindings s; bx_batches := bx_batches s; bx_rag := bx_rag s |}.
Definition set_tool_configs (v : gmap uuid tool_config) (s : toolbox P) : toolbox P := {|
  bx_agency := bx_agency s; bx_tools := bx_tools s; bx_configs := v; bx_bindings := bx_bindings s; bx_batches := bx_batches s; bx_rag := bx_rag s |}.
Definition set_tool_bindings (v : list tool_binding) (s : toolbox P) : toolbox P := {|
  bx_agency := bx_agency s; bx_tools := bx_tools s; bx_configs := bx_configs s; bx_bindings := v; bx_batches := bx_batches s; bx_rag := bx_rag s |}.
Definition set_batches (v : gmap batch_key (list tool_pair)) (s : toolbox P) : toolbox P := {|
  bx_agency := bx_agency s; bx_tools := bx_tools s; bx_configs := bx_configs s; bx_bindings := bx_bindings s; bx_batches := v; bx_rag := bx_rag s |}.
Definition set_tool_rag (v : rag P) (s : toolbox P) : toolbox P := {|
  bx_agency := bx_agency s; bx_tools := bx_tools s; bx_configs := bx_configs s; bx_bindings := bx_bindings s; bx_batches := bx_batches s; bx_rag := v |}.
(** Computations on the parts. *)
Definition on_agency {T} (m : G T) : B T := fun s => let '(r, a) := m (bx_agency s) in (r, set_agency a s).
Definition on_rag {T} (m : M (rag P) T) : B T := fun s => let '(r, a) := m (bx_rag s) in (r, set_tool_rag a s).
Definition tool_asks {T} (f : toolbox P -> T) : B T := let* s := mget in mret (f s).
Definition tool_id : B uuid := on_agency (on_flows new_id).
Definition tool_event (tenant : uuid) (resource : string) (i : uuid) (type change principal justification : string) : B unit :=
  on_agency (on_flows (append_event tenant resource i None type change principal justification)).
Definition present {T} (o : option T) (message : string) : B T :=
  match o with Some x => mret x | None => mraise (NotFoundServiceException message) end.

(** ** The repository *)

Definition tool_of (i : uuid) (l : list tool_row) : option tool_row := List.find (fun t => (tl_id t =? i)%N) l.
Definition get_tool (i : uuid) : B (option tool_row) := tool_asks (fun s => tool_of i (bx_tools s)).
Definition get_tool_by_name (name : option string) : B (option tool_row) :=
  let* s := mget in mlift (one_or_none (filter (fun t => tl_name t = name) (bx_tools s))).
(** [create_tool]: names are unique and have at most 255 characters. *)
Definition insert_tool (name : option string) : B tool_row :=
  let* s := mget in
  let* i := tool_id in
  if match name with Some n => (255 <? chars_of n)%Z | None => false end then mraise (ExternalError "DBAPIError" "StringDataRightTruncationError")
  else if match name with Some n => existsb (fun t => bool_decide (tl_name t = Some n)) (bx_tools s) | None => false end
  then mraise (ExternalError "IntegrityError" "tool_name_key")
  else
    let row := {| tl_id := i; tl_name := name |} in
    mmodify (fun s => set_tools (bx_tools s ++ [row]) s) ;;* mret row.

Definition in_filter (l : list VersionStatus) (r : tool_config) : bool := match l with [] => true | _ => bool_decide (tc_status r ∈ l) end.
Definition configs_of (tenant : uuid) (status_filter : list VersionStatus) (m : gmap uuid tool_config) : list (uuid * tool_config) :=
  filter (fun kv => tc_tenant kv.2 = tenant /\ in_filter status_filter kv.2 = true) (map_to_list m).
(** [list_tools]: the tools that have such a configuration, the newest first. *)
Definition list_tools_rows (tenant : uuid) (status_filter : list VersionStatus) (limit : nat) : B (list tool_row) :=
  tool_asks (fun s => take limit (filter (fun t => tl_id t ∈ (fun kv => tc_tool kv.2) <$> configs_of tenant status_filter (bx_configs s))
                                    (rev (bx_tools s)))).
(** [list_tool_configs]. *)
Definition list_tool_configs (tenant : uuid) (status_filter : list VersionStatus) (limit : nat) : B (list (uuid * tool_config)) :=
  tool_asks (fun s => take limit (sorted_by newer_number (fun kv => number_key (tc_number kv.2)) (configs_of tenant status_filter (bx_configs s)))).
(** [get_max_version_patch]. *)
Definition patches (tool tenant : uuid) (major minor : Z) (m : gmap uuid tool_config) : list Z :=
  omap (fun kv => if bool_decide (tc_tool kv.2 = tool /\ tc_tenant kv.2 = tenant /\ vn_major (tc_number kv.2) = major /\ vn_minor (tc_number kv.2) = minor)
                  then Some (vn_patch (tc_number kv.2)) else None) (map_to_list m).
Definition get_max_version_patch (tool tenant : uuid) (major minor : Z) : B Z :=
  tool_asks (fun s => match patches tool tenant major minor (bx_configs s) with [] => (-1)%Z | x :: l => foldr Z.max x l end).
Definition get_tool_config (c : uuid) : B (option tool_config) := tool_asks (fun s => bx_configs s !! c).

(** [create_tool_config] of the repository. *)
Definition insert_tool_config (tool tenant : uuid) (source : option uuid) (major minor patch : option Z) (config : option pydict)
    (schema : option Z) : B uuid :=
  let* s := mget in
  let* source := match source with
                 | None => mret None
                 | Some c => let* r := present (bx_configs s !! c) "source_config_not_found" in mret (Some r)
                 end in
  let number := next_number major minor patch (tc_number <$> source) (newest (tool, tenant) (bx_configs s)) in
  let config := match default [] config, source with [], Some r => tc_config r | d, _ => d end in
  let schema := match schema with Some z => Some z | None => source ≫= tc_schema end in
  let* i := tool_id in
  if taken (tool, tenant) number (bx_configs s) then mraise (ExternalError "IntegrityError" "uq_tool_config_semver")
  else
    mmodify (fun s => set_tool_configs (<[i := {| tc_tool := tool; tc_tenant := tenant; tc_status := VS_DRAFT; tc_number := number;
      tc_schema := schema; tc_config := config |}]> (bx_configs s)) s) ;;*
    mret i.

Definition with_config_status (st : VersionStatus) (r : tool_config) : tool_config := {|
  tc_tool := tc_tool r; tc_tenant := tc_tenant r; tc_status := st; tc_number := tc_number r; tc_schema := tc_schema r; tc_config := tc_config r |}.
Definition set_tool_config_status (c : uuid) (st : VersionStatus) : B unit :=
  let* s := mget in
  let* r := present (bx_configs s !! c) "tool_config_not_found" in
  mmodify (fun s => set_tool_configs (<[c := with_config_status st r]> (bx_configs s)) s).

(** [create_agent_version_tool_binding] of the repository. *)
Definition insert_tool_binding (v c : uuid) : B tool_binding :=
  let* s := mget in
  let* version := present (ag_versions (bx_agency s) !! v) "agent_version_not_found" in
  let* agent := present (agent_of (av_agent version) (ag_agents (bx_agency s))) "agent_not_found" in
  let* config := present (bx_configs s !! c) "tool_config_not_found" in
  if negb (bool_decide (an_tenant agent = tc_tenant config))
  then mraise (DomainValidationException "agent_version_and_tool_config_must_belong_to_same_tenant")
  else
    let* i := tool_id in
    let row := {| tb_id := i; tb_version := v; tb_config := c |} in
    mmodify (fun s => set_tool_bindings (bx_bindings s ++ [row]) s) ;;* mret row.
(** [list_tool_bindings_by_agent_version_id]. *)
Definition list_tool_bindings_by_agent_version (tenant v : uuid) : B (list tool_binding) :=
  let* s := mget in
  if bool_decide (tenant_of_version v (bx_agency s) = Some tenant)
  then mret (sorted_by newer_id tb_id (filter (fun b => tb_version b = v) (bx_bindings s)))
  else mraise (NotFoundServiceException "agent_version_not_found").

(** [list_published_tool_configs_with_tools_by_config_ids], through its cache. *)
Definition published_pairs (tenant : uuid) (ids : gset uuid) (s : toolbox P) : list tool_pair :=
  omap (fun kv => t ← tool_of (tc_tool kv.2) (bx_tools s);
                  if bool_decide (tc_tenant kv.2 = tenant /\ kv.1 ∈ ids /\ tc_status kv.2 = VS_PUBLISHED) then Some (kv, t) else None)
    (map_to_list (bx_configs s)).
Definition list_published_tool_configs_with_tools_by_config_ids (tenant : uuid) (ids : gset uuid) : B (list tool_pair) :=
  if bool_decide (ids = ∅) then mret []
  else
    let* s := mget in
    match bx_batches s !! (tenant, ids) with
    | Some rows => mret rows
    | None =>
        let rows := published_pairs tenant ids s in
        mmodify (fun s => set_batches (<[(tenant, ids) := rows]> (bx_batches s)) s) ;;* mret rows
    end.

(** ** The catalogue *)

(** [_as_str], [_as_dict], [_as_examples]. *)
Definition _as_str (v : pyval) : option string := match v with PNone => None | _ => Some (str_of py_str v) end.
Definition _as_dict (v : pyval) : pydict := match v with PDict d => d | _ => [] end.
Definition _as_examples (v : pyval) : list string :=
  match v with PList l => str_of py_str <$> filter (fun x => x <> PNone) l | _ => [] end.

(** What follows the first occurrence of a text, and what starts at a character. *)
Fixpoint after_sub (pat s : string) : option string :=
  if String.prefix pat s then Some (String.substring (String.length pat) (String.length s - String.length pat) s)
  else match s with EmptyString => None | String _ s' => after_sub pat s' end.
Fixpoint from_char (c : Ascii.ascii) (s : string) : option string :=
  match s with EmptyString => None | String a s' => if Ascii.eqb a c then Some s else from_char c s' end.
(** [_extract_path]. *)
Definition _extract_path (config : pydict) : option string :=
  match _as_str (dict_getv "path" config) with
  | Some (String _ _ as path) => Some path
  | _ =>
      match _as_str (dict_getv "url" config) with
      | Some (String _ _ as url) =>
          Some match after_sub "://" url with Some rest => match from_char (Ascii.ascii_of_nat 47) rest with Some p => p | None => url end | None => url end
      | _ => None
      end
  end.
(** [build_document]. *)
Definition build_document (tool c : uuid) (name : option string) (config : pydict) : ToolCatalogDocument := {|
  td_tool := tool; td_config := c; td_name := name;
  td_operation := _as_str (dict_getv "operation_id" config); td_method := _as_str (dict_getv "method" config); td_path := _extract_path config;
  td_summary := _as_str (dict_getv "summary" config); td_description := _as_str (dict_getv "description" config);
  td_request := _as_dict (dict_getv "request_schema" config); td_response := _as_dict (dict_getv "response_schema" config);
  td_examples := _as_examples (dict_getv "examples" config) |}.

(** [_derive_tool_intent]. *)
Definition _derive_tool_intent (method : option string) : option string :=
  match method with
  | None => None
  | Some m => let u := str_upper m in
              if String.eqb u "GET" then Some "query"
              else if bool_decide (u ∈ ["POST"; "PUT"; "PATCH"; "DELETE"]) then Some "command" else None
  end.
(** [_compose_payload]. *)
Definition opt_str (o : option string) : pyval := from_option PStr PNone o.
Definition NEWLINE : string := String (Ascii.ascii_of_nat 10) "".
Definition _compose_payload (d : ToolCatalogDocument) : RagDocumentCreate := {|
  dc_source := "tool_catalog"; dc_type := "tool_catalog";
  dc_content := str_join NEWLINE
    ["tool_name: " +:+ default "" (td_name d); "operation_id: " +:+ default "" (td_operation d); "method: " +:+ default "" (td_method d);
     "path: " +:+ default "" (td_path d); "summary: " +:+ default "" (td_summary d); "description: " +:+ default "" (td_description d);
     "request_schema:"; dumps_sorted (PDict (td_request d)); "response_schema:"; dumps_sorted (PDict (td_response d));
     "examples:"; dumps (PList (PStr <$> td_examples d))];
  dc_metadata := [("scope", PStr "TENANT_KNOWLEDGE"); ("category", PStr "TOOL_CATALOG"); ("tool_id", PStr (uuid_str (td_tool d)));
     ("tool_config_id", PStr (uuid_str (td_config d))); ("tool_name", PStr (default "" (td_name d))); ("operation_id", opt_str (td_operation d));
     ("method", opt_str (td_method d)); ("path", opt_str (td_path d)); ("tool_intent", opt_str (_derive_tool_intent (td_method d)))];
  dc_config := None; dc_pages := None |}.

(** [_select_rag_config]: the newest published configuration of the tenant. *)
Definition rag_key (c : rag_config) : Z * (Z * Z) := let '(a, b, c) := rc_version c in (a, (b, c)).
Definition _select_rag_config (tenant : uuid) (s : rag P) : option uuid :=
  fst <$> head (sorted_by newer_number (fun kv => rag_key kv.2)
    (filter (fun kv => rc_tenant kv.2 = tenant /\ rc_status kv.2 = "PUBLISHED") (map_to_list (rg_configs s)))).
(** [index_document]. *)
Definition index_document (tenant : uuid) (d : ToolCatalogDocument) : B bool :=
  let* s := mget in
  match _select_rag_config tenant (bx_rag s) with
  | None => mret false
  | Some c => on_rag (rt_ingest runtime tenant c (_compose_payload d)) ;;* mret true
  end.
(** [_index_tool_catalog_document]. *)
Definition _index_tool_catalog_document (tenant tool : uuid) (name : option string) (c : uuid) (config : pydict) : B unit :=
  if has_indexer then index_document tenant (build_document tool c name config) ;;* mret tt else mret tt.

(** ** The service *)

Definition owned_config (tenant c : uuid) : B tool_config :=
  let* r := get_tool_config c in
  match r with
  | Some r => if bool_decide (tc_tenant r = tenant) then mret r else mraise (NotFoundServiceException "tool_config_not_found")
  | None => mraise (NotFoundServiceException "tool_config_not_found")
  end.
Definition reread (c : uuid) : B tool_config := let* r := get_tool_config c in present r "tool_config_not_found".

(** [publish_tool_config]. *)
Definition publish_tool_config (tenant c : uuid) (principal : string) : B tool_config :=
  let* r := owned_config tenant c in
  match tc_status r with
  | VS_PUBLISHED => mret r
  | VS_DRAFT | VS_VALIDATED =>
      set_tool_config_status c VS_PUBLISHED ;;*
      let* tool := get_tool (tc_tool r) in
      let* new := reread c in
      _index_tool_catalog_document tenant (tc_tool new) (tool ≫= tl_name) c (tc_config new) ;;*
      tool_event tenant "tool_config" c "TOOL_CONFIG_PUBLISHED" "UPDATE" principal "publish tool config" ;;*
      mret new
  | _ => mraise (ResourceBlockedServiceException "tool_config_not_publishable")
  end.
(** [deprecate_tool_config]. *)
Definition deprecate_tool_config (tenant c : uuid) (principal : string) : B tool_config :=
  let* r := owned_config tenant c in
  match tc_status r with
  | VS_DEPRECATED => mret r
  | VS_DISABLED => mraise (ResourceBlockedServiceException "tool_config_not_deprecatable")
  | _ =>
      set_tool_config_status c VS_DEPRECATED ;;*
      let* new := reread c in
      tool_event tenant "tool_config" c "TOOL_CONFIG_DEPRECATED" "UPDATE" principal "deprecate tool config" ;;*
      mret new
  end.
(** [disable_tool_config]. *)
Definition disable_tool_config (tenant c : uuid) (principal : string) : B tool_config :=
  let* r := owned_config tenant c in
  match tc_status r with
  | VS_DISABLED => mret r
  | VS_PUBLISHED | VS_DEPRECATED =>
      set_tool_config_status c VS_DISABLED ;;*
      let* new := reread c in
      tool_event tenant "tool_config" c "TOOL_CONFIG_DISABLED" "UPDATE" principal "disable tool config" ;;*
      mret new
  | _ => mraise (ResourceBlockedServiceException "tool_config_not_disableable")
  end.

(** [import_tool]: the name of an operation, its configuration, and one turn of the loop. *)
Definition HEADERS : pydict := [("Authorization", PDict [("interaction_metadata_key", PStr "end_user_authorization")])].
Definition operation_name (v : pyval) : res exc (option string) :=
  match v with PStr n => Ok (Some n) | PNone => Ok None | _ => Err (ExternalError "DBAPIError" "DataError") end.
Definition operation_config (base_url : string) (op : OpenAPIOperation) : pydict :=
  let path := op_path op in
  let path_norm := if String.prefix "/" path then path else if String.eqb path "" then "" else "/" +:+ path in
  [("base_url", if String.eqb base_url "" then PNone else PStr base_url);
   ("url", PStr (if String.eqb base_url "" then path else base_url +:+ path_norm));
   ("path", PStr path); ("method", PStr (op_method op)); ("request_schema", op_request op); ("response_schema", op_response op);
   ("operation_id", op_id op); ("summary", op_summary op); ("description", op_description op); ("examples", PList (PStr <$> op_examples op));
   ("headers", PDict HEADERS)].
Definition import_operation (tenant : uuid) (principal base_url : string) (op : OpenAPIOperation) : B (uuid * option string) :=
  let* name := mlift (operation_name (op_id op)) in
  let* existing := get_tool_by_name name in
  let* tool := (match existing with Some t => mret t | None => insert_tool name end) in
  let* patch := get_max_version_patch (tl_id tool) tenant 1 0 in
  let config := operation_config base_url op in
  let* c := insert_tool_config (tl_id tool) tenant None (Some 1%Z) (Some 0%Z) (Some (patch + 1)%Z) (Some config) (Some 1%Z) in
  _index_tool_catalog_document tenant (tl_id tool) (tl_name tool) c config ;;*
  tool_event tenant "tool" (tl_id tool) "TOOL_IMPORTED" "CREATE" principal "import tool from openapi" ;;*
  publish_tool_config tenant c principal ;;*
  mret (tl_id tool, tl_name tool).
Fixpoint import_operations (tenant : uuid) (principal base_url : string) (l : list OpenAPIOperation) : B (list (uuid * option string)) :=
  match l with
  | [] => mret []
  | op :: l' =>
      let* t := import_operation tenant principal base_url op in
      let* ts := import_operations tenant principal base_url l' in
      mret (t :: ts)
  end.
(** [response] is what the fetch of [url] gave: an error, or a text. *)
Definition import_tool (tenant : uuid) (url : string) (response : string + string) (principal : string) : B (list (uuid * option string)) :=
  let* content := mlift (match response with
                         | inl e => Err (DomainValidationException ("failed_to_fetch_openapi_spec: " +:+ e))
                         | inr text => Ok text
                         end) in
  let* spec := mlift (read_openapi_spec json_loads yaml_load content) in
  let* operations := mlift (extract_operations py_str dumps spec) in
  match operations with
  | [] => mraise (DomainValidationException "openapi_spec_without_operations")
  | _ => import_operations tenant principal (resolve_tool_import_base_url py_str urlparse (os_servers spec) url default_base_url) operations
  end.

(** [create_tool_config]. *)
Definition create_tool_config (tenant : uuid) (q : ToolConfigCreate) (principal : string) : B uuid :=
  let* tool := get_tool (tq_tool q) in
  let* tool := present tool "tool_not_found" in
  let* c := insert_tool_config (tq_tool q) tenant (tq_source q) (tq_major q) (tq_minor q) (tq_patch q) (tq_config q) (tq_schema q) in
  let* row := reread c in
  _index_tool_catalog_document tenant (tc_tool row) (tl_name tool) c (tc_config row) ;;*
  tool_event tenant "tool_config" c "TOOL_CONFIG_CREATED" "CREATE" principal "create tool config" ;;*
  mret c.

(** [create_agent_version_tool_binding]. *)
Definition create_agent_version_tool_binding (tenant v c : uuid) (principal : string) : B tool_binding :=
  let* version := on_agency (get_agent_version v) in
  let* version := present version "agent_version_not_found" in
  on_agency (owned_agent tenant (av_agent version)) ;;*
  owned_config tenant c ;;*
  let* b := insert_tool_binding v c in
  tool_event tenant "agent_version_tool_binding" (tb_id b) "AGENT_VERSION_TOOL_BINDING_CREATED" "CREATE" principal
    "create agent version tool binding" ;;*
  mret b.

(** [AvailableTool.model_validate]: texts or null. *)
Definition text_or_null (v : pyval) : res exc (option string) :=
  match v with PStr s => Ok (Some s) | PNone => Ok None | _ => Err PydanticValidationError end.
Definition describe (t : tool_row) (c : uuid) (config : pydict) : res exc AvailableTool :=
  let! summary := text_or_null (dict_getv "summary" config) in
  let! description := text_or_null (dict_getv "description" config) in
  let! operation := text_or_null (dict_getv "operation_id" config) in
  let! method := text_or_null (dict_getv "method" config) in
  let! path := text_or_null (dict_getv "path" config) in
  Ok {| at_name := tl_name t; at_tool := tl_id t; at_config := c; at_summary := summary; at_description := description;
        at_operation := operation; at_method := method; at_path := path; at_score := None |}.
(** [list_available_tools_for_execution]. *)
Definition list_available_tools_for_execution (tenant : uuid) (limit : nat) : B (list AvailableTool) :=
  let* configs := list_tool_configs tenant [VS_PUBLISHED] limit in
  match configs with
  | [] => mret []
  | _ =>
      let* tools := list_tools_rows tenant [VS_PUBLISHED] limit in
      mlift (rmap (fun x => describe x.2 x.1.1 x.1.2)
               (omap (fun kv => t ← tool_of (tc_tool kv.2) tools; Some (kv.1, tc_config kv.2, t)) configs))
  end.

(** ** The search *)

(** [_get_tools_from_recovery_context]: the best item of every configuration, in the order they were first met, then by score. *)
Definition candidate_of (i : RagContextItem) : option ToolDiscoveryCandidate :=
  let v := dict_getv "tool_config_id" (rk_metadata (ci_chunk i)) in
  if truthy v
  then c ← uuid_parse (str_of py_str v); Some {| dq_config := c; dq_score := ci_score i; dq_content := rk_content (ci_chunk i) |}
  else None.
Fixpoint keep_best (c : ToolDiscoveryCandidate) (l : list ToolDiscoveryCandidate) : list ToolDiscoveryCandidate :=
  match l with
  | [] => [c]
  | x :: l' => if bool_decide (dq_config x = dq_config c) then (if float_ltb (dq_score x) (dq_score c) then c else x) :: l' else x :: keep_best c l'
  end.
Definition higher (x y : pyfloat) : Prop := float_ltb x y = false.
#[global] Instance higher_dec : RelDecision higher.
Proof. intros x y. unfold higher. apply _. Defined.
Definition _get_tools_from_recovery_context (l : list RagContextItem) : list ToolDiscoveryCandidate :=
  sorted_by higher dq_score (foldl (fun acc c => keep_best c acc) [] (omap candidate_of l)).

Definition MAX_TOOL_CATALOG_TOP_K : Z := 5.
Definition TOOL_CATALOG_RECALL_TOP_K_MULTIPLIER : Z := 3.
Definition FILTERS : pydict := [("source", PStr "tool_catalog"); ("doc_type", PStr "tool_catalog"); ("category", PStr "TOOL_CATALOG")].
(** [0.42]. *)
Definition TOOL_CATALOG_SIMILARITY_THRESHOLD_CAP : pyfloat := FFin 7566047373982433 (-54).
Definition shown (c : ToolDiscoveryCandidate) (x : tool_pair) : res exc AvailableTool :=
  let! operation := text_or_null (dict_getv "operation_id" (tc_config x.1.2)) in
  let! method := text_or_null (dict_getv "method" (tc_config x.1.2)) in
  Ok {| at_name := tl_name x.2; at_tool := tl_id x.2; at_config := x.1.1; at_summary := None; at_description := None;
        at_operation := operation; at_method := method; at_path := None; at_score := Some (dq_score c) |}.
(** [retrieve_tools]. *)
Definition allowed_candidates (tenant : uuid) (version : option uuid) (l : list ToolDiscoveryCandidate) : B (list ToolDiscoveryCandidate) :=
  match version with
  | None => mret l
  | Some v =>
      let* bindings := list_tool_bindings_by_agent_version tenant v in
      mret (match bindings with [] => l | _ => filter (fun c => dq_config c ∈ tb_config <$> bindings) l end)
  end.
Definition row_of (rows : list tool_pair) (c : ToolDiscoveryCandidate) : option (ToolDiscoveryCandidate * tool_pair) :=
  x ← List.find (fun x : tool_pair => bool_decide (x.1.1 = dq_config c)) rows; Some (c, x).
Definition retrieve_tools (tenant rag_config : uuid) (text : string) (top_k : option Z) (version : option uuid) : B (list AvailableTool) :=
  let k := match top_k with Some z => if (z =? 0)%Z then MAX_TOOL_CATALOG_TOP_K else z | None => MAX_TOOL_CATALOG_TOP_K end in
  let* context := on_rag (rt_context runtime tenant rag_config None text FILTERS (Some (k * TOOL_CATALOG_RECALL_TOP_K_MULTIPLIER)%Z)
                            (Some TOOL_CATALOG_SIMILARITY_THRESHOLD_CAP)) in
  let* selected := allowed_candidates tenant version (_get_tools_from_recovery_context (cx_items context)) in
  let* rows := list_published_tool_configs_with_tools_by_config_ids tenant (list_to_set (dq_config <$> selected)) in
  mlift (rmap (fun y => shown y.1 y.2) (omap (row_of rows) selected)).
End tools.
