(* ===== verification/ToolFacts.v ===== *)
(** * ToolFacts: what the tables of tools always satisfy, and what a search may return

    The invariant of [Tools] over every request of the tools and agents services, whatever retrieval does, and the guarantees of
    [retrieve_tools]. *)

From S2P Require Import Prelude.
From S2P Require Import Errors.
From S2P Require Import PyValue.
From S2P Require Import PyString.
From S2P Require Import PyFloat.
From S2P Require Import StateMachine.
From S2P Require Import Sorting.
From S2P Require Import Effects.
From S2P Require Import Store.
From S2P Require Import ToolRuns.
From S2P Require Import Chunking.
From S2P Require Import Rag.
From S2P Require Import FlowAuthoring.
From S2P Require Import AuthoringFacts.
From S2P Require Import Versions.
From S2P Require Import OpenApi.
From S2P Require Import Agents.
From S2P Require Import AgentFacts.
From S2P Require Import Tools.

(** Configurations that differ in their status only, which has not gone back. *)
Definition moves_on (r r' : tool_config) : Prop :=
  with_config_status VS_DRAFT r = with_config_status VS_DRAFT r' /\ rank (tc_status r) <= rank (tc_status r').
Lemma moves_on_refl r : moves_on r r.
Proof. by split. Qed.
Lemma moves_on_trans r r' r'' : moves_on r r' -> moves_on r' r'' -> moves_on r r''.
Proof. intros [H1 H2] [H3 H4]. split; [congruence | lia]. Qed.
Lemma moves_on_status st r : rank (tc_status r) <= rank st -> moves_on r (with_config_status st r).
Proof. by split. Qed.
Lemma moves_on_fields r r' : moves_on r r' -> tc_tool r' = tc_tool r /\ tc_tenant r' = tc_tenant r /\ tc_number r' = tc_number r.
Proof. intros [[= ] _]. done. Qed.

Section invariant.
Context {P : Type}.
Implicit Types s : toolbox P.

(** A row of a cached batch. *)
Definition listed (tenant : uuid) (ids : gset uuid) (x : tool_pair) s : Prop :=
  x.1.1 ∈ ids /\ tc_tenant x.1.2 = tenant /\ tc_status x.1.2 = VS_PUBLISHED /\ tool_of (tc_tool x.1.2) (bx_tools s) = Some x.2 /\
  exists r, bx_configs s !! x.1.1 = Some r /\ moves_on x.1.2 r.

Record stocked s : Prop := {
  sk_agency : tidy False (bx_agency s);
  sk_fresh : (forall t, t ∈ bx_tools s -> (tl_id t < au_next (ag_authoring (bx_agency s)))%N) /\
             (forall c, is_Some (bx_configs s !! c) -> (c < au_next (ag_authoring (bx_agency s)))%N);
  sk_names : NoDup (tl_name <$> bx_tools s);
  sk_ids : NoDup (tl_id <$> bx_tools s);
  sk_numbers : unique_numbers (bx_configs s);
  sk_tools : forall c r, bx_configs s !! c = Some r -> is_Some (tool_of (tc_tool r) (bx_tools s));
  sk_bound : forall b, b ∈ bx_bindings s -> exists t,
    tenant_of_version (tb_version b) (bx_agency s) = Some t /\ tc_tenant <$> bx_configs s !! tb_config b = Some t;
  sk_batches : forall t ids rows x, bx_batches s !! (t, ids) = Some rows -> x ∈ rows -> listed t ids x s;
}.

(** What never changes: tools, the content of a configuration, bindings, and what agents keep. *)
Record evolves s s' : Prop := {
  ev_agency : develops (bx_agency s) (bx_agency s');
  ev_tools : bx_tools s `prefix_of` bx_tools s';
  ev_configs : forall c r, bx_configs s !! c = Some r -> exists r', bx_configs s' !! c = Some r' /\ moves_on r r';
  ev_bindings : bx_bindings s `prefix_of` bx_bindings s';
}.
#[global] Instance evolves_preorder : PreOrder evolves.
Proof.
  split.
  - intros s. split; [reflexivity | done | eauto using moves_on_refl | done].
  - intros a b c [H1 H2 H3 H4] [K1 K2 K3 K4]. split; [by etrans | by etrans | | by etrans].
    intros i r Hr. destruct (H3 i r Hr) as (r' & Hr' & Hc). destruct (K3 i r' Hr') as (r'' & ? & ?). eauto using moves_on_trans.
Qed.
Abbreviation fine := (keeps stocked evolves).

(** ** The tables, one by one *)

Lemma tool_of_prefix i l l' r : l `prefix_of` l' -> tool_of i l = Some r -> tool_of i l' = Some r.
Proof. intros [k ->]. unfold tool_of. induction l as [|x l IH]; simpl; [done|]. by destruct (tl_id x =? i)%N. Qed.
Lemma tool_of_elem i l r : tool_of i l = Some r -> r ∈ l /\ tl_id r = i.
Proof. unfold tool_of. intros [H1 H2]%List.find_some. split; [by apply list_elem_of_In | by apply N.eqb_eq]. Qed.
Lemma listed_mono t ids x s s' :
  bx_tools s `prefix_of` bx_tools s' ->
  (forall c r, bx_configs s !! c = Some r -> exists r', bx_configs s' !! c = Some r' /\ moves_on r r') ->
  listed t ids x s -> listed t ids x s'.
Proof.
  intros Ht Hc (H1 & H2 & H3 & H4 & r & Hr & Hm). split_and!; try done; [by eapply tool_of_prefix|].
  destruct (Hc _ r Hr) as (r' & ? & ?). eauto using moves_on_trans.
Qed.
Lemma bound_mono s s' b t :
  develops (bx_agency s) (bx_agency s') ->
  (forall c r, bx_configs s !! c = Some r -> exists r', bx_configs s' !! c = Some r' /\ moves_on r r') ->
  tenant_of_version (tb_version b) (bx_agency s) = Some t /\ tc_tenant <$> bx_configs s !! tb_config b = Some t ->
  tenant_of_version (tb_version b) (bx_agency s') = Some t /\ tc_tenant <$> bx_configs s' !! tb_config b = Some t.
Proof.
  intros [D1 D2 _ _ _] Hc [H1 H2]. split; [by eapply tenant_of_version_mono|]. destruct (bx_configs s !! tb_config b) as [r|] eqn:E; [|done].
  destruct (Hc _ r E) as (r' & -> & (_ & Ht & _)%moves_on_fields). simpl in *. congruence.
Qed.

Lemma fine_agency {T} (m : G T) : respects (keeps (tidy False) develops) m -> respects fine (on_agency m).
Proof.
  intros Hm s [Ka [F1 F2] N Di U W B K]. unfold on_agency. specialize (Hm (bx_agency s) Ka). destruct (m (bx_agency s)) as [r a]. simpl in *.
  destruct Hm as [Ha Hd]. pose proof (de_next _ _ Hd) as Hn. split.
  - split; simpl; try done.
    + split; [intros t Ht; specialize (F1 t Ht) | intros c Hc; specialize (F2 c Hc)]; lia.
    + intros b Hb. destruct (B b Hb) as (t & Hb'). exists t. apply (bound_mono s (set_agency a s)); [done | eauto using moves_on_refl | done].
  - split; simpl; try done. eauto using moves_on_refl.
Qed.
Lemma fine_rag {T} (m : M (rag P) T) : respects fine (on_rag m).
Proof.
  intros s [Ka F N Di U W B K]. unfold on_rag. destruct (m (bx_rag s)) as [r a]. split; [by split|]. split; simpl; [reflexivity | done | eauto using moves_on_refl | done].
Qed.

Lemma fine_tool s t :
  (tl_id t < au_next (ag_authoring (bx_agency s)))%N -> tl_name t ∉ tl_name <$> bx_tools s -> tl_id t ∉ tl_id <$> bx_tools s ->
  fine s (set_tools (bx_tools s ++ [t]) s).
Proof.
  intros Hi Hn Hd [Ka [F1 F2] N Di U W B K]. assert (Hp : bx_tools s `prefix_of` bx_tools s ++ [t]) by by exists [t].
  split; [split; simpl; try done | split; simpl; [reflexivity | done | eauto using moves_on_refl | done]].
  - split; [|done]. intros t' [Ht| ->%list_elem_of_singleton]%elem_of_app; [by apply F1 | done].
  - rewrite fmap_app. apply NoDup_app. split_and!; [done | | apply NoDup_singleton]. intros n Hn1 ->%list_elem_of_singleton. done.
  - rewrite fmap_app. apply NoDup_app. split_and!; [done | | apply NoDup_singleton]. intros n Hn1 ->%list_elem_of_singleton. done.
  - intros c r Hr. destruct (W c r Hr) as [x Hx]. exists x. by eapply tool_of_prefix.
  - intros t' ids rows x Hb Hx. eapply (listed_mono _ _ _ s); [done | eauto using moves_on_refl | by eapply K].
Qed.

(** Configurations that move on. *)
Lemma fine_configs s m :
  (forall c, is_Some (m !! c) -> (c < au_next (ag_authoring (bx_agency s)))%N) ->
  (stocked s -> unique_numbers m) ->
  (stocked s -> forall c r, m !! c = Some r -> is_Some (tool_of (tc_tool r) (bx_tools s))) ->
  (forall c r, bx_configs s !! c = Some r -> exists r', m !! c = Some r' /\ moves_on r r') ->
  fine s (set_tool_configs m s).
Proof.
  intros H1 H2 H3 H4 Hs. pose proof Hs as [Ka [F1 F2] N Di U W B K]. split; [|split; simpl; [reflexivity | done | done | done]].
  split; simpl; [done | done | done | done | by apply H2 | by apply H3 | |].
  - intros b Hb. destruct (B b Hb) as (t & Hb'). exists t. by apply (bound_mono s (set_tool_configs m s)).
  - intros t ids rows x Hb Hx. apply (listed_mono _ _ _ s (set_tool_configs m s)); [done | done | by eapply K].
Qed.
Lemma fine_config s c r :
  (c < au_next (ag_authoring (bx_agency s)))%N -> bx_configs s !! c = None -> is_Some (tool_of (tc_tool r) (bx_tools s)) ->
  taken (tc_tool r, tc_tenant r) (tc_number r) (bx_configs s) = false ->
  fine s (set_tool_configs (<[c := r]> (bx_configs s)) s).
Proof.
  intros Hc Hn Ht Hk Hs. pose proof Hs as [Ka [F1 F2] N Di U W B K]. revert Hs. apply fine_configs.
  - intros d. destruct (decide (d = c)) as [->|]; [done | rewrite lookup_insert_ne by done; eauto].
  - intros _. by apply unique_insert.
  - intros _ d x. rewrite lookup_insert_Some. intros [[<- <-]|[? Hx]]; [done | by eapply W].
  - intros d x Hx. rewrite lookup_insert_ne by congruence. eauto using moves_on_refl.
Qed.
Lemma fine_config_status s c r st :
  bx_configs s !! c = Some r -> rank (tc_status r) <= rank st -> fine s (set_tool_configs (<[c := with_config_status st r]> (bx_configs s)) s).
Proof.
  intros Hr Hk Hs. pose proof Hs as [Ka [F1 F2] N Di U W B K]. revert Hs. apply fine_configs.
  - intros d. destruct (decide (d = c)) as [->|]; [eauto | rewrite lookup_insert_ne by done; eauto].
  - intros _. apply (unique_update (bx_configs s)); [done|]. intros i a. rewrite lookup_insert_Some. intros [[<- <-]|[? Ha]]; [by exists r | by exists a].
  - intros _ d x. rewrite lookup_insert_Some. intros [[<- <-]|[? Hx]]; [exact (W c r Hr) | by eapply W].
  - intros d x Hx. destruct (decide (d = c)) as [->|].
    + rewrite lookup_insert_eq. simplify_eq. eexists. split; [done | by apply moves_on_status].
    + rewrite lookup_insert_ne by done. eauto using moves_on_refl.
Qed.
Lemma fine_binding s b t :
  tenant_of_version (tb_version b) (bx_agency s) = Some t -> tc_tenant <$> bx_configs s !! tb_config b = Some t ->
  fine s (set_tool_bindings (bx_bindings s ++ [b]) s).
Proof.
  intros H1 H2 Hs. pose proof Hs as [Ka F N Di U W B K]. split; [split; simpl; try done | split; simpl; [reflexivity | done | eauto using moves_on_refl | by exists [b]]].
  intros b' [Hb| ->%list_elem_of_singleton]%elem_of_app; [by apply B | by exists t].
Qed.
Lemma fine_batches s m :
  (stocked s -> forall t ids rows x, m !! (t, ids) = Some rows -> x ∈ rows -> listed t ids x s) -> fine s (set_batches m s).
Proof.
  intros H Hs. pose proof Hs as [Ka F N Di U W B K]. split; [split; simpl; try done; by apply H | split; simpl; [reflexivity | done | eauto using moves_on_refl | done]].
Qed.
End invariant.
Abbreviation fine := (keeps stocked evolves).

(** ** Requests *)

Section operations.
Context {P : Type}.
Implicit Types s : toolbox P.

Lemma fine_asks {T} (f : toolbox P -> T) : respects fine (tool_asks f).
Proof. intros s. apply (keeps_refl stocked evolves). Qed.
Lemma fine_present {T} (o : option T) m : respects fine (present (P := P) o m).
Proof. destruct o; intros s; apply (keeps_refl stocked evolves). Qed.
Lemma present_run {T} (o : option T) m s x s1 : present o m s = (Ok x, s1) -> o = Some x /\ s1 = s.
Proof. destruct o; [by intros [= -> ->] | done]. Qed.
Lemma fine_event t r i ty c p j : respects fine (tool_event (P := P) t r i ty c p j).
Proof. apply fine_agency, good_event. Qed.
Lemma fine_id : respects fine (tool_id (P := P)).
Proof. apply fine_agency, good_new_id. Qed.
Lemma tool_id_run s i s1 : tool_id s = (Ok i, s1) ->
  i = au_next (ag_authoring (bx_agency s)) /\ au_next (ag_authoring (bx_agency s1)) = (i + 1)%N /\
  bx_tools s1 = bx_tools s /\ bx_configs s1 = bx_configs s /\ bx_bindings s1 = bx_bindings s /\
  ag_agents (bx_agency s1) = ag_agents (bx_agency s) /\ ag_versions (bx_agency s1) = ag_versions (bx_agency s).
Proof. unfold tool_id, on_agency, on_flows, new_id. by intros [= <- <-]. Qed.

Lemma fine_name_read n : respects fine (get_tool_by_name (P := P) n).
Proof. intros s. unfold get_tool_by_name. rewrite get_bind. unfold mlift. apply (keeps_refl stocked evolves). Qed.
Lemma name_free n s s1 : get_tool_by_name n s = (Ok None, s1) -> s1 = s /\ n ∉ tl_name <$> bx_tools s.
Proof.
  unfold get_tool_by_name. rewrite get_bind. unfold mlift. intros [= H <-]. apply one_or_none_nil in H. split; [done|].
  intros (t & -> & Ht)%list_elem_of_fmap. assert (Hin : t ∈ filter (fun t' => tl_name t' = tl_name t) (bx_tools s)) by by apply list_elem_of_filter.
  rewrite H in Hin. by apply not_elem_of_nil in Hin.
Qed.
Lemma name_found n s t s1 : get_tool_by_name n s = (Ok (Some t), s1) -> s1 = s /\ t ∈ bx_tools s.
Proof.
  unfold get_tool_by_name. rewrite get_bind. unfold mlift. intros [= H <-]. apply one_or_none_elem, list_elem_of_filter in H as [_ H]. done.
Qed.
Lemma elem_tool_of s t : stocked s -> t ∈ bx_tools s -> tool_of (tl_id t) (bx_tools s) = Some t.
Proof.
  intros Hs Ht. pose proof (sk_ids s Hs) as Hn. revert Ht Hn. unfold tool_of. induction (bx_tools s) as [|x l IH]; [by intros ?%not_elem_of_nil|].
  rewrite fmap_cons. intros [->|Ht]%elem_of_cons [Hx Hn]%NoDup_cons; simpl; [by rewrite N.eqb_refl|]. destruct (N.eqb_spec (tl_id x) (tl_id t)) as [He|]; [|by apply IH].
  destruct Hx. rewrite He. by apply list_elem_of_fmap_2.
Qed.

Lemma fresh_tool s i : stocked s -> i = au_next (ag_authoring (bx_agency s)) -> i ∉ tl_id <$> bx_tools s.
Proof. intros Hs -> (t & Ht & Hin)%list_elem_of_fmap. apply (proj1 (sk_fresh s Hs)) in Hin. lia. Qed.
Lemma fresh_config s i : stocked s -> i = au_next (ag_authoring (bx_agency s)) -> bx_configs s !! i = None.
Proof. intros Hs ->. destruct (bx_configs s !! _) eqn:E; [|done]. assert (H := proj2 (sk_fresh s Hs) _ (mk_is_Some _ _ E)). lia. Qed.

Lemma fine_insert_tool n s : n ∉ tl_name <$> bx_tools s -> fine s (insert_tool n s).2.
Proof.
  intros Hn. unfold insert_tool. rewrite get_bind. apply (keeps_bind stocked evolves); [apply fine_id|]. intros Hs i s1 (-> & Hx & Ht & _)%tool_id_run _.
  destruct (match n with Some n => (255 <? chars_of n)%Z | None => false end); [apply (keeps_refl stocked evolves)|].
  destruct (match n with Some _ => _ | None => false end); [apply (keeps_refl stocked evolves)|]. cbn [mmodify mbind_ mret snd].
  apply fine_tool; simpl; [lia | by rewrite Ht | rewrite Ht; by apply fresh_tool].
Qed.
Lemma insert_tool_run n s t s1 : insert_tool n s = (Ok t, s1) -> t ∈ bx_tools s1.
Proof.
  unfold insert_tool. rewrite get_bind. intros H. first_step H as [[i|e] s2] eqn:E; [|done].
  destruct (match n with Some n => (255 <? chars_of n)%Z | None => false end); [done|]. destruct (match n with Some _ => _ | None => false end); [done|].
  injection H as <- <-. simpl. set_solver.
Qed.

Lemma fine_insert_config tool t src a b c cfg sch s : is_Some (tool_of tool (bx_tools s)) -> fine s (insert_tool_config tool t src a b c cfg sch s).2.
Proof.
  intros Ho. unfold insert_tool_config. rewrite get_bind. apply (keeps_bind stocked evolves).
  { destruct src as [v|]; [|apply (keeps_refl stocked evolves)]. destruct (bx_configs s !! v); apply (keeps_refl stocked evolves). }
  intros _ source s1 Hs _. assert (s1 = s) as -> by (destruct src as [v|]; [destruct (bx_configs s !! v)|]; by simplify_eq Hs).
  clear Hs. apply (keeps_bind stocked evolves); [apply fine_id|]. intros Hs i s1 (-> & Hx & Ht & Hc & _)%tool_id_run _.
  destruct (taken _ _ _) eqn:Et; [apply (keeps_refl stocked evolves)|]. cbn [mmodify mbind_ mret snd].
  apply fine_config; simpl; [lia | rewrite Hc; by apply fresh_config | by rewrite Ht | by rewrite Hc].
Qed.
Lemma fine_set_status c st s r : bx_configs s !! c = Some r -> rank (tc_status r) <= rank st -> fine s (set_tool_config_status c st s).2.
Proof. intros Hr Hk. unfold set_tool_config_status. rewrite get_bind, Hr. by apply fine_config_status. Qed.
Lemma fine_owned_config t c : respects fine (owned_config (P := P) t c).
Proof.
  apply respects_bind; [apply _ | apply fine_asks|]. intros [r|]; [case_bool_decide|]; first [apply respects_ret; apply _ | apply respects_raise; apply _].
Qed.
Lemma owned_config_run t c s r s1 : owned_config t c s = (Ok r, s1) -> s1 = s /\ bx_configs s !! c = Some r /\ tc_tenant r = t.
Proof.
  unfold owned_config, get_tool_config, tool_asks, mbind_, mget, mret. destruct (bx_configs s !! c) as [x|]; [|done]. case_bool_decide; [|done]. by intros [= -> ->].
Qed.
Lemma fine_reread c : respects fine (reread (P := P) c).
Proof. apply respects_bind; [apply _ | apply fine_asks|]. intros. apply fine_present. Qed.

Lemma fine_insert_binding v c : respects fine (insert_tool_binding (P := P) v c).
Proof.
  intros s. unfold insert_tool_binding. rewrite get_bind.
  apply (keeps_bind stocked evolves); [apply fine_present|]. intros _ version s1 [Hv ->]%present_run _.
  apply (keeps_bind stocked evolves); [apply fine_present|]. intros _ agent s1 [Ha ->]%present_run _.
  apply (keeps_bind stocked evolves); [apply fine_present|]. intros _ config s1 [Hc ->]%present_run _.
  case_bool_decide as Heq; [|apply (keeps_refl stocked evolves)]. apply (keeps_bind stocked evolves); [apply fine_id|].
  intros _ i s1 (-> & _ & _ & Hcs & _ & Hag & Hve)%tool_id_run _. cbn [mmodify mbind_ mret snd negb].
  apply (fine_binding s1 {| tb_id := _; tb_version := v; tb_config := c |} (an_tenant agent)); simpl.
  - unfold tenant_of_version. rewrite Hve, Hv. simpl. by rewrite Hag, Ha.
  - rewrite Hcs, Hc. simpl. by rewrite Heq.
Qed.
Lemma fine_list_bindings t v : respects fine (list_tool_bindings_by_agent_version (P := P) t v).
Proof. intros s. unfold list_tool_bindings_by_agent_version. rewrite get_bind. case_bool_decide; apply (keeps_refl stocked evolves). Qed.

(** A batch of published configurations. *)
Lemma published_listed t ids s x : stocked s -> x ∈ published_pairs t ids s -> listed t ids x s.
Proof.
  intros Hs ([c r] & Hin & H)%list_elem_of_omap. apply elem_of_map_to_list in Hin. simpl in H. destruct (tool_of (tc_tool r) (bx_tools s)) as [tl|] eqn:Et; [|done].
  simpl in H. case_bool_decide as Hb; [|done]. injection H as <-. destruct Hb as (H1 & H2 & H3). split_and!; try done. simpl. exists r. split; [done | apply moves_on_refl].
Qed.
Lemma fine_batch t ids : respects fine (list_published_tool_configs_with_tools_by_config_ids (P := P) t ids).
Proof.
  intros s. unfold list_published_tool_configs_with_tools_by_config_ids. case_bool_decide; [apply (keeps_refl stocked evolves)|]. rewrite get_bind.
  destruct (bx_batches s !! (t, ids)) eqn:E; [apply (keeps_refl stocked evolves)|]. apply fine_batches. intros Hs t' ids' rows x.
  rewrite lookup_insert_Some. intros [[[= <- <-] <-]|[_ Hrows]] Hx; [by apply published_listed | by eapply (sk_batches s Hs)].
Qed.
Lemma batch_run t ids s rows s1 : stocked s -> list_published_tool_configs_with_tools_by_config_ids t ids s = (Ok rows, s1) ->
  forall x, x ∈ rows -> listed t ids x s1.
Proof.
  intros Hs H x Hx. unfold list_published_tool_configs_with_tools_by_config_ids in H. case_bool_decide.
  { injection H as <- <-. by apply not_elem_of_nil in Hx. }
  rewrite get_bind in H. destruct (bx_batches s !! (t, ids)) eqn:E; injection H as <- <-; [by eapply (sk_batches s Hs)|]. by apply (published_listed t ids s).
Qed.
End operations.

Inductive tool_request : Type :=
  | OfAgents (q : agent_request)
  | ImportTool (tenant : uuid) (url : string) (response : string + string) (principal : string)
  | CreateToolConfig (tenant : uuid) (q : ToolConfigCreate) (principal : string)
  | PublishToolConfig (tenant c : uuid) (principal : string)
  | DeprecateToolConfig (tenant c : uuid) (principal : string)
  | DisableToolConfig (tenant c : uuid) (principal : string)
  | BindTool (tenant v c : uuid) (principal : string)
  | RetrieveTools (tenant rag_config : uuid) (text : string) (top_k : option Z) (version : option uuid)
  | ExpireBatch (tenant : uuid) (ids : gset uuid).

Section service.
Context {P : Type}.
Variable runtime : RagRuntime P.
Variable py_str : pyval -> string.
Variable uuid_str : uuid -> string.
Variable uuid_parse : string -> option uuid.
Variable dumps dumps_sorted : pyval -> string.
Variable json_loads yaml_load : string -> string + pyval.
Variable urlparse : string -> string * string * string.
Variable default_base_url : string.
Variable has_indexer : bool.
Variable parse_persona : pydict -> res exc pydict.
Variable policy_tenant : uuid -> option uuid.
Implicit Types s : toolbox P.

Abbreviation index_ := (_index_tool_catalog_document runtime py_str uuid_str dumps dumps_sorted has_indexer).
Abbreviation publish_ := (publish_tool_config runtime py_str uuid_str dumps dumps_sorted has_indexer).
Abbreviation import_ := (import_tool runtime py_str uuid_str dumps dumps_sorted json_loads yaml_load urlparse default_base_url has_indexer).
Abbreviation create_ := (create_tool_config runtime py_str uuid_str dumps dumps_sorted has_indexer).
Abbreviation retrieve_ := (retrieve_tools runtime py_str uuid_parse).

Lemma fine_index t tool n c d : respects fine (index_ t tool n c d).
Proof.
  unfold _index_tool_catalog_document. destruct has_indexer; [|apply respects_ret; apply _]. apply respects_bind; [apply _ | | intros _; apply respects_ret; apply _].
  intros s. unfold index_document. rewrite get_bind. destruct (_select_rag_config t (bx_rag s)); [|apply (keeps_refl stocked evolves)].
  apply respects_bind; [apply _ | apply fine_rag | intros _; apply respects_ret; apply _].
Qed.

Lemma fine_publish t c p : respects fine (publish_ t c p).
Proof.
  intros s. apply (keeps_bind stocked evolves); [apply fine_owned_config|]. intros _ r s1 (-> & Hr & _)%owned_config_run _.
  assert (Hgo : rank (tc_status r) <= rank VS_PUBLISHED -> fine s ((set_tool_config_status c VS_PUBLISHED ;;*
      let* tool := get_tool (tc_tool r) in
      let* new := reread c in
      index_ t (tc_tool new) (tool ≫= tl_name) c (tc_config new) ;;*
      tool_event t "tool_config" c "TOOL_CONFIG_PUBLISHED" "UPDATE" p "publish tool config" ;;*
      mret new) s).2).
  { intros Hk. apply (keeps_bind stocked evolves); [by apply (fine_set_status _ _ _ r)|]. intros _ _ s1 _ _.
    apply respects_bind; [apply _ | apply fine_asks|]. intros tool. apply respects_bind; [apply _ | apply fine_reread|]. intros new.
    apply respects_bind; [apply _ | apply fine_index|]. intros _. apply respects_bind; [apply _ | apply fine_event | intros _; apply respects_ret; apply _]. }
  destruct (tc_status r); try apply (keeps_refl stocked evolves); apply Hgo; simpl; lia.
Qed.
Lemma fine_retire (new_status : VersionStatus) t c p ty j r s :
  bx_configs s !! c = Some r -> rank (tc_status r) <= rank new_status ->
  fine s ((set_tool_config_status c new_status ;;* let* new := reread c in tool_event t "tool_config" c ty "UPDATE" p j ;;* mret new) s).2.
Proof.
  intros Hr Hk. apply (keeps_bind stocked evolves); [by apply (fine_set_status _ _ _ r)|]. intros _ _ s1 _ _.
  apply respects_bind; [apply _ | apply fine_reread|]. intros new. apply respects_bind; [apply _ | apply fine_event | intros _; apply respects_ret; apply _].
Qed.
Lemma fine_deprecate t c p : respects fine (deprecate_tool_config (P := P) t c p).
Proof.
  intros s. apply (keeps_bind stocked evolves); [apply fine_owned_config|]. intros _ r s1 (-> & Hr & _)%owned_config_run _.
  destruct (tc_status r) eqn:E; try apply (keeps_refl stocked evolves); apply (fine_retire _ _ _ _ _ _ r); try done; rewrite E; simpl; lia.
Qed.
Lemma fine_disable t c p : respects fine (disable_tool_config (P := P) t c p).
Proof.
  intros s. apply (keeps_bind stocked evolves); [apply fine_owned_config|]. intros _ r s1 (-> & Hr & _)%owned_config_run _.
  destruct (tc_status r) eqn:E; try apply (keeps_refl stocked evolves); apply (fine_retire _ _ _ _ _ _ r); try done; rewrite E; simpl; lia.
Qed.

Lemma fine_import_operation t p u op : respects fine (import_operation runtime py_str uuid_str dumps dumps_sorted has_indexer t p u op).
Proof.
  apply respects_bind; [apply _ | apply respects_lift; apply _|]. intros name s.
  apply (keeps_bind stocked evolves); [apply fine_name_read|]. intros Hs existing s1 He _.
  apply (keeps_bind stocked evolves).
  { destruct existing as [tl|]; [apply (keeps_refl stocked evolves)|]. apply name_free in He as [-> Hn]. by apply fine_insert_tool. }
  intros Hs1 tool s2 Htool Hs2. assert (Hin : tool ∈ bx_tools s2).
  { destruct existing as [tl|]; [|by apply insert_tool_run in Htool]. injection Htool as <- <-. by apply name_found in He as [-> ?]. }
  apply (keeps_bind stocked evolves); [apply fine_asks|]. intros _ patch s3 Hp _. injection Hp as _ <-.
  apply (keeps_bind stocked evolves); [apply fine_insert_config; eexists; by apply elem_tool_of|]. intros _ c s3 _ _.
  apply respects_bind; [apply _ | apply fine_index|]. intros _. apply respects_bind; [apply _ | apply fine_event|]. intros _.
  apply respects_bind; [apply _ | apply fine_publish | intros _; apply respects_ret; apply _].
Qed.
Lemma fine_import t u r p : respects fine (import_ t u r p).
Proof.
  do 3 (apply respects_bind; [apply _ | apply respects_lift; apply _|]; intros ?). case_match; [apply respects_raise; apply _|].
  match goal with |- respects _ (import_operations _ _ _ _ _ _ _ _ ?b ?l) => generalize b, l end. intros b l'.
  induction l' as [|op l' IH]; simpl; [apply respects_ret; apply _|].
  apply respects_bind; [apply _ | apply fine_import_operation|]. intros x. apply respects_bind; [apply _ | apply IH|]. intros y. apply respects_ret. apply _.
Qed.
Lemma fine_create t q p : respects fine (create_ t q p).
Proof.
  intros s. apply (keeps_bind stocked evolves); [apply fine_asks|]. intros _ o s1 Ho _. injection Ho as <- <-.
  apply (keeps_bind stocked evolves); [apply fine_present|]. intros _ tool s1 [Ht ->]%present_run _.
  apply (keeps_bind stocked evolves); [apply fine_insert_config; by rewrite Ht|]. intros _ c s1 _ _.
  apply respects_bind; [apply _ | apply fine_reread|]. intros row. apply respects_bind; [apply _ | apply fine_index|]. intros _.
  apply respects_bind; [apply _ | apply fine_event | intros _; apply respects_ret; apply _].
Qed.
Lemma fine_bind_tool t v c p : respects fine (create_agent_version_tool_binding (P := P) t v c p).
Proof.
  apply respects_bind; [apply _ | apply fine_agency, good_get_agent_version|]. intros o. apply respects_bind; [apply _ | apply fine_present|]. intros version.
  apply respects_bind; [apply _ | apply fine_agency, good_owned_agent|]. intros _. apply respects_bind; [apply _ | apply fine_owned_config|]. intros _.
  apply respects_bind; [apply _ | apply fine_insert_binding|]. intros b. apply respects_bind; [apply _ | apply fine_event | intros _; apply respects_ret; apply _].
Qed.
Lemma fine_allowed t v l : respects fine (allowed_candidates (P := P) t v l).
Proof.
  unfold allowed_candidates. destruct v; [|apply respects_ret; apply _]. apply respects_bind; [apply _ | apply fine_list_bindings|]. intros. apply respects_ret. apply _.
Qed.
Lemma fine_retrieve t c x k v : respects fine (retrieve_ t c x k v).
Proof.
  apply respects_bind; [apply _ | apply fine_rag|]. intros context. apply respects_bind; [apply _ | apply fine_allowed|]. intros l.
  apply respects_bind; [apply _ | apply fine_batch|]. intros rows. apply respects_lift. apply _.
Qed.

(** One request, or the expiry of a cached batch, without its answer. *)
Definition serve_tools (q : tool_request) : M (toolbox P) unit :=
  let quiet {T} (m : M (toolbox P) T) : M (toolbox P) unit := let* _ := m in mret tt in
  match q with
  | OfAgents q => on_agency (serve_agents parse_persona policy_tenant q)
  | ImportTool t u r p => quiet (import_ t u r p)
  | CreateToolConfig t q p => quiet (create_ t q p)
  | PublishToolConfig t c p => quiet (publish_ t c p)
  | DeprecateToolConfig t c p => quiet (deprecate_tool_config t c p)
  | DisableToolConfig t c p => quiet (disable_tool_config t c p)
  | BindTool t v c p => quiet (create_agent_version_tool_binding t v c p)
  | RetrieveTools t c x k v => quiet (retrieve_ t c x k v)
  | ExpireBatch t ids => mmodify (fun s => set_batches (delete (t, ids) (bx_batches s)) s)
  end.
Definition after_tools (l : list tool_request) (s : toolbox P) : toolbox P := foldl (fun s q => (serve_tools q s).2) s l.

Lemma fine_quiet {T} (m : M (toolbox P) T) : respects fine m -> respects fine (let* _ := m in mret tt).
Proof. intros H. apply respects_bind; [apply _ | done | intros _; apply respects_ret; apply _]. Qed.
Lemma fine_serve q : respects fine (serve_tools q).
Proof.
  destruct q; cbn [serve_tools]; try apply fine_quiet.
  - by apply fine_agency, good_serve_agents.
  - apply fine_import.
  - apply fine_create.
  - apply fine_publish.
  - apply fine_deprecate.
  - apply fine_disable.
  - apply fine_bind_tool.
  - apply fine_retrieve.
  - intros s. apply fine_batches. intros Hs t' ids' rows x [_ H]%lookup_delete_Some Hx. by eapply (sk_batches s Hs).
Qed.
Lemma fine_after_tools l s : fine s (after_tools l s).
Proof. revert s. induction l as [|q l IH]; intros s; [apply (keeps_refl stocked evolves)|]. simpl. etrans; [apply fine_serve | apply IH]. Qed.
End service.

(** ** The search *)

(** The best candidate of every configuration. *)
Lemma keep_best_configs c l : dq_config <$> keep_best c l = (dq_config <$> l) ++ (if bool_decide (dq_config c ∈ dq_config <$> l) then [] else [dq_config c]).
Proof.
  induction l as [|x l IH]; [reflexivity|]. cbn [keep_best]. destruct (decide (dq_config x = dq_config c)) as [He|Hne].
  - rewrite (bool_decide_true (dq_config x = dq_config c)) by done. rewrite !fmap_cons, bool_decide_true by (rewrite He; left). rewrite app_nil_r.
    f_equal. by destruct (float_ltb (dq_score x) (dq_score c)).
  - rewrite (bool_decide_false (dq_config x = dq_config c)) by done. rewrite !fmap_cons, IH, <- app_comm_cons. do 2 f_equal.
    destruct (decide (dq_config c ∈ dq_config <$> l)).
    + rewrite !bool_decide_true; [done | by right | done].
    + rewrite !bool_decide_false; [done | | done]. by intros [|]%elem_of_cons.
Qed.
Lemma best_candidates_nodup (l acc : list ToolDiscoveryCandidate) :
  NoDup (dq_config <$> acc) -> NoDup (dq_config <$> foldl (fun acc c => keep_best c acc) acc l).
Proof.
  revert acc. induction l as [|c l IH]; intros acc H; [done|]. simpl. apply IH. rewrite keep_best_configs. apply NoDup_app.
  case_bool_decide; (split_and!; [done | set_solver |]); [constructor | apply NoDup_singleton].
Qed.
Lemma candidates_nodup py_str uuid_parse l : NoDup (dq_config <$> _get_tools_from_recovery_context py_str uuid_parse l).
Proof.
  unfold _get_tools_from_recovery_context. rewrite (sorted_by_perm higher dq_score). apply best_candidates_nodup. constructor.
Qed.

(** Candidates with their rows: a sublist of the candidates, whose rows are of the batch. *)
Lemma rows_of_candidates rows l :
  (dq_config ∘ fst <$> omap (row_of rows) l) `sublist_of` (dq_config <$> l) /\
  Forall (fun y => y.2 ∈ rows /\ y.2.1.1 = dq_config y.1 /\ y.1 ∈ l) (omap (row_of rows) l).
Proof.
  induction l as [|c l [IH1 IH2]]; simpl; [by split|]. destruct (row_of rows c) as [y0|] eqn:E0; unfold row_of in E0; destruct (List.find _ rows) as [x|] eqn:E; try done; [injection E0 as <-|].
  - apply List.find_some in E as [Hin Hx]. apply bool_decide_eq_true in Hx. apply list_elem_of_In in Hin. split.
    + by apply sublist_skip.
    + constructor; [simpl; split_and!; [done | done | left]|]. eapply Forall_impl; [exact IH2|]. intros y (? & ? & ?). split_and!; [done | done | by right].
  - split; [by apply sublist_cons|]. eapply Forall_impl; [exact IH2|]. intros y (? & ? & ?). split_and!; [done | done | by right].
Qed.
Lemma shown_ok c x a : shown c x = Ok a -> at_config a = x.1.1 /\ at_tool a = tl_id x.2 /\ at_name a = tl_name x.2 /\ at_score a = Some (dq_score c).
Proof. unfold shown. destruct (text_or_null _); [|done]. simpl. destruct (text_or_null _); [|done]. simpl. by intros [= <-]. Qed.
Lemma shown_all l l' : rmap (fun y : ToolDiscoveryCandidate * tool_pair => shown y.1 y.2) l = Ok l' ->
  Forall2 (fun y a => shown y.1 y.2 = Ok a) l l'.
Proof.
  revert l'. induction l as [|y l IH]; intros l'; simpl; [intros [= <-]; constructor|]. destruct (shown y.1 y.2) as [a|] eqn:E; [|done]. simpl.
  destruct (rmap _ l) as [t|]; [|done]. simpl. intros [= <-]. constructor; [done | by apply IH].
Qed.

(** What the bindings of a version leave of the candidates. *)
Definition bound_configs {P} (v : uuid) (s : toolbox P) : list uuid := tb_config <$> filter (fun b => tb_version b = v) (bx_bindings s).
Lemma allowed_run {P} t version l (s : toolbox P) l' s1 :
  allowed_candidates t version l s = (Ok l', s1) ->
  s1 = s /\ (dq_config <$> l') `sublist_of` (dq_config <$> l) /\
  forall v, version = Some v -> tenant_of_version v (bx_agency s) = Some t /\
    (bound_configs v s <> [] -> forall c, c ∈ l' -> dq_config c ∈ bound_configs v s).
Proof.
  unfold allowed_candidates. destruct version as [v|]; [|by intros [= <- <-]]. intros H. unfold list_tool_bindings_by_agent_version in H.
  first_step H as [[bs|e] s2] eqn:E; [|done]. rewrite get_bind in E. case_bool_decide as Ht; [|done]. injection E as <- <-. injection H as <- <-.
  pose proof (sorted_by_perm newer_id tb_id (filter (fun b => tb_version b = v) (bx_bindings s))) as Hp.
  split_and!; [done | |].
  - destruct (sorted_by _ _ _); [done|]. apply fmap_sublist, sublist_filter.
  - intros v' [= <-]. split; [done|]. intros Hne c Hc. unfold bound_configs in *.
    destruct (sorted_by _ _ _) as [|b bs] eqn:Eb; [apply Permutation_nil_l in Hp; by rewrite <- Hp in Hne|].
    apply list_elem_of_filter in Hc as [Hc _]. by rewrite Hp in Hc.
Qed.

(** However tools are imported, configured, published, deprecated, disabled and bound, between requests about agents, searches
    and expiries of cached batches, and whatever retrieval answers or raises: names of tools and numbers of configurations stay
    unique, tools, bindings and the content of configurations never change and a configuration's status only advances, every
    configuration has its tool, agents are bound to configurations of their own tenant only, and a cached batch has configurations of
    its tenant that were published. *)
Theorem tool_registry {P} (runtime : RagRuntime P) py_str uuid_str uuid_parse dumps dumps_sorted json_loads yaml_load urlparse default_base_url
    has_indexer parse_persona policy_tenant l s :
  stocked s ->
  let s' := after_tools runtime py_str uuid_str uuid_parse dumps dumps_sorted json_loads yaml_load urlparse default_base_url has_indexer
              parse_persona policy_tenant l s in
  stocked s' /\ evolves s s'.
Proof. apply fine_after_tools. Qed.

(** [C8] A search for tools returns what the tenant may use: each tool returned has a configuration of the tenant that is published
    (or has been while a batch is cached) under the name of its tool, no configuration comes twice, and when the search is for a
    version of an agent, the version is of the tenant and, if it has bindings at all, is bound to every configuration returned (a
    version without bindings is offered every tool of the tenant).  The tables are [stocked], as every sequence of requests leaves them. *)
Theorem tool_search_safe {P} (runtime : RagRuntime P) py_str uuid_parse tenant rag_config text top_k version s l s' :
  stocked s -> retrieve_tools runtime py_str uuid_parse tenant rag_config text top_k version s = (Ok l, s') ->
  NoDup (at_config <$> l) /\
  (forall v, version = Some v -> tenant_of_version v (bx_agency s') = Some tenant) /\
  forall a, a ∈ l ->
    (exists r t, bx_configs s' !! at_config a = Some r /\ tc_tenant r = tenant /\ rank VS_PUBLISHED <= rank (tc_status r) /\
       (bx_batches s = ∅ -> tc_status r = VS_PUBLISHED) /\
       tool_of (tc_tool r) (bx_tools s') = Some t /\ at_tool a = tl_id t /\ at_name a = tl_name t) /\
    (forall v, version = Some v -> bound_configs v s' <> [] -> at_config a ∈ bound_configs v s').
Proof.
  intros Hs H. unfold retrieve_tools in H. first_step H as [[context|e] s1] eqn:E1; [|done].
  pose proof (respects_run _ _ _ _ _ (fine_rag _) E1 Hs) as [Hs1 _]. assert (Hb1 : bx_batches s1 = bx_batches s /\ bx_configs s1 = bx_configs s).
  { unfold on_rag in E1. destruct (rt_context _ _ _ _ _ _ _ _ _). by injection E1 as _ <-. }
  first_step H as [[selected|e] s2] eqn:E2; [|done]. apply allowed_run in E2 as (-> & Hsub & Hallow).
  first_step H as [[rows|e] s3] eqn:E3; [|done]. injection H as H <-. apply shown_all in H.
  pose proof (batch_run _ _ _ _ _ Hs1 E3) as Hrows. destruct (rows_of_candidates rows selected) as [Hs2 Hall].
  assert (Hsame : bx_bindings s3 = bx_bindings s1 /\ bx_agency s3 = bx_agency s1 /\ (bx_batches s1 = ∅ -> forall x, x ∈ rows -> bx_configs s3 !! x.1.1 = Some x.1.2)).
  { revert E3. unfold list_published_tool_configs_with_tools_by_config_ids. case_bool_decide; [intros [= <- <-]; split_and!; [done | done | by intros _ x ?%not_elem_of_nil]|].
    rewrite get_bind. destruct (bx_batches s1 !! _) eqn:E; intros [= <- <-]; (split_and!; [done | done |]).
    - intros He. by rewrite He, lookup_empty in E.
    - intros _ x ([c r] & Hin & Hx)%list_elem_of_omap. apply elem_of_map_to_list in Hin. simpl in Hx. destruct (tool_of _ _); [|done]. simpl in Hx.
      case_bool_decide; [|done]. by injection Hx as <-. }
  destruct Hsame as (Hsb & Hsa & Hfresh). split_and!.
  - assert (Heq : at_config <$> l = dq_config ∘ fst <$> omap (row_of rows) selected).
    { clear -H Hall. induction H as [|y a ys la Hya _ IH]; [done|]. inversion Hall as [|? ? (_ & Hy & _) Hall']; subst. rewrite !fmap_cons, IH by done.
      f_equal. apply shown_ok in Hya as (-> & _). exact Hy. }
    rewrite Heq. eapply sublist_NoDup; [|exact Hs2]. eapply sublist_NoDup; [|exact Hsub]. apply candidates_nodup.
  - intros v Hv. rewrite Hsa. by apply Hallow.
  - intros a Ha. assert (Hex : exists y, y.2 ∈ rows /\ y.2.1.1 = dq_config y.1 /\ y.1 ∈ selected /\ shown y.1 y.2 = Ok a).
    { clear -H Hall Ha. induction H as [|y b ys lb Hyb _ IH]; [by apply not_elem_of_nil in Ha|]. inversion Hall as [|? ? (? & ? & ?) Hall']; subst.
      apply elem_of_cons in Ha as [->|Ha]; [by exists y | by apply IH]. }
    destruct Hex as (y & Hy1 & Hy2 & Hy3 & (Hc & Ht & Hn & _)%shown_ok). destruct (Hrows _ Hy1) as (_ & L2 & L3 & L4 & r & Hr & Hm). split.
    + exists r, y.2.2. destruct (moves_on_fields _ _ Hm) as (M1 & M2 & _). rewrite Hc. split_and!; try done; [congruence | rewrite <- L3; apply Hm | | congruence].
      intros He. rewrite (proj1 Hb1) in Hfresh. specialize (Hfresh He _ Hy1). congruence.
    + intros v Hv Hne. rewrite Hc, Hy2. destruct (Hallow v Hv) as [_ Hl]. unfold bound_configs in *. rewrite Hsb in *. by apply Hl.
Qed.

(** ** Imports *)

Lemma name_lookup {P} n (s : toolbox P) : NoDup (tl_name <$> bx_tools s) -> exists o, get_tool_by_name n s = (Ok o, s) /\
  match o with Some t => t ∈ bx_tools s /\ tl_name t = n | None => n ∉ tl_name <$> bx_tools s end.
Proof.
  intros Hn. destruct (filter (fun t => tl_name t = n) (bx_tools s)) as [|t [|u l]] eqn:E.
  - exists None. unfold get_tool_by_name. rewrite get_bind, E. split; [done|]. apply (name_free n s s). unfold get_tool_by_name. by rewrite get_bind, E.
  - exists (Some t). unfold get_tool_by_name. rewrite get_bind, E. split; [done|]. assert (Hin : t ∈ [t]) by left. rewrite <- E in Hin.
    by apply list_elem_of_filter in Hin as [? ?].
  - exfalso. assert (Hd : NoDup (tl_name <$> filter (fun t => tl_name t = n) (bx_tools s))).
    { eapply sublist_NoDup; [done|]. apply fmap_sublist, sublist_filter. }
    assert (Hu : u ∈ filter (fun t => tl_name t = n) (bx_tools s)) by (rewrite E; right; left).
    assert (Ht : t ∈ filter (fun t => tl_name t = n) (bx_tools s)) by (rewrite E; left).
    apply list_elem_of_filter in Hu as [Hu _], Ht as [Ht _]. rewrite E, !fmap_cons, Hu, Ht in Hd. apply NoDup_cons in Hd as [Hd _]. apply Hd. left.
Qed.

Definition short (n : option string) : Prop := match n with Some n => (chars_of n <= 255)%Z | None => True end.
Lemma insert_tool_ok {P} n (s : toolbox P) : n ∉ tl_name <$> bx_tools s -> short n -> exists t s1, insert_tool n s = (Ok t, s1) /\ tl_name t = n /\ bx_configs s1 = bx_configs s.
Proof.
  intros Hn Hs. unfold insert_tool. rewrite get_bind. unfold mbind_ at 1. cbn [tool_id on_agency on_flows new_id].
  assert ((match n with Some n => (255 <? chars_of n)%Z | None => false end) = false) as -> by (destruct n; [apply Z.ltb_ge; exact Hs | done]).
  assert ((match n with Some n => existsb (fun t => bool_decide (tl_name t = Some n)) (bx_tools s) | None => false end) = false) as ->.
  { destruct n as [n|]; [|done]. apply not_true_iff_false. intros (t & Ht & Hb)%existsb_exists. apply bool_decide_eq_true in Hb. apply Hn. rewrite <- Hb.
    apply list_elem_of_fmap_2. by apply list_elem_of_In. }
  by eexists _, _.
Qed.

(** The next patch is above all patches of the tool. *)
Lemma patch_above {P} tool t (s : toolbox P) : exists p, get_max_version_patch tool t 1 0 s = (Ok p, s) /\
  (forall c r, bx_configs s !! c = Some r -> row_group r = (tool, t) -> vn_major (tc_number r) = 1%Z -> vn_minor (tc_number r) = 0%Z -> (vn_patch (tc_number r) <= p)%Z).
Proof.
  eexists. split; [reflexivity|]. intros c r Hc [= Ht Hn] H1 H2.
  assert (Hin : vn_patch (tc_number r) ∈ patches tool t 1 0 (bx_configs s)).
  { unfold patches. apply list_elem_of_omap. exists (c, r). split; [by apply elem_of_map_to_list|]. cbn [snd]. by rewrite bool_decide_true. }
  destruct (patches tool t 1 0 (bx_configs s)) as [|x l]; [by apply not_elem_of_nil in Hin|]. clear -Hin.
  induction l as [|y l IH]; simpl; [apply list_elem_of_singleton in Hin; lia|].
  apply elem_of_cons in Hin as [Hx|[Hy|Hl]%elem_of_cons]; [assert (vn_patch (tc_number r) ∈ x :: l) by (rewrite Hx; left); specialize (IH H); lia | lia |].
  assert (vn_patch (tc_number r) ∈ x :: l) by (by right). specialize (IH H). lia.
Qed.

Section runs.
Context {P : Type}.
Implicit Types s : toolbox P.
Lemma tool_asks_ok {T} (f : toolbox P -> T) s : tool_asks f s = (Ok (f s), s).
Proof. reflexivity. Qed.
Lemma owned_config_ok t c s r : bx_configs s !! c = Some r -> tc_tenant r = t -> owned_config t c s = (Ok r, s).
Proof. intros Hr Ht. unfold owned_config, get_tool_config. rewrite (mbind_run _ _ _ _ _ (tool_asks_ok _ s)). by rewrite Hr, bool_decide_true. Qed.
Lemma set_status_ok c st s r :
  bx_configs s !! c = Some r -> set_tool_config_status c st s = (Ok tt, set_tool_configs (<[c := with_config_status st r]> (bx_configs s)) s).
Proof. intros Hr. unfold set_tool_config_status. by rewrite get_bind, Hr. Qed.
Lemma reread_ok c s r : bx_configs s !! c = Some r -> reread c s = (Ok r, s).
Proof. intros Hr. unfold reread, get_tool_config. rewrite (mbind_run _ _ _ _ _ (tool_asks_ok _ s)). by rewrite Hr. Qed.
End runs.

Section imports.
Context {P : Type}.
Variable runtime : RagRuntime P.
Variable py_str : pyval -> string.
Variable uuid_str : uuid -> string.
Variable dumps dumps_sorted : pyval -> string.
Variable has_indexer : bool.
Implicit Types s : toolbox P.
(** Retrieval takes every document. *)
Definition accepting : Prop := forall t c d a, exists x a', rt_ingest runtime t c d a = (Ok x, a').
Hypothesis accepts : accepting.

Lemma index_ok t tool n c d s : exists a, _index_tool_catalog_document runtime py_str uuid_str dumps dumps_sorted has_indexer t tool n c d s = (Ok tt, set_tool_rag a s).
Proof.
  assert (Hs : s = set_tool_rag (bx_rag s) s) by by destruct s. unfold _index_tool_catalog_document. destruct has_indexer; [|exists (bx_rag s); by rewrite <- Hs].
  unfold index_document, mbind_. cbn [mget]. destruct (_select_rag_config t (bx_rag s)) as [rc|]; [|exists (bx_rag s); by rewrite <- Hs].
  unfold on_rag. destruct (accepts t rc (_compose_payload uuid_str dumps dumps_sorted (build_document py_str tool c n d)) (bx_rag s)) as (x & a' & ->). by exists a'.
Qed.
Lemma insert_import_ok tool t p cfg s :
  (forall c r, bx_configs s !! c = Some r -> row_group r = (tool, t) -> vn_major (tc_number r) = 1%Z -> vn_minor (tc_number r) = 0%Z -> (vn_patch (tc_number r) <= p)%Z) ->
  cfg <> [] ->
  let i := au_next (ag_authoring (bx_agency s)) in
  let r := {| tc_tool := tool; tc_tenant := t; tc_status := VS_DRAFT; tc_number := {| vn_major := 1; vn_minor := 0; vn_patch := p + 1 |};
              tc_schema := Some 1%Z; tc_config := cfg |} in
  exists a, insert_tool_config tool t None (Some 1%Z) (Some 0%Z) (Some (p + 1)%Z) (Some cfg) (Some 1%Z) s =
    (Ok i, set_tool_configs (<[i := r]> (bx_configs s)) (set_agency a s)).
Proof.
  intros Hp Hcfg i r. unfold insert_tool_config. rewrite get_bind. unfold mbind_ at 1. cbn [mret]. unfold mbind_ at 1. cbn [tool_id on_agency on_flows new_id].
  assert (taken (tool, t) (next_number (Some 1%Z) (Some 0%Z) (Some (p + 1)%Z) (tc_number <$> None) (newest (tool, t) (bx_configs s))) (bx_configs s) = false) as ->.
  { apply not_true_iff_false. intros ([c x] & Hin & Hb)%existsb_exists. apply list_elem_of_In, elem_of_members in Hin as [Hx Hg]. apply bool_decide_eq_true in Hb.
    simpl in Hb. assert (Hle := Hp c x Hx Hg). rewrite Hb in Hle. simpl in Hle. specialize (Hle eq_refl eq_refl). lia. }
  eexists. unfold r. destruct cfg; [done|]. reflexivity.
Qed.
Lemma publish_draft_ok t c p s r : bx_configs s !! c = Some r -> tc_tenant r = t -> tc_status r = VS_DRAFT ->
  exists x s', publish_tool_config runtime py_str uuid_str dumps dumps_sorted has_indexer t c p s = (Ok x, s') /\
    bx_configs s' = <[c := with_config_status VS_PUBLISHED r]> (bx_configs s) /\ bx_tools s' = bx_tools s.
Proof.
  intros Hr Ht Hst. unfold publish_tool_config. rewrite (mbind_run _ _ _ _ _ (owned_config_ok t c s r Hr Ht)), Hst.
  rewrite (mbind_run _ _ _ _ _ (set_status_ok c VS_PUBLISHED s r Hr)). unfold get_tool. rewrite (mbind_run _ _ _ _ _ (tool_asks_ok _ _)).
  erewrite (mbind_run (reread c)); [|apply reread_ok; simpl; apply lookup_insert_eq].
  cbv beta iota. match goal with |- context [_index_tool_catalog_document _ _ _ _ _ _ ?a ?b ?n ?d ?e] => destruct (index_ok a b n d e (set_tool_configs (<[c := with_config_status VS_PUBLISHED r]> (bx_configs s)) s)) as [g Hg] end.
  rewrite (mbind_run _ _ _ _ _ Hg). by eexists _, _.
Qed.
End imports.

(** An operation of an OpenAPI document becomes a published configuration: when retrieval takes documents and the name of the
    operation is not too long, the import of one succeeds, under the tool of that name (the one there is, or a new one), with a
    configuration that was not there before, has the content of the operation, and is the newest [1.0] version of the tenant. *)
Theorem import_publishes {P} (runtime : RagRuntime P) py_str uuid_str dumps dumps_sorted has_indexer t p u op name s :
  stocked s -> accepting runtime -> operation_name (op_id op) = Ok name -> short name ->
  exists i c r s', import_operation runtime py_str uuid_str dumps dumps_sorted has_indexer t p u op s = (Ok (i, name), s') /\
    tool_of i (bx_tools s') = Some {| tl_id := i; tl_name := name |} /\ bx_configs s !! c = None /\
    bx_configs s' = <[c := r]> (bx_configs s) /\ tc_tool r = i /\ tc_tenant r = t /\ tc_status r = VS_PUBLISHED /\ tc_config r = operation_config u op /\
    vn_major (tc_number r) = 1%Z /\ vn_minor (tc_number r) = 0%Z /\
    (forall d x, bx_configs s !! d = Some x -> row_group x = row_group r -> vn_major (tc_number x) = 1%Z -> vn_minor (tc_number x) = 0%Z ->
       (vn_patch (tc_number x) < vn_patch (tc_number r))%Z).
Proof.
  intros Hs Hacc Hname Hshort. unfold import_operation. rewrite Hname. unfold mlift. rewrite (mbind_run _ _ s (Ok name) s eq_refl).
  destruct (name_lookup name s (sk_names s Hs)) as (o & Ho & Hin). rewrite (mbind_run _ _ _ _ _ Ho).
  assert (Ht : exists tool s1, (match o with Some x => mret x | None => insert_tool name end) s = (Ok tool, s1) /\
    tl_name tool = name /\ tool ∈ bx_tools s1 /\ stocked s1 /\ bx_configs s1 = bx_configs s).
  { destruct o as [tool|]; [exists tool, s; by destruct Hin|]. destruct (insert_tool_ok name s Hin Hshort) as (tool & s1 & E & Hn & Hc). exists tool, s1.
    split_and!; try done; [by apply insert_tool_run in E|]. pose proof (fine_insert_tool name s Hin Hs) as [H1 _]. by rewrite E in H1. }
  destruct Ht as (tool & s1 & E1 & Hn & Htl & Hs1 & Hc1). rewrite (mbind_run _ _ _ _ _ E1).
  destruct (patch_above (tl_id tool) t s1) as (k & Ek & Hk). rewrite (mbind_run _ _ _ _ _ Ek).
  destruct (insert_import_ok (tl_id tool) t k (operation_config u op) s1 Hk ltac:(done)) as (a & E2). rewrite (mbind_run _ _ _ _ _ E2).
  set (i := au_next _) in *. set (r := {| tc_status := VS_DRAFT |}) in *.
  destruct (index_ok runtime py_str uuid_str dumps dumps_sorted has_indexer Hacc t (tl_id tool) (tl_name tool) i (operation_config u op)
    (set_tool_configs (<[i := r]> (bx_configs s1)) (set_agency a s1))) as [g Hg]. rewrite (mbind_run _ _ _ _ _ Hg).
  erewrite (mbind_run (tool_event _ _ _ _ _ _ _)); [|reflexivity].
  match goal with |- context [mbind_ (publish_tool_config _ _ _ _ _ _ _ _ _) _ ?s3] => set (s3' := s3) end.
  destruct (publish_draft_ok runtime py_str uuid_str dumps dumps_sorted has_indexer Hacc t i p s3' r) as (x & s4 & E4 & Hc4 & Ht4);
    [apply lookup_insert_eq | done | done|]. rewrite (mbind_run _ _ _ _ _ E4).
  exists (tl_id tool), i, (with_config_status VS_PUBLISHED r), s4. split_and!; try done.
  - by rewrite Hn.
  - rewrite Ht4. change (bx_tools s3') with (bx_tools s1). rewrite (elem_tool_of s1 tool Hs1 Htl). destruct tool. simpl in *. by rewrite Hn.
  - rewrite <- Hc1. by apply fresh_config.
  - rewrite Hc4. change (bx_configs s3') with (<[i := r]> (bx_configs s1)). by rewrite insert_insert_eq, Hc1.
  - intros d y Hd Hg' H1 H2. rewrite <- Hc1 in Hd. specialize (Hk d y Hd Hg' H1 H2). simpl. lia.
Qed.
