(* ===== verification/ToolSample.v ===== *)
(** * ToolSample: tools imported, bound and found on concrete inputs

    A document with one operation, imported for a tenant whose catalogue is kept by the retrieval of [RagSample]: witnesses of the
    theorems of [ToolFacts], and inputs on which the code does not do what its parts mean to. *)

From S2P Require Import Prelude.
From S2P Require Import Errors.
From S2P Require Import PyValue.
From S2P Require Import PyString.
From S2P Require Import PyFloat.
From S2P Require Import StateMachine.
From S2P Require Import Sorting.
From S2P Require Import Effects.
From S2P Require Import Store.
From S2P Require Import Chunking.
From S2P Require Import Rag.
From S2P Require Import RagSample.
From S2P Require Import FlowAuthoring.
From S2P Require Import AuthoringFacts.
From S2P Require Import Versions.
From S2P Require Import OpenApi.
From S2P Require Import Agents.
From S2P Require Import AgentFacts.
From S2P Require Import Tools.
From S2P Require Import ToolFacts.

(** ** Parameters *)

(** The runtime of [RagSample]. *)
Definition runtime : RagRuntime unit := {|
  rt_ingest := ingest_document id char_tokens of_tokens no_text embed_all options_of rule_of by_id by_name RagSample.no_version no_policy bad_policy;
  rt_context := get_context id no_number no_text no_text no_int never embed_one RagSample.alike options_of by_id by_name |}.
(** Identifiers are printed as one letter. *)
Definition show_id (i : uuid) : string := String (Ascii.ascii_of_nat (N.to_nat i)) "".
Definition read_id (s : string) : option uuid :=
  match s with String a EmptyString => Some (N.of_nat (Ascii.nat_of_ascii a)) | _ => None end.
Definition no_dump (_ : pyval) : string := "{}".
Definition spec : pyval := PDict
  [("openapi", PStr "3.1.0");
   ("paths", PDict [("/orders", PDict [("get", PDict [("operationId", PStr "list_orders"); ("summary", PStr "All orders")])])]);
   ("servers", PList [PDict [("url", PStr "https://shop.example/")]])].
Definition parse_spec (_ : string) : string + pyval := inr spec.
Definition no_yaml (_ : string) : string + pyval := inl "no yaml".
Definition split_url (_ : string) : string * string * string := ("https", "shop.example", "").
Abbreviation serve_ := (after_tools runtime no_text show_id read_id no_dump no_dump parse_spec no_yaml split_url "" true registry.persona registry.policies).
Abbreviation search_ := (retrieve_tools runtime no_text read_id tenant1 shop).

(** Tenant 1 has retrieval but no tools. *)
Definition no_shop : rag unit := {|
  rg_documents := ∅; rg_chunks := []; rg_counters := ∅; rg_configs := delete diary (rg_configs start); rg_stores := rg_stores start;
  rg_rules := rg_rules start; rg_cache := []; rg_clock := 0; rg_next := 100%N; rg_world := tt |}.
Definition empty : toolbox unit := {|
  bx_agency := registry.start; bx_tools := []; bx_configs := ∅; bx_bindings := []; bx_batches := ∅; bx_rag := no_shop |}.
Lemma stocked_empty : stocked empty.
Proof.
  split; simpl; try done; [exact (registry.tidy_start False) | split; [by intros t ?%not_elem_of_nil | by intros c [r Hr]] | constructor | constructor |
    by intros b ?%not_elem_of_nil].
Qed.
Definition fetch : tool_request := ImportTool tenant1 "https://shop.example/openapi.json" (inr "{}") "ann".

(** ** Witnesses *)

Definition found_ids (r : res exc (list AvailableTool)) : res exc (list uuid) := match r with Ok l => Ok (at_config <$> l) | Err e => Err e end.
(** The import creates tool 10 with configuration 11, which a search finds. *)
Example imported : found_ids (search_ "what did I order" None None (serve_ [fetch] empty)).1 = Ok [11%N].
Proof. vm_compute. reflexivity. Qed.

Lemma tool_registry_witness : let s' := serve_ [fetch; fetch; DeprecateToolConfig tenant1 11%N "ann"] empty in stocked s' /\ evolves empty s'.
Proof.
  apply (tool_registry runtime no_text show_id read_id no_dump no_dump parse_spec no_yaml split_url "" true registry.persona registry.policies
    [fetch; fetch; DeprecateToolConfig tenant1 11%N "ann"] empty). apply stocked_empty.
Defined.

Definition stocked_shop : toolbox unit := serve_ [fetch] empty.
Definition orders : AvailableTool := {| at_name := Some "list_orders"; at_tool := 10%N; at_config := 11%N; at_summary := None; at_description := None;
  at_operation := Some "list_orders"; at_method := Some "GET"; at_path := None; at_score := Some (FFin 1 0) |}.
Example orders_found : (search_ "what did I order" None None stocked_shop).1 = Ok [orders].
Proof. vm_compute. reflexivity. Qed.
Lemma tool_search_safe_witness :
  let s' := (search_ "what did I order" None None stocked_shop).2 in
  exists r t, bx_configs s' !! 11%N = Some r /\ tc_tenant r = tenant1 /\ rank VS_PUBLISHED <= rank (tc_status r) /\
    (bx_batches stocked_shop = ∅ -> tc_status r = VS_PUBLISHED) /\ tool_of (tc_tool r) (bx_tools s') = Some t /\ 10%N = tl_id t /\ Some "list_orders" = tl_name t.
Proof.
  apply (proj2 (proj2 (tool_search_safe runtime no_text read_id tenant1 shop "what did I order" None None stocked_shop [orders] _
    (proj1 (fine_after_tools _ _ _ _ _ _ _ _ _ _ _ _ _ _ _ stocked_empty))
    (eq_trans (surjective_pairing _) (f_equal (fun r => (r, _)) orders_found)))) orders (list_elem_of_here _ _)).
Defined.

(** Without an indexer nothing is asked of retrieval; here it takes everything. *)
Definition quiet_runtime : RagRuntime unit := {| rt_ingest _ _ _ := mret (0%N, COMPLETED); rt_context _ _ _ _ _ _ _ := mret (empty_context NO_MATCHES) |}.
Definition list_orders : OpenAPIOperation := {| op_path := "/orders"; op_method := "GET"; op_id := PStr "list_orders"; op_summary := PStr "All orders";
  op_description := PNone; op_examples := []; op_request := PDict []; op_response := PDict [] |}.
Lemma import_publishes_witness : exists i c r s',
  import_operation quiet_runtime no_text show_id no_dump no_dump true tenant1 "ann" "https://shop.example" list_orders empty = (Ok (i, Some "list_orders"), s') /\
  bx_configs s' !! c = Some r /\ tc_status r = VS_PUBLISHED /\ tc_config r = operation_config "https://shop.example" list_orders.
Proof.
  destruct (import_publishes quiet_runtime no_text show_id no_dump no_dump true tenant1 "ann" "https://shop.example" list_orders (Some "list_orders") empty)
    as (i & c & r & s' & H1 & _ & _ & H2 & _ & _ & H3 & H4 & _); [apply stocked_empty | intros t c d a; by eexists _, _ | reflexivity | vm_compute; discriminate |].
  exists i, c, r, s'. split_and!; [exact H1 | rewrite H2; apply lookup_insert_eq | exact H3 | exact H4].
Defined.

(** ** What the services do not mean to do *)

(** A document that is imported again unchanged gets configuration 12, but the catalogue still names configuration 11: once that one
    is deprecated, the tool is published and cannot be found. *)
Example import_again_unfindable :
  let s := serve_ [fetch; fetch; DeprecateToolConfig tenant1 11%N "ann"] empty in
  (fun r => (tc_status r, vn_patch (tc_number r))) <$> bx_configs s !! 12%N = Some (VS_PUBLISHED, 1%Z) /\
  found_ids (search_ "what did I order" None None s).1 = Ok [].
Proof. vm_compute. split; reflexivity. Qed.

(** A configuration that is disabled is still found while its batch is cached. *)
Example disabled_but_cached :
  let searched := RetrieveTools tenant1 shop "what did I order" None None in
  let s := serve_ [fetch; searched; DisableToolConfig tenant1 11%N "ann"] empty in
  tc_status <$> bx_configs s !! 11%N = Some VS_DISABLED /\ found_ids (search_ "what did I order" None None s).1 = Ok [11%N] /\
  found_ids (search_ "what did I order" None None (serve_ [ExpireBatch tenant1 {[11%N]}] s)).1 = Ok [].
Proof. vm_compute. done. Qed.

(** Tenant 2 copies the configuration of tenant 1, its headers included. *)
Definition copy : ToolConfigCreate := {| tq_tool := 10%N; tq_source := Some 11%N; tq_config := None; tq_major := None; tq_minor := None; tq_patch := None;
  tq_schema := None |}.
Example config_of_another_tenant :
  let s := serve_ [fetch; CreateToolConfig 2%N copy "eve"] empty in
  tc_tenant <$> bx_configs s !! 12%N = Some 2%N /\ tc_config <$> bx_configs s !! 12%N = tc_config <$> bx_configs s !! 11%N /\
  dict_getv "headers" (from_option tc_config [] (bx_configs s !! 12%N)) = PDict HEADERS.
Proof. vm_compute. done. Qed.
