(* ===== verification/Policies.v ===== *)
(** * Policies: the administration of policies

    [src/src/domain/governance/services/governance_policies_service.py] on the policy repositories of
    [src/src/domain/governance/repositories/]: access, rate limit, billing, memory and retrieval policies with numbered versions that
    are published and activated, the default execution limits of a tenant, and runtime policies.

    The five repositories repeat one another, so they are one definition for a kind of policy, and every function of the service is an
    instance of it.  Repository calls are transactions; the active version of a tenant is read through a cache that [Catalogue] has.
    [pydantic] is a parameter; lengths of columns and the times of activations are left out. *)

From S2P Require Import Prelude.
From S2P Require Import Errors.
From S2P Require Import PyValue.
From S2P Require Import PyString.
From S2P Require Import StateMachine.
From S2P Require Import Sorting.
From S2P Require Import Effects.
From S2P Require Import Store.
From S2P Require Import Governance.
From S2P Require Import FlowAuthoring.
From S2P Require Import Versions.
From S2P Require Import Agents.

(** ** Tables *)

Inductive policy_kind : Type := ACCESS | RATE_LIMIT | BILLING | MEMORY | RAG | EXECUTION_LIMIT.
#[global] Instance policy_kind_eq_dec : EqDecision policy_kind.
Proof. solve_decision. Defined.
Definition kind_name (k : policy_kind) : string :=
  match k with
  | ACCESS => "access" | RATE_LIMIT => "rate_limit" | BILLING => "billing" | MEMORY => "memory" | RAG => "rag" | EXECUTION_LIMIT => "execution_limit"
  end.
(** The tables whose constraint makes numbers unique. *)
Definition constrained (k : policy_kind) : bool := negb (bool_decide (k = BILLING)).

Record policy_row : Type := {
  po_tenant : uuid;
  po_name : string;
}.
(** [pv_body] has the columns of the content: the rules, the definition, or the limit. *)
Record policy_version : Type := {
  pv_policy : uuid;
  pv_status : string;
  pv_number : version_number;
  pv_body : pydict;
  pv_created : Z;
  pv_tenant : option uuid;
  pv_active : bool;
  pv_activation : option (string * string);
}.
#[global] Instance policy_version_Versioned : Versioned policy_version :=
  {| row_group r := (pv_policy r, 0%N); row_number := pv_number |}.
Record runtime_policy : Type := {
  rp_tenant : uuid;
  rp_scope : string;
  rp_flow : option uuid;
  rp_version : string;
  rp_status : string;
  rp_definition : pydict;
  rp_author : string;
}.
(** Policies in the order they were created. *)
Record policy_table : Type := {
  pt_policies : list (uuid * policy_row);
  pt_versions : gmap uuid policy_version;
}.
Record rulebook : Type := {
  rb_next : uuid;
  rb_tables : policy_kind -> policy_table;
  rb_runtime : gmap uuid runtime_policy;
}.
Definition set_table (k : policy_kind) (t : policy_table) (s : rulebook) : rulebook := {|
  rb_next := rb_next s; rb_tables := fun k' => if decide (k' = k) then t else rb_tables s k'; rb_runtime := rb_runtime s |}.
Definition set_policies (v : list (uuid * policy_row)) (t : policy_table) : policy_table := {| pt_policies := v; pt_versions := pt_versions t |}.
Definition set_policy_versions (v : gmap uuid policy_version) (t : policy_table) : policy_table := {| pt_policies := pt_policies t; pt_versions := v |}.
Definition set_runtime (v : gmap uuid runtime_policy) (s : rulebook) : rulebook := {|
  rb_next := rb_next s; rb_tables := rb_tables s; rb_runtime := v |}.

Abbreviation L := (M rulebook).
Definition policy_id : L uuid := fun s => (Ok (rb_next s), {|
  rb_next := (rb_next s + 1)%N; rb_tables := rb_tables s; rb_runtime := rb_runtime s |}).
Definition not_found {T} (m : string) : L T := mraise (NotFoundServiceException m).
Definition must {T} (o : option T) (m : string) : L T := match o with Some x => mret x | None => not_found m end.

(** ** The repositories *)

Definition policy_of (p : uuid) (t : policy_table) : option policy_row := snd <$> List.find (fun x => (x.1 =? p)%N) (pt_policies t).

(** [create_policy], [list_policies]: the newest first. *)
Definition insert_policy (k : policy_kind) (tenant : uuid) (name : string) : L uuid :=
  let* i := policy_id in
  mmodify (fun s => let t := rb_tables s k in
    set_table k (set_policies (pt_policies t ++ [(i, {| po_tenant := tenant; po_name := name |})]) t) s) ;;*
  mret i.
Definition policies_of (k : policy_kind) (tenant : uuid) (s : rulebook) : list (uuid * policy_row) :=
  filter (fun x => po_tenant x.2 = tenant) (rev (pt_policies (rb_tables s k))).

(** [create_version]. *)
Record VersionCreate : Type := {
  pq_status : string;
  pq_number : version_number;
  pq_body : pydict;
}.
Definition insert_policy_version (k : policy_kind) (p : uuid) (q : VersionCreate) : L uuid :=
  let* s := mget in
  let* i := policy_id in
  if constrained k && taken (p, 0%N) (pq_number q) (pt_versions (rb_tables s k))
  then mraise (ExternalError "IntegrityError" ("uq_" +:+ kind_name k +:+ "_policy_version_semver"))
  else
    mmodify (fun s => let t := rb_tables s k in
      set_table k (set_policy_versions (<[i := {| pv_policy := p; pv_status := pq_status q; pv_number := pq_number q; pv_body := pq_body q;
        pv_created := Z.of_N i; pv_tenant := None; pv_active := false; pv_activation := None |}]> (pt_versions t)) t) s) ;;*
    mret i.

(** [set_version_status]: no version, no change. *)
Definition with_policy_status (st : string) (r : policy_version) : policy_version := {|
  pv_policy := pv_policy r; pv_status := st; pv_number := pv_number r; pv_body := pv_body r; pv_created := pv_created r;
  pv_tenant := pv_tenant r; pv_active := pv_active r; pv_activation := pv_activation r |}.
Definition set_version_status (k : policy_kind) (v : uuid) (st : string) : L unit :=
  mmodify (fun s => let t := rb_tables s k in set_table k (set_policy_versions (alter (with_policy_status st) v (pt_versions t)) t) s).

(** [set_active_version]: one transaction; the tenant's active versions give way. *)
Definition with_policy_activation (tenant : option uuid) (b : bool) (x : option (string * string)) (r : policy_version) : policy_version := {|
  pv_policy := pv_policy r; pv_status := pv_status r; pv_number := pv_number r; pv_body := pv_body r; pv_created := pv_created r;
  pv_tenant := tenant; pv_active := b; pv_activation := x |}.
Definition dismissed (tenant : uuid) (r : policy_version) : policy_version :=
  if bool_decide (pv_tenant r = Some tenant) && pv_active r then with_policy_activation (pv_tenant r) false (pv_activation r) r else r.
Definition set_active_version (k : policy_kind) (tenant v : uuid) (principal why : string) : L unit :=
  let* s := mget in
  let t := rb_tables s k in
  match pt_versions t !! v with
  | None => mret tt
  | Some r =>
      mmodify (set_table k (set_policy_versions
        (<[v := with_policy_activation (Some tenant) true (Some (principal, why)) r]> (dismissed tenant <$> pt_versions t)) t))
  end.

(** [get_active_..._policy_version_id]: [scalar_one_or_none] raises on a second row. *)
Definition active_policy_versions (tenant : uuid) : gmap uuid policy_version -> list uuid :=
  keys_where (fun r => bool_decide (pv_tenant r = Some tenant) && pv_active r).
Definition active_policy_version (k : policy_kind) (tenant : uuid) (s : rulebook) : res exc (option uuid) :=
  one_or_none (active_policy_versions tenant (pt_versions (rb_tables s k))).

(** The lists [Governance] decides by. *)
Definition default_policies (k : policy_kind) (s : rulebook) : list (uuid * uuid) := (fun x => (po_tenant x.2, x.1)) <$> pt_policies (rb_tables s k).
Definition to_version {T} (body : pydict -> T) (r : policy_version) : version T := {|
  v_policy := pv_policy r; v_status := pv_status r;
  v_number := (vn_major (pv_number r), (vn_minor (pv_number r), (vn_patch (pv_number r), pv_created r))); v_body := body (pv_body r) |}.
Definition policy_versions {T} (k : policy_kind) (body : pydict -> T) (s : rulebook) : list (version T) :=
  (fun kv => to_version body kv.2) <$> map_to_list (pt_versions (rb_tables s k)).

(** [ensure_default_published_policy_for_tenant]. *)
Definition ensure_default_published_policy_for_tenant (tenant : uuid) : L unit :=
  let* s := mget in
  let* p := (match head (filter (fun x => po_tenant x.2 = tenant) (pt_policies (rb_tables s EXECUTION_LIMIT))) with
             | Some x => mret x.1
             | None => insert_policy EXECUTION_LIMIT tenant "Default execution limits"
             end) in
  let* s := mget in
  if existsb (fun kv => bool_decide (pv_policy kv.2 = p /\ pv_status kv.2 = "PUBLISHED")) (map_to_list (pt_versions (rb_tables s EXECUTION_LIMIT)))
  then mret tt
  else insert_policy_version EXECUTION_LIMIT p {| pq_status := "PUBLISHED"; pq_number := {| vn_major := 1; vn_minor := 0; vn_patch := 0 |}; pq_body := [] |} ;;*
       mret tt.

(** ** The service *)

Section service.
(** [model_validate] of the content of a version, and of a runtime policy. *)
Variable validate : policy_kind -> pydict -> res exc pydict.
Variable validate_runtime : pydict -> res exc pydict.

Definition policy_missing (k : policy_kind) : string := kind_name k +:+ "_policy_not_found".
Definition version_missing (k : policy_kind) : string := kind_name k +:+ "_policy_version_not_found".
Definition owned_policy (k : policy_kind) (tenant p : uuid) (message : string) : L policy_row :=
  let* s := mget in
  match policy_of p (rb_tables s k) with
  | Some r => if bool_decide (po_tenant r = tenant) then mret r else not_found message
  | None => not_found message
  end.
Definition owned_policy_version (k : policy_kind) (tenant v : uuid) : L policy_version :=
  let* s := mget in
  let* r := must (pt_versions (rb_tables s k) !! v) (version_missing k) in
  owned_policy k tenant (pv_policy r) (version_missing k) ;;*
  mret r.
(** The answer validates what is stored; a rate limit has nothing to validate. *)
Definition answer (k : policy_kind) (r : policy_version) : L policy_version :=
  match k with RATE_LIMIT => mret r | _ => let* _ := mlift (validate k (pv_body r)) in mret r end.

Definition create_policy (k : policy_kind) (tenant : uuid) (name : string) : L uuid := insert_policy k tenant name.
Definition list_policies (k : policy_kind) (tenant : uuid) : L (list (uuid * policy_row)) := let* s := mget in mret (policies_of k tenant s).
Definition get_policy (k : policy_kind) (tenant p : uuid) : L policy_row := owned_policy k tenant p (policy_missing k).
Definition create_policy_version (k : policy_kind) (tenant p : uuid) (q : VersionCreate) : L uuid :=
  owned_policy k tenant p (policy_missing k) ;;*
  let* body := (match k with MEMORY | RAG => mlift (validate k (pq_body q)) | _ => mret (pq_body q) end) in
  let* i := insert_policy_version k p {| pq_status := pq_status q; pq_number := pq_number q; pq_body := body |} in
  (match k with ACCESS | BILLING => let* _ := mlift (validate k body) in mret tt | _ => mret tt end) ;;*
  mret i.
Definition publish_policy_version (k : policy_kind) (tenant v : uuid) : L policy_version :=
  owned_policy_version k tenant v ;;*
  set_version_status k v "PUBLISHED" ;;*
  let* s := mget in
  let* r := must (pt_versions (rb_tables s k) !! v) (version_missing k) in
  answer k r.
Definition policy_justified (c : ChangeRequest) : L unit :=
  if String.eqb (py_strip (justification c)) "" then mraise (DomainValidationException "justification_required") else mret tt.
Definition activate_policy_version (k : policy_kind) (tenant v : uuid) (principal : string) (c : ChangeRequest) : L policy_version :=
  policy_justified c ;;*
  let* r := owned_policy_version k tenant v in
  set_active_version k tenant v principal (justification c) ;;*
  answer k r.

(** *** The functions of the service *)

Definition create_access_policy := create_policy ACCESS.
Definition list_access_policies := list_policies ACCESS.
Definition get_access_policy := get_policy ACCESS.
Definition create_access_policy_version := create_policy_version ACCESS.
Definition publish_access_policy_version := publish_policy_version ACCESS.
Definition create_rate_limit_policy := create_policy RATE_LIMIT.
Definition list_rate_limit_policies := list_policies RATE_LIMIT.
Definition get_rate_limit_policy := get_policy RATE_LIMIT.
Definition create_rate_limit_policy_version := create_policy_version RATE_LIMIT.
Definition publish_rate_limit_policy_version := publish_policy_version RATE_LIMIT.
Definition create_billing_policy := create_policy BILLING.
Definition list_billing_policies := list_policies BILLING.
Definition get_billing_policy := get_policy BILLING.
Definition create_billing_policy_version := create_policy_version BILLING.
Definition publish_billing_policy_version := publish_policy_version BILLING.
Definition activate_billing_policy_version := activate_policy_version BILLING.
Definition create_memory_policy := create_policy MEMORY.
Definition list_memory_policies := list_policies MEMORY.
Definition get_memory_policy := get_policy MEMORY.
Definition create_memory_policy_version := create_policy_version MEMORY.
Definition publish_memory_policy_version := publish_policy_version MEMORY.
Definition activate_memory_policy_version := activate_policy_version MEMORY.
Definition create_rag_policy := create_policy RAG.
Definition list_rag_policies := list_policies RAG.
Definition get_rag_policy := get_policy RAG.
Definition create_rag_policy_version := create_policy_version RAG.
Definition publish_rag_policy_version := publish_policy_version RAG.
Definition activate_rag_policy_version := activate_policy_version RAG.

(** *** Runtime policies *)

Record RuntimePolicyCreate : Type := {
  rc_scope : string;
  rc_flow : option uuid;
  rc_number : string;
  rc_definition : pydict;
}.
Definition insert_runtime (r : runtime_policy) : L uuid :=
  let* i := policy_id in mmodify (fun s => set_runtime (<[i := r]> (rb_runtime s)) s) ;;* mret i.
Definition runtime_answer (i : uuid) : L (uuid * runtime_policy) :=
  let* s := mget in
  let* r := must (rb_runtime s !! i) "runtime_policy_not_found" in
  let* _ := mlift (validate_runtime (rp_definition r)) in
  mret (i, r).
Definition create_runtime_policy (tenant : uuid) (q : RuntimePolicyCreate) (principal : string) : L (uuid * runtime_policy) :=
  let* d := mlift (validate_runtime (rc_definition q)) in
  let* i := insert_runtime {| rp_tenant := tenant; rp_scope := rc_scope q; rp_flow := rc_flow q; rp_version := rc_number q; rp_status := "DRAFT";
                              rp_definition := d; rp_author := principal |} in
  runtime_answer i.
Definition owned_runtime (tenant i : uuid) : L runtime_policy :=
  let* s := mget in
  match rb_runtime s !! i with
  | Some r => if bool_decide (rp_tenant r = tenant) then mret r else not_found "runtime_policy_not_found"
  | None => not_found "runtime_policy_not_found"
  end.
Definition list_runtime_policies (tenant : uuid) : L (list (uuid * runtime_policy)) :=
  let* s := mget in
  mlift (rmap (fun kv => let! _ := validate_runtime (rp_definition kv.2) in Ok kv) (filter (fun kv => rp_tenant kv.2 = tenant) (map_to_list (rb_runtime s)))).
Definition get_runtime_policy (tenant i : uuid) : L (uuid * runtime_policy) := owned_runtime tenant i ;;* runtime_answer i.

Definition with_runtime (status : string) (definition : pydict) (r : runtime_policy) : runtime_policy := {|
  rp_tenant := rp_tenant r; rp_scope := rp_scope r; rp_flow := rp_flow r; rp_version := rp_version r; rp_status := status;
  rp_definition := definition; rp_author := rp_author r |}.
(** [update_policy]. *)
Definition update_runtime (i : uuid) (definition : option pydict) (status : option string) : L unit :=
  mmodify (fun s => set_runtime (alter (fun r => with_runtime (default (rp_status r) status) (default (rp_definition r) definition) r) i (rb_runtime s)) s).
Definition update_runtime_policy (tenant i : uuid) (status : option string) (definition : option pydict) : L (uuid * runtime_policy) :=
  owned_runtime tenant i ;;*
  let* d := (match definition with Some d => let* d := mlift (validate_runtime d) in mret (Some d) | None => mret None end) in
  update_runtime i d status ;;*
  runtime_answer i.

(** [activate_policy]: the active policy of the tenant, scope and flow becomes a draft again. *)
Definition same_slot (a b : runtime_policy) : bool :=
  bool_decide (rp_tenant a = rp_tenant b /\ rp_scope a = rp_scope b /\ rp_flow a = rp_flow b).
Definition activate_runtime (i : uuid) : L unit :=
  let* s := mget in
  let* r := must (rb_runtime s !! i) "runtime_policy_not_found" in
  mmodify (set_runtime (<[i := with_runtime "ACTIVE" (rp_definition r) r]>
    ((fun x => if same_slot x r && String.eqb (rp_status x) "ACTIVE" then with_runtime "DRAFT" (rp_definition x) x else x) <$> rb_runtime s))).
Definition activate_runtime_policy (tenant i : uuid) (c : ChangeRequest) : L (uuid * runtime_policy) :=
  policy_justified c ;;*
  let* r := owned_runtime tenant i in
  let* _ := mlift (validate_runtime (rp_definition r)) in
  activate_runtime i ;;*
  runtime_answer i.

(** [get_active_flow_policy] and [get_active_tenant_policy]. *)
Definition get_active_flow_policy (tenant flow : uuid) (s : rulebook) : res exc (option (uuid * runtime_policy)) :=
  one_or_none (filter (fun kv => rp_tenant kv.2 = tenant /\ rp_scope kv.2 = "FLOW" /\ rp_flow kv.2 = Some flow /\ rp_status kv.2 = "ACTIVE")
    (map_to_list (rb_runtime s))).
Definition get_active_tenant_policy (tenant : uuid) (s : rulebook) : res exc (option (uuid * runtime_policy)) :=
  one_or_none (filter (fun kv => rp_tenant kv.2 = tenant /\ rp_scope kv.2 = "TENANT" /\ rp_status kv.2 = "ACTIVE") (map_to_list (rb_runtime s))).
End service.
