(* ===== verification/PolicyFacts.v ===== *)
(** * PolicyFacts: what the policy tables always satisfy

    The invariant of [Policies] over every request, what an activation and a publication bring about, and the decisions of
    [Governance] on the tables. *)

From S2P Require Import Prelude.
From S2P Require Import Errors.
From S2P Require Import PyValue.
From S2P Require Import PyString.
From S2P Require Import StateMachine.
From S2P Require Import FlowGraph.
From S2P Require Import Sorting.
From S2P Require Import Effects.
From S2P Require Import Store.
From S2P Require Import Governance.
From S2P Require Import FlowAuthoring.
From S2P Require Import Versions.
From S2P Require Import Agents.
From S2P Require Import AgentFacts.
From S2P Require Import Policies.

(** ** The invariant *)

Record proper (next : uuid) (k : policy_kind) (t : policy_table) : Prop := {
  pr_fresh : (forall i r, (i, r) ∈ pt_policies t -> (i < next)%N) /\ (forall v, is_Some (pt_versions t !! v) -> (v < next)%N);
  pr_numbers : constrained k = true -> unique_numbers (pt_versions t);
  pr_created : forall v r, pt_versions t !! v = Some r -> pv_created r = Z.of_N v;
  pr_owner : forall v r, pt_versions t !! v = Some r -> exists p, policy_of (pv_policy r) t = Some p /\ (pv_active r = true -> pv_tenant r = Some (po_tenant p));
  pr_one_active : forall v w r x, pt_versions t !! v = Some r -> pt_versions t !! w = Some x -> pv_active r = true -> pv_active x = true ->
    pv_tenant r = pv_tenant x -> v = w;
}.
Record ruled (s : rulebook) : Prop := {
  ru_tables : forall k, proper (rb_next s) k (rb_tables s k);
  ru_runtime : forall i, is_Some (rb_runtime s !! i) -> (i < rb_next s)%N;
}.

(** What never changes: policies, and the place, number and content of a version. *)
Definition same_version (r r' : policy_version) : Prop :=
  pv_policy r' = pv_policy r /\ pv_number r' = pv_number r /\ pv_body r' = pv_body r /\ pv_created r' = pv_created r.
Definition extends (t t' : policy_table) : Prop :=
  pt_policies t `prefix_of` pt_policies t' /\
  forall v r, pt_versions t !! v = Some r -> exists r', pt_versions t' !! v = Some r' /\ same_version r r'.
Record amends (s s' : rulebook) : Prop := {
  am_next : (rb_next s <= rb_next s')%N;
  am_tables : forall k, extends (rb_tables s k) (rb_tables s' k);
}.
Lemma same_version_refl r : same_version r r.
Proof. done. Qed.
Lemma extends_refl t : extends t t.
Proof. split; [done | eauto using same_version_refl]. Qed.
Lemma rules_extend_trans t t' t'' : extends t t' -> extends t' t'' -> extends t t''.
Proof.
  intros [H1 H2] [H3 H4]. split; [by etrans|]. intros v r Hr. destruct (H2 v r Hr) as (r' & Hr' & S1). destruct (H4 v r' Hr') as (r'' & Hr'' & S2).
  exists r''. split; [done|]. destruct S1 as (?&?&?&?), S2 as (?&?&?&?). split_and!; congruence.
Qed.
#[global] Instance amends_preorder : PreOrder amends.
Proof.
  split; [intros s; split; [done | intros k; apply extends_refl]|]. intros a b c [H1 H2] [H3 H4]. split; [lia|]. intros k. by eapply rules_extend_trans.
Qed.
Abbreviation lawful := (keeps ruled amends).

(** ** The tables, one by one *)

Lemma proper_mono next next' k t : (next <= next')%N -> proper next k t -> proper next' k t.
Proof.
  intros Hn [[F1 F2] U C O A]. split; try done. split; [intros i r Hi; specialize (F1 i r Hi) | intros v Hv; specialize (F2 v Hv)]; lia.
Qed.
Lemma lawful_table s k t : proper (rb_next s) k t -> extends (rb_tables s k) t -> lawful s (set_table k t s).
Proof.
  intros Hp He [H1 H2]. split; [split|split]; simpl; try done.
  - intros k'. case_decide; [by subst | apply H1].
  - intros k'. case_decide; [by subst | apply extends_refl].
Qed.
Lemma policy_of_app p t x : is_Some (policy_of p t) -> policy_of p (set_policies (pt_policies t ++ [x]) t) = policy_of p t.
Proof.
  unfold policy_of. simpl. induction (pt_policies t) as [|y l IH]; simpl; [by intros [? ?]|]. destruct (y.1 =? p)%N; [done | exact IH].
Qed.
Lemma proper_policy next k t i r : (i < next)%N -> proper next k t -> proper next k (set_policies (pt_policies t ++ [(i, r)]) t).
Proof.
  intros Hi [[F1 F2] U C O A]. split; try done.
  - split; [|done]. simpl. intros j x [Hj|[= -> ->]%list_elem_of_singleton]%elem_of_app; [by eapply F1 | done].
  - intros v x Hx. destruct (O v x Hx) as (p & Hp & Ha). exists p. split; [by rewrite policy_of_app | done].
Qed.
(** Versions that keep their place. *)
Lemma proper_versions next k t m :
  proper next k t -> (forall v, is_Some (m !! v) -> (v < next)%N) -> (constrained k = true -> unique_numbers m) ->
  (forall v r, m !! v = Some r -> pv_created r = Z.of_N v) ->
  (forall v r, m !! v = Some r -> exists p, policy_of (pv_policy r) t = Some p /\ (pv_active r = true -> pv_tenant r = Some (po_tenant p))) ->
  (forall v w r x, m !! v = Some r -> m !! w = Some x -> pv_active r = true -> pv_active x = true -> pv_tenant r = pv_tenant x -> v = w) ->
  proper next k (set_policy_versions m t).
Proof. intros [[F1 F2] U C O A] H1 H2 H3 H4 H5. by split. Qed.

Lemma proper_version next k t i r p :
  proper next k t -> (i < next)%N -> pv_created r = Z.of_N i -> policy_of (pv_policy r) t = Some p -> pv_active r = false ->
  (constrained k = true -> taken (pv_policy r, 0%N) (pv_number r) (pt_versions t) = false) ->
  proper next k (set_policy_versions (<[i := r]> (pt_versions t)) t).
Proof.
  intros Ht Hi Hc Hp Ha Hk. pose proof Ht as [[F1 F2] U C O A]. apply proper_versions; [done|..].
  - intros v. destruct (decide (v = i)) as [->|]; [done | rewrite lookup_insert_ne by done; auto].
  - intros H. apply unique_insert; [by apply U | by apply Hk].
  - intros v x. rewrite lookup_insert_Some. intros [[<- <-]|[? Hx]]; [done | by apply C].
  - intros v x. rewrite lookup_insert_Some. intros [[<- <-]|[? Hx]]; [exists p; split; [done | congruence] | by apply (O v)].
  - intros v w x y. rewrite !lookup_insert_Some. intros [[<- <-]|[? Hx]] [[<- <-]|[? Hy]]; try congruence. by apply A.
Qed.
Lemma proper_update next k t (f : policy_version -> policy_version) v :
  (forall r, same_version r (f r) /\ pv_tenant (f r) = pv_tenant r /\ pv_active (f r) = pv_active r) ->
  proper next k t -> proper next k (set_policy_versions (alter f v (pt_versions t)) t).
Proof.
  intros Hf Ht. pose proof Ht as [[F1 F2] U C O A].
  assert (Hm : forall w y, alter f v (pt_versions t) !! w = Some y -> exists y0, pt_versions t !! w = Some y0 /\ same_version y0 y /\ pv_tenant y = pv_tenant y0 /\ pv_active y = pv_active y0).
  { intros w y. destruct (decide (w = v)) as [->|].
    - rewrite lookup_alter_eq. intros (y0 & Hy & ->)%fmap_Some. exists y0. by destruct (Hf y0) as (? & ? & ?).
    - rewrite lookup_alter_ne by done. intros Hy. by exists y. }
  apply proper_versions; [done|..].
  - intros w [y Hy]. destruct (Hm w y Hy) as (y0 & ? & _). eauto.
  - intros H. apply (unique_update (pt_versions t)); [by apply U|]. intros w y Hy. destruct (Hm w y Hy) as (y0 & ? & (E1 & E2 & _) & _). exists y0.
    split; [done|]. simpl. by rewrite E1, E2.
  - intros w y Hy. destruct (Hm w y Hy) as (y0 & H0 & (_ & _ & _ & E) & _). rewrite E. by apply C.
  - intros w y Hy. destruct (Hm w y Hy) as (y0 & H0 & (E1 & _) & E2 & E3). rewrite E1, E2, E3. by apply (O w).
  - intros w1 w2 y z Hy Hz. destruct (Hm w1 y Hy) as (y0 & H0 & _ & Ey1 & Ey2), (Hm w2 z Hz) as (z0 & H1 & _ & Ez1 & Ez2). rewrite Ey1, Ey2, Ez1, Ez2. by apply A.
Qed.
Lemma extends_update t f v : (forall r, same_version r (f r)) -> extends t (set_policy_versions (alter f v (pt_versions t)) t).
Proof.
  intros Hf. split; [done|]. intros w r Hr. simpl. destruct (decide (w = v)) as [->|].
  - rewrite lookup_alter_eq, Hr. simpl. eauto.
  - rewrite lookup_alter_ne by done. eauto using same_version_refl.
Qed.

(** The activation of a tenant moves to a version of one of its policies. *)
Definition activated (tenant : uuid) (v : uuid) (x : string * string) (r : policy_version) (m : gmap uuid policy_version) : gmap uuid policy_version :=
  <[v := with_policy_activation (Some tenant) true (Some x) r]> (dismissed tenant <$> m).
Lemma dismissed_cases tenant r :
  dismissed tenant r = r /\ ~ (pv_tenant r = Some tenant /\ pv_active r = true) \/ dismissed tenant r = with_policy_activation (pv_tenant r) false (pv_activation r) r.
Proof. unfold dismissed. case_bool_decide; simpl; [|left; naive_solver]. destruct (pv_active r); [by right | left; naive_solver]. Qed.
Lemma activated_lookup tenant v x r m w y : m !! v = Some r -> activated tenant v x r m !! w = Some y ->
  exists y0, m !! w = Some y0 /\ same_version y0 y /\
    (w = v /\ y0 = r /\ pv_tenant y = Some tenant \/ pv_active y = true /\ y = y0 /\ pv_tenant y <> Some tenant \/ pv_active y = false).
Proof.
  intros Hr. unfold activated. rewrite lookup_insert_Some, lookup_fmap, fmap_Some. intros [[<- <-]|[? (y0 & Hy & ->)]].
  - exists r. split_and!; [done | done | left; done].
  - exists y0. destruct (dismissed_cases tenant y0) as [[-> Hn]| ->]; (split_and!; [done | done | right]); [|by right].
    destruct (pv_active y0) eqn:E; [left; split_and!; try done; naive_solver | by right].
Qed.
Lemma proper_activate next k t tenant v x r p :
  proper next k t -> pt_versions t !! v = Some r -> policy_of (pv_policy r) t = Some p -> po_tenant p = tenant ->
  proper next k (set_policy_versions (activated tenant v x r (pt_versions t)) t).
Proof.
  intros Ht Hr Hp Hpt. pose proof Ht as [[F1 F2] U C O A]. pose proof (fun w y => activated_lookup tenant v x r (pt_versions t) w y Hr) as Hm'. apply proper_versions; [done|..].
  - intros w [y Hy]. destruct (Hm' w y Hy) as (y0 & ? & _). eauto.
  - intros H. apply (unique_update (pt_versions t)); [by apply U|]. intros w y Hy. destruct (Hm' w y Hy) as (y0 & ? & (E1 & E2 & _) & _). exists y0.
    split; [done|]. simpl. by rewrite E1, E2.
  - intros w y Hy. destruct (Hm' w y Hy) as (y0 & H0 & (_ & _ & _ & E) & _). rewrite E. by apply C.
  - intros w y Hy. destruct (Hm' w y Hy) as (y0 & H0 & (E1 & _) & Hc). rewrite E1. destruct (O w y0 H0) as (q & Hq & Ha). exists q. split; [done|]. intros Hac.
    destruct Hc as [(-> & -> & Ht')|[(_ & -> & _)|Hf]]; [congruence | by apply Ha | congruence].
  - intros w1 w2 y z Hy Hz Hay Haz Heq. destruct (Hm' w1 y Hy) as (y0 & H0 & _ & Hcy), (Hm' w2 z Hz) as (z0 & H1 & _ & Hcz).
    destruct Hcy as [(-> & _ & Ey)|[(_ & -> & Ey)|Hf]]; [| |congruence]; (destruct Hcz as [(-> & _ & Ez)|[(_ & -> & Ez)|Hf]]; [| |congruence]); try done; try congruence.
    by eapply A.
Qed.
Lemma extends_activate t tenant v x r : pt_versions t !! v = Some r -> extends t (set_policy_versions (activated tenant v x r (pt_versions t)) t).
Proof.
  intros Hr. split; [done|]. intros w y Hy. simpl. unfold activated. destruct (decide (w = v)) as [->|].
  - rewrite lookup_insert_eq. simplify_eq. by eexists.
  - rewrite lookup_insert_ne, lookup_fmap, Hy by done. simpl. eexists. split; [done|]. by destruct (dismissed_cases tenant y) as [[-> _]| ->].
Qed.

(** ** Requests *)

Lemma lawful_id : respects lawful policy_id.
Proof.
  intros s [H1 H2]. split; [split|split]; simpl; try lia; [intros k; by apply (proper_mono (rb_next s)); [lia|] | intros i Hi; specialize (H2 i Hi); lia | intros k; apply extends_refl].
Qed.
Lemma policy_id_run s i s1 : policy_id s = (Ok i, s1) -> i = rb_next s /\ rb_next s1 = (i + 1)%N /\ rb_tables s1 = rb_tables s /\ rb_runtime s1 = rb_runtime s.
Proof. by intros [= <- <-]. Qed.
Lemma lawful_owned_policy k t p m : respects lawful (owned_policy k t p m).
Proof. intros s. unfold owned_policy. rewrite get_bind. destruct (policy_of _ _); [case_bool_decide|]; apply (keeps_refl ruled amends). Qed.
Lemma owned_policy_run k t p m s r s1 : owned_policy k t p m s = (Ok r, s1) -> s1 = s /\ policy_of p (rb_tables s k) = Some r /\ po_tenant r = t.
Proof. unfold owned_policy. rewrite get_bind. destruct (policy_of _ _) as [x|]; [|done]. case_bool_decide; [|done]. by intros [= -> ->]. Qed.
Lemma lawful_must {T} (o : option T) m : respects lawful (must o m).
Proof. destruct o; intros s; apply (keeps_refl ruled amends). Qed.
Lemma must_run {T} (o : option T) m s x s1 : must o m s = (Ok x, s1) -> o = Some x /\ s1 = s.
Proof. destruct o; [by intros [= -> ->] | done]. Qed.
Lemma lawful_owned_version k t v : respects lawful (owned_policy_version k t v).
Proof.
  intros s. unfold owned_policy_version. rewrite get_bind. apply respects_bind; [apply _ | apply lawful_must|]. intros r.
  apply respects_bind; [apply _ | apply lawful_owned_policy | intros _; apply respects_ret; apply _].
Qed.
Lemma owned_policy_version_run k t v s r s1 : owned_policy_version k t v s = (Ok r, s1) ->
  s1 = s /\ pt_versions (rb_tables s k) !! v = Some r /\ exists p, policy_of (pv_policy r) (rb_tables s k) = Some p /\ po_tenant p = t.
Proof.
  unfold owned_policy_version. rewrite get_bind. intros H. first_step H as [[x|e] s2] eqn:E; [|done]. apply must_run in E as [Hx ->].
  first_step H as [[p|e] s3] eqn:E; [|done]. apply owned_policy_run in E as (-> & Hp & Ht). injection H as <- <-. eauto.
Qed.

Lemma lawful_insert_policy k t n : respects lawful (insert_policy k t n).
Proof.
  intros s. apply (keeps_bind ruled amends); [apply lawful_id|]. intros Hs i s1 (-> & Hn & Ht & _)%policy_id_run Hs1. cbn [mmodify mbind_ mret snd].
  apply lawful_table; [apply proper_policy; [lia | apply Hs1]|]. split; simpl; [by eexists | eauto using same_version_refl].
Qed.
Lemma lawful_insert_version k p q s : is_Some (policy_of p (rb_tables s k)) -> lawful s (insert_policy_version k p q s).2.
Proof.
  intros [r Hp]. unfold insert_policy_version. rewrite get_bind. apply (keeps_bind ruled amends); [apply lawful_id|]. intros Hs i s1 (-> & Hn & Ht & _)%policy_id_run Hs1.
  destruct (constrained k && _) eqn:Ek; [apply (keeps_refl ruled amends)|]. cbn [mmodify mbind_ mret snd]. apply lawful_table.
  - eapply (proper_version _ _ _ _ _ r); simpl; [apply Hs1 | lia | done | by rewrite Ht | done |]. intros H. rewrite H in Ek. by rewrite Ht.
  - split; [done|]. simpl. intros v x Hx. rewrite Ht in *. rewrite lookup_insert_ne; [eauto using same_version_refl|]. intros <-.
    assert (Hlt := proj2 (pr_fresh _ _ _ (ru_tables s Hs k)) (rb_next s) (mk_is_Some _ _ Hx)). lia.
Qed.
Lemma lawful_status k v st : respects lawful (set_version_status k v st).
Proof.
  intros s Hs. pose proof Hs as [H1 _]. revert Hs. apply lawful_table; [by apply proper_update | by apply extends_update].
Qed.
Lemma lawful_activation k t v p j s r pol :
  pt_versions (rb_tables s k) !! v = Some r -> policy_of (pv_policy r) (rb_tables s k) = Some pol -> po_tenant pol = t ->
  lawful s (set_active_version k t v p j s).2.
Proof.
  intros Hr Hp Ht Hs. pose proof Hs as [H1 _]. revert Hs. unfold set_active_version. rewrite get_bind, Hr.
  apply lawful_table; [by eapply proper_activate | by apply extends_activate].
Qed.
Lemma lawful_runtime s m : (forall i, is_Some (m !! i) -> (i < rb_next s)%N) -> lawful s (set_runtime m s).
Proof. intros Hm [H1 H2]. split; [by split | split; [done|]]. intros k. apply extends_refl. Qed.

Inductive policy_request : Type :=
  | CreatePolicy (k : policy_kind) (tenant : uuid) (name : string)
  | CreatePolicyVersion (k : policy_kind) (tenant p : uuid) (q : VersionCreate)
  | PublishPolicyVersion (k : policy_kind) (tenant v : uuid)
  | ActivatePolicyVersion (k : policy_kind) (tenant v : uuid) (principal : string) (c : ChangeRequest)
  | EnsureLimits (tenant : uuid)
  | CreateRuntimePolicy (tenant : uuid) (q : RuntimePolicyCreate) (principal : string)
  | UpdateRuntimePolicy (tenant i : uuid) (status : option string) (definition : option pydict)
  | ActivateRuntimePolicy (tenant i : uuid) (c : ChangeRequest).

Section histories.
Variable validate : policy_kind -> pydict -> res exc pydict.
Variable validate_runtime : pydict -> res exc pydict.

Lemma lawful_answer k r : respects lawful (answer validate k r).
Proof.
  unfold answer. destruct k; try (apply respects_bind; [apply _ | apply respects_lift; apply _ | intros _]); apply respects_ret; apply _.
Qed.
Lemma lawful_create_version k t p q : respects lawful (create_policy_version validate k t p q).
Proof.
  intros s. apply (keeps_bind ruled amends); [apply lawful_owned_policy|]. intros _ r s1 (-> & Hp & _)%owned_policy_run _.
  apply (keeps_bind ruled amends); [destruct k; first [apply respects_ret; apply _ | apply respects_lift; apply _]|].
  intros _ body s1 Hb _. assert (s1 = s) as -> by (destruct k; by injection Hb as _ <-).
  apply (keeps_bind ruled amends); [by apply lawful_insert_version|]. intros _ i s1 _ _.
  apply respects_bind; [apply _ | | intros _; apply respects_ret; apply _].
  destruct k; try (apply respects_bind; [apply _ | apply respects_lift; apply _ | intros _]); apply respects_ret; apply _.
Qed.
Lemma lawful_publish k t v : respects lawful (publish_policy_version validate k t v).
Proof.
  apply respects_bind; [apply _ | apply lawful_owned_version|]. intros _. apply respects_bind; [apply _ | apply lawful_status|]. intros _ s. rewrite get_bind.
  apply respects_bind; [apply _ | apply lawful_must|]. intros r. apply lawful_answer.
Qed.
Lemma lawful_justified c : respects lawful (policy_justified c).
Proof. unfold policy_justified. destruct (String.eqb _ _); [apply respects_raise; apply _ | apply respects_ret; apply _]. Qed.
Lemma lawful_activate k t v p c : respects lawful (activate_policy_version validate k t v p c).
Proof.
  apply respects_bind; [apply _ | apply lawful_justified|]. intros _ s. apply (keeps_bind ruled amends); [apply lawful_owned_version|].
  intros _ r s1 (-> & Hr & pol & Hp & Ht)%owned_policy_version_run _. apply (keeps_bind ruled amends); [by eapply lawful_activation|].
  intros _ _ s1 _ _. apply lawful_answer.
Qed.
Lemma lawful_ensure t : respects lawful (ensure_default_published_policy_for_tenant t).
Proof.
  intros s. unfold ensure_default_published_policy_for_tenant. rewrite get_bind. apply (keeps_bind ruled amends).
  { destruct (head _); [apply (keeps_refl ruled amends) | apply lawful_insert_policy]. }
  intros Hs p s1 Hp Hs1. rewrite get_bind. destruct (existsb _ _); [apply (keeps_refl ruled amends)|].
  apply (keeps_bind ruled amends); [|intros; apply (keeps_refl ruled amends)]. apply lawful_insert_version.
  assert (Hin : exists r, (p, r) ∈ pt_policies (rb_tables s1 EXECUTION_LIMIT)).
  { destruct (head _) as [[i r]|] eqn:Eh.
    - injection Hp as <- <-. exists r. destruct (filter _ _) as [|y l] eqn:Ef; [done|]. injection Eh as ->.
      assert (Hy : (i, r) ∈ (i, r) :: l) by left. rewrite <- Ef in Hy. by apply list_elem_of_filter in Hy as [_ Hy].
    - unfold insert_policy in Hp. first_step Hp as [[i|e] s2] eqn:E; [|done]. injection Hp as <- <-. eexists. cbn. apply elem_of_app. right. left. }
  destruct Hin as [r Hin]. unfold policy_of. clear -Hin. induction (pt_policies _) as [|y l IH]; [by apply not_elem_of_nil in Hin|].
  simpl. destruct (N.eqb_spec y.1 p); [done|]. apply IH. apply elem_of_cons in Hin as [<-|]; [done | done].
Qed.

Lemma lawful_runtime_answer i : respects lawful (runtime_answer validate_runtime i).
Proof.
  intros s. unfold runtime_answer. rewrite get_bind. apply respects_bind; [apply _ | apply lawful_must|]. intros r.
  apply respects_bind; [apply _ | apply respects_lift; apply _ | intros _; apply respects_ret; apply _].
Qed.
Lemma lawful_owned_runtime t i : respects lawful (owned_runtime t i).
Proof. intros s. unfold owned_runtime. rewrite get_bind. destruct (rb_runtime s !! i); [case_bool_decide|]; apply (keeps_refl ruled amends). Qed.
Lemma lawful_create_runtime t q p : respects lawful (create_runtime_policy validate_runtime t q p).
Proof.
  apply respects_bind; [apply _ | apply respects_lift; apply _|]. intros d. apply respects_bind; [apply _ | | intros i; apply lawful_runtime_answer].
  intros s. apply (keeps_bind ruled amends); [apply lawful_id|]. intros Hs i s1 (-> & Hn & _ & Hr)%policy_id_run Hs1. cbn [mmodify mbind_ mret snd].
  apply lawful_runtime. intros j Hj. destruct (decide (j = rb_next s)) as [->|]; [lia|]. rewrite lookup_insert_ne in Hj by done. by apply (ru_runtime s1 Hs1).
Qed.
Lemma lawful_update_runtime t i st d : respects lawful (update_runtime_policy validate_runtime t i st d).
Proof.
  apply respects_bind; [apply _ | apply lawful_owned_runtime|]. intros r0. apply respects_bind; [apply _ | |].
  { destruct d; [|apply respects_ret; apply _]. apply respects_bind; [apply _ | apply respects_lift; apply _ | intros; apply respects_ret; apply _]. }
  intros o. apply respects_bind; [apply _ | | intros _; apply lawful_runtime_answer]. intros s Hs. pose proof (ru_runtime s Hs) as Hi. revert Hs. apply lawful_runtime.
  intros j Hj. apply Hi. destruct (decide (j = i)) as [->|]; [by rewrite lookup_alter_eq, fmap_is_Some in Hj | by rewrite lookup_alter_ne in Hj by done].
Qed.
Lemma lawful_activate_runtime t i c : respects lawful (activate_runtime_policy validate_runtime t i c).
Proof.
  apply respects_bind; [apply _ | apply lawful_justified|]. intros _. apply respects_bind; [apply _ | apply lawful_owned_runtime|]. intros r.
  apply respects_bind; [apply _ | apply respects_lift; apply _|]. intros _. apply respects_bind; [apply _ | | intros _; apply lawful_runtime_answer].
  intros s. unfold activate_runtime. rewrite get_bind. apply (keeps_bind ruled amends); [apply lawful_must|]. intros Hs x s1 [Hx ->]%must_run _. apply lawful_runtime.
  intros j Hj. apply (ru_runtime s Hs). destruct (decide (j = i)) as [->|]; [by rewrite Hx|]. rewrite lookup_insert_ne, lookup_fmap in Hj by done. by apply fmap_is_Some in Hj.
Qed.

(** One request, without its answer. *)
Definition serve_policies (q : policy_request) : L unit :=
  let quiet {T} (m : L T) : L unit := let* _ := m in mret tt in
  match q with
  | CreatePolicy k t n => quiet (create_policy k t n)
  | CreatePolicyVersion k t p q => quiet (create_policy_version validate k t p q)
  | PublishPolicyVersion k t v => quiet (publish_policy_version validate k t v)
  | ActivatePolicyVersion k t v p c => quiet (activate_policy_version validate k t v p c)
  | EnsureLimits t => ensure_default_published_policy_for_tenant t
  | CreateRuntimePolicy t q p => quiet (create_runtime_policy validate_runtime t q p)
  | UpdateRuntimePolicy t i st d => quiet (update_runtime_policy validate_runtime t i st d)
  | ActivateRuntimePolicy t i c => quiet (activate_runtime_policy validate_runtime t i c)
  end.
Definition after_policies (l : list policy_request) (s : rulebook) : rulebook := foldl (fun s q => (serve_policies q s).2) s l.

Lemma lawful_quiet {T} (m : L T) : respects lawful m -> respects lawful (let* _ := m in mret tt).
Proof. intros H. apply respects_bind; [apply _ | done | intros _; apply respects_ret; apply _]. Qed.
Lemma lawful_serve q : respects lawful (serve_policies q).
Proof.
  destruct q; cbn [serve_policies]; try apply lawful_quiet;
    auto using lawful_insert_policy, lawful_create_version, lawful_publish, lawful_activate, lawful_ensure, lawful_create_runtime, lawful_update_runtime,
      lawful_activate_runtime.
Qed.
Lemma lawful_after l s : lawful s (after_policies l s).
Proof. revert s. induction l as [|q l IH]; intros s; [apply (keeps_refl ruled amends)|]. simpl. etrans; [apply lawful_serve | apply IH]. Qed.
End histories.

(** ** The active version of a tenant *)

Lemma elem_of_active_policy t m v : v ∈ active_policy_versions t m <-> exists r, m !! v = Some r /\ pv_tenant r = Some t /\ pv_active r = true.
Proof. unfold active_policy_versions. rewrite elem_of_keys_where. setoid_rewrite andb_true_iff. setoid_rewrite bool_decide_eq_true. done. Qed.
Lemma active_policy_lookup next k t tenant v : proper next k t -> v ∈ active_policy_versions tenant (pt_versions t) -> active_policy_versions tenant (pt_versions t) = [v].
Proof.
  intros Ht Hv. apply only_element; [apply keys_where_nodup | done|]. apply elem_of_active_policy in Hv as (r & Hr & Hrt & Ha).
  intros w (x & Hx & Hxt & Hxa)%elem_of_active_policy. eapply (pr_one_active _ _ _ Ht); [done | done | done | done | congruence].
Qed.

(** However policies are created, versioned, published and activated, and runtime policies changed: numbers stay unique (for
    every kind with the constraint), a version keeps its policy, number and content, and for every kind a tenant has at most one
    active version, which is always readable and belongs to a policy of that tenant. *)
Theorem policy_registry validate validate_runtime l s k tenant :
  ruled s ->
  let s' := after_policies validate validate_runtime l s in
  ruled s' /\ amends s s' /\
  exists o, active_policy_version k tenant s' = Ok o /\
    match o with
    | Some v => exists r p, pt_versions (rb_tables s' k) !! v = Some r /\ pv_active r = true /\
        policy_of (pv_policy r) (rb_tables s' k) = Some p /\ po_tenant p = tenant
    | None => forall v r, pt_versions (rb_tables s' k) !! v = Some r -> pv_active r = true -> pv_tenant r <> Some tenant
    end.
Proof.
  intros Hs s'. destruct (lawful_after validate validate_runtime l s Hs) as [Hs' Ha]. fold s' in Hs', Ha. split_and!; [done | done|]. unfold active_policy_version.
  pose proof (ru_tables s' Hs' k) as Ht. destruct (active_policy_versions tenant (pt_versions (rb_tables s' k))) as [|v l'] eqn:E.
  - exists None. split; [done|]. intros v r Hr Hac Hrt. assert (Hin : v ∈ active_policy_versions tenant (pt_versions (rb_tables s' k))) by (apply elem_of_active_policy; eauto).
    rewrite E in Hin. by apply not_elem_of_nil in Hin.
  - assert (Hv : v ∈ active_policy_versions tenant (pt_versions (rb_tables s' k))) by (rewrite E; left).
    pose proof (active_policy_lookup _ _ _ _ _ Ht Hv) as E'. rewrite E in E'. rewrite E'. exists (Some v). split; [done|].
    apply elem_of_active_policy in Hv as (r & Hr & Hrt & Hac). destruct (pr_owner _ _ _ Ht v r Hr) as (p & Hp & Hpt). exists r, p. split_and!; try done.
    specialize (Hpt Hac). congruence.
Qed.

(** ** Publications decide *)

#[local] Instance geq_antisym' : AntiSymm (=) (flip Z.le).
Proof. intros a b H1 H2. unfold flip in *. lia. Qed.
#[local] Instance newer_antisym : AntiSymm (=) newer.
Proof. apply _. Qed.

(** The newest published version is the one that is read. *)
Lemma published_is_read {T} (body : pydict -> T) next t v r :
  proper next ACCESS t -> pt_versions t !! v = Some r -> pv_status r = "PUBLISHED" ->
  (forall w x, pt_versions t !! w = Some x -> pv_policy x = pv_policy r -> pv_status x = "PUBLISHED" -> newer_number (number_key (pv_number r)) (number_key (pv_number x))) ->
  get_published_policy_version (fun _ => true) ((fun kv => to_version body kv.2) <$> map_to_list (pt_versions t)) (pv_policy r) = Some (body (pv_body r)).
Proof.
  intros Ht Hr Hst Hnew. unfold get_published_policy_version. set (vs := filter _ _).
  assert (Hin : to_version body r ∈ vs).
  { apply list_elem_of_filter. split; [done|]. apply list_elem_of_fmap. exists (v, r). split; [done | by apply elem_of_map_to_list]. }
  destruct (head (sorted_by newer v_number vs)) as [y|] eqn:Eh.
  - apply sorted_head in Eh as [Hy Hall]; [|apply _..]. apply list_elem_of_filter in Hy as [(Hp & Hs & _) Hy]. apply list_elem_of_fmap in Hy as ([w x] & -> & Hx).
    apply elem_of_map_to_list in Hx. simpl in *. destruct (Hall _ Hin) as [He|Hle]; [apply (f_equal v_body) in He; simpl in He; congruence|]. specialize (Hnew w x Hx Hp Hs).
    assert (Hnum : pv_number x = pv_number r).
    { revert Hle Hnew. unfold newer, newer_number, number_key, lex, flip, to_version. simpl. destruct (pv_number x), (pv_number r). simpl. intros. f_equal; lia. }
    assert (w = v) as -> by (eapply (pr_numbers _ _ _ Ht eq_refl); [done | done | simpl; by rewrite Hp | done]). congruence.
  - exfalso. pose proof (elem_of_sorted_by newer v_number (to_version body r) vs) as Hs. destruct (sorted_by newer v_number vs); [|done].
    apply Hs in Hin. by apply not_elem_of_nil in Hin.
Qed.
Lemma publish_run validate k t v s r s' : publish_policy_version validate k t v s = (Ok r, s') ->
  pt_versions (rb_tables s' k) !! v = Some r /\ pv_status r = "PUBLISHED".
Proof.
  intros H. unfold publish_policy_version in H. first_step H as [[r0|e] s1] eqn:E1; [|done]. apply owned_policy_version_run in E1 as (-> & Hr0 & _).
  first_step H as [[x|e] s1] eqn:E2; [|done]. injection E2 as _ <-. rewrite get_bind in H. first_step H as [[r1|e] s2] eqn:E3; [|done].
  apply must_run in E3 as [E3 ->]. assert (Hans : forall s2, answer validate k r1 s2 = (Ok r, s') -> r = r1 /\ s' = s2).
  { intros s2. unfold answer. destruct k; try (by intros [= <- <-]); intros H'; (first_step H' as [[z|e] s3] eqn:Ez; [|done]); injection Ez as _ <-; by injection H' as <- <-. }
  apply Hans in H as [-> ->]. split; [done|]. cbn [rb_tables set_table] in E3. rewrite decide_True in E3 by done. cbn in E3. rewrite lookup_alter_eq, Hr0 in E3.
  by injection E3 as <-.
Qed.

(** [C9] A published access policy decides: after a version of the tenant's policy was published, and unless a newer one is, a
    request of the tenant is authorised exactly when the rules of that version allow the action and the caller's token has it among
    its scopes. *)
Theorem publication_decides validate py_str tenant v s r s' a action :
  ruled s -> publish_access_policy_version validate tenant v s = (Ok r, s') ->
  au_tenant a = Some tenant -> get_default_policy_for_tenant (default_policies ACCESS s') (Some tenant) = Some (pv_policy r) ->
  (forall w x, pt_versions (rb_tables s' ACCESS) !! w = Some x -> pv_policy x = pv_policy r -> pv_status x = "PUBLISHED" ->
     newer_number (number_key (pv_number r)) (number_key (pv_number x))) ->
  authorize py_str (default_policies ACCESS s') (policy_versions ACCESS PDict s') a action = Ok tt <->
  exists allowed, allowed_actions py_str (PDict (pv_body r)) = Ok allowed /\ action ∈ allowed /\ action ∈ au_scopes a.
Proof.
  intros Hs H Ha Hd Hnew. pose proof (lawful_publish validate ACCESS tenant v s Hs) as [Hs' _]. unfold publish_access_policy_version in H. rewrite H in Hs'. simpl in Hs'.
  apply publish_run in H as [Hr Hst]. unfold authorize. rewrite Ha, Hd. unfold policy_versions.
  rewrite (published_is_read PDict _ _ v r (ru_tables s' Hs' ACCESS) Hr Hst Hnew). destruct (allowed_actions py_str (PDict (pv_body r))) as [allowed|e]; simpl; [|naive_solver].
  unfold raise_if, is_in. split.
  - intros H. case_bool_decide; [|done]. simpl in H. case_bool_decide; [|done]. by exists allowed.
  - intros (? & [= <-] & H1 & H2). by rewrite !bool_decide_true.
Qed.

(** ** Runtime policies *)

Lemma filter_only {T} (Q : T -> Prop) `{!forall x, Decision (Q x)} l x : NoDup l -> x ∈ l -> Q x -> (forall y, y ∈ l -> Q y -> y = x) -> filter Q l = [x].
Proof.
  intros Hn Hx HQ Hall. apply only_element; [by apply NoDup_filter | by apply list_elem_of_filter|]. intros y [Hy Hin]%list_elem_of_filter. by apply Hall.
Qed.
Lemma activate_runtime_run validate_runtime tenant i c s j r s' :
  activate_runtime_policy validate_runtime tenant i c s = (Ok (j, r), s') ->
  j = i /\ rb_runtime s' !! i = Some r /\ rp_tenant r = tenant /\ rp_status r = "ACTIVE" /\
  forall k x, rb_runtime s' !! k = Some x -> same_slot x r = true -> rp_status x = "ACTIVE" -> k = i.
Proof.
  intros H. unfold activate_runtime_policy in H. first_step H as [[u|e] s1] eqn:E1; [|done].
  assert (s1 = s) as -> by (revert E1; unfold policy_justified; destruct (String.eqb _ _); [done | by intros [= _ <-]]). clear E1.
  first_step H as [[r0|e] s1] eqn:E1; [|done]. unfold owned_runtime in E1. rewrite get_bind in E1. destruct (rb_runtime s !! i) as [x|] eqn:Ei; [|done].
  case_bool_decide as Ht; [|done]. injection E1 as <- <-. first_step H as [[d|e] s1] eqn:E2; [|done]. injection E2 as _ <-.
  unfold activate_runtime in H. first_step H as [[u'|e] s1] eqn:E3; [|done]. rewrite get_bind, Ei in E3. cbn [must mbind_ mret mmodify] in E3. injection E3 as _ <-.
  unfold runtime_answer in H. rewrite get_bind in H. first_step H as [[r1|e] s1] eqn:E4; [|done]. apply must_run in E4 as [E4 ->].
  first_step H as [[d'|e] s1] eqn:E5; [|done]. injection E5 as _ <-. injection H as <- <- <-. simpl in *. rewrite lookup_insert_eq in E4. injection E4 as <-.
  split_and!; [done | by rewrite lookup_insert_eq | done | done|]. intros k y. rewrite lookup_insert_Some, lookup_fmap, fmap_Some. intros [[<- _]|[_ (z & Hz & ->)]]; [done|].
  assert (Hss : same_slot z (with_runtime "ACTIVE" (rp_definition x) x) = same_slot z x) by done.
  destruct (same_slot z x && String.eqb (rp_status z) "ACTIVE") eqn:Eb; [done|]. intros Hsl Hst. rewrite Hss in Hsl. by rewrite Hsl, Hst in Eb.
Qed.

(** A runtime policy that is activated is the one a flow runs under: the policy that was active for the flow, however many there
    were, gives way, and the flow's active policy can be read and is the new one. *)
Theorem runtime_activation validate_runtime tenant i c s j r s' f :
  activate_runtime_policy validate_runtime tenant i c s = (Ok (j, r), s') -> rp_scope r = "FLOW" -> rp_flow r = Some f ->
  get_active_flow_policy tenant f s' = Ok (Some (i, r)).
Proof.
  intros (_ & Hr & Ht & Hst & Hall)%activate_runtime_run Hsc Hf. unfold get_active_flow_policy. rewrite (filter_only _ _ (i, r)); [done | apply NoDup_map_to_list |
    by apply elem_of_map_to_list | done|]. intros [k x] Hin (H1 & H2 & H3 & H4). apply elem_of_map_to_list in Hin. simpl in *.
  assert (k = i) as ->; [|congruence]. eapply Hall; [done | | done]. unfold same_slot. apply bool_decide_eq_true. split_and!; congruence.
Qed.

(** ** A rulebook *)

Module rulings.
Definition accept (_ : policy_kind) (d : pydict) : res exc pydict := Ok d.
Definition accept_runtime (d : pydict) : res exc pydict := Ok d.
Definition blank : rulebook := {| rb_next := 10%N; rb_tables := fun _ => {| pt_policies := []; pt_versions := ∅ |}; rb_runtime := ∅ |}.
Lemma ruled_blank : ruled blank.
Proof.
  split; [|by intros i [r Hr]]. intros k. split; simpl; try done. split; [by intros i r ?%not_elem_of_nil | by intros v [r Hr]].
Qed.
Abbreviation after_ := (after_policies accept accept_runtime).
Definition why : ChangeRequest := {| change_type := "UPDATE"; justification := "audit" |}.
Definition version_of (major : Z) (body : pydict) : VersionCreate :=
  {| pq_status := "DRAFT"; pq_number := {| vn_major := major; vn_minor := 0; vn_patch := 0 |}; pq_body := body |}.
(** Tenant 7 has access policy 10 with draft 11, and memory policy 12 with drafts 13 and 14, of which 14 is active. *)
Definition story : list policy_request :=
  [CreatePolicy ACCESS 7 "main"; CreatePolicyVersion ACCESS 7 10 (version_of 1 [("allow", PList [PStr "flow.run"])]);
   CreatePolicy MEMORY 7 "memory"; CreatePolicyVersion MEMORY 7 12 (version_of 1 []); CreatePolicyVersion MEMORY 7 12 (version_of 2 []);
   ActivatePolicyVersion MEMORY 7 13 "ann" why; ActivatePolicyVersion MEMORY 7 14 "ann" why]%N.
Definition book : rulebook := after_ story blank.

Lemma policy_registry_witness :
  let s' := after_ story blank in
  ruled s' /\ amends blank s' /\
  exists o, active_policy_version MEMORY 7 s' = Ok o /\
    match o with
    | Some v => exists r p, pt_versions (rb_tables s' MEMORY) !! v = Some r /\ pv_active r = true /\
        policy_of (pv_policy r) (rb_tables s' MEMORY) = Some p /\ po_tenant p = 7%N
    | None => forall v r, pt_versions (rb_tables s' MEMORY) !! v = Some r -> pv_active r = true -> pv_tenant r <> Some 7%N
    end.
Proof. apply (policy_registry accept accept_runtime story blank MEMORY 7%N). apply ruled_blank. Defined.
(** A draft can be activated. *)
Example draft_is_active : active_policy_version MEMORY 7 book = Ok (Some 14%N) /\ pv_status <$> pt_versions (rb_tables book MEMORY) !! 14%N = Some "DRAFT".
Proof. vm_compute. done. Qed.

Definition caller : AuthContext := {| au_tenant := Some 7%N; au_principal_type := "user"; au_principal_id := "ann"; au_scopes := ["flow.run"; "flow.edit"];
  au_token_issuer := "core"; au_token_audience := "core"; au_expires_at := 9999999999 |}.
Definition no_str (_ : pyval) : string := "".
Definition rules : policy_version := {| pv_policy := 10%N; pv_status := "PUBLISHED"; pv_number := {| vn_major := 1; vn_minor := 0; vn_patch := 0 |};
  pv_body := [("allow", PList [PStr "flow.run"])]; pv_created := 11; pv_tenant := None; pv_active := false; pv_activation := None |}.
Example published : (publish_access_policy_version accept 7 11 book).1 = Ok rules.
Proof. vm_compute. reflexivity. Qed.
Lemma publication_decides_witness :
  let s' := (publish_access_policy_version accept 7 11 book).2 in
  authorize no_str (default_policies ACCESS s') (policy_versions ACCESS PDict s') caller "flow.edit" = Ok tt <->
  exists allowed, allowed_actions no_str (PDict [("allow", PList [PStr "flow.run"])]) = Ok allowed /\ "flow.edit" ∈ allowed /\ "flow.edit" ∈ au_scopes caller.
Proof.
  apply (publication_decides accept no_str 7 11 book rules (publish_access_policy_version accept 7 11 book).2 caller "flow.edit").
  - apply lawful_after, ruled_blank.
  - rewrite (surjective_pairing (publish_access_policy_version accept 7 11 book)) at 1. by rewrite published.
  - reflexivity.
  - vm_compute. reflexivity.
  - intros w x Hx _ _. assert (Hall : map_to_list (pt_versions (rb_tables (publish_access_policy_version accept 7 11 book).2 ACCESS)) = [(11%N, rules)])
      by (vm_compute; reflexivity).
    apply elem_of_map_to_list in Hx. rewrite Hall in Hx. apply list_elem_of_singleton in Hx as [= -> ->]. unfold newer_number, number_key, lex, flip. simpl. lia.
Defined.

Definition flow_policy : RuntimePolicyCreate := {| rc_scope := "FLOW"; rc_flow := Some 3%N; rc_number := "1"; rc_definition := [] |}.
Definition two_policies : rulebook := after_ [CreateRuntimePolicy 7 flow_policy "ann"; CreateRuntimePolicy 7 flow_policy "ann"; ActivateRuntimePolicy 7 10 why]%N blank.
Definition ruling : runtime_policy := {| rp_tenant := 7%N; rp_scope := "FLOW"; rp_flow := Some 3%N; rp_version := "1"; rp_status := "ACTIVE"; rp_definition := [];
  rp_author := "ann" |}.
Lemma runtime_activation_witness : get_active_flow_policy 7 3 (activate_runtime_policy accept_runtime 7 11 why two_policies).2 = Ok (Some (11%N, ruling)).
Proof.
  apply (runtime_activation accept_runtime 7 11 why two_policies 11 ruling); [|reflexivity | reflexivity].
  rewrite (surjective_pairing (activate_runtime_policy accept_runtime 7 11 why two_policies)) at 1.
  replace (activate_runtime_policy accept_runtime 7 11 why two_policies).1 with (Ok (E := exc) (11%N, ruling)) by (vm_compute; reflexivity). reflexivity.
Defined.
(** An update can make a second policy active: then no policy can be read. *)
Example second_active_policy : get_active_flow_policy 7 3 (after_ [UpdateRuntimePolicy 7 11 (Some "ACTIVE") None] two_policies)
  = Err (ExternalError "MultipleResultsFound" "").
Proof. vm_compute. reflexivity. Qed.
(** Two policies for the tenant that name different flows are both active. *)
Definition tenant_policy (f : uuid) : RuntimePolicyCreate := {| rc_scope := "TENANT"; rc_flow := Some f; rc_number := "1"; rc_definition := [] |}.
Example two_tenant_policies : get_active_tenant_policy 7 (after_ [CreateRuntimePolicy 7 (tenant_policy 3) "ann"; CreateRuntimePolicy 7 (tenant_policy 4) "ann";
  ActivateRuntimePolicy 7 10 why; ActivateRuntimePolicy 7 11 why] blank)%N = Err (ExternalError "MultipleResultsFound" "").
Proof. vm_compute. reflexivity. Qed.
(** Billing versions may share a number. *)
Example billing_numbers_repeat :
  let s := after_ [CreatePolicy BILLING 7 "b"; CreatePolicyVersion BILLING 7 10 (version_of 1 []); CreatePolicyVersion BILLING 7 10 (version_of 1 [])]%N blank in
  pv_number <$> pt_versions (rb_tables s BILLING) !! 11%N = pv_number <$> pt_versions (rb_tables s BILLING) !! 12%N.
Proof. vm_compute. reflexivity. Qed.
End rulings.
