(* ===== verification/Auth.v ===== *)
(** * Auth: credentials, tenant tokens and tenants

    [src/src/utils/auth.py] (bearer tokens, inbound service keys and the administrator's key), [src/src/domain/auth/] (the tokens and
    keys a tenant's services use) and [src/src/domain/tenants/] (the tenants themselves), with the checks of their routes.

    The encoding and verification of JSON web tokens, SHA-256 and the generator of secrets are parameters; the times of the process
    are microseconds.  The status codes that some exceptions override and [request.state] are left out. *)

From S2P Require Import Prelude.
From S2P Require Import Errors.
From S2P Require Import PyValue.
From S2P Require Import PyString.
From S2P Require Import Sorting.
From S2P Require Import Effects.
From S2P Require Import Store.
From S2P Require Import Redis.
From S2P Require Import Governance.
From S2P Require Import FlowAuthoring.
From S2P Require Import Versions.
From S2P Require Import Policies.

(** ** Tables *)

Record TenantCreate : Type := {
  tn_name : string;
  tn_external : option uuid;
  tn_description : option string;
  tn_timezone : string;
  tn_is_active : bool;
  tn_currency : string;
  tn_language : string;
  tn_contact_name : option string;
  tn_contact_phone : option string;
  tn_settings : option pydict;
}.
Record service_key : Type := {
  sk_tenant : uuid;
  sk_hash : string;
  sk_revoked : option Z;
}.
(** The tables, the clock of the process, its own rate store and the services it calls. *)
Record front : Type := {
  fd_next : uuid;
  fd_now : Z;
  fd_tenants : gmap uuid TenantCreate;
  fd_keys : gmap uuid service_key;
  fd_events : list authoring_event;
  fd_rates : gmap string (list Z);
  fd_redis : redis;
  fd_rules : rulebook;
}.
Definition set_fd_next v s := Build_front v (fd_now s) (fd_tenants s) (fd_keys s) (fd_events s) (fd_rates s) (fd_redis s) (fd_rules s).
Definition set_fd_now v s := Build_front (fd_next s) v (fd_tenants s) (fd_keys s) (fd_events s) (fd_rates s) (fd_redis s) (fd_rules s).
Definition set_tenants v s := Build_front (fd_next s) (fd_now s) v (fd_keys s) (fd_events s) (fd_rates s) (fd_redis s) (fd_rules s).
Definition set_keys v s := Build_front (fd_next s) (fd_now s) (fd_tenants s) v (fd_events s) (fd_rates s) (fd_redis s) (fd_rules s).
Definition set_front_events v s := Build_front (fd_next s) (fd_now s) (fd_tenants s) (fd_keys s) v (fd_rates s) (fd_redis s) (fd_rules s).
Definition set_rates v s := Build_front (fd_next s) (fd_now s) (fd_tenants s) (fd_keys s) (fd_events s) v (fd_redis s) (fd_rules s).
Definition set_fd_redis v s := Build_front (fd_next s) (fd_now s) (fd_tenants s) (fd_keys s) (fd_events s) (fd_rates s) v (fd_rules s).
Definition set_fd_rules v s := Build_front (fd_next s) (fd_now s) (fd_tenants s) (fd_keys s) (fd_events s) (fd_rates s) (fd_redis s) v.

Abbreviation F := (M front).
Definition front_id : F uuid := fun s => (Ok (fd_next s), set_fd_next (fd_next s + 1)%N s).
Definition via_redis {T} (m : M redis T) : F T := fun s => let (r, x) := m (fd_redis s) in (r, set_fd_redis x s).
Definition via_rules {T} (m : M rulebook T) : F T := fun s => let (r, x) := m (fd_rules s) in (r, set_fd_rules x s).
Definition record_event (tenant : uuid) (resource : string) (id : uuid) (type change principal why : string) : F unit :=
  mmodify (fun s => set_front_events (fd_events s ++ [{| ae_tenant := tenant; ae_resource := resource; ae_resource_id := id; ae_version := None;
    ae_type := type; ae_change := change; ae_principal := principal; ae_justification := why |}]) s).

Definition MICROSECONDS : Z := 1000000.
(** [int(time.time())]. *)
Definition seconds (s : front) : Z := fd_now s / MICROSECONDS.

(** ** Text *)

Definition word (cur : list string) : list string := match cur with [] => [] | _ => [str_concat cur] end.
(** [s.split()]. *)
Fixpoint words_from (cur l : list string) : list string :=
  match l with
  | [] => word cur
  | c :: l' => if is_space c then word cur ++ words_from [] l' else words_from (cur ++ [c]) l'
  end.
Definition py_words (s : string) : list string := words_from [] (utf8_chars s).

Definition is_ascii_text (s : string) : bool := forallb (fun a => (Ascii.N_of_ascii a <? 128)%N) (String.list_ascii_of_string s).
(** [secrets.compare_digest] of texts. *)
Definition compare_digest (a b : string) : res exc bool :=
  if is_ascii_text a && is_ascii_text b then Ok (String.eqb a b) else Err PyTypeError.

(** ** The scopes of the modelled routes *)

Definition TenantsCreate : string := "tenants:create".
Definition ExecutionFlowRunCreate : string := "execution:flow_run:create".
Definition ConversationTurnCreate : string := "conversation:turn:create".
Definition NON_DELEGABLE_SCOPES : list string := [TenantsCreate].
Definition ADMIN_PRINCIPAL_ID : string := "admin".
Definition TENANT_TOKEN_RATE_WINDOW_SECONDS : Z := 300.
Definition TENANT_TOKEN_RATE_MAX_REQUESTS : Z := 20.

Section auth.
Variables JWT_SECRET JWT_ISSUER JWT_AUDIENCE ADMIN_API_KEY : string.
Variables JWT_LEEWAY_SECONDS JWT_TENANT_TOKEN_EXPIRES_SECONDS : Z.
(** [jwt.encode] with the secret and the algorithm, and [jwt.decode] at a time: [None] is a [JWTError]. *)
Variable jwt_encode : pydict -> string.
Variable jwt_decode : string -> Z -> option pydict.
Variable sha256_hex : string -> string.
Variable uuid_str : uuid -> string.
Variable uuid_parse : string -> option uuid.
Variable py_str : pyval -> string.
Variable int_of_string : string -> option Z.
Variables has_cache silent_mode : bool.

(** ** Callers *)

Definition refuse {T} (m : string) : res exc T := Err (AuthenticationFailedException m).
Definition forbid {T} (m : string) : res exc T := Err (AuthorizationDeniedException m).

(** The claims of a token, in the order they are checked. *)
Definition claim_expiry (v : pyval) : res exc Z :=
  match py_int int_of_string v with
  | Ok z => Ok z
  | Err PyTypeError | Err PyValueError => refuse "token_exp_required"
  | Err e => Err e
  end.
Definition claim_scopes (v : pyval) : res exc (list string) :=
  let! l := (match v with
             | PNone => forbid "scopes_claim_required"
             | PStr s => Ok (py_words s)
             | PList l => Ok (filter (fun x => py_strip x <> "") (str_of py_str <$> l))
             | _ => forbid "scopes_claim_invalid"
             end) in
  match l with [] => forbid "scopes_claim_empty" | _ => Ok (fromkeys l) end.
Definition claim_tenant (scopes : list string) (v : pyval) : res exc (option uuid) :=
  match v with
  | PNone => if bool_decide (TenantsCreate ∈ scopes) then Ok None else forbid "tenant_id_claim_required"
  | _ => match uuid_parse (str_of py_str v) with Some t => Ok (Some t) | None => forbid "tenant_id_claim_invalid" end
  end.
(** Lists and dicts are not hashable. *)
Definition claim_principal_type (v : pyval) : res exc string :=
  match v with
  | PStr s => if bool_decide (s ∈ ["human"; "machine"]) then Ok s else forbid "principal_type_claim_required"
  | PList _ | PDict _ => Err PyTypeError
  | _ => forbid "principal_type_claim_required"
  end.
Definition claim_principal_id (v : pyval) : res exc string :=
  match v with
  | PNone => forbid "principal_id_claim_required"
  | _ => if String.eqb (py_strip (str_of py_str v)) "" then forbid "principal_id_claim_required" else Ok (str_of py_str v)
  end.

(** What [HTTPBearer] found: the scheme and the token. *)
Definition credentials : Type := option (string * string).
Definition _jwt_auth_context_from_bearer (now : Z) (c : credentials) : res exc AuthContext :=
  match c with
  | None => refuse "missing_bearer_token"
  | Some (scheme, token) =>
      if negb (String.eqb (str_lower scheme) "bearer") then refuse "missing_bearer_token"
      else if String.eqb JWT_SECRET "" then refuse "auth_not_configured"
      else if String.eqb JWT_ISSUER "" || String.eqb JWT_AUDIENCE "" then refuse "jwt_issuer_audience_not_configured"
      else
        match jwt_decode token now with
        | None => refuse "invalid_token"
        | Some payload =>
            let issuer := dict_getv "iss" payload in
            if bool_decide (issuer = PNone) || negb (String.eqb (str_of py_str issuer) JWT_ISSUER) then refuse "invalid_token_issuer"
            else
              let audience := match dict_getv "aud" payload with PNone => "" | v => str_of py_str v end in
              if String.eqb audience "" || negb (String.eqb audience JWT_AUDIENCE) then refuse "invalid_token_audience"
              else
                let! exp := claim_expiry (dict_getv "exp" payload) in
                if (exp + JWT_LEEWAY_SECONDS <=? now)%Z then refuse "token_expired"
                else
                  let! scopes := claim_scopes (dict_getv "scopes" payload) in
                  let! tenant := claim_tenant scopes (dict_getv "tenant_id" payload) in
                  let! type := claim_principal_type (dict_getv "principal_type" payload) in
                  let! principal := claim_principal_id (or_else (dict_getv "principal_id" payload) (dict_getv "sub" payload)) in
                  Ok {| au_tenant := tenant; au_principal_type := type; au_principal_id := principal; au_scopes := scopes;
                        au_token_issuer := str_of py_str issuer; au_token_audience := audience; au_expires_at := exp |}
        end
  end.

Definition get_auth_context (c : credentials) : F AuthContext :=
  let* s := mget in mlift (_jwt_auth_context_from_bearer (seconds s) c).

(** [find_active_by_key_hash]. *)
Definition active_keys (h : string) (s : front) : list uuid :=
  keys_where (fun r => String.eqb (sk_hash r) h && bool_decide (sk_revoked r = None)) (fd_keys s).
Definition find_active_by_key_hash (h : string) (s : front) : res exc (option (uuid * service_key)) :=
  let! o := one_or_none (active_keys h s) in
  Ok (i ← o; r ← fd_keys s !! i; Some (i, r)).

(** [(request.headers.get(name) or "").strip()]. *)
Definition header_text (h : option string) : string := py_strip (default "" h).

Definition get_tenant_token_m2m_auth (body : option uuid) (header : option string) (c : credentials) : F AuthContext :=
  let inbound := header_text header in
  let* s := mget in
  if String.eqb inbound "" then mlift (_jwt_auth_context_from_bearer (seconds s) c)
  else
    let* row := mlift (find_active_by_key_hash (sha256_hex inbound) s) in
    match row with
    | None => mlift (refuse "invalid_inbound_service_key")
    | Some (i, r) =>
        if bool_decide (is_Some body /\ body <> Some (sk_tenant r)) then mlift (forbid "inbound_key_tenant_mismatch")
        else if String.eqb JWT_ISSUER "" || String.eqb JWT_AUDIENCE "" then mlift (refuse "jwt_issuer_audience_not_configured")
        else mret {| au_tenant := Some (sk_tenant r); au_principal_type := "machine"; au_principal_id := uuid_str i;
                     au_scopes := [TenantsCreate; ExecutionFlowRunCreate]; au_token_issuer := JWT_ISSUER; au_token_audience := JWT_AUDIENCE;
                     au_expires_at := (seconds s + 3600)%Z |}
    end.

Definition get_auth_context_or_api_key (header : option string) (c : credentials) : F AuthContext :=
  let inbound := header_text header in
  let* s := mget in
  if String.eqb inbound "" then mlift (_jwt_auth_context_from_bearer (seconds s) c)
  else
    let* row := mlift (find_active_by_key_hash (sha256_hex inbound) s) in
    match row with
    | None => mlift (refuse "invalid_inbound_service_key")
    | Some (i, r) =>
        mret {| au_tenant := Some (sk_tenant r); au_principal_type := "machine"; au_principal_id := uuid_str i;
                au_scopes := [ConversationTurnCreate; ExecutionFlowRunCreate]; au_token_issuer := JWT_ISSUER; au_token_audience := JWT_AUDIENCE;
                au_expires_at := (seconds s + 3600)%Z |}
    end.

Definition get_admin_auth (header : option string) : F unit :=
  if String.eqb ADMIN_API_KEY "" then mlift (refuse "admin_endpoint_not_configured")
  else
    let provided := header_text header in
    if String.eqb provided "" then mlift (refuse "invalid_admin_key")
    else
      let* same := mlift (compare_digest provided ADMIN_API_KEY) in
      if same then mret tt else mlift (refuse "invalid_admin_key").

(** ** The rate of issued tokens *)

Definition too_many : exc := RateLimitExceededException "tenant_token_rate_limit".
(** [[t for t in _rate_store[principal] if t > cutoff]]. *)
Definition recent (now : Z) (l : list Z) : list Z := filter (fun t => (now - TENANT_TOKEN_RATE_WINDOW_SECONDS * MICROSECONDS < t)%Z) l.
Definition _check_local_rate_limit (principal : string) : F unit :=
  let* s := mget in
  let l := recent (fd_now s) (default [] (fd_rates s !! principal)) in
  mmodify (set_rates (<[principal := l]> (fd_rates s))) ;;*
  if (TENANT_TOKEN_RATE_MAX_REQUESTS <=? Z.of_nat (length l))%Z then mraise too_many
  else mmodify (set_rates (<[principal := l ++ [fd_now s]]> (fd_rates s))).

Definition rate_entry (principal : string) : string := "auth:tenant_token_rate:" +:+ principal.
(** A [bool] is an [int], so that the answer of a silent failure is one too. *)
Definition _check_rate_limit (principal : string) : F unit :=
  if negb has_cache then _check_local_rate_limit principal
  else
    let* used := via_redis (incr_with_ttl silent_mode (rate_entry principal) TENANT_TOKEN_RATE_WINDOW_SECONDS) in
    match used with
    | PInt z => if (TENANT_TOKEN_RATE_MAX_REQUESTS <? z)%Z then mraise too_many else mret tt
    | PBool _ => mret tt
    | _ => _check_local_rate_limit principal
    end.

(** ** [AuthService] *)

Definition get_tenant (t : uuid) : F TenantCreate :=
  let* s := mget in
  match fd_tenants s !! t with Some x => mret x | None => mraise (NotFoundServiceException "tenant_not_found") end.

Definition delegated_scopes (a : AuthContext) : list string :=
  sorted_by String.le id (filter (fun x => x ∉ NON_DELEGABLE_SCOPES) (au_scopes a)).
Definition token_payload (exp : Z) (tenant : uuid) (a : AuthContext) : pydict :=
  [("iss", PStr JWT_ISSUER); ("aud", PStr JWT_AUDIENCE); ("exp", PInt exp); ("tenant_id", PStr (uuid_str tenant));
   ("principal_id", PStr (au_principal_id a)); ("principal_type", PStr (au_principal_type a));
   ("scopes", PList (PStr <$> delegated_scopes a)); ("sub", PStr (au_principal_id a))].
Record TenantTokenResponse : Type := {
  access_token : string;
  expires_in : Z;
}.
Definition issue_tenant_token (tenant : uuid) (a : AuthContext) : F TenantTokenResponse :=
  _check_rate_limit (au_principal_id a) ;;*
  get_tenant tenant ;;*
  let* s := mget in
  if String.eqb JWT_SECRET "" || String.eqb JWT_ISSUER "" || String.eqb JWT_AUDIENCE "" then mlift (refuse "auth_not_configured")
  else
    let token := jwt_encode (token_payload (seconds s + JWT_TENANT_TOKEN_EXPIRES_SECONDS) tenant a) in
    record_event tenant "tenant" tenant "TENANT_TOKEN_ISSUED" "CREATE" (au_principal_id a) "tenant token issued" ;;*
    mret {| access_token := token; expires_in := JWT_TENANT_TOKEN_EXPIRES_SECONDS |}.

(** [insert_key]: hashes are unique. *)
Definition insert_key (tenant : uuid) (h : string) : F uuid :=
  let* s := mget in
  let* i := front_id in
  if bool_decide (keys_where (fun r => String.eqb (sk_hash r) h) (fd_keys s) = [])
  then mmodify (fun s => set_keys (<[i := {| sk_tenant := tenant; sk_hash := h; sk_revoked := None |}]> (fd_keys s)) s) ;;* mret i
  else mraise (ExternalError "IntegrityError" "uq_tenant_inbound_service_key_hash").

(** [secret] is what [secrets.token_urlsafe] gave. *)
Definition create_inbound_service_key (tenant : uuid) (a : AuthContext) (secret : string) : F (uuid * uuid * string) :=
  get_tenant tenant ;;*
  let* i := insert_key tenant (sha256_hex secret) in
  record_event tenant "tenant_inbound_service_key" i "TENANT_INBOUND_SERVICE_KEY_CREATED" "CREATE" (au_principal_id a) "inbound service key created" ;;*
  mret (i, tenant, secret).

Definition revoke_key (i tenant : uuid) : F bool :=
  let* s := mget in
  match fd_keys s !! i with
  | Some r =>
      if bool_decide (sk_tenant r = tenant /\ sk_revoked r = None)
      then mmodify (fun s => set_keys (<[i := {| sk_tenant := sk_tenant r; sk_hash := sk_hash r; sk_revoked := Some (fd_now s) |}]> (fd_keys s)) s) ;;* mret true
      else mret false
  | None => mret false
  end.
Definition revoke_inbound_service_key (i tenant : uuid) (a : AuthContext) : F unit :=
  let* ok := revoke_key i tenant in
  if ok : bool
  then record_event tenant "tenant_inbound_service_key" i "TENANT_INBOUND_SERVICE_KEY_REVOKED" "UPDATE" (au_principal_id a) "inbound service key revoked"
  else mraise (NotFoundServiceException "inbound_service_key_not_found").

(** ** [TenantsService] *)

(** Both the look-up by external id and its unique index. *)
Definition with_external (e : uuid) (s : front) : list uuid :=
  keys_where (fun r => bool_decide (tn_external r = Some e)) (fd_tenants s).
Definition get_tenant_by_external_id (e : uuid) : F (option uuid) := fun s => (one_or_none (with_external e s), s).
Definition create_tenant (q : TenantCreate) : F uuid :=
  let* s := mget in
  let* i := front_id in
  if bool_decide (tn_external q = None \/ (e ← tn_external q; head (with_external e s)) = None)
  then mmodify (fun s => set_tenants (<[i := q]> (fd_tenants s)) s) ;;* mret i
  else mraise (ExternalError "IntegrityError" "uq_tenant_external_id").

(** The answer says whether the tenant is new. *)
Definition new_tenant (q : TenantCreate) (principal : string) : F (uuid * TenantCreate * bool) :=
  let* i := create_tenant q in
  via_rules (ensure_default_published_policy_for_tenant i) ;;*
  record_event i "tenant" i "TENANT_CREATED" "CREATE" principal "create tenant" ;;*
  mret (i, q, true).
Definition TenantsService_create (q : TenantCreate) (principal : string) : F (uuid * TenantCreate * bool) :=
  let* existing := (match tn_external q with Some e => get_tenant_by_external_id e | None => mret None end) in
  match existing with
  | Some i =>
      via_rules (ensure_default_published_policy_for_tenant i) ;;*
      let* t := get_tenant i in
      mret (i, t, false)
  | None => new_tenant q principal
  end.
Definition get_current (t : uuid) : F (uuid * TenantCreate) := let* x := get_tenant t in mret (t, x).
Definition get_settings (t : uuid) : F (uuid * option pydict) := let* x := get_tenant t in mret (t, tn_settings x).

(** ** Routes *)

Definition has_scope (a : AuthContext) : F unit :=
  if bool_decide (TenantsCreate ∈ au_scopes a) then mret tt else mlift (forbid "insufficient_scope").
Definition own_tenant (a : AuthContext) (t : uuid) : F unit :=
  if bool_decide (is_Some (au_tenant a) /\ au_tenant a <> Some t) then mlift (forbid "tenant_scope_mismatch") else mret tt.

Definition post_tenant_token (body : option uuid) (header : option string) (c : credentials) : F TenantTokenResponse :=
  let* a := get_tenant_token_m2m_auth body header c in
  has_scope a ;;*
  if bool_decide (is_Some (au_tenant a) /\ is_Some body /\ body <> au_tenant a) then mlift (forbid "tenant_scope_mismatch")
  else match (match body with Some t => Some t | None => au_tenant a end) with
       | None => mraise (RouterValidationException "tenant_id_required")
       | Some t => issue_tenant_token t a
       end.
Definition post_inbound_service_key (t : uuid) (secret : string) (c : credentials) : F (uuid * uuid * string) :=
  let* a := get_auth_context c in
  has_scope a ;;*
  own_tenant a t ;;*
  create_inbound_service_key t a secret.
Definition post_revoke (i t : uuid) (c : credentials) : F unit :=
  let* a := get_auth_context c in
  has_scope a ;;*
  own_tenant a t ;;*
  revoke_inbound_service_key i t a.
Definition admin_auth : AuthContext := {| au_tenant := None; au_principal_type := "machine"; au_principal_id := ADMIN_PRINCIPAL_ID;
  au_scopes := [TenantsCreate]; au_token_issuer := "admin"; au_token_audience := "admin"; au_expires_at := 0 |}.
Definition create_admin_api_key (t : uuid) (secret : string) (header : option string) : F (uuid * uuid * string) :=
  get_admin_auth header ;;*
  create_inbound_service_key t admin_auth secret.
Definition post_tenant (q : TenantCreate) (c : credentials) : F (uuid * TenantCreate * bool) :=
  let* a := get_auth_context c in
  has_scope a ;;*
  TenantsService_create q (au_principal_id a).

Definition get_current_route (c : credentials) : F (uuid * TenantCreate) :=
  let* a := get_auth_context c in
  match au_tenant a with Some t => get_current t | None => mlift (forbid "tenant_id_required") end.
Definition get_settings_route (c : credentials) : F (uuid * option pydict) :=
  let* a := get_auth_context c in
  match au_tenant a with Some t => get_settings t | None => mlift (forbid "tenant_id_required") end.

(** Time passes, on the server of the cache too. *)
Definition pass (d : Z) (s : front) : front :=
  let later := set_fd_now (fd_now s + d)%Z s in
  set_fd_redis (tick (seconds later - seconds s)%Z (fd_redis s)) later.

(** What clients do, with the time that passes between their requests. *)
Inductive auth_request : Type :=
  | IssueToken (body : option uuid) (header : option string) (c : credentials)
  | CreateKey (t : uuid) (secret : string) (c : credentials)
  | RevokeKey (i t : uuid) (c : credentials)
  | CreateAdminKey (t : uuid) (secret : string) (header : option string)
  | CreateTenant (q : TenantCreate) (c : credentials)
  | Wait (d : Z).
Definition serve_auth (q : auth_request) : F unit :=
  match q with
  | IssueToken b h c => post_tenant_token b h c ;;* mret tt
  | CreateKey t x c => post_inbound_service_key t x c ;;* mret tt
  | RevokeKey i t c => post_revoke i t c
  | CreateAdminKey t x h => create_admin_api_key t x h ;;* mret tt
  | CreateTenant q c => post_tenant q c ;;* mret tt
  | Wait d => mmodify (pass (Z.max 0 d))
  end.
Definition after_auth (l : list auth_request) (s : front) : front := foldl (fun s q => (serve_auth q s).2) s l.
End auth.
