(* ===== verification/AuthFacts.v ===== *)
(** * AuthFacts: what credentials can and cannot do

    The round trip of a tenant token, its finality, the life of service keys, and the bound on the rate of issued tokens. *)

From Stdlib Require Import Ascii.
From S2P Require Import Prelude.
From S2P Require Import Errors.
From S2P Require Import PyValue.
From S2P Require Import PyString.
From S2P Require Import Sorting.
From S2P Require Import Effects.
From S2P Require Import Store.
From S2P Require Import Redis.
From S2P Require Import Governance.
From S2P Require Import FlowAuthoring.
From S2P Require Import Versions.
From S2P Require Import Policies.
From S2P Require Import Auth.

(** ** Words *)

Definition one_char (c : string) : Prop := utf8_chars c = [c] /\ c <> "".

Lemma chars_are_chars s : Forall one_char (utf8_chars s) /\ Forall (fun c => starts_inside c = false) (tail (utf8_chars s)).
Proof.
  induction s as [|a [|b s] IH]; [repeat constructor; done | repeat constructor; done|]. rewrite utf8_chars_cons.
  destruct (utf8_chars (String b s)) as [|c cs] eqn:E; [by apply utf8_chars_nil in E|]. destruct IH as [H1 H2].
  apply Forall_cons in H1 as [[Hc Hn] H1]. simpl in H2.
  assert (Hb : exists c', c = String b c').
  { destruct s as [|b' s]; [simpl in E; injection E as <- _; by exists ""|]. rewrite utf8_chars_cons in E.
    destruct (utf8_chars (String b' s)) as [|d ds]; [injection E as <- _; by exists ""|]. destruct (is_cont_byte b'); injection E as <- _; eauto. }
  destruct Hb as [c' ->]. destruct (is_cont_byte b) eqn:Eb.
  - split; [|done]. constructor; [|done]. split; [|done]. rewrite utf8_chars_cons, Hc, Eb. done.
  - split; [constructor; [repeat constructor; done | by constructor]|]. constructor; [simpl; by rewrite Eb | done].
Qed.

Lemma concat_chars l : Forall one_char l -> Forall (fun c => starts_inside c = false) (tail l) -> utf8_chars (str_concat l) = l.
Proof.
  induction l as [|c l IH]; intros H1 H2; [done|]. apply Forall_cons in H1 as [[Hc Hn] H1]. simpl in H2.
  change (str_concat (c :: l)) with (c +:+ str_concat l). rewrite utf8_chars_app, Hc, IH; [done | done | |].
  - by destruct l; [|apply Forall_cons in H2 as [_ H2]].
  - destruct l as [|d l]; [done|]. apply Forall_cons in H2 as [H2 _]. apply Forall_cons in H1 as [[_ Hd] _].
    destruct d as [|x d]; [done|]. by simpl in *.
Qed.

Lemma drop_while_none {T} (f : T -> bool) l : Forall (fun x => f x = false) l -> drop_while f l = l.
Proof. destruct 1 as [|x l H _]; simpl; [done|]. by rewrite H. Qed.

Lemma filter_everything {T} (P : T -> Prop) `{!forall x, Decision (P x)} l : Forall P l -> filter P l = l.
Proof. induction 1 as [|x l Hx _ IH]; [done|]. by rewrite filter_cons_True, IH. Qed.

Definition blank (s : string) : Prop := py_strip s = "".

Lemma word_not_blank l w : Forall one_char l -> Forall (fun c => starts_inside c = false) (tail l) -> Forall (fun c => is_space c = false) l ->
  w ∈ word l -> ~ blank w.
Proof.
  intros H1 H2 H3 Hw. destruct l as [|c l]; [by apply not_elem_of_nil in Hw|]. apply list_elem_of_singleton in Hw as ->.
  unfold blank, py_strip. rewrite (concat_chars _ H1 H2), (drop_while_none _ (c :: l)) by done.
  rewrite drop_while_none by by apply Forall_reverse. rewrite reverse_involutive.
  change (str_concat (c :: l)) with (c +:+ str_concat l). apply Forall_cons in H1 as [[_ Hc] _]. by destruct c.
Qed.

Lemma words_from_not_blank l : forall cur w,
  Forall one_char (cur ++ l) -> Forall (fun c => starts_inside c = false) (tail (cur ++ l)) -> Forall (fun c => is_space c = false) cur ->
  w ∈ words_from cur l -> ~ blank w.
Proof.
  induction l as [|c l IH]; intros cur w H1 H2 H3 Hw; simpl in Hw.
  - rewrite app_nil_r in H1, H2. by eapply word_not_blank.
  - destruct (is_space c) eqn:Ec.
    + apply elem_of_app in Hw as [Hw|Hw].
      * apply Forall_app in H1 as [H1 _]. eapply (word_not_blank cur); try done. by destruct cur; [|apply Forall_app in H2 as [H2 _]].
      * apply (IH [] w); [| |constructor | done].
        -- apply Forall_app in H1 as [_ H1]. by apply Forall_cons in H1 as [_ H1].
        -- assert (Hl : Forall (fun c => starts_inside c = false) l)
             by (destruct cur; [done|]; apply Forall_app in H2 as [_ H2]; by apply Forall_cons in H2 as [_ H2]).
           by destruct l; [|apply Forall_cons in Hl as [_ Hl]].
    + apply (IH (cur ++ [c]) w); [by rewrite <- app_assoc | by rewrite <- app_assoc | | done].
      apply Forall_app. by repeat constructor.
Qed.

Lemma words_not_blank s w : w ∈ py_words s -> ~ blank w.
Proof. destruct (chars_are_chars s) as [H1 H2]. apply words_from_not_blank; [done | done | constructor]. Qed.

(** ** Credentials *)

Section auth.
Variables JWT_SECRET JWT_ISSUER JWT_AUDIENCE ADMIN_API_KEY : string.
Variables JWT_LEEWAY_SECONDS JWT_TENANT_TOKEN_EXPIRES_SECONDS : Z.
Variable jwt_encode : pydict -> string.
Variable jwt_decode : string -> Z -> option pydict.
Variable sha256_hex : string -> string.
Variable uuid_str : uuid -> string.
Variable uuid_parse : string -> option uuid.
Variable py_str : pyval -> string.
Variable int_of_string : string -> option Z.
Variables has_cache silent_mode : bool.

Abbreviation authenticate := (_jwt_auth_context_from_bearer JWT_SECRET JWT_ISSUER JWT_AUDIENCE JWT_LEEWAY_SECONDS jwt_decode uuid_parse py_str int_of_string).
Abbreviation claim_scopes := (claim_scopes py_str).
Abbreviation m2m := (get_tenant_token_m2m_auth JWT_SECRET JWT_ISSUER JWT_AUDIENCE JWT_LEEWAY_SECONDS jwt_decode sha256_hex uuid_str uuid_parse py_str int_of_string).
Abbreviation token_payload := (token_payload JWT_ISSUER JWT_AUDIENCE uuid_str).
Abbreviation issue := (issue_tenant_token JWT_SECRET JWT_ISSUER JWT_AUDIENCE JWT_TENANT_TOKEN_EXPIRES_SECONDS jwt_encode uuid_str has_cache silent_mode).
Abbreviation post_tenant_token := (post_tenant_token JWT_SECRET JWT_ISSUER JWT_AUDIENCE JWT_LEEWAY_SECONDS JWT_TENANT_TOKEN_EXPIRES_SECONDS jwt_encode jwt_decode sha256_hex
  uuid_str uuid_parse py_str int_of_string has_cache silent_mode).
Abbreviation post_inbound_service_key := (post_inbound_service_key JWT_SECRET JWT_ISSUER JWT_AUDIENCE JWT_LEEWAY_SECONDS jwt_decode sha256_hex uuid_parse py_str int_of_string).
Abbreviation post_revoke := (post_revoke JWT_SECRET JWT_ISSUER JWT_AUDIENCE JWT_LEEWAY_SECONDS jwt_decode uuid_parse py_str int_of_string).
Abbreviation post_tenant := (post_tenant JWT_SECRET JWT_ISSUER JWT_AUDIENCE JWT_LEEWAY_SECONDS jwt_decode uuid_parse py_str int_of_string).
Abbreviation serve := (serve_auth JWT_SECRET JWT_ISSUER JWT_AUDIENCE ADMIN_API_KEY JWT_LEEWAY_SECONDS JWT_TENANT_TOKEN_EXPIRES_SECONDS jwt_encode jwt_decode sha256_hex
  uuid_str uuid_parse py_str int_of_string has_cache silent_mode).
Abbreviation after_ := (after_auth JWT_SECRET JWT_ISSUER JWT_AUDIENCE ADMIN_API_KEY JWT_LEEWAY_SECONDS JWT_TENANT_TOKEN_EXPIRES_SECONDS jwt_encode jwt_decode sha256_hex
  uuid_str uuid_parse py_str int_of_string has_cache silent_mode).

(** What an authenticated caller is like. *)
Record proper_caller (a : AuthContext) : Prop := {
  caller_scopes : au_scopes a <> [] /\ NoDup (au_scopes a) /\ Forall (fun x => ~ blank x) (au_scopes a);
  caller_type : au_principal_type a ∈ ["human"; "machine"];
  caller_id : ~ blank (au_principal_id a);
  caller_tenant : au_tenant a = None -> TenantsCreate ∈ au_scopes a;
}.

Lemma claim_scopes_ok v l : claim_scopes v = Ok l -> l <> [] /\ NoDup l /\ Forall (fun x => ~ blank x) l.
Proof.
  unfold Auth.claim_scopes. intros (x & Hx & H)%rbind_ok.
  assert (Hb : Forall (fun y => ~ blank y) x).
  { destruct v; try done; injection Hx as <-; apply Forall_forall.
    - intros w. apply words_not_blank.
    - intros w Hw. by apply list_elem_of_filter in Hw as [? _]. }
  destruct x as [|y x]; [done|]. injection H as <-. split; [done|]. split; [apply (NoDup_fromkeys (y :: x))|].
  apply Forall_forall. intros w Hw. apply (elem_of_fromkeys (y :: x)) in Hw. rewrite Forall_forall in Hb. auto.
Qed.

Lemma claim_principal_id_ok v i : claim_principal_id py_str v = Ok i -> ~ blank i.
Proof.
  intros H. assert (Hv : (if String.eqb (py_strip (str_of py_str v)) "" then forbid "principal_id_claim_required" else Ok (str_of py_str v)) = Ok i)
    by by destruct v.
  unfold blank. destruct (String.eqb_spec (py_strip (str_of py_str v)) ""); [done|]. congruence.
Qed.

Lemma authenticated_proper now c a : authenticate now c = Ok a -> proper_caller a.
Proof.
  unfold _jwt_auth_context_from_bearer. destruct c as [[scheme token]|]; [|done].
  destruct (negb _); [done|]. destruct (String.eqb JWT_SECRET ""); [done|]. destruct (_ || _); [done|].
  destruct (jwt_decode token now) as [p|]; [|done]. destruct (_ || _); [done|]. destruct (_ || _); [done|].
  intros (e & He & H)%rbind_ok. destruct (_ <=? _)%Z; [done|].
  apply rbind_ok in H as (l & Hl & H). apply rbind_ok in H as (t & Ht & H). apply rbind_ok in H as (ty & Hty & H).
  apply rbind_ok in H as (i & Hi & [= <-]). split; simpl.
  - by eapply claim_scopes_ok.
  - unfold claim_principal_type in Hty. destruct (dict_getv "principal_type" p); try done. case_bool_decide; [|done]. congruence.
  - by eapply claim_principal_id_ok.
  - intros ->. unfold claim_tenant in Ht. destruct (dict_getv "tenant_id" p); try by destruct (uuid_parse _). by case_bool_decide.
Qed.

(** ** Tenant tokens *)

(** The claims of a tenant token. *)
Definition claims (exp : Z) (iss aud tenant id type : string) (scopes : list string) : pydict :=
  [("iss", PStr iss); ("aud", PStr aud); ("exp", PInt exp); ("tenant_id", PStr tenant); ("principal_id", PStr id); ("principal_type", PStr type);
   ("scopes", PList (PStr <$> scopes)); ("sub", PStr id)].
(** A token that was encoded is decoded until its expiry, which [jwt.decode] checks without a leeway. *)
Class JwtLaws : Prop := {
  jwt_lives exp iss aud tenant id type scopes now : (now <= exp)%Z ->
    jwt_decode (jwt_encode (claims exp iss aud tenant id type scopes)) now = Some (claims exp iss aud tenant id type scopes);
  jwt_dies exp iss aud tenant id type scopes now : (exp < now)%Z -> jwt_decode (jwt_encode (claims exp iss aud tenant id type scopes)) now = None;
}.
(** The text of an identifier. *)
Class UuidLaws : Prop := {
  uuid_round u : uuid_parse (uuid_str u) = Some u;
  uuid_visible u : ~ blank (uuid_str u);
}.
Context `{!JwtLaws, !UuidLaws}.

Lemma payload_claims exp t a : token_payload exp t a =
  claims exp JWT_ISSUER JWT_AUDIENCE (uuid_str t) (au_principal_id a) (au_principal_type a) (delegated_scopes a).
Proof. reflexivity. Qed.

Lemma elem_of_delegated a x : x ∈ delegated_scopes a <-> x ∈ au_scopes a /\ x <> TenantsCreate.
Proof.
  unfold delegated_scopes. rewrite elem_of_sorted_by, list_elem_of_filter. unfold NON_DELEGABLE_SCOPES. rewrite list_elem_of_singleton. tauto.
Qed.

Lemma nodup_delegated a : NoDup (au_scopes a) -> NoDup (delegated_scopes a).
Proof. intros Hd. unfold delegated_scopes. rewrite sorted_by_perm. by apply NoDup_filter. Qed.

Lemma claim_scopes_list l : NoDup l -> Forall (fun x => ~ blank x) l ->
  claim_scopes (PList (PStr <$> l)) = match l with [] => forbid "scopes_claim_empty" | _ => Ok l end.
Proof.
  intros Hn Hb. unfold Auth.claim_scopes. assert (E : filter (fun x => py_strip x <> "") (str_of py_str <$> (PStr <$> l)) = l).
  { rewrite <- list_fmap_compose. rewrite (list_fmap_ext _ id) by done. rewrite list_fmap_id. by apply filter_everything. }
  simpl. rewrite E. destruct l; [done|]. by rewrite fromkeys_NoDup.
Qed.

(** What a token of the caller's says at a time. *)
Definition token_verdict (exp : Z) (t : uuid) (a : AuthContext) (now : Z) : res exc AuthContext :=
  if (exp <? now)%Z then refuse "invalid_token"
  else if (exp + JWT_LEEWAY_SECONDS <=? now)%Z then refuse "token_expired"
  else match delegated_scopes a with
       | [] => forbid "scopes_claim_empty"
       | l => Ok {| au_tenant := Some t; au_principal_type := au_principal_type a; au_principal_id := au_principal_id a; au_scopes := l;
                    au_token_issuer := JWT_ISSUER; au_token_audience := JWT_AUDIENCE; au_expires_at := exp |}
       end.

Lemma token_decodes exp t a now : proper_caller a -> JWT_SECRET <> "" -> JWT_ISSUER <> "" -> JWT_AUDIENCE <> "" ->
  authenticate now (Some ("bearer", jwt_encode (token_payload exp t a))) = token_verdict exp t a now.
Proof.
  intros [(_ & Hn & Hb) Ht Hi _] H1 H2 H3. rewrite payload_claims. unfold _jwt_auth_context_from_bearer, token_verdict. simpl.
  rewrite (proj2 (String.eqb_neq _ _) H1), (proj2 (String.eqb_neq _ _) H2), (proj2 (String.eqb_neq _ _) H3). simpl.
  destruct (Z.ltb_spec exp now); [by rewrite jwt_dies|]. rewrite jwt_lives by done. unfold claims, dict_getv. simpl.
  rewrite !String.eqb_refl, (proj2 (String.eqb_neq _ _) H3). simpl. destruct (_ <=? now)%Z; [done|].
  rewrite claim_scopes_list; [|by apply nodup_delegated|].
  2:{ apply Forall_forall. intros x [Hx _]%elem_of_delegated. rewrite Forall_forall in Hb. auto. }
  destruct (delegated_scopes a) as [|x l]; [done|]. simpl. rewrite uuid_round. simpl. rewrite bool_decide_eq_true_2 by done. simpl.
  unfold claim_principal_id, or_else. simpl. destruct (String.eqb_spec (au_principal_id a) "") as [E|_].
  { exfalso. apply Hi. unfold blank. rewrite E. by vm_compute. }
  simpl. destruct (String.eqb_spec (py_strip (au_principal_id a)) ""); [done|]. reflexivity.
Qed.

(** Finding out who calls changes nothing. *)
Lemma m2m_quiet body h c s : (m2m body h c s).2 = s.
Proof.
  unfold get_tenant_token_m2m_auth. rewrite get_bind. destruct (String.eqb _ ""); [done|]. unfold mlift, mbind_.
  destruct (find_active_by_key_hash _ s) as [[[i r]|]|e]; [|done|done]. case_bool_decide; [done|]. by destruct (_ || _).
Qed.

Lemma key_caller_proper t i e iss aud : proper_caller {| au_tenant := Some t; au_principal_type := "machine"; au_principal_id := uuid_str i;
  au_scopes := [TenantsCreate; ExecutionFlowRunCreate]; au_token_issuer := iss; au_token_audience := aud; au_expires_at := e |}.
Proof.
  split; simpl; [|by vm_compute; right; left|apply uuid_visible | done].
  split; [done|]. split; [by apply NoDup_cons; split; [rewrite list_elem_of_singleton|apply NoDup_singleton]|].
  repeat constructor; by vm_compute.
Qed.

Lemma m2m_proper body h c s a s' : m2m body h c s = (Ok a, s') -> proper_caller a.
Proof.
  unfold get_tenant_token_m2m_auth. rewrite get_bind. destruct (String.eqb _ ""); [intros [= Ha _]; by eapply authenticated_proper|].
  unfold mlift, mbind_. destruct (find_active_by_key_hash _ s) as [[[i r]|]|e]; [|done|done].
  case_bool_decide; [done|]. destruct (_ || _); [done|]. intros [= <- _]. apply key_caller_proper.
Qed.

(** Checking the rate leaves the clock and the tables alone. *)
Definition same_tables (s s' : front) : Prop :=
  fd_now s' = fd_now s /\ fd_tenants s' = fd_tenants s /\ fd_keys s' = fd_keys s /\ fd_next s' = fd_next s /\ fd_rules s' = fd_rules s.
#[local] Instance same_tables_preorder : PreOrder same_tables.
Proof. unfold same_tables. split; [intros s; tauto | intros a b c (? & ? & ? & ? & ?) (? & ? & ? & ? & ?); repeat split; congruence]. Qed.

Lemma local_rate_quiet p : respects same_tables (_check_local_rate_limit p).
Proof.
  unfold _check_local_rate_limit. apply respects_bind; [apply _ | apply respects_get; apply _|]. intros s.
  apply respects_bind; [apply _ | by apply respects_modify|]. intros _. destruct (_ <=? _)%Z; [apply respects_raise; apply _ | by apply respects_modify].
Qed.
Lemma rate_quiet p : respects same_tables (_check_rate_limit has_cache silent_mode p).
Proof.
  unfold _check_rate_limit. destruct has_cache; simpl; [|apply local_rate_quiet]. apply respects_bind; [apply _| |].
  - intros s. unfold via_redis. by destruct (incr_with_ttl _ _ _ _).
  - intros []; try apply local_rate_quiet; try (apply respects_ret; apply _). destruct (_ <? _)%Z; [apply respects_raise | apply respects_ret]; apply _.
Qed.

Lemma issue_ok t a s r s' : issue t a s = (Ok r, s') ->
  JWT_SECRET <> "" /\ JWT_ISSUER <> "" /\ JWT_AUDIENCE <> "" /\ is_Some (fd_tenants s !! t) /\
  access_token r = jwt_encode (token_payload (seconds s + JWT_TENANT_TOKEN_EXPIRES_SECONDS) t a).
Proof.
  unfold issue_tenant_token. intros ([] & s1 & Hr & Hi)%mbind_ok. apply (respects_run _ _ _ _ _ (rate_quiet _)) in Hr as (Hn & Ht & _).
  apply mbind_ok in Hi as (x & s2 & Hg & Hi). unfold get_tenant in Hg. rewrite get_bind in Hg. rewrite Ht in Hg.
  destruct (fd_tenants s !! t) eqn:E; [|done]. injection Hg as _ <-. rewrite get_bind in Hi.
  destruct (String.eqb_spec JWT_SECRET ""); [done|]. destruct (String.eqb_spec JWT_ISSUER ""); [done|]. destruct (String.eqb_spec JWT_AUDIENCE ""); [done|].
  simpl in Hi. injection Hi as <- _. simpl. unfold seconds. rewrite Hn. eauto 10.
Qed.

(** Whom a caller may have tokens for. *)
Definition acts_for (a : AuthContext) (t : uuid) : Prop := au_tenant a = None \/ au_tenant a = Some t.

Lemma posted_token body h c s r s' : post_tenant_token body h c s = (Ok r, s') ->
  exists a t, m2m body h c s = (Ok a, s) /\ TenantsCreate ∈ au_scopes a /\ acts_for a t /\ (body = Some t \/ body = None) /\ issue t a s = (Ok r, s').
Proof.
  unfold Auth.post_tenant_token. intros (a & s1 & Ha & Hp)%mbind_ok. pose proof (m2m_quiet body h c s) as Hq. rewrite Ha in Hq. simpl in Hq. subst s1.
  apply mbind_ok in Hp as ([] & s2 & Hs & Hp). unfold has_scope in Hs.
  destruct (bool_decide (TenantsCreate ∈ au_scopes a)) eqn:Hc in Hs; [|done]. apply bool_decide_eq_true in Hc. injection Hs as <-.
  case_bool_decide as Hb; [done|]. exists a. unfold acts_for. destruct body as [t|].
  - exists t. split_and!; auto. destruct (au_tenant a) as [u|]; [right | by left]. destruct (decide (t = u)) as [->|]; [done|].
    exfalso. apply Hb. split_and!; eauto. congruence.
  - destruct (au_tenant a) as [t|]; [|done]. exists t. split_and!; auto.
Qed.


Lemma verdict_scopes exp t a now b : token_verdict exp t a now = Ok b -> TenantsCreate ∉ au_scopes b.
Proof.
  unfold token_verdict. destruct (_ <? _)%Z; [done|]. destruct (_ <=? _)%Z; [done|]. destruct (delegated_scopes a) as [|x l] eqn:E; [done|].
  intros [= <-]. simpl. rewrite <- E. intros [_ Hx]%elem_of_delegated. done.
Qed.

(** A caller without the scope is turned away. *)
Lemma without_scope {T} (k : AuthContext -> F T) (m : F AuthContext) s :
  (m s).2 = s -> (forall a, (m s).1 = Ok a -> TenantsCreate ∉ au_scopes a) ->
  exists e, (let* a := m in has_scope a ;;* k a) s = (Err e, s).
Proof.
  intros Hq Hn. unfold mbind_. destruct (m s) as [[a|e] s1]; simpl in *; subst s1; [|by eexists].
  unfold has_scope. rewrite bool_decide_eq_false_2 by by apply Hn. by eexists.
Qed.

(** [C12] Tokens are final: whenever and to whichever route of the service a token it issued is presented, no token, key or tenant comes of
    it and nothing changes. *)
Theorem tokens_are_final body h c s r s' :
  post_tenant_token body h c s = (Ok r, s') ->
  let bearer := Some ("bearer", access_token r) in
  forall x,
    (forall b blank_header, header_text blank_header = "" -> exists e, post_tenant_token b blank_header bearer x = (Err e, x)) /\
    (forall t secret, exists e, post_inbound_service_key t secret bearer x = (Err e, x)) /\
    (forall i t, exists e, post_revoke i t bearer x = (Err e, x)) /\
    (forall q, exists e, post_tenant q bearer x = (Err e, x)).
Proof.
  intros (a & t & Ha & Hs & Hf & Hb & Hi)%posted_token bearer x. destruct (issue_ok t a s r s' Hi) as (H1 & H2 & H3 & Ht & Hr).
  assert (Hn : forall b, authenticate (seconds x) bearer = Ok b -> TenantsCreate ∉ au_scopes b).
  { intros b. unfold bearer. rewrite Hr, token_decodes; [apply verdict_scopes | by eapply m2m_proper | done..]. }
  split_and!; [intros b bh Hh | intros; by apply (without_scope _ (get_auth_context _ _ _ _ _ _ _ _ bearer))..].
  apply without_scope; [apply m2m_quiet|]. intros d. unfold get_tenant_token_m2m_auth. rewrite get_bind, Hh. simpl. apply Hn.
Qed.

(** ** Service keys and tenants *)

Record sound (s : front) : Prop := {
  hashes_unique : forall i j r r', fd_keys s !! i = Some r -> fd_keys s !! j = Some r' -> sk_hash r = sk_hash r' -> i = j;
  keys_of_tenants : forall i r, fd_keys s !! i = Some r -> is_Some (fd_tenants s !! sk_tenant r);
  externals_unique : forall i j q q' e, fd_tenants s !! i = Some q -> fd_tenants s !! j = Some q' -> tn_external q = Some e -> tn_external q' = Some e -> i = j;
  front_ids : forall i, is_Some (fd_keys s !! i) \/ is_Some (fd_tenants s !! i) -> (i < fd_next s)%N;
}.
(** Tenants stay as they are; a key keeps its tenant and its hash, and once revoked it stays so. *)
Record grows (s s' : front) : Prop := {
  grows_time : (fd_now s <= fd_now s')%Z;
  grows_ids : (fd_next s <= fd_next s')%N;
  grows_tenants : fd_tenants s ⊆ fd_tenants s';
  grows_keys : forall i r, fd_keys s !! i = Some r ->
    exists r', fd_keys s' !! i = Some r' /\ sk_tenant r' = sk_tenant r /\ sk_hash r' = sk_hash r /\ (sk_revoked r <> None -> sk_revoked r' = sk_revoked r);
}.
#[local] Instance grows_preorder : PreOrder grows.
Proof.
  split; [intros s; split; [lia | lia | done | eauto]|]. intros a b c [H1 H2 H3 H4] [H5 H6 H7 H8]. split; [lia | lia | by etrans|].
  intros i r Hr. destruct (H4 i r Hr) as (r1 & Hr1 & ? & ? & Hx). destruct (H8 i r1 Hr1) as (r2 & Hr2 & ? & ? & Hy).
  exists r2. split_and!; [done | congruence | congruence|]. intros Hn. specialize (Hx Hn). rewrite Hx in Hy. by apply Hy.
Qed.
Abbreviation safe := (keeps sound grows).

Lemma same_tables_safe s s' : same_tables s s' -> safe s s'.
Proof.
  intros (H1 & H2 & H3 & H4 & H5) [K1 K2 K3 K4]. split; split; rewrite ?H1, ?H2, ?H3, ?H4; try done; eauto.
Qed.
Lemma quiet_respects {T} (m : F T) : respects same_tables m -> respects safe m.
Proof. intros Hm s. apply same_tables_safe, Hm. Qed.

Lemma auth_safe_event t r i ty ch p w : respects safe (record_event t r i ty ch p w).
Proof. apply quiet_respects. by apply respects_modify. Qed.
Lemma safe_rules {T} (m : M rulebook T) : respects safe (via_rules m).
Proof.
  intros s [K1 K2 K3 K4]. unfold via_rules. destruct (m (fd_rules s)). split; [by split | split; simpl; [lia | lia | done | eauto]].
Qed.
Lemma quiet_context {T} (r : front -> res exc T) : respects safe (let* s := mget in mlift (r s)).
Proof. intros s. reflexivity. Qed.
Lemma quiet_m2m b h c : respects safe (m2m b h c).
Proof. intros s. rewrite m2m_quiet. reflexivity. Qed.
Lemma quiet_tenant t : respects safe (get_tenant t).
Proof. intros s. unfold get_tenant. rewrite get_bind. by destruct (fd_tenants s !! t). Qed.

Lemma safe_insert_key t x s : is_Some (fd_tenants s !! t) -> safe s (insert_key t x s).2.
Proof.
  intros Ht [K1 K2 K3 K4]. unfold insert_key. rewrite get_bind. unfold front_id, mbind_. case_bool_decide as Hk; simpl.
  - assert (Hf : fd_keys s !! fd_next s = None) by (apply eq_None_not_Some; intros Hs; pose proof (K4 _ (or_introl Hs)); lia).
    assert (Hx : forall i r, fd_keys s !! i = Some r -> sk_hash r <> x).
    { intros i r Hi He. assert (Hin : i ∈ keys_where (fun r => String.eqb (sk_hash r) x) (fd_keys s)) by (apply elem_of_keys_where; exists r; by rewrite He, String.eqb_refl).
      rewrite Hk in Hin. by apply not_elem_of_nil in Hin. }
    split; split; simpl; try done; try lia.
    + intros i j r r'. rewrite !lookup_insert_Some. intros [[<- <-]|[? Hi]] [[<- <-]|[? Hj]] He; simpl in *; [done | by destruct (Hx j r') | by destruct (Hx i r) | eauto].
    + intros i r [[<- <-]|[? Hi]]%lookup_insert_Some; simpl; eauto.
    + intros i Hi. destruct (decide (i = fd_next s)) as [->|]; [lia|]. rewrite lookup_insert_ne in Hi by done. specialize (K4 i Hi). lia.
    + intros i r Hi. exists r. split_and!; [|done..]. rewrite lookup_insert_ne; [done | congruence].
  - split; split; simpl; try done; try lia; [|eauto]. intros i Hi. specialize (K4 i Hi). lia.
Qed.

Lemma safe_revoke_key i t : respects safe (revoke_key i t).
Proof.
  intros s [K1 K2 K3 K4]. unfold revoke_key. rewrite get_bind. destruct (fd_keys s !! i) as [r|] eqn:Hr; [|split; [by split | reflexivity]].
  case_bool_decide as Hc; [|split; [by split | reflexivity]]. destruct Hc as [Ht Hn]. simpl.
  assert (Hk : forall j x, <[i := {| sk_tenant := sk_tenant r; sk_hash := sk_hash r; sk_revoked := Some (fd_now s) |}]> (fd_keys s) !! j = Some x ->
    exists y, fd_keys s !! j = Some y /\ sk_tenant x = sk_tenant y /\ sk_hash x = sk_hash y).
  { intros j x [[<- <-]|[? Hj]]%lookup_insert_Some; [by exists r | by exists x]. }
  split; split; simpl; try done; try lia.
  - intros j k x y Hx Hy He. destruct (Hk j x Hx) as (x' & ? & ? & ?), (Hk k y Hy) as (y' & ? & ? & ?). eapply K1; [done..|]. congruence.
  - intros j x Hx. destruct (Hk j x Hx) as (x' & ? & -> & ?). eauto.
  - intros j [[x Hx]|Hj]; apply K4; [left|by right]. destruct (Hk j x Hx) as (x' & ? & _). eauto.
  - intros j x Hx. destruct (decide (j = i)) as [->|]; [|exists x; by rewrite lookup_insert_ne].
    eexists. rewrite lookup_insert_eq. split; [done|]. simpl. rewrite Hr in Hx. injection Hx as <-. split_and!; [done..|]. by intros [].
Qed.

Lemma safe_create_tenant q : respects safe (create_tenant q).
Proof.
  intros s [K1 K2 K3 K4]. unfold create_tenant. rewrite get_bind. unfold front_id, mbind_. case_bool_decide as Hc; simpl.
  - assert (Hf : fd_tenants s !! fd_next s = None) by (apply eq_None_not_Some; intros Hs; pose proof (K4 _ (or_intror Hs)); lia).
    assert (Hx : forall i q' e, fd_tenants s !! i = Some q' -> tn_external q' = Some e -> tn_external q <> Some e).
    { intros i q' e Hi He Hq. destruct Hc as [Hc|Hc]; [congruence|]. rewrite Hq in Hc. simpl in Hc.
      assert (Hin : i ∈ with_external e s) by (apply elem_of_keys_where; exists q'; split; [done | by apply bool_decide_eq_true]).
      destruct (with_external e s); [by apply not_elem_of_nil in Hin | done]. }
    split; split; simpl; try done; try lia.
    + intros i r Hi. destruct (decide (sk_tenant r = fd_next s)) as [->|]; [rewrite lookup_insert_eq; eauto|]. rewrite lookup_insert_ne by done. eauto.
    + intros i j a b e. rewrite !lookup_insert_Some. intros [[<- <-]|[? Hi]] [[<- <-]|[? Hj]] Ha Hb; [done | by destruct (Hx j b e) | by destruct (Hx i a e) | eauto].
    + intros i Hi. destruct (decide (i = fd_next s)) as [->|]; [lia|]. rewrite lookup_insert_ne in Hi by done. specialize (K4 i Hi). lia.
    + by apply insert_subseteq.
    + eauto.
  - split; split; simpl; try done; try lia; [|eauto]. intros i Hi. specialize (K4 i Hi). lia.
Qed.

Lemma safe_new_key t a x : respects safe (create_inbound_service_key sha256_hex t a x).
Proof.
  intros s. unfold create_inbound_service_key. apply keeps_bind; [apply _ | apply quiet_tenant|]. intros _ q s1 Hq _.
  unfold get_tenant in Hq. rewrite get_bind in Hq. destruct (fd_tenants s !! t) eqn:Ht; [|done]. injection Hq as _ <-.
  apply keeps_bind; [apply _ | by apply safe_insert_key; eauto|]. intros _ i s2 _ _.
  apply (respects_bind _ _ _ (auth_safe_event _ _ _ _ _ _ _)). intros _. apply respects_ret. apply _.
Qed.

Lemma safe_tenants q p : respects safe (TenantsService_create q p).
Proof.
  unfold TenantsService_create. apply respects_bind; [apply _ | by destruct (tn_external q); intros s|]. intros [i|].
  - apply respects_bind; [apply _ | apply safe_rules|]. intros _. apply respects_bind; [apply _ | apply quiet_tenant|]. intros. apply respects_ret. apply _.
  - unfold new_tenant. apply respects_bind; [apply _ | apply safe_create_tenant|]. intros i. apply respects_bind; [apply _ | apply safe_rules|].
    intros _. apply (respects_bind _ _ _ (auth_safe_event _ _ _ _ _ _ _)). intros _. apply respects_ret. apply _.
Qed.

Lemma safe_scope a : respects safe (has_scope a).
Proof. unfold has_scope. case_bool_decide; [apply respects_ret | apply respects_lift]; apply _. Qed.
Lemma safe_own a t : respects safe (own_tenant a t).
Proof. unfold own_tenant. case_bool_decide; [apply respects_lift | apply respects_ret]; apply _. Qed.
Lemma safe_issue t a : respects safe (issue t a).
Proof.
  unfold issue_tenant_token. apply respects_bind; [apply _ | apply quiet_respects, rate_quiet|]. intros _.
  apply respects_bind; [apply _ | apply quiet_tenant|]. intros _. apply respects_bind; [apply _ | apply respects_get; apply _|]. intros s.
  destruct (_ || _); [apply respects_lift; apply _|]. apply (respects_bind _ _ _ (auth_safe_event _ _ _ _ _ _ _)). intros _. apply respects_ret. apply _.
Qed.
Lemma safe_revoke i t a : respects safe (revoke_inbound_service_key i t a).
Proof.
  unfold revoke_inbound_service_key. apply (respects_bind _ _ _ (safe_revoke_key i t)). intros []; [apply auth_safe_event | apply respects_raise; apply _].
Qed.
Lemma safe_admin h : respects safe (get_admin_auth ADMIN_API_KEY h).
Proof. intros s. unfold get_admin_auth. destruct (String.eqb _ _); [reflexivity|]. destruct (String.eqb _ _); [reflexivity|].
  unfold mbind_, mlift. by destruct (compare_digest _ _) as [[]|]. Qed.
Lemma safe_pass d : (0 <= d)%Z -> respects safe (mmodify (pass d)).
Proof.
  intros Hd. apply respects_modify. intros s [K1 K2 K3 K4]. split; [by split|]. split; simpl; [lia | lia | done | eauto].
Qed.

Lemma auth_safe_serve q : respects safe (serve q).
Proof.
  assert (Hc : forall c, respects safe (get_auth_context JWT_SECRET JWT_ISSUER JWT_AUDIENCE JWT_LEEWAY_SECONDS jwt_decode uuid_parse py_str int_of_string c))
    by (intros c s; reflexivity).
  assert (Hr : forall T (m : F T), respects safe m -> respects safe (m ;;* mret tt))
    by (intros T m Hm; apply (respects_bind _ _ _ Hm); intros _; apply respects_ret; apply _).
  destruct q as [b h c|t x c|i t c|t x h|q c|d]; simpl.
  - apply Hr. unfold Auth.post_tenant_token. apply (respects_bind _ _ _ (quiet_m2m b h c)). intros a. apply (respects_bind _ _ _ (safe_scope a)). intros _.
    destruct (bool_decide _); [apply respects_lift; apply _|]. destruct (match b with Some t => Some t | None => au_tenant a end); [apply safe_issue | apply respects_raise; apply _].
  - apply Hr. apply (respects_bind _ _ _ (Hc c)). intros a. apply (respects_bind _ _ _ (safe_scope a)). intros _.
    apply (respects_bind _ _ _ (safe_own a t)). intros _. apply safe_new_key.
  - apply (respects_bind _ _ _ (Hc c)). intros a. apply (respects_bind _ _ _ (safe_scope a)). intros _.
    apply (respects_bind _ _ _ (safe_own a t)). intros _. apply safe_revoke.
  - apply Hr. apply (respects_bind _ _ _ (safe_admin h)). intros _. apply safe_new_key.
  - apply Hr. apply (respects_bind _ _ _ (Hc c)). intros a. apply (respects_bind _ _ _ (safe_scope a)). intros _. apply safe_tenants.
  - apply safe_pass. lia.
Qed.

Lemma auth_safe_after l s : safe s (after_ l s).
Proof.
  revert s. induction l as [|q l IH]; intros s; [reflexivity|]. simpl. etrans; [apply auth_safe_serve | apply IH].
Qed.

(** Whom a key of the table makes its holder. *)
Definition key_caller (i : uuid) (r : service_key) (s : front) : AuthContext := {|
  au_tenant := Some (sk_tenant r); au_principal_type := "machine"; au_principal_id := uuid_str i;
  au_scopes := [ConversationTurnCreate; ExecutionFlowRunCreate]; au_token_issuer := JWT_ISSUER; au_token_audience := JWT_AUDIENCE;
  au_expires_at := (seconds s + 3600)%Z |}.

Lemma find_active i r s : sound s -> fd_keys s !! i = Some r ->
  find_active_by_key_hash (sk_hash r) s = Ok (if decide (sk_revoked r = None) then Some (i, r) else None).
Proof.
  intros [K1 _ _ _] Hr. unfold find_active_by_key_hash.
  assert (Hin : forall j, j ∈ active_keys (sk_hash r) s <-> j = i /\ sk_revoked r = None).
  { intros j. unfold active_keys. rewrite elem_of_keys_where. split.
    - intros (x & Hx & Hb%andb_true_iff). destruct Hb as [E%String.eqb_eq Hn%bool_decide_eq_true]. pose proof (K1 _ _ _ _ Hx Hr E) as ->.
      rewrite Hr in Hx. injection Hx as <-. done.
    - intros [-> Hn]. exists r. by rewrite String.eqb_refl, bool_decide_eq_true_2. }
  destruct (decide (sk_revoked r = None)) as [Hn|Hn].
  - rewrite (only_element (active_keys (sk_hash r) s) i); [|apply keys_where_nodup | by apply Hin | by intros j [-> _]%Hin]. simpl. by rewrite Hr.
  - destruct (active_keys (sk_hash r) s) as [|j l] eqn:E; [done|]. exfalso. destruct (proj1 (Hin j)) as [_ ?]; [left | done].
Qed.

(** [C28] Service keys: whatever clients ask for, tenants stay as they are, hashes and external ids stay unique, keys belong to tenants and keep
    tenant and hash; and the holder of a key's text is that key's tenant as long as the key is not revoked and nobody afterwards. *)
Theorem service_keys l s :
  sound s ->
  let s' := after_ l s in
  sound s' /\ grows s s' /\
  forall i r h c, fd_keys s' !! i = Some r -> header_text h <> "" -> sha256_hex (header_text h) = sk_hash r ->
    get_auth_context_or_api_key JWT_SECRET JWT_ISSUER JWT_AUDIENCE JWT_LEEWAY_SECONDS jwt_decode sha256_hex uuid_str uuid_parse py_str int_of_string h c s' =
    (if decide (sk_revoked r = None) then Ok (key_caller i r s') else refuse "invalid_inbound_service_key", s').
Proof.
  intros Hs s'. destruct (auth_safe_after l s Hs) as [Hs' Hg]. split_and!; [done..|]. intros i r h c Hr Hh He.
  unfold get_auth_context_or_api_key. rewrite get_bind, (proj2 (String.eqb_neq _ _) Hh), He. unfold mbind_, mlift.
  rewrite (find_active i r s' Hs' Hr). by destruct (decide (sk_revoked r = None)).
Qed.

(** ** The rate of tokens *)

(** The times at which calls of a principal pass the limit of the process, [d] microseconds after one another. *)
Fixpoint admissions (p : string) (ds : list Z) (s : front) : list Z :=
  match ds with
  | [] => []
  | d :: ds' =>
      let s1 := pass d s in
      match _check_local_rate_limit p s1 with
      | (Ok _, s2) => fd_now s1 :: admissions p ds' s2
      | (Err _, s2) => admissions p ds' s2
      end
  end.
Definition in_window (t : Z) (x : Z) : Prop := (t - TENANT_TOKEN_RATE_WINDOW_SECONDS * MICROSECONDS < x <= t)%Z.
#[local] Instance in_window_dec t x : Decision (in_window t x).
Proof. unfold in_window. apply _. Defined.

Definition stored_times (p : string) (s : front) : list Z := default [] (fd_rates s !! p).
Definition admitted (p : string) (s : front) : bool :=
  (Z.of_nat (length (recent (fd_now s) (stored_times p s))) <? TENANT_TOKEN_RATE_MAX_REQUESTS)%Z.

Lemma local_limit_run p s : exists s2, fd_now s2 = fd_now s /\
  if admitted p s then _check_local_rate_limit p s = (Ok tt, s2) /\ stored_times p s2 = recent (fd_now s) (stored_times p s) ++ [fd_now s]
  else _check_local_rate_limit p s = (Err too_many, s2) /\ stored_times p s2 = recent (fd_now s) (stored_times p s).
Proof.
  unfold admitted, _check_local_rate_limit, stored_times. rewrite get_bind. unfold mbind_, mmodify.
  destruct (Z.ltb_spec (Z.of_nat (length (recent (fd_now s) (default [] (fd_rates s !! p))))) TENANT_TOKEN_RATE_MAX_REQUESTS).
  - rewrite (proj2 (Z.leb_gt _ _)) by done. eexists. split; [|split; [reflexivity|]]; [done|]. simpl. by rewrite lookup_insert_eq.
  - rewrite (proj2 (Z.leb_le _ _)) by done. eexists. split; [|split; [reflexivity|]]; [done|]. simpl. by rewrite lookup_insert_eq.
Qed.

Lemma admissions_later p ds : forall s, Forall (fun d => (0 <= d)%Z) ds -> Forall (fun x => (fd_now s <= x)%Z) (admissions p ds s).
Proof.
  induction ds as [|d ds IH]; intros s Hd; [constructor|]. apply Forall_cons in Hd as [Hd Hds]. simpl.
  destruct (local_limit_run p (pass d s)) as (s2 & Hn & Hr). simpl in Hn.
  assert (Hl : Forall (fun x => (fd_now s <= x)%Z) (admissions p ds s2)) by (eapply Forall_impl; [by apply IH|]; simpl; intros; lia).
  destruct (admitted p (pass d s)); destruct Hr as [-> _]; [constructor; [lia | done] | done].
Qed.

Lemma window_drops_old t now l : (now <= t)%Z -> filter (in_window t) l = filter (in_window t) (recent now l).
Proof.
  intros Hn. unfold recent. rewrite list_filter_filter_l; [done|]. unfold in_window. intros x. lia.
Qed.
Lemma filter_twice {T} (P Q : T -> Prop) `{!forall x, Decision (P x), !forall x, Decision (Q x)} l : length (filter P (filter Q l)) <= length (filter P l).
Proof.
  induction l as [|x l IH]; [done|]. destruct (decide (Q x)); [rewrite (filter_cons_True Q) by done | rewrite (filter_cons_False Q) by done].
  - destruct (decide (P x)); [rewrite !(filter_cons_True P) by done; simpl; lia | by rewrite !(filter_cons_False P) by done].
  - destruct (decide (P x)); [rewrite (filter_cons_True P _ l) by done; simpl; lia | by rewrite (filter_cons_False P _ l) by done].
Qed.
Lemma window_before t l : Forall (fun x => (t < x)%Z) l -> filter (in_window t) l = [].
Proof.
  induction 1 as [|x l Hx _ IH]; [done|]. rewrite filter_cons_False; [done|]. unfold in_window. lia.
Qed.

Lemma rate_bound p ds : forall s, Forall (fun d => (0 <= d)%Z) ds ->
  (forall t, length (filter (in_window t) (stored_times p s)) <= 20) ->
  forall t, length (filter (in_window t) (stored_times p s ++ admissions p ds s)) <= 20.
Proof.
  induction ds as [|d ds IH]; intros s Hd Hs t; simpl; [by rewrite app_nil_r|].
  apply Forall_cons in Hd as [Hd Hds].
  set (now := (fd_now s + d)%Z). destruct (local_limit_run p (pass d s)) as (s2 & Hn & Hr).
  change (recent (fd_now (pass d s)) (stored_times p (pass d s))) with (recent now (stored_times p s)) in Hr.
  change [fd_now (pass d s)] with [now] in Hr. change (fd_now s + d)%Z with now.
  assert (Hbig : (t < now)%Z -> filter (in_window t) (admissions p ds s2) = []).
  { intros Ht. apply window_before. eapply Forall_impl; [by apply (admissions_later p ds s2)|]. simpl in *. intros; unfold now in *; lia. }
  rewrite filter_app, length_app. destruct (decide (now <= t)%Z) as [Ht|Ht].
  - rewrite (window_drops_old t now) by done. destruct (admitted p (pass d s)) eqn:Ha; destruct Hr as [-> Hr].
    + rewrite <- length_app, <- filter_app. rewrite cons_middle, app_assoc.
      rewrite <- Hr. apply IH; [done|]. intros t'. rewrite Hr. etrans; [apply length_filter|]. rewrite length_app. simpl.
      apply Z.ltb_lt in Ha. change (recent (fd_now (pass d s)) (stored_times p (pass d s))) with (recent now (stored_times p s)) in Ha.
      unfold TENANT_TOKEN_RATE_MAX_REQUESTS in Ha. lia.
    + rewrite <- length_app, <- filter_app, <- Hr. apply IH; [done|]. intros t'. rewrite Hr. etrans; [apply filter_twice | apply Hs].
  - specialize (Hs t). destruct (admitted p (pass d s)); destruct Hr as [-> _].
    + rewrite filter_cons_False by (unfold in_window, now in *; simpl in *; lia). rewrite Hbig by lia. simpl. lia.
    + rewrite Hbig by lia. simpl. lia.
Qed.

(** The limit of a process bounds the rate: of the calls of one principal, whatever their times, at most twenty pass within any five
    minutes. *)
Theorem token_rate p ds s t :
  Forall (fun d => (0 <= d)%Z) ds -> fd_rates s !! p = None ->
  length (filter (in_window t) (admissions p ds s)) <= 20.
Proof.
  intros Hd Hn. pose proof (rate_bound p ds s Hd) as Hb. unfold stored_times in Hb. rewrite Hn in Hb. simpl in Hb.
  apply Hb. intros; simpl. lia.
Qed.
End auth.

(** ** A concrete service *)

Module passport.

Fixpoint bits (p : positive) : string := match p with xH => "" | xO p => String "0"%char (bits p) | xI p => String "1"%char (bits p) end.
Fixpoint unbits (s : string) : positive := match s with EmptyString => xH | String a s => if Ascii.eqb a "1"%char then xI (unbits s) else xO (unbits s) end.
Lemma unbits_bits p : unbits (bits p) = p.
Proof. induction p as [p IH|p IH|]; simpl; by rewrite ?IH. Qed.

(** Identifiers and tokens as binary texts. *)
Definition id_text (u : uuid) : string := String "u"%char (bits (N.succ_pos u)).
Definition id_parse (s : string) : option uuid := match s with String a s => if Ascii.eqb a "u"%char then Some (N.pred (Npos (unbits s))) else None | _ => None end.
Definition text_of (v : pyval) : string := match v with PStr s => s | _ => "" end.
Definition time_of (v : pyval) : Z := match v with PInt z => z | _ => 0 end.
Definition texts_of (v : pyval) : list string := match v with PList l => text_of <$> l | _ => [] end.
Definition encode_token (p : pydict) : string :=
  bits (encode (time_of (dict_getv "exp" p), text_of (dict_getv "iss" p), text_of (dict_getv "aud" p), text_of (dict_getv "tenant_id" p),
    text_of (dict_getv "principal_id" p), text_of (dict_getv "principal_type" p), texts_of (dict_getv "scopes" p))).
(** The operator of the platform has a token of its own, without a tenant. *)
Definition platform_claims (scopes : string) : pydict :=
  [("iss", PStr "core"); ("aud", PStr "core"); ("exp", PInt 5000); ("principal_id", PStr "op"); ("principal_type", PStr "human"); ("scopes", PStr scopes)].
Definition decode_token (s : string) (now : Z) : option pydict :=
  match s with
  | String "p" scopes => Some (platform_claims scopes)
  | _ =>
      match decode (A := Z * string * string * string * string * string * list string) (unbits s) with
      | Some (exp, iss, aud, tenant, id, type, scopes) => if (exp <? now)%Z then None else Some (claims exp iss aud tenant id type scopes)
      | None => None
      end
  end.
Definition operator (scopes : string) : credentials := Some ("Bearer", "p" +:+ scopes).
Lemma decode_bits p now : decode_token (bits p) now =
  match decode (A := Z * string * string * string * string * string * list string) p with
  | Some (exp, iss, aud, tenant, id, type, scopes) => if (exp <? now)%Z then None else Some (claims exp iss aud tenant id type scopes)
  | None => None
  end.
Proof. pose proof (unbits_bits p) as Hp. destruct p; cbn [bits unbits Ascii.eqb Bool.eqb] in *; unfold decode_token; cbn [unbits Ascii.eqb Bool.eqb]; by rewrite ?Hp. Qed.

#[local] Instance token_laws : JwtLaws encode_token decode_token.
Proof.
  assert (Hd : forall exp iss aud tenant id type scopes now, decode_token (encode_token (claims exp iss aud tenant id type scopes)) now =
    if (exp <? now)%Z then None else Some (claims exp iss aud tenant id type scopes)).
  { intros. unfold encode_token. rewrite decode_bits, decode_encode. unfold claims. simpl. 
    assert (E : text_of <$> (PStr <$> scopes) = scopes) by (rewrite <- list_fmap_compose; induction scopes as [|x l IH]; [done|]; cbn; by rewrite IH).
    by rewrite E. }
  split; intros; rewrite Hd; [by rewrite (proj2 (Z.ltb_ge _ _)) | by rewrite (proj2 (Z.ltb_lt _ _))].
Qed.

Definition solid (s : string) : Prop := Forall (fun c => is_space c = false) (utf8_chars s) /\ starts_inside s = false.
Lemma solid_cons a s : is_space (String a "") = false -> is_cont_byte a = false -> solid s -> solid (String a s).
Proof.
  intros H1 H2 [H3 H4]. split; [|done]. change (String a s) with (String a "" +:+ s). rewrite utf8_chars_app by done. by constructor.
Qed.
Lemma solid_bits p : solid (bits p).
Proof. induction p as [p IH|p IH|]; simpl; [apply solid_cons; [by vm_compute..|done] | apply solid_cons; [by vm_compute..|done] | split; [constructor | done]]. Qed.
Lemma solid_visible s : solid s -> s <> "" -> ~ blank s.
Proof.
  intros [Hs _] Hn. destruct (chars_are_chars s) as [H1 H2]. apply (word_not_blank (utf8_chars s)); [done..|].
  destruct (utf8_chars s) eqn:E; [by apply utf8_chars_nil in E|]. apply list_elem_of_singleton. symmetry. pose proof (str_concat_chars s) as Hc. rewrite E in Hc. exact Hc.
Qed.
#[local] Instance id_laws : UuidLaws id_text id_parse.
Proof.
  split.
  - intros u. unfold id_parse, id_text. simpl. rewrite unbits_bits. f_equal. lia.
  - intros u. apply solid_visible; [|done]. unfold id_text. apply solid_cons; [by vm_compute..|apply solid_bits].
Qed.

Definition digest (s : string) : string := "sha:" +:+ s.
Definition as_text (_ : pyval) : string := "".
Definition as_int (_ : string) : option Z := None.
Definition store_ : front := {| fd_next := 1; fd_now := 1000 * MICROSECONDS; fd_tenants := ∅; fd_keys := ∅; fd_events := []; fd_rates := ∅;
  fd_redis := {| entries := ∅; clock := 1000; faults := [] |};
  fd_rules := {| rb_next := 0; rb_tables := fun _ => {| pt_policies := []; pt_versions := ∅ |}; rb_runtime := ∅ |} |}.
Lemma sound_store : sound store_.
Proof. split; simpl; try done. intros i [[]|[]]; done. Qed.

Definition shop (active : bool) : TenantCreate := {| tn_name := "shop"; tn_external := Some 77%N; tn_description := None; tn_timezone := "UTC"; tn_is_active := active;
  tn_currency := "BRL"; tn_language := "pt_BR"; tn_contact_name := None; tn_contact_phone := None; tn_settings := None |}.

Section configured.
Variables (leeway : Z) (cached silent : bool).
Definition serve_ := serve_auth "secret" "core" "core" "admin" leeway 3600 encode_token decode_token digest id_text id_parse as_text as_int cached silent.
Definition after_ := after_auth "secret" "core" "core" "admin" leeway 3600 encode_token decode_token digest id_text id_parse as_text as_int cached silent.
Definition token_ := post_tenant_token "secret" "core" "core" leeway 3600 encode_token decode_token digest id_text id_parse as_text as_int cached silent.
Definition who_ (now : Z) (c : credentials) := _jwt_auth_context_from_bearer "secret" "core" "core" leeway decode_token id_parse as_text as_int now c.
End configured.

(** Tenant 1 is created by the operator, and gets key 2 of the administrator. *)
Definition story (active : bool) : list auth_request :=
  [CreateTenant (shop active) (operator "tenants:create"); CreateAdminKey 1%N "k1" (Some "admin"); Wait 5000000].
Definition opened : front := after_ 0 false true (story true) store_.
Definition token : res exc TenantTokenResponse * front := token_ 0 false true None (Some "k1") None opened.
Definition bearer : credentials := match token.1 with Ok r => Some ("bearer", access_token r) | Err _ => None end.
Definition issued : TenantTokenResponse := {| access_token := match bearer with Some (_, x) => x | None => "" end; expires_in := 3600 |}.
Lemma token_issued : token = (Ok issued, token.2).
Proof. vm_compute. reflexivity. Qed.

Definition another : TenantCreate := {| tn_name := "other"; tn_external := None; tn_description := None; tn_timezone := "UTC"; tn_is_active := true; tn_currency := "EUR";
  tn_language := "en"; tn_contact_name := None; tn_contact_phone := None; tn_settings := None |}.
Lemma tokens_are_final_witness :
  exists e, post_tenant "secret" "core" "core" 0 decode_token id_parse as_text as_int another (Some ("bearer", access_token issued)) opened = (Err e, opened).
Proof.
  apply (tokens_are_final "secret" "core" "core" 0 3600 encode_token decode_token digest id_text id_parse as_text as_int false true
    None (Some "k1") None opened issued token.2 token_issued opened).
Defined.
Lemma service_keys_witness : sound opened /\ grows store_ opened.
Proof.
  destruct (service_keys "secret" "core" "core" "admin" 0 3600 encode_token decode_token digest id_text id_parse as_text as_int false true (story true) store_ sound_store)
    as (H1 & H2 & _). split; assumption.
Defined.
Lemma token_rate_witness : length (filter (in_window (1002 * MICROSECONDS)) (admissions "ann" (repeat 0%Z 25) store_)) <= 20.
Proof. apply (token_rate "ann" (repeat 0%Z 25) store_ (1002 * MICROSECONDS)); [repeat constructor; discriminate | reflexivity]. Defined.
Example twenty_pass : length (admissions "ann" (repeat 0%Z 25) store_) = 20.
Proof. vm_compute. reflexivity. Qed.

(** The token of the key, now and later. *)
Example token_speaks : (fun a => (au_tenant a, au_scopes a)) <$> (match who_ 0 1005 bearer with Ok a => Some a | Err _ => None end) =
  Some (Some 1%N, ["execution:flow_run:create"]).
Proof. vm_compute. reflexivity. Qed.
(** A leeway has no effect after the expiry: the token is not decoded any more. *)
Example leeway_ignored : who_ 60 4606 bearer = refuse "invalid_token".
Proof. vm_compute. reflexivity. Qed.

(** The operator whose only scope creates tenants gets tokens that say nothing. *)
Example empty_token : match token_ 0 false true (Some 1%N) None (operator "tenants:create") opened with
  | (Ok r, s) => who_ 0 1005 (Some ("bearer", access_token r)) = forbid "scopes_claim_empty"
  | (Err _, _) => False
  end.
Proof. vm_compute. reflexivity. Qed.

(** A tenant that is not active gets tokens like any other. *)
Example inactive_tenant : exists r, (token_ 0 false true None (Some "k1") None (after_ 0 false true (story false) store_)).1 = Ok r.
Proof. eexists. vm_compute. reflexivity. Qed.

(** While Redis fails silently, there is no limit: [False] passes for a count, and the limit of the process is not asked. *)
Definition outage : front := set_fd_redis {| entries := ∅; clock := 1000; faults := repeat true 100 |} opened.
Definition passed (l : list auth_request) (s : front) : Z := Z.of_nat (length (fd_events (after_ 0 true true l s))) - Z.of_nat (length (fd_events s)).
Example outage_unlimited : passed (repeat (IssueToken None (Some "k1") None) 40) outage = 40%Z /\
  passed (repeat (IssueToken None (Some "k1") None) 40) opened = 20%Z.
Proof. vm_compute. by split. Qed.
(** Without silence the outage is an error, and the limit of the process is not asked either. *)
Example outage_fails : (token_ 0 true false None (Some "k1") None outage).1 = Err (ExternalError "ConnectionError" "").
Proof. vm_compute. reflexivity. Qed.
End passport.
