(* ===== verification/Onboarding.v ===== *)
(** * Onboarding: guided sequences of steps

    [src/src/domain/onboarding/services/onboarding_service.py] on [onboarding_repository.py]: onboardings with numbered versions, whose
    runs go through the steps of their version one after the other.

    Rows are kept in the order they were created.  The service has no operation that writes versions or steps of versions: they are
    part of the state it starts from, except that the repository can create versions. *)

From S2P Require Import Prelude.
From S2P Require Import Errors.
From S2P Require Import PyValue.
From S2P Require Import Effects.
From S2P Require Import Store.
From S2P Require Import FlowAuthoring.
From S2P Require Import Versions.

(** ** Tables *)

Record onboarding : Type := {
  ob_tenant : uuid;
  ob_name : option string;
  ob_creator : option string;
}.
Record onboarding_version : Type := {
  ov_onboarding : uuid;
  ov_status : string;
  ov_number : version_number;
}.
#[global] Instance onboarding_version_Versioned : Versioned onboarding_version :=
  {| row_group r := (ov_onboarding r, 0%N); row_number := ov_number |}.
Record StepRun : Type := {
  sr_id : uuid;
  sr_run : uuid;
  sr_step : uuid;
  sr_name : string;
  sr_status : string;
  sr_input : pydict;
  sr_output : pydict;
  sr_schema : option uuid;
}.
(** [bs_steps]: the steps of versions, with their version; [bs_runs]: runs with theirs. *)
Record boarding : Type := {
  bs_next : uuid;
  bs_onboardings : list (uuid * onboarding);
  bs_versions : gmap uuid onboarding_version;
  bs_steps : list (uuid * uuid);
  bs_runs : gmap uuid uuid;
  bs_step_runs : list StepRun;
  bs_events : list authoring_event;
}.
Definition set_bs_next v s := Build_boarding v (bs_onboardings s) (bs_versions s) (bs_steps s) (bs_runs s) (bs_step_runs s) (bs_events s).
Definition set_onboardings v s := Build_boarding (bs_next s) v (bs_versions s) (bs_steps s) (bs_runs s) (bs_step_runs s) (bs_events s).
Definition set_bs_versions v s := Build_boarding (bs_next s) (bs_onboardings s) v (bs_steps s) (bs_runs s) (bs_step_runs s) (bs_events s).
Definition set_runs v s := Build_boarding (bs_next s) (bs_onboardings s) (bs_versions s) (bs_steps s) v (bs_step_runs s) (bs_events s).
Definition set_step_runs v s := Build_boarding (bs_next s) (bs_onboardings s) (bs_versions s) (bs_steps s) (bs_runs s) v (bs_events s).
Definition set_bs_events v s := Build_boarding (bs_next s) (bs_onboardings s) (bs_versions s) (bs_steps s) (bs_runs s) (bs_step_runs s) v.

Abbreviation O := (M boarding).
Definition boarding_id : O uuid := fun s => (Ok (bs_next s), set_bs_next (bs_next s + 1)%N s).
Definition missing {T} (m : string) : O T := mraise (NotFoundServiceException m).
Definition boarding_event (tenant : uuid) (resource : string) (id : uuid) (type change principal why : string) : O unit :=
  mmodify (fun s => set_bs_events (bs_events s ++ [{| ae_tenant := tenant; ae_resource := resource; ae_resource_id := id; ae_version := None;
    ae_type := type; ae_change := change; ae_principal := principal; ae_justification := why |}]) s).

(** ** The repository *)

Definition get_onboarding (i : uuid) (s : boarding) : option onboarding := snd <$> List.find (fun x => (x.1 =? i)%N) (bs_onboardings s).
Definition insert_onboarding (tenant : uuid) (name : option string) (creator : string) : O uuid :=
  let* i := boarding_id in
  mmodify (fun s => set_onboardings (bs_onboardings s ++ [(i, {| ob_tenant := tenant; ob_name := name; ob_creator := Some creator |})]) s) ;;*
  mret i.

(** [create_onboarding_version]; the source may be of any onboarding. *)
Definition create_onboarding_version (o : uuid) (source : option uuid) (major minor patch : option Z) : O uuid :=
  let* s := mget in
  let* src := (match source with
               | None => mret None
               | Some v => match bs_versions s !! v with Some r => mret (Some (ov_number r)) | None => missing "source_version_not_found" end
               end) in
  let n := next_number major minor patch src (newest (o, 0%N) (bs_versions s)) in
  let* i := boarding_id in
  if taken (o, 0%N) n (bs_versions s) then mraise (ExternalError "IntegrityError" "uq_onboarding_version_semver")
  else mmodify (fun s => set_bs_versions (<[i := {| ov_onboarding := o; ov_status := "DRAFT"; ov_number := n |}]> (bs_versions s)) s) ;;* mret i.

Definition insert_run (v : uuid) : O uuid :=
  let* s := mget in
  if bool_decide (bs_versions s !! v = None) then missing "onboarding_version_not_found"
  else
    let* i := boarding_id in
    mmodify (fun s => set_runs (<[i := v]> (bs_runs s)) s) ;;* mret i.

(** [list_onboarding_steps], [list_steps], [get_step]. *)
Definition list_onboarding_steps (v : uuid) (s : boarding) : list uuid := fst <$> filter (fun x => x.2 = v) (bs_steps s).
Definition run_steps (r : uuid) (s : boarding) : list StepRun := filter (fun x => sr_run x = r) (bs_step_runs s).
Definition get_step (i : uuid) (s : boarding) : option StepRun := List.find (fun x => (sr_id x =? i)%N) (bs_step_runs s).

Definition create_step (run step : uuid) (name : string) (schema : option uuid) : O uuid :=
  let* s := mget in
  if bool_decide (bs_runs s !! run = None) then missing "onboarding_run_not_found"
  else if bool_decide (step ∉ (bs_steps s).*1) then missing "onboarding_step_not_found"
  else
    let* i := boarding_id in
    mmodify (fun s => set_step_runs (bs_step_runs s ++ [{| sr_id := i; sr_run := run; sr_step := step; sr_name := name; sr_status := "PENDING";
      sr_input := []; sr_output := []; sr_schema := schema |}]) s) ;;*
    mret i.

(** [update_step_status]: payloads that are not given stay. *)
Definition with_step (st : string) (input output : option pydict) (x : StepRun) : StepRun := {|
  sr_id := sr_id x; sr_run := sr_run x; sr_step := sr_step x; sr_name := sr_name x; sr_status := st;
  sr_input := default (sr_input x) input; sr_output := default (sr_output x) output; sr_schema := sr_schema x |}.
Definition update_step_status (i : uuid) (st : string) (input output : option pydict) : O StepRun :=
  let* s := mget in
  match get_step i s with
  | None => missing "step_run_not_found"
  | Some x =>
      mmodify (fun s => set_step_runs ((fun y => if (sr_id y =? i)%N then with_step st input output y else y) <$> bs_step_runs s) s) ;;*
      mret (with_step st input output x)
  end.

(** ** The service *)

Section service.
(** [UUID(text)] raises on other texts. *)
Variable uuid_parse : string -> option uuid.
(** [f"Step {n}"]. *)
Variable step_name : nat -> string.

Definition parse_id (x : string) : O uuid := mlift (match uuid_parse x with Some i => Ok i | None => Err PyValueError end).

(** [list_onboardings]: the newest first. *)
Definition list_onboardings (tenant : uuid) (limit : nat) : O (list (uuid * onboarding)) :=
  let* s := mget in mret (take limit (filter (fun x => ob_tenant x.2 = tenant) (rev (bs_onboardings s)))).

Definition create_onboarding (tenant : uuid) (name : option string) (principal : string) : O uuid :=
  let* i := insert_onboarding tenant name principal in
  boarding_event tenant "onboarding" i "ONBOARDING_CREATED" "CREATE" principal "create onboarding" ;;*
  mret i.

Definition owned_onboarding (tenant i : uuid) : O unit :=
  let* s := mget in
  if bool_decide (ob_tenant <$> get_onboarding i s = Some tenant) then mret tt else missing "onboarding_not_found".

Definition list_onboarding_versions (tenant : uuid) (onboarding_id : string) : O (list (uuid * onboarding_version)) :=
  let* i := parse_id onboarding_id in
  owned_onboarding tenant i ;;*
  let* s := mget in
  mret (members (i, 0%N) (bs_versions s)).

Definition version_onboarding (v : uuid) : O onboarding_version :=
  let* s := mget in
  match bs_versions s !! v with Some r => mret r | None => missing "onboarding_version_not_found" end.

Definition create_onboarding_run (tenant v : uuid) (principal : string) : O (uuid * uuid) :=
  let* version := version_onboarding v in
  owned_onboarding tenant (ov_onboarding version) ;;*
  let* i := insert_run v in
  boarding_event tenant "onboarding_run" i "ONBOARDING_RUN_CREATED" "CREATE" principal "create onboarding run" ;;*
  mret (i, v).

(** The checks that every operation on a run begins with: its version, for a run of the tenant. *)
Definition owned_run (tenant : uuid) (onboarding_run_id : string) : O (uuid * uuid) :=
  let* r := parse_id onboarding_run_id in
  let* s := mget in
  match bs_runs s !! r with
  | None => missing "onboarding_run_not_found"
  | Some v =>
      let* version := version_onboarding v in
      owned_onboarding tenant (ov_onboarding version) ;;*
      mret (r, v)
  end.
Definition get_onboarding_run (tenant : uuid) (run : string) : O (uuid * uuid) := owned_run tenant run.
Definition list_steps (tenant : uuid) (run : string) : O (list StepRun) :=
  let* r := owned_run tenant run in let* s := mget in mret (run_steps r.1 s).

Definition is_open (x : StepRun) : bool := bool_decide (sr_status x ∈ ["PENDING"; "IN_PROGRESS"]).
Definition get_current_step (tenant : uuid) (run : string) : O (option StepRun) :=
  let* r := owned_run tenant run in let* s := mget in mret (List.find is_open (run_steps r.1 s)).

Definition is_run_completed (tenant : uuid) (run : string) : O bool :=
  let* r := owned_run tenant run in
  let* s := mget in
  mret (match run_steps r.1 s with [] => false | l => forallb (fun x => bool_decide (sr_status x ∈ ["COMPLETED"; "FAILED"])) l end).

(** The step after [step] in the order of its version, with its place. *)
Fixpoint step_after (n : nat) (step : uuid) (l : list uuid) : option (nat * uuid) :=
  match l with
  | x :: l' => if (x =? step)%N then (match l' with y :: _ => Some (S n, y) | [] => None end) else step_after (S n) step l'
  | [] => None
  end.

Definition advance_step (tenant : uuid) (run step_run : string) (input : pydict) (principal : string) : O StepRun :=
  let* r := parse_id run in
  let* i := parse_id step_run in
  let* rv := owned_run tenant run in
  let* s := mget in
  match get_step i s with
  | Some x =>
      if negb (bool_decide (sr_run x = r)) then missing "step_run_not_found"
      else if negb (is_open x) then mraise (DomainValidationException "step_run_not_in_valid_status_for_advance")
      else
        update_step_status i "IN_PROGRESS" (Some input) None ;;*
        (if String.eqb (sr_status x) "PENDING"
         then boarding_event tenant "onboarding_step_run" i "ONBOARDING_STEP_STARTED" "UPDATE" principal "advance step" else mret tt) ;;*
        let* updated := update_step_status i "COMPLETED" None (Some [("result", PStr "processed"); ("input", PDict input)]) in
        boarding_event tenant "onboarding_step_run" i "ONBOARDING_STEP_COMPLETED" "UPDATE" principal "step completed" ;;*
        let* s := mget in
        (match step_after 0 (sr_step x) (list_onboarding_steps rv.2 s) with
         | Some (n, next) => create_step r next (step_name (S n)) None ;;* mret tt
         | None => mret tt
         end) ;;*
        mret updated
  | None => missing "step_run_not_found"
  end.

(** The requests of the routes. *)
Inductive boarding_request : Type :=
  | CreateOnboarding (tenant : uuid) (name : option string) (principal : string)
  | CreateOnboardingRun (tenant v : uuid) (principal : string)
  | AdvanceStep (tenant : uuid) (run step_run : string) (input : pydict) (principal : string).
Definition serve_boarding (q : boarding_request) : O unit :=
  match q with
  | CreateOnboarding t n p => create_onboarding t n p ;;* mret tt
  | CreateOnboardingRun t v p => create_onboarding_run t v p ;;* mret tt
  | AdvanceStep t r i x p => advance_step t r i x p ;;* mret tt
  end.
Definition after_boarding (l : list boarding_request) (s : boarding) : boarding := foldl (fun s q => (serve_boarding q s).2) s l.
End service.

(** ** Facts *)

Section facts.
Variable uuid_parse : string -> option uuid.
Variable step_name : nat -> string.
Abbreviation owned := (owned_run uuid_parse).
Abbreviation advance := (advance_step uuid_parse step_name).

(** Step runs have identifiers of their own. *)
Definition numbered_steps (s : boarding) : Prop := NoDup (sr_id <$> bs_step_runs s) /\ forall x, x ∈ bs_step_runs s -> (sr_id x < bs_next s)%N.

Lemma owned_run_quiet t run s : (owned t run s).2 = s.
Proof.
  unfold owned_run, parse_id. unfold mbind_ at 1, mlift. destruct (uuid_parse run) as [r|]; [|done]. rewrite get_bind.
  destruct (bs_runs s !! r) as [v|]; [|done]. unfold version_onboarding, owned_onboarding. unfold mbind_ at 1. rewrite get_bind.
  destruct (bs_versions s !! v) as [x|]; [|done]. cbn. unfold mbind_, mget. by case_bool_decide.
Qed.
Lemma owned_run_ok t run s r v s' : owned t run s = (Ok (r, v), s') ->
  uuid_parse run = Some r /\ bs_runs s !! r = Some v /\ exists x o, bs_versions s !! v = Some x /\ get_onboarding (ov_onboarding x) s = Some o /\ ob_tenant o = t.
Proof.
  unfold owned_run, parse_id. unfold mbind_ at 1, mlift. destruct (uuid_parse run) as [r'|]; [|done]. rewrite get_bind.
  destruct (bs_runs s !! r') as [v'|] eqn:Hr; [|done]. unfold version_onboarding, owned_onboarding. unfold mbind_ at 1. rewrite get_bind.
  destruct (bs_versions s !! v') as [x|] eqn:Hv; [|done]. cbn. unfold mbind_, mget. case_bool_decide as Ho; [|done]. intros [= -> -> _].
  split_and!; [done..|]. destruct (get_onboarding (ov_onboarding x) s) as [o|] eqn:Hg; [|done]. injection Ho as Ho. eauto.
Qed.

Lemma get_step_elem i s x : get_step i s = Some x -> x ∈ bs_step_runs s /\ sr_id x = i.
Proof. intros [H1 H2%N.eqb_eq]%List.find_some. by rewrite list_elem_of_In. Qed.
Lemma find_map_step (f : StepRun -> StepRun) i l : (forall y, sr_id (f y) = sr_id y) ->
  List.find (fun x => (sr_id x =? i)%N) ((fun y => if (sr_id y =? i)%N then f y else y) <$> l) = f <$> List.find (fun x => (sr_id x =? i)%N) l.
Proof.
  intros Hf. induction l as [|y l IH]; [done|]. cbn. destruct (sr_id y =? i)%N eqn:E; cbn; [by rewrite Hf, E | by rewrite E].
Qed.

Lemma updated_step i st a b s x : get_step i s = Some x ->
  update_step_status i st a b s = (Ok (with_step st a b x), set_step_runs ((fun y => if (sr_id y =? i)%N then with_step st a b y else y) <$> bs_step_runs s) s).
Proof. intros Hx. unfold update_step_status. rewrite get_bind, Hx. reflexivity. Qed.
Lemma created_step r step name s : bs_runs s !! r <> None -> step ∈ (bs_steps s).*1 ->
  create_step r step name None s = (Ok (bs_next s), set_step_runs (bs_step_runs s ++ [{| sr_id := bs_next s; sr_run := r; sr_step := step; sr_name := name;
    sr_status := "PENDING"; sr_input := []; sr_output := []; sr_schema := None |}]) (set_bs_next (bs_next s + 1)%N s)).
Proof. intros Hr Hs. unfold create_step. rewrite get_bind. rewrite !bool_decide_eq_false_2; [done | by intros [] | done]. Qed.
Lemma set_bs_events_exists t r i ty ch p w s : exists ev, boarding_event t r i ty ch p w s = (Ok tt, set_bs_events ev s).
Proof. eexists. reflexivity. Qed.
Lemma optional_event (b : bool) (m : O unit) : (forall s, exists ev, m s = (Ok tt, set_bs_events ev s)) ->
  forall s, exists ev, (if b then m else mret tt) s = (Ok tt, set_bs_events ev s).
Proof. intros Hm s. destruct b; [apply Hm|]. exists (bs_events s). by destruct s. Qed.

Lemma step_after_in n step l m y : step_after n step l = Some (m, y) -> y ∈ l.
Proof.
  revert n. induction l as [|x l IH]; intros n; [done|]. simpl. destruct (x =? step)%N.
  - destruct l as [|z l]; [done|]. intros [= _ ->]. right. left.
  - intros H%IH. by right.
Qed.

(** What an advanced step looks like. *)
Definition finished_step (input : pydict) (x : StepRun) : StepRun :=
  with_step "COMPLETED" (Some input) (Some [("result", PStr "processed"); ("input", PDict input)]) x.
Definition advanced_rows (i : uuid) (input : pydict) (l : list StepRun) : list StepRun :=
  (fun y => if (sr_id y =? i)%N then finished_step input y else y) <$> l.
Definition following (r v : uuid) (x : StepRun) (s : boarding) : list StepRun :=
  match step_after 0 (sr_step x) (list_onboarding_steps v s) with
  | Some (n, next) => [{| sr_id := bs_next s; sr_run := r; sr_step := next; sr_name := step_name (S n); sr_status := "PENDING";
                          sr_input := []; sr_output := []; sr_schema := None |}]
  | None => []
  end.

(** Everything but the step runs, the events and the counter. *)
Definition same_catalogue (s s' : boarding) : Prop :=
  bs_onboardings s' = bs_onboardings s /\ bs_versions s' = bs_versions s /\ bs_steps s' = bs_steps s /\ bs_runs s' = bs_runs s.

(** Advancing a step: a refused request changes nothing; otherwise the run is the tenant's, the step was open, it is completed with the
    input, and the step after it in the version, if there is one, is waiting. *)
Theorem advance_step_effect t run step input p s :
  match advance t run step input p s with
  | (Ok u, s') => exists r v i x, owned t run s = (Ok (r, v), s) /\ uuid_parse step = Some i /\ get_step i s = Some x /\ sr_run x = r /\ is_open x = true /\
      u = finished_step input x /\ bs_step_runs s' = advanced_rows i input (bs_step_runs s) ++ following r v x s /\
      (bs_next s' = bs_next s + N.of_nat (length (following r v x s)))%N /\ same_catalogue s s'
  | (Err _, s') => s' = s
  end.
Proof.
  unfold advance_step, parse_id. unfold mbind_ at 1, mlift. destruct (uuid_parse run) as [r|] eqn:Hr; [|done].
  unfold mbind_ at 1. destruct (uuid_parse step) as [i|]; [|done]. pose proof (owned_run_quiet t run s) as Hq.
  destruct (owned t run s) as [[[r' v]|e] s1] eqn:Ho; simpl in Hq; subst s1; rewrite (mbind_run _ _ _ _ _ Ho); [|done]. rewrite get_bind.
  destruct (owned_run_ok _ _ _ _ _ _ Ho) as (Hr' & Hrun & _). rewrite Hr in Hr'. injection Hr' as <-.
  destruct (get_step i s) as [x|] eqn:Hx; [|done]. case_bool_decide as Hrx; [|done]. simpl. destruct (is_open x) eqn:Hop; [|done]. simpl.
  rewrite (mbind_run _ _ _ _ _ (updated_step i _ _ _ s x Hx)).
  match goal with |- context [mbind_ (if ?b then ?m else _) _ ?s1] => destruct (optional_event b m (fun s => set_bs_events_exists _ _ _ _ _ _ _ s) s1) as [ev1 E1] end.
  rewrite (mbind_run _ _ _ _ _ E1). clear E1.
  match goal with |- context [mbind_ (update_step_status i ?st ?a ?b) _ ?s1] => assert (H1 : get_step i s1 = Some (with_step "IN_PROGRESS" (Some input) None x)) end.
  { unfold get_step. cbn. rewrite find_map_step by done. unfold get_step in Hx. by rewrite Hx. }
  rewrite (mbind_run _ _ _ _ _ (updated_step i _ _ _ _ _ H1)). clear H1.
  match goal with |- context [mbind_ (boarding_event ?a ?b ?c ?d ?e ?f ?g) _ ?s1] => destruct (set_bs_events_exists a b c d e f g s1) as [ev2 E2] end.
  rewrite (mbind_run _ _ _ _ _ E2), get_bind. clear E2.
  match goal with |- context [mbind_ _ _ ?s1] => set (s2 := s1) end.
  assert (Hrows : bs_step_runs s2 = advanced_rows i input (bs_step_runs s)).
  { unfold s2, advanced_rows. simpl. rewrite <- list_fmap_compose. apply list_fmap_ext. intros _ y _. simpl.
    destruct (sr_id y =? i)%N eqn:E; simpl; by rewrite E. }
  change (list_onboarding_steps v s2) with (list_onboarding_steps v s).
  destruct (step_after 0 (sr_step x) (list_onboarding_steps v s)) as [[n next]|] eqn:Hn.
  - pose proof (step_after_in _ _ _ _ _ Hn) as Hin. apply list_elem_of_fmap in Hin as ([a b] & -> & Hab). apply list_elem_of_filter in Hab as [_ Hab].
    unfold mbind_ at 1 2. rewrite created_step; [|change (bs_runs s2) with (bs_runs s); by rewrite Hrun | by apply (list_elem_of_fmap_2 fst _ (a, b))]. cbn [mret].
    exists r, v, i, x. unfold following. rewrite Hn. split_and!; try done; [exact (f_equal (fun l => l ++ [_]) Hrows)].
  - unfold mbind_, mret. exists r, v, i, x. unfold following. rewrite Hn. split_and!; try done; [by rewrite app_nil_r | simpl; lia].
Qed.

(** Runs are created without a step, and only advancing a step creates one: no run the service creates ever has a step. *)
Theorem onboarding_never_starts l s : bs_step_runs s = [] -> bs_step_runs (after_boarding uuid_parse step_name l s) = [].
Proof.
  revert s. induction l as [|q l IH]; intros s Hs; [done|]. simpl. apply IH. destruct q as [t n p|t v p|t run i x p]; simpl.
  - done.
  - unfold create_onboarding_run, version_onboarding, owned_onboarding, insert_run. unfold mbind_ at 1 2. rewrite get_bind.
    destruct (bs_versions s !! v) eqn:Hv; [|done]. cbn. unfold mbind_, mget. case_bool_decide; [|done]. cbn. rewrite Hv. done.
  - pose proof (advance_step_effect t run i x p s) as He. unfold mbind_. destruct (advance t run i x p s) as [[u|e] s1]; simpl in *; [|by subst].
    destruct He as (r & v & j & y & _ & _ & Hy & _). apply get_step_elem in Hy as [Hy _]. rewrite Hs in Hy. by apply not_elem_of_nil in Hy.
Qed.
End facts.

(** ** A concrete onboarding *)

Module welcome.
Definition text_id (s : string) : option uuid := match s with "r" => Some 5%N | "1" => Some 6%N | "2" => Some 10%N | _ => None end.
Definition name_ (n : nat) : string := match n with 2 => "Step 2" | _ => "Step" end.
(** Version 2 of onboarding 1 has the steps 3 and 4; run 5 is at its first. *)
Definition started : boarding := {| bs_next := 10; bs_onboardings := [(1%N, {| ob_tenant := 7; ob_name := None; ob_creator := None |})];
  bs_versions := {[2%N := {| ov_onboarding := 1; ov_status := "DRAFT"; ov_number := {| vn_major := 1; vn_minor := 0; vn_patch := 0 |} |}]};
  bs_steps := [(3%N, 2%N); (4%N, 2%N)]; bs_runs := {[5%N := 2%N]};
  bs_step_runs := [{| sr_id := 6; sr_run := 5; sr_step := 3; sr_name := "Step 1"; sr_status := "PENDING"; sr_input := []; sr_output := []; sr_schema := None |}];
  bs_events := [] |}.
Definition both : boarding := after_boarding text_id name_ [AdvanceStep 7 "r" "1" [] "ann"; AdvanceStep 7 "r" "2" [] "ann"] started.
Example both_steps : (fun x => (sr_step x, sr_name x, sr_status x)) <$> bs_step_runs both = [(3%N, "Step 1", "COMPLETED"); (4%N, "Step 2", "COMPLETED")] /\
  (is_run_completed text_id 7 "r" both).1 = Ok true /\ length (bs_events both) = 4.
Proof. vm_compute. by split_and!. Qed.
(** Another tenant cannot advance it, nor can it be advanced twice. *)
Example advance_refused : (advance_step text_id name_ 8 "r" "1" [] "eve" started).1 = Err (NotFoundServiceException "onboarding_not_found") /\
  (advance_step text_id name_ 7 "r" "1" [] "ann" both).1 = Err (DomainValidationException "step_run_not_in_valid_status_for_advance").
Proof. by split. Qed.
End welcome.
