(* ===== verification/UserPrompts.v ===== *)
(** * UserPrompts: the prompts tenants keep for their users

    [src/src/domain/user_prompts/] (service and repository): prompts with a title, whose versions count up; creating a version of a title
    retires the one before. *)

From S2P Require Import Prelude.
From S2P Require Import Errors.
From S2P Require Import Effects.
From S2P Require Import Sorting.
From S2P Require Import Store.

Record user_prompt : Type := {
  up_tenant : uuid;
  up_title : string;
  up_content : string;
  up_version : Z;
  up_active : bool;
  up_creator : option string;
}.
Record promptbook : Type := {
  ub_next : uuid;
  ub_prompts : gmap uuid user_prompt;
}.
Abbreviation U := (M promptbook).

(** [UserPromptNotFoundException]. *)
Definition prompt_missing : exc := NotFoundServiceException "user_prompt_not_found".

(** ** The repository *)

(** [list_active]: the newest first. *)
Definition list_active (tenant : uuid) (limit : nat) (s : promptbook) : list (uuid * user_prompt) :=
  take limit (rev (filter (fun kv => up_tenant kv.2 = tenant /\ up_active kv.2 = true) (sorted_by N.le fst (map_to_list (ub_prompts s))))).

Definition get_by_id (tenant i : uuid) (s : promptbook) : option user_prompt :=
  match ub_prompts s !! i with
  | Some r => if bool_decide (up_tenant r = tenant /\ up_active r = true) then Some r else None
  | None => None
  end.

Definition of_title (tenant : uuid) (title : string) (r : user_prompt) : bool := bool_decide (up_tenant r = tenant /\ up_title r = title).
(** The version of the newest prompt of the title, or zero. *)
Definition latest (tenant : uuid) (title : string) (m : gmap uuid user_prompt) : Z :=
  foldr Z.max 0%Z (up_version <$> filter (fun r => of_title tenant title r = true) (snd <$> map_to_list m)).
Definition retire (r : user_prompt) : user_prompt := {|
  up_tenant := up_tenant r; up_title := up_title r; up_content := up_content r; up_version := up_version r; up_active := false; up_creator := up_creator r |}.

(** [create]: one transaction. *)
Definition create_prompt (tenant : uuid) (title content creator : string) : U (uuid * user_prompt) := fun s =>
  let r := {| up_tenant := tenant; up_title := title; up_content := content; up_version := (latest tenant title (ub_prompts s) + 1)%Z; up_active := true;
              up_creator := Some creator |} in
  let retired := (fun x => if of_title tenant title x && up_active x then retire x else x) <$> ub_prompts s in
  (Ok (ub_next s, r), {| ub_next := (ub_next s + 1)%N; ub_prompts := <[ub_next s := r]> retired |}).

Definition deactivate (tenant i : uuid) : U bool := fun s =>
  match get_by_id tenant i s with
  | Some r => (Ok true, {| ub_next := ub_next s; ub_prompts := <[i := retire r]> (ub_prompts s) |})
  | None => (Ok false, s)
  end.

(** ** The service *)

Definition list_user_prompts (tenant : uuid) : U (list (uuid * user_prompt)) := let* s := mget in mret (list_active tenant 200 s).
Definition get_user_prompt (tenant i : uuid) : U user_prompt :=
  let* s := mget in match get_by_id tenant i s with Some r => mret r | None => mraise prompt_missing end.
Definition create_user_prompt (tenant : uuid) (title content principal : string) : U (uuid * user_prompt) := create_prompt tenant title content principal.
Definition deactivate_user_prompt (tenant i : uuid) : U unit :=
  let* ok := deactivate tenant i in
  if ok : bool then mret tt else mraise prompt_missing.

Inductive prompt_request : Type :=
  | CreatePrompt (tenant : uuid) (title content principal : string)
  | DeactivatePrompt (tenant i : uuid).
Definition serve_prompt (q : prompt_request) : U unit :=
  match q with
  | CreatePrompt t x c p => create_user_prompt t x c p ;;* mret tt
  | DeactivatePrompt t i => deactivate_user_prompt t i
  end.
Definition after_prompts (l : list prompt_request) (s : promptbook) : promptbook := foldl (fun s q => (serve_prompt q s).2) s l.

(** ** Facts *)

Record kept (s : promptbook) : Prop := {
  prompt_ids : forall i r, ub_prompts s !! i = Some r -> (i < ub_next s)%N /\ (0 < up_version r)%Z;
  one_active : forall i j a b, ub_prompts s !! i = Some a -> ub_prompts s !! j = Some b -> up_tenant a = up_tenant b -> up_title a = up_title b ->
    up_active a = true -> up_active b = true -> i = j;
  versions_differ : forall i j a b, ub_prompts s !! i = Some a -> ub_prompts s !! j = Some b -> up_tenant a = up_tenant b -> up_title a = up_title b ->
    up_version a = up_version b -> i = j;
  newest_active : forall i j a b, ub_prompts s !! i = Some a -> ub_prompts s !! j = Some b -> up_tenant a = up_tenant b -> up_title a = up_title b ->
    up_active a = true -> (up_version b <= up_version a)%Z;
}.
(** Prompts stay, and only ever retire. *)
Definition retires (s s' : promptbook) : Prop :=
  (ub_next s <= ub_next s')%N /\
  forall i r, ub_prompts s !! i = Some r -> ub_prompts s' !! i = Some r \/ ub_prompts s' !! i = Some (retire r).
#[local] Instance retires_preorder : PreOrder retires.
Proof.
  split; [intros s; split; [lia | auto]|]. intros a b c [H1 H2] [H3 H4]. split; [lia|]. intros i r Hr.
  destruct (H2 i r Hr) as [H|H]; destruct (H4 i _ H) as [H'|H']; auto.
Qed.

Lemma foldr_max_le l x : x ∈ l -> (x <= foldr Z.max 0 l)%Z.
Proof. induction l as [|y l IH]; [by intros ?%not_elem_of_nil|]. intros [->|H]%elem_of_cons; simpl; [lia|]. specialize (IH H). lia. Qed.
Lemma foldr_max_nonneg l : (0 <= foldr Z.max 0 l)%Z.
Proof. induction l; simpl; lia. Qed.
Lemma latest_le i t x m r : m !! i = Some r -> up_tenant r = t -> up_title r = x -> (up_version r <= latest t x m)%Z.
Proof.
  intros Hr Ht Hx. apply foldr_max_le, list_elem_of_fmap_2. apply list_elem_of_filter. split; [by apply bool_decide_eq_true|].
  apply (list_elem_of_fmap_2 snd _ (i, r)), elem_of_map_to_list, Hr.
Qed.

Lemma create_keeps t x c p s : keeps kept retires s (create_prompt t x c p s).2.
Proof.
  intros [K1 K2 K3 K4]. unfold create_prompt. simpl. set (new := {| up_tenant := t |}).
  assert (Hf : ub_prompts s !! ub_next s = None).
  { destruct (ub_prompts s !! ub_next s) as [r|] eqn:E; [|done]. apply K1 in E. lia. }
  assert (Hold : forall i r, ((fun x0 => if of_title t x x0 && up_active x0 then retire x0 else x0) <$> ub_prompts s) !! i = Some r ->
    exists r0, ub_prompts s !! i = Some r0 /\ up_tenant r = up_tenant r0 /\ up_title r = up_title r0 /\ up_version r = up_version r0 /\
      (up_active r = true -> up_active r0 = true /\ of_title t x r0 = false)).
  { intros i r [r0 [<- Hr0]]%lookup_fmap_Some. exists r0. destruct (of_title t x r0) eqn:E1, (up_active r0) eqn:E2; simpl; split_and!; naive_solver. }
  pose proof (foldr_max_nonneg (up_version <$> filter (fun r => of_title t x r = true) (snd <$> map_to_list (ub_prompts s)))) as Hnn.
  assert (Hnew : forall i r, ub_prompts s !! i = Some r -> up_tenant r = t -> up_title r = x -> (up_version r < up_version new)%Z).
  { intros i r H1 H2 H3. pose proof (latest_le i t x (ub_prompts s) r H1 H2 H3). unfold new. simpl. lia. }
  assert (Hdead : forall r0, of_title t x r0 = false -> up_tenant r0 = t -> up_title r0 = x -> False).
  { intros r0 H1 H2 H3. apply bool_decide_eq_false in H1. auto. }
  split; [split|split]; simpl.
  - intros i r. rewrite lookup_insert_Some. intros [[<- <-]|[_ H]]; [split; [lia|]; simpl; unfold latest; lia|].
    destruct (Hold i r H) as (r0 & H0 & _ & _ & -> & _). destruct (K1 i r0 H0). split; [lia | done].
  - intros i j a b. rewrite !lookup_insert_Some. intros [[<- <-]|[_ Ha]] [[<- <-]|[_ Hb]] Ht Hx Hia Hib; [done | | |].
    + destruct (Hold j b Hb) as (r0 & H0 & E1 & E2 & _ & Hact). destruct (Hact Hib) as [_ E]. destruct (Hdead r0 E); simpl in *; congruence.
    + destruct (Hold i a Ha) as (r0 & H0 & E1 & E2 & _ & Hact). destruct (Hact Hia) as [_ E]. destruct (Hdead r0 E); simpl in *; congruence.
    + destruct (Hold i a Ha) as (a0 & ? & ? & ? & ? & Ha1), (Hold j b Hb) as (b0 & ? & ? & ? & ? & Hb1).
      destruct (Ha1 Hia), (Hb1 Hib). eapply K2; [done | done | congruence | congruence | done | done].
  - intros i j a b. rewrite !lookup_insert_Some. intros [[<- <-]|[_ Ha]] [[<- <-]|[_ Hb]] Ht Hx Hv; [done | | |].
    + destruct (Hold j b Hb) as (r0 & H0 & E1 & E2 & E3 & _). pose proof (Hnew j r0 H0). simpl in *. exfalso. rewrite E3 in Hv. rewrite <- E1 in *. rewrite <- E2 in *. specialize (H (eq_sym Ht) (eq_sym Hx)). lia.
    + destruct (Hold i a Ha) as (r0 & H0 & E1 & E2 & E3 & _). pose proof (Hnew i r0 H0). simpl in *. exfalso. rewrite E3 in Hv. rewrite <- E1 in *. rewrite <- E2 in *. specialize (H Ht Hx). lia.
    + destruct (Hold i a Ha) as (a0 & ? & ? & ? & ? & _), (Hold j b Hb) as (b0 & ? & ? & ? & ? & _). eapply K3; [done | done | congruence..].
  - intros i j a b. rewrite !lookup_insert_Some. intros [[<- <-]|[_ Ha]] [[<- <-]|[_ Hb]] Ht Hx Hia; [done | | |].
    + destruct (Hold j b Hb) as (r0 & H0 & E1 & E2 & -> & _). pose proof (Hnew j r0 H0) as H. simpl in *. rewrite <- E1, <- E2 in H. specialize (H (eq_sym Ht) (eq_sym Hx)). lia.
    + destruct (Hold i a Ha) as (r0 & H0 & E1 & E2 & _ & Hact). destruct (Hact Hia) as [_ E]. destruct (Hdead r0 E); simpl in *; congruence.
    + destruct (Hold i a Ha) as (a0 & ? & ? & ? & -> & Ha1), (Hold j b Hb) as (b0 & ? & ? & ? & -> & _). destruct (Ha1 Hia). eapply K4; [done | done | congruence | congruence | done].
  - lia.
  - intros i r Hr. rewrite lookup_insert_ne by congruence. rewrite lookup_fmap, Hr. simpl. destruct (_ && _); auto.
Qed.

Lemma deactivate_keeps t i s : keeps kept retires s (deactivate t i s).2.
Proof.
  intros [K1 K2 K3 K4]. unfold deactivate, get_by_id. destruct (ub_prompts s !! i) as [r|] eqn:Hr; [|split; [by split | reflexivity]].
  case_bool_decide as Hc; [|split; [by split | reflexivity]]. simpl.
  assert (Hold : forall j x, <[i := retire r]> (ub_prompts s) !! j = Some x -> exists x0, ub_prompts s !! j = Some x0 /\ up_tenant x = up_tenant x0 /\
    up_title x = up_title x0 /\ up_version x = up_version x0 /\ (up_active x = true -> up_active x0 = true)).
  { intros j x [[<- <-]|[_ Hx]]%lookup_insert_Some; [exists r | exists x]; naive_solver. }
  split; [split|split]; simpl.
  - intros j x Hx. destruct (Hold j x Hx) as (x0 & H0 & _ & _ & -> & _). by apply K1.
  - intros j k a b Ha Hb ? ? H1 H2. destruct (Hold j a Ha) as (a0 & ? & ? & ? & ? & Ha1), (Hold k b Hb) as (b0 & ? & ? & ? & ? & Hb1).
    eapply K2; [done | done | congruence | congruence | auto | auto].
  - intros j k a b Ha Hb ? ? ?. destruct (Hold j a Ha) as (a0 & ? & ? & ? & ? & _), (Hold k b Hb) as (b0 & ? & ? & ? & ? & _).
    eapply K3; [done | done | congruence..].
  - intros j k a b Ha Hb ? ? H1. destruct (Hold j a Ha) as (a0 & ? & ? & ? & -> & Ha1), (Hold k b Hb) as (b0 & ? & ? & ? & -> & _).
    eapply K4; [done | done | congruence | congruence | auto].
  - lia.
  - intros j x Hx. destruct (decide (j = i)) as [->|]; [rewrite lookup_insert_eq; right; congruence | rewrite lookup_insert_ne by done; auto].
Qed.

(** However prompts are created and deactivated: no prompt is lost or changed but retired, versions of a title differ, and of a title at
    most one version is active, and it is the newest. *)
Theorem prompts_kept l s : kept s -> kept (after_prompts l s) /\ retires s (after_prompts l s).
Proof.
  enough (keeps kept retires s (after_prompts l s)) by done. revert s. induction l as [|q l IH]; intros s; [reflexivity|]. simpl. etrans; [|apply IH].
  destruct q as [t x c p|t i]; simpl.
  - apply (create_keeps t x c p s).
  - unfold deactivate_user_prompt. pose proof (deactivate_keeps t i s) as Hd. unfold mbind_. destruct (deactivate t i s) as [[[]|e] s1]; exact Hd.
Qed.

(** A prompt that was created is the one that is read. *)
Theorem created_prompt_read t x c p s :
  exists i r, (create_user_prompt t x c p s).1 = Ok (i, r) /\ up_content r = c /\ (get_user_prompt t i (create_user_prompt t x c p s).2).1 = Ok r.
Proof.
  eexists _, _. split; [reflexivity|]. split; [done|]. unfold get_user_prompt. rewrite get_bind. unfold get_by_id. simpl. rewrite lookup_insert_eq.
  by rewrite bool_decide_eq_true_2.
Qed.
