(* ===== verification/Mcp.v ===== *)
(** * Mcp: servers of the model context protocol

    [src/src/domain/mcp_registry/] (servers of a tenant with their bindings and keys) and
    [src/src/adapters/mcp/tenant_mcp_gateway.py] (authenticating a client, building and caching the application of a server, calling its
    tools and searching its knowledge).

    The state has the tables, the cached applications and the world of HTTP endpoints and secrets.  FastMCP is outside: an application is
    the list of what the gateway registers with it.  SHA-256, JSON text, [jsonschema] and the order in which the database returns rows are
    parameters; a structured result stands for the text that repeats it. *)

From S2P Require Import Prelude.
From S2P Require Import Errors.
From S2P Require Import PyValue.
From S2P Require Import PyString.
From S2P Require Import PyFloat.
From S2P Require Import Sorting.
From S2P Require Import Effects.
From S2P Require Import Store.
From S2P Require Import ToolRuns.
From S2P Require Import FlowService.
From S2P Require Import FlowAuthoring.
From S2P Require Import Rag.
From S2P Require Import Versions.
From S2P Require Import Agents.
From S2P Require Import Tools.
From S2P Require Import UserPrompts.

(** ** Tables *)

Record mcp_server : Type := {
  ms_tenant : uuid;
  ms_name : string;
  ms_status : string;
  ms_snapshot : option uuid;
  ms_deployment : option uuid;
  ms_metadata : option pydict;
}.
Record mcp_credential : Type := {
  mk_server : uuid;
  mk_hash : string;
  mk_prefix : string;
  mk_revoked : bool;
}.
Record McpServerCreateRequest : Type := {
  mq_tools : list uuid;
  mq_stores : list uuid;
  mq_prompts : list uuid;
  mq_name : option string;
  mq_snapshot : option uuid;
  mq_deployment : option uuid;
  mq_secret_ref : option string;
}.
Record McpServerToolBinding : Type := {
  mb_config : uuid;
  mb_name : string;
  mb_description : string;
  mb_request : pydict;
  mb_response : option pydict;
}.
Record McpBindingState : Type := {
  bs_tenant : uuid;
  bs_server : uuid;
  bs_tools : gset uuid;
  bs_stores : gset uuid;
  bs_prompts : gset uuid;
  bs_snapshot : option uuid;
  bs_deployment : option uuid;
  bs_secret_ref : option string;
}.
(** Prompts: identifier, slug, title and content. *)
Record McpServerBuildSpec : Type := {
  sp_tenant : uuid;
  sp_server : uuid;
  sp_tools : list McpServerToolBinding;
  sp_stores : list uuid;
  sp_prompts : list (uuid * string * string * string);
  sp_snapshot : option uuid;
  sp_deployment : option uuid;
  sp_secret_ref : option string;
}.
Definition spec_key : Type := uuid * list (string * string * string * string) * list uuid * list (string * string) * option uuid * option uuid * string.

(** What the gateway registers: proxies of tools, the search and prompts. *)
Record proxy_tool : Type := {
  px_name : string;
  px_description : option string;
  px_parameters : pydict;
  px_output : option pydict;
  px_config : uuid;
  px_tenant : uuid;
}.
Record mcp_app : Type := {
  ap_id : N;
  ap_tools : list proxy_tool;
  ap_search : option (uuid * list uuid);
  ap_prompts : list (string * string * string);
}.
Record mcp {P W : Type} : Type := {
  mp_box : toolbox P;
  mp_prompts : gmap uuid user_prompt;
  mp_servers : list (uuid * mcp_server);
  mp_credentials : list mcp_credential;
  mp_tools : list (uuid * uuid);
  mp_stores : list (uuid * uuid);
  mp_user_prompts : list (uuid * uuid);
  mp_next : uuid;
  mp_apps : list (spec_key * mcp_app);
  mp_built : N;
  mp_lifespans : list N;
  mp_outside : W;
}.
Arguments mcp : clear implicits.

(** ** Names and schemas *)

Definition OUTBOUND_AUTHORIZATION_SECRET_REF_KEY : string := "outbound_authorization_secret_ref".
Definition END_USER_AUTHORIZATION_METADATA_KEY : string := "end_user_authorization".
Definition MCP_APP_CACHE_LIMIT : nat := 64.

Definition is_word_char (c : string) : bool :=
  match c with String a EmptyString => is_safe a && negb (String.eqb c "-") | _ => false end.
(** [re.sub(r"[^a-zA-Z0-9_]+", "_", s)]. *)
Fixpoint squeeze (inside : bool) (l : list string) : list string :=
  match l with
  | [] => []
  | c :: l' => if is_word_char c then c :: squeeze false l' else if inside then squeeze true l' else "_" :: squeeze true l'
  end.
Definition strip_underscores (l : list string) : list string :=
  reverse (drop_while (String.eqb "_") (reverse (drop_while (String.eqb "_") l))).
Definition short_id (uuid_str : uuid -> string) (i : uuid) : string := str_take 8 (str_remove (Ascii.ascii_of_nat 45) (uuid_str i)).
Definition _mcp_prompt_slug (uuid_str : uuid -> string) (title : string) (i : uuid) : string :=
  let base := str_lower (str_concat (strip_underscores (squeeze false (utf8_chars (py_strip title))))) in
  let base := if String.eqb base "" then "user_prompt" else base in
  str_take 48 base +:+ "_" +:+ short_id uuid_str i.

Fixpoint _json_schema_contains_ref (v : pyval) : bool :=
  match v with
  | PDict d => dict_has "$ref" d || existsb (fun kv => _json_schema_contains_ref kv.2) d
  | PList l => existsb _json_schema_contains_ref l
  | _ => false
  end.
Definition has_object_type (d : pydict) : bool := bool_decide (dict_getv "type" d = PStr "object").
Definition request_schema (v : pyval) : pydict :=
  match v with
  | PDict d =>
      if has_object_type d then d
      else if dict_has "properties" d then dict_update [("type", PStr "object")] d
      else [("type", PStr "object"); ("properties", PDict []); ("additionalProperties", PBool true)]
  | _ => [("type", PStr "object"); ("properties", PDict []); ("additionalProperties", PBool true)]
  end.
Definition response_schema (v : pyval) : option pydict :=
  match v with
  | PDict d => if has_object_type d && negb (_json_schema_contains_ref v) then Some d else None
  | _ => None
  end.

(** The rows of [ToolConfig] joined with [Tool]: names are given in the order of the rows. *)
Definition config_row : Type := uuid * option string * pydict.
Section naming.
Variable uuid_str : uuid -> string.
Variable py_str : pyval -> string.
Definition base_name (r : config_row) : string :=
  let n := py_strip (default "" r.1.2) in if String.eqb n "" then "tool_" +:+ str_take 8 (uuid_str r.1.1) else n.
Definition tool_binding_of (name : string) (r : config_row) : McpServerToolBinding := {|
  mb_config := r.1.1; mb_name := name;
  mb_description := py_strip (str_of py_str (or_else (dict_getv "description" r.2) (or_else (dict_getv "summary" r.2) (PStr ""))));
  mb_request := request_schema (dict_getv "request_schema" r.2); mb_response := response_schema (dict_getv "response_schema" r.2) |}.
Fixpoint name_rows (used : list string) (rows : list config_row) : list McpServerToolBinding :=
  match rows with
  | [] => []
  | r :: rows' =>
      let base := base_name r in
      let name := if bool_decide (base ∈ used) then base +:+ "_" +:+ short_id uuid_str r.1.1 else base in
      tool_binding_of name r :: name_rows (name :: base :: used) rows'
  end.
Fixpoint slug_rows (used : list string) (rows : list (uuid * user_prompt)) : list (uuid * string * string * string) :=
  match rows with
  | [] => []
  | (i, r) :: rows' =>
      let slug := _mcp_prompt_slug uuid_str (up_title r) i in
      let slug := if bool_decide (slug ∈ used) then slug +:+ "_" +:+ short_id uuid_str i else slug in
      (i, slug, up_title r, up_content r) :: slug_rows (slug :: used) rows'
  end.
End naming.

Section mcp.
Context {P W : Type}.
Variable runtime : RagRuntime P.
Variable sha256_hex : string -> string.
Variable uuid_str : uuid -> string.
Variable py_str : pyval -> string.
Variable dumps_sorted : pyval -> string.
Variable float_of_string : string -> option pyfloat.
(** [jsonschema.validate]: a message of a [ValidationError], or another exception. *)
Variable jsonschema : pydict -> pyval -> option (string + exc).
Variable http_send : http_request -> W -> res exc pydict * W.
Variable resolve_secret : string -> W -> res exc string * W.
(** [HttpToolResult.model_validate]: the text of its [ValidationError], or the dumped model. *)
Variable result_dump : pydict -> string + pyval.
Variable public_base_url : string.
(** The order of rows. *)
Variable config_order : list config_row -> list config_row.
Variable prompt_order : list (uuid * user_prompt) -> list (uuid * user_prompt).

Abbreviation K := (M (mcp P W)).

Definition set_box v (s : mcp P W) : mcp P W := Build_mcp _ _ v (mp_prompts s) (mp_servers s) (mp_credentials s) (mp_tools s) (mp_stores s) (mp_user_prompts s) (mp_next s)
  (mp_apps s) (mp_built s) (mp_lifespans s) (mp_outside s).
Definition set_servers v (s : mcp P W) : mcp P W := Build_mcp _ _ (mp_box s) (mp_prompts s) v (mp_credentials s) (mp_tools s) (mp_stores s) (mp_user_prompts s) (mp_next s)
  (mp_apps s) (mp_built s) (mp_lifespans s) (mp_outside s).
Definition set_apps v n (s : mcp P W) : mcp P W := Build_mcp _ _ (mp_box s) (mp_prompts s) (mp_servers s) (mp_credentials s) (mp_tools s) (mp_stores s) (mp_user_prompts s)
  (mp_next s) v n (mp_lifespans s) (mp_outside s).
Definition set_lifespans v (s : mcp P W) : mcp P W := Build_mcp _ _ (mp_box s) (mp_prompts s) (mp_servers s) (mp_credentials s) (mp_tools s) (mp_stores s) (mp_user_prompts s)
  (mp_next s) (mp_apps s) (mp_built s) v (mp_outside s).
Definition set_world v (s : mcp P W) : mcp P W := Build_mcp _ _ (mp_box s) (mp_prompts s) (mp_servers s) (mp_credentials s) (mp_tools s) (mp_stores s) (mp_user_prompts s)
  (mp_next s) (mp_apps s) (mp_built s) (mp_lifespans s) v.
Definition in_world {T} (f : W -> res exc T * W) : K T := fun s => let '(r, w) := f (mp_outside s) in (r, set_world w s).
Definition in_rag {T} (m : M (rag P) T) : K T := fun s =>
  let '(r, b) := on_rag m (mp_box s) in (r, set_box b s).
Definition flows_of (s : mcp P W) : authoring := ag_authoring (bx_agency (mp_box s)).

(** ** The repository *)

(** [validate_..._tenant]: every identifier is of a row of the tenant. *)
Definition all_of_tenant {T} (tenant_of : T -> uuid) (tenant : uuid) (ids : list uuid) (m : gmap uuid T) : bool :=
  forallb (fun i => match m !! i with Some r => bool_decide (tenant_of r = tenant) | None => false end) ids.
Definition validate_tool_configs_tenant (tenant : uuid) (ids : list uuid) (s : mcp P W) : bool := all_of_tenant tc_tenant tenant ids (bx_configs (mp_box s)).
Definition validate_vector_stores_tenant (tenant : uuid) (ids : list uuid) (s : mcp P W) : bool := all_of_tenant vs_tenant tenant ids (rg_stores (bx_rag (mp_box s))).
Definition validate_user_prompts_tenant (tenant : uuid) (ids : list uuid) (s : mcp P W) : bool := all_of_tenant up_tenant tenant ids (mp_prompts s).
Definition flow_is_of (tenant flow : uuid) (s : mcp P W) : bool := bool_decide (fl_tenant <$> au_flows (flows_of s) !! flow = Some tenant).
Definition validate_flow_snapshot_tenant (tenant : uuid) (i : option uuid) (s : mcp P W) : bool :=
  match i with
  | None => true
  | Some i => existsb (fun kv => bool_decide (fsn_id (sr_snapshot kv.2) = i) &&
      match au_versions (flows_of s) !! kv.1 with Some v => flow_is_of tenant (ve_flow v) s | None => false end) (map_to_list (au_snapshots (flows_of s)))
  end.
Definition validate_flow_deployment_tenant (tenant : uuid) (i : option uuid) (s : mcp P W) : bool :=
  match i with
  | None => true
  | Some i => existsb (fun d => bool_decide (dp_id d = i) && flow_is_of tenant (dp_flow d) s) (au_deployments (flows_of s))
  end.

Definition outbound_authorization_secret_ref_from_server_metadata (meta : option pydict) : option string :=
  match meta with
  | None => None
  | Some d =>
      match dict_getv OUTBOUND_AUTHORIZATION_SECRET_REF_KEY d with
      | PNone => None
      | v => let x := py_strip (str_of py_str v) in if String.eqb x "" then None else Some x
      end
  end.

(** [create_server_with_bindings]: one transaction, which a repeated identifier aborts; [raw_key] is what [secrets.token_urlsafe] gave. *)
Definition create_server_with_bindings (tenant : uuid) (name : string) (q : McpServerCreateRequest) (meta : option pydict) (raw_key : string) : K uuid := fun s =>
  let i := mp_next s in
  if bool_decide (NoDup (mq_tools q) /\ NoDup (mq_stores q) /\ NoDup (mq_prompts q))
  then (Ok i, Build_mcp _ _ (mp_box s) (mp_prompts s)
          (mp_servers s ++ [(i, {| ms_tenant := tenant; ms_name := name; ms_status := "ACTIVE"; ms_snapshot := mq_snapshot q; ms_deployment := mq_deployment q;
                                   ms_metadata := meta |})])
          (mp_credentials s ++ [{| mk_server := i; mk_hash := sha256_hex raw_key; mk_prefix := str_take 8 raw_key; mk_revoked := false |}])
          (mp_tools s ++ (pair i <$> mq_tools q)) (mp_stores s ++ (pair i <$> mq_stores q)) (mp_user_prompts s ++ (pair i <$> mq_prompts q)) (i + 1)%N
          (mp_apps s) (mp_built s) (mp_lifespans s) (mp_outside s))
  else (Err (ExternalError "IntegrityError" "mcp_server_tool_pkey"), s).

Definition server_of (i : uuid) (s : mcp P W) : option mcp_server := snd <$> List.find (fun x => (x.1 =? i)%N) (mp_servers s).
Definition get_server_by_tenant (tenant i : uuid) (s : mcp P W) : option mcp_server :=
  match server_of i s with Some r => if bool_decide (ms_tenant r = tenant) then Some r else None | None => None end.
Definition bound (i : uuid) (l : list (uuid * uuid)) : list uuid := snd <$> filter (fun x => x.1 = i) l.
Definition by_text (l : list uuid) : list uuid := sorted_by String.le uuid_str l.
Definition list_server_binding_ids (i : uuid) (s : mcp P W) : list uuid * list uuid * list uuid :=
  (by_text (bound i (mp_tools s)), by_text (bound i (mp_stores s)), by_text (bound i (mp_user_prompts s))).

(** [verify_api_key_and_load_bindings]. *)
Definition fits (server : uuid) (api_key : string) (c : mcp_credential) : bool :=
  bool_decide (mk_server c = server) && negb (mk_revoked c) && String.eqb (mk_hash c) (sha256_hex api_key).
Definition verify_api_key_and_load_bindings (server : uuid) (api_key : string) (s : mcp P W) : option McpBindingState :=
  if String.eqb (py_strip api_key) "" then None
  else
    match server_of server s with
    | Some r =>
        if String.eqb (ms_status r) "ACTIVE" && existsb (fits server api_key) (mp_credentials s)
        then Some {| bs_tenant := ms_tenant r; bs_server := server; bs_tools := list_to_set (bound server (mp_tools s));
                     bs_stores := list_to_set (bound server (mp_stores s)); bs_prompts := list_to_set (bound server (mp_user_prompts s));
                     bs_snapshot := ms_snapshot r; bs_deployment := ms_deployment r;
                     bs_secret_ref := outbound_authorization_secret_ref_from_server_metadata (ms_metadata r) |}
        else None
    | None => None
    end.

(** [fetch_mcp_server_build_spec]. *)
Definition config_rows (st : McpBindingState) (s : mcp P W) : list config_row :=
  omap (fun kv => t ← tool_of (tc_tool kv.2) (bx_tools (mp_box s));
                  if bool_decide (kv.1 ∈ bs_tools st /\ tc_tenant kv.2 = bs_tenant st) then Some (kv.1, tl_name t, tc_config kv.2) else None)
    (map_to_list (bx_configs (mp_box s))).
Definition prompt_rows (st : McpBindingState) (s : mcp P W) : list (uuid * user_prompt) :=
  filter (fun kv => kv.1 ∈ bs_prompts st /\ up_tenant kv.2 = bs_tenant st) (map_to_list (mp_prompts s)).
Definition fetch_mcp_server_build_spec (st : McpBindingState) (s : mcp P W) : McpServerBuildSpec := {|
  sp_tenant := bs_tenant st; sp_server := bs_server st;
  sp_tools := sorted_by String.le (fun b => uuid_str (mb_config b)) (name_rows uuid_str py_str [] (config_order (config_rows st s)));
  sp_stores := by_text (elements (bs_stores st));
  sp_prompts := sorted_by String.le (fun x => uuid_str x.1.1.1) (slug_rows uuid_str [] (prompt_order (prompt_rows st s)));
  sp_snapshot := bs_snapshot st; sp_deployment := bs_deployment st; sp_secret_ref := bs_secret_ref st |}.

(** [patch_mcp_server_outbound_authorization_secret_ref]. *)
Definition with_metadata (meta : option pydict) (r : mcp_server) : mcp_server := {|
  ms_tenant := ms_tenant r; ms_name := ms_name r; ms_status := ms_status r; ms_snapshot := ms_snapshot r; ms_deployment := ms_deployment r; ms_metadata := meta |}.
Definition patched (ref : option string) (meta : option pydict) : option pydict :=
  let d := default [] meta in
  let d := match ref with
           | Some x => if String.eqb (py_strip x) "" then filter (fun kv => kv.1 <> OUTBOUND_AUTHORIZATION_SECRET_REF_KEY) d
                       else dict_set OUTBOUND_AUTHORIZATION_SECRET_REF_KEY (PStr (py_strip x)) d
           | None => filter (fun kv => kv.1 <> OUTBOUND_AUTHORIZATION_SECRET_REF_KEY) d
           end in
  match d with [] => None | _ => Some d end.
Definition patch_secret_ref (tenant i : uuid) (ref : option string) : K bool := fun s =>
  match get_server_by_tenant tenant i s with
  | None => (Ok false, s)
  | Some r => (Ok true, set_servers ((fun x => if (x.1 =? i)%N then (x.1, with_metadata (patched ref (ms_metadata x.2)) x.2) else x) <$> mp_servers s) s)
  end.

(** ** The registry *)

Definition _normalize_outbound_authorization_secret_ref (raw : option string) : res exc (option string) :=
  match raw with
  | None => Ok None
  | Some x =>
      let x := py_strip x in
      if String.eqb x "" then Ok None
      else if String.prefix "env:" x then Ok (Some x)
      else Err (DomainValidationException "mcp_outbound_authorization_secret_ref_must_use_env_prefix")
  end.

Definition endpoint (base : string) (i : uuid) : string := base +:+ "/core/v1/mcp-servers/" +:+ uuid_str i +:+ "/mcp".
Record McpServerCreateResponse : Type := {
  mr_endpoint : string;
  mr_key : string;
  mr_server : uuid;
}.
Definition check (b : bool) (m : string) : K unit := if b then mret tt else mraise (DomainValidationException m).
Definition create_server (tenant : uuid) (q : McpServerCreateRequest) (endpoint_base : option string) (raw_key : string) : K McpServerCreateResponse :=
  let* s := mget in
  check (validate_tool_configs_tenant tenant (mq_tools q) s) "mcp_tool_config_tenant_mismatch" ;;*
  check (validate_vector_stores_tenant tenant (mq_stores q) s) "mcp_vector_store_tenant_mismatch" ;;*
  check (validate_user_prompts_tenant tenant (mq_prompts q) s) "mcp_user_prompt_tenant_mismatch" ;;*
  check (validate_flow_snapshot_tenant tenant (mq_snapshot q) s) "mcp_flow_snapshot_tenant_mismatch" ;;*
  check (validate_flow_deployment_tenant tenant (mq_deployment q) s) "mcp_flow_deployment_tenant_mismatch" ;;*
  let name := py_strip (default "" (mq_name q)) in
  let name := if String.eqb name "" then "mcp-server" else name in
  let* ref := mlift (_normalize_outbound_authorization_secret_ref (mq_secret_ref q)) in
  let meta := (fun x => [(OUTBOUND_AUTHORIZATION_SECRET_REF_KEY, PStr x)]) <$> ref in
  let* i := create_server_with_bindings tenant name q meta raw_key in
  let base := match endpoint_base with Some b => if String.eqb b "" then public_base_url else b | None => public_base_url end in
  mret {| mr_endpoint := endpoint (py_rstrip "/" base) i; mr_key := raw_key; mr_server := i |}.

(** [list_servers]: the newest first. *)
Definition list_servers (tenant : uuid) : K (list (uuid * mcp_server)) :=
  let* s := mget in mret (filter (fun x => ms_tenant x.2 = tenant) (rev (mp_servers s))).
Record McpServerDetail : Type := {
  de_server : uuid;
  de_row : mcp_server;
  de_endpoint : string;
  de_bindings : list uuid * list uuid * list uuid;
  de_fallback : bool;
}.
Definition get_server (tenant i : uuid) : K McpServerDetail :=
  let* s := mget in
  match get_server_by_tenant tenant i s with
  | None => mraise (NotFoundServiceException "mcp_server_not_found")
  | Some r => mret {| de_server := i; de_row := r; de_endpoint := endpoint (py_rstrip "/" public_base_url) i; de_bindings := list_server_binding_ids i s;
                      de_fallback := bool_decide (is_Some (outbound_authorization_secret_ref_from_server_metadata (ms_metadata r))) |}
  end.
Definition clear_tenant_mcp_app_cache : K unit := mmodify (fun s => set_apps [] (mp_built s) s).
Definition patch_mcp_server_outbound_auth (tenant i : uuid) (raw : option string) : K McpServerDetail :=
  let* ref := mlift (_normalize_outbound_authorization_secret_ref raw) in
  let* ok := patch_secret_ref tenant i ref in
  if ok : bool then clear_tenant_mcp_app_cache ;;* get_server tenant i
  else mraise (NotFoundServiceException "mcp_server_not_found").

(** ** Applications *)

Definition digest (n : nat) (text : string) : string := str_take n (sha256_hex text).
Definition _spec_cache_key (spec : McpServerBuildSpec) : spec_key :=
  (sp_server spec,
   (fun b => (uuid_str (mb_config b), mb_name b, digest 16 (dumps_sorted (PDict (mb_request b))), digest 16 (dumps_sorted (PDict (default [] (mb_response b)))))) <$> sp_tools spec,
   sp_stores spec, (fun x => (uuid_str x.1.1.1, digest 24 x.2)) <$> sp_prompts spec, sp_snapshot spec, sp_deployment spec, default "" (sp_secret_ref spec)).

Definition _build_http_app_from_spec (id : N) (spec : McpServerBuildSpec) : mcp_app := {|
  ap_id := id;
  ap_tools := (fun b => {| px_name := mb_name b; px_description := if String.eqb (mb_description b) "" then None else Some (mb_description b);
                           px_parameters := mb_request b; px_output := mb_response b; px_config := mb_config b; px_tenant := sp_tenant spec |}) <$> sp_tools spec;
  ap_search := match sp_stores spec with [] => None | l => Some (sp_tenant spec, l) end;
  ap_prompts := (fun x => (x.1.1.2, if String.eqb x.1.2 "" then x.1.1.2 else x.1.2, x.1.2 +:+ NEWLINE +:+ NEWLINE +:+ x.2)) <$> sp_prompts spec |}.

Fixpoint cached_app (key : spec_key) (l : list (spec_key * mcp_app)) : option mcp_app :=
  match l with [] => None | x :: l' => if bool_decide (x.1 = key) then Some x.2 else cached_app key l' end.
(** [popitem(last=False)] while there are too many. *)
Definition evict (l : list (spec_key * mcp_app)) : list (spec_key * mcp_app) := drop (length l - MCP_APP_CACHE_LIMIT) l.
Definition _get_mcp_http_app_for_spec (spec : McpServerBuildSpec) : K mcp_app := fun s =>
  let key := _spec_cache_key spec in
  match cached_app key (mp_apps s) with
  | Some a => (Ok a, set_apps (filter (fun x => x.1 <> key) (mp_apps s) ++ [(key, a)]) (mp_built s) s)
  | None =>
      let a := _build_http_app_from_spec (mp_built s) spec in
      (Ok a, set_apps (evict (mp_apps s ++ [(key, a)])) (mp_built s + 1)%N s)
  end.
Definition _ensure_mcp_asgi_lifespan (a : mcp_app) : K unit :=
  mmodify (fun s => if bool_decide (ap_id a ∈ mp_lifespans s) then s else set_lifespans (mp_lifespans s ++ [ap_id a]) s).

(** ** The gateway *)

(** [_header]: the first header of the name. *)
Definition _header (headers : list (string * string)) (name : string) : option string :=
  snd <$> List.find (fun h => String.eqb (str_lower h.1) name) headers.
Fixpoint str_drop (n : nat) (s : string) : string := match n, s with S n', String _ s' => str_drop n' s' | _, _ => s end.
(** The token of an [Authorization] header. *)
Definition bearer_body (auth : string) : option string :=
  if String.prefix "bearer " (str_lower auth) then Some (py_strip (str_drop 7 auth)) else None.

Definition client_key (headers : list (string * string)) : string :=
  let k := default "" (_header headers "x-api-key") in
  if String.eqb k "" then default "" (bearer_body (default "" (_header headers "authorization"))) else k.
(** The [Authorization] header, unless it is the key itself. *)
Definition inbound_metadata (headers : list (string * string)) (api_key : string) : pydict :=
  let auth := default "" (_header headers "authorization") in
  match bearer_body auth with
  | Some b => if String.eqb b "" || String.eqb b api_key then [] else [(END_USER_AUTHORIZATION_METADATA_KEY, PStr (py_strip auth))]
  | None => []
  end.

(** What the context variables hold during a request. *)
Record call_context : Type := {
  cc_inbound : pydict;
  cc_secret_ref : option string;
}.
(** [TenantMcpAsgiMiddleware.__call__] for a path of a server: [None] is the answer 401. *)
Definition gateway (server : uuid) (headers : list (string * string)) : K (option (mcp_app * call_context)) :=
  let api_key := client_key headers in
  if String.eqb api_key "" then mret None
  else
    let* s := mget in
    match verify_api_key_and_load_bindings server api_key s with
    | None => mret None
    | Some st =>
        let spec := fetch_mcp_server_build_spec st s in
        let* app := _get_mcp_http_app_for_spec spec in
        _ensure_mcp_asgi_lifespan app ;;*
        mret (Some (app, {| cc_inbound := inbound_metadata headers api_key; cc_secret_ref := sp_secret_ref spec |}))
    end.

(** [_mcp_interaction_metadata_for_http_tools]: [request] has the headers [get_http_request] finds. *)
Definition _mcp_interaction_metadata_for_http_tools (inbound : pydict) (request : option (list (string * string))) : pydict :=
  if truthy (dict_getv END_USER_AUTHORIZATION_METADATA_KEY inbound) then inbound
  else
    match request with
    | None => inbound
    | Some headers =>
        let auth := default "" (_header headers "authorization") in
        match bearer_body auth with
        | Some b =>
            if String.eqb b "" || String.eqb b (py_strip (default "" (_header headers "x-api-key"))) then inbound
            else dict_set END_USER_AUTHORIZATION_METADATA_KEY (PStr (py_strip auth)) inbound
        | None => inbound
        end
    end.

(** ** Calling a tool *)

Definition failure (e : string) : pyval := PDict [("error", PStr e)].
Definition failure_with (e : string) (detail : pyval) : pyval := PDict [("error", PStr e); ("detail", detail)].

(** The secret of the server stands in for a missing authorization. *)
Definition with_fallback (ref : option string) (meta : pydict) : K pydict :=
  match ref with
  | None => mret meta
  | Some r =>
      if negb (String.eqb r "") && String.eqb (py_strip (match dict_getv END_USER_AUTHORIZATION_METADATA_KEY meta with PStr x => x | _ => "" end)) ""
      then
        let* resolved := mtry (in_world (resolve_secret r)) (fun _ => mret "") in
        let v := py_strip resolved in
        mret (if String.eqb v "" then meta
              else dict_set END_USER_AUTHORIZATION_METADATA_KEY (PStr (if String.prefix "bearer " (str_lower v) then v else "Bearer " +:+ v)) meta)
      else mret meta
  end.

(** The headers, or the error result of one that cannot be given. *)
Fixpoint header_items (meta : pydict) (items : pydict) (acc : pydict) : K (pyval + pydict) :=
  match items with
  | [] => mret (inr acc)
  | (k, v) :: items' =>
      match v with
      | PDict d =>
          if dict_has "secret_ref" d then
            let* x := in_world (resolve_secret (str_of py_str (dict_getv "secret_ref" d))) in
            header_items meta items' (dict_set k (PStr x) acc)
          else if dict_has "interaction_metadata_key" d then
            let mk := str_of py_str (dict_getv "interaction_metadata_key" d) in
            match resolve_metadata_value meta mk with
            | None => mret (inl (failure_with "interaction_metadata_header_missing" (PDict [("header", PStr k); ("metadata_key", PStr mk)])))
            | Some raw => header_items meta items' (dict_set k (PStr (py_strip (str_of py_str raw))) acc)
            end
          else mret (inl (failure "invalid_tool_headers_config"))
      | PStr x => header_items meta items' (dict_set k (PStr x) acc)
      | _ => mret (inl (failure "invalid_tool_headers_config"))
      end
  end.

(** What is made of the response. *)
Definition tool_answer (output : option pydict) (result : pydict) : res exc pyval :=
  match result_dump result with
  | inl e => Ok (failure_with "tool_response_validation_failed" (PStr e))
  | inr dumped =>
      match output, dict_getv "body" result with
      | Some (x :: schema), PDict body =>
          match jsonschema (x :: schema) (PDict body) with
          | None => Ok (PDict body)
          | Some (inl m) => Ok (failure_with "response_body_schema_mismatch" (PStr m))
          | Some (inr e) => Err e
          end
      | _, _ => Ok (match dumped with PDict d => PDict d | v => PDict [("result", v)] end)
      end
  end.
Definition send_tool (tool : proxy_tool) (method url : string) (headers arguments : pydict) (timeout : pyfloat) : K pyval :=
  let* sent := mtry (let* r := in_world (http_send (http_call method url headers arguments timeout)) in mret (inr r))
                 (fun e => mret (inl (failure (exc_type e)))) in
  match sent with
  | inl e => mret e
  | inr result => mlift (tool_answer (px_output tool) result)
  end.

(** [_McpHttpProxyTool.run]. *)
Definition run_tool (ctx : option call_context) (request : option (list (string * string))) (tool : proxy_tool) (arguments : pydict) : K pyval :=
  match jsonschema (px_parameters tool) (PDict arguments) with
  | Some (inl m) => mret (failure_with "arguments_validation_failed" (PStr m))
  | Some (inr e) => mraise e
  | None =>
      match ctx with
      | None => mret (failure "mcp_context_missing")
      | Some c =>
          let* s := mget in
          match bx_configs (mp_box s) !! px_config tool with
          | Some cfg =>
              if negb (bool_decide (tc_tenant cfg = px_tenant tool)) then mret (failure "tool_config_not_found")
              else
                let config := tc_config cfg in
                let url := effective_tool_http_url py_str config in
                if String.eqb url "" then mret (failure "tool_config_missing_url")
                else
                  let method := str_of py_str (default (PStr "POST") (dict_get "method" config)) in
                  let* timeout := mlift (py_float float_of_string (default (PInt 10) (dict_get "timeout_seconds" config))) in
                  let* meta := with_fallback (cc_secret_ref c) (_mcp_interaction_metadata_for_http_tools (cc_inbound c) request) in
                  match or_empty (default (PDict []) (dict_get "headers" config)) with
                  | PDict items =>
                      let* h := header_items meta items [] in
                      match h with
                      | inl e => mret e
                      | inr headers => send_tool tool method url headers arguments timeout
                      end
                  | _ => mraise PyAttributeError
                  end
          | None => mret (failure "tool_config_not_found")
          end
      end
  end.

(** ** Searching knowledge *)

(** [get_published_rag_config_id_for_vector_store]: the newest. *)
Definition get_published_rag_config_id_for_vector_store (tenant store : uuid) (s : rag P) : option uuid :=
  fst <$> head (sorted_by newer_number (fun kv => rag_key kv.2)
    (filter (fun kv => rc_tenant kv.2 = tenant /\ rc_store kv.2 = store /\ rc_status kv.2 = "PUBLISHED") (map_to_list (rg_configs s)))).
Definition found_item (store : uuid) (x : RagContextItem) : pyval :=
  PDict [("vector_store_id", PStr (uuid_str store)); ("content", PStr (rk_content (ci_chunk x))); ("score", PFloat (ci_score x))].
(** Whether a store had a configuration, and what was found. *)
Fixpoint search_stores (tenant : uuid) (query : string) (stores : list uuid) : K (bool * list pyval) :=
  match stores with
  | [] => mret (false, [])
  | v :: stores' =>
      let* s := mget in
      match get_published_rag_config_id_for_vector_store tenant v (bx_rag (mp_box s)) with
      | None => search_stores tenant query stores'
      | Some c =>
          let* context := in_rag (rt_context runtime tenant c None query [] None None) in
          let* rest := search_stores tenant query stores' in
          mret (true, (found_item v <$> cx_items context) ++ rest.2)
      end
  end.
Definition search_knowledge (ctx : option call_context) (tenant : uuid) (stores : list uuid) (query : string) : K pyval :=
  match ctx with
  | None => mret (failure "mcp_context_missing")
  | Some _ =>
      let* r := search_stores tenant query stores in
      mret (if bool_decide (stores <> []) && negb r.1 then failure "no_published_rag_config" else PList r.2)
  end.
End mcp.
