(* ===== verification/McpFacts.v ===== *)
(** * McpFacts: what a client of a server reaches

    A server that was created serves what it was created with; whatever happens, a client reaches the tools, knowledge and prompts of the
    server its key is for; and a key given in its own header is not passed on to tools. *)

From S2P Require Import Prelude.
From S2P Require Import Errors.
From S2P Require Import PyValue.
From S2P Require Import PyString.
From S2P Require Import PyFloat.
From S2P Require Import Sorting.
From S2P Require Import Effects.
From S2P Require Import Store.
From S2P Require Import ToolRuns.
From S2P Require Import FlowAuthoring.
From S2P Require Import Rag.
From S2P Require Import Versions.
From S2P Require Import Agents.
From S2P Require Import Tools.
From S2P Require Import UserPrompts.
From S2P Require Import Mcp.

(** Rows come in some order. *)
Class RowOrder {T} (f : list T -> list T) : Prop := row_order l : f l ≡ₚ l.

Section naming.
Variable uuid_str : uuid -> string.
Variable py_str : pyval -> string.

Lemma name_rows_configs used rows : mb_config <$> name_rows uuid_str py_str used rows = (fun r => r.1.1) <$> rows.
Proof. revert used. induction rows as [|r rows IH]; intros used; [done|]. simpl. by rewrite IH. Qed.
Lemma slug_rows_ids used rows : (fun x => x.1.1.1) <$> slug_rows uuid_str used rows = fst <$> rows.
Proof. revert used. induction rows as [|[i r] rows IH]; intros used; [done|]. simpl. by rewrite IH. Qed.
End naming.

Section mcp.
Context {P W : Type}.
Variable runtime : RagRuntime P.
Variable sha256_hex : string -> string.
Variable uuid_str : uuid -> string.
Variable py_str : pyval -> string.
Variable dumps_sorted : pyval -> string.
Variable float_of_string : string -> option pyfloat.
Variable jsonschema : pydict -> pyval -> option (string + exc).
Variable http_send : http_request -> W -> res exc pydict * W.
Variable resolve_secret : string -> W -> res exc string * W.
Variable result_dump : pydict -> string + pyval.
Variable public_base_url : string.
Variable config_order : list config_row -> list config_row.
Variable prompt_order : list (uuid * user_prompt) -> list (uuid * user_prompt).
Context `{!RowOrder config_order, !RowOrder prompt_order, !Inj (=) (=) uuid_str}.

Abbreviation state := (mcp P W).
Abbreviation create_server := (create_server (P := P) (W := W) sha256_hex uuid_str public_base_url).
Abbreviation patch_auth := (patch_mcp_server_outbound_auth (P := P) (W := W) uuid_str py_str public_base_url).
Abbreviation verify := (verify_api_key_and_load_bindings (P := P) (W := W) sha256_hex py_str).
Abbreviation fetch := (fetch_mcp_server_build_spec (P := P) (W := W) uuid_str py_str config_order prompt_order).
Abbreviation spec_key_ := (_spec_cache_key sha256_hex uuid_str dumps_sorted).
Abbreviation get_app := (_get_mcp_http_app_for_spec (P := P) (W := W) sha256_hex uuid_str dumps_sorted).
Abbreviation gateway := (gateway (P := P) (W := W) sha256_hex uuid_str py_str dumps_sorted config_order prompt_order).
Abbreviation run_tool := (run_tool (P := P) (W := W) py_str float_of_string jsonschema http_send resolve_secret result_dump).
Abbreviation search := (search_knowledge (P := P) (W := W) runtime uuid_str).

(** ** The specification of a server *)

Lemma fetched_configs st s : (mb_config <$> sp_tools (fetch st s)) ≡ₚ ((fun r => r.1.1) <$> config_rows st s).
Proof. simpl. rewrite sorted_by_perm, name_rows_configs. by rewrite row_order. Qed.
Lemma fetched_prompts st s : ((fun x => x.1.1.1) <$> sp_prompts (fetch st s)) ≡ₚ (fst <$> prompt_rows st s).
Proof. simpl. rewrite sorted_by_perm, slug_rows_ids. by rewrite row_order. Qed.

Lemma elem_of_config_rows st s c n d : (c, n, d) ∈ config_rows (P := P) (W := W) st s ->
  c ∈ bs_tools st /\ exists r t, bx_configs (mp_box s) !! c = Some r /\ tc_tenant r = bs_tenant st /\ tc_config r = d /\ tool_of (tc_tool r) (bx_tools (mp_box s)) = Some t /\ tl_name t = n.
Proof.
  unfold config_rows. intros ([c' r] & Hr%elem_of_map_to_list & Hx)%list_elem_of_omap. simpl in Hx.
  destruct (tool_of (tc_tool r) (bx_tools (mp_box s))) as [t|] eqn:Ht; [|done]. simpl in Hx. case_bool_decide as Hc; [|done]. destruct Hc. injection Hx as <- <- <-. eauto 10.
Qed.

(** Applications of one key are of one server, with the same tools, stores and prompts. *)
Lemma same_key_configs a b : spec_key_ a = spec_key_ b ->
  sp_server a = sp_server b /\ mb_config <$> sp_tools a = mb_config <$> sp_tools b /\ mb_name <$> sp_tools a = mb_name <$> sp_tools b /\
  sp_stores a = sp_stores b /\ (fun x => x.1.1.1) <$> sp_prompts a = (fun x => x.1.1.1) <$> sp_prompts b.
Proof.
  unfold _spec_cache_key. intros [= H1 H2 H3 H4 _ _ _]. split_and!; [done | | | done|].
  - apply (inj (fmap (M := list) uuid_str)). rewrite <- !list_fmap_compose. apply (f_equal (fmap (fun x => x.1.1.1))) in H2. by rewrite <- !list_fmap_compose in H2.
  - apply (f_equal (fmap (fun x => x.1.1.2))) in H2. by rewrite <- !list_fmap_compose in H2.
  - apply (inj (fmap (M := list) uuid_str)). rewrite <- !list_fmap_compose. apply (f_equal (fmap fst)) in H4. by rewrite <- !list_fmap_compose in H4.
Qed.

(** ** The tables *)

Record tidy (s : state) : Prop := {
  servers_once : NoDup (mp_servers s).*1;
  server_ids : forall i r, (i, r) ∈ mp_servers s -> (i < mp_next s)%N;
  binding_ids : forall x, x ∈ mp_tools s ++ mp_stores s ++ mp_user_prompts s -> (x.1 < mp_next s)%N;
  credential_ids : forall c, c ∈ mp_credentials s -> (mk_server c < mp_next s)%N;
  apps_genuine : forall k a, (k, a) ∈ mp_apps s -> exists spec r, k = spec_key_ spec /\ a = _build_http_app_from_spec (ap_id a) spec /\
    server_of (sp_server spec) s = Some r /\ ms_tenant r = sp_tenant spec;
}.

(** What the requests on tools and knowledge leave alone. *)
Definition same_registry (s s' : state) : Prop :=
  mp_servers s' = mp_servers s /\ mp_credentials s' = mp_credentials s /\ mp_tools s' = mp_tools s /\ mp_stores s' = mp_stores s /\
  mp_user_prompts s' = mp_user_prompts s /\ mp_next s' = mp_next s /\ mp_apps s' = mp_apps s.
#[local] Instance same_registry_preorder : PreOrder same_registry.
Proof. unfold same_registry. split; [intros s; tauto|]. intros a b c (?&?&?&?&?&?&?) (?&?&?&?&?&?&?). split_and!; congruence. Qed.
Lemma same_registry_tidy s s' : same_registry s s' -> tidy s -> tidy s'.
Proof.
  intros (H1 & H2 & H3 & H4 & H5 & H6 & H7) [K0 K1 K2 K3 K4]. split; unfold server_of; rewrite ?H1, ?H2, ?H3, ?H4, ?H5, ?H6, ?H7; assumption.
Qed.

Lemma world_registry {T} (f : W -> res exc T * W) : respects same_registry (in_world (P := P) f).
Proof. intros s. unfold in_world. by destruct (f (mp_outside s)). Qed.
Lemma rag_registry {T} (m : M (rag P) T) : respects same_registry (in_rag (W := W) m).
Proof. intros s. unfold in_rag. by destruct (on_rag m (mp_box s)). Qed.
Hint Resolve world_registry rag_registry : frame.

Lemma headers_registry meta items acc : respects same_registry (header_items (P := P) py_str resolve_secret meta items acc).
Proof.
  revert acc. induction items as [|[k v] items IH]; intros acc; simpl; [apply respects_ret; apply _|].
  destruct v; try (apply respects_ret; apply _); [apply IH|].
  destruct (dict_has "secret_ref" d); [apply respects_bind; [apply _ | apply world_registry | intros; apply IH]|].
  destruct (dict_has _ d); [|apply respects_ret; apply _]. destruct (resolve_metadata_value _ _); [apply IH | apply respects_ret; apply _].
Qed.
Lemma run_registry ctx req tool args : respects same_registry (run_tool ctx req tool args).
Proof.
  unfold Mcp.run_tool. destruct (jsonschema _ _) as [[m|e]|]; [apply respects_ret; apply _ | apply respects_raise; apply _|].
  destruct ctx as [c|]; [|apply respects_ret; apply _]. apply respects_bind; [apply _ | apply respects_get; apply _|]. intros s.
  destruct (bx_configs (mp_box s) !! px_config tool) as [cfg|]; [|apply respects_ret; apply _].
  destruct (negb _); [apply respects_ret; apply _|]. destruct (String.eqb _ ""); [apply respects_ret; apply _|].
  apply respects_bind; [apply _ | apply respects_lift; apply _|]. intros tm. apply respects_bind; [apply _| |].
  { unfold with_fallback. destruct (cc_secret_ref c); [|apply respects_ret; apply _]. destruct (_ && _); [|apply respects_ret; apply _].
    apply respects_bind; [apply _ | apply respects_try; [apply _ | apply world_registry | intros; apply respects_ret; apply _] | intros; apply respects_ret; apply _]. }
  intros meta. destruct (or_empty _); try (apply respects_raise; apply _). apply respects_bind; [apply _ | apply headers_registry|].
  intros [e|h]; [apply respects_ret; apply _|]. unfold send_tool. apply respects_bind; [apply _| |].
  - apply respects_try; [apply _| | intros; apply respects_ret; apply _]. apply respects_bind; [apply _ | apply world_registry | intros; apply respects_ret; apply _].
  - intros [e|r]; [apply respects_ret | apply respects_lift]; apply _.
Qed.
Lemma search_registry ctx t stores q : respects same_registry (search ctx t stores q).
Proof.
  unfold search_knowledge. destruct ctx; [|apply respects_ret; apply _]. apply respects_bind; [apply _| | intros; apply respects_ret; apply _].
  induction stores as [|v l IH]; simpl; [apply respects_ret; apply _|]. apply respects_bind; [apply _ | apply respects_get; apply _|]. intros s.
  destruct (get_published_rag_config_id_for_vector_store _ _ _); [|apply IH]. apply respects_bind; [apply _ | apply rag_registry|]. intros x.
  apply respects_bind; [apply _ | apply IH | intros; apply respects_ret; apply _].
Qed.

(** ** Steps *)

(** Tools, configurations, prompts and everything else outside the registry may change at any time. *)
Definition elsewhere (b : toolbox P) (prompts : gmap uuid user_prompt) (s : state) : state :=
  Build_mcp _ _ b prompts (mp_servers s) (mp_credentials s) (mp_tools s) (mp_stores s) (mp_user_prompts s) (mp_next s) (mp_apps s) (mp_built s) (mp_lifespans s) (mp_outside s).
Inductive mcp_step (s : state) : state -> Prop :=
  | step_create t q e k : mcp_step s (create_server t q e k s).2
  | step_patch t i x : mcp_step s (patch_auth t i x s).2
  | step_gateway i h : mcp_step s (gateway i h s).2
  | step_tool c r x a : mcp_step s (run_tool c r x a s).2
  | step_search c t l q : mcp_step s (search c t l q s).2
  | step_elsewhere b p : mcp_step s (elsewhere b p s).

Lemma server_of_elem i s r : NoDup (mp_servers s).*1 -> (i, r) ∈ mp_servers s -> server_of (P := P) (W := W) i s = Some r.
Proof.
  unfold server_of. induction (mp_servers s) as [|[j x] l IH]; intros Hn Hin; [by apply not_elem_of_nil in Hin|].
  apply NoDup_cons in Hn as [Hj Hn]. simpl in *. apply elem_of_cons in Hin as [[= <- <-]|Hin]; [by rewrite N.eqb_refl|].
  destruct (N.eqb_spec j i) as [->|]; [destruct Hj; by apply (list_elem_of_fmap_2 fst _ (i, r)) | by apply IH].
Qed.
Lemma elem_of_server_of i s r : server_of (P := P) (W := W) i s = Some r -> (i, r) ∈ mp_servers s.
Proof.
  unfold server_of. destruct (List.find _ _) as [[j x]|] eqn:E; [|done]. intros [= <-]. apply List.find_some in E as [E1 E2%N.eqb_eq]. simpl in E2. subst j. by apply list_elem_of_In.
Qed.

Lemma check_ok b m s s' : check (P := P) (W := W) b m s = (Ok tt, s') -> b = true /\ s' = s.
Proof. unfold check. destruct b; [by intros [= <-] | done]. Qed.
Lemma check_registry b m : respects same_registry (check (P := P) (W := W) b m).
Proof. unfold check. destruct b; [apply respects_ret | apply respects_raise]; apply _. Qed.

(** What a created server is. *)
Definition created (t : uuid) (q : McpServerCreateRequest) (ref : option string) (k : string) (s s' : state) : Prop :=
  let i := mp_next s in
  exists name, mp_box s' = mp_box s /\ mp_prompts s' = mp_prompts s /\
  mp_servers s' = mp_servers s ++ [(i, {| ms_tenant := t; ms_name := name; ms_status := "ACTIVE"; ms_snapshot := mq_snapshot q; ms_deployment := mq_deployment q;
    ms_metadata := (fun x => [(OUTBOUND_AUTHORIZATION_SECRET_REF_KEY, PStr x)]) <$> ref |})] /\
  mp_credentials s' = mp_credentials s ++ [{| mk_server := i; mk_hash := sha256_hex k; mk_prefix := str_take 8 k; mk_revoked := false |}] /\
  mp_tools s' = mp_tools s ++ (pair i <$> mq_tools q) /\ mp_stores s' = mp_stores s ++ (pair i <$> mq_stores q) /\
  mp_user_prompts s' = mp_user_prompts s ++ (pair i <$> mq_prompts q) /\ mp_next s' = (i + 1)%N /\ mp_apps s' = mp_apps s.

Lemma create_server_cases t q e k s :
  match create_server t q e k s with
  | (Ok r, s') => exists ref, _normalize_outbound_authorization_secret_ref (mq_secret_ref q) = Ok ref /\ created t q ref k s s' /\ mr_server r = mp_next s /\ mr_key r = k /\
      validate_tool_configs_tenant t (mq_tools q) s = true /\ validate_vector_stores_tenant t (mq_stores q) s = true /\ validate_user_prompts_tenant t (mq_prompts q) s = true /\
      NoDup (mq_tools q)
  | (Err _, s') => s' = s
  end.
Proof.
  unfold Mcp.create_server. rewrite get_bind. unfold check.
  destruct (validate_tool_configs_tenant _ _ _) eqn:H1; [|done]. destruct (validate_vector_stores_tenant _ _ _) eqn:H2; [|done].
  destruct (validate_user_prompts_tenant _ _ _) eqn:H3; [|done]. destruct (validate_flow_snapshot_tenant _ _ _); [|done]. destruct (validate_flow_deployment_tenant _ _ _); [|done].
  unfold mbind_, mret, mlift. destruct (_normalize_outbound_authorization_secret_ref _) as [ref|]; [|done].
  unfold create_server_with_bindings. case_bool_decide as Hn; [|done]. destruct Hn as [Hn _].
  exists ref. split; [done|]. split; [eexists; split_and!; reflexivity|]. done.
Qed.

Lemma created_server_of t q ref k s s' i : tidy s -> created t q ref k s s' -> i <> mp_next s -> server_of i s' = server_of (P := P) (W := W) i s.
Proof.
  intros _ (name & _ & _ & Hs & _) Hi. unfold server_of. rewrite Hs. clear Hs. induction (mp_servers s) as [|x l IH]; simpl.
  - destruct (N.eqb_spec (mp_next s) i); [congruence | done].
  - destruct (x.1 =? i)%N; [done | exact IH].
Qed.

Lemma tidy_created t q ref k s s' : tidy s -> created t q ref k s s' -> tidy s'.
Proof.
  intros Ht Hc. pose proof (fun i => created_server_of t q ref k s s' i Ht Hc) as Hso. destruct Ht as [K0 K1 K2 K3 K4]. destruct Hc as (name & _ & _ & E1 & E2 & E3 & E4 & E5 & E6 & E7).
  split; rewrite ?E1, ?E2, ?E3, ?E4, ?E5, ?E6, ?E7.
  - rewrite fmap_app. apply NoDup_app. split_and!; [done| |apply NoDup_singleton]. intros j Hj ->%list_elem_of_singleton.
    apply list_elem_of_fmap in Hj as ([j r] & Hj & Hin). simpl in Hj. subst j. specialize (K1 _ _ Hin). lia.
  - intros i r [Hin|Hin]%elem_of_app; [specialize (K1 _ _ Hin); lia|]. apply list_elem_of_singleton in Hin. injection Hin as -> _. lia.
  - intros x Hx. assert (x ∈ mp_tools s ++ mp_stores s ++ mp_user_prompts s \/ x.1 = mp_next s) as [Hin| ->]; [|specialize (K2 _ Hin); lia|lia].
    rewrite !elem_of_app in Hx. rewrite !elem_of_app. rewrite !list_elem_of_fmap in Hx. naive_solver.
  - intros c [Hin|Hin]%elem_of_app; [specialize (K3 _ Hin); lia|]. apply list_elem_of_singleton in Hin as ->. simpl. lia.
  - intros kk a Hin. destruct (K4 kk a Hin) as (spec & r & H1 & H2 & H3 & H4). exists spec, r. split_and!; [done..| |done].
    rewrite Hso; [done|]. intros E. apply elem_of_server_of in H3. specialize (K1 _ _ H3). lia.
Qed.

Lemma tidy_patch t i x s : tidy s -> tidy (patch_auth t i x s).2.
Proof.
  intros Ht. unfold patch_mcp_server_outbound_auth. unfold mbind_ at 1, mlift. destruct (_normalize_outbound_authorization_secret_ref x) as [ref|]; [|done].
  unfold mbind_ at 1, patch_secret_ref. destruct (get_server_by_tenant t i s); [|done]. unfold clear_tenant_mcp_app_cache. unfold mbind_ at 1, mmodify.
  assert (Hq : forall s1, (get_server (P := P) (W := W) uuid_str py_str public_base_url t i s1).2 = s1) by (intros s1; unfold get_server; rewrite get_bind; by destruct (get_server_by_tenant _ _ _)).
  rewrite Hq. destruct Ht as [K0 K1 K2 K3 K4]. split; simpl; try done.
  - rewrite <- list_fmap_compose. erewrite list_fmap_ext; [exact K0|]. intros _ y _. simpl. by destruct (_ =? _)%N.
  - intros j y Hin. apply list_elem_of_fmap in Hin as ([j' y'] & E & Hin). specialize (K1 _ _ Hin). simpl in E. destruct (_ =? _)%N; injection E as -> _; done.
  - intros kk a Hin. by apply not_elem_of_nil in Hin.
Qed.

Lemma elem_of_list_drop {T} n (l : list T) x : x ∈ drop n l -> x ∈ l.
Proof. intros Hx. rewrite <- (take_drop n l). apply elem_of_app. by right. Qed.
Lemma cached_app_elem key l a : cached_app key l = Some a -> (key, a) ∈ l.
Proof. induction l as [|[k x] l IH]; [done|]. simpl. case_bool_decide as E; [intros [= <-]; subst; left | intros Hc; right; by apply IH]. Qed.

(** The application of a specification: the one of its key, or a new one. *)
Lemma tidy_app spec s r : tidy s -> server_of (sp_server spec) s = Some r -> ms_tenant r = sp_tenant spec ->
  exists a s', get_app spec s = (Ok a, s') /\ tidy s' /\ mp_servers s' = mp_servers s /\
    exists old, spec_key_ old = spec_key_ spec /\ sp_tenant old = sp_tenant spec /\ a = _build_http_app_from_spec (ap_id a) old.
Proof.
  intros [K0 K1 K2 K3 K4] Hr Hten. unfold _get_mcp_http_app_for_spec. destruct (cached_app (spec_key_ spec) (mp_apps s)) as [a|] eqn:Hc.
  - pose proof (cached_app_elem _ _ _ Hc) as Hin. destruct (K4 _ _ Hin) as (old & ro & H1 & H2 & H3 & H4).
    eexists _, _. split; [reflexivity|]. split_and!; [split; simpl; try done| done|].
    + intros kk b [Hb|Hb]%elem_of_app; [apply list_elem_of_filter in Hb as [_ Hb]; by apply K4|]. apply list_elem_of_singleton in Hb. injection Hb as -> ->. by apply K4.
    + exists old. split_and!; [done| | done]. destruct (same_key_configs old spec (eq_sym H1)) as (E & _). rewrite E in H3. congruence.
  - eexists _, _. split; [reflexivity|]. split_and!; [split; simpl; try done | done | by exists spec].
    intros kk b Hb. unfold evict in Hb. apply elem_of_list_drop in Hb. apply elem_of_app in Hb as [Hb|Hb]; [by apply K4|].
    apply list_elem_of_singleton in Hb. injection Hb as -> ->. by exists spec, r.
Qed.

Lemma verify_ok i k s st : verify i k s = Some st ->
  py_strip k <> "" /\ exists r, server_of i s = Some r /\ ms_status r = "ACTIVE" /\ (exists c, c ∈ mp_credentials s /\ fits sha256_hex i k c = true) /\
  bs_tenant st = ms_tenant r /\ bs_server st = i /\ bs_tools st = list_to_set (bound i (mp_tools s)) /\ bs_stores st = list_to_set (bound i (mp_stores s)) /\
  bs_prompts st = list_to_set (bound i (mp_user_prompts s)) /\ bs_secret_ref st = outbound_authorization_secret_ref_from_server_metadata py_str (ms_metadata r).
Proof.
  unfold verify_api_key_and_load_bindings. destruct (String.eqb_spec (py_strip k) ""); [done|]. destruct (server_of i s) as [r|]; [|done].
  destruct (String.eqb_spec (ms_status r) "ACTIVE"); [|done]. destruct (existsb _ _) eqn:E; [|done]. intros [= <-]. split; [done|].
  exists r. apply existsb_exists in E as (c & Hc%list_elem_of_In & Hf). split_and!; eauto.
Qed.

Lemma lifespan_registry a : respects same_registry (_ensure_mcp_asgi_lifespan (P := P) (W := W) a).
Proof. apply respects_modify. intros s. by case_bool_decide. Qed.

Lemma gateway_cases i h s : tidy s ->
  match gateway i h s with
  | (Ok (Some (app, ctx)), s') => exists st r old, verify i (client_key h) s = Some st /\ server_of i s = Some r /\ ms_tenant r = bs_tenant st /\ spec_key_ old = spec_key_ (fetch st s) /\
      sp_tenant old = bs_tenant st /\ app = _build_http_app_from_spec (ap_id app) old /\
      ctx = {| cc_inbound := inbound_metadata h (client_key h); cc_secret_ref := bs_secret_ref st |} /\ tidy s'
  | (Ok None, s') => s' = s
  | (Err _, _) => False
  end.
Proof.
  intros Ht. unfold Mcp.gateway. destruct (String.eqb (client_key h) ""); [done|]. rewrite get_bind. destruct (verify i (client_key h) s) as [st|] eqn:Hv; [|done].
  destruct (verify_ok _ _ _ _ Hv) as (_ & r & Hr & _ & _ & Hten & Hid & _).
  destruct (tidy_app (fetch st s) s r Ht) as (a & s1 & Ha & Ht1 & _ & old & Hk & Hot & Hb); [simpl; by rewrite Hid | simpl; congruence|].
  rewrite (mbind_run _ _ _ _ _ Ha). unfold mbind_. destruct (_ensure_mcp_asgi_lifespan a s1) as [[[]|e] s2] eqn:Hl; [|done].
  exists st, r, old. split_and!; try done. eapply same_registry_tidy; [|exact Ht1]. eapply respects_run; [apply lifespan_registry | exact Hl].
Qed.

Lemma tidy_step s s' : mcp_step s s' -> tidy s -> tidy s'.
Proof.
  destruct 1 as [t q e k|t i x|i h|c r x a|c t l q|b p]; intros Ht.
  - pose proof (create_server_cases t q e k s) as Hc. destruct (create_server t q e k s) as [[r|e0] s1]; [|by subst]. destruct Hc as (ref & _ & Hc & _). by eapply tidy_created.
  - by apply tidy_patch.
  - pose proof (gateway_cases i h s Ht) as Hg. destruct (gateway i h s) as [[[[a c]|]|e] s1]; [by destruct Hg as (? & ? & ? & ? & ? & ? & ? & ? & ? & ? & ?) | by subst | done].
  - eapply same_registry_tidy; [apply run_registry | exact Ht].
  - eapply same_registry_tidy; [apply search_registry | exact Ht].
  - eapply same_registry_tidy; [|exact Ht]. done.
Qed.
Lemma tidy_reachable s s' : rtc mcp_step s s' -> tidy s -> tidy s'.
Proof. induction 1; eauto using tidy_step. Qed.

Lemma elem_of_bound i l x : x ∈ bound i l <-> (i, x) ∈ l.
Proof.
  unfold bound. rewrite list_elem_of_fmap. setoid_rewrite list_elem_of_filter. split; [intros ([j y] & -> & <- & Hin); done | intros Hin; by exists (i, x)].
Qed.

(** [C10] A client reaches its own server only.  However servers are created and changed, tools called and knowledge searched, and whatever
    happens to tools, configurations and prompts elsewhere: a client that gets to an application has the key of a server that is active,
    the application acts for that server's tenant, its tools are configurations bound to the server, of the tenant, it searches stores bound
    to the server, and it has as many prompts as are bound to the server and of the tenant. *)
Theorem mcp_confined s0 s i h app ctx s' :
  tidy s0 -> rtc mcp_step s0 s -> gateway i h s = (Ok (Some (app, ctx)), s') ->
  exists r c, server_of i s = Some r /\ ms_status r = "ACTIVE" /\ c ∈ mp_credentials s /\ fits sha256_hex i (client_key h) c = true /\
    Forall (fun x => px_tenant x = ms_tenant r /\ (i, px_config x) ∈ mp_tools s /\
                     exists d, bx_configs (mp_box s) !! px_config x = Some d /\ tc_tenant d = ms_tenant r) (ap_tools app) /\
    (forall t l, ap_search app = Some (t, l) -> t = ms_tenant r /\ forall v, v ∈ l <-> (i, v) ∈ mp_stores s) /\
    length (ap_prompts app) = length (filter (fun kv => (i, kv.1) ∈ mp_user_prompts s /\ up_tenant kv.2 = ms_tenant r) (map_to_list (mp_prompts s))).
Proof.
  intros Ht Hs Hg. pose proof (gateway_cases i h s (tidy_reachable _ _ Hs Ht)) as Hc. rewrite Hg in Hc.
  destruct Hc as (st & r & old & Hv & Hr & Hten & Hk & Hot & Ha & _ & _). destruct (verify_ok _ _ _ _ Hv) as (_ & r' & Hr' & Hact & (c & Hc & Hf) & _ & Hid & Htools & Hstores & Hprompts & _).
  rewrite Hr in Hr'. injection Hr' as <-. destruct (same_key_configs _ _ Hk) as (_ & Hcfg & _ & Hst & Hpr).
  exists r, c. split_and!; try done.
  - rewrite Ha. simpl. apply Forall_forall. intros x Hx. apply list_elem_of_fmap in Hx as (b & -> & Hb). simpl. split; [congruence|].
    assert (Hin : mb_config b ∈ mb_config <$> sp_tools (fetch st s)) by (rewrite <- Hcfg; by apply list_elem_of_fmap_2).
    rewrite fetched_configs in Hin. apply list_elem_of_fmap in Hin as ([[cc n] d] & -> & Hin). apply elem_of_config_rows in Hin as (Hin & y & tl & Hy & Hyt & _). simpl.
    rewrite Htools in Hin. apply elem_of_list_to_set, elem_of_bound in Hin. split; [done|]. exists y. split; [done | congruence].
  - intros t l Hsr. rewrite Ha in Hsr. simpl in Hsr. destruct (sp_stores old) as [|v0 vs] eqn:Ev; [done|]. injection Hsr as <- <-. split; [congruence|].
    intros v. rewrite Hst. simpl. unfold by_text. rewrite elem_of_sorted_by, elem_of_elements, Hstores, elem_of_list_to_set. apply elem_of_bound.
  - rewrite Ha. simpl. rewrite length_fmap. rewrite <- (length_fmap (fun x : uuid * string * string * string => x.1.1.1)), Hpr.
    rewrite (Permutation_length (fetched_prompts st s)), length_fmap. unfold prompt_rows. f_equal. apply list_filter_iff. intros kv. rewrite Hprompts, elem_of_list_to_set, elem_of_bound. by rewrite Hten.
Qed.

(** ** A new server *)

Lemma gateway_some i h s st : tidy s -> client_key h <> "" -> verify i (client_key h) s = Some st -> exists app ctx s', gateway i h s = (Ok (Some (app, ctx)), s').
Proof.
  intros Ht Hk Hv. unfold Mcp.gateway. rewrite (proj2 (String.eqb_neq _ _) Hk), get_bind, Hv. destruct (verify_ok _ _ _ _ Hv) as (_ & r & Hr & _ & _ & Hten & Hid & _).
  destruct (tidy_app (fetch st s) s r Ht) as (a & s1 & Ha & _); [simpl; by rewrite Hid | simpl; congruence|]. rewrite (mbind_run _ _ _ _ _ Ha).
  eexists _, _, _. reflexivity.
Qed.

Lemma bound_new i l ids : (forall x, x ∈ l -> (x.1 < i)%N) -> bound i (l ++ (pair i <$> ids)) = ids.
Proof.
  intros Hl. unfold bound. rewrite filter_app, fmap_app.
  assert (E1 : filter (fun x : uuid * uuid => x.1 = i) l = []).
  { induction l as [|x l IH]; [done|]. rewrite filter_cons_False; [apply IH; intros; apply Hl; by right|]. specialize (Hl x ltac:(left)). lia. }
  rewrite E1. simpl. induction ids as [|j ids IH]; [done|]. simpl. rewrite filter_cons_True by done. cbn. f_equal. exact IH.
Qed.

Lemma config_rows_nodup st s : NoDup ((fun r => r.1.1) <$> config_rows (P := P) (W := W) st s).
Proof.
  unfold config_rows. pose proof (NoDup_fst_map_to_list (bx_configs (mp_box s))) as Hn. revert Hn. generalize (map_to_list (bx_configs (mp_box s))) as l.
  induction l as [|[c r] l IH]; intros Hn; simpl; [constructor|]. rewrite fmap_cons in Hn. apply NoDup_cons in Hn as [Hc Hn]. specialize (IH Hn).
  destruct (tool_of (tc_tool r) (bx_tools (mp_box s))); simpl; [|done]. case_bool_decide; [|done]. simpl. constructor; [|done]. simpl in *.
  intros ([[c' n] d] & E & Hin)%list_elem_of_fmap. simpl in E. subst c'. apply Hc. apply list_elem_of_omap in Hin as ([c' r'] & Hin & E). simpl in E.
  destruct (tool_of (tc_tool r') (bx_tools (mp_box s))); [|done]. simpl in E. case_bool_decide; [|done]. injection E as <- _ _. by apply (list_elem_of_fmap_2 fst _ (c', r')).
Qed.

Lemma all_of_tenant_elem {T} (f : T -> uuid) t ids m i : all_of_tenant f t ids m = true -> i ∈ ids -> exists r, m !! i = Some r /\ f r = t.
Proof.
  unfold all_of_tenant. rewrite forallb_forall. intros Ha Hi%list_elem_of_In. specialize (Ha i Hi). destruct (m !! i) as [r|]; [|done]. apply bool_decide_eq_true in Ha. eauto.
Qed.

(** The text of a reference that was accepted is read back. *)
Lemma normalized_ref x ref : _normalize_outbound_authorization_secret_ref x = Ok ref ->
  match ref with Some y => exists z, x = Some z /\ y = py_strip z /\ y <> "" | None => True end.
Proof.
  unfold _normalize_outbound_authorization_secret_ref. destruct x as [z|]; [|by intros [= <-]]. destruct (String.eqb_spec (py_strip z) ""); [by intros [= <-]|].
  destruct (String.prefix _ _); [|done]. intros [= <-]. eauto.
Qed.

(** A server serves what it was created with: when the request for a server is answered, the key of the answer lets its holder in, to
    an application with exactly the tools that were asked for, acting for the tenant, with a search when stores were asked for, and with nobody's
    authorization. *)
Theorem mcp_server_serves t q e k s r s1 :
  tidy s -> (forall c d, bx_configs (mp_box s) !! c = Some d -> is_Some (tool_of (tc_tool d) (bx_tools (mp_box s)))) -> py_strip k <> "" ->
  create_server t q e k s = (Ok r, s1) ->
  exists app ctx s2, gateway (mr_server r) [("X-Api-Key", mr_key r)] s1 = (Ok (Some (app, ctx)), s2) /\
    (px_config <$> ap_tools app) ≡ₚ mq_tools q /\ Forall (fun x => px_tenant x = t) (ap_tools app) /\
    (mq_stores q <> [] -> exists l, ap_search app = Some (t, l) /\ forall v, v ∈ l <-> v ∈ mq_stores q) /\ cc_inbound ctx = [].
Proof.
  intros Ht Htools Hk Hc. pose proof (create_server_cases t q e k s) as Hcc. rewrite Hc in Hcc. destruct Hcc as (ref & _ & Hcr & Hid & Hkey & V1 & _ & _ & Hnd).
  pose proof (tidy_created _ _ _ _ _ _ Ht Hcr) as Ht1. destruct Ht as [K0 K1 K2 K3 K4]. destruct Hcr as (name & E0 & _ & E1 & E2 & E3 & E4 & E5 & E6 & E7).
  rewrite Hid, Hkey. set (i := mp_next s) in *. set (h := [("X-Api-Key", k)]).
  assert (Hne : k <> "") by (intros ->; by apply Hk). assert (Hck : client_key h = k) by (unfold client_key, h; simpl; by rewrite (proj2 (String.eqb_neq _ _) Hne)).
  match type of E1 with _ = _ ++ [(_, ?row)] => assert (Hso : server_of i s1 = Some row) end.
  { apply server_of_elem; [apply Ht1|]. rewrite E1. apply elem_of_app. right. by apply list_elem_of_singleton. }
  assert (Hv : exists st, verify i (client_key h) s1 = Some st /\ bs_tenant st = t /\ bs_tools st = list_to_set (mq_tools q) /\ bs_stores st = list_to_set (mq_stores q)).
  { rewrite Hck. unfold verify_api_key_and_load_bindings. rewrite (proj2 (String.eqb_neq _ _) Hk), Hso. simpl.
    assert (Hf : existsb (fits sha256_hex i k) (mp_credentials s1) = true).
    { apply existsb_exists. eexists. split; [apply list_elem_of_In; rewrite E2; apply elem_of_app; right; by apply list_elem_of_singleton|].
      unfold fits. simpl. by rewrite bool_decide_eq_true_2, String.eqb_refl. }
    rewrite Hf. eexists. split; [reflexivity|]. simpl. rewrite E3, E4, !bound_new; [done| |]; intros x Hx; apply K2; rewrite !elem_of_app; tauto. }
  destruct Hv as (st & Hv & Hten & Hbt & Hbs). destruct (gateway_some i h s1 st Ht1) as (app & ctx & s2 & Hg); [by rewrite Hck | done|].
  pose proof (gateway_cases i h s1 Ht1) as Hgc. rewrite Hg in Hgc. destruct Hgc as (st' & r' & old & Hv' & _ & _ & Hkeys & Hot & Ha & Hctx & _).
  rewrite Hv in Hv'. injection Hv' as <-. destruct (same_key_configs _ _ Hkeys) as (_ & Hcfg & _ & Hst & _).
  exists app, ctx, s2. split_and!; [done| | | |].
  - rewrite Ha. simpl. rewrite <- list_fmap_compose. change (px_config ∘ _) with mb_config. rewrite Hcfg, fetched_configs.
    apply NoDup_Permutation; [apply config_rows_nodup | done|]. intros c. split.
    + intros ([[c' n] d] & -> & Hin)%list_elem_of_fmap. apply elem_of_config_rows in Hin as [Hin _]. simpl. by rewrite Hbt, elem_of_list_to_set in Hin.
    + intros Hin. destruct (all_of_tenant_elem _ _ _ _ _ V1 Hin) as (d & Hd & Hdt). destruct (Htools c d Hd) as [tl Htl].
      apply list_elem_of_fmap. exists (c, tl_name tl, tc_config d). split; [done|]. unfold config_rows. rewrite E0. apply list_elem_of_omap. exists (c, d).
      split; [by apply elem_of_map_to_list|]. simpl. rewrite Htl. simpl. rewrite bool_decide_eq_true_2; [done|]. rewrite Hbt, elem_of_list_to_set. split; [done | congruence].
  - rewrite Ha. simpl. apply Forall_forall. intros x Hx. apply list_elem_of_fmap in Hx as (b & -> & _). simpl. congruence.
  - intros Hsn. rewrite Ha. simpl. rewrite Hst. simpl. unfold by_text. rewrite Hbs, Hot, Hten.
    destruct (sorted_by String.le uuid_str (elements (list_to_set (C := gset uuid) (mq_stores q)))) as [|v vs] eqn:Ev.
    + exfalso. destruct (mq_stores q) as [|v0 l]; [done|]. assert (Hin : v0 ∈ sorted_by String.le uuid_str (elements (list_to_set (C := gset uuid) (v0 :: l)))).
      { rewrite elem_of_sorted_by, elem_of_elements, elem_of_list_to_set. left. } rewrite Ev in Hin. by apply not_elem_of_nil in Hin.
    + eexists. split; [reflexivity|]. intros x. rewrite <- Ev, elem_of_sorted_by, elem_of_elements. by rewrite elem_of_list_to_set.
  - rewrite Hctx. done.
Qed.

(** ** Calls of tools *)

(** A call whose arguments the schema rejects, or whose configuration is gone, of another tenant or without an address, touches nothing and sends nothing. *)
Theorem tool_call_guarded c req x args s :
  (jsonschema (px_parameters x) (PDict args) = None -> forall d, bx_configs (mp_box s) !! px_config x = Some d -> tc_tenant d = px_tenant x -> effective_tool_http_url py_str (tc_config d) = "") ->
  (run_tool c req x args s).2 = s.
Proof.
  intros Hn. unfold Mcp.run_tool. destruct (jsonschema _ _) as [[m|e]|]; [done..|]. destruct c as [c|]; [|done]. rewrite get_bind.
  destruct (bx_configs (mp_box s) !! px_config x) as [d|]; [|done]. case_bool_decide as Hd; [|done]. simpl. by rewrite (Hn eq_refl d eq_refl Hd).
Qed.

(** The key stays at the gateway: a client that gives its key in the header for it has the key passed on to no tool; what tools see as
    the authorization of a user is the client's [Authorization] header, and its token is another. *)
Theorem mcp_key_stays headers k :
  _header headers "x-api-key" = Some k -> py_strip k = k -> k <> "" ->
  let meta := _mcp_interaction_metadata_for_http_tools (inbound_metadata headers (client_key headers)) (Some headers) in
  client_key headers = k /\
  (meta = [] \/ exists auth b, meta = [(END_USER_AUTHORIZATION_METADATA_KEY, PStr (py_strip auth))] /\ _header headers "authorization" = Some auth /\ bearer_body auth = Some b /\ b <> k /\ b <> "").
Proof.
  intros Hh Hs Hk. assert (Hck : client_key headers = k) by (unfold client_key; rewrite Hh; simpl; by rewrite (proj2 (String.eqb_neq _ _) Hk)).
  split; [done|]. rewrite Hck. unfold _mcp_interaction_metadata_for_http_tools, inbound_metadata. rewrite Hh. simpl. rewrite Hs.
  destruct (_header headers "authorization") as [auth|] eqn:Ha; simpl; [|by left].
  destruct (bearer_body auth) as [b|] eqn:Hb; [|simpl; rewrite ?Hb; by left].
  destruct (String.eqb_spec b "") as [->|Hb0]; simpl; [rewrite ?Hb; by left|]. destruct (String.eqb_spec b k) as [->|Hbk]; simpl; [rewrite ?Hb, ?String.eqb_refl; by left|].
  right. exists auth, b. destruct (negb _); [done|]. rewrite ?Hb. done.
Qed.
End mcp.

(** ** A server with one tool

    Witnesses of the theorems of this file, and inputs on which the gateway does not do what it means to. *)

From S2P Require Import StateMachine.
From S2P Require Import RagSample.
From S2P Require Import ToolSample.
From S2P Require Import AuthFacts.

Module bazaar.
(** The world keeps the requests that were sent; every secret is known. *)
Definition world : Type := list http_request.
Definition send (q : http_request) (w : world) : res exc pydict * world :=
  (Ok [("status_code", PInt 200); ("headers", PDict []); ("body", PDict [("ok", PBool true)])], w ++ [q]).
Definition secret (_ : string) (w : world) : res exc string * world := (Ok "hidden", w).
Definition any_schema (_ : pydict) (_ : pyval) : option (string + exc) := None.
Definition dump_ (d : pydict) : string + pyval := inr (PDict d).
Definition same {T} (l : list T) : list T := l.
#[local] Instance same_order {T} : RowOrder (same (T := T)).
Proof. intros l. reflexivity. Qed.
#[local] Instance id_text_inj : Inj (=) (=) passport.id_text.
Proof.
  intros u v H. apply (f_equal passport.id_parse) in H. unfold passport.id_parse, passport.id_text in H. simpl in H. rewrite !passport.unbits_bits in H. injection H. lia.
Qed.

(** Tenant 1 has tool 20 with the unpublished configuration 21, whose caller must be authorised. *)
Definition orders : pydict := [("url", PStr "https://shop.example/orders"); ("method", PStr "GET"); ("description", PStr "All orders");
  ("headers", PDict [("Authorization", PDict [("interaction_metadata_key", PStr "end_user_authorization")])])].
Definition config_ (d : pydict) : tool_config := {| tc_tool := 20; tc_tenant := tenant1; tc_status := VS_DRAFT; tc_number := {| vn_major := 1; vn_minor := 0; vn_patch := 0 |};
  tc_schema := None; tc_config := d |}.
Definition box (d : pydict) : toolbox unit := {| bx_agency := bx_agency empty; bx_tools := [{| tl_id := 20; tl_name := Some "orders" |}]; bx_configs := {[21%N := config_ d]};
  bx_bindings := []; bx_batches := ∅; bx_rag := bx_rag empty |}.
Definition greeting (active : bool) : user_prompt := {| up_tenant := tenant1; up_title := "Hello"; up_content := "Greet."; up_version := 1; up_active := active; up_creator := None |}.
Definition start_ : mcp unit world := {| mp_box := box orders; mp_prompts := {[30%N := greeting true]}; mp_servers := []; mp_credentials := []; mp_tools := []; mp_stores := []; mp_user_prompts := [];
  mp_next := 1; mp_apps := []; mp_built := 0; mp_lifespans := []; mp_outside := [] |}.
Definition sha_ (s : string) : string := s.

Abbreviation create_ := (create_server (P := unit) (W := world) sha_ passport.id_text "https://core").
Abbreviation patch_ := (patch_mcp_server_outbound_auth (P := unit) (W := world) passport.id_text no_text "https://core").
Abbreviation gateway_ := (gateway (P := unit) (W := world) sha_ passport.id_text no_text no_dump same same).
Abbreviation run_ := (run_tool (P := unit) (W := world) no_text (fun _ => None) any_schema send secret dump_).
Abbreviation tidy_ := (tidy (P := unit) (W := world) sha_ passport.id_text no_dump).
Abbreviation step_ := (mcp_step (P := unit) (W := world) runtime sha_ passport.id_text no_text no_dump (fun _ => None) any_schema send secret dump_ "https://core" same same).

Definition ask (ref : option string) : McpServerCreateRequest := {| mq_tools := [21%N]; mq_stores := []; mq_prompts := [30%N]; mq_name := None; mq_snapshot := None; mq_deployment := None; mq_secret_ref := ref |}.
Definition made : mcp unit world := (create_ tenant1 (ask None) None "key" start_).2.
Definition answer_ : McpServerCreateResponse := {| mr_endpoint := endpoint passport.id_text "https://core" 1; mr_key := "key"; mr_server := 1 |}.
Lemma created_ : create_ tenant1 (ask None) None "key" start_ = (Ok answer_, made).
Proof. vm_compute. reflexivity. Qed.
Lemma tidy_start_ : tidy_ start_.
Proof. split; simpl; [constructor | by intros ? ? ?%not_elem_of_nil | by intros ? ?%not_elem_of_nil | by intros ? ?%not_elem_of_nil | by intros ? ? ?%not_elem_of_nil]. Qed.

Lemma mcp_server_serves_witness : exists app ctx s2, gateway_ 1 [("X-Api-Key", "key")] made = (Ok (Some (app, ctx)), s2) /\ (px_config <$> ap_tools app) ≡ₚ [21%N].
Proof.
  destruct (mcp_server_serves (P := unit) (W := world) sha_ passport.id_text no_text no_dump (fun _ => None) secret "https://core" same same tenant1 (ask None) None "key" start_ answer_ made tidy_start_)
    as (app & ctx & s2 & Hg & Hp & _).
  - intros c d Hc. change (bx_configs (mp_box start_)) with ({[21%N := config_ orders]} : gmap uuid tool_config) in Hc. apply lookup_singleton_Some in Hc as [<- <-]. vm_compute. eauto.
  - vm_compute. discriminate.
  - exact created_.
  - exists app, ctx, s2. split; [exact Hg | exact Hp].
Defined.

Definition entered := gateway_ 1 [("X-Api-Key", "key"); ("Authorization", "Bearer ana")] made.
Definition app_ : mcp_app := match entered.1 with Ok (Some (a, _)) => a | _ => {| ap_id := 0; ap_tools := []; ap_search := None; ap_prompts := [] |} end.
Definition ctx_ : call_context := match entered.1 with Ok (Some (_, c)) => c | _ => {| cc_inbound := []; cc_secret_ref := None |} end.
Lemma entered_ : entered = (Ok (Some (app_, ctx_)), entered.2).
Proof. vm_compute. reflexivity. Qed.
Lemma mcp_confined_witness : exists r c, server_of 1 made = Some r /\ ms_status r = "ACTIVE" /\ fits sha_ 1 "key" c = true.
Proof.
  destruct (mcp_confined (P := unit) (W := world) runtime sha_ passport.id_text no_text no_dump (fun _ => None) any_schema send secret dump_ "https://core" same same start_ made 1
    [("X-Api-Key", "key"); ("Authorization", "Bearer ana")] app_ ctx_ entered.2 tidy_start_) as (r & c & H1 & H2 & _ & H3 & _).
  - apply rtc_once. apply (step_create (P := unit) (W := world) runtime sha_ passport.id_text no_text no_dump (fun _ => None) any_schema send secret dump_ "https://core" same same start_ tenant1 (ask None) None "key").
  - exact entered_.
  - exists r, c. split; [exact H1 | split; [exact H2 | exact H3]].
Defined.

Definition both_ : list (string * string) := [("X-Api-Key", "key"); ("Authorization", "Bearer ana")].
Lemma mcp_key_stays_witness : client_key both_ = "key".
Proof. apply (mcp_key_stays both_ "key"); [reflexivity | vm_compute; reflexivity | discriminate]. Defined.

(** The user's authorization reaches the tool. *)
Definition tool_ : proxy_tool := match ap_tools app_ with x :: _ => x | [] => {| px_name := ""; px_description := None; px_parameters := []; px_output := None; px_config := 0; px_tenant := 0 |} end.
Definition authorizations (s : mcp unit world) : list pyval := (fun q => dict_getv "Authorization" (hq_headers q)) <$> mp_outside s.
Example user_token_passed : authorizations (run_ (Some ctx_) (Some both_) tool_ [] entered.2).2 = [PStr "Bearer ana"].
Proof. vm_compute. reflexivity. Qed.

(** ** What the gateway does not mean to do *)

(** A client that gives its key as a bearer token has the key of the server sent to the tool, as if it were a user's authorization, and the
    secret of the server is not used. *)
Definition bearer_only : list (string * string) := [("Authorization", "Bearer key")].
Example key_is_passed_on :
  let s := (create_ tenant1 (ask (Some "env:TOKEN")) None "key" start_).2 in
  match gateway_ 1 bearer_only s with
  | (Ok (Some (_, c)), s1) => cc_secret_ref c = Some "env:TOKEN" /\ cc_inbound c = [] /\ authorizations (run_ (Some c) (Some bearer_only) tool_ [] s1).2 = [PStr "Bearer key"]
  | _ => False
  end.
Proof. vm_compute. by split_and!. Qed.
(** With the key in its own header the secret is used. *)
Example secret_stands_in :
  let s := (create_ tenant1 (ask (Some "env:TOKEN")) None "key" start_).2 in
  match gateway_ 1 [("X-Api-Key", "key")] s with
  | (Ok (Some (_, c)), s1) => authorizations (run_ (Some c) (Some [("X-Api-Key", "key")]) tool_ [] s1).2 = [PStr "Bearer hidden"]
  | _ => False
  end.
Proof. vm_compute. reflexivity. Qed.

(** The descriptions of tools and the titles of prompts are not part of the key of the cache: an application is served with the old ones. *)
Example description_is_stale :
  let renamed := [("url", PStr "https://shop.example/orders"); ("description", PStr "Orders of the day")] in
  match gateway_ 1 both_ (elsewhere (box renamed) (mp_prompts made) entered.2) with
  | (Ok (Some (a, _)), _) => px_description <$> ap_tools a = [Some "All orders"]
  | _ => False
  end.
Proof. vm_compute. reflexivity. Qed.

(** Prompts that were deactivated are still served. *)
Example retired_prompt_served : length (ap_prompts app_) = 1 /\
  match gateway_ 1 both_ (elsewhere (box orders) {[30%N := greeting false]} made) with
  | (Ok (Some (a, _)), _) => length (ap_prompts a) = 1
  | _ => False
  end.
Proof. vm_compute. by split. Qed.

(** Applications that are no longer used keep their task: every change of the secret adds one. *)
Definition turn (x : string) (s : mcp unit world) : mcp unit world := (gateway_ 1 both_ (patch_ tenant1 1 (Some x) s).2).2.
Example lifespans_pile_up : length (mp_lifespans (turn "env:B" (turn "env:A" (turn "env:B" (turn "env:A" made))))) = 4 /\
  length (mp_apps (turn "env:B" (turn "env:A" (turn "env:B" (turn "env:A" made))))) = 1.
Proof. vm_compute. by split. Qed.

(** An identifier that is given twice passes the checks and fails in the database. *)
Example repeated_id : (create_ tenant1 {| mq_tools := [21%N; 21%N]; mq_stores := []; mq_prompts := []; mq_name := None; mq_snapshot := None; mq_deployment := None; mq_secret_ref := None |} None "key" start_).1
  = Err (ExternalError "IntegrityError" "mcp_server_tool_pkey").
Proof. vm_compute. reflexivity. Qed.
End bazaar.
