(* ===== verification/ModelPolicies.v ===== *)
(** * ModelPolicies: the catalogue of models and the policies that choose among them

    [src/src/domain/ai_policy/services/ai_service.py] on [src/src/domain/ai_policy/repositories/ai_repository.py]: the catalogue of models,
    execution policies with numbered versions that are validated, published, deprecated and disabled, and the nodes they are bound to.

    Repository calls are transactions; rows of policies and bindings are kept in the order they were created.  The flow tables hold the
    nodes, the events and the supply of keys. *)

From S2P Require Import Prelude.
From S2P Require Import Errors.
From S2P Require Import PyValue.
From S2P Require Import PyString.
From S2P Require Import Sorting.
From S2P Require Import Effects.
From S2P Require Import Store.
From S2P Require Import FlowAuthoring.
From S2P Require Import AuthoringFacts.
From S2P Require Import Versions.

(** ** Tables *)

Record model_row : Type := {
  mo_name : string;
  mo_provider : string;
  mo_type : string;
  mo_active : bool;
}.
Record ai_policy : Type := {
  xp_tenant : uuid;
  xp_description : option string;
}.
Record ai_version : Type := {
  xv_policy : uuid;
  xv_model : uuid;
  xv_status : VersionStatus;
  xv_number : version_number;
  xv_hash : option string;
}.
#[global] Instance ai_version_Versioned : Versioned ai_version := {| row_group r := (xv_policy r, 0%N); row_number := xv_number |}.
Record node_policy : Type := {
  np_id : uuid;
  np_node : uuid;
  np_version : uuid;
}.
Record ai_tables : Type := {
  xt_authoring : authoring;
  xt_models : gmap uuid model_row;
  xt_policies : list (uuid * ai_policy);
  xt_versions : gmap uuid ai_version;
  xt_bindings : list node_policy;
}.
Definition set_xt_authoring v s := Build_ai_tables v (xt_models s) (xt_policies s) (xt_versions s) (xt_bindings s).
Definition set_models v s := Build_ai_tables (xt_authoring s) v (xt_policies s) (xt_versions s) (xt_bindings s).
Definition set_ai_policies v s := Build_ai_tables (xt_authoring s) (xt_models s) v (xt_versions s) (xt_bindings s).
Definition set_ai_versions v s := Build_ai_tables (xt_authoring s) (xt_models s) (xt_policies s) v (xt_bindings s).
Definition set_node_policies v s := Build_ai_tables (xt_authoring s) (xt_models s) (xt_policies s) (xt_versions s) v.

Abbreviation X := (M ai_tables).
Definition in_authoring {T} (m : A T) : X T := fun s => let '(r, a) := m (xt_authoring s) in (r, set_xt_authoring a s).
Definition absent {T} (m : string) : X T := mraise (NotFoundServiceException m).
Definition present_or {T} (m : string) (o : option T) : X T := match o with Some x => mret x | None => absent m end.

(** ** The repository *)

Definition get_model (i : uuid) (s : ai_tables) : option model_row := xt_models s !! i.
(** Names are unique, so that there is at most one. *)
Definition get_model_by_name (name : string) (s : ai_tables) : res exc (option uuid) :=
  one_or_none (keys_where (fun r => String.eqb (mo_name r) name) (xt_models s)).
Definition list_models (s : ai_tables) : list (uuid * model_row) := sorted_by String.le (fun kv => mo_name kv.2) (map_to_list (xt_models s)).
Definition insert_model (name provider type : string) : X uuid :=
  let* s := mget in
  let* i := in_authoring new_id in
  if bool_decide (keys_where (fun r => String.eqb (mo_name r) name) (xt_models s) = [])
  then mmodify (fun s => set_models (<[i := {| mo_name := name; mo_provider := provider; mo_type := type; mo_active := true |}]> (xt_models s)) s) ;;* mret i
  else mraise (ExternalError "IntegrityError" "model_name_key").

Definition ai_policy_of (p : uuid) (l : list (uuid * ai_policy)) : option ai_policy := snd <$> List.find (fun x => (x.1 =? p)%N) l.
Definition get_ai_execution_policy (p : uuid) (s : ai_tables) : option ai_policy := ai_policy_of p (xt_policies s).
(** The newest first. *)
Definition list_ai_execution_policies (tenant : uuid) (limit : nat) (s : ai_tables) : list (uuid * ai_policy) :=
  take limit (filter (fun x => xp_tenant x.2 = tenant) (rev (xt_policies s))).
Definition insert_policy (tenant : uuid) (description : option string) : X uuid :=
  let* i := in_authoring new_id in
  mmodify (fun s => set_ai_policies (xt_policies s ++ [(i, {| xp_tenant := tenant; xp_description := description |})]) s) ;;* mret i.

Definition get_ai_execution_policy_version (v : uuid) (s : ai_tables) : option ai_version := xt_versions s !! v.
Definition ai_tenant_of (r : ai_version) (s : ai_tables) : option uuid := xp_tenant <$> ai_policy_of (xv_policy r) (xt_policies s).
(** [list_ai_execution_policy_versions] of the repository: the highest number first. *)
Definition version_rows (tenant : uuid) (policy : option uuid) (status_filter : option (list VersionStatus)) (limit : nat) (s : ai_tables) :
    list (uuid * ai_version) :=
  take limit (sorted_by newer_number (fun kv => number_key (xv_number kv.2))
    (filter (fun kv => ai_tenant_of kv.2 s = Some tenant /\ default (xv_policy kv.2) policy = xv_policy kv.2 /\
                       (match status_filter with None => true | Some l => bool_decide (xv_status kv.2 ∈ l) end) = true)
            (map_to_list (xt_versions s)))).

Record AIExecutionPolicyVersionCreate : Type := {
  xc_policy : uuid;
  xc_model : uuid;
  xc_source : option uuid;
  xc_major : option Z;
  xc_minor : option Z;
  xc_patch : option Z;
}.
(** [create_ai_execution_policy_version] of the repository; the source may be of any policy. *)
Definition insert_ai_version (q : AIExecutionPolicyVersionCreate) : X uuid :=
  let* s := mget in
  let* source := (match xc_source q with
                  | None => mret None
                  | Some v => match xt_versions s !! v with Some r => mret (Some r) | None => absent "source_version_not_found" end
                  end) in
  let g := (xc_policy q, 0%N) in
  let n := next_number (xc_major q) (xc_minor q) (xc_patch q) (xv_number <$> source) (newest g (xt_versions s)) in
  let* i := in_authoring new_id in
  if taken g n (xt_versions s) then mraise (ExternalError "IntegrityError" "uq_ai_policy_version_semver")
  else
    mmodify (fun s => set_ai_versions (<[i := {| xv_policy := xc_policy q; xv_model := xc_model q; xv_status := VS_DRAFT; xv_number := n;
                                                 xv_hash := source ≫= xv_hash |}]> (xt_versions s)) s) ;;*
    mret i.

Definition with_ai_status (st : VersionStatus) (r : ai_version) : ai_version := {|
  xv_policy := xv_policy r; xv_model := xv_model r; xv_status := st; xv_number := xv_number r; xv_hash := xv_hash r |}.
Definition set_ai_execution_policy_version_status (v : uuid) (st : VersionStatus) : X unit :=
  let* s := mget in
  let* r := present_or "ai_execution_policy_version_not_found" (xt_versions s !! v) in
  mmodify (set_ai_versions (<[v := with_ai_status st r]> (xt_versions s))).

(** A node has one binding. *)
Definition insert_node_policy (n v : uuid) : X node_policy :=
  let* s := mget in
  let* i := in_authoring new_id in
  if bool_decide (n ∈ np_node <$> xt_bindings s) then mraise (ExternalError "IntegrityError" "uq_node_ai_execution_policy_binding_node_id")
  else
    let row := {| np_id := i; np_node := n; np_version := v |} in
    mmodify (fun s => set_node_policies (xt_bindings s ++ [row]) s) ;;* mret row.
Definition list_node_ai_execution_policy_bindings (node version : option uuid) (limit : nat) (s : ai_tables) : list node_policy :=
  take limit (filter (fun b => default (np_node b) node = np_node b /\ default (np_version b) version = np_version b) (rev (xt_bindings s))).
Definition delete_node_ai_execution_policy_binding (i : uuid) : X unit :=
  mmodify (fun s => set_node_policies (filter (fun b => np_id b <> i) (xt_bindings s)) s).

(** ** The service *)

Section service.
(** [UUID(text)] raises on other texts. *)
Variable uuid_parse : string -> option uuid.
Definition ai_uuid (x : string) : X uuid := mlift (match uuid_parse x with Some i => Ok i | None => Err PyValueError end).

Definition create_ai_execution_policy (tenant : uuid) (description : option string) (principal : string) : X uuid :=
  let* i := insert_policy tenant description in
  in_authoring (append_event tenant "ai_execution_policy" i None "AI_EXECUTION_POLICY_CREATED" "CREATE" principal "create ai execution policy") ;;*
  mret i.

Definition owned_ai_policy (tenant p : uuid) : X unit :=
  let* s := mget in
  if bool_decide (xp_tenant <$> get_ai_execution_policy p s = Some tenant) then mret tt else absent "ai_execution_policy_not_found".
Definition ai_version_of (p v : uuid) : X ai_version :=
  let* s := mget in
  match get_ai_execution_policy_version v s with
  | Some r => if bool_decide (xv_policy r = p) then mret r else absent "ai_execution_policy_version_not_found"
  | None => absent "ai_execution_policy_version_not_found"
  end.
Definition ai_refreshed (v : uuid) : X ai_version :=
  let* s := mget in present_or "ai_execution_policy_version_not_found" (get_ai_execution_policy_version v s).

Definition create_ai_execution_policy_version (tenant : uuid) (q : AIExecutionPolicyVersionCreate) (principal : string) : X uuid :=
  owned_ai_policy tenant (xc_policy q) ;;*
  let* s := mget in
  present_or "model_not_found" (get_model (xc_model q) s) ;;*
  let* i := insert_ai_version q in
  in_authoring (append_event tenant "ai_execution_policy" (xc_policy q) (Some i) "AI_EXECUTION_POLICY_VERSION_CREATED" "CREATE" principal
                  "create ai execution policy version") ;;*
  mret i.

(** The policy and the version that a path names. *)
Definition addressed (tenant : uuid) (policy version : string) : X (uuid * uuid * ai_version) :=
  let* p := ai_uuid policy in
  let* v := ai_uuid version in
  owned_ai_policy tenant p ;;*
  let* r := ai_version_of p v in
  mret (p, v, r).

Definition validate_ai_execution_policy_version (tenant : uuid) (policy version : string) : X ai_version :=
  let* a := addressed tenant policy version in
  if negb (bool_decide (xv_status a.2 = VS_DRAFT)) then mraise (ResourceBlockedServiceException "ai_execution_policy_version_not_draft")
  else set_ai_execution_policy_version_status a.1.2 VS_VALIDATED ;;* ai_refreshed a.1.2.

(** [publish], [deprecate] and [disable] differ in the statuses they start from, the one they set, the error and the event. *)
Definition change_status (from : list VersionStatus) (refusal : string) (to : VersionStatus) (event : string)
    (tenant : uuid) (policy version principal : string) (c : ChangeRequest) : X ai_version :=
  let* a := addressed tenant policy version in
  if negb (bool_decide (xv_status a.2 ∈ from)) then mraise (ResourceBlockedServiceException refusal)
  else if String.eqb (py_strip (justification c)) "" then mraise (DomainValidationException "justification_required")
  else
    set_ai_execution_policy_version_status a.1.2 to ;;*
    in_authoring (append_event tenant "ai_execution_policy" a.1.1 (Some a.1.2) event (change_type c) principal (justification c)) ;;*
    ai_refreshed a.1.2.
Definition publish_ai_execution_policy_version :=
  change_status [VS_VALIDATED] "ai_execution_policy_version_not_validated" VS_PUBLISHED "VERSION_PUBLISHED".
Definition deprecate_ai_execution_policy_version :=
  change_status [VS_PUBLISHED] "ai_execution_policy_version_not_published" VS_DEPRECATED "VERSION_DEPRECATED".
Definition disable_ai_execution_policy_version :=
  change_status [VS_PUBLISHED; VS_DEPRECATED] "ai_execution_policy_version_not_published_or_deprecated" VS_DISABLED "VERSION_DISABLED".

Definition create_model (name provider type : string) : X uuid := insert_model name provider type.

(** An empty text names no policy. *)
Definition list_ai_execution_policy_versions (tenant : uuid) (policy : option string) (status_filter : option (list VersionStatus)) (limit : nat) :
    X (list (uuid * ai_version)) :=
  let* p := (match policy with
             | None => mret None
             | Some x => if String.eqb x "" then mret None
                         else let* p := ai_uuid x in owned_ai_policy tenant p ;;* mret (Some p)
             end) in
  let* s := mget in mret (version_rows tenant p status_filter limit s).

(** The tenants of the node and of the version are not compared, nor with the caller's. *)
Definition create_node_ai_execution_policy_binding (n v : uuid) : X node_policy :=
  let* s := mget in
  present_or "node_not_found" (au_nodes (xt_authoring s) !! n) ;;*
  let* r := present_or "ai_execution_policy_version_not_found" (get_ai_execution_policy_version v s) in
  if negb (bool_decide (xv_status r = VS_PUBLISHED)) then mraise (ResourceBlockedServiceException "ai_execution_policy_version_not_published")
  else mtry (insert_node_policy n v)
         (fun e => match e with
                   | ExternalError "IntegrityError" _ => mraise (DomainValidationException "node_ai_execution_policy_binding_conflict")
                   | _ => mraise e
                   end).

(** The requests of the routes. *)
Inductive ai_request : Type :=
  | CreateModel (name provider type : string)
  | CreateAiPolicy (tenant : uuid) (description : option string) (principal : string)
  | CreateAiVersion (tenant : uuid) (q : AIExecutionPolicyVersionCreate) (principal : string)
  | ValidateAi (tenant : uuid) (policy version : string)
  | PublishAi (tenant : uuid) (policy version principal : string) (c : ChangeRequest)
  | DeprecateAi (tenant : uuid) (policy version principal : string) (c : ChangeRequest)
  | DisableAi (tenant : uuid) (policy version principal : string) (c : ChangeRequest)
  | BindNode (n v : uuid)
  | UnbindNode (i : uuid).
Definition serve_ai (q : ai_request) : X unit :=
  match q with
  | CreateModel n p t => create_model n p t ;;* mret tt
  | CreateAiPolicy t d p => create_ai_execution_policy t d p ;;* mret tt
  | CreateAiVersion t q p => create_ai_execution_policy_version t q p ;;* mret tt
  | ValidateAi t p v => validate_ai_execution_policy_version t p v ;;* mret tt
  | PublishAi t p v w c => publish_ai_execution_policy_version t p v w c ;;* mret tt
  | DeprecateAi t p v w c => deprecate_ai_execution_policy_version t p v w c ;;* mret tt
  | DisableAi t p v w c => disable_ai_execution_policy_version t p v w c ;;* mret tt
  | BindNode n v => create_node_ai_execution_policy_binding n v ;;* mret tt
  | UnbindNode i => delete_node_ai_execution_policy_binding i
  end.
Definition after_ai (l : list ai_request) (s : ai_tables) : ai_tables := foldl (fun s q => (serve_ai q s).2) s l.
(** On whose behalf a request changes versions. *)
Definition ai_caller (q : ai_request) : option uuid :=
  match q with
  | CreateAiVersion t _ _ | ValidateAi t _ _ | PublishAi t _ _ _ _ | DeprecateAi t _ _ _ _ | DisableAi t _ _ _ _ => Some t
  | _ => None
  end.
End service.

(** ** The invariant *)

Record orderly (s : ai_tables) : Prop := {
  or_fresh : (forall p x, (p, x) ∈ xt_policies s -> (p < au_next (xt_authoring s))%N) /\
             (forall v, is_Some (xt_versions s !! v) -> (v < au_next (xt_authoring s))%N) /\
             (forall i, is_Some (xt_models s !! i) -> (i < au_next (xt_authoring s))%N);
  or_names : forall i j a b, xt_models s !! i = Some a -> xt_models s !! j = Some b -> mo_name a = mo_name b -> i = j;
  or_numbers : unique_numbers (xt_versions s);
  or_rows : forall v r, xt_versions s !! v = Some r -> is_Some (ai_policy_of (xv_policy r) (xt_policies s)) /\ is_Some (xt_models s !! xv_model r);
  or_nodes : NoDup (np_node <$> xt_bindings s);
  or_bound : forall b, b ∈ xt_bindings s -> is_Some (au_nodes (xt_authoring s) !! np_node b) /\
    exists r, xt_versions s !! np_version b = Some r /\ rank VS_PUBLISHED <= rank (xv_status r);
}.

(** A version keeps policy, model, number and hash, and its status only advances. *)
Definition ai_follows (r r' : ai_version) : Prop :=
  with_ai_status VS_DRAFT r' = with_ai_status VS_DRAFT r /\ rank (xv_status r) <= rank (xv_status r').
Lemma ai_follows_refl r : ai_follows r r.
Proof. done. Qed.
Lemma ai_follows_trans r r' r'' : ai_follows r r' -> ai_follows r' r'' -> ai_follows r r''.
Proof. intros [H1 H2] [H3 H4]. split; [congruence | lia]. Qed.
Lemma ai_follows_fields r r' : ai_follows r r' -> xv_policy r' = xv_policy r /\ xv_model r' = xv_model r /\ xv_number r' = xv_number r.
Proof. unfold ai_follows, with_ai_status. intros [[= ] _]. done. Qed.
Lemma ai_policy_of_prefix p l l' r : l `prefix_of` l' -> ai_policy_of p l = Some r -> ai_policy_of p l' = Some r.
Proof. intros [k ->]. unfold ai_policy_of. induction l as [|x l IH]; simpl; [done|]. by destruct (x.1 =? p)%N. Qed.

Section facts.
Variable uuid_parse : string -> option uuid.
(** The tenants that may have asked. *)
Variable may : uuid -> Prop.

Record ai_grows (s s' : ai_tables) : Prop := {
  xg_policies : xt_policies s `prefix_of` xt_policies s';
  xg_models : xt_models s ⊆ xt_models s';
  xg_versions : forall v r, xt_versions s !! v = Some r -> exists r', xt_versions s' !! v = Some r' /\ ai_follows r r' /\
    (r' = r \/ exists t, may t /\ ai_tenant_of r' s' = Some t);
  xg_events : au_events (xt_authoring s) `prefix_of` au_events (xt_authoring s');
}.
Lemma ai_tenant_mono s s' r r' t : xt_policies s `prefix_of` xt_policies s' -> xv_policy r' = xv_policy r -> ai_tenant_of r s = Some t -> ai_tenant_of r' s' = Some t.
Proof.
  intros Hp Hr. unfold ai_tenant_of. rewrite Hr. destruct (ai_policy_of (xv_policy r) (xt_policies s)) as [x|] eqn:E; [|done]. by rewrite (ai_policy_of_prefix _ _ _ _ Hp E).
Qed.
Instance ai_grows_preorder : PreOrder ai_grows.
Proof.
  split; [intros s; split; [done..| |done]; intros v r Hr; exists r; auto using ai_follows_refl|]. intros s s' s'' [H1 H2 H3 H4] [K1 K2 K3 K4]. split; [by etrans | by etrans | | by etrans]. intros v r Hr.
  destruct (H3 v r Hr) as (r' & Hr' & Hf & Hw). destruct (K3 v r' Hr') as (r'' & Hr'' & Hf' & Hw'). exists r''. split_and!; [done | by eapply ai_follows_trans|].
  destruct Hw' as [->|Hw']; [|by right]. destruct Hw as [->|(t & Ht & Hw)]; [by left|]. right. exists t. split; [done|]. by eapply ai_tenant_mono.
Qed.
Abbreviation safely := (keeps orderly ai_grows).

(** Tables that differ in keys and events. *)
Lemma safe_authoring {T} (m : A T) : respects calm m -> respects safely (in_authoring m).
Proof.
  intros Hm s Ho. unfold in_authoring. specialize (Hm (xt_authoring s)). destruct (m (xt_authoring s)) as [r a]. simpl in *. destruct Hm as (Hv & Hn & He).
  injection Hv as _ _ H2 _ _ _ _. destruct Ho as [(F1 & F2 & F3) N U R D B]. split.
  - split; simpl; try done; [|by setoid_rewrite H2].
    split_and!; [intros p x Hp; specialize (F1 p x Hp) | intros v Hv; specialize (F2 v Hv) | intros i Hi; specialize (F3 i Hi)]; lia.
  - split; simpl; try done. intros v x Hx. exists x. auto using ai_follows_refl.
Qed.
Lemma safely_event t r i v ty c p j : respects safely (in_authoring (append_event t r i v ty c p j)).
Proof. apply safe_authoring, calm_authoring_event. Qed.
Lemma safely_get {T} (k : ai_tables -> X T) : (forall s, safely s (k s s).2) -> respects safely (mbind_ mget k).
Proof. intros H s. rewrite get_bind. apply H. Qed.
Lemma safe_present {T} m (o : option T) : respects safely (present_or m o).
Proof. destruct o; [apply respects_ret | apply respects_raise]; apply _. Qed.

(** A new key, and what is done with it. *)
Lemma safe_new {T} (k : uuid -> X T) s :
  (forall i s1, i = au_next (xt_authoring s) -> s1 = set_xt_authoring (set_next (i + 1)%N (xt_authoring s)) s -> orderly s -> safely s1 (k i s1).2) ->
  safely s (mbind_ (in_authoring new_id) k s).2.
Proof.
  intros Hk. apply (keeps_bind orderly ai_grows); [apply safe_authoring, calm_new_id|]. intros Ho i s1 [= <- <-] Ho1. by apply Hk.
Qed.

Lemma safe_insert_model n p t : respects safely (insert_model n p t).
Proof.
  apply safely_get. intros s. apply safe_new. intros i s1 -> -> Ho. case_bool_decide as Hn; [|apply (keeps_refl orderly ai_grows)].
  intros [(F1 & F2 & F3) N U R D B]. destruct Ho as [(G1 & G2 & G3) _ _ _ _ _]. assert (Hf : xt_models s !! au_next (xt_authoring s) = None).
  { destruct (xt_models s !! _) eqn:E; [|done]. specialize (G3 _ (mk_is_Some _ _ E)). lia. }
  assert (Hname : forall i a, xt_models s !! i = Some a -> mo_name a <> n).
  { intros i a Ha <-. assert (Hin : i ∈ keys_where (fun r => String.eqb (mo_name r) (mo_name a)) (xt_models s)); [apply elem_of_keys_where; exists a; by rewrite String.eqb_refl|].
    rewrite Hn in Hin. by apply not_elem_of_nil in Hin. }
  split; [split; simpl in *; try done | split; simpl; [done | by apply insert_subseteq | | done]].
  - split_and!; [done..|]. intros i. destruct (decide (i = au_next (xt_authoring s))) as [->|]; [lia | rewrite lookup_insert_ne by done; apply F3].
  - intros i j a b. rewrite !lookup_insert_Some. intros [[<- <-]|[? Ha]] [[<- <-]|[? Hb]] He; simpl in He; try done; [by apply Hname in Hb | by apply Hname in Ha | by eapply N].
  - intros v r Hr. destruct (R v r Hr) as [? [y Hy]]. split; [done|]. exists y. by apply lookup_insert_Some; right; split; [congruence|].
  - intros v r Hr. exists r. auto using ai_follows_refl.
Qed.

Lemma safe_insert_policy t d : respects safely (insert_policy t d).
Proof.
  intros s. apply safe_new. intros i s1 -> -> Ho [(F1 & F2 & F3) N U R D B]. simpl in *.
  assert (Hp : xt_policies s `prefix_of` xt_policies s ++ [(au_next (xt_authoring s), {| xp_tenant := t; xp_description := d |})]) by by eexists.
  split; [split; simpl; try done | split; simpl; try done; intros v r Hr; exists r; auto using ai_follows_refl].
  - split_and!; [|done..]. intros p x [Hx|[= -> _]%list_elem_of_singleton]%elem_of_app; [by eapply F1 | lia].
  - intros v r Hr. destruct (R v r Hr) as [[x Hx] ?]. split; [|done]. exists x. by eapply ai_policy_of_prefix.
Qed.

(** The tables change in the versions only. *)
Lemma safe_versions s m :
  (forall v, is_Some (m !! v) -> (v < au_next (xt_authoring s))%N) ->
  (orderly s -> unique_numbers m) ->
  (forall v r, m !! v = Some r -> is_Some (ai_policy_of (xv_policy r) (xt_policies s)) /\ is_Some (xt_models s !! xv_model r)) ->
  (forall v r, xt_versions s !! v = Some r -> exists r', m !! v = Some r' /\ ai_follows r r' /\ (r' = r \/ exists t, may t /\ ai_tenant_of r' s = Some t)) ->
  safely s (set_ai_versions m s).
Proof.
  intros H1 H2 H3 H4 Ho. pose proof Ho as [(F1 & F2 & F3) N U R D B]. split; [|by split]. split; simpl; [done | done | by apply H2 | done | done |].
  intros b Hb. destruct (B b Hb) as (Hn & r & Hr & Hk). split; [done|]. destruct (H4 _ _ Hr) as (r' & Hr' & [_ Hf] & _). exists r'. split; [done|]. simpl in *. lia.
Qed.

Lemma owned_ai_run t p s x s1 : owned_ai_policy t p s = (Ok x, s1) -> s1 = s /\ exists r, ai_policy_of p (xt_policies s) = Some r /\ xp_tenant r = t.
Proof.
  unfold owned_ai_policy, get_ai_execution_policy. rewrite get_bind. case_bool_decide as H; [|done]. intros [= _ <-]. split; [done|].
  destruct (ai_policy_of p (xt_policies s)) as [r|]; [|done]. injection H as H. eauto.
Qed.
Lemma safe_owned t p : respects safely (owned_ai_policy t p).
Proof. apply safely_get. intros s. case_bool_decide; apply (keeps_refl orderly ai_grows). Qed.
Lemma addressed_run t p v s a s1 : addressed uuid_parse t p v s = (Ok a, s1) ->
  s1 = s /\ xt_versions s !! a.1.2 = Some a.2 /\ xv_policy a.2 = a.1.1 /\ exists r, ai_policy_of a.1.1 (xt_policies s) = Some r /\ xp_tenant r = t.
Proof.
  unfold addressed, ai_uuid. unfold mbind_ at 1, mlift. destruct (uuid_parse p) as [i|]; [|done]. unfold mbind_ at 1. destruct (uuid_parse v) as [j|]; [|done].
  intros H. first_step H as [[x|e] s0] eqn:E0; [|done]. apply owned_ai_run in E0 as (-> & Hr). revert H. unfold ai_version_of, mbind_ at 1. rewrite get_bind.
  unfold get_ai_execution_policy_version. destruct (xt_versions s !! j) as [r|] eqn:Ej; [|done]. case_bool_decide as Hp; [|done]. by intros [= <- <-].
Qed.
Lemma safe_addressed t p v : respects safely (addressed uuid_parse t p v).
Proof.
  unfold addressed. apply respects_bind; [apply _ | apply respects_lift; apply _|]. intros i. apply respects_bind; [apply _ | apply respects_lift; apply _|]. intros j.
  apply respects_bind; [apply _ | apply safe_owned|]. intros _. apply respects_bind; [apply _| |intros; apply respects_ret; apply _].
  apply safely_get. intros s. destruct (get_ai_execution_policy_version j s); [case_bool_decide|]; apply (keeps_refl orderly ai_grows).
Qed.

(** A version of the caller advances. *)
Lemma safe_status t v st s r :
  may t -> xt_versions s !! v = Some r -> (exists x, ai_policy_of (xv_policy r) (xt_policies s) = Some x /\ xp_tenant x = t) -> rank (xv_status r) <= rank st ->
  safely s (set_ai_execution_policy_version_status v st s).2.
Proof.
  intros Hm Hr (x & Hx & Ht) Hk. unfold set_ai_execution_policy_version_status. rewrite get_bind, Hr. intros Ho. pose proof Ho as [(F1 & F2 & F3) N U R D B]. revert Ho. apply safe_versions.
  - intros w. destruct (decide (w = v)) as [->|]; [intros _; eauto | rewrite lookup_insert_ne by done; apply F2].
  - intros _. apply (unique_update (xt_versions s)); [done|]. intros w y. rewrite lookup_insert_Some. intros [[<- <-]|[? Hy]]; [by exists r | by exists y].
  - intros w y. rewrite lookup_insert_Some. intros [[<- <-]|[? Hy]]; [exact (R _ _ Hr) | by eapply R].
  - intros w y Hy. destruct (decide (w = v)) as [->|].
    + rewrite lookup_insert_eq. simplify_eq. eexists. split_and!; [done | done|]. right. exists (xp_tenant x). split; [done|]. unfold ai_tenant_of. simpl. by rewrite Hx.
    + rewrite lookup_insert_ne by done. exists y. auto using ai_follows_refl.
Qed.
Lemma safe_refreshed v : respects safely (ai_refreshed v).
Proof. apply safely_get. intros s. apply safe_present. Qed.

Lemma safe_validate t p v : may t -> respects safely (validate_ai_execution_policy_version uuid_parse t p v).
Proof.
  intros Hm s. apply (keeps_bind orderly ai_grows); [apply safe_addressed|]. intros _ a s1 (-> & Hr & Hp & Hx)%addressed_run _.
  case_bool_decide as Hd; [|apply (keeps_refl orderly ai_grows)]. apply (keeps_bind orderly ai_grows); [|intros; apply safe_refreshed].
  apply (safe_status t _ _ _ a.2); [done | done | by rewrite Hp | rewrite Hd; simpl; lia].
Qed.
Lemma safe_change from refusal to event t p v w c :
  may t -> Forall (fun st => rank st <= rank to) from -> respects safely (change_status uuid_parse from refusal to event t p v w c).
Proof.
  intros Hm Hf s. apply (keeps_bind orderly ai_grows); [apply safe_addressed|]. intros _ a s1 (-> & Hr & Hp & Hx)%addressed_run _.
  case_bool_decide as Hd; [|apply (keeps_refl orderly ai_grows)]. simpl. destruct (String.eqb _ _); [apply (keeps_refl orderly ai_grows)|].
  rewrite Forall_forall in Hf. apply (keeps_bind orderly ai_grows); [apply (safe_status t _ _ _ a.2); [done | done | by rewrite Hp | by apply Hf]|].
  intros. apply respects_bind; [apply _ | apply safely_event | intros; apply safe_refreshed].
Qed.

(** A new version of the caller's policy. *)
Lemma safe_insert_version q s :
  is_Some (ai_policy_of (xc_policy q) (xt_policies s)) -> is_Some (xt_models s !! xc_model q) -> safely s (insert_ai_version q s).2.
Proof.
  intros Hp Hq. unfold insert_ai_version. rewrite get_bind. apply (keeps_bind orderly ai_grows).
  { destruct (xc_source q) as [v|]; [destruct (xt_versions s !! v)|]; apply (keeps_refl orderly ai_grows). }
  intros _ source s1 Hs _. assert (s1 = s) as ->.
  { revert Hs. destruct (xc_source q) as [v|]; [destruct (xt_versions s !! v)|]; by intros [= ]. }
  apply safe_new. intros i s1 -> -> Ho. destruct (taken _ _ _) eqn:Et; [apply (keeps_refl orderly ai_grows)|]. intros Ho1. pose proof Ho1 as [(F1 & F2 & F3) N U R D B].
  pose proof Ho as [(_ & G2 & _) _ _ _ _ _]. revert Ho1. apply safe_versions; simpl in *.
  - intros v. destruct (decide (v = au_next (xt_authoring s))) as [->|]; [lia | rewrite lookup_insert_ne by done; apply F2].
  - intros _. by apply unique_insert.
  - intros v r. rewrite lookup_insert_Some. intros [[<- <-]|[? Hr]]; [done | by eapply R].
  - intros v r Hr. exists r. split; [|auto using ai_follows_refl]. apply lookup_insert_Some. right. split; [|done]. intros <-. specialize (G2 _ (mk_is_Some _ _ Hr)). lia.
Qed.
Lemma safely_create_version t q p : respects safely (create_ai_execution_policy_version t q p).
Proof.
  intros s. apply (keeps_bind orderly ai_grows); [apply safe_owned|]. intros _ x s1 (-> & r & Hr & _)%owned_ai_run _. rewrite get_bind.
  unfold get_model, mbind_ at 1. destruct (xt_models s !! xc_model q) as [m|] eqn:Em; [|apply (keeps_refl orderly ai_grows)]. simpl.
  apply (keeps_bind orderly ai_grows); [by apply safe_insert_version|]. intros. apply respects_bind; [apply _ | apply safely_event | intros; apply respects_ret; apply _].
Qed.

(** Bindings. *)
Lemma safe_bind_node n v : respects safely (create_node_ai_execution_policy_binding n v).
Proof.
  apply safely_get. intros s. unfold mbind_ at 1. destruct (au_nodes (xt_authoring s) !! n) as [x|] eqn:En; [|apply (keeps_refl orderly ai_grows)]. simpl.
  unfold get_ai_execution_policy_version, mbind_ at 1. destruct (xt_versions s !! v) as [r|] eqn:Er; [|apply (keeps_refl orderly ai_grows)]. simpl.
  case_bool_decide as Hs; [|apply (keeps_refl orderly ai_grows)]. simpl. unfold mtry, insert_node_policy. rewrite get_bind. cbn. case_bool_decide as Hn.
  - cbn. apply (safe_authoring _ calm_new_id s).
  - cbn. intros Ho. destruct (safe_authoring _ calm_new_id s Ho) as [Ho1 Hg]. destruct Ho1 as [F N U R D B]. split; [|destruct Hg as [K1 K2 K3 K4]; by split].
    split; simpl; try done.
    + rewrite fmap_app. apply NoDup_app. split_and!; [done | by intros y Hy ->%list_elem_of_singleton | apply NoDup_singleton].
    + intros b [Hb| ->%list_elem_of_singleton]%elem_of_app; [by apply B|]. simpl. split; [by eexists|]. exists r. by rewrite Hs.
Qed.
Lemma safe_unbind i : respects safely (delete_node_ai_execution_policy_binding i).
Proof.
  intros s [F N U R D B]. split; [split; simpl; try done | split; simpl; try done; intros v r Hr; exists r; auto using ai_follows_refl].
  - eapply sublist_NoDup; [exact D|]. apply fmap_sublist, sublist_filter.
  - intros b [_ Hb]%list_elem_of_filter. by apply B.
Qed.

Lemma safely_serve q : (forall t, ai_caller q = Some t -> may t) -> respects safely (serve_ai uuid_parse q).
Proof.
  intros Hm. destruct q; try apply safe_unbind; (apply respects_bind; [apply _ | | intros; apply respects_ret; apply _]).
  - apply safe_insert_model.
  - apply respects_bind; [apply _ | apply safe_insert_policy|]. intros. apply respects_bind; [apply _ | apply safely_event | intros; apply respects_ret; apply _].
  - apply safely_create_version.
  - apply safe_validate. by apply Hm.
  - apply safe_change; [by apply Hm | repeat constructor].
  - apply safe_change; [by apply Hm | repeat constructor].
  - apply safe_change; [by apply Hm | repeat constructor].
  - apply safe_bind_node.
Qed.
Lemma safe_after_ai l s : (forall q t, q ∈ l -> ai_caller q = Some t -> may t) -> safely s (after_ai uuid_parse l s).
Proof.
  revert s. induction l as [|q l IH]; intros s Hm; [apply (keeps_refl orderly ai_grows)|]. simpl. etrans; [apply safely_serve; intros; eapply Hm; [left|done]|].
  apply IH. intros. eapply Hm; [by right | done].
Qed.
End facts.

(** Policies for models: whatever is asked, names of models and numbers of versions stay unique, versions belong to policies and name models
    of the catalogue, a node has one binding at most, to a version that was published; policies, models and events are kept, a version keeps
    its policy, model and number, its status only advances, and it changes only when its own tenant asks. *)
Theorem ai_policy_registry uuid_parse l s :
  orderly s ->
  let s' := after_ai uuid_parse l s in
  orderly s' /\ ai_grows (fun t => exists q, q ∈ l /\ ai_caller q = Some t) s s'.
Proof. intros Ho. apply safe_after_ai; [naive_solver | done]. Qed.

(** ** The life of a version *)

Section life.
Variable uuid_parse : string -> option uuid.

Lemma addressed_at t pt vt p v x r s :
  uuid_parse pt = Some p -> uuid_parse vt = Some v -> ai_policy_of p (xt_policies s) = Some x -> xp_tenant x = t -> xt_versions s !! v = Some r -> xv_policy r = p ->
  addressed uuid_parse t pt vt s = (Ok (p, v, r), s).
Proof.
  intros Hp Hv Hx Ht Hr Hpo. unfold addressed, ai_uuid, owned_ai_policy, get_ai_execution_policy, ai_version_of, get_ai_execution_policy_version, mbind_, mlift, mget, mret.
  rewrite Hp, Hv, Hx. simpl. rewrite Ht, bool_decide_eq_true_2, Hr by done. by rewrite bool_decide_eq_true_2.
Qed.
Lemma status_set v st r s : xt_versions s !! v = Some r ->
  set_ai_execution_policy_version_status v st s = (Ok tt, set_ai_versions (<[v := with_ai_status st r]> (xt_versions s)) s).
Proof. intros Hr. unfold set_ai_execution_policy_version_status. rewrite get_bind, Hr. reflexivity. Qed.

(** A version without a number can always be created, for a policy of the tenant and a model of the catalogue; it is a draft with a number of its
    own, can be validated and then published, and then be bound to any node that is not bound. *)
Theorem ai_version_life t q w s x m :
  ai_policy_of (xc_policy q) (xt_policies s) = Some x -> xp_tenant x = t -> xt_models s !! xc_model q = Some m ->
  xc_source q = None -> xc_major q = None -> xc_minor q = None -> xc_patch q = None ->
  exists i s1, create_ai_execution_policy_version t q w s = (Ok i, s1) /\
    let r := {| xv_policy := xc_policy q; xv_model := xc_model q; xv_status := VS_DRAFT;
                xv_number := next_number None None None None (newest (xc_policy q, 0%N) (xt_versions s)); xv_hash := None |} in
    xt_versions s1 = <[i := r]> (xt_versions s) /\ taken (xc_policy q, 0%N) (xv_number r) (xt_versions s) = false /\
    forall pt vt c, uuid_parse pt = Some (xc_policy q) -> uuid_parse vt = Some i -> py_strip (justification c) <> "" ->
    exists s2 s3, validate_ai_execution_policy_version uuid_parse t pt vt s1 = (Ok (with_ai_status VS_VALIDATED r), s2) /\
      publish_ai_execution_policy_version uuid_parse t pt vt w c s2 = (Ok (with_ai_status VS_PUBLISHED r), s3) /\
      forall n, is_Some (au_nodes (xt_authoring s) !! n) -> n ∉ np_node <$> xt_bindings s ->
      exists b s4, create_node_ai_execution_policy_binding n i s3 = (Ok b, s4) /\ np_node b = n /\ np_version b = i /\
        list_node_ai_execution_policy_bindings (Some n) None 1 s4 = [b].
Proof.
  intros Hx Ht Hm H1 H2 H3 H4. set (i := au_next (xt_authoring s)). pose proof (next_number_free (xc_policy q, 0%N) (xt_versions s)) as Hfree.
  eexists i, _. split.
  { unfold create_ai_execution_policy_version, owned_ai_policy, get_ai_execution_policy, get_model, insert_ai_version, mbind_, mget. rewrite Hx. simpl.
    rewrite Ht, bool_decide_eq_true_2 by done. simpl. rewrite Hm. simpl. rewrite H1, H2, H3, H4. simpl. rewrite Hfree. reflexivity. }
  intros r. split_and!; [reflexivity | exact Hfree|]. intros pt vt c Hpt Hvt Hj.
  match goal with |- context [validate_ai_execution_policy_version _ _ _ _ ?y] => set (s1 := y) end.
  assert (Hr1 : xt_versions s1 !! i = Some r) by apply lookup_insert_eq.
  set (s2 := set_ai_versions (<[i := with_ai_status VS_VALIDATED r]> (xt_versions s1)) s1).
  assert (Hr2 : xt_versions s2 !! i = Some (with_ai_status VS_VALIDATED r)) by apply lookup_insert_eq.
  eexists s2, _. split.
  { unfold validate_ai_execution_policy_version. rewrite (mbind_run _ _ _ _ _ (addressed_at t pt vt _ i x r s1 Hpt Hvt Hx Ht Hr1 eq_refl)). simpl.
    rewrite (mbind_run _ _ _ _ _ (status_set i VS_VALIDATED r s1 Hr1)). unfold ai_refreshed, get_ai_execution_policy_version. rewrite get_bind.
    fold s2. by rewrite Hr2. }
  split.
  { unfold publish_ai_execution_policy_version, change_status. rewrite (mbind_run _ _ _ _ _ (addressed_at t pt vt _ i x _ s2 Hpt Hvt Hx Ht Hr2 eq_refl)).
    simpl. rewrite (proj2 (String.eqb_neq _ _) Hj), (mbind_run _ _ _ _ _ (status_set i VS_PUBLISHED _ s2 Hr2)). unfold ai_refreshed, get_ai_execution_policy_version, mbind_, mget.
    cbn. rewrite lookup_insert_eq. reflexivity. }
  intros n [y Hn] Hfresh. eexists _, _. split.
  { unfold create_node_ai_execution_policy_binding, get_ai_execution_policy_version, mbind_ at 1 2 3, mget. cbn. rewrite Hn. cbn. rewrite lookup_insert_eq. cbn.
    rewrite bool_decide_eq_true_2 by done. cbn. unfold mtry, insert_node_policy, mbind_, mget. cbn. rewrite bool_decide_eq_false_2 by done. reflexivity. }
  split_and!; [done..|]. unfold list_node_ai_execution_policy_bindings. cbn. rewrite rev_app_distr. simpl. unfold filter. simpl. by rewrite decide_True.
Qed.
End life.

(** ** A concrete catalogue *)

Module switchboard.
Definition read_id (s : string) : option uuid := match s with "p" => Some 10%N | "v" => Some 11%N | "q" => Some 12%N | "w" => Some 13%N | _ => None end.
Definition why : ChangeRequest := {| change_type := "UPDATE"; justification := "ready" |}.
Definition draft (p : uuid) : AIExecutionPolicyVersionCreate := {| xc_policy := p; xc_model := 9; xc_source := None; xc_major := None; xc_minor := None; xc_patch := None |}.
Definition rights : node_rights := {| allow_rag_tenant := false; allow_user_memory_structured := false; allow_user_memory_vector := false;
  rag_config_id := None; allow_session_context := false; allow_memory_write := false |}.
(** Node 3 is of flow 1, of tenant 7; model 9 is in the catalogue. *)
Definition flow_tables : authoring := {|
  au_next := 10%N;
  au_flows := {[ 1%N := {| fl_tenant := 7%N; fl_name := "shop"; fl_description := None; fl_tags := []; fl_created_by := "ann" |} ]};
  au_versions := {[ 2%N := {| ve_flow := 1%N; ve_status := VS_PUBLISHED; ve_number := {| vn_major := 1; vn_minor := 0; vn_patch := 0 |};
                             ve_min_agent := {| ma_major := None; ma_minor := None; ma_patch := None |}; ve_active := true |} ]};
  au_nodes := {[ 3%N := {| no_version := 2%N; no_prompt := 4%N; no_rights := rights; no_spec := None; no_template := None |} ]};
  au_graphs := ∅; au_drafts := ∅; au_graph_snapshots := ∅; au_snapshots := ∅; au_policies := ∅; au_bindings := ∅; au_deployments := [];
  au_routers := ∅; au_conditions := ∅; au_rules := ∅; au_events := [] |}.
Definition opening : ai_tables := {| xt_authoring := flow_tables; xt_models := {[ 9%N := {| mo_name := "gpt"; mo_provider := "openai"; mo_type := "LLM"; mo_active := true |} ]};
  xt_policies := []; xt_versions := ∅; xt_bindings := [] |}.
Lemma orderly_opening : orderly opening.
Proof.
  split; simpl.
  - split_and!; [by intros p x ?%not_elem_of_nil | by intros v [r Hr] | intros i [r [<- _]%lookup_singleton_Some]; lia].
  - intros i j a b [<- <-]%lookup_singleton_Some [<- <-]%lookup_singleton_Some. done.
  - done.
  - done.
  - constructor.
  - by intros b ?%not_elem_of_nil.
Qed.
(** Tenant 8 has a policy with a published version. *)
Definition released : list ai_request :=
  [CreateAiPolicy 8 None "eve"; CreateAiVersion 8 (draft 10) "eve"; ValidateAi 8 "p" "v"; PublishAi 8 "p" "v" "eve" why].
Definition published_desk : ai_tables := after_ai read_id released opening.
Example published_version : xv_status <$> xt_versions published_desk !! 11%N = Some VS_PUBLISHED /\ length (au_events (xt_authoring published_desk)) = 3.
Proof. by vm_compute. Qed.
Lemma ai_policy_registry_witness :
  orderly published_desk /\ ai_grows (fun t => exists q, q ∈ released /\ ai_caller q = Some t) opening published_desk.
Proof. apply (ai_policy_registry read_id released opening). apply orderly_opening. Defined.
Definition with_policy : ai_tables := after_ai read_id [CreateAiPolicy 8 None "eve"] opening.
Lemma ai_version_life_witness :
  exists i s1, create_ai_execution_policy_version 8 (draft 10) "eve" with_policy = (Ok i, s1) /\ is_Some (xt_versions s1 !! i).
Proof.
  destruct (ai_version_life read_id 8 (draft 10) "eve" with_policy {| xp_tenant := 8; xp_description := None |}
    {| mo_name := "gpt"; mo_provider := "openai"; mo_type := "LLM"; mo_active := true |} ltac:(reflexivity) ltac:(reflexivity) ltac:(reflexivity)
    ltac:(reflexivity) ltac:(reflexivity) ltac:(reflexivity) ltac:(reflexivity)) as (i & s1 & Hc & Hv & _).
  exists i, s1. split; [exact Hc|]. rewrite Hv, lookup_insert_eq. by eexists.
Defined.

(** A node of tenant 7 is bound to the version of tenant 8, and anybody unbinds it. *)
Example foreign_node_bound :
  let s := after_ai read_id [BindNode 3 11] published_desk in
  (fun b => (np_node b, np_version b)) <$> xt_bindings s = [(3%N, 11%N)] /\ fl_tenant <$> au_flows flow_tables !! 1%N = Some 7%N /\
  ai_tenant_of {| xv_policy := 10; xv_model := 9; xv_status := VS_PUBLISHED; xv_number := {| vn_major := 1; vn_minor := 0; vn_patch := 0 |}; xv_hash := None |} s = Some 8%N /\
  xt_bindings (after_ai read_id [UnbindNode 12] s) = [].
Proof. by vm_compute. Qed.
(** A second version from the same source has its number. *)
Example same_source_twice :
  let q := {| xc_policy := 10; xc_model := 9; xc_source := Some 11%N; xc_major := None; xc_minor := None; xc_patch := None |} in
  let s := after_ai read_id [CreateAiVersion 8 q "eve"] published_desk in
  (create_ai_execution_policy_version 8 q "eve" s).1 = Err (ExternalError "IntegrityError" "uq_ai_policy_version_semver").
Proof. by vm_compute. Qed.
(** The first version is numbered 1.0.0 whatever part of the number is asked for. *)
Example first_ai_number :
  let q := {| xc_policy := 10; xc_model := 9; xc_source := None; xc_major := Some 2%Z; xc_minor := None; xc_patch := None |} in
  let s := after_ai read_id [CreateAiVersion 8 q "eve"] with_policy in
  (fun r => vn_major (xv_number r)) <$> xt_versions s !! 11%N = Some 1%Z.
Proof. by vm_compute. Qed.
End switchboard.
