(* ===== verification/LlmAdmin.v ===== *)
(** * LlmAdmin: providers, model mappings and prices

    [src/src/domain/governance/services/llm_admin_service.py] on its three repositories ([llm_provider_repository.py],
    [llm_model_mapping_repository.py], [llm_pricing_repository.py]): what an administrator offers, and what the selection of a provider
    ([LLM]) reads of it through the caches.

    The three tables have one shape: rows with a key, a status and a value, in the order they were created.  A row comes back from the
    cache as it was stored, and an entry may expire at any time; the deletion of an entry after a change of its table may be lost, as
    silent mode swallows the error, or raise.  Postgres keeps prices as [Numeric(18, 6)]: [numeric] is what it keeps, or its error. *)

From S2P Require Import Prelude.
From S2P Require Import Errors.
From S2P Require Import PyValue.
From S2P Require Import PyFloat.
From S2P Require Import Effects.
From S2P Require Import Store.
From S2P Require Import Versions.
From S2P Require Import Redis.
From S2P Require Import ModelPolicies.
From S2P Require Import Guardrail.
From S2P Require Import LLM.

(** ** Tables of offers *)

Record entry {K V : Type} : Type := {
  en_id : uuid;
  en_key : K;
  en_status : string;
  en_value : V;
}.
Arguments entry : clear implicits.

Section table.
Context {K V : Type} `{!EqDecision K}.
Implicit Types (l : list (entry K V)) (e : entry K V).

Definition rows_with (k : K) (st : string) l : list (entry K V) := filter (fun e => en_key e = k /\ en_status e = st) l.
(** [order by created_at desc] and the first row. *)
Definition latest_row (k : K) (st : string) l : option (entry K V) := last (rows_with k st l).
Definition with_value (v : V) e : entry K V := {| en_id := en_id e; en_key := en_key e; en_status := en_status e; en_value := v |}.
(** The row that was found gets the value; without one a row is added. *)
Definition put_row (found : option (entry K V)) (i : uuid) (k : K) (st : string) (v : V) l : list (entry K V) :=
  match found with
  | Some e => (fun x => if (en_id x =? en_id e)%N then with_value v x else x) <$> l
  | None => l ++ [{| en_id := i; en_key := k; en_status := st; en_value := v |}]
  end.
End table.

Record provider_value : Type := {
  pv_base_url : option string;
  pv_secret_ref : option string;
  pv_by : string;
}.
Record mapping_value : Type := {
  mv_model : uuid;
  mv_provider_model : string;
  mv_by : string;
}.
Record price_value : Type := {
  cv_unit : string;
  cv_input : pyfloat;
  cv_output : pyfloat;
  cv_currency : string;
  cv_by : string;
}.
Record offers_desk : Type := {
  od_next : uuid;
  od_catalogue : ai_tables;
  od_providers : list (entry (uuid * string) provider_value);
  od_mappings : list (entry (uuid * string * string) mapping_value);
  od_prices : list (entry (string * string) price_value);
  od_provider_cache : gmap (uuid * string) provider_value;
  od_mapping_cache : gmap (uuid * string * string) mapping_value;
  od_price_cache : gmap (string * string) price_value;
}.
Definition set_od_next v s := Build_offers_desk v (od_catalogue s) (od_providers s) (od_mappings s) (od_prices s) (od_provider_cache s) (od_mapping_cache s) (od_price_cache s).
Definition set_catalogue v s := Build_offers_desk (od_next s) v (od_providers s) (od_mappings s) (od_prices s) (od_provider_cache s) (od_mapping_cache s) (od_price_cache s).
Definition set_providers v c s := Build_offers_desk (od_next s) (od_catalogue s) v (od_mappings s) (od_prices s) c (od_mapping_cache s) (od_price_cache s).
Definition set_mappings v c s := Build_offers_desk (od_next s) (od_catalogue s) (od_providers s) v (od_prices s) (od_provider_cache s) c (od_price_cache s).
Definition set_prices v c s := Build_offers_desk (od_next s) (od_catalogue s) (od_providers s) (od_mappings s) v (od_provider_cache s) (od_mapping_cache s) c.

Abbreviation D := (M offers_desk).
Definition offer_id : D uuid := fun s => (Ok (od_next s), set_od_next (od_next s + 1)%N s).
(** A text that is longer than its column. *)
Definition fits_column (n : nat) (x : string) : bool := (length (utf8_chars x) <=? n).
Definition columns (l : list (nat * string)) : D unit :=
  if forallb (fun c => fits_column c.1 c.2) l then mret tt else mraise (ExternalError "DataError" "value too long for type character varying").
(** A key for the row when none was found. *)
Definition id_unless {T} (found : option T) (l : list (nat * string)) : D uuid :=
  match found with Some _ => mret 0%N | None => columns l ;;* offer_id end.

(** ** The repositories *)

(** [LLMProviderRepository]. *)
Definition get_active_config (t : uuid) (p : string) : D (option provider_value) :=
  let* s := mget in
  match od_provider_cache s !! (t, p) with
  | Some v => mret (Some v)
  | None =>
      let* e := mlift (one_or_none (rows_with (t, p) "ACTIVE" (od_providers s))) in
      match e with
      | Some e => mmodify (set_providers (od_providers s) (<[(t, p) := en_value e]> (od_provider_cache s))) ;;* mret (Some (en_value e))
      | None => mret None
      end
  end.
Definition upsert_config (w : cache_write) (t : uuid) (p : string) (v : provider_value) (st : string) : D unit :=
  let* s := mget in
  let* e := mlift (one_or_none (rows_with (t, p) st (od_providers s))) in
  columns [(128, pv_by v)] ;;*
  let* i := id_unless e [(32, p); (16, st)] in
  mmodify (fun s => set_providers (put_row e i (t, p) st v (od_providers s)) (od_provider_cache s) s) ;;*
  cache_step w (fun s => set_providers (od_providers s) (delete (t, p) (od_provider_cache s)) s).

(** [LLMModelMappingRepository]. *)
Definition get_active_mapping (t : uuid) (p a : string) : D (option mapping_value) :=
  let* s := mget in
  match od_mapping_cache s !! (t, p, a) with
  | Some v => mret (Some v)
  | None =>
      match latest_row (t, p, a) "ACTIVE" (od_mappings s) with
      | Some e => mmodify (set_mappings (od_mappings s) (<[(t, p, a) := en_value e]> (od_mapping_cache s))) ;;* mret (Some (en_value e))
      | None => mret None
      end
  end.
Definition upsert_mapping (w : cache_write) (t : uuid) (p a : string) (v : mapping_value) (st : string) : D unit :=
  let* s := mget in
  let* e := mlift (one_or_none (rows_with (t, p, a) st (od_mappings s))) in
  columns [(128, mv_provider_model v); (128, mv_by v)] ;;*
  let* i := id_unless e [(32, p); (64, a); (16, st)] in
  mmodify (fun s => set_mappings (put_row e i (t, p, a) st v (od_mappings s)) (od_mapping_cache s) s) ;;*
  cache_step w (fun s => set_mappings (od_mappings s) (delete (t, p, a) (od_mapping_cache s)) s).

(** [LLMPricingRepository]. *)
Definition get_active_pricing (p m : string) : D (option price_value) :=
  let* s := mget in
  match od_price_cache s !! (p, m) with
  | Some v => mret (Some v)
  | None =>
      match latest_row (p, m) "ACTIVE" (od_prices s) with
      | Some e => mmodify (set_prices (od_prices s) (<[(p, m) := en_value e]> (od_price_cache s))) ;;* mret (Some (en_value e))
      | None => mret None
      end
  end.
Definition price_columns (v : price_value) : list (nat * string) := [(16, cv_unit v); (8, cv_currency v); (128, cv_by v)].
Definition insert_or_update_pricing (w : cache_write) (p m : string) (v : price_value) (st : string) : D unit :=
  let* s := mget in
  let e := latest_row (p, m) st (od_prices s) in
  columns (price_columns v) ;;*
  let* i := id_unless e [(32, p); (128, m); (16, st)] in
  mmodify (fun s => set_prices (put_row e i (p, m) st v (od_prices s)) (od_price_cache s) s) ;;*
  cache_step w (fun s => set_prices (od_prices s) (delete (p, m) (od_price_cache s)) s).

(** ** The service *)

Section service.
Variable numeric : pyfloat -> res exc pyfloat.

Definition upsert_provider_config (w : cache_write) (t : uuid) (p : string) (base_url secret_ref : option string) (st by_ : string) : D unit :=
  upsert_config w t p {| pv_base_url := base_url; pv_secret_ref := secret_ref; pv_by := by_ |} st.

Definition upsert_model_mapping (w : cache_write) (t : uuid) (p a provider_model st by_ : string) : D unit :=
  let* active := get_active_config t p in
  match active with
  | None => mraise (DomainValidationException "llm_provider_config_not_active")
  | Some _ =>
      let* s := mget in
      let* model := mlift (get_model_by_name a (od_catalogue s)) in
      match model with
      | None => mraise (DomainValidationException "model_catalog_entry_required_for_llm_model_mapping")
      | Some i => upsert_mapping w t p a {| mv_model := i; mv_provider_model := provider_model; mv_by := by_ |} st
      end
  end.

Definition upsert_pricing (w : cache_write) (p m unit_ : string) (input output : pyfloat) (currency st by_ : string) : D unit :=
  let* i := mlift (numeric input) in
  let* o := mlift (numeric output) in
  insert_or_update_pricing w p m {| cv_unit := unit_; cv_input := i; cv_output := o; cv_currency := currency; cv_by := by_ |} st.

(** What happens to the desk: requests of the administrator, reads by model calls, entries that expire, and changes of the catalogue. *)
Inductive desk_step : Type :=
  | OfferProvider (w : cache_write) (t : uuid) (p : string) (base_url secret_ref : option string) (st by_ : string)
  | OfferMapping (w : cache_write) (t : uuid) (p a provider_model st by_ : string)
  | OfferPrice (w : cache_write) (p m unit_ : string) (input output : pyfloat) (currency st by_ : string)
  | ReadConfig (t : uuid) (p : string)
  | ReadMapping (t : uuid) (p a : string)
  | ReadPrice (p m : string)
  | ExpireConfig (k : uuid * string)
  | ExpireMapping (k : uuid * string * string)
  | ExpirePrice (k : string * string)
  | ChangeCatalogue (c : ai_tables).
Definition take_step (q : desk_step) : D unit :=
  match q with
  | OfferProvider w t p b r st by_ => upsert_provider_config w t p b r st by_
  | OfferMapping w t p a m st by_ => upsert_model_mapping w t p a m st by_
  | OfferPrice w p m u i o c st by_ => upsert_pricing w p m u i o c st by_
  | ReadConfig t p => get_active_config t p ;;* mret tt
  | ReadMapping t p a => get_active_mapping t p a ;;* mret tt
  | ReadPrice p m => get_active_pricing p m ;;* mret tt
  | ExpireConfig k => mmodify (fun s => set_providers (od_providers s) (delete k (od_provider_cache s)) s)
  | ExpireMapping k => mmodify (fun s => set_mappings (od_mappings s) (delete k (od_mapping_cache s)) s)
  | ExpirePrice k => mmodify (fun s => set_prices (od_prices s) (delete k (od_price_cache s)) s)
  | ChangeCatalogue c => mmodify (set_catalogue c)
  end.
(** What becomes of the deletion of the step, if it makes one. *)
Definition write_of (q : desk_step) : cache_write :=
  match q with OfferProvider w _ _ _ _ _ _ | OfferMapping w _ _ _ _ _ _ | OfferPrice w _ _ _ _ _ _ _ _ => w | _ => Written end.
Definition after_steps (l : list desk_step) (s : offers_desk) : offers_desk := foldl (fun s q => (take_step q s).2) s l.
End service.

(** ** What a table offers *)

Section table_facts.
Context {K V : Type} `{!EqDecision K, !Countable K}.
Implicit Types (l : list (entry K V)) (e : entry K V) (c : gmap K V).
(** The columns of keys and statuses. *)
Variable key_columns : K -> string -> list (nat * string).
Definition fitting (columns : list (nat * string)) : bool := forallb (fun x => fits_column x.1 x.2) columns.

(** The offers there have been, and whether no deletion was lost. *)
Variable past : K -> V -> Prop.
Variable sure : Prop.

Definition offered (k : K) l : option V := en_value <$> latest_row k "ACTIVE" l.
Record table_ok (n : uuid) l c : Prop := {
  tk_ids : NoDup (en_id <$> l) /\ forall e, e ∈ l -> (en_id e < n)%N;
  tk_one : forall k st, length (rows_with k st l) <= 1;
  tk_fits : forall e, e ∈ l -> fitting (key_columns (en_key e) (en_status e)) = true;
  tk_past : forall k v, offered k l = Some v -> past k v;
  tk_cache : forall k v, c !! k = Some v -> is_Some (offered k l) /\ past k v /\ (sure -> offered k l = Some v);
}.

Lemma latest_row_elem k st l e : latest_row k st l = Some e -> e ∈ l /\ en_key e = k /\ en_status e = st.
Proof. unfold latest_row, rows_with. intros H. apply last_Some_elem_of, list_elem_of_filter in H as [[? ?] ?]. done. Qed.
Lemma one_row k st l : length (rows_with k st l) <= 1 -> one_or_none (rows_with k st l) = Ok (latest_row k st l).
Proof. unfold latest_row. destruct (rows_with k st l) as [|x [|y l']]; simpl; [done | done | lia]. Qed.
Lemma no_row k st l : latest_row k st l = None -> rows_with k st l = [].
Proof. unfold latest_row. by intros ?%last_None. Qed.

Lemma rows_put_new k' st' i k st (v : V) l :
  rows_with k' st' (l ++ [{| en_id := i; en_key := k; en_status := st; en_value := v |}]) =
  rows_with k' st' l ++ if decide (k = k' /\ st = st') then [{| en_id := i; en_key := k; en_status := st; en_value := v |}] else [].
Proof. unfold rows_with. by rewrite filter_app. Qed.
Lemma rows_put_old k' st' e (v : V) l :
  rows_with k' st' ((fun x => if (en_id x =? en_id e)%N then with_value v x else x) <$> l) =
  (fun x => if (en_id x =? en_id e)%N then with_value v x else x) <$> rows_with k' st' l.
Proof.
  unfold rows_with. induction l as [|x l IH]; [done|]. rewrite fmap_cons. destruct (decide (en_key x = k' /\ en_status x = st')) as [Hd|Hd].
  - rewrite !filter_cons_True by (by destruct (en_id x =? en_id e)%N). rewrite fmap_cons. by f_equal.
  - rewrite !filter_cons_False by (by destruct (en_id x =? en_id e)%N). done.
Qed.
Lemma ids_differ l e x : NoDup (en_id <$> l) -> e ∈ l -> x ∈ l -> en_id x = en_id e -> x = e.
Proof.
  intros Hn He Hx Hi. apply list_elem_of_lookup in He as [i He], Hx as [j Hx]. assert (i = j) as ->; [|congruence].
  eapply NoDup_lookup; [exact Hn | by rewrite list_lookup_fmap, He | rewrite list_lookup_fmap, Hx; simpl; by rewrite Hi].
Qed.

(** The row of the key has the value; the others are as before. *)
Lemma latest_put n l c i k st v k' st' :
  table_ok n l c ->
  en_value <$> latest_row k' st' (put_row (latest_row k st l) i k st v l) = if decide (k = k' /\ st = st') then Some v else en_value <$> latest_row k' st' l.
Proof.
  intros [[Hi _] Ho _ _ _]. unfold put_row. destruct (latest_row k st l) as [e|] eqn:E.
  - destruct (latest_row_elem _ _ _ _ E) as (He & Hk & Hs). unfold latest_row. rewrite rows_put_old. specialize (Ho k' st').
    destruct (rows_with k' st' l) as [|x [|y l']] eqn:Er; simpl in *; [|clear Ho|lia].
    + case_decide as Hd; [|done]. destruct Hd as [<- <-]. unfold latest_row in E. by rewrite Er in E.
    + assert (Hx : x ∈ rows_with k' st' l) by (rewrite Er; by left). apply list_elem_of_filter in Hx as [[Hxk Hxs] Hx]. case_decide as Hd.
      * destruct Hd as [<- <-]. unfold latest_row in E. rewrite Er in E. injection E as ->. by rewrite N.eqb_refl.
      * destruct (N.eqb_spec (en_id x) (en_id e)) as [Hxe|]; [|done]. apply (ids_differ l) in Hxe; [|done..]. subst x. destruct Hd. split; congruence.
  - unfold latest_row. rewrite rows_put_new. case_decide as Hd; [|by rewrite app_nil_r]. by rewrite last_snoc.
Qed.
Lemma put_ok n l c k st v n' i c' :
  table_ok n l c -> fitting (key_columns k st) = true -> (st = "ACTIVE" -> past k v) ->
  c' = delete k c \/ (~ sure /\ c' = c) ->
  (match latest_row k st l with None => i = n /\ (n < n')%N | Some _ => (n <= n')%N end) ->
  table_ok n' (put_row (latest_row k st l) i k st v l) c'.
Proof.
  intros Ht Hf Hpast Hc' Hn. pose proof Ht as [[Hi Hb] Ho Hc Hp Hcache]. split.
  - unfold put_row. destruct (latest_row k st l) as [e|].
    + rewrite <- list_fmap_compose. split.
      * erewrite list_fmap_ext; [exact Hi|]. intros _ x _. simpl. by destruct (en_id x =? en_id e)%N.
      * intros x (y & -> & Hy)%list_elem_of_fmap. specialize (Hb y Hy). destruct (en_id y =? en_id e)%N; simpl; lia.
    + destruct Hn as [-> Hn]. rewrite fmap_app. split.
      * apply NoDup_app. split_and!; [done | | apply NoDup_singleton]. intros x (e & -> & He)%list_elem_of_fmap Hx%list_elem_of_singleton. specialize (Hb e He). simpl in Hx. lia.
      * intros e [He| ->%list_elem_of_singleton]%elem_of_app; [specialize (Hb e He)|simpl]; lia.
  - intros k' st'. unfold put_row. destruct (latest_row k st l) as [e|] eqn:E; [rewrite rows_put_old, length_fmap; apply Ho|].
    rewrite rows_put_new, length_app. case_decide as Hd; [|simpl; specialize (Ho k' st'); lia]. destruct Hd as [<- <-]. by rewrite (no_row _ _ _ E).
  - unfold put_row. destruct (latest_row k st l) as [e|].
    + intros x (y & -> & Hy)%list_elem_of_fmap. specialize (Hc y Hy). by destruct (en_id y =? en_id e)%N.
    + intros e [He| ->%list_elem_of_singleton]%elem_of_app; [by apply Hc | done].
  - intros k' v'. unfold offered. rewrite (latest_put n l c) by done. case_decide as Hd; [|by apply Hp].
    destruct Hd as [<- ->]. intros [= <-]. by apply Hpast.
  - intros k' v' Hv. assert (Hv' : c !! k' = Some v' /\ (sure -> k <> k')).
    { destruct Hc' as [->|[Hns ->]]; [by apply lookup_delete_Some in Hv as [? ?] | done]. }
    destruct Hv' as [Hv' Hne]. destruct (Hcache k' v' Hv') as (Hs & Hpv & Hsure). unfold offered. rewrite (latest_put n l c) by done.
    case_decide as Hd; [|done]. split_and!; [done..|]. intros Hs'. by destruct (Hne Hs'), Hd.
Qed.
Lemma table_ok_mono n n' l c : table_ok n l c -> (n <= n')%N -> table_ok n' l c.
Proof. intros [[Hi Hb] Ho Hc Hp Hcache] Hn. split; [|done..]. split; [done|]. intros e He. specialize (Hb e He). lia. Qed.
(** A row is read into the cache, or an entry expires. *)
Lemma fill_ok n l c k v : table_ok n l c -> offered k l = Some v -> table_ok n l (<[k := v]> c).
Proof.
  intros [Hi Ho Hc Hp Hcache] Hv. split; [done..|]. intros k' v'. rewrite lookup_insert_Some. intros [[<- <-]|[_ ?]]; [|by apply Hcache].
  split_and!; [by eexists | by apply Hp | done].
Qed.
Lemma expire_ok n l c k : table_ok n l c -> table_ok n l (delete k c).
Proof. intros [Hi Ho Hc Hp Hcache]. split; [done..|]. intros k' v' [_ ?]%lookup_delete_Some. by apply Hcache. Qed.

(** What a read answers: something exactly when there is an active offer, an offer there has been, and while no deletion was lost the
    last one. *)
Record answers (k : K) l (o : option V) : Prop := {
  as_some : is_Some o <-> is_Some (offered k l);
  as_past : forall v, o = Some v -> past k v;
  as_sure : sure -> o = offered k l;
}.
Lemma answers_cached n l c k v : table_ok n l c -> c !! k = Some v -> answers k l (Some v).
Proof.
  intros Ht Hv. destruct (tk_cache n l c Ht k v Hv) as (Hs & Hp & Hsure). split; [by split | by intros x [= <-] | intros Hs'; by rewrite Hsure].
Qed.
Lemma answers_table n l c k : table_ok n l c -> answers k l (offered k l).
Proof. intros Ht. split; [done | apply (tk_past n l c Ht) | done]. Qed.
End table_facts.

(** ** The desk refines a register of offers *)

Definition config_columns (k : uuid * string) (st : string) : list (nat * string) := [(32, k.2); (16, st)].
Definition mapping_columns (k : uuid * string * string) (st : string) : list (nat * string) := [(32, k.1.2); (64, k.2); (16, st)].
Definition pricing_columns (k : string * string) (st : string) : list (nat * string) := [(32, k.1); (128, k.2); (16, st)].
(** The active offers there have been of providers and mappings; for prices it is enough that there is one. *)
Record offers_past : Type := {
  pa_provider : uuid * string -> provider_value -> Prop;
  pa_mapping : uuid * string * string -> mapping_value -> Prop;
}.
Definition any_price (_ : string * string) (_ : price_value) : Prop := True.
Definition in_past (P : offers_past) (q : desk_step) : Prop :=
  match q with
  | OfferProvider _ t p b x st w => st = "ACTIVE" -> pa_provider P (t, p) {| pv_base_url := b; pv_secret_ref := x; pv_by := w |}
  | OfferMapping _ t p a m st w => st = "ACTIVE" -> forall i, pa_mapping P (t, p, a) {| mv_model := i; mv_provider_model := m; mv_by := w |}
  | _ => True
  end.
Record desk_ok (P : offers_past) (sure : Prop) (s : offers_desk) : Prop := {
  dk_providers : table_ok config_columns (pa_provider P) sure (od_next s) (od_providers s) (od_provider_cache s);
  dk_mappings : table_ok mapping_columns (pa_mapping P) sure (od_next s) (od_mappings s) (od_mapping_cache s);
  dk_prices : table_ok pricing_columns any_price sure (od_next s) (od_prices s) (od_price_cache s);
}.

(** The register: the last active offer of every key. *)
Record register : Type := {
  rg_catalogue : ai_tables;
  rg_providers : gmap (uuid * string) provider_value;
  rg_mappings : gmap (uuid * string * string) mapping_value;
  rg_prices : gmap (string * string) price_value;
}.
Record shows (s : offers_desk) (r : register) : Prop := {
  sh_catalogue : od_catalogue s = rg_catalogue r;
  sh_providers : forall k, offered k (od_providers s) = rg_providers r !! k;
  sh_mappings : forall k, offered k (od_mappings s) = rg_mappings r !! k;
  sh_prices : forall k, offered k (od_prices s) = rg_prices r !! k;
}.
(** Only active offers are kept. *)
Definition note_ {K V} `{Countable K} (st : string) (k : K) (v : V) (m : gmap K V) : gmap K V := if String.eqb st "ACTIVE" then <[k := v]> m else m.

Section refinement.
Variable numeric : pyfloat -> res exc pyfloat.

(** What becomes of the register, [None] when the request is refused; a failed deletion comes after the change. *)
Definition enter (q : desk_step) (r : register) : option register :=
  match q with
  | OfferProvider _ t p b x st w =>
      let v := {| pv_base_url := b; pv_secret_ref := x; pv_by := w |} in
      if fitting ((128, w) :: config_columns (t, p) st)
      then Some (Build_register (rg_catalogue r) (note_ st (t, p) v (rg_providers r)) (rg_mappings r) (rg_prices r)) else None
  | OfferMapping _ t p a m st w =>
      match rg_providers r !! (t, p), get_model_by_name a (rg_catalogue r) with
      | Some _, Ok (Some i) =>
          let v := {| mv_model := i; mv_provider_model := m; mv_by := w |} in
          if fitting ((128, m) :: (128, w) :: mapping_columns (t, p, a) st)
          then Some (Build_register (rg_catalogue r) (rg_providers r) (note_ st (t, p, a) v (rg_mappings r)) (rg_prices r)) else None
      | _, _ => None
      end
  | OfferPrice _ p m u i o c st w =>
      match numeric i, numeric o with
      | Ok i, Ok o =>
          let v := {| cv_unit := u; cv_input := i; cv_output := o; cv_currency := c; cv_by := w |} in
          if fitting (price_columns v ++ pricing_columns (p, m) st)
          then Some (Build_register (rg_catalogue r) (rg_providers r) (rg_mappings r) (note_ st (p, m) v (rg_prices r))) else None
      | _, _ => None
      end
  | ChangeCatalogue c => Some (Build_register c (rg_providers r) (rg_mappings r) (rg_prices r))
  | _ => Some r
  end.
Definition entered (l : list desk_step) (r : register) : register := foldl (fun r q => default r (enter q r)) r l.

Variable P : offers_past.
Variable sure : Prop.
Abbreviation ok := (desk_ok P sure).

(** Reads. *)
Lemma read_config t p s : ok s -> exists o s', get_active_config t p s = (Ok o, s') /\ answers (pa_provider P) sure (t, p) (od_providers s) o /\
  ok s' /\ od_catalogue s' = od_catalogue s /\ od_providers s' = od_providers s /\ od_mappings s' = od_mappings s /\ od_prices s' = od_prices s.
Proof.
  intros Ho. pose proof Ho as [Hp Hm Hc]. unfold get_active_config. rewrite get_bind. destruct (od_provider_cache s !! (t, p)) as [v|] eqn:Ec.
  - exists (Some v), s. split_and!; try done. by eapply answers_cached.
  - unfold mbind_ at 1, mlift. rewrite one_row by apply Hp. pose proof (answers_table _ _ _ _ _ _ (t, p) Hp) as Ha. unfold offered in Ha.
    destruct (latest_row (t, p) "ACTIVE" (od_providers s)) as [e|] eqn:E; simpl in *; [|by exists None, s].
    do 2 eexists. split; [reflexivity|]. split_and!; try done. split; simpl; [|done..]. apply fill_ok; [done|]. unfold offered. by rewrite E.
Qed.
Lemma read_mapping t p a s : ok s -> exists o s', get_active_mapping t p a s = (Ok o, s') /\ answers (pa_mapping P) sure (t, p, a) (od_mappings s) o /\
  ok s' /\ od_catalogue s' = od_catalogue s /\ od_providers s' = od_providers s /\ od_mappings s' = od_mappings s /\ od_prices s' = od_prices s.
Proof.
  intros Ho. pose proof Ho as [Hp Hm Hc]. unfold get_active_mapping. rewrite get_bind. destruct (od_mapping_cache s !! (t, p, a)) as [v|] eqn:Ec.
  - exists (Some v), s. split_and!; try done. by eapply answers_cached.
  - pose proof (answers_table _ _ _ _ _ _ (t, p, a) Hm) as Ha. unfold offered in Ha.
    destruct (latest_row (t, p, a) "ACTIVE" (od_mappings s)) as [e|] eqn:E; simpl in *; [|by exists None, s].
    do 2 eexists. split; [reflexivity|]. split_and!; try done. split; simpl; [done| |done]. apply fill_ok; [done|]. unfold offered. by rewrite E.
Qed.
Lemma read_price p m s : ok s -> exists o s', get_active_pricing p m s = (Ok o, s') /\ answers any_price sure (p, m) (od_prices s) o /\
  ok s' /\ od_catalogue s' = od_catalogue s /\ od_providers s' = od_providers s /\ od_mappings s' = od_mappings s /\ od_prices s' = od_prices s.
Proof.
  intros Ho. pose proof Ho as [Hp Hm Hc]. unfold get_active_pricing. rewrite get_bind. destruct (od_price_cache s !! (p, m)) as [v|] eqn:Ec.
  - exists (Some v), s. split_and!; try done. by eapply answers_cached.
  - pose proof (answers_table _ _ _ _ _ _ (p, m) Hc) as Ha. unfold offered in Ha.
    destruct (latest_row (p, m) "ACTIVE" (od_prices s)) as [e|] eqn:E; simpl in *; [|by exists None, s].
    do 2 eexists. split; [reflexivity|]. split_and!; try done. split; simpl; [done..|]. apply fill_ok; [done|]. unfold offered. by rewrite E.
Qed.

(** The key of a row that is written. *)
Lemma id_unless_run {K V} `{Countable K} (kc : K -> string -> list (nat * string)) pk n l (c : gmap K V) k st s :
  table_ok kc pk sure n l c -> od_next s = n ->
  if fitting (kc k st) then exists i n', id_unless (latest_row k st l) (kc k st) s = (Ok i, set_od_next n' s) /\ (n <= n')%N /\
      match latest_row k st l with None => i = n /\ (n < n')%N | Some _ => (n <= n')%N end
  else exists e, id_unless (latest_row k st l) (kc k st) s = (Err e, s).
Proof.
  intros Ht Hn. destruct (latest_row k st l) as [e|] eqn:E.
  - destruct (latest_row_elem _ _ _ _ E) as (He & <- & <-). rewrite (tk_fits _ _ _ _ _ _ Ht e He). exists 0%N, n. subst n. split_and!; [by destruct s | done | done].
  - simpl. unfold columns. fold (fitting (kc k st)). destruct (fitting (kc k st)); [|by eexists]. exists n, (n + 1)%N. subst n. split_and!; [done | lia | done | lia].
Qed.
Lemma offered_put {K V} `{Countable K} (kc : K -> string -> list (nat * string)) pk n l (c : gmap K V) i k st v (m : gmap K V) :
  table_ok kc pk sure n l c -> (forall k, offered k l = m !! k) -> forall k', offered k' (put_row (latest_row k st l) i k st v l) = note_ st k v m !! k'.
Proof.
  intros Ht Hm k'. unfold offered at 1. rewrite (latest_put kc pk sure n l c) by done. unfold note_. destruct (String.eqb_spec st "ACTIVE") as [->|Hs].
  - destruct (decide (k = k')) as [<-|]; [by rewrite decide_True, lookup_insert_eq by done|]. rewrite decide_False, lookup_insert_ne by naive_solver. apply Hm.
  - rewrite decide_False by naive_solver. apply Hm.
Qed.

Definition refines (q : desk_step) (r : register) (x : res exc unit * offers_desk) : Prop :=
  ok x.2 /\ is_ok x.1 = (if enter q r is Some _ then match write_of q with Failed => false | _ => true end else false) /\
  shows x.2 (default r (enter q r)).
Lemma fitting_app a b : fitting (a ++ b) = fitting a && fitting b.
Proof. apply forallb_app. Qed.
Lemma columns_run l s : columns l s = if fitting l then (Ok tt, s) else (Err (ExternalError "DataError" "value too long for type character varying"), s).
Proof. unfold columns. fold (fitting l). by destruct (fitting l). Qed.

Lemma refines_refused q r e s1 : ok s1 -> shows s1 r -> enter q r = None -> refines q r (Err e, s1).
Proof. intros Ho Hs He. unfold refines. by rewrite He. Qed.
(** The change is made; then the entry is deleted, or not. *)
Lemma refines_written q r r' s1 f :
  (sure -> write_of q = Written) -> enter q r = Some r' -> shows s1 r' -> shows (f s1) r' -> ok (f s1) -> (~ sure -> ok s1) ->
  refines q r (cache_step (write_of q) f s1).
Proof. intros Hw He H1 H2 H3 H4. unfold refines. rewrite He. destruct (write_of q); simpl; split_and!; try done; by apply H4; intros ?%Hw. Qed.
Lemma fitting_cons x l : fitting (x :: l) = fitting [x] && fitting l.
Proof. simpl. by rewrite andb_true_r. Qed.

Lemma refines_provider w t p b x st y s r : let q := OfferProvider w t p b x st y in
  (sure -> write_of q = Written) -> in_past P q -> ok s -> shows s r -> refines q r (upsert_provider_config w t p b x st y s).
Proof.
  intros q Hw Hq Ho Hs. pose proof Ho as [Hp Hm Hc]. pose proof Hs as [S1 S2 S3 S4]. unfold upsert_provider_config, upsert_config. rewrite get_bind.
  unfold mbind_ at 1, mlift. rewrite one_row by apply Hp. unfold mbind_ at 1. rewrite columns_run. cbn [pv_by].
  destruct (fitting [(128, y)]) eqn:F1; [|apply refines_refused; [done..|]; cbn [enter q]; by rewrite fitting_cons, F1].
  pose proof (id_unless_run config_columns _ _ _ _ (t, p) st s Hp eq_refl) as Hid. change [(32, p); (16, st)] with (config_columns (t, p) st).
  destruct (fitting (config_columns (t, p) st)) eqn:Hf.
  - destruct Hid as (i & n' & Hid & Hle & Hn). rewrite (mbind_run _ _ _ _ _ Hid). unfold mbind_, mmodify. set (v := {| pv_base_url := b |}) in *.
    change w with (write_of q). eapply refines_written; [done | cbn [enter q]; by rewrite fitting_cons, F1, Hf | | | |].
    + split; simpl; [done | by eapply offered_put | done..].
    + split; simpl; [done | by eapply offered_put | done..].
    + split; simpl; [eapply put_ok; [done | done | done | by left | done] | by eapply table_ok_mono..].
    + intros Hns. split; simpl; [eapply put_ok; [done | done | done | by right | done] | by eapply table_ok_mono..].
  - destruct Hid as (e & Hid). rewrite (mbind_run _ _ _ _ _ Hid). apply refines_refused; [done..|]. cbn [enter q]. by rewrite fitting_cons, F1, Hf.
Qed.
Lemma refines_mapping w t p a m st y s r : let q := OfferMapping w t p a m st y in
  (sure -> write_of q = Written) -> in_past P q -> ok s -> shows s r -> refines q r (upsert_model_mapping w t p a m st y s).
Proof.
  intros q Hw Hq Ho Hs. unfold upsert_model_mapping. destruct (read_config t p s Ho) as (o & s1 & Hr & Ha & Ho1 & E1 & E2 & E3 & E4).
  rewrite (mbind_run _ _ _ _ _ Hr). assert (Hs1 : shows s1 r) by (destruct Hs as [S1 S2 S3 S4]; split; rewrite ?E1, ?E2, ?E3, ?E4; done).
  pose proof (as_some _ _ _ _ _ Ha) as Hv. rewrite (sh_providers s r Hs (t, p)) in Hv. pose proof (sh_catalogue s1 r Hs1) as Hcat.
  destruct o as [v|].
  2: { apply refines_refused; [done..|]. cbn [enter q]. destruct (rg_providers r !! (t, p)); [|done]. destruct (proj2 Hv ltac:(by eexists)). done. }
  destruct (proj1 Hv ltac:(by eexists)) as [v' Hv']. clear Hv.
  rewrite get_bind. unfold mbind_ at 1, mlift. rewrite Hcat.
  destruct (get_model_by_name a (rg_catalogue r)) as [[i|]|e] eqn:Hg; [|apply refines_refused; [done..|]; cbn [enter q]; by rewrite Hv', Hg..].
  pose proof Ho1 as [Hp Hm Hc]. pose proof Hs1 as [S1 S2 S3 S4]. unfold upsert_mapping. rewrite get_bind. unfold mbind_ at 1, mlift. rewrite one_row by apply Hm.
  unfold mbind_ at 1. rewrite columns_run. cbn [mv_by mv_provider_model].
  assert (He : forall b1 b2, fitting [(128, m); (128, y)] = b1 -> fitting (mapping_columns (t, p, a) st) = b2 ->
    fitting ((128, m) :: (128, y) :: mapping_columns (t, p, a) st) = b1 && b2) by (intros b1 b2 <- <-; apply (fitting_app [_; _])).
  destruct (fitting [(128, m); (128, y)]) eqn:F1; [|apply refines_refused; [done..|]; cbn [enter q]; by rewrite Hv', Hg, (He _ _ eq_refl eq_refl)].
  pose proof (id_unless_run mapping_columns _ _ _ _ (t, p, a) st s1 Hm eq_refl) as Hid. change [(32, p); (64, a); (16, st)] with (mapping_columns (t, p, a) st).
  destruct (fitting (mapping_columns (t, p, a) st)) eqn:Hf.
  - destruct Hid as (j & n' & Hid & Hle & Hn). rewrite (mbind_run _ _ _ _ _ Hid). unfold mbind_, mmodify.
    set (x := {| mv_model := i |}) in *. assert (Hx : st = "ACTIVE" -> pa_mapping P (t, p, a) x) by (intros ?; by apply Hq).
    change w with (write_of q). eapply refines_written; [done | cbn [enter q]; by rewrite Hv', Hg, (He _ _ eq_refl eq_refl) | | | |].
    + split; simpl; [done | done | by eapply offered_put | done].
    + split; simpl; [done | done | by eapply offered_put | done].
    + split; simpl; [by eapply table_ok_mono | eapply put_ok; [done | done | done | by left | done] | by eapply table_ok_mono].
    + intros Hns. split; simpl; [by eapply table_ok_mono | eapply put_ok; [done | done | done | by right | done] | by eapply table_ok_mono].
  - destruct Hid as (e & Hid). rewrite (mbind_run _ _ _ _ _ Hid). apply refines_refused; [done..|]. cbn [enter q]. by rewrite Hv', Hg, (He _ _ eq_refl eq_refl).
Qed.
Lemma refines_price w p m u i o c st y s r : let q := OfferPrice w p m u i o c st y in
  (sure -> write_of q = Written) -> ok s -> shows s r -> refines q r (upsert_pricing numeric w p m u i o c st y s).
Proof.
  intros q Hw Ho Hs. pose proof Ho as [Hp Hm Hc]. pose proof Hs as [S1 S2 S3 S4]. unfold upsert_pricing. unfold mbind_ at 1, mlift.
  destruct (numeric i) as [ci|] eqn:Hi; [|apply refines_refused; [done..|]; cbn [enter q]; by rewrite Hi].
  unfold mbind_ at 1. destruct (numeric o) as [co|] eqn:Hco; [|apply refines_refused; [done..|]; cbn [enter q]; by rewrite Hi, Hco]. set (v := {| cv_unit := u |}).
  unfold insert_or_update_pricing. rewrite get_bind. unfold mbind_ at 1. rewrite columns_run.
  destruct (fitting (price_columns v)) eqn:F1; [|apply refines_refused; [done..|]; cbn [enter q]; fold v; by rewrite Hi, Hco, fitting_app; fold v; rewrite F1].
  pose proof (id_unless_run pricing_columns _ _ _ _ (p, m) st s Hc eq_refl) as Hid. change [(32, p); (128, m); (16, st)] with (pricing_columns (p, m) st).
  destruct (fitting (pricing_columns (p, m) st)) eqn:Hf.
  - destruct Hid as (j & n' & Hid & Hle & Hn). rewrite (mbind_run _ _ _ _ _ Hid). unfold mbind_, mmodify.
    change w with (write_of q). eapply refines_written; [done | cbn [enter q]; rewrite Hi, Hco, fitting_app; fold v; by rewrite F1, Hf | | | |].
    + split; simpl; [done..| by eapply offered_put].
    + split; simpl; [done..| by eapply offered_put].
    + split; simpl; [by eapply table_ok_mono.. | eapply put_ok; [done | done | done | by left | done]].
    + intros Hns. split; simpl; [by eapply table_ok_mono.. | eapply put_ok; [done | done | done | by right | done]].
  - destruct Hid as (e & Hid). rewrite (mbind_run _ _ _ _ _ Hid). apply refines_refused; [done..|]. cbn [enter q]. rewrite Hi, Hco, fitting_app. fold v. by rewrite F1, Hf.
Qed.

Lemma refines_step q s r : (sure -> write_of q = Written) -> in_past P q -> ok s -> shows s r -> refines q r (take_step numeric q s).
Proof.
  intros Hw Hq Ho Hs. destruct q; [by apply refines_provider | by apply refines_mapping | by apply refines_price | | | | | | |]; unfold refines; simpl.
  - destruct (read_config t p s Ho) as (o & s1 & Hr & _ & Ho1 & E1 & E2 & E3 & E4). rewrite (mbind_run _ _ _ _ _ Hr). split_and!; [done..|].
    destruct Hs as [S1 S2 S3 S4]. split; simpl; by rewrite ?E1, ?E2, ?E3, ?E4.
  - destruct (read_mapping t p a s Ho) as (o & s1 & Hr & _ & Ho1 & E1 & E2 & E3 & E4). rewrite (mbind_run _ _ _ _ _ Hr). split_and!; [done..|].
    destruct Hs as [S1 S2 S3 S4]. split; simpl; by rewrite ?E1, ?E2, ?E3, ?E4.
  - destruct (read_price p m s Ho) as (o & s1 & Hr & _ & Ho1 & E1 & E2 & E3 & E4). rewrite (mbind_run _ _ _ _ _ Hr). split_and!; [done..|].
    destruct Hs as [S1 S2 S3 S4]. split; simpl; by rewrite ?E1, ?E2, ?E3, ?E4.
  - split_and!; [|done | by destruct Hs]. destruct Ho. split; simpl; [by apply expire_ok | done..].
  - split_and!; [|done | by destruct Hs]. destruct Ho. split; simpl; [done | by apply expire_ok | done].
  - split_and!; [|done | by destruct Hs]. destruct Ho. split; simpl; [done.. | by apply expire_ok].
  - split_and!; [by destruct Ho | done | by destruct Hs].
Qed.
Lemma refines_after l s r : (sure -> Forall (fun q => write_of q = Written) l) -> Forall (in_past P) l -> ok s -> shows s r ->
  ok (after_steps numeric l s) /\ shows (after_steps numeric l s) (entered l r).
Proof.
  revert s r. induction l as [|q l IH]; intros s r Hw Hl Ho Hs; [done|]. simpl. apply Forall_cons in Hl as [Hq Hl].
  destruct (refines_step q s r) as (Ho1 & _ & Hs1); [intros H; by apply Hw, Forall_cons in H as [? _] | done..|].
  apply IH; [intros H; by apply Hw, Forall_cons in H as [_ ?] | done..].
Qed.

(** What is active stays active: no request takes an offer back, whatever status it gives. *)
Theorem offers_stay l r k : is_Some (rg_providers r !! k) -> is_Some (rg_providers (entered l r) !! k).
Proof.
  revert r. induction l as [|q l IH]; intros r Hk; [done|]. simpl. apply IH. destruct q; simpl; try done; repeat case_match; simpl; try done.
  unfold note_. destruct (String.eqb st "ACTIVE"); [|done]. destruct (decide ((t, p) = k)) as [<-|]; [rewrite lookup_insert_eq | rewrite lookup_insert_ne by done]; eauto.
Qed.
End refinement.

(** The desk refines the register while deletions are done: whatever is offered, read, cached and expires in whatever order, a request
    is accepted exactly when the register accepts it, and reads, through the caches or not, answer with the last active offer of the key. *)
Theorem offers_refined numeric P l s r :
  desk_ok P True s -> shows s r -> Forall (in_past P) l -> Forall (fun q => write_of q = Written) l ->
  let s' := after_steps numeric l s in let r' := entered numeric l r in
  (forall q, in_past P q -> write_of q = Written -> is_ok (take_step numeric q s').1 = if enter numeric q r' is Some _ then true else false) /\
  (forall t p, (get_active_config t p s').1 = Ok (rg_providers r' !! (t, p))) /\
  (forall t p a, (get_active_mapping t p a s').1 = Ok (rg_mappings r' !! (t, p, a))) /\
  (forall p m, (get_active_pricing p m s').1 = Ok (rg_prices r' !! (p, m))).
Proof.
  intros Ho Hs Hl Hw s' r'. destruct (refines_after numeric P True l s r (fun _ => Hw) Hl Ho Hs) as [Ho' Hs']. fold s' r' in Ho', Hs'. split_and!.
  - intros q Hq Hwq. destruct (refines_step numeric P True q s' r' (fun _ => Hwq) Hq Ho' Hs') as (_ & -> & _). by rewrite Hwq.
  - intros t p. destruct (read_config P True t p s' Ho') as (o & ? & -> & Ha & _). simpl. by rewrite (as_sure _ _ _ _ _ Ha I), (sh_providers _ _ Hs').
  - intros t p a. destruct (read_mapping P True t p a s' Ho') as (o & ? & -> & Ha & _). simpl. by rewrite (as_sure _ _ _ _ _ Ha I), (sh_mappings _ _ Hs').
  - intros p m. destruct (read_price P True p m s' Ho') as (o & ? & -> & Ha & _). simpl. by rewrite (as_sure _ _ _ _ _ Ha I), (sh_prices _ _ Hs').
Qed.

(** ** The selection of a provider *)

Section selection.
Context {txt W : Type}.
Variable numeric : pyfloat -> res exc pyfloat.

(** What a model call reads at a desk. *)
Definition config_at (s : offers_desk) (t : uuid) (p : string) : option (option string * option string) :=
  match (get_active_config t p s).1 with Ok (Some v) => Some (pv_base_url v, pv_secret_ref v) | _ => None end.
Definition mapping_at (s : offers_desk) (t : uuid) (p a : string) : option string :=
  match (get_active_mapping t p a s).1 with Ok (Some v) => Some (mv_provider_model v) | _ => None end.
Definition price_at (s : offers_desk) (p m : string) : M (spend txt) (option LLMPricing) :=
  let* o := mlift (get_active_pricing p m s).1 in mret ((fun v => {| input_cost_per_1k := cv_input v; output_cost_per_1k := cv_output v |}) <$> o).

(** The active offers of a register and of the steps that follow. *)
Definition offers_of (r : register) (l : list desk_step) : offers_past := {|
  pa_provider k v := rg_providers r !! k = Some v \/
    exists w, OfferProvider w k.1 k.2 (pv_base_url v) (pv_secret_ref v) "ACTIVE" (pv_by v) ∈ l;
  pa_mapping k v := rg_mappings r !! k = Some v \/
    exists w, OfferMapping w k.1.1 k.1.2 k.2 (mv_provider_model v) "ACTIVE" (mv_by v) ∈ l |}.
Lemma offers_of_steps r l : Forall (in_past (offers_of r l)) l.
Proof using.
  apply Forall_forall. intros q Hq. destruct q; simpl; try done; intros ->; [|intros i]; right; by exists w.
Qed.
Lemma offers_of_start r l sure s : desk_ok (offers_of r []) sure s -> desk_ok (offers_of r l) sure s.
Proof using.
  assert (H1 : forall k v, pa_provider (offers_of r []) k v -> pa_provider (offers_of r l) k v) by (intros k v [?|[w Hw%not_elem_of_nil]]; [by left | done]).
  assert (H2 : forall k v, pa_mapping (offers_of r []) k v -> pa_mapping (offers_of r l) k v) by (intros k v [?|[w Hw%not_elem_of_nil]]; [by left | done]).
  intros [[A1 A2 A3 A4 A5] [B1 B2 B3 B4 B5] C]. split; [| |done]; split; try done; [eauto | | eauto |].
  - intros k v Hv. destruct (A5 k v Hv) as (? & ? & ?). eauto.
  - intros k v Hv. destruct (B5 k v Hv) as (? & ? & ?). eauto.
Qed.

End selection.

(** ** A concrete desk *)

Module tariff.
Definition kept_ (x : pyfloat) : res exc pyfloat := Ok x.
Definition no_offers : offers_desk := {| od_next := 1; od_catalogue := switchboard.opening; od_providers := []; od_mappings := []; od_prices := [];
  od_provider_cache := ∅; od_mapping_cache := ∅; od_price_cache := ∅ |}.
Definition blank_register : register := {| rg_catalogue := switchboard.opening; rg_providers := ∅; rg_mappings := ∅; rg_prices := ∅ |}.
Lemma table_ok_nil {K V} `{Countable K} (kc : K -> string -> list (nat * string)) pk sure n : table_ok kc pk sure n [] (∅ : gmap K V).
Proof. split; [split; [constructor | by intros e ?%not_elem_of_nil] | simpl; lia | by intros e ?%not_elem_of_nil | done | done]. Qed.
Lemma no_offers_ok P sure : desk_ok P sure no_offers /\ shows no_offers blank_register.
Proof. split; [split; apply table_ok_nil | done]. Qed.
Definition first_offers : list desk_step :=
  [OfferProvider Written 7 "openai" None (Some "key") "ACTIVE" "admin"; OfferMapping Written 7 "openai" "gpt" "gpt-1" "ACTIVE" "admin";
   OfferPrice Written "openai" "gpt-1" "tokens" (FFin 1 0) (FFin 1 1) "USD" "ACTIVE" "admin"; ReadConfig 7 "openai"].
Definition new_key (w : cache_write) : list desk_step :=
  first_offers ++ [OfferProvider w 7 "openai" (Some "http://here") (Some "other") "ACTIVE" "admin"].
Lemma all_written : Forall (fun q => write_of q = Written) (new_key Written).
Proof. repeat constructor. Qed.
Lemma offers_refined_witness :
  (get_active_config 7 "openai" (after_steps kept_ (new_key Written) no_offers)).1 =
    Ok (Some {| pv_base_url := Some "http://here"; pv_secret_ref := Some "other"; pv_by := "admin" |}).
Proof.
  destruct (offers_refined kept_ (offers_of blank_register (new_key Written)) (new_key Written) no_offers blank_register (proj1 (no_offers_ok _ _))
    (proj2 (no_offers_ok (offers_of blank_register []) True)) (offers_of_steps _ _) all_written) as (_ & H & _).
  rewrite H. vm_compute. reflexivity.
Defined.
Definition env_ : llm_env unit unit := {| lx_spend := {| sp_redis := empty_redis; sp_costs := ∅ |}; lx_store := empty_store; lx_world := tt |}.
(** The deletion after a change of the key is lost: calls go to the old address with the old key until the entry expires. *)
Example old_key_used :
  let s := after_steps kept_ (new_key Lost) no_offers in let later := after_steps kept_ [ExpireConfig (7%N, "openai")] s in
  config_at s 7 "openai" = Some (None, Some "key") /\ config_at later 7 "openai" = Some (Some "http://here", Some "other").
Proof. vm_compute. split; reflexivity. Qed.
Lemma offers_stay_witness : is_Some (rg_providers (entered kept_ (new_key Written) (entered kept_ first_offers blank_register)) !! (7%N, "openai")).
Proof. apply offers_stay. by eexists. Defined.
(** A provider that is set to inactive goes on being used. *)
Example inactive_provider_used :
  let s := after_steps kept_ (first_offers ++ [OfferProvider Written 7 "openai" None None "INACTIVE" "admin"]) no_offers in
  length (od_providers s) = 2 /\ is_Some (config_at s 7 "openai").
Proof. vm_compute. split; [done | by eexists]. Qed.
(** The request allows names of 64 characters, the column 32. *)
Example long_name_fails :
  (take_step kept_ (OfferProvider Written 7 "a-provider-with-a-rather-long-name" None None "ACTIVE" "admin") no_offers).1 =
  Err (ExternalError "DataError" "value too long for type character varying").
Proof. by vm_compute. Qed.
(** A mapping needs an active provider and an entry of the catalogue. *)
Example mapping_needs_provider :
  (take_step kept_ (OfferMapping Written 7 "openai" "gpt" "gpt-1" "ACTIVE" "admin") no_offers).1 = Err (DomainValidationException "llm_provider_config_not_active") /\
  (take_step kept_ (OfferMapping Written 7 "openai" "other" "gpt-1" "ACTIVE" "admin") (after_steps kept_ first_offers no_offers)).1 =
    Err (DomainValidationException "model_catalog_entry_required_for_llm_model_mapping").
Proof. by vm_compute. Qed.
End tariff.
