(* ===== verification/SlotSchema.v ===== *)
(** * SlotSchema: the schema a model fills the parameters of a tool with

    [src/src/domain/llm/services/structured_output_schema_composer.py]: the output schema of the prompt for slot filling, with the request
    schema of the selected tool in it, in the strict form in which every property is required and optional ones may be null. *)

From stdpp Require Import sorting.
From S2P Require Import Prelude.
From S2P Require Import Errors.
From S2P Require Import PyValue.
From S2P Require Import Sorting.
From S2P Require Import Store.
From S2P Require Import NodeStep.
From S2P Require Import ToolNodes.

Section composer.
Variable uuid_parse : string -> option uuid.
Variable py_str : pyval -> string.
(** [tools_repository.get_tool_config]: the configuration of the row. *)
Variable get_tool_config : uuid -> option pyval.

(** A dictionary of rows has no key 0. *)
Definition extract_tool_config_uuid_from_execution_context (c : ExecutionContext) : res exc (option uuid) :=
  match or_else (get_node_output ToolResolver c) (PDict []) with
  | PDict selection =>
      let rows := or_else (dict_getv "result" selection) (PList []) in
      if negb (truthy rows) then Ok None
      else
        match rows with
        | PList (PDict first :: _) =>
            match or_else (dict_getv "selected_tool" first) (PDict []) with
            | PDict selected =>
                let id := dict_getv "tool_config_id" selected in
                Ok (if truthy id then uuid_parse (py_str id) else None)
            | _ => Ok None
            end
        | PDict _ => Err PyKeyError
        | _ => Ok None
        end
  | _ => Ok None
  end.

Definition load_request_schema_for_tool_config (i : uuid) : pydict :=
  default [] (config ← get_tool_config i ≫= as_dict; as_dict (dict_getv "request_schema" config)).

Definition _optional_param_schema_allowing_null (v : pyval) : pyval := PDict [("anyOf", PList [v; PDict [("type", PStr "null")]])].
Definition build_strict_slot_params_schema (request : pydict) : pydict :=
  let raw := default [] (as_dict (dict_getv "properties" request)) in
  let required := match dict_getv "required" request with PList l => py_str <$> l | _ => [] end in
  let keys := sorted_by String.le id raw.*1 in
  [("type", PStr "object"); ("additionalProperties", PBool false);
   ("properties", PDict ((fun k => (k, let v := dict_getv k raw in if bool_decide (k ∈ required) then v else _optional_param_schema_allowing_null v)) <$> keys));
   ("required", PList (PStr <$> keys))].

Definition extract_slot_filler_result_item_schema (root : pydict) : option pydict :=
  properties ← as_dict (dict_getv "properties" root);
  result ← as_dict (dict_getv "result" properties);
  as_dict (dict_getv "items" result).
Definition apply_strict_required_keys_to_object_schema (d : pydict) : pydict :=
  match dict_getv "properties" d with
  | PDict ((_ :: _) as p) => dict_set "additionalProperties" (PBool false) (dict_set "required" (PList (PStr <$> p.*1)) d)
  | _ => d
  end.

(** The properties of an item with the parameters of the tool. *)
Definition slot_properties (top request : pydict) : pydict :=
  let p := dict_set "params" (PDict (build_strict_slot_params_schema request)) top in
  match dict_getv "missing_fields" p with
  | PDict container =>
      match dict_getv "items" container with
      | PDict item => dict_set "missing_fields" (PDict (dict_set "items" (PDict (apply_strict_required_keys_to_object_schema item)) container)) p
      | _ => p
      end
  | _ => p
  end.
(** [root["properties"]["result"]["items"] = item], in place. *)
Definition put_item (item root : pydict) : pydict :=
  match dict_getv "properties" root with
  | PDict properties =>
      match dict_getv "result" properties with
      | PDict result => dict_set "properties" (PDict (dict_set "result" (PDict (dict_set "items" (PDict item) result)) properties)) root
      | _ => root
      end
  | _ => root
  end.

Definition compose_for_slot_filling (c : ExecutionContext) (prompt_schema : pydict) : res exc pydict :=
  let! tool := extract_tool_config_uuid_from_execution_context c in
  match tool with
  | None => Ok prompt_schema
  | Some i =>
      match extract_slot_filler_result_item_schema prompt_schema with
      | Some ((_ :: _) as item) =>
          match dict_getv "properties" item with
          | PDict top =>
              let item := dict_set "properties" (PDict (slot_properties top (load_request_schema_for_tool_config i))) item in
              Ok (put_item (apply_strict_required_keys_to_object_schema item) prompt_schema)
          | _ => Ok prompt_schema
          end
      | _ => Ok prompt_schema
      end
  end.
End composer.

(** ** What is composed *)

Section facts.
Variable uuid_parse : string -> option uuid.
Variable py_str : pyval -> string.
Variable get_tool_config : uuid -> option pyval.

(** Every property of an object schema is required and no other is allowed. *)
Definition strict (d : pydict) : Prop :=
  dict_getv "additionalProperties" d = PBool false /\
  exists p, dict_getv "properties" d = PDict p /\ dict_getv "required" d = PList (PStr <$> p.*1).

Lemma apply_strict_is_strict d p : dict_getv "properties" d = PDict p -> p <> [] -> strict (apply_strict_required_keys_to_object_schema d).
Proof.
  intros Hp Hne. unfold apply_strict_required_keys_to_object_schema. rewrite Hp. destruct p as [|x p]; [done|]. split; [apply dict_getv_set_eq|].
  exists (x :: p). rewrite !(dict_getv_set_ne "properties"), Hp by done. by rewrite dict_getv_set_ne, dict_getv_set_eq by done.
Qed.
Lemma getv_map (f : string -> pyval) k l : k ∈ l -> dict_getv k ((fun k => (k, f k)) <$> l) = f k.
Proof.
  unfold dict_getv. induction l as [|x l IH]; [by intros ?%not_elem_of_nil|]. simpl. destruct (String.eqb_spec k x) as [<-|Hne]; [done|].
  intros [->|Hk]%elem_of_cons; [done|]. by apply IH.
Qed.

(** The schema of the parameters is strict; its properties are the request's in sorted order, a required one as it is, another one or null. *)
Lemma params_strict request :
  let params := build_strict_slot_params_schema py_str request in
  let raw := default [] (as_dict (dict_getv "properties" request)) in
  strict params /\
  exists p, dict_getv "properties" params = PDict p /\ p.*1 ≡ₚ raw.*1 /\ StronglySorted String.le p.*1 /\
    forall k, k ∈ raw.*1 -> dict_getv k p =
      (if bool_decide (k ∈ match dict_getv "required" request with PList l => py_str <$> l | _ => [] end) then dict_getv k raw
       else PDict [("anyOf", PList [dict_getv k raw; PDict [("type", PStr "null")]])]).
Proof.
  intros params raw. unfold params, build_strict_slot_params_schema. fold raw. set (keys := sorted_by String.le id raw.*1).
  match goal with |- context [PDict (?f <$> keys)] => set (p := f <$> keys); assert (Hk : p.*1 = keys) by (unfold p; rewrite <- list_fmap_compose; apply list_fmap_id) end.
  split; [split; [done|]; exists p; split; [done|]; by rewrite Hk|]. exists p. split_and!; [done | rewrite Hk; apply sorted_by_perm | rewrite Hk |].
  - apply (sorted_by_sorted String.le id).
  - intros k Hin. unfold p. rewrite (getv_map (fun k => _)); [|unfold keys; by rewrite elem_of_sorted_by]. done.
Qed.

Lemma put_item_get item root item0 :
  extract_slot_filler_result_item_schema root = Some item0 ->
  extract_slot_filler_result_item_schema (put_item item root) = Some item /\ forall k, k <> "properties" -> dict_getv k (put_item item root) = dict_getv k root.
Proof.
  unfold extract_slot_filler_result_item_schema, put_item. destruct (dict_getv "properties" root) as [| | | | | |p|]; try done. simpl.
  destruct (dict_getv "result" p) as [| | | | | |r|]; try done. simpl. intros _. rewrite !dict_getv_set_eq. simpl. rewrite dict_getv_set_eq. simpl. rewrite dict_getv_set_eq.
  split; [done|]. intros k Hk. by rewrite dict_getv_set_ne.
Qed.
Lemma slot_properties_params top request :
  dict_getv "params" (slot_properties py_str top request) = PDict (build_strict_slot_params_schema py_str request) /\ slot_properties py_str top request <> [].
Proof.
  unfold slot_properties. set (v := PDict _). set (p := dict_set "params" v top).
  assert (Hp : dict_getv "params" p = v) by apply dict_getv_set_eq. assert (Hne : forall q, dict_getv "params" q = v -> q <> []) by by intros q Hq ->.
  destruct (dict_getv "missing_fields" p) as [| | | | | |container|]; auto. destruct (dict_getv "items" container); auto.
  split; [|apply Hne]; by rewrite dict_getv_set_ne.
Qed.

(** What is composed: either the schema of the prompt, or that schema whose item is strict and has the parameters of the selected tool, in
    strict form, and which is the same elsewhere. *)
Theorem slot_schema_strict c schema out :
  compose_for_slot_filling uuid_parse py_str get_tool_config c schema = Ok out ->
  out = schema \/
  exists i item, extract_tool_config_uuid_from_execution_context uuid_parse py_str c = Ok (Some i) /\
    extract_slot_filler_result_item_schema out = Some item /\ strict item /\
    (exists p, dict_getv "properties" item = PDict p /\
       dict_getv "params" p = PDict (build_strict_slot_params_schema py_str (load_request_schema_for_tool_config get_tool_config i))) /\
    strict (build_strict_slot_params_schema py_str (load_request_schema_for_tool_config get_tool_config i)) /\
    forall k, k <> "properties" -> dict_getv k out = dict_getv k schema.
Proof.
  unfold compose_for_slot_filling. intros (o & Ho & H)%rbind_ok. destruct o as [i|]; [|injection H as <-; by left].
  destruct (extract_slot_filler_result_item_schema schema) as [[|x item0]|] eqn:Ei; [injection H as <-; by left | | injection H as <-; by left].
  set (it := x :: item0) in *. destruct (dict_getv "properties" it) as [| | | | | |top|]; try (injection H as <-; by left). injection H as <-. right.
  set (request := load_request_schema_for_tool_config get_tool_config i). destruct (slot_properties_params top request) as [Hp Hne].
  set (q := slot_properties py_str top request) in *. set (item := apply_strict_required_keys_to_object_schema (dict_set "properties" (PDict q) it)).
  destruct (put_item_get item schema _ Ei) as [H1 H2]. exists i, item. split_and!; [done | done | | | apply params_strict | done].
  - exact (apply_strict_is_strict (dict_set "properties" (PDict q) it) q (dict_getv_set_eq "properties" (PDict q) it) Hne).
  - exists q. split; [|done]. unfold item, apply_strict_required_keys_to_object_schema.
    rewrite (dict_getv_set_eq "properties" (PDict q) it : dict_getv "properties" (dict_set "properties" (PDict q) it) = _).
    destruct q as [|y q]; [done|]. rewrite (dict_getv_set_ne "properties" "additionalProperties"), (dict_getv_set_ne "properties" "required") by done. apply dict_getv_set_eq.
Qed.
End facts.

(** ** A concrete tool *)

Module slots.
Definition read_id (s : string) : option uuid := match s with "5" => Some 5%N | _ => None end.
Definition text_of (v : pyval) : string := match v with PStr s => s | _ => "" end.
Definition order_config (_ : uuid) : option pyval :=
  Some (PDict [("request_schema", PDict [("properties", PDict [("size", PStr "int"); ("name", PStr "text")]); ("required", PList [PStr "name"])])]).
Definition chosen (v : pyval) : ExecutionContext := {|
  tenant_id := 1; user_id := "ana"; session_id := 2; input_payload := PNone; flow_run_id := 3; correlation_id := 4; current_node_id := "n"; current_node_run_id := None;
  state := [(node_type_value ToolResolver, PDict [("result", v)])]; memory := []; metadata := []; node_output := [];
  system_prompt := None; system_context := None; context_tools := [] |}.
Definition one_tool : ExecutionContext := chosen (PList [PDict [("selected_tool", PDict [("tool_config_id", PStr "5")])]]).
Definition filler_schema : pydict := [("type", PStr "object"); ("properties", PDict [("result", PDict [("items", PDict [("properties", PDict [])])])])].
Definition composed : res exc pydict := compose_for_slot_filling read_id text_of order_config one_tool filler_schema.
Example composed_params :
  composed = Ok [("type", PStr "object"); ("properties", PDict [("result", PDict [("items", PDict
    [("properties", PDict [("params", PDict [("type", PStr "object"); ("additionalProperties", PBool false);
        ("properties", PDict [("name", PStr "text"); ("size", PDict [("anyOf", PList [PStr "int"; PDict [("type", PStr "null")]])])]);
        ("required", PList [PStr "name"; PStr "size"])])]);
     ("required", PList [PStr "params"]); ("additionalProperties", PBool false)])])])].
Proof. by vm_compute. Qed.
(** Rows in a dictionary are not a list, and their first is not looked for under the handler. *)
Example rows_in_a_dictionary :
  compose_for_slot_filling read_id text_of order_config (chosen (PDict [("0", PNone)])) filler_schema = Err PyKeyError.
Proof. by vm_compute. Qed.
End slots.
