(* ===== verification/Prompts.v ===== *)
(** * Prompts: the prompts of nodes

    [src/src/domain/prompts/services/prompt_service.py] on [src/src/domain/prompts/repositories/prompt_repository.py], and
    [src/src/application/prompts/prompt_resolver.py]: versions of the prompt of a node type, of which one is active, the caches of the
    service's instances, and the text a node sends to the model.

    Prompts belong to no tenant.  The application builds one instance of the service for its routes and others for the runtime, each with
    a cache of its own; an instance is named by a number.  Jinja, [jsonschema] and SHA-256 are parameters, and so is the context of the
    template ([ContextBuilder]).  Times are in seconds. *)

From S2P Require Import Prelude.
From S2P Require Import Errors.
From S2P Require Import PyValue.
From S2P Require Import PyString.
From S2P Require Import Sorting.
From S2P Require Import Effects.
From S2P Require Import Store.
From S2P Require Import NodeStep.
From S2P Require Import ToolNodes.
From S2P Require Import LLMNodes.
From S2P Require Import FlowAuthoring.
From S2P Require Import Versions.
From S2P Require Import Retrieval.
From S2P Require Import SlotSchema.

(** ** The table *)

Record NodePrompt : Type := {
  pm_id : uuid;
  pm_type : string;
  pm_text : string;
  pm_schema : option pydict;
  pm_version : Z;
  pm_hash : string;
  pm_active : bool;
  pm_description : option string;
  pm_by : option string;
}.
(** Rows in the order they were created, and the caches of the instances: the prompt of a node type and when it was read. *)
Record prompt_desk : Type := {
  ps_next : uuid;
  ps_now : Z;
  ps_rows : list NodePrompt;
  ps_caches : gmap (nat * string) (NodePrompt * Z);
}.
Definition set_ps_next v s := Build_prompt_desk v (ps_now s) (ps_rows s) (ps_caches s).
Definition set_ps_now v s := Build_prompt_desk (ps_next s) v (ps_rows s) (ps_caches s).
Definition set_ps_rows v s := Build_prompt_desk (ps_next s) (ps_now s) v (ps_caches s).
Definition set_ps_caches v s := Build_prompt_desk (ps_next s) (ps_now s) (ps_rows s) v.

Abbreviation Q := (M prompt_desk).
Definition prompt_id : Q uuid := fun s => (Ok (ps_next s), set_ps_next (ps_next s + 1)%N s).

(** ** The repository *)

Definition active_rows (t : string) (s : prompt_desk) : list NodePrompt := filter (fun r => pm_type r = t /\ pm_active r = true) (ps_rows s).
Definition get_active_prompt (t : string) : Q (option NodePrompt) := let* s := mget in mlift (one_or_none (active_rows t s)).
Definition prompt_row (i : uuid) (s : prompt_desk) : option NodePrompt := List.find (fun r => (pm_id r =? i)%N) (ps_rows s).
Definition get_prompt_by_id (i : uuid) : Q (option NodePrompt) := let* s := mget in mret (prompt_row i s).

Record NodePromptCreate : Type := {
  nc_type : string;
  nc_text : string;
  nc_input_schema : option pydict;
  nc_schema : option pydict;
  nc_description : option string;
  nc_by : option string;
}.
Definition inactive (r : NodePrompt) : NodePrompt := {|
  pm_id := pm_id r; pm_type := pm_type r; pm_text := pm_text r; pm_schema := pm_schema r; pm_version := pm_version r; pm_hash := pm_hash r; pm_active := false;
  pm_description := pm_description r; pm_by := pm_by r |}.
Definition switched_off (i : uuid) (l : list NodePrompt) : list NodePrompt := (fun r => if (pm_id r =? i)%N then inactive r else r) <$> l.

(** [create_prompt] and [update_prompt]; the input schema has no column. *)
Definition create_prompt (q : NodePromptCreate) (hash : string) : Q NodePrompt :=
  let* old := get_active_prompt (nc_type q) in
  let* i := prompt_id in
  let row := {| pm_id := i; pm_type := nc_type q; pm_text := nc_text q; pm_schema := nc_schema q;
                pm_version := (match old with Some r => pm_version r + 1 | None => 1 end)%Z; pm_hash := hash; pm_active := true;
                pm_description := nc_description q; pm_by := nc_by q |} in
  mmodify (fun s => set_ps_rows ((match old with Some r => switched_off (pm_id r) (ps_rows s) | None => ps_rows s end) ++ [row]) s) ;;*
  mret row.
Record NodePromptUpdate : Type := {
  nu_text : option string;
  nu_schema : option pydict;
  nu_description : option string;
}.
Definition update_prompt (i : uuid) (u : NodePromptUpdate) (hash : string) : Q NodePrompt :=
  let* s := mget in
  match prompt_row i s with
  | None => mraise PyValueError
  | Some old =>
      let* j := prompt_id in
      let row := {| pm_id := j; pm_type := pm_type old;
                    pm_text := (match nu_text u with Some x => if String.eqb x "" then pm_text old else x | None => pm_text old end);
                    pm_schema := (match nu_schema u with Some x => Some x | None => pm_schema old end);
                    pm_version := (pm_version old + 1)%Z; pm_hash := hash; pm_active := true;
                    pm_description := (match nu_description u with Some x => Some x | None => pm_description old end); pm_by := pm_by old |} in
      mmodify (fun s => set_ps_rows (switched_off i (ps_rows s) ++ [row]) s) ;;*
      mret row
  end.
Definition repository_deactivate_prompt (i : uuid) : Q unit := mmodify (fun s => set_ps_rows (switched_off i (ps_rows s)) s).
(** [order_by(version.desc())]. *)
Definition get_prompt_history (t : string) (s : prompt_desk) : list NodePrompt :=
  sorted_by (flip Z.le) pm_version (filter (fun r => pm_type r = t) (ps_rows s)).

(** ** The service *)

Section service.
Variable sha256_hex : string -> string.
(** [Draft202012Validator.check_schema]. *)
Variable check_schema : pydict -> res exc unit.
Definition PROMPT_CACHE_TTL : Z := 3600.

(** [get_prompt] of an instance. *)
Definition is_expired (now : Z) (e : NodePrompt * Z) : bool := (PROMPT_CACHE_TTL <? now - e.2)%Z.
Definition get_prompt (k : nat) (t : string) : Q (option NodePrompt) :=
  let* s := mget in
  match (match ps_caches s !! (k, t) with Some e => if is_expired (ps_now s) e then None else Some e.1 | None => None end) with
  | Some p => mret (Some p)
  | None =>
      let* p := get_active_prompt t in
      match p with
      | Some p => mmodify (fun s => set_ps_caches (<[(k, t) := (p, ps_now s)]> (ps_caches s)) s) ;;* mret (Some p)
      | None => mret None
      end
  end.

(** A [ValidationError] is caught; an invalid schema raises a [SchemaError]. *)
Definition validate_schema (d : option pydict) : res exc bool :=
  match d with
  | None => Ok true
  | Some d => match check_schema d with
              | Ok _ => Ok true
              | Err (ExternalError "ValidationError" _) => Ok false
              | Err e => Err e
              end
  end.
(** [_validate_prompt]; a stored prompt has no input schema. *)
Definition _validate_prompt (p : NodePrompt) : res exc bool :=
  if String.eqb (pm_text p) "" || String.eqb (py_strip (pm_text p)) "" then Ok false else validate_schema (pm_schema p).

(** The event of [create_or_update_prompt] names no flow run, so that nothing is written. *)
Definition create_or_update_prompt (k : nat) (q : NodePromptCreate) : Q NodePrompt :=
  let* existing := get_active_prompt (nc_type q) in
  let* p := (match existing with
             | Some old => update_prompt (pm_id old) {| nu_text := Some (nc_text q); nu_schema := nc_schema q; nu_description := nc_description q |} (sha256_hex (nc_text q))
             | None => create_prompt q (sha256_hex (nc_text q))
             end) in
  let* valid := mlift (_validate_prompt p) in
  if negb valid then mraise (DomainValidationException "prompt_validation_failed")
  else
    mmodify (fun s => set_ps_caches (delete (k, nc_type q) (ps_caches s)) s) ;;*
    mret p.
Definition deactivate_prompt (k : nat) (t : string) : Q unit :=
  let* p := get_active_prompt t in
  match p with
  | Some p => repository_deactivate_prompt (pm_id p) ;;* mmodify (fun s => set_ps_caches (delete (k, t) (ps_caches s)) s)
  | None => mret tt
  end.

(** What happens to the desk. *)
Inductive prompt_step : Type :=
  | Write (k : nat) (q : NodePromptCreate)
  | Remove (k : nat) (t : string)
  | Fetch (k : nat) (t : string)
  | Wait (d : Z).
Definition prompt_do (x : prompt_step) : Q unit :=
  match x with
  | Write k q => create_or_update_prompt k q ;;* mret tt
  | Remove k t => deactivate_prompt k t
  | Fetch k t => get_prompt k t ;;* mret tt
  | Wait d => mmodify (fun s => set_ps_now (ps_now s + d)%Z s)
  end.
Definition prompt_run (l : list prompt_step) (s : prompt_desk) : prompt_desk := foldl (fun s x => (prompt_do x s).2) s l.
End service.

(** ** The text of a template *)

Definition line_feed : string := String (Ascii.ascii_of_nat 10) "".
Definition tab : string := String (Ascii.ascii_of_nat 9) "".
Definition is_blank (c : string) : bool := String.eqb c " " || String.eqb c tab.
Definition is_feed (c : string) : bool := String.eqb c line_feed.

(** [re.sub(r"[ \t]+$", "", text, flags=re.MULTILINE)]. *)
Fixpoint trim_lines (l : list string) : list string :=
  match l with
  | [] => []
  | c :: l' =>
      let r := trim_lines l' in
      if is_blank c && (match r with [] => true | x :: _ => is_feed x end) then r else c :: r
  end.

(** [re.sub(r"\n\s*\n+", "\n\n", text)]: a run of white space with two line feeds keeps what is before the first and after the last of them. *)
Fixpoint before_feed (l : list string) : list string :=
  match l with [] => [] | c :: l' => if is_feed c then [] else c :: before_feed l' end.
Fixpoint after_last_feed (l : list string) : list string :=
  match l with [] => [] | c :: l' => if existsb is_feed l' then after_last_feed l' else if is_feed c then l' else c :: l' end.
Definition feeds (l : list string) : nat := length (List.filter is_feed l).
Definition squash (run : list string) : list string :=
  if (2 <=? feeds run) then before_feed run ++ [line_feed; line_feed] ++ after_last_feed run else run.
Fixpoint squash_runs (run l : list string) : list string :=
  match l with
  | [] => squash (rev run)
  | c :: l' => if is_space c then squash_runs (c :: run) l' else squash (rev run) ++ c :: squash_runs [] l'
  end.

(** [re.sub(r"(# .+?)\s+\n", r"\1\n", text)]: what follows a heading up to the last line feed of the white space after it. *)
Fixpoint spaces (l : list string) : list string := match l with c :: l' => if is_space c then c :: spaces l' else [] | [] => [] end.
Definition blank_end (l : list string) : option (list string) :=
  let w := spaces l in
  match w with
  | _ :: w' => if existsb is_feed w' then Some (after_last_feed w ++ drop (length w) l) else None
  | [] => None
  end.
Fixpoint heading_end (acc l : list string) : option (list string * list string) :=
  match l with
  | [] => None
  | c :: l' =>
      if is_feed c then None
      else match blank_end l' with Some rest => Some (rev (c :: acc), rest) | None => heading_end (c :: acc) l' end
  end.
Fixpoint headings (fuel : nat) (l : list string) : list string :=
  match fuel, l with
  | S fuel, c :: l' =>
      match (if String.eqb c "#" then match l' with b :: t => if String.eqb b " " then heading_end [] t else None | [] => None end else None) with
      | Some (title, rest) => ["#"; " "] ++ title ++ [line_feed] ++ headings fuel rest
      | None => c :: headings fuel l'
      end
  | _, _ => l
  end.
Definition normalize_chars (l : list string) : list string := let l := squash_runs [] (trim_lines l) in headings (length l) l.
Definition _normalize_template (text : string) : string := str_concat (normalize_chars (utf8_chars text)).

(** ** The resolver *)

Definition node_type_of_intent (intent : string) : option NodeType :=
  match intent with
  | "intent_tool_selection" => Some ToolResolver
  | "slot_filling" => Some ToolInputFiller
  | "clarification" => Some QueryClarifier
  | "response_render" => Some ResponseBuilder
  | "fallback_response" => Some HumanFallback
  | "memory_payload_summarize" => Some ContextSummarizer
  | _ => None
  end.
Definition _resolve_node_type (intent : string) (t : option NodeType) : res exc NodeType :=
  match t with
  | Some t => Ok t
  | None => match node_type_of_intent intent with Some t => Ok t | None => Err (DomainValidationException "prompt_intent_not_supported") end
  end.
Definition task_of_node_type (t : NodeType) : option string :=
  match t with
  | IntentClassifier | ToolResolver => Some "intent_selection"
  | ToolInputFiller => Some "slot_filling"
  | QueryClarifier => Some "clarification"
  | ResponseBuilder => Some "response_render"
  | HumanFallback => Some "fallback_response"
  | ContextSummarizer => Some "memory_payload_summarize"
  | _ => None
  end.
Definition _resolve_task_type (intent : string) (t : NodeType) : res exc string :=
  match task_of_node_type t with
  | Some x => Ok x
  | None =>
      match node_type_of_intent intent ≫= task_of_node_type with
      | Some x => Ok x
      | None => Err (DomainValidationException "prompt_intent_not_supported")
      end
  end.

(** The intent that was detected: whatever cannot be read is the empty text. *)
Definition detected_intent (c : ExecutionContext) : pyval :=
  match get_node_output IntentClassifier c with
  | PDict d => match or_else (dict_getv "result" d) (PList []) with
               | PList (PDict first :: _) => or_else (dict_getv "intent_type" first) (PStr "")
               | _ => PStr ""
               end
  | _ => PStr ""
  end.
Definition _build_input_payload (intent : string) (c : ExecutionContext) : res exc pydict :=
  let! input := config_of (input_payload c) in
  let user_input := default (PStr "") (dict_get "user_input" input) in
  if String.eqb intent "response_render" then
    let tool := match get_node_output ToolExecutor c with PDict d => PDict d | _ => PDict [] end in
    Ok [("tool_response", tool); ("original_intent", detected_intent c); ("user_input", user_input)]
  else if String.eqb intent "memory_payload_summarize" then
    let raw := match dict_getv MEMORY_CONTENT_SUMMARIZE_STAGING_KEY (state c) with PDict d => dict_getv "raw" d | _ => PNone end in
    Ok [("user_input", user_input); ("memory_payload_raw", raw)]
  else Ok [("intent", detected_intent c); ("user_input", user_input)].

Definition flags_of (r : node_rights) : AITaskContextFlags := {|
  tf_rag_tenant := allow_rag_tenant r; tf_memory_structured := allow_user_memory_structured r; tf_memory_vector := allow_user_memory_vector r;
  tf_config := rag_config_id r; tf_session := allow_session_context r; tf_memory_write := allow_memory_write r |}.

Section resolver.
Context {W : Type}.
Variable uuid_parse : string -> option uuid.
Variable py_str : pyval -> string.
Variable get_tool_config : uuid -> option pyval.
(** Jinja. *)
Variable render : string -> pydict -> res exc string.
(** [execution_repository.get_node] ([Catalogue]) and [agents_repository.get_agent_version_id_by_node_id] ([Agents]). *)
Variable get_node : uuid -> option node_row.
Variable agent_version_of_node : uuid -> res exc (option uuid).
(** [build_template_context] ([ContextBuilder]), on what is around. *)
Variable build : option uuid -> string -> ExecutionContext -> pydict -> option AITaskContextFlags -> W -> res exc pydict * W.
(** The instance of the prompt service. *)
Variable instance : nat.

Abbreviation V := (M (prompt_desk * W)).
Definition on_prompts {T} (m : Q T) : V T := fun s => let '(r, p) := m s.1 in (r, (p, s.2)).
Definition around {T} (f : W -> res exc T * W) : V T := fun s => let '(r, w) := f s.2 in (r, (s.1, w)).

Definition _load_prompt (t : NodeType) (i : option uuid) : V NodePrompt :=
  let* p := (match i with Some i => on_prompts (get_prompt_by_id i) | None => on_prompts (get_prompt instance (node_type_value t)) end) in
  match p with Some p => mret p | None => mraise (DomainValidationException "prompt_not_found") end.

Definition resolve (intent : string) (c : ExecutionContext) (node : option uuid) (t : option NodeType) (given : option uuid) : V ResolvedPrompt :=
  let* t := mlift (_resolve_node_type intent t) in
  let* task := mlift (_resolve_task_type intent t) in
  let id := match given with Some i => Some i | None => no_prompt <$> (node ≫= get_node) end in
  let* p := _load_prompt t id in
  let* version := mlift (match node with Some n => agent_version_of_node n | None => Ok None end) in
  let flags := flags_of <$> (no_rights <$> (node ≫= get_node)) in
  let* input := mlift (_build_input_payload intent c) in
  let* ctx := around (build version task c input flags) in
  let* text := mlift (render (pm_text p) ctx) in
  let* schema := mlift (match pm_schema p with
                        | Some ((_ :: _) as d) => if String.eqb intent "slot_filling" then let! d := compose_for_slot_filling uuid_parse py_str get_tool_config c d in Ok (Some d)
                                                 else Ok (Some d)
                        | x => Ok x
                        end) in
  mret {| rp_text := _normalize_template text; rp_input_schema := []; rp_output_schema := default [] schema; rp_id := Some (pm_id p);
          rp_version := PInt (pm_version p); rp_hash := PStr (pm_hash p) |}.
End resolver.

(** ** What the table keeps *)

(** A row later: it may have been switched off. *)
Definition later_row (r r' : NodePrompt) : Prop := r' = r \/ r' = inactive r.
Lemma later_row_trans a b c : later_row a b -> later_row b c -> later_row a c.
Proof. intros [->| ->] [->| ->]; unfold later_row; auto. Qed.

Section facts.
Variable sha256_hex : string -> string.
Variable check_schema : pydict -> res exc unit.
Abbreviation do_ := (prompt_do sha256_hex check_schema).
Abbreviation run_ := (prompt_run sha256_hex check_schema).

Record prompts_ok (s : prompt_desk) : Prop := {
  po_ids : NoDup (pm_id <$> ps_rows s) /\ forall r, r ∈ ps_rows s -> (pm_id r < ps_next s)%N;
  po_one : forall t, length (active_rows t s) <= 1;
  po_hash : forall r, r ∈ ps_rows s -> pm_hash r = sha256_hex (pm_text r) /\ pm_text r <> "";
}.
(** Rows stay, under the key they have, and only their activation ends. *)
Definition rows_kept (s s' : prompt_desk) : Prop := forall i r, prompt_row i s = Some r -> exists r', prompt_row i s' = Some r' /\ later_row r r'.
#[local] Instance rows_kept_preorder : PreOrder rows_kept.
Proof.
  split; [intros s i r Hr; exists r; unfold later_row; auto|]. intros a b c H1 H2 i r Hr. destruct (H1 i r Hr) as (r' & Hr' & ?), (H2 i r' Hr') as (r'' & ? & ?).
  eauto using later_row_trans.
Qed.
Abbreviation orderly_ := (Effects.keeps prompts_ok rows_kept).

Lemma switched_off_ids i l : pm_id <$> switched_off i l = pm_id <$> l.
Proof. unfold switched_off. rewrite <- list_fmap_compose. apply list_fmap_ext. intros _ r _. simpl. by destruct (pm_id r =? i)%N. Qed.
Lemma switched_off_elem i l r : r ∈ switched_off i l -> exists r0, r0 ∈ l /\ later_row r0 r.
Proof. intros (r0 & -> & Hr)%list_elem_of_fmap. exists r0. split; [done|]. unfold later_row. destruct (pm_id r0 =? i)%N; auto. Qed.
Lemma row_off i j l : List.find (fun r => (pm_id r =? i)%N) (switched_off j l) = (fun r => if (pm_id r =? j)%N then inactive r else r) <$> List.find (fun r => (pm_id r =? i)%N) l.
Proof.
  unfold switched_off. induction l as [|r l IH]; [done|]. rewrite fmap_cons. simpl.
  assert (E : pm_id (if (pm_id r =? j)%N then inactive r else r) = pm_id r) by by destruct (pm_id r =? j)%N. rewrite E. by destruct (pm_id r =? i)%N.
Qed.
Lemma row_app i l r : (forall x, x ∈ l -> pm_id x <> pm_id r) ->
  List.find (fun r => (pm_id r =? i)%N) (l ++ [r]) = match List.find (fun r => (pm_id r =? i)%N) l with Some x => Some x | None => if (pm_id r =? i)%N then Some r else None end.
Proof. intros _. induction l as [|x l IH]; simpl; [done|]. by destruct (pm_id x =? i)%N. Qed.

(** The active rows of a type when rows of another key are switched off, or the one that is active. *)
Definition active_in (t : string) (l : list NodePrompt) : list NodePrompt := filter (fun r => pm_type r = t /\ pm_active r = true) l.
Lemma active_in_app t l l' : active_in t (l ++ l') = active_in t l ++ active_in t l'.
Proof. apply filter_app. Qed.
Lemma active_in_off_le t i l : length (active_in t (switched_off i l)) <= length (active_in t l).
Proof.
  unfold active_in, switched_off. induction l as [|r l IH]; [done|]. rewrite fmap_cons.
  destruct (decide (pm_type r = t /\ pm_active r = true)) as [Hd|Hd].
  - rewrite (filter_cons_True _ r) by done. simpl. destruct (pm_id r =? i)%N; [rewrite filter_cons_False by (intros [_ ?]; done); lia|].
    rewrite filter_cons_True by done. simpl. lia.
  - rewrite (filter_cons_False _ r) by done. destruct (pm_id r =? i)%N; [rewrite filter_cons_False by (intros [_ ?]; done) | rewrite filter_cons_False by done]; lia.
Qed.
Lemma active_in_off_nil t i l : NoDup (pm_id <$> l) -> (exists r, active_in t l = [r] /\ pm_id r = i) -> active_in t (switched_off i l) = [].
Proof.
  intros Hn (r & Hr & Hi). destruct (active_in t (switched_off i l)) as [|x m] eqn:E; [done|]. exfalso.
  assert (Hx : x ∈ active_in t (switched_off i l)) by (rewrite E; left). apply list_elem_of_filter in Hx as [[Ht Ha] Hx].
  apply list_elem_of_fmap in Hx as (y & -> & Hy). destruct (N.eqb_spec (pm_id y) i) as [|Hne]; [done|]. apply Hne. rewrite <- Hi.
  assert (Hin : y ∈ active_in t l) by by apply list_elem_of_filter. rewrite Hr in Hin. by apply list_elem_of_singleton in Hin as ->.
Qed.

Lemma active_read t s : prompts_ok s -> get_active_prompt t s = (Ok (head (active_rows t s)), s).
Proof.
  intros [_ Ho _]. specialize (Ho t). unfold get_active_prompt. rewrite get_bind. unfold mlift. destruct (active_rows t s) as [|x [|y l]]; simpl in *; [done | done | lia].
Qed.
Definition off (old : option NodePrompt) (l : list NodePrompt) : list NodePrompt := match old with Some r => switched_off (pm_id r) l | None => l end.
Lemma off_elem old l r : r ∈ off old l -> exists r0, r0 ∈ l /\ later_row r0 r.
Proof. destruct old; [apply switched_off_elem|]. intros Hr. exists r. unfold later_row. auto. Qed.
Lemma off_ids old l : pm_id <$> off old l = pm_id <$> l.
Proof. destruct old; [apply switched_off_ids | done]. Qed.
Lemma off_row old i l r : List.find (fun r => (pm_id r =? i)%N) l = Some r -> exists r', List.find (fun r => (pm_id r =? i)%N) (off old l) = Some r' /\ later_row r r'.
Proof.
  intros Hr. destruct old as [o|]; simpl; [rewrite row_off, Hr | rewrite Hr]; simpl; eexists; (split; [done|]); unfold later_row; [destruct (_ =? _)%N|]; auto.
Qed.

(** The active prompt of a type is replaced by a new row. *)
Lemma replaced s row :
  pm_id row = ps_next s -> pm_active row = true -> pm_hash row = sha256_hex (pm_text row) -> pm_text row <> "" -> 
  orderly_ s (set_ps_rows (off (head (active_rows (pm_type row) s)) (ps_rows s) ++ [row]) (set_ps_next (ps_next s + 1)%N s)).
Proof.
  intros Hi Ha Hh Ht Ho. pose proof Ho as [[Hn Hb] Hone Hhash]. set (old := head _). split.
  - split; simpl.
    + rewrite fmap_app, off_ids. split.
      * apply NoDup_app. split_and!; [done | | apply NoDup_singleton]. intros x (r & -> & Hr)%list_elem_of_fmap Hx%list_elem_of_singleton. specialize (Hb r Hr). simpl in Hx. lia.
      * intros r [(r0 & Hr0 & [->| ->])%off_elem| ->%list_elem_of_singleton]%elem_of_app; [specialize (Hb r0 Hr0); simpl; lia.. | lia].
    + intros t. unfold active_rows. simpl. fold (active_in t (off old (ps_rows s) ++ [row])). rewrite active_in_app, length_app.
      destruct (decide (pm_type row = t)) as [<-|Hne].
      * assert (active_in (pm_type row) (off old (ps_rows s)) = []) as ->.
        { specialize (Hone (pm_type row)). unfold old. destruct (active_rows (pm_type row) s) as [|x [|y l]] eqn:E; simpl in *; [exact E | | lia].
          apply active_in_off_nil; [done|]. by exists x. }
        simpl. unfold active_in, filter. simpl. case_decide; simpl; lia.
      * assert (active_in t [row] = []) as -> by (unfold active_in; rewrite filter_cons_False by naive_solver; done). simpl. specialize (Hone t). unfold active_rows in Hone. fold (active_in t (ps_rows s)) in Hone.
        destruct old as [o|]; simpl; [pose proof (active_in_off_le t (pm_id o) (ps_rows s))|]; lia.
    + intros r [(r0 & Hr0 & [->| ->])%off_elem| ->%list_elem_of_singleton]%elem_of_app; [exact (Hhash r0 Hr0).. | by rewrite Hh].
  - intros i r Hr. unfold prompt_row in *. simpl. destruct (off_row old i _ r Hr) as (r' & Hr' & Hl). exists r'. split; [|done].
    rewrite row_app, Hr'; [done|]. intros x (x0 & Hx0 & Hx)%off_elem. specialize (Hb x0 Hx0). destruct Hx as [->| ->]; simpl; lia.
Qed.
Lemma orderly_caches v s : orderly_ s (set_ps_caches v s).
Proof. intros [Hi Ho Hh]. split; [by split|]. intros i r Hr. exists r. unfold later_row. auto. Qed.

Lemma prompt_row_elem i s r : prompt_row i s = Some r -> r ∈ ps_rows s /\ pm_id r = i.
Proof. intros [H1 H2%N.eqb_eq]%List.find_some. by rewrite list_elem_of_In. Qed.
Lemma row_of_elem s r : prompts_ok s -> r ∈ ps_rows s -> prompt_row (pm_id r) s = Some r.
Proof.
  intros [[Hn _] _ _] Hr. unfold prompt_row. revert Hn Hr. induction (ps_rows s) as [|x l IH]; [by intros _ ?%not_elem_of_nil|]. rewrite fmap_cons. intros [Hx Hn]%NoDup_cons.
  simpl. destruct (N.eqb_spec (pm_id x) (pm_id r)) as [He|Hne].
  - intros [->|Hr]%elem_of_cons; [done|]. destruct Hx. rewrite He. by apply list_elem_of_fmap_2.
  - intros [->|Hr]%elem_of_cons; [done|]. by apply IH.
Qed.

(** A prompt that is written. *)
Definition checked (k : nat) (t : string) (p : NodePrompt) : Q NodePrompt :=
  let* valid := mlift (_validate_prompt check_schema p) in
  if negb valid then mraise (DomainValidationException "prompt_validation_failed")
  else mmodify (fun s => set_ps_caches (delete (k, t) (ps_caches s)) s) ;;* mret p.
Lemma orderly_checked k t p : respects orderly_ (checked k t p).
Proof.
  unfold checked. apply respects_bind; [apply _ | apply respects_lift; apply _|]. intros [|]; simpl; [|apply respects_raise; apply _].
  apply respects_bind; [apply _ | | intros; apply respects_ret; apply _]. intros s. apply orderly_caches.
Qed.
(** The row that a write adds. *)
Lemma written k q s : prompts_ok s -> nc_text q <> "" -> exists row,
  create_or_update_prompt sha256_hex check_schema k q s =
    checked k (nc_type q) row (set_ps_rows (off (head (active_rows (nc_type q) s)) (ps_rows s) ++ [row]) (set_ps_next (ps_next s + 1)%N s)) /\
  pm_id row = ps_next s /\ pm_type row = nc_type q /\ pm_active row = true /\ pm_text row = nc_text q /\ pm_hash row = sha256_hex (nc_text q).
Proof.
  intros Ho Hq. unfold create_or_update_prompt. rewrite (mbind_run _ _ _ _ _ (active_read (nc_type q) s Ho)). destruct (head (active_rows (nc_type q) s)) as [old|] eqn:E.
  - assert (Hold : old ∈ active_rows (nc_type q) s) by (destruct (active_rows (nc_type q) s); [done | injection E as ->; left]).
    apply list_elem_of_filter in Hold as [[Ht Ha] Hold]. pose proof (row_of_elem s old Ho Hold) as Hrow. eexists. split.
    { unfold update_prompt. unfold mbind_ at 1 2. unfold mget. rewrite Hrow. cbn [prompt_id mbind_ mmodify mret]. reflexivity. }
    simpl. rewrite (proj2 (String.eqb_neq _ _) Hq). split_and!; congruence.
  - eexists. split; [unfold create_prompt; unfold mbind_ at 1; rewrite (mbind_run _ _ _ _ _ (active_read (nc_type q) s Ho)), E; reflexivity|]. by split_and!.
Qed.
Lemma orderly_write k q : nc_text q <> "" -> respects orderly_ (create_or_update_prompt sha256_hex check_schema k q).
Proof.
  intros Hq s Ho. destruct (written k q s Ho Hq) as (row & -> & Hi & Ht & Ha & Hx & Hh). set (s1 := set_ps_rows _ _).
  assert (Hs1 : orderly_ s s1) by (unfold s1; rewrite <- Ht; apply replaced; congruence). apply (transitivity (R := orderly_) Hs1 (orderly_checked k (nc_type q) row s1) Ho).
Qed.
Lemma orderly_fetch k t : respects orderly_ (get_prompt k t).
Proof.
  intros s Ho. unfold get_prompt. rewrite get_bind. destruct (match ps_caches s !! (k, t) with Some e => _ | None => _ end); [by apply (keeps_refl prompts_ok rows_kept)|].
  rewrite (mbind_run _ _ _ _ _ (active_read t s Ho)). destruct (head (active_rows t s)); [by apply (orderly_caches _ s) | by apply (keeps_refl prompts_ok rows_kept)].
Qed.
Lemma orderly_remove k t : respects orderly_ (deactivate_prompt k t).
Proof.
  intros s Ho. unfold deactivate_prompt. rewrite (mbind_run _ _ _ _ _ (active_read t s Ho)). destruct (head (active_rows t s)) as [p|]; [|by apply (keeps_refl prompts_ok rows_kept)].
  simpl. pose proof Ho as [[Hn Hb] Hone Hhash]. split.
  - split; simpl.
    + rewrite switched_off_ids. split; [done|]. intros r (r0 & Hr0 & [->| ->])%switched_off_elem; by apply Hb in Hr0.
    + intros t'. specialize (Hone t'). pose proof (active_in_off_le t' (pm_id p) (ps_rows s)). unfold active_rows, active_in in *. simpl. lia.
    + intros r (r0 & Hr0 & [->| ->])%switched_off_elem; by apply Hhash in Hr0.
  - intros i r Hr. unfold prompt_row in *. simpl. rewrite row_off, Hr. simpl. eexists. split; [done|]. unfold later_row. destruct (_ =? _)%N; auto.
Qed.
Definition sensible (x : prompt_step) : Prop := match x with Write _ q => nc_text q <> "" | Wait d => (0 <= d)%Z | _ => True end.
Lemma orderly_do x : sensible x -> respects orderly_ (do_ x).
Proof.
  intros Hx. destruct x; simpl in *.
  - apply respects_bind; [apply _ | by apply orderly_write | intros; apply respects_ret; apply _].
  - apply orderly_remove.
  - apply respects_bind; [apply _ | apply orderly_fetch | intros; apply respects_ret; apply _].
  - intros s [Hi Ho Hh]. split; [by split|]. intros i r Hr. exists r. unfold later_row. auto.
Qed.
Lemma orderly_run l s : Forall sensible l -> orderly_ s (run_ l s).
Proof.
  revert s. induction l as [|x l IH]; intros s Hl; [apply (keeps_refl prompts_ok rows_kept)|]. apply Forall_cons in Hl as [Hx Hl]. simpl. etrans; [by apply orderly_do | by apply IH].
Qed.

(** Prompts are frozen: whatever is written, removed and read by whichever instance, a node type has at most one active prompt, the hash of a
    prompt is that of its text, and a prompt keeps key, text, schema, number and hash for ever. *)
Theorem prompts_frozen l s : prompts_ok s -> Forall sensible l -> prompts_ok (run_ l s) /\ rows_kept s (run_ l s).
Proof. intros Ho Hl. by apply orderly_run. Qed.

(** *** Cached prompts *)

Lemma run_snoc l x s : run_ (l ++ [x]) s = (do_ x (run_ l s)).2.
Proof. unfold prompt_run. by rewrite foldl_app. Qed.
Definition same_time (a b : prompt_desk) : Prop := ps_now b = ps_now a.
#[local] Instance same_time_preorder : PreOrder same_time.
Proof. split; [done|]. intros a b c H1 H2. unfold same_time in *. congruence. Qed.
Lemma time_modify f : (forall s, ps_now (f s) = ps_now s) -> respects same_time (mmodify f).
Proof. intros H s. apply H. Qed.
Lemma time_active t : respects same_time (get_active_prompt t).
Proof. done. Qed.
Lemma time_id : respects same_time prompt_id.
Proof. done. Qed.
#[local] Hint Resolve time_active time_id : frame.
#[local] Hint Extern 1 (respects same_time (mmodify _)) => (apply time_modify; intros; reflexivity) : frame.
Lemma time_update i u h : respects same_time (update_prompt i u h).
Proof. intros s. unfold update_prompt. rewrite get_bind. by destruct (prompt_row i s). Qed.
Lemma time_create q h : respects same_time (create_prompt q h).
Proof. unfold create_prompt. frame. Qed.
#[local] Hint Resolve time_update time_create : frame.
Lemma time_write k q : respects same_time (create_or_update_prompt sha256_hex check_schema k q).
Proof.
  unfold create_or_update_prompt. apply respects_bind; [apply _ | apply time_active|]. intros o. apply respects_bind; [apply _ | destruct o; auto with frame|]. intros p.
  apply respects_bind; [apply _ | apply respects_lift; apply _|]. intros [|]; simpl; frame.
Qed.
Lemma time_remove k t : respects same_time (deactivate_prompt k t).
Proof. unfold deactivate_prompt, repository_deactivate_prompt. apply respects_bind; [apply _ | apply time_active|]. intros [p|]; frame. Qed.
Lemma time_fetch k t : respects same_time (get_prompt k t).
Proof.
  intros s. unfold get_prompt. rewrite get_bind. destruct (match ps_caches s !! (k, t) with Some e => _ | None => _ end); [done|]. revert s.
  assert (H : respects same_time (let* p := get_active_prompt t in match p with Some p => mmodify (fun s => set_ps_caches (<[(k, t) := (p, ps_now s)]> (ps_caches s)) s) ;;* mret (Some p) | None => mret None end)).
  { apply respects_bind; [apply _ | apply time_active|]. intros [p|]; frame. }
  exact H.
Qed.
Lemma time_do x s : sensible x -> (ps_now s <= ps_now (do_ x s).2)%Z.
Proof.
  intros Hx. destruct x as [k q|k t|k t|d]; simpl in *; [| | |lia].
  - assert (H : respects same_time (create_or_update_prompt sha256_hex check_schema k q ;;* mret tt)) by (apply respects_bind; [apply _ | apply time_write | intros; apply respects_ret; apply _]).
    rewrite (H s). done.
  - rewrite (time_remove k t s). done.
  - assert (H : respects same_time (get_prompt k t ;;* mret tt)) by (apply respects_bind; [apply _ | apply time_fetch | intros; apply respects_ret; apply _]).
    rewrite (H s). done.
Qed.

(** A cached prompt was the active one when it was read. *)
Definition remembered (l : list prompt_step) (s : prompt_desk) : Prop :=
  forall k t p ts, ps_caches (run_ l s) !! (k, t) = Some (p, ts) ->
    exists l1 l2, l = l1 ++ l2 /\ active_rows t (run_ l1 s) = [p] /\ ps_now (run_ l1 s) = ts.
Definition fewer (a b : prompt_desk) : Prop := ps_caches b ⊆ ps_caches a.
#[local] Instance fewer_preorder : PreOrder fewer.
Proof. split; [intros s; unfold fewer; reflexivity|]. intros a b c H1 H2. unfold fewer in *. by etrans. Qed.
#[local] Hint Extern 1 (respects fewer (mmodify _)) => (intros ?; unfold fewer; first [reflexivity | apply delete_subseteq]) : frame.
Lemma fewer_write k q : respects fewer (create_or_update_prompt sha256_hex check_schema k q).
Proof.
  assert (Ha : forall t, respects fewer (get_active_prompt t)) by (intros t s; unfold fewer; reflexivity).
  unfold create_or_update_prompt. apply respects_bind; [apply _ | apply Ha|]. intros o. apply respects_bind; [apply _ | |].
  - destruct o as [old|]; [intros s; unfold update_prompt, fewer; rewrite get_bind; destruct (prompt_row (pm_id old) s); reflexivity|]. unfold create_prompt.
    apply respects_bind; [apply _ | apply Ha|]. intros o. apply respects_bind; [apply _ | intros s; unfold fewer; reflexivity|]. intros i. frame.
  - intros p. apply respects_bind; [apply _ | apply respects_lift; apply _|]. intros [|]; simpl; frame.
Qed.
Lemma fewer_remove k t : respects fewer (deactivate_prompt k t).
Proof.
  unfold deactivate_prompt, repository_deactivate_prompt. apply respects_bind; [apply _ | intros s; unfold fewer; reflexivity|]. intros [p|]; frame.
Qed.
(** What a step does to the caches. *)
Lemma caches_do x s k t p ts :
  prompts_ok s -> ps_caches (do_ x s).2 !! (k, t) = Some (p, ts) -> ps_caches s !! (k, t) = Some (p, ts) \/ (active_rows t s = [p] /\ ps_now s = ts).
Proof.
  intros Ho. destruct x as [k' q|k' t'|k' t'|d]; simpl.
  - assert (H : respects fewer (create_or_update_prompt sha256_hex check_schema k' q ;;* mret tt)) by (apply respects_bind; [apply _ | apply fewer_write | intros; apply respects_ret; apply _]).
    intros Hc. left. specialize (H s). unfold fewer in H. by eapply lookup_weaken.
  - intros Hc. left. pose proof (fewer_remove k' t' s) as H. unfold fewer in H. by eapply lookup_weaken.
  - unfold get_prompt. unfold mbind_ at 1. rewrite get_bind. destruct (match ps_caches s !! (k', t') with Some e => _ | None => _ end); [by left|].
    rewrite (mbind_run _ _ _ _ _ (active_read t' s Ho)). destruct (active_rows t' s) as [|x l] eqn:E; simpl; [by left|].
    rewrite lookup_insert_Some. intros [[[= <- <-] [= <- <-]]|[_ ?]]; [|by left]. right. split; [|done]. pose proof (po_one s Ho t') as H1. rewrite E in *. destruct l; [done | simpl in H1; lia].
  - by left.
Qed.
Lemma remembered_run l s : prompts_ok s -> ps_caches s = ∅ -> Forall sensible l -> remembered l s.
Proof.
  intros Ho Hc. induction l as [|x l IH] using rev_ind; intros Hl.
  - intros k t p ts H. simpl in H. by rewrite Hc in H.
  - apply Forall_app in Hl as [Hl Hx%Forall_singleton]. intros k t p ts H. rewrite run_snoc in H. destruct (orderly_run l s Hl Ho) as [Ho' _].
    destruct (caches_do x _ k t p ts Ho' H) as [H'|[Ha Ht]].
    + destruct (IH Hl k t p ts H') as (l1 & l2 & -> & ? & ?). exists l1, (l2 ++ [x]). by rewrite app_assoc.
    + by exists l, [x].
Qed.

(** [C38] How stale a prompt may be: the instance that is asked answers with a prompt that was the active one of the node type at most an hour ago,
    and with none only when there is none. *)
Theorem prompt_staleness l s k t :
  prompts_ok s -> ps_caches s = ∅ -> Forall sensible l ->
  match (get_prompt k t (run_ l s)).1 with
  | Ok (Some p) => exists l1 l2, l = l1 ++ l2 /\ active_rows t (run_ l1 s) = [p] /\ (ps_now (run_ l s) - ps_now (run_ l1 s) <= 3600)%Z
  | Ok None => active_rows t (run_ l s) = []
  | Err _ => False
  end.
Proof.
  intros Ho Hc Hl. destruct (orderly_run l s Hl Ho) as [Ho' _]. unfold get_prompt. rewrite get_bind.
  destruct (ps_caches (run_ l s) !! (k, t)) as [[p ts]|] eqn:Ec.
  - unfold is_expired. simpl. destruct (Z.ltb_spec PROMPT_CACHE_TTL (ps_now (run_ l s) - ts)) as [He|He].
    + rewrite (mbind_run _ _ _ _ _ (active_read t _ Ho')). pose proof (po_one _ Ho' t) as H1. destruct (active_rows t (run_ l s)) as [|x [|y m]] eqn:E; simpl in *; [done | | lia].
      exists l, []. rewrite app_nil_r. split_and!; [done | done | lia].
    + simpl. destruct (remembered_run l s Ho Hc Hl k t p ts Ec) as (l1 & l2 & -> & Ha & Ht). exists l1, l2. split_and!; [done | done |]. rewrite Ht. unfold PROMPT_CACHE_TTL in He. lia.
  - rewrite (mbind_run _ _ _ _ _ (active_read t _ Ho')). pose proof (po_one _ Ho' t) as H1. destruct (active_rows t (run_ l s)) as [|x [|y m]] eqn:E; simpl in *; [done | | lia].
    exists l, []. rewrite app_nil_r. split_and!; [done | done | lia].
Qed.
End facts.

(** ** The prompt of a node *)

Section frozen.
Context {W : Type}.
Variable sha256_hex : string -> string.
Variable check_schema : pydict -> res exc unit.
Variable uuid_parse : string -> option uuid.
Variable py_str : pyval -> string.
Variable get_tool_config : uuid -> option pyval.
Variable render : string -> pydict -> res exc string.
Variable get_node : uuid -> option node_row.
Variable agent_version_of_node : uuid -> res exc (option uuid).
Variable build : option uuid -> string -> ExecutionContext -> pydict -> option AITaskContextFlags -> W -> res exc pydict * W.
Variable instance : nat.
Abbreviation resolve_ := (resolve uuid_parse py_str get_tool_config render get_node agent_version_of_node build instance).

(** [C18] A node sends the prompt it was compiled with: whatever happens to the prompts afterwards, what a node that names a prompt resolves to, and
    what is around then, stays the same. *)
Theorem node_prompt_frozen l s w intent c n row t p :
  prompts_ok sha256_hex s -> Forall sensible l -> get_node n = Some row -> prompt_row (no_prompt row) s = Some p ->
  let s' := prompt_run sha256_hex check_schema l s in
  (resolve_ intent c (Some n) t None (s', w)).1 = (resolve_ intent c (Some n) t None (s, w)).1 /\
  (resolve_ intent c (Some n) t None (s', w)).2.2 = (resolve_ intent c (Some n) t None (s, w)).2.2 /\
  forall r x, resolve_ intent c (Some n) t None (s', w) = (Ok r, x) -> rp_id r = Some (no_prompt row) /\ rp_hash r = PStr (pm_hash p) /\
    exists ctx text, render (pm_text p) ctx = Ok text /\ rp_text r = _normalize_template text.
Proof.
  intros Ho Hl Hn Hp s'. destruct (orderly_run sha256_hex check_schema l s Hl Ho) as [_ Hk]. destruct (Hk _ _ Hp) as (p' & Hp' & Hlate). fold s' in Hp'.
  destruct (prompt_row_elem _ _ _ Hp) as [_ Hid].
  assert (Hf : pm_id p' = pm_id p /\ pm_text p' = pm_text p /\ pm_schema p' = pm_schema p /\ pm_version p' = pm_version p /\ pm_hash p' = pm_hash p) by (by destruct Hlate as [->| ->]).
  destruct Hf as (E1 & E2 & E3 & E4 & E5). unfold resolve, _load_prompt, on_prompts, around, get_prompt_by_id, mbind_, mlift, mget, mret, mraise.
  destruct (_resolve_node_type intent t) as [ty|e]; [|done]. destruct (_resolve_task_type intent ty) as [task|e]; [|done]. simpl. rewrite Hn. simpl. rewrite Hp, Hp'. simpl.
  destruct (agent_version_of_node n) as [version|e]; [|done]. destruct (_build_input_payload intent c) as [input|e]; [|done]. simpl.
  destruct (build version task c input (Some (flags_of (no_rights row))) w) as [[ctx|e] w']; [|done]. simpl. rewrite E2, E3.
  destruct (render (pm_text p) ctx) as [text|e] eqn:Er; [|done]. simpl. rewrite E1, E4, E5.
  destruct (match pm_schema p with Some (_ :: _) => _ | _ => _ end) as [schema|e]; [|done]. split_and!; [done..|]. intros r x [= <- _]. simpl.
  split_and!; [by rewrite Hid | done | by exists ctx, text].
Qed.
End frozen.

(** ** What normalisation leaves *)

(** Everything but white space. *)
Definition letters (l : list string) : list string := List.filter (fun c => negb (is_space c)) l.
#[local] Arguments letters : simpl never.
Lemma letters_app a b : letters (a ++ b) = letters a ++ letters b.
Proof. apply List.filter_app. Qed.
Lemma letters_cons c l : letters (c :: l) = if is_space c then letters l else c :: letters l.
Proof. unfold letters. simpl. by destruct (is_space c). Qed.
Lemma blank_space c : is_blank c = true -> is_space c = true.
Proof. unfold is_blank. intros [->%String.eqb_eq| ->%String.eqb_eq]%orb_true_iff; by vm_compute. Qed.
Lemma feed_space c : is_feed c = true -> is_space c = true.
Proof. unfold is_feed. intros ->%String.eqb_eq. by vm_compute. Qed.
Lemma letters_spaces l : Forall (fun c => is_space c = true) l -> letters l = [].
Proof. induction 1 as [|c l Hc _ IH]; [done|]. by rewrite letters_cons, Hc. Qed.

Lemma trim_letters l : letters (trim_lines l) = letters l.
Proof.
  induction l as [|c l IH]; [done|]. cbn [trim_lines]. rewrite (letters_cons c l), <- IH. destruct (is_blank c) eqn:Eb; cbn [andb].
  - rewrite (blank_space c Eb). destruct (trim_lines l) as [|x r]; [done|]. destruct (is_feed x); [done|]. by rewrite letters_cons, (blank_space c Eb).
  - by rewrite letters_cons.
Qed.
Lemma before_feed_incl (P : string -> Prop) l : Forall P l -> Forall P (before_feed l).
Proof. induction 1 as [|c l Hc _ IH]; simpl; [constructor|]. destruct (is_feed c); [constructor | by constructor]. Qed.
Lemma after_last_feed_incl (P : string -> Prop) l : Forall P l -> Forall P (after_last_feed l).
Proof. induction 1 as [|c l Hc Hl IH]; simpl; [constructor|]. destruct (existsb is_feed l); [done|]. destruct (is_feed c); [done | by constructor]. Qed.
Lemma squash_spaces l : Forall (fun c => is_space c = true) l -> Forall (fun c => is_space c = true) (squash l).
Proof.
  intros Hl. unfold squash. destruct (2 <=? feeds l); [|done]. apply Forall_app. split; [by apply before_feed_incl|].
  apply Forall_app. split; [|by apply after_last_feed_incl]. repeat constructor.
Qed.
Lemma squash_letters run l : Forall (fun c => is_space c = true) run -> letters (squash_runs run l) = letters l.
Proof.
  revert run. induction l as [|c l IH]; intros run Hr; simpl.
  - apply letters_spaces, squash_spaces. by apply List.Forall_rev.
  - rewrite letters_cons. destruct (is_space c) eqn:Ec; [apply IH; by constructor|].
    rewrite letters_app, letters_cons, Ec, IH by constructor. rewrite letters_spaces; [done|]. apply squash_spaces. by apply List.Forall_rev.
Qed.
Lemma spaces_split l : exists r, l = spaces l ++ r /\ drop (length (spaces l)) l = r /\ Forall (fun c => is_space c = true) (spaces l).
Proof.
  induction l as [|c l IH]; simpl; [by exists []|]. destruct (is_space c) eqn:Ec; simpl; [|by exists (c :: l)].
  destruct IH as (r & H1 & H2 & H3). exists r. split_and!; [by f_equal | done | by constructor].
Qed.
Lemma blank_end_letters l rest : blank_end l = Some rest -> letters rest = letters l /\ length rest < length l.
Proof.
  unfold blank_end. destruct (spaces_split l) as (r & H1 & H2 & H3). destruct (spaces l) as [|x w] eqn:Es; [done|]. destruct (existsb is_feed w) eqn:Ef; [|done].
  intros [= <-]. cbn [length] in H2. rewrite H2. rewrite H1. split.
  - rewrite !letters_app, (letters_spaces (x :: w)) by done. rewrite letters_spaces; [done | exact (after_last_feed_incl _ (x :: w) H3)].
  - assert (Hl : forall w, existsb is_feed w = true -> length (after_last_feed w) < length w).
    { clear. induction w as [|c w IH]; simpl; [done|]. destruct (existsb is_feed w) eqn:E; [intros _; specialize (IH eq_refl); lia|]. destruct (is_feed c); simpl; [lia | done]. }
    assert (existsb is_feed (x :: w) = true) as H%Hl by (simpl; rewrite Ef; by destruct (is_feed x)). rewrite !length_app. simpl in *. lia.
Qed.
Lemma heading_end_letters acc l title rest : heading_end acc l = Some (title, rest) ->
  letters title ++ letters rest = letters (rev acc) ++ letters l /\ length rest < length l.
Proof.
  revert acc. induction l as [|c l IH]; intros acc; simpl; [done|]. destruct (is_feed c); [done|]. destruct (blank_end l) as [r|] eqn:E.
  - intros [= <- <-]. destruct (blank_end_letters l r E) as [Hr Hlen]. split; [|lia]. rewrite Hr. cbn [rev]. rewrite letters_app, <- app_assoc. f_equal.
    rewrite !letters_cons. by destruct (is_space c).
  - intros H. destruct (IH (c :: acc) H) as [H1 H2]. split; [|lia]. rewrite H1. cbn [rev]. rewrite letters_app, <- app_assoc. f_equal. rewrite !letters_cons. by destruct (is_space c).
Qed.
Lemma headings_letters n l : letters (headings n l) = letters l.
Proof.
  revert l. induction n as [|n IH]; intros [|c l]; try done. cbn [headings].
  destruct (String.eqb_spec c "#") as [->|_]; [|by rewrite !letters_cons, IH]. destruct l as [|b t]; [by rewrite !letters_cons, IH|].
  destruct (String.eqb_spec b " ") as [->|_]; [|by rewrite !(letters_cons "#"), IH]. destruct (heading_end [] t) as [[title rest]|] eqn:E; [|by rewrite !(letters_cons "#"), IH].
  destruct (heading_end_letters [] t title rest E) as [H _]. rewrite !letters_app, IH. simpl. rewrite H. done.
Qed.
(** Normalisation takes away and moves white space only. *)
Theorem normalized_letters l : letters (normalize_chars l) = letters l.
Proof. unfold normalize_chars. rewrite headings_letters, squash_letters by constructor. apply trim_letters. Qed.

(** ** Concrete prompts *)

Module desk.
Definition sha (s : string) : string := "#" +:+ s.
Definition any_schema (_ : pydict) : res exc unit := Ok tt.
Definition no_schema (_ : pydict) : res exc unit := Err (ExternalError "SchemaError" "").
Definition text_ (t x : string) : NodePromptCreate := {| nc_type := t; nc_text := x; nc_input_schema := None; nc_schema := None; nc_description := None; nc_by := None |}.
Definition empty_desk : prompt_desk := {| ps_next := 1; ps_now := 0; ps_rows := []; ps_caches := ∅ |}.
Lemma empty_desk_ok : prompts_ok sha empty_desk.
Proof. split; [split; [constructor | by intros r ?%not_elem_of_nil] | simpl; lia | by intros r ?%not_elem_of_nil]. Qed.
(** Instance 0 serves the routes, instance 1 the runtime. *)
Definition written_twice : list prompt_step :=
  [Write 0 (text_ "HumanFallback" "one"); Fetch 1 "HumanFallback"; Wait 60; Write 0 (text_ "HumanFallback" "two")].
Definition twice : prompt_desk := prompt_run sha any_schema written_twice empty_desk.
Lemma sensible_twice : Forall sensible written_twice.
Proof. repeat (constructor; [simpl; try done; lia|]). constructor. Qed.
Lemma prompts_frozen_witness : prompts_ok sha twice /\ rows_kept empty_desk twice.
Proof. apply (prompts_frozen sha any_schema written_twice empty_desk); [apply empty_desk_ok | apply sensible_twice]. Defined.
Lemma prompt_staleness_witness : exists l1 l2, written_twice = l1 ++ l2 /\ (ps_now twice - ps_now (prompt_run sha any_schema l1 empty_desk) <= 3600)%Z.
Proof.
  pose proof (prompt_staleness sha any_schema written_twice empty_desk 1 "HumanFallback" empty_desk_ok eq_refl sensible_twice) as H.
  vm_compute (get_prompt _ _ _) in H. destruct H as (l1 & l2 & H1 & _ & H2). exists l1, l2. by split.
Defined.
(** The runtime goes on with the old text, which the routes no longer see. *)
Definition seen_by (k : nat) (s : prompt_desk) : option string := match (get_prompt k "HumanFallback" s).1 with Ok (Some p) => Some (pm_text p) | _ => None end.
Example runtime_is_stale : seen_by 1 twice = Some "one" /\ seen_by 0 twice = Some "two".
Proof. by vm_compute. Qed.
(** A prompt that is refused is the active one all the same. *)
Example refused_prompt_is_active :
  let s := prompt_run sha any_schema written_twice empty_desk in
  let '(r, s') := create_or_update_prompt sha any_schema 0 (text_ "HumanFallback" "  ") s in
  r = Err (DomainValidationException "prompt_validation_failed") /\ pm_text <$> active_rows "HumanFallback" s' = ["  "].
Proof. by vm_compute. Qed.
(** An invalid schema is not caught, and its prompt is active too. *)
Example invalid_schema_is_active :
  let q := {| nc_type := "HumanFallback"; nc_text := "x"; nc_input_schema := None; nc_schema := Some [("type", PInt 1)]; nc_description := None; nc_by := None |} in
  let '(r, s') := create_or_update_prompt sha no_schema 0 q empty_desk in
  r = Err (ExternalError "SchemaError" "") /\ pm_text <$> active_rows "HumanFallback" s' = ["x"].
Proof. by vm_compute. Qed.
(** Numbers begin again after a removal. *)
Example numbers_begin_again :
  pm_version <$> ps_rows (prompt_run sha any_schema [Write 0 (text_ "HumanFallback" "one"); Remove 0 "HumanFallback"; Write 0 (text_ "HumanFallback" "two")] empty_desk) = [1%Z; 1%Z].
Proof. by vm_compute. Qed.

(** Node 3 was compiled with the first prompt. *)
Definition node_3 (n : uuid) : option node_row :=
  if (n =? 3)%N then Some {| no_version := 2; no_prompt := 1; no_rights := {| allow_rag_tenant := false; allow_user_memory_structured := false; allow_user_memory_vector := false;
    rag_config_id := None; allow_session_context := false; allow_memory_write := false |}; no_spec := None; no_template := None |} else None.
Definition as_is (text : string) (_ : pydict) : res exc string := Ok text.
Definition no_context (_ : option uuid) (_ : string) (_ : ExecutionContext) (_ : pydict) (_ : option AITaskContextFlags) (w : unit) : res exc pydict * unit := (Ok [], w).
Definition resolved_text (s : prompt_desk) : res exc ResolvedPrompt * (prompt_desk * unit) :=
  resolve slots.read_id slots.text_of slots.order_config as_is node_3 (fun _ => Ok None) no_context 1 "fallback_response" slots.one_tool (Some 3%N) (Some HumanFallback) None (s, tt).
Definition first_prompt : prompt_desk := prompt_run sha any_schema [Write 0 (text_ "HumanFallback" "one")] empty_desk.
Lemma first_prompt_ok : prompts_ok sha first_prompt.
Proof. apply (orderly_run sha any_schema); [|apply empty_desk_ok]. repeat constructor. done. Qed.
Lemma node_prompt_frozen_witness :
  (resolved_text (prompt_run sha any_schema written_twice first_prompt)).1 = (resolved_text first_prompt).1 /\ (match (resolved_text first_prompt).1 with Ok r => Some (rp_text r) | Err _ => None end) = Some "one".
Proof.
  split; [|by vm_compute].
  apply (node_prompt_frozen sha any_schema slots.read_id slots.text_of slots.order_config as_is node_3 (fun _ => Ok None) no_context 1 written_twice first_prompt tt
    "fallback_response" slots.one_tool 3 {| no_version := 2; no_prompt := 1; no_rights := {| allow_rag_tenant := false; allow_user_memory_structured := false;
    allow_user_memory_vector := false; rag_config_id := None; allow_session_context := false; allow_memory_write := false |}; no_spec := None; no_template := None |} (Some HumanFallback)
    {| pm_id := 1; pm_type := "HumanFallback"; pm_text := "one"; pm_schema := None; pm_version := 1; pm_hash := "#one"; pm_active := true; pm_description := None; pm_by := None |});
    [apply first_prompt_ok | apply sensible_twice | reflexivity | reflexivity].
Defined.
(** A heading keeps the line after it, and blank lines are one. *)
Example normalized_text :
  _normalize_template ("# Title  " +:+ line_feed +:+ line_feed +:+ "a" +:+ line_feed +:+ line_feed +:+ line_feed +:+ "b ") =
  "# Title" +:+ line_feed +:+ "a" +:+ line_feed +:+ line_feed +:+ "b".
Proof. by vm_compute. Qed.
End desk.
