(* ===== verification/RagAdmin.v ===== *)
(** * RagAdmin: vector stores, chunking rules and retrieval configurations

    [src/src/domain/rag/services/rag_service.py] on the administrative part of [src/src/domain/rag/repositories/rag_repository.py]: stores and
    chunking rules of a tenant, and configurations with numbers that are validated, published, deprecated and disabled.

    Repository calls are transactions.  A configuration is read through a cache, from which it comes back as it was stored; an entry may
    expire at any time, and the deletion of an entry after a change of its row is taken to succeed.  [pydantic] is a parameter. *)

From stdpp Require Import sorting.
From S2P Require Import Prelude.
From S2P Require Import Errors.
From S2P Require Import PyValue.
From S2P Require Import PyString.
From S2P Require Import Sorting.
From S2P Require Import Effects.
From S2P Require Import Store.
From S2P Require Import FlowAuthoring.
From S2P Require Import AuthoringFacts.
From S2P Require Import Versions.

(** ** Tables *)

Record store_row : Type := {
  sw_tenant : uuid;
  sw_name : string;
  sw_model : string;
  sw_dimension : Z;
  sw_metric : string;
  sw_version : Z;
  sw_active : bool;
}.
Record rule_row : Type := {
  rw_tenant : uuid;
  rw_name : string;
  rw_status : string;
  rw_strategy : string;
  rw_params : pydict;
}.
Record config_columns : Type := {
  cw_tenant : uuid;
  cw_store : uuid;
  cw_rule : uuid;
  cw_corpus : string;
  cw_status : VersionStatus;
  cw_number : version_number;
  cw_hash : option string;
  cw_options : option pydict;
}.
(** Numbers are unique within a tenant. *)
#[global] Instance config_columns_Versioned : Versioned config_columns := {| row_group r := (cw_tenant r, 0%N); row_number := cw_number |}.
Record rag_tables : Type := {
  rt_next : uuid;
  rt_stores : gmap uuid store_row;
  rt_rules : gmap uuid rule_row;
  rt_configs : gmap uuid config_columns;
  rt_cache : gmap uuid config_columns;
  rt_events : list authoring_event;
}.
Definition set_rt_next v s := Build_rag_tables v (rt_stores s) (rt_rules s) (rt_configs s) (rt_cache s) (rt_events s).
Definition set_rt_stores v s := Build_rag_tables (rt_next s) v (rt_rules s) (rt_configs s) (rt_cache s) (rt_events s).
Definition set_rt_rules v s := Build_rag_tables (rt_next s) (rt_stores s) v (rt_configs s) (rt_cache s) (rt_events s).
Definition set_rt_configs v s := Build_rag_tables (rt_next s) (rt_stores s) (rt_rules s) v (rt_cache s) (rt_events s).
Definition set_rt_cache v s := Build_rag_tables (rt_next s) (rt_stores s) (rt_rules s) (rt_configs s) v (rt_events s).
Definition set_rt_events v s := Build_rag_tables (rt_next s) (rt_stores s) (rt_rules s) (rt_configs s) (rt_cache s) v.

Abbreviation Y := (M rag_tables).
Definition table_id : Y uuid := fun s => (Ok (rt_next s), set_rt_next (rt_next s + 1)%N s).
Definition rag_event (tenant : uuid) (resource : string) (id : uuid) (type change principal why : string) : Y unit :=
  mmodify (fun s => set_rt_events (rt_events s ++ [{| ae_tenant := tenant; ae_resource := resource; ae_resource_id := id; ae_version := None;
    ae_type := type; ae_change := change; ae_principal := principal; ae_justification := why |}]) s).
Definition lacking {T} (m : string) : Y T := mraise (NotFoundServiceException m).

(** ** The repository *)

(** A store of a tenant, or of any. *)
Definition get_vector_store (i : uuid) (tenant : option uuid) (s : rag_tables) : option store_row :=
  r ← rt_stores s !! i; if bool_decide (default (sw_tenant r) tenant = sw_tenant r) then Some r else None.
(** By name, and then by identifier. *)
Definition store_before : relation (string * uuid) := lex String.le N.le.
#[global] Instance store_before_dec : RelDecision store_before.
Proof. unfold store_before. apply _. Defined.
Definition stores_of (tenant : uuid) (s : rag_tables) : list (uuid * store_row) :=
  sorted_by store_before (fun kv => (sw_name kv.2, kv.1)) (filter (fun kv => sw_tenant kv.2 = tenant) (map_to_list (rt_stores s))).
Definition insert_store (r : store_row) : Y uuid :=
  let* i := table_id in mmodify (fun s => set_rt_stores (<[i := r]> (rt_stores s)) s) ;;* mret i.

(** [get_rag_config]: through the cache. *)
Definition get_rag_config (i : uuid) : Y (option config_columns) :=
  let* s := mget in
  match rt_cache s !! i with
  | Some r => mret (Some r)
  | None =>
      match rt_configs s !! i with
      | Some r => mmodify (set_rt_cache (<[i := r]> (rt_cache s))) ;;* mret (Some r)
      | None => mret None
      end
  end.
Definition get_chunking_rule (tenant i : uuid) (s : rag_tables) : option rule_row :=
  r ← rt_rules s !! i; if bool_decide (rw_tenant r = tenant) then Some r else None.
Definition rules_of (tenant : uuid) (limit : nat) (s : rag_tables) : list (uuid * rule_row) :=
  take limit (sorted_by String.le (fun kv => rw_name kv.2) (filter (fun kv => rw_tenant kv.2 = tenant) (map_to_list (rt_rules s)))).
(** Names are unique within a tenant. *)
Definition name_taken (tenant : uuid) (name : string) (but : option uuid) (s : rag_tables) : bool :=
  existsb (fun kv => bool_decide (rw_tenant kv.2 = tenant /\ rw_name kv.2 = name /\ Some kv.1 <> but)) (map_to_list (rt_rules s)).
Definition insert_rule (r : rule_row) : Y uuid :=
  let* s := mget in
  let* i := table_id in
  if name_taken (rw_tenant r) (rw_name r) None s then mraise (ExternalError "IntegrityError" "uq_rag_chunking_rule_tenant_name")
  else mmodify (fun s => set_rt_rules (<[i := r]> (rt_rules s)) s) ;;* mret i.
Record RagChunkingRuleUpdate : Type := {
  ru_name : option string;
  ru_status : option string;
  ru_strategy : option string;
  ru_params : option pydict;
}.
Definition with_rule (u : RagChunkingRuleUpdate) (r : rule_row) : rule_row := {|
  rw_tenant := rw_tenant r; rw_name := default (rw_name r) (ru_name u); rw_status := default (rw_status r) (ru_status u);
  rw_strategy := default (rw_strategy r) (ru_strategy u); rw_params := default (rw_params r) (ru_params u) |}.
Definition store_rule (tenant i : uuid) (u : RagChunkingRuleUpdate) : Y (option rule_row) :=
  let* s := mget in
  match get_chunking_rule tenant i s with
  | None => mret None
  | Some r =>
      let r := with_rule u r in
      if name_taken tenant (rw_name r) (Some i) s then mraise (ExternalError "IntegrityError" "uq_rag_chunking_rule_tenant_name")
      else mmodify (set_rt_rules (<[i := r]> (rt_rules s))) ;;* mret (Some r)
  end.

(** [list_rag_configs] and [get_published_rag_config_id_for_vector_store]: the highest number first. *)
Definition configs_of (tenant : uuid) (status_filter : option (list VersionStatus)) (limit : nat) (s : rag_tables) : list (uuid * config_columns) :=
  take limit (filter (fun kv => (match status_filter with None => true | Some l => bool_decide (cw_status kv.2 ∈ l) end) = true) (members (tenant, 0%N) (rt_configs s))).
Definition published_for_store (tenant store : uuid) (s : rag_tables) : option uuid :=
  fst <$> head (filter (fun kv => cw_store kv.2 = store /\ cw_status kv.2 = VS_PUBLISHED) (members (tenant, 0%N) (rt_configs s))).

Record RagConfigCreate : Type := {
  rq_store : uuid;
  rq_rule : uuid;
  rq_corpus : string;
  rq_options : option pydict;
  rq_source : option uuid;
  rq_major : option Z;
  rq_minor : option Z;
  rq_patch : option Z;
}.
(** [create_rag_config] of the repository, which is always given a rule, a corpus and options. *)
Definition insert_config (tenant : uuid) (q : RagConfigCreate) (options : pydict) : Y uuid :=
  let* s := mget in
  let* source := (match rq_source q with
                  | None => mret None
                  | Some v => match rt_configs s !! v with
                              | Some r => if bool_decide (cw_tenant r = tenant) then mret (Some r) else lacking "source_version_not_found"
                              | None => lacking "source_version_not_found"
                              end
                  end) in
  let n := next_number (rq_major q) (rq_minor q) (rq_patch q) (cw_number <$> source) (newest (tenant, 0%N) (rt_configs s)) in
  if bool_decide (get_chunking_rule tenant (rq_rule q) s = None) then lacking "rag_chunking_rule_not_found"
  else
    let* i := table_id in
    if taken (tenant, 0%N) n (rt_configs s) then mraise (ExternalError "IntegrityError" "uq_rag_config_semver")
    else
      mmodify (fun s => set_rt_configs (<[i := {| cw_tenant := tenant; cw_store := rq_store q; cw_rule := rq_rule q; cw_corpus := rq_corpus q; cw_status := VS_DRAFT;
                                                  cw_number := n; cw_hash := source ≫= cw_hash; cw_options := Some options |}]> (rt_configs s)) s) ;;*
      mret i.
Definition with_config_status (st : VersionStatus) (r : config_columns) : config_columns := {|
  cw_tenant := cw_tenant r; cw_store := cw_store r; cw_rule := cw_rule r; cw_corpus := cw_corpus r; cw_status := st; cw_number := cw_number r;
  cw_hash := cw_hash r; cw_options := cw_options r |}.
Definition set_rag_config_status (i : uuid) (st : VersionStatus) : Y unit :=
  let* s := mget in
  match rt_configs s !! i with
  | None => lacking "rag_config_not_found"
  | Some r => mmodify (set_rt_configs (<[i := with_config_status st r]> (rt_configs s))) ;;* mmodify (fun s => set_rt_cache (delete i (rt_cache s)) s)
  end.

(** ** The service *)

Section service.
Variable uuid_parse : string -> option uuid.
(** [RagConfigOptions.model_validate(...).model_dump(mode="json")] and [parse_rag_chunking_rule_params]. *)
Variable parse_options : pydict -> res exc pydict.
Variable parse_rule : pydict -> res exc unit.
Definition rag_uuid (x : string) : Y uuid := mlift (match uuid_parse x with Some i => Ok i | None => Err PyValueError end).

Definition list_vector_stores (tenant : uuid) : Y (list (uuid * store_row)) := let* s := mget in mret (stores_of tenant s).
Definition create_vector_store (r : store_row) : Y uuid := insert_store r.
Definition list_rag_configs (tenant : uuid) (status_filter : option (list VersionStatus)) (limit : nat) : Y (list (uuid * config_columns)) :=
  let* s := mget in mret (configs_of tenant status_filter limit s).

Definition create_rag_config (tenant : uuid) (q : RagConfigCreate) (principal : string) : Y uuid :=
  let* options := mlift (parse_options (default [] (rq_options q))) in
  let* s := mget in
  if bool_decide (get_vector_store (rq_store q) (Some tenant) s = None) then lacking "vector_store_not_found"
  else
    let* i := insert_config tenant q options in
    rag_event tenant "rag_config" i "RAG_CONFIG_CREATED" "CREATE" principal "create rag config" ;;*
    mret i.

(** The configuration of a path, for a tenant. *)
Definition owned_config (tenant : uuid) (config : string) : Y (uuid * config_columns) :=
  let* i := rag_uuid config in
  let* r := get_rag_config i in
  match r with
  | Some r => if bool_decide (cw_tenant r = tenant) then mret (i, r) else lacking "rag_config_not_found"
  | None => lacking "rag_config_not_found"
  end.
Definition reread (i : uuid) : Y config_columns :=
  let* r := get_rag_config i in match r with Some r => mret r | None => lacking "rag_config_not_found" end.
Definition validate_rag_config (tenant : uuid) (config principal : string) : Y config_columns :=
  let* a := owned_config tenant config in
  if negb (bool_decide (cw_status a.2 = VS_DRAFT)) then mraise (ResourceBlockedServiceException "rag_config_not_draft")
  else
    set_rag_config_status a.1 VS_VALIDATED ;;*
    rag_event tenant "rag_config" a.1 "RAG_CONFIG_VALIDATED" "UPDATE" principal "validate rag config" ;;*
    reread a.1.
(** [publish], [deprecate] and [disable]. *)
Definition move_config (from : list VersionStatus) (refusal : string) (to : VersionStatus) (event : string)
    (tenant : uuid) (config principal : string) (c : ChangeRequest) : Y config_columns :=
  let* a := owned_config tenant config in
  if negb (bool_decide (cw_status a.2 ∈ from)) then mraise (ResourceBlockedServiceException refusal)
  else if String.eqb (py_strip (justification c)) "" then mraise (DomainValidationException "justification_required")
  else
    set_rag_config_status a.1 to ;;*
    rag_event tenant "rag_config" a.1 event (change_type c) principal (justification c) ;;*
    reread a.1.
Definition publish_rag_config := move_config [VS_VALIDATED] "rag_config_not_validated" VS_PUBLISHED "RAG_CONFIG_PUBLISHED".
Definition deprecate_rag_config := move_config [VS_PUBLISHED] "rag_config_not_published" VS_DEPRECATED "RAG_CONFIG_DEPRECATED".
Definition disable_rag_config := move_config [VS_PUBLISHED; VS_DEPRECATED] "rag_config_not_published_or_deprecated" VS_DISABLED "RAG_CONFIG_DISABLED".

Definition list_chunking_rules (tenant : uuid) (limit : nat) : Y (list (uuid * rule_row)) := let* s := mget in mret (rules_of tenant limit s).
Definition create_chunking_rule (tenant : uuid) (name status strategy : string) (params : option pydict) (principal : string) : Y uuid :=
  let params := default [] params in
  mlift (parse_rule (dict_set "strategy" (PStr strategy) params)) ;;*
  let* i := insert_rule {| rw_tenant := tenant; rw_name := name; rw_status := status; rw_strategy := strategy; rw_params := params |} in
  rag_event tenant "rag_chunking_rule" i "RAG_CHUNKING_RULE_CREATED" "CREATE" principal "create rag chunking rule" ;;*
  mret i.
Definition update_chunking_rule (tenant : uuid) (rule : string) (u : RagChunkingRuleUpdate) (principal : string) (c : ChangeRequest) : Y rule_row :=
  let* i := rag_uuid rule in
  let* s := mget in
  match get_chunking_rule tenant i s with
  | None => lacking "rag_chunking_rule_not_found"
  | Some r =>
      let next := with_rule u r in
      mlift (parse_rule (dict_set "strategy" (PStr (rw_strategy next)) (rw_params next))) ;;*
      if String.eqb (py_strip (justification c)) "" then mraise (DomainValidationException "justification_required")
      else
        let* updated := store_rule tenant i u in
        match updated with
        | None => lacking "rag_chunking_rule_not_found"
        | Some r => rag_event tenant "rag_chunking_rule" i "RAG_CHUNKING_RULE_UPDATED" (change_type c) principal (justification c) ;;* mret r
        end
  end.

(** The requests of the routes, reads of the runtime, and the expiry of entries. *)
Inductive rag_admin_step : Type :=
  | CreateStore (r : store_row)
  | CreateConfig (tenant : uuid) (q : RagConfigCreate) (principal : string)
  | ValidateConfig (tenant : uuid) (config principal : string)
  | PublishConfig (tenant : uuid) (config principal : string) (c : ChangeRequest)
  | DeprecateConfig (tenant : uuid) (config principal : string) (c : ChangeRequest)
  | DisableConfig (tenant : uuid) (config principal : string) (c : ChangeRequest)
  | CreateRule (tenant : uuid) (name status strategy : string) (params : option pydict) (principal : string)
  | UpdateRule (tenant : uuid) (rule : string) (u : RagChunkingRuleUpdate) (principal : string) (c : ChangeRequest)
  | ReadConfiguration (i : uuid)
  | ExpireConfiguration (i : uuid).
Definition administer (x : rag_admin_step) : Y unit :=
  match x with
  | CreateStore r => create_vector_store r ;;* mret tt
  | CreateConfig t q p => create_rag_config t q p ;;* mret tt
  | ValidateConfig t i p => validate_rag_config t i p ;;* mret tt
  | PublishConfig t i p c => publish_rag_config t i p c ;;* mret tt
  | DeprecateConfig t i p c => deprecate_rag_config t i p c ;;* mret tt
  | DisableConfig t i p c => disable_rag_config t i p c ;;* mret tt
  | CreateRule t n st y d p => create_chunking_rule t n st y d p ;;* mret tt
  | UpdateRule t i u p c => update_chunking_rule t i u p c ;;* mret tt
  | ReadConfiguration i => get_rag_config i ;;* mret tt
  | ExpireConfiguration i => mmodify (fun s => set_rt_cache (delete i (rt_cache s)) s)
  end.
Definition administered (l : list rag_admin_step) (s : rag_tables) : rag_tables := foldl (fun s x => (administer x s).2) s l.
(** On whose behalf configurations and rules change. *)
Definition rag_caller (x : rag_admin_step) : option uuid :=
  match x with
  | ValidateConfig t _ _ | PublishConfig t _ _ _ | DeprecateConfig t _ _ _ | DisableConfig t _ _ _ | UpdateRule t _ _ _ _ => Some t
  | _ => None
  end.
End service.

(** ** The invariant *)

Record rag_tidy (s : rag_tables) : Prop := {
  rt_fresh : (forall i, is_Some (rt_stores s !! i) -> (i < rt_next s)%N) /\ (forall i, is_Some (rt_rules s !! i) -> (i < rt_next s)%N) /\
             (forall i, is_Some (rt_configs s !! i) -> (i < rt_next s)%N);
  rt_numbers : unique_numbers (rt_configs s);
  rt_owner : forall i r, rt_configs s !! i = Some r ->
    sw_tenant <$> rt_stores s !! cw_store r = Some (cw_tenant r) /\ rw_tenant <$> rt_rules s !! cw_rule r = Some (cw_tenant r);
  rt_names : forall i j a b, rt_rules s !! i = Some a -> rt_rules s !! j = Some b -> rw_tenant a = rw_tenant b -> rw_name a = rw_name b -> i = j;
  rt_cached : rt_cache s ⊆ rt_configs s;
}.
Definition config_follows (r r' : config_columns) : Prop := with_config_status VS_DRAFT r' = with_config_status VS_DRAFT r /\ rank (cw_status r) <= rank (cw_status r').
Lemma config_follows_trans a b c : config_follows a b -> config_follows b c -> config_follows a c.
Proof. intros [H1 H2] [H3 H4]. split; [congruence | lia]. Qed.
Lemma config_follows_fields r r' : config_follows r r' -> cw_tenant r' = cw_tenant r /\ cw_store r' = cw_store r /\ cw_rule r' = cw_rule r /\ cw_number r' = cw_number r.
Proof. unfold config_follows, with_config_status. by intros [[= ] _]. Qed.

Section facts.
Variable uuid_parse : string -> option uuid.
Variable parse_options : pydict -> res exc pydict.
Variable parse_rule : pydict -> res exc unit.
(** The tenants that may have asked. *)
Variable may : uuid -> Prop.

Record rag_grows (s s' : rag_tables) : Prop := {
  rx_stores : rt_stores s ⊆ rt_stores s';
  rx_rules : forall i r, rt_rules s !! i = Some r -> exists r', rt_rules s' !! i = Some r' /\ rw_tenant r' = rw_tenant r /\ (r' = r \/ may (rw_tenant r));
  rx_configs : forall i r, rt_configs s !! i = Some r -> exists r', rt_configs s' !! i = Some r' /\ config_follows r r' /\ (r' = r \/ may (cw_tenant r));
  rx_events : rt_events s `prefix_of` rt_events s';
}.
#[global] Instance rag_grows_preorder : PreOrder rag_grows.
Proof.
  split.
  - intros s. split; [done | intros i r Hr; exists r; auto | | done]. intros i r Hr. exists r. split_and!; [done | done | by left].
  - intros a b c [H1 H2 H3 H4] [K1 K2 K3 K4]. split; [by etrans | | | by etrans].
    + intros i r Hr. destruct (H2 i r Hr) as (r' & Hr' & Ht & Hm), (K2 i r' Hr') as (r'' & ? & Ht' & Hm'). exists r''. split_and!; [done | congruence|].
      destruct Hm' as [->|Hm']; [done | right; by rewrite <- Ht].
    + intros i r Hr. destruct (H3 i r Hr) as (r' & Hr' & Hf & Hm), (K3 i r' Hr') as (r'' & ? & Hf' & Hm'). exists r''. split_and!; [done | by eapply config_follows_trans|].
      destruct (config_follows_fields _ _ Hf) as (Ht & _). destruct Hm' as [->|Hm']; [done | right; by rewrite <- Ht].
Qed.
Abbreviation tidily := (keeps rag_tidy rag_grows).
Lemma tidily_refl s : tidily s s.
Proof. reflexivity. Qed.

(** Changes of one table. *)
Lemma tidily_next s : tidily s (set_rt_next (rt_next s + 1)%N s).
Proof.
  intros [(F1 & F2 & F3) U O N C]. split; [split; simpl; try done; split_and!; intros i Hi; [specialize (F1 i Hi) | specialize (F2 i Hi) | specialize (F3 i Hi)]; lia|].
  split; simpl; try done; intros i r Hr; exists r; auto. split_and!; [done | done | by left].
Qed.
Lemma tidily_events l s : tidily s (set_rt_events (rt_events s ++ l) s).
Proof.
  intros [F U O N C]. split; [by split|]. split; simpl; [done | intros i r Hr; exists r; auto | intros i r Hr; exists r; split_and!; [done | done | by left] | by eexists].
Qed.
Lemma tidily_event t r i ty c p w : respects tidily (rag_event t r i ty c p w).
Proof. intros s. apply tidily_events. Qed.
Lemma tidily_cache c s : (rag_tidy s -> c ⊆ rt_configs s) -> tidily s (set_rt_cache c s).
Proof.
  intros Hc Ho. pose proof Ho as [F U O N C]. split; [split; simpl; try done; by apply Hc|].
  split; simpl; [done | intros i r Hr; exists r; auto | intros i r Hr; exists r; split_and!; [done | done | by left] | done].
Qed.
Lemma tidily_id {T} (k : uuid -> Y T) s :
  (forall i s1, i = rt_next s -> s1 = set_rt_next (i + 1)%N s -> rag_tidy s -> tidily s1 (k i s1).2) -> tidily s (mbind_ table_id k s).2.
Proof. intros Hk. apply (keeps_bind rag_tidy rag_grows); [apply tidily_next|]. intros Ho i s1 [= <- <-] _. by apply Hk. Qed.

Lemma tidily_store r s : (exists s0, s = set_rt_next (rt_next s0 + 1)%N s0 /\ rag_tidy s0) -> tidily s (set_rt_stores (<[(rt_next s - 1)%N := r]> (rt_stores s)) s).
Proof.
  intros (s0 & -> & Ho0). simpl. replace (rt_next s0 + 1 - 1)%N with (rt_next s0) by lia. intros [(F1 & F2 & F3) U O N C]. simpl in *.
  assert (Hf : rt_stores s0 !! rt_next s0 = None).
  { destruct (rt_stores s0 !! rt_next s0) eqn:E; [|done]. destruct Ho0 as [(G1 & _) _ _ _ _]. specialize (G1 _ (mk_is_Some _ _ E)). lia. }
  split; [split; simpl; try done | split; simpl; [by apply insert_subseteq | intros i x Hx; exists x; auto | intros i x Hx; exists x; split_and!; [done | done | by left] | done]].
  - split_and!; [|done..]. intros i. destruct (decide (i = rt_next s0)) as [->|]; [lia | rewrite lookup_insert_ne by done; apply F1].
  - intros i x Hx. destruct (O i x Hx) as [O1 O2]. split; [|done]. rewrite lookup_insert_ne; [done|]. intros Heq. rewrite <- Heq, Hf in O1. done.
Qed.
Lemma tidily_rules m s :
  (forall i, is_Some (m !! i) -> (i < rt_next s)%N) ->
  (rag_tidy s -> forall i j a b, m !! i = Some a -> m !! j = Some b -> rw_tenant a = rw_tenant b -> rw_name a = rw_name b -> i = j) ->
  (forall i r, rt_rules s !! i = Some r -> exists r', m !! i = Some r' /\ rw_tenant r' = rw_tenant r /\ (r' = r \/ may (rw_tenant r))) ->
  tidily s (set_rt_rules m s).
Proof.
  intros H1 H2 H3 Ho. pose proof Ho as [(F1 & F2 & F3) U O N C]. split; [split; simpl; try done; [|by apply H2] | split; simpl; try done; intros i x Hx; exists x; split_and!; [done | done | by left]].
  intros i x Hx. destruct (O i x Hx) as [O1 O2]. split; [done|]. destruct (rt_rules s !! cw_rule x) as [r|] eqn:E; [|done]. destruct (H3 _ _ E) as (r' & -> & Ht & _). simpl in *. congruence.
Qed.
Lemma tidily_configs m c s :
  (forall i, is_Some (m !! i) -> (i < rt_next s)%N) -> (rag_tidy s -> unique_numbers m) ->
  (rag_tidy s -> forall i r, m !! i = Some r -> sw_tenant <$> rt_stores s !! cw_store r = Some (cw_tenant r) /\ rw_tenant <$> rt_rules s !! cw_rule r = Some (cw_tenant r)) ->
  (forall i r, rt_configs s !! i = Some r -> exists r', m !! i = Some r' /\ config_follows r r' /\ (r' = r \/ may (cw_tenant r))) ->
  (rag_tidy s -> c ⊆ m) -> tidily s (set_rt_cache c (set_rt_configs m s)).
Proof.
  intros H1 H2 H3 H4 H5 Ho. pose proof Ho as [(F1 & F2 & F3) U O N C]. split; [split; simpl; try done; [by apply H2 | by apply H3 | by apply H5]|].
  split; simpl; try done. intros i x Hx. exists x. auto.
Qed.

(** Reads through the cache. *)
Lemma tidily_read i : respects tidily (get_rag_config i).
Proof.
  intros s. unfold get_rag_config. rewrite get_bind. destruct (rt_cache s !! i); [apply tidily_refl|]. destruct (rt_configs s !! i) as [r|] eqn:E; [|apply tidily_refl].
  apply tidily_cache. intros [_ _ _ _ C]. by apply insert_subseteq_l.
Qed.
Lemma read_config_run i s : rag_tidy s -> exists c, get_rag_config i s = (Ok (rt_configs s !! i), set_rt_cache c s).
Proof.
  intros [_ _ _ _ C]. unfold get_rag_config. rewrite get_bind. destruct (rt_cache s !! i) as [r|] eqn:E.
  - exists (rt_cache s). rewrite (lookup_weaken _ _ _ _ E C). by destruct s.
  - destruct (rt_configs s !! i) as [r|] eqn:Ec; [by eexists | exists (rt_cache s); by destruct s].
Qed.
Lemma owned_rag_config_run t x s a s1 : rag_tidy s -> owned_config uuid_parse t x s = (Ok a, s1) ->
  (exists c, s1 = set_rt_cache c s) /\ rt_configs s !! a.1 = Some a.2 /\ cw_tenant a.2 = t.
Proof.
  intros Ho. unfold owned_config, rag_uuid. unfold mbind_ at 1, mlift. destruct (uuid_parse x) as [i|]; [|done].
  destruct (read_config_run i s Ho) as (c & Hr). rewrite (mbind_run _ _ _ _ _ Hr). destruct (rt_configs s !! i) as [r|] eqn:E; [|done]. case_bool_decide as Ht; [|done].
  intros [= <- <-]. split_and!; [by eexists | done | done].
Qed.
Lemma tidily_owned t x : respects tidily (owned_config uuid_parse t x).
Proof.
  unfold owned_config. apply respects_bind; [apply _ | apply respects_lift; apply _|]. intros i. apply respects_bind; [apply _ | apply tidily_read|].
  intros [r|]; [case_bool_decide|]; first [apply respects_ret; apply _ | apply respects_raise; apply _].
Qed.
Lemma tidily_reread i : respects tidily (reread i).
Proof. apply respects_bind; [apply _ | apply tidily_read|]. intros [r|]; [apply respects_ret | apply respects_raise]; apply _. Qed.

(** A configuration of the caller's advances. *)
Lemma tidily_status i st s r :
  rt_configs s !! i = Some r -> may (cw_tenant r) -> rank (cw_status r) <= rank st -> tidily s (set_rag_config_status i st s).2.
Proof.
  intros Hr Hm Hk. unfold set_rag_config_status. rewrite get_bind, Hr. intros Ho. pose proof Ho as [(F1 & F2 & F3) U O N C]. revert Ho.
  apply (tidily_configs (<[i := with_config_status st r]> (rt_configs s)) (delete i (rt_cache s)) s).
  - intros j. destruct (decide (j = i)) as [->|]; [intros _; eauto | rewrite lookup_insert_ne by done; apply F3].
  - intros _. apply (unique_update (rt_configs s)); [done|]. intros j y. rewrite lookup_insert_Some. intros [[<- <-]|[? Hy]]; [by exists r | by exists y].
  - intros _ j y. rewrite lookup_insert_Some. intros [[<- <-]|[? Hy]]; [exact (O _ _ Hr) | by eapply O].
  - intros j y Hy. destruct (decide (j = i)) as [->|].
    + rewrite lookup_insert_eq. simplify_eq. eexists. split_and!; [done | by split | by right].
    + rewrite lookup_insert_ne by done. exists y. split_and!; [done | done | by left].
  - intros _. apply insert_subseteq_r; [by apply lookup_delete_eq|]. etrans; [apply delete_subseteq | done].
Qed.
Lemma tidily_moved i st t s r c : rt_configs s !! i = Some r -> cw_tenant r = t -> may t -> rank (cw_status r) <= rank st ->
  tidily (set_rt_cache c s) (set_rag_config_status i st (set_rt_cache c s)).2.
Proof. intros Hr <- Hm Hk. by apply (tidily_status i st (set_rt_cache c s) r). Qed.

Lemma tidily_validate t x p : may t -> respects tidily (validate_rag_config uuid_parse t x p).
Proof.
  intros Hm s. apply (keeps_bind rag_tidy rag_grows); [apply tidily_owned|]. intros Ho a s1 Ha _. apply owned_rag_config_run in Ha as ([c ->] & Hr & Ht); [|done].
  case_bool_decide as Hd; [|apply tidily_refl]. apply (keeps_bind rag_tidy rag_grows).
  - apply (tidily_moved _ _ t s a.2); [done | done | done | rewrite Hd; simpl; lia].
  - intros. apply respects_bind; [apply _ | apply tidily_event | intros; apply tidily_reread].
Qed.
Lemma tidily_move from refusal to event t x p c :
  may t -> Forall (fun st => rank st <= rank to) from -> respects tidily (move_config uuid_parse from refusal to event t x p c).
Proof.
  intros Hm Hf s. apply (keeps_bind rag_tidy rag_grows); [apply tidily_owned|]. intros Ho a s1 Ha _. apply owned_rag_config_run in Ha as ([k ->] & Hr & Ht); [|done].
  case_bool_decide as Hd; [|apply tidily_refl]. simpl. destruct (String.eqb _ _); [apply tidily_refl|]. rewrite Forall_forall in Hf. apply (keeps_bind rag_tidy rag_grows).
  - apply (tidily_moved _ _ t s a.2); [done | done | done | by apply Hf].
  - intros. apply respects_bind; [apply _ | apply tidily_event | intros; apply tidily_reread].
Qed.

(** New rows. *)
Lemma tidily_create_store r : respects tidily (create_vector_store r).
Proof.
  intros s. apply tidily_id. intros i s1 -> -> Ho. simpl. pose proof (tidily_store r (set_rt_next (rt_next s + 1)%N s)) as H. simpl in H.
  replace (rt_next s + 1 - 1)%N with (rt_next s) in H by lia. apply H. by exists s.
Qed.
Lemma own_store i t s : get_vector_store i (Some t) s <> None -> sw_tenant <$> rt_stores s !! i = Some t.
Proof. unfold get_vector_store. destruct (rt_stores s !! i) as [r|]; [|done]. simpl. case_bool_decide as H; [by rewrite H | done]. Qed.
Lemma own_rule t i s : get_chunking_rule t i s <> None -> rw_tenant <$> rt_rules s !! i = Some t.
Proof. unfold get_chunking_rule. destruct (rt_rules s !! i) as [r|]; [|done]. simpl. case_bool_decide as H; [by rewrite H | done]. Qed.
Lemma tidily_insert_config t q o s : sw_tenant <$> rt_stores s !! rq_store q = Some t -> tidily s (insert_config t q o s).2.
Proof.
  intros Hst. unfold insert_config. rewrite get_bind. set (source := match rq_source q with Some v => _ | None => mret None end).
  assert (Hsrc : (source s).2 = s) by (unfold source; destruct (rq_source q) as [v|]; [destruct (rt_configs s !! v); [case_bool_decide|]|]; done).
  unfold mbind_ at 1. destruct (source s) as [[x|e] s1]; simpl in Hsrc; subst s1; [|apply tidily_refl]. case_bool_decide as Hru; [apply tidily_refl|]. apply own_rule in Hru.
  apply tidily_id. intros i s1 -> -> Ho. destruct (taken _ _ _) eqn:Et; [apply tidily_refl|]. intros Ho1. pose proof Ho1 as [(F1 & F2 & F3) U O N C]. destruct Ho as [(_ & _ & G3) _ _ _ _]. simpl in *.
  assert (Hf : rt_configs s !! rt_next s = None) by (destruct (rt_configs s !! rt_next s) eqn:E; [specialize (G3 _ (mk_is_Some _ _ E)); lia | done]). revert Ho1.
  set (row := {| cw_tenant := t; cw_store := rq_store q; cw_rule := rq_rule q; cw_corpus := rq_corpus q; cw_status := VS_DRAFT;
    cw_number := next_number (rq_major q) (rq_minor q) (rq_patch q) (cw_number <$> x) (newest (t, 0%N) (rt_configs s)); cw_hash := x ≫= cw_hash; cw_options := Some o |}).
  assert (H : tidily (set_rt_next (rt_next s + 1)%N s) (set_rt_cache (rt_cache s) (set_rt_configs (<[rt_next s := row]> (rt_configs s)) (set_rt_next (rt_next s + 1)%N s)))); [|exact H].
  apply tidily_configs; simpl.
  - intros j. destruct (decide (j = rt_next s)) as [->|]; [lia | rewrite lookup_insert_ne by done; apply F3].
  - intros _. by apply unique_insert.
  - intros _ j y. rewrite lookup_insert_Some. intros [[<- <-]|[? Hy]]; [by split | by eapply O].
  - intros j y Hy. exists y. split_and!; [|done | by left]. rewrite lookup_insert_ne; [done | congruence].
  - intros _. etrans; [exact C | by apply insert_subseteq].
Qed.
Lemma tidily_create_config t q p : respects tidily (create_rag_config parse_options t q p).
Proof.
  unfold create_rag_config. apply respects_bind; [apply _ | apply respects_lift; apply _|]. intros o s. rewrite get_bind. case_bool_decide as Hs; [apply tidily_refl|].
  apply own_store in Hs. apply (keeps_bind rag_tidy rag_grows); [by apply tidily_insert_config|]. intros. apply respects_bind; [apply _ | apply tidily_event | intros; apply respects_ret; apply _].
Qed.

(** Rules. *)
Lemma rule_name_free t n but s i r : name_taken t n but s = false -> rt_rules s !! i = Some r -> rw_tenant r = t -> rw_name r = n -> Some i = but.
Proof.
  intros Ht Hr H1 H2. destruct (decide (Some i = but)) as [|Hne]; [done|]. unfold name_taken in Ht. apply not_true_iff_false in Ht. destruct Ht. apply existsb_exists.
  exists (i, r). split; [by apply list_elem_of_In, elem_of_map_to_list|]. by apply bool_decide_eq_true.
Qed.
Lemma tidily_insert_rule r : respects tidily (insert_rule r).
Proof.
  intros s. unfold insert_rule. rewrite get_bind. apply tidily_id. intros i s1 -> -> Ho. destruct (name_taken _ _ _ _) eqn:Et; [apply tidily_refl|]. intros Ho1.
  pose proof Ho1 as [(F1 & F2 & F3) U O N C]. destruct Ho as [(_ & G2 & _) _ _ _ _]. simpl in *.
  assert (Hf : rt_rules s !! rt_next s = None) by (destruct (rt_rules s !! rt_next s) eqn:E; [specialize (G2 _ (mk_is_Some _ _ E)); lia | done]). revert Ho1. apply tidily_rules; simpl.
  - intros j. destruct (decide (j = rt_next s)) as [->|]; [lia | rewrite lookup_insert_ne by done; apply F2].
  - intros _ j k a b. rewrite !lookup_insert_Some. intros [[<- <-]|[? Ha]] [[<- <-]|[? Hb]] E1 E2; try done; [by pose proof (rule_name_free _ _ _ _ _ _ Et Hb (eq_sym E1) (eq_sym E2)) | by pose proof (rule_name_free _ _ _ _ _ _ Et Ha E1 E2) | by eapply N].
  - intros j y Hy. exists y. split_and!; [|done | by left]. rewrite lookup_insert_ne; [done | congruence].
Qed.
Lemma tidily_store_rule t i u : may t -> respects tidily (store_rule t i u).
Proof.
  intros Hm s. unfold store_rule. rewrite get_bind. unfold get_chunking_rule. destruct (rt_rules s !! i) as [r|] eqn:Er; [|apply tidily_refl]. simpl.
  case_bool_decide as Ht; [|apply tidily_refl]. destruct (name_taken _ _ _ _) eqn:En; [apply tidily_refl|]. intros Ho. pose proof Ho as [(F1 & F2 & F3) U O N C]. revert Ho. apply tidily_rules.
  - intros j. destruct (decide (j = i)) as [->|]; [intros _; eauto | rewrite lookup_insert_ne by done; apply F2].
  - intros _ j k a b. rewrite !lookup_insert_Some. intros [[<- <-]|[? Ha]] [[<- <-]|[? Hb]] E1 E2; try done; [| |by eapply N].
    + eapply rule_name_free in Hb; [|done|simpl in *; congruence|done]. by injection Hb as ->.
    + eapply rule_name_free in Ha; [|done|simpl in *; congruence|done]. by injection Ha as ->.
  - intros j y Hy. destruct (decide (j = i)) as [->|]; [|rewrite lookup_insert_ne by done; exists y; auto]. rewrite lookup_insert_eq. simplify_eq. eexists. split_and!; [done | done | by right].
Qed.
Lemma tidily_create_rule t n st y d p : respects tidily (create_chunking_rule parse_rule t n st y d p).
Proof.
  unfold create_chunking_rule. apply respects_bind; [apply _ | apply respects_lift; apply _|]. intros _. apply respects_bind; [apply _ | apply tidily_insert_rule|]. intros i.
  apply respects_bind; [apply _ | apply tidily_event | intros; apply respects_ret; apply _].
Qed.
Lemma tidily_update_rule t i u p c : may t -> respects tidily (update_chunking_rule uuid_parse parse_rule t i u p c).
Proof.
  intros Hm. unfold update_chunking_rule. apply respects_bind; [apply _ | apply respects_lift; apply _|]. intros j s. rewrite get_bind.
  destruct (get_chunking_rule t j s) as [r|]; [|apply tidily_refl]. revert s.
  match goal with |- forall s, tidily s (?m s).2 => assert (H : respects tidily m); [|exact H] end.
  apply respects_bind; [apply _ | apply respects_lift; apply _|]. intros _. destruct (String.eqb _ _); [apply respects_raise; apply _|].
  apply respects_bind; [apply _ | by apply tidily_store_rule|]. intros [r'|]; [|apply respects_raise; apply _].
  apply respects_bind; [apply _ | apply tidily_event | intros; apply respects_ret; apply _].
Qed.
Lemma tidily_administer x : (forall t, rag_caller x = Some t -> may t) -> respects tidily (administer uuid_parse parse_options parse_rule x).
Proof.
  intros Hm. destruct x; simpl; try (apply respects_bind; [apply _ | | intros; apply respects_ret; apply _]).
  - apply tidily_create_store.
  - apply tidily_create_config.
  - apply tidily_validate. by apply Hm.
  - apply tidily_move; [by apply Hm | repeat constructor].
  - apply tidily_move; [by apply Hm | repeat constructor].
  - apply tidily_move; [by apply Hm | repeat constructor].
  - apply tidily_create_rule.
  - apply tidily_update_rule. by apply Hm.
  - apply tidily_read.
  - intros s. apply tidily_cache. intros [_ _ _ _ C]. etrans; [apply delete_subseteq | done].
Qed.
Lemma tidily_administered l s : (forall x t, x ∈ l -> rag_caller x = Some t -> may t) -> tidily s (administered uuid_parse parse_options parse_rule l s).
Proof.
  revert s. induction l as [|x l IH]; intros s Hm; [apply tidily_refl|]. simpl. etrans; [apply tidily_administer; intros; eapply Hm; [left|done]|].
  apply IH. intros. eapply Hm; [by right | done].
Qed.
End facts.

(** Retrieval configurations: whatever is asked, numbers are unique within a tenant, the store and the rule of a configuration are of its tenant,
    names of rules are unique and cached rows are the stored ones; stores and events are kept, a configuration keeps everything but its status,
    which only advances, and configurations and rules change only when their tenant asks. *)
Theorem rag_config_registry uuid_parse parse_options parse_rule l s :
  rag_tidy s ->
  let s' := administered uuid_parse parse_options parse_rule l s in
  rag_tidy s' /\ rag_grows (fun t => exists x, x ∈ l /\ rag_caller x = Some t) s s'.
Proof. intros Ho. apply tidily_administered; [naive_solver | done]. Qed.

(** ** The life of a configuration *)

Section life.
Variable uuid_parse : string -> option uuid.
Variable parse_options : pydict -> res exc pydict.
Variable parse_rule : pydict -> res exc unit.

Lemma owned_config_at t x i r s : rag_tidy s -> uuid_parse x = Some i -> rt_configs s !! i = Some r -> cw_tenant r = t ->
  exists c, owned_config uuid_parse t x s = (Ok (i, r), set_rt_cache c s).
Proof.
  intros Ho Hx Hr Ht. unfold owned_config, rag_uuid. unfold mbind_ at 1, mlift. rewrite Hx. destruct (read_config_run i s Ho) as (c & Hc). rewrite (mbind_run _ _ _ _ _ Hc), Hr.
  rewrite bool_decide_eq_true_2 by done. by exists c.
Qed.
Lemma config_status_set i st r s : rt_configs s !! i = Some r ->
  set_rag_config_status i st s = (Ok tt, set_rt_cache (delete i (rt_cache s)) (set_rt_configs (<[i := with_config_status st r]> (rt_configs s)) s)).
Proof. intros Hr. unfold set_rag_config_status. rewrite get_bind, Hr. reflexivity. Qed.
Lemma moved_at from refusal to event t x i r p c s :
  rag_tidy s -> uuid_parse x = Some i -> rt_configs s !! i = Some r -> cw_tenant r = t -> cw_status r ∈ from -> py_strip (justification c) <> "" ->
  exists s', move_config uuid_parse from refusal to event t x p c s = (Ok (with_config_status to r), s') /\ rt_configs s' = <[i := with_config_status to r]> (rt_configs s).
Proof.
  intros Ho Hx Hr Ht Hf Hj. destruct (owned_config_at t x i r s Ho Hx Hr Ht) as (k & Ha). unfold move_config. rewrite (mbind_run _ _ _ _ _ Ha). simpl.
  rewrite bool_decide_eq_true_2 by done. simpl. rewrite (proj2 (String.eqb_neq _ _) Hj).
  rewrite (mbind_run _ _ _ _ _ (config_status_set i to r (set_rt_cache k s) Hr)). unfold mbind_ at 1. cbn [rag_event mmodify]. unfold reread, get_rag_config, mbind_, mget. cbn.
  rewrite lookup_delete_eq, lookup_insert_eq. eexists. by split.
Qed.

(** A validated configuration is published and then the one a search in its store finds, unless a higher number is published for the store. *)
Theorem published_config_found t x i r p c s :
  rag_tidy s -> uuid_parse x = Some i -> rt_configs s !! i = Some r -> cw_tenant r = t -> cw_status r = VS_VALIDATED -> py_strip (justification c) <> "" ->
  (forall j y, rt_configs s !! j = Some y -> cw_tenant y = t -> cw_store y = cw_store r -> cw_status y = VS_PUBLISHED -> ~ newer_number (number_key (cw_number y)) (number_key (cw_number r))) ->
  exists s', publish_rag_config uuid_parse t x p c s = (Ok (with_config_status VS_PUBLISHED r), s') /\ published_for_store t (cw_store r) s' = Some i.
Proof.
  intros Ho Hx Hr Ht Hv Hj Hlast. destruct (moved_at [VS_VALIDATED] "rag_config_not_validated" VS_PUBLISHED "RAG_CONFIG_PUBLISHED" t x i r p c s Ho Hx Hr Ht) as (s' & Hm & Hc); [by apply list_elem_of_singleton | done|].
  exists s'. split; [exact Hm|]. unfold published_for_store. rewrite Hc. set (m := <[i := with_config_status VS_PUBLISHED r]> (rt_configs s)).
  set (l := members (t, 0%N) m). assert (Hin : (i, with_config_status VS_PUBLISHED r) ∈ l) by (apply elem_of_members; split; [apply lookup_insert_eq | simpl; by rewrite Ht]).
  pose proof (members_sorted (t, 0%N) m : _ l) as Hs.
  assert (Hl : forall j y, (j, y) ∈ l -> m !! j = Some y /\ cw_tenant y = t) by (intros j y H; apply elem_of_members in H as [? H]; split; [done | by injection H]).
  clearbody l. clear Hc Hm. induction Hs as [|[j y] l Hs IH Hall]; [by apply not_elem_of_nil in Hin|].
  destruct (decide (cw_store y = cw_store r /\ cw_status y = VS_PUBLISHED)) as [[H1 H2]|Hn].
  - rewrite filter_cons_True by done. simpl. destruct (decide (j = i)) as [->|Hne]; [done|]. exfalso. destruct (Hl j y) as [Hy Hty]; [left|]. unfold m in Hy. rewrite lookup_insert_ne in Hy by done.
    apply (Hlast j y Hy Hty H1 H2). apply elem_of_cons in Hin as [[= <- <-]|Hin]; [done|]. rewrite Forall_forall in Hall. exact (Hall _ Hin).
  - rewrite filter_cons_False by done. apply IH; [|intros; apply Hl; by right]. apply elem_of_cons in Hin as [[= <- <-]|Hin]; [|done]. by destruct Hn.
Qed.
End life.

(** ** A concrete tenant *)

Module shelves.
Definition read_id (s : string) : option uuid := match s with "config" => Some 3%N | "later" => Some 4%N | "rule" => Some 2%N | _ => None end.
(** The discriminator of the union is required. *)
Definition options (d : pydict) : res exc pydict := Ok d.
Definition rule (d : pydict) : res exc unit := match dict_get "strategy" d with Some (PStr _) => Ok tt | _ => Err (ExternalError "ValidationError" "union_tag_not_found") end.
Definition why : ChangeRequest := {| change_type := "UPDATE"; justification := "ready" |}.
Definition bare : rag_tables := {| rt_next := 1%N; rt_stores := ∅; rt_rules := ∅; rt_configs := ∅; rt_cache := ∅; rt_events := [] |}.
Definition q : RagConfigCreate := {| rq_store := 1; rq_rule := 2; rq_corpus := "TENANT_POLICY_CORPUS"; rq_options := None; rq_source := None; rq_major := None; rq_minor := None; rq_patch := None |}.
Definition faq : store_row := {| sw_tenant := 7; sw_name := "faq"; sw_model := "small"; sw_dimension := 1536; sw_metric := "cosine"; sw_version := 1; sw_active := true |}.
(** A store, a rule without a strategy in its parameters, and a validated configuration. *)
Definition stocked_by : list rag_admin_step :=
  [CreateStore faq; CreateRule 7 "pages" "ACTIVE" "PER_PAGE" None "ann"; CreateConfig 7 q "ann"; ReadConfiguration 3; ValidateConfig 7 "config" "ann"].
Definition stocked : rag_tables := administered read_id options rule stocked_by bare.
Example stocked_config : cw_status <$> rt_configs stocked !! 3%N = Some VS_VALIDATED /\ length (rt_events stocked) = 3.
Proof. by vm_compute. Qed.
Lemma bare_tidy : rag_tidy bare.
Proof. split; simpl; [split_and!; by intros i [r Hr] | intros ???? [=] | intros ?? [=] | intros ???? [=] | done]. Qed.
Lemma rag_config_registry_witness : rag_tidy stocked /\ rag_grows (fun t => exists x, x ∈ stocked_by /\ rag_caller x = Some t) bare stocked.
Proof. apply (rag_config_registry read_id options rule stocked_by bare). apply bare_tidy. Defined.
Definition validated : config_columns := {| cw_tenant := 7; cw_store := 1; cw_rule := 2; cw_corpus := "TENANT_POLICY_CORPUS"; cw_status := VS_VALIDATED;
  cw_number := {| vn_major := 1; vn_minor := 0; vn_patch := 0 |}; cw_hash := None; cw_options := Some [] |}.
Lemma stocked_tidy : rag_tidy stocked.
Proof. apply tidily_administered with (may := fun _ => True); [done | apply bare_tidy]. Qed.
Lemma published_config_found_witness :
  exists s', publish_rag_config read_id 7 "config" "ann" why stocked = (Ok (with_config_status VS_PUBLISHED validated), s') /\ published_for_store 7 1 s' = Some 3%N.
Proof.
  apply (published_config_found read_id 7 "config" 3 validated "ann" why stocked); [apply stocked_tidy | reflexivity.. | done|].
  assert (Hc : rt_configs stocked = {[ 3%N := validated ]}) by by vm_compute. rewrite Hc. by intros j y [<- <-]%lookup_singleton_Some.
Defined.

(** The rule was accepted, and its stored parameters are not: what ingestion reads has no strategy. *)
Example accepted_rule_unusable :
  (create_chunking_rule rule 7 "pages" "ACTIVE" "PER_PAGE" None "ann" bare).1 = Ok 1%N /\
  rule (from_option rw_params [] (rt_rules stocked !! 2%N)) = Err (ExternalError "ValidationError" "union_tag_not_found").
Proof. by vm_compute. Qed.
(** The column says one strategy and the parameters another. *)
Example strategies_disagree :
  let s := administered read_id options rule [CreateRule 7 "pages" "ACTIVE" "PER_PAGE" (Some [("strategy", PStr "SEMANTIC")]) "ann"] bare in
  (fun r => (rw_strategy r, dict_get "strategy" (rw_params r))) <$> rt_rules s !! 1%N = Some ("PER_PAGE", Some (PStr "SEMANTIC")).
Proof. by vm_compute. Qed.
End shelves.
