(* ===== verification/Routes.v ===== *)
(** * Routes: requests, guards and the operation a request reaches

    What the controllers under [src/src/domain/] have in common: a router binds methods and path templates to handlers; a handler checks
    the caller and the request and hands over to one operation of a service, with arguments taken from the caller, the path, the query,
    the headers and the body.  [RouteTable] has the routes themselves.

    FastAPI is outside: a request is given by its method and the segments of its path, a variable of a template stands for a text that
    is not empty and has no slash, and the first route that fits is taken; validation of parameters and bodies is a parameter, and so are
    authentication ([Auth]) and the services.  What a handler makes of the answer of the service is not modelled, and of the two
    handlers that do more, [send_message] and [handle_json_rpc] ([A2A]), what follows their checks counts as the operation. *)

From stdpp Require Import list.
From S2P Require Import Prelude.
From S2P Require Import Errors.
From S2P Require Import PyValue.
From S2P Require Import PyString.
From S2P Require Import Effects.
From S2P Require Import Store.
From S2P Require Import Governance.

(** ** Templates *)

Inductive segment : Type :=
  | Lit (text : string)
  | Var (name suffix : string).
#[global] Instance segment_eq_dec : EqDecision segment.
Proof. solve_decision. Defined.

Definition chars (x : string) : list Ascii.ascii := String.list_ascii_of_string x.
Definition ends_with (suffix x : string) : bool := bool_decide (chars suffix `suffix_of` chars x).
(** The text before a suffix. *)
Definition before (suffix x : string) : string := String.substring 0 (String.length x - String.length suffix) x.
(** A variable is bound to a text that is not empty. *)
Definition bind_segment (g : segment) (x : string) : option (list (string * string)) :=
  match g with
  | Lit t => if String.eqb t x then Some [] else None
  | Var n s => if ends_with s x && (String.length s <? String.length x) then Some [(n, before s x)] else None
  end.
Fixpoint bind_path (p : list segment) (x : list string) : option (list (string * string)) :=
  match p, x with
  | [], [] => Some []
  | g :: p, y :: x => a ← bind_segment g y; b ← bind_path p x; Some (a ++ b)
  | _, _ => None
  end.

(** ** Routes *)

Definition core (p : list segment) : list segment := Lit "core" :: Lit "v1" :: p.
Inductive method : Type := GET | POST | PUT | PATCH | DELETE.
#[global] Instance method_eq_dec : EqDecision method.
Proof. solve_decision. Defined.

(** The dependency that authenticates. *)
Inductive access : Type :=
  | Bearer         (** [get_auth_context] *)
  | BearerOrKey    (** [get_auth_context_or_api_key] *)
  | TokenExchange  (** [get_tenant_token_m2m_auth] *)
  | Admin.         (** [get_admin_auth]: there is no caller *)
#[global] Instance access_eq_dec : EqDecision access.
Proof. solve_decision. Defined.

Inductive guard : Type :=
  | NeedScope (scope : string)
  | NeedTenant
  | OwnTenant                              (** a caller of a tenant names it in the body *)
  | OwnTenantIfNamed                       (** the same when the body names one; somebody has to *)
  | NeedHeader (name error : string)       (** given and not empty *)
  | GivenHeader (name error : string)
  | NonBlankHeader (name error : string)
  | NaturalHeader (name error : string)    (** when given, a number that is not negative *)
  | PathUuid (name : string)               (** [UUID(...)] *)
  | QueryUuids (names : list string) (error : string)
  | ExactlyOneQuery (a b : string)
  | BodyNamesPath (names : list string) (error : string)  (** identifiers of the body are those of the path *)
  | BodyTextIsPath (name error : string)
  | BodyNotEmpty (error : string)
  | BodyAtMost (n : nat) (error : string)
  | Configured (service : string) (error : exc).  (** the controller was given the service *)

Inductive source : Type :=
  | TenantOfCaller | PrincipalOfCaller | CallerItself | AdminCaller
  | PathText (name : string) | PathId (name : string)
  | QueryText (name : string) | QueryId (name : string) | HeaderText (name : string) | HeaderStripped (name : string) | AllHeaders | TraceId | UrlPath | BaseUrl
  | BodyAll | BodyField (name : string) | BodySigned (name : string) | BodyTenant | NamedTenant | AdminPrincipal | Fixed (text : string).
#[global] Instance source_eq_dec : EqDecision source.
Proof. solve_decision. Defined.

Record call : Type := {
  c_service : string;
  c_op : string;
  c_args : list (string * source);
}.
Inductive action : Type :=
  | Forward (c : call)
  | Background (c : call)  (** started, and its outcome dropped *)
  | Unavailable.           (** [MethodNotAllowedPlaceholderException] *)

Record route : Type := {
  r_name : string;
  r_method : method;
  r_path : list segment;
  r_access : access;
  r_guards : list guard;
  r_action : action;
}.

(** ** Requests *)

Record http_request : Type := {
  hq_method : method;
  hq_path : list string;
  hq_query : list (string * string);
  hq_headers : list (string * string);
  hq_body : pyval;
}.
Definition params_for (r : route) (q : http_request) : option (list (string * string)) :=
  if bool_decide (r_method r = hq_method q) then bind_path (r_path r) (hq_path q) else None.
Fixpoint assoc {T} (n : string) (l : list (string * T)) : option T :=
  match l with [] => None | (k, v) :: l => if String.eqb k n then Some v else assoc n l end.
Fixpoint first_route (l : list route) (q : http_request) : option (route * list (string * string)) :=
  match l with
  | [] => None
  | r :: l => match params_for r q with Some b => Some (r, b) | None => first_route l q end
  end.

Inductive argument : Type :=
  | ATenant (t : option uuid)
  | AId (i : option uuid)
  | AText (x : option string)
  | AValue (v : pyval)
  | ACaller (a : option AuthContext)
  | AHeaders (l : list (string * string)).

Section serving.
Context {W : Type}.
Variable uuid_parse : string -> option uuid.
Variable int_of_string : string -> option Z.
(** Whether a service was wired. *)
Variable wired : string -> bool.
(** Settings, and identifiers that are drawn. *)
Variable admin_principal : string.
Variable base_url : http_request -> string.
Variable new_trace : uuid.
(** Authentication; nobody for [Admin]. *)
Variable identify : access -> http_request -> W -> res exc (option AuthContext).
(** Validation of parameters and body. *)
Variable admissible : route -> http_request -> res exc unit.
Variable invoke : string -> string -> list (string * argument) -> W -> res exc pyval * W.

Definition body_uuid (f : string) (q : http_request) : option uuid :=
  match hq_body q with PDict d => match dict_getv f d with PStr x => uuid_parse x | _ => None end | _ => None end.
Definition refuse_unless (b : bool) (e : exc) : res exc unit := if b then Ok tt else Err e.
Definition text_given (o : option string) : bool := match o with Some x => negb (String.eqb x "") | None => false end.

Definition caller_tenant (a : option AuthContext) : option uuid := a ≫= au_tenant.
Definition body_names (b : list (string * string)) (q : http_request) (n : string) : res exc bool :=
  match assoc n b ≫= uuid_parse with
  | Some i => Ok (bool_decide (body_uuid n q = Some i))
  | None => Err PyValueError
  end.
Fixpoint body_names_all (b : list (string * string)) (q : http_request) (l : list string) (error : string) : res exc unit :=
  match l with
  | [] => Ok tt
  | n :: l => let! same := body_names b q n in if same then body_names_all b q l error else Err (RouterValidationException error)
  end.

Definition check_guard (a : option AuthContext) (b : list (string * string)) (q : http_request) (g : guard) : res exc unit :=
  match g with
  | NeedScope x => refuse_unless (existsb (String.eqb x) (default [] (au_scopes <$> a))) (AuthorizationDeniedException "insufficient_scope")
  | NeedTenant => refuse_unless (negb (bool_decide (caller_tenant a = None))) (AuthorizationDeniedException "tenant_id_required")
  | OwnTenant =>
      refuse_unless (match caller_tenant a with Some t => bool_decide (body_uuid "tenant_id" q = Some t) | None => true end)
        (AuthorizationDeniedException "tenant_scope_mismatch")
  | OwnTenantIfNamed =>
      match caller_tenant a, body_uuid "tenant_id" q with
      | Some t, Some n => refuse_unless (bool_decide (n = t)) (AuthorizationDeniedException "tenant_scope_mismatch")
      | None, None => Err (RouterValidationException "tenant_id_required")
      | _, _ => Ok tt
      end
  | NeedHeader n e => refuse_unless (text_given (assoc n (hq_headers q))) (RouterValidationException e)
  | GivenHeader n e => refuse_unless (negb (bool_decide (assoc n (hq_headers q) = None))) (RouterValidationException e)
  | NonBlankHeader n e => refuse_unless (text_given (py_strip <$> assoc n (hq_headers q))) (RouterValidationException e)
  | NaturalHeader n e =>
      match assoc n (hq_headers q) with
      | None => Ok tt
      | Some x => refuse_unless (match int_of_string x with Some z => (0 <=? z)%Z | None => false end) (RouterValidationException e)
      end
  | PathUuid n => refuse_unless (negb (bool_decide (assoc n b ≫= uuid_parse = None))) PyValueError
  | QueryUuids l e =>
      refuse_unless (forallb (fun n => match assoc n (hq_query q) with
                                       | Some x => String.eqb x "" || negb (bool_decide (uuid_parse x = None))
                                       | None => true
                                       end) l) (RouterValidationException e)
  | ExactlyOneQuery x y =>
      refuse_unless (xorb (bool_decide (assoc x (hq_query q) = None)) (bool_decide (assoc y (hq_query q) = None))) (ExternalError "HTTPException" "value_error")
  | BodyNamesPath l e => body_names_all b q l e
  | BodyTextIsPath n e =>
      refuse_unless (match hq_body q, assoc n b with PDict d, Some x => bool_decide (dict_getv n d = PStr x) | _, _ => false end) (DomainValidationException e)
  | BodyNotEmpty e => refuse_unless (truthy (hq_body q)) (DomainValidationException e)
  | BodyAtMost n e => refuse_unless (match hq_body q with PList l => (length l <=? n) | _ => true end) (DomainValidationException e)
  | Configured s e => refuse_unless (wired s) e
  end.
Fixpoint check_guards (a : option AuthContext) (b : list (string * string)) (q : http_request) (l : list guard) : res exc unit :=
  match l with [] => Ok tt | g :: l => let! _ := check_guard a b q g in check_guards a b q l end.

Definition argument_of (a : option AuthContext) (b : list (string * string)) (q : http_request) (x : source) : argument :=
  match x with
  | TenantOfCaller => ATenant (caller_tenant a)
  | PrincipalOfCaller => AText (au_principal_id <$> a)
  | CallerItself => ACaller a
  | AdminCaller => ACaller (Some {| au_tenant := None; au_principal_type := "machine"; au_principal_id := admin_principal; au_scopes := ["tenants:create"];
                                    au_token_issuer := "admin"; au_token_audience := "admin"; au_expires_at := 0 |})
  | PathText n => AText (assoc n b)
  | PathId n => AId (assoc n b ≫= uuid_parse)
  | QueryText n => AText (assoc n (hq_query q))
  | QueryId n => AId (assoc n (hq_query q) ≫= uuid_parse)
  | HeaderText n => AText (assoc n (hq_headers q))
  | HeaderStripped n => AText (py_strip <$> assoc n (hq_headers q))
  | AllHeaders => AHeaders (hq_headers q)
  | TraceId => AId (Some (default new_trace (assoc "X-Trace-Id" (hq_headers q) ≫= uuid_parse)))
  | UrlPath => AText (Some (foldr (fun y t => ("/" +:+ y) +:+ t) "" (hq_path q)))
  | BaseUrl => AText (Some (base_url q))
  | BodyAll => AValue (hq_body q)
  | BodyField f => AValue (match hq_body q with PDict d => dict_getv f d | _ => PNone end)
  | BodySigned f => AValue (match hq_body q with PDict d => PDict (dict_set f (from_option PStr PNone (au_principal_id <$> a)) d) | v => v end)
  | AdminPrincipal => AText (Some admin_principal)
  | BodyTenant => ATenant (body_uuid "tenant_id" q)
  | NamedTenant => ATenant (match body_uuid "tenant_id" q with Some t => Some t | None => caller_tenant a end)
  | Fixed x => AText (Some x)
  end.
Definition arguments_of (a : option AuthContext) (b : list (string * string)) (q : http_request) (c : call) : list (string * argument) :=
  prod_map id (argument_of a b q) <$> c_args c.

Definition act (a : option AuthContext) (b : list (string * string)) (q : http_request) (x : action) : M W pyval :=
  match x with
  | Forward c => fun s => invoke (c_service c) (c_op c) (arguments_of a b q c) s
  | Background c => fun s => (Ok PNone, (invoke (c_service c) (c_op c) (arguments_of a b q c) s).2)
  | Unavailable => mraise (MethodNotAllowedPlaceholderException "Endpoint not available.")
  end.
Definition handle (r : route) (b : list (string * string)) (q : http_request) : M W pyval := fun s =>
  match (let! a := identify (r_access r) q s in let! _ := admissible r q in let! _ := check_guards a b q (r_guards r) in Ok a) with
  | Ok a => act a b q (r_action r) s
  | Err e => (Err e, s)
  end.
Definition serve_http (l : list route) (q : http_request) : M W pyval := fun s =>
  match first_route l q with
  | Some (r, b) => handle r b q s
  | None => (Err (ExternalError "HTTPException" "Not Found"), s)
  end.
End serving.
