(* ===== verification/RouteTable.v ===== *)
(** * RouteTable: the routes of the interface and what they can be used for

    The routes that [src/src/app.py] registers, one definition for each handler of the controllers under [src/src/domain/], in the order of
    registration; then what the table shows: which route a request reaches, for whom a service is asked, and which operations no scope
    protects.  The last part puts the routes in front of the administration of retrieval ([RagAdmin]). *)

From stdpp Require Import list.
From S2P Require Import Prelude.
From S2P Require Import Errors.
From S2P Require Import PyValue.
From S2P Require Import PyString.
From S2P Require Import Effects.
From S2P Require Import Store.
From S2P Require Import Governance.
From S2P Require Import FlowAuthoring.
From S2P Require Import AuthoringFacts.
From S2P Require Import RagAdmin.
From S2P Require Import Routes.

(** ** [TenantsController] *)

Definition create_route : route := {| r_name := "create"; r_method := POST; r_path := core [Lit "tenants"]; r_access := Bearer;
  r_guards := [NeedScope "tenants:create"];
  r_action := Forward {| c_service := "TenantsService"; c_op := "create"; c_args := [("tenant_create", BodyAll); ("principal_id", PrincipalOfCaller)] |} |}.
Definition get_current_route : route := {| r_name := "get_current"; r_method := GET; r_path := core [Lit "tenants"; Lit "current"]; r_access := Bearer;
  r_guards := [NeedTenant];
  r_action := Forward {| c_service := "TenantsService"; c_op := "get_current"; c_args := [("tenant_id", TenantOfCaller)] |} |}.
Definition get_current_summary_route : route := {| r_name := "get_current_summary"; r_method := GET; r_path := core [Lit "tenants"; Lit "current"; Lit "summary"]; r_access := Bearer;
  r_guards := [NeedTenant; Configured "TenantSummaryService" (AuthorizationDeniedException "summary_not_available")];
  r_action := Forward {| c_service := "TenantSummaryService"; c_op := "get_current_summary"; c_args := [("tenant_id", TenantOfCaller)] |} |}.
Definition get_settings_route : route := {| r_name := "get_settings"; r_method := GET; r_path := core [Lit "tenants"; Lit "current"; Lit "settings"]; r_access := Bearer;
  r_guards := [NeedTenant];
  r_action := Forward {| c_service := "TenantsService"; c_op := "get_settings"; c_args := [("tenant_id", TenantOfCaller)] |} |}.
Definition tenants_routes : list route := [create_route; get_current_route; get_current_summary_route; get_settings_route].

(** ** [AuthController] *)

Definition issue_tenant_token_route : route := {| r_name := "issue_tenant_token"; r_method := POST; r_path := core [Lit "auth"; Lit "tenant-token"]; r_access := TokenExchange;
  r_guards := [NeedScope "tenants:create"; OwnTenantIfNamed];
  r_action := Forward {| c_service := "AuthService"; c_op := "issue_tenant_token"; c_args := [("tenant_id", NamedTenant); ("auth", CallerItself)] |} |}.
Definition create_inbound_service_key_route : route := {| r_name := "create_inbound_service_key"; r_method := POST; r_path := core [Lit "auth"; Lit "inbound-service-keys"]; r_access := Bearer;
  r_guards := [NeedScope "tenants:create"; OwnTenant];
  r_action := Forward {| c_service := "AuthService"; c_op := "create_inbound_service_key"; c_args := [("tenant_id", BodyTenant); ("auth", CallerItself)] |} |}.
Definition revoke_inbound_service_key_route : route := {| r_name := "revoke_inbound_service_key"; r_method := POST; r_path := core [Lit "auth"; Lit "inbound-service-keys"; Var "inbound_service_key_id" ""; Lit "revoke"]; r_access := Bearer;
  r_guards := [NeedScope "tenants:create"; OwnTenant];
  r_action := Forward {| c_service := "AuthService"; c_op := "revoke_inbound_service_key"; c_args := [("inbound_service_key_id", PathId "inbound_service_key_id"); ("tenant_id", BodyTenant); ("auth", CallerItself)] |} |}.
Definition create_admin_api_key_route : route := {| r_name := "create_admin_api_key"; r_method := POST; r_path := core [Lit "auth"; Lit "admin"; Lit "api-keys"]; r_access := Admin;
  r_guards := [];
  r_action := Forward {| c_service := "AuthService"; c_op := "create_inbound_service_key"; c_args := [("tenant_id", BodyTenant); ("auth", AdminCaller)] |} |}.
Definition auth_routes : list route := [issue_tenant_token_route; create_inbound_service_key_route; revoke_inbound_service_key_route; create_admin_api_key_route].

(** ** [McpRegistryController] *)

Definition create_mcp_server_route : route := {| r_name := "create_mcp_server"; r_method := POST; r_path := core [Lit "tenants"; Lit "mcp-servers"]; r_access := Bearer;
  r_guards := [NeedScope "mcp_servers:create"; NeedTenant];
  r_action := Forward {| c_service := "McpRegistryService"; c_op := "create_server"; c_args := [("tenant_id", TenantOfCaller); ("body", BodyAll); ("endpoint_base", BaseUrl)] |} |}.
Definition list_mcp_servers_route : route := {| r_name := "list_mcp_servers"; r_method := GET; r_path := core [Lit "tenants"; Lit "mcp-servers"]; r_access := Bearer;
  r_guards := [NeedScope "mcp_servers:list"; NeedTenant];
  r_action := Forward {| c_service := "McpRegistryService"; c_op := "list_servers"; c_args := [("tenant_id", TenantOfCaller)] |} |}.
Definition get_mcp_server_route : route := {| r_name := "get_mcp_server"; r_method := GET; r_path := core [Lit "tenants"; Lit "mcp-servers"; Var "mcp_server_id" ""]; r_access := Bearer;
  r_guards := [NeedScope "mcp_servers:get"; NeedTenant];
  r_action := Forward {| c_service := "McpRegistryService"; c_op := "get_server"; c_args := [("tenant_id", TenantOfCaller); ("mcp_server_id", PathId "mcp_server_id")] |} |}.
Definition patch_mcp_server_outbound_authorization_route : route := {| r_name := "patch_mcp_server_outbound_authorization"; r_method := PATCH; r_path := core [Lit "tenants"; Lit "mcp-servers"; Var "mcp_server_id" ""; Lit "outbound-authorization"]; r_access := Bearer;
  r_guards := [NeedScope "mcp_servers:create"; NeedTenant];
  r_action := Forward {| c_service := "McpRegistryService"; c_op := "patch_mcp_server_outbound_auth"; c_args := [("tenant_id", TenantOfCaller); ("mcp_server_id", PathId "mcp_server_id"); ("body", BodyAll)] |} |}.
Definition mcp_registry_routes : list route := [create_mcp_server_route; list_mcp_servers_route; get_mcp_server_route; patch_mcp_server_outbound_authorization_route].

(** ** [FlowsController] *)

Definition list_flows_route : route := {| r_name := "list_flows"; r_method := GET; r_path := core [Lit "flows"]; r_access := Bearer;
  r_guards := [];
  r_action := Forward {| c_service := "FlowsService"; c_op := "list_flows"; c_args := [("tenant_id", TenantOfCaller); ("limit", QueryText "limit")] |} |}.
Definition create_flow_route : route := {| r_name := "create_flow"; r_method := POST; r_path := core [Lit "flows"]; r_access := Bearer;
  r_guards := [];
  r_action := Forward {| c_service := "FlowsService"; c_op := "create_flow"; c_args := [("tenant_id", TenantOfCaller); ("flow_create", BodyAll); ("principal_id", PrincipalOfCaller)] |} |}.
Definition list_system_node_templates_route : route := {| r_name := "list_system_node_templates"; r_method := GET; r_path := core [Lit "flows"; Lit "node-templates:system"]; r_access := Bearer;
  r_guards := [];
  r_action := Forward {| c_service := "FlowsService"; c_op := "list_system_node_templates"; c_args := [("tenant_id", TenantOfCaller)] |} |}.
Definition get_flow_route : route := {| r_name := "get_flow"; r_method := GET; r_path := core [Lit "flows"; Var "flow_id" ""]; r_access := Bearer;
  r_guards := [];
  r_action := Forward {| c_service := "FlowsService"; c_op := "get_flow"; c_args := [("tenant_id", TenantOfCaller); ("flow_id", PathText "flow_id")] |} |}.
Definition list_flow_versions_route : route := {| r_name := "list_flow_versions"; r_method := GET; r_path := core [Lit "flows"; Var "flow_id" ""; Lit "versions"]; r_access := Bearer;
  r_guards := [];
  r_action := Forward {| c_service := "FlowsService"; c_op := "list_flow_versions"; c_args := [("tenant_id", TenantOfCaller); ("flow_id", PathText "flow_id"); ("status_filter", QueryText "status_filter")] |} |}.
Definition create_flow_version_route : route := {| r_name := "create_flow_version"; r_method := POST; r_path := core [Lit "flows"; Var "flow_id" ""; Lit "versions"]; r_access := Bearer;
  r_guards := [];
  r_action := Forward {| c_service := "FlowsService"; c_op := "create_flow_version"; c_args := [("tenant_id", TenantOfCaller); ("flow_id", PathText "flow_id"); ("flow_version_create", BodyAll); ("principal_id", PrincipalOfCaller)] |} |}.
Definition validate_flow_version_route : route := {| r_name := "validate_flow_version"; r_method := POST; r_path := core [Lit "flows"; Var "flow_id" ""; Lit "versions"; Var "flow_version_id" ":validate"]; r_access := Bearer;
  r_guards := [];
  r_action := Forward {| c_service := "FlowsService"; c_op := "validate_flow_version"; c_args := [("tenant_id", TenantOfCaller); ("flow_id", PathText "flow_id"); ("flow_version_id", PathText "flow_version_id")] |} |}.
Definition publish_flow_version_route : route := {| r_name := "publish_flow_version"; r_method := POST; r_path := core [Lit "flows"; Var "flow_id" ""; Lit "versions"; Var "flow_version_id" ":publish"]; r_access := Bearer;
  r_guards := [];
  r_action := Forward {| c_service := "FlowsService"; c_op := "publish_flow_version"; c_args := [("tenant_id", TenantOfCaller); ("flow_id", PathText "flow_id"); ("flow_version_id", PathText "flow_version_id"); ("principal_id", PrincipalOfCaller); ("change_request", BodyAll)] |} |}.
Definition activate_flow_version_route : route := {| r_name := "activate_flow_version"; r_method := POST; r_path := core [Lit "flows"; Var "flow_id" ""; Lit "versions"; Var "flow_version_id" ":activate"]; r_access := Bearer;
  r_guards := [];
  r_action := Forward {| c_service := "FlowsService"; c_op := "activate_flow_version"; c_args := [("tenant_id", TenantOfCaller); ("flow_id", PathText "flow_id"); ("flow_version_id", PathText "flow_version_id"); ("principal_id", PrincipalOfCaller); ("change_request", BodyAll)] |} |}.
Definition rollback_flow_version_route : route := {| r_name := "rollback_flow_version"; r_method := POST; r_path := core [Lit "flows"; Var "flow_id" ""; Lit "versions"; Var "flow_version_id" ":rollback"]; r_access := Bearer;
  r_guards := [];
  r_action := Forward {| c_service := "FlowsService"; c_op := "rollback_flow_version"; c_args := [("tenant_id", TenantOfCaller); ("flow_id", PathText "flow_id"); ("flow_version_id", PathText "flow_version_id"); ("principal_id", PrincipalOfCaller); ("change_request", BodyAll)] |} |}.
Definition deprecate_flow_version_route : route := {| r_name := "deprecate_flow_version"; r_method := POST; r_path := core [Lit "flows"; Var "flow_id" ""; Lit "versions"; Var "flow_version_id" ":deprecate"]; r_access := Bearer;
  r_guards := [];
  r_action := Unavailable |}.
Definition disable_flow_version_route : route := {| r_name := "disable_flow_version"; r_method := POST; r_path := core [Lit "flows"; Var "flow_id" ""; Lit "versions"; Var "flow_version_id" ":disable"]; r_access := Bearer;
  r_guards := [];
  r_action := Unavailable |}.
Definition list_nodes_route : route := {| r_name := "list_nodes"; r_method := GET; r_path := core [Lit "flows"; Var "flow_id" ""; Lit "versions"; Var "flow_version_id" ""; Lit "nodes"]; r_access := Bearer;
  r_guards := [];
  r_action := Forward {| c_service := "FlowsService"; c_op := "list_nodes"; c_args := [("tenant_id", TenantOfCaller); ("flow_id", PathText "flow_id"); ("flow_version_id", PathText "flow_version_id")] |} |}.
Definition create_flow_graph_route : route := {| r_name := "create_flow_graph"; r_method := POST; r_path := core [Lit "flows"; Var "flow_id" ""; Lit "versions"; Var "flow_version_id" ""; Lit "graph"]; r_access := Bearer;
  r_guards := [BodyNamesPath ["flow_id"; "flow_version_id"] "flow_id_or_version_mismatch"];
  r_action := Forward {| c_service := "FlowsService"; c_op := "create_flow_graph"; c_args := [("tenant_id", TenantOfCaller); ("flow_id", PathId "flow_id"); ("flow_version_id", PathId "flow_version_id"); ("principal_id", PrincipalOfCaller); ("definition", BodyField "definition")] |} |}.
Definition upsert_flow_graph_draft_route : route := {| r_name := "upsert_flow_graph_draft"; r_method := POST; r_path := core [Lit "flows"; Var "flow_id" ""; Lit "versions"; Var "flow_version_id" ""; Lit "graph:draft"]; r_access := Bearer;
  r_guards := [BodyNamesPath ["flow_id"; "flow_version_id"] "flow_id_or_version_mismatch"];
  r_action := Forward {| c_service := "FlowsService"; c_op := "upsert_flow_graph_draft"; c_args := [("tenant_id", TenantOfCaller); ("payload", BodyAll)] |} |}.
Definition validate_flow_graph_draft_route : route := {| r_name := "validate_flow_graph_draft"; r_method := POST; r_path := core [Lit "flows"; Var "flow_id" ""; Lit "versions"; Var "flow_version_id" ""; Lit "graph:validate"]; r_access := Bearer;
  r_guards := [BodyNamesPath ["flow_id"; "flow_version_id"] "flow_id_or_version_mismatch"];
  r_action := Forward {| c_service := "FlowsService"; c_op := "validate_flow_graph_draft"; c_args := [("tenant_id", TenantOfCaller); ("payload", BodyAll)] |} |}.
Definition compile_flow_graph_route : route := {| r_name := "compile_flow_graph"; r_method := POST; r_path := core [Lit "flows"; Var "flow_id" ""; Lit "versions"; Var "flow_version_id" ""; Lit "graph:compile"]; r_access := Bearer;
  r_guards := [BodyNamesPath ["flow_id"; "flow_version_id"] "flow_id_or_version_mismatch"];
  r_action := Forward {| c_service := "FlowsService"; c_op := "compile_flow_graph"; c_args := [("tenant_id", TenantOfCaller); ("payload", BodyAll)] |} |}.
Definition create_node_route : route := {| r_name := "create_node"; r_method := POST; r_path := core [Lit "nodes"]; r_access := Bearer;
  r_guards := [];
  r_action := Forward {| c_service := "FlowsService"; c_op := "create_node"; c_args := [("tenant_id", TenantOfCaller); ("node_create", BodyAll); ("principal_id", PrincipalOfCaller)] |} |}.
Definition copy_node_from_template_route : route := {| r_name := "copy_node_from_template"; r_method := POST; r_path := core [Lit "flows"; Var "flow_id" ""; Lit "versions"; Var "flow_version_id" ""; Lit "nodes:copy-from-template"]; r_access := Bearer;
  r_guards := [];
  r_action := Forward {| c_service := "FlowsService"; c_op := "copy_node_from_template_request"; c_args := [("tenant_id", TenantOfCaller); ("flow_id", PathText "flow_id"); ("flow_version_id", PathText "flow_version_id"); ("payload", BodyAll); ("principal_id", PrincipalOfCaller)] |} |}.
Definition create_custom_node_route : route := {| r_name := "create_custom_node"; r_method := POST; r_path := core [Lit "flows"; Var "flow_id" ""; Lit "versions"; Var "flow_version_id" ""; Lit "nodes:custom"]; r_access := Bearer;
  r_guards := [];
  r_action := Forward {| c_service := "FlowsService"; c_op := "create_custom_node"; c_args := [("tenant_id", TenantOfCaller); ("flow_id", PathText "flow_id"); ("flow_version_id", PathText "flow_version_id"); ("payload", BodyAll); ("principal_id", PrincipalOfCaller)] |} |}.
Definition compose_deployment_route : route := {| r_name := "compose_deployment"; r_method := POST; r_path := core [Lit "flows"; Var "flow_id" ""; Lit "versions"; Var "flow_version_id" ""; Lit "deployments:compose"]; r_access := Bearer;
  r_guards := [BodyNamesPath ["flow_id"; "flow_version_id"] "flow_id_or_version_mismatch"; NonBlankHeader "Idempotency-Key" "idempotency_key_required"];
  r_action := Forward {| c_service := "FlowsService"; c_op := "compose_deployment"; c_args := [("tenant_id", TenantOfCaller); ("payload", BodyAll); ("idempotency_key", HeaderStripped "Idempotency-Key")] |} |}.
Definition validate_compose_deployment_route : route := {| r_name := "validate_compose_deployment"; r_method := POST; r_path := core [Lit "flows"; Var "flow_id" ""; Lit "versions"; Var "flow_version_id" ""; Lit "deployments:validate"]; r_access := Bearer;
  r_guards := [BodyNamesPath ["flow_id"; "flow_version_id"] "flow_id_or_version_mismatch"];
  r_action := Forward {| c_service := "FlowsService"; c_op := "validate_compose_deployment"; c_args := [("tenant_id", TenantOfCaller); ("payload", BodyAll)] |} |}.
Definition batch_upsert_artifacts_route : route := {| r_name := "batch_upsert_artifacts"; r_method := PUT; r_path := core [Lit "flows"; Var "flow_id" ""; Lit "versions"; Var "flow_version_id" ""; Lit "artifacts:batch-upsert"]; r_access := Bearer;
  r_guards := [BodyNamesPath ["flow_id"; "flow_version_id"] "flow_id_or_version_mismatch"];
  r_action := Forward {| c_service := "FlowsService"; c_op := "batch_upsert_artifacts"; c_args := [("tenant_id", TenantOfCaller); ("payload", BodyAll)] |} |}.
Definition list_routers_route : route := {| r_name := "list_routers"; r_method := GET; r_path := core [Lit "routers"]; r_access := Bearer;
  r_guards := [];
  r_action := Forward {| c_service := "FlowsService"; c_op := "list_routers"; c_args := [("tenant_id", TenantOfCaller); ("limit", QueryText "limit")] |} |}.
Definition create_router_route : route := {| r_name := "create_router"; r_method := POST; r_path := core [Lit "routers"]; r_access := Bearer;
  r_guards := [];
  r_action := Forward {| c_service := "FlowsService"; c_op := "create_router"; c_args := [("tenant_id", TenantOfCaller); ("router_create", BodyAll); ("principal_id", PrincipalOfCaller)] |} |}.
Definition create_routing_rule_route : route := {| r_name := "create_routing_rule"; r_method := POST; r_path := core [Lit "routing-rules"]; r_access := Bearer;
  r_guards := [];
  r_action := Forward {| c_service := "FlowsService"; c_op := "create_routing_rule"; c_args := [("tenant_id", TenantOfCaller); ("routing_rule_create", BodyAll); ("principal_id", PrincipalOfCaller)] |} |}.
Definition create_condition_expression_route : route := {| r_name := "create_condition_expression"; r_method := POST; r_path := core [Lit "condition-expressions"]; r_access := Bearer;
  r_guards := [];
  r_action := Forward {| c_service := "FlowsService"; c_op := "create_condition_expression"; c_args := [("tenant_id", TenantOfCaller); ("condition_expression_create", BodyAll); ("principal_id", PrincipalOfCaller)] |} |}.
Definition flows_routes : list route := [list_flows_route; create_flow_route; list_system_node_templates_route; get_flow_route; list_flow_versions_route; create_flow_version_route; validate_flow_version_route; publish_flow_version_route; activate_flow_version_route; rollback_flow_version_route; deprecate_flow_version_route; disable_flow_version_route; list_nodes_route; create_flow_graph_route; upsert_flow_graph_draft_route; validate_flow_graph_draft_route; compile_flow_graph_route; create_node_route; copy_node_from_template_route; create_custom_node_route; compose_deployment_route; validate_compose_deployment_route; batch_upsert_artifacts_route; list_routers_route; create_router_route; create_routing_rule_route; create_condition_expression_route].

(** ** [AgentsController] *)

Definition list_agents_route : route := {| r_name := "list_agents"; r_method := GET; r_path := core [Lit "agents"]; r_access := Bearer;
  r_guards := [];
  r_action := Forward {| c_service := "AgentsService"; c_op := "list_agents"; c_args := [("tenant_id", TenantOfCaller); ("limit", QueryText "limit")] |} |}.
Definition create_agent_route : route := {| r_name := "create_agent"; r_method := POST; r_path := core [Lit "agents"]; r_access := Bearer;
  r_guards := [];
  r_action := Forward {| c_service := "AgentsService"; c_op := "create_agent"; c_args := [("tenant_id", TenantOfCaller); ("agent_create", BodyAll); ("principal_id", PrincipalOfCaller)] |} |}.
Definition list_agent_versions_route : route := {| r_name := "list_agent_versions"; r_method := GET; r_path := core [Lit "agents"; Var "agent_id" ""; Lit "versions"]; r_access := Bearer;
  r_guards := [];
  r_action := Forward {| c_service := "AgentsService"; c_op := "list_agent_versions"; c_args := [("tenant_id", TenantOfCaller); ("agent_id", PathId "agent_id"); ("status_filter", QueryText "status_filter")] |} |}.
Definition create_agent_version_route : route := {| r_name := "create_agent_version"; r_method := POST; r_path := core [Lit "agents"; Var "agent_id" ""; Lit "versions"]; r_access := Bearer;
  r_guards := [];
  r_action := Forward {| c_service := "AgentsService"; c_op := "create_agent_version"; c_args := [("tenant_id", TenantOfCaller); ("agent_id", PathId "agent_id"); ("agent_version_create", BodyAll); ("principal_id", PrincipalOfCaller)] |} |}.
Definition validate_agent_version_route : route := {| r_name := "validate_agent_version"; r_method := POST; r_path := core [Lit "agents"; Var "agent_id" ""; Lit "versions"; Var "agent_version_id" ":validate"]; r_access := Bearer;
  r_guards := [];
  r_action := Forward {| c_service := "AgentsService"; c_op := "validate_agent_version"; c_args := [("tenant_id", TenantOfCaller); ("agent_id", PathId "agent_id"); ("agent_version_id", PathId "agent_version_id")] |} |}.
Definition publish_agent_version_route : route := {| r_name := "publish_agent_version"; r_method := POST; r_path := core [Lit "agents"; Var "agent_id" ""; Lit "versions"; Var "agent_version_id" ":publish"]; r_access := Bearer;
  r_guards := [];
  r_action := Forward {| c_service := "AgentsService"; c_op := "publish_agent_version"; c_args := [("tenant_id", TenantOfCaller); ("agent_id", PathId "agent_id"); ("agent_version_id", PathId "agent_version_id"); ("principal_id", PrincipalOfCaller); ("change_request", BodyAll)] |} |}.
Definition activate_agent_version_route : route := {| r_name := "activate_agent_version"; r_method := POST; r_path := core [Lit "agents"; Var "agent_id" ""; Lit "versions"; Var "agent_version_id" ":activate"]; r_access := Bearer;
  r_guards := [];
  r_action := Forward {| c_service := "AgentsService"; c_op := "activate_agent_version"; c_args := [("tenant_id", TenantOfCaller); ("agent_id", PathId "agent_id"); ("agent_version_id", PathId "agent_version_id"); ("principal_id", PrincipalOfCaller); ("change_request", BodyAll)] |} |}.
Definition rollback_agent_version_route : route := {| r_name := "rollback_agent_version"; r_method := POST; r_path := core [Lit "agents"; Var "agent_id" ""; Lit "versions"; Var "agent_version_id" ":rollback"]; r_access := Bearer;
  r_guards := [];
  r_action := Forward {| c_service := "AgentsService"; c_op := "rollback_agent_version"; c_args := [("tenant_id", TenantOfCaller); ("agent_id", PathId "agent_id"); ("agent_version_id", PathId "agent_version_id"); ("principal_id", PrincipalOfCaller); ("change_request", BodyAll)] |} |}.
Definition deprecate_agent_version_route : route := {| r_name := "deprecate_agent_version"; r_method := POST; r_path := core [Lit "agents"; Var "agent_id" ""; Lit "versions"; Var "agent_version_id" ":deprecate"]; r_access := Bearer;
  r_guards := [];
  r_action := Unavailable |}.
Definition disable_agent_version_route : route := {| r_name := "disable_agent_version"; r_method := POST; r_path := core [Lit "agents"; Var "agent_id" ""; Lit "versions"; Var "agent_version_id" ":disable"]; r_access := Bearer;
  r_guards := [];
  r_action := Unavailable |}.
Definition create_node_agent_binding_route : route := {| r_name := "create_node_agent_binding"; r_method := POST; r_path := core [Lit "node-agent-bindings"]; r_access := Bearer;
  r_guards := [];
  r_action := Forward {| c_service := "AgentsService"; c_op := "create_node_agent_binding"; c_args := [("tenant_id", TenantOfCaller); ("node_agent_binding_create", BodyAll); ("principal_id", PrincipalOfCaller)] |} |}.
Definition list_nodes_by_agent_version_route : route := {| r_name := "list_nodes_by_agent_version"; r_method := GET; r_path := core [Lit "agent-versions"; Var "agent_version_id" ""; Lit "nodes"]; r_access := Bearer;
  r_guards := [];
  r_action := Forward {| c_service := "AgentsService"; c_op := "list_node_bindings_by_agent_version"; c_args := [("tenant_id", TenantOfCaller); ("agent_version_id", PathId "agent_version_id")] |} |}.
Definition agents_routes : list route := [list_agents_route; create_agent_route; list_agent_versions_route; create_agent_version_route; validate_agent_version_route; publish_agent_version_route; activate_agent_version_route; rollback_agent_version_route; deprecate_agent_version_route; disable_agent_version_route; create_node_agent_binding_route; list_nodes_by_agent_version_route].

(** ** [ToolsController] *)

Definition import_tool_route : route := {| r_name := "import_tool"; r_method := POST; r_path := core [Lit "tools"; Lit "import-tools"]; r_access := Bearer;
  r_guards := [];
  r_action := Forward {| c_service := "ToolsService"; c_op := "import_tool"; c_args := [("tenant_id", TenantOfCaller); ("tool_import_request", BodyAll); ("principal_id", PrincipalOfCaller)] |} |}.
Definition list_tools_route : route := {| r_name := "list_tools"; r_method := GET; r_path := core [Lit "tools"]; r_access := Bearer;
  r_guards := [];
  r_action := Forward {| c_service := "ToolsService"; c_op := "list_tools"; c_args := [("tenant_id", TenantOfCaller); ("limit", QueryText "limit")] |} |}.
Definition list_tool_configs_route : route := {| r_name := "list_tool_configs"; r_method := GET; r_path := core [Lit "tool-configs"]; r_access := Bearer;
  r_guards := [];
  r_action := Forward {| c_service := "ToolsService"; c_op := "list_tool_configs"; c_args := [("tenant_id", TenantOfCaller); ("status_filter", QueryText "status_filter"); ("limit", QueryText "limit")] |} |}.
Definition create_tool_config_route : route := {| r_name := "create_tool_config"; r_method := POST; r_path := core [Lit "tool-configs"]; r_access := Bearer;
  r_guards := [];
  r_action := Forward {| c_service := "ToolsService"; c_op := "create_tool_config"; c_args := [("tenant_id", TenantOfCaller); ("tool_config_create", BodyAll); ("principal_id", PrincipalOfCaller)] |} |}.
Definition publish_tool_config_route : route := {| r_name := "publish_tool_config"; r_method := POST; r_path := core [Lit "tool-configs"; Var "tool_config_id" ":publish"]; r_access := Bearer;
  r_guards := [];
  r_action := Forward {| c_service := "ToolsService"; c_op := "publish_tool_config"; c_args := [("tenant_id", TenantOfCaller); ("tool_config_id", PathId "tool_config_id"); ("principal_id", PrincipalOfCaller)] |} |}.
Definition deprecate_tool_config_route : route := {| r_name := "deprecate_tool_config"; r_method := POST; r_path := core [Lit "tool-configs"; Var "tool_config_id" ":deprecate"]; r_access := Bearer;
  r_guards := [];
  r_action := Forward {| c_service := "ToolsService"; c_op := "deprecate_tool_config"; c_args := [("tenant_id", TenantOfCaller); ("tool_config_id", PathId "tool_config_id"); ("principal_id", PrincipalOfCaller)] |} |}.
Definition disable_tool_config_route : route := {| r_name := "disable_tool_config"; r_method := POST; r_path := core [Lit "tool-configs"; Var "tool_config_id" ":disable"]; r_access := Bearer;
  r_guards := [];
  r_action := Forward {| c_service := "ToolsService"; c_op := "disable_tool_config"; c_args := [("tenant_id", TenantOfCaller); ("tool_config_id", PathId "tool_config_id"); ("principal_id", PrincipalOfCaller)] |} |}.
Definition create_agent_version_tool_binding_route : route := {| r_name := "create_agent_version_tool_binding"; r_method := POST; r_path := core [Lit "agent-version-tool-bindings"]; r_access := Bearer;
  r_guards := [];
  r_action := Forward {| c_service := "ToolsService"; c_op := "create_agent_version_tool_binding"; c_args := [("tenant_id", TenantOfCaller); ("binding_create", BodyAll); ("principal_id", PrincipalOfCaller)] |} |}.
Definition list_tools_by_agent_version_route : route := {| r_name := "list_tools_by_agent_version"; r_method := GET; r_path := core [Lit "agent-versions"; Var "agent_version_id" ""; Lit "tools"]; r_access := Bearer;
  r_guards := [];
  r_action := Forward {| c_service := "ToolsService"; c_op := "list_tool_bindings_by_agent_version"; c_args := [("tenant_id", TenantOfCaller); ("agent_version_id", PathId "agent_version_id")] |} |}.
Definition tools_routes : list route := [import_tool_route; list_tools_route; list_tool_configs_route; create_tool_config_route; publish_tool_config_route; deprecate_tool_config_route; disable_tool_config_route; create_agent_version_tool_binding_route; list_tools_by_agent_version_route].

(** ** [AIController] *)

Definition create_ai_execution_policy_route : route := {| r_name := "create_ai_execution_policy"; r_method := POST; r_path := core [Lit "ai-execution-policies"]; r_access := Bearer;
  r_guards := [];
  r_action := Forward {| c_service := "AIService"; c_op := "create_ai_execution_policy"; c_args := [("tenant_id", TenantOfCaller); ("ai_execution_policy_create", BodyAll); ("principal_id", PrincipalOfCaller)] |} |}.
Definition list_ai_execution_policy_versions_route : route := {| r_name := "list_ai_execution_policy_versions"; r_method := GET; r_path := core [Lit "ai-execution-policy-versions"]; r_access := Bearer;
  r_guards := [];
  r_action := Forward {| c_service := "AIService"; c_op := "list_ai_execution_policy_versions"; c_args := [("tenant_id", TenantOfCaller); ("ai_execution_policy_id", QueryText "ai_execution_policy_id"); ("status_filter", QueryText "status_filter"); ("limit", QueryText "limit")] |} |}.
Definition create_ai_execution_policy_version_route : route := {| r_name := "create_ai_execution_policy_version"; r_method := POST; r_path := core [Lit "ai-execution-policy-versions"]; r_access := Bearer;
  r_guards := [];
  r_action := Forward {| c_service := "AIService"; c_op := "create_ai_execution_policy_version"; c_args := [("tenant_id", TenantOfCaller); ("ai_execution_policy_version_create", BodyAll); ("principal_id", PrincipalOfCaller)] |} |}.
Definition validate_ai_execution_policy_version_route : route := {| r_name := "validate_ai_execution_policy_version"; r_method := POST; r_path := core [Lit "ai-execution-policies"; Var "ai_execution_policy_id" ""; Lit "versions"; Var "ai_execution_policy_version_id" ":validate"]; r_access := Bearer;
  r_guards := [];
  r_action := Forward {| c_service := "AIService"; c_op := "validate_ai_execution_policy_version"; c_args := [("tenant_id", TenantOfCaller); ("ai_execution_policy_id", PathText "ai_execution_policy_id"); ("ai_execution_policy_version_id", PathText "ai_execution_policy_version_id"); ("principal_id", PrincipalOfCaller)] |} |}.
Definition publish_ai_execution_policy_version_route : route := {| r_name := "publish_ai_execution_policy_version"; r_method := POST; r_path := core [Lit "ai-execution-policies"; Var "ai_execution_policy_id" ""; Lit "versions"; Var "ai_execution_policy_version_id" ":publish"]; r_access := Bearer;
  r_guards := [];
  r_action := Forward {| c_service := "AIService"; c_op := "publish_ai_execution_policy_version"; c_args := [("tenant_id", TenantOfCaller); ("ai_execution_policy_id", PathText "ai_execution_policy_id"); ("ai_execution_policy_version_id", PathText "ai_execution_policy_version_id"); ("principal_id", PrincipalOfCaller); ("change_request", BodyAll)] |} |}.
Definition deprecate_ai_execution_policy_version_route : route := {| r_name := "deprecate_ai_execution_policy_version"; r_method := POST; r_path := core [Lit "ai-execution-policies"; Var "ai_execution_policy_id" ""; Lit "versions"; Var "ai_execution_policy_version_id" ":deprecate"]; r_access := Bearer;
  r_guards := [];
  r_action := Forward {| c_service := "AIService"; c_op := "deprecate_ai_execution_policy_version"; c_args := [("tenant_id", TenantOfCaller); ("ai_execution_policy_id", PathText "ai_execution_policy_id"); ("ai_execution_policy_version_id", PathText "ai_execution_policy_version_id"); ("principal_id", PrincipalOfCaller); ("change_request", BodyAll)] |} |}.
Definition disable_ai_execution_policy_version_route : route := {| r_name := "disable_ai_execution_policy_version"; r_method := POST; r_path := core [Lit "ai-execution-policies"; Var "ai_execution_policy_id" ""; Lit "versions"; Var "ai_execution_policy_version_id" ":disable"]; r_access := Bearer;
  r_guards := [];
  r_action := Forward {| c_service := "AIService"; c_op := "disable_ai_execution_policy_version"; c_args := [("tenant_id", TenantOfCaller); ("ai_execution_policy_id", PathText "ai_execution_policy_id"); ("ai_execution_policy_version_id", PathText "ai_execution_policy_version_id"); ("principal_id", PrincipalOfCaller); ("change_request", BodyAll)] |} |}.
Definition list_models_route : route := {| r_name := "list_models"; r_method := GET; r_path := core [Lit "models"]; r_access := Bearer;
  r_guards := [];
  r_action := Forward {| c_service := "AIService"; c_op := "list_models"; c_args := [] |} |}.
Definition create_model_route : route := {| r_name := "create_model"; r_method := POST; r_path := core [Lit "models"]; r_access := Bearer;
  r_guards := [NeedScope "models:create"];
  r_action := Forward {| c_service := "AIService"; c_op := "create_model"; c_args := [("model_create", BodyAll)] |} |}.
Definition create_node_ai_execution_policy_binding_route : route := {| r_name := "create_node_ai_execution_policy_binding"; r_method := POST; r_path := core [Lit "node-ai-execution-policy-bindings"]; r_access := Bearer;
  r_guards := [NeedScope "node_ai_execution_policy_bindings:create"];
  r_action := Forward {| c_service := "AIService"; c_op := "create_node_ai_execution_policy_binding"; c_args := [("node_ai_execution_policy_binding_create", BodyAll)] |} |}.
Definition list_node_ai_execution_policy_bindings_route : route := {| r_name := "list_node_ai_execution_policy_bindings"; r_method := GET; r_path := core [Lit "node-ai-execution-policy-bindings"]; r_access := Bearer;
  r_guards := [NeedScope "node_ai_execution_policy_bindings:list"];
  r_action := Forward {| c_service := "AIService"; c_op := "list_node_ai_execution_policy_bindings"; c_args := [("node_id", QueryText "node_id"); ("ai_execution_policy_version_id", QueryText "ai_execution_policy_version_id"); ("limit", QueryText "limit")] |} |}.
Definition delete_node_ai_execution_policy_binding_route : route := {| r_name := "delete_node_ai_execution_policy_binding"; r_method := DELETE; r_path := core [Lit "node-ai-execution-policy-bindings"; Var "binding_id" ""]; r_access := Bearer;
  r_guards := [NeedScope "node_ai_execution_policy_bindings:delete"];
  r_action := Forward {| c_service := "AIService"; c_op := "delete_node_ai_execution_policy_binding"; c_args := [("binding_id", PathId "binding_id")] |} |}.
Definition ai_routes : list route := [create_ai_execution_policy_route; list_ai_execution_policy_versions_route; create_ai_execution_policy_version_route; validate_ai_execution_policy_version_route; publish_ai_execution_policy_version_route; deprecate_ai_execution_policy_version_route; disable_ai_execution_policy_version_route; list_models_route; create_model_route; create_node_ai_execution_policy_binding_route; list_node_ai_execution_policy_bindings_route; delete_node_ai_execution_policy_binding_route].

(** ** [RagController] *)

Definition list_rag_configs_route : route := {| r_name := "list_rag_configs"; r_method := GET; r_path := core [Lit "rag-configs"]; r_access := Bearer;
  r_guards := [];
  r_action := Forward {| c_service := "RagService"; c_op := "list_rag_configs"; c_args := [("tenant_id", TenantOfCaller); ("status_filter", QueryText "status_filter"); ("limit", QueryText "limit")] |} |}.
Definition create_rag_config_route : route := {| r_name := "create_rag_config"; r_method := POST; r_path := core [Lit "rag-configs"]; r_access := Bearer;
  r_guards := [];
  r_action := Forward {| c_service := "RagService"; c_op := "create_rag_config"; c_args := [("tenant_id", TenantOfCaller); ("rag_config_create", BodyAll); ("principal_id", PrincipalOfCaller)] |} |}.
Definition validate_rag_config_route : route := {| r_name := "validate_rag_config"; r_method := POST; r_path := core [Lit "rag-configs"; Var "rag_config_id" ":validate"]; r_access := Bearer;
  r_guards := [NeedScope "rag_configs:validate"];
  r_action := Forward {| c_service := "RagService"; c_op := "validate_rag_config"; c_args := [("tenant_id", TenantOfCaller); ("rag_config_id", PathText "rag_config_id"); ("principal_id", PrincipalOfCaller)] |} |}.
Definition publish_rag_config_route : route := {| r_name := "publish_rag_config"; r_method := POST; r_path := core [Lit "rag-configs"; Var "rag_config_id" ":publish"]; r_access := Bearer;
  r_guards := [];
  r_action := Forward {| c_service := "RagService"; c_op := "publish_rag_config"; c_args := [("tenant_id", TenantOfCaller); ("rag_config_id", PathText "rag_config_id"); ("principal_id", PrincipalOfCaller); ("change_request", BodyAll)] |} |}.
Definition deprecate_rag_config_route : route := {| r_name := "deprecate_rag_config"; r_method := POST; r_path := core [Lit "rag-configs"; Var "rag_config_id" ":deprecate"]; r_access := Bearer;
  r_guards := [];
  r_action := Forward {| c_service := "RagService"; c_op := "deprecate_rag_config"; c_args := [("tenant_id", TenantOfCaller); ("rag_config_id", PathText "rag_config_id"); ("principal_id", PrincipalOfCaller); ("change_request", BodyAll)] |} |}.
Definition disable_rag_config_route : route := {| r_name := "disable_rag_config"; r_method := POST; r_path := core [Lit "rag-configs"; Var "rag_config_id" ":disable"]; r_access := Bearer;
  r_guards := [];
  r_action := Forward {| c_service := "RagService"; c_op := "disable_rag_config"; c_args := [("tenant_id", TenantOfCaller); ("rag_config_id", PathText "rag_config_id"); ("principal_id", PrincipalOfCaller); ("change_request", BodyAll)] |} |}.
Definition list_vector_stores_route : route := {| r_name := "list_vector_stores"; r_method := GET; r_path := core [Lit "vector-stores"]; r_access := Bearer;
  r_guards := [NeedScope "vector_stores:list"];
  r_action := Forward {| c_service := "RagService"; c_op := "list_vector_stores"; c_args := [("tenant_id", TenantOfCaller)] |} |}.
Definition create_vector_store_route : route := {| r_name := "create_vector_store"; r_method := POST; r_path := core [Lit "vector-stores"]; r_access := Bearer;
  r_guards := [NeedScope "vector_stores:create"];
  r_action := Forward {| c_service := "RagService"; c_op := "create_vector_store"; c_args := [("tenant_id", TenantOfCaller); ("vector_store_create", BodyAll)] |} |}.
Definition ingest_document_route : route := {| r_name := "ingest_document"; r_method := POST; r_path := core [Lit "rag-configs"; Var "rag_config_id" ""; Lit "documents:ingest"]; r_access := Bearer;
  r_guards := [PathUuid "rag_config_id"; BodyNotEmpty "rag_documents_required"; BodyAtMost (Z.to_nat 10000) "rag_documents_batch_too_large"];
  r_action := Background {| c_service := "RagRuntimeService"; c_op := "ingest_documents_batch"; c_args := [("tenant_id", TenantOfCaller); ("rag_config_id", PathId "rag_config_id"); ("documents", BodyAll)] |} |}.
Definition ingest_document_from_media_route : route := {| r_name := "ingest_document_from_media"; r_method := POST; r_path := core [Lit "rag-configs"; Var "rag_config_id" ""; Lit "documents:ingestFromMedia"]; r_access := Bearer;
  r_guards := [Configured "RagMediaIngestService" (DomainValidationException "rag_media_ingest_unconfigured"); NeedScope "rag_configs:create"; PathUuid "rag_config_id"];
  r_action := Forward {| c_service := "RagMediaIngestService"; c_op := "schedule_ingest_from_media"; c_args := [("tenant_id", TenantOfCaller); ("rag_config_id", PathId "rag_config_id"); ("body", BodyAll)] |} |}.
Definition list_documents_route : route := {| r_name := "list_documents"; r_method := GET; r_path := core [Lit "rag-documents"]; r_access := Bearer;
  r_guards := [];
  r_action := Forward {| c_service := "RagRuntimeService"; c_op := "list_documents"; c_args := [("tenant_id", TenantOfCaller); ("limit", QueryText "limit"); ("rag_config_id", QueryText "rag_config_id")] |} |}.
Definition list_chunks_route : route := {| r_name := "list_chunks"; r_method := GET; r_path := core [Lit "rag-documents"; Var "document_id" ""; Lit "chunks"]; r_access := Bearer;
  r_guards := [PathUuid "document_id"];
  r_action := Forward {| c_service := "RagRuntimeService"; c_op := "list_chunks"; c_args := [("document_id", PathId "document_id"); ("limit", QueryText "limit")] |} |}.
Definition list_chunking_rules_route : route := {| r_name := "list_chunking_rules"; r_method := GET; r_path := core [Lit "rag-chunking-rules"]; r_access := Bearer;
  r_guards := [NeedScope "rag_configs:list"];
  r_action := Forward {| c_service := "RagService"; c_op := "list_chunking_rules"; c_args := [("tenant_id", TenantOfCaller); ("limit", QueryText "limit")] |} |}.
Definition create_chunking_rule_route : route := {| r_name := "create_chunking_rule"; r_method := POST; r_path := core [Lit "rag-chunking-rules"]; r_access := Bearer;
  r_guards := [NeedScope "rag_configs:create"];
  r_action := Forward {| c_service := "RagService"; c_op := "create_chunking_rule"; c_args := [("tenant_id", TenantOfCaller); ("payload", BodyAll); ("principal_id", PrincipalOfCaller)] |} |}.
Definition update_chunking_rule_route : route := {| r_name := "update_chunking_rule"; r_method := PATCH; r_path := core [Lit "rag-chunking-rules"; Var "rag_chunking_rule_id" ""]; r_access := Bearer;
  r_guards := [NeedScope "rag_configs:create"];
  r_action := Forward {| c_service := "RagService"; c_op := "update_chunking_rule"; c_args := [("tenant_id", TenantOfCaller); ("rag_chunking_rule_id", PathText "rag_chunking_rule_id"); ("payload", BodyField "rule"); ("principal_id", PrincipalOfCaller); ("change_request", BodyField "change")] |} |}.
Definition preview_rag_retrieval_route : route := {| r_name := "preview_rag_retrieval"; r_method := POST; r_path := core [Lit "rag-retrieval:preview"]; r_access := Bearer;
  r_guards := [NeedScope "rag_configs:list"];
  r_action := Forward {| c_service := "RagRuntimeService"; c_op := "get_context"; c_args := [("tenant_id", TenantOfCaller); ("rag_config_id", BodyField "rag_config_id"); ("user_id", PrincipalOfCaller); ("user_input", BodyField "user_input"); ("filters_override", BodyField "filters_override"); ("top_k_override", BodyField "top_k_override")] |} |}.
Definition rag_routes : list route := [list_rag_configs_route; create_rag_config_route; validate_rag_config_route; publish_rag_config_route; deprecate_rag_config_route; disable_rag_config_route; list_vector_stores_route; create_vector_store_route; ingest_document_route; ingest_document_from_media_route; list_documents_route; list_chunks_route; list_chunking_rules_route; create_chunking_rule_route; update_chunking_rule_route; preview_rag_retrieval_route].

(** ** [HumanSLAController] *)

Definition list_cases_route : route := {| r_name := "list_cases"; r_method := GET; r_path := core [Lit "sla-cases"]; r_access := Bearer;
  r_guards := [];
  r_action := Forward {| c_service := "HumanSLAService"; c_op := "list_cases"; c_args := [("tenant_id", TenantOfCaller); ("status", QueryText "status"); ("limit", QueryText "limit"); ("offset", QueryText "offset")] |} |}.
Definition get_case_route : route := {| r_name := "get_case"; r_method := GET; r_path := core [Lit "sla-cases"; Var "sla_case_id" ""]; r_access := Bearer;
  r_guards := [];
  r_action := Forward {| c_service := "HumanSLAService"; c_op := "get_case_detail"; c_args := [("tenant_id", TenantOfCaller); ("sla_case_id", PathId "sla_case_id")] |} |}.
Definition assign_case_route : route := {| r_name := "assign_case"; r_method := PATCH; r_path := core [Lit "sla-cases"; Var "sla_case_id" ""; Lit "assign"]; r_access := Bearer;
  r_guards := [];
  r_action := Forward {| c_service := "HumanSLAService"; c_op := "assign_case"; c_args := [("tenant_id", TenantOfCaller); ("sla_case_id", PathId "sla_case_id"); ("human_agent_id", BodyField "human_agent_id")] |} |}.
Definition resolve_case_route : route := {| r_name := "resolve_case"; r_method := PATCH; r_path := core [Lit "sla-cases"; Var "sla_case_id" ""; Lit "resolve"]; r_access := Bearer;
  r_guards := [];
  r_action := Forward {| c_service := "HumanSLAService"; c_op := "resolve_case"; c_args := [("tenant_id", TenantOfCaller); ("sla_case_id", PathId "sla_case_id"); ("payload", BodyAll)] |} |}.
Definition human_sla_routes : list route := [list_cases_route; get_case_route; assign_case_route; resolve_case_route].

(** ** [ExecutionPlaneController] *)

Definition create_flow_run_route : route := {| r_name := "create_flow_run"; r_method := POST; r_path := core [Lit "executions"; Lit "flow-runs"]; r_access := Bearer;
  r_guards := [NeedHeader "Idempotency-Key" "missing_idempotency_key"];
  r_action := Forward {| c_service := "ExecutionBoundary"; c_op := "ingest_interaction_and_create_flow_run"; c_args := [("auth", CallerItself); ("endpoint", UrlPath); ("idempotency_key", HeaderText "Idempotency-Key"); ("flow_run", BodyAll); ("channel", Fixed "http"); ("headers", AllHeaders); ("external_message_id", HeaderText "X-External-Message-Id"); ("request_id", HeaderText "X-Request-Id"); ("trace_id", TraceId); ("wait", QueryText "wait")] |} |}.
Definition create_tool_run_route : route := {| r_name := "create_tool_run"; r_method := POST; r_path := core [Lit "executions"; Lit "tool-runs"]; r_access := Bearer;
  r_guards := [NeedHeader "Idempotency-Key" "missing_idempotency_key"];
  r_action := Forward {| c_service := "ExecutionBoundary"; c_op := "create_tool_run"; c_args := [("auth", CallerItself); ("endpoint", UrlPath); ("idempotency_key", HeaderText "Idempotency-Key"); ("tool_run", BodyAll)] |} |}.
Definition execute_tool_run_route : route := {| r_name := "execute_tool_run"; r_method := POST; r_path := core [Lit "executions"; Lit "tool-runs"; Var "tool_run_id" ":execute"]; r_access := Bearer;
  r_guards := [PathUuid "tool_run_id"];
  r_action := Forward {| c_service := "ExecutionBoundary"; c_op := "execute_tool_run"; c_args := [("auth", CallerItself); ("tool_run_id", PathId "tool_run_id")] |} |}.
Definition get_flow_run_route : route := {| r_name := "get_flow_run"; r_method := GET; r_path := core [Lit "executions"; Lit "flow-runs"; Var "flow_run_id" ""]; r_access := Bearer;
  r_guards := [];
  r_action := Forward {| c_service := "ExecutionBoundary"; c_op := "get_flow_run"; c_args := [("auth", CallerItself); ("flow_run_id", PathId "flow_run_id")] |} |}.
Definition resume_flow_run_route : route := {| r_name := "resume_flow_run"; r_method := POST; r_path := core [Lit "executions"; Lit "flow-runs"; Var "flow_run_id" ":resume"]; r_access := Bearer;
  r_guards := [PathUuid "flow_run_id"];
  r_action := Forward {| c_service := "ExecutionBoundary"; c_op := "resume_flow_run"; c_args := [("auth", CallerItself); ("flow_run_id", PathId "flow_run_id"); ("input_payload", BodyAll); ("channel", Fixed "http"); ("headers", AllHeaders); ("external_message_id", HeaderText "X-External-Message-Id"); ("request_id", HeaderText "X-Request-Id"); ("trace_id", TraceId)] |} |}.
Definition get_graph_state_route : route := {| r_name := "get_graph_state"; r_method := GET; r_path := core [Lit "executions"; Lit "flow-runs"; Var "flow_run_id" ""; Lit "graph-state"]; r_access := Bearer;
  r_guards := [];
  r_action := Forward {| c_service := "ExecutionBoundary"; c_op := "get_graph_state"; c_args := [("auth", CallerItself); ("flow_run_id", PathId "flow_run_id")] |} |}.
Definition list_node_runs_route : route := {| r_name := "list_node_runs"; r_method := GET; r_path := core [Lit "executions"; Lit "node-runs"]; r_access := Bearer;
  r_guards := [];
  r_action := Forward {| c_service := "ExecutionBoundary"; c_op := "list_node_runs"; c_args := [("auth", CallerItself); ("flow_run_id", QueryText "flow_run_id"); ("limit", QueryText "limit")] |} |}.
Definition list_execution_events_route : route := {| r_name := "list_execution_events"; r_method := GET; r_path := core [Lit "executions"; Lit "execution-events"]; r_access := Bearer;
  r_guards := [QueryUuids ["flow_run_id"; "correlation_id"] "Invalid flow_run_id or correlation_id format; expected UUID."];
  r_action := Forward {| c_service := "ExecutionBoundary"; c_op := "list_execution_events"; c_args := [("flow_run_id", QueryId "flow_run_id"); ("correlation_id", QueryId "correlation_id"); ("limit", QueryText "limit"); ("auth", CallerItself)] |} |}.
Definition execution_plane_routes : list route := [create_flow_run_route; create_tool_run_route; execute_tool_run_route; get_flow_run_route; resume_flow_run_route; get_graph_state_route; list_node_runs_route; list_execution_events_route].

(** ** [AgentRunController] *)

Definition create_agent_run_route : route := {| r_name := "create_agent_run"; r_method := POST; r_path := core [Lit "executions"; Lit "agent-runs"]; r_access := Bearer;
  r_guards := [NeedHeader "Idempotency-Key" "missing_idempotency_key"];
  r_action := Forward {| c_service := "ExecutionBoundary"; c_op := "create_agent_run"; c_args := [("auth", CallerItself); ("endpoint", UrlPath); ("idempotency_key", HeaderText "Idempotency-Key"); ("agent_run", BodyAll); ("wait", QueryText "wait")] |} |}.
Definition list_agent_runs_route : route := {| r_name := "list_agent_runs"; r_method := GET; r_path := core [Lit "executions"; Lit "agent-runs"]; r_access := Bearer;
  r_guards := [];
  r_action := Forward {| c_service := "ExecutionBoundary"; c_op := "list_agent_run_summaries"; c_args := [("auth", CallerItself); ("agent_id", QueryText "agent_id"); ("flow_run_id", QueryText "flow_run_id"); ("root_agent_run_id", QueryText "root_agent_run_id"); ("parent_agent_run_id", QueryText "parent_agent_run_id"); ("limit", QueryText "limit")] |} |}.
Definition get_agent_run_route : route := {| r_name := "get_agent_run"; r_method := GET; r_path := core [Lit "executions"; Lit "agent-runs"; Var "agent_run_id" ""]; r_access := Bearer;
  r_guards := [];
  r_action := Forward {| c_service := "ExecutionBoundary"; c_op := "get_agent_run"; c_args := [("auth", CallerItself); ("agent_run_id", PathId "agent_run_id")] |} |}.
Definition cancel_agent_run_route : route := {| r_name := "cancel_agent_run"; r_method := POST; r_path := core [Lit "executions"; Lit "agent-runs"; Var "agent_run_id" ":cancel"]; r_access := Bearer;
  r_guards := [];
  r_action := Forward {| c_service := "ExecutionBoundary"; c_op := "cancel_agent_run"; c_args := [("auth", CallerItself); ("agent_run_id", PathId "agent_run_id")] |} |}.
Definition agent_run_routes : list route := [create_agent_run_route; list_agent_runs_route; get_agent_run_route; cancel_agent_run_route].

(** ** [A2AController] *)

Definition get_agent_card_route : route := {| r_name := "get_agent_card"; r_method := GET; r_path := core [Lit "agents"; Var "agent_id" ""; Lit "agent-card"]; r_access := Bearer;
  r_guards := [];
  r_action := Forward {| c_service := "AgentCardService"; c_op := "build_agent_card"; c_args := [("tenant_id", TenantOfCaller); ("agent_id", PathId "agent_id")] |} |}.
Definition handle_json_rpc_route : route := {| r_name := "handle_json_rpc"; r_method := POST; r_path := core [Lit "agents"; Var "agent_id" ""; Lit "a2a"]; r_access := Bearer;
  r_guards := [];
  r_action := Forward {| c_service := "A2AController"; c_op := "handle_json_rpc"; c_args := [("auth", CallerItself); ("agent_id", PathId "agent_id"); ("rpc", BodyAll)] |} |}.
Definition a2a_routes : list route := [get_agent_card_route; handle_json_rpc_route].

(** ** [ConversationController] *)

Definition send_message_route : route := {| r_name := "send_message"; r_method := POST; r_path := core [Lit "conversations"]; r_access := BearerOrKey;
  r_guards := [GivenHeader "Idempotency-Key" "missing_idempotency_key"; NaturalHeader "Last-Event-ID" "invalid_last_event_id"];
  r_action := Forward {| c_service := "ConversationController"; c_op := "send_message"; c_args := [("auth", CallerItself); ("request", BodyAll)] |} |}.
Definition conversation_routes : list route := [send_message_route].

(** ** [ConversationReadController] *)

Definition list_interactions_route : route := {| r_name := "list_interactions"; r_method := GET; r_path := core [Lit "interactions"]; r_access := Bearer;
  r_guards := [ExactlyOneQuery "session_id" "user_id"];
  r_action := Forward {| c_service := "ConversationReadService"; c_op := "list_interactions"; c_args := [("tenant_id", TenantOfCaller); ("session_id", QueryText "session_id"); ("user_id", QueryText "user_id"); ("limit", QueryText "limit"); ("offset", QueryText "offset")] |} |}.
Definition list_sessions_route : route := {| r_name := "list_sessions"; r_method := GET; r_path := core [Lit "sessions"]; r_access := Bearer;
  r_guards := [];
  r_action := Forward {| c_service := "ConversationReadService"; c_op := "list_sessions"; c_args := [("tenant_id", TenantOfCaller); ("user_id", QueryText "user_id"); ("limit", QueryText "limit"); ("offset", QueryText "offset")] |} |}.
Definition list_end_users_route : route := {| r_name := "list_end_users"; r_method := GET; r_path := core [Lit "end-users"]; r_access := Bearer;
  r_guards := [];
  r_action := Forward {| c_service := "ConversationReadService"; c_op := "list_end_users"; c_args := [("tenant_id", TenantOfCaller); ("limit", QueryText "limit"); ("offset", QueryText "offset")] |} |}.
Definition get_end_user_route : route := {| r_name := "get_end_user"; r_method := GET; r_path := core [Lit "end-users"; Var "user_id" ""]; r_access := Bearer;
  r_guards := [];
  r_action := Forward {| c_service := "ConversationReadService"; c_op := "get_end_user_detail"; c_args := [("tenant_id", TenantOfCaller); ("user_id", PathText "user_id")] |} |}.
Definition conversation_read_routes : list route := [list_interactions_route; list_sessions_route; list_end_users_route; get_end_user_route].

(** ** [OnboardingController] *)

Definition list_onboardings_route : route := {| r_name := "list_onboardings"; r_method := GET; r_path := core [Lit "onboardings"]; r_access := Bearer;
  r_guards := [];
  r_action := Forward {| c_service := "OnboardingService"; c_op := "list_onboardings"; c_args := [("tenant_id", TenantOfCaller); ("limit", QueryText "limit")] |} |}.
Definition create_onboarding_route : route := {| r_name := "create_onboarding"; r_method := POST; r_path := core [Lit "onboardings"]; r_access := Bearer;
  r_guards := [];
  r_action := Forward {| c_service := "OnboardingService"; c_op := "create_onboarding"; c_args := [("tenant_id", TenantOfCaller); ("onboarding_create", BodyAll); ("principal_id", PrincipalOfCaller)] |} |}.
Definition create_onboarding_run_route : route := {| r_name := "create_onboarding_run"; r_method := POST; r_path := core [Lit "onboarding-runs"]; r_access := Bearer;
  r_guards := [];
  r_action := Forward {| c_service := "OnboardingService"; c_op := "create_onboarding_run"; c_args := [("tenant_id", TenantOfCaller); ("onboarding_run_create", BodyAll); ("principal_id", PrincipalOfCaller)] |} |}.
Definition get_onboarding_run_route : route := {| r_name := "get_onboarding_run"; r_method := GET; r_path := core [Lit "onboarding-runs"; Var "onboarding_run_id" ""]; r_access := Bearer;
  r_guards := [];
  r_action := Forward {| c_service := "OnboardingService"; c_op := "get_onboarding_run"; c_args := [("tenant_id", TenantOfCaller); ("onboarding_run_id", PathText "onboarding_run_id")] |} |}.
Definition list_onboarding_versions_route : route := {| r_name := "list_onboarding_versions"; r_method := GET; r_path := core [Lit "onboardings"; Var "onboarding_id" ""; Lit "versions"]; r_access := Bearer;
  r_guards := [];
  r_action := Forward {| c_service := "OnboardingService"; c_op := "list_onboarding_versions"; c_args := [("tenant_id", TenantOfCaller); ("onboarding_id", PathText "onboarding_id")] |} |}.
Definition list_steps_route : route := {| r_name := "list_steps"; r_method := GET; r_path := core [Lit "onboarding-runs"; Var "onboarding_run_id" ""; Lit "steps"]; r_access := Bearer;
  r_guards := [];
  r_action := Forward {| c_service := "OnboardingService"; c_op := "list_steps"; c_args := [("tenant_id", TenantOfCaller); ("onboarding_run_id", PathText "onboarding_run_id")] |} |}.
Definition advance_step_route : route := {| r_name := "advance_step"; r_method := POST; r_path := core [Lit "onboarding-runs"; Var "onboarding_run_id" ""; Lit "steps"; Var "step_run_id" ""; Lit "advance"]; r_access := Bearer;
  r_guards := [];
  r_action := Forward {| c_service := "OnboardingService"; c_op := "advance_step"; c_args := [("tenant_id", TenantOfCaller); ("onboarding_run_id", PathText "onboarding_run_id"); ("step_run_id", PathText "step_run_id"); ("input_payload", BodyField "input_payload"); ("principal_id", PrincipalOfCaller)] |} |}.
Definition onboarding_routes : list route := [list_onboardings_route; create_onboarding_route; create_onboarding_run_route; get_onboarding_run_route; list_onboarding_versions_route; list_steps_route; advance_step_route].

(** ** [PromptController] *)

Definition get_prompt_route : route := {| r_name := "get_prompt"; r_method := GET; r_path := core [Lit "nodes"; Var "node_type" ""; Lit "prompt"]; r_access := Bearer;
  r_guards := [];
  r_action := Forward {| c_service := "PromptService"; c_op := "get_prompt"; c_args := [("node_type", PathText "node_type")] |} |}.
Definition create_or_update_prompt_route : route := {| r_name := "create_or_update_prompt"; r_method := POST; r_path := core [Lit "nodes"; Var "node_type" ""; Lit "prompt"]; r_access := Bearer;
  r_guards := [BodyTextIsPath "node_type" "node_type_mismatch"];
  r_action := Forward {| c_service := "PromptService"; c_op := "create_or_update_prompt"; c_args := [("create", BodySigned "created_by"); ("tenant_id", TenantOfCaller)] |} |}.
Definition delete_prompt_route : route := {| r_name := "delete_prompt"; r_method := DELETE; r_path := core [Lit "nodes"; Var "node_type" ""; Lit "prompt"]; r_access := Bearer;
  r_guards := [];
  r_action := Forward {| c_service := "PromptService"; c_op := "deactivate_prompt"; c_args := [("node_type", PathText "node_type"); ("tenant_id", TenantOfCaller)] |} |}.
Definition prompt_routes : list route := [get_prompt_route; create_or_update_prompt_route; delete_prompt_route].

(** ** [UserPromptsController] *)

Definition list_user_prompts_route : route := {| r_name := "list_user_prompts"; r_method := GET; r_path := core [Lit "user-prompts"]; r_access := Bearer;
  r_guards := [];
  r_action := Forward {| c_service := "UserPromptsService"; c_op := "list_user_prompts"; c_args := [("tenant_id", TenantOfCaller)] |} |}.
Definition create_user_prompt_route : route := {| r_name := "create_user_prompt"; r_method := POST; r_path := core [Lit "user-prompts"]; r_access := Bearer;
  r_guards := [];
  r_action := Forward {| c_service := "UserPromptsService"; c_op := "create_user_prompt"; c_args := [("tenant_id", TenantOfCaller); ("create", BodyAll); ("principal_id", PrincipalOfCaller)] |} |}.
Definition get_user_prompt_route : route := {| r_name := "get_user_prompt"; r_method := GET; r_path := core [Lit "user-prompts"; Var "user_prompt_id" ""]; r_access := Bearer;
  r_guards := [];
  r_action := Forward {| c_service := "UserPromptsService"; c_op := "get_user_prompt"; c_args := [("tenant_id", TenantOfCaller); ("user_prompt_id", PathId "user_prompt_id")] |} |}.
Definition delete_user_prompt_route : route := {| r_name := "delete_user_prompt"; r_method := DELETE; r_path := core [Lit "user-prompts"; Var "user_prompt_id" ""]; r_access := Bearer;
  r_guards := [];
  r_action := Forward {| c_service := "UserPromptsService"; c_op := "deactivate_user_prompt"; c_args := [("tenant_id", TenantOfCaller); ("user_prompt_id", PathId "user_prompt_id")] |} |}.
Definition user_prompts_routes : list route := [list_user_prompts_route; create_user_prompt_route; get_user_prompt_route; delete_user_prompt_route].

(** ** [GovernancePoliciesController] *)

Definition create_runtime_policy_route : route := {| r_name := "create_runtime_policy"; r_method := POST; r_path := core [Lit "runtime-policies"]; r_access := Bearer;
  r_guards := [NeedScope "runtime_policies:create"];
  r_action := Forward {| c_service := "GovernancePoliciesService"; c_op := "create_runtime_policy"; c_args := [("tenant_id", TenantOfCaller); ("runtime_policy_create", BodyAll); ("principal_id", PrincipalOfCaller)] |} |}.
Definition list_runtime_policies_route : route := {| r_name := "list_runtime_policies"; r_method := GET; r_path := core [Lit "runtime-policies"]; r_access := Bearer;
  r_guards := [NeedScope "runtime_policies:list"];
  r_action := Forward {| c_service := "GovernancePoliciesService"; c_op := "list_runtime_policies"; c_args := [("tenant_id", TenantOfCaller)] |} |}.
Definition get_runtime_policy_route : route := {| r_name := "get_runtime_policy"; r_method := GET; r_path := core [Lit "runtime-policies"; Var "runtime_policy_id" ""]; r_access := Bearer;
  r_guards := [NeedScope "runtime_policies:read"];
  r_action := Forward {| c_service := "GovernancePoliciesService"; c_op := "get_runtime_policy"; c_args := [("tenant_id", TenantOfCaller); ("runtime_policy_id", PathId "runtime_policy_id")] |} |}.
Definition update_runtime_policy_route : route := {| r_name := "update_runtime_policy"; r_method := PATCH; r_path := core [Lit "runtime-policies"; Var "runtime_policy_id" ""]; r_access := Bearer;
  r_guards := [NeedScope "runtime_policies:update"];
  r_action := Forward {| c_service := "GovernancePoliciesService"; c_op := "update_runtime_policy"; c_args := [("tenant_id", TenantOfCaller); ("runtime_policy_id", PathId "runtime_policy_id"); ("payload", BodyAll)] |} |}.
Definition activate_runtime_policy_route : route := {| r_name := "activate_runtime_policy"; r_method := POST; r_path := core [Lit "runtime-policies"; Var "runtime_policy_id" ":activate"]; r_access := Bearer;
  r_guards := [NeedScope "runtime_policies:activate"];
  r_action := Forward {| c_service := "GovernancePoliciesService"; c_op := "activate_runtime_policy"; c_args := [("tenant_id", TenantOfCaller); ("runtime_policy_id", PathId "runtime_policy_id"); ("principal_id", PrincipalOfCaller); ("change_request", BodyAll)] |} |}.
Definition create_access_policy_route : route := {| r_name := "create_access_policy"; r_method := POST; r_path := core [Lit "access-policies"]; r_access := Bearer;
  r_guards := [NeedScope "access_policies:create"];
  r_action := Forward {| c_service := "GovernancePoliciesService"; c_op := "create_access_policy"; c_args := [("tenant_id", TenantOfCaller); ("payload", BodyAll)] |} |}.
Definition list_access_policies_route : route := {| r_name := "list_access_policies"; r_method := GET; r_path := core [Lit "access-policies"]; r_access := Bearer;
  r_guards := [NeedScope "access_policies:list"];
  r_action := Forward {| c_service := "GovernancePoliciesService"; c_op := "list_access_policies"; c_args := [("tenant_id", TenantOfCaller)] |} |}.
Definition get_access_policy_route : route := {| r_name := "get_access_policy"; r_method := GET; r_path := core [Lit "access-policies"; Var "access_policy_id" ""]; r_access := Bearer;
  r_guards := [NeedScope "access_policies:read"];
  r_action := Forward {| c_service := "GovernancePoliciesService"; c_op := "get_access_policy"; c_args := [("tenant_id", TenantOfCaller); ("access_policy_id", PathId "access_policy_id")] |} |}.
Definition create_access_policy_version_route : route := {| r_name := "create_access_policy_version"; r_method := POST; r_path := core [Lit "access-policies"; Var "access_policy_id" ""; Lit "versions"]; r_access := Bearer;
  r_guards := [NeedScope "access_policy_versions:create"];
  r_action := Forward {| c_service := "GovernancePoliciesService"; c_op := "create_access_policy_version"; c_args := [("tenant_id", TenantOfCaller); ("access_policy_id", PathId "access_policy_id"); ("payload", BodyAll)] |} |}.
Definition publish_access_policy_version_route : route := {| r_name := "publish_access_policy_version"; r_method := POST; r_path := core [Lit "access-policies"; Lit "versions"; Var "access_policy_version_id" ":publish"]; r_access := Bearer;
  r_guards := [NeedScope "access_policy_versions:publish"];
  r_action := Forward {| c_service := "GovernancePoliciesService"; c_op := "publish_access_policy_version"; c_args := [("tenant_id", TenantOfCaller); ("access_policy_version_id", PathId "access_policy_version_id")] |} |}.
Definition create_rate_limit_policy_route : route := {| r_name := "create_rate_limit_policy"; r_method := POST; r_path := core [Lit "rate-limit-policies"]; r_access := Bearer;
  r_guards := [NeedScope "rate_limit_policies:create"];
  r_action := Forward {| c_service := "GovernancePoliciesService"; c_op := "create_rate_limit_policy"; c_args := [("tenant_id", TenantOfCaller); ("payload", BodyAll)] |} |}.
Definition list_rate_limit_policies_route : route := {| r_name := "list_rate_limit_policies"; r_method := GET; r_path := core [Lit "rate-limit-policies"]; r_access := Bearer;
  r_guards := [NeedScope "rate_limit_policies:list"];
  r_action := Forward {| c_service := "GovernancePoliciesService"; c_op := "list_rate_limit_policies"; c_args := [("tenant_id", TenantOfCaller)] |} |}.
Definition get_rate_limit_policy_route : route := {| r_name := "get_rate_limit_policy"; r_method := GET; r_path := core [Lit "rate-limit-policies"; Var "rate_limit_policy_id" ""]; r_access := Bearer;
  r_guards := [NeedScope "rate_limit_policies:read"];
  r_action := Forward {| c_service := "GovernancePoliciesService"; c_op := "get_rate_limit_policy"; c_args := [("tenant_id", TenantOfCaller); ("rate_limit_policy_id", PathId "rate_limit_policy_id")] |} |}.
Definition create_rate_limit_policy_version_route : route := {| r_name := "create_rate_limit_policy_version"; r_method := POST; r_path := core [Lit "rate-limit-policies"; Var "rate_limit_policy_id" ""; Lit "versions"]; r_access := Bearer;
  r_guards := [NeedScope "rate_limit_policy_versions:create"];
  r_action := Forward {| c_service := "GovernancePoliciesService"; c_op := "create_rate_limit_policy_version"; c_args := [("tenant_id", TenantOfCaller); ("rate_limit_policy_id", PathId "rate_limit_policy_id"); ("payload", BodyAll)] |} |}.
Definition publish_rate_limit_policy_version_route : route := {| r_name := "publish_rate_limit_policy_version"; r_method := POST; r_path := core [Lit "rate-limit-policies"; Lit "versions"; Var "rate_limit_policy_version_id" ":publish"]; r_access := Bearer;
  r_guards := [NeedScope "rate_limit_policy_versions:publish"];
  r_action := Forward {| c_service := "GovernancePoliciesService"; c_op := "publish_rate_limit_policy_version"; c_args := [("tenant_id", TenantOfCaller); ("rate_limit_policy_version_id", PathId "rate_limit_policy_version_id")] |} |}.
Definition create_billing_policy_route : route := {| r_name := "create_billing_policy"; r_method := POST; r_path := core [Lit "billing-policies"]; r_access := Bearer;
  r_guards := [NeedScope "billing_policies:create"];
  r_action := Forward {| c_service := "GovernancePoliciesService"; c_op := "create_billing_policy"; c_args := [("tenant_id", TenantOfCaller); ("payload", BodyAll)] |} |}.
Definition list_billing_policies_route : route := {| r_name := "list_billing_policies"; r_method := GET; r_path := core [Lit "billing-policies"]; r_access := Bearer;
  r_guards := [NeedScope "billing_policies:list"];
  r_action := Forward {| c_service := "GovernancePoliciesService"; c_op := "list_billing_policies"; c_args := [("tenant_id", TenantOfCaller)] |} |}.
Definition get_billing_policy_route : route := {| r_name := "get_billing_policy"; r_method := GET; r_path := core [Lit "billing-policies"; Var "billing_policy_id" ""]; r_access := Bearer;
  r_guards := [NeedScope "billing_policies:read"];
  r_action := Forward {| c_service := "GovernancePoliciesService"; c_op := "get_billing_policy"; c_args := [("tenant_id", TenantOfCaller); ("billing_policy_id", PathId "billing_policy_id")] |} |}.
Definition create_billing_policy_version_route : route := {| r_name := "create_billing_policy_version"; r_method := POST; r_path := core [Lit "billing-policies"; Var "billing_policy_id" ""; Lit "versions"]; r_access := Bearer;
  r_guards := [NeedScope "billing_policy_versions:create"];
  r_action := Forward {| c_service := "GovernancePoliciesService"; c_op := "create_billing_policy_version"; c_args := [("tenant_id", TenantOfCaller); ("billing_policy_id", PathId "billing_policy_id"); ("payload", BodyAll)] |} |}.
Definition publish_billing_policy_version_route : route := {| r_name := "publish_billing_policy_version"; r_method := POST; r_path := core [Lit "billing-policies"; Lit "versions"; Var "billing_policy_version_id" ":publish"]; r_access := Bearer;
  r_guards := [NeedScope "billing_policy_versions:publish"];
  r_action := Forward {| c_service := "GovernancePoliciesService"; c_op := "publish_billing_policy_version"; c_args := [("tenant_id", TenantOfCaller); ("billing_policy_version_id", PathId "billing_policy_version_id")] |} |}.
Definition activate_billing_policy_version_route : route := {| r_name := "activate_billing_policy_version"; r_method := POST; r_path := core [Lit "billing-policies"; Lit "versions"; Var "billing_policy_version_id" ":activate"]; r_access := Bearer;
  r_guards := [NeedScope "billing_policy_versions:activate"];
  r_action := Forward {| c_service := "GovernancePoliciesService"; c_op := "activate_billing_policy_version"; c_args := [("tenant_id", TenantOfCaller); ("billing_policy_version_id", PathId "billing_policy_version_id"); ("principal_id", PrincipalOfCaller); ("change_request", BodyAll)] |} |}.
Definition create_memory_policy_route : route := {| r_name := "create_memory_policy"; r_method := POST; r_path := core [Lit "memory-policies"]; r_access := Bearer;
  r_guards := [NeedScope "memory_policies:create"];
  r_action := Forward {| c_service := "GovernancePoliciesService"; c_op := "create_memory_policy"; c_args := [("tenant_id", TenantOfCaller); ("payload", BodyAll)] |} |}.
Definition list_memory_policies_route : route := {| r_name := "list_memory_policies"; r_method := GET; r_path := core [Lit "memory-policies"]; r_access := Bearer;
  r_guards := [NeedScope "memory_policies:list"];
  r_action := Forward {| c_service := "GovernancePoliciesService"; c_op := "list_memory_policies"; c_args := [("tenant_id", TenantOfCaller)] |} |}.
Definition get_memory_policy_route : route := {| r_name := "get_memory_policy"; r_method := GET; r_path := core [Lit "memory-policies"; Var "memory_policy_id" ""]; r_access := Bearer;
  r_guards := [NeedScope "memory_policies:read"];
  r_action := Forward {| c_service := "GovernancePoliciesService"; c_op := "get_memory_policy"; c_args := [("tenant_id", TenantOfCaller); ("memory_policy_id", PathId "memory_policy_id")] |} |}.
Definition create_memory_policy_version_route : route := {| r_name := "create_memory_policy_version"; r_method := POST; r_path := core [Lit "memory-policies"; Var "memory_policy_id" ""; Lit "versions"]; r_access := Bearer;
  r_guards := [NeedScope "memory_policy_versions:create"];
  r_action := Forward {| c_service := "GovernancePoliciesService"; c_op := "create_memory_policy_version"; c_args := [("tenant_id", TenantOfCaller); ("memory_policy_id", PathId "memory_policy_id"); ("payload", BodyAll)] |} |}.
Definition publish_memory_policy_version_route : route := {| r_name := "publish_memory_policy_version"; r_method := POST; r_path := core [Lit "memory-policies"; Lit "versions"; Var "memory_policy_version_id" ":publish"]; r_access := Bearer;
  r_guards := [NeedScope "memory_policy_versions:publish"];
  r_action := Forward {| c_service := "GovernancePoliciesService"; c_op := "publish_memory_policy_version"; c_args := [("tenant_id", TenantOfCaller); ("memory_policy_version_id", PathId "memory_policy_version_id")] |} |}.
Definition activate_memory_policy_version_route : route := {| r_name := "activate_memory_policy_version"; r_method := POST; r_path := core [Lit "memory-policies"; Lit "versions"; Var "memory_policy_version_id" ":activate"]; r_access := Bearer;
  r_guards := [NeedScope "memory_policy_versions:activate"];
  r_action := Forward {| c_service := "GovernancePoliciesService"; c_op := "activate_memory_policy_version"; c_args := [("tenant_id", TenantOfCaller); ("memory_policy_version_id", PathId "memory_policy_version_id"); ("principal_id", PrincipalOfCaller); ("change_request", BodyAll)] |} |}.
Definition create_rag_policy_route : route := {| r_name := "create_rag_policy"; r_method := POST; r_path := core [Lit "rag-policies"]; r_access := Bearer;
  r_guards := [NeedScope "rag_policies:create"];
  r_action := Forward {| c_service := "GovernancePoliciesService"; c_op := "create_rag_policy"; c_args := [("tenant_id", TenantOfCaller); ("payload", BodyAll)] |} |}.
Definition list_rag_policies_route : route := {| r_name := "list_rag_policies"; r_method := GET; r_path := core [Lit "rag-policies"]; r_access := Bearer;
  r_guards := [NeedScope "rag_policies:list"];
  r_action := Forward {| c_service := "GovernancePoliciesService"; c_op := "list_rag_policies"; c_args := [("tenant_id", TenantOfCaller)] |} |}.
Definition get_rag_policy_route : route := {| r_name := "get_rag_policy"; r_method := GET; r_path := core [Lit "rag-policies"; Var "rag_policy_id" ""]; r_access := Bearer;
  r_guards := [NeedScope "rag_policies:read"];
  r_action := Forward {| c_service := "GovernancePoliciesService"; c_op := "get_rag_policy"; c_args := [("tenant_id", TenantOfCaller); ("rag_policy_id", PathId "rag_policy_id")] |} |}.
Definition create_rag_policy_version_route : route := {| r_name := "create_rag_policy_version"; r_method := POST; r_path := core [Lit "rag-policies"; Var "rag_policy_id" ""; Lit "versions"]; r_access := Bearer;
  r_guards := [NeedScope "rag_policy_versions:create"];
  r_action := Forward {| c_service := "GovernancePoliciesService"; c_op := "create_rag_policy_version"; c_args := [("tenant_id", TenantOfCaller); ("rag_policy_id", PathId "rag_policy_id"); ("payload", BodyAll)] |} |}.
Definition publish_rag_policy_version_route : route := {| r_name := "publish_rag_policy_version"; r_method := POST; r_path := core [Lit "rag-policies"; Lit "versions"; Var "rag_policy_version_id" ":publish"]; r_access := Bearer;
  r_guards := [NeedScope "rag_policy_versions:publish"];
  r_action := Forward {| c_service := "GovernancePoliciesService"; c_op := "publish_rag_policy_version"; c_args := [("tenant_id", TenantOfCaller); ("rag_policy_version_id", PathId "rag_policy_version_id")] |} |}.
Definition activate_rag_policy_version_route : route := {| r_name := "activate_rag_policy_version"; r_method := POST; r_path := core [Lit "rag-policies"; Lit "versions"; Var "rag_policy_version_id" ":activate"]; r_access := Bearer;
  r_guards := [NeedScope "rag_policy_versions:activate"];
  r_action := Forward {| c_service := "GovernancePoliciesService"; c_op := "activate_rag_policy_version"; c_args := [("tenant_id", TenantOfCaller); ("rag_policy_version_id", PathId "rag_policy_version_id"); ("principal_id", PrincipalOfCaller); ("change_request", BodyAll)] |} |}.
Definition governance_policies_routes : list route := [create_runtime_policy_route; list_runtime_policies_route; get_runtime_policy_route; update_runtime_policy_route; activate_runtime_policy_route; create_access_policy_route; list_access_policies_route; get_access_policy_route; create_access_policy_version_route; publish_access_policy_version_route; create_rate_limit_policy_route; list_rate_limit_policies_route; get_rate_limit_policy_route; create_rate_limit_policy_version_route; publish_rate_limit_policy_version_route; create_billing_policy_route; list_billing_policies_route; get_billing_policy_route; create_billing_policy_version_route; publish_billing_policy_version_route; activate_billing_policy_version_route; create_memory_policy_route; list_memory_policies_route; get_memory_policy_route; create_memory_policy_version_route; publish_memory_policy_version_route; activate_memory_policy_version_route; create_rag_policy_route; list_rag_policies_route; get_rag_policy_route; create_rag_policy_version_route; publish_rag_policy_version_route; activate_rag_policy_version_route].

(** ** [LLMAdminController] *)

Definition upsert_provider_route : route := {| r_name := "upsert_provider"; r_method := POST; r_path := [Lit "admin"; Lit "llm"; Lit "provider"]; r_access := Admin;
  r_guards := [];
  r_action := Forward {| c_service := "LLMAdminService"; c_op := "upsert_provider_config"; c_args := [("tenant_id", BodyTenant); ("provider", BodyField "provider"); ("base_url", BodyField "base_url"); ("credential_secret_ref", BodyField "credential_secret_ref"); ("status", BodyField "status"); ("created_by", AdminPrincipal)] |} |}.
Definition upsert_model_mapping_route : route := {| r_name := "upsert_model_mapping"; r_method := POST; r_path := [Lit "admin"; Lit "llm"; Lit "model-mapping"]; r_access := Admin;
  r_guards := [];
  r_action := Forward {| c_service := "LLMAdminService"; c_op := "upsert_model_mapping"; c_args := [("tenant_id", BodyTenant); ("provider", BodyField "provider"); ("model_alias", BodyField "model_alias"); ("provider_model", BodyField "provider_model"); ("status", BodyField "status"); ("created_by", AdminPrincipal)] |} |}.
Definition upsert_pricing_route : route := {| r_name := "upsert_pricing"; r_method := POST; r_path := [Lit "admin"; Lit "llm"; Lit "pricing"]; r_access := Admin;
  r_guards := [];
  r_action := Forward {| c_service := "LLMAdminService"; c_op := "upsert_pricing"; c_args := [("provider", BodyField "provider"); ("provider_model", BodyField "provider_model"); ("unit", BodyField "unit"); ("input_cost_per_1k", BodyField "input_cost_per_1k"); ("output_cost_per_1k", BodyField "output_cost_per_1k"); ("currency", BodyField "currency"); ("status", BodyField "status"); ("created_by", AdminPrincipal)] |} |}.
Definition llm_admin_routes : list route := [upsert_provider_route; upsert_model_mapping_route; upsert_pricing_route].

(** ** All routes, in the order in which they are registered *)

Definition api_routes : list route :=
  tenants_routes ++ auth_routes ++ mcp_registry_routes ++ flows_routes ++ agents_routes ++ tools_routes ++ ai_routes ++ rag_routes ++ human_sla_routes ++ execution_plane_routes ++ agent_run_routes ++ a2a_routes ++ conversation_routes ++ conversation_read_routes ++ onboarding_routes ++ prompt_routes ++ user_prompts_routes ++ governance_policies_routes ++ llm_admin_routes.

(** ** Which route a request reaches *)

Definition segments_meet (g h : segment) : bool :=
  match g, h with
  | Lit a, Lit b => String.eqb a b
  | Lit a, Var _ s | Var _ s, Lit a => ends_with s a && (String.length s <? String.length a)
  | Var _ s, Var _ t => ends_with s t || ends_with t s
  end.
Fixpoint paths_meet (p p' : list segment) : bool :=
  match p, p' with
  | [], [] => true
  | g :: p, h :: p' => segments_meet g h && paths_meet p p'
  | _, _ => false
  end.
Lemma segments_meet_complete g h x a b : bind_segment g x = Some a -> bind_segment h x = Some b -> segments_meet g h = true.
Proof.
  unfold bind_segment, segments_meet. destruct g as [t|n s], h as [t'|n' s']; repeat case_match; try done; intros _ _.
  - apply String.eqb_eq in H, H0. subst. by apply String.eqb_eq.
  - by apply String.eqb_eq in H as ->.
  - by apply String.eqb_eq in H0 as ->.
  - apply andb_prop in H as [H _], H0 as [H0 _]. unfold ends_with in *. apply bool_decide_eq_true in H, H0. apply orb_true_intro. rewrite !bool_decide_eq_true.
    by eapply suffix_weak_total.
Qed.
Lemma paths_meet_complete p p' x a b : bind_path p x = Some a -> bind_path p' x = Some b -> paths_meet p p' = true.
Proof.
  revert p' x a b. induction p as [|g p IH]; intros [|h p'] [|y x] a b; simpl; try done.
  intros (u & Hu & (v & Hv & _)%bind_Some)%bind_Some (u' & Hu' & (v' & Hv' & _)%bind_Some)%bind_Some. apply andb_true_intro. split; [by eapply segments_meet_complete | by eapply IH].
Qed.
Definition routes_meet (r r' : route) : bool := bool_decide (r_method r = r_method r') && paths_meet (r_path r) (r_path r').
Lemma routes_meet_complete r r' q a b : params_for r q = Some a -> params_for r' q = Some b -> routes_meet r r' = true.
Proof.
  unfold params_for, routes_meet. do 2 case_bool_decide; try done. intros Ha Hb. rewrite bool_decide_eq_true_2 by congruence. by eapply paths_meet_complete.
Qed.

(** Pairs of routes that a request may fit, the earlier one first. *)
Fixpoint meeting (l : list route) : list (string * string) :=
  match l with
  | [] => []
  | r :: l => ((fun r' => (r_name r, r_name r')) <$> filter (fun r' => routes_meet r r' = true) l) ++ meeting l
  end.
Lemma only_meeting : meeting api_routes = [("list_system_node_templates", "get_flow")].
Proof. vm_compute. reflexivity. Qed.
Lemma names_once : NoDup (r_name <$> api_routes).
Proof. refine (bool_decide_unpack (NoDup (r_name <$> api_routes)) _). vm_compute. exact I. Qed.
Lemma elem_meeting l1 r l2 r' : r' ∈ l2 -> routes_meet r r' = true -> (r_name r, r_name r') ∈ meeting (l1 ++ r :: l2).
Proof.
  intros Hr Hm. induction l1 as [|r1 l1 IH]; simpl; apply elem_of_app; [left|by right]. apply list_elem_of_fmap. exists r'. split; [done|]. by apply list_elem_of_filter.
Qed.
Lemma first_route_split l q r b : first_route l q = Some (r, b) ->
  params_for r q = Some b /\ exists l1 l2, l = l1 ++ r :: l2 /\ forall x, x ∈ l1 -> params_for x q = None.
Proof.
  induction l as [|r0 l IH]; [done|]. simpl. destruct (params_for r0 q) as [b0|] eqn:E.
  - intros [= -> ->]. split; [done|]. exists [], l. split; [done|]. by intros x ?%not_elem_of_nil.
  - intros (Hb & l1 & l2 & -> & Hn)%IH. split; [done|]. exists (r0 :: l1), l2. split; [done|]. intros x [->|Hx]%elem_of_cons; auto.
Qed.
Lemma first_route_exists l q r b : r ∈ l -> params_for r q = Some b -> is_Some (first_route l q).
Proof. intros Hr Hb. induction l as [|r0 l IH]; [by apply not_elem_of_nil in Hr|]. simpl. destruct (params_for r0 q) eqn:E; [eauto|]. apply elem_of_cons in Hr as [<-|Hr]; [congruence | by apply IH]. Qed.
Lemma same_name r r' : r ∈ api_routes -> r' ∈ api_routes -> r_name r = r_name r' -> r = r'.
Proof.
  intros [i Hi]%list_elem_of_lookup [j Hj]%list_elem_of_lookup Hn. assert (i = j) as ->; [|congruence].
  apply (NoDup_lookup _ i j (r_name r) names_once); rewrite list_lookup_fmap; [by rewrite Hi | by rewrite Hj, Hn].
Qed.
Lemma flows_in_table r : r ∈ flows_routes -> r ∈ api_routes.
Proof. intros H. unfold api_routes. rewrite !elem_of_app. tauto. Qed.
Lemma templates_in_table : list_system_node_templates_route ∈ api_routes.
Proof. apply flows_in_table. unfold flows_routes. repeat constructor. Qed.
Lemma get_flow_in_table : get_flow_route ∈ api_routes.
Proof. apply flows_in_table. unfold flows_routes. repeat constructor. Qed.
Lemma meeting_pair l1 r l2 r' q b b' : api_routes = l1 ++ r :: l2 -> r' ∈ l2 -> params_for r q = Some b -> params_for r' q = Some b' ->
  r = list_system_node_templates_route /\ r' = get_flow_route.
Proof.
  intros Hl Hr Hb Hb'. pose proof (elem_meeting l1 r l2 r' Hr (routes_meet_complete _ _ _ _ _ Hb Hb')) as Hin. rewrite <- Hl, only_meeting in Hin.
  apply list_elem_of_singleton in Hin. injection Hin as H1 H2.
  assert (r ∈ api_routes /\ r' ∈ api_routes) as [Hin Hin'] by (rewrite Hl; split; apply elem_of_app; right; by constructor).
  split; apply same_name; auto using templates_in_table, get_flow_in_table.
Qed.

(** [C34] The route a request reaches is the one it fits, whatever the order of registration: the only request that fits two is the one for the
    templates of the system, which a variable for the identifier of a flow fits as well, and which reaches the templates. *)
Theorem dispatch_exact q r b :
  first_route api_routes q = Some (r, b) <->
  r ∈ api_routes /\ params_for r q = Some b /\ (r = get_flow_route -> params_for list_system_node_templates_route q = None).
Proof.
  split.
  - intros (Hb & l1 & l2 & Hl & Hn)%first_route_split. split_and!; [rewrite Hl; apply elem_of_app; right; constructor | done|]. intros ->.
    destruct (params_for list_system_node_templates_route q) as [b'|] eqn:E; [|done]. pose proof templates_in_table as Ht. rewrite Hl in Ht.
    apply elem_of_app in Ht as [Ht|Ht]; [by rewrite (Hn _ Ht) in E|]. apply elem_of_cons in Ht as [Ht|Ht]; [done|]. by destruct (meeting_pair l1 _ l2 _ q _ _ Hl Ht Hb E).
  - intros (Hr & Hb & Ht). destruct (first_route_exists _ _ _ _ Hr Hb) as [[r0 b0] H0]. rewrite H0. apply first_route_split in H0 as (Hb0 & l1 & l2 & Hl & Hn).
    pose proof Hr as Hr'. rewrite Hl in Hr'. apply elem_of_app in Hr' as [Hr'|Hr']; [by rewrite (Hn _ Hr') in Hb|].
    apply elem_of_cons in Hr' as [->|Hr']; [congruence|]. destruct (meeting_pair l1 r0 l2 r q _ _ Hl Hr' Hb0 Hb) as [-> ->]. by rewrite (Ht eq_refl) in Hb0.
Qed.

(** ** For whom a service is asked *)

Definition call_of (x : action) : option call := match x with Forward c | Background c => Some c | Unavailable => None end.
#[global] Instance guard_eq_dec : EqDecision guard.
Proof. solve_decision. Defined.
Definition guarded_by (g : guard) (r : route) : bool := bool_decide (g ∈ r_guards r).
(** The tenant is the caller's, or the caller is the administrator, or may create tenants and was compared with it. *)
Definition tenant_checked (r : route) (x : source) : bool :=
  match x with
  | TenantOfCaller => true
  | BodyTenant => bool_decide (r_access r = Admin) || guarded_by (NeedScope "tenants:create") r && guarded_by OwnTenant r
  | NamedTenant => bool_decide (r_access r = Admin) || guarded_by (NeedScope "tenants:create") r && guarded_by OwnTenantIfNamed r
  | _ => false
  end.
Definition tenants_checked (r : route) : bool :=
  match call_of (r_action r) with
  | Some c => forallb (fun x => negb (String.eqb x.1 "tenant_id") || tenant_checked r x.2) (c_args c)
  | None => true
  end.
Lemma all_tenants_checked : forallb tenants_checked api_routes = true.
Proof. vm_compute. reflexivity. Qed.

Definition passes_on (x : source) (r : route) : bool :=
  match call_of (r_action r) with Some c => existsb (fun a => bool_decide (a.2 = x)) (c_args c) | None => false end.
(** Routes whose operation is told neither the caller nor the tenant of the caller. *)
Definition tenantless_names : list string :=
  ["create"; "create_admin_api_key"; "list_models"; "create_model"; "create_node_ai_execution_policy_binding"; "list_node_ai_execution_policy_bindings";
   "delete_node_ai_execution_policy_binding"; "list_chunks"; "get_prompt"; "upsert_provider"; "upsert_model_mapping"; "upsert_pricing"].
Definition tells_tenant (r : route) : bool :=
  match call_of (r_action r) with
  | Some c => existsb (fun a => bool_decide (a = ("tenant_id", TenantOfCaller) \/ a.2 = CallerItself)) (c_args c) || bool_decide (r_name r ∈ tenantless_names)
  | None => true
  end.
Lemma all_tell_tenant : forallb tells_tenant api_routes = true.
Proof. vm_compute. reflexivity. Qed.

Section calls.
Context {W : Type}.
Variable uuid_parse : string -> option uuid.
Variable int_of_string : string -> option Z.
Variable wired : string -> bool.
Variable admin_principal : string.
Variable base_url : http_request -> string.
Variable new_trace : uuid.
Variable identify : access -> http_request -> W -> res exc (option AuthContext).
Variable admissible : route -> http_request -> res exc unit.
Variable invoke : string -> string -> list (string * argument) -> W -> res exc pyval * W.
Abbreviation serve_ := (serve_http uuid_parse int_of_string wired admin_principal base_url new_trace identify admissible invoke).
Abbreviation args_ := (arguments_of uuid_parse admin_principal base_url new_trace).
Abbreviation guards_ := (check_guards uuid_parse int_of_string wired).
Abbreviation guard_ := (check_guard uuid_parse int_of_string wired).

Lemma guards_all a b q l g : guards_ a b q l = Ok tt -> g ∈ l -> guard_ a b q g = Ok tt.
Proof.
  induction l as [|h l IH]; [by intros _ ?%not_elem_of_nil|]. simpl. destruct (guard_ a b q h) as [[]|e] eqn:E; [|done]. simpl.
  intros Hl [->|Hg]%elem_of_cons; [done | by apply IH].
Qed.
Lemma scope_held a b q x : guard_ a b q (NeedScope x) = Ok tt -> x ∈ default [] (au_scopes <$> a).
Proof. simpl. unfold refuse_unless. destruct (existsb _ _) eqn:E; [|done]. intros _. apply existsb_exists in E as (y & Hy & ->%String.eqb_eq). by apply list_elem_of_In. Qed.
Lemma guarded_passes a b q r g : guards_ a b q (r_guards r) = Ok tt -> guarded_by g r = true -> guard_ a b q g = Ok tt.
Proof. intros Hg Hin%bool_decide_eq_true. by eapply guards_all. Qed.

(** What a request does: nothing, or the one call of the route it fits, after authentication and all guards. *)
Lemma served_calls l q s x s' : serve_ l q s = (x, s') ->
  s' = s \/ exists r b a c, first_route l q = Some (r, b) /\ identify (r_access r) q s = Ok a /\ guards_ a b q (r_guards r) = Ok tt /\
    call_of (r_action r) = Some c /\ s' = (invoke (c_service c) (c_op c) (args_ a b q c) s).2.
Proof.
  unfold serve_http, handle. destruct (first_route l q) as [[r b]|]; [|intros [= <- <-]; by left]. destruct (identify (r_access r) q s) as [a|e] eqn:Ei; simpl; [|intros [= <- <-]; by left].
  destruct (admissible r q) as [[]|e]; simpl; [|intros [= <- <-]; by left]. destruct (guards_ a b q (r_guards r)) as [[]|e] eqn:Eg; simpl; [|intros [= <- <-]; by left].
  destruct (r_action r) as [c|c|] eqn:Ea; simpl.
  - intros H. right. exists r, b, a, c. rewrite Ea, H. by repeat split.
  - intros [= <- <-]. right. exists r, b, a, c. rewrite Ea. by repeat split.
  - intros [= <- <-]. by left.
Qed.

Lemma tenant_argument r a b q c v :
  r ∈ api_routes -> call_of (r_action r) = Some c -> guards_ a b q (r_guards r) = Ok tt -> ("tenant_id", v) ∈ args_ a b q c ->
  v = ATenant (caller_tenant a) \/ r_access r = Admin \/ (caller_tenant a = None /\ "tenants:create" ∈ default [] (au_scopes <$> a)).
Proof.
  intros Hr Hc Hg Hv. pose proof all_tenants_checked as Hall. rewrite forallb_forall in Hall. specialize (Hall r (proj1 (list_elem_of_In _ _) Hr)).
  unfold tenants_checked in Hall. rewrite Hc, forallb_forall in Hall. unfold arguments_of in Hv. apply list_elem_of_fmap in Hv as ([k x] & [= <- ->] & Hx).
  specialize (Hall _ (proj1 (list_elem_of_In _ _) Hx)). simpl in Hall. unfold tenant_checked in Hall. destruct x; try done; [by left| |].
  - apply orb_prop in Hall as [Hall%bool_decide_eq_true|[H1 H2]%andb_prop]; [by right; left|].
    pose proof (scope_held _ _ _ _ (guarded_passes _ _ _ _ _ Hg H1)) as Hs. pose proof (guarded_passes _ _ _ _ _ Hg H2) as Ho. simpl in *. unfold refuse_unless in Ho.
    destruct (caller_tenant a) as [t|]; [|by right; right]. case_bool_decide as Hb; [|done]. left. by rewrite Hb.
  - apply orb_prop in Hall as [Hall%bool_decide_eq_true|[H1 H2]%andb_prop]; [by right; left|].
    pose proof (scope_held _ _ _ _ (guarded_passes _ _ _ _ _ Hg H1)) as Hs. pose proof (guarded_passes _ _ _ _ _ Hg H2) as Ho. simpl in *. unfold refuse_unless in Ho.
    destruct (caller_tenant a) as [t|], (body_uuid uuid_parse "tenant_id" q) as [n|]; try case_bool_decide; simplify_eq; auto.
Qed.

Lemma caller_told r a b q c :
  r ∈ api_routes -> call_of (r_action r) = Some c ->
  ("tenant_id", ATenant (caller_tenant a)) ∈ args_ a b q c \/ (exists k, (k, ACaller a) ∈ args_ a b q c) \/ r_name r ∈ tenantless_names.
Proof.
  intros Hr Hc. pose proof all_tell_tenant as Hall. rewrite forallb_forall in Hall. specialize (Hall r (proj1 (list_elem_of_In _ _) Hr)).
  unfold tells_tenant in Hall. rewrite Hc in Hall. apply orb_prop in Hall as [([k x] & Hx & Hb)%existsb_exists|Hn%bool_decide_eq_true]; [|by auto].
  apply list_elem_of_In in Hx. apply bool_decide_eq_true in Hb. simpl in Hb. unfold arguments_of.
  destruct Hb as [[= -> ->]| ->]; [left | right; left; exists k]; apply list_elem_of_fmap; eexists; (split; [|exact Hx]); done.
Qed.

(** [C13] For whom a service is asked.  Whatever the services do, a request to a route of the table changes something only through the one
    operation of the route it fits, after its guards.  The operation gets the tenant of the caller as [tenant_id] or the caller itself,
    unless it is one of the twelve of [tenantless_names]; and no other tenant is ever passed as [tenant_id], unless by the administrator,
    or by a caller of no tenant who may create tenants. *)
Theorem calls_for_callers q s x s' :
  serve_ api_routes q s = (x, s') ->
  s' = s \/ exists r b a c,
    first_route api_routes q = Some (r, b) /\ identify (r_access r) q s = Ok a /\ guards_ a b q (r_guards r) = Ok tt /\ call_of (r_action r) = Some c /\
    s' = (invoke (c_service c) (c_op c) (args_ a b q c) s).2 /\
    (("tenant_id", ATenant (caller_tenant a)) ∈ args_ a b q c \/ (exists k, (k, ACaller a) ∈ args_ a b q c) \/ r_name r ∈ tenantless_names) /\
    forall v, ("tenant_id", v) ∈ args_ a b q c ->
      v = ATenant (caller_tenant a) \/ r_access r = Admin \/ (caller_tenant a = None /\ "tenants:create" ∈ default [] (au_scopes <$> a)).
Proof.
  intros [->|(r & b & a & c & Hf & Hi & Hg & Hc & ->)]%served_calls; [by left|]. right. exists r, b, a, c.
  assert (Hr : r ∈ api_routes) by (apply first_route_split in Hf as (_ & l1 & l2 & -> & _); apply elem_of_app; right; constructor).
  split_and!; try done; [by apply caller_told|]. intros v. by apply tenant_argument.
Qed.
End calls.

(** ** What no scope protects *)

Definition scoped (r : route) : bool := existsb (fun g => match g with NeedScope _ => true | _ => false end) (r_guards r).
(** Routes for any authenticated caller, whose operation does not get the caller to decide itself. *)
Definition unprotected (r : route) : bool :=
  negb (bool_decide (r_method r = GET)) && bool_decide (r_access r = Bearer) && negb (scoped r) && negb (passes_on CallerItself r) &&
  negb (bool_decide (call_of (r_action r) = None)).
Example unprotected_writes : r_name <$> filter (fun r => unprotected r = true) api_routes =
  ["create_flow"; "create_flow_version"; "validate_flow_version"; "publish_flow_version"; "activate_flow_version"; "rollback_flow_version"; "create_flow_graph";
   "upsert_flow_graph_draft"; "validate_flow_graph_draft"; "compile_flow_graph"; "create_node"; "copy_node_from_template"; "create_custom_node"; "compose_deployment";
   "validate_compose_deployment"; "batch_upsert_artifacts"; "create_router"; "create_routing_rule"; "create_condition_expression"; "create_agent";
   "create_agent_version"; "validate_agent_version"; "publish_agent_version"; "activate_agent_version"; "rollback_agent_version"; "create_node_agent_binding";
   "import_tool"; "create_tool_config"; "publish_tool_config"; "deprecate_tool_config"; "disable_tool_config"; "create_agent_version_tool_binding";
   "create_ai_execution_policy"; "create_ai_execution_policy_version"; "validate_ai_execution_policy_version"; "publish_ai_execution_policy_version";
   "deprecate_ai_execution_policy_version"; "disable_ai_execution_policy_version"; "create_rag_config"; "publish_rag_config"; "deprecate_rag_config";
   "disable_rag_config"; "ingest_document"; "assign_case"; "resolve_case"; "create_onboarding"; "create_onboarding_run"; "advance_step";
   "create_or_update_prompt"; "delete_prompt"; "create_user_prompt"; "delete_user_prompt"].
Proof. vm_compute. reflexivity. Qed.
(** The list of tenantless operations is exact, and names tell routes apart. *)
Example tenantless : r_name <$> filter (fun r => negb (passes_on CallerItself r || passes_on TenantOfCaller r) && negb (bool_decide (call_of (r_action r) = None)) = true) api_routes =
  tenantless_names /\ NoDup (r_name <$> api_routes).
Proof. split; [vm_compute; reflexivity | apply (bool_decide_unpack _); vm_compute; exact I]. Qed.

(** ** The administration of retrieval behind its routes *)

Section retrieval.
Variable uuid_parse : string -> option uuid.
Variable int_of_string : string -> option Z.
Variable wired : string -> bool.
Variable admin_principal : string.
Variable base_url : http_request -> string.
Variable new_trace : uuid.
Variable identify : access -> http_request -> rag_tables -> res exc (option AuthContext).
Variable admissible : route -> http_request -> res exc unit.
Variable parse_options : pydict -> res exc pydict.
Variable parse_rule : pydict -> res exc unit.
(** [pydantic] on bodies. *)
Variable config_create_of : pyval -> RagConfigCreate.
Variable store_of : uuid -> pyval -> store_row.
Variable rule_of : pyval -> string * string * string * option pydict.
Variable rule_update_of : pyval -> RagChunkingRuleUpdate.
Variable change_of : pyval -> ChangeRequest.

Definition text_arg (n : string) (l : list (string * argument)) : string := match assoc n l with Some (AText (Some x)) => x | _ => "" end.
Definition value_arg (n : string) (l : list (string * argument)) : pyval := match assoc n l with Some (AValue v) => v | _ => PNone end.
Definition tenant_arg (l : list (string * argument)) : option uuid := match assoc "tenant_id" l with Some (ATenant t) => t | _ => None end.
(** An operation of [RagService] that changes something. *)
Definition rag_step (op : string) (t : uuid) (l : list (string * argument)) : option rag_admin_step :=
  let id := text_arg "rag_config_id" l in
  let p := text_arg "principal_id" l in
  let c := change_of (value_arg "change_request" l) in
  match op with
  | "create_vector_store" => Some (CreateStore (store_of t (value_arg "vector_store_create" l)))
  | "create_rag_config" => Some (CreateConfig t (config_create_of (value_arg "rag_config_create" l)) p)
  | "validate_rag_config" => Some (ValidateConfig t id p)
  | "publish_rag_config" => Some (PublishConfig t id p c)
  | "deprecate_rag_config" => Some (DeprecateConfig t id p c)
  | "disable_rag_config" => Some (DisableConfig t id p c)
  | "create_chunking_rule" => let '(n, st, y, d) := rule_of (value_arg "payload" l) in Some (CreateRule t n st y d p)
  | "update_chunking_rule" => Some (UpdateRule t (text_arg "rag_chunking_rule_id" l) (rule_update_of (value_arg "payload" l)) p c)
  | _ => None
  end.
(** For no tenant nothing is found and nothing can be stored; with which error is left open. *)
Definition rag_service (service op : string) (l : list (string * argument)) : M rag_tables pyval :=
  if String.eqb service "RagService" then
    match tenant_arg l with
    | Some t => match rag_step op t l with
                | Some x => administer uuid_parse parse_options parse_rule x ;;* mret PNone
                | None => mret PNone
                end
    | None => mraise (NotFoundServiceException op)
    end
  else mret PNone.
Abbreviation serve_ := (serve_http uuid_parse int_of_string wired admin_principal base_url new_trace identify admissible rag_service).
Definition serve_all (l : list http_request) (s : rag_tables) : rag_tables := foldl (fun s q => (serve_ api_routes q s).2) s l.
(** Tenants on whose behalf one of the requests was made. *)
Definition asked (l : list http_request) (t : uuid) : Prop := exists q k s a, q ∈ l /\ identify k q s = Ok (Some a) /\ au_tenant a = Some t.

(** Every route of the service passes on the tenant of its caller. *)
Lemma rag_routes_own r c : r ∈ api_routes -> call_of (r_action r) = Some c -> c_service c = "RagService" -> assoc "tenant_id" (c_args c) = Some TenantOfCaller.
Proof.
  intros Hr Hc Hs. assert (Hall : forallb (fun r => match call_of (r_action r) with
    | Some c => negb (String.eqb (c_service c) "RagService") || bool_decide (assoc "tenant_id" (c_args c) = Some TenantOfCaller) | None => true end) api_routes = true) by (vm_compute; reflexivity).
  rewrite forallb_forall in Hall. specialize (Hall r (proj1 (list_elem_of_In _ _) Hr)). rewrite Hc, Hs in Hall. simpl in Hall. by apply bool_decide_eq_true in Hall.
Qed.
Lemma assoc_arguments a b q c n : assoc n (arguments_of uuid_parse admin_principal base_url new_trace a b q c) = argument_of uuid_parse admin_principal base_url new_trace a b q <$> assoc n (c_args c).
Proof. unfold arguments_of. induction (c_args c) as [|[k x] l IH]; [done|]. simpl. by destruct (String.eqb k n). Qed.
Lemma rag_step_caller op t l x u : rag_step op t l = Some x -> rag_caller x = Some u -> u = t.
Proof. unfold rag_step. intros H Hu. repeat case_match; simplify_eq; simpl in Hu; congruence. Qed.
Lemma served_confined may q s : (forall k a t, identify k q s = Ok (Some a) -> au_tenant a = Some t -> may t) -> keeps rag_tidy (rag_grows may) s (serve_ api_routes q s).2.
Proof.
  intros Hm. destruct (serve_ api_routes q s) as [y s'] eqn:E. simpl. apply served_calls in E as [->|(r & b & a & c & Hf & Hi & _ & Hc & ->)]; [apply tidily_refl|].
  unfold rag_service. destruct (String.eqb_spec (c_service c) "RagService") as [Hs|]; [|apply tidily_refl].
  assert (Hr : r ∈ api_routes) by (apply first_route_split in Hf as (_ & l1 & l2 & -> & _); apply elem_of_app; right; constructor).
  unfold tenant_arg. rewrite assoc_arguments, (rag_routes_own r c Hr Hc Hs). simpl. destruct (caller_tenant a) as [t|] eqn:Ht; [|apply tidily_refl].
  destruct (rag_step _ t _) as [x|] eqn:Ex; [|apply tidily_refl]. unfold mbind_. pose proof (tidily_administer uuid_parse parse_options parse_rule may x) as H.
  assert (Hx : forall u, rag_caller x = Some u -> may u).
  { intros u Hu. rewrite (rag_step_caller _ _ _ _ _ Ex Hu). destruct a as [a|]; [|done]. by eapply Hm. }
  specialize (H Hx s). by destruct (administer uuid_parse parse_options parse_rule x s) as [[]].
Qed.

(** [C20] Through the interface, whatever is requested in whatever order, the tables of retrieval stay sound, and configurations and rules of a
    tenant change only when a caller who was authenticated for that tenant asks. *)
Theorem retrieval_api_confined l s : rag_tidy s -> rag_tidy (serve_all l s) /\ rag_grows (asked l) s (serve_all l s).
Proof.
  assert (H : forall l0, l0 ⊆ l -> forall s, keeps rag_tidy (rag_grows (asked l)) s (serve_all l0 s)).
  { induction l0 as [|q l0 IH]; intros Hl s0; [apply tidily_refl|]. simpl. etrans; [|apply IH; set_solver]. apply served_confined.
    intros k a t Hi Ht. exists q, k, s0, a. split_and!; [apply Hl; left | done | done]. }
  intros Ho. by apply H.
Qed.
End retrieval.

(** ** A concrete interface *)

Module counter.
Import shelves.
(** Whoever comes is of tenant 7 and holds no scope. *)
Definition plain : AuthContext := {| au_tenant := Some 7%N; au_principal_type := "user"; au_principal_id := "ann"; au_scopes := []; au_token_issuer := "core"; au_token_audience := "core"; au_expires_at := 9 |}.
Definition known {W} (k : access) (_ : http_request) (_ : W) : res exc (option AuthContext) := match k with Admin => Err (AuthenticationFailedException "admin") | _ => Ok (Some plain) end.
Definition any_request (_ : route) (_ : http_request) : res exc unit := Ok tt.
Definition no_int (_ : string) : option Z := None.
Definition all_wired (_ : string) : bool := true.
Definition here (_ : http_request) : string := "https://core".
Definition why_of (_ : pyval) : ChangeRequest := why.
Definition q_of (_ : pyval) : RagConfigCreate := q.
Definition faq_of (t : uuid) (_ : pyval) : store_row := faq.
Definition pages_of (_ : pyval) : string * string * string * option pydict := ("pages", "ACTIVE", "PER_PAGE", None).
Definition no_update (_ : pyval) : RagChunkingRuleUpdate := {| ru_name := None; ru_status := None; ru_strategy := None; ru_params := None |}.
Definition asks (m : method) (p : list string) : http_request := {| hq_method := m; hq_path := "core" :: "v1" :: p; hq_query := []; hq_headers := []; hq_body := PDict [] |}.
Definition publish : http_request := asks POST ["rag-configs"; "config:publish"].
Abbreviation service_ := (rag_service read_id options rule q_of faq_of pages_of no_update why_of).
Abbreviation served_ := (serve_all read_id no_int all_wired "admin" here 9%N known any_request options rule q_of faq_of pages_of no_update why_of).
Example publish_dispatch : (fun x => (r_name x.1, x.2)) <$> first_route api_routes publish = Some ("publish_rag_config", [("rag_config_id", "config")]).
Proof. vm_compute. reflexivity. Qed.
(** A configuration is published by a caller without a scope, although there is one for it. *)
Example published_without_scope : cw_status <$> rt_configs (served_ [publish] stocked) !! 3%N = Some VS_PUBLISHED.
Proof. vm_compute. reflexivity. Qed.
(** Validation, which has a guard, is refused. *)
Example validation_needs_scope :
  (serve_http read_id no_int all_wired "admin" here 9%N known any_request service_ api_routes (asks POST ["rag-configs"; "config:validate"]) stocked).1 =
    Err (AuthorizationDeniedException "insufficient_scope").
Proof. vm_compute. reflexivity. Qed.
Lemma calls_for_callers_witness :
  let s := (serve_http read_id no_int all_wired "admin" here 9%N known any_request service_ api_routes publish stocked).2 in
  s = stocked \/ exists r b a c,
    first_route api_routes publish = Some (r, b) /\ known (r_access r) publish stocked = Ok a /\ check_guards read_id no_int all_wired a b publish (r_guards r) = Ok tt /\
    call_of (r_action r) = Some c /\ s = (service_ (c_service c) (c_op c) (arguments_of read_id "admin" here 9%N a b publish c) stocked).2 /\
    (("tenant_id", ATenant (caller_tenant a)) ∈ arguments_of read_id "admin" here 9%N a b publish c \/
     (exists k, (k, ACaller a) ∈ arguments_of read_id "admin" here 9%N a b publish c) \/ r_name r ∈ tenantless_names) /\
    forall v, ("tenant_id", v) ∈ arguments_of read_id "admin" here 9%N a b publish c ->
      v = ATenant (caller_tenant a) \/ r_access r = Admin \/ (caller_tenant a = None /\ "tenants:create" ∈ default [] (au_scopes <$> a)).
Proof. intros s. eapply (calls_for_callers read_id no_int all_wired "admin" here 9%N known any_request service_ publish stocked). apply surjective_pairing. Defined.
Lemma retrieval_api_confined_witness : rag_tidy (served_ [publish] stocked) /\ rag_grows (asked known [publish]) stocked (served_ [publish] stocked).
Proof. apply (retrieval_api_confined read_id no_int all_wired "admin" here 9%N known any_request options rule q_of faq_of pages_of no_update why_of [publish] stocked). apply stocked_tidy. Defined.
End counter.
